(* ===== verification/_CoqProject ===== *)
-Q . S2P
Prelude.v
Python.v
Model.v
Effects.v
Ops.v
Sample.v
Web.v
TeamsLink.v
Importing.v
Campus.v
ImportOfferings.v
Resolvers.v
OnlineDuty.v
Suspensions.v
Availability.v
Merge.v
Jobs.v
GuardAlerts.v
Push.v
Scan.v
Checker.v
Materialization.v
ScheduleOps.v
Console.v
TermLifecycle.v
Modality.v
Faculty.v
Dean.v
Reporting.v
Utilization.v
Breakdown.v
Boards.v
Exports.v
ReportScope.v
WeeklyReports.v
ReportPages.v
HrReports.v
TermPages.v
Operations.v
Commands.v
Xlsx.v
RoomMaster.v
Photos.v
Accounts.v
ConsolePages.v
Frame.v
Worlds.v
Staging.v
System.v
