(* ===== verification/Prelude.v ===== *)
(** * FluxTrack: a verification library

    FluxTrack keeps the attendance record of a university: weekly classes become
    dated sessions, faculty scan room codes to check in and out, checkers verify
    what they see, a sweep marks no-shows, and offices edit the calendar around
    them (suspensions, modality shifts, schedule edits, term changes).  It is a
    Django program; this library models its domain services and proves them
    correct with respect to specifications stated over the database.

    ** The model

    A service is a computation [M A] of Effects.v, from a database to a result or
    an exception and a database.  The database (Model.v) is a record of tables, a
    table a list of rows in primary-key order, a row a record with the columns the
    modelled code reads or writes.  [objects], [get_pk], [save], [update_rows],
    [create] (Ops.v) are the calls of the Django ORM: [save] writes the named
    columns of one row, [update_rows] is a filtered [update()], [create] gives the
    next free key.  A write made before an exception persists, except inside
    [atomic], which is [transaction.atomic()].  Python's [dict] is an association
    list in insertion order, [sorted] and [order_by] the stable [sort_by], a
    queryset without an order is read in primary-key order.

    Conventions.  Every reading of the clock is an argument, so one call sees one
    [now]; dates are days since 1970, instants microseconds since the epoch, and
    Asia/Manila a fixed offset (Python.v).  Strings are ASCII.  Integers are
    unbounded, as in Python.  Code outside the repository (token signing, the text
    of an exception, the parsing of a datetime, the collation [ci] of the text columns,
    the library's steps of a sign-in) is a parameter of the section that uses it, with
    what is documented of it as a hypothesis where a theorem needs it.  The body of a JSON
    request is a value of [json] (Model.v), of any shape the client may send.  Uniqueness of
    keys and one-session-per-occurrence are constraints of the database: theorems
    that need them say so, and those that change rows show they are kept.
    Requests run one at a time: [select_for_update] has no effect in the model, and
    a row is never changed by another request in the middle of one.  A view carries the
    guard of its decorator: [gated] (Ops.v) raises [PermissionDenied], [role_required]
    (Web.v) answers [Forbidden].  A page is the value it is rendered from; a response is a page, a redirection or a refusal
    (Web.v).  A list is given whole, where the code shows it through the pager of
    Operations.v, and in key order where the code sorts it by a creation time no table of
    the model has.

    ** The files

    - Prelude.v: record update, boolean reflection ([b2p]), lists as query results
      ([select]), stable sorting, ordered dictionaries, sums, [overlaps].
    - Python.v: string methods, URL queries, dates, times and instants.
    - Model.v: the tables (the models.py files) and their lemmas.
    - Effects.v: the state and exception monad, its weakest preconditions [wp] and
      symbolic execution, loops, relations preserved by a computation ([respects]).
    - Ops.v: the ORM calls, ops/policy.py, ops/notify.py, the audit log,
      scheduling/term_scope.py, ops/occupancy.py, the shared cache, and [logs_only],
      the relation of databases that differ by their logs.
    - Sample.v: a small campus on which the witnesses evaluate the operations.
    - Web.v: responses, role guards, [get_object_or_404] and the ladders of form checks.
    - TeamsLink.v: the meeting links of web/faculty.py, with urlparse.
    - Importing.v: scheduling/importing.py, the texts of a course sheet.
    - Campus.v: campus/codes.py, campus/services.py and the requests of web/ifo.py on
      rooms, floors and buildings.
    - ImportOfferings.v: the command import_offerings, from its rows to its report.
    - Resolvers.v: the two pure decision cores, scheduling/resolver.py
      ([FacultyScan]) and verification/resolver.py ([CheckerScan]), against
      declarative specifications.
    - OnlineDuty.v: verification/services.py, the checkers of a date's online sessions.
    - Suspensions.v: scheduling/suspensions.py, the excusal of dates, declaring and
      lifting a suspension.
    - Availability.v: ops/availability.py, against a declarative notion of an
      occupied room; it ends with [RoomAvailability], the interface the edition of
      schedules and the approval of shifts are proved against, and its instance.
    - Merge.v: scheduling/merge.py, merged classes and their fills.
    - Jobs.v: scheduling/jobs.py (no-show sweep, conflict detection), ops/jobrun.py.
    - GuardAlerts.v: ops/guard_alerts.py, the sweep job, ops/notifications.py.
    - Push.v: web/notifications.py, web/push.py and ops/push.py: mutes, subscriptions and
      the outbox.
    - Scan.v: web/scan.py, the requests of a faculty member's scan.
    - Checker.v: web/checker.py, a checker's scan, actions and offline queue.
    - Materialization.v: scheduling/materialization.py.
    - ScheduleOps.v: scheduling/schedule_ops.py.
    - Console.v: the facilities console of web/ifo.py: bookings, postings, closures,
      corrections and classes.
    - TermLifecycle.v: scheduling/term_lifecycle.py, as operations and as a step
      relation with its invariant.
    - Modality.v: scheduling/services.py, modality-shift requests.
    - Faculty.v: web/faculty.py, the pages of a faculty member.
    - Dean.v: web/dean.py, the decisions of a dean.
    - Reporting.v, Utilization.v, Breakdown.v: scheduling/reporting.py, the attendance
      figures, the campus card with its heat grid, and the breakdown by room.
    - Boards.v: web/room_state.py, the room board and conflicts of web/ifo.py,
      web/guard.py, and the floor board of web/checker.py.
    - Exports.v: scheduling/report_render.py, the documents, with a reader of csv.
    - ReportScope.v: web/reporting_common.py, the term and the dates of a report.
    - WeeklyReports.v: ops/reports.py, the weekly reports stored and announced, with their
      command and their job; the state is the database, the departments, the reports and
      the stored files.
    - ReportPages.v: the report pages, exports and downloads of web/dean.py and web/ifo.py,
      and the heat ramp.
    - HrReports.v: web/hr.py, the payroll list and its export.
    - TermPages.v: web/ifo_terms.py, the pages of the academic terms.
    - Operations.v: the commands checkscheduler, prune_operational_data, reset_term and
      audit_merge_coverage, web/pagination.py, web/sys.py and scheduling/admin_guards.py.
    - Commands.v: the commands materialize_sessions, assign_online and run_status_sweep.
    - Xlsx.v: scheduling/xlsx.py over element trees, with a writer of workbooks.
    - RoomMaster.v: the command load_room_master.
    - Photos.v: accounts/photos.py and the profile page of web/faculty.py.
    - Accounts.v: accounts/pipeline.py in the order of config/settings.py, the command
      link_entra, and the sign-in and home pages of web/views.py.
    - ConsolePages.v: the pages of web/ifo.py that change nothing, and the landing page of
      web/scan.py.
    - Frame.v: the writes of every service, for any relation that allows them.
    - Worlds.v: the same for the services whose state is more than the database (the
      outbox, the weekly reports, the photos), and the pages of the terms as services.
    - Staging.v: ops/import_staging.py and the import pages of web/ifo.py, over the
      database, the stored files and the session tokens.
    - System.v: the requests, jobs and commands together, as a step relation, and what they
      keep; the administration site and the seeding commands are left out.

    ** What is shown

    - The whole system: over any sequence of requests, answered or refused, keys stay
      unique, a class has one session a date, the calendar stays consistent, and the
      audit log and every recorded validation only grow (System.v: each service is
      shown once to keep any relation that [Allows] its writes: Frame.v, Worlds.v).
    - Room safety: an available room is exactly one nobody occupies (Availability.v);
      an accepted schedule edit of a class that is not an online one and an approved
      in-person shift never double-book a room (ScheduleOps.v, Modality.v), for any check
      meeting the interface; an approval carries out all of its effect or none of it.
    - Attendance: a scan resolves as its specification says and takes only the steps
      of a session's lifecycle (Resolvers.v, Scan.v); the sweep marks exactly the
      no-shows, once (Jobs.v); merged classes are filled together (Merge.v).
    - Calendar: materialization creates exactly the due occurrences, is idempotent
      and respects excused dates (Materialization.v); suspending and lifting is a
      round trip (Suspensions.v); a cancelled class stays cancelled (ScheduleOps.v);
      terms never overlap and at most one is active, whatever is requested
      (TermLifecycle.v).
    - Verification: a checker's action changes the scanned room's session only as the
      outcome allows, an offline queue of any JSON items acts once however often it is
      replayed, up to the item that makes it fail (Checker.v), the online sessions of a
      date are dealt evenly (OnlineDuty.v).
    - Faculty pages: an online class is started by its own teacher, in time, with a
      link to a host of the meeting service and nothing else; a shift request is filed
      only for one's own classes, whatever is posted (Faculty.v, TeamsLink.v), and
      decided only by the dean it is routed to (Dean.v).
    - Consoles: a booking never takes a used room and its cancellation undoes it; a
      posting is exactly what was asked for; rooms, floors and buildings keep their
      codes unique and are deleted only when nothing depends on them (Console.v,
      Campus.v).
    - Import: the grammar of a schedule text reads back what is printed, an import
      reconciles and a second one writes nothing (Importing.v, ImportOfferings.v); a commit
      loads the whole staged file into its term or nothing, and an upload is loaded at most
      once and leaves no file behind (Staging.v).
    - Notifications: opening a list marks exactly what it shows, a mute hides one group,
      and the outbox delivers a notification once to each live subscription (Push.v).
    - Boards: the state of a room is a function of the class under way, the board
      accounts for every room, a guard sees the floors of the posting and no other, the
      coverage of a floor is that of its sessions (Boards.v).
    - Reports: the figures of a page agree with one another, row by row and to the
      second, and with the sessions they count (Reporting.v, Utilization.v,
      Breakdown.v).
      A report covers one term and dates inside it, and its query reads back as itself
      (ReportScope.v), or names the error; a week's reports are stored once each with the
      figures they claim, however often they are generated, where no department is coded
      ALL and none was deleted (WeeklyReports.v); a dean sees one department, and who is no dean nothing
      (ReportPages.v); a document reads back as its rows, and none of its cells is run
      as a formula (Exports.v, HrReports.v).
    - Terms: the pages of a term change nothing but by one lifecycle service, and show why
      they refuse (TermPages.v).
    - Files: a workbook reads back as what it was made of (Xlsx.v); the room list is loaded
      once, refreshed without touching a printed code, and a failed load leaves nothing
      behind (RoomMaster.v); a photo is stored re-encoded, within its bounds, for the
      requester alone (Photos.v).
    - Accounts: nobody is signed in but an active account that was there, and a sign-in
      writes its object id, its names and one row of the log (Accounts.v).
    - Console pages: a printed poster opens its room and no other, what the corrections list
      can be corrected, a building's page says whether it can be deleted, and the panel of a
      room agrees with the board and with the guard's page (ConsolePages.v).
    - Operation: the watchdog alerts at most once an hour, a pager always shows a page that
      exists, the audit of merged classes misses none (Operations.v); a command run by hand
      does what its job does (Commands.v).
    - Errors: every refusal leaves the database as it was; each operation's theorem
      gives the exact conditions of success and of refusal.
    - Termination: the loops that are not structural run on fuel that is shown to be
      enough: the weekly dates of a term ([weekly_dates]: one unit per day), the
      slots of a day ([times_loop]: one per slot of positive duration), the batches
      of a list ([chunks]), the days of a report ([walk_days]: one per day).  All other
      definitions are structural.

    ** What is not modelled

    Rendering (templates, documents, QR images), routing, the administration site (its
    registrations are the framework's, and a system administrator may edit tables there:
    what System.v shows is of the rest of the system), the OAuth exchange of a sign-in (the
    library's steps are an interface of Accounts.v), the unzipping and parsing of files (csv and JSON texts, XML: element trees are
    inputs), what the image library decodes and encodes (an interface of Photos.v), the
    network side of push delivery, the triggers of the scheduler, and the commands that
    seed demonstration data, whose content is constants. *)
From stdpp Require Export base tactics option list numbers sets gmap strings pretty relations sorting.
From Stdlib Require Export ZArith Lia Bool Sorting.Sorted.

Open Scope Z_scope.

(** ** Functional record update

    [r <| f := v |>] is [r] with field [f] replaced, the model of [obj.f = v].
    An [Eta] instance spells a record out by its projections, so an updated
    record computes to a literal and [simpl] reduces each projection of it. *)
Class Eta (R : Type) := eta : R → R.
Class Setter {R E : Type} (proj : R → E) := setter : (E → E) → R → R.

Definition upd {R E : Type} (proj : R → E) {S : Setter proj} (f : E → E) (r : R) : R :=
  setter f r.
Arguments upd {R E} proj {S} f r /.
Arguments setter {R E} proj {Setter} f r /.

Ltac solve_setter :=
  lazymatch goal with
  | |- @Setter ?R ?E ?g =>
      exact (fun (f : E → E) (r : R) =>
        ltac:(let b := eval hnf in (@eta R _ r) in
              lazymatch b with
              | context C [g r] => let b' := context C [f (g r)] in exact b'
              end))
  end.
#[global] Hint Extern 1 (@Setter _ _ _) => solve_setter : typeclass_instances.

Declare Scope record_scope.
Notation "r <| f := v |>" := (upd f (λ _, v) r)
  (at level 1, f at level 0, left associativity,
   format "r <| f  :=  v |>") : record_scope.
Open Scope record_scope.

(** ** Reflection of boolean guards

    Every guard of the code is a boolean; [b2p] turns the guards of a goal and
    of its hypotheses into propositions. *)
Create Rewrite HintDb b2p.
#[export] Hint Rewrite
  andb_true_iff andb_false_iff orb_true_iff orb_false_iff negb_true_iff
  negb_false_iff Z.eqb_eq Z.eqb_neq Z.ltb_lt Z.ltb_ge Z.leb_le Z.leb_gt
  String.eqb_eq String.eqb_neq : b2p.

Lemma bd_true (P : Prop) `{!Decision P} : bool_decide P = true ↔ P.
Proof. apply bool_decide_eq_true. Qed.
Lemma bd_false (P : Prop) `{!Decision P} : bool_decide P = false ↔ ¬ P.
Proof. apply bool_decide_eq_false. Qed.
#[export] Hint Rewrite bd_true bd_false : b2p.

Ltac b2p := autorewrite with b2p in *.

(** Case analysis on every boolean test and option match of the goal. *)
Ltac destr_if :=
  match goal with
  | |- context [if ?b then _ else _] => destruct b eqn:?
  | |- context [match ?o with Some _ => _ | None => _ end] => destruct o eqn:?
  end.
Ltac destr_if_in H :=
  match type of H with
  | context [if ?b then _ else _] => destruct b eqn:?
  | context [match ?o with Some _ => _ | None => _ end] => destruct o eqn:?
  end.

(** ** Lists as query results

    [select p t] is the model of [Model.objects.filter(p)] over a table. *)
Definition select {A : Type} (p : A → bool) (l : list A) : list A := List.filter p l.

Section select.
Context {A : Type}.
Implicit Types (p q : A → bool) (l : list A).

Lemma elem_of_select p l x : x ∈ select p l ↔ x ∈ l ∧ p x = true.
Proof. unfold select. rewrite !list_elem_of_In. apply filter_In. Qed.

Lemma select_app p l1 l2 : select p (l1 ++ l2) = select p l1 ++ select p l2.
Proof. apply List.filter_app. Qed.

Lemma select_cons p x l :
  select p (x :: l) = if p x then x :: select p l else select p l.
Proof. reflexivity. Qed.

Lemma select_nil p l : select p l = [] ↔ ∀ x, x ∈ l → p x = false.
Proof.
  split.
  - intros Hn x Hx. destruct (p x) eqn:E; [|done].
    assert (x ∈ select p l) as Hin by (apply elem_of_select; done).
    rewrite Hn in Hin. by apply not_elem_of_nil in Hin.
  - intros H. destruct (select p l) as [|x r] eqn:E; [done|].
    assert (x ∈ select p l) as Hin by (rewrite E; left).
    apply elem_of_select in Hin as [Hin Hp]. rewrite (H x Hin) in Hp. done.
Qed.

Lemma select_all p l : (∀ x, x ∈ l → p x = true) → select p l = l.
Proof.
  induction l as [|x l IH]; intros H; [done|]. rewrite select_cons.
  rewrite (H x) by left. f_equal. apply IH. intros y Hy. apply H. by right.
Qed.

Lemma select_ext p q l : (∀ x, x ∈ l → p x = q x) → select p l = select q l.
Proof.
  induction l as [|x l IH]; intros H; [done|]. rewrite !select_cons.
  rewrite (H x) by left. rewrite IH; [done|]. intros y Hy. apply H. by right.
Qed.

Lemma select_select p q l : select p (select q l) = select (λ x, q x && p x) l.
Proof.
  induction l as [|x l IH]; [done|]. rewrite !select_cons.
  destruct (q x); simpl; rewrite ?select_cons, IH; done.
Qed.

Lemma select_sublist p l : sublist (select p l) l.
Proof.
  induction l as [|x l IH]; [constructor|]. rewrite select_cons.
  destruct (p x); by constructor.
Qed.

Lemma select_length p l : (length (select p l) ≤ length l)%nat.
Proof. apply sublist_length, select_sublist. Qed.

Lemma NoDup_fmap_select {B : Type} (f : A → B) p l :
  NoDup (f <$> l) → NoDup (f <$> select p l).
Proof.
  induction l as [|x l IH]; intros H; [constructor|]. rewrite fmap_cons in H.
  apply NoDup_cons in H as [Hx H]. rewrite select_cons. destruct (p x); [|auto].
  rewrite fmap_cons. apply NoDup_cons. split; [|auto].
  intros (y & Hy & Hin)%list_elem_of_fmap. apply Hx, list_elem_of_fmap.
  apply elem_of_select in Hin as [??]. eauto.
Qed.

Lemma existsb_elem p l : existsb p l = true ↔ ∃ x, x ∈ l ∧ p x = true.
Proof. rewrite existsb_exists. by setoid_rewrite list_elem_of_In. Qed.

Lemma existsb_elem_false p l : existsb p l = false ↔ ∀ x, x ∈ l → p x = false.
Proof.
  split.
  - intros H x Hx. destruct (p x) eqn:E; [|done].
    assert (existsb p l = true) by (apply existsb_elem; eauto). congruence.
  - intros H. destruct (existsb p l) eqn:E; [|done].
    apply existsb_elem in E as (x & Hx & Hp). rewrite H in Hp; done.
Qed.

Lemma forallb_elem p l : forallb p l = true ↔ ∀ x, x ∈ l → p x = true.
Proof. rewrite forallb_forall. by setoid_rewrite list_elem_of_In. Qed.

Lemma find_elem p l x : List.find p l = Some x → x ∈ l ∧ p x = true.
Proof. intros [Hin Hp]%find_some. by rewrite list_elem_of_In. Qed.

Lemma find_elem_None p l : List.find p l = None ↔ ∀ x, x ∈ l → p x = false.
Proof.
  split.
  - intros H x Hx. apply (find_none _ _ H). by rewrite <- list_elem_of_In.
  - intros H. destruct (List.find p l) as [x|] eqn:E; [|done].
    apply find_elem in E as [Hx Hp]. rewrite H in Hp; done.
Qed.

Lemma find_select p l : List.find p l = head (select p l).
Proof.
  induction l as [|x l IH]; [done|]. rewrite select_cons. simpl.
  destruct (p x); done.
Qed.
End select.

Lemma select_fmap {A B} (p : B → bool) (f : A → B) (l : list A) :
  select p (f <$> l) = f <$> select (λ x, p (f x)) l.
Proof.
  induction l as [|x l IH]; [done|]. rewrite fmap_cons, !select_cons, IH. by destruct (p (f x)).
Qed.

(** A list that is not empty takes the second branch of a [match]. *)
Lemma match_cons {A B} {l : list A} (H : l ≠ []) (b c : B) :
  match l with [] => b | _ :: _ => c end = c.
Proof. by destruct l. Qed.

(** ** Stable ordering: the model of [order_by] and of [sorted] *)
Section sort_by.
Context {A : Type} (le : A → A → bool).

Fixpoint insert_by (x : A) (l : list A) : list A :=
  match l with
  | [] => [x]
  | y :: l' => if le x y then x :: l else y :: insert_by x l'
  end.
Definition sort_by (l : list A) : list A := foldr insert_by [] l.

Lemma insert_by_perm x l : insert_by x l ≡ₚ x :: l.
Proof.
  induction l as [|y l IH]; simpl; [done|]. destruct (le x y); [done|].
  rewrite IH. constructor.
Qed.
Lemma sort_by_perm l : sort_by l ≡ₚ l.
Proof. induction l as [|x l IH]; simpl; [done|]. by rewrite insert_by_perm, IH. Qed.

Lemma elem_of_sort_by x l : x ∈ sort_by l ↔ x ∈ l.
Proof. by rewrite sort_by_perm. Qed.

Lemma sort_by_nil l : sort_by l = [] ↔ l = [].
Proof.
  split; [|by intros ->]. intros H. apply Permutation_nil. by rewrite <- H, sort_by_perm.
Qed.

Context (Htotal : ∀ x y, le x y = true ∨ le y x = true).
Context (Htrans : ∀ x y z, le x y = true → le y z = true → le x z = true).

Lemma insert_by_sorted x l :
  StronglySorted (λ a b, le a b = true) l →
  StronglySorted (λ a b, le a b = true) (insert_by x l).
Proof.
  induction 1 as [|y l Hl IH Hy]; simpl; [repeat constructor|].
  destruct (le x y) eqn:E.
  - constructor; [by constructor|]. constructor; [done|].
    eapply Forall_impl; [exact Hy|]. intros z Hz. by eapply Htrans.
  - constructor; [done|]. rewrite insert_by_perm. constructor; [|done].
    destruct (Htotal x y); congruence.
Qed.
Lemma sort_by_sorted l : StronglySorted (λ a b, le a b = true) (sort_by l).
Proof. induction l; simpl; [constructor|]. by apply insert_by_sorted. Qed.
(** A stable sort commutes with a filter. *)
Lemma select_insert_by (p : A → bool) x l :
  StronglySorted (λ a b, le a b = true) l →
  select p (insert_by x l) = if p x then insert_by x (select p l) else select p l.
Proof.
  induction 1 as [|y l Hl IH Hy]; simpl; [by destruct (p x)|].
  destruct (le x y) eqn:E; simpl.
  - destruct (p x); [|done]. destruct (p y); simpl; [by rewrite E|].
    assert (∀ z, z ∈ select p l → le x z = true) as Hz.
    { intros z [Hz _]%elem_of_select. eapply Htrans; [exact E|]. by rewrite Forall_forall in Hy; apply Hy. }
    destruct (select p l) as [|z l']; simpl; [done|]. by rewrite (Hz z) by left.
  - fold (select p (insert_by x l)). rewrite IH. destruct (p y), (p x); simpl; rewrite ?E; done.
Qed.
Lemma select_sort_by (p : A → bool) l : select p (sort_by l) = sort_by (select p l).
Proof.
  induction l as [|x l IH]; [done|]. cbn [sort_by foldr]. fold (sort_by l).
  rewrite select_insert_by by apply sort_by_sorted. rewrite IH, select_cons. by destruct (p x).
Qed.
End sort_by.

(** ** Insertion-ordered dictionaries: the model of a Python [dict] *)
Abbreviation dict K V := (list (K * V)).

Section dict.
Context {K V : Type} `{!EqDecision K}.
Implicit Types (d : dict K V) (k : K) (v : V).

Fixpoint dict_get d k : option V :=
  match d with
  | [] => None
  | (k', v) :: d' => if bool_decide (k = k') then Some v else dict_get d' k
  end.
Fixpoint dict_set d k v : dict K V :=
  match d with
  | [] => [(k, v)]
  | (k', v') :: d' =>
      if bool_decide (k = k') then (k', v) :: d' else (k', v') :: dict_set d' k v
  end.
Definition dict_getd d k (dflt : V) : V := default dflt (dict_get d k).

Lemma dict_get_set_eq d k v : dict_get (dict_set d k v) k = Some v.
Proof.
  induction d as [|[k' v'] d IH]; simpl; [by rewrite bool_decide_true|].
  case_bool_decide; simpl; [by rewrite bool_decide_true|].
  by rewrite bool_decide_false.
Qed.
Lemma dict_get_set_ne d k k' v : k ≠ k' → dict_get (dict_set d k v) k' = dict_get d k'.
Proof.
  intros Hne. induction d as [|[k1 v1] d IH]; simpl.
  - by rewrite bool_decide_false.
  - case_bool_decide; subst; simpl.
    + by rewrite !bool_decide_false.
    + by rewrite IH.
Qed.
Lemma dict_get_set d k k' v :
  dict_get (dict_set d k v) k' = if bool_decide (k = k') then Some v else dict_get d k'.
Proof.
  case_bool_decide; subst; [apply dict_get_set_eq | by apply dict_get_set_ne].
Qed.

Lemma dict_get_None d k : dict_get d k = None ↔ k ∉ d.*1.
Proof.
  induction d as [|[k' v'] d IH]; cbn [dict_get]; [split; [intros _ ?%not_elem_of_nil|]; done|].
  rewrite fmap_cons, not_elem_of_cons. case_bool_decide; [|rewrite IH]; naive_solver.
Qed.
Lemma dict_get_elem d k v : dict_get d k = Some v → (k, v) ∈ d.
Proof.
  induction d as [|[k' v'] d IH]; simpl; [done|].
  case_bool_decide; intros; simplify_eq; [left|right; eauto].
Qed.
Lemma dict_set_keys d k v :
  (dict_set d k v).*1 = if bool_decide (k ∈ d.*1) then d.*1 else d.*1 ++ [k].
Proof.
  induction d as [|[k' v'] d IH]; [done|]. cbn [dict_set].
  destruct (bool_decide_reflect (k = k')) as [->|Hne]; rewrite !fmap_cons.
  - rewrite bool_decide_true; [done|left].
  - rewrite IH. destruct (bool_decide_reflect (k ∈ d.*1)) as [Hin|Hin].
    + rewrite bool_decide_true; [done|by right].
    + rewrite bool_decide_false; [done|]. intros [?|?]%elem_of_cons; done.
Qed.
Lemma dict_set_NoDup d k v : NoDup d.*1 → NoDup (dict_set d k v).*1.
Proof.
  intros H. rewrite dict_set_keys. case_bool_decide; [done|].
  apply NoDup_app. split; [done|]. split; [|apply NoDup_singleton].
  intros x Hx ->%list_elem_of_singleton. done.
Qed.
Lemma dict_set_new d k v : k ∉ d.*1 → dict_set d k v = d ++ [(k, v)].
Proof.
  induction d as [|[k' v'] d IH]; [done|]. rewrite fmap_cons, not_elem_of_cons.
  intros [Hne Hk]. cbn [dict_set]. rewrite bool_decide_false by done. by rewrite IH.
Qed.
(** Filling a dictionary with distinct new keys appends the entries in order. *)
Lemma dict_fill {A} (kf : A → K) (vf : A → V) (l : list A) d :
  NoDup (d.*1 ++ (kf <$> l)) →
  foldl (λ d x, dict_set d (kf x) (vf x)) d l = d ++ ((λ x, (kf x, vf x)) <$> l).
Proof.
  revert d. induction l as [|x l IH]; intros d Hnd; [by rewrite app_nil_r|].
  rewrite fmap_cons in Hnd. simpl. assert (kf x ∉ d.*1) as Hx.
  { apply NoDup_app in Hnd as (_ & Hd & _). intros Hin. apply (Hd _ Hin). left. }
  rewrite dict_set_new by done. rewrite IH; [by rewrite <- app_assoc|].
  by rewrite fmap_app, <- app_assoc.
Qed.
Lemma dict_elem_get d k v : NoDup d.*1 → (k, v) ∈ d → dict_get d k = Some v.
Proof.
  induction d as [|[k' v'] d IH]; simpl; intros Hnd Hin; [by apply not_elem_of_nil in Hin|].
  apply NoDup_cons in Hnd as [Hk Hnd]. apply elem_of_cons in Hin as [Hin|Hin].
  - simplify_eq. by rewrite bool_decide_true.
  - rewrite bool_decide_false; [eauto|]. intros ->. apply Hk.
    apply list_elem_of_fmap. by exists (k', v).
Qed.

(** [d.setdefault(k, v)] over a sequence keeps the first value of each key. *)
Definition dict_setdefault d k v : dict K V :=
  match dict_get d k with Some _ => d | None => dict_set d k v end.
Lemma dict_setdefault_find {A} (kf : A → K) (vf : A → V) (l : list A) d k :
  dict_get (foldl (λ d x, dict_setdefault d (kf x) (vf x)) d l) k =
  match dict_get d k with
  | Some v => Some v
  | None => vf <$> List.find (λ x, bool_decide (kf x = k)) l
  end.
Proof.
  revert d. induction l as [|x l IH]; intros d; simpl; [by destruct (dict_get d k)|].
  rewrite IH. unfold dict_setdefault. destruct (dict_get d (kf x)) eqn:Ex.
  - case_bool_decide; subst; [by rewrite Ex|done].
  - rewrite dict_get_set. case_bool_decide; subst; [by rewrite Ex|done].
Qed.
(** [d.update(d')], and [d.setdefault(k, []).append(v)] over a sequence: a
    grouping of the sequence by key, in order of first occurrence. *)
Definition dict_update d (d' : dict K V) : dict K V := foldl (λ d p, dict_set d p.1 p.2) d d'.
Lemma dict_get_update d d' k :
  NoDup d'.*1 →
  dict_get (dict_update d d') k =
  match dict_get d' k with Some v => Some v | None => dict_get d k end.
Proof.
  unfold dict_update. revert d. induction d' as [|[k' v'] d' IH]; intros d Hnd; [done|].
  rewrite fmap_cons in Hnd. apply NoDup_cons in Hnd as [Hk Hnd]. simpl in *.
  rewrite IH by done. rewrite dict_get_set. case_bool_decide as Hkk.
  - subst. rewrite bool_decide_true by done. by rewrite (proj2 (dict_get_None d' k)).
  - rewrite bool_decide_false by congruence. done.
Qed.
End dict.

Section dict_group.
Context {K A B : Type} `{!EqDecision K}.

Definition dict_append (d : dict K (list B)) (k : K) (v : B) : dict K (list B) :=
  dict_set d k (dict_getd d k [] ++ [v]).
Definition dict_group (kf : A → K) (vf : A → B) (l : list A) : dict K (list B) :=
  foldl (λ d x, dict_append d (kf x) (vf x)) [] l.

Lemma dict_group_spec (kf : A → K) (vf : A → B) (l : list A) :
  NoDup (dict_group kf vf l).*1 ∧
  (∀ p, p ∈ dict_group kf vf l → ∃ x, x ∈ l ∧ kf x = p.1) ∧
  ∀ k, dict_getd (dict_group kf vf l) k [] = vf <$> select (λ x, bool_decide (kf x = k)) l.
Proof.
  unfold dict_group. induction l as [|x l IH] using rev_ind.
  - split_and!; [apply NoDup_nil_2| |done]. by intros p ?%not_elem_of_nil.
  - rewrite foldl_app. simpl. destruct IH as (Hnd & Hkeys & Hget). unfold dict_append. split_and!.
    + by apply dict_set_NoDup.
    + intros p Hp. assert (p.1 ∈ (dict_set (foldl (λ d x, dict_append d (kf x) (vf x)) [] l)
        (kf x) (dict_getd (foldl (λ d x, dict_append d (kf x) (vf x)) [] l) (kf x) [] ++ [vf x])).*1)
        as Hp1 by (apply list_elem_of_fmap; eauto).
      rewrite dict_set_keys in Hp1.
      assert (p.1 ∈ (foldl (λ d x, dict_append d (kf x) (vf x)) [] l).*1 ∨ p.1 = kf x) as [Hin|Heq].
      { case_bool_decide; [by left|]. apply elem_of_app in Hp1 as [?|?%list_elem_of_singleton]; auto. }
      * apply list_elem_of_fmap in Hin as (q & Hq & Hin). destruct (Hkeys q Hin) as (y & Hy & Hyk).
        exists y. split; [apply elem_of_app; by left|congruence].
      * exists x. split; [apply elem_of_app; right; left|done].
    + intros k. rewrite select_app, fmap_app, <- Hget. unfold dict_getd at 1. rewrite dict_get_set.
      rewrite select_cons. destruct (bool_decide_reflect (kf x = k)) as [->|Hne]; [done|].
      simpl. by rewrite app_nil_r.
Qed.
(** A row's group is the list of its key. *)
Lemma dict_group_elem (kf : A → K) (vf : A → B) (l : list A) p :
  p ∈ dict_group kf vf l → p.2 = vf <$> select (λ x, bool_decide (kf x = p.1)) l.
Proof.
  destruct (dict_group_spec kf vf l) as (Hnd & _ & Hget). intros Hp. rewrite <- Hget.
  unfold dict_getd. by rewrite (dict_elem_get _ p.1 p.2) by (destruct p; done).
Qed.
Lemma dict_group_has (kf : A → K) (vf : A → B) (l : list A) x :
  x ∈ l → (kf x, vf <$> select (λ y, bool_decide (kf y = kf x)) l) ∈ dict_group kf vf l.
Proof.
  intros Hx. destruct (dict_group_spec kf vf l) as (Hnd & _ & Hget). specialize (Hget (kf x)).
  apply dict_get_elem. unfold dict_getd in Hget. destruct (dict_get _ _) as [v|]; simpl in Hget;
    [by f_equal|]. exfalso. symmetry in Hget. apply fmap_nil_inv in Hget.
  apply select_nil with (x := x) in Hget; [|done]. by rewrite bool_decide_true in Hget.
Qed.
End dict_group.

(** ** Least elements of an ordered search *)
Lemma sorted_find {A} (le : A → A → bool) (p : A → bool) (l : list A) x y :
  StronglySorted (λ a b, le a b = true) l → (∀ a, le a a = true) →
  List.find p l = Some x → y ∈ l → p y = true → le x y = true.
Proof.
  intros Hs Hrefl. induction Hs as [|z l Hl IH Hz]; simpl; [done|].
  destruct (p z) eqn:Ep; intros Hx Hy Hpy.
  - simplify_eq. apply elem_of_cons in Hy as [->|Hy]; [done|].
    rewrite Forall_forall in Hz. by apply Hz.
  - apply elem_of_cons in Hy as [->|Hy]; [congruence|]. by apply IH.
Qed.

Lemma imap_id {A} (g : nat → A → A) (l : list A) : (∀ i x, g i x = x) → imap g l = l.
Proof.
  revert g. induction l as [|x l IH]; intros g Hg; [done|].
  rewrite imap_cons, Hg. f_equal. apply IH. intros i y. apply Hg.
Qed.

(** ** Sums over integers *)
Definition zsum (l : list Z) : Z := foldr Z.add 0 l.

Lemma zsum_cons x l : zsum (x :: l) = x + zsum l.
Proof. done. Qed.
Lemma zsum_app l1 l2 : zsum (l1 ++ l2) = zsum l1 + zsum l2.
Proof. induction l1 as [|x l IH]; [done|]. rewrite <- app_comm_cons, !zsum_cons, IH. lia. Qed.
Lemma zsum_perm l1 l2 : l1 ≡ₚ l2 → zsum l1 = zsum l2.
Proof. induction 1; rewrite ?zsum_cons; lia. Qed.
#[export] Instance zsum_proper : Proper ((≡ₚ) ==> (=)) zsum.
Proof. intros l1 l2. apply zsum_perm. Qed.
Lemma zsum_fmap_add {A} (f g : A → Z) l :
  zsum ((λ x, f x + g x) <$> l) = zsum (f <$> l) + zsum (g <$> l).
Proof. induction l as [|x l IH]; [done|]. rewrite !fmap_cons, !zsum_cons, IH. lia. Qed.
Lemma zsum_fmap_ext {A} (f g : A → Z) l :
  (∀ x, x ∈ l → f x = g x) → zsum (f <$> l) = zsum (g <$> l).
Proof.
  induction l as [|x l IH]; intros H; [done|]. rewrite !fmap_cons, !zsum_cons.
  rewrite (H x) by left. rewrite IH; [done|]. intros y Hy. apply H. by right.
Qed.
Lemma zsum_nonneg l : (∀ x, x ∈ l → 0 ≤ x) → 0 ≤ zsum l.
Proof.
  induction l as [|x l IH]; intros H; [done|]. rewrite zsum_cons.
  assert (0 ≤ x) by (apply H; left). assert (0 ≤ zsum l); [|lia].
  apply IH. intros y Hy. apply H. by right.
Qed.
Lemma zsum_const {A} (c : Z) (l : list A) : zsum ((λ _, c) <$> l) = c * Z.of_nat (length l).
Proof. induction l as [|x l IH]; [simpl; lia|]. rewrite fmap_cons, zsum_cons, IH. simpl. lia. Qed.

(** Half-open overlap of two intervals, the one notion of collision. *)
Definition overlaps (a_start a_end b_start b_end : Z) : bool :=
  (a_start <? b_end) && (b_start <? a_end).

(** A filter of a rearranged list. *)
Lemma select_perm {A} (p : A → bool) l1 l2 : l1 ≡ₚ l2 → select p l1 ≡ₚ select p l2.
Proof.
  induction 1 as [|x l1 l2 _ IH|x y l|l1 l2 l3 _ IH1 _ IH2]; simpl; [done| | |by etransitivity].
  - destruct (p x); [by constructor|done].
  - destruct (p x), (p y); try done. constructor.
Qed.

(** The groups are the sequence, rearranged. *)
Section dict_group_perm.
Context {K A : Type} `{!EqDecision K}.
Lemma dict_append_perm (d : dict K (list A)) k v :
  concat (dict_append d k v).*2 ≡ₚ concat d.*2 ++ [v].
Proof.
  unfold dict_append, dict_getd. induction d as [|[k' vs] d IH]; [done|]. cbn [dict_get dict_set].
  case_bool_decide; rewrite !fmap_cons; cbn [concat snd default].
  - simpl. rewrite <- !(assoc_L (++)). by rewrite (Permutation_app_comm [v]).
  - rewrite IH. by rewrite (assoc_L (++)).
Qed.
Lemma dict_group_perm (kf : A → K) (l : list A) : concat (dict_group kf id l).*2 ≡ₚ l.
Proof.
  unfold dict_group. induction l as [|x l IH] using rev_ind; [done|]. rewrite foldl_app. simpl.
  by rewrite dict_append_perm, IH.
Qed.
(** Counting over the groups counts the sequence. *)
Lemma dict_group_count (kf : A → K) (p : A → bool) (l : list A) :
  zsum ((λ g, Z.of_nat (length (select p g.2))) <$> dict_group kf id l) =
  Z.of_nat (length (select p l)).
Proof.
  assert (∀ d : dict K (list A), zsum ((λ g, Z.of_nat (length (select p g.2))) <$> d) =
    Z.of_nat (length (select p (concat d.*2)))) as Hsum.
  { intros d. induction d as [|[k vs] d IH]; [done|].
    rewrite !fmap_cons, zsum_cons, IH. cbn [concat snd]. rewrite select_app, length_app. lia. }
  rewrite Hsum. f_equal. apply Permutation_length. 
  by apply select_perm, dict_group_perm.
Qed.
End dict_group_perm.

(** ** Sums over filters, products and dictionaries *)
Lemma zsum_scale {A} (c : Z) (f : A → Z) l : zsum ((λ x, c * f x) <$> l) = c * zsum (f <$> l).
Proof. induction l as [|x l IH]; [simpl; lia|]. rewrite !fmap_cons, !zsum_cons, IH. lia. Qed.
Lemma zsum_select {A} (p : A → bool) (h : A → Z) l :
  zsum ((λ x, if p x then h x else 0) <$> l) = zsum (h <$> select p l).
Proof.
  induction l as [|x l IH]; [done|]. rewrite fmap_cons, zsum_cons, IH, select_cons.
  by destruct (p x).
Qed.
Lemma zsum_partition {A} (p : A → bool) (h : A → Z) l :
  zsum (h <$> l) = zsum (h <$> select p l) + zsum (h <$> select (λ x, negb (p x)) l).
Proof.
  rewrite <- !zsum_select, <- zsum_fmap_add. apply zsum_fmap_ext. intros x _. destruct (p x); simpl; lia.
Qed.
Lemma zsum_concat (ll : list (list Z)) : zsum (concat ll) = zsum (zsum <$> ll).
Proof. induction ll as [|l ll IH]; [done|]. simpl. by rewrite zsum_app, IH. Qed.
(** A double sum in either order. *)
Lemma zsum_swap {A B} (h : A → B → Z) (l : list A) (l' : list B) :
  zsum ((λ x, zsum (h x <$> l')) <$> l) = zsum ((λ y, zsum ((λ x, h x y) <$> l)) <$> l').
Proof.
  induction l as [|x l IH]; [simpl; symmetry; by apply (zsum_const 0)|].
  rewrite fmap_cons, zsum_cons, IH, <- zsum_fmap_add. done.
Qed.
(** A sum over a set of keys, as a sum over any enumeration that contains it. *)
Lemma zsum_within {A} `{!EqDecision A} (h : A → Z) (P L : list A) :
  NoDup P → NoDup L → P ⊆ L →
  zsum ((λ x, if bool_decide (x ∈ P) then h x else 0) <$> L) = zsum (h <$> P).
Proof.
  intros HP HL Hsub. rewrite (zsum_select (λ x, bool_decide (x ∈ P))). apply zsum_perm, fmap_Permutation, NoDup_Permutation; [|done|].
  - rewrite <- (list_fmap_id (select _ _)). apply NoDup_fmap_select. by rewrite list_fmap_id.
  - intros x. rewrite elem_of_select, bd_true. split; [tauto|]. intros Hx. split; [by apply Hsub|done].
Qed.

Section dict_sums.
Context {K V A : Type} `{!EqDecision K} (f : V → Z) (dflt : V) (Hdflt : f dflt = 0).
Definition dict_zsum (d : dict K V) : Z := zsum ((λ p, f p.2) <$> d).
Lemma dict_zsum_set (d : dict K V) k v :
  dict_zsum (dict_set d k v) = dict_zsum d - f (dict_getd d k dflt) + f v.
Proof using Hdflt.
  unfold dict_zsum, dict_getd. induction d as [|[k' v'] d IH]; [simpl; lia|]. cbn [dict_get dict_set].
  case_bool_decide; rewrite !fmap_cons, !zsum_cons; [cbn; lia|]. rewrite IH. cbn. lia.
Qed.
(** The sum of a dictionary over any enumeration of its keys. *)
Lemma dict_zsum_keys (d : dict K V) L :
  NoDup d.*1 → NoDup L → d.*1 ⊆ L →
  zsum ((λ k, f (dict_getd d k dflt)) <$> L) = dict_zsum d.
Proof using Hdflt.
  intros Hd HL Hsub. rewrite (zsum_fmap_ext _ (λ k, if bool_decide (k ∈ d.*1) then f (dict_getd d k dflt) else 0)).
  - rewrite zsum_within by done. unfold dict_zsum. rewrite <- list_fmap_compose. apply zsum_fmap_ext.
    intros [k v] Hp. unfold dict_getd. simpl. by rewrite (dict_elem_get d k v).
  - intros k _. case_bool_decide as Hk; [done|]. apply dict_get_None in Hk. unfold dict_getd. by rewrite Hk.
Qed.
End dict_sums.

(** [d[k] = d.get(k, 0) + n] over a sequence is a sum by key. *)
Lemma dict_counter {K A} `{!EqDecision K} (kf : A → K) (n : A → Z) (l : list A) k :
  dict_getd (foldl (λ d x, dict_set d (kf x) (dict_getd d (kf x) 0 + n x)) [] l) k 0 =
  zsum (n <$> select (λ x, bool_decide (kf x = k)) l).
Proof.
  induction l as [|x l IH] using rev_ind; [done|].
  rewrite foldl_app, select_app, fmap_app, zsum_app, <- IH, select_cons.
  cbn [foldl]. unfold dict_getd. rewrite dict_get_set. case_bool_decide; subst; cbn; lia.
Qed.
(** The keys of a dictionary filled in any way from a sequence. *)
Lemma dict_fold_keys {K V A} `{!EqDecision K} (step : dict K V → A → dict K V) (key : A → K)
    (l : list A) (d : dict K V) :
  (∀ d x, ∃ v, step d x = dict_set d (key x) v) → NoDup d.*1 →
  NoDup (foldl step d l).*1 ∧ ∀ k, k ∈ (foldl step d l).*1 ↔ k ∈ d.*1 ∨ k ∈ key <$> l.
Proof.
  intros Hstep. revert d. induction l as [|x l IH]; intros d Hd; simpl.
  { split; [done|]. intros k. rewrite elem_of_nil. tauto. }
  destruct (Hstep d x) as [v ->]. destruct (IH (dict_set d (key x) v)) as [H1 H2];
    [by apply dict_set_NoDup|]. split; [done|]. intros k. rewrite H2, elem_of_cons, dict_set_keys.
  destruct (bool_decide_reflect (key x ∈ d.*1)) as [Hin|Hin].
  - split; [tauto|]. intros [?|[->|?]]; tauto.
  - rewrite elem_of_app, list_elem_of_singleton. tauto.
Qed.

(** ** Products of lists *)
Lemma zsum_bind {A B} (h : B → Z) (f : A → list B) l :
  zsum (h <$> (l ≫= f)) = zsum ((λ x, zsum (h <$> f x)) <$> l).
Proof. induction l as [|x l IH]; [done|]. by rewrite bind_cons, fmap_app, zsum_app, fmap_cons, zsum_cons, IH. Qed.
Section cross.
Context {K D P : Type} (f : K → D → P).
Definition cross (ks : list K) (ds : list D) : list P := ks ≫= λ k, f k <$> ds.
Lemma elem_of_cross ks ds p : p ∈ cross ks ds ↔ ∃ k d, p = f k d ∧ k ∈ ks ∧ d ∈ ds.
Proof.
  unfold cross. rewrite list_elem_of_bind. setoid_rewrite list_elem_of_fmap. naive_solver.
Qed.
Lemma cross_NoDup `{!Inj2 (=) (=) (=) f} ks ds : NoDup ks → NoDup ds → NoDup (cross ks ds).
Proof using Type*.
  intros Hk Hd. apply NoDup_bind; [|intros k _|done].
  - intros k1 k2 p _ _ (d1 & -> & _)%list_elem_of_fmap (d2 & Heq & _)%list_elem_of_fmap.
    by apply (inj2 f) in Heq as [? _].
  - apply NoDup_fmap_2_strong; [|done]. intros d1 d2 _ _ Heq. by apply (inj2 f) in Heq as [_ ?].
Qed.
Lemma length_cross ks ds : length (cross ks ds) = (length ks * length ds)%nat.
Proof. unfold cross. induction ks as [|k ks IH]; [done|]. rewrite bind_cons, length_app, length_fmap, IH. simpl. lia. Qed.
End cross.
Lemma fmap_cross {K D P Q} (f : K → D → P) (g : P → Q) ks ds :
  g <$> cross f ks ds = cross (λ k d, g (f k d)) ks ds.
Proof.
  unfold cross. induction ks as [|k ks IH]; [done|].
  by rewrite !bind_cons, fmap_app, IH, <- list_fmap_compose.
Qed.
Lemma cross_fmap {J K D P} (f : K → D → P) (g : J → K) ks ds :
  cross f (g <$> ks) ds = cross (λ j d, f (g j) d) ks ds.
Proof. unfold cross. induction ks as [|k ks IH]; [done|]. by rewrite fmap_cons, !bind_cons, IH. Qed.
Lemma zsum_cross {K D P} (f : K → D → P) (h : P → Z) ks ds :
  zsum (h <$> cross f ks ds) = zsum ((λ k, zsum ((λ d, h (f k d)) <$> ds)) <$> ks).
Proof.
  unfold cross. rewrite zsum_bind. apply zsum_fmap_ext. intros k _. by rewrite <- list_fmap_compose.
Qed.

(** The value of a key filled from a sequence depends on the elements of the key. *)
Lemma dict_fold_get {K V A} `{!EqDecision K} (key : A → K) (up : option V → A → V)
    (l : list A) (d : dict K V) k :
  dict_get (foldl (λ d x, dict_set d (key x) (up (dict_get d (key x)) x)) d l) k =
  foldl (λ o x, Some (up o x)) (dict_get d k) (select (λ x, bool_decide (key x = k)) l).
Proof.
  revert d. induction l as [|x l IH]; intros d; [done|]. cbn [foldl]. rewrite IH, select_cons, dict_get_set.
  by case_bool_decide; subst.
Qed.

(** ** The order of strings *)
Lemma str_leb_total a b : String.leb a b = true ∨ String.leb b a = true.
Proof. apply String.leb_total. Qed.
Lemma str_leb_trans a b c :
  String.leb a b = true → String.leb b c = true → String.leb a c = true.
Proof.
  intros H1 H2. apply Is_true_true. transitivity b; by apply Is_true_true.
Qed.

(** ** Sorting by a key, and sorting a set of keys *)
Lemma sort_by_fmap {A K} (f : A → K) (le : K → K → bool) (l : list A) :
  f <$> sort_by (λ a b, le (f a) (f b)) l = sort_by le (f <$> l).
Proof.
  induction l as [|x l IH]; [done|]. rewrite fmap_cons. cbn [sort_by foldr].
  fold (sort_by le (f <$> l)) (sort_by (λ a b, le (f a) (f b)) l). rewrite <- IH.
  generalize (sort_by (λ a b, le (f a) (f b)) l) as s. intros s. induction s as [|y s IHs]; [done|].
  cbn [insert_by fmap list_fmap]. destruct (le (f x) (f y)); [done|]. cbn. by rewrite <- IHs.
Qed.
Lemma sort_by_unique {A} (le : A → A → bool) (l1 l2 : list A) :
  (∀ x y, le x y = true ∨ le y x = true) →
  (∀ x y z, le x y = true → le y z = true → le x z = true) →
  (∀ x y, le x y = true → le y x = true → x = y) →
  l1 ≡ₚ l2 → sort_by le l1 = sort_by le l2.
Proof.
  intros Htot Htr Has Hp. assert (AntiSymm (=) (λ a b, le a b = true)) by exact Has.
  apply (StronglySorted_unique (λ a b, le a b = true));
    [by apply sort_by_sorted..|by rewrite !sort_by_perm].
Qed.

(** ** What a loop accumulates, read through one observation of its state *)
Section foldl_observed.
Context {T A : Type} (step : T → A → T).
Lemma foldl_counter (f : T → Z) (w : A → Z) (l : list A) t :
  (∀ t x, f (step t x) = f t + w x) → f (foldl step t l) = f t + zsum (w <$> l).
Proof.
  intros H. revert t. induction l as [|x l IH]; intros t; [simpl; lia|].
  rewrite fmap_cons, zsum_cons. simpl. rewrite IH, H. lia.
Qed.
Lemma foldl_same {B} (f : T → B) (l : list A) t :
  (∀ t x, f (step t x) = f t) → f (foldl step t l) = f t.
Proof. intros H. revert t. induction l as [|x l IH]; intros t; [done|]. simpl. by rewrite IH, H. Qed.
Lemma foldl_collect {K} (f : T → K → Prop) (P : A → K → Prop) (l : list A) t c :
  (∀ t x, f (step t x) c ↔ f t c ∨ P x c) → f (foldl step t l) c ↔ f t c ∨ ∃ x, x ∈ l ∧ P x c.
Proof.
  intros H. revert t. induction l as [|x l IH]; intros t; simpl.
  { split; [tauto|]. intros [?|(x & ?%not_elem_of_nil & _)]; done. }
  rewrite IH, H. setoid_rewrite elem_of_cons. naive_solver.
Qed.
End foldl_observed.
Lemma zsum_count {A} (p : A → bool) (l : list A) :
  zsum ((λ x, if p x then 1 else 0) <$> l) = Z.of_nat (length (select p l)).
Proof. rewrite zsum_select, zsum_const. lia. Qed.
Lemma length_bind {A B} (f : A → list B) (l : list A) :
  Z.of_nat (length (l ≫= f)) = zsum ((λ x, Z.of_nat (length (f x))) <$> l).
Proof. induction l as [|x l IH]; [done|]. rewrite bind_cons, length_app, fmap_cons, zsum_cons. lia. Qed.
