(* ===== verification/Python.v ===== *)
(** The parts of the Python language and standard library the program uses:
    string methods over ASCII text ([PyStr]), floats ([PyFloat]) and dates, times and instants
    ([PyTime]).  An instant is a number of microseconds since the Unix epoch in
    UTC, a date a number of days since 1970-01-01, a time of day a number of
    microseconds since midnight.  The project time zone is Asia/Manila, a fixed
    offset of eight hours.  Dates are unbounded: the model has no year 9999. *)
From S2P Require Import Prelude.
From Stdlib Require Import Ascii String SpecFloat.
From stdpp Require Import strings pretty.
Open Scope Z_scope.

(** ** Strings *)
Module PyStr.
Definition to_list := list_ascii_of_string.
Definition of_list := string_of_list_ascii.
Definition code (c : ascii) : Z := Z.of_N (N_of_ascii c).
Definition chr (z : Z) : ascii := ascii_of_N (Z.to_N z).
Definition len (s : string) : Z := Z.of_nat (String.length s).

Definition is_space (c : ascii) : bool :=
  let z := code c in ((9 <=? z) && (z <=? 13)) || ((28 <=? z) && (z <=? 32)).
Definition is_digit (c : ascii) : bool := (48 <=? code c) && (code c <=? 57).
Definition is_upper (c : ascii) : bool := (65 <=? code c) && (code c <=? 90).
Definition is_lower (c : ascii) : bool := (97 <=? code c) && (code c <=? 122).
Definition is_alpha (c : ascii) : bool := is_upper c || is_lower c.
Definition digit_val (c : ascii) : Z := code c - 48.

Definition upper_char (c : ascii) : ascii := if is_lower c then chr (code c - 32) else c.
Definition lower_char (c : ascii) : ascii := if is_upper c then chr (code c + 32) else c.
Definition map_str (f : ascii → ascii) (s : string) : string := of_list (f <$> to_list s).
Definition upper (s : string) : string := map_str upper_char s.
Definition lower (s : string) : string := map_str lower_char s.

Fixpoint drop_while (p : ascii → bool) (l : list ascii) : list ascii :=
  match l with
  | [] => []
  | c :: l' => if p c then drop_while p l' else l
  end.
Fixpoint take_while (p : ascii → bool) (l : list ascii) : list ascii :=
  match l with
  | [] => []
  | c :: l' => if p c then c :: take_while p l' else []
  end.
Definition strip_list (l : list ascii) : list ascii :=
  reverse (drop_while is_space (reverse (drop_while is_space l))).
Definition strip (s : string) : string := of_list (strip_list (to_list s)).

(** [s.split(sep)] for a one-character separator: never empty. *)
Fixpoint split_list (sep : ascii) (acc l : list ascii) : list (list ascii) :=
  match l with
  | [] => [reverse acc]
  | c :: l' =>
      if bool_decide (c = sep) then reverse acc :: split_list sep [] l'
      else split_list sep (c :: acc) l'
  end.
Definition split (sep : ascii) (s : string) : list string :=
  of_list <$> split_list sep [] (to_list s).

(** [s.split()]: the maximal runs of non-blank characters. *)
Fixpoint words_list (acc l : list ascii) : list (list ascii) :=
  match l with
  | [] => match acc with [] => [] | _ => [reverse acc] end
  | c :: l' =>
      if is_space c then
        match acc with
        | [] => words_list [] l'
        | _ => reverse acc :: words_list [] l'
        end
      else words_list (c :: acc) l'
  end.
Definition words (s : string) : list string := of_list <$> words_list [] (to_list s).

Definition join (sep : string) (l : list string) : string := String.concat sep l.
Definition startswith (s p : string) : bool := String.prefix p s.
Definition take (n : nat) (s : string) : string := of_list (firstn n (to_list s)).
Definition replace_char (a b : ascii) (s : string) : string :=
  map_str (λ c, if bool_decide (c = a) then b else c) s.
Fixpoint contains_list (p l : list ascii) : bool :=
  match l with
  | [] => bool_decide (p = [])
  | _ :: l' => bool_decide (firstn (List.length p) l = p) || contains_list p l'
  end.
(** [p in s] *)
Definition contains (p s : string) : bool := contains_list (to_list p) (to_list s).

Definition isdigit (s : string) : bool :=
  negb (bool_decide (s = ""%string)) && forallb is_digit (to_list s).
(** [re.fullmatch(r"\d{6}", s)] *)
Definition six_digits (s : string) : bool := (len s =? 6) && forallb is_digit (to_list s).

Definition digits_val (l : list ascii) : Z :=
  foldl (λ acc c, 10 * acc + digit_val c) 0 l.
(** Digits with single underscores between them, as [int()] accepts. *)
Fixpoint int_body (prev_digit : bool) (acc : Z) (l : list ascii) : option Z :=
  match l with
  | [] => if prev_digit then Some acc else None
  | c :: l' =>
      if is_digit c then int_body true (10 * acc + digit_val c) l'
      else if bool_decide (c = "_"%char) && prev_digit then int_body false acc l'
      else None
  end.
(** [int(s)] of a string; [None] is the [ValueError]. *)
Definition int (s : string) : option Z :=
  match strip_list (to_list s) with
  | "-"%char :: l => Z.opp <$> int_body false 0 l
  | "+"%char :: l => int_body false 0 l
  | l => int_body false 0 l
  end.

(** [str(n)] *)
Definition str (n : Z) : string := pretty n.
(** [f"{n:0{w}d}"] for a non-negative [n] *)
Definition zpad (w : nat) (n : Z) : string :=
  let s := str n in
  of_list (repeat "0"%char (w - String.length s)) +:+ s.

Lemma length_of_list l : String.length (of_list l) = List.length l.
Proof. induction l as [|c l IH]; simpl; [done|]. by rewrite IH. Qed.
Lemma to_of_list l : to_list (of_list l) = l.
Proof. apply list_ascii_of_string_of_list_ascii. Qed.
Lemma of_to_list s : of_list (to_list s) = s.
Proof. apply string_of_list_ascii_of_string. Qed.
Lemma length_to_list s : List.length (to_list s) = String.length s.
Proof. by rewrite <- (of_to_list s), length_of_list, to_of_list. Qed.
Lemma drop_while_suffix p l : ∃ k, l = k ++ drop_while p l.
Proof.
  induction l as [|c l [k IH]]; simpl; [by exists []|]. destruct (p c); [|by exists []].
  exists (c :: k). simpl. by f_equal.
Qed.

(** The words of a text are blank-free and not empty, and joining them with single
    blanks and splitting again gives them back. *)
Definition word (w : list ascii) : Prop := w ≠ [] ∧ ∀ c, c ∈ w → is_space c = false.
Lemma words_list_word acc l :
  (∀ c, c ∈ acc → is_space c = false) → ∀ w, w ∈ words_list acc l → word w.
Proof.
  revert acc. induction l as [|c l IH]; intros acc Hacc w; cbn [words_list].
  - destruct acc as [|a acc]; [by intros ?%not_elem_of_nil|].
    intros ->%list_elem_of_singleton. split; [|intros x; rewrite elem_of_reverse; auto].
    intros Hn. apply (f_equal List.length) in Hn. rewrite length_reverse in Hn. done.
  - destruct (is_space c) eqn:E.
    + destruct acc as [|a acc]; [by apply IH|]. intros [->|Hw]%elem_of_cons.
      * split; [|intros x; rewrite elem_of_reverse; auto].
        intros Hn. apply (f_equal List.length) in Hn. rewrite length_reverse in Hn. done.
      * revert Hw. apply IH. by intros x ?%not_elem_of_nil.
    + apply IH. intros x [->|Hx]%elem_of_cons; auto.
Qed.
Lemma words_list_prefix acc w l :
  (∀ c, c ∈ w → is_space c = false) →
  words_list acc (w ++ l) = words_list (reverse w ++ acc) l.
Proof.
  revert acc. induction w as [|c w IH]; intros acc Hw; [done|]. simpl.
  rewrite (Hw c) by left. rewrite IH by (intros x Hx; apply Hw; by right).
  by rewrite reverse_cons, <- app_assoc.
Qed.
Lemma words_list_end w : word w → words_list (reverse w) [] = [w].
Proof.
  intros [Hne _]. cbn [words_list]. destruct (reverse w) as [|c l] eqn:E.
  - apply (f_equal reverse) in E. by rewrite reverse_involutive in E.
  - by rewrite <- E, reverse_involutive.
Qed.
Lemma to_list_app a b : to_list (a +:+ b) = to_list a ++ to_list b.
Proof. induction a as [|c a IH]; [done|]. simpl. by f_equal. Qed.
Lemma words_join (ws : list (list ascii)) :
  (∀ w, w ∈ ws → word w) → words_list [] (to_list (join " " (of_list <$> ws))) = ws.
Proof.
  induction ws as [|w ws IH]; intros Hws; [done|].
  assert (word w) as Hw by (apply Hws; left). rewrite fmap_cons. destruct ws as [|w' ws].
  - change (join " " _) with (of_list w). rewrite to_of_list, <- (app_nil_r w) at 1.
    rewrite words_list_prefix by apply Hw. rewrite app_nil_r. by apply words_list_end.
  - change (join " " _) with (of_list w +:+ (" " +:+ join " " (of_list <$> w' :: ws)))%string.
    rewrite !to_list_app, to_of_list, words_list_prefix by apply Hw. rewrite app_nil_r.
    change (to_list " ") with [" "%char]. cbn [app words_list].
    replace (is_space " ") with true by done.
    rewrite IH by (intros x Hx; apply Hws; by right).
    destruct (reverse w) as [|c l] eqn:E.
    + apply (f_equal reverse) in E. rewrite reverse_involutive in E. by destruct Hw.
    + by rewrite <- E, reverse_involutive.
Qed.
Lemma words_join_words s : words (join " " (words s)) = words s.
Proof.
  unfold words. f_equal. apply words_join. apply words_list_word.
  by intros x ?%not_elem_of_nil.
Qed.
Lemma split_list_plain sep acc w : sep ∉ w → split_list sep acc w = [reverse acc ++ w].
Proof.
  revert acc. induction w as [|c w IH]; intros acc Hw; cbn [split_list]; [by rewrite app_nil_r|].
  apply not_elem_of_cons in Hw as [Hc Hw]. rewrite bool_decide_false by done. rewrite IH by done.
  by rewrite reverse_cons, <- app_assoc.
Qed.
(** Joining texts with a separator none of them has, and splitting, gives them back. *)
Lemma split_list_prefix sep acc w l :
  sep ∉ w → split_list sep acc (w ++ l) = split_list sep (reverse w ++ acc) l.
Proof.
  revert acc. induction w as [|c w IH]; intros acc Hw; [done|].
  apply not_elem_of_cons in Hw as [Hc Hw]. simpl. rewrite bool_decide_false by congruence.
  rewrite IH by done. by rewrite reverse_cons, <- app_assoc.
Qed.
Lemma split_join sep (ws : list (list ascii)) :
  ws ≠ [] → (∀ w, w ∈ ws → sep ∉ w) →
  split_list sep [] (to_list (join (of_list [sep]) (of_list <$> ws))) = ws.
Proof.
  induction ws as [|w ws IH]; [done|]. intros _ Hws.
  assert (sep ∉ w) as Hw by (apply Hws; left). rewrite fmap_cons. destruct ws as [|w' ws].
  - change (join _ _) with (of_list w). rewrite to_of_list, <- (app_nil_r w) at 1.
    rewrite split_list_prefix by done. simpl. by rewrite app_nil_r, reverse_involutive.
  - change (join _ _) with
      (of_list w +:+ (of_list [sep] +:+ join (of_list [sep]) (of_list <$> w' :: ws)))%string.
    rewrite !to_list_app, !to_of_list, split_list_prefix by done. rewrite app_nil_r.
    cbn [app split_list]. rewrite bool_decide_true by done. rewrite reverse_involutive. f_equal.
    apply IH; [done|]. intros x Hx. apply Hws. by right.
Qed.

(** Greedy runs of a class of characters. *)
Lemma take_while_app p l c l' :
  forallb p l = true → p c = false → take_while p (l ++ c :: l') = l.
Proof.
  induction l as [|x l IH]; simpl; [by intros _ ->|]. intros [Hx Hl]%andb_true_iff Hc.
  by rewrite Hx, IH.
Qed.
Lemma drop_while_app p l c l' :
  forallb p l = true → p c = false → drop_while p (l ++ c :: l') = c :: l'.
Proof.
  induction l as [|x l IH]; simpl; [by intros _ ->|]. intros [Hx Hl]%andb_true_iff Hc.
  by rewrite Hx, IH.
Qed.
Lemma take_while_all p l : forallb p l = true → take_while p l = l.
Proof. induction l as [|x l IH]; simpl; [done|]. intros [Hx Hl]%andb_true_iff. by rewrite Hx, IH. Qed.
Lemma drop_while_head p l : (∀ c, c ∈ l → p c = false) → drop_while p l = l.
Proof. destruct l as [|c l]; simpl; [done|]. intros H. by rewrite H by left. Qed.
Lemma strip_list_id l : (∀ c, c ∈ l → is_space c = false) → strip_list l = l.
Proof.
  intros H. unfold strip_list. rewrite (drop_while_head _ l) by done.
  rewrite drop_while_head by (intros c; rewrite elem_of_reverse; apply H). apply reverse_involutive.
Qed.
Lemma drop_while_idem p l : drop_while p (drop_while p l) = drop_while p l.
Proof. induction l as [|c l IH]; [done|]. simpl. destruct (p c) eqn:E; [exact IH|]. simpl. by rewrite E. Qed.
Lemma strip_strip s : strip (strip s) = strip s.
Proof.
  unfold strip, to_list, of_list. rewrite list_ascii_of_string_of_list_ascii. f_equal.
  unfold strip_list at 1. set (l2 := drop_while is_space (reverse (drop_while is_space (to_list s)))).
  change (strip_list (list_ascii_of_string s)) with (reverse l2).
  assert (drop_while is_space (reverse l2) = reverse l2) as ->.
  { destruct (drop_while_suffix is_space (reverse (drop_while is_space (to_list s)))) as [k Hk].
    apply (f_equal reverse) in Hk. rewrite reverse_involutive, reverse_app in Hk. fold l2 in Hk.
    pose proof (drop_while_idem is_space (to_list s)) as Hi. rewrite Hk in Hi.
    destruct (reverse l2) as [|c l3]; [done|]. cbn [drop_while app] in *. destruct (is_space c) eqn:E; [|done].
    exfalso. pose proof (drop_while_suffix is_space (l3 ++ reverse k)) as [k' Hk'].
    apply (f_equal List.length) in Hk', Hi. cbn [List.length] in Hi. rewrite !length_app in *. lia. }
  rewrite reverse_involutive. unfold l2 at 1. by rewrite drop_while_idem.
Qed.
(** A number of at most [w] digits, padded, is [w] digits. *)
Lemma pretty_go_digits k x s :
  (x < 10 ^ N.of_nat k)%N →
  ∃ l, (List.length l ≤ k)%nat ∧ forallb is_digit l = true ∧ to_list (pretty_N_go x s) = l ++ to_list s.
Proof.
  revert x s. induction k as [|k IH]; intros x s Hx.
  { assert (x = 0%N) as -> by (simpl in Hx; lia). by exists []. }
  destruct (decide (x = 0)%N) as [->|Hne]; [exists []; split; [simpl; lia|done]|].
  rewrite pretty_N_go_step by lia.
  destruct (IH (x `div` 10)%N (String (pretty_N_char (x `mod` 10)) s)) as (l & Hl & Hd & Heq).
  { apply N.Div0.div_lt_upper_bound. rewrite Nat2N.inj_succ, N.pow_succ_r' in Hx. lia. }
  exists (l ++ [pretty_N_char (x `mod` 10)]). split; [rewrite length_app; simpl; lia|]. split.
  - rewrite forallb_app, Hd. simpl. rewrite andb_true_r.
    unfold pretty_N_char. repeat case_match; reflexivity.
  - by rewrite Heq, <- app_assoc.
Qed.
Lemma zpad_digits w n :
  (0 < w)%nat → 0 ≤ n < 10 ^ Z.of_nat w →
  String.length (zpad w n) = w ∧ forallb is_digit (to_list (zpad w n)) = true.
Proof.
  intros Hw Hn.
  assert (∃ l, (List.length l ≤ w)%nat ∧ forallb is_digit l = true ∧ to_list (str n) = l)
    as (l & Hl & Hd & Heq).
  { unfold str. destruct n as [|p|p]; [by exists ["0"%char]| |lia].
    destruct (pretty_go_digits w (N.pos p) "") as (l & Hl & Hd & Heq).
    { apply N2Z.inj_lt. rewrite N2Z.inj_pow, nat_N_Z. apply Hn. }
    exists l. rewrite app_nil_r in Heq. split; [done|]. split; [done|]. by rewrite <- Heq. }
  assert (String.length (str n) = List.length l) as Hlen by (by rewrite <- length_to_list, Heq).
  unfold zpad. rewrite <- (length_to_list (_ +:+ _)), to_list_app, to_of_list, length_app, repeat_length,
    length_to_list, Hlen. split; [lia|].
  rewrite forallb_app, Heq, Hd, andb_true_r. apply forallb_forall. by intros x ->%repeat_spec.
Qed.
Lemma digit_val_char x : (x < 10)%N → is_digit (pretty_N_char x) = true ∧ digit_val (pretty_N_char x) = Z.of_N x.
Proof. intros H. destruct x as [|p]; [done|]. do 4 (destruct p as [p|p|]; try done; try lia). Qed.
(** The digits of a number are digits, and their value is the number. *)
Lemma pretty_go_value k x s :
  (x < 10 ^ N.of_nat k)%N → ∃ l, forallb is_digit l = true ∧ digits_val l = Z.of_N x ∧
    to_list (pretty_N_go x s) = l ++ to_list s.
Proof.
  revert x s. induction k as [|k IH]; intros x s Hx; [assert (x = 0%N) as -> by (simpl in Hx; lia); by exists []|].
  destruct (decide (x = 0)%N) as [->|Hne]; [by exists []|]. rewrite pretty_N_go_step by lia.
  destruct (IH (x `div` 10)%N (String (pretty_N_char (x `mod` 10)) s)) as (l & Hd & Hv & Heq).
  { apply N.Div0.div_lt_upper_bound. rewrite Nat2N.inj_succ, N.pow_succ_r' in Hx. lia. }
  destruct (digit_val_char (x `mod` 10)) as [Hc Hr]; [apply N.mod_lt; lia|].
  exists (l ++ [pretty_N_char (x `mod` 10)]). rewrite forallb_app, Hd, Heq, <- app_assoc. cbn [forallb andb]. rewrite Hc. split_and!; try done.
  unfold digits_val in *. rewrite foldl_app, Hv. cbn. rewrite Hr. pose proof (N.div_mod x 10). lia.
Qed.
(** A number printed reads back as itself. *)
Lemma int_body_digits b acc l :
  forallb is_digit l = true → int_body b acc l =
    match l with [] => if b then Some acc else None | _ => Some (foldl (λ acc c, 10 * acc + digit_val c) acc l) end.
Proof.
  revert b acc. induction l as [|c l IH]; intros b acc; [done|]. cbn [forallb int_body]. intros [Hc Hl]%andb_prop.
  rewrite Hc, IH by done. by destruct l.
Qed.
Lemma digit_plain c : is_digit c = true → is_space c = false ∧ c ≠ "-"%char ∧ c ≠ "+"%char.
Proof. destruct c as [[] [] [] [] [] [] [] []]; by vm_compute. Qed.
Lemma int_str n : 0 ≤ n → int (str n) = Some n.
Proof.
  intros Hn. destruct n as [|p|p]; [done| |lia].
  change (str (Z.pos p)) with (pretty_N_go (N.pos p) ""). unfold int.
  destruct (pretty_go_value (Pos.to_nat p) (N.pos p) "") as (l & Hd & Hv & Hl).
  { rewrite positive_nat_N. apply N.pow_gt_lin_r. lia. }
  rewrite app_nil_r in Hl. rewrite Hl, strip_list_id.
  - destruct l as [|c l]; [done|]. pose proof Hd as [Hc _]%andb_prop. destruct (digit_plain c Hc) as (_ & H1 & H2).
    transitivity (int_body false 0 (c :: l)); [|rewrite int_body_digits by done; f_equal; exact Hv].
    destruct c as [[] [] [] [] [] [] [] []]; done.
  - intros c Hc. rewrite forallb_elem in Hd. by apply digit_plain, Hd.
Qed.
End PyStr.

(** ** float(): the binary64 number nearest to a decimal text, and its truncation by int() *)
Module PyFloat.
Import PyStr.
(** Digits with single underscores between them: their value, their number and the rest *)
Fixpoint digit_part (started : bool) (acc n : Z) (l : list ascii) : Z * Z * list ascii :=
  match l with
  | c :: l' =>
      if is_digit c then digit_part true (10 * acc + digit_val c) (n + 1) l'
      else match l' with
           | d :: _ => if bool_decide (c = "_"%char) && started && is_digit d then digit_part false acc n l' else (acc, n, l)
           | [] => (acc, n, l)
           end
  | [] => (acc, n, l)
  end.
(** [e], a sign and digits, or nothing *)
Definition exponent (l : list ascii) : option Z :=
  match l with
  | [] => Some 0
  | c :: l =>
      if bool_decide (lower_char c = "e"%char) then
        let '(neg, l) := match l with "-"%char :: l' => (true, l') | "+"%char :: l' => (false, l') | _ => (false, l) end in
        let '(e, n, rest) := digit_part false 0 0 l in
        if (0 <? n) && bool_decide (rest = []) then Some (if neg then - e else e) else None
      else None
  end.
(** A mantissa [m] and a power of ten *)
Definition decimal (l : list ascii) : option (Z * Z) :=
  let '(m, n, rest) := digit_part false 0 0 l in
  let '(m, k, rest) := match rest with
                       | "."%char :: rest' => let '(m', k, rest'') := digit_part false m 0 rest' in (m', k, rest'')
                       | _ => (m, 0, rest)
                       end in
  if 0 <? n + k then (λ e, (m, e - k)) <$> exponent rest else None.
(** [m * 10 ^ e], rounded to nearest, ties to even *)
Definition round (neg : bool) (m e : Z) : spec_float :=
  match m with
  | Zpos _ =>
      if 0 <=? e then binary_normalize 53 1024 (if neg then - (m * 10 ^ e) else m * 10 ^ e) 0 neg
      else let '(q, x, loc) := SFdiv_core_binary 53 1024 m 0 (10 ^ (- e)) 0 in binary_round_aux 53 1024 neg q x loc
  | _ => S754_zero neg
  end.
(** [float(s)]; [None] is the [ValueError]. *)
Definition float (s : string) : option spec_float :=
  let '(neg, l) := match strip_list (to_list s) with
                   | "-"%char :: l => (true, l) | "+"%char :: l => (false, l) | l => (false, l) end in
  let word := lower (of_list l) in
  if bool_decide (word ∈ ["inf"; "infinity"]%string) then Some (S754_infinity neg)
  else if bool_decide (word = "nan"%string) then Some S754_nan
  else (λ d, round neg d.1 d.2) <$> decimal l.
Inductive Truncated := Whole (n : Z) | NotANumber | Overflow.
(** [int(x)]: towards zero; a NaN is a [ValueError], an infinity an [OverflowError]. *)
Definition truncate (x : spec_float) : Truncated :=
  match x with
  | S754_zero _ => Whole 0
  | S754_infinity _ => Overflow
  | S754_nan => NotANumber
  | S754_finite neg m e =>
      let n := if 0 <=? e then Zpos m * 2 ^ e else Zpos m / 2 ^ (- e) in Whole (if neg then - n else n)
  end.
Example floats :
  (λ s, truncate <$> float s) <$> ["40.0"; " 40 "; "-2.9"; "1_0.5e1"; "1e400"; "inf"; "NaN"; "9007199254740993"; "0.1"; "."; "4_"; "a"; "1e"]%string =
  [Some (Whole 40); Some (Whole 40); Some (Whole (-2)); Some (Whole 105); Some Overflow; Some Overflow; Some NotANumber;
   Some (Whole 9007199254740992); Some (Whole 0); None; None; None; None] ∧
  float "0.1" = Some (S754_finite false 7205759403792794 (-56)).
Proof. vm_compute. done. Qed.
End PyFloat.

(** ** urllib.parse: the query string of a URL (hosts in brackets are not modelled) *)
Module PyUrl.
Definition hex_val (c : ascii) : option Z :=
  let z := PyStr.code c in
  if PyStr.is_digit c then Some (z - 48)
  else if (65 <=? z) && (z <=? 70) then Some (z - 55)
  else if (97 <=? z) && (z <=? 102) then Some (z - 87)
  else None.
(** [unquote_plus], over bytes *)
Fixpoint unquote_plus (l : list ascii) : list ascii :=
  match l with
  | [] => []
  | c :: l' =>
      if bool_decide (c = "+"%char) then " "%char :: unquote_plus l'
      else if bool_decide (c = "%"%char) then
        match l' with
        | h1 :: h2 :: l'' =>
            match hex_val h1, hex_val h2 with
            | Some a, Some b => PyStr.chr (16 * a + b) :: unquote_plus l''
            | _, _ => c :: unquote_plus l'
            end
        | _ => c :: unquote_plus l'
        end
      else c :: unquote_plus l'
  end.
(** The text after the first [c], if there is one. *)
Fixpoint after (c : ascii) (l : list ascii) : option (list ascii) :=
  match l with
  | [] => None
  | x :: l' => if bool_decide (x = c) then Some l' else after c l'
  end.
Definition before (c : ascii) (l : list ascii) : list ascii :=
  PyStr.take_while (λ x, negb (bool_decide (x = c))) l.
Definition control (c : ascii) : bool :=
  let z := PyStr.code c in (z =? 9) || (z =? 10) || (z =? 13).
(** [urlparse(url).query] *)
Definition query (url : string) : list ascii :=
  let l := List.filter (λ c, negb (control c)) (PyStr.to_list url) in
  default [] (after "?"%char (before "#"%char l)).
(** [parse_qs(q).get(name)[0]]: blank values are dropped. *)
Definition field (name : string) (part : list ascii) : option string :=
  match after "="%char part with
  | Some (v0 :: v) =>
      if bool_decide (PyStr.of_list (unquote_plus (before "="%char part)) = name)
      then Some (PyStr.of_list (unquote_plus (v0 :: v))) else None
  | _ => None
  end.
Fixpoint first_some {A B} (f : A → option B) (l : list A) : option B :=
  match l with
  | [] => None
  | x :: l' => match f x with Some y => Some y | None => first_some f l' end
  end.
Definition parse_qs_first (name : string) (q : list ascii) : option string :=
  first_some (field name) (PyStr.split_list "&"%char [] q).
End PyUrl.

(** ** uuid.UUID of a string, and its text *)
Module PyUuid.
(** [s.replace(p, "")], and [s.strip(chars)] *)
Fixpoint remove_list (p l : list ascii) (skip : nat) : list ascii :=
  match l with
  | [] => []
  | c :: l' =>
      match skip with
      | S k => remove_list p l' k
      | O => if bool_decide (firstn (length p) l = p) then remove_list p l' (length p - 1)
             else c :: remove_list p l' O
      end
  end.
Definition strip_chars (p : ascii → bool) (l : list ascii) : list ascii :=
  reverse (PyStr.drop_while p (reverse (PyStr.drop_while p l))).
(** [int(s, 16)] *)
Fixpoint hex_body (prev_digit : bool) (acc : Z) (l : list ascii) : option Z :=
  match l with
  | [] => if prev_digit then Some acc else None
  | c :: l' =>
      match PyUrl.hex_val c with
      | Some d => hex_body true (16 * acc + d) l'
      | None => if bool_decide (c = "_"%char) && prev_digit then hex_body false acc l' else None
      end
  end.
Definition hex_unsigned (l : list ascii) : option Z :=
  match l with
  | "0"%char :: "x"%char :: "_"%char :: l' => hex_body false 0 l'
  | "0"%char :: "x"%char :: l' => hex_body false 0 l'
  | "0"%char :: "X"%char :: "_"%char :: l' => hex_body false 0 l'
  | "0"%char :: "X"%char :: l' => hex_body false 0 l'
  | _ => hex_body false 0 l
  end.
Definition int16 (l : list ascii) : option Z :=
  match PyStr.strip_list l with
  | "-"%char :: l' => Z.opp <$> hex_unsigned l'
  | "+"%char :: l' => hex_unsigned l'
  | l' => hex_unsigned l'
  end.
(** [UUID(s)], [None] being the [ValueError]. *)
Definition UUID (s : string) : option Z :=
  let l := remove_list (PyStr.to_list "urn:") (PyStr.to_list s) O in
  let l := remove_list (PyStr.to_list "uuid:") l O in
  let l := strip_chars (λ c, bool_decide (c = "{"%char ∨ c = "}"%char)) l in
  let l := List.filter (λ c, negb (bool_decide (c = "-"%char))) l in
  if negb (Nat.eqb (length l) 32) then None
  else n ← int16 l; if (0 <=? n) && (n <? 2 ^ 128) then Some n else None.
(** [str(u)] *)
Definition hex_char (d : Z) : ascii := PyStr.chr (if d <? 10 then 48 + d else 87 + d).
Fixpoint hex_digits (w : nat) (n : Z) : list ascii :=
  match w with
  | O => []
  | S w' => hex_digits w' (n / 16) ++ [hex_char (n mod 16)]
  end.
Definition str (n : Z) : string :=
  let h := hex_digits 32 n in
  let part a b := firstn b (skipn a h) in
  PyStr.of_list (part 0 8 ++ "-"%char :: part 8 4 ++ "-"%char :: part 12 4 ++ "-"%char ::
                 part 16 4 ++ "-"%char :: part 20 12)%nat.
Example parse_uuid :
  str <$> UUID "{12345678-1234-5678-1234-56781234567F}" =
  Some "12345678-1234-5678-1234-56781234567f"%string ∧
  str <$> UUID "0x_45678123456781234567812345678" =
  Some "00045678-1234-5678-1234-567812345678"%string ∧
  UUID "1234567812345678123456781234567_" = None ∧ UUID "" = None.
Proof. vm_compute. done. Qed.
End PyUuid.

(** ** Dates, times of day and instants *)
Module PyTime.
Definition usec_second : Z := 1000000.
Definition usec_minute : Z := 60 * usec_second.
Definition usec_hour : Z := 60 * usec_minute.
Definition usec_day : Z := 24 * usec_hour.
(** Asia/Manila is UTC+8, with no daylight saving. *)
Definition tz_offset : Z := 8 * usec_hour.

Definition minutes (m : Z) : Z := m * usec_minute.
Definition hours (h : Z) : Z := h * usec_hour.
Definition days (d : Z) : Z := d * usec_day.
Definition mk_time (h m : Z) : Z := h * usec_hour + m * usec_minute.
Definition valid_time (t : Z) : Prop := 0 ≤ t < usec_day.

(** [timezone.make_aware(datetime.combine(d, t))] *)
Definition aware (d t : Z) : Z := d * usec_day + t - tz_offset.
(** [timezone.localtime(i).date()] and [.time()] *)
Definition local_date (i : Z) : Z := (i + tz_offset) / usec_day.
Definition local_time (i : Z) : Z := (i + tz_offset) mod usec_day.
(** [d.weekday()], Monday being 0; 1970-01-01 was a Thursday. *)
Definition weekday (d : Z) : Z := (d + 3) mod 7.
(** [int(delta.total_seconds())]: truncation toward zero. *)
Definition int_seconds (delta : Z) : Z := Z.quot delta usec_second.

Lemma local_date_aware d t : valid_time t → local_date (aware d t) = d.
Proof.
  unfold valid_time, local_date, aware. intros.
  replace (d * usec_day + t - tz_offset + tz_offset) with (t + d * usec_day) by lia.
  rewrite Z.div_add by done. rewrite Z.div_small; [lia|done].
Qed.
Lemma local_time_aware d t : valid_time t → local_time (aware d t) = t.
Proof.
  unfold valid_time, local_time, aware. intros.
  replace (d * usec_day + t - tz_offset + tz_offset) with (t + d * usec_day) by lia.
  rewrite Z.mod_add by done. by apply Z.mod_small.
Qed.
Lemma aware_local i : aware (local_date i) (local_time i) = i.
Proof.
  unfold aware, local_date, local_time.
  pose proof (Z.div_mod (i + tz_offset) usec_day ltac:(done)). lia.
Qed.
Lemma local_time_valid i : valid_time (local_time i).
Proof. apply Z.mod_pos_bound. done. Qed.
Lemma weekday_bound d : 0 ≤ weekday d < 7.
Proof. by apply Z.mod_pos_bound. Qed.
Lemma weekday_add7 d : weekday (d + 7) = weekday d.
Proof. unfold weekday. replace (d + 7 + 3) with (d + 3 + 1 * 7) by lia. apply Z.mod_add. lia. Qed.
Lemma aware_mono d t1 t2 : aware d t1 < aware d t2 ↔ t1 < t2.
Proof. unfold aware. lia. Qed.

(** The civil calendar, for [isoformat] and [str]. *)
Definition civil (d : Z) : Z * Z * Z :=
  let z := d + 719468 in
  let era := z / 146097 in
  let doe := z - era * 146097 in
  let yoe := (doe - doe / 1460 + doe / 36524 - doe / 146096) / 365 in
  let doy := doe - (365 * yoe + yoe / 4 - yoe / 100) in
  let mp := (5 * doy + 2) / 153 in
  let day := doy - (153 * mp + 2) / 5 + 1 in
  let month := if mp <? 10 then mp + 3 else mp - 9 in
  let year := yoe + era * 400 + (if month <=? 2 then 1 else 0) in
  (year, month, day).
Definition date_str (d : Z) : string :=
  let '(y, m, dd) := civil d in
  PyStr.zpad 4 y +:+ "-" +:+ PyStr.zpad 2 m +:+ "-" +:+ PyStr.zpad 2 dd.
Definition time_str (t : Z) : string :=
  let us := t mod usec_second in
  PyStr.zpad 2 (t / usec_hour) +:+ ":" +:+
  PyStr.zpad 2 ((t / usec_minute) mod 60) +:+ ":" +:+
  PyStr.zpad 2 ((t / usec_second) mod 60) +:+
  (if us =? 0 then "" else "." +:+ PyStr.zpad 6 us).
(** [i.isoformat()] of an instant held in UTC. *)
Definition iso_utc (i : Z) : string :=
  date_str (i / usec_day) +:+ "T" +:+ time_str (i mod usec_day) +:+ "+00:00".
(** [i.strftime("%Y%m%d%H%M")] of an instant held in UTC. *)
Definition minute_key (i : Z) : string :=
  let '(y, m, d) := civil (i / usec_day) in
  let t := i mod usec_day in
  PyStr.zpad 4 y +:+ PyStr.zpad 2 m +:+ PyStr.zpad 2 d +:+
  PyStr.zpad 2 (t / usec_hour) +:+ PyStr.zpad 2 ((t / usec_minute) mod 60).
End PyTime.

(** The minute key depends on the minute only. *)
Lemma minute_key_same i j :
  i / PyTime.usec_minute = j / PyTime.usec_minute → PyTime.minute_key i = PyTime.minute_key j.
Proof.
  intros H. unfold PyTime.minute_key.
  assert (∀ x, x / PyTime.usec_day = x / PyTime.usec_minute / 1440) as Hd.
  { intros x. by rewrite Z.div_div. }
  assert (∀ x, x mod PyTime.usec_day / PyTime.usec_minute = (x / PyTime.usec_minute) mod 1440) as Hm.
  { intros x. change PyTime.usec_day with (PyTime.usec_minute * 1440).
    rewrite Z.rem_mul_r by done. rewrite Z.mul_comm, Z.div_add by done.
    rewrite (Z.div_small (x mod _)); [done|]. by apply Z.mod_pos_bound. }
  assert (∀ x, x mod PyTime.usec_day / PyTime.usec_hour =
    (x / PyTime.usec_minute) mod 1440 / 60) as Hh.
  { intros x. rewrite <- Hm, Z.div_div by done. done. }
  by rewrite !Hd, !Hm, !Hh, H.
Qed.

Example parse_t : PyUrl.parse_qs_first "t" (PyUrl.query "https://x.ph/scan?a=1&t=ab%2Dc#f")
  = Some "ab-c"%string.
Proof. vm_compute. reflexivity. Qed.
Example date_str_2026 : PyTime.date_str 20639 = "2026-07-05"%string.
Proof. vm_compute. reflexivity. Qed.
Example weekday_2026 : PyTime.weekday 20639 = 6.
Proof. reflexivity. Qed.
Example iso_utc_example :
  PyTime.iso_utc (PyTime.aware 20639 (PyTime.mk_time 9 5)) = "2026-07-05T01:05:00+00:00"%string.
Proof. vm_compute. reflexivity. Qed.
