(* ===== verification/Model.v ===== *)
(** The database: one record per Django model with the columns the modelled code
    reads or writes, one list per table in primary-key order.  Foreign keys are
    primary keys; a nullable column is an [option]; a blank [declared_modality]
    or [checkin_method] is [None].  Columns stamped by the database and read by
    no modelled code (most [created_at]) are left out. *)
From S2P Require Import Prelude Python.
Open Scope Z_scope.

(** Rows are addressed by primary key. *)
Class HasPk (R : Type) := pk : R → Z.
#[global] Hint Mode HasPk ! : typeclass_instances.

(** ** Choices *)

(** scheduling.models.Modality *)
Inductive Modality := F2F | BLENDED | ONLINE.
#[global] Instance Modality_eq_dec : EqDecision Modality.
Proof. solve_decision. Defined.

(** The stored value of a modality. *)
Definition modality_str (x : Modality) : string :=
  match x with
  | F2F => "f2f"
  | BLENDED => "blended"
  | ONLINE => "online"
  end%string.

(** scheduling.models.AcademicTerm.Status *)
Inductive TermStatus := T_DRAFT | T_ACTIVE | T_ARCHIVED.
#[global] Instance TermStatus_eq_dec : EqDecision TermStatus.
Proof. solve_decision. Defined.

(** The stored value of a term status. *)
Definition term_status_str (x : TermStatus) : string :=
  match x with
  | T_DRAFT => "draft"
  | T_ACTIVE => "active"
  | T_ARCHIVED => "archived"
  end%string.

(** scheduling.models.ScheduleStatus *)
Inductive ScheduleStatus := SCH_ACTIVE | SCH_ARCHIVED.
#[global] Instance ScheduleStatus_eq_dec : EqDecision ScheduleStatus.
Proof. solve_decision. Defined.

(** scheduling.models.SessionStatus *)
Inductive SessionStatus := SCHEDULED | ACTIVE | COMPLETED | ABSENT | CANCELLED.
#[global] Instance SessionStatus_eq_dec : EqDecision SessionStatus.
Proof. solve_decision. Defined.

(** scheduling.models.CheckinMethod *)
Inductive CheckinMethod := QR_SCAN | MANUAL_CODE | ONLINE_MANUAL | ONLINE_SELF | FORCE_HANDOVER | MERGED.
#[global] Instance CheckinMethod_eq_dec : EqDecision CheckinMethod.
Proof. solve_decision. Defined.

(** The stored value of a check-in method. *)
Definition method_str (x : CheckinMethod) : string :=
  match x with
  | QR_SCAN => "qr_scan"
  | MANUAL_CODE => "manual_code"
  | ONLINE_MANUAL => "online_manual"
  | ONLINE_SELF => "online_self"
  | FORCE_HANDOVER => "force_handover"
  | MERGED => "merged"
  end%string.

(** scheduling.models.ModalityShiftStatus *)
Inductive ModalityShiftStatus := R_PENDING | R_APPROVED | R_REJECTED | R_WITHDRAWN | R_DENIED.
#[global] Instance ModalityShiftStatus_eq_dec : EqDecision ModalityShiftStatus.
Proof. solve_decision. Defined.

(** accounts.models.Role *)
Inductive Role := FACULTY | CHECKER | IFO_ADMIN | HR_ADMIN | GUARD | DEAN | SYSTEM_ADMIN.
#[global] Instance Role_eq_dec : EqDecision Role.
Proof. solve_decision. Defined.

(** verification.models.DutyRole *)
Inductive DutyRole := DUTY_CHECKER | DUTY_GUARD.
#[global] Instance DutyRole_eq_dec : EqDecision DutyRole.
Proof. solve_decision. Defined.

(** verification.models.AssignmentScope *)
Inductive AssignmentScope := FLOOR_SCOPE | ONLINE_SCOPE.
#[global] Instance AssignmentScope_eq_dec : EqDecision AssignmentScope.
Proof. solve_decision. Defined.

(** verification.models.AssignmentType *)
Inductive AssignmentType := SHIFT | STANDING.
#[global] Instance AssignmentType_eq_dec : EqDecision AssignmentType.
Proof. solve_decision. Defined.

(** verification.models.ValidationAction *)
Inductive ValidationAction := VERIFIED | FLAG_IDENTITY_MISMATCH | FLAG_NOT_PRESENT | VERIFIED_EMPTY.
#[global] Instance ValidationAction_eq_dec : EqDecision ValidationAction.
Proof. solve_decision. Defined.

(** The stored value of a validation action. *)
Definition action_str (x : ValidationAction) : string :=
  match x with
  | VERIFIED => "verified"
  | FLAG_IDENTITY_MISMATCH => "flag_identity_mismatch"
  | FLAG_NOT_PRESENT => "flag_not_present"
  | VERIFIED_EMPTY => "verified_empty"
  end%string.

(** ** Rows *)

(** scheduling.models.AcademicTerm *)
Record AcademicTerm := {
  term_pk : Z;
  term_name : string;
  term_start : Z;
  term_end : Z;
  term_status : TermStatus
}.
#[global] Instance eta_AcademicTerm : Eta AcademicTerm := λ r, {|
  term_pk := term_pk r; term_name := term_name r; term_start := term_start r;
  term_end := term_end r; term_status := term_status r
|}.
#[global] Instance pk_AcademicTerm : HasPk AcademicTerm := term_pk.

(** scheduling.models.AcademicBreak *)
Record AcademicBreak := {
  brk_pk : Z;
  brk_term : Z;
  brk_start : Z;
  brk_end : Z;
  brk_reason : string
}.
#[global] Instance eta_AcademicBreak : Eta AcademicBreak := λ r, {|
  brk_pk := brk_pk r; brk_term := brk_term r; brk_start := brk_start r;
  brk_end := brk_end r; brk_reason := brk_reason r
|}.
#[global] Instance pk_AcademicBreak : HasPk AcademicBreak := brk_pk.

(** scheduling.models.ClassSuspension *)
Record ClassSuspension := {
  sus_pk : Z;
  sus_term : Z;
  sus_start : Z;
  sus_end : Z;
  sus_building : option Z;
  sus_reason : string;
  sus_declared_by : option Z;
  sus_lifted_at : option Z;
  sus_lifted_by : option Z
}.
#[global] Instance eta_ClassSuspension : Eta ClassSuspension := λ r, {|
  sus_pk := sus_pk r; sus_term := sus_term r; sus_start := sus_start r;
  sus_end := sus_end r; sus_building := sus_building r; sus_reason := sus_reason r;
  sus_declared_by := sus_declared_by r; sus_lifted_at := sus_lifted_at r; sus_lifted_by := sus_lifted_by r
|}.
#[global] Instance pk_ClassSuspension : HasPk ClassSuspension := sus_pk.

(** scheduling.models.Schedule *)
Record Schedule := {
  sch_pk : Z;
  sch_term : Z;
  sch_course_code : string;
  sch_section : string;
  sch_enrolled : Z;
  sch_faculty : Z;
  sch_room : Z;
  sch_day : Z;
  sch_start : Z;
  sch_end : Z;
  sch_modality : Modality;
  sch_status : ScheduleStatus
}.
#[global] Instance eta_Schedule : Eta Schedule := λ r, {|
  sch_pk := sch_pk r; sch_term := sch_term r; sch_course_code := sch_course_code r;
  sch_section := sch_section r; sch_enrolled := sch_enrolled r; sch_faculty := sch_faculty r;
  sch_room := sch_room r; sch_day := sch_day r; sch_start := sch_start r;
  sch_end := sch_end r; sch_modality := sch_modality r; sch_status := sch_status r
|}.
#[global] Instance pk_Schedule : HasPk Schedule := sch_pk.

(** scheduling.models.Session *)
Record Session := {
  ses_pk : Z;
  ses_schedule : Z;
  ses_faculty : Z;
  ses_room : Z;
  ses_date : Z;
  ses_sched_start : Z;
  ses_sched_end : Z;
  ses_status : SessionStatus;
  ses_actual_start : option Z;
  ses_actual_end : option Z;
  ses_method : option CheckinMethod;
  ses_declared : option Modality;
  ses_mod_at : option Z;
  ses_mod_by : option Z;
  ses_handover : option Z;
  ses_teams_link : string;
  ses_online_checker : option Z;
  ses_ended_early : bool;
  ses_early_reason : string;
  ses_released_at : option Z;
  ses_cancel_reason : string
}.
#[global] Instance eta_Session : Eta Session := λ r, {|
  ses_pk := ses_pk r; ses_schedule := ses_schedule r; ses_faculty := ses_faculty r;
  ses_room := ses_room r; ses_date := ses_date r; ses_sched_start := ses_sched_start r;
  ses_sched_end := ses_sched_end r; ses_status := ses_status r; ses_actual_start := ses_actual_start r;
  ses_actual_end := ses_actual_end r; ses_method := ses_method r; ses_declared := ses_declared r;
  ses_mod_at := ses_mod_at r; ses_mod_by := ses_mod_by r; ses_handover := ses_handover r;
  ses_teams_link := ses_teams_link r; ses_online_checker := ses_online_checker r; ses_ended_early := ses_ended_early r;
  ses_early_reason := ses_early_reason r; ses_released_at := ses_released_at r; ses_cancel_reason := ses_cancel_reason r
|}.
#[global] Instance pk_Session : HasPk Session := ses_pk.

(** scheduling.models.ModalityShiftRequest *)
Record ModalityShiftRequest := {
  req_pk : Z;
  req_requester : Z;
  req_dean : option Z;
  req_department : option Z;
  req_target : Modality;
  req_wstart : Z;
  req_wend : Z;
  req_is_time_move : bool;
  req_status : ModalityShiftStatus;
  req_reason : string;
  req_decided_at : option Z;
  req_decided_by : option Z
}.
#[global] Instance eta_ModalityShiftRequest : Eta ModalityShiftRequest := λ r, {|
  req_pk := req_pk r; req_requester := req_requester r; req_dean := req_dean r;
  req_department := req_department r; req_target := req_target r; req_wstart := req_wstart r;
  req_wend := req_wend r; req_is_time_move := req_is_time_move r; req_status := req_status r;
  req_reason := req_reason r; req_decided_at := req_decided_at r; req_decided_by := req_decided_by r
|}.
#[global] Instance pk_ModalityShiftRequest : HasPk ModalityShiftRequest := req_pk.

(** scheduling.models.ModalityShiftItem *)
Record ModalityShiftItem := {
  it_pk : Z;
  it_request : Z;
  it_schedule : Z;
  it_preferred : option Z;
  it_assigned : option Z;
  it_new_start : option Z;
  it_new_end : option Z
}.
#[global] Instance eta_ModalityShiftItem : Eta ModalityShiftItem := λ r, {|
  it_pk := it_pk r; it_request := it_request r; it_schedule := it_schedule r;
  it_preferred := it_preferred r; it_assigned := it_assigned r; it_new_start := it_new_start r;
  it_new_end := it_new_end r
|}.
#[global] Instance pk_ModalityShiftItem : HasPk ModalityShiftItem := it_pk.

(** accounts.models.User *)
Record User := {
  usr_pk : Z;
  usr_username : string;
  usr_email : string;
  usr_first : string;
  usr_last : string;
  usr_role : Role;
  usr_department : option Z;
  usr_active : bool;
  usr_superuser : bool;
  usr_azure_oid : option string
}.
#[global] Instance eta_User : Eta User := λ r, {|
  usr_pk := usr_pk r; usr_username := usr_username r; usr_email := usr_email r; usr_first := usr_first r; usr_last := usr_last r;
  usr_role := usr_role r; usr_department := usr_department r; usr_active := usr_active r;
  usr_superuser := usr_superuser r; usr_azure_oid := usr_azure_oid r
|}.
#[global] Instance pk_User : HasPk User := usr_pk.

(** campus.models.Building *)
Record Building := {
  bld_pk : Z;
  bld_code : string;
  bld_name : string
}.
#[global] Instance eta_Building : Eta Building := λ r, {|
  bld_pk := bld_pk r; bld_code := bld_code r; bld_name := bld_name r
|}.
#[global] Instance pk_Building : HasPk Building := bld_pk.

(** campus.models.Floor *)
Record Floor := {
  flr_pk : Z;
  flr_building : Z;
  flr_number : Z
}.
#[global] Instance eta_Floor : Eta Floor := λ r, {|
  flr_pk := flr_pk r; flr_building := flr_building r; flr_number := flr_number r
|}.
#[global] Instance pk_Floor : HasPk Floor := flr_pk.

(** campus.models.Room *)
Record Room := {
  room_pk : Z;
  room_floor : Z;
  room_code : string;
  room_name : string;
  room_capacity : Z;
  room_qr_token : string;
  room_manual_code : string;
  room_rotated_at : option Z;
  room_rotated_by : option Z;
  room_out_of_service : bool;
  room_oos_reason : string
}.
#[global] Instance eta_Room : Eta Room := λ r, {|
  room_pk := room_pk r; room_floor := room_floor r; room_code := room_code r;
  room_name := room_name r; room_capacity := room_capacity r; room_qr_token := room_qr_token r;
  room_manual_code := room_manual_code r; room_rotated_at := room_rotated_at r;
  room_rotated_by := room_rotated_by r; room_out_of_service := room_out_of_service r; room_oos_reason := room_oos_reason r
|}.
#[global] Instance pk_Room : HasPk Room := room_pk.

(** verification.models.Assignment; [asg_floors] is its many-to-many. *)
Record Assignment := {
  asg_pk : Z;
  asg_user : Z;
  asg_role : DutyRole;
  asg_floors : list Z;
  asg_type : AssignmentType;
  asg_scope : AssignmentScope;
  asg_date : option Z;
  asg_start : option Z;
  asg_end : option Z;
  asg_term : option Z;
  asg_status : string
}.
#[global] Instance eta_Assignment : Eta Assignment := λ r, {|
  asg_pk := asg_pk r; asg_user := asg_user r; asg_role := asg_role r;
  asg_floors := asg_floors r; asg_type := asg_type r; asg_scope := asg_scope r; asg_date := asg_date r;
  asg_start := asg_start r; asg_end := asg_end r; asg_term := asg_term r;
  asg_status := asg_status r
|}.
#[global] Instance pk_Assignment : HasPk Assignment := asg_pk.

(** verification.models.CheckerValidation *)
Record CheckerValidation := {
  val_pk : Z;
  val_session : option Z;
  val_room : Z;
  val_checker : Z;
  val_action : ValidationAction;
  val_identity_match : option bool;
  val_note : string;
  val_scanned_at : option Z;
  val_offline : bool
}.
#[global] Instance eta_CheckerValidation : Eta CheckerValidation := λ r, {|
  val_pk := val_pk r; val_session := val_session r; val_room := val_room r;
  val_checker := val_checker r; val_action := val_action r; val_identity_match := val_identity_match r;
  val_note := val_note r; val_scanned_at := val_scanned_at r; val_offline := val_offline r
|}.
#[global] Instance pk_CheckerValidation : HasPk CheckerValidation := val_pk.

(** verification.models.CheckerReplayReceipt *)
Record CheckerReplayReceipt := {
  rcp_pk : Z;
  rcp_uuid : Z;
  rcp_checker : Z;
  rcp_status : string;
  rcp_reason : string
}.
#[global] Instance eta_CheckerReplayReceipt : Eta CheckerReplayReceipt := λ r, {|
  rcp_pk := rcp_pk r; rcp_uuid := rcp_uuid r; rcp_checker := rcp_checker r;
  rcp_status := rcp_status r; rcp_reason := rcp_reason r
|}.
#[global] Instance pk_CheckerReplayReceipt : HasPk CheckerReplayReceipt := rcp_pk.

(** ops.models.Booking *)
Record Booking := {
  bkg_pk : Z;
  bkg_room : Z;
  bkg_created_by : option Z;
  bkg_occupant : string;
  bkg_purpose : string;
  bkg_start : Z;
  bkg_end : Z;
  bkg_status : string
}.
#[global] Instance eta_Booking : Eta Booking := λ r, {|
  bkg_pk := bkg_pk r; bkg_room := bkg_room r; bkg_created_by := bkg_created_by r;
  bkg_occupant := bkg_occupant r; bkg_purpose := bkg_purpose r; bkg_start := bkg_start r;
  bkg_end := bkg_end r; bkg_status := bkg_status r
|}.
#[global] Instance pk_Booking : HasPk Booking := bkg_pk.

(** ops.models.Notification *)
Record Notification := {
  ntf_pk : Z;
  ntf_user : Z;
  ntf_type : string;
  ntf_title : string;
  ntf_body : string;
  ntf_link : string;
  ntf_read_at : option Z;
  ntf_pushed_at : option Z
}.
#[global] Instance eta_Notification : Eta Notification := λ r, {|
  ntf_pk := ntf_pk r; ntf_user := ntf_user r; ntf_type := ntf_type r;
  ntf_title := ntf_title r; ntf_body := ntf_body r; ntf_link := ntf_link r;
  ntf_read_at := ntf_read_at r; ntf_pushed_at := ntf_pushed_at r
|}.
#[global] Instance pk_Notification : HasPk Notification := ntf_pk.

(** ops.models.NotificationMute *)
Record NotificationMute := {
  mute_pk : Z;
  mute_user : Z;
  mute_category : string
}.
#[global] Instance eta_NotificationMute : Eta NotificationMute := λ r, {|
  mute_pk := mute_pk r; mute_user := mute_user r; mute_category := mute_category r
|}.
#[global] Instance pk_NotificationMute : HasPk NotificationMute := mute_pk.

(** JSON values, of [AuditLog.payload] and of request bodies; a float by its text. *)
Inductive json :=
  | JNull | JBool (b : bool) | JInt (z : Z) | JFloat (s : string) | JStr (s : string)
  | JList (l : list json) | JObj (l : list (string * json)).

(** ops.models.AuditLog *)
Record AuditLog := {
  log_pk : Z;
  log_actor : option Z;
  log_event : string;
  log_target_type : string;
  log_target_id : string;
  log_payload : json
}.
#[global] Instance eta_AuditLog : Eta AuditLog := λ r, {|
  log_pk := log_pk r; log_actor := log_actor r; log_event := log_event r;
  log_target_type := log_target_type r; log_target_id := log_target_id r; log_payload := log_payload r
|}.
#[global] Instance pk_AuditLog : HasPk AuditLog := log_pk.

(** ops.models.RoomConflictFlag *)
Record RoomConflictFlag := {
  flag_pk : Z;
  flag_room : Z;
  flag_key : string;
  flag_resolved_at : option Z
}.
#[global] Instance eta_RoomConflictFlag : Eta RoomConflictFlag := λ r, {|
  flag_pk := flag_pk r; flag_room := flag_room r; flag_key := flag_key r;
  flag_resolved_at := flag_resolved_at r
|}.
#[global] Instance pk_RoomConflictFlag : HasPk RoomConflictFlag := flag_pk.

(** ops.models.JobRun *)
Record JobRun := {
  job_pk : Z;
  job_name : string;
  job_status : string;
  job_started_at : Z;
  job_finished_at : option Z;
  job_rows : Z;
  job_detail : string
}.
#[global] Instance eta_JobRun : Eta JobRun := λ r, {|
  job_pk := job_pk r; job_name := job_name r; job_status := job_status r;
  job_started_at := job_started_at r; job_finished_at := job_finished_at r; job_rows := job_rows r;
  job_detail := job_detail r
|}.
#[global] Instance pk_JobRun : HasPk JobRun := job_pk.

(** ops.models.SystemSetting *)
Record SystemSetting := {
  set_pk : Z;
  set_key : string;
  set_value : string
}.
#[global] Instance eta_SystemSetting : Eta SystemSetting := λ r, {|
  set_pk := set_pk r; set_key := set_key r; set_value := set_value r
|}.
#[global] Instance pk_SystemSetting : HasPk SystemSetting := set_pk.

(** ops.models.ImportStaging *)
Record ImportStaging := {
  stg_pk : Z;
  stg_token : string;
  stg_user : Z;
  stg_term : option Z;
  stg_original_name : string;
  stg_stored_path : string;
  stg_size : Z;
  stg_created_at : Z;
  stg_consumed_at : option Z
}.
#[global] Instance eta_ImportStaging : Eta ImportStaging := λ r, {|
  stg_pk := stg_pk r; stg_token := stg_token r; stg_user := stg_user r;
  stg_term := stg_term r; stg_original_name := stg_original_name r; stg_stored_path := stg_stored_path r;
  stg_size := stg_size r; stg_created_at := stg_created_at r; stg_consumed_at := stg_consumed_at r
|}.
#[global] Instance pk_ImportStaging : HasPk ImportStaging := stg_pk.

(** ops.models.SharedCacheEntry, the table of Django's database cache. *)
Record CacheEntry := {
  ce_key : string;
  ce_value : json;
  ce_expires : Z
}.
#[global] Instance eta_CacheEntry : Eta CacheEntry := λ r, {|
  ce_key := ce_key r; ce_value := ce_value r; ce_expires := ce_expires r
|}.

(** The whole database. *)
Record DB := {
  db_terms : list AcademicTerm;
  db_breaks : list AcademicBreak;
  db_suspensions : list ClassSuspension;
  db_schedules : list Schedule;
  db_sessions : list Session;
  db_requests : list ModalityShiftRequest;
  db_items : list ModalityShiftItem;
  db_users : list User;
  db_buildings : list Building;
  db_floors : list Floor;
  db_rooms : list Room;
  db_assignments : list Assignment;
  db_validations : list CheckerValidation;
  db_receipts : list CheckerReplayReceipt;
  db_bookings : list Booking;
  db_notifications : list Notification;
  db_mutes : list NotificationMute;
  db_audit : list AuditLog;
  db_flags : list RoomConflictFlag;
  db_jobruns : list JobRun;
  db_settings : list SystemSetting;
  db_stagings : list ImportStaging;
  db_cache : list CacheEntry
}.
#[global] Instance eta_DB : Eta DB := λ r, {|
  db_terms := db_terms r; db_breaks := db_breaks r; db_suspensions := db_suspensions r;
  db_schedules := db_schedules r; db_sessions := db_sessions r; db_requests := db_requests r;
  db_items := db_items r; db_users := db_users r; db_buildings := db_buildings r;
  db_floors := db_floors r; db_rooms := db_rooms r; db_assignments := db_assignments r;
  db_validations := db_validations r; db_receipts := db_receipts r; db_bookings := db_bookings r;
  db_notifications := db_notifications r; db_mutes := db_mutes r; db_audit := db_audit r;
  db_flags := db_flags r; db_jobruns := db_jobruns r; db_settings := db_settings r;
  db_stagings := db_stagings r; db_cache := db_cache r
|}.

Definition empty_db : DB := {|
  db_terms := []; db_breaks := []; db_suspensions := []; db_schedules := [];
  db_sessions := []; db_requests := []; db_items := []; db_users := [];
  db_buildings := []; db_floors := []; db_rooms := []; db_assignments := [];
  db_validations := []; db_receipts := []; db_bookings := [];
  db_notifications := []; db_mutes := []; db_audit := []; db_flags := [];
  db_jobruns := []; db_settings := []; db_stagings := []; db_cache := []
|}.

(** ** Tables

    [by_pk] is [objects.filter(pk=k).first()], [update_where p f] the filtered
    [.update(...)], [update_pk] the row write of [save(update_fields=...)],
    [fresh_pk] the key the database gives to an inserted row. *)
Section tables.
Context {R : Type} `{!HasPk R}.
Implicit Types (t : list R) (k : Z).

Definition by_pk t k : option R := List.find (λ r, pk r =? k) t.
Definition update_where (p : R → bool) (f : R → R) t : list R :=
  (λ r, if p r then f r else r) <$> t.
Definition update_pk k (f : R → R) t : list R := update_where (λ r, pk r =? k) f t.
Definition fresh_pk t : Z := 1 + foldr (λ r m, Z.max (pk r) m) 0 t.
Definition delete_pk k t : list R := select (λ r, negb (pk r =? k)) t.
(** Primary keys are unique: a constraint of every table. *)
Definition pk_unique t : Prop := NoDup (pk <$> t).

Lemma by_pk_elem t k r : by_pk t k = Some r → r ∈ t ∧ pk r = k.
Proof. intros [? ?]%find_elem. by b2p. Qed.
Lemma by_pk_None t k : by_pk t k = None ↔ ∀ r, r ∈ t → pk r ≠ k.
Proof.
  unfold by_pk. rewrite find_elem_None.
  split; intros H r Hr; specialize (H r Hr); cbn in *; by b2p.
Qed.
Lemma by_pk_unique t k r : pk_unique t → r ∈ t → pk r = k → by_pk t k = Some r.
Proof.
  unfold by_pk, pk_unique. induction t as [|x t IH]; [by intros ? ?%not_elem_of_nil|].
  rewrite fmap_cons, NoDup_cons. intros [Hx Hnd] [->|Hr]%elem_of_cons Hk; simpl.
  - by rewrite (proj2 (Z.eqb_eq _ _)).
  - destruct (Z.eqb_spec (pk x) k) as [Hk'|]; [|auto].
    destruct Hx. apply list_elem_of_fmap. exists r. split; [congruence|done].
Qed.

Lemma pk_inj t r r' : pk_unique t → r ∈ t → r' ∈ t → pk r = pk r' → r = r'.
Proof.
  intros Hnd Hr Hr' Heq. pose proof (by_pk_unique t _ r Hnd Hr Heq).
  pose proof (by_pk_unique t _ r' Hnd Hr' eq_refl). congruence.
Qed.

Lemma fresh_pk_gt t r : r ∈ t → pk r < fresh_pk t.
Proof.
  unfold fresh_pk. induction t as [|x t IH]; [by intros ?%not_elem_of_nil|].
  intros [->|Hr]%elem_of_cons; simpl; [|specialize (IH Hr)]; lia.
Qed.
Lemma fresh_pk_None t : by_pk t (fresh_pk t) = None.
Proof. apply by_pk_None. intros r Hr%fresh_pk_gt. lia. Qed.

Lemma pk_unique_insert t r : pk_unique t → pk r = fresh_pk t → pk_unique (t ++ [r]).
Proof.
  unfold pk_unique. rewrite fmap_app, NoDup_app. intros Hnd Hr. split; [done|].
  split; [|apply NoDup_singleton]. intros k (x & -> & Hx)%list_elem_of_fmap.
  intros Hin%list_elem_of_singleton. apply fresh_pk_gt in Hx. simpl in Hin. lia.
Qed.

Lemma update_where_pks p f t :
  (∀ r, pk (f r) = pk r) → pk <$> update_where p f t = pk <$> t.
Proof.
  intros Hf. unfold update_where. rewrite <- list_fmap_compose.
  apply list_fmap_ext. intros i r _. simpl. destruct (p r); [apply Hf|done].
Qed.
Lemma pk_unique_update p f t :
  (∀ r, pk (f r) = pk r) → pk_unique t → pk_unique (update_where p f t).
Proof. intros Hf. unfold pk_unique. by rewrite update_where_pks. Qed.
Lemma fresh_pk_update p f t :
  (∀ r, pk (f r) = pk r) → fresh_pk (update_where p f t) = fresh_pk t.
Proof.
  intros Hf. unfold fresh_pk, update_where. f_equal.
  induction t as [|x t IH]; [done|]. rewrite fmap_cons. simpl. rewrite IH.
  destruct (p x); [by rewrite Hf|done].
Qed.
Lemma elem_of_update_where p f t r' :
  r' ∈ update_where p f t ↔ ∃ r, r ∈ t ∧ r' = if p r then f r else r.
Proof. unfold update_where. rewrite list_elem_of_fmap. naive_solver. Qed.
Lemma by_pk_update_where p f t k :
  (∀ r, pk (f r) = pk r) →
  by_pk (update_where p f t) k = (λ r, if p r then f r else r) <$> by_pk t k.
Proof.
  intros Hf. unfold by_pk, update_where. induction t as [|x t IH]; [done|].
  rewrite fmap_cons. simpl. rewrite IH.
  assert (pk (if p x then f x else x) = pk x) as -> by (destruct (p x); auto).
  by destruct (pk x =? k).
Qed.
Lemma by_pk_update_eq k f t :
  (∀ r, pk (f r) = pk r) → by_pk (update_pk k f t) k = f <$> by_pk t k.
Proof.
  intros Hf. unfold update_pk. rewrite by_pk_update_where by done.
  destruct (by_pk t k) as [r|] eqn:E; [|done].
  apply by_pk_elem in E as [_ E]. simpl. by rewrite (proj2 (Z.eqb_eq _ _)).
Qed.
Lemma by_pk_update_ne k k' f t :
  (∀ r, pk (f r) = pk r) → k ≠ k' → by_pk (update_pk k f t) k' = by_pk t k'.
Proof.
  intros Hf Hne. unfold update_pk. rewrite by_pk_update_where by done.
  destruct (by_pk t k') as [r|] eqn:E; [|done].
  apply by_pk_elem in E as [_ E]. simpl. by rewrite (proj2 (Z.eqb_neq _ _)) by congruence.
Qed.
Lemma update_where_none p f t : (∀ r, r ∈ t → p r = false) → update_where p f t = t.
Proof.
  intros H. unfold update_where. rewrite <- (list_fmap_id t) at 2.
  apply list_fmap_ext. intros i r Hr%list_elem_of_lookup_2. by rewrite H.
Qed.
Lemma update_where_ext p q f g t :
  (∀ r, r ∈ t → p r = q r) → (∀ r, r ∈ t → p r = true → f r = g r) →
  update_where p f t = update_where q g t.
Proof.
  intros Hpq Hfg. unfold update_where. apply list_fmap_ext.
  intros i r Hr%list_elem_of_lookup_2. rewrite <- (Hpq r) by done.
  destruct (p r) eqn:E; auto.
Qed.
Lemma update_where_twice p q f g t :
  update_where q g (update_where p f t) =
  (λ r, let r' := if p r then f r else r in if q r' then g r' else r') <$> t.
Proof. unfold update_where. by rewrite <- list_fmap_compose. Qed.

Lemma by_pk_app_old t1 t2 k r : by_pk t1 k = Some r → by_pk (t1 ++ t2) k = Some r.
Proof.
  unfold by_pk. induction t1 as [|x t1 IH]; [done|]. simpl.
  by destruct (pk x =? k).
Qed.
Lemma by_pk_app_new t k r : by_pk t k = None → pk r = k → by_pk (t ++ [r]) k = Some r.
Proof.
  unfold by_pk. intros Hn Hr. induction t as [|x t IH]; simpl in *.
  - by rewrite (proj2 (Z.eqb_eq _ _)).
  - destruct (pk x =? k); [done|auto].
Qed.
Lemma fresh_pk_snoc t r : pk r = fresh_pk t → fresh_pk (t ++ [r]) = fresh_pk t + 1.
Proof.
  unfold fresh_pk. intros Hr. rewrite foldr_app. simpl.
  assert (∀ m, 0 ≤ m → foldr (λ r m, Z.max (pk r) m) m t = Z.max m (foldr (λ r m, Z.max (pk r) m) 0 t))
    as Hm.
  { clear. intros m Hm. induction t as [|x t IH]; simpl; [lia|]. rewrite IH. lia. }
  assert (0 ≤ foldr (λ r m, Z.max (pk r) m) 0 t) by (clear; induction t; simpl; lia).
  rewrite Hm by lia. lia.
Qed.
(** Writing the row just inserted leaves the others alone. *)
Lemma update_pk_snoc t r k f :
  (∀ x, x ∈ t → pk x ≠ k) → pk r = k → update_pk k f (t ++ [r]) = t ++ [f r].
Proof.
  intros Ht Hr. unfold update_pk, update_where. rewrite fmap_app. f_equal.
  - rewrite <- (list_fmap_id t) at 2. apply list_fmap_ext.
    intros i x Hx%list_elem_of_lookup_2. by rewrite (proj2 (Z.eqb_neq _ _)) by auto.
  - simpl. by rewrite (proj2 (Z.eqb_eq _ _)).
Qed.
(** A filter on a key and a guard sees at most the row of that key. *)
Lemma select_pk p t k :
  pk_unique t →
  select (λ r, (pk r =? k) && p r) t =
  match by_pk t k with Some r => if p r then [r] else [] | None => [] end.
Proof.
  unfold by_pk, pk_unique. induction t as [|x t IH]; intros Hnd; [done|].
  rewrite fmap_cons in Hnd. apply NoDup_cons in Hnd as [Hx Hnd].
  rewrite select_cons, IH by done. simpl. destruct (Z.eqb_spec (pk x) k) as [<-|]; simpl; [|done].
  assert (List.find (λ r, pk r =? pk x) t = None) as ->; [|by destruct (p x)].
  apply find_elem_None. intros r Hr. apply Z.eqb_neq. intros Heq. apply Hx.
  apply list_elem_of_fmap. eauto.
Qed.
Lemma update_where_length p f t : length (update_where p f t) = length t.
Proof. apply length_fmap. Qed.
Lemma by_pk_insert t r : pk r = fresh_pk t → by_pk (t ++ [r]) (fresh_pk t) = Some r.
Proof. intros Hr. apply by_pk_app_new; [apply fresh_pk_None|done]. Qed.
End tables.

(** [existing t k] is [filter(pk=k).exists()]. *)
Definition existing {R} `{!HasPk R} (t : list R) (k : Z) : bool :=
  existsb (λ r, pk r =? k) t.

(** ** Unique columns and references to a table *)
Section columns.
Context {R B : Type} `{!HasPk R}.
Implicit Types (t : list R) (c : R → B).

(** Writing one row leaves the rows around it alone. *)
Lemma update_pk_split t k r :
  pk_unique t → by_pk t k = Some r →
  ∃ t1 t2, t = t1 ++ r :: t2 ∧ ∀ f, update_pk k f t = t1 ++ f r :: t2.
Proof.
  unfold pk_unique, by_pk. induction t as [|x t IH]; [done|]. rewrite fmap_cons, NoDup_cons.
  intros [Hx Hnd]. simpl. destruct (pk x =? k) eqn:E; b2p.
  - intros [= <-]. exists [], t. split; [done|]. intros f.
    change (update_pk k f (x :: t)) with ((if pk x =? k then f x else x) :: update_pk k f t).
    rewrite ?(proj2 (Z.eqb_eq _ _)) by done. simpl. f_equal. unfold update_pk, update_where.
    rewrite <- (list_fmap_id t) at 2. apply list_fmap_ext. intros i y Hy%list_elem_of_lookup_2.
    rewrite (proj2 (Z.eqb_neq _ _)); [done|]. intros Hk. apply Hx. rewrite E, <- Hk.
    apply list_elem_of_fmap. eauto.
  - intros H. destruct (IH Hnd H) as (t1 & t2 & -> & Hf). exists (x :: t1), t2. split; [done|].
    intros f. change (update_pk k f (x :: t1 ++ r :: t2)) with
      ((if pk x =? k then f x else x) :: update_pk k f (t1 ++ r :: t2)).
    rewrite ?(proj2 (Z.eqb_neq _ _)) by done. by rewrite Hf.
Qed.
Lemma column_insert c t r :
  NoDup (c <$> t) → (∀ x, x ∈ t → c x ≠ c r) → NoDup (c <$> t ++ [r]).
Proof.
  intros Hnd Hr. rewrite fmap_app, NoDup_app. split; [done|]. split; [|apply NoDup_singleton].
  intros y (x & -> & Hx)%list_elem_of_fmap Hy%list_elem_of_singleton. by apply (Hr x Hx).
Qed.
Lemma column_update c t k f :
  pk_unique t → NoDup (c <$> t) →
  (∀ r x, by_pk t k = Some r → x ∈ t → pk x ≠ k → c x ≠ c (f r)) → NoDup (c <$> update_pk k f t).
Proof.
  intros Hpk Hnd Hf. destruct (by_pk t k) as [r|] eqn:E.
  - pose proof E as [Hin Hr]%by_pk_elem.
    destruct (update_pk_split t k r Hpk E) as (t1 & t2 & -> & ->).
    revert Hnd. rewrite !fmap_app, !fmap_cons, !NoDup_app. setoid_rewrite NoDup_cons.
    intros (H1 & H2 & H3 & H4).
    assert (∀ x, x ∈ t1 ++ t2 → c x ≠ c (f r)) as Hne.
    { intros x Hx. apply Hf; [done|set_solver|]. unfold pk_unique in Hpk.
      rewrite fmap_app, fmap_cons, NoDup_app, NoDup_cons in Hpk. destruct Hpk as (_ & Hd & Hd' & _).
      apply elem_of_app in Hx as [Hx|Hx]; intros Heq.
      - apply (Hd (pk x)); [apply list_elem_of_fmap; eauto|]. rewrite Heq, <- Hr. left.
      - apply Hd'. rewrite Hr, <- Heq. apply list_elem_of_fmap; eauto. }
    split_and!; [done| | |done].
    + intros y Hy [->|Hy']%elem_of_cons; [|apply (H2 y Hy); by right].
      apply list_elem_of_fmap in Hy as (x & Hx & Hin'). apply (Hne x); [set_solver|done].
    + intros (x & Hx & Hin')%list_elem_of_fmap. apply (Hne x); [set_solver|done].
  - unfold update_pk. rewrite update_where_none; [done|]. intros x Hx. apply Z.eqb_neq.
    rewrite by_pk_None in E. auto.
Qed.
Lemma column_same c t k f : (∀ x, c (f x) = c x) → c <$> update_pk k f t = c <$> t.
Proof.
  intros Hf. unfold update_pk, update_where. rewrite <- list_fmap_compose. apply list_fmap_ext.
  intros i x _. simpl. destruct (pk x =? k); [apply Hf|done].
Qed.
End columns.
Section existing.
Context {R : Type} `{!HasPk R}.
Implicit Types (t : list R).
Lemma existing_elem t k : existing t k = true ↔ ∃ r, r ∈ t ∧ pk r = k.
Proof. unfold existing. rewrite existsb_elem. by setoid_rewrite Z.eqb_eq. Qed.
Lemma existing_app t t' k : existing t k = true → existing (t ++ t') k = true.
Proof. rewrite !existing_elem. intros (r & Hr & Hk). exists r. split; [|done]. apply elem_of_app; auto. Qed.
Lemma existing_update t k' f k : (∀ r, pk (f r) = pk r) → existing (update_pk k' f t) k = existing t k.
Proof.
  intros Hf. unfold existing, update_pk, update_where. induction t as [|x t IH]; [done|]. rewrite fmap_cons. simpl.
  rewrite IH. by destruct (pk x =? k'); rewrite ?Hf.
Qed.
Lemma existing_delete t k k' : k' ≠ k → existing t k' = true → existing (delete_pk k t) k' = true.
Proof.
  rewrite !existing_elem. intros Hne (r & Hr & Hk). exists r. split; [|done].
  apply elem_of_select. split; [done|]. rewrite negb_true_iff, Z.eqb_neq. congruence.
Qed.
End existing.

(** ** Reads shared by several components *)

(** [session.declared_modality or session.schedule.modality], [None] only when
    the schedule row is missing, which the foreign key rules out. *)
Definition effective_modality (db : DB) (s : Session) : option Modality :=
  match ses_declared s with
  | Some m => Some m
  | None => sch_modality <$> by_pk (db_schedules db) (ses_schedule s)
  end.
Definition effective_online (db : DB) (s : Session) : bool :=
  bool_decide (effective_modality db s = Some ONLINE).
(** [session.schedule.term_id] *)
Definition session_term (db : DB) (s : Session) : option Z :=
  sch_term <$> by_pk (db_schedules db) (ses_schedule s).
(** The lookup [schedule__term=t]. *)
Definition in_term (db : DB) (t : Z) (s : Session) : bool :=
  bool_decide (session_term db s = Some t).
(** [room.floor.building_id] *)
Definition room_building (db : DB) (r : Z) : option Z :=
  room ← by_pk (db_rooms db) r;
  flr_building <$> by_pk (db_floors db) (room_floor room).
Definition has_status (st : SessionStatus) (s : Session) : bool :=
  bool_decide (ses_status s = st).
Definition is_some {A} (o : option A) : bool :=
  match o with Some _ => true | None => false end.
Definition is_none {A} (o : option A) : bool := negb (is_some o).
(** [Room.is_virtual] *)
Definition is_virtual (r : Room) : bool := PyStr.startswith (PyStr.upper (room_code r)) "V".
(** [user.get_full_name()] *)
Definition usr_full_name (u : User) : string :=
  PyStr.strip (usr_first u +:+ " " +:+ usr_last u).
(** [user.get_full_name() or user.username] *)
Definition display_name (u : User) : string :=
  if bool_decide (usr_full_name u = ""%string) then usr_username u else usr_full_name u.
(** [Session.verified_by_checker] *)
Definition verified_by_checker (db : DB) (s : Session) : bool :=
  existsb (λ v, bool_decide (val_session v = Some (ses_pk s))
                && bool_decide (val_action v = VERIFIED)) (db_validations db).
