(* ===== verification/Effects.v ===== *)
(** Effects: computations over the database that may raise.

    [M A] is a computation from a database to a result or an exception, and a
    database.  A write made before an exception persists, as in autocommit mode;
    [atomic] is [transaction.atomic()], which restores the database of its entry
    when its body raises. The operations
    themselves are in Ops.v. *)
From S2P Require Import Prelude Python Model.
Open Scope Z_scope.

(** ** Exceptions *)
Inductive exn :=
  | ModalityShiftError (msg : string)
  | NoRoomAvailable (reason : string)
  | NoActiveTermError (msg : string)
  | ArchivedTermError (msg : string)
  | MaterializationError (msg : string)
  | TermLifecycleError (msg : string) (blockers warnings : list string)
  | ScheduleConflictError (msg : string)
  | ManualCodeExhausted (msg : string)
  | ImportStagingError (msg : string)
  | CommandError (msg : string)
  | DoesNotExist
  | MultipleObjectsReturned
  | IntegrityError
  | ProtectedError
  | DatabaseError
  | KeyError (k : string)
  | TypeErr
  | AttributeErr
  | ValueErr
  | OverflowErr
  | PermissionDenied
  | OSErr.
#[global] Instance exn_eq_dec : EqDecision exn.
Proof. solve_decision. Defined.

(** ** The state and exception monad *)
Definition M (A : Type) : Type := DB → (exn + A) * DB.

#[global] Instance M_ret : MRet M := λ A a db, (inr a, db).
#[global] Instance M_bind : MBind M := λ A B k m db,
  match m db with
  | (inr a, db') => k a db'
  | (inl e, db') => (inl e, db')
  end.
#[global] Instance M_fmap : FMap M := λ A B f m db,
  match m db with
  | (inr a, db') => (inr (f a), db')
  | (inl e, db') => (inl e, db')
  end.
Definition raise {A} (e : exn) : M A := λ db, (inl e, db).
Definition read {A} (f : DB → A) : M A := λ db, (inr (f db), db).
Definition write (f : DB → DB) : M unit := λ db, (inr (), f db).
Definition atomic {A} (m : M A) : M A := λ db,
  match m db with
  | (inr a, db') => (inr a, db')
  | (inl e, _) => (inl e, db)
  end.
(** [try: m except e: h e], [h] deciding which exceptions it handles. *)
Definition try_with {A} (m : M A) (h : exn → option (M A)) : M A := λ db,
  match m db with
  | (inr a, db') => (inr a, db')
  | (inl e, db') => match h e with Some m' => m' db' | None => (inl e, db') end
  end.
Definition guard_m (b : bool) (e : exn) : M unit := if b then mret () else raise e.
Definition of_option {A} (e : exn) (o : option A) : M A :=
  match o with Some a => mret a | None => raise e end.
Definition when (b : bool) (m : M unit) : M unit := if b then m else mret ().

Fixpoint for_each {A} (l : list A) (f : A → M unit) : M unit :=
  match l with
  | [] => mret ()
  | x :: l' => f x ≫= λ _, for_each l' f
  end.
Fixpoint fold_m {A B} (f : B → A → M B) (b : B) (l : list A) : M B :=
  match l with
  | [] => mret b
  | x :: l' => f b x ≫= λ b', fold_m f b' l'
  end.

Definition run {A} (m : M A) (db : DB) : exn + A := fst (m db).
Definition exec {A} (m : M A) (db : DB) : DB := snd (m db).

(** ** Weakest preconditions

    [wp m Q db]: running [m] in [db] ends in a result and a database that
    satisfy [Q].  The rules below compute it along the code. *)
Definition wp {A} (m : M A) (Q : exn + A → DB → Prop) (db : DB) : Prop :=
  Q (fst (m db)) (snd (m db)).

Section wp.
Context {A B : Type}.
Implicit Types (db : DB).

Lemma wp_ret (a : A) (Q : exn + A → DB → Prop) db : Q (inr a) db → wp (mret a) Q db.
Proof. done. Qed.
Lemma wp_raise e (Q : exn + A → DB → Prop) db : Q (inl e) db → wp (raise e) Q db.
Proof. done. Qed.
Lemma wp_read (f : DB → A) Q db : Q (inr (f db)) db → wp (read f) Q db.
Proof. done. Qed.
Lemma wp_write f (Q : exn + unit → DB → Prop) db : Q (inr ()) (f db) → wp (write f) Q db.
Proof. done. Qed.
Lemma wp_bind (m : M A) (k : A → M B) Q db :
  wp m (λ r db', match r with inl e => Q (inl e) db' | inr a => wp (k a) Q db' end) db →
  wp (m ≫= k) Q db.
Proof. unfold wp, mbind, M_bind. by destruct (m db) as [[e|a] db']. Qed.
Lemma wp_fmap (m : M A) (f : A → B) Q db :
  wp m (λ r db', match r with inl e => Q (inl e) db' | inr a => Q (inr (f a)) db' end) db →
  wp (f <$> m) Q db.
Proof. unfold wp, fmap, M_fmap. by destruct (m db) as [[e|a] db']. Qed.
Lemma wp_atomic (m : M A) Q db :
  wp m (λ r db', match r with inl e => Q (inl e) db | inr a => Q (inr a) db' end) db →
  wp (atomic m) Q db.
Proof. unfold wp, atomic. by destruct (m db) as [[e|a] db']. Qed.
Lemma wp_try (m : M A) h Q db :
  wp m (λ r db', match r with
                 | inl e => match h e with Some m' => wp m' Q db' | None => Q (inl e) db' end
                 | inr a => Q (inr a) db' end) db →
  wp (try_with m h) Q db.
Proof. unfold wp, try_with. destruct (m db) as [[e|a] db']; [|done]. simpl. by destruct (h e). Qed.
Lemma wp_mono (m : M A) (Q Q' : exn + A → DB → Prop) db :
  wp m Q db → (∀ r db', Q r db' → Q' r db') → wp m Q' db.
Proof. unfold wp. auto. Qed.
Lemma wp_and (m : M A) (Q Q' : exn + A → DB → Prop) db :
  wp m Q db → wp m Q' db → wp m (λ r db', Q r db' ∧ Q' r db') db.
Proof. done. Qed.
Lemma wp_guard b e (Q : exn + unit → DB → Prop) db :
  (b = true → Q (inr ()) db) → (b = false → Q (inl e) db) → wp (guard_m b e) Q db.
Proof. unfold wp. destruct b; simpl; eauto. Qed.
Lemma wp_of_option e (o : option A) Q db :
  (∀ a, o = Some a → Q (inr a) db) → (o = None → Q (inl e) db) → wp (of_option e o) Q db.
Proof. unfold wp. destruct o; simpl; eauto. Qed.
Lemma wp_when b (m : M unit) (Q : exn + unit → DB → Prop) db :
  (b = true → wp m Q db) → (b = false → Q (inr ()) db) → wp (when b m) Q db.
Proof. unfold wp. destruct b; simpl; eauto. Qed.

End wp.

Section wp_loops.
Context {A B : Type}.

(** Loops: an invariant over the iterations already done; the body may leave
    the loop by an exception, which [E] then describes. *)
Lemma wp_for_each (l : list A) (f : A → M unit) (I : list A → DB → Prop)
    (E : exn → DB → Prop) db :
  I [] db →
  (∀ done x todo db', l = done ++ x :: todo → I done db' →
     wp (f x) (λ r db'', match r with inl e => E e db'' | inr _ => I (done ++ [x]) db'' end) db') →
  wp (for_each l f) (λ r db', match r with inl e => E e db' | inr _ => I l db' end) db.
Proof.
  intros H0 Hstep.
  enough (∀ todo done db', l = done ++ todo → I done db' →
    wp (for_each todo f) (λ r db'', match r with inl e => E e db'' | inr _ => I l db'' end) db')
    as H by by apply (H l []).
  induction todo as [|x todo IH]; intros done db' Hl HI; simpl.
  - rewrite app_nil_r in Hl. by subst.
  - apply wp_bind. eapply wp_mono; [by eapply Hstep|].
    intros [e|[]] db''; [done|]. apply IH. by rewrite <- app_assoc.
Qed.
Lemma wp_fold_m (l : list A) (f : B → A → M B) (b : B) (I : list A → B → DB → Prop)
    (E : exn → DB → Prop) db :
  I [] b db →
  (∀ done x todo b' db', l = done ++ x :: todo → I done b' db' →
     wp (f b' x) (λ r db'', match r with inl e => E e db'' | inr c => I (done ++ [x]) c db'' end) db') →
  wp (fold_m f b l) (λ r db', match r with inl e => E e db' | inr c => I l c db' end) db.
Proof.
  intros H0 Hstep.
  enough (∀ todo done b' db', l = done ++ todo → I done b' db' →
    wp (fold_m f b' todo) (λ r db'', match r with inl e => E e db'' | inr c => I l c db'' end) db')
    as H by by apply (H l []).
  induction todo as [|x todo IH]; intros done b' db' Hl HI; simpl.
  - rewrite app_nil_r in Hl. by subst.
  - apply wp_bind. eapply wp_mono; [by eapply Hstep|].
    intros [e|c] db''; [done|]. apply IH. by rewrite <- app_assoc.
Qed.
End wp_loops.

Lemma wp_run {A} (m : M A) Q db r db' : wp m Q db → m db = (r, db') → Q r db'.
Proof. unfold wp. intros H Hm. by rewrite Hm in H. Qed.
Lemma wp_intro {A} (m : M A) (Q : exn + A → DB → Prop) db :
  (∀ r db', m db = (r, db') → Q r db') → wp m Q db.
Proof. unfold wp. destruct (m db) as [r db']. intros H. by apply H. Qed.

(** One step of symbolic execution. *)
Ltac wp_step :=
  lazymatch goal with
  | |- wp (mret _) _ _ => apply wp_ret
  | |- wp (raise _) _ _ => apply wp_raise
  | |- wp (read _) _ _ => apply wp_read
  | |- wp (write _) _ _ => apply wp_write
  | |- wp (_ ≫= _) _ _ => apply wp_bind
  | |- wp (_ <$> _) _ _ => apply wp_fmap
  | |- wp (atomic _) _ _ => apply wp_atomic
  | |- wp (try_with _ _) _ _ => apply wp_try
  | |- wp (guard_m _ _) _ _ => apply wp_guard; intros ?
  | |- wp (of_option _ _) _ _ => apply wp_of_option; intros
  | |- wp (when _ _) _ _ => apply wp_when; intros ?
  end; cbv beta iota.
Ltac wp_steps := repeat wp_step.

(** ** Relations preserved by a computation

    [respects R m]: whatever [m] returns, the database before and after are
    related by [R].  For a preorder [R] it follows the structure of the code. *)
Definition respects (R : DB → DB → Prop) {A} (m : M A) : Prop := ∀ db, R db (exec m db).

Create HintDb respects.
Section respects.
Context (R : DB → DB → Prop) `{!PreOrder R}.
Context {A B : Type}.

Lemma respects_ret (a : A) : respects R (mret a).
Proof. intros db. reflexivity. Qed.
Lemma respects_raise e : respects R (raise (A:=A) e).
Proof. intros db. reflexivity. Qed.
Lemma respects_read (f : DB → A) : respects R (read f).
Proof. intros db. reflexivity. Qed.
Lemma respects_bind (m : M A) (k : A → M B) :
  respects R m → (∀ a, respects R (k a)) → respects R (m ≫= k).
Proof.
  intros Hm Hk db. specialize (Hm db). unfold exec, mbind, M_bind in *.
  destruct (m db) as [[e|a] db'] eqn:E; simpl in *; [done|].
  etransitivity; [exact Hm|]. apply (Hk a db').
Qed.
Lemma respects_fmap (m : M A) (f : A → B) : respects R m → respects R (f <$> m).
Proof.
  intros Hm db. specialize (Hm db). unfold exec, fmap, M_fmap in *.
  by destruct (m db) as [[e|a] db'].
Qed.
Lemma respects_atomic (m : M A) : respects R m → respects R (atomic m).
Proof.
  intros Hm db. specialize (Hm db). unfold exec, atomic in *.
  destruct (m db) as [[e|a] db']; simpl in *; [reflexivity|done].
Qed.
Lemma respects_try (m : M A) h :
  respects R m → (∀ e m', h e = Some m' → respects R m') → respects R (try_with m h).
Proof.
  intros Hm Hh db. specialize (Hm db). unfold exec, try_with in *.
  destruct (m db) as [[e|a] db']; simpl in *; [|done].
  destruct (h e) as [m'|] eqn:E; [|done]. etransitivity; [exact Hm|]. apply (Hh _ _ E db').
Qed.
Lemma respects_guard b e : respects R (guard_m b e).
Proof. intros db. destruct b; reflexivity. Qed.
Lemma respects_of_option e (o : option A) : respects R (of_option e o).
Proof. intros db. destruct o; reflexivity. Qed.
Lemma respects_when b (m : M unit) : respects R m → respects R (when b m).
Proof. intros Hm db. destruct b; [apply Hm|reflexivity]. Qed.
Lemma respects_for_each (l : list A) (f : A → M unit) :
  (∀ x, x ∈ l → respects R (f x)) → respects R (for_each l f).
Proof.
  induction l as [|x l IH]; intros H db; [reflexivity|]. simpl.
  unfold exec, mbind, M_bind. pose proof (H x ltac:(left) db) as Hx. unfold exec in Hx.
  destruct (f x db) as [[e|[]] db']; simpl in *; [done|].
  etransitivity; [exact Hx|]. apply IH. intros y Hy. apply H. by right.
Qed.
Lemma respects_fold_m (l : list A) (f : B → A → M B) b :
  (∀ c x, x ∈ l → respects R (f c x)) → respects R (fold_m f b l).
Proof.
  revert b. induction l as [|x l IH]; intros b H db; [reflexivity|]. simpl.
  unfold exec, mbind, M_bind. pose proof (H b x ltac:(left) db) as Hx. unfold exec in Hx.
  destruct (f b x db) as [[e|c] db']; simpl in *; [done|].
  etransitivity; [exact Hx|]. apply IH. intros c' y Hy. apply H. by right.
Qed.
End respects.
#[export] Hint Resolve respects_ret respects_raise respects_read respects_fmap
  respects_atomic respects_guard respects_of_option respects_when : respects.

Lemma wp_any {A} (m : M A) (Q : exn + A → DB → Prop) db : (∀ r db', Q r db') → wp m Q db.
Proof. intros H. apply H. Qed.
Lemma wp_of_respects {A} (R : DB → DB → Prop) (m : M A) db : respects R m → wp m (λ _ db', R db db') db.
Proof. intros H. apply H. Qed.
Lemma wp_of_eq {A} (m : M A) (Q : exn + A → DB → Prop) db r db' : m db = (r, db') → Q r db' → wp m Q db.
Proof. unfold wp. by intros ->. Qed.
Lemma bind_run {A B} (m : M A) (k : A → M B) db a db' :
  m db = (inr a, db') → (m ≫= k) db = k a db'.
Proof. intros H. unfold mbind, M_bind. by rewrite H. Qed.

(** Loops compose: a loop over a concatenation, and a nested loop as one loop. *)
Lemma fold_m_app {A B} (f : B → A → M B) b l1 l2 db :
  fold_m f b (l1 ++ l2) db = (fold_m f b l1 ≫= λ b', fold_m f b' l2) db.
Proof.
  revert b db. induction l1 as [|x l1 IH]; intros b db; [done|]. simpl.
  unfold mbind, M_bind in *. destruct (f b x db) as [[e|b'] db']; [done|]. apply IH.
Qed.
Lemma fold_m_nested {A B C} (f : A → B → C → M B) (g : A → list C) b (l : list A) db :
  fold_m (λ b x, fold_m (f x) b (g x)) b l db =
  fold_m (λ b p, f p.1 b p.2) b (concat ((λ x, pair x <$> g x) <$> l)) db.
Proof.
  assert (∀ x b db, fold_m (λ b p, f p.1 b p.2) b (pair x <$> g x) db = fold_m (f x) b (g x) db)
    as Hin.
  { intros x. induction (g x) as [|y l' IH]; intros b' db'; [done|]. rewrite fmap_cons.
    cbn [fold_m fst snd]. unfold mbind, M_bind. destruct (f x b' y db') as [[e|c] db'']; [done|].
    apply IH. }
  revert b db. induction l as [|x l IH]; intros b db; [done|]. rewrite fmap_cons.
  cbn [concat]. rewrite fold_m_app. cbn [fold_m]. unfold mbind, M_bind. rewrite Hin.
  destruct (fold_m (f x) b (g x) db) as [[e|b'] db']; [done|]. apply IH.
Qed.

(** A loop of checks stops at the first element that fails. *)
Lemma for_each_checks {A} (l : list A) (f : A → M unit) (bad : A → bool) (e : A → exn) db :
  (∀ x, f x db = (if bad x then inl (e x) else inr (), db)) →
  for_each l f db = (match List.find bad l with Some x => inl (e x) | None => inr () end, db).
Proof.
  intros Hf. induction l as [|x l IH]; [done|]. simpl. unfold mbind, M_bind. rewrite Hf.
  destruct (bad x); [done|]. exact IH.
Qed.
