(* ===== verification/Ops.v ===== *)
(** The operations every service is written with: queries and row writes of the
    Django ORM over the tables of [Model], then ops/policy.py, the audit log,
    ops/notify.py, scheduling/term_scope.py, ops/occupancy.py and the cache. *)
From S2P Require Import Prelude Python Model Effects.
Open Scope Z_scope.

(** ** Tables of the database *)
Class Table (R : Type) := { tbl : DB → list R; set_tbl : list R → DB → DB }.
#[global] Hint Mode Table ! : typeclass_instances.
#[global] Instance table_AcademicTerm : Table AcademicTerm :=
  {| tbl := db_terms; set_tbl l db := db <| db_terms := l |> |}.
#[global] Instance table_AcademicBreak : Table AcademicBreak :=
  {| tbl := db_breaks; set_tbl l db := db <| db_breaks := l |> |}.
#[global] Instance table_ClassSuspension : Table ClassSuspension :=
  {| tbl := db_suspensions; set_tbl l db := db <| db_suspensions := l |> |}.
#[global] Instance table_Schedule : Table Schedule :=
  {| tbl := db_schedules; set_tbl l db := db <| db_schedules := l |> |}.
#[global] Instance table_Session : Table Session :=
  {| tbl := db_sessions; set_tbl l db := db <| db_sessions := l |> |}.
#[global] Instance table_ModalityShiftRequest : Table ModalityShiftRequest :=
  {| tbl := db_requests; set_tbl l db := db <| db_requests := l |> |}.
#[global] Instance table_ModalityShiftItem : Table ModalityShiftItem :=
  {| tbl := db_items; set_tbl l db := db <| db_items := l |> |}.
#[global] Instance table_User : Table User :=
  {| tbl := db_users; set_tbl l db := db <| db_users := l |> |}.
#[global] Instance table_Building : Table Building :=
  {| tbl := db_buildings; set_tbl l db := db <| db_buildings := l |> |}.
#[global] Instance table_Floor : Table Floor :=
  {| tbl := db_floors; set_tbl l db := db <| db_floors := l |> |}.
#[global] Instance table_Room : Table Room :=
  {| tbl := db_rooms; set_tbl l db := db <| db_rooms := l |> |}.
#[global] Instance table_Assignment : Table Assignment :=
  {| tbl := db_assignments; set_tbl l db := db <| db_assignments := l |> |}.
#[global] Instance table_CheckerValidation : Table CheckerValidation :=
  {| tbl := db_validations; set_tbl l db := db <| db_validations := l |> |}.
#[global] Instance table_CheckerReplayReceipt : Table CheckerReplayReceipt :=
  {| tbl := db_receipts; set_tbl l db := db <| db_receipts := l |> |}.
#[global] Instance table_Booking : Table Booking :=
  {| tbl := db_bookings; set_tbl l db := db <| db_bookings := l |> |}.
#[global] Instance table_Notification : Table Notification :=
  {| tbl := db_notifications; set_tbl l db := db <| db_notifications := l |> |}.
#[global] Instance table_NotificationMute : Table NotificationMute :=
  {| tbl := db_mutes; set_tbl l db := db <| db_mutes := l |> |}.
#[global] Instance table_AuditLog : Table AuditLog :=
  {| tbl := db_audit; set_tbl l db := db <| db_audit := l |> |}.
#[global] Instance table_RoomConflictFlag : Table RoomConflictFlag :=
  {| tbl := db_flags; set_tbl l db := db <| db_flags := l |> |}.
#[global] Instance table_JobRun : Table JobRun :=
  {| tbl := db_jobruns; set_tbl l db := db <| db_jobruns := l |> |}.
#[global] Instance table_SystemSetting : Table SystemSetting :=
  {| tbl := db_settings; set_tbl l db := db <| db_settings := l |> |}.
#[global] Instance table_ImportStaging : Table ImportStaging :=
  {| tbl := db_stagings; set_tbl l db := db <| db_stagings := l |> |}.

Section orm.
Context {R : Type} `{!HasPk R, !Table R}.

(** [Model.objects.filter(p)], in primary-key order *)
Definition objects (p : R → bool) : M (list R) := read (λ db, select p (tbl (R:=R) db)).
(** the same with a predicate that follows foreign keys *)
Definition objects_join (p : DB → R → bool) : M (list R) :=
  read (λ db, select (p db) (tbl (R:=R) db)).
(** [.filter(p).first()] *)
Definition first (p : R → bool) : M (option R) := read (λ db, List.find p (tbl (R:=R) db)).
(** [.filter(p).exists()] *)
Definition exists_where (p : R → bool) : M bool := read (λ db, existsb p (tbl (R:=R) db)).
(** [.get(pk=k)] *)
Definition get_pk (k : Z) : M R := read (λ db, by_pk (tbl (R:=R) db) k) ≫= of_option DoesNotExist.
(** [obj.save(update_fields=...)]: [f] writes the named columns. *)
Definition save (k : Z) (f : R → R) : M unit := λ db,
  if existing (tbl (R:=R) db) k then (inr (), set_tbl (update_pk k f (tbl (R:=R) db)) db)
  else (inl DatabaseError, db).
(** [.filter(p).update(...)], returning the number of rows *)
Definition update_rows (p : R → bool) (f : R → R) : M Z := λ db,
  (inr (Z.of_nat (length (select p (tbl (R:=R) db)))), set_tbl (update_where p f (tbl (R:=R) db)) db).
(** [Model.objects.create(...)]: [mk] receives the key given by the database. *)
Definition create (mk : Z → R) : M R := λ db,
  let r := mk (fresh_pk (tbl (R:=R) db)) in (inr r, set_tbl (tbl db ++ [r]) db).
(** [obj.delete()] *)
Definition delete_row (k : Z) : M unit := write (λ db, set_tbl (delete_pk k (tbl (R:=R) db)) db).

(** The same under a uniqueness constraint: [clash r r'] when the two rows may not
    both be stored.  [IntegrityError] is the database's refusal. *)
Definition create_unique (clash : R → R → bool) (mk : Z → R) : M R := λ db,
  if existsb (clash (mk (fresh_pk (tbl (R:=R) db)))) (tbl (R:=R) db) then (inl IntegrityError, db)
  else create mk db.
Definition save_unique (clash : R → R → bool) (k : Z) (f : R → R) : M unit := λ db,
  match by_pk (tbl (R:=R) db) k with
  | Some r => if existsb (λ r', negb (pk r' =? k) && clash (f r) r') (tbl (R:=R) db)
              then (inl IntegrityError, db) else save k f db
  | None => (inl DatabaseError, db)
  end.

Lemma wp_objects p Q db : Q (inr (select p (tbl (R:=R) db))) db → wp (objects p) Q db.
Proof. done. Qed.
Lemma wp_objects_join p Q db : Q (inr (select (p db) (tbl (R:=R) db))) db → wp (objects_join p) Q db.
Proof. done. Qed.
Lemma wp_first p Q db : Q (inr (List.find p (tbl (R:=R) db))) db → wp (first p) Q db.
Proof. done. Qed.
Lemma wp_exists p Q db : Q (inr (existsb p (tbl (R:=R) db))) db → wp (exists_where p) Q db.
Proof. done. Qed.
Lemma wp_get_pk k Q db :
  (∀ r, by_pk (tbl (R:=R) db) k = Some r → Q (inr r) db) →
  (by_pk (tbl (R:=R) db) k = None → Q (inl DoesNotExist) db) → wp (get_pk k) Q db.
Proof.
  intros H1 H2. apply wp_bind, wp_read, wp_of_option; auto.
Qed.
Lemma wp_save k f (Q : exn + unit → DB → Prop) db :
  (existing (tbl (R:=R) db) k = true → Q (inr ()) (set_tbl (update_pk k f (tbl (R:=R) db)) db)) →
  (existing (tbl (R:=R) db) k = false → Q (inl DatabaseError) db) → wp (save k f) Q db.
Proof. unfold wp, save. destruct (existing (tbl (R:=R) db) k); simpl; auto. Qed.
Lemma wp_update_rows p f (Q : exn + Z → DB → Prop) db :
  Q (inr (Z.of_nat (length (select p (tbl (R:=R) db))))) (set_tbl (update_where p f (tbl (R:=R) db)) db) →
  wp (update_rows p f) Q db.
Proof. done. Qed.
Lemma wp_create mk (Q : exn + R → DB → Prop) db :
  Q (inr (mk (fresh_pk (tbl (R:=R) db)))) (set_tbl (tbl db ++ [mk (fresh_pk (tbl (R:=R) db))]) db) →
  wp (create mk) Q db.
Proof. done. Qed.

Lemma existing_by_pk (t : list R) k : existing t k = is_some (by_pk t k).
Proof.
  unfold existing, by_pk. induction t as [|r t IH]; [done|]. simpl.
  destruct (pk r =? k); [done|]. exact IH.
Qed.
Lemma wp_create_unique clash mk (Q : exn + R → DB → Prop) db :
  (existsb (clash (mk (fresh_pk (tbl (R:=R) db)))) (tbl (R:=R) db) = true → Q (inl IntegrityError) db) →
  (existsb (clash (mk (fresh_pk (tbl (R:=R) db)))) (tbl (R:=R) db) = false →
   Q (inr (mk (fresh_pk (tbl (R:=R) db)))) (set_tbl (tbl db ++ [mk (fresh_pk (tbl (R:=R) db))]) db)) →
  wp (create_unique clash mk) Q db.
Proof. unfold wp, create_unique. destruct (existsb _ _); auto. Qed.
Lemma wp_save_unique clash k f (Q : exn + unit → DB → Prop) db :
  (Q (inl DatabaseError) db) → (Q (inl IntegrityError) db) →
  (∀ r, by_pk (tbl (R:=R) db) k = Some r →
   existsb (λ r', negb (pk r' =? k) && clash (f r) r') (tbl (R:=R) db) = false →
   Q (inr ()) (set_tbl (update_pk k f (tbl (R:=R) db)) db)) →
  wp (save_unique clash k f) Q db.
Proof.
  unfold wp, save_unique, save. rewrite existing_by_pk. intros H1 H2 H3.
  destruct (by_pk _ k) as [r|]; [|done]. specialize (H3 r eq_refl).
  destruct (existsb _ _); simpl; auto.
Qed.
End orm.

Ltac wp_step ::=
  lazymatch goal with
  | |- wp (mret _) _ _ => apply wp_ret
  | |- wp (raise _) _ _ => apply wp_raise
  | |- wp (read _) _ _ => apply wp_read
  | |- wp (write _) _ _ => apply wp_write
  | |- wp (_ ≫= _) _ _ => apply wp_bind
  | |- wp (_ <$> _) _ _ => apply wp_fmap
  | |- wp (atomic _) _ _ => apply wp_atomic
  | |- wp (try_with _ _) _ _ => apply wp_try
  | |- wp (guard_m _ _) _ _ => apply wp_guard; intros ?
  | |- wp (of_option _ _) _ _ => apply wp_of_option; intros
  | |- wp (when _ _) _ _ => apply wp_when; intros ?
  | |- wp (objects _) _ _ => apply wp_objects
  | |- wp (objects_join _) _ _ => apply wp_objects_join
  | |- wp (first _) _ _ => apply wp_first
  | |- wp (exists_where _) _ _ => apply wp_exists
  | |- wp (get_pk _) _ _ => apply wp_get_pk; intros
  | |- wp (save _ _) _ _ => apply wp_save; intros ?
  | |- wp (update_rows _ _) _ _ => apply wp_update_rows
  | |- wp (create _) _ _ => apply wp_create
  | |- wp (create_unique _ _) _ _ => apply wp_create_unique; intros ?
  | |- wp (save_unique _ _ _) _ _ => apply wp_save_unique; [| |intros ? ? ?]
  end; cbv beta iota.

(** ** ops/policy.py *)
Inductive PolicyVal := PInt (z : Z) | PStr (s : string).

(** [settings.FLUXTRACK_POLICY] *)
Definition FLUXTRACK_POLICY : dict string PolicyVal := [
  ("grace_minutes", PInt 15); ("room_hold_minutes", PInt 30);
  ("early_end_threshold_minutes", PInt 15); ("manual_code_rate_limit_per_min", PInt 5);
  ("materialization_horizon_days", PInt 14); ("poll_interval_seconds", PInt 8);
  ("reporting_week_start", PStr "monday"); ("sweep_interval_minutes", PInt 5);
  ("modality_shift_lead_days", PInt 2); ("push_outbox_interval_seconds", PInt 15)]%string.

(** A [SystemSetting] row overrides the settings default. *)
Definition policy_value (db : DB) (key : string) : option PolicyVal :=
  match List.find (λ r, bool_decide (set_key r = key)) (db_settings db) with
  | Some row => Some (match PyStr.int (set_value row) with
                      | Some n => PInt n
                      | None => PStr (set_value row) end)
  | None => dict_get FLUXTRACK_POLICY key
  end.
Definition get_policy (key : string) : M PolicyVal :=
  read (λ db, policy_value db key) ≫= of_option (KeyError key).
(** Arithmetic on a policy value: a string raises [TypeError]. *)
Definition as_number (v : PolicyVal) : M Z :=
  match v with PInt n => mret n | PStr _ => raise TypeErr end.
Definition get_policy_num (key : string) : M Z := get_policy key ≫= as_number.

(** The value [get_policy_num] returns, when it returns one. *)
Definition policy_num (db : DB) (key : string) : option Z :=
  match policy_value db key with Some (PInt n) => Some n | _ => None end.

Lemma get_policy_num_eq db key n :
  policy_num db key = Some n → get_policy_num key db = (inr n, db).
Proof.
  unfold policy_num, get_policy_num, get_policy, mbind, M_bind, read. simpl.
  destruct (policy_value db key) as [[]|]; naive_solver.
Qed.
Lemma wp_policy_num key Q db :
  (∀ n, policy_num db key = Some n → Q (inr n) db) →
  (∀ e, policy_num db key = None → Q (inl e) db) → wp (get_policy_num key) Q db.
Proof.
  unfold policy_num, get_policy_num, get_policy, wp, mbind, M_bind, read. simpl.
  destruct (policy_value db key) as [[]|]; simpl; auto.
Qed.

(** ** Views *)

(** The truth of a JSON value in Python *)
Definition truthy (v : json) : bool :=
  match v with
  | JNull => false | JBool b => b | JInt n => negb (n =? 0)
  | JFloat s => negb (bool_decide (s ∈ ["0.0"; "-0.0"]%string))
  | JStr s => negb (bool_decide (s = ""%string))
  | JList l => negb (bool_decide (length l = 0%nat)) | JObj l => negb (bool_decide (length l = 0%nat))
  end.
(** The role test of the decorators of views: anyone else but a superuser is refused. *)
Definition gated {A} (r : Role) (user : User) (view : M A) : M A :=
  if bool_decide (usr_role user ≠ r) && negb (usr_superuser user) then raise PermissionDenied else view.
Definition plays (r : Role) (u : User) : Prop := usr_role u = r ∨ usr_superuser u = true.
#[global] Instance plays_dec r u : Decision (plays r u).
Proof. unfold plays. apply _. Defined.
Lemma gated_in {A} r user (view : M A) : plays r user → gated r user view = view.
Proof.
  unfold plays, gated. case_bool_decide as H; [|done]. intros [?| ->]; [by destruct H|done].
Qed.
Lemma gated_out {A} r user (view : M A) db : ¬ plays r user → gated r user view db = (inl PermissionDenied, db).
Proof.
  unfold plays, gated. intros H. case_bool_decide as Hr; [|tauto]. by destruct (usr_superuser user); [tauto|].
Qed.
Lemma wp_gated {A} r user (view : M A) Q db :
  (¬ plays r user → Q (inl PermissionDenied) db) → (plays r user → wp view Q db) → wp (gated r user view) Q db.
Proof.
  intros H1 H2. destruct (decide (plays r user)) as [H|H]; [rewrite gated_in by done; auto|].
  unfold wp. rewrite gated_out by done. by apply H1.
Qed.

(** ** The audit log and the notification write path *)
Definition audit (actor : option Z) (event ttype tid : string) (payload : json) : M unit :=
  create (λ k, {| log_pk := k; log_actor := actor; log_event := event;
                  log_target_type := ttype; log_target_id := tid;
                  log_payload := payload |}) ≫= λ _, mret ().
(** [AuditLog.objects.bulk_create] *)
Definition audit_bulk (actor : option Z) (event ttype : string) (payload : json)
    (ids : list Z) : M unit :=
  for_each ids (λ k, audit actor event ttype (PyStr.str k) payload).

(** ops/notify.py [notify]: explicit users, then every active user of the role. *)
Definition notify_one (type title body link : string) (u : Z) : M unit :=
  create (λ k, {| ntf_pk := k; ntf_user := u; ntf_type := type; ntf_title := title;
                  ntf_body := body; ntf_link := link; ntf_read_at := None;
                  ntf_pushed_at := None |}) ≫= λ _, mret ().
Definition notify_recipients (db : DB) (users : list Z) (role : option Role) : list Z :=
  users ++ match role with
           | Some r => usr_pk <$> select (λ u, bool_decide (usr_role u = r) && usr_active u)
                                         (db_users db)
           | None => []
           end.
Definition notify (users : list Z) (role : option Role) (type title body link : string)
    : M unit :=
  read (λ db, notify_recipients db users role) ≫= λ recipients,
  for_each recipients (notify_one type title body link).

(** ** scheduling/term_scope.py *)
Definition is_active_term (t : AcademicTerm) : bool := bool_decide (term_status t = T_ACTIVE).
Definition get_active_term : M (option AcademicTerm) := λ db,
  match select is_active_term (db_terms db) with
  | [] => (inr None, db)
  | [t] => (inr (Some t), db)
  | _ => (inl MultipleObjectsReturned, db)
  end.
Definition require_active_term : M AcademicTerm :=
  get_active_term ≫= of_option (NoActiveTermError "no active academic term").
Definition require_writable_term (t : AcademicTerm) : M AcademicTerm :=
  if bool_decide (term_status t = T_ARCHIVED)
  then raise (ArchivedTermError "archived academic terms are read-only") else mret t.

(** The database constraint [uniq_active_academic_term]. *)
Definition one_active_term (db : DB) : Prop :=
  (length (select is_active_term (db_terms db)) ≤ 1)%nat.

Lemma wp_get_active_term Q db :
  (∀ t, select is_active_term (db_terms db) = [t] → Q (inr (Some t)) db) →
  (select is_active_term (db_terms db) = [] → Q (inr None) db) →
  (¬ one_active_term db → Q (inl MultipleObjectsReturned) db) →
  wp get_active_term Q db.
Proof.
  unfold wp, get_active_term, one_active_term.
  destruct (select is_active_term (db_terms db)) as [|t [|t' l]]; simpl; auto.
  intros _ _ H. apply H. lia.
Qed.
Lemma wp_require_writable t Q db :
  (term_status t ≠ T_ARCHIVED → Q (inr t) db) →
  (term_status t = T_ARCHIVED →
     Q (inl (ArchivedTermError "archived academic terms are read-only")) db) →
  wp (require_writable_term t) Q db.
Proof. unfold require_writable_term. case_bool_decide; unfold wp; simpl; auto. Qed.

(** ** ops/occupancy.py *)
Definition release_room (ses : Z) (actor : option Z) (now : Z) : M unit :=
  save ses (λ s, s <| ses_released_at := Some now |>) ≫= λ _,
  audit actor "session.room_released" "session" (PyStr.str ses)
    (JObj [("released_at", JStr (PyTime.iso_utc now))]%string).

(** ** The shared cache, an entry being live before its expiry *)
Definition cache_live (now : Z) (key : string) (e : CacheEntry) : bool :=
  bool_decide (ce_key e = key) && (now <? ce_expires e).
Definition cache_get (key : string) (now : Z) : M (option json) :=
  read (λ db, ce_value <$> List.find (cache_live now key) (db_cache db)).
Definition cache_set (key : string) (v : json) (timeout now : Z) : M unit :=
  write (λ db, db <| db_cache :=
    {| ce_key := key; ce_value := v; ce_expires := now + timeout * PyTime.usec_second |}
      :: select (λ e, negb (bool_decide (ce_key e = key))) (db_cache db) |>).
(** [cache.add]: true when the key was free and is now set. *)
Definition cache_add (key : string) (v : json) (timeout now : Z) : M bool :=
  cache_get key now ≫= λ o,
  match o with
  | Some _ => mret false
  | None => cache_set key v timeout now ≫= λ _, mret true
  end.
Definition cache_get_or_set (key : string) (v : json) (timeout now : Z) : M json :=
  cache_get key now ≫= λ o,
  match o with
  | Some x => mret x
  | None => cache_set key v timeout now ≫= λ _, mret v
  end.
(** [cache.incr] of an integer entry; a missing key raises [ValueError]. *)
Definition cache_incr (key : string) (now : Z) : M unit :=
  cache_get key now ≫= λ o,
  match o with
  | Some (JInt n) =>
      write (λ db, db <| db_cache :=
        (λ e, if cache_live now key e then e <| ce_value := JInt (n + 1) |> else e)
          <$> db_cache db |>)
  | Some _ => raise TypeErr
  | None => raise ValueErr
  end.

(** ** Logging computations

    Writing the audit log and notifications never fails, appends to those two
    tables and leaves every other table as it was. *)
Definition logs_only (db db' : DB) : Prop :=
  ∃ A N, db' = db <| db_audit := db_audit db ++ A |>
                  <| db_notifications := db_notifications db ++ N |>.
#[export] Instance logs_only_preorder : PreOrder logs_only.
Proof.
  split.
  - intros []. exists [], []. simpl. by rewrite !app_nil_r.
  - intros db1 ? ? (A1 & N1 & ->) (A2 & N2 & ->). exists (A1 ++ A2), (N1 ++ N2).
    simpl. by rewrite <- !app_assoc.
Qed.

(** Logging commutes with a change of the sessions table. *)
Lemma logs_only_sessions (f : list Session → list Session) db db' :
  logs_only db db' →
  logs_only (db <| db_sessions := f (db_sessions db) |>)
            (db' <| db_sessions := f (db_sessions db') |>).
Proof. intros (A & N & ->). exists A, N. reflexivity. Qed.

Definition logging (m : M unit) : Prop :=
  ∀ db, fst (m db) = inr () ∧ logs_only db (snd (m db)).

Lemma logging_ret : logging (mret ()).
Proof. intros db. split; [done|reflexivity]. Qed.
Lemma logging_bind m k : logging m → (∀ a, logging (k a)) → logging (m ≫= k).
Proof.
  intros Hm Hk db. unfold mbind, M_bind. destruct (Hm db) as [H1 H2].
  destruct (m db) as [r db']. simpl in *. subst r. destruct (Hk () db') as [H3 H4].
  split; [done|]. by transitivity db'.
Qed.
Lemma logging_when b m : logging m → logging (when b m).
Proof. intros H. destruct b; [done|apply logging_ret]. Qed.
Lemma logging_for_each {A} (l : list A) f : (∀ x, logging (f x)) → logging (for_each l f).
Proof.
  intros Hf. induction l as [|x l IH]; [apply logging_ret|]. by apply logging_bind.
Qed.
Lemma logging_audit a e t i p : logging (audit a e t i p).
Proof.
  intros db. split; [done|]. eexists [_], []. simpl. rewrite app_nil_r. by destruct db.
Qed.
Lemma logging_audit_bulk a e t p ids : logging (audit_bulk a e t p ids).
Proof. apply logging_for_each. intros. apply logging_audit. Qed.
Lemma logging_notify_one ty ti b li u : logging (notify_one ty ti b li u).
Proof.
  intros db. split; [done|]. eexists [], [_]. simpl. rewrite app_nil_r. by destruct db.
Qed.
Lemma logging_notify us ro ty ti b li : logging (notify us ro ty ti b li).
Proof.
  unfold notify. intros db. unfold mbind, M_bind, read. cbv beta iota.
  apply logging_for_each. intros. apply logging_notify_one.
Qed.
Create HintDb logging.
#[export] Hint Resolve logging_ret logging_when logging_audit logging_audit_bulk
  logging_notify_one logging_notify : logging.

Lemma wp_logging m (Q : exn + unit → DB → Prop) db :
  logging m → (∀ db', logs_only db db' → Q (inr ()) db') → wp m Q db.
Proof. intros Hm HQ. destruct (Hm db) as [H1 H2]. unfold wp. rewrite H1. auto. Qed.

(** The audit rows a computation appends. *)
Lemma audit_eq a e t i p db :
  audit a e t i p db =
  (inr (), db <| db_audit := db_audit db ++
     [{| log_pk := fresh_pk (db_audit db); log_actor := a; log_event := e;
         log_target_type := t; log_target_id := i; log_payload := p |}] |>).
Proof. reflexivity. Qed.

(** Symbolic execution including the logging calls, whose effect is kept as a
    [logs_only] hypothesis. *)
Ltac wp_log :=
  lazymatch goal with
  | |- wp (audit _ _ _ _ _) _ _ => apply wp_logging; [apply logging_audit|intros ? ?]
  | |- wp (audit_bulk _ _ _ _ _) _ _ => apply wp_logging; [apply logging_audit_bulk|intros ? ?]
  | |- wp (notify _ _ _ _ _ _) _ _ => apply wp_logging; [apply logging_notify|intros ? ?]
  end; cbv beta iota.
Ltac wp_auto := repeat first [wp_log | wp_step].
(** Replace a database known up to logging by its description. *)
Ltac log_subst :=
  repeat match goal with
  | H : logs_only _ ?db |- _ => destruct H as (? & ? & ->)
  end; simpl in *.

(** ** Lists of keys *)
Definition mem_pk {R} `{!HasPk R} (ids : list Z) (r : R) : bool := bool_decide (pk r ∈ ids).

(** The batches of [for i in range(0, len(l), n)]. *)
Fixpoint chunks_fuel {A} (fuel n : nat) (l : list A) : list (list A) :=
  match fuel, l with
  | O, _ | _, [] => []
  | S fuel', _ => firstn n l :: chunks_fuel fuel' n (skipn n l)
  end.
Definition chunks {A} (n : nat) (l : list A) : list (list A) := chunks_fuel (length l) n l.

Lemma concat_chunks {A} n (l : list A) : (0 < n)%nat → concat (chunks n l) = l.
Proof.
  intros Hn. unfold chunks. assert (length l ≤ length l)%nat as Hf by lia. revert Hf.
  generalize (length l) at 2 3 as fuel. intros fuel. revert l.
  induction fuel as [|fuel IH]; intros [|x l] Hf; simpl in *; try done; [lia|].
  destruct n as [|n]; [lia|]. simpl. f_equal. rewrite IH; [apply take_drop|].
  rewrite length_drop. lia.
Qed.

(** A batched filtered update is the filtered update over all the keys. *)
Section batched.
Context {R : Type} `{!HasPk R}.
Lemma update_where_mem_app ids1 ids2 (f : R → R) (t : list R) :
  (∀ r, pk (f r) = pk r) → (∀ r, f (f r) = f r) →
  update_where (mem_pk ids2) f (update_where (mem_pk ids1) f t) =
  update_where (mem_pk (ids1 ++ ids2)) f t.
Proof.
  intros Hpk Hf. rewrite update_where_twice. unfold update_where.
  apply list_fmap_ext. intros i r _. unfold mem_pk. simpl.
  destruct (bool_decide_reflect (pk r ∈ ids1)) as [H1|H1]; rewrite ?Hpk.
  - rewrite (bool_decide_true (pk r ∈ ids1 ++ ids2)) by set_solver.
    case_bool_decide; [apply Hf|done].
  - destruct (bool_decide_reflect (pk r ∈ ids2)).
    + by rewrite bool_decide_true by set_solver.
    + by rewrite bool_decide_false by set_solver.
Qed.
(** Selecting keys and updating by key updates the selected rows. *)
Lemma update_where_selected (p : R → bool) (f : R → R) (t : list R) :
  pk_unique t → update_where (mem_pk (pk <$> select p t)) f t = update_where p f t.
Proof.
  intros Hnd. apply update_where_ext; [|done]. intros r Hr. unfold mem_pk.
  destruct (p r) eqn:Ep.
  - apply bool_decide_eq_true. apply list_elem_of_fmap. exists r.
    split; [done|]. by apply elem_of_select.
  - apply bool_decide_eq_false. intros (r' & Hpk & [Hr' Hp]%elem_of_select)%list_elem_of_fmap.
    pose proof (by_pk_unique t (pk r) r Hnd Hr eq_refl).
    pose proof (by_pk_unique t (pk r) r' Hnd Hr' (eq_sym Hpk)). congruence.
Qed.
End batched.

Lemma update_sessions_selected (p : Session → bool) f (t : list Session) :
  pk_unique t → update_where (mem_pk (ses_pk <$> select p t)) f t = update_where p f t.
Proof. apply update_where_selected. Qed.

(** The notifications a call appends: one per recipient, in order. *)
Lemma notify_appends users role ty ti b li db :
  ∃ ns, notify users role ty ti b li db =
          (inr (), db <| db_notifications := db_notifications db ++ ns |>) ∧
        ntf_user <$> ns = notify_recipients db users role ∧
        ∀ n, n ∈ ns → ntf_type n = ty ∧ ntf_title n = ti.
Proof.
  unfold notify, mbind, M_bind, read. generalize (notify_recipients db users role) as l.
  intros l. revert db. induction l as [|u l IH]; intros db.
  - exists []. simpl. rewrite app_nil_r. split; [by destruct db|]. split; [done|].
    by intros n ?%not_elem_of_nil.
  - cbn [for_each]. unfold mbind, M_bind. unfold notify_one at 1.
    unfold mbind, M_bind, create, mret, M_ret. cbv beta iota zeta.
    edestruct IH as (ns & Hns & Hu & Ht).
    rewrite Hns. eexists (_ :: ns). split; [|split].
    + simpl. by rewrite <- app_assoc.
    + rewrite fmap_cons, Hu. done.
    + intros n [->|Hn]%elem_of_cons; [done|auto].
Qed.
Lemma wp_notify users role ty ti b li (Q : exn + unit → DB → Prop) db :
  (∀ ns, ntf_user <$> ns = notify_recipients db users role →
     (∀ n, n ∈ ns → ntf_type n = ty ∧ ntf_title n = ti) →
     Q (inr ()) (db <| db_notifications := db_notifications db ++ ns |>)) →
  wp (notify users role ty ti b li) Q db.
Proof.
  intros H. destruct (notify_appends users role ty ti b li db) as (ns & Hr & Hu & Ht).
  unfold wp. rewrite Hr. by apply H.
Qed.

(** Saving the selected sessions one by one is the filtered update. *)
Lemma save_each_wp (p : Session → bool) (g : Session → Session → Session) db
    (Q : exn + unit → DB → Prop) :
  pk_unique (db_sessions db) → (∀ s x, ses_pk (g s x) = ses_pk x) →
  Q (inr ()) (db <| db_sessions := update_where p (λ s, g s s) (db_sessions db) |>) →
  wp (for_each (select p (db_sessions db)) (λ s, save (ses_pk s) (g s))) Q db.
Proof.
  intros Hu Hg HQ. set (l := select p (db_sessions db)).
  assert (NoDup (ses_pk <$> l)) as Hnd by by apply NoDup_fmap_select.
  assert (∀ s, s ∈ l → s ∈ db_sessions db) as Hl by by intros s [? _]%elem_of_select.
  apply wp_mono with (λ r db', match r with inl _ => False | inr _ =>
    db' = db <| db_sessions := update_where (mem_pk (ses_pk <$> l)) (λ s, g s s) (db_sessions db) |>
    end).
  2:{ intros [e|[]] db'; [done|]. intros ->. unfold l. by rewrite update_sessions_selected. }
  apply (wp_for_each _ _ (λ done db', db' =
    db <| db_sessions := update_where (mem_pk (ses_pk <$> done)) (λ s, g s s) (db_sessions db) |>)
    (λ _ _, False)).
  - rewrite update_where_none; [by destruct db|]. intros r _. apply bool_decide_eq_false.
    by intros ?%not_elem_of_nil.
  - intros done x todo db' Heq ->. assert (x ∈ db_sessions db) as Hx
      by (apply Hl; rewrite Heq; set_solver).
    assert (ses_pk x ∉ ses_pk <$> done) as Hnew.
    { rewrite Heq, fmap_app, fmap_cons in Hnd. apply NoDup_app in Hnd as (_ & Hd & _).
      intros Hin. apply (Hd _ Hin). left. }
    apply wp_save; simpl.
    + intros _. f_equal. unfold update_pk. rewrite update_where_twice. unfold update_where.
      apply list_fmap_ext. intros i r Hr%list_elem_of_lookup_2. unfold mem_pk. simpl.
      change (@pk Session pk_Session) with ses_pk in *. rewrite fmap_app.
      destruct (Z.eq_dec (ses_pk r) (ses_pk x)) as [Hrx|Hrx].
      * assert (r = x) as -> by by apply (pk_inj (db_sessions db)).
        rewrite (bool_decide_false (ses_pk x ∈ ses_pk <$> done)) by done.
        rewrite Z.eqb_refl, bool_decide_true; [done|set_solver].
      * destruct (bool_decide_reflect (ses_pk r ∈ ses_pk <$> done)) as [Hin|Hin];
          rewrite ?Hg, (proj2 (Z.eqb_neq _ _)) by done.
        -- by rewrite bool_decide_true by set_solver.
        -- rewrite bool_decide_false; [done|]. set_solver.
    + intros Hn. rewrite existing_by_pk, by_pk_update_where in Hn by (intros; apply Hg).
      pose proof (by_pk_unique (db_sessions db) _ x Hu Hx eq_refl) as Hb.
      change (by_pk (db_sessions db) (ses_pk x) = Some x) in Hb. by rewrite Hb in Hn.
Qed.

(** Rewriting a table with itself changes nothing. *)
Lemma db_sessions_same db : db <| db_sessions := db_sessions db |> = db.
Proof. by destruct db. Qed.
Lemma logs_only_notified db ns :
  logs_only db (db <| db_notifications := db_notifications db ++ ns |>).
Proof. exists [], ns. rewrite app_nil_r. by destruct db. Qed.
