(* ===== verification/Sample.v ===== *)
(** A small concrete campus: one active term, one building with two rooms, a
    weekly class with two meetings and its people.  The witnesses evaluate the
    operations on it. *)
From S2P Require Import Prelude Python Model Effects Ops.
Open Scope Z_scope.

(** Monday 2026-07-06, and two instants of it in Asia/Manila. *)
Definition monday : Z := 20640.
Definition at_ (h m : Z) : Z := PyTime.aware monday (PyTime.mk_time h m).

Definition demo_term : AcademicTerm :=
  {| term_pk := 1; term_name := "AY 2026-2027"; term_start := monday; term_end := monday + 20;
     term_status := T_ACTIVE |}.
Definition demo_draft : AcademicTerm :=
  {| term_pk := 2; term_name := "AY 2027-2028"; term_start := monday + 30;
     term_end := monday + 50; term_status := T_DRAFT |}.
Definition demo_building : Building := {| bld_pk := 1; bld_code := "MAIN"; bld_name := "Main" |}.
Definition demo_floor : Floor := {| flr_pk := 1; flr_building := 1; flr_number := 1 |}.
Definition demo_room (k : Z) (code : string) : Room :=
  {| room_pk := k; room_floor := 1; room_code := code; room_name := code; room_capacity := 40;
     room_qr_token := code; room_manual_code := "000001"; room_out_of_service := false;
     room_oos_reason := ""; room_rotated_at := None; room_rotated_by := None |}.
Definition demo_user (k : Z) (name : string) (r : Role) : User :=
  {| usr_pk := k; usr_username := name; usr_first := name; usr_last := ""; usr_role := r;
     usr_department := Some 1; usr_active := true; usr_superuser := false;
     usr_email := ""; usr_azure_oid := None |}.
(** Every Monday 09:00-10:30 in room 1. *)
Definition demo_schedule : Schedule :=
  {| sch_pk := 1; sch_term := 1; sch_course_code := "CS101"; sch_section := "A";
     sch_enrolled := 30; sch_faculty := 1; sch_room := 1; sch_day := 0;
     sch_start := PyTime.mk_time 9 0; sch_end := PyTime.mk_time 10 30; sch_modality := F2F;
     sch_status := SCH_ACTIVE |}.
Definition demo_session (k date : Z) (st : SessionStatus) : Session :=
  {| ses_pk := k; ses_schedule := 1; ses_faculty := 1; ses_room := 1; ses_date := date;
     ses_sched_start := PyTime.aware date (PyTime.mk_time 9 0);
     ses_sched_end := PyTime.aware date (PyTime.mk_time 10 30);
     ses_status := st; ses_actual_start := None; ses_actual_end := None; ses_method := None;
     ses_declared := None; ses_mod_at := None; ses_mod_by := None; ses_handover := None;
     ses_teams_link := ""; ses_online_checker := None; ses_ended_early := false;
     ses_early_reason := ""; ses_released_at := None; ses_cancel_reason := "" |}.

Definition demo_db : DB :=
  empty_db <| db_terms := [demo_term; demo_draft] |>
           <| db_buildings := [demo_building] |> <| db_floors := [demo_floor] |>
           <| db_rooms := [demo_room 1 "M-101"; demo_room 2 "M-102"] |>
           <| db_users := [demo_user 1 "Ana" FACULTY; demo_user 2 "Ben" CHECKER;
                           demo_user 3 "Cora" DEAN; demo_user 4 "Ivy" IFO_ADMIN] |>
           <| db_schedules := [demo_schedule] |>
           <| db_sessions := [demo_session 1 monday SCHEDULED;
                              demo_session 2 (monday + 7) SCHEDULED] |>.

(** Closing a decidable fact by computation, and a fact about every row of a
    concrete table row by row. *)
Ltac decide_now := apply (bool_decide_unpack _); vm_compute; exact I.
Ltac each_row H :=
  repeat (apply elem_of_cons in H as [->|H]; [|]); [.. | by apply not_elem_of_nil in H].
