(* ===== verification/Web.v ===== *)
(** What the pages share: their responses, the gates before them and the fields of a
    form.  A page is a computation that returns a [response]; the text it renders is
    left out, its status, its destination and the message it leaves are kept. *)
From S2P Require Import Prelude Python Model Effects Ops.
Open Scope Z_scope.

Inductive response :=
  | NotFound                                   (* Http404 *)
  | Forbidden                                  (* PermissionDenied *)
  | BadRequest (error : string)                (* the form again, at 400 *)
  | Page (note : string)                       (* a page, at 200 *)
  | Redirect (name arg flash : string).        (* the named route, and the message shown there *)

(** [request.POST], and [(request.POST.get(k) or "").strip()] *)
Abbreviation form := (dict string string).
Definition post (q : form) (k : string) : string := PyStr.strip (dict_getd q k ""%string).
(** [s.isdigit()], and the number [int(s)] of such a text *)
Definition digits (s : string) : Z := PyStr.digits_val (PyStr.to_list s).
Lemma str_value n : 0 < n → PyStr.isdigit (PyStr.str n) = true ∧ digits (PyStr.str n) = n.
Proof.
  intros Hn. destruct n as [|p|p]; try lia. unfold PyStr.isdigit, digits.
  change (PyStr.str (Z.pos p)) with (pretty_N_go (N.pos p) "").
  destruct (PyStr.pretty_go_value (Pos.to_nat p) (N.pos p) "") as (l & Hd & Hv & Hl).
  { rewrite positive_nat_N. apply N.pow_gt_lin_r. lia. }
  rewrite app_nil_r in Hl. rewrite Hl, Hd, Hv, andb_true_r. split; [|done]. b2p. intros He. rewrite He in Hl. subst l. done.
Qed.

(** A number is written without spaces. *)
Definition plain (c : Ascii.ascii) : bool := negb (PyStr.is_space c).
Lemma str_plain n : forallb plain (PyStr.to_list (PyStr.str n)) = true.
Proof.
  assert (∀ p, forallb plain (PyStr.to_list (pretty_N_go (N.pos p) "")) = true) as Hp.
  { intros p. destruct (PyStr.pretty_go_digits (Pos.to_nat p) (N.pos p) "") as (l & _ & Hd & ->).
    { rewrite positive_nat_N. apply N.pow_gt_lin_r. lia. }
    rewrite app_nil_r. rewrite forallb_elem in *. intros c Hc. specialize (Hd c Hc).
    unfold PyStr.is_digit, plain, PyStr.is_space in *. b2p. lia. }
  unfold PyStr.str. destruct n as [|p|p]; [reflexivity|exact (Hp p)|].
  change (pretty (Z.neg p)) with ("-" +:+ pretty_N_go (N.pos p) "").
  rewrite PyStr.to_list_app, forallb_app, (Hp p). reflexivity.
Qed.

(** [@login_required] with the role test of a section of the site. *)
Definition role_required (r : Role) (user : User) (view : M response) : M response :=
  if bool_decide (usr_role user ≠ r) && negb (usr_superuser user) then mret Forbidden else view.
(** [get_object_or_404], the first row that matches *)
Definition get_or_404 {R} `{!HasPk R, !Table R} (p : R → bool) (k : R → M response) : M response :=
  first p ≫= λ o, match o with Some r => k r | None => mret NotFound end.
(** The same over rows that follow foreign keys *)
Definition get_or_404_join {R} `{!HasPk R, !Table R} (p : DB → R → bool) (k : R → M response)
    : M response :=
  read (λ db, List.find (p db) (tbl (R:=R) db)) ≫= λ o,
  match o with Some r => k r | None => mret NotFound end.
(** A validation that names the first error of a form. *)
Definition check (error : option string) (k : M response) : M response :=
  match error with Some e => mret (BadRequest e) | None => k end.
(** The ladder [if .. elif ..] of a validation: the first condition that holds. *)
Fixpoint ladder (l : list (bool * string)) : option string :=
  match l with
  | [] => None
  | (b, e) :: l' => if b then Some e else ladder l'
  end.
Definition blank (s : string) : bool := bool_decide (s = ""%string).
Definition longer (n : Z) (s : string) : bool := n <? PyStr.len s.

Lemma ladder_passes l : ladder l = None ↔ ∀ p, p ∈ l → p.1 = false.
Proof.
  induction l as [|[b e] l IH]; simpl; [split; [by intros _ ? ?%not_elem_of_nil|done]|].
  destruct b.
  - split; [done|]. intros H. by specialize (H (true, e) ltac:(left)).
  - rewrite IH. split; [|intros H p Hp; apply H; by right].
    intros H p [->|Hp]%elem_of_cons; auto.
Qed.
Lemma wp_get_or_404 {R} `{!HasPk R, !Table R} (p : R → bool) k Q db :
  (List.find p (tbl (R:=R) db) = None → Q (inr NotFound) db) →
  (∀ r, r ∈ tbl (R:=R) db → p r = true → wp (k r) Q db) → wp (get_or_404 p k) Q db.
Proof.
  intros H1 H2. apply wp_bind, wp_first. destruct (List.find p _) as [r|] eqn:E; [|by apply wp_ret, H1].
  apply find_elem in E as [??]. by apply H2.
Qed.
Lemma wp_check e k (Q : exn + response → DB → Prop) db :
  (∀ msg, e = Some msg → Q (inr (BadRequest msg)) db) → (e = None → wp k Q db) → wp (check e k) Q db.
Proof. destruct e as [msg|]; simpl; intros H1 H2; [by apply wp_ret, H1|by apply H2]. Qed.
Lemma wp_role r user view (Q : exn + response → DB → Prop) db :
  Q (inr Forbidden) db → wp view Q db → wp (role_required r user view) Q db.
Proof. unfold role_required. by destruct (_ && _); [intros; apply wp_ret|]. Qed.
