(* ===== verification/TeamsLink.v ===== *)
(** web/faculty.py: the meeting link a faculty member pastes to start an online class.
    A checker opens what is stored, so the host of the link is a trust decision; the
    parts of [urllib.parse.urlparse] it rests on are modelled over ASCII. *)
From Stdlib Require Import Ascii.
From S2P Require Import Prelude Python.
From stdpp Require Import strings.
Open Scope Z_scope.

(** ** urlparse: the scheme and the host *)
Definition one_of (cs : string) (c : ascii) : bool := bool_decide (c ∈ PyStr.to_list cs).
(** The blanks and controls dropped at the front, and the breaks dropped anywhere *)
Definition clean_url (l : list ascii) : list ascii :=
  List.filter (λ c, negb (PyUrl.control c)) (PyStr.drop_while (λ c, PyStr.code c <=? 32) l).
Definition scheme_char (c : ascii) : bool := PyStr.is_alpha c || PyStr.is_digit c || one_of "+-." c.
Definition lower_list (l : list ascii) : list ascii := PyStr.lower_char <$> l.
(** The scheme and what follows it *)
Definition split_scheme (l : list ascii) : list ascii * list ascii :=
  match PyUrl.after ":" l, PyUrl.before ":" l with
  | Some rest, c :: i =>
      if PyStr.is_alpha c && forallb scheme_char (c :: i) then (lower_list (c :: i), rest) else ([], l)
  | _, _ => ([], l)
  end.
Definition netloc (l : list ascii) : list ascii :=
  match l with
  | a :: b :: r =>
      if one_of "/" a && one_of "/" b then PyStr.take_while (λ c, negb (one_of "/?#" c)) r else []
  | _ => []
  end.
(** [netloc.rpartition('@')[2]] *)
Definition hostinfo (l : list ascii) : list ascii :=
  reverse (PyStr.take_while (λ c, negb (one_of "@" c)) (reverse l)).
Definition hostname (net : list ascii) : list ascii :=
  let info := hostinfo net in
  let h := match PyUrl.after "[" info with
           | Some bracketed => PyUrl.before "]" bracketed
           | None => PyUrl.before ":" info
           end in
  lower_list (PyUrl.before "%" h) ++ drop (length (PyUrl.before "%" h)) h.

Section links.
(** [_check_bracketed_netloc], the check of an address in brackets *)
Variable bracketed_ok : list ascii → bool.

(** [urlparse(raw)]: the scheme and the host, [None] when it raises [ValueError] *)
Definition urlparse (raw : string) : option (string * string) :=
  let '(scheme, rest) := split_scheme (clean_url (PyStr.to_list raw)) in
  let net := netloc rest in
  let open := existsb (one_of "[") net in
  let close := existsb (one_of "]") net in
  if xorb open close then None
  else if open && close && negb (bracketed_ok net) then None
  else Some (PyStr.of_list scheme, PyStr.of_list (hostname net)).

(** ** _teams_link_error *)
Definition TEAMS_HOSTS : list string :=
  ["teams.microsoft.com"; "teams.live.com"; "teams.cloud.microsoft"; "teams.microsoft.us";
   "gov.teams.microsoft.us"; "dod.teams.microsoft.us"]%string.
Definition endswith (s p : string) : bool :=
  let l := PyStr.to_list s in
  bool_decide (drop (length l - String.length p) l = PyStr.to_list p).
Definition is_teams_host (host : string) : bool :=
  existsb (λ d, bool_decide (host = d) || endswith host ("." +:+ d)) TEAMS_HOSTS.
Definition NO_LINK : string := "Paste the Microsoft Teams meeting link for this class.".
Definition BAD_LINK : string := "That does not look like a link. Paste the full meeting URL.".
Definition NOT_HTTPS : string :=
  "The meeting link must start with https:// -- copy it from Teams with 'Copy link'.".
Definition NOT_TEAMS : string :=
  "That is not a Microsoft Teams meeting link. It should look like https://teams.microsoft.com/l/meetup-join/...".
Definition teams_link_error (raw : string) : option string :=
  if bool_decide (raw = ""%string) then Some NO_LINK
  else match urlparse raw with
  | None => Some BAD_LINK
  | Some (scheme, host) =>
      if negb (bool_decide (scheme = "https"%string)) then Some NOT_HTTPS
      else if negb (is_teams_host (PyStr.lower host)) then Some NOT_TEAMS
      else None
  end.

Example paths_do_not_count :
  teams_link_error "https://example.com/teams.microsoft.com/meet" = Some NOT_TEAMS.
Proof. reflexivity. Qed.
Example users_do_not_count : teams_link_error "https://teams.microsoft.com@example.com" = Some NOT_TEAMS.
Proof. reflexivity. Qed.
Example prefixes_do_not_count : teams_link_error "https://evilteams.microsoft.com/l" = Some NOT_TEAMS.
Proof. reflexivity. Qed.
Example a_link : teams_link_error " HTTPS://EU.teams.microsoft.com:443/l/meetup-join/x" = None.
Proof. reflexivity. Qed.
End links.

(** ** The link decides by its host alone *)
Lemma lower_char_idem c : PyStr.lower_char (PyStr.lower_char c) = PyStr.lower_char c.
Proof. destruct c as [[] [] [] [] [] [] [] []]; reflexivity. Qed.
Lemma take_while_stop (p : ascii → bool) l l' :
  forallb p l = true → (∀ c, head l' = Some c → p c = false) → PyStr.take_while p (l ++ l') = l.
Proof.
  intros Hl Hl'. destruct l' as [|c l']; [rewrite app_nil_r; by apply PyStr.take_while_all|].
  apply PyStr.take_while_app; [done|by apply Hl'].
Qed.
Lemma before_stop (c : ascii) l l' :
  (∀ x, x ∈ l → x ≠ c) → (∀ x, head l' = Some x → x = c) → PyUrl.before c (l ++ l') = l.
Proof.
  intros Hl Hl'. apply take_while_stop.
  - apply forallb_elem. intros x Hx. b2p. by apply Hl.
  - intros x Hx. b2p. by apply Hl'.
Qed.
Lemma after_absent (c : ascii) l : (∀ x, x ∈ l → x ≠ c) → PyUrl.after c l = None.
Proof.
  induction l as [|x l IH]; intros H; [done|]. simpl. rewrite bool_decide_false by (apply H; left).
  apply IH. intros y Hy. apply H. by right.
Qed.
Lemma endswith_iff s p : endswith s p = true ↔ ∃ s', s = s' +:+ p.
Proof.
  unfold endswith. rewrite bd_true. split.
  - intros H. exists (PyStr.of_list (take (length (PyStr.to_list s) - String.length p) (PyStr.to_list s))).
    rewrite <- (PyStr.of_to_list s) at 1. rewrite <- (PyStr.of_to_list (_ +:+ p)). f_equal.
    rewrite PyStr.to_list_app, PyStr.to_of_list, <- H. by rewrite take_drop.
  - intros [s' ->]. rewrite PyStr.to_list_app, length_app, <- !PyStr.length_to_list.
    rewrite drop_app_length'; [done|]. lia.
Qed.

(** The characters of a part of an address: visible, and none of [not] *)
Definition visible_but (not : string) (l : list ascii) : Prop :=
  ∀ c, c ∈ l → 32 < PyStr.code c ∧ c ∉ PyStr.to_list not.
Lemma visible_ne not l c : visible_but not l → c ∈ PyStr.to_list not → ∀ x, x ∈ l → x ≠ c.
Proof. intros H Hc x Hx ->. by apply (H c Hx). Qed.
Lemma visible_none not cs l :
  visible_but not l → (∀ c, c ∈ PyStr.to_list cs → c ∈ PyStr.to_list not) →
  forallb (λ c, negb (one_of cs c)) l = true.
Proof.
  intros H Hcs. apply forallb_elem. intros x Hx. unfold one_of. b2p. intros Hin%Hcs. by apply (H x Hx).
Qed.
Lemma visible_clean not l : visible_but not l → List.filter (λ c, negb (PyUrl.control c)) l = l.
Proof.
  intros H. apply (select_all (λ c, negb (PyUrl.control c))). intros c Hc. destruct (H c Hc) as [Hv _].
  unfold PyUrl.control. b2p. lia.
Qed.
Lemma visible_sub not not' l :
  visible_but not l → (∀ c, c ∈ PyStr.to_list not' → c ∈ PyStr.to_list not) → visible_but not' l.
Proof. intros H Hs c Hc. destruct (H c Hc). split; [done|]. intros ?%Hs. done. Qed.

Ltac in_chars := apply (bool_decide_unpack _); vm_compute; exact I.

Section decides.
Context (bracketed_ok : list ascii → bool).
Context (user host port rest : list ascii).
(** An address [https://user@host:port/..]: the name of a user and the port may be left
    out, the rest is anything that starts a path, a query or a fragment. *)
Definition user_part : Prop := user = [] ∨ ∃ u, user = u ++ ["@"%char] ∧ visible_but "/?#[]" u.
Definition port_part : Prop := port = [] ∨ ∃ p, port = ":"%char :: p ∧ visible_but "/?#[]@" p.
Definition rest_part : Prop := ∀ c, head rest = Some c → one_of "/?#" c = true.
Context (Hu : user_part) (Hh : visible_but "/?#[]@:%" host) (Hp : port_part) (Hr : rest_part).
Let auth := user ++ host ++ port.

Lemma visible_auth : visible_but "/?#[]" auth.
Proof using All.
  assert (∀ l, visible_but "/?#[]@" l → visible_but "/?#[]" l) as Hs
    by (intros l H; eapply visible_sub; [exact H|intros c; vm_compute; set_solver]).
  assert (∀ c, 32 < PyStr.code c ∧ c ∉ PyStr.to_list "/?#[]" → visible_but "/?#[]" [c]) as H1
    by by intros c H x ->%list_elem_of_singleton.
  intros c. unfold auth. rewrite !elem_of_app. intros [Hc|[Hc|Hc]].
  - destruct Hu as [->|(u & -> & Hv)]; [by apply not_elem_of_nil in Hc|].
    apply elem_of_app in Hc as [Hc|Hc]; [by apply Hv|]. revert c Hc. apply H1. by vm_compute; set_solver.
  - destruct (Hh c Hc) as [? Hn]. split; [done|]. intros Hin. apply Hn. revert Hin. vm_compute. set_solver.
  - destruct Hp as [->|(p & -> & Hv)]; [by apply not_elem_of_nil in Hc|].
    apply elem_of_cons in Hc as [->|Hc]; [by vm_compute; set_solver|]. by apply (Hs p).
Qed.
Lemma hostinfo_auth : hostinfo auth = host ++ port.
Proof using All.
  assert (visible_but "@" (host ++ port)) as Hv.
  { intros c [Hc|Hc]%elem_of_app.
    - eapply visible_sub; [exact Hh| |exact Hc]. intros x. vm_compute. set_solver.
    - destruct Hp as [->|(p & -> & Hv)]; [by apply not_elem_of_nil in Hc|].
      apply elem_of_cons in Hc as [->|Hc]; [by vm_compute; set_solver|].
      eapply visible_sub; [exact Hv| |exact Hc]. intros x. vm_compute. set_solver. }
  unfold hostinfo, auth. rewrite reverse_app, take_while_stop; [apply reverse_involutive| |].
  - apply forallb_elem. intros c Hc. rewrite elem_of_reverse in Hc. unfold one_of. b2p. intros Hin. by destruct (Hv c Hc).
  - destruct Hu as [->|(u & -> & _)]; [done|]. rewrite reverse_app. by intros c [= <-].
Qed.
Lemma hostname_auth : hostname auth = lower_list host.
Proof using All.
  unfold hostname. rewrite hostinfo_auth. rewrite after_absent.
  - rewrite (before_stop ":"); [|by apply (visible_ne "/?#[]@:%"); [|in_chars]|].
    + replace (PyUrl.before "%" host) with host.
      { by rewrite drop_all, app_nil_r. }
      symmetry. rewrite <- (app_nil_r host) at 1. apply before_stop; [|done].
      by apply (visible_ne "/?#[]@:%"); [|in_chars].
    + destruct Hp as [->|(p & -> & _)]; [done|]. by intros x [= <-].
  - intros c Hc. apply (visible_ne "/?#[]" auth); [apply visible_auth|in_chars|].
    unfold auth. apply elem_of_app. by right.
Qed.
Lemma urlparse_https :
  urlparse bracketed_ok (PyStr.of_list (PyStr.to_list "https://" ++ auth ++ rest)) =
  Some ("https"%string, PyStr.of_list (lower_list host)).
Proof using All.
  unfold urlparse. rewrite PyStr.to_of_list.
  assert (∃ rest', List.filter (λ c, negb (PyUrl.control c)) rest = rest' ∧
    ∀ c, head rest' = Some c → negb (one_of "/?#" c) = false) as (rest' & Hrest & Hr').
  { eexists. split; [done|]. pose proof Hr as Hr0. unfold rest_part in Hr0. revert Hr0.
    generalize rest. intros [|c r] Hr0; [done|]. pose proof (Hr0 c eq_refl) as Hc.
    simpl. assert (PyUrl.control c = false) as ->.
    { revert Hc. unfold one_of. rewrite bd_true. vm_compute.
      destruct c as [[] [] [] [] [] [] [] []]; set_solver. }
    simpl. intros x [= <-]. by rewrite Hc. }
  assert (clean_url (PyStr.to_list "https://" ++ auth ++ rest) = PyStr.to_list "https://" ++ auth ++ rest')
    as ->.
  { unfold clean_url. change (PyStr.drop_while ?p (PyStr.to_list "https://" ++ ?l))
      with (PyStr.to_list "https://" ++ l).
    rewrite !List.filter_app, (visible_clean "/?#[]" auth) by apply visible_auth. by rewrite Hrest. }
  change (split_scheme (PyStr.to_list "https://" ++ auth ++ rest')) with
    (PyStr.to_list "https", "/"%char :: "/"%char :: (auth ++ rest')).
  cbv beta iota zeta.
  assert (netloc ("/"%char :: "/"%char :: (auth ++ rest')) = auth) as ->.
  { unfold netloc. change (one_of "/" "/" && one_of "/" "/") with true. cbv iota. apply take_while_stop; [|done].
    apply (visible_none "/?#[]"); [apply visible_auth|]. intros c. vm_compute. set_solver. }
  assert (∀ cs, (∀ c, c ∈ PyStr.to_list cs → c ∈ PyStr.to_list "/?#[]") → existsb (one_of cs) auth = false) as Hno.
  { intros cs Hcs. apply existsb_elem_false. intros c Hc. unfold one_of. b2p. intros Hin%Hcs.
    by apply (visible_auth c Hc). }
  rewrite (Hno "["), (Hno "]") by (intros c; vm_compute; set_solver). simpl. by rewrite hostname_auth.
Qed.
End decides.

(** A link is accepted by its host alone: whatever user name, port, path, query or
    fragment surrounds it, [https://user@host:port/..] is accepted exactly when the host,
    in any case, is one of the meeting hosts or a subdomain of one. *)
Theorem teams_link_exact bracketed_ok user host port rest :
  user_part user → visible_but "/?#[]@:%" host → port_part port → rest_part rest →
  teams_link_error bracketed_ok
    (PyStr.of_list (PyStr.to_list "https://" ++ (user ++ host ++ port) ++ rest)) = None ↔
  ∃ d, d ∈ TEAMS_HOSTS ∧
    (PyStr.lower (PyStr.of_list host) = d ∨ ∃ s, PyStr.lower (PyStr.of_list host) = s +:+ "." +:+ d).
Proof.
  intros Hu Hh Hp Hr. unfold teams_link_error. rewrite bool_decide_false by done.
  rewrite urlparse_https by done. rewrite bool_decide_true by done. cbn [negb].
  assert (PyStr.lower (PyStr.of_list (lower_list host)) = PyStr.lower (PyStr.of_list host)) as ->.
  { unfold PyStr.lower, PyStr.map_str, lower_list. rewrite !PyStr.to_of_list. f_equal.
    rewrite <- list_fmap_compose. apply list_fmap_ext. intros i c _. apply lower_char_idem. }
  transitivity (is_teams_host (PyStr.lower (PyStr.of_list host)) = true).
  { by destruct (is_teams_host _). }
  unfold is_teams_host. rewrite existsb_elem. apply exist_proper. intros d.
  by rewrite orb_true_iff, bd_true, endswith_iff.
Qed.
Lemma visible_computed not l :
  forallb (λ c, (32 <? PyStr.code c) && negb (one_of not c)) l = true → visible_but not l.
Proof.
  intros H c Hc. rewrite forallb_elem in H. specialize (H c Hc). unfold one_of in H. b2p. done.
Qed.
Lemma teams_link_exact_witness :
  teams_link_error (λ _, true) "https://ana@Teams.Microsoft.com:443/l/meetup-join" = None ∧
  teams_link_error (λ _, true) "https://teams.microsoft.com.example.com/l" = Some NOT_TEAMS.
Proof.
  split; [|reflexivity].
  apply (teams_link_exact (λ _, true) (PyStr.to_list "ana@") (PyStr.to_list "Teams.Microsoft.com")
    (PyStr.to_list ":443") (PyStr.to_list "/l/meetup-join")).
  - right. exists (PyStr.to_list "ana"). split; [reflexivity|by apply visible_computed].
  - by apply visible_computed.
  - right. exists (PyStr.to_list "443"). split; [reflexivity|by apply visible_computed].
  - by intros c [= <-].
  - exists "teams.microsoft.com"%string. split; [left|left; reflexivity].
Defined.
