(* ===== verification/Importing.v ===== *)
(** scheduling/importing.py: the parsing of a schedule cell, the classification of
    room codes, the key of an instructor's name and the reconciliation of a sheet.

    A cell is a string; a row a list of cells; a missing cell reads as the empty one.
    The expression [MEET_RE] needs no backtracking: none of its character classes
    contains the character that must follow it (a second capital cannot be skipped,
    since neither a blank nor a bracket is a capital), so [match_meeting] is the greedy
    reading of it from one position and [search_meeting] takes the leftmost match. *)
From S2P Require Import Prelude Python Model.
From Stdlib Require Import Ascii String.
From stdpp Require Import strings gmap.
Open Scope Z_scope.

(** ** Static maps *)
Definition PREFIX_BUILDING : dict string (string * string) := [
  ("R", ("ACAD", "Academic Building")); ("A", ("ADMIN", "Admin Building"));
  ("GYM", ("GYM", "Gym")); ("V", ("ONLINE", "Online (virtual)"))]%string.
Definition UNASSIGNED_BUILDING : string * string := ("UNASSIGNED", "Unassigned")%string.
Definition DAY_MAP : dict string Z :=
  [("M", 0); ("T", 1); ("W", 2); ("TH", 3); ("F", 4); ("S", 5); ("SU", 6)]%string.
Definition MODE_MAP : dict string Modality :=
  [("online", ONLINE); ("blended", BLENDED); ("f2f", F2F); ("rotation", BLENDED)]%string.

Record RoomInfo := {
  ri_raw_code : string; ri_prefix : string; ri_building_code : string;
  ri_building_name : string; ri_floor : Z; ri_is_virtual : bool;
  ri_is_unassigned : bool; ri_is_typo : bool; ri_scannable : bool
}.
Record MeetingParse := {
  mp_day : option Z; mp_start : option Z; mp_end : option Z; mp_room_raw : string
}.

(** ** Times and meetings *)

(** At most [n] characters of a class, greedily, and the rest: the expression [p{1,n}]. *)
Fixpoint span_upto (n : nat) (p : ascii → bool) (l : list ascii) : list ascii * list ascii :=
  match n, l with
  | S n', c :: l' => if p c then let '(a, b) := span_upto n' p l' in (c :: a, b) else ([], l)
  | _, _ => ([], l)
  end.
(** [re.match(r"(\d{1,2}):(\d{2})([AP])M?$", t, re.IGNORECASE)] *)
Definition match_clock (t : list ascii) : option (Z * Z * ascii) :=
  match span_upto 2 PyStr.is_digit t with
  | (h, colon :: m1 :: m2 :: ap :: rest) =>
      if negb (bool_decide (h = [])) && bool_decide (colon = ":"%char)
         && PyStr.is_digit m1 && PyStr.is_digit m2
         && bool_decide (PyStr.upper_char ap ∈ ["A"%char; "P"%char])
         && bool_decide ((PyStr.upper_char <$> rest) ∈ [[]; ["M"%char]])
      then Some (PyStr.digits_val h, PyStr.digits_val [m1; m2], PyStr.upper_char ap)
      else None
  | _ => None
  end.
Definition parse_time (raw : string) : option Z :=
  let t := List.filter (λ c, negb (bool_decide (c = " "%char)))
             (PyStr.strip_list (PyStr.to_list raw)) in
  '(hh, mm, ap) ← match_clock t;
  let hh := if bool_decide (ap = "P"%char) && negb (hh =? 12) then hh + 12 else hh in
  let hh := if bool_decide (ap = "A"%char) && (hh =? 12) then 0 else hh in
  if (23 <? hh) || (59 <? mm) then None else Some (PyTime.mk_time hh mm).

Definition time_char (c : ascii) : bool :=
  PyStr.is_digit c || bool_decide (c ∈ [":"%char; " "%char; "A"%char; "P"%char; "M"%char]).
Definition room_char (c : ascii) : bool :=
  PyStr.is_alpha c || PyStr.is_digit c || bool_decide (c = "-"%char).
(** [MEET_RE] from the start of a text: the four groups. *)
Definition match_meeting (l : list ascii)
    : option (list ascii * list ascii * list ascii * list ascii) :=
  let '(day, l1) := span_upto 2 PyStr.is_upper l in
  match day, PyStr.drop_while PyStr.is_space l1 with
  | _ :: _, "["%char :: l2 =>
      match PyStr.take_while time_char l2, PyStr.drop_while time_char l2 with
      | (_ :: _) as st, "-"%char :: l3 =>
          match PyStr.take_while time_char l3, PyStr.drop_while time_char l3 with
          | (_ :: _) as en, "]"%char :: l4 =>
              Some (day, st, en,
                    PyStr.take_while room_char (PyStr.drop_while PyStr.is_space l4))
          | _, _ => None
          end
      | _, _ => None
      end
  | _, _ => None
  end.
Fixpoint search_meeting (l : list ascii) :=
  match match_meeting l with
  | Some m => Some m
  | None => match l with [] => None | _ :: l' => search_meeting l' end
  end.
Definition parse_part (part : list ascii) : option MeetingParse :=
  '(day_tok, st_raw, en_raw, room_raw) ← search_meeting part;
  Some {| mp_day := dict_get DAY_MAP (PyStr.of_list day_tok);
          mp_start := parse_time (PyStr.of_list st_raw);
          mp_end := parse_time (PyStr.of_list en_raw);
          mp_room_raw := PyStr.strip (PyStr.of_list room_raw) |}.
Definition parse_meetings (schedule_str : string) : list MeetingParse :=
  omap parse_part (PyStr.split_list ","%char [] (PyStr.to_list schedule_str)).

(** ** Room codes *)
Definition derive_floor (code : string) : Z :=
  let c := PyStr.upper (PyStr.strip code) in
  if PyStr.startswith c "GYM" then 1
  else match PyStr.drop_while PyStr.is_upper (PyStr.to_list c) with
       | d :: _ => if PyStr.is_digit d then PyStr.digit_val d else 0
       | [] => 0
       end.
(** The leading letters of an upper-cased code. *)
Definition lead_letters (cu : string) : string :=
  PyStr.of_list (PyStr.take_while PyStr.is_upper (PyStr.to_list cu)).
Definition known_prefix (c cu prefix : string) (virtual : bool) : RoomInfo :=
  let '(bcode, bname) := dict_getd PREFIX_BUILDING prefix (""%string, ""%string) in
  {| ri_raw_code := c; ri_prefix := prefix; ri_building_code := bcode;
     ri_building_name := bname; ri_floor := derive_floor cu; ri_is_virtual := virtual;
     ri_is_unassigned := false; ri_is_typo := false; ri_scannable := negb virtual |}.
(** P, U, digit-only and unknown codes: the unassigned building, flagged. *)
Definition unknown_code (c cu : string) : RoomInfo :=
  {| ri_raw_code := c; ri_prefix := lead_letters cu;
     ri_building_code := UNASSIGNED_BUILDING.1; ri_building_name := UNASSIGNED_BUILDING.2;
     ri_floor := derive_floor cu; ri_is_virtual := false; ri_is_unassigned := true;
     ri_is_typo := negb (match PyStr.to_list cu with c :: _ => PyStr.is_alpha c | [] => false end);
     ri_scannable := true |}.
Definition classify_room (code : string) : RoomInfo :=
  let c := PyStr.strip code in
  let cu := PyStr.upper c in
  if PyStr.startswith cu "GYM" then known_prefix c cu "GYM" false
  else if bool_decide (PyStr.take 1 cu = "V"%string) then known_prefix c cu "V" true
  else if bool_decide (PyStr.take 1 cu = "R"%string) then known_prefix c cu "R" false
  else if bool_decide (PyStr.take 1 cu = "A"%string) then known_prefix c cu "A" false
  else unknown_code c cu.

Definition modality_for_room (room_info : option RoomInfo) (course_mode : string) : Modality :=
  if match room_info with Some i => ri_is_virtual i | None => false end then ONLINE
  else dict_getd MODE_MAP (PyStr.lower (PyStr.strip course_mode)) F2F.

Definition name_tokens (name : string) : list string :=
  select (λ t, 1 <? PyStr.len t)
    (PyStr.words (PyStr.replace_char "." " " (PyStr.replace_char "," " " (PyStr.upper name)))).
Definition normalize_name_key (name : string) : string := PyStr.join " " (name_tokens name).

Definition row_cell (row : list string) (col : dict string nat) (name : string) : string :=
  match dict_get col name with
  | None => ""
  | Some i => PyStr.strip (default ""%string (row !! i))
  end.
Definition is_real_room (room_raw sec : string) : bool :=
  if bool_decide (room_raw = ""%string) then false
  else negb (bool_decide (PyStr.upper (PyStr.strip room_raw) = PyStr.upper (PyStr.strip sec))
             && ri_is_unassigned (classify_room room_raw)).

(** ** Reconciliation *)
Record Reconciliation := {
  total_rows : Z; no_schedule : Z; intact_rows : Z; roomless_tba_rows : Z;
  online_no_room_rows : Z; total_meetings : Z; flagged_unassigned : list string;
  flagged_typo : list string; distinct_rooms : Z; distinct_instructors : Z;
  emailless_instructor_keys : list string
}.
(** The running totals of the loop. *)
Record SheetTally := {
  n_none : Z; n_intact : Z; n_roomless : Z; n_online : Z; n_meetings : Z;
  s_unassigned : gset string; s_typo : gset string; s_rooms : gset string;
  s_emails : gset string; d_names : dict string bool
}.
#[global] Instance eta_SheetTally : Eta SheetTally := λ r, {|
  n_none := n_none r; n_intact := n_intact r; n_roomless := n_roomless r; n_online := n_online r;
  n_meetings := n_meetings r; s_unassigned := s_unassigned r; s_typo := s_typo r;
  s_rooms := s_rooms r; s_emails := s_emails r; d_names := d_names r
|}.
Definition empty_tally : SheetTally := {|
  n_none := 0; n_intact := 0; n_roomless := 0; n_online := 0; n_meetings := 0;
  s_unassigned := ∅; s_typo := ∅; s_rooms := ∅; s_emails := ∅; d_names := [] |}.

Section reconcile.
Context (col : dict string nat).
Implicit Types (row : list string) (t : SheetTally) (m : MeetingParse).

(** A valid weekday and a slot of some length. *)
Definition valid_slot m : bool :=
  match mp_day m, mp_start m, mp_end m with
  | Some _, Some st, Some en => negb (st =? en)
  | _, _, _ => false
  end.
Definition row_schedule row : string := row_cell row col "Schedule".
Definition row_email row : string := row_cell row col "Email".
Definition row_name_key row : string := normalize_name_key (row_cell row col "Instructor").
Definition row_mode row : string := PyStr.lower (row_cell row col "Mode").
Definition real_meetings row : list MeetingParse :=
  select (λ m, valid_slot m && is_real_room (mp_room_raw m) (row_cell row col "Sec"))
    (parse_meetings (row_schedule row)).
Definition room_key m : string := PyStr.upper (PyStr.strip (mp_room_raw m)).

Definition tally_instructor t row : SheetTally :=
  let nk := row_name_key row in
  if bool_decide (row_email row = ""%string) then
    if bool_decide (nk = ""%string) then t
    else t <| d_names := dict_setdefault (d_names t) nk false |>
  else
    let t := t <| s_emails := {[PyStr.lower (row_email row)]} ∪ s_emails t |> in
    if bool_decide (nk = ""%string) then t else t <| d_names := dict_set (d_names t) nk true |>.
Definition tally_room t m : SheetTally :=
  let info := classify_room (mp_room_raw m) in
  let t := t <| s_rooms := {[room_key m]} ∪ s_rooms t |> in
  if ri_is_typo info then t <| s_typo := {[room_key m]} ∪ s_typo t |>
  else if ri_is_unassigned info then t <| s_unassigned := {[room_key m]} ∪ s_unassigned t |>
  else t.
Definition tally_row t row : SheetTally :=
  let t := tally_instructor t row in
  if bool_decide (row_schedule row = ""%string) then t <| n_none := n_none t + 1 |>
  else
    let real := real_meetings row in
    let t := foldl tally_room t real in
    let t := t <| n_meetings := n_meetings t + Z.of_nat (length real) |> in
    match real with
    | _ :: _ => t <| n_intact := n_intact t + 1 |>
    | [] => if bool_decide (row_mode row = "online"%string) then t <| n_online := n_online t + 1 |>
            else t <| n_roomless := n_roomless t + 1 |>
    end.
Definition sorted_set (s : gset string) : list string := sort_by String.leb (elements s).
Definition reconcile (rows : list (list string)) : Reconciliation :=
  let t := foldl tally_row empty_tally rows in
  let emailless := sort_by String.leb (select (λ p, negb p.2) (d_names t)).*1 in
  {| total_rows := Z.of_nat (length rows); no_schedule := n_none t; intact_rows := n_intact t;
     roomless_tba_rows := n_roomless t; online_no_room_rows := n_online t;
     total_meetings := n_meetings t; flagged_unassigned := sorted_set (s_unassigned t);
     flagged_typo := sorted_set (s_typo t); distinct_rooms := Z.of_nat (size (s_rooms t));
     distinct_instructors := Z.of_nat (size (s_emails t)) + Z.of_nat (length emailless);
     emailless_instructor_keys := emailless |}.

(** *** The classes a row falls in *)
Definition blank_row row : bool := bool_decide (row_schedule row = ""%string).
Definition intact_row row : bool :=
  negb (blank_row row) && match real_meetings row with [] => false | _ :: _ => true end.
Definition online_row row : bool :=
  negb (blank_row row) && negb (intact_row row) && bool_decide (row_mode row = "online"%string).
Definition roomless_row row : bool :=
  negb (blank_row row) && negb (intact_row row) && negb (bool_decide (row_mode row = "online"%string)).
Definition count_rows (p : list string → bool) rows : Z := Z.of_nat (length (select p rows)).
(** The meetings the reconciliation counts, over all the rows that have a schedule. *)
Definition counted rows : list MeetingParse := rows ≫= real_meetings.
End reconcile.

(** *** What the loop accumulates *)
Section reconcile_facts.
Context (col : dict string nat).
Implicit Types (row : list string) (t : SheetTally) (m : MeetingParse) (rows : list (list string)).

Lemma tally_room_counts t m :
  n_none (tally_room t m) = n_none t ∧ n_intact (tally_room t m) = n_intact t ∧
  n_roomless (tally_room t m) = n_roomless t ∧ n_online (tally_room t m) = n_online t ∧
  n_meetings (tally_room t m) = n_meetings t ∧ s_emails (tally_room t m) = s_emails t ∧
  d_names (tally_room t m) = d_names t.
Proof. unfold tally_room. destruct (ri_is_typo (classify_room (mp_room_raw m))), (ri_is_unassigned (classify_room (mp_room_raw m))); done. Qed.
Lemma tally_rooms_counts l t :
  n_none (foldl tally_room t l) = n_none t ∧ n_intact (foldl tally_room t l) = n_intact t ∧
  n_roomless (foldl tally_room t l) = n_roomless t ∧ n_online (foldl tally_room t l) = n_online t ∧
  n_meetings (foldl tally_room t l) = n_meetings t ∧ s_emails (foldl tally_room t l) = s_emails t ∧
  d_names (foldl tally_room t l) = d_names t.
Proof. split_and!; apply foldl_same; intros; apply tally_room_counts. Qed.
Lemma tally_instructor_counts t row :
  n_none (tally_instructor col t row) = n_none t ∧ n_intact (tally_instructor col t row) = n_intact t ∧
  n_roomless (tally_instructor col t row) = n_roomless t ∧
  n_online (tally_instructor col t row) = n_online t ∧
  n_meetings (tally_instructor col t row) = n_meetings t ∧
  s_rooms (tally_instructor col t row) = s_rooms t ∧ s_typo (tally_instructor col t row) = s_typo t ∧
  s_unassigned (tally_instructor col t row) = s_unassigned t.
Proof. unfold tally_instructor. by repeat case_bool_decide. Qed.

(** The real meetings of a row without a schedule are none. *)
Lemma blank_row_no_meetings row : blank_row col row = true → real_meetings col row = [].
Proof. unfold blank_row, real_meetings. rewrite bd_true. by intros ->. Qed.

Lemma tally_row_counts t row :
  n_none (tally_row col t row) = n_none t + (if blank_row col row then 1 else 0) ∧
  n_intact (tally_row col t row) = n_intact t + (if intact_row col row then 1 else 0) ∧
  n_roomless (tally_row col t row) = n_roomless t + (if roomless_row col row then 1 else 0) ∧
  n_online (tally_row col t row) = n_online t + (if online_row col row then 1 else 0) ∧
  n_meetings (tally_row col t row) = n_meetings t + Z.of_nat (length (real_meetings col row)).
Proof.
  destruct (tally_instructor_counts t row) as (H1 & H2 & H3 & H4 & H5 & _).
  unfold tally_row, roomless_row, online_row, intact_row.
  destruct (blank_row col row) eqn:E; unfold blank_row in E; rewrite E.
  - rewrite (blank_row_no_meetings row) by done. cbn. rewrite H1, H2, H3, H4, H5. lia.
  - destruct (tally_rooms_counts (real_meetings col row) (tally_instructor col t row))
      as (G1 & G2 & G3 & G4 & G5 & _).
    destruct (real_meetings col row) as [|m l]; [destruct (bool_decide (row_mode col row = _))|];
      cbn -[tally_instructor tally_room Z.of_nat] in *; lia.
Qed.
(** The sets of room codes a row adds to. *)
Definition in_sets (obs : SheetTally → gset string) (p : RoomInfo → bool) : Prop :=
  (∀ t m c, c ∈ obs (tally_room t m) ↔
     c ∈ obs t ∨ (p (classify_room (mp_room_raw m)) = true ∧ room_key m = c)) ∧
  (∀ t row, obs (tally_instructor col t row) = obs t) ∧
  (∀ t n, obs (t <| n_none := n |>) = obs t) ∧ (∀ t n, obs (t <| n_meetings := n |>) = obs t) ∧
  (∀ t n, obs (t <| n_intact := n |>) = obs t) ∧ (∀ t n, obs (t <| n_online := n |>) = obs t) ∧
  (∀ t n, obs (t <| n_roomless := n |>) = obs t).
Lemma in_sets_rooms : in_sets s_rooms (λ _, true).
Proof.
  split_and!; try done; [|intros; apply tally_instructor_counts].
  intros t m c. unfold tally_room. destruct (ri_is_typo (classify_room (mp_room_raw m))), (ri_is_unassigned (classify_room (mp_room_raw m))); set_solver.
Qed.
Lemma in_sets_typo : in_sets s_typo ri_is_typo.
Proof.
  split_and!; try done; [|intros; apply tally_instructor_counts].
  intros t m c. unfold tally_room. destruct (ri_is_typo (classify_room (mp_room_raw m))), (ri_is_unassigned (classify_room (mp_room_raw m))); set_solver.
Qed.
Lemma in_sets_unassigned : in_sets s_unassigned (λ i, negb (ri_is_typo i) && ri_is_unassigned i).
Proof.
  split_and!; try done; [|intros; apply tally_instructor_counts].
  intros t m c. unfold tally_room. destruct (ri_is_typo (classify_room (mp_room_raw m))), (ri_is_unassigned (classify_room (mp_room_raw m))); set_solver.
Qed.
Lemma in_sets_fold obs p rows c :
  in_sets obs p → obs empty_tally = ∅ →
  c ∈ obs (foldl (tally_row col) empty_tally rows) ↔
  ∃ row m, row ∈ rows ∧ m ∈ real_meetings col row ∧
    p (classify_room (mp_room_raw m)) = true ∧ room_key m = c.
Proof.
  intros (Hroom & Hins & H1 & H2 & H3 & H4 & H5) H0.
  rewrite (foldl_collect (tally_row col) (λ t c, c ∈ obs t)
    (λ row c, ∃ m, m ∈ real_meetings col row ∧ p (classify_room (mp_room_raw m)) = true ∧ room_key m = c)).
  { rewrite H0. split; [intros [?%elem_of_empty|(row & ? & m & ?)]; [done|eauto]|].
    intros (row & m & ? & ?). eauto. }
  intros t row. unfold tally_row. case_bool_decide as Hb.
  - rewrite H1, Hins. rewrite (blank_row_no_meetings row) by (by apply bd_true).
    split; [by left|]. intros [?|(m & ?%not_elem_of_nil & _)]; done.
  - assert (c ∈ obs (foldl tally_room (tally_instructor col t row) (real_meetings col row)) ↔
      c ∈ obs t ∨ ∃ m, m ∈ real_meetings col row ∧ p (classify_room (mp_room_raw m)) = true ∧ room_key m = c) as Hf.
    { rewrite <- (Hins t row). apply (foldl_collect tally_room (λ t c, c ∈ obs t)
        (λ m c, p (classify_room (mp_room_raw m)) = true ∧ room_key m = c)). intros; apply Hroom. }
    rewrite <- Hf. destruct (real_meetings col row); [case_bool_decide|]; by rewrite ?H3, ?H4, ?H5, H2.
Qed.

(** A flag by key that once raised stays so. *)
Definition raise_flag {A} (key : A → string) (has : A → bool) (d : dict string bool) (x : A) :=
  if bool_decide (key x = ""%string) then d
  else if has x then dict_set d (key x) true else dict_setdefault d (key x) false.
Lemma raise_flags {A} (key : A → string) (has : A → bool) (l : list A) :
  NoDup (foldl (raise_flag key has) [] l).*1 ∧
  ∀ k, dict_get (foldl (raise_flag key has) [] l) k =
    if bool_decide (k = ""%string) then None
    else if existsb (λ x, bool_decide (key x = k)) l
    then Some (existsb (λ x, bool_decide (key x = k) && has x) l) else None.
Proof.
  induction l as [|x l [Hnd Hget]] using rev_ind.
  { split; [apply NoDup_nil_2|]. intros k. simpl. by case_bool_decide. }
  rewrite foldl_app. cbn [foldl]. set (d := foldl _ _ _) in *. clearbody d.
  assert (∀ k, existsb (λ x, bool_decide (key x = k)) l = false →
    existsb (λ x, bool_decide (key x = k) && has x) l = false) as Hsub.
  { intros k. rewrite !existsb_elem_false. intros H y Hy. by rewrite H. }
  unfold raise_flag, dict_setdefault. split.
  - case_bool_decide; [done|]. destruct (has x); [by apply dict_set_NoDup|].
    destruct (dict_get _ _); [done|by apply dict_set_NoDup].
  - intros k. rewrite !existsb_app. cbn [existsb]. rewrite !orb_false_r.
    pose proof (Hget (key x)) as Hx. specialize (Hget k). specialize (Hsub k).
    destruct (bool_decide_reflect (key x = "")) as [He|He].
    + rewrite Hget. case_bool_decide as Hk; [done|].
      rewrite (bool_decide_false (key x = k)) by congruence. by rewrite !orb_false_r.
    + destruct (bool_decide_reflect (key x = k)) as [<-|Hk].
      * rewrite bool_decide_false by done. rewrite orb_true_r. simpl. destruct (has x); simpl.
        -- by rewrite dict_get_set_eq, orb_true_r.
        -- cbn in Hx. rewrite orb_false_r. destruct (existsb _ l) eqn:Ex.
           ++ by rewrite Hx.
           ++ by rewrite Hx, dict_get_set_eq, Hsub.
      * rewrite andb_false_l, !orb_false_r. destruct (has x); [by rewrite dict_get_set_ne|].
        destruct (dict_get d (key x)); [done|by rewrite dict_get_set_ne].
Qed.

Lemma tally_row_people t row :
  s_emails (tally_row col t row) = s_emails (tally_instructor col t row) ∧
  d_names (tally_row col t row) = d_names (tally_instructor col t row).
Proof.
  unfold tally_row. case_bool_decide; [done|].
  destruct (tally_rooms_counts (real_meetings col row) (tally_instructor col t row))
    as (_ & _ & _ & _ & _ & He & Hd).
  destruct (real_meetings col row); [case_bool_decide|]; split; done.
Qed.
Lemma emails_fold rows c :
  c ∈ s_emails (foldl (tally_row col) empty_tally rows) ↔
  ∃ row, row ∈ rows ∧ row_email col row ≠ ""%string ∧ PyStr.lower (row_email col row) = c.
Proof.
  rewrite (foldl_collect (tally_row col) (λ t c, c ∈ s_emails t)
    (λ row c, row_email col row ≠ ""%string ∧ PyStr.lower (row_email col row) = c)).
  { cbn [s_emails empty_tally]. split; [intros [?%elem_of_empty|?]; done|by right]. }
  intros t row. rewrite (proj1 (tally_row_people t row)). unfold tally_instructor.
  case_bool_decide as He; case_bool_decide; cbn [s_emails upd setter];
    rewrite ?elem_of_union, ?elem_of_singleton; naive_solver.
Qed.
Definition row_has_email row : bool := negb (bool_decide (row_email col row = ""%string)).
Lemma names_fold rows t :
  d_names (foldl (tally_row col) t rows) =
  foldl (raise_flag (row_name_key col) row_has_email) (d_names t) rows.
Proof.
  revert t. induction rows as [|row rows IH]; intros t; [done|]. cbn [foldl]. rewrite IH. f_equal.
  rewrite (proj2 (tally_row_people t row)). unfold tally_instructor, raise_flag, row_has_email.
  by case_bool_decide; case_bool_decide.
Qed.

(** A name that carries no address: some row has its key, none of them an address. *)
Definition emailless_name rows (k : string) : Prop :=
  k ≠ ""%string ∧ (∃ row, row ∈ rows ∧ row_name_key col row = k) ∧
  ∀ row, row ∈ rows → row_name_key col row = k → row_email col row = ""%string.
Lemma emailless_exact rows k :
  k ∈ emailless_instructor_keys (reconcile col rows) ↔ emailless_name rows k.
Proof.
  unfold reconcile. cbn [emailless_instructor_keys]. rewrite elem_of_sort_by, names_fold.
  cbn [d_names empty_tally].
  destruct (raise_flags (row_name_key col) row_has_email rows) as [Hnd Hget]. specialize (Hget k).
  assert (k ∈ (select (λ p, negb p.2) (foldl (raise_flag (row_name_key col) row_has_email) [] rows)).*1 ↔
    dict_get (foldl (raise_flag (row_name_key col) row_has_email) [] rows) k = Some false) as ->.
  { rewrite list_elem_of_fmap. split.
    - intros ([k' b] & -> & [Hin Hb]%elem_of_select). cbn in Hb. b2p. subst. by apply dict_elem_get.
    - intros H%dict_get_elem. exists (k, false). split; [done|]. by apply elem_of_select. }
  rewrite Hget. unfold emailless_name. case_bool_decide as Hk; [naive_solver|].
  destruct (existsb (λ row, bool_decide (row_name_key col row = k)) rows) eqn:Ex.
  - apply existsb_elem in Ex as (row & Hrow & Hkey%bd_true). split.
    + intros [= Hf]. rewrite existsb_elem_false in Hf. split_and!; [done|eauto|].
      intros row' Hr' Hk'. specialize (Hf row' Hr'). rewrite Hk', bool_decide_true in Hf by done.
      unfold row_has_email in Hf. simpl in Hf. by b2p.
    + intros (_ & _ & H). f_equal. apply existsb_elem_false. intros row' Hr'.
      destruct (bool_decide_reflect (row_name_key col row' = k)) as [Hk'|]; [|done].
      unfold row_has_email. by rewrite (H row' Hr' Hk').
  - rewrite existsb_elem_false in Ex. split; [done|]. intros (_ & (row & Hrow & Hkey) & _).
    specialize (Ex row Hrow). by b2p.
Qed.
Lemma sorted_set_elem (s : gset string) c : c ∈ sorted_set s ↔ c ∈ s.
Proof. unfold sorted_set. by rewrite elem_of_sort_by, elem_of_elements. Qed.
Lemma sorted_set_size (s : gset string) : length (sorted_set s) = size s.
Proof. unfold sorted_set, size. by rewrite (Permutation_length (sort_by_perm _ _)). Qed.
Lemma sorted_set_NoDup (s : gset string) : NoDup (sorted_set s).
Proof. unfold sorted_set. rewrite sort_by_perm. apply NoDup_elements. Qed.
End reconcile_facts.

Lemma elem_of_counted col rows m :
  m ∈ counted col rows ↔ ∃ row, row ∈ rows ∧ m ∈ real_meetings col row.
Proof. unfold counted. rewrite list_elem_of_bind. naive_solver. Qed.
Lemma four_buckets col rows :
  Z.of_nat (length rows) = count_rows (intact_row col) rows + count_rows (roomless_row col) rows
    + count_rows (online_row col) rows + count_rows (blank_row col) rows.
Proof.
  unfold count_rows. rewrite <- !zsum_count, <- !zsum_fmap_add.
  replace (Z.of_nat (length rows)) with (1 * Z.of_nat (length rows)) by lia.
  rewrite <- (zsum_const 1). apply zsum_fmap_ext. intros row _.
  unfold roomless_row, online_row, intact_row. destruct (blank_row col row); [done|].
  destruct (real_meetings col row); [|done]. by destruct (bool_decide _).
Qed.

(** The figures are counts of rows. *)
Lemma tally_fold col (f : SheetTally → Z) (w : list string → Z) rows :
  (∀ t row, f (tally_row col t row) = f t + w row) → f empty_tally = 0 →
  f (foldl (tally_row col) empty_tally rows) = zsum (w <$> rows).
Proof. intros Hf H0. rewrite (foldl_counter (tally_row col) f w) by done. rewrite H0. lia. Qed.
Ltac tally_count :=
  unfold count_rows; rewrite <- ?zsum_count; apply tally_fold; [intros; apply tally_row_counts|done].
Lemma reconcile_counts col rows :
  let rc := reconcile col rows in
  no_schedule rc = count_rows (blank_row col) rows ∧
  intact_rows rc = count_rows (intact_row col) rows ∧
  roomless_tba_rows rc = count_rows (roomless_row col) rows ∧
  online_no_room_rows rc = count_rows (online_row col) rows ∧
  total_meetings rc = Z.of_nat (length (counted col rows)).
Proof. cbn zeta. unfold counted. rewrite length_bind. split_and!; tally_count. Qed.
(** A set of codes the loop fills, as the codes of the counted meetings of a class. *)
Lemma reconcile_set col obs p rows c :
  in_sets col obs p → obs empty_tally = ∅ →
  c ∈ obs (foldl (tally_row col) empty_tally rows) ↔
  ∃ m, m ∈ counted col rows ∧ p (classify_room (mp_room_raw m)) = true ∧ room_key m = c.
Proof.
  intros H H0. rewrite (in_sets_fold col obs p) by done. setoid_rewrite elem_of_counted. naive_solver.
Qed.

(** The reconciliation of a sheet counts every row in exactly one of the four classes
    (no schedule text; at least one meeting with a weekday, a slot and a real room; none
    and an online mode; none and another mode), so the four figures add up to the number
    of rows; the meetings counted are those of the intact rows; the lists of flagged
    codes are exactly the codes of these meetings without a building prefix, and those
    of an unknown building; the distinct rooms are the codes, each once; and a name is
    reported without an address exactly when no row gives it one. *)
Theorem reconcile_exact (col : dict string nat) (rows : list (list string)) :
  let rc := reconcile col rows in
  no_schedule rc = count_rows (blank_row col) rows ∧
  intact_rows rc = count_rows (intact_row col) rows ∧
  roomless_tba_rows rc = count_rows (roomless_row col) rows ∧
  online_no_room_rows rc = count_rows (online_row col) rows ∧
  total_rows rc = intact_rows rc + roomless_tba_rows rc + online_no_room_rows rc + no_schedule rc ∧
  total_meetings rc = Z.of_nat (length (counted col rows)) ∧
  (∀ c, c ∈ flagged_typo rc ↔
     ∃ m, m ∈ counted col rows ∧ ri_is_typo (classify_room (mp_room_raw m)) = true ∧ room_key m = c) ∧
  (∀ c, c ∈ flagged_unassigned rc ↔
     ∃ m, m ∈ counted col rows ∧ ri_is_unassigned (classify_room (mp_room_raw m)) = true ∧
       ri_is_typo (classify_room (mp_room_raw m)) = false ∧ room_key m = c) ∧
  distinct_rooms rc = Z.of_nat (size (list_to_set (room_key <$> counted col rows) : gset string)) ∧
  (∀ k, k ∈ emailless_instructor_keys rc ↔ emailless_name col rows k).
Proof.
  cbn zeta. pose proof (reconcile_counts col rows) as (H1 & H2 & H3 & H4 & H5).
  split; [done|]. split; [done|]. split; [done|]. split; [done|].
  split; [rewrite H1, H2, H3, H4; apply four_buckets|]. split; [done|].
  split; [|split; [|split]].
  - intros c. unfold reconcile. cbn [flagged_typo]. rewrite sorted_set_elem.
    by apply (reconcile_set col s_typo), eq_refl; apply in_sets_typo.
  - intros c. unfold reconcile. cbn [flagged_unassigned]. rewrite sorted_set_elem.
    rewrite (reconcile_set col s_unassigned _ _ _ (in_sets_unassigned col)) by done.
    apply exist_proper. intros m. rewrite andb_true_iff, negb_true_iff. tauto.
  - unfold reconcile. cbn [distinct_rooms]. do 2 f_equal. apply leibniz_equiv. intros c.
    rewrite (reconcile_set col s_rooms _ _ _ (in_sets_rooms col)) by done.
    rewrite elem_of_list_to_set, list_elem_of_fmap. naive_solver.
  - apply emailless_exact.
Qed.

(** ** The registrar's text of a weekly schedule

    A cell is written as in [parse_meetings]'s documentation: meetings separated by
    commas, each a day token, two clock times in brackets and a room. *)
Record slot := { sl_day : string; sl_start : Z; sl_end : Z; sl_room : string }.
Definition print_clock (m : Z) : list ascii :=
  let h := (m / 60) mod 12 in
  PyStr.to_list (PyStr.str (if h =? 0 then 12 else h)) ++ ":"%char ::
  PyStr.to_list (PyStr.zpad 2 (m mod 60)) ++
  PyStr.to_list (if m / 60 <? 12 then "AM" else "PM").
Definition print_slot (s : slot) : list ascii :=
  PyStr.to_list (sl_day s) ++ " "%char :: "["%char :: print_clock (sl_start s) ++
  "-"%char :: print_clock (sl_end s) ++ "]"%char :: " "%char :: PyStr.to_list (sl_room s).
Definition print_schedule (l : list slot) : string :=
  PyStr.join "," (PyStr.of_list <$> (print_slot <$> l)).
(** A known day, minutes of a day, and a room written with letters, digits and hyphens. *)
Definition printable (s : slot) : Prop :=
  sl_day s ∈ DAY_MAP.*1 ∧ 0 ≤ sl_start s < 1440 ∧ 0 ≤ sl_end s < 1440 ∧
  forallb room_char (PyStr.to_list (sl_room s)) = true.
Definition parsed_slot (s : slot) : MeetingParse :=
  {| mp_day := dict_get DAY_MAP (sl_day s); mp_start := Some (PyTime.minutes (sl_start s));
     mp_end := Some (PyTime.minutes (sl_end s)); mp_room_raw := sl_room s |}.

Lemma minute_of_day (P : Z → bool) m :
  forallb P (seqZ 0 1440) = true → 0 ≤ m < 1440 → P m = true.
Proof. rewrite forallb_elem. intros H Hm. apply H, elem_of_seqZ. lia. Qed.
Lemma parse_print_clock m :
  0 ≤ m < 1440 → parse_time (PyStr.of_list (print_clock m)) = Some (PyTime.minutes m).
Proof.
  intros Hm. pose proof (minute_of_day (λ m, bool_decide
    (parse_time (PyStr.of_list (print_clock m)) = Some (PyTime.minutes m))) m) as H.
  cbv beta in H. rewrite bd_true in H. apply H; [vm_compute; reflexivity|done].
Qed.
Lemma print_clock_chars m : 0 ≤ m < 1440 → forallb time_char (print_clock m) = true.
Proof. apply (minute_of_day (λ m, forallb time_char (print_clock m))). vm_compute. reflexivity. Qed.
Lemma print_clock_cons m : 0 ≤ m < 1440 → ∃ c l, print_clock m = c :: l.
Proof.
  intros Hm. pose proof (minute_of_day (λ m, negb (bool_decide (print_clock m = []))) m) as H.
  cbv beta in H. destruct (print_clock m) as [|c l]; [|eauto].
  rewrite bool_decide_true in H by done. assert (false = true); [apply H|done]; [|done].
  vm_compute. reflexivity.
Qed.
Lemma class_excludes (p : ascii → bool) l c : forallb p l = true → p c = false → c ∉ l.
Proof. rewrite forallb_elem. intros H Hc Hin. rewrite (H c Hin) in Hc. done. Qed.
Lemma room_char_blank c : room_char c = true → PyStr.is_space c = false.
Proof. destruct c as [[] [] [] [] [] [] [] []]; vm_compute; congruence. Qed.

Lemma match_print_slot s :
  printable s → match_meeting (print_slot s) =
    Some (PyStr.to_list (sl_day s), print_clock (sl_start s), print_clock (sl_end s),
          PyStr.to_list (sl_room s)).
Proof.
  intros (Hd & Hs & He & Hr). unfold match_meeting, print_slot.
  assert (span_upto 2 PyStr.is_upper (PyStr.to_list (sl_day s) ++ " "%char :: "["%char ::
      print_clock (sl_start s) ++ "-"%char :: print_clock (sl_end s) ++ "]"%char :: " "%char ::
      PyStr.to_list (sl_room s)) = (PyStr.to_list (sl_day s), " "%char :: "["%char ::
      print_clock (sl_start s) ++ "-"%char :: print_clock (sl_end s) ++ "]"%char :: " "%char ::
      PyStr.to_list (sl_room s)) ∧ ∃ c l, PyStr.to_list (sl_day s) = c :: l) as [-> (c & l & Hcl)].
  { cbn in Hd. repeat (apply elem_of_cons in Hd as [->|Hd]; [by split; [|eauto]|]).
    by apply not_elem_of_nil in Hd. }
  rewrite Hcl. cbn [PyStr.drop_while]. replace (PyStr.is_space " ") with true by done.
  replace (PyStr.is_space "[") with false by done.
  rewrite !PyStr.take_while_app, !PyStr.drop_while_app by (by apply print_clock_chars || done).
  destruct (print_clock_cons (sl_start s) Hs) as (c1 & l1 & ->).
  rewrite PyStr.take_while_app by (by apply print_clock_chars || done).
  destruct (print_clock_cons (sl_end s) He) as (c2 & l2 & ->).
  cbn [PyStr.drop_while]. replace (PyStr.is_space " ") with true by done.
  rewrite PyStr.drop_while_head, PyStr.take_while_all; [done..|].
  intros x Hx. apply room_char_blank. rewrite forallb_elem in Hr. by apply Hr.
Qed.
Lemma parse_print_slot s : printable s → parse_part (print_slot s) = Some (parsed_slot s).
Proof.
  intros Hok. pose proof Hok as (_ & Hs & He & Hr). unfold parse_part.
  assert (search_meeting (print_slot s) = match_meeting (print_slot s)) as ->.
  { rewrite (match_print_slot s Hok). pose proof (match_print_slot s Hok) as Hm.
    destruct (print_slot s) as [|c l]; [done|]. cbn [search_meeting]. by rewrite Hm. }
  rewrite match_print_slot by done. simpl. unfold parsed_slot. f_equal. f_equal.
  - by rewrite PyStr.of_to_list.
  - by apply parse_print_clock.
  - by apply parse_print_clock.
  - unfold PyStr.strip. rewrite PyStr.to_of_list, PyStr.strip_list_id, PyStr.of_to_list; [done|].
    intros x Hx. apply room_char_blank. rewrite forallb_elem in Hr. by apply Hr.
Qed.
Lemma print_slot_no_comma s : printable s → ","%char ∉ print_slot s.
Proof.
  intros (Hd & Hs & He & Hr). unfold print_slot.
  repeat first [rewrite elem_of_app|rewrite elem_of_cons].
  assert (","%char ∉ PyStr.to_list (sl_day s)).
  { cbn in Hd. repeat (apply elem_of_cons in Hd as [->|Hd]; [vm_compute; set_solver|]).
    by apply not_elem_of_nil in Hd. }
  assert (","%char ∉ print_clock (sl_start s)) by (by eapply class_excludes; [apply print_clock_chars|]).
  assert (","%char ∉ print_clock (sl_end s)) by (by eapply class_excludes; [apply print_clock_chars|]).
  assert (","%char ∉ PyStr.to_list (sl_room s)) by (by eapply class_excludes).
  intros [?|[?|[?|[?|[?|[?|[?|[?|?]]]]]]]]; done.
Qed.

(** C37: A weekly schedule written in the registrar's format, whatever its meetings (any
    known days, any two minutes of the day, rooms of letters, digits and hyphens, or no
    room), is read back meeting by meeting, in order, none lost. *)
Theorem parse_print_schedule (l : list slot) :
  Forall printable l → parse_meetings (print_schedule l) = parsed_slot <$> l.
Proof.
  rewrite Forall_forall. intros Hok. unfold parse_meetings, print_schedule.
  destruct (decide (l = [])) as [->|Hl]; [done|].
  rewrite (PyStr.split_join ","%char (print_slot <$> l)).
  - induction l as [|s l IH]; [done|]. rewrite !fmap_cons. cbn [omap list_omap].
    rewrite parse_print_slot by (apply Hok; left). f_equal.
    destruct l; [done|]. apply IH; [|done]. intros x Hx. apply Hok. by right.
  - by destruct l.
  - intros w (s & -> & Hs)%list_elem_of_fmap. by apply print_slot_no_comma, Hok.
Qed.
Lemma parse_print_schedule_witness :
  let l := [{| sl_day := "F"; sl_start := 420; sl_end := 495; sl_room := "V415" |};
            {| sl_day := "TH"; sl_start := 0; sl_end := 750; sl_room := "" |}]%string in
  print_schedule l = "F [7:00AM-8:15AM] V415,TH [12:00AM-12:30PM] "%string ∧
  parse_meetings (print_schedule l) = parsed_slot <$> l.
Proof.
  cbn zeta. split; [vm_compute; reflexivity|]. apply parse_print_schedule.
  repeat constructor; (lia || (apply (bool_decide_unpack _); vm_compute; exact I) || done).
Defined.

(** ** What a classification says *)
Lemma startswith_first s c t :
  PyStr.startswith s (String c t) = true → ∃ s', s = String c s'.
Proof.
  unfold PyStr.startswith. destruct s as [|x s]; [done|]. cbn [String.prefix].
  destruct (ascii_dec c x) as [->|]; [by exists s|done].
Qed.
Lemma startswith_char s c :
  PyStr.startswith s (String c "") = bool_decide (PyStr.take 1 s = String c ""%string).
Proof.
  destruct s as [|x s]; [by rewrite bool_decide_false|]. unfold PyStr.startswith, PyStr.take.
  cbn [String.prefix firstn PyStr.to_list list_ascii_of_string PyStr.of_list string_of_list_ascii].
  destruct (ascii_dec c x) as [->|Hne]; [|by rewrite bool_decide_false by congruence].
  rewrite bool_decide_true by done. by destruct s.
Qed.
Lemma digit_val_bound c : PyStr.is_digit c = true → 0 ≤ PyStr.digit_val c ≤ 9.
Proof. unfold PyStr.is_digit, PyStr.digit_val. intros H. b2p. lia. Qed.
Lemma derive_floor_bound code : 0 ≤ derive_floor code ≤ 9.
Proof.
  unfold derive_floor. destruct (PyStr.startswith _ _); [lia|].
  destruct (PyStr.drop_while _ _) as [|d l]; [lia|].
  destruct (PyStr.is_digit d) eqn:E; [by apply digit_val_bound|lia].
Qed.
Lemma gym_not_virtual cu : PyStr.startswith cu "GYM" = true → PyStr.startswith cu "V" = false.
Proof.
  intros [s ->]%startswith_first. by rewrite startswith_char.
Qed.
(** The five outcomes. *)
Lemma classify_cases code (P : RoomInfo → Prop) :
  let c := PyStr.strip code in let cu := PyStr.upper c in
  (PyStr.startswith cu "GYM" = true → P (known_prefix c cu "GYM" false)) →
  (∀ p v, (p, v) ∈ [("V", true); ("R", false); ("A", false)]%string →
     PyStr.take 1 cu = p → P (known_prefix c cu p v)) →
  (PyStr.take 1 cu ≠ "V"%string → P (unknown_code c cu)) →
  P (classify_room code).
Proof.
  cbn zeta. intros H1 H2 H3. unfold classify_room. destruct (PyStr.startswith _ _); [by apply H1|].
  case_bool_decide; [apply (H2 "V" true); [set_solver|done]|].
  case_bool_decide; [apply (H2 "R" false); [set_solver|done]|].
  case_bool_decide; [apply (H2 "A" false); [set_solver|done]|]. by apply H3.
Qed.
Ltac each_prefix H := repeat (apply elem_of_cons in H as [[= -> ->]|H]; [|]);
  [.. | by apply not_elem_of_nil in H].

Lemma classify_virtual code :
  ri_is_virtual (classify_room code) = PyStr.startswith (PyStr.upper (PyStr.strip code)) "V".
Proof.
  apply (classify_cases code (λ i, ri_is_virtual i = _)).
  - intros Hg. symmetry. by apply gym_not_virtual.
  - intros p v Hp Ht. rewrite startswith_char, Ht. each_prefix Hp; done.
  - intros Hv. rewrite startswith_char. by rewrite bool_decide_false.
Qed.
(** A code is never dropped by its classification: it keeps its text, gets a floor
    from 0 to 9 and one of the five buildings, the building being the unassigned one
    exactly for the flagged codes; only a code of a virtual room (its first letter a V,
    as the site tells virtual rooms) is not scannable; and a code without a leading
    letter is the only one flagged as mistyped. *)
Theorem classify_room_exact code :
  let i := classify_room code in
  ri_raw_code i = PyStr.strip code ∧ 0 ≤ ri_floor i ≤ 9 ∧
  (if ri_is_unassigned i then (ri_building_code i, ri_building_name i) = UNASSIGNED_BUILDING
   else (ri_building_code i, ri_building_name i) ∈ PREFIX_BUILDING.*2) ∧
  (∀ fl name cap qr manual at_ by_ oos why k, is_virtual {| room_pk := k; room_floor := fl;
     room_code := ri_raw_code i; room_name := name; room_capacity := cap; room_qr_token := qr;
     room_manual_code := manual; room_rotated_at := at_; room_rotated_by := by_; room_out_of_service := oos; room_oos_reason := why |} =
     negb (ri_scannable i)) ∧
  (ri_is_typo i = true ↔ ∀ c l, PyStr.to_list (PyStr.upper (PyStr.strip code)) = c :: l →
     PyStr.is_alpha c = false).
Proof.
  assert (ri_raw_code (classify_room code) = PyStr.strip code ∧
    ri_scannable (classify_room code) = negb (ri_is_virtual (classify_room code))) as [Hr Hs].
  { apply (classify_cases code (λ i, ri_raw_code i = _ ∧ ri_scannable i = negb (ri_is_virtual i)));
      [done| |done]. intros p v Hp _. each_prefix Hp; done. }
  cbn zeta. split; [done|]. split; [|split; [|split]].
  - apply (classify_cases code (λ i, 0 ≤ ri_floor i ≤ 9)); [|intros p v Hp _; each_prefix Hp|];
      intros; apply derive_floor_bound.
  - apply (classify_cases code (λ i, if ri_is_unassigned i then
      (ri_building_code i, ri_building_name i) = UNASSIGNED_BUILDING
      else (ri_building_code i, ri_building_name i) ∈ PREFIX_BUILDING.*2)); [|intros p v Hp _; each_prefix Hp|done];
      simpl; set_solver.
  - intros. unfold is_virtual. simpl. by rewrite Hr, Hs, negb_involutive, classify_virtual.
  - apply (classify_cases code (λ i, ri_is_typo i = true ↔ ∀ c l,
      PyStr.to_list (PyStr.upper (PyStr.strip code)) = c :: l → PyStr.is_alpha c = false)).
    + intros [s Hs']%startswith_first. split; [done|]. rewrite Hs'. intros H.
      by specialize (H "G"%char _ eq_refl).
    + intros p v Hp Ht. split; [each_prefix Hp; done|]. intros H.
      destruct (PyStr.upper _) as [|x cu]; [each_prefix Hp; done|]. cbn in Ht.
      specialize (H x _ eq_refl). each_prefix Hp; injection Ht as ->; done.
    + intros _. cbn [unknown_code ri_is_typo]. rewrite negb_true_iff.
      destruct (PyStr.to_list _) as [|x l]; [by split|].
      split; [by intros ? ? ? [= -> ->]|]. intros H. by apply (H x l).
Qed.
