(* ===== verification/Campus.v ===== *)
(** The campus: the minting of room codes (campus/codes.py), what a deletion would
    lose (campus/services.py), and the console that edits rooms, floors and buildings
    (the room and structure pages of web/ifo.py).

    Two texts are the same to the database when the collation [ci] of its columns maps
    them to the same text; the credentials of a room are compared exactly.  The draws
    of the random generator are a stream [draws] read from a position, so that every
    call that draws returns the position after it. *)
From S2P Require Import Prelude Python Model Effects Ops Sample Web.
From Stdlib Require Import String.
From stdpp Require Import strings.
Open Scope Z_scope.

(** ** campus/codes.py *)
Definition MANUAL_CODE_DIGITS : nat := 6.
Definition MANUAL_CODE_SPACE : Z := 10 ^ Z.of_nat MANUAL_CODE_DIGITS.
Definition MAX_ATTEMPTS : nat := 10.

Section codes.
(** [secrets.randbelow(MANUAL_CODE_SPACE)], one draw after the other *)
Variable draws : nat → Z.

Definition candidate (i : nat) : string := PyStr.zpad MANUAL_CODE_DIGITS (draws i).
Definition code_taken (db : DB) (c : string) : bool :=
  existsb (λ r, bool_decide (room_manual_code r = c)) (db_rooms db).
Definition exhausted (attempts rooms : Z) : exn :=
  ManualCodeExhausted ("No free manual code after " +:+ PyStr.str attempts +:+ " attempts ("
    +:+ PyStr.str rooms +:+ " rooms in a " +:+ PyStr.str MANUAL_CODE_SPACE +:+ " code space).").
Fixpoint generate_loop (attempts left i : nat) : M (string * nat) :=
  match left with
  | O => read (λ db, Z.of_nat (length (db_rooms db))) ≫= λ n, raise (exhausted (Z.of_nat attempts) n)
  | S left' =>
      read (λ db, code_taken db (candidate i)) ≫= λ taken,
      if taken : bool then generate_loop attempts left' (S i) else mret (candidate i, S i)
  end.
Definition generate_manual_code (i : nat) : M (string * nat) :=
  generate_loop MAX_ATTEMPTS MAX_ATTEMPTS i.
(** The pair of credentials; [token] is [secrets.token_urlsafe(24)]. *)
Definition new_room_credentials (token : string) (i : nat) : M (string * string) :=
  generate_manual_code i ≫= λ c, mret (token, c.1).
End codes.

(** ** campus/services.py *)
Definition nonzero (l : list (string * Z)) : list (string * Z) := select (λ p, negb (p.2 =? 0)) l.
Definition count {R} (p : R → bool) (t : list R) : Z := Z.of_nat (length (select p t)).
Definition room_delete_blockers (k : Z) (db : DB) : list (string * Z) :=
  nonzero [("schedules"%string, count (λ s, sch_room s =? k) (db_schedules db));
           ("sessions"%string, count (λ s, ses_room s =? k) (db_sessions db));
           ("bookings"%string, count (λ b, bkg_room b =? k) (db_bookings db));
           ("validations"%string, count (λ v, val_room v =? k) (db_validations db));
           ("reservations"%string, count (λ it, bool_decide (it_assigned it = Some k)) (db_items db))].
Definition floor_delete_blockers (k : Z) (db : DB) : list (string * Z) :=
  nonzero [("rooms"%string, count (λ r, room_floor r =? k) (db_rooms db))].
Definition on_building (db : DB) (k : Z) (r : Room) : bool :=
  bool_decide (room_building db (room_pk r) = Some k).
Definition building_delete_blockers (k : Z) (db : DB) : list (string * Z) :=
  nonzero [("floors"%string, count (λ f, flr_building f =? k) (db_floors db));
           ("rooms"%string, count (on_building db k) (db_rooms db))].

(** ** Deletions, with what the foreign keys ask ([on_delete]) *)
Definition room_protected (k : Z) (db : DB) : bool :=
  existsb (λ s, sch_room s =? k) (db_schedules db) || existsb (λ s, ses_room s =? k) (db_sessions db)
  || existsb (λ b, bkg_room b =? k) (db_bookings db) || existsb (λ v, val_room v =? k) (db_validations db).
Definition forget (k : Z) (o : option Z) : option Z := if bool_decide (o = Some k) then None else o.
Definition delete_room (k : Z) : M unit :=
  read (room_protected k) ≫= λ protected,
  guard_m (negb protected) ProtectedError ≫= λ _,
  write (λ db, db
    <| db_items := (λ it, it <| it_preferred := forget k (it_preferred it) |>
                             <| it_assigned := forget k (it_assigned it) |>) <$> db_items db |>
    <| db_flags := select (λ f, negb (flag_room f =? k)) (db_flags db) |>
    <| db_rooms := delete_pk k (db_rooms db) |>).
Definition delete_floor (k : Z) : M unit :=
  read (λ db, existsb (λ r, room_floor r =? k) (db_rooms db)) ≫= λ protected,
  guard_m (negb protected) ProtectedError ≫= λ _,
  write (λ db, db
    <| db_assignments := (λ a, a <| asg_floors := select (λ f, negb (f =? k)) (asg_floors a) |>)
                           <$> db_assignments db |>
    <| db_floors := delete_pk k (db_floors db) |>).
Definition delete_building (k : Z) : M unit :=
  read (λ db, existsb (on_building db k) (db_rooms db)) ≫= λ protected,
  guard_m (negb protected) ProtectedError ≫= λ _,
  write (λ db,
    let gone := flr_pk <$> select (λ f, flr_building f =? k) (db_floors db) in
    db <| db_suspensions := select (λ s, negb (bool_decide (sus_building s = Some k))) (db_suspensions db) |>
       <| db_assignments := (λ a, a <| asg_floors := select (λ f, negb (bool_decide (f ∈ gone))) (asg_floors a) |>)
                              <$> db_assignments db |>
       <| db_floors := select (λ f, negb (flr_building f =? k)) (db_floors db) |>
       <| db_buildings := delete_pk k (db_buildings db) |>).

(** ** The rooms of the console (web/ifo.py) *)
Section console.
Variable ci : string → string.
Variable draws : nat → Z.

Definition same_text (a b : string) : bool := bool_decide (ci a = ci b).
(** The unique columns of a room, of a building and of a floor *)
Definition room_clash (r r' : Room) : bool :=
  same_text (room_code r) (room_code r') || bool_decide (room_qr_token r = room_qr_token r')
  || bool_decide (room_manual_code r = room_manual_code r').
Definition building_clash (b b' : Building) : bool := same_text (bld_code b) (bld_code b').
Definition floor_clash (f f' : Floor) : bool :=
  (flr_building f =? flr_building f') && (flr_number f =? flr_number f').

Definition ifo_required (user : User) (view : M response) : M response :=
  role_required IFO_ADMIN user view.
Definition room_404 (code : string) (k : Room → M response) : M response :=
  get_or_404 (λ r, same_text (room_code r) code) k.
(** [str(floor)] *)
Definition floor_label (fl : Floor) : M string :=
  get_pk (R:=Building) (flr_building fl) ≫= λ b,
  mret (bld_code b +:+ " F" +:+ PyStr.str (flr_number fl)).
Definition room_label (r : Room) : M string := get_pk (R:=Floor) (room_floor r) ≫= floor_label.

Definition room_toggle_service (user : User) (code : string) (q : form) : M response :=
  ifo_required user (room_404 code (λ room,
  let oos := negb (room_out_of_service room) in
  let reason := if oos then PyStr.take 200 (post q "reason") else "" in
  save (room_pk room) (λ r, r <| room_out_of_service := oos |> <| room_oos_reason := reason |>)
  ≫= λ _,
  audit (Some (usr_pk user)) (if oos then "room.out_of_service" else "room.in_service")
    "room" (PyStr.str (room_pk room))
    (JObj [("code", JStr (room_code room)); ("reason", JStr reason)]%string) ≫= λ _,
  mret (Redirect "ifo_room_detail" (room_code room)
    (if oos then room_code room +:+ " is now out of service."
     else room_code room +:+ " is back in service."))))%string.

Definition rotate (by_ now : Z) (qr manual : string) (r : Room) : Room :=
  r <| room_qr_token := qr |> <| room_manual_code := manual |>
    <| room_rotated_at := Some now |> <| room_rotated_by := Some by_ |>.
Definition room_rotate (user : User) (code token : string) (i : nat) (now : Z) : M response :=
  ifo_required user (room_404 code (λ room,
  atomic (
    new_room_credentials draws token i ≫= λ '(qr, manual),
    save_unique room_clash (room_pk room) (rotate (usr_pk user) now qr manual) ≫= λ _,
    room_label room ≫= λ label,
    audit (Some (usr_pk user)) "room.code_rotated" "room" (PyStr.str (room_pk room))
      (JObj [("code", JStr (room_code room)); ("floor", JStr label);
             ("rotated_at", JStr (PyTime.iso_utc now))]%string)) ≫= λ _,
  mret (Redirect "ifo_room_poster" (room_code room) ""))).

Record RoomFields := { rf_code : string; rf_name : string; rf_floor : string; rf_capacity : string }.
Definition room_form_fields (q : form) : RoomFields :=
  {| rf_code := PyStr.upper (post q "code"); rf_name := post q "name";
     rf_floor := post q "floor"; rf_capacity := post q "capacity" |}.
Definition room_field_errors (f : RoomFields) (editing : bool) (db : DB) : option string :=
  ladder (
    (if editing then [] else
      [(blank (rf_code f), "Enter a room code."%string);
       (longer 30 (rf_code f), "A room code is at most 30 characters."%string);
       (existsb (λ r, bool_decide (PyStr.upper (room_code r) = PyStr.upper (rf_code f))) (db_rooms db),
        "Room " +:+ rf_code f +:+ " already exists.")]) ++
    [(negb (PyStr.isdigit (rf_floor f)), "Select a floor."%string);
     (negb (blank (rf_capacity f)) && negb (PyStr.isdigit (rf_capacity f)),
      "Capacity must be a whole number of seats (0 or more)."%string);
     (longer 120 (rf_name f), "A room name is at most 120 characters."%string)]).
(** The validation, then the floor it selects. *)
Definition with_room_form (q : form) (editing : bool) (k : RoomFields → Floor → M response)
    : M response :=
  let f := room_form_fields q in
  read (room_field_errors f editing) ≫= λ error,
  check error (
    first (R:=Floor) (λ fl, flr_pk fl =? digits (rf_floor f)) ≫= λ fl,
    match fl with
    | None => mret (BadRequest "Select a floor.")
    | Some fl => k f fl
    end).

Definition room_new (user : User) (q : form) (token : string) (i : nat) : M response :=
  ifo_required user (with_room_form q false (λ f fl,
  new_room_credentials draws token i ≫= λ '(qr, manual),
  create_unique room_clash (λ k,
    {| room_pk := k; room_floor := flr_pk fl; room_code := rf_code f; room_name := rf_name f;
       room_capacity := digits (rf_capacity f); room_qr_token := qr; room_manual_code := manual;
       room_rotated_at := None; room_rotated_by := None; room_out_of_service := false;
       room_oos_reason := "" |}) ≫= λ room,
  floor_label fl ≫= λ label,
  audit (Some (usr_pk user)) "room.created" "room" (PyStr.str (room_pk room))
    (JObj [("code", JStr (room_code room)); ("name", JStr (room_name room));
           ("floor", JInt (flr_pk fl)); ("floor_label", JStr label);
           ("capacity", JInt (room_capacity room))]%string) ≫= λ _,
  mret (Redirect "ifo_room_detail" (room_code room) ""))).

Definition room_edit (user : User) (code : string) (q : form) : M response :=
  ifo_required user (room_404 code (λ room,
  with_room_form q true (λ f fl,
  let name := rf_name f in let capacity := digits (rf_capacity f) in
  save (room_pk room) (λ r, r <| room_name := name |> <| room_capacity := capacity |>
                              <| room_floor := flr_pk fl |>) ≫= λ _,
  let before : list (string * (bool * json)) :=
    [("capacity", (negb (room_capacity room =? capacity)%Z, JInt (room_capacity room)));
     ("floor", (negb (room_floor room =? flr_pk fl)%Z, JInt (room_floor room)));
     ("name", (negb (bool_decide (room_name room = name)), JStr (room_name room)))]%string in
  let changed := select (λ p, p.2.1) before in
  audit (Some (usr_pk user)) "room.updated" "room" (PyStr.str (room_pk room))
    (JObj [("code", JStr (room_code room)); ("changed", JList (JStr <$> changed.*1));
           ("before", JObj ((λ p, (p.1, p.2.2)) <$> changed))]%string) ≫= λ _,
  mret (Redirect "ifo_room_detail" (room_code room) "")))).

Definition blockers_json (l : list (string * Z)) : json := JObj ((λ p, (p.1, JInt p.2)) <$> l).
(** [None] is a deletion, [Some] a refusal with its blockers; the flag is [protected]. *)
Definition try_delete_room (k : Z) : M (option (list (string * Z) * bool)) :=
  atomic (
    read (room_delete_blockers k) ≫= λ blockers,
    match blockers with
    | [] => try_with (delete_room k ≫= λ _, mret None)
              (λ e, if bool_decide (e = ProtectedError) then Some (mret (Some ([], true))) else None)
    | _ :: _ => mret (Some (blockers, false))
    end).
Definition room_delete (user : User) (code : string) : M response :=
  ifo_required user (room_404 code (λ room,
  room_label room ≫= λ label,
  try_delete_room (room_pk room) ≫= λ refused,
  match refused with
  | Some (blockers, protected) =>
      read (λ db, if protected : bool then room_delete_blockers (room_pk room) db else blockers) ≫= λ blockers,
      audit (Some (usr_pk user)) "room.delete_refused" "room" (PyStr.str (room_pk room))
        (JObj [("code", JStr (room_code room)); ("blockers", blockers_json blockers);
               ("protected_error", JBool protected)]%string) ≫= λ _,
      mret (BadRequest "")
  | None =>
      audit (Some (usr_pk user)) "room.deleted" "room" (PyStr.str (room_pk room))
        (JObj [("code", JStr (room_code room)); ("floor", JStr label)]%string) ≫= λ _,
      mret (Redirect "ifo_rooms" "" "")
  end)).

(** ** Floors and buildings *)
Definition building_404 (k : Z) (view : Building → M response) : M response :=
  get_or_404 (λ b, bld_pk b =? k) view.
Definition audit_building (user : User) (event : string) (b : Building) : M unit :=
  audit (Some (usr_pk user)) event "building" (PyStr.str (bld_pk b))
    (JObj [("code", JStr (bld_code b)); ("name", JStr (bld_name b))]%string).
Definition building_code (q : form) : string := PyStr.upper (post q "code").

Definition building_create (user : User) (q : form) : M response :=
  let code := building_code q in
  let name := post q "name" in
  ifo_required user (
  read (λ db, ladder
    [(blank code, "A building code is required (for example, ACAD)."%string);
     (blank name, "A building name is required."%string);
     (existsb (λ b, same_text (bld_code b) code) (db_buildings db),
      "A building with code " +:+ code +:+ " already exists.")]) ≫= λ error,
  check error (
    create_unique building_clash (λ k, {| bld_pk := k; bld_code := PyStr.take 20 code;
                                          bld_name := PyStr.take 120 name |}) ≫= λ b,
    audit_building user "building.created" b ≫= λ _,
    mret (Redirect "ifo_building_detail" (PyStr.str (bld_pk b))
      ("Building " +:+ bld_code b +:+ " added.")))).
Definition building_edit (user : User) (k : Z) (q : form) : M response :=
  let code := building_code q in
  let name := post q "name" in
  ifo_required user (building_404 k (λ b,
  let back flash := Redirect "ifo_building_detail" (PyStr.str k) flash in
  if blank code || blank name then mret (back "Code and name are both required. Not changed."%string)
  else
    exists_where (R:=Building) (λ b', same_text (bld_code b') code && negb (bld_pk b' =? k)%Z) ≫= λ clash : bool,
    if clash then
      mret (back ("Another building already uses code " +:+ code +:+ ". Not changed."))
    else
      let b' := b <| bld_code := PyStr.take 20 code |> <| bld_name := PyStr.take 120 name |> in
      save_unique building_clash (bld_pk b) (λ x, x <| bld_code := bld_code b' |>
                                                    <| bld_name := bld_name b' |>) ≫= λ _,
      audit_building user "building.updated" b' ≫= λ _,
      mret (back ("Building " +:+ bld_code b' +:+ " updated.")))).
Definition building_delete (user : User) (k : Z) : M response :=
  ifo_required user (building_404 k (λ b,
  read (building_delete_blockers k) ≫= λ blockers,
  match blockers with
  | _ :: _ =>
      mret (Redirect "ifo_building_detail" (PyStr.str k)
        (bld_code b +:+ " still has "
         +:+ PyStr.join ", " ((λ p, PyStr.str p.2 +:+ " " +:+ p.1) <$> blockers)
         +:+ ". Remove those first."))
  | [] =>
      audit_building user "building.deleted" b ≫= λ _,
      delete_building k ≫= λ _,
      mret (Redirect "ifo_buildings" "" ("Building " +:+ bld_code b +:+ " deleted."))
  end)).
Definition floor_create (user : User) (k : Z) (q : form) : M response :=
  ifo_required user (building_404 k (λ b,
  let back flash := Redirect "ifo_building_detail" (PyStr.str k) flash in
  match PyStr.int (post q "number") with
  | None => mret (back "Enter a whole number for the floor."%string)
  | Some number =>
      exists_where (R:=Floor) (λ f, (flr_building f =? bld_pk b)%Z && (flr_number f =? number)%Z) ≫= λ clash : bool,
      if clash then
        mret (back (bld_code b +:+ " already has a floor " +:+ PyStr.str number +:+ "."))
      else
        create_unique floor_clash (λ k, {| flr_pk := k; flr_building := bld_pk b;
                                           flr_number := number |}) ≫= λ f,
        audit (Some (usr_pk user)) "floor.created" "floor" (PyStr.str (flr_pk f))
          (JObj [("building", JStr (bld_code b)); ("number", JInt number)]%string) ≫= λ _,
        mret (back ("Floor " +:+ PyStr.str number +:+ " added to " +:+ bld_code b +:+ "."))
  end)).
Definition floor_delete (user : User) (k : Z) : M response :=
  ifo_required user (get_or_404 (R:=Floor) (λ f, flr_pk f =? k)%Z (λ f,
  let back flash := Redirect "ifo_building_detail" (PyStr.str (flr_building f)) flash in
  read (floor_delete_blockers k) ≫= λ blockers,
  match blockers with
  | (_, n) :: _ =>
      mret (back ("Floor " +:+ PyStr.str (flr_number f) +:+ " still has " +:+ PyStr.str n
                  +:+ " room(s). Move or delete those first."))
  | [] =>
      get_pk (R:=Building) (flr_building f) ≫= λ b,
      audit (Some (usr_pk user)) "floor.deleted" "floor" (PyStr.str (flr_pk f))
        (JObj [("building", JStr (bld_code b)); ("number", JInt (flr_number f))]%string) ≫= λ _,
      delete_floor k ≫= λ _,
      mret (back (bld_code b +:+ " F" +:+ PyStr.str (flr_number f) +:+ " deleted."))
  end)).

(** The requests that edit the campus. *)
Inductive campus_request :=
  | CToggle (code : string) (q : form) | CRotate (code token : string) (i : nat) (now : Z)
  | CNew (q : form) (token : string) (i : nat) | CEdit (code : string) (q : form)
  | CDelete (code : string) | CBuildingNew (q : form) | CBuildingEdit (k : Z) (q : form)
  | CBuildingDelete (k : Z) | CFloorNew (k : Z) (q : form) | CFloorDelete (k : Z).
Definition campus_handle (user : User) (r : campus_request) : M response :=
  match r with
  | CToggle code q => room_toggle_service user code q
  | CRotate code token i now => room_rotate user code token i now
  | CNew q token i => room_new user q token i
  | CEdit code q => room_edit user code q
  | CDelete code => room_delete user code
  | CBuildingNew q => building_create user q
  | CBuildingEdit k q => building_edit user k q
  | CBuildingDelete k => building_delete user k
  | CFloorNew k q => floor_create user k q
  | CFloorDelete k => floor_delete user k
  end.
End console.

(** ** The minting of codes *)
Section minting.
Variable draws : nat → Z.
Hypothesis Hdraws : ∀ i, 0 ≤ draws i < MANUAL_CODE_SPACE.

Lemma candidate_digits i : PyStr.six_digits (candidate draws i) = true.
Proof using Hdraws.
  unfold PyStr.six_digits, PyStr.len, candidate.
  destruct (PyStr.zpad_digits MANUAL_CODE_DIGITS (draws i)) as [Hl Hd]; [cbv; lia|apply Hdraws|].
  by rewrite Hl, Hd.
Qed.
Lemma generate_loop_wp attempts left i db :
  wp (generate_loop draws attempts left i) (λ res db', db' = db ∧
    match res with
    | inr (c, j) => ∃ n, (n < left)%nat ∧ j = S (i + n) ∧ c = candidate draws (i + n) ∧
        code_taken db c = false ∧ ∀ m, (m < n)%nat → code_taken db (candidate draws (i + m)) = true
    | inl e => e = exhausted (Z.of_nat attempts) (Z.of_nat (length (db_rooms db))) ∧
        ∀ m, (m < left)%nat → code_taken db (candidate draws (i + m)) = true
    end) db.
Proof using Type.
  revert i. induction left as [|left IH]; intros i; cbn [generate_loop]; wp_steps.
  { split; [done|]. split; [done|]. intros m Hm. lia. }
  destruct (code_taken db (candidate draws i)) eqn:E.
  - eapply wp_mono; [apply (IH (S i))|]. intros [e|[c j]] db' [-> H]; split; try done.
    + destruct H as [-> H]. split; [done|]. intros [|m] Hm; [by rewrite Nat.add_0_r|].
      rewrite Nat.add_succ_r. apply (H m). lia.
    + destruct H as (n & Hn & -> & -> & Hf & Hm). exists (S n). rewrite Nat.add_succ_r.
      split_and!; [lia|done..|]. intros [|m] Hlt; [by rewrite Nat.add_0_r|].
      rewrite Nat.add_succ_r. apply (Hm m). lia.
  - apply wp_ret. split; [done|]. exists 0%nat. rewrite Nat.add_0_r. split_and!; [lia|done..|].
    intros m Hm. lia.
Qed.
(** C38: A minted code is one the scan accepts and no room has.  It is the first draw, of
    at most ten, that no room holds, six digits with its leading zeros; when all ten are
    taken the call fails, naming its attempts and the number of rooms; the database is
    only read, and the next code is drawn after this one. *)
Theorem generate_manual_code_exact i db :
  wp (generate_manual_code draws i) (λ res db', db' = db ∧
    match res with
    | inr (c, j) => ∃ n, (n < 10)%nat ∧ j = S (i + n) ∧ c = candidate draws (i + n) ∧
        PyStr.six_digits c = true ∧ (∀ r, r ∈ db_rooms db → room_manual_code r ≠ c) ∧
        ∀ m, (m < n)%nat → ∃ r, r ∈ db_rooms db ∧ room_manual_code r = candidate draws (i + m)
    | inl e => e = exhausted 10 (Z.of_nat (length (db_rooms db))) ∧
        ∀ m, (m < 10)%nat → ∃ r, r ∈ db_rooms db ∧ room_manual_code r = candidate draws (i + m)
    end) db.
Proof using Hdraws.
  assert (∀ c, code_taken db c = true ↔ ∃ r, r ∈ db_rooms db ∧ room_manual_code r = c) as Ht.
  { intros c. unfold code_taken. rewrite existsb_elem. by setoid_rewrite bd_true. }
  eapply wp_mono; [apply generate_loop_wp|]. intros [e|[c j]] db' [-> H]; split; try done.
  - destruct H as [-> H]. split; [done|]. intros m Hm. by apply Ht, H.
  - destruct H as (n & Hn & -> & -> & Hf & Hm). exists n. split_and!; [done..| | |].
    + apply candidate_digits.
    + intros r Hr Hc. assert (code_taken db (candidate draws (i + n)) = true) by (apply Ht; eauto).
      congruence.
    + intros m Hlt. by apply Ht, Hm.
Qed.
End minting.

(** ** The campus invariant *)
Section invariant.
Context (ci : string → string) (draws : nat → Z).
(** The generator draws in its range. *)
Context (Hdraws : ∀ i, 0 ≤ draws i < MANUAL_CODE_SPACE).

(** Every reference to a room: those a deletion must refuse, and those it may drop. *)
Definition room_holders (db : DB) : list Z :=
  (sch_room <$> db_schedules db) ++ (ses_room <$> db_sessions db) ++ (bkg_room <$> db_bookings db)
  ++ (val_room <$> db_validations db) ++ omap it_assigned (db_items db).
Definition room_mentions (db : DB) : list Z := omap it_preferred (db_items db) ++ (flag_room <$> db_flags db).
Record campus_ok (db : DB) : Prop := {
  co_room_pk : pk_unique (db_rooms db);
  co_floor_pk : pk_unique (db_floors db);
  co_building_pk : pk_unique (db_buildings db);
  co_code : NoDup ((λ r, ci (room_code r)) <$> db_rooms db);
  co_qr : NoDup (room_qr_token <$> db_rooms db);
  co_manual : NoDup (room_manual_code <$> db_rooms db);
  co_digits : ∀ r, r ∈ db_rooms db → PyStr.six_digits (room_manual_code r) = true;
  co_number : NoDup ((λ f, (flr_building f, flr_number f)) <$> db_floors db);
  co_building_code : NoDup ((λ b, ci (bld_code b)) <$> db_buildings db);
  co_room_floor : ∀ r, r ∈ db_rooms db → existing (db_floors db) (room_floor r) = true;
  co_floor_building : ∀ f, f ∈ db_floors db → existing (db_buildings db) (flr_building f) = true;
  co_holders : ∀ k, k ∈ room_holders db → existing (db_rooms db) k = true;
  co_mentions : ∀ k, k ∈ room_mentions db → existing (db_rooms db) k = true;
  co_suspended : ∀ s b, s ∈ db_suspensions db → sus_building s = Some b → existing (db_buildings db) b = true;
  co_posted : ∀ a f, a ∈ db_assignments db → f ∈ asg_floors a → existing (db_floors db) f = true
}.
(** What no edit of the campus changes: classes, sessions, bookings, validations,
    requests and the rooms reserved for them; postings keep all but their floors, and
    a suspension is lost only with its building. *)
Record history_kept (db db' : DB) : Prop := {
  hk_schedules : db_schedules db' = db_schedules db;
  hk_sessions : db_sessions db' = db_sessions db;
  hk_bookings : db_bookings db' = db_bookings db;
  hk_validations : db_validations db' = db_validations db;
  hk_requests : db_requests db' = db_requests db;
  hk_reserved : it_assigned <$> db_items db' = it_assigned <$> db_items db;
  hk_postings : (λ a, a <| asg_floors := [] |>) <$> db_assignments db' =
                (λ a, a <| asg_floors := [] |>) <$> db_assignments db;
  hk_suspensions : sublist (db_suspensions db') (db_suspensions db);
  hk_campus_wide : ∀ s, s ∈ db_suspensions db → sus_building s = None → s ∈ db_suspensions db'
}.
#[local] Instance history_kept_preorder : PreOrder history_kept.
Proof.
  split; [by intros db|]. intros db1 db2 db3 [] []. split; try congruence.
  - by transitivity (db_suspensions db2).
  - auto.
Qed.
Definition campus_kept (db db' : DB) : Prop := campus_ok db' ∧ history_kept db db'.

Lemma kept_refl db : campus_ok db → campus_kept db db.
Proof. by split. Qed.
Lemma kept_audit db l db' : campus_kept db db' → campus_kept db (db' <| db_audit := l |>).
Proof. intros [[] []]. split; by split. Qed.

(** Writes to rooms. *)
Lemma holders_rooms l db : room_holders (db <| db_rooms := l |>) = room_holders db.
Proof. done. Qed.
Lemma ok_room_write l db :
  campus_ok db → pk_unique l → NoDup ((λ r, ci (room_code r)) <$> l) → NoDup (room_qr_token <$> l) →
  NoDup (room_manual_code <$> l) → (∀ r, r ∈ l → PyStr.six_digits (room_manual_code r) = true) →
  (∀ r, r ∈ l → existing (db_floors db) (room_floor r) = true) →
  (∀ k, existing (db_rooms db) k = true → existing l k = true) →
  campus_kept db (db <| db_rooms := l |>).
Proof. intros []. split; [split; simpl; auto|by split]. Qed.
(** An edit that keeps the code and the credentials. *)
Lemma ok_room_edit k f db :
  campus_ok db → (∀ r, pk (f r) = pk r) → (∀ r, room_code (f r) = room_code r) →
  (∀ r, room_qr_token (f r) = room_qr_token r) → (∀ r, room_manual_code (f r) = room_manual_code r) →
  (∀ r, r ∈ db_rooms db → existing (db_floors db) (room_floor (f r)) = true) →
  campus_kept db (db <| db_rooms := update_pk k f (db_rooms db) |>).
Proof.
  intros Hok Hpk Hc Hq Hm Hf. pose proof Hok as []. apply ok_room_write; try done.
  - by apply pk_unique_update.
  - rewrite column_same; [done|]. intros r. by rewrite Hc.
  - by rewrite column_same.
  - by rewrite column_same.
  - intros r (x & Hx & ->)%elem_of_update_where. case_match; rewrite ?Hm; auto.
  - intros r (x & Hx & ->)%elem_of_update_where. case_match; auto.
  - intros k'. by rewrite existing_update.
Qed.
Lemma ok_room_rotate k by_ now qr manual db r :
  campus_ok db → by_pk (db_rooms db) k = Some r → PyStr.six_digits manual = true →
  existsb (λ r', negb (pk r' =? k) && room_clash ci (rotate by_ now qr manual r) r') (db_rooms db) = false →
  campus_kept db (db <| db_rooms := update_pk k (rotate by_ now qr manual) (db_rooms db) |>).
Proof.
  intros Hok Hr Hd Hcl. pose proof Hok as []. rewrite existsb_elem_false in Hcl.
  assert (∀ x, x ∈ db_rooms db → pk x ≠ k → room_qr_token x ≠ qr ∧ room_manual_code x ≠ manual) as Hne.
  { intros x Hx Hk. specialize (Hcl x Hx). unfold room_clash in Hcl. simpl in Hcl.
    rewrite (proj2 (Z.eqb_neq _ _) Hk) in Hcl. simpl in Hcl. b2p. naive_solver. }
  apply ok_room_write; try done.
  - by apply pk_unique_update.
  - by rewrite column_same.
  - apply column_update; [done..|]. intros r' x _ Hx Hk. by apply (Hne x).
  - apply column_update; [done..|]. intros r' x _ Hx Hk. by apply (Hne x).
  - intros x (y & Hy & ->)%elem_of_update_where. case_match; [done|auto].
  - intros x (y & Hy & ->)%elem_of_update_where. case_match; simpl; auto.
  - intros k'. by rewrite existing_update.
Qed.
Lemma ok_room_insert r db :
  campus_ok db → pk r = fresh_pk (db_rooms db) → existsb (room_clash ci r) (db_rooms db) = false →
  PyStr.six_digits (room_manual_code r) = true → existing (db_floors db) (room_floor r) = true →
  campus_kept db (db <| db_rooms := db_rooms db ++ [r] |>).
Proof.
  intros Hok Hpk Hcl Hd Hf. pose proof Hok as []. rewrite existsb_elem_false in Hcl.
  assert (∀ x, x ∈ db_rooms db → ci (room_code x) ≠ ci (room_code r) ∧
    room_qr_token x ≠ room_qr_token r ∧ room_manual_code x ≠ room_manual_code r) as Hne.
  { intros x Hx. specialize (Hcl x Hx). unfold room_clash, same_text in Hcl. b2p. naive_solver. }
  apply ok_room_write; try done.
  - by apply pk_unique_insert.
  - apply column_insert; [done|]. intros x Hx. by apply (Hne x).
  - apply column_insert; [done|]. intros x Hx. by apply (Hne x).
  - apply column_insert; [done|]. intros x Hx. by apply (Hne x).
  - intros x [Hx|Hx%list_elem_of_singleton]%elem_of_app; subst; auto.
  - intros x [Hx|Hx%list_elem_of_singleton]%elem_of_app; subst; auto.
  - intros k'. apply existing_app.
Qed.

(** Writes to floors and buildings. *)
Lemma ok_floor_insert f db :
  campus_ok db → pk f = fresh_pk (db_floors db) → existsb (floor_clash f) (db_floors db) = false →
  existing (db_buildings db) (flr_building f) = true →
  campus_kept db (db <| db_floors := db_floors db ++ [f] |>).
Proof.
  intros [] Hpk Hcl Hb. rewrite existsb_elem_false in Hcl.
  split; [split; simpl; auto using existing_app|by split].
  - by apply pk_unique_insert.
  - apply column_insert; [done|]. intros x Hx [= H1 H2]. specialize (Hcl x Hx).
    unfold floor_clash in Hcl. rewrite H1, H2, !Z.eqb_refl in Hcl. done.
  - intros x [Hx|Hx%list_elem_of_singleton]%elem_of_app; subst; auto.
  - eauto using existing_app.
Qed.
Lemma ok_building_insert b db :
  campus_ok db → pk b = fresh_pk (db_buildings db) →
  existsb (building_clash ci b) (db_buildings db) = false →
  campus_kept db (db <| db_buildings := db_buildings db ++ [b] |>).
Proof.
  intros [] Hpk Hcl. rewrite existsb_elem_false in Hcl.
  split; [split; simpl; auto using existing_app|by split].
  - by apply pk_unique_insert.
  - apply column_insert; [done|]. intros x Hx Heq. specialize (Hcl x Hx).
    unfold building_clash, same_text in Hcl. b2p. by apply Hcl.
  - eauto using existing_app.
Qed.
Lemma ok_building_edit k f db b :
  campus_ok db → (∀ b, pk (f b) = pk b) → by_pk (db_buildings db) k = Some b →
  existsb (λ b', negb (pk b' =? k) && building_clash ci (f b) b') (db_buildings db) = false →
  campus_kept db (db <| db_buildings := update_pk k f (db_buildings db) |>).
Proof.
  intros [] Hpk Hb Hcl. rewrite existsb_elem_false in Hcl.
  split; [split; simpl; try setoid_rewrite existing_update; auto|by split].
  - by apply pk_unique_update.
  - apply column_update; [done..|]. intros b' x Hb' Hx Hk Heq. specialize (Hcl x Hx).
    assert (b' = b) as -> by congruence. rewrite (proj2 (Z.eqb_neq _ _) Hk) in Hcl.
    unfold building_clash, same_text in Hcl. simpl in Hcl. b2p. by apply Hcl.
Qed.

(** Deletions. *)
Lemma nonzero_nil l : nonzero l = [] → ∀ p, p ∈ l → p.2 = 0.
Proof. unfold nonzero. rewrite select_nil. intros H p Hp. specialize (H p Hp). by b2p. Qed.
Lemma count_zero {R} (p : R → bool) (t : list R) : count p t = 0 → ∀ r, r ∈ t → p r = false.
Proof.
  unfold count. intros H. apply select_nil. destruct (select p t); [done|simpl in H; lia].
Qed.
Lemma count_zero_iff {R} (p : R → bool) (t : list R) : count p t = 0 ↔ ∀ r, r ∈ t → p r = false.
Proof.
  split; [apply count_zero|]. intros H. unfold count. by rewrite (proj2 (select_nil p t) H).
Qed.
Lemma count_ref {R} (f : R → Z) t k : count (λ r, f r =? k) t = 0 ↔ k ∉ f <$> t.
Proof.
  rewrite count_zero_iff. setoid_rewrite Z.eqb_neq. rewrite list_elem_of_fmap. naive_solver.
Qed.
Lemma count_opt_ref {R} (f : R → option Z) t k :
  count (λ r, bool_decide (f r = Some k)) t = 0 ↔ k ∉ omap f t.
Proof.
  rewrite count_zero_iff. setoid_rewrite bd_false. rewrite list_elem_of_omap. naive_solver.
Qed.
Lemma nonzero_cons n c l : nonzero ((n, c) :: l) = [] ↔ c = 0 ∧ nonzero l = [].
Proof. unfold nonzero. rewrite select_cons. simpl. destruct (Z.eqb_spec c 0); simpl; naive_solver. Qed.
(** A room has no blocker exactly when nothing holds it. *)
Lemma not_blocked k db : room_delete_blockers k db = [] ↔ k ∉ room_holders db.
Proof.
  unfold room_holders. rewrite !not_elem_of_app, <- !count_ref, <- count_opt_ref.
  unfold room_delete_blockers. rewrite !nonzero_cons. tauto.
Qed.
Lemma forget_ne k o k' : forget k o = Some k' → o = Some k' ∧ k' ≠ k.
Proof. unfold forget. case_bool_decide; [done|]. intros ->. split; [done|congruence]. Qed.
Lemma unassigned_same k (l : list ModalityShiftItem) f :
  k ∉ omap it_assigned l → (∀ it, it_assigned (f it) = forget k (it_assigned it)) →
  it_assigned <$> (f <$> l) = it_assigned <$> l.
Proof.
  intros Hk Hf. rewrite <- list_fmap_compose. apply list_fmap_ext.
  intros i it Hit%list_elem_of_lookup_2. simpl. rewrite Hf. unfold forget. case_bool_decide as E; [|done].
  destruct Hk. apply list_elem_of_omap. eauto.
Qed.
Lemma NoDup_select {A} (p : A → bool) (l : list A) : NoDup l → NoDup (select p l).
Proof. intros H. rewrite <- (list_fmap_id (select p l)). apply NoDup_fmap_select. by rewrite list_fmap_id. Qed.
Lemma protected_holder k db : room_protected k db = true → k ∈ room_holders db.
Proof.
  unfold room_protected, room_holders. rewrite !orb_true_iff, !existsb_elem, !elem_of_app, !list_elem_of_fmap.
  intros [[[(x & Hx & E)|(x & Hx & E)]|(x & Hx & E)]|(x & Hx & E)]; b2p.
  - left. by exists x.
  - right; left. by exists x.
  - do 2 right; left. by exists x.
  - do 3 right; left. by exists x.
Qed.
Lemma ok_delete_room k db :
  campus_ok db → k ∉ room_holders db →
  wp (delete_room k) (λ r db', r = inr () ∧ campus_kept db db') db.
Proof.
  intros Hok Hk. pose proof Hok as []. unfold delete_room. wp_steps.
  2: { exfalso. apply Hk, protected_holder. by destruct (room_protected k db). }
  split; [done|]. split; [split; simpl; try done|split; try done; simpl].
  - by apply NoDup_fmap_select.
  - by apply NoDup_fmap_select.
  - by apply NoDup_fmap_select.
  - by apply NoDup_fmap_select.
  - intros r [Hr _]%elem_of_select. auto.
  - intros r [Hr _]%elem_of_select. auto.
  - intros k' Hk'.
    assert (k' ∈ room_holders db) as Hin.
    { revert Hk'. unfold room_holders. simpl. rewrite !elem_of_app.
      intros [?|[?|[?|[?|Ho]]]]; try tauto. do 4 right. apply list_elem_of_omap in Ho as (it' & Hit & Ha).
      apply list_elem_of_fmap in Hit as (it & -> & Hit). apply forget_ne in Ha as [Ha _].
      apply list_elem_of_omap. eauto. }
    apply existing_delete; [intros ->; done|auto].
  - intros k' Hk'. unfold room_mentions in Hk'. simpl in Hk'. rewrite elem_of_app in Hk'.
    destruct Hk' as [Ho|Hf].
    + apply list_elem_of_omap in Ho as (it' & Hit & Ha).
      apply list_elem_of_fmap in Hit as (it & -> & Hit). apply forget_ne in Ha as [Ha Hne].
      apply existing_delete; [done|]. apply co_mentions0. apply elem_of_app. left.
      apply list_elem_of_omap. eauto.
    + apply list_elem_of_fmap in Hf as (fl & -> & [Hf Hne]%elem_of_select). b2p.
      apply existing_delete; [done|]. apply co_mentions0. apply elem_of_app. right.
      apply list_elem_of_fmap. eauto.
  - apply (unassigned_same k); [|done]. intros Hin. apply Hk. unfold room_holders.
    rewrite !elem_of_app. tauto.
Qed.
Lemma ok_delete_floor k db :
  campus_ok db → floor_delete_blockers k db = [] →
  wp (delete_floor k) (λ r db', r = inr () ∧ campus_kept db db') db.
Proof.
  intros Hok Hb. pose proof Hok as [].
  assert (∀ r, r ∈ db_rooms db → room_floor r ≠ k) as Hne.
  { intros r Hr. pose proof (nonzero_nil _ Hb (_, _) ltac:(left)) as H0.
    pose proof (count_zero _ _ H0 r Hr). by b2p. }
  unfold delete_floor. wp_steps.
  2: { exfalso. apply negb_false_iff, existsb_elem in H as (r & Hr & Hf). b2p. by apply (Hne r). }
  split; [done|]. split; [split; simpl; try done|split; try done; simpl].
  - by apply NoDup_fmap_select.
  - by apply NoDup_fmap_select.
  - intros r Hr. apply existing_delete; auto.
  - intros f [Hf _]%elem_of_select. auto.
  - intros a f (a' & -> & Ha)%list_elem_of_fmap [Hf Hn]%elem_of_select. b2p.
    apply existing_delete; [done|eauto].
  - rewrite <- list_fmap_compose. by apply list_fmap_ext.
Qed.
Lemma ok_delete_building k db :
  campus_ok db → building_delete_blockers k db = [] →
  wp (delete_building k) (λ r db', r = inr () ∧ campus_kept db db') db.
Proof.
  intros Hok Hb. pose proof Hok as [].
  assert (∀ f, f ∈ db_floors db → flr_building f ≠ k) as Hne.
  { intros f Hf. pose proof (nonzero_nil _ Hb (_, _) ltac:(left)) as H0.
    pose proof (count_zero _ _ H0 f Hf). by b2p. }
  assert (∀ r, r ∈ db_rooms db → on_building db k r = false) as Hrooms.
  { pose proof (nonzero_nil _ Hb (_, _) ltac:(right; left)) as H0. by apply count_zero. }
  assert (select (λ f, flr_building f =? k) (db_floors db) = []) as Hno.
  { apply select_nil. intros f Hf. apply Z.eqb_neq. auto. }
  assert (select (λ f, negb (flr_building f =? k)) (db_floors db) = db_floors db) as Hall.
  { apply select_all. intros f Hf. b2p. auto. }
  unfold delete_building. wp_steps.
  2: { exfalso. apply negb_false_iff, existsb_elem in H as (r & Hr & Hf). by rewrite Hrooms in Hf. }
  split; [done|]. cbv zeta. rewrite Hno, Hall.
  split; [split; simpl; try done|split; try done; simpl].
  - by apply NoDup_fmap_select.
  - by apply NoDup_fmap_select.
  - intros f Hf. apply existing_delete; auto.
  - intros s b [Hs Hn]%elem_of_select Hsb. b2p. apply existing_delete; [congruence|eauto].
  - intros a f (a' & -> & Ha)%list_elem_of_fmap [Hf Hn]%elem_of_select. eauto.
  - rewrite <- list_fmap_compose. by apply list_fmap_ext.
  - apply select_sublist.
  - intros s Hs Hn. apply elem_of_select. split; [done|]. b2p. congruence.
Qed.

(** *** The pages *)
Notation keeps_campus db := (λ _ db', campus_kept db db').
Lemma wp_audit_end {A} db0 a e t i p (x : A) db :
  campus_kept db0 db → wp (audit a e t i p ≫= λ _, mret x) (keeps_campus db0) db.
Proof. intros H. unfold wp, mbind, M_bind. rewrite audit_eq. simpl. by apply kept_audit. Qed.
Lemma wp_floor_label db0 fl db (Q : string → M response) :
  campus_kept db0 db → (∀ l, wp (Q l) (keeps_campus db0) db) →
  wp (floor_label fl ≫= Q) (keeps_campus db0) db.
Proof. intros H HQ. unfold floor_label. wp_steps; [apply HQ|done]. Qed.
Ltac page_start :=
  intros Hok; apply wp_role; [by apply kept_refl|];
  try (apply wp_get_or_404; [intros _; by apply kept_refl|intros ? ? ?]).

Lemma toggle_ok user code q db :
  campus_ok db → wp (room_toggle_service ci user code q) (keeps_campus db) db.
Proof.
  page_start. cbv zeta. apply wp_bind, wp_save; intros _; [|by apply kept_refl]. apply wp_audit_end.
  apply ok_room_edit; try done. intros r' Hr'. exact (co_room_floor db Hok r' Hr').
Qed.
Lemma credentials_wp token i db :
  wp (new_room_credentials draws token i) (λ res db', db' = db ∧
    ∀ p, res = inr p → PyStr.six_digits p.2 = true) db.
Proof.
  apply wp_bind. eapply wp_mono; [apply generate_loop_wp|]. intros [e|[c j]] db' [-> H]; [done|].
  apply wp_ret. split; [done|]. intros p [= <-]. destruct H as (n & _ & _ & -> & _).
  simpl. by apply candidate_digits.
Qed.
Lemma with_credentials token i db (k : string * string → M response) Q :
  (∀ e, Q (inl e) db) → (∀ qr manual, PyStr.six_digits manual = true → wp (k (qr, manual)) Q db) →
  wp (new_room_credentials draws token i ≫= k) Q db.
Proof.
  intros He Hk. apply wp_bind. eapply wp_mono; [apply credentials_wp|].
  intros [e|[qr manual]] db' [-> H]; [apply He|]. apply Hk. by apply (H (qr, manual)).
Qed.
Lemma rotate_ok user code token i now db :
  campus_ok db → wp (room_rotate ci draws user code token i now) (keeps_campus db) db.
Proof.
  page_start. apply wp_bind, wp_atomic. apply wp_bind.
  eapply wp_mono; [apply credentials_wp|]. intros [e|[qr manual]] db' [-> Hd]; [by apply kept_refl|].
  apply wp_bind, wp_save_unique; [by apply kept_refl..|]. intros x Hx Hcl.
  assert (campus_kept db (set_tbl (update_pk (room_pk r) (rotate (usr_pk user) now qr manual)
    (tbl (R:=Room) db)) db)) as Hkept.
  { eapply ok_room_rotate; [done|exact Hx| |exact Hcl]. by apply (Hd (qr, manual)). }
  apply wp_bind. unfold room_label, floor_label. wp_steps; try by apply kept_refl.
  unfold wp at 1. rewrite audit_eq. cbn [fst snd]. apply wp_ret. by apply kept_audit.
Qed.
Lemma room_form_ok q editing k db :
  campus_ok db →
  (∀ f fl, fl ∈ db_floors db → room_field_errors f editing db = None → wp (k f fl) (keeps_campus db) db) →
  wp (with_room_form q editing k) (keeps_campus db) db.
Proof.
  intros Hok Hk. apply wp_bind, wp_read, wp_check; [intros; by apply kept_refl|]. intros He.
  apply wp_bind, wp_first. destruct (List.find _ _) as [fl|] eqn:E; [|by apply wp_ret, kept_refl].
  apply find_elem in E as [Hfl _]. by apply Hk.
Qed.
Lemma floor_existing db fl : fl ∈ db_floors db → existing (db_floors db) (flr_pk fl) = true.
Proof. intros H. apply existing_elem. by exists fl. Qed.
Lemma room_new_ok user q token i db :
  campus_ok db → wp (room_new ci draws user q token i) (keeps_campus db) db.
Proof.
  page_start. apply room_form_ok; [done|]. intros f fl Hfl He.
  apply with_credentials; [intros; by apply kept_refl|]. intros qr manual Hd.
  apply wp_bind, wp_create_unique; [by intros; apply kept_refl|]. intros Hcl.
  apply wp_floor_label; [|intros l; apply wp_audit_end];
    (apply ok_room_insert; [done|done|exact Hcl|exact Hd|by apply floor_existing]).
Qed.
Lemma room_edit_ok user code q db :
  campus_ok db → wp (room_edit ci user code q) (keeps_campus db) db.
Proof.
  page_start. apply room_form_ok; [done|]. intros f fl Hfl He.
  cbv zeta. apply wp_bind, wp_save; intros _; [|by apply kept_refl]. apply wp_audit_end.
  apply ok_room_edit; try done. intros r' _. by apply floor_existing.
Qed.
Lemma room_delete_ok user code db :
  campus_ok db → wp (room_delete ci user code) (keeps_campus db) db.
Proof.
  page_start. apply wp_bind. unfold room_label, floor_label. wp_steps; try by apply kept_refl.
  unfold try_delete_room. apply wp_atomic, wp_bind, wp_read.
  destruct (room_delete_blockers (room_pk r) db) as [|b l] eqn:Eb.
  - apply wp_try, wp_bind. eapply wp_mono; [apply ok_delete_room; [done|by apply not_blocked]|].
    intros res db' [-> Hk]. by apply wp_ret, wp_audit_end.
  - apply wp_ret. apply wp_bind, wp_read, wp_audit_end. by apply kept_refl.
Qed.
Lemma building_create_ok user q db :
  campus_ok db → wp (building_create ci user q) (keeps_campus db) db.
Proof.
  page_start. apply wp_bind, wp_read, wp_check; [intros; by apply kept_refl|]. intros He.
  apply wp_bind, wp_create_unique; [by intros; apply kept_refl|]. intros Hcl.
  apply wp_audit_end. by apply ok_building_insert.
Qed.
Lemma building_edit_ok user k q db :
  campus_ok db → wp (building_edit ci user k q) (keeps_campus db) db.
Proof.
  page_start. cbv zeta. destruct (_ || _); [by apply wp_ret, kept_refl|].
  apply wp_bind, wp_exists. destruct (existsb _ _); [by apply wp_ret, kept_refl|].
  apply wp_bind, wp_save_unique; [by apply kept_refl..|]. intros b Hb Hcl. apply wp_audit_end.
  eapply ok_building_edit; [done|done|exact Hb|exact Hcl].
Qed.
Lemma building_delete_ok user k db :
  campus_ok db → wp (building_delete user k) (keeps_campus db) db.
Proof.
  page_start. apply wp_bind, wp_read. destruct (building_delete_blockers k db) eqn:Eb;
    [|by apply wp_ret, kept_refl].
  apply wp_bind. unfold wp at 1, audit_building. rewrite audit_eq. cbn [fst snd].
  set (db1 := db <| db_audit := _ |>).
  assert (campus_kept db db1) as [Hok1 Hh1] by (by apply kept_audit, kept_refl).
  apply wp_bind. eapply wp_mono; [apply (ok_delete_building k db1); [done|exact Eb]|].
  intros res db' [-> [Hok2 Hh2]]. apply wp_ret. split; [done|]. by transitivity db1.
Qed.
Lemma floor_create_ok user k q db :
  campus_ok db → wp (floor_create user k q) (keeps_campus db) db.
Proof.
  page_start. cbv zeta. destruct (PyStr.int _) as [n|]; [|by apply wp_ret, kept_refl].
  apply wp_bind, wp_exists. destruct (existsb _ _); [by apply wp_ret, kept_refl|].
  apply wp_bind, wp_create_unique; [by intros; apply kept_refl|]. intros Hcl. apply wp_audit_end.
  apply ok_floor_insert; [done|done|exact Hcl|]. apply existing_elem. by exists r.
Qed.
Lemma floor_delete_ok user k db :
  campus_ok db → wp (floor_delete user k) (keeps_campus db) db.
Proof.
  page_start. cbv zeta. apply wp_bind, wp_read. destruct (floor_delete_blockers k db) as [|[nm n] l] eqn:Eb;
    [|by apply wp_ret, kept_refl].
  apply wp_bind, wp_get_pk; intros; [|by apply kept_refl].
  apply wp_bind. unfold wp at 1. rewrite audit_eq. cbn [fst snd]. set (db1 := db <| db_audit := _ |>).
  assert (campus_kept db db1) as [Hok1 Hh1] by (by apply kept_audit, kept_refl).
  apply wp_bind. eapply wp_mono; [apply (ok_delete_floor k db1); [done|exact Eb]|].
  intros res db' [-> [Hok2 Hh2]]. apply wp_ret. split; [done|]. by transitivity db1.
Qed.

(** One request of the console, answered or refused, by anyone. *)
Definition campus_step (db db' : DB) : Prop :=
  ∃ user req, db' = exec (campus_handle ci draws user req) db.
Lemma campus_step_kept db db' : campus_step db db' → campus_ok db → campus_kept db db'.
Proof.
  intros (user & req & ->) Hok.
  assert (wp (campus_handle ci draws user req) (keeps_campus db) db) as H.
  { destruct req; cbn [campus_handle]; [by apply toggle_ok|by apply rotate_ok|by apply room_new_ok|
      by apply room_edit_ok|by apply room_delete_ok|by apply building_create_ok|by apply building_edit_ok|
      by apply building_delete_ok|by apply floor_create_ok|by apply floor_delete_ok]. }
  unfold wp in H. unfold exec. by destruct (campus_handle ci draws user req db).
Qed.

(** C39: No sequence of edits of the campus, by anyone and whatever is asked, breaks its
    order or loses attendance: room codes, tokens, manual codes, building codes and floor
    numbers stay unique, every manual code stays one the scan accepts, no reference to a
    room, a floor or a building dangles; and the classes, the sessions, the bookings, the
    validations, the requests and the rooms reserved for them are untouched.  A posting
    keeps everything but floors that are deleted.  A suspension of the whole campus is
    never lost; one of a building goes with it. *)
Theorem campus_console_safe db db' :
  rtc campus_step db db' → campus_ok db → campus_ok db' ∧ history_kept db db'.
Proof.
  intros Hsteps. induction Hsteps as [db|db1 db2 db3 Hstep _ IH]; [intros Hok; by split|].
  intros Hok. destruct (campus_step_kept db1 db2 Hstep Hok) as [Hok2 Hh2].
  destruct (IH Hok2) as [Hok3 Hh3]. split; [done|]. by transitivity db2.
Qed.

(** The row a request leaves in the audit log. *)
Definition with_audit (user : User) (event : string) (room : Room) (payload : list (string * json)) (db : DB) : DB :=
  db <| db_audit := db_audit db ++
    [{| log_pk := fresh_pk (db_audit db); log_actor := Some (usr_pk user); log_event := event;
        log_target_type := "room"; log_target_id := PyStr.str (room_pk room);
        log_payload := JObj payload |}] |>.
(** A room is deleted exactly when nothing that must be kept refers to it: no class,
    session, booking, validation or room reserved by a shift request.  A refusal
    changes nothing but the audit log, where each relation that blocks is named with the
    positive number of its rows; a deletion removes the room and its conflict flags,
    and forgets it as a preference of shift requests. *)
Theorem room_delete_exact user code db room :
  campus_ok db → usr_role user = IFO_ADMIN →
  List.find (λ r, same_text ci (room_code r) code) (db_rooms db) = Some room →
  let k := room_pk room in
  let blockers := room_delete_blockers k db in
  (blockers = [] ↔ k ∉ room_holders db) ∧ (∀ p, p ∈ blockers → 0 < p.2) ∧
  (blockers ≠ [] → room_delete ci user code db =
    (inr (BadRequest ""), with_audit user "room.delete_refused" room
       [("code", JStr (room_code room)); ("blockers", blockers_json blockers);
        ("protected_error", JBool false)]%string db)) ∧
  (blockers = [] → ∃ label, room_delete ci user code db =
    (inr (Redirect "ifo_rooms" "" ""), with_audit user "room.deleted" room
       [("code", JStr (room_code room)); ("floor", JStr label)]%string
       (db <| db_items := (λ it, it <| it_preferred := forget k (it_preferred it) |>
                                   <| it_assigned := forget k (it_assigned it) |>) <$> db_items db |>
           <| db_flags := select (λ f, negb (flag_room f =? k)) (db_flags db) |>
           <| db_rooms := delete_pk k (db_rooms db) |>))).
Proof.
  intros Hok Hrole Hfind k blockers. pose proof Hok as [].
  assert (∀ p, p ∈ blockers → 0 < p.2) as Hpos.
  { intros [n c] [Hin Hne]%elem_of_select. b2p. simpl in *. revert Hin. unfold count. set_unfold.
    intros [[= _ ->]|[[= _ ->]|[[= _ ->]|[[= _ ->]|[[= _ ->]|[]]]]]]; lia. }
  assert (∃ label, room_label room db = (inr label, db)) as [label Hlabel].
  { apply find_elem in Hfind as [Hin _]. pose proof (co_room_floor0 _ Hin) as Hf.
    rewrite existing_by_pk in Hf. destruct (by_pk (db_floors db) (room_floor room)) as [fl|] eqn:Ef; [|done].
    apply by_pk_elem in Ef as Hfl. pose proof (co_floor_building0 _ (proj1 Hfl)) as Hb.
    rewrite existing_by_pk in Hb. destruct (by_pk (db_buildings db) (flr_building fl)) as [b|] eqn:Eb; [|done].
    eexists. unfold room_label, floor_label, get_pk, mbind, M_bind, read. simpl. by rewrite Ef; simpl; rewrite Eb. }
  assert (∀ res db', try_delete_room k db = (inr res, db') → room_delete ci user code db =
    match res with
    | Some (bl, p) => (read (λ db, if p : bool then room_delete_blockers k db else bl) ≫= λ bl,
        audit (Some (usr_pk user)) "room.delete_refused" "room" (PyStr.str k)
        (JObj [("code", JStr (room_code room)); ("blockers", blockers_json bl);
               ("protected_error", JBool p)]%string) ≫= λ _, mret (BadRequest "")) db'
    | None => (audit (Some (usr_pk user)) "room.deleted" "room" (PyStr.str k)
        (JObj [("code", JStr (room_code room)); ("floor", JStr label)]%string) ≫= λ _,
        mret (Redirect "ifo_rooms" "" "")) db'
    end) as Hpage.
  { intros res db' Htry. unfold room_delete, ifo_required, role_required.
    rewrite bool_decide_false by (intros Hn; done). simpl. unfold room_404, get_or_404.
    unfold first, read, mbind at 1, M_bind at 1. simpl. rewrite Hfind.
    unfold mbind at 1, M_bind at 1. rewrite Hlabel. unfold mbind at 1, M_bind at 1. fold k. rewrite Htry.
    by destruct res as [[bl p]|]. }
  split; [apply not_blocked|]. split; [done|]. split.
  - intros Hne. rewrite (Hpage (Some (blockers, false)) db); [done|].
    unfold try_delete_room, atomic, mbind at 1, M_bind at 1, read. fold blockers. by destruct blockers.
  - intros Hnil. exists label. pose proof (ok_delete_room k db Hok (proj1 (not_blocked k db) Hnil)) as Hdel.
    erewrite (Hpage None); [done|].
    unfold try_delete_room, atomic, mbind at 1, M_bind at 1, read. fold blockers. rewrite Hnil.
    unfold try_with, mbind at 1, M_bind at 1. unfold wp in Hdel.
    destruct (delete_room k db) as [r0 db'] eqn:Ed. destruct Hdel as [Hr _]. simpl in Hr. subst r0. simpl.
    unfold delete_room, mbind, M_bind, read, guard_m in Ed. simpl in Ed.
    destruct (room_protected k db); simpl in Ed; [done|]. injection Ed as <-. done.
Qed.
End invariant.

(** ** Witnesses *)
Definition campus_db : DB :=
  demo_db <| db_rooms := [demo_room 1 "M-101"; (demo_room 2 "M-102") <| room_manual_code := "000002" |>] |>.
Definition ifo : User := demo_user 4 "Ivy" IFO_ADMIN.
Definition ones : nat → Z := λ i, Z.of_nat (i mod 5).
Lemma ones_range i : 0 ≤ ones i < MANUAL_CODE_SPACE.
Proof.
  unfold ones. pose proof (Nat.mod_upper_bound i 5 ltac:(done)).
  assert (MANUAL_CODE_SPACE = 1000000) as -> by done. lia.
Qed.
Lemma generate_manual_code_exact_witness :
  run (generate_manual_code ones 1) campus_db = inr ("000003"%string, 4%nat) ∧
  PyStr.six_digits (candidate ones 3) = true.
Proof.
  split; [vm_compute; reflexivity|].
  pose proof (generate_manual_code_exact ones ones_range 1 campus_db) as H.
  unfold wp in H. vm_compute in H. destruct H as [_ (n & _ & [= <-] & Hc & Hd & _)].
  vm_compute. reflexivity.
Defined.
Definition new_room : form :=
  [("code", " m-103 "); ("floor", "1"); ("capacity", "30"); ("name", "Lab")]%string.
Definition edits : list campus_request :=
  [CNew new_room "tok" 1; CDelete "m-102"; CDelete "M-101"; CBuildingDelete 1; CRotate "M-103" "tok2" 1 0].
Definition edited : DB := foldl (λ db r, exec (campus_handle PyStr.upper ones ifo r) db) campus_db edits.
Lemma edits_run l db :
  rtc (campus_step PyStr.upper ones) db
    (foldl (λ db r, exec (campus_handle PyStr.upper ones ifo r) db) db l).
Proof.
  revert db. induction l as [|r l IH]; intros db; [apply rtc_refl|].
  eapply rtc_l; [|apply IH]. by exists ifo, r.
Qed.
Lemma campus_demo_ok : campus_ok PyStr.upper campus_db.
Proof.
  split; try decide_now.
  - intros r Hr. each_row Hr; reflexivity.
  - intros r Hr. each_row Hr; reflexivity.
  - intros r Hr. each_row Hr; reflexivity.
  - intros k Hk. vm_compute in Hk. each_row Hk; reflexivity.
  - intros k Hk. vm_compute in Hk. each_row Hk; reflexivity.
  - intros s b Hs. vm_compute in Hs. by apply not_elem_of_nil in Hs.
  - intros a f Ha. vm_compute in Ha. by apply not_elem_of_nil in Ha.
Qed.
Lemma campus_console_safe_witness :
  campus_ok PyStr.upper edited ∧ db_sessions edited = db_sessions campus_db ∧
  room_code <$> db_rooms edited = ["M-101"; "M-103"]%string ∧
  room_manual_code <$> db_rooms edited = ["000001"; "000002"]%string.
Proof.
  destruct (campus_console_safe PyStr.upper ones ones_range campus_db edited
    (edits_run edits campus_db) campus_demo_ok) as [Hok [_ Hs _ _ _ _ _ _ _]].
  split; [exact Hok|]. split; [exact Hs|]. split; vm_compute; reflexivity.
Defined.
Lemma room_delete_exact_witness :
  room_delete_blockers 1 campus_db = [("schedules", 1); ("sessions", 2)]%string ∧
  room_delete PyStr.upper ifo "m-101" campus_db =
  (inr (BadRequest ""), with_audit ifo "room.delete_refused" (demo_room 1 "M-101")
     [("code", JStr "M-101");
      ("blockers", blockers_json [("schedules", 1); ("sessions", 2)]);
      ("protected_error", JBool false)]%string campus_db).
Proof.
  split; [vm_compute; reflexivity|].
  destruct (room_delete_exact PyStr.upper ones ones_range ifo "m-101" campus_db (demo_room 1 "M-101")
    campus_demo_ok eq_refl ltac:(vm_compute; reflexivity)) as (_ & _ & Hno & _).
  apply Hno. vm_compute. congruence.
Defined.
