(* ===== verification/ImportOfferings.v ===== *)
(** scheduling/management/commands/import_offerings.py: the loading of a sheet of course
    offerings into a term.  One transaction creates the rooms, the faculty accounts and
    the weekly classes the sheet names and the database does not have yet.

    [ci] is the collation of the text columns, [slugify] the framework's, [tokens] and
    [draws] the streams of the random generator, read from a position that the rows hand
    on.  Reading the file is outside: a run is given its rows. *)
From S2P Require Import Prelude Python Model Effects Ops Sample Web Importing Campus.
From Stdlib Require Import Ascii String.
From stdpp Require Import strings gmap.
Open Scope Z_scope.

Definition TBA_ROOM_CODE : string := "TBA".
Definition ONLINE_TBA_ROOM_CODE : string := "VTBA".

(** [str.title()]: a letter is a capital when no letter comes before it. *)
Fixpoint title_list (inside : bool) (l : list ascii) : list ascii :=
  match l with
  | [] => []
  | c :: l' => (if inside then PyStr.lower_char c else PyStr.upper_char c) :: title_list (PyStr.is_alpha c) l'
  end.
Definition title (s : string) : string := PyStr.of_list (title_list false (PyStr.to_list s)).

(** [Model.objects.get(p)] over rows that may be several, and [get_or_create(p, defaults)]:
    the row and whether it is new. *)
Section get.
Context {R : Type} `{!HasPk R, !Table R}.
Definition get_only (p : R → bool) : M R :=
  objects (R:=R) p ≫= λ l,
  match l with
  | [r] => mret r
  | [] => raise DoesNotExist
  | _ => raise MultipleObjectsReturned
  end.
Definition get_or_create (p : R → bool) (fits : bool) (clash : R → R → bool) (mk : Z → R) : M (R * bool) :=
  try_with (get_only p ≫= λ r, mret (r, false))
    (λ e, if bool_decide (e = DoesNotExist) then Some (
       try_with (guard_m fits DatabaseError ≫= λ _, create_unique clash mk ≫= λ r, mret (r, true))
         (λ e', if bool_decide (e' = IntegrityError) then Some (
            try_with (get_only p ≫= λ r, mret (r, false))
              (λ e'', if bool_decide (e'' = DoesNotExist) then Some (raise e') else None)) else None))
     else None).
End get.

(** The options of the command, and the counters of a run. *)
Record Options := {
  o_building : string;          (* "" when not given *)
  o_floor : option Z;
  o_limit : Z;                  (* 0 when not given *)
  o_dry_run : bool
}.
Record ImportStats := {
  st_sections : Z; st_rooms : gset string; st_faculty : gset string; st_schedules : Z;
  st_no_schedule : Z; st_bad_time : Z; st_filtered : Z; st_tba : Z; st_online : Z
}.
#[global] Instance eta_ImportStats : Eta ImportStats := λ r, {|
  st_sections := st_sections r; st_rooms := st_rooms r; st_faculty := st_faculty r;
  st_schedules := st_schedules r; st_no_schedule := st_no_schedule r; st_bad_time := st_bad_time r;
  st_filtered := st_filtered r; st_tba := st_tba r; st_online := st_online r
|}.
Definition no_stats : ImportStats := {|
  st_sections := 0; st_rooms := ∅; st_faculty := ∅; st_schedules := 0; st_no_schedule := 0;
  st_bad_time := 0; st_filtered := 0; st_tba := 0; st_online := 0 |}.

(** A slot of a class: the weekday, the start and the end. *)
Record Slot := mk_slot { sl_day : Z; sl_start : Z; sl_end : Z }.
Definition slot_of (m : MeetingParse) : option Slot :=
  match mp_day m, mp_start m, mp_end m with
  | Some d, Some st, Some en => if st =? en then None else Some (mk_slot d st en)
  | _, _, _ => None
  end.
(** A class to load: its room, or [None] for the placeholder, its modality and slot. *)
Record Planned := mk_planned { pl_room : option RoomInfo; pl_mode : Modality; pl_slot : Slot }.

Section rows.
Context (col : dict string nat) (o : Options).
Implicit Types (row : list string) (st : ImportStats).

Definition filtered : bool := negb (bool_decide (o_building o = ""%string)) || is_some (o_floor o).
Definition off_filter (info : RoomInfo) : bool :=
  (negb (bool_decide (o_building o = ""%string))
   && negb (bool_decide (ri_prefix info = PyStr.upper (o_building o))))
  || match o_floor o with Some f => negb (ri_floor info =? f) | None => false end.
(** One meeting of the row: counted as skipped, kept with its room, or without one. *)
Definition sort_meeting (sec : string) (acc : ImportStats * list (RoomInfo * Slot) * list Slot) (m : MeetingParse)
    : ImportStats * list (RoomInfo * Slot) * list Slot :=
  let '(st, real, roomless) := acc in
  match slot_of m with
  | None => (st <| st_bad_time := st_bad_time st + 1 |>, real, roomless)
  | Some sl =>
      if is_real_room (mp_room_raw m) sec then
        let info := classify_room (mp_room_raw m) in
        if off_filter info then (st <| st_filtered := st_filtered st + 1 |>, real, roomless)
        else (st, real ++ [(info, sl)], roomless)
      else (st, real, roomless ++ [sl])
  end.
(** What a row with a schedule asks to load, and the placeholder for its classes without
    a room. *)
Definition plan_row row st : ImportStats * list Planned * string :=
  let mode := row_cell row col "Mode" in
  let '(st, real, roomless) :=
    foldl (sort_meeting (row_cell row col "Sec")) (st, [], []) (parse_meetings (row_cell row col "Schedule")) in
  match real with
  | _ :: _ => (st, (λ p, mk_planned (Some p.1) (modality_for_room (Some p.1) mode) p.2) <$> real, ""%string)
  | [] =>
      if filtered then (st, [], ""%string)
      else if bool_decide (PyStr.lower (PyStr.strip mode) = "online"%string) then
        (st <| st_online := st_online st + 1 |>, mk_planned None ONLINE <$> roomless, ONLINE_TBA_ROOM_CODE)
      else (st <| st_tba := st_tba st + 1 |>,
            mk_planned None (modality_for_room None mode) <$> roomless, TBA_ROOM_CODE)
  end.
Definition faculty_key row : string :=
  let email := row_cell row col "Email" in
  if bool_decide (email = ""%string) then "n:" +:+ normalize_name_key (row_cell row col "Instructor")
  else "e:" +:+ PyStr.lower email.
Definition dry_row row (plan : list Planned) (placeholder : string) st : ImportStats :=
  let codes := (λ p, PyStr.upper (match pl_room p with Some i => ri_raw_code i | None => placeholder end)) <$> plan in
  st <| st_rooms := list_to_set codes ∪ st_rooms st |>
     <| st_schedules := st_schedules st + Z.of_nat (length plan) |>
     <| st_faculty := {[faculty_key row]} ∪ st_faculty st |>.
Definition enrolled_cell row : Z :=
  let raw := row_cell row col "Enrolled" in if PyStr.isdigit raw then digits raw else 0.
End rows.

(** ** The rows the loading looks up or creates *)
Section load.
Context (ci slugify : string → string) (tokens : nat → string) (draws : nat → Z).
Notation same := (same_text ci).

(** The unique columns of an account; an account without a directory identity clashes
    with none. *)
Definition user_clash (u u' : User) : bool :=
  same (usr_username u) (usr_username u')
  || match usr_azure_oid u, usr_azure_oid u' with Some a, Some b => bool_decide (a = b) | _, _ => false end.
Definition never_clash {R} (_ _ : R) : bool := false.
Definition new_faculty (username email : string) (k : Z) : User :=
  {| usr_pk := k; usr_username := username; usr_email := email; usr_first := ""; usr_last := "";
     usr_role := FACULTY; usr_department := None; usr_active := true; usr_superuser := false;
     usr_azure_oid := None |}.
Definition local_part (email : string) : string :=
  PyStr.of_list (PyStr.take_while (λ c, negb (bool_decide (c = "@"%char))) (PyStr.to_list email)).
Definition fac_username (key : string) : string := "fac-" +:+ PyStr.take 24 (slugify key).
(** The names of a new account, as the sheet writes them: last, first. *)
Definition set_names (name : string) (u : User) : User :=
  let parts := PyStr.strip <$> PyStr.split ","%char name in
  u <| usr_last := title (default ""%string (parts !! 0%nat)) |>
    <| usr_first := title (default ""%string (parts !! 1%nat)) |>.
Definition name_new (name : string) (p : User * bool) : M User :=
  let '(u, created) := p in
  when created (save (usr_pk u) (set_names name)) ≫= λ _, mret u.
Definition faculty (name email : string) (cache : dict string User) : M (User * dict string User) :=
  if bool_decide (email = ""%string) then
    let key := normalize_name_key name in
    match dict_get cache key with
    | Some u => mret (u, cache)
    | None =>
        get_or_create (λ u, same (usr_username u) (fac_username key)) true user_clash
          (new_faculty (fac_username key) "") ≫= λ p,
        name_new name p ≫= λ u, mret (u, dict_set cache key p.1)
    end
  else
    get_or_create (λ u, same (usr_email u) email)
      (negb (longer 254 email) && negb (longer 150 (local_part email))) user_clash
      (new_faculty (local_part email) email) ≫= λ p,
    name_new name p ≫= λ u, mret (u, cache).

Definition new_building (info : RoomInfo) (k : Z) : Building :=
  {| bld_pk := k; bld_code := ri_building_code info; bld_name := ri_building_name info |}.
Definition room_for (info : RoomInfo) (i : nat) : M (Room * nat) :=
  get_or_create (λ b, same (bld_code b) (ri_building_code info)) true (building_clash ci) (new_building info)
  ≫= λ '(b, _),
  get_or_create (λ f, (flr_building f =? bld_pk b) && (flr_number f =? ri_floor info)) true floor_clash
    (λ k, {| flr_pk := k; flr_building := bld_pk b; flr_number := ri_floor info |}) ≫= λ '(fl, _),
  generate_manual_code draws i ≫= λ '(manual, j),
  get_or_create (λ r, same (room_code r) (ri_raw_code info)) (negb (longer 30 (ri_raw_code info)))
    (room_clash ci)
    (λ k, {| room_pk := k; room_floor := flr_pk fl; room_code := ri_raw_code info; room_name := "";
             room_capacity := 0; room_qr_token := tokens i; room_manual_code := manual;
             room_rotated_at := None; room_rotated_by := None; room_out_of_service := false;
             room_oos_reason := "" |}) ≫= λ '(room, _),
  mret (room, j).
Definition placeholder_room (code : string) (i : nat) : M (Room * nat) := room_for (classify_room code) i.

(** ** A run *)
Section run.
Context (col : dict string nat) (o : Options) (term : AcademicTerm).

(** The state the rows hand on: the counters, the name cache, the random position. *)
Record RunState := mk_run { rs_stats : ImportStats; rs_names : dict string User; rs_pos : nat }.
Definition class_key (code sec : string) (room : Z) (p : Planned) (c : Schedule) : bool :=
  (sch_term c =? term_pk term) && same (sch_course_code c) code && same (sch_section c) sec
  && (sch_day c =? sl_day (pl_slot p)) && (sch_room c =? room)
  && (sch_start c =? sl_start (pl_slot p)).
Definition load_class (row : list string) (placeholder : string) (u : User) (acc : ImportStats * nat) (p : Planned)
    : M (ImportStats * nat) :=
  let '(st, i) := acc in
  let code := row_cell row col "Code" in
  let sec := row_cell row col "Sec" in
  match pl_room p with Some info => room_for info i | None => placeholder_room placeholder i end
  ≫= λ '(room, j),
  let st := st <| st_rooms := {[PyStr.upper (room_code room)]} ∪ st_rooms st |> in
  get_or_create (class_key code sec (room_pk room) p) (negb (longer 30 code) && negb (longer 30 sec)) never_clash
    (λ k, {| sch_pk := k; sch_term := term_pk term; sch_course_code := code; sch_section := sec;
             sch_enrolled := enrolled_cell col row; sch_faculty := usr_pk u; sch_room := room_pk room;
             sch_day := sl_day (pl_slot p); sch_start := sl_start (pl_slot p);
             sch_end := sl_end (pl_slot p); sch_modality := pl_mode p; sch_status := SCH_ACTIVE |})
  ≫= λ '(_, created),
  mret (if created : bool then st <| st_schedules := st_schedules st + 1 |> else st, j).
Definition import_row (s : RunState) (row : list string) : M RunState :=
  let '(mk_run st names i) := s in
  if bool_decide (row_cell row col "Schedule" = ""%string) then
    mret (mk_run (st <| st_no_schedule := st_no_schedule st + 1 |>) names i)
  else
    let '(st, plan, placeholder) := plan_row col o row st in
    match plan with
    | [] => mret (mk_run st names i)
    | _ =>
        let st := st <| st_sections := st_sections st + 1 |> in
        if o_dry_run o then mret (mk_run (dry_row col row plan placeholder st) names i)
        else
          faculty (row_cell row col "Instructor") (row_cell row col "Email") names ≫= λ '(u, names'),
          let st := st <| st_faculty := {[usr_username u]} ∪ st_faculty st |> in
          fold_m (load_class row placeholder u) (st, i) plan ≫= λ '(st', j),
          mret (mk_run st' names' j)
    end.
Fixpoint import_rows (rows : list (list string)) (s : RunState) : M RunState :=
  match rows with
  | [] => mret s
  | row :: rows' =>
      if negb (o_limit o =? 0) && (o_limit o <=? st_sections (rs_stats s)) then mret s
      else import_row s row ≫= import_rows rows'
  end.
Definition run (rows : list (list string)) (i : nat) : M RunState :=
  atomic (import_rows rows (mk_run no_stats [] i)).
End run.
End load.

(** ** The command *)
(** [{(c or "").strip(): i for i, c in enumerate(header)}] *)
Definition header_cols (header : list string) : dict string nat :=
  foldl (λ d p, dict_set d (PyStr.strip p.2) p.1) [] (imap pair header).
(** What the report says: the counters, the reconciliation, whether its four figures add
    up, and after a real run the classes of the term, the rooms and the faculty there are. *)
Record Report := {
  rp_stats : ImportStats; rp_rec : Reconciliation; rp_balanced : bool; rp_live : option (Z * Z * Z)
}.
Section command.
Context (ci slugify : string → string) (tokens : nat → string) (draws : nat → Z) (repr : string → string).
Definition resolve_term (raw : string) : M AcademicTerm :=
  let lookup := PyStr.strip raw in
  if bool_decide (lookup = ""%string) then raise (CommandError "--term is required")
  else
    try_with (get_only (if PyStr.isdigit lookup then λ t, term_pk t =? digits lookup
                        else λ t, same_text ci (term_name t) lookup))
      (λ e, if bool_decide (e = DoesNotExist)
            then Some (raise (CommandError ("AcademicTerm not found for --term " +:+ repr lookup))) else None)
    ≫= λ t,
    try_with (require_writable_term t)
      (λ e, match e with ArchivedTermError msg => Some (raise (CommandError msg)) | _ => None end).
Definition report (o : Options) (st : ImportStats) (data : list (list string)) (col : dict string nat)
    (term : AcademicTerm) (db : DB) : Report :=
  let rc := reconcile col data in
  {| rp_stats := st; rp_rec := rc;
     rp_balanced := intact_rows rc + roomless_tba_rows rc + online_no_room_rows rc + no_schedule rc =? total_rows rc;
     rp_live := if o_dry_run o then None else
       Some (count (λ c, sch_term c =? term_pk term) (db_schedules db), count (λ _, true) (db_rooms db),
             count (λ u, bool_decide (usr_role u = FACULTY)) (db_users db)) |}.
Definition import_offerings (o : Options) (raw : string) (rows : list (list string)) (i : nat) : M (option Report) :=
  resolve_term raw ≫= λ term,
  match rows with
  | [] => mret None
  | header :: data =>
      let col := header_cols header in
      run ci slugify tokens draws col o term data i ≫= λ s,
      read (report o (rs_stats s) data col term) ≫= λ rp, mret (Some rp)
  end.
End command.

(** ** Looking up and creating *)

(** The lookup [p] still finds the one row it found. *)
Definition keeps_only {R} `{!HasPk R} (p : R → bool) (l l' : list R) : Prop :=
  ∀ r, select p l = [r] → ∃ r', select p l' = [r'] ∧ pk r' = pk r.
#[export] Instance keeps_only_preorder {R} `{!HasPk R} (p : R → bool) : PreOrder (keeps_only p).
Proof.
  split; [intros l r H; by exists r|]. intros l1 l2 l3 H12 H23 r H.
  destruct (H12 r H) as (r' & H' & Hp). destruct (H23 r' H') as (r'' & ? & ?). exists r''. split; [done|congruence].
Qed.
Section get_facts.
Context {R : Type} `{!HasPk R, !Table R}.
Implicit Types (p q : R → bool) (l : list R).

Lemma get_only_eq p db :
  get_only p db = (match select p (tbl db) with [r] => inr r | [] => inl DoesNotExist
                   | _ => inl MultipleObjectsReturned end, db).
Proof. unfold get_only, objects, read, mbind, M_bind. by destruct (select p (tbl db)) as [|r [|r' l]]. Qed.
Lemma get_or_create_eq p fits clash mk db :
  get_or_create p fits clash mk db =
  match select p (tbl db) with
  | [r] => (inr (r, false), db)
  | _ :: _ => (inl MultipleObjectsReturned, db)
  | [] =>
      if fits then
        let new := mk (fresh_pk (tbl (R:=R) db)) in
        if existsb (clash new) (tbl db) then (inl IntegrityError, db)
        else (inr (new, true), set_tbl (tbl db ++ [new]) db)
      else (inl DatabaseError, db)
  end.
Proof.
  assert ((get_only p ≫= λ r, mret (r, false)) db =
    (match select p (tbl db) with [r] => inr (r, false) | [] => inl DoesNotExist
     | _ => inl MultipleObjectsReturned end, db)) as Hget.
  { unfold mbind, M_bind. rewrite get_only_eq. by destruct (select p (tbl db)) as [|r [|r' l]]. }
  unfold get_or_create, try_with at 1. rewrite Hget.
  destruct (select p (tbl db)) as [|r [|r' l]]; [|done|reflexivity].
  change (bool_decide (DoesNotExist = DoesNotExist)) with true. cbv iota beta.
  destruct fits; [|reflexivity]. cbv zeta. unfold try_with at 1, create_unique.
  unfold mbind at 1 2, M_bind at 1 2, guard_m, mret at 1, M_ret at 1.
  destruct (existsb _ (tbl db)) eqn:Ec; [|done].
  change (bool_decide (IntegrityError = IntegrityError)) with true. cbv iota beta.
  unfold try_with. by rewrite Hget.
Qed.
(** Everything [get_or_create] may do. *)
Lemma get_or_create_cases p fits clash mk db :
  let new := mk (fresh_pk (tbl (R:=R) db)) in
  (∃ r, select p (tbl db) = [r] ∧ get_or_create p fits clash mk db = (inr (r, false), db)) ∨
  (select p (tbl db) = [] ∧ existsb (clash new) (tbl db) = false ∧
   get_or_create p fits clash mk db = (inr (new, true), set_tbl (tbl db ++ [new]) db)) ∨
  (∃ e, get_or_create p fits clash mk db = (inl e, db)).
Proof.
  cbv zeta. rewrite get_or_create_eq. destruct (select p (tbl db)) as [|r [|r' l]]; [|eauto..].
  destruct fits; [|eauto]. cbv zeta. destruct (existsb _ _); eauto.
Qed.
Lemma get_or_create_found p fits clash mk db r :
  select p (tbl db) = [r] → get_or_create p fits clash mk db = (inr (r, false), db).
Proof.
  intros H. by rewrite get_or_create_eq, H.
Qed.

Lemma keeps_only_insert p q clash (new : R) l :
  select p l = [] → existsb (clash new) l = false →
  (∀ r, q new = true → q r = true → p r = true ∨ clash new r = true) → keeps_only q l (l ++ [new]).
Proof.
  intros Hp Hc Hq r Hr. exists r. split; [|done]. rewrite select_app, select_cons, Hr.
  destruct (q new) eqn:En; [|done]. exfalso.
  assert (r ∈ select q l) as [Hin Hqr]%elem_of_select by (rewrite Hr; left).
  rewrite select_nil in Hp. rewrite existsb_elem_false in Hc. specialize (Hp r Hin). specialize (Hc r Hin).
  destruct (Hq r eq_refl Hqr); congruence.
Qed.
Lemma keeps_only_update k (f : R → R) q l :
  (∀ r, pk (f r) = pk r) → (∀ r, q (f r) = q r) → keeps_only q l (update_pk k f l).
Proof.
  intros Hpk Hq r Hr. exists (if pk r =? k then f r else r). split; [|by case_match; rewrite ?Hpk].
  unfold update_pk, update_where. rewrite select_fmap.
  rewrite (select_ext _ q) by (intros x _; simpl; by case_match). by rewrite Hr.
Qed.
End get_facts.

(** ** What a loading keeps *)
Section loading.
Context (ci slugify : string → string) (term : AcademicTerm).
Notation same := (same_text ci).

Lemma same_iff a b : same a b = true ↔ ci a = ci b.
Proof. unfold same_text. apply bd_true. Qed.

(** Every lookup of the loading that finds one row goes on finding it. *)
Record ext (db db' : DB) : Prop := {
  ex_building c : keeps_only (λ b, same (bld_code b) c) (db_buildings db) (db_buildings db');
  ex_floor b n : keeps_only (λ f, (flr_building f =? b) && (flr_number f =? n)) (db_floors db) (db_floors db');
  ex_room c : keeps_only (λ r, same (room_code r) c) (db_rooms db) (db_rooms db');
  ex_email e : ci e ≠ ci ""%string → keeps_only (λ u, same (usr_email u) e) (db_users db) (db_users db');
  ex_username n : keeps_only (λ u, same (usr_username u) n) (db_users db) (db_users db');
  ex_class code sec k p :
    keeps_only (class_key ci term code sec k p) (db_schedules db) (db_schedules db')
}.
#[export] Instance ext_preorder : PreOrder ext.
Proof.
  split; [intros db; split; intros; reflexivity|]. intros db1 db2 db3 [] []. split; intros; etransitivity; eauto.
Qed.

Lemma ext_created {R} `{!HasPk R, !Table R} (p : R → bool) fits clash mk :
  (∀ db, select p (tbl db) = [] → existsb (clash (mk (fresh_pk (tbl (R:=R) db)))) (tbl db) = false →
   ext db (set_tbl (tbl db ++ [mk (fresh_pk (tbl (R:=R) db))]) db)) →
  respects ext (get_or_create p fits clash mk).
Proof.
  intros H db. unfold exec.
  destruct (get_or_create_cases p fits clash mk db) as [(r & _ & ->)|[(Hp & Hc & ->)|[e ->]]];
    [reflexivity|by apply H|reflexivity].
Qed.
Ltac ext_table := split; intros; simpl; try reflexivity; eapply keeps_only_insert; try eassumption; simpl;
  intros r; rewrite ?andb_true_iff, ?same_iff, ?Z.eqb_eq; intros; try (left; intuition congruence).
Lemma ext_building info :
  respects ext (get_or_create (λ b, same (bld_code b) (ri_building_code info)) true (building_clash ci)
                  (new_building info)).
Proof. apply ext_created. intros db Hp Hc. ext_table. Qed.
Lemma ext_floor b n fits clash :
  respects ext (get_or_create (λ f, (flr_building f =? b) && (flr_number f =? n)) fits clash
    (λ k, {| flr_pk := k; flr_building := b; flr_number := n |})).
Proof. apply ext_created. intros db Hp Hc. ext_table. Qed.
Lemma ext_new_room code fits clash mk :
  (∀ k, room_code (mk k) = code) →
  respects ext (get_or_create (λ r, same (room_code r) code) fits clash mk).
Proof. intros Hmk. apply ext_created. intros db Hp Hc. ext_table. Qed.
Lemma ext_new_class code sec k p fits clash mk :
  (∀ j, class_key ci term code sec k p (mk j) = true) →
  respects ext (get_or_create (class_key ci term code sec k p) fits clash mk).
Proof.
  intros Hmk. apply ext_created. intros db Hp Hc. ext_table. left. specialize (Hmk (fresh_pk (db_schedules db))).
  unfold class_key in *. rewrite ?andb_true_iff, ?same_iff, ?Z.eqb_eq in *. intuition congruence.
Qed.
Lemma ext_new_username n fits :
  respects ext (get_or_create (λ u, same (usr_username u) n) fits (user_clash ci) (new_faculty n "")).
Proof.
  apply ext_created. intros db Hp Hc. ext_table.
Qed.
Lemma ext_new_email n e fits :
  respects ext (get_or_create (λ u, same (usr_email u) e) fits (user_clash ci) (new_faculty n e)).
Proof.
  apply ext_created. intros db Hp Hc. ext_table. right. unfold user_clash. simpl.
  apply orb_true_iff. left. apply same_iff. congruence.
Qed.
Lemma ext_names name k : respects ext (save k (set_names name)).
Proof.
  intros db. unfold exec, save. destruct (existing _ _); [|reflexivity].
  split; intros; simpl; try reflexivity; by apply keeps_only_update.
Qed.

(** *** One call *)
Lemma wp_goc {R} `{!HasPk R, !Table R} (p : R → bool) fits clash mk (Q : exn + (R * bool) → DB → Prop) db :
  (∀ (l : list R) db, tbl (set_tbl l db) = l) → (∀ k, p (mk k) = true) → (∀ e, Q (inl e) db) →
  (∀ r c, select p (tbl (R:=R) (exec (get_or_create p fits clash mk) db)) = [r] →
     Q (inr (r, c)) (exec (get_or_create p fits clash mk) db)) →
  wp (get_or_create p fits clash mk) Q db.
Proof.
  intros Htbl Hmk He HQ. unfold wp, exec in *.
  destruct (get_or_create_cases p fits clash mk db) as [(r & Hr & E)|[(Hp & Hc & E)|[e E]]];
    rewrite E in *; cbn [fst snd] in *; [by apply HQ| |apply He].
  apply HQ. by rewrite Htbl, select_app, Hp, select_cons, Hmk.
Qed.
Lemma wp_known {R} `{!HasPk R, !Table R} (p : R → bool) fits clash mk (Q : exn + (R * bool) → DB → Prop) db r :
  select p (tbl (R:=R) db) = [r] → Q (inr (r, false)) db → wp (get_or_create p fits clash mk) Q db.
Proof. intros H HQ. unfold wp. by rewrite (get_or_create_found _ _ _ _ _ _ H). Qed.
Definition out_of_codes (e : exn) : Prop := ∃ m, e = ManualCodeExhausted m.

(** *** Rooms *)
Definition room_known (info : RoomInfo) (k : Z) (db : DB) : Prop :=
  ∃ b fl r, select (λ b, same (bld_code b) (ri_building_code info)) (db_buildings db) = [b] ∧
    select (λ f, (flr_building f =? bld_pk b) && (flr_number f =? ri_floor info)) (db_floors db) = [fl] ∧
    select (λ r, same (room_code r) (ri_raw_code info)) (db_rooms db) = [r] ∧ room_pk r = k.
Lemma room_known_ext info k db db' : ext db db' → room_known info k db → room_known info k db'.
Proof.
  intros [] (b & fl & r & Hb & Hf & Hr & Hk). destruct (ex_building0 _ _ Hb) as (b' & Hb' & Eb).
  destruct (ex_floor0 _ _ _ Hf) as (fl' & Hf' & _). destruct (ex_room0 _ _ Hr) as (r' & Hr' & Er).
  change (bld_pk b' = bld_pk b) in Eb. change (room_pk r' = room_pk r) in Er.
  exists b', fl', r'. rewrite Eb. split_and!; [done..|congruence].
Qed.
Section streams.
Context (tokens : nat → string) (draws : nat → Z).
Lemma ext_generate attempts n i : respects ext (generate_loop draws attempts n i).
Proof.
  revert i. induction n as [|n IH]; intros i; cbn [generate_loop].
  - apply respects_bind; [exact _|apply respects_read; exact _|]. intros. apply respects_raise; exact _.
  - apply respects_bind; [exact _|apply respects_read; exact _|]. intros []; [apply IH|apply respects_ret; exact _].
Qed.
Lemma ext_room_for info i : respects ext (room_for ci tokens draws info i).
Proof.
  unfold room_for. apply respects_bind; [exact _|apply ext_building|]. intros [b c].
  apply respects_bind; [exact _|apply ext_floor|]. intros [fl c'].
  apply respects_bind; [exact _|apply ext_generate|]. intros [manual j].
  apply respects_bind; [exact _|by apply ext_new_room|]. intros [r c'']. apply respects_ret; exact _.
Qed.
Lemma room_for_settles info i db :
  wp (room_for ci tokens draws info i)
    (λ res db', ∀ room j, res = inr (room, j) → room_known info (room_pk room) db') db.
Proof.
  assert (∀ (l : list Building) db, tbl (set_tbl l db) = l) as T1 by done.
  assert (∀ (l : list Floor) db, tbl (set_tbl l db) = l) as T2 by done.
  assert (∀ (l : list Room) db, tbl (set_tbl l db) = l) as T3 by done.
  unfold room_for. apply wp_bind, wp_goc; [done|intros k; apply same_iff; reflexivity|done|]. intros b c Hb. cbv beta iota.
  set (db1 := exec _ db) in *.
  apply wp_bind, wp_goc; [done|intros k; simpl; by rewrite !Z.eqb_refl|done|]. intros fl c' Hf. cbv beta iota.
  match goal with |- context [exec ?m db1] => pose proof (ext_floor (bld_pk b) (ri_floor info) true floor_clash db1) as X2;
    set (db2 := exec m db1) in * end.
  apply wp_bind. eapply wp_mono; [apply generate_loop_wp|]. intros [e|[manual j]] db3 [-> _]; [done|]. cbv beta iota.
  apply wp_bind, wp_goc; [done|intros k; apply same_iff; reflexivity|done|]. intros r c'' Hr. cbv beta iota.
  match goal with |- context [exec ?m db2] => assert (ext db2 (exec m db2)) as X3 by (by apply ext_new_room);
    set (db4 := exec m db2) in * end.
  apply wp_ret. intros room j' [= <- <-].
  destruct (ex_building _ _ X2 _ _ Hb) as (b2 & Hb2 & E2). destruct (ex_building _ _ X3 _ _ Hb2) as (b3 & Hb3 & E3).
  destruct (ex_floor _ _ X3 _ _ _ Hf) as (fl3 & Hf3 & _). change (bld_pk b2 = bld_pk b) in E2.
  change (bld_pk b3 = bld_pk b2) in E3.
  exists b3, fl3, r. split_and!; [done| |done|done]. rewrite E3, E2. exact Hf3.
Qed.
Lemma room_for_known info i k db :
  room_known info k db →
  wp (room_for ci tokens draws info i) (λ res db', db' = db ∧
    match res with inr (room, _) => room_pk room = k | inl e => out_of_codes e end) db.
Proof.
  intros (b & fl & r & Hb & Hf & Hr & Hk). unfold room_for.
  apply wp_bind. eapply wp_known; [exact Hb|]. cbv beta iota.
  apply wp_bind. eapply wp_known; [exact Hf|]. cbv beta iota.
  apply wp_bind. eapply wp_mono; [apply generate_loop_wp|]. intros [e|[manual j]] db3 [-> H]; cbv beta iota.
  { split; [done|]. destruct H as [-> _]. by eexists. }
  apply wp_bind. eapply wp_known; [exact Hr|]. cbv beta iota. by apply wp_ret.
Qed.
End streams.

(** *** Faculty *)
Notation faculty := (faculty ci slugify).
Definition by_username (key : string) (u : User) : bool := same (usr_username u) (fac_username slugify key).
Definition faculty_known (name email : string) (db : DB) : Prop :=
  ∃ u, select (if bool_decide (email = ""%string) then by_username (normalize_name_key name)
               else λ u, same (usr_email u) email) (db_users db) = [u].
Definition cache_known (cache : dict string User) (db : DB) : Prop :=
  ∀ key u, dict_get cache key = Some u → ∃ u', select (by_username key) (db_users db) = [u'].
(** An address that is not empty is not the empty one to the database either. *)
Definition told_apart (email : string) : Prop := email = ""%string ∨ ci email ≠ ci ""%string.
Lemma keeps_only_some {R} `{!HasPk R} (p : R → bool) l l' r :
  keeps_only p l l' → select p l = [r] → ∃ r', select p l' = [r'].
Proof. intros H Hr. destruct (H r Hr) as (r' & ? & _). by exists r'. Qed.
Lemma faculty_known_ext name email db db' :
  told_apart email → ext db db' → faculty_known name email db → faculty_known name email db'.
Proof.
  intros Hci X [u Hu]. unfold faculty_known. case_bool_decide.
  - eapply keeps_only_some; [apply X|exact Hu].
  - eapply keeps_only_some; [apply X|exact Hu]. by destruct Hci.
Qed.
Lemma cache_known_ext cache db db' : ext db db' → cache_known cache db → cache_known cache db'.
Proof. intros X H key u Hu. destruct (H key u Hu) as [u' Hu']. eapply keeps_only_some; [apply X|exact Hu']. Qed.
Lemma ext_name_new name p : respects ext (name_new name p).
Proof.
  destruct p as [u c]. unfold name_new. apply respects_bind; [exact _|apply respects_when; [exact _|]; apply ext_names|].
  intros. apply respects_ret; exact _.
Qed.
Lemma ext_faculty name email cache : respects ext (faculty name email cache).
Proof.
  unfold ImportOfferings.faculty. case_bool_decide.
  - destruct (dict_get _ _); [apply respects_ret; exact _|].
    apply respects_bind; [exact _|apply ext_new_username|intros p].
    apply respects_bind; [exact _|apply ext_name_new|intros u]. apply respects_ret; exact _.
  - apply respects_bind; [exact _|apply ext_new_email|intros p].
    apply respects_bind; [exact _|apply ext_name_new|intros u]. apply respects_ret; exact _.
Qed.
(** The names are written after the lookup. *)
Lemma name_new_select (q : User → bool) name p db :
  (∀ u, q (set_names name u) = q u) → (∃ u, select q (db_users db) = [u]) →
  wp (name_new name p) (λ _ db', ∃ u, select q (db_users db') = [u]) db.
Proof.
  intros Hq [u Hu]. destruct p as [v c]. unfold name_new. apply wp_bind, wp_when; intros _; [|by apply wp_ret; exists u].
  apply wp_save; intros _; [|by exists u]. apply wp_ret. simpl.
  eapply keeps_only_some; [by apply keeps_only_update|exact Hu].
Qed.
Lemma faculty_settles name email cache db :
  cache_known cache db →
  wp (faculty name email cache)
    (λ res db', ∀ u c, res = inr (u, c) → faculty_known name email db' ∧ cache_known c db') db.
Proof.
  assert (∀ (l : list User) db, tbl (set_tbl l db) = l) as T by done.
  intros Hc. unfold ImportOfferings.faculty, faculty_known. case_bool_decide as He.
  - destruct (dict_get cache _) as [u|] eqn:E.
    { apply wp_ret. intros u' c [= <- <-]. split; [by apply (Hc _ _ E)|done]. }
    apply wp_bind, wp_goc; [done|intros k; apply same_iff; reflexivity|done|]. intros r c Hr. cbv beta iota.
    match goal with |- context [exec ?m db] => pose proof (ext_new_username (fac_username slugify (normalize_name_key name)) true db) as X1;
      set (db1 := exec m db) in * end.
    apply wp_bind. eapply wp_mono; [apply wp_and; [apply (name_new_select (by_username (normalize_name_key name)))|
      apply (wp_of_respects ext), ext_name_new]|]; [done|by exists r|].
    intros [e|u] db2 [Hu X2]; [done|]. cbv beta iota. apply wp_ret. intros u' c' [= <- <-]. split; [done|].
    intros key v Hv. destruct (decide (key = normalize_name_key name)) as [->|Hne]; [done|].
    rewrite dict_get_set_ne in Hv by done. apply (cache_known_ext cache db1 db2 X2 (cache_known_ext cache db db1 X1 Hc) _ _ Hv).
  - apply wp_bind, wp_goc; [done|intros k; apply same_iff; reflexivity|done|]. intros r c Hr. cbv beta iota.
    match goal with |- context [exec ?m db] => pose proof (ext_new_email (local_part email) email
      (negb (longer 254 email) && negb (longer 150 (local_part email))) db) as X1; set (db1 := exec m db) in * end.
    apply wp_bind. eapply wp_mono; [apply wp_and; [apply (name_new_select (λ u, same (usr_email u) email))|
      apply (wp_of_respects ext), ext_name_new]|]; [done|by exists r|].
    intros [e|u] db2 [Hu X2]; [done|]. cbv beta iota. apply wp_ret. intros u' c' [= <- <-]. split; [done|].
    exact (cache_known_ext cache db1 db2 X2 (cache_known_ext cache db db1 X1 Hc)).
Qed.
Lemma faculty_again name email cache db :
  faculty_known name email db → ∃ u c, faculty name email cache db = (inr (u, c), db).
Proof.
  intros [u Hu]. unfold ImportOfferings.faculty. case_bool_decide as He.
  - destruct (dict_get cache _) as [v|]; [by eexists _, _|].
    eexists _, _. erewrite bind_run by (apply get_or_create_found; exact Hu). reflexivity.
  - eexists _, _. erewrite bind_run by (apply get_or_create_found; exact Hu). reflexivity.
Qed.

(** *** Classes and rows *)
Section sheet.
Context (col : dict string nat) (o : Options).
Definition room_of (placeholder : string) (p : Planned) : RoomInfo :=
  match pl_room p with Some info => info | None => classify_room placeholder end.
Definition class_known (row : list string) (placeholder : string) (p : Planned) (db : DB) : Prop :=
  ∃ k c, room_known (room_of placeholder p) k db ∧
    select (class_key ci term (row_cell row col "Code") (row_cell row col "Sec") k p) (db_schedules db) = [c].
Lemma class_known_ext row placeholder p db db' :
  ext db db' → class_known row placeholder p db → class_known row placeholder p db'.
Proof.
  intros X (k & c & Hr & Hc). destruct (ex_class _ _ X _ _ _ _ _ Hc) as (c' & Hc' & _).
  exists k, c'. split; [by eapply room_known_ext|done].
Qed.
(** What a row asks to load, and the placeholder for its classes without a room. *)
Definition asked (row : list string) : list Planned * string :=
  if bool_decide (row_cell row col "Schedule" = ""%string) then ([], ""%string)
  else let '(_, plan, placeholder) := plan_row col o row no_stats in (plan, placeholder).
Definition row_known (row : list string) (db : DB) : Prop :=
  (asked row).1 ≠ [] →
  faculty_known (row_cell row col "Instructor") (row_cell row col "Email") db ∧
  ∀ p, p ∈ (asked row).1 → class_known row (asked row).2 p db.
Lemma row_known_ext row db db' :
  told_apart (row_cell row col "Email") → ext db db' → row_known row db → row_known row db'.
Proof.
  intros Hci X H Hne. destruct (H Hne) as [Hf Hc]. split; [by eapply faculty_known_ext|].
  intros p Hp. eapply class_known_ext; [done|by apply Hc].
Qed.
(** The plan of a row does not depend on the counters, and only counts what is skipped. *)
Lemma sort_meetings_stats sec ms st st' real roomless :
  let run st := foldl (sort_meeting o sec) (st, real, roomless) ms in
  (run st).1.2 = (run st').1.2 ∧ (run st).2 = (run st').2 ∧
  st_sections (run st).1.1 = st_sections st ∧ st_schedules (run st).1.1 = st_schedules st.
Proof.
  cbv zeta. revert st st' real roomless. induction ms as [|m ms IH]; intros st st' real roomless; [done|].
  cbn [foldl].
  assert (∃ real' roomless' (f : ImportStats → ImportStats), (∀ s, st_sections (f s) = st_sections s ∧
    st_schedules (f s) = st_schedules s) ∧ ∀ s, sort_meeting o sec (s, real, roomless) m = (f s, real', roomless'))
    as (real' & roomless' & f & Hf & Hm).
  { unfold sort_meeting. destruct (slot_of m) as [sl|].
    - destruct (is_real_room _ _); cbv zeta; [destruct (off_filter _ _)|].
      + by exists real, roomless, (λ s, s <| st_filtered := st_filtered s + 1 |>).
      + by exists (real ++ [(classify_room (mp_room_raw m), sl)]), roomless, id.
      + by exists real, (roomless ++ [sl]), id.
    - by exists real, roomless, (λ s, s <| st_bad_time := st_bad_time s + 1 |>). }
  rewrite !Hm. destruct (IH (f st) (f st') real' roomless') as (H1 & H2 & H3 & H4). destruct (Hf st) as [E1 E2].
  split_and!; congruence.
Qed.
Lemma plan_row_asked row st :
  bool_decide (row_cell row col "Schedule" = ""%string) = false →
  ∃ st', plan_row col o row st = (st', (asked row).1, (asked row).2) ∧
    st_sections st' = st_sections st ∧ st_schedules st' = st_schedules st.
Proof.
  intros Hs. unfold asked. rewrite Hs. unfold plan_row.
  pose proof (sort_meetings_stats (row_cell row col "Sec") (parse_meetings (row_cell row col "Schedule")) st no_stats [] [])
    as (H1 & H2 & H3 & H4).
  destruct (foldl _ (st, [], []) _) as [[st1 real1] rl1], (foldl _ (no_stats, [], []) _) as [[st2 real2] rl2].
  cbn [fst snd] in *. subst real2 rl2. cbv zeta.
  destruct real1; [destruct (filtered o); [|destruct (bool_decide (_ = "online"%string))]|]; eexists;
    (split_and!; [reflexivity|exact H3|exact H4]).
Qed.
Section rows.
Context (tokens : nat → string) (draws : nat → Z).
Notation load_class := (load_class ci tokens draws col term).
Lemma ext_load_class row placeholder u acc p : respects ext (load_class row placeholder u acc p).
Proof.
  destruct acc as [st i]. unfold ImportOfferings.load_class, placeholder_room.
  apply respects_bind; [exact _|destruct (pl_room p); apply ext_room_for|intros [room j]].
  apply respects_bind; [exact _|apply ext_new_class|intros [c b]; apply respects_ret; exact _].
  intros k. unfold class_key. simpl. rewrite !Z.eqb_refl, !(proj2 (same_iff _ _)) by done. done.
Qed.
Lemma load_class_settles row placeholder u acc p db :
  wp (load_class row placeholder u acc p)
    (λ res db', ∀ a, res = inr a → class_known row placeholder p db') db.
Proof.
  assert (∀ (l : list Schedule) db, tbl (set_tbl l db) = l) as T by done.
  destruct acc as [st i]. unfold ImportOfferings.load_class, placeholder_room. cbv zeta.
  apply wp_bind. eapply wp_mono; [|intros res db1 H; exact H].
  assert (∀ m, match pl_room p with Some info => room_for ci tokens draws info i
               | None => room_for ci tokens draws (classify_room placeholder) i end = m →
               m = room_for ci tokens draws (room_of placeholder p) i) as Hm
    by (intros m <-; unfold room_of; by destruct (pl_room p)).
  rewrite (Hm _ eq_refl). eapply wp_mono; [apply room_for_settles|].
  intros [e|[room j]] db1 Hroom; [done|]. cbv beta iota. specialize (Hroom room j eq_refl).
  apply wp_bind, wp_goc; [done| |done|].
  { intros k. unfold class_key. simpl. rewrite !Z.eqb_refl, !(proj2 (same_iff _ _)) by done. done. }
  intros c b Hc. cbv beta iota. apply wp_ret. intros a _. exists (room_pk room), c. split; [|exact Hc].
  eapply room_known_ext; [apply ext_new_class|exact Hroom].
  intros k. unfold class_key. simpl. rewrite !Z.eqb_refl, !(proj2 (same_iff _ _)) by done. done.
Qed.
Lemma load_class_again row placeholder u st i p db :
  class_known row placeholder p db →
  wp (load_class row placeholder u (st, i) p) (λ res db', db' = db ∧
    match res with
    | inr (st', _) => st_schedules st' = st_schedules st ∧ st_sections st' = st_sections st
    | inl e => out_of_codes e
    end) db.
Proof.
  intros (k & c & Hr & Hc). unfold ImportOfferings.load_class, placeholder_room. cbv zeta.
  apply wp_bind. eapply (wp_mono _ (λ res db', db' = db ∧
    match res with inr (room, _) => room_pk room = k | inl e => out_of_codes e end)).
  { unfold room_of in Hr. destruct (pl_room p); by apply room_for_known. }
  intros [e|[room j]] db1 [-> H]; [done|]. cbv beta iota.
  apply wp_bind. eapply wp_known; [rewrite H; exact Hc|]. by apply wp_ret.
Qed.
(** *** Rows *)
Context (Hreal : o_dry_run o = false).
Notation import_row := (import_row ci slugify tokens draws col o term).
Notation import_rows := (import_rows ci slugify tokens draws col o term).
Definition planned (row : list string) : Z := Z.b2z (negb (bool_decide ((asked row).1 = []))).
Lemma ext_load_classes row placeholder u acc plan :
  respects ext (fold_m (load_class row placeholder u) acc plan).
Proof. apply respects_fold_m; [exact _|]. intros; apply ext_load_class. Qed.
Lemma load_class_sections row placeholder u acc p db :
  wp (load_class row placeholder u acc p)
    (λ res _, ∀ st j, res = inr (st, j) → st_sections st = st_sections acc.1) db.
Proof.
  destruct acc as [st i]. unfold ImportOfferings.load_class. cbv zeta.
  apply wp_bind, wp_any. intros [e|[room j]] db1; [done|]. cbv beta iota.
  apply wp_bind, wp_any. intros [e|[c b]] db2; [done|]. cbv beta iota. apply wp_ret.
  intros st' j' [= <- <-]. by destruct b.
Qed.
Lemma load_classes_settle row placeholder u st i plan db :
  wp (fold_m (load_class row placeholder u) (st, i) plan) (λ res db', match res with
    | inr (st', _) => st_sections st' = st_sections st ∧ ∀ p, p ∈ plan → class_known row placeholder p db'
    | inl e => True
    end) db.
Proof.
  eapply wp_mono; [apply (wp_fold_m plan _ _ (λ l acc db', st_sections acc.1 = st_sections st ∧
    ∀ p, p ∈ l → class_known row placeholder p db') (λ _ _, True))|by intros [?|[? ?]] ?].
  - split; [done|]. by intros p ?%not_elem_of_nil.
  - intros l x todo acc db1 _ [Hs Hk].
    eapply wp_mono; [apply wp_and; [apply load_class_settles|apply wp_and; [apply load_class_sections|
      apply (wp_of_respects ext), ext_load_class]]|].
    intros [e|[st' j]] db2 (Hx & Hsec & X); [done|]. split; [cbn; rewrite (Hsec _ _ eq_refl); exact Hs|].
    intros p [Hp| ->%list_elem_of_singleton]%elem_of_app; [|by eapply Hx].
    eapply class_known_ext; [exact X|by apply Hk].
Qed.
Lemma load_classes_again row placeholder u st i plan db :
  (∀ p, p ∈ plan → class_known row placeholder p db) →
  wp (fold_m (load_class row placeholder u) (st, i) plan) (λ res db', db' = db ∧ match res with
    | inr (st', _) => st_schedules st' = st_schedules st ∧ st_sections st' = st_sections st
    | inl e => out_of_codes e
    end) db.
Proof.
  intros Hk.
  eapply wp_mono; [apply (wp_fold_m plan _ _ (λ l acc db', db' = db ∧ st_schedules acc.1 = st_schedules st ∧
    st_sections acc.1 = st_sections st) (λ e db', db' = db ∧ out_of_codes e))|by intros [?|[? ?]] ?].
  - done.
  - intros l x todo [st1 i1] db1 -> (-> & H1 & H2). eapply wp_mono; [apply load_class_again, Hk|].
    { apply elem_of_app. right. by left. }
    intros [e|[st' j]] db2 [-> H]; [done|]. destruct H as [H3 H4]. cbn in *. split_and!; [done|congruence..].
Qed.
Lemma import_row_settles s row db :
  told_apart (row_cell row col "Email") → cache_known (rs_names s) db →
  wp (import_row s row) (λ res db', ∀ s', res = inr s' →
    ext db db' ∧ row_known row db' ∧ cache_known (rs_names s') db' ∧
    st_sections (rs_stats s') = st_sections (rs_stats s) + planned row) db.
Proof.
  intros Hci Hcache. destruct s as [st names i]. unfold ImportOfferings.import_row, row_known, planned.
  destruct (bool_decide (row_cell row col "Schedule" = ""%string)) eqn:Hs.
  { apply wp_ret. intros s' [= <-]. unfold asked. rewrite Hs. simpl. split_and!; [done|done|done|lia]. }
  destruct (plan_row_asked row st Hs) as (st' & -> & E1 & E2). destruct (asked row) as [plan placeholder].
  cbn [fst snd] in *. destruct plan as [|p0 plan0]; [apply wp_ret; intros s' [= <-]; simpl; split_and!; [done..|lia]|].
  set (plan := p0 :: plan0). rewrite Hreal. cbv zeta.
  apply wp_bind. eapply wp_mono; [apply wp_and; [by apply faculty_settles|apply (wp_of_respects ext), ext_faculty]|].
  intros [e|[u names']] db1 [Hf X1]; [done|]. cbv beta iota. destruct (Hf u names' eq_refl) as [Hfk Hcache'].
  apply wp_bind. eapply wp_mono; [apply wp_and; [apply load_classes_settle|apply (wp_of_respects ext), ext_load_classes]|].
  intros [e|[st2 j]] db2 [Hload X2]; [done|]. cbv beta iota. apply wp_ret. intros s' [= <-]. cbn [rs_stats rs_names].
  destruct Hload as [Hsec Hcl]. split_and!.
  - by transitivity db1.
  - intros _. split; [by eapply faculty_known_ext|done].
  - by eapply cache_known_ext.
  - rewrite Hsec. cbn [fst st_sections upd setter]. change (bool_decide (plan = [])) with false. simpl. lia.
Qed.
Lemma import_row_again s row db :
  row_known row db →
  wp (import_row s row) (λ res db', db' = db ∧
    match res with
    | inr s' => st_schedules (rs_stats s') = st_schedules (rs_stats s) ∧
        st_sections (rs_stats s') = st_sections (rs_stats s) + planned row
    | inl e => out_of_codes e
    end) db.
Proof.
  intros Hrow. destruct s as [st names i]. unfold ImportOfferings.import_row, row_known, planned in *.
  destruct (bool_decide (row_cell row col "Schedule" = ""%string)) eqn:Hs.
  { apply wp_ret. unfold asked. rewrite Hs. simpl. split_and!; [done|done|lia]. }
  destruct (plan_row_asked row st Hs) as (st' & -> & E1 & E2). destruct (asked row) as [plan placeholder].
  cbn [fst snd] in *. destruct plan as [|p0 plan0]; [apply wp_ret; simpl; split_and!; [done..|lia]|].
  destruct (Hrow ltac:(done)) as [Hf Hc]. set (plan := p0 :: plan0) in *. rewrite Hreal. cbv zeta.
  destruct (faculty_again _ _ names db Hf) as (u & c & Hu).
  apply wp_bind. eapply wp_of_eq; [exact Hu|]. cbv beta iota.
  apply wp_bind. eapply wp_mono; [by apply load_classes_again|].
  intros [e|[st2 j]] db2 [-> H]; [done|]. cbv beta iota. apply wp_ret. cbn [rs_stats].
  destruct H as [H1 H2]. split_and!; [done|rewrite H1; exact E2|].
  rewrite H2. cbn [st_sections upd setter]. change (bool_decide (plan = [])) with false. simpl. lia.
Qed.

(** The rows a loading visits: all of them, or until the limit of sections is reached. *)
Fixpoint visited (rows : list (list string)) (n : Z) : list (list string) :=
  match rows with
  | [] => []
  | row :: rows' =>
      if negb (o_limit o =? 0) && (o_limit o <=? n) then [] else row :: visited rows' (n + planned row)
  end.
Lemma import_rows_settle rows s db :
  (∀ row, row ∈ rows → told_apart (row_cell row col "Email")) → cache_known (rs_names s) db →
  wp (import_rows rows s) (λ res db', ∀ s', res = inr s' →
    ext db db' ∧ ∀ row, row ∈ visited rows (st_sections (rs_stats s)) → row_known row db') db.
Proof.
  revert s db. induction rows as [|row rows IH]; intros s db Hci Hcache; cbn [ImportOfferings.import_rows visited].
  { apply wp_ret. intros s' [= <-]. split; [done|]. by intros row ?%not_elem_of_nil. }
  destruct (negb _ && _); [apply wp_ret; intros s' [= <-]; split; [done|]; by intros r ?%not_elem_of_nil|].
  apply wp_bind. eapply wp_mono; [apply import_row_settles; [apply Hci; by left|done]|].
  intros [e|s1] db1 H1; [done|]. cbv beta iota. destruct (H1 s1 eq_refl) as (X1 & Hrow & Hcache1 & Hsec).
  eapply wp_mono; [apply IH; [intros r Hr; apply Hci; by right|done]|].
  intros res db2 H2 s' ->. destruct (H2 s' eq_refl) as [X2 Hrows]. split; [by transitivity db1|].
  rewrite <- Hsec. intros r [->|Hr]%elem_of_cons; [|by apply Hrows].
  eapply row_known_ext; [apply Hci; by left|exact X2|exact Hrow].
Qed.
Lemma import_rows_again rows s db :
  (∀ row, row ∈ visited rows (st_sections (rs_stats s)) → row_known row db) →
  wp (import_rows rows s) (λ res db', db' = db ∧ match res with
    | inr s' => st_schedules (rs_stats s') = st_schedules (rs_stats s)
    | inl e => out_of_codes e
    end) db.
Proof.
  revert s. induction rows as [|row rows IH]; intros s H; cbn [ImportOfferings.import_rows visited] in *;
    [by apply wp_ret|].
  destruct (negb _ && _); [by apply wp_ret|].
  apply wp_bind. eapply wp_mono; [apply import_row_again, H; by left|].
  intros [e|s1] db1 [-> H1]; [done|]. cbv beta iota. destruct H1 as [E1 E2].
  eapply wp_mono; [apply IH; rewrite E2; intros r Hr; apply H; by right|].
  intros [e|s2] db2 [-> H2]; [done|]. split; [done|congruence].
Qed.
End rows.
End sheet.
End loading.

(** C34: loading the same sheet twice loads it once.  After a run that succeeded, every
    run of the same rows with the same options, whatever the random generator draws,
    leaves the database as it is and creates no class; it can only fail for want of a
    free room code, which it draws for every class although no room is new. *)
Theorem import_again_writes_nothing ci slugify tokens draws tokens' draws' col o term rows i i' s db db' :
  (∀ row, row ∈ rows → told_apart ci (row_cell row col "Email")) → o_dry_run o = false →
  run ci slugify tokens draws col o term rows i db = (inr s, db') →
  (∃ s', run ci slugify tokens' draws' col o term rows i' db' = (inr s', db') ∧
     st_schedules (rs_stats s') = 0) ∨
  (∃ msg, run ci slugify tokens' draws' col o term rows i' db' = (inl (ManualCodeExhausted msg), db')).
Proof.
  intros Hci Hreal. unfold run, atomic.
  pose proof (import_rows_settle ci slugify term col o tokens draws Hreal rows (mk_run no_stats [] i) db Hci
    ltac:(done)) as H1. unfold wp in H1.
  destruct (import_rows ci slugify tokens draws _ _ _ rows _ db) as [[e|s1] db1]; [done|].
  intros [= -> ->]. destruct (H1 s eq_refl) as [_ Hk].
  pose proof (import_rows_again ci slugify term col o tokens' draws' Hreal rows (mk_run no_stats [] i') db' Hk) as H2.
  unfold wp in H2. destruct (import_rows ci slugify tokens' draws' _ _ _ rows _ db') as [[e|s2] db2];
    cbn [fst snd] in H2; destruct H2 as [-> H2].
  - right. destruct H2 as [m ->]. by eexists.
  - left. by exists s2.
Qed.

(** ** The counters of a run and the reconciliation of the sheet *)
Section tally.
Context (ci slugify : string → string) (tokens : nat → string) (draws : nat → Z).
Context (col : dict string nat) (o : Options) (term : AcademicTerm).
Context (Hall : filtered o = false).
Implicit Types (row : list string) (st : ImportStats).

Lemma slot_valid m : is_some (slot_of m) = valid_slot m.
Proof.
  unfold slot_of, valid_slot. destruct (mp_day m); [|done]. destruct (mp_start m); [|done].
  destruct (mp_end m); [|done]. by destruct (_ =? _).
Qed.
Lemma not_off info : off_filter o info = false.
Proof using Hall.
  unfold filtered in Hall. apply orb_false_iff in Hall as [H1 H2]. unfold off_filter. rewrite H1.
  by destruct (o_floor o).
Qed.
(** What the counters of a row never change. *)
Definition same_counts (st st' : ImportStats) : Prop :=
  st_sections st' = st_sections st ∧ st_schedules st' = st_schedules st ∧
  st_no_schedule st' = st_no_schedule st ∧ st_filtered st' = st_filtered st ∧
  st_tba st' = st_tba st ∧ st_online st' = st_online st.
Lemma sort_meetings_real sec ms st real roomless :
  let r := foldl (sort_meeting o sec) (st, real, roomless) ms in
  same_counts st r.1.1 ∧
  length r.1.2 = (length real + length (select (λ m, valid_slot m && is_real_room (mp_room_raw m) sec) ms))%nat.
Proof using Hall.
  cbv zeta. revert st real roomless. induction ms as [|m ms IH]; intros st real roomless; [by split; [|simpl; lia]|].
  cbn [foldl]. rewrite select_cons, <- slot_valid. unfold sort_meeting at 2 4.
  destruct (slot_of m) as [sl|]; cbn [is_some andb].
  - destruct (is_real_room _ sec); cbv zeta; [rewrite not_off|].
    + destruct (IH st (real ++ [(classify_room (mp_room_raw m), sl)]) roomless) as [H1 H2].
      split; [done|]. rewrite H2, length_app. simpl. lia.
    + apply IH.
  - destruct (IH (st <| st_bad_time := st_bad_time st + 1 |>) real roomless) as [H1 H2].
    split; [exact H1|exact H2].
Qed.
Lemma row_cell_strip row name : PyStr.strip (row_cell row col name) = row_cell row col name.
Proof. unfold row_cell. destruct (dict_get _ _); [apply PyStr.strip_strip|done]. Qed.
(** The plan of a row puts it in the class the reconciliation puts it in. *)
Lemma plan_row_counts row st :
  blank_row col row = false →
  let r := (plan_row col o row st).1.1 in
  st_sections r = st_sections st ∧ st_schedules r = st_schedules st ∧
  st_no_schedule r = st_no_schedule st ∧ st_filtered r = st_filtered st ∧
  st_tba r = st_tba st + Z.b2z (roomless_row col row) ∧ st_online r = st_online st + Z.b2z (online_row col row).
Proof using Hall.
  intros Hb. cbv zeta. unfold plan_row, roomless_row, online_row, intact_row. rewrite Hb. cbn [negb andb].
  pose proof (sort_meetings_real (row_cell row col "Sec") (parse_meetings (row_cell row col "Schedule")) st [] [])
    as [(E1 & E2 & E3 & E4 & E5 & E6) Hlen].
  unfold real_meetings, row_schedule, row_mode. destruct (foldl _ _ _) as [[st1 real] rl]. cbn [fst snd] in *.
  destruct real as [|r0 real], (select _ _) as [|m0 ms]; try done.
  - rewrite Hall, row_cell_strip. destruct (bool_decide _); cbn; rewrite ?E1, ?E2, ?E3, ?E4, ?E5, ?E6; split_and!; lia.
  - cbn. rewrite E1, E2, E3, E4, E5, E6. split_and!; lia.
Qed.
Notation asked := (asked col o).
Notation planned := (planned col o).
(** The counters the loading of a class leaves alone. *)
Definition row_counts (st : ImportStats) : Z * Z * Z * Z * Z :=
  (st_sections st, st_no_schedule st, st_filtered st, st_tba st, st_online st).
Lemma load_class_counts row placeholder u acc p db :
  wp (load_class ci tokens draws col term row placeholder u acc p)
    (λ res _, ∀ st j, res = inr (st, j) → row_counts st = row_counts acc.1) db.
Proof using Type.
  destruct acc as [st i]. unfold load_class. cbv zeta.
  apply wp_bind, wp_any. intros [e|[room j]] db1; [done|]. cbv beta iota.
  apply wp_bind, wp_any. intros [e|[c b]] db2; [done|]. cbv beta iota. apply wp_ret.
  intros st' j' [= <- <-]. by destruct b.
Qed.
Lemma load_classes_counts row placeholder u st i plan db :
  wp (fold_m (load_class ci tokens draws col term row placeholder u) (st, i) plan)
    (λ res _, match res with inr (st', _) => row_counts st' = row_counts st | inl _ => True end) db.
Proof using Type.
  eapply wp_mono; [apply (wp_fold_m plan _ _ (λ _ acc _, row_counts acc.1 = row_counts st) (λ _ _, True))|by intros [?|[? ?]] ?].
  - done.
  - intros l x todo acc db1 _ Hs. eapply wp_mono; [apply load_class_counts|].
    intros [e|[st' j]] db2 H; [done|]. exact (eq_trans (H _ _ eq_refl) Hs).
Qed.
Lemma import_row_counts s row db :
  wp (import_row ci slugify tokens draws col o term s row) (λ res db', ∀ s', res = inr s' →
    let st := rs_stats s in let st' := rs_stats s' in
    st_no_schedule st' = st_no_schedule st + Z.b2z (blank_row col row) ∧
    st_filtered st' = st_filtered st ∧ st_tba st' = st_tba st + Z.b2z (roomless_row col row) ∧
    st_online st' = st_online st + Z.b2z (online_row col row) ∧
    st_sections st' = st_sections st + planned row ∧
    (o_dry_run o = true → db' = db ∧ st_schedules st' = st_schedules st + Z.of_nat (length (asked row).1))) db.
Proof using Hall.
  destruct s as [st names i]. unfold import_row, ImportOfferings.planned.
  change (bool_decide (row_cell row col "Schedule" = ""%string)) with (blank_row col row).
  destruct (blank_row col row) eqn:Hs.
  { apply wp_ret. intros s' [= <-]. unfold ImportOfferings.asked, roomless_row, online_row.
    change (bool_decide (row_cell row col "Schedule" = ""%string)) with (blank_row col row). rewrite Hs. simpl.
    split_and!; try lia. intros _. split; [done|lia]. }
  destruct (plan_row_asked col o row st Hs) as (st' & Hp & _). pose proof (plan_row_counts row st Hs) as Hc.
  cbv zeta in Hc. rewrite Hp in Hc |- *. cbn [fst] in Hc. destruct Hc as (E1 & E2 & E3 & E4 & E5 & E6).
  destruct (asked row) as [plan placeholder]. cbn [fst snd] in *.
  destruct plan as [|p0 plan0].
  { apply wp_ret. intros s' [= <-]. simpl. split_and!; try lia. intros _. split; [done|lia]. }
  set (plan := p0 :: plan0). change (bool_decide (plan = [])) with false. cbv zeta. destruct (o_dry_run o).
  - apply wp_ret. intros s' [= <-]. cbn -[plan]. split_and!; try lia. intros _. split; [done|lia].
  - apply wp_bind, wp_any. intros [e|[u names']] db1; [done|]. cbv beta iota.
    apply wp_bind. eapply wp_mono; [apply load_classes_counts|]. intros [e|[st2 j]] db2 H; [done|]. cbv beta iota.
    apply wp_ret. intros s' [= <-]. cbn [rs_stats]. injection H as H1 H2 H3 H4 H5.
    rewrite H1, H2, H3, H4, H5. cbn. split_and!; try lia; done.
Qed.
Lemma import_rows_counts rows s db :
  o_limit o = 0 →
  wp (import_rows ci slugify tokens draws col o term rows s) (λ res db', ∀ s', res = inr s' →
    let st := rs_stats s in let st' := rs_stats s' in
    st_no_schedule st' = st_no_schedule st + zsum (Z.b2z ∘ blank_row col <$> rows) ∧
    st_filtered st' = st_filtered st ∧
    st_tba st' = st_tba st + zsum (Z.b2z ∘ roomless_row col <$> rows) ∧
    st_online st' = st_online st + zsum (Z.b2z ∘ online_row col <$> rows) ∧
    st_sections st' = st_sections st + zsum (planned <$> rows) ∧
    (o_dry_run o = true → db' = db ∧
       st_schedules st' = st_schedules st + zsum ((λ row, Z.of_nat (length (asked row).1)) <$> rows))) db.
Proof using Hall.
  intros Hlim. revert s db. induction rows as [|row rows IH]; intros s db; cbn [ImportOfferings.import_rows].
  { apply wp_ret. intros s' [= <-]. simpl. split_and!; try lia. intros _. split; [done|lia]. }
  rewrite Hlim. cbn [Z.eqb negb andb]. apply wp_bind. eapply wp_mono; [apply import_row_counts|].
  intros [e|s1] db1 H1; [done|]. cbv beta iota. specialize (H1 s1 eq_refl) as (A1 & A2 & A3 & A4 & A5 & A6).
  eapply wp_mono; [apply IH|]. intros res db2 H2 s' ->. specialize (H2 s' eq_refl) as (B1 & B2 & B3 & B4 & B5 & B6).
  rewrite !fmap_cons, !zsum_cons. unfold compose in *. cbv zeta.
  split_and!; try lia. intros Hd. destruct (A6 Hd) as [-> C1], (B6 Hd) as [-> C2]. split; [done|lia].
Qed.
End tally.

(** The loading counts every row of an unfiltered sheet in the class the
    reconciliation puts it in: the rows without schedule text, those that go to the
    placeholder room and the online ones without a room are the same figures, no row is
    filtered, and the sections loaded are the rows that ask for at least one class.  A
    dry run counts the same and leaves the database as it is. *)
Theorem import_counts_reconcile ci slugify tokens draws col o term rows i s db db' :
  filtered o = false → o_limit o = 0 →
  run ci slugify tokens draws col o term rows i db = (inr s, db') →
  let st := rs_stats s in let rc := reconcile col rows in
  st_no_schedule st = no_schedule rc ∧ st_tba st = roomless_tba_rows rc ∧
  st_online st = online_no_room_rows rc ∧ st_filtered st = 0 ∧
  st_sections st = count_rows (λ row, negb (bool_decide ((asked col o row).1 = []))) rows ∧
  (o_dry_run o = true → db' = db ∧
     st_schedules st = zsum ((λ row, Z.of_nat (length (asked col o row).1)) <$> rows)).
Proof.
  intros Hall Hlim Hrun. cbv zeta. unfold run, atomic in Hrun.
  pose proof (import_rows_counts ci slugify tokens draws col o term Hall rows (mk_run no_stats [] i) db Hlim) as H.
  unfold wp in H. destruct (import_rows _ _ _ _ _ _ _ _ _ db) as [[e|s1] db1]; [done|]. injection Hrun as -> ->.
  destruct (H s eq_refl) as (H1 & H2 & H3 & H4 & H5 & H6).
  destruct (reconcile_counts col rows) as (R1 & _ & R3 & R4 & _). rewrite R1, R3, R4.
  unfold count_rows. split_and!; [by rewrite H1, <- zsum_count|by rewrite H3, <- zsum_count|
    by rewrite H4, <- zsum_count|exact H2|by rewrite H5, <- zsum_count|exact H6].
Qed.

(** ** Witness: a sheet of three rows, loaded and loaded again *)
Definition demo_header : list string :=
  ["Code"; "Sec"; "Schedule"; "Mode"; "Instructor"; "Email"; "Enrolled"]%string.
Definition demo_sheet : list (list string) :=
  [["CS101"; "B"; "M [1:00PM-2:30PM] R201"; "F2F"; "DELA CRUZ, JUAN"; "jdc@example.edu"; "35"];
   ["CS102"; "A"; "T [8:00AM-9:00AM]"; "ONLINE"; "REYES, ANA M."; ""; "20"];
   ["CS103"; "A"; ""; "F2F"; ""; ""; ""]]%string.
Definition demo_options (dry : bool) : Options :=
  {| o_building := ""; o_floor := None; o_limit := 0; o_dry_run := dry |}.
Definition demo_load (dry : bool) (i : nat) : M RunState :=
  run PyStr.lower PyStr.lower (λ i, PyStr.str (Z.of_nat i)) (λ i, Z.of_nat i + 5) (header_cols demo_header)
    (demo_options dry) demo_term demo_sheet i.
Definition loads (dry : bool) (i : nat) (db : DB) (n : Z) : bool :=
  match (demo_load dry i db).1 with inr s => st_schedules (rs_stats s) =? n | inl _ => false end.
Lemma demo_told_apart row :
  row ∈ demo_sheet → told_apart PyStr.lower (row_cell row (header_cols demo_header) "Email").
Proof. intros H. each_row H; apply (bool_decide_unpack _); by vm_compute. Qed.
Lemma import_again_writes_nothing_witness :
  loads false 0 demo_db 2 = true ∧
  let db' := exec (demo_load false 0) demo_db in
  (∃ s', demo_load false 7 db' = (inr s', db') ∧ st_schedules (rs_stats s') = 0) ∨
  (∃ msg, demo_load false 7 db' = (inl (ManualCodeExhausted msg), db')).
Proof.
  assert (loads false 0 demo_db 2 = true) as H by (vm_compute; reflexivity). split; [exact H|].
  unfold loads, exec in *. destruct (demo_load false 0 demo_db) as [[e|s] db'] eqn:E; [discriminate H|].
  exact (import_again_writes_nothing PyStr.lower PyStr.lower _ _ _ _ _ (demo_options false) _ _ 0 7 s demo_db db'
    demo_told_apart eq_refl E).
Defined.
Lemma import_counts_reconcile_witness :
  loads true 0 demo_db 2 = true ∧
  ∃ s, demo_load true 0 demo_db = (inr s, demo_db) ∧ st_online (rs_stats s) = 1 ∧ st_no_schedule (rs_stats s) = 1.
Proof.
  assert (loads true 0 demo_db 2 = true) as H by (vm_compute; reflexivity). split; [exact H|].
  unfold loads in *. destruct (demo_load true 0 demo_db) as [[e|s] db'] eqn:E; [discriminate H|].
  destruct (import_counts_reconcile PyStr.lower PyStr.lower _ _ _ (demo_options true) _ _ 0 s demo_db db' eq_refl eq_refl E)
    as (H1 & _ & H3 & _ & _ & H6).
  destruct (H6 eq_refl) as [-> _]. exists s. split_and!; [done|rewrite H3|rewrite H1]; vm_compute; reflexivity.
Defined.
