(* ===== verification/Resolvers.v ===== *)
(** The pure decision cores: scheduling/resolver.py ([FacultyScan]) and
    verification/resolver.py ([CheckerScan], on-duty windows and the online
    round-robin).  They read their arguments and the schedule rows of [db], and
    write nothing. *)
From S2P Require Import Prelude Python Model Effects Ops.
Open Scope Z_scope.

(** ** scheduling/resolver.py *)
Module FacultyScan.
Inductive Outcome :=
  | CHECKED_IN | CHECKED_OUT | MARK_ABSENT | TOO_EARLY | WRONG_ROOM
  | ROOM_OCCUPIED | EARLY_END | ONLINE_REJECT | NO_SCHEDULE.
#[global] Instance Outcome_eq_dec : EqDecision Outcome.
Proof. solve_decision. Defined.
Definition outcome_str (o : Outcome) : string :=
  match o with
  | CHECKED_IN => "checked-in" | CHECKED_OUT => "checked-out" | MARK_ABSENT => "absent"
  | TOO_EARLY => "too-early" | WRONG_ROOM => "wrong-room"
  | ROOM_OCCUPIED => "room-occupied" | EARLY_END => "early-end"
  | ONLINE_REJECT => "online-reject" | NO_SCHEDULE => "no-schedule"
  end%string.

Definition CONFIRM_OUTCOMES : list Outcome := [WRONG_ROOM; ROOM_OCCUPIED; EARLY_END].

Record Resolution := mk_resolution {
  outcome : Outcome;
  session_id : option Z;
  prior_session_id : option Z
}.
Definition needs_confirm (r : Resolution) : bool :=
  bool_decide (outcome r ∈ CONFIRM_OUTCOMES).

(** The one no-show predicate, strict: false at exactly start + grace. *)
Definition is_no_show_past_grace (scheduled_start now grace_min : Z) : bool :=
  scheduled_start + PyTime.minutes grace_min <? now.

Section resolve.
Context (db : DB) (sessions_today : list Session) (scanned_room_id : Z).
Context (occupying_session_id : option Z) (now grace_min early_end_min open_min : Z).
Let early_end := PyTime.minutes early_end_min.
Let open_lead := PyTime.minutes open_min.

Definition in_window (s : Session) : bool :=
  has_status SCHEDULED s
  && ((ses_sched_start s - open_lead <=? now) && (now <=? ses_sched_end s)).
Definition in_room (s : Session) : bool := ses_room s =? scanned_room_id.
Definition upcoming_here (s : Session) : bool :=
  has_status SCHEDULED s && in_room s && (now <? ses_sched_start s - open_lead).

(** The first window session of the scanned room, else the first one. *)
Definition pick_candidate : option Session :=
  let window_candidates := select in_window sessions_today in
  match List.find in_room window_candidates with
  | Some s => Some s
  | None => head window_candidates
  end.

Definition resolve_candidate (c : Session) : Resolution :=
  if bool_decide (effective_modality db c = Some ONLINE) then
    mk_resolution ONLINE_REJECT (Some (ses_pk c)) None
  else if negb (in_room c) then mk_resolution WRONG_ROOM (Some (ses_pk c)) None
  else if is_no_show_past_grace (ses_sched_start c) now grace_min then
    mk_resolution MARK_ABSENT (Some (ses_pk c)) None
  else match occupying_session_id with
       | Some o => mk_resolution ROOM_OCCUPIED (Some (ses_pk c)) (Some o)
       | None => mk_resolution CHECKED_IN (Some (ses_pk c)) None
       end.

Definition resolve_faculty_scan : Resolution :=
  match List.find (has_status ACTIVE) sessions_today with
  | Some s =>
      if in_room s then
        if now <? ses_sched_end s - early_end
        then mk_resolution EARLY_END (Some (ses_pk s)) None
        else mk_resolution CHECKED_OUT (Some (ses_pk s)) None
      else mk_resolution WRONG_ROOM (Some (ses_pk s)) None
  | None =>
      match pick_candidate with
      | None =>
          match List.find upcoming_here sessions_today with
          | Some s => mk_resolution TOO_EARLY (Some (ses_pk s)) None
          | None => mk_resolution NO_SCHEDULE None None
          end
      | Some c => resolve_candidate c
      end
  end.

(** *** Specification

    [first_in p s]: [s] is the first session of the day satisfying [p]. *)
Definition first_in (p : Session → Prop) (s : Session) : Prop :=
  ∃ l1 l2, sessions_today = l1 ++ s :: l2 ∧ p s ∧ ∀ x, x ∈ l1 → ¬ p x.
Definition none_in (p : Session → Prop) : Prop := ∀ x, x ∈ sessions_today → ¬ p x.

Definition is_active (s : Session) : Prop := ses_status s = ACTIVE.
Definition window_open (s : Session) : Prop :=
  ses_status s = SCHEDULED ∧ ses_sched_start s - open_lead ≤ now ≤ ses_sched_end s.
Definition here (s : Session) : Prop := ses_room s = scanned_room_id.
Definition open_here (s : Session) : Prop := window_open s ∧ here s.
Definition not_yet_open (s : Session) : Prop :=
  ses_status s = SCHEDULED ∧ here s ∧ now < ses_sched_start s - open_lead.
(** The class the scan is about when nothing is running. *)
Definition candidate_is (c : Session) : Prop :=
  first_in open_here c ∨ (none_in open_here ∧ first_in window_open c).
Definition past_grace (s : Session) : Prop :=
  ses_sched_start s + PyTime.minutes grace_min < now.
Definition online (s : Session) : Prop := effective_modality db s = Some ONLINE.

(** What each scan outcome means. *)
Inductive scan_spec : Resolution → Prop :=
  | spec_early_end s :
      first_in is_active s → here s → now < ses_sched_end s - early_end →
      scan_spec (mk_resolution EARLY_END (Some (ses_pk s)) None)
  | spec_checked_out s :
      first_in is_active s → here s → ses_sched_end s - early_end ≤ now →
      scan_spec (mk_resolution CHECKED_OUT (Some (ses_pk s)) None)
  | spec_active_elsewhere s :
      first_in is_active s → ¬ here s →
      scan_spec (mk_resolution WRONG_ROOM (Some (ses_pk s)) None)
  | spec_online_reject c :
      none_in is_active → candidate_is c → online c →
      scan_spec (mk_resolution ONLINE_REJECT (Some (ses_pk c)) None)
  | spec_wrong_room c :
      none_in is_active → candidate_is c → ¬ online c → ¬ here c →
      scan_spec (mk_resolution WRONG_ROOM (Some (ses_pk c)) None)
  | spec_absent c :
      none_in is_active → candidate_is c → ¬ online c → here c → past_grace c →
      scan_spec (mk_resolution MARK_ABSENT (Some (ses_pk c)) None)
  | spec_room_occupied c o :
      none_in is_active → candidate_is c → ¬ online c → here c → ¬ past_grace c →
      occupying_session_id = Some o →
      scan_spec (mk_resolution ROOM_OCCUPIED (Some (ses_pk c)) (Some o))
  | spec_checked_in c :
      none_in is_active → candidate_is c → ¬ online c → here c → ¬ past_grace c →
      occupying_session_id = None →
      scan_spec (mk_resolution CHECKED_IN (Some (ses_pk c)) None)
  | spec_too_early s :
      none_in is_active → none_in window_open → first_in not_yet_open s →
      scan_spec (mk_resolution TOO_EARLY (Some (ses_pk s)) None)
  | spec_no_schedule :
      none_in is_active → none_in window_open → none_in not_yet_open →
      scan_spec (mk_resolution NO_SCHEDULE None None).

(** *** Boolean searches meet the specification *)
Lemma find_first_in (b : Session → bool) (p : Session → Prop) s :
  (∀ x, b x = true ↔ p x) → List.find b sessions_today = Some s → first_in p s.
Proof.
  intros Hbp. unfold first_in. generalize sessions_today. intros l.
  induction l as [|x l IH]; simpl; [done|]. destruct (b x) eqn:E; intros ?; simplify_eq.
  - exists [], l. split; [done|]. split; [by apply Hbp|]. by intros y Hy%not_elem_of_nil.
  - destruct IH as (l1 & l2 & -> & Hs & Hl1); [done|].
    exists (x :: l1), l2. do 2 (split; [done|]).
    intros y [->|Hy]%elem_of_cons; [|auto]. rewrite <- Hbp. congruence.
Qed.
Lemma find_none_in (b : Session → bool) (p : Session → Prop) :
  (∀ x, b x = true ↔ p x) → List.find b sessions_today = None → none_in p.
Proof.
  intros Hbp H x Hx. rewrite <- Hbp. rewrite (proj1 (find_elem_None b _) H x Hx). done.
Qed.
Lemma first_in_find (b : Session → bool) (p : Session → Prop) s :
  (∀ x, b x = true ↔ p x) → first_in p s → List.find b sessions_today = Some s.
Proof.
  intros Hbp (l1 & l2 & -> & Hs & Hl1). induction l1 as [|x l1 IH]; simpl.
  - by rewrite (proj2 (Hbp s) Hs).
  - destruct (b x) eqn:E; [|apply IH; intros y Hy; apply Hl1; by right].
    apply Hbp in E. by destruct (Hl1 x ltac:(left)).
Qed.
Lemma none_in_find (b : Session → bool) (p : Session → Prop) :
  (∀ x, b x = true ↔ p x) → none_in p → List.find b sessions_today = None.
Proof.
  intros Hbp H. apply find_elem_None. intros x Hx. apply not_true_is_false.
  rewrite Hbp. auto.
Qed.

Lemma has_status_iff st s : has_status st s = true ↔ ses_status s = st.
Proof. unfold has_status. by b2p. Qed.
Lemma in_room_iff s : in_room s = true ↔ here s.
Proof. unfold in_room, here. by b2p. Qed.
Lemma in_window_iff s : in_window s = true ↔ window_open s.
Proof. unfold in_window, window_open, has_status. b2p. tauto. Qed.
Lemma open_here_iff s : in_window s && in_room s = true ↔ open_here s.
Proof. unfold open_here. rewrite andb_true_iff, in_window_iff, in_room_iff. done. Qed.
Lemma upcoming_iff s : upcoming_here s = true ↔ not_yet_open s.
Proof. unfold upcoming_here, not_yet_open, has_status. b2p. rewrite in_room_iff. tauto. Qed.

Lemma find_select_here :
  List.find in_room (select in_window sessions_today) =
  List.find (λ s, in_window s && in_room s) sessions_today.
Proof. by rewrite !find_select, select_select. Qed.

Lemma pick_candidate_Some c : pick_candidate = Some c ↔ candidate_is c.
Proof.
  unfold pick_candidate, candidate_is. cbv zeta. rewrite find_select_here, <- find_select.
  destruct (List.find (λ s, in_window s && in_room s) sessions_today) as [s|] eqn:E.
  - pose proof (find_first_in _ _ _ open_here_iff E) as Hs. split.
    + intros [= ->]. by left.
    + intros [Hc|[Hn _]].
      * apply (first_in_find _ _ _ open_here_iff) in Hc. congruence.
      * destruct Hs as (l1 & l2 & Heq & Hp & _). destruct (Hn s); [|done].
        rewrite Heq. set_solver.
  - pose proof (find_none_in _ _ open_here_iff E) as Hn. split.
    + intros Hc. right. split; [done|]. exact (find_first_in _ _ _ in_window_iff Hc).
    + intros [Hc|[_ Hc]]; [|exact (first_in_find _ _ _ in_window_iff Hc)].
      apply (first_in_find _ _ _ open_here_iff) in Hc. congruence.
Qed.
Lemma pick_candidate_None : pick_candidate = None ↔ none_in window_open.
Proof.
  unfold pick_candidate. cbv zeta. rewrite find_select_here, <- find_select. split.
  - destruct (List.find (λ s, in_window s && in_room s) _) eqn:E; [done|].
    intros H. exact (find_none_in _ _ in_window_iff H).
  - intros H. rewrite (none_in_find _ _ in_window_iff H).
    rewrite (none_in_find (λ s, in_window s && in_room s) open_here); [done| |].
    + apply open_here_iff.
    + intros x Hx [Hw _]. by apply (H x).
Qed.

Lemma resolve_candidate_spec c :
  none_in is_active → candidate_is c → scan_spec (resolve_candidate c).
Proof.
  intros Ha Hc. unfold resolve_candidate, is_no_show_past_grace.
  case_bool_decide; [by apply spec_online_reject|].
  destruct (in_room c) eqn:Er; simpl.
  - apply in_room_iff in Er.
    destruct (Z.ltb_spec (ses_sched_start c + PyTime.minutes grace_min) now).
    + by apply spec_absent.
    + destruct occupying_session_id eqn:Eo.
      * apply spec_room_occupied; try done. unfold past_grace; lia.
      * apply spec_checked_in; try done. unfold past_grace; lia.
  - apply spec_wrong_room; try done. rewrite <- in_room_iff. congruence.
Qed.

Lemma resolve_sound : scan_spec resolve_faculty_scan.
Proof.
  unfold resolve_faculty_scan.
  destruct (List.find (has_status ACTIVE) sessions_today) as [s|] eqn:Ea.
  - apply (find_first_in _ is_active _ (has_status_iff ACTIVE)) in Ea.
    destruct (in_room s) eqn:Er.
    + apply in_room_iff in Er. destruct (Z.ltb_spec now (ses_sched_end s - early_end)).
      * by apply spec_early_end.
      * by apply spec_checked_out.
    + apply spec_active_elsewhere; [done|]. rewrite <- in_room_iff. congruence.
  - apply (find_none_in _ is_active (has_status_iff ACTIVE)) in Ea.
    destruct pick_candidate as [c|] eqn:Ep.
    + apply resolve_candidate_spec; [done|]. by apply pick_candidate_Some.
    + apply pick_candidate_None in Ep.
      destruct (List.find upcoming_here sessions_today) as [s|] eqn:Eu.
      * apply spec_too_early; try done. exact (find_first_in _ _ _ upcoming_iff Eu).
      * apply spec_no_schedule; try done. exact (find_none_in _ _ upcoming_iff Eu).
Qed.

Ltac spec_rewrite :=
  repeat match goal with
  | H : first_in is_active _ |- _ =>
      rewrite (first_in_find _ _ _ (has_status_iff ACTIVE) H); clear H
  | H : none_in is_active |- _ =>
      rewrite (none_in_find _ _ (has_status_iff ACTIVE) H); clear H
  | H : candidate_is _ |- _ => rewrite (proj2 (pick_candidate_Some _) H); clear H
  | H : none_in window_open |- _ => rewrite (proj2 pick_candidate_None H); clear H
  | H : first_in not_yet_open _ |- _ =>
      rewrite (first_in_find _ _ _ upcoming_iff H); clear H
  | H : none_in not_yet_open |- _ => rewrite (none_in_find _ _ upcoming_iff H); clear H
  | H : here _ |- _ => rewrite (proj2 (in_room_iff _) H); clear H
  | H : ¬ here _ |- _ =>
      rewrite <- in_room_iff in H; apply not_true_is_false in H; rewrite H; clear H
  end.

Lemma resolve_complete r : scan_spec r → resolve_faculty_scan = r.
Proof.
  unfold resolve_faculty_scan.
  destruct 1; spec_rewrite; try done;
    unfold resolve_candidate, is_no_show_past_grace, online, past_grace in *;
    repeat first
      [ rewrite bool_decide_true by done | rewrite bool_decide_false by done
      | progress spec_rewrite | rewrite (proj2 (Z.ltb_lt _ _)) by lia
      | rewrite (proj2 (Z.ltb_ge _ _)) by lia ];
    simpl; try done; by simplify_option_eq.
Qed.
End resolve.

(** C17: a faculty scan is resolved exactly as the outcome rules prescribe: the
    code returns a resolution if and only if the declarative rules give it, so
    the rules are exhaustive, exclusive and computed by the code. *)
Theorem resolve_faculty_scan_refines db sessions room occ now grace early lead r :
  resolve_faculty_scan db sessions room occ now grace early lead = r ↔
  scan_spec db sessions room occ now grace early lead r.
Proof.
  split.
  - intros <-. apply resolve_sound.
  - apply resolve_complete.
Qed.
End FacultyScan.

(** ** verification/resolver.py *)
Module CheckerScan.
Inductive Outcome :=
  | OFF_DUTY | WRONG_FLOOR | NO_SESSION | ACTIVE_UNVERIFIED | ALREADY_VERIFIED
  | ABSENT_EXCLUDED.
#[global] Instance Outcome_eq_dec : EqDecision Outcome.
Proof. solve_decision. Defined.
Definition outcome_str (o : Outcome) : string :=
  match o with
  | OFF_DUTY => "off-duty" | WRONG_FLOOR => "wrong-floor" | NO_SESSION => "no-session"
  | ACTIVE_UNVERIFIED => "active-unverified" | ALREADY_VERIFIED => "already-verified"
  | ABSENT_EXCLUDED => "absent-excluded"
  end%string.
Definition ACTIONABLE : list Outcome := [ACTIVE_UNVERIFIED; NO_SESSION].

Record CheckerResolution := mk_checker_resolution {
  c_outcome : Outcome;
  c_session_id : option Z
}.
Definition actionable (r : CheckerResolution) : bool :=
  bool_decide (c_outcome r ∈ ACTIONABLE).

(** The value object the web layer passes (web/checker.py [_SessionState]). *)
Record SessionState := mk_state {
  state_id : Z;
  state_status : SessionStatus;
  state_verified : bool
}.

Definition resolve_checker_scan (active_floor_ids : list Z) (scanned_floor_id : Z)
    (session_state : option SessionState) : CheckerResolution :=
  match active_floor_ids with
  | [] => mk_checker_resolution OFF_DUTY None
  | _ =>
    if negb (bool_decide (scanned_floor_id ∈ active_floor_ids))
    then mk_checker_resolution WRONG_FLOOR None
    else match session_state with
    | None => mk_checker_resolution NO_SESSION None
    | Some st =>
        if bool_decide (state_status st = SCHEDULED)
        then mk_checker_resolution NO_SESSION None
        else if bool_decide (state_status st = ABSENT)
        then mk_checker_resolution ABSENT_EXCLUDED (Some (state_id st))
        else if state_verified st
        then mk_checker_resolution ALREADY_VERIFIED (Some (state_id st))
        else mk_checker_resolution ACTIVE_UNVERIFIED (Some (state_id st))
    end
  end.

(** A posting is on duty at [today]/[now_t]. *)
Definition assignment_covers_now (a : Assignment) (today now_t : Z) : bool :=
  match asg_date a with
  | None => true
  | Some d =>
      if d =? today then
        match asg_start a with None => true | Some st => st <=? now_t end
        && match asg_end a with None => true | Some en => now_t <=? en end
      else false
  end.

(** [{sid: checker_ids[i % len(checker_ids)] for i, sid in enumerate(...)}] *)
Definition distribute_online_sessions (session_ids checker_ids : list Z) : dict Z Z :=
  match checker_ids with
  | [] => []
  | c0 :: _ =>
      foldl (λ d p, dict_set d p.2 (nth (p.1 mod length checker_ids)%nat checker_ids c0))
            [] (imap pair session_ids)
  end.

Lemma actionable_cases r :
  actionable r = true ↔ c_outcome r = ACTIVE_UNVERIFIED ∨ c_outcome r = NO_SESSION.
Proof. unfold actionable, ACTIONABLE. b2p. rewrite !elem_of_cons, elem_of_nil. tauto. Qed.

(** A checker may act on a scan exactly when the scanned floor is one of
    the floors the checker is on duty for and the room's class is either absent
    from the room (none, or not started) or running, or already finished or
    cancelled, without a verification; a checker off duty or on another floor,
    and a class marked absent or already verified, are refused. *)
Theorem checker_actionable_iff floors floor st :
  actionable (resolve_checker_scan floors floor st) = true ↔
  floor ∈ floors ∧
  (st = None ∨
   ∃ s, st = Some s ∧
     (state_status s = SCHEDULED ∨ (state_status s ≠ ABSENT ∧ state_verified s = false))).
Proof.
  rewrite actionable_cases. unfold resolve_checker_scan.
  destruct floors as [|f fs]; [split; [by intros [|]|by intros [?%not_elem_of_nil _]]|].
  destruct (bool_decide_reflect (floor ∈ f :: fs)) as [Hin|Hin]; simpl;
    [|split; [by intros [|]|by intros [? _]]].
  destruct st as [s|]; simpl; [|naive_solver].
  destruct (bool_decide_reflect (state_status s = SCHEDULED)) as [Hs|Hs]; simpl;
    [split; [eauto 10|by right]|].
  destruct (bool_decide_reflect (state_status s = ABSENT)) as [Ha|Ha]; simpl;
    [split; [by intros [|]|intros (_ & [|(x & [= <-] & [|[]])]); done]|].
  destruct (state_verified s) eqn:Hv; simpl;
    [split; [by intros [|]|intros (_ & [|(x & [= <-] & [|[]])]); congruence]|].
  split; [eauto 10|by left].
Qed.

(** *** The round-robin is total, stays in the pool and is fair *)
Section round_robin.
Context (ids cs : list Z) (Hids : NoDup ids) (Hcs : cs ≠ []).

Definition turn (i : nat) : Z := nth (i mod length cs)%nat cs (default 0 (head cs)).

Lemma distribute_imap :
  distribute_online_sessions ids cs = imap (λ i k, (k, turn i)) ids.
Proof.
  unfold distribute_online_sessions, turn. destruct cs as [|c0 cs0] eqn:E; [done|].
  rewrite <- E. assert (default 0 (head cs) = c0) as -> by by rewrite E.
  rewrite (dict_fill snd (λ p, nth (p.1 mod length cs)%nat cs c0)).
  - rewrite app_nil_l, fmap_imap. done.
  - rewrite app_nil_l, fmap_imap. rewrite imap_id; [done|]. done.
Qed.

Lemma pool_pos : (0 < length cs)%nat.
Proof. destruct cs; simpl; [done|lia]. Qed.
Lemma turn_in_pool i : turn i ∈ cs.
Proof.
  unfold turn. rewrite list_elem_of_In. apply nth_In. pose proof pool_pos.
  apply Nat.mod_upper_bound. lia.
Qed.

(** How many of the first [n] turns fall on position [j] of the pool. *)
Fixpoint turns (n j : nat) : nat :=
  match n with
  | O => O
  | S m => (turns m j + if Nat.eqb (m mod length cs) j then 1 else 0)%nat
  end.
Lemma turns_closed n j :
  (j < length cs)%nat → turns n j = ((n + (length cs - 1 - j)) / length cs)%nat.
Proof.
  intros Hj. pose proof pool_pos as Hk. set (k := length cs) in *.
  induction n as [|n IH]; cbn [turns].
  - rewrite Nat.div_small; lia.
  - fold k. rewrite IH. pose proof (Nat.div_mod_eq n k) as Hn.
    pose proof (Nat.mod_upper_bound n k ltac:(lia)) as Hr.
    destruct (Nat.eqb_spec (n mod k) j) as [Heq|Hne].
    + rewrite <- (Nat.div_unique (S n + (k - 1 - j)) k (n / k + 1) 0) by nia.
      rewrite <- (Nat.div_unique (n + (k - 1 - j)) k (n / k) (k - 1)) by nia. lia.
    + destruct (Nat.lt_total (n mod k) j) as [Hlt|[|Hgt]]; [|done|].
      * rewrite <- (Nat.div_unique (S n + (k - 1 - j)) k (n / k) (n mod k + 1 + (k - 1 - j))) by nia.
        rewrite <- (Nat.div_unique (n + (k - 1 - j)) k (n / k) (n mod k + (k - 1 - j))) by nia. lia.
      * rewrite <- (Nat.div_unique (S n + (k - 1 - j)) k (n / k + 1) (n mod k - j)) by nia.
        rewrite <- (Nat.div_unique (n + (k - 1 - j)) k (n / k + 1) (n mod k - 1 - j)) by nia. lia.
Qed.
Lemma turns_bounds n j :
  (j < length cs)%nat → (n / length cs ≤ turns n j ≤ n / length cs + 1)%nat.
Proof.
  intros Hj. rewrite turns_closed by done. pose proof pool_pos.
  split; [apply Nat.Div0.div_le_mono; lia|].
  rewrite <- (Nat.div_add _ 1) by lia. apply Nat.Div0.div_le_mono. lia.
Qed.

(** The number of sessions a checker receives. *)
Definition load (d : dict Z Z) (c : Z) : nat := length (select (λ p, p.2 =? c) d).

Lemma load_turns j c :
  NoDup cs → cs !! j = Some c →
  load (imap (λ i k, (k, turn i)) ids) c = turns (length ids) j.
Proof.
  intros Hnd Hj. unfold load. clear Hids. induction ids as [|k l IH] using rev_ind; [reflexivity|].
  rewrite imap_app, select_app, !length_app, IH. rewrite Nat.add_1_r. cbn [turns].
  f_equal. simpl. rewrite Nat.add_0_r. unfold turn. pose proof pool_pos as Hp.
  pose proof (Nat.mod_upper_bound (length l) (length cs) ltac:(lia)) as Hr.
  apply lookup_lt_is_Some in Hr as [c' Hc'].
  rewrite (nth_lookup_Some _ _ _ _ Hc').
  destruct (Nat.eqb_spec (length l mod length cs) j) as [<-|Hne].
  - replace c' with c by congruence. by rewrite Z.eqb_refl.
  - destruct (Z.eqb_spec c' c) as [->|]; [|done].
    destruct Hne. by eapply NoDup_lookup.
Qed.
End round_robin.

Lemma fair_share ids cs c (Hids : NoDup ids) (Hcs : NoDup cs) :
  c ∈ cs →
  (length ids / length cs ≤ load (distribute_online_sessions ids cs) c
   ≤ length ids / length cs + 1)%nat.
Proof.
  intros (j & Hj)%list_elem_of_lookup. assert (cs ≠ []) as Hne by by destruct cs.
  rewrite distribute_imap by done. rewrite (load_turns ids cs Hne j) by done.
  apply turns_bounds; [done|]. by eapply lookup_lt_Some.
Qed.

(** The online round-robin hands every session to a checker of the pool,
    in the order of the sessions, and is fair: with [n] sessions and a pool of
    [k] distinct checkers, each checker receives either [n / k] or
    [n / k + 1] sessions. *)
Theorem distribute_fair ids cs (Hids : NoDup ids) (Hcs : NoDup cs) (Hne : cs ≠ []) :
  (distribute_online_sessions ids cs).*1 = ids ∧
  (∀ p, p ∈ distribute_online_sessions ids cs → p.2 ∈ cs) ∧
  (∀ c, c ∈ cs →
    (length ids / length cs ≤ load (distribute_online_sessions ids cs) c
     ≤ length ids / length cs + 1)%nat).
Proof.
  split; [|split]; [| |by intros; apply fair_share].
  - rewrite distribute_imap by done. rewrite fmap_imap. by apply imap_id.
  - rewrite distribute_imap by done. intros p (i & x & -> & _)%elem_of_lookup_imap.
    by apply turn_in_pool.
Qed.
Lemma distribute_fair_witness :
  let d := distribute_online_sessions [11; 12; 13; 14; 15] [3; 7] in
  d = [(11, 3); (12, 7); (13, 3); (14, 7); (15, 3)] ∧
  (2 ≤ load d 3 ≤ 3)%nat.
Proof.
  split; [reflexivity|].
  apply (proj2 (proj2 (distribute_fair [11; 12; 13; 14; 15] [3; 7]
    ltac:(apply (bool_decide_unpack _); vm_compute; exact I)
    ltac:(apply (bool_decide_unpack _); vm_compute; exact I) ltac:(discriminate)))).
  left.
Defined.

(** An on-duty posting covers an instant exactly when it is a standing
    posting, or a dated shift of that day whose window, open on a missing bound
    and closed on both ends, contains the time of day. *)
Theorem assignment_covers_now_iff a today now_t :
  assignment_covers_now a today now_t = true ↔
  asg_date a = None ∨
  (asg_date a = Some today ∧
   (∀ st, asg_start a = Some st → st ≤ now_t) ∧ (∀ en, asg_end a = Some en → now_t ≤ en)).
Proof.
  unfold assignment_covers_now. destruct (asg_date a) as [d|]; [|naive_solver].
  destruct (Z.eqb_spec d today); [|naive_solver].
  destruct (asg_start a), (asg_end a); simpl; b2p; naive_solver lia.
Qed.
End CheckerScan.
