(* ===== verification/OnlineDuty.v ===== *)
(** verification/services.py: the pre-assignment of a date's online sessions to the
    checkers whose online duty covers them. *)
From S2P Require Import Prelude Python Model Effects Ops Sample Resolvers.
Import CheckerScan.
Open Scope Z_scope.

(** [order_by("scheduled_start", "id")] *)
Definition by_start_id (a b : Session) : bool :=
  if ses_sched_start a =? ses_sched_start b then ses_pk a <=? ses_pk b
  else ses_sched_start a <=? ses_sched_start b.
Definition candidate_online_sessions (db : DB) (target_date : Z) (t : AcademicTerm)
    : list Session :=
  select (effective_online db)
    (sort_by by_start_id
      (select (λ s, (ses_date s =? target_date) && is_none (ses_online_checker s)
                    && in_term db (term_pk t) s) (db_sessions db))).

Definition online_duty_assignments (db : DB) (target_date : Z) (t : AcademicTerm)
    : list Assignment :=
  sort_by (λ a b, asg_user a <=? asg_user b)
    (select (λ a, bool_decide (asg_role a = DUTY_CHECKER)
                  && bool_decide (asg_scope a = ONLINE_SCOPE)
                  && bool_decide (asg_status a = "active"%string)
                  && bool_decide (asg_term a = Some (term_pk t))
                  && match asg_date a with None => true | Some d => d =? target_date end)
            (db_assignments db)).

(** [tuple(sorted({a.user_id for a in assignments if ...}))] *)
Definition eligible (assignments : list Assignment) (s : Session) : list Z :=
  let s_day := PyTime.local_date (ses_sched_start s) in
  let s_t := PyTime.local_time (ses_sched_start s) in
  sort_by Z.leb
    (remove_dups (asg_user <$> select (λ a, assignment_covers_now a s_day s_t) assignments)).

(** The round-robin within each group of sessions with the same pool. *)
Definition add_group (m : dict Z Z) (g : list Z * list Z) : dict Z Z :=
  match g.1 with
  | [] => m
  | _ => dict_update m (distribute_online_sessions g.2 g.1)
  end.
Definition online_mapping (assignments : list Assignment) (sessions : list Session)
    : dict Z Z :=
  foldl add_group [] (dict_group (eligible assignments) ses_pk sessions).

Definition set_online_checker (c : option Z) (s : Session) : Session :=
  s <| ses_online_checker := c |>.
Definition assign_one (mapping counts : dict Z Z) (s : Session) : M (dict Z Z) :=
  match dict_get mapping (ses_pk s) with
  | None => mret counts
  | Some c =>
      atomic (
        save (ses_pk s) (set_online_checker (Some c)) ≫= λ _,
        audit None "session.online_checker_assigned" "session" (PyStr.str (ses_pk s))
          (JObj [("checker_id", JInt c)]%string)) ≫= λ _,
      mret (dict_set counts c (dict_getd counts c 0 + 1))
  end.
Definition notify_assigned (target_date : Z) (p : Z * Z) : M unit :=
  first (λ u, usr_pk u =? p.1) ≫= λ checker,
  match checker with
  | None => mret ()
  | Some u =>
      notify [usr_pk u] None "online_assigned" "Online sessions to verify"
        (PyStr.str p.2 +:+ " online session(s) assigned to you for "
         +:+ PyTime.date_str target_date) "/checker/online"
  end.

Record Assigned := mk_assigned { n_assigned : Z; n_unassigned : Z }.
Definition assign_online_sessions (target_date : Z) : M Assigned :=
  get_active_term ≫= λ active_term,
  match active_term with
  | None => mret (mk_assigned 0 0)
  | Some t =>
      read (λ db, candidate_online_sessions db target_date t) ≫= λ sessions,
      match sessions with
      | [] => mret (mk_assigned 0 0)
      | _ =>
          read (λ db, online_duty_assignments db target_date t) ≫= λ assignments,
          let n := Z.of_nat (length sessions) in
          match online_mapping assignments sessions with
          | [] =>
              notify [] (Some IFO_ADMIN) "online_unassigned" "Online sessions unassigned"
                (PyStr.str n +:+ " online session(s) for " +:+ PyTime.date_str target_date
                 +:+ " have no online-duty Checker. Assign online duty to cover them.") ""
              ≫= λ _, mret (mk_assigned 0 n)
          | mapping =>
              fold_m (assign_one mapping) [] sessions ≫= λ assigned_counts,
              for_each assigned_counts (notify_assigned target_date) ≫= λ _,
              let assigned := zsum assigned_counts.*2 in
              mret (mk_assigned assigned (n - assigned))
          end
      end
  end.

(** ** What an assignment must be *)
Section spec.
Context (db : DB) (target : Z) (t : AcademicTerm).

(** An unowned online session of the date in the active term. *)
Definition waiting (s : Session) : Prop :=
  s ∈ db_sessions db ∧ ses_date s = target ∧ ses_online_checker s = None ∧
  session_term db s = Some (term_pk t) ∧ effective_modality db s = Some ONLINE.
(** A checker has an active online posting of the term that covers the start of
    the session: a standing one, or a shift of the date around the start. *)
Definition on_online_duty (s : Session) (c : Z) : Prop :=
  ∃ a, a ∈ db_assignments db ∧ asg_user a = c ∧ asg_role a = DUTY_CHECKER ∧
    asg_scope a = ONLINE_SCOPE ∧ asg_status a = "active"%string ∧ asg_term a = Some (term_pk t) ∧
    (asg_date a = None ∨
     (asg_date a = Some target ∧ PyTime.local_date (ses_sched_start s) = target ∧
      (∀ st, asg_start a = Some st → st ≤ PyTime.local_time (ses_sched_start s)) ∧
      (∀ en, asg_end a = Some en → PyTime.local_time (ses_sched_start s) ≤ en))).

Lemma elem_of_candidates s : s ∈ candidate_online_sessions db target t ↔ waiting s.
Proof.
  unfold candidate_online_sessions, waiting, in_term, effective_online, is_none, is_some.
  rewrite elem_of_select, elem_of_sort_by, elem_of_select. b2p.
  destruct (ses_online_checker s); naive_solver.
Qed.

Let pool := eligible (online_duty_assignments db target t).
Lemma elem_of_pool s c : c ∈ pool s ↔ on_online_duty s c.
Proof.
  unfold pool, eligible, on_online_duty, online_duty_assignments.
  rewrite elem_of_sort_by, elem_of_remove_dups, list_elem_of_fmap. split.
  - intros (a & -> & [Ha Hc]%elem_of_select). rewrite elem_of_sort_by, elem_of_select in Ha.
    b2p. destruct Ha as [Ha ((((Hr & Hs) & Hst) & Ht) & Hd)]. exists a.
    apply assignment_covers_now_iff in Hc. split_and!; try done.
    destruct Hc as [|(Hda & Hst' & Hen)]; [by left|right]. rewrite Hda in Hd |- *. b2p.
    rewrite Hd in *. split_and!; try done.
  - intros (a & Ha & <- & Hr & Hs & Hst & Ht & Hd). exists a. split; [done|].
    apply elem_of_select. split.
    + rewrite elem_of_sort_by, elem_of_select. split; [done|]. b2p. split_and!; try done.
      destruct Hd as [->|[-> _]]; [done|]. by rewrite Z.eqb_refl.
    + apply assignment_covers_now_iff. destruct Hd as [|(-> & Hd & ? & ?)]; [by left|right].
      split_and!; try done. by rewrite Hd.
Qed.
Lemma pool_NoDup s : NoDup (pool s).
Proof.
  unfold pool, eligible. rewrite sort_by_perm. apply NoDup_remove_dups.
Qed.
End spec.

(** ** The mapping is the round-robin of each pool *)
Lemma distribute_keys ids cs :
  NoDup ids → cs ≠ [] → (distribute_online_sessions ids cs).*1 = ids.
Proof. intros. rewrite distribute_imap by done. rewrite fmap_imap. by apply imap_id. Qed.
Lemma distribute_in_pool ids cs k c :
  NoDup ids → cs ≠ [] → dict_get (distribute_online_sessions ids cs) k = Some c → c ∈ cs.
Proof.
  intros Hids Hcs Hk%dict_get_elem. rewrite distribute_imap in Hk by done.
  apply elem_of_lookup_imap in Hk as (i & x & [= -> ->] & _). by apply turn_in_pool.
Qed.
Lemma add_group_get m g k :
  NoDup g.2 → dict_get (add_group m g) k =
  match g.1 with
  | [] => dict_get m k
  | _ => match dict_get (distribute_online_sessions g.2 g.1) k with
         | Some c => Some c | None => dict_get m k end
  end.
Proof.
  intros Hg. unfold add_group. destruct g.1 as [|c cs] eqn:E; [done|]. apply dict_get_update.
  by rewrite distribute_keys.
Qed.
Lemma add_group_other m g k : NoDup g.2 → k ∉ g.2 → dict_get (add_group m g) k = dict_get m k.
Proof.
  intros Hg Hk. rewrite add_group_get by done. destruct g.1 as [|c cs] eqn:E; [done|].
  rewrite (proj2 (dict_get_None _ k)); [done|]. by rewrite distribute_keys.
Qed.
Lemma add_groups_other m l k :
  (∀ g, g ∈ l → NoDup g.2 ∧ k ∉ g.2) → dict_get (foldl add_group m l) k = dict_get m k.
Proof.
  revert m. induction l as [|g l IH]; intros m H; [done|]. simpl.
  destruct (H g ltac:(left)). rewrite IH; [by apply add_group_other|]. intros. apply H. by right.
Qed.

Section mapping.
Context (assignments : list Assignment) (ss : list Session) (Hss : NoDup (ses_pk <$> ss)).

(** The sessions that share a pool. *)
Definition sharing (E : list Z) : list Session :=
  select (λ y, bool_decide (eligible assignments y = E)) ss.

Lemma group_shape g :
  g ∈ dict_group (eligible assignments) ses_pk ss → NoDup g.2 ∧ g.2 = ses_pk <$> sharing g.1.
Proof using Hss.
  intros Hg%dict_group_elem. split; [|done]. rewrite Hg. by apply NoDup_fmap_select.
Qed.
Lemma pk_of_sharing s E : s ∈ ss → ses_pk s ∈ ses_pk <$> sharing E → eligible assignments s = E.
Proof using Hss.
  intros Hs (y & Hy & [Hin Hp]%elem_of_select)%list_elem_of_fmap. b2p.
  by rewrite (pk_inj ss s y Hss Hs Hin Hy).
Qed.

Lemma mapping_get s :
  s ∈ ss → dict_get (online_mapping assignments ss) (ses_pk s) =
  match eligible assignments s with
  | [] => None
  | _ => dict_get (distribute_online_sessions (ses_pk <$> sharing (eligible assignments s))
                     (eligible assignments s)) (ses_pk s)
  end.
Proof using Hss.
  intros Hs. unfold online_mapping.
  pose proof (dict_group_has (eligible assignments) ses_pk ss s Hs) as Hg.
  destruct (dict_group_spec (eligible assignments) ses_pk ss) as (Hnd & _ & _).
  pose proof group_shape as Hall. set (G := dict_group _ _ ss) in *.
  apply list_elem_of_split in Hg as (l1 & l2 & HG). rewrite HG in *.
  rewrite fmap_app, fmap_cons in Hnd. apply NoDup_app in Hnd as (_ & Hd1 & [Hd2 _]%NoDup_cons).
  assert (∀ g, g ∈ l1 ++ l2 → NoDup g.2 ∧ ses_pk s ∉ g.2) as Hother.
  { intros g Hg. destruct (Hall g ltac:(set_solver)) as [? Hshape]. split; [done|].
    rewrite Hshape. intros Hin%pk_of_sharing; [|done]. apply elem_of_app in Hg as [Hg|Hg].
    - apply (Hd1 g.1); [by apply list_elem_of_fmap_2|]. rewrite <- Hin. left.
    - apply Hd2. simpl. rewrite Hin. by apply list_elem_of_fmap_2. }
  rewrite foldl_app. simpl.
  rewrite add_groups_other by (intros; apply Hother; set_solver).
  rewrite add_group_get by (apply (Hall (_, _)); set_solver). simpl.
  rewrite add_groups_other by (intros; apply Hother; set_solver). simpl. unfold sharing.
  destruct (eligible assignments s); [done|]. by destruct (dict_get _ _).
Qed.
Lemma mapping_key k c : dict_get (online_mapping assignments ss) k = Some c → k ∈ ses_pk <$> ss.
Proof using Hss.
  intros Hk. destruct (decide (k ∈ ses_pk <$> ss)) as [|Hn]; [done|]. exfalso.
  unfold online_mapping in Hk. rewrite add_groups_other in Hk; [done|].
  intros g Hg. destruct (group_shape g Hg) as [? Hshape]. split; [done|]. rewrite Hshape.
  intros (y & -> & [Hy _]%elem_of_select)%list_elem_of_fmap. apply Hn.
  by apply list_elem_of_fmap_2.
Qed.

(** A session is assigned within its pool, and left unowned only if that is empty. *)
Lemma mapping_pool s :
  s ∈ ss →
  match dict_get (online_mapping assignments ss) (ses_pk s) with
  | Some c => c ∈ eligible assignments s
  | None => eligible assignments s = []
  end.
Proof using Hss.
  intros Hs. rewrite mapping_get by done.
  destruct (eligible assignments s) as [|e0 E0] eqn:He; [done|]. rewrite <- He.
  assert (eligible assignments s ≠ []) as Hne by by rewrite He.
  assert (NoDup (ses_pk <$> sharing (eligible assignments s))) as Hnd by by apply NoDup_fmap_select.
  destruct (dict_get _ _) as [c|] eqn:Eg; [by eapply distribute_in_pool|].
  apply dict_get_None in Eg. rewrite distribute_keys in Eg by done. destruct Eg.
  apply list_elem_of_fmap_2. apply elem_of_select. split; [done|]. by rewrite bool_decide_true.
Qed.

(** The number of sessions of a pool that one of its checkers receives. *)
Lemma mapping_load E c :
  E ≠ [] →
  length (select (λ s, bool_decide (dict_get (online_mapping assignments ss) (ses_pk s) = Some c))
            (sharing E)) =
  load (distribute_online_sessions (ses_pk <$> sharing E) E) c.
Proof using Hss.
  intros HE. set (d := distribute_online_sessions (ses_pk <$> sharing E) E).
  assert (NoDup (ses_pk <$> sharing E)) as Hnd by by apply NoDup_fmap_select.
  assert (d.*1 = ses_pk <$> sharing E) as Hd by by apply distribute_keys.
  rewrite (select_ext _ (λ s, bool_decide (dict_get d (ses_pk s) = Some c))).
  2:{ intros s [Hs Hp]%elem_of_select. b2p. rewrite mapping_get by done. rewrite Hp.
      by destruct E. }
  transitivity (length (select (λ k, bool_decide (dict_get d k = Some c)) (ses_pk <$> sharing E)));
    [by rewrite select_fmap, length_fmap|].
  rewrite <- Hd, select_fmap, length_fmap. unfold load. f_equal. apply select_ext.
  intros [k v] Hin. apply eq_true_iff_eq. b2p. simpl.
  rewrite (dict_elem_get d k v) by (rewrite ?Hd; done). split; [by intros [= ->]|by intros ->].
Qed.
End mapping.

(** ** The writes *)
Section writes.
Context (db : DB) (mapping : dict Z Z) (Huniq : pk_unique (db_sessions db)).
Definition owned (ids : list Z) (x : Session) : bool :=
  mem_pk ids x && is_some (dict_get mapping (ses_pk x)).
Definition take_owner (x : Session) : Session :=
  set_online_checker (dict_get mapping (ses_pk x)) x.

(** One more session of the list written. *)
Lemma owned_step ids s c :
  s ∈ db_sessions db → ses_pk s ∉ ids → dict_get mapping (ses_pk s) = Some c →
  update_pk (ses_pk s) (set_online_checker (Some c))
    (update_where (owned ids) take_owner (db_sessions db)) =
  update_where (owned (ids ++ [ses_pk s])) take_owner (db_sessions db).
Proof using Huniq.
  intros Hs Hnew Hc. unfold update_pk. rewrite update_where_twice. unfold update_where.
  apply list_fmap_ext. intros i x Hx%list_elem_of_lookup_2. unfold owned, mem_pk, take_owner.
  change (@pk Session pk_Session) with ses_pk. cbv zeta beta.
  destruct (Z.eq_dec (ses_pk x) (ses_pk s)) as [Heq|Hne].
  - assert (x = s) as -> by by apply (pk_inj (db_sessions db)).
    rewrite (bool_decide_false (ses_pk s ∈ ids)), Hc by done. simpl. rewrite Z.eqb_refl.
    by rewrite bool_decide_true by set_solver.
  - rewrite (bool_decide_ext (ses_pk x ∈ ids ++ [ses_pk s]) (ses_pk x ∈ ids)) by set_solver.
    destruct (bool_decide (ses_pk x ∈ ids) && _); simpl; by rewrite (proj2 (Z.eqb_neq _ _)).
Qed.
Lemma owned_skip ids s :
  s ∈ db_sessions db → dict_get mapping (ses_pk s) = None →
  update_where (owned (ids ++ [ses_pk s])) take_owner (db_sessions db) =
  update_where (owned ids) take_owner (db_sessions db).
Proof using Huniq.
  intros Hs Hn. apply update_where_ext; [|done]. intros x Hx. unfold owned, mem_pk.
  change (@pk Session pk_Session) with ses_pk.
  destruct (Z.eq_dec (ses_pk x) (ses_pk s)) as [Heq|Hne].
  - rewrite Heq, Hn. by rewrite !andb_false_r.
  - f_equal. apply bool_decide_ext. set_solver.
Qed.

Lemma owned_zsum (d : dict Z Z) c :
  zsum (dict_set d c (dict_getd d c 0 + 1)).*2 = zsum d.*2 + 1.
Proof.
  unfold dict_getd, zsum. induction d as [|[k v] d IH]; [done|]. cbn [dict_get dict_set].
  case_bool_decide; rewrite !fmap_cons; cbn [foldr snd default]; [simpl; lia|].
  rewrite IH. lia.
Qed.

Lemma assign_all_wp ss :
  (∀ s, s ∈ ss → s ∈ db_sessions db) → NoDup (ses_pk <$> ss) →
  wp (fold_m (assign_one mapping) [] ss) (λ r db', ∃ counts, r = inr counts ∧
    zsum counts.*2 = Z.of_nat (length (select (λ s, is_some (dict_get mapping (ses_pk s))) ss)) ∧
    logs_only (db <| db_sessions :=
      update_where (owned (ses_pk <$> ss)) take_owner (db_sessions db) |>) db') db.
Proof using Huniq.
  intros Hin Hnd. eapply wp_mono; [apply (wp_fold_m _ _ _ (λ l counts db',
    zsum counts.*2 = Z.of_nat (length (select (λ s, is_some (dict_get mapping (ses_pk s))) l)) ∧
    logs_only (db <| db_sessions :=
      update_where (owned (ses_pk <$> l)) take_owner (db_sessions db) |>) db') (λ _ _, False))|].
  - split; [done|]. rewrite update_where_none; [by destruct db|]. intros x _.
    unfold owned, mem_pk. by rewrite bool_decide_false by apply not_elem_of_nil.
  - intros l s todo counts db' Hl (Hz & A & N & ->).
    assert (s ∈ db_sessions db) as Hs by (apply Hin; rewrite Hl; set_solver).
    assert (ses_pk s ∉ ses_pk <$> l) as Hnew.
    { rewrite Hl, fmap_app, fmap_cons in Hnd. apply NoDup_app in Hnd as (_ & Hd & _).
      intros Hi. apply (Hd _ Hi). left. }
    unfold assign_one. rewrite select_app, select_cons, length_app, fmap_app. simpl.
    destruct (dict_get mapping (ses_pk s)) as [c|] eqn:Ec; simpl.
    + do 3 wp_step. apply wp_save; simpl.
      * intros _. apply wp_logging; [apply logging_audit|]. intros db2 (A' & N' & ->). wp_step.
        split; [rewrite owned_zsum; lia|]. rewrite (owned_step _ s c) by done.
        exists (A ++ A'), (N ++ N'). simpl. by rewrite !app_assoc.
      * intros Hn. rewrite existing_by_pk, by_pk_update_where in Hn by done.
        pose proof (by_pk_unique (db_sessions db) _ s Huniq Hs eq_refl) as Hb.
        change (by_pk (db_sessions db) (ses_pk s) = Some s) in Hb. by rewrite Hb in Hn.
    + wp_step. rewrite owned_skip by done. split; [rewrite Hz; f_equal; lia|].
      by exists A, N.
  - intros [e|counts] db'; [done|]. intros [Hz Hl]. by exists counts.
Qed.
End writes.

Lemma logging_notify_assigned target p : logging (notify_assigned target p).
Proof.
  unfold notify_assigned, first, read. intros db. unfold mbind, M_bind.
  destruct (List.find _ _); [apply logging_notify|apply logging_ret].
Qed.

Lemma candidates_NoDup db target t :
  pk_unique (db_sessions db) → NoDup (ses_pk <$> candidate_online_sessions db target t).
Proof.
  intros Hu. unfold candidate_online_sessions. apply NoDup_fmap_select. rewrite sort_by_perm.
  by apply NoDup_fmap_select.
Qed.

(** ** The assignment of a date *)
Section assign.
Context (db : DB) (target : Z) (t : AcademicTerm).
Context (Huniq : pk_unique (db_sessions db)).
Context (Hact : select is_active_term (db_terms db) = [t]).
Let ss := candidate_online_sessions db target t.
Let duties := online_duty_assignments db target t.
Definition owner (s : Session) : option Z := dict_get (online_mapping duties ss) (ses_pk s).

Lemma owner_candidate s : s ∈ db_sessions db → is_some (owner s) = true → s ∈ ss.
Proof using Huniq.
  unfold owner. intros Hs Hk. destruct (dict_get _ _) as [c|] eqn:Ec; [|done].
  apply mapping_key in Ec; [|by apply candidates_NoDup].
  apply list_elem_of_fmap in Ec as (y & Hy & Hin). pose proof Hin as Hyd.
  apply elem_of_candidates in Hyd as [Hyd _]. by rewrite (pk_inj (db_sessions db) s y).
Qed.
Lemma owner_on_duty s :
  waiting db target t s →
  match owner s with
  | Some c => on_online_duty db target t s c
  | None => ∀ c, ¬ on_online_duty db target t s c
  end.
Proof using Huniq.
  intros Hs%elem_of_candidates.
  pose proof (mapping_pool duties ss (candidates_NoDup db target t Huniq) s Hs) as Hp. unfold owner.
  destruct (dict_get _ _) as [c|]; [by apply elem_of_pool|].
  intros c Hc%elem_of_pool. fold duties in Hc. rewrite Hp in Hc. by apply not_elem_of_nil in Hc.
Qed.
Lemma owner_fair s c :
  on_online_duty db target t s c →
  let k := length (eligible duties s) in
  let peers := sharing duties ss (eligible duties s) in
  let mine := select (λ x, bool_decide (owner x = Some c)) peers in
  (length peers / k ≤ length mine ≤ length peers / k + 1)%nat.
Proof using Huniq.
  intros Hc%elem_of_pool. fold duties in Hc. cbv zeta. unfold owner.
  assert (NoDup (ses_pk <$> ss)) as Hss by by apply candidates_NoDup.
  rewrite mapping_load; [|done|intros E; rewrite E in Hc; by apply not_elem_of_nil in Hc].
  rewrite <- (length_fmap ses_pk (sharing _ _ _)). apply fair_share; [|apply pool_NoDup|done].
  by apply NoDup_fmap_select.
Qed.

Definition assigned_db : DB := db <| db_sessions := update_where (λ s, is_some (owner s))
  (λ s, s <| ses_online_checker := owner s |>) (db_sessions db) |>.
Lemma assigned_all :
  db <| db_sessions := update_where (owned (online_mapping duties ss) (ses_pk <$> ss))
    (take_owner (online_mapping duties ss)) (db_sessions db) |> = assigned_db.
Proof using Huniq.
  unfold assigned_db. rewrite (update_where_ext _ (λ s, is_some (owner s)) _
    (λ s, s <| ses_online_checker := owner s |>)); [done| |done]. intros s Hs. unfold owned, mem_pk.
  fold (owner s). destruct (is_some (owner s)) eqn:Ei; [|by rewrite andb_false_r].
  rewrite andb_true_r. apply bool_decide_eq_true, list_elem_of_fmap_2. by apply owner_candidate.
Qed.
Lemma mapping_some k c m :
  online_mapping duties ss = (k, c) :: m → select (λ s, is_some (owner s)) ss ≠ [].
Proof using Huniq.
  intros Em Hsel. assert (dict_get (online_mapping duties ss) k = Some c) as Hk
    by (rewrite Em; simpl; by rewrite bool_decide_true).
  pose proof Hk as Hin. apply mapping_key in Hin; [|by apply candidates_NoDup].
  apply list_elem_of_fmap in Hin as (y & -> & Hy).
  apply select_nil with (x := y) in Hsel; [|done]. unfold owner in Hsel. by rewrite Hk in Hsel.
Qed.

Lemma assign_wp :
  wp (assign_online_sessions target) (λ r db',
    let n := Z.of_nat (length ss) in
    let a := Z.of_nat (length (select (λ s, is_some (owner s)) ss)) in
    r = inr (mk_assigned a (n - a)) ∧ logs_only assigned_db db' ∧
    (a = 0 → n ≠ 0 → ∃ ns, db' = db <| db_notifications := db_notifications db ++ ns |> ∧
       ntf_user <$> ns = notify_recipients db [] (Some IFO_ADMIN))) db.
Proof using All.
  unfold assign_online_sessions. wp_step. apply wp_get_active_term; [|by rewrite Hact|].
  2:{ unfold one_active_term. rewrite Hact. simpl. lia. }
  intros t' Ht'. assert (t' = t) as -> by congruence. wp_step. wp_step. fold ss.
  assert (select (λ s, is_some (owner s)) ss = [] → assigned_db = db) as Hnone.
  { intros Hsel. unfold assigned_db. rewrite update_where_none; [apply db_sessions_same|].
    intros s Hs. destruct (is_some (owner s)) eqn:Ei; [|done]. rewrite <- Ei.
    apply (proj1 (select_nil _ _) Hsel). by apply owner_candidate. }
  destruct (decide (ss = [])) as [Ess|Ess].
  { rewrite Ess. wp_step. rewrite Ess in Hnone. by rewrite Hnone. }
  rewrite (match_cons Ess). wp_step. wp_step. fold duties. cbv zeta.
  destruct (online_mapping duties ss) as [|[k c] m] eqn:Em.
  - assert (select (λ s, is_some (owner s)) ss = []) as Hsel
      by (apply select_nil; intros s _; unfold owner; by rewrite Em).
    rewrite Hsel, Hnone by done. wp_step. apply wp_notify. intros ns Hns _. wp_step.
    split_and!; [do 2 f_equal; simpl; lia|apply logs_only_notified|by exists ns].
  - rewrite <- Em. wp_step. eapply wp_mono; [apply (assign_all_wp db); [done| |by apply candidates_NoDup]|].
    { by intros s [? _]%elem_of_candidates. }
    intros r db1 (counts & -> & Hz & Hl). rewrite assigned_all in Hl. wp_step.
    apply wp_logging; [apply logging_for_each; intros; apply logging_notify_assigned|].
    intros db2 Hl2. wp_step. rewrite Hz. split_and!; [done|by etransitivity|].
    intros Ha _. exfalso. apply mapping_some in Em. destruct (select _ ss); [done|].
    simpl in Ha. lia.
Qed.
End assign.

(** C12: assigning a date's online sessions gives every waiting session that some
    online checker's duty covers to such a checker, and leaves the others, and
    every session that already has an owner, as they were; among the [n] sessions
    with one pool of [k] checkers each checker gets [n / k] or [n / k + 1].  The
    counts returned are exact, and when nothing can be assigned the IFO
    administrators are told once. *)
Theorem assign_online_exact db target t :
  pk_unique (db_sessions db) → select is_active_term (db_terms db) = [t] →
  ∃ own : Session → option Z,
    (∀ s, s ∈ db_sessions db → is_some (own s) = true → waiting db target t s) ∧
    (∀ s, waiting db target t s →
       match own s with
       | Some c => on_online_duty db target t s c
       | None => ∀ c, ¬ on_online_duty db target t s c
       end) ∧
    (∀ s c, on_online_duty db target t s c →
       let duties := online_duty_assignments db target t in
       let k := length (eligible duties s) in
       let peers := sharing duties (candidate_online_sessions db target t) (eligible duties s) in
       let mine := select (λ x, bool_decide (own x = Some c)) peers in
       (length peers / k ≤ length mine ≤ length peers / k + 1)%nat) ∧
    wp (assign_online_sessions target) (λ r db',
      let ss := candidate_online_sessions db target t in
      let n := Z.of_nat (length ss) in
      let a := Z.of_nat (length (select (λ s, is_some (own s)) ss)) in
      r = inr (mk_assigned a (n - a)) ∧
      logs_only (db <| db_sessions := update_where (λ s, is_some (own s))
                   (λ s, s <| ses_online_checker := own s |>) (db_sessions db) |>) db' ∧
      (a = 0 → n ≠ 0 → ∃ ns, db' = db <| db_notifications := db_notifications db ++ ns |> ∧
         ntf_user <$> ns = notify_recipients db [] (Some IFO_ADMIN))) db.
Proof.
  intros Hu Hact. exists (owner db target t). split_and!.
  - intros s Hs Hk. by apply elem_of_candidates, owner_candidate.
  - by apply owner_on_duty.
  - by apply owner_fair.
  - by apply assign_wp.
Qed.

(** ** Witness: two online classes, one checker standing, one until nine *)
Definition online_session (k h : Z) : Session :=
  (demo_session k monday SCHEDULED) <| ses_declared := Some ONLINE |>
    <| ses_sched_start := at_ h 0 |> <| ses_sched_end := at_ (h + 1) 0 |>.
Definition online_posting (k u : Z) (date en : option Z) : Assignment :=
  {| asg_pk := k; asg_user := u; asg_role := DUTY_CHECKER; asg_floors := [];
     asg_scope := ONLINE_SCOPE; asg_date := date; asg_start := None; asg_end := en;
     asg_term := Some 1; asg_status := "active"; asg_type := STANDING |}.
Definition demo_online : DB :=
  demo_db <| db_sessions := [online_session 1 9; online_session 2 8; online_session 3 8] |>
          <| db_assignments := [online_posting 1 2 None None;
               online_posting 2 5 (Some monday) (Some (PyTime.mk_time 8 30))] |>.
Lemma assign_online_exact_witness :
  (∃ own : Session → option Z,
    (∀ s, s ∈ db_sessions demo_online → is_some (own s) = true → waiting demo_online monday demo_term s) ∧
    (∀ s, waiting demo_online monday demo_term s →
       match own s with
       | Some c => on_online_duty demo_online monday demo_term s c
       | None => ∀ c, ¬ on_online_duty demo_online monday demo_term s c
       end)) ∧
  run (assign_online_sessions monday) demo_online = inr (mk_assigned 3 0) ∧
  ses_online_checker <$> db_sessions (exec (assign_online_sessions monday) demo_online) =
    [Some 2; Some 2; Some 5].
Proof.
  split; [|split; vm_compute; reflexivity].
  destruct (assign_online_exact demo_online monday demo_term ltac:(decide_now) eq_refl)
    as (own & H1 & H2 & _). by exists own.
Defined.
