(* ===== verification/Suspensions.v ===== *)
(** scheduling/suspensions.py: the calendar excusal shared by the sweep and the
    materializer, declaring a class suspension and lifting one. *)
From S2P Require Import Prelude Python Model Effects Ops Sample.
Open Scope Z_scope.

(** ** ClassSuspension.covers *)
Definition covers (sp : ClassSuspension) (d : Z) (building_id : option Z) : bool :=
  if is_some (sus_lifted_at sp) then false
  else if negb ((sus_start sp <=? d) && (d <=? sus_end sp)) then false
  else is_none (sus_building sp) || bool_decide (sus_building sp = building_id).

(** ** excused_checker

    The closure returned by the code: the breaks and the active suspensions of a
    term as they were when it was built. *)
Record Excusal := { exc_breaks : list (Z * Z); exc_suspensions : list ClassSuspension }.
Definition no_excusal : Excusal := {| exc_breaks := []; exc_suspensions := [] |}.
Definition excused (e : Excusal) (d : Z) (building_id : option Z) : bool :=
  existsb (λ b, (b.1 <=? d) && (d <=? b.2)) (exc_breaks e)
  || existsb (λ sp, covers sp d building_id) (exc_suspensions e).

Definition excusal_of (db : DB) (t : Z) : Excusal := {|
  exc_breaks := (λ b, (brk_start b, brk_end b)) <$> select (λ b, brk_term b =? t) (db_breaks db);
  exc_suspensions :=
    select (λ sp, (sus_term sp =? t) && is_none (sus_lifted_at sp)) (db_suspensions db) |}.
Definition excused_checker_of (db : DB) (term : option AcademicTerm) : Excusal :=
  let term' := match term with
               | Some t => Some t
               | None => List.find is_active_term (db_terms db) end in
  match term' with
  | None => no_excusal
  | Some t => excusal_of db (term_pk t)
  end.
Definition excused_checker (term : option AcademicTerm) : M Excusal :=
  read (λ db, excused_checker_of db term).
(** [session_is_calendar_excused], with the closure passed by the caller *)
Definition session_is_calendar_excused (db : DB) (s : Session) (e : Excusal) : bool :=
  excused e (ses_date s) (room_building db (ses_room s)).

(** *** What a date and a building being excused means *)
Inductive calendar_excuses (db : DB) (t d : Z) (building : option Z) : Prop :=
  | excused_by_break b :
      b ∈ db_breaks db → brk_term b = t → brk_start b ≤ d ≤ brk_end b →
      calendar_excuses db t d building
  | excused_by_suspension sp :
      sp ∈ db_suspensions db → sus_term sp = t → sus_lifted_at sp = None →
      sus_start sp ≤ d ≤ sus_end sp →
      sus_building sp = None ∨ sus_building sp = building →
      calendar_excuses db t d building.

Lemma covers_iff sp d b :
  covers sp d b = true ↔
  sus_lifted_at sp = None ∧ sus_start sp ≤ d ≤ sus_end sp ∧
  (sus_building sp = None ∨ sus_building sp = b).
Proof.
  unfold covers, is_none, is_some. destruct (sus_lifted_at sp); [naive_solver|].
  destruct ((sus_start sp <=? d) && (d <=? sus_end sp)) eqn:E; simpl; b2p.
  - destruct (sus_building sp); simpl; b2p; naive_solver.
  - split; [done|]. intros (_ & ? & _). exfalso. lia.
Qed.

Lemma excused_spec db t d building :
  excused (excused_checker_of db (Some t)) d building = true ↔
  calendar_excuses db (term_pk t) d building.
Proof.
  unfold excused, excused_checker_of, excusal_of. simpl.
  rewrite orb_true_iff, !existsb_elem. split.
  - intros [(p & (b & -> & Hb)%list_elem_of_fmap & Hp)|(sp & Hsp & Hc)].
    + apply elem_of_select in Hb as [Hb Ht]. simpl in *. b2p. by eapply excused_by_break.
    + apply elem_of_select in Hsp as [Hsp Ht]. apply covers_iff in Hc as (Hl & Hd & Hb).
      b2p. destruct Ht. by eapply excused_by_suspension.
  - intros [b Hb Ht Hd|sp Hsp Ht Hl Hd Hb].
    + left. exists (brk_start b, brk_end b). simpl. b2p. split; [|lia].
      apply list_elem_of_fmap. exists b. split; [done|]. apply elem_of_select. by b2p.
    + right. exists sp. split; [|by apply covers_iff].
      apply elem_of_select. rewrite Hl. simpl. by b2p.
Qed.

(** A date of a term is excused for a building exactly when one of the
    term's breaks contains it, or an un-lifted suspension of the term contains
    it that is campus-wide or names that building. *)
Theorem excused_iff db t d building :
  excused (excused_checker_of db (Some t)) d building = true ↔
  calendar_excuses db (term_pk t) d building.
Proof. apply excused_spec. Qed.

(** ** suspend_classes *)
Definition FLIP_CHUNK : nat := 900.

Definition get_term_for_update (t : Z) : M AcademicTerm := get_pk t.

(** The still-scheduled sessions a suspension covers. *)
Definition suspension_covers (term start_date end_date : Z) (building : option Z)
    (st : SessionStatus) (db : DB) (s : Session) : bool :=
  in_term db term s && has_status st s
  && ((start_date <=? ses_date s) && (ses_date s <=? end_date))
  && match building with
     | None => true
     | Some b => bool_decide (room_building db (ses_room s) = Some b)
     end.

Definition cancel_session (reason : string) (s : Session) : Session :=
  s <| ses_status := CANCELLED |> <| ses_cancel_reason := PyStr.take 200 reason |>.

(** [counts[fid] = counts.get(fid, 0) + 1] over the rows *)
Definition count_by (keys : list Z) : dict Z Z :=
  foldl (λ d k, dict_set d k (dict_getd d k 0 + 1)) [] keys.

Definition flip_batch (ids : list Z) (f : Session → Session) (actor : option Z)
    (event : string) (payload : json) : M unit :=
  for_each (chunks FLIP_CHUNK ids) (λ chunk,
    update_rows (R:=Session) (mem_pk chunk) f ≫= λ _,
    audit_bulk actor event "session" payload chunk).

Definition suspended_body (n start_date : Z) (scope reason : string) : string :=
  PyStr.str n +:+ " of your class session(s) on " +:+ PyTime.date_str start_date +:+ " ("
  +:+ scope +:+ ") are cancelled -- " +:+ reason +:+ ". No check-in needed.".

Definition notify_suspended (start_date : Z) (scope reason : string) (p : Z * Z) : M unit :=
  read (λ db, by_pk (db_users db) p.1) ≫= λ user,
  match user with
  | None => mret ()
  | Some u => notify [usr_pk u] None "class_suspended" "Classes suspended"
                (suspended_body p.2 start_date scope reason) ""
  end.

Definition suspend_classes (term start_date end_date : Z) (reason : string)
    (building : option Building) (declared_by : option Z) : M (ClassSuspension * Z) :=
  atomic (
    get_term_for_update term ≫= λ t,
    require_writable_term t ≫= λ t,
    create (λ k, {| sus_pk := k; sus_term := term_pk t; sus_start := start_date;
                    sus_end := end_date; sus_building := bld_pk <$> building;
                    sus_reason := reason; sus_declared_by := declared_by;
                    sus_lifted_at := None; sus_lifted_by := None |}) ≫= λ suspension,
    objects_join (suspension_covers (term_pk t) start_date end_date (bld_pk <$> building)
                    SCHEDULED) ≫= λ rows,
    match rows with
    | [] => mret (suspension, 0)
    | _ =>
        let ids := ses_pk <$> rows in
        flip_batch ids (cancel_session reason) declared_by "session.cancelled"
          (JObj [("reason", JStr reason); ("suspension", JInt (sus_pk suspension))]%string)
        ≫= λ _,
        let scope := match building with Some b => bld_code b | None => "all campuses"%string end in
        for_each (count_by (ses_faculty <$> rows)) (notify_suspended start_date scope reason)
        ≫= λ _,
        mret (suspension, Z.of_nat (length ids))
    end).

(** ** lift_suspension *)
Definition reinstate_session (s : Session) : Session :=
  s <| ses_status := SCHEDULED |> <| ses_cancel_reason := ""%string |>.
(** [ci] is the collation of the text columns: two reasons the database takes for the same
    have the same image. *)
Definition lift_covers (ci : string → string) (sp : ClassSuspension) (db : DB) (s : Session) : bool :=
  suspension_covers (sus_term sp) (sus_start sp) (sus_end sp) (sus_building sp) CANCELLED db s
  && bool_decide (ci (ses_cancel_reason s) = ci (PyStr.take 200 (sus_reason sp))).

Definition lift_suspension (ci : string → string) (suspension : Z) (lifted_by : option Z) (now : Z) : M Z :=
  atomic (
    get_pk (R:=ClassSuspension) suspension ≫= λ sp,
    get_pk (R:=AcademicTerm) (sus_term sp) ≫= λ t,
    require_writable_term t ≫= λ _,
    if is_some (sus_lifted_at sp) then mret 0 else
    objects_join (lift_covers ci sp) ≫= λ rows,
    let ids := ses_pk <$> rows in
    flip_batch ids reinstate_session lifted_by "session.suspension_lifted"
      (JObj [("suspension", JInt (sus_pk sp))]%string) ≫= λ _,
    save suspension (λ x, x <| sus_lifted_at := Some now |> <| sus_lifted_by := lifted_by |>)
    ≫= λ _,
    mret (Z.of_nat (length ids))).

(** ** The batch flip *)
Lemma flip_batch_spec ids f actor event payload db :
  (∀ s, ses_pk (f s) = ses_pk s) → (∀ s, f (f s) = f s) →
  wp (flip_batch ids f actor event payload)
    (λ r db', r = inr () ∧
      logs_only (db <| db_sessions := update_where (mem_pk ids) f (db_sessions db) |>) db') db.
Proof.
  intros Hpk Hf. unfold flip_batch.
  apply wp_mono with (λ r db', match r with
    | inl e => False
    | inr _ => logs_only (db <| db_sessions :=
        update_where (mem_pk (concat (chunks FLIP_CHUNK ids))) f (db_sessions db) |>) db' end).
  - apply (wp_for_each _ _ (λ done db', logs_only (db <| db_sessions :=
      update_where (mem_pk (concat done)) f (db_sessions db) |>) db') (λ _ _, False)).
    + simpl. rewrite update_where_none by done. by destruct db.
    + intros done c todo db' _ Hdb. wp_auto. etransitivity; [|eassumption].
      apply (logs_only_sessions (update_where (mem_pk c) f)) in Hdb. simpl in Hdb.
      rewrite (update_where_mem_app (concat done) c) in Hdb by done.
      rewrite concat_app. simpl. by rewrite app_nil_r.
  - intros [e|[]] db' Hdb; [done|]. split; [done|].
    by rewrite concat_chunks in Hdb by (unfold FLIP_CHUNK; lia).
Qed.

Lemma flip_selected_spec p f actor event payload t db :
  db_sessions db = t → pk_unique t →
  (∀ s, ses_pk (f s) = ses_pk s) → (∀ s, f (f s) = f s) →
  wp (flip_batch (ses_pk <$> select p t) f actor event payload)
    (λ r db', r = inr () ∧
      logs_only (db <| db_sessions := update_where p f t |>) db') db.
Proof.
  intros <- Huniq Hpk Hf. rewrite <- (update_where_selected p f (db_sessions db)) by done.
  by apply flip_batch_spec.
Qed.

Lemma suspension_covers_pk term a b building st db s :
  suspension_covers term a b building st db s = true →
  in_term db term s = true ∧ ses_status s = st ∧ a ≤ ses_date s ≤ b.
Proof. unfold suspension_covers, has_status. intros H. b2p. naive_solver. Qed.

Lemma notify_suspended_logging d sc re p : logging (notify_suspended d sc re p).
Proof.
  intros db. unfold notify_suspended, mbind, M_bind, read. cbv beta iota.
  destruct (by_pk (db_users db) p.1); [apply logging_notify|apply logging_ret].
Qed.

(** The suspension row that [suspend_classes] creates. *)
Definition declared (db : DB) (term a b : Z) (reason : string) (building : option Building)
    (by_ : option Z) : ClassSuspension :=
  {| sus_pk := fresh_pk (db_suspensions db); sus_term := term; sus_start := a; sus_end := b;
     sus_building := bld_pk <$> building; sus_reason := reason; sus_declared_by := by_;
     sus_lifted_at := None; sus_lifted_by := None |}.

Section suspend.
Context (db : DB) (Huniq : pk_unique (db_sessions db)).
Context (term a b : Z) (reason : string) (building : option Building) (by_ : option Z).
Let p := suspension_covers term a b (bld_pk <$> building) SCHEDULED db.
Let sus := declared db term a b reason building by_.

Lemma suspend_classes_wp t :
  by_pk (db_terms db) term = Some t → term_status t ≠ T_ARCHIVED →
  wp (suspend_classes term a b reason building by_)
    (λ r db', r = inr (sus, Z.of_nat (length (select p (db_sessions db)))) ∧
      logs_only (db <| db_suspensions := db_suspensions db ++ [sus] |>
                    <| db_sessions := update_where p (cancel_session reason)
                                        (db_sessions db) |>) db') db.
Proof.
  intros Ht Hw. assert (term_pk t = term) as Hpk by by apply by_pk_elem in Ht as [_ ?].
  unfold suspend_classes, get_term_for_update. wp_step. wp_step.
  apply wp_get_pk; [|simpl; congruence]. simpl. intros t' Ht'. assert (t' = t) as -> by congruence.
  wp_step. apply wp_require_writable; [intros _|done]. wp_auto. simpl.
  rewrite Hpk. fold (declared db term a b reason building by_). fold sus.
  change (suspension_covers _ _ _ _ _ _) with p.
  destruct (select p (db_sessions db)) as [|s rows] eqn:Esel.
  - wp_step. simpl. split; [done|]. rewrite update_where_none by by apply select_nil.
    by destruct db.
  - rewrite <- Esel. wp_step. eapply wp_mono; [by apply flip_selected_spec|]. cbv beta.
    intros r db1 [-> Hdb1]. wp_step. apply wp_logging.
    { apply logging_for_each. intros. apply notify_suspended_logging. }
    intros db2 Hdb2. wp_step. rewrite length_fmap. split; [done|].
    etransitivity; [exact Hdb1|exact Hdb2].
Qed.
End suspend.

(** Declaring a suspension of a writable term records it and cancels exactly
    the sessions of that term that are still scheduled, dated inside the range
    and, when a building is named, held in that building, stamping the reason;
    every other session is left as it was, the count returned is the number
    cancelled, and besides those two tables only the audit log and the
    notifications are appended to. *)
Theorem suspend_classes_effect db term t a b reason building by_ :
  pk_unique (db_sessions db) → by_pk (db_terms db) term = Some t →
  term_status t ≠ T_ARCHIVED →
  wp (suspend_classes term a b reason building by_)
    (λ r db',
      let p := suspension_covers term a b (bld_pk <$> building) SCHEDULED db in
      let sus := declared db term a b reason building by_ in
      r = inr (sus, Z.of_nat (length (select p (db_sessions db)))) ∧
      logs_only (db <| db_suspensions := db_suspensions db ++ [sus] |>
                    <| db_sessions := update_where p (cancel_session reason)
                                        (db_sessions db) |>) db') db.
Proof. intros. by eapply suspend_classes_wp. Qed.

(** A suspension of an unknown or archived term is refused and the database
    is exactly what it was. *)
Theorem suspend_classes_refused db term a b reason building by_ :
  (∀ t, by_pk (db_terms db) term = Some t → term_status t = T_ARCHIVED) →
  ∃ e, suspend_classes term a b reason building by_ db = (inl e, db) ∧
    (e = DoesNotExist ∨ e = ArchivedTermError "archived academic terms are read-only").
Proof.
  intros H. unfold suspend_classes, atomic, get_term_for_update, get_pk.
  unfold mbind, M_bind, read, of_option. simpl.
  destruct (by_pk (db_terms db) term) as [t|] eqn:E; [|by eauto].
  simpl. unfold require_writable_term. rewrite bool_decide_true by auto. by eauto.
Qed.

Section lift.
Context (ci : string → string) (db : DB) (Huniq : pk_unique (db_sessions db)).
Context (k : Z) (by_ : option Z) (now : Z) (sp : ClassSuspension) (t : AcademicTerm).
Context (Hsp : by_pk (db_suspensions db) k = Some sp).
Context (Ht : by_pk (db_terms db) (sus_term sp) = Some t) (Hw : term_status t ≠ T_ARCHIVED).
Context (Hl : sus_lifted_at sp = None).

Definition lifted (x : ClassSuspension) : ClassSuspension :=
  x <| sus_lifted_at := Some now |> <| sus_lifted_by := by_ |>.

Lemma lift_suspension_wp :
  wp (lift_suspension ci k by_ now)
    (λ r db', r = inr (Z.of_nat (length (select (lift_covers ci sp db) (db_sessions db)))) ∧
      logs_only (db <| db_suspensions := update_pk k lifted (db_suspensions db) |>
                    <| db_sessions := update_where (lift_covers ci sp db) reinstate_session
                                        (db_sessions db) |>) db') db.
Proof using All.
  unfold lift_suspension. wp_step. wp_step. apply wp_get_pk; [|simpl; congruence].
  simpl. intros sp' Hsp'. assert (sp' = sp) as -> by congruence.
  wp_step. apply wp_get_pk; [|simpl; congruence].
  simpl. intros t' Ht'. assert (t' = t) as -> by congruence.
  wp_step. apply wp_require_writable; [intros _|done]. rewrite Hl. cbv beta iota delta [is_some].
  wp_step. wp_step. wp_step. eapply wp_mono; [by apply flip_selected_spec|]. cbv beta.
  intros r db1 [-> (A & N & ->)]. wp_step. apply wp_save; simpl.
  - intros _. wp_step. rewrite length_fmap. split; [done|]. exists A, N. reflexivity.
  - intros Hex. rewrite existing_by_pk, Hsp in Hex. done.
Qed.
End lift.

(** Lifting an active suspension of a writable term puts back to scheduled
    exactly the sessions still cancelled with its reason in its range and
    building, and stamps the suspension lifted; nothing else changes. *)
Theorem lift_suspension_effect ci db k by_ now sp t :
  pk_unique (db_sessions db) → by_pk (db_suspensions db) k = Some sp →
  by_pk (db_terms db) (sus_term sp) = Some t → term_status t ≠ T_ARCHIVED →
  sus_lifted_at sp = None →
  wp (lift_suspension ci k by_ now)
    (λ r db', r = inr (Z.of_nat (length (select (lift_covers ci sp db) (db_sessions db)))) ∧
      logs_only (db <| db_suspensions := update_pk k (lifted by_ now) (db_suspensions db) |>
                    <| db_sessions := update_where (lift_covers ci sp db) reinstate_session
                                        (db_sessions db) |>) db') db.
Proof. intros. by eapply lift_suspension_wp. Qed.

(** C23: declaring a suspension and lifting it at once restores the sessions
    table exactly, provided none of the sessions it covers was already cancelled for a
    reason the database takes for the same (reasons are compared under the collation of
    their column), and the scheduled ones it covers carried no cancellation reason. *)
Theorem suspend_then_lift_restores ci db term t a b reason building by_ by' now :
  pk_unique (db_sessions db) → by_pk (db_terms db) term = Some t →
  term_status t ≠ T_ARCHIVED →
  (∀ s, s ∈ db_sessions db → suspension_covers term a b (bld_pk <$> building) CANCELLED db s = true →
     ci (ses_cancel_reason s) ≠ ci (PyStr.take 200 reason)) →
  (∀ s, s ∈ db_sessions db → suspension_covers term a b (bld_pk <$> building) SCHEDULED db s = true →
     ses_cancel_reason s = ""%string) →
  wp (suspend_classes term a b reason building by_ ≫= λ r,
      lift_suspension ci (sus_pk r.1) by' now)
    (λ r db', ∃ n, r = inr n ∧ db_sessions db' = db_sessions db) db.
Proof.
  intros Huniq Ht Hw Hfresh Hblank. wp_step.
  eapply wp_mono; [by eapply suspend_classes_wp|]. cbv beta. intros r db1 [-> Hdb1].
  set (sus := declared db term a b reason building by_) in *.
  set (p := suspension_covers term a b (bld_pk <$> building) SCHEDULED db) in *.
  destruct Hdb1 as (A & N & ->). cbn [fst]. eapply wp_mono.
  { apply (lift_suspension_wp ci _) with (sp := sus) (t := t); [| | |done|done]; simpl.
    - by apply pk_unique_update.
    - by apply by_pk_insert.
    - done. }
  cbv beta. intros r db2 [-> (A' & N' & ->)]. eexists. split; [done|]. simpl.
  rewrite update_where_twice. rewrite <- (list_fmap_id (db_sessions db)) at 2.
  apply list_fmap_ext. intros i s Hs%list_elem_of_lookup_2. simpl.
  destruct (p s) eqn:Ep.
  - assert (ses_status s = SCHEDULED) as Hst by by apply suspension_covers_pk in Ep as (_ & ? & _).
    destruct (lift_covers _ _ _ _) eqn:E.
    + pose proof (Hblank s Hs Ep). destruct s; simpl in *. by subst.
    + exfalso. apply not_true_iff_false in E. apply E. unfold lift_covers.
      apply andb_true_iff. split; [|by apply bool_decide_eq_true].
      unfold p, suspension_covers, has_status in *. simpl. b2p. tauto.
  - destruct (lift_covers _ _ _ s) eqn:E; [|done]. exfalso.
    unfold lift_covers in E. apply andb_true_iff in E as [Ec Er]. apply bool_decide_eq_true in Er.
    by apply (Hfresh s Hs Ec).
Qed.

(** ** Witnesses on the sample campus *)
Lemma suspend_classes_effect_witness :
  run (suspend_classes 1 monday monday "typhoon" (Some demo_building) (Some 4)) demo_db =
  inr (declared demo_db 1 monday monday "typhoon" (Some demo_building) (Some 4), 1).
Proof.
  refine (proj1 (suspend_classes_effect demo_db 1 demo_term monday monday "typhoon"
    (Some demo_building) (Some 4) _ eq_refl _)); [decide_now|discriminate].
Defined.

Lemma suspend_classes_refused_witness :
  ∃ e, suspend_classes 9 monday monday "typhoon" None None demo_db = (inl e, demo_db) ∧
    (e = DoesNotExist ∨ e = ArchivedTermError "archived academic terms are read-only").
Proof. apply suspend_classes_refused. intros t Ht. vm_compute in Ht. discriminate Ht. Defined.

(** The sample campus after a campus-wide suspension of its Monday. *)
Definition demo_suspended : DB :=
  exec (suspend_classes 1 monday monday "typhoon" None (Some 4)) demo_db.
Lemma lift_suspension_effect_witness :
  run (lift_suspension PyStr.upper 1 (Some 4) (at_ 8 0)) demo_suspended = inr 1.
Proof.
  refine (proj1 (lift_suspension_effect PyStr.upper demo_suspended 1 (Some 4) (at_ 8 0)
    (declared demo_db 1 monday monday "typhoon" None (Some 4)) demo_term _ _ _ _ _));
    [decide_now|reflexivity|reflexivity|discriminate|reflexivity].
Defined.

Lemma suspend_then_lift_restores_witness :
  db_sessions demo_suspended ≠ db_sessions demo_db ∧
  wp (suspend_classes 1 monday monday "typhoon" None (Some 4) ≫= λ r,
      lift_suspension PyStr.upper (sus_pk r.1) None (at_ 8 0))
    (λ r db', ∃ n, r = inr n ∧ db_sessions db' = db_sessions demo_db) demo_db.
Proof.
  split; [intros H; vm_compute in H; discriminate H|].
  apply suspend_then_lift_restores with (t := demo_term);
    [decide_now|reflexivity|discriminate| |];
    intros s Hs; each_row Hs; vm_compute; done.
Defined.
