(* ===== verification/Availability.v ===== *)
(** ops/availability.py: the one answer to "is this room free for [start, end)?"
    and the pickers built on it. *)
From S2P Require Import Prelude Python Model Effects Ops Suspensions Sample.
Open Scope Z_scope.

Definition DAY_OPEN : Z := PyTime.mk_time 7 0.
Definition DAY_CLOSE : Z := PyTime.mk_time 21 0.

(** [status__in=_OCCUPYING_STATUSES] *)
Definition occupying_status (s : Session) : bool := has_status SCHEDULED s || has_status ACTIVE s.
Definition not_excluded (k : Z) (excl : option Z) : bool := negb (bool_decide (excl = Some k)).

(** ** The four kinds of occupant *)
Definition session_occupants (db : DB) (room start end_ : Z) (exclude_session : option Z)
    : list Session :=
  select (λ s, (ses_room s =? room) && occupying_status s && is_none (ses_released_at s)
               && overlaps (ses_sched_start s) (ses_sched_end s) start end_
               && not_excluded (ses_pk s) exclude_session) (db_sessions db).

Definition item_request (db : DB) (it : ModalityShiftItem) : option ModalityShiftRequest :=
  by_pk (db_requests db) (it_request it).
(** [request__status=APPROVED] and the window containing [d] *)
Definition approved_on (db : DB) (d : Z) (it : ModalityShiftItem) : bool :=
  match item_request db it with
  | Some r => bool_decide (req_status r = R_APPROVED) && ((req_wstart r <=? d) && (d <=? req_wend r))
  | None => false
  end.
Definition item_target (db : DB) (it : ModalityShiftItem) : option Modality :=
  req_target <$> item_request db it.

(** The slot of an item on [d]: its time move, else its schedule's own times. *)
Definition item_slot (sch : Schedule) (it : ModalityShiftItem) (d : Z) : Z * Z :=
  (PyTime.aware d (default (sch_start sch) (it_new_start it)),
   PyTime.aware d (default (sch_end sch) (it_new_end it))).
Definition reserves (db : DB) (room start end_ : Z) (exclude_schedule : option Z)
    (it : ModalityShiftItem) : bool :=
  let local_date := PyTime.local_date start in
  match by_pk (db_schedules db) (it_schedule it) with
  | Some sch =>
      bool_decide (it_assigned it = Some room) && approved_on db local_date it
      && (sch_day sch =? PyTime.weekday local_date)
      && negb (bool_decide (item_target db it = Some ONLINE))
      && not_excluded (it_schedule it) exclude_schedule
      && let '(r_start, r_end) := item_slot sch it local_date in
         overlaps r_start r_end start end_
  | None => false
  end.
Definition reservation_occupies (db : DB) (room start end_ : Z) (exclude_schedule : option Z)
    : bool :=
  existsb (reserves db room start end_ exclude_schedule) (db_items db).

(** [order_by("schedule_id", "-request__decided_at", "-pk")], a missing
    [decided_at] being lowest. *)
Definition decided_key (db : DB) (it : ModalityShiftItem) : option Z :=
  item_request db it ≫= req_decided_at.
Definition opt_leb (a b : option Z) : bool :=
  match a, b with None, _ => true | Some _, None => false | Some x, Some y => x <=? y end.
Definition newest_first (db : DB) (a b : ModalityShiftItem) : bool :=
  if it_schedule a =? it_schedule b then
    if bool_decide (decided_key db a = decided_key db b) then it_pk b <=? it_pk a
    else opt_leb (decided_key db b) (decided_key db a)
  else it_schedule a <? it_schedule b.
Definition latest_shifts (db : DB) (schedule_ids : list Z) (d : Z) : dict Z ModalityShiftItem :=
  let approved_items := sort_by (newest_first db)
    (select (λ it, bool_decide (it_schedule it ∈ schedule_ids) && approved_on db d it)
            (db_items db)) in
  foldl (λ m it, dict_setdefault m (it_schedule it) it) [] approved_items.

(** The recurring classes of the room on that date of their active term. *)
Definition recurring_on (db : DB) (room d : Z) (exclude_schedule : option Z) (sch : Schedule)
    : bool :=
  (sch_room sch =? room) && bool_decide (sch_status sch = SCH_ACTIVE)
  && match by_pk (db_terms db) (sch_term sch) with
     | Some t => is_active_term t && ((term_start t <=? d) && (d <=? term_end t))
     | None => false
     end
  && (sch_day sch =? PyTime.weekday d) && not_excluded (sch_pk sch) exclude_schedule.
(** The body of the loop over the schedules. *)
Definition occurrence_holds (db : DB) (materialized : list Z)
    (latest : dict Z ModalityShiftItem) (d start end_ : Z) (sch : Schedule) : bool :=
  if bool_decide (sch_pk sch ∈ materialized) then false
  else if excused (excused_checker_of db (by_pk (db_terms db) (sch_term sch))) d
            (room_building db (sch_room sch)) then false
  else
    let held := overlaps (PyTime.aware d (sch_start sch)) (PyTime.aware d (sch_end sch))
                  start end_ in
    match dict_get latest (sch_pk sch) with
    | Some shift =>
        if bool_decide (item_target db shift = Some ONLINE) then false
        else if is_some (it_assigned shift) then false
        else held
    | None => if bool_decide (sch_modality sch = ONLINE) then false else held
    end.
Definition schedule_occupies (db : DB) (room start end_ : Z) (exclude_schedule : option Z)
    : bool :=
  let local_date := PyTime.local_date start in
  match select (recurring_on db room local_date exclude_schedule) (db_schedules db) with
  | [] => false
  | schedules =>
      let schedule_ids := sch_pk <$> schedules in
      let materialized_ids := ses_schedule <$>
        select (λ s, bool_decide (ses_schedule s ∈ schedule_ids) && (ses_date s =? local_date))
               (db_sessions db) in
      let latest_shift := latest_shifts db schedule_ids local_date in
      existsb (occurrence_holds db materialized_ids latest_shift local_date start end_) schedules
  end.

Definition booking_overlaps (room start end_ : Z) (b : Booking) : bool :=
  (bkg_room b =? room) && bool_decide (bkg_status b = "active"%string)
  && overlaps (bkg_start b) (bkg_end b) start end_.

Definition room_is_free (db : DB) (room start end_ : Z)
    (exclude_session exclude_schedule : option Z) : bool :=
  if existsb (λ s, negb (effective_online db s))
       (session_occupants db room start end_ exclude_session) then false
  else match select (booking_overlaps room start end_) (db_bookings db) with
  | _ :: _ => false
  | [] =>
      if schedule_occupies db room start end_ exclude_schedule then false
      else if reservation_occupies db room start end_ exclude_schedule then false
      else true
  end.

Definition faculty_has_conflict (db : DB) (faculty start end_ : Z)
    (exclude_session : option Z) : bool :=
  match select (λ s, (ses_faculty s =? faculty) && occupying_status s
                     && overlaps (ses_sched_start s) (ses_sched_end s) start end_
                     && not_excluded (ses_pk s) exclude_session) (db_sessions db) with
  | [] => false
  | _ => true
  end.

(** ** The pickers *)
Definition code_le (a b : Room) : bool := String.leb (room_code a) (room_code b).
Definition prefer_first (prefer : option Z) (free : list Room) : list Room :=
  match prefer with
  | Some p =>
      if existsb (λ r, room_pk r =? p) free
      then select (λ r, room_pk r =? p) free ++ select (λ r, negb (room_pk r =? p)) free
      else free
  | None => free
  end.
Definition free_rooms_in_building (db : DB) (building start end_ : Z)
    (exclude_session prefer_room : option Z) : list Room :=
  let candidates := sort_by code_le
    (select (λ r, bool_decide (room_building db (room_pk r) = Some building)) (db_rooms db)) in
  prefer_first prefer_room
    (select (λ r, room_is_free db (room_pk r) start end_ exclude_session None) candidates).

(** [session.schedule.room.floor.building] *)
Definition schedule_building (db : DB) (s : Session) : option Z :=
  sch ← by_pk (db_schedules db) (ses_schedule s); room_building db (sch_room sch).

Definition available_rooms_for (db : DB) (s : Session) : option (list Room) :=
  sch ← by_pk (db_schedules db) (ses_schedule s);
  building ← room_building db (sch_room sch);
  Some (free_rooms_in_building db building (ses_sched_start s) (ses_sched_end s)
          (Some (ses_pk s)) (Some (sch_room sch))).

(** The guards on one candidate slot *)
Definition slot_offered (db : DB) (s : Session) (building c_start c_end : Z) : bool :=
  if (c_start =? ses_sched_start s) && (c_end =? ses_sched_end s) then false
  else match free_rooms_in_building db building c_start c_end (Some (ses_pk s)) None with
  | [] => false
  | _ => negb (faculty_has_conflict db (ses_faculty s) c_start c_end (Some (ses_pk s)))
  end.
(** The [while] loop; [None] when the fuel runs out before it ends. *)
Fixpoint times_loop (db : DB) (s : Session) (building duration day_close : Z) (fuel : nat)
    (cursor : Z) (slots : list (Z * Z)) : option (list (Z * Z)) :=
  match fuel with
  | O => None
  | S fuel' =>
      if cursor + duration <=? day_close then
        let c_start := cursor in
        let c_end := cursor + duration in
        times_loop db s building duration day_close fuel' c_end
          (if slot_offered db s building c_start c_end then slots ++ [(c_start, c_end)] else slots)
      else Some slots
  end.
(** [None] also when the schedule, room or floor row is missing. *)
Definition available_times_for (fuel : nat) (db : DB) (s : Session) : option (list (Z * Z)) :=
  building ← schedule_building db s;
  let duration := ses_sched_end s - ses_sched_start s in
  let day := PyTime.local_date (ses_sched_start s) in
  times_loop db s building duration (PyTime.aware day DAY_CLOSE) fuel
    (PyTime.aware day DAY_OPEN) [].

(** ** What it means for a room to be occupied *)
Definition meets (a b start end_ : Z) : Prop := a < end_ ∧ start < b.
Definition approved_for (db : DB) (d : Z) (it : ModalityShiftItem) (r : ModalityShiftRequest)
    : Prop :=
  item_request db it = Some r ∧ req_status r = R_APPROVED ∧ req_wstart r ≤ d ≤ req_wend r.
(** The approved shift that governs a schedule on a date: the last one decided. *)
Definition governs (db : DB) (k d : Z) (it : ModalityShiftItem) : Prop :=
  it ∈ db_items db ∧ it_schedule it = k ∧ (∃ r, approved_for db d it r) ∧
  ∀ it', it' ∈ db_items db → it_schedule it' = k → (∃ r, approved_for db d it' r) →
    newest_first db it it' = true.
(** On that date the recurring class holds its own room at its own times. *)
Definition unmoved (db : DB) (d : Z) (sch : Schedule) : Prop :=
  (∃ it, governs db (sch_pk sch) d it ∧ item_target db it ≠ Some ONLINE ∧ it_assigned it = None)
  ∨ ((∀ it, ¬ governs db (sch_pk sch) d it) ∧ sch_modality sch ≠ ONLINE).

Inductive room_occupied (db : DB) (room start end_ : Z) (xs xsch : option Z) : Prop :=
  | occupied_by_session s :
      s ∈ db_sessions db → ses_room s = room →
      ses_status s = SCHEDULED ∨ ses_status s = ACTIVE → ses_released_at s = None →
      effective_modality db s ≠ Some ONLINE → xs ≠ Some (ses_pk s) →
      meets (ses_sched_start s) (ses_sched_end s) start end_ →
      room_occupied db room start end_ xs xsch
  | occupied_by_booking b :
      b ∈ db_bookings db → bkg_room b = room → bkg_status b = "active"%string →
      meets (bkg_start b) (bkg_end b) start end_ →
      room_occupied db room start end_ xs xsch
  | occupied_by_recurring sch t :
      sch ∈ db_schedules db → sch_room sch = room → sch_status sch = SCH_ACTIVE →
      by_pk (db_terms db) (sch_term sch) = Some t → term_status t = T_ACTIVE →
      term_start t ≤ PyTime.local_date start ≤ term_end t →
      sch_day sch = PyTime.weekday (PyTime.local_date start) → xsch ≠ Some (sch_pk sch) →
      (∀ s, s ∈ db_sessions db → ses_schedule s = sch_pk sch →
         ses_date s ≠ PyTime.local_date start) →
      ¬ calendar_excuses db (term_pk t) (PyTime.local_date start) (room_building db room) →
      unmoved db (PyTime.local_date start) sch →
      meets (PyTime.aware (PyTime.local_date start) (sch_start sch))
            (PyTime.aware (PyTime.local_date start) (sch_end sch)) start end_ →
      room_occupied db room start end_ xs xsch
  | occupied_by_reservation it sch r :
      it ∈ db_items db → it_assigned it = Some room →
      approved_for db (PyTime.local_date start) it r → req_target r ≠ ONLINE →
      by_pk (db_schedules db) (it_schedule it) = Some sch →
      sch_day sch = PyTime.weekday (PyTime.local_date start) → xsch ≠ Some (it_schedule it) →
      meets (item_slot sch it (PyTime.local_date start)).1
            (item_slot sch it (PyTime.local_date start)).2 start end_ →
      room_occupied db room start end_ xs xsch.

Lemma overlaps_iff a b c d : overlaps a b c d = true ↔ meets a b c d.
Proof. unfold overlaps, meets. b2p. lia. Qed.
Lemma not_excluded_iff k x : not_excluded k x = true ↔ x ≠ Some k.
Proof. unfold not_excluded. by b2p. Qed.
Lemma is_none_iff {A} (o : option A) : is_none o = true ↔ o = None.
Proof. by destruct o. Qed.
#[export] Hint Rewrite overlaps_iff not_excluded_iff @is_none_iff : b2p.

Lemma occupying_status_iff s :
  occupying_status s = true ↔ ses_status s = SCHEDULED ∨ ses_status s = ACTIVE.
Proof. unfold occupying_status, has_status. by b2p. Qed.
Lemma approved_on_iff db d it : approved_on db d it = true ↔ ∃ r, approved_for db d it r.
Proof.
  unfold approved_on, approved_for. destruct (item_request db it) as [r|]; [|naive_solver].
  b2p. split; [intros [? ?]; by exists r|]. intros (? & [= <-] & ? & ?). done.
Qed.

Lemma opt_leb_total a b : opt_leb a b = true ∨ opt_leb b a = true.
Proof. destruct a, b; simpl; b2p; auto; lia. Qed.
Lemma opt_leb_antisym a b : opt_leb a b = true → opt_leb b a = true → a = b.
Proof. destruct a, b; simpl; b2p; try done. intros. f_equal. lia. Qed.
Lemma opt_leb_trans a b c : opt_leb a b = true → opt_leb b c = true → opt_leb a c = true.
Proof. destruct a, b, c; simpl; b2p; try done. lia. Qed.

(** The order of the approved items is a total preorder, antisymmetric on keys. *)
Lemma newest_first_total db x y : newest_first db x y = true ∨ newest_first db y x = true.
Proof.
  unfold newest_first. rewrite (Z.eqb_sym (it_schedule y)).
  destruct (Z.eqb_spec (it_schedule x) (it_schedule y)); [|b2p; lia].
  destruct (bool_decide_reflect (decided_key db x = decided_key db y)) as [Hk|Hk].
  - rewrite bool_decide_true by done. b2p. lia.
  - rewrite bool_decide_false by congruence. apply opt_leb_total.
Qed.
Lemma newest_first_refl db x : newest_first db x x = true.
Proof. by destruct (newest_first_total db x x). Qed.
Lemma newest_first_same db x y :
  it_schedule x = it_schedule y → newest_first db x y = true → newest_first db y x = true →
  it_pk x = it_pk y.
Proof.
  unfold newest_first. intros ->. rewrite Z.eqb_refl.
  destruct (bool_decide_reflect (decided_key db x = decided_key db y)) as [Hk|Hk].
  - rewrite bool_decide_true by done. b2p. lia.
  - rewrite bool_decide_false by congruence. intros H1 H2. destruct Hk. by apply opt_leb_antisym.
Qed.
Lemma newest_first_trans db x y z :
  newest_first db x y = true → newest_first db y z = true → newest_first db x z = true.
Proof.
  unfold newest_first.
  destruct (Z.eqb_spec (it_schedule x) (it_schedule y)), (Z.eqb_spec (it_schedule y) (it_schedule z)),
    (Z.eqb_spec (it_schedule x) (it_schedule z)); b2p; try lia.
  repeat case_bool_decide; b2p; try congruence; try lia; try (intros; by eapply opt_leb_trans).
  intros Ha Hb. exfalso. assert (decided_key db x = decided_key db y); [|done].
  apply opt_leb_antisym; congruence.
Qed.

Section spec.
Context (db : DB) (Hitems : pk_unique (db_items db)).

(** The dictionary built by [setdefault] over the ordered items holds, for each
    schedule, the approved shift that governs it. *)
Lemma latest_shifts_get ids d k it :
  k ∈ ids → dict_get (latest_shifts db ids d) k = Some it ↔ governs db k d it.
Proof.
  intros Hk. unfold latest_shifts. rewrite (dict_setdefault_find it_schedule (λ it, it)). simpl.
  rewrite option_fmap_id.
  set (l := select _ _).
  assert (∀ x, x ∈ l ∧ it_schedule x = k ↔
    x ∈ db_items db ∧ it_schedule x = k ∧ ∃ r, approved_for db d x r) as Hl.
  { intros x. unfold l. rewrite elem_of_select, andb_true_iff, approved_on_iff. b2p.
    split; [tauto|]. intros (? & <- & ?). tauto. }
  split.
  - intros Hf. pose proof (find_elem _ _ _ Hf) as [Hin Hik]. b2p.
    rewrite elem_of_sort_by in Hin. pose proof (proj1 (Hl it) (conj Hin Hik)) as (? & ? & ?).
    split; [done|]. split; [done|]. split; [done|]. intros it' Hi' Hk' Hr'.
    assert (it' ∈ l ∧ it_schedule it' = k) as [Hin' _] by by apply Hl.
    eapply (sorted_find _ (λ x, bool_decide (it_schedule x = k)));
      [|apply newest_first_refl|exact Hf| |by b2p].
    + apply sort_by_sorted; [apply newest_first_total|apply newest_first_trans].
    + by apply elem_of_sort_by.
  - intros (Hi & Hk' & Hr & Hmax).
    assert (it ∈ l ∧ it_schedule it = k) as [Hin _] by by apply Hl.
    destruct (List.find _ _) as [it0|] eqn:Ef.
    + f_equal. pose proof (find_elem _ _ _ Ef) as [Hin0 Hk0]. b2p.
      rewrite elem_of_sort_by in Hin0.
      pose proof (proj1 (Hl it0) (conj Hin0 Hk0)) as (Hi0 & _ & Hr0).
      assert (it_pk it0 = it_pk it) as Hpk.
      { apply (newest_first_same db); [congruence| |by apply Hmax].
        eapply (sorted_find _ (λ x, bool_decide (it_schedule x = k)));
          [|apply newest_first_refl|exact Ef| |by b2p].
        - apply sort_by_sorted; [apply newest_first_total|apply newest_first_trans].
        - by apply elem_of_sort_by. }
      pose proof (by_pk_unique (db_items db) (it_pk it) it Hitems Hi eq_refl).
      pose proof (by_pk_unique (db_items db) (it_pk it) it0 Hitems Hi0 Hpk). congruence.
    + exfalso. pose proof (proj1 (find_elem_None _ _) Ef it) as Hn.
      rewrite elem_of_sort_by in Hn. specialize (Hn Hin). by b2p.
Qed.

Lemma occurrence_holds_iff mat ids d start end_ sch t :
  sch_pk sch ∈ ids → by_pk (db_terms db) (sch_term sch) = Some t →
  occurrence_holds db mat (latest_shifts db ids d) d start end_ sch = true ↔
  sch_pk sch ∉ mat ∧
  ¬ calendar_excuses db (term_pk t) d (room_building db (sch_room sch)) ∧
  unmoved db d sch ∧
  meets (PyTime.aware d (sch_start sch)) (PyTime.aware d (sch_end sch)) start end_.
Proof.
  intros Hin Ht. unfold occurrence_holds, unmoved. rewrite Ht.
  destruct (bool_decide_reflect (sch_pk sch ∈ mat)) as [|Hm]; [naive_solver|].
  rewrite <- excused_spec. destruct (excused _ _ _) eqn:He; [naive_solver|].
  destruct (dict_get _ _) as [it|] eqn:Eg.
  - assert (governs db (sch_pk sch) d it) as Hg by by eapply latest_shifts_get.
    assert (∀ it', governs db (sch_pk sch) d it' → it' = it) as Hu.
    { intros it' Hg'. apply (latest_shifts_get ids) in Hg'; [|done]. congruence. }
    destruct (bool_decide_reflect (item_target db it = Some ONLINE)).
    { split; [done|]. intros (_ & _ & [(it' & Hg' & Hne & _)|[Hn _]] & _).
      - by rewrite (Hu _ Hg') in Hne.
      - by destruct (Hn it). }
    destruct (it_assigned it) as [x|] eqn:Ea; cbv beta iota delta [is_some].
    { split; [done|]. intros (_ & _ & [(it' & Hg' & _ & Hne)|[Hn _]] & _).
      - rewrite (Hu _ Hg') in Hne. congruence.
      - by destruct (Hn it). }
    rewrite overlaps_iff. split; [|tauto]. intros Hmeet. repeat split; try done; try apply Hmeet.
    left. eauto.
  - assert (∀ it, ¬ governs db (sch_pk sch) d it) as Hn.
    { intros it Hg. apply (latest_shifts_get ids) in Hg; [|done]. congruence. }
    case_bool_decide as Hmod.
    + split; [done|]. intros (_ & _ & [(it & Hg & _)|[_ ?]] & _); [by destruct (Hn it)|done].
    + rewrite overlaps_iff. split; [|tauto]. intros Hmeet.
      repeat split; try done; try apply Hmeet. right. eauto.
Qed.

Lemma schedule_occupies_iff room start end_ x :
  schedule_occupies db room start end_ x = true ↔
  ∃ sch t, sch ∈ db_schedules db ∧ sch_room sch = room ∧ sch_status sch = SCH_ACTIVE ∧
    by_pk (db_terms db) (sch_term sch) = Some t ∧ term_status t = T_ACTIVE ∧
    term_start t ≤ PyTime.local_date start ≤ term_end t ∧
    sch_day sch = PyTime.weekday (PyTime.local_date start) ∧ x ≠ Some (sch_pk sch) ∧
    (∀ s, s ∈ db_sessions db → ses_schedule s = sch_pk sch →
       ses_date s ≠ PyTime.local_date start) ∧
    ¬ calendar_excuses db (term_pk t) (PyTime.local_date start) (room_building db room) ∧
    unmoved db (PyTime.local_date start) sch ∧
    meets (PyTime.aware (PyTime.local_date start) (sch_start sch))
          (PyTime.aware (PyTime.local_date start) (sch_end sch)) start end_.
Proof.
  unfold schedule_occupies. set (d := PyTime.local_date start).
  set (l := select _ (db_schedules db)).
  assert (∀ sch, sch ∈ l ↔ ∃ t, sch ∈ db_schedules db ∧ sch_room sch = room ∧
    sch_status sch = SCH_ACTIVE ∧ by_pk (db_terms db) (sch_term sch) = Some t ∧
    term_status t = T_ACTIVE ∧ term_start t ≤ d ≤ term_end t ∧
    sch_day sch = PyTime.weekday d ∧ x ≠ Some (sch_pk sch)) as Hl.
  { intros sch. unfold l, recurring_on, is_active_term. rewrite elem_of_select.
    destruct (by_pk (db_terms db) (sch_term sch)) as [t|]; b2p.
    - split; [intros ?; exists t; tauto|]. intros (t' & ? & ? & ? & [= <-] & ?). tauto.
    - split; [naive_solver|]. intros (t' & ?). naive_solver. }
  transitivity (∃ sch, sch ∈ l ∧ occurrence_holds db
    (ses_schedule <$> select (λ s, bool_decide (ses_schedule s ∈ sch_pk <$> l)
                                   && (ses_date s =? d)) (db_sessions db))
    (latest_shifts db (sch_pk <$> l) d) d start end_ sch = true).
  { destruct l as [|sch0 l0]; [|by rewrite existsb_elem].
    split; [done|]. intros (? & H & _). by apply not_elem_of_nil in H. }
  assert (∀ sch, sch ∈ l → sch_pk sch ∈ sch_pk <$> l) as Hin.
  { intros sch ?. apply list_elem_of_fmap. eauto. }
  split.
  - intros (sch & Hs & Ho). pose proof (Hin _ Hs) as Hk.
    apply Hl in Hs as (t & ? & Hr & ? & Ht & ? & ? & ? & ?).
    apply (occurrence_holds_iff _ _ _ _ _ _ t) in Ho as (Hm & He & Hu & Hmt); [|done|done].
    exists sch, t. rewrite Hr in He. do 8 (split; [done|]). split; [|done].
    intros s Hses Hsch Hd. apply Hm, list_elem_of_fmap. exists s. split; [done|].
    apply elem_of_select. split; [done|]. b2p. by rewrite Hsch.
  - intros (sch & t & ? & Hr & ? & Ht & ? & ? & ? & ? & Hm & He & Hu & Hmt).
    assert (sch ∈ l) as Hs by (apply Hl; eauto 10).
    exists sch. split; [done|]. apply (occurrence_holds_iff _ _ _ _ _ _ t); auto.
    rewrite Hr. split; [|done]. intros (s & Heq & [Hses Hp]%elem_of_select)%list_elem_of_fmap.
    b2p. apply (Hm s); [done|congruence|tauto].
Qed.

Lemma reservation_occupies_iff room start end_ x :
  reservation_occupies db room start end_ x = true ↔
  ∃ it sch r, it ∈ db_items db ∧ it_assigned it = Some room ∧
    approved_for db (PyTime.local_date start) it r ∧ req_target r ≠ ONLINE ∧
    by_pk (db_schedules db) (it_schedule it) = Some sch ∧
    sch_day sch = PyTime.weekday (PyTime.local_date start) ∧ x ≠ Some (it_schedule it) ∧
    meets (item_slot sch it (PyTime.local_date start)).1
          (item_slot sch it (PyTime.local_date start)).2 start end_.
Proof.
  unfold reservation_occupies. rewrite existsb_elem. unfold reserves.
  set (d := PyTime.local_date start). split.
  - intros (it & Hit & H). destruct (by_pk _ _) as [sch|] eqn:Es; [|done].
    rewrite (surjective_pairing (item_slot sch it d)) in H. b2p.
    rewrite approved_on_iff in H. destruct H as (((((Ha & r & Hr) & Hd) & Ho) & Hx) & Hm).
    exists it, sch, r. repeat split; try done; try apply Hr; try apply Hm.
    intros Hon. apply Ho. unfold item_target. destruct Hr as [-> _]. simpl. by f_equal.
  - intros (it & sch & r & Hit & Ha & Hr & Ho & Es & Hd & Hx & Hm). exists it.
    split; [done|]. rewrite Es, (surjective_pairing (item_slot sch it d)). b2p.
    rewrite approved_on_iff. repeat split; try done; try apply Hm; [by exists r|].
    unfold item_target. destruct Hr as [-> _]. simpl. congruence.
Qed.

Lemma room_is_free_spec room start end_ xs x :
  room_is_free db room start end_ xs x = true ↔ ¬ room_occupied db room start end_ xs x.
Proof.
  unfold room_is_free. destruct (existsb _ _) eqn:Es.
  { split; [done|]. intros H. exfalso. apply H. apply existsb_elem in Es as (s & Hs & Hm).
    unfold session_occupants, effective_online in *. apply elem_of_select in Hs as [Hs Hp].
    b2p. rewrite occupying_status_iff in Hp. eapply (occupied_by_session _ _ _ _ _ _ s); tauto. }
  destruct (select (booking_overlaps _ _ _) _) as [|b l] eqn:Eb.
  2:{ split; [done|]. intros H. exfalso. apply H.
      assert (b ∈ select (booking_overlaps room start end_) (db_bookings db)) as Hb
        by (rewrite Eb; left).
      apply elem_of_select in Hb as [Hb Hp]. unfold booking_overlaps in Hp. b2p.
      eapply (occupied_by_booking _ _ _ _ _ _ b); tauto. }
  destruct (schedule_occupies _ _ _ _ _) eqn:Esch.
  { split; [done|]. intros H. exfalso. apply H.
    apply schedule_occupies_iff in Esch as (sch & t & Hx). decompose [and] Hx.
    by eapply (occupied_by_recurring _ _ _ _ _ _ sch t). }
  destruct (reservation_occupies _ _ _ _ _) eqn:Er.
  { split; [done|]. intros H. exfalso. apply H.
    apply reservation_occupies_iff in Er as (it & sch & r & Hx). decompose [and] Hx.
    by eapply (occupied_by_reservation _ _ _ _ _ _ it sch r). }
  split; [|done]. intros _ Hocc. destruct Hocc as [s Hs ? ? ? ? ? ?|b Hb ? ? ?|sch t|it sch r].
  - rewrite existsb_elem_false in Es. specialize (Es s).
    unfold session_occupants, effective_online in Es. rewrite elem_of_select in Es.
    assert (bool_decide (effective_modality db s = Some ONLINE) = true); [|by b2p].
    apply negb_false_iff, Es. split; [done|]. b2p. rewrite occupying_status_iff. tauto.
  - assert (b ∈ select (booking_overlaps room start end_) (db_bookings db)) as Hin.
    { apply elem_of_select. unfold booking_overlaps. by b2p. }
    rewrite Eb in Hin. by apply not_elem_of_nil in Hin.
  - apply not_true_iff_false in Esch. apply Esch, schedule_occupies_iff. by exists sch, t.
  - apply not_true_iff_false in Er. apply Er, reservation_occupies_iff. by exists it, sch, r.
Qed.
End spec.

(** C3: a room is reported free for an interval exactly when nothing occupies it:
    no un-released, non-online scheduled or active session, no active booking, no
    recurring class of the date that is not yet materialized, excused or moved,
    and no approved room reservation, each compared half-open. *)
Theorem room_is_free_iff db room start end_ xs x :
  pk_unique (db_items db) →
  room_is_free db room start end_ xs x = true ↔ ¬ room_occupied db room start end_ xs x.
Proof. intros. by apply room_is_free_spec. Qed.

(** Availability is monotone: a room free for an interval is free for every
    interval inside it that starts on the same local date. *)
Theorem room_is_free_shrink db room a b a' b' xs x :
  pk_unique (db_items db) → a ≤ a' → b' ≤ b → PyTime.local_date a' = PyTime.local_date a →
  room_is_free db room a b xs x = true → room_is_free db room a' b' xs x = true.
Proof.
  intros Hi Ha Hb Hd. rewrite !room_is_free_spec by done. intros Hn Hocc. apply Hn.
  destruct Hocc as [s|bk|sch t|it sch r]; rewrite ?Hd in *; unfold meets in *.
  - eapply (occupied_by_session _ _ _ _ _ _ s); unfold meets; try done; lia.
  - eapply (occupied_by_booking _ _ _ _ _ _ bk); unfold meets; try done; lia.
  - eapply (occupied_by_recurring _ _ _ _ _ _ sch t); unfold meets; try done; lia.
  - eapply (occupied_by_reservation _ _ _ _ _ _ it sch r); unfold meets; try done; lia.
Qed.

Lemma elem_of_prefer_first p l r : r ∈ prefer_first p l ↔ r ∈ l.
Proof.
  destruct p as [p|]; simpl; [|done]. destruct (existsb _ _); [|done].
  rewrite elem_of_app, !elem_of_select. destruct (room_pk r =? p); naive_solver.
Qed.
Lemma elem_of_free_rooms db building start end_ xs p r :
  r ∈ free_rooms_in_building db building start end_ xs p ↔
  r ∈ db_rooms db ∧ room_building db (room_pk r) = Some building ∧
  room_is_free db (room_pk r) start end_ xs None = true.
Proof.
  unfold free_rooms_in_building. rewrite elem_of_prefer_first, elem_of_select, elem_of_sort_by,
    elem_of_select. b2p. tauto.
Qed.

(** The rooms offered in a building are exactly its free rooms, and when the
    preferred room is one of them it is offered first. *)
Theorem free_rooms_exact db building start end_ xs prefer :
  pk_unique (db_items db) →
  (∀ r, r ∈ free_rooms_in_building db building start end_ xs prefer ↔
     r ∈ db_rooms db ∧ room_building db (room_pk r) = Some building ∧
     ¬ room_occupied db (room_pk r) start end_ xs None) ∧
  (∀ p, prefer = Some p →
     (∃ r, r ∈ free_rooms_in_building db building start end_ xs None ∧ room_pk r = p) →
     room_pk <$> head (free_rooms_in_building db building start end_ xs prefer) = Some p).
Proof.
  intros Hi. split.
  - intros r. by rewrite elem_of_free_rooms, room_is_free_spec.
  - intros p -> (r & Hr & <-). unfold free_rooms_in_building in *. simpl in *.
    set (l := select _ _) in *. assert (existsb (λ x, room_pk x =? room_pk r) l = true) as ->.
    { apply existsb_elem. exists r. split; [done|]. by b2p. }
    destruct (select (λ x, room_pk x =? room_pk r) l) as [|x l'] eqn:E.
    + rewrite select_nil in E. specialize (E r Hr). by b2p.
    + assert (x ∈ select (λ x, room_pk x =? room_pk r) l) as Hx by (rewrite E; left).
      apply elem_of_select in Hx as [_ Hx]. b2p. simpl. by f_equal.
Qed.

Lemma faculty_has_conflict_iff db f start end_ xs :
  faculty_has_conflict db f start end_ xs = true ↔
  ∃ s, s ∈ db_sessions db ∧ ses_faculty s = f ∧
    (ses_status s = SCHEDULED ∨ ses_status s = ACTIVE) ∧ xs ≠ Some (ses_pk s) ∧
    meets (ses_sched_start s) (ses_sched_end s) start end_.
Proof.
  unfold faculty_has_conflict. destruct (select _ _) as [|s l] eqn:E.
  - split; [done|]. intros (s & Hs & Hf & Hst & Hx & Hm).
    pose proof (proj1 (select_nil _ _) E s Hs) as Hn. apply not_true_iff_false in Hn.
    exfalso. apply Hn. b2p. by rewrite occupying_status_iff.
  - split; [|done]. intros _. exists s.
    assert (s ∈ s :: l) as Hs by left. rewrite <- E in Hs.
    apply elem_of_select in Hs as [Hs Hp]. b2p. rewrite occupying_status_iff in Hp. tauto.
Qed.

(** *** The slots of a day *)
Definition slot_ok (db : DB) (s : Session) (building a b : Z) : Prop :=
  ¬ (a = ses_sched_start s ∧ b = ses_sched_end s) ∧
  (∃ r, r ∈ db_rooms db ∧ room_building db (room_pk r) = Some building ∧
        ¬ room_occupied db (room_pk r) a b (Some (ses_pk s)) None) ∧
  (∀ s', s' ∈ db_sessions db → ses_faculty s' = ses_faculty s → ses_pk s' ≠ ses_pk s →
     ses_status s' = SCHEDULED ∨ ses_status s' = ACTIVE →
     ¬ meets (ses_sched_start s') (ses_sched_end s') a b).

Lemma slot_offered_iff db s building a b :
  pk_unique (db_items db) → slot_offered db s building a b = true ↔ slot_ok db s building a b.
Proof.
  intros Hi. unfold slot_offered, slot_ok.
  destruct ((a =? _) && (b =? _)) eqn:Ec; [b2p; naive_solver|].
  assert (¬ (a = ses_sched_start s ∧ b = ses_sched_end s)) as Hc by (b2p; naive_solver).
  destruct (free_rooms_in_building _ _ _ _ _ _) as [|r l] eqn:Ef.
  - split; [done|]. intros (_ & (r & Hr & Hb & Ho) & _).
    assert (r ∈ free_rooms_in_building db building a b (Some (ses_pk s)) None) as Hin.
    { by rewrite elem_of_free_rooms, room_is_free_spec. }
    rewrite Ef in Hin. by apply not_elem_of_nil in Hin.
  - assert (r ∈ free_rooms_in_building db building a b (Some (ses_pk s)) None) as Hin
      by (rewrite Ef; left).
    rewrite elem_of_free_rooms, room_is_free_spec in Hin by done.
    rewrite negb_true_iff, <- not_true_iff_false, faculty_has_conflict_iff. split.
    + intros Hn. split; [done|]. split; [by exists r|]. intros s' ? ? ? ? ?. apply Hn.
      exists s'. split_and!; try done. congruence.
    + intros (_ & _ & Hn) (s' & ? & ? & ? & ? & ?). apply (Hn s'); try done. congruence.
Qed.

Lemma times_loop_spec db s building duration close n fuel cursor slots :
  0 < duration → (∀ k : Z, 0 ≤ k → cursor + (k + 1) * duration ≤ close ↔ k < Z.of_nat n) →
  (n < fuel)%nat →
  times_loop db s building duration close fuel cursor slots =
  Some (slots ++ select (λ p, slot_offered db s building p.1 p.2)
    ((λ k, (cursor + Z.of_nat k * duration, cursor + (Z.of_nat k + 1) * duration)) <$> seq 0 n)).
Proof.
  intros Hd. revert n cursor slots. induction fuel as [|fuel IH]; intros n cursor slots Hn Hf; [lia|].
  cbn [times_loop]. destruct n as [|n].
  - pose proof (Hn 0 ltac:(lia)). rewrite (proj2 (Z.leb_gt _ _)) by lia. simpl.
    by rewrite app_nil_r.
  - pose proof (Hn 0 ltac:(lia)). rewrite (proj2 (Z.leb_le _ _)) by lia.
    rewrite (IH n).
    + f_equal. cbn [seq fmap list_fmap]. rewrite select_cons.
      replace (cursor + Z.of_nat 0 * duration) with cursor by lia.
      replace (cursor + (Z.of_nat 0 + 1) * duration) with (cursor + duration) by lia.
      cbn [fst snd]. rewrite <- seq_shift. change (List.map S ?l) with (S <$> l).
      rewrite <- list_fmap_compose.
      rewrite (list_fmap_ext _ ((λ k, (cursor + Z.of_nat k * duration,
        cursor + (Z.of_nat k + 1) * duration)) ∘ S) (seq 0 n)).
      2:{ intros k x _. simpl. f_equal; lia. }
      destruct (slot_offered _ _ _ _ _); [|done]. by rewrite <- app_assoc.
    + intros k Hk. pose proof (Hn (k + 1) ltac:(lia)). lia.
    + lia.
Qed.

(** How many slots of length [duration] fit in the operating day. *)
Definition day_slots (duration : Z) : nat := Z.to_nat ((DAY_CLOSE - DAY_OPEN) / duration).

(** C35: for a class of positive length the search for alternative times ends,
    within one more step than there are slots in the operating day, and offers
    exactly the back-to-back slots of that length from 07:00 to 21:00 that are not
    the class's own, leave some room of the building free and clash with no other
    class of the faculty. *)
Theorem available_times_exact db s building fuel :
  pk_unique (db_items db) → schedule_building db s = Some building →
  let duration := ses_sched_end s - ses_sched_start s in
  let open := PyTime.aware (PyTime.local_date (ses_sched_start s)) DAY_OPEN in
  let close := PyTime.aware (PyTime.local_date (ses_sched_start s)) DAY_CLOSE in
  0 < duration → (day_slots duration < fuel)%nat →
  ∃ slots, available_times_for fuel db s = Some slots ∧
    ∀ a b, (a, b) ∈ slots ↔
      (∃ k, 0 ≤ k ∧ a = open + k * duration ∧ b = a + duration ∧ b ≤ close) ∧
      slot_ok db s building a b.
Proof.
  intros Hi Hb duration open close Hd Hf. unfold available_times_for. rewrite Hb.
  change (mbind _ (Some building)) with
    (times_loop db s building duration close fuel open []).
  assert (close - open = DAY_CLOSE - DAY_OPEN) as Hspan by (unfold close, open, PyTime.aware; lia).
  assert (0 ≤ (DAY_CLOSE - DAY_OPEN) / duration) by (apply Z.div_pos; [vm_compute|]; done).
  assert (∀ k, 0 ≤ k → open + (k + 1) * duration ≤ close ↔ k < Z.of_nat (day_slots duration)) as Hn.
  { intros k Hk. unfold day_slots. rewrite Z2Nat.id by done.
    pose proof (Z.mul_div_le (DAY_CLOSE - DAY_OPEN) duration Hd).
    pose proof (Z.mul_succ_div_gt (DAY_CLOSE - DAY_OPEN) duration Hd). split; nia. }
  eexists. split; [by eapply times_loop_spec|]. intros a b. simpl.
  rewrite elem_of_select. cbn [fst snd]. rewrite slot_offered_iff by done. split.
  - intros [(k & [= -> ->] & Hk)%list_elem_of_fmap Hok]. split; [|done].
    exists (Z.of_nat k). rewrite list_elem_of_In in Hk. apply in_seq in Hk.
    pose proof (proj2 (Hn (Z.of_nat k) ltac:(lia)) ltac:(lia)). lia.
  - intros [(k & Hk & -> & -> & Hle) Hok]. split; [|done].
    apply list_elem_of_fmap. exists (Z.to_nat k). rewrite Z2Nat.id by done.
    split; [f_equal; lia|]. rewrite list_elem_of_In. apply in_seq.
    pose proof (proj1 (Hn k Hk) ltac:(lia)). lia.
Qed.

(** ** The interface of room availability

    What the approval of a shift and the edition of a schedule rely on: a room
    test, and an offer of rooms that only contains rooms passing it. *)
Class RoomAvailability := {
  av_is_free : DB → Z → Z → Z → option Z → option Z → bool;
  av_free_rooms : DB → Z → Z → Z → option Z → option Z → list Room;
  av_free_rooms_sound db building start end_ xs prefer r :
    r ∈ av_free_rooms db building start end_ xs prefer →
    r ∈ db_rooms db ∧ room_building db (room_pk r) = Some building ∧
    av_is_free db (room_pk r) start end_ xs None = true;
  av_is_free_sound db room start end_ xs x :
    av_is_free db room start end_ xs x = true →
    ∀ s, s ∈ db_sessions db → ses_room s = room → occupying_status s = true →
      ses_released_at s = None → effective_online db s = false → xs ≠ Some (ses_pk s) →
      overlaps (ses_sched_start s) (ses_sched_end s) start end_ = false
}.
#[export] Program Instance canonical_availability : RoomAvailability := {|
  av_is_free := room_is_free; av_free_rooms := free_rooms_in_building |}.
Next Obligation. intros db b st en xs p r. by rewrite elem_of_free_rooms. Qed.
Next Obligation.
  simpl. intros db room st en xs x Hf s Hs Hr Hst Hrel Hon Hx.
  apply not_true_iff_false. intros Hov. unfold room_is_free in Hf.
  destruct (existsb _ _) eqn:E; [done|]. rewrite existsb_elem_false in E.
  specialize (E s). rewrite Hon in E. discriminate E. apply elem_of_select.
  split; [done|]. rewrite Hst, Hrel, Hov. rewrite (proj2 (Z.eqb_eq _ _) Hr). simpl.
  by rewrite not_excluded_iff.
Qed.

(** ** Witnesses on the sample campus *)
Definition demo_class : Session := demo_session 1 monday SCHEDULED.
Lemma room_is_free_iff_witness :
  room_is_free demo_db 1 (at_ 10 30) (at_ 12 0) None None = true ∧
  ¬ room_occupied demo_db 1 (at_ 10 30) (at_ 12 0) None None.
Proof.
  split; [vm_compute; reflexivity|].
  apply (room_is_free_iff demo_db); [decide_now|vm_compute; reflexivity].
Defined.
Lemma room_is_free_shrink_witness :
  room_is_free demo_db 1 (at_ 11 0) (at_ 11 30) None None = true.
Proof.
  apply (room_is_free_shrink demo_db 1 (at_ 10 30) (at_ 12 0));
    [decide_now|decide_now|decide_now|reflexivity|vm_compute; reflexivity].
Defined.
Lemma free_rooms_exact_witness :
  room_pk <$> head (free_rooms_in_building demo_db 1 (at_ 9 0) (at_ 10 30) (Some 1) (Some 2))
  = Some 2.
Proof.
  apply (proj2 (free_rooms_exact demo_db 1 (at_ 9 0) (at_ 10 30) (Some 1) (Some 2)
    ltac:(decide_now)) 2 eq_refl).
  exists (demo_room 2 "M-102"). split; [|reflexivity].
  apply list_elem_of_In. vm_compute. tauto.
Defined.
Lemma available_times_exact_witness :
  ∃ slots, available_times_for 10 demo_db demo_class = Some slots ∧
    length slots = 9%nat ∧ slot_ok demo_db demo_class 1 (at_ 10 0) (at_ 11 30).
Proof.
  destruct (available_times_exact demo_db demo_class 1 10
    ltac:(decide_now) eq_refl ltac:(vm_compute; reflexivity) ltac:(vm_compute; lia))
    as (slots & Hs & Hspec).
  exists slots. split; [exact Hs|]. vm_compute in Hs. injection Hs as <-.
  split; [reflexivity|]. apply (Hspec (at_ 10 0) (at_ 11 30)).
  apply list_elem_of_In. vm_compute. tauto.
Defined.
