(* ===== verification/Merge.v ===== *)
(** scheduling/merge.py: co-scheduled "merged sections", the detector and the two
    group fills. *)
From S2P Require Import Prelude Python Model Effects Ops Sample Resolvers.
Open Scope Z_scope.

(** ** The pure detector

    The Session-like objects it compares, annotated with the schedule's course
    code and the effective modality. *)
Record SessionLike := mk_like {
  like_id : Z;
  like_faculty : Z;
  like_start : Z;
  like_room : Z;
  like_course : option string;
  like_online : bool
}.

(** The two arms of the merge rule, after the early [continue]s. *)
Definition merges_with (anchor c : SessionLike) : bool :=
  if like_id c =? like_id anchor then false
  else if negb (like_faculty c =? like_faculty anchor) then false
  else if negb (like_start c =? like_start anchor) then false
  else if like_online anchor && like_online c then true
  else (like_room c =? like_room anchor) || bool_decide (like_course c = like_course anchor).
Definition merged_sibling_ids (anchor : SessionLike) (candidates : list SessionLike) : list Z :=
  like_id <$> select (merges_with anchor) candidates.

(** [_effective_is_online] and the annotations of [_materialize_candidates] *)
Definition annotate (db : DB) (s : Session) : SessionLike :=
  mk_like (ses_pk s) (ses_faculty s) (ses_sched_start s) (ses_room s)
    (sch_course_code <$> by_pk (db_schedules db) (ses_schedule s)) (effective_online db s).
Definition candidate_of (anchor : Session) (term : Z) (db : DB) (s : Session) : bool :=
  (ses_faculty s =? ses_faculty anchor) && (ses_sched_start s =? ses_sched_start anchor)
  && in_term db term s && negb (ses_pk s =? ses_pk anchor).
Definition materialize_candidates (anchor : Session) (term : Z) : M (list SessionLike) :=
  objects_join (candidate_of anchor term) ≫= λ rows,
  read (λ db, annotate db <$> rows).

(** ** The fills *)
Definition fill_present (now : Z) (s : Session) : Session :=
  s <| ses_status := ACTIVE |> <| ses_actual_start := Some now |>
    <| ses_method := Some MERGED |>.
Definition fill_absent (s : Session) : Session := s <| ses_status := ABSENT |>.

(** The transaction both fills share: lock the anchor and its term, detect the
    siblings, flip those still scheduled and audit each. *)
Definition fill_siblings (anchor : Z) (flip : Session → Session) (event : string)
    (actor : option Z) : M (list Z) :=
  atomic (
    get_pk (R:=Session) anchor ≫= λ a,
    get_pk (R:=Schedule) (ses_schedule a) ≫= λ sch,
    get_pk (R:=AcademicTerm) (sch_term sch) ≫= λ term,
    require_writable_term term ≫= λ _,
    materialize_candidates a (sch_term sch) ≫= λ candidates,
    read (λ db, merged_sibling_ids (annotate db a) candidates) ≫= λ sib_ids,
    objects (λ s, mem_pk sib_ids s && has_status SCHEDULED s) ≫= λ rows,
    let fill_ids := ses_pk <$> rows in
    match fill_ids with
    | [] => mret []
    | _ =>
        update_rows (R:=Session) (mem_pk fill_ids) flip ≫= λ _,
        audit_bulk actor event "session" (JObj [("merged_from", JInt (ses_pk a))]%string) fill_ids
        ≫= λ _, mret fill_ids
    end).
Definition propagate_merged_present (anchor : Session) (now : Z) (actor : option Z)
    : M (list Z) :=
  fill_siblings (ses_pk anchor) (fill_present now) "session.merged_present" actor.
Definition propagate_merged_absent (anchor : Session) (actor : option Z) (now : Z)
    : M (list Z) :=
  get_policy_num "grace_minutes" ≫= λ grace_min,
  if negb (FacultyScan.is_no_show_past_grace (ses_sched_start anchor) now grace_min)
  then mret []
  else fill_siblings (ses_pk anchor) fill_absent "session.merged_absent" actor.

(** ** What a merged sibling is *)
Definition sibling (db : DB) (a : Session) (term : Z) (s : Session) : Prop :=
  ses_pk s ≠ ses_pk a ∧ ses_faculty s = ses_faculty a ∧
  ses_sched_start s = ses_sched_start a ∧ session_term db s = Some term ∧
  ((effective_modality db a = Some ONLINE ∧ effective_modality db s = Some ONLINE) ∨
   ses_room s = ses_room a ∨
   sch_course_code <$> by_pk (db_schedules db) (ses_schedule s) =
   sch_course_code <$> by_pk (db_schedules db) (ses_schedule a)).
Definition fillable (db : DB) (a : Session) (term : Z) (s : Session) : bool :=
  candidate_of a term db s && merges_with (annotate db a) (annotate db s)
  && has_status SCHEDULED s.

Lemma fillable_iff db a term s :
  fillable db a term s = true ↔ sibling db a term s ∧ ses_status s = SCHEDULED.
Proof.
  unfold fillable, candidate_of, merges_with, sibling, in_term, has_status. simpl.
  destruct (Z.eqb_spec (ses_pk s) (ses_pk a)); simpl; [b2p; naive_solver|].
  destruct (Z.eqb_spec (ses_faculty s) (ses_faculty a)); simpl; [|b2p; naive_solver].
  destruct (Z.eqb_spec (ses_sched_start s) (ses_sched_start a)); simpl; [|b2p; naive_solver].
  unfold effective_online.
  destruct (bool_decide_reflect (effective_modality db a = Some ONLINE));
    destruct (bool_decide_reflect (effective_modality db s = Some ONLINE)); simpl; b2p; tauto.
Qed.

(** The merge rule is symmetric: whichever section of a group is taken as the
    anchor, the other one is its sibling. *)
Lemma sibling_sym db a s term :
  session_term db a = Some term → sibling db a term s → sibling db s term a.
Proof. unfold sibling. intros. destruct_and?. split_and!; try done. naive_solver. Qed.

Section fill.
Context (db : DB) (a : Session) (sch : Schedule) (t : AcademicTerm).
Context (Huniq : pk_unique (db_sessions db)).
Context (Ha : by_pk (db_sessions db) (ses_pk a) = Some a).
Context (Hsch : by_pk (db_schedules db) (ses_schedule a) = Some sch).
Context (Ht : by_pk (db_terms db) (sch_term sch) = Some t).

Lemma mem_sibling_ids s :
  s ∈ db_sessions db →
  mem_pk (merged_sibling_ids (annotate db a)
            (annotate db <$> select (candidate_of a (sch_term sch) db) (db_sessions db))) s
  && has_status SCHEDULED s = fillable db a (sch_term sch) s.
Proof using Huniq.
  intros Hs. unfold fillable. f_equal. unfold mem_pk, merged_sibling_ids.
  apply eq_true_iff_eq. rewrite bool_decide_eq_true, list_elem_of_fmap, andb_true_iff. split.
  - intros (x & Hpk & [Hx Hm]%elem_of_select).
    apply list_elem_of_fmap in Hx as (s' & -> & [Hs' Hc]%elem_of_select).
    assert (s' = s) as ->; [|done]. simpl in Hpk.
    pose proof (by_pk_unique _ _ _ Huniq Hs eq_refl).
    pose proof (by_pk_unique _ (pk s) s' Huniq Hs' (eq_sym Hpk)). congruence.
  - intros [Hc Hm]. exists (annotate db s). split; [done|]. apply elem_of_select.
    split; [|done]. apply list_elem_of_fmap. exists s. split; [done|]. by apply elem_of_select.
Qed.

Lemma fill_siblings_wp flip event actor :
  (∀ s, ses_pk (flip s) = ses_pk s) → term_status t ≠ T_ARCHIVED →
  wp (fill_siblings (ses_pk a) flip event actor)
    (λ r db', r = inr (ses_pk <$> select (fillable db a (sch_term sch)) (db_sessions db)) ∧
      logs_only (db <| db_sessions := update_where (fillable db a (sch_term sch)) flip
                                        (db_sessions db) |>) db') db.
Proof using All.
  intros Hflip Hw. unfold fill_siblings. wp_step. wp_step.
  apply wp_get_pk; [|simpl; congruence]. simpl. intros a' Ha'. assert (a' = a) as -> by congruence.
  wp_step. apply wp_get_pk; [|simpl; congruence]. simpl. intros x Hx.
  assert (x = sch) as -> by congruence.
  wp_step. apply wp_get_pk; [|simpl; congruence]. simpl. intros x Hx'.
  assert (x = t) as -> by congruence.
  wp_step. apply wp_require_writable; [intros _|done]. unfold materialize_candidates.
  do 8 wp_step. cbn [tbl table_Session].
  rewrite (select_ext (λ s, mem_pk (merged_sibling_ids _ _) s && has_status SCHEDULED s)
    (fillable db a (sch_term sch))) by apply mem_sibling_ids.
  destruct (ses_pk <$> select _ _) as [|k ks] eqn:E.
  - wp_step. split; [done|]. apply fmap_nil_inv in E. rewrite update_where_none.
    + by destruct db.
    + by apply select_nil.
  - rewrite <- E. wp_step. wp_step. cbn [set_tbl tbl table_Session].
    rewrite update_sessions_selected by done. wp_auto. done.
Qed.
End fill.

(** Checking a session in fills exactly its merged siblings that are still
    scheduled: the same faculty at the same instant of the same term, both online
    or sharing a room or a course.  They become active with the anchor's start
    instant and the merged method; no other session changes. *)
Theorem propagate_present_effect db a sch t now actor :
  pk_unique (db_sessions db) → by_pk (db_sessions db) (ses_pk a) = Some a →
  by_pk (db_schedules db) (ses_schedule a) = Some sch →
  by_pk (db_terms db) (sch_term sch) = Some t → term_status t ≠ T_ARCHIVED →
  ∃ p, (∀ s, p s = true ↔ sibling db a (sch_term sch) s ∧ ses_status s = SCHEDULED) ∧
    wp (propagate_merged_present a now actor)
      (λ r db', r = inr (ses_pk <$> select p (db_sessions db)) ∧
        logs_only (db <| db_sessions := update_where p (fill_present now) (db_sessions db) |>) db')
      db.
Proof.
  intros. exists (fillable db a (sch_term sch)). split; [apply fillable_iff|].
  by eapply fill_siblings_wp.
Qed.

(** Flagging a session absent fills no sibling within the grace window, and
    past it fills exactly the merged siblings still scheduled, as absent. *)
Theorem propagate_absent_effect db a sch t now actor grace :
  pk_unique (db_sessions db) → by_pk (db_sessions db) (ses_pk a) = Some a →
  by_pk (db_schedules db) (ses_schedule a) = Some sch →
  by_pk (db_terms db) (sch_term sch) = Some t → term_status t ≠ T_ARCHIVED →
  policy_num db "grace_minutes" = Some grace →
  ∃ p, (∀ s, p s = true ↔ ses_sched_start a + PyTime.minutes grace < now ∧
          sibling db a (sch_term sch) s ∧ ses_status s = SCHEDULED) ∧
    wp (propagate_merged_absent a actor now)
      (λ r db', r = inr (ses_pk <$> select p (db_sessions db)) ∧
        logs_only (db <| db_sessions := update_where p fill_absent (db_sessions db) |>) db') db.
Proof.
  intros Hu Ha Hs Ht Hw Hg.
  exists (λ s, (ses_sched_start a + PyTime.minutes grace <? now) && fillable db a (sch_term sch) s).
  split; [intros s; rewrite andb_true_iff, fillable_iff; b2p; tauto|].
  unfold propagate_merged_absent, FacultyScan.is_no_show_past_grace. wp_step.
  apply wp_policy_num; [|congruence]. intros g Hg'. replace g with grace by congruence.
  destruct (ses_sched_start a + PyTime.minutes grace <? now); simpl.
  - by eapply fill_siblings_wp.
  - wp_step. rewrite update_where_none by done.
    assert (select (λ _ : Session, false) (db_sessions db) = []) as -> by by apply select_nil.
    split; [done|]. by destruct db.
Qed.

(** ** Witnesses *)

(** The sample class with a second section of the same course in the other room. *)
Definition demo_sibling : Session := (demo_session 3 monday SCHEDULED) <| ses_room := 2 |>.


Definition demo_merged : DB := demo_db <| db_sessions :=
  [demo_session 1 monday SCHEDULED; demo_session 2 (monday + 7) SCHEDULED; demo_sibling] |>.
Lemma propagate_present_effect_witness :
  (∃ p, (∀ s, p s = true ↔
           sibling demo_merged (demo_session 1 monday SCHEDULED) 1 s ∧ ses_status s = SCHEDULED) ∧
    wp (propagate_merged_present (demo_session 1 monday SCHEDULED) (at_ 9 2) (Some 1))
      (λ r db', r = inr (ses_pk <$> select p (db_sessions demo_merged)) ∧
        logs_only (demo_merged <| db_sessions := update_where p (fill_present (at_ 9 2))
                                                   (db_sessions demo_merged) |>) db')
      demo_merged) ∧
  run (propagate_merged_present (demo_session 1 monday SCHEDULED) (at_ 9 2) (Some 1)) demo_merged
  = inr [3].
Proof.
  split; [|vm_compute; reflexivity].
  apply (propagate_present_effect demo_merged (demo_session 1 monday SCHEDULED) demo_schedule
    demo_term (at_ 9 2) (Some 1)); try reflexivity; [decide_now|discriminate].
Defined.
Lemma propagate_absent_effect_witness :
  (∃ p, (∀ s, p s = true ↔ at_ 9 0 + PyTime.minutes 15 < at_ 9 20 ∧
           sibling demo_merged (demo_session 1 monday SCHEDULED) 1 s ∧ ses_status s = SCHEDULED) ∧
    wp (propagate_merged_absent (demo_session 1 monday SCHEDULED) None (at_ 9 20))
      (λ r db', r = inr (ses_pk <$> select p (db_sessions demo_merged)) ∧
        logs_only (demo_merged <| db_sessions := update_where p fill_absent
                                                   (db_sessions demo_merged) |>) db')
      demo_merged) ∧
  run (propagate_merged_absent (demo_session 1 monday SCHEDULED) None (at_ 9 20)) demo_merged
  = inr [3].
Proof.
  split; [|vm_compute; reflexivity].
  apply (propagate_absent_effect demo_merged (demo_session 1 monday SCHEDULED) demo_schedule
    demo_term (at_ 9 20) None 15); try reflexivity; [decide_now|discriminate].
Defined.
