(* ===== verification/Jobs.v ===== *)
(** scheduling/jobs.py, the status sweep and the room-conflict safety net, with
    the job wrapper of ops/jobrun.py. *)
From S2P Require Import Prelude Python Model Effects Ops Sample Resolvers Suspensions.
Open Scope Z_scope.

Definition KIND_ABSENT : string := "absent".
Definition KIND_CONFLICT : string := "conflict".
(** The events collected for the guards: a kind and a floor. *)
Abbreviation events := (list (string * option Z)).
(** [room.floor_id] of a room key *)
Definition room_floor_of (db : DB) (r : Z) : option Z := room_floor <$> by_pk (db_rooms db) r.

(** ** sweep_no_shows *)
Definition set_absent (s : Session) : Session := s <| ses_status := ABSENT |>.

(** The iteration on one candidate; the accumulator is [marked] and [collect]. *)
Definition sweep_one (excused_ : Excusal) (now grace_min : Z) (acc : Z * events) (s : Session)
    : M (Z * events) :=
  if negb (FacultyScan.is_no_show_past_grace (ses_sched_start s) now grace_min) then mret acc
  else
    read (λ db, session_is_calendar_excused db s excused_) ≫= λ is_excused : bool,
    if is_excused then mret acc
    else
      atomic (
        update_rows (λ x, (ses_pk x =? ses_pk s) && has_status SCHEDULED x) set_absent
        ≫= λ flipped : Z,
        if flipped =? 0 then mret false
        else
          audit None "session.marked_absent" "session" (PyStr.str (ses_pk s))
            (JObj [("by", JStr "sweep")]%string) ≫= λ _,
          mret true) ≫= λ flipped : bool,
      if negb flipped then mret acc
      else
        read (λ db, room_floor_of db (ses_room s)) ≫= λ floor,
        mret (acc.1 + 1, acc.2 ++ [(KIND_ABSENT, floor)]).

(** [sweep_no_shows(now, collect=...)]: the count and the events appended. *)
Definition sweep_no_shows (now : Z) : M (Z * events) :=
  get_active_term ≫= λ active_term,
  match active_term with
  | None => mret (0, [])
  | Some t =>
      get_policy_num "grace_minutes" ≫= λ grace_min,
      let cutoff := now - PyTime.minutes grace_min in
      excused_checker (Some t) ≫= λ excused_,
      objects_join (λ db s, has_status SCHEDULED s && (ses_sched_start s <? cutoff)
                            && in_term db (term_pk t) s) ≫= λ candidates,
      fold_m (sweep_one excused_ now grace_min) (0, []) candidates
  end.

(** ** detect_room_conflicts *)
Definition conflict_key (room : Z) : string := "room:" +:+ PyStr.str room.

(** The sessions of the term holding a room. *)
Definition holds_room (db : DB) (t : Z) (s : Session) : bool :=
  has_status ACTIVE s && is_none (ses_released_at s) && in_term db t s.
(** [.values("room_id").annotate(n=Count("id")).filter(n__gt=1)] *)
Definition conflicting_room_ids (db : DB) (t : Z) : list Z :=
  fst <$> select (λ p, 1 <? p.2) (count_by (ses_room <$> select (holds_room db t) (db_sessions db))).

Definition open_flag (f : RoomConflictFlag) : bool := is_none (flag_resolved_at f).
Definition resolve_cleared (current_keys : dict string Z) (now : Z) (f : RoomConflictFlag)
    : M unit :=
  when (negb (bool_decide (flag_key f ∈ current_keys.*1)))
    (save (flag_pk f) (λ x, x <| flag_resolved_at := Some now |>)).
Definition raise_conflict (acc : Z * events) (kr : string * Z) : M (Z * events) :=
  let '(key, room_id) := kr in
  exists_where (λ f, bool_decide (flag_key f = key) && open_flag f) ≫= λ already : bool,
  if already then mret acc
  else
    first (R:=Room) (λ r, room_pk r =? room_id) ≫= λ room,
    let room_label := match room with Some r => room_code r | None => "#" +:+ PyStr.str room_id end in
    atomic (
      create (λ k, {| flag_pk := k; flag_room := room_id; flag_key := key;
                      flag_resolved_at := None |}) ≫= λ _,
      notify [] (Some IFO_ADMIN) "room_conflict" "Room conflict detected"
        ("Two or more active sessions are holding room " +:+ room_label
         +:+ ". Please resolve the occupancy conflict.") "") ≫= λ _,
    mret (acc.1 + 1,
          match room with
          | Some r => acc.2 ++ [(KIND_CONFLICT, Some (room_floor r))]
          | None => acc.2 end).

Definition detect_room_conflicts (now : Z) : M (Z * events) :=
  get_active_term ≫= λ active_term,
  match active_term with
  | None => mret (0, [])
  | Some t =>
      read (λ db, conflicting_room_ids db (term_pk t)) ≫= λ ids,
      let current_keys := foldl (λ d rid, dict_set d (conflict_key rid) rid) [] ids in
      objects open_flag ≫= λ flags,
      for_each flags (resolve_cleared current_keys now) ≫= λ _,
      fold_m raise_conflict (0, []) current_keys
  end.

(** ** ops/jobrun.py [run_job]

    [repr] is the text of an exception; a job is any computation of a count. *)
Definition run_job (repr : exn → string) (job_name : string) (fn : M Z) (now : Z) : M JobRun :=
  create (λ k, {| job_pk := k; job_name := job_name; job_status := "running";
                  job_started_at := now; job_finished_at := None; job_rows := 0;
                  job_detail := "" |}) ≫= λ run,
  try_with
    (fn ≫= λ rows, mret (run <| job_status := "ok" |> <| job_rows := rows |>))
    (λ e, Some (
      notify [] (Some SYSTEM_ADMIN) "job_failed" ("Job failed: " +:+ job_name)
        (PyStr.take 500 (repr e)) "" ≫= λ _,
      mret (run <| job_status := "failed" |> <| job_detail := PyStr.take 2000 (repr e) |>)))
  ≫= λ run',
  let run'' := run' <| job_finished_at := Some now |> in
  save (job_pk run) (λ _, run'') ≫= λ _,
  mret run''.

(** ** What the sweep marks *)
Definition swept (db : DB) (t : AcademicTerm) (now grace_min : Z) (s : Session) : bool :=
  has_status SCHEDULED s && (ses_sched_start s <? now - PyTime.minutes grace_min)
  && in_term db (term_pk t) s
  && (FacultyScan.is_no_show_past_grace (ses_sched_start s) now grace_min
      && negb (session_is_calendar_excused db s (excused_checker_of db (Some t)))).
Definition no_show (db : DB) (t : AcademicTerm) (now grace_min : Z) (s : Session) : Prop :=
  ses_status s = SCHEDULED ∧ session_term db s = Some (term_pk t) ∧
  ses_sched_start s + PyTime.minutes grace_min < now ∧
  ¬ calendar_excuses db (term_pk t) (ses_date s) (room_building db (ses_room s)).

Lemma swept_iff db t now g s : swept db t now g s = true ↔ no_show db t now g s.
Proof.
  unfold swept, no_show, session_is_calendar_excused, FacultyScan.is_no_show_past_grace,
    has_status, in_term.
  rewrite <- excused_spec, not_true_iff_false. b2p. intuition lia.
Qed.

Section sweep.
Context (db : DB) (t : AcademicTerm) (now g : Z).
Context (Huniq : pk_unique (db_sessions db)).
Let ex := excused_checker_of db (Some t).
Let q (s : Session) : bool :=
  FacultyScan.is_no_show_past_grace (ses_sched_start s) now g
  && negb (session_is_calendar_excused db s ex).
Let marked_in (ids : list Z) : DB :=
  db <| db_sessions := update_where (mem_pk ids) set_absent (db_sessions db) |>.

Lemma select_marked ids s :
  s ∈ db_sessions db → ses_status s = SCHEDULED → ses_pk s ∉ ids →
  select (λ x, (ses_pk x =? ses_pk s) && has_status SCHEDULED x)
    (update_where (mem_pk ids) set_absent (db_sessions db)) = [s].
Proof using Huniq.
  intros Hs Hst Hids.
  change (select (λ x, (pk x =? ses_pk s) && has_status SCHEDULED x)
    (update_where (mem_pk ids) set_absent (db_sessions db)) = [s]).
  rewrite select_pk by (by apply pk_unique_update).
  rewrite by_pk_update_where by done. rewrite (by_pk_unique _ _ s) by done. simpl.
  unfold mem_pk, pk, pk_Session. rewrite bool_decide_false by done. unfold has_status.
  by rewrite bool_decide_true.
Qed.
Lemma update_marked ids s :
  s ∈ db_sessions db → ses_status s = SCHEDULED → ses_pk s ∉ ids →
  update_where (λ x, (ses_pk x =? ses_pk s) && has_status SCHEDULED x) set_absent
    (update_where (mem_pk ids) set_absent (db_sessions db)) =
  update_where (mem_pk (ids ++ [ses_pk s])) set_absent (db_sessions db).
Proof using Huniq.
  intros Hs Hst Hids. rewrite <- (update_where_mem_app ids [ses_pk s]) by done.
  apply update_where_ext; [|done]. intros x (y & Hy & ->)%elem_of_update_where.
  unfold mem_pk, pk, pk_Session. destruct (bool_decide_reflect (ses_pk y ∈ ids)) as [Hin|Hin].
  - unfold has_status. simpl. rewrite andb_false_r. symmetry. apply bool_decide_eq_false.
    rewrite list_elem_of_singleton. congruence.
  - destruct (Z.eqb_spec (ses_pk y) (ses_pk s)) as [Heq|Hne]; simpl.
    + assert (y = s) as -> by by apply (pk_inj (db_sessions db)).
      unfold has_status. rewrite !bool_decide_true; [done|left|done].
    + symmetry. apply bool_decide_eq_false. by rewrite list_elem_of_singleton.
Qed.

Lemma sweep_one_wp ids acc s db' :
  s ∈ db_sessions db → ses_status s = SCHEDULED → ses_pk s ∉ ids →
  logs_only (marked_in ids) db' →
  wp (sweep_one ex now g acc s) (λ r db'',
    if q s then
      r = inr (acc.1 + 1, acc.2 ++ [(KIND_ABSENT, room_floor_of db (ses_room s))]) ∧
      logs_only (marked_in (ids ++ [ses_pk s])) db''
    else r = inr acc ∧ db'' = db') db'.
Proof using Huniq.
  intros Hs Hst Hids Hdb. unfold sweep_one, q.
  destruct (FacultyScan.is_no_show_past_grace _ _ _); simpl; [|wp_step; done].
  destruct Hdb as (A & N & ->). wp_step. wp_step. unfold session_is_calendar_excused. simpl.
  unfold room_building at 1. simpl. fold (room_building db (ses_room s)).
  destruct (excused ex (ses_date s) (room_building db (ses_room s))); simpl; [wp_step; done|].
  wp_step. wp_step. wp_step. wp_step. simpl. rewrite select_marked by done. simpl.
  wp_step. wp_log. wp_step. simpl. wp_step. wp_step. wp_step. log_subst. split; [done|].
  rewrite update_marked by done. eexists (A ++ _), (N ++ _).
  unfold marked_in. simpl. by rewrite <- !app_assoc.
Qed.

Lemma sweep_fold_wp (cs : list Session) :
  NoDup (ses_pk <$> cs) →
  (∀ s, s ∈ cs → s ∈ db_sessions db ∧ ses_status s = SCHEDULED) →
  wp (fold_m (sweep_one ex now g) (0, []) cs) (λ r db',
    r = inr (Z.of_nat (length (select q cs)),
             (λ s, (KIND_ABSENT, room_floor_of db (ses_room s))) <$> select q cs) ∧
    logs_only (marked_in (ses_pk <$> select q cs)) db') db.
Proof using Huniq.
  intros Hnd Hcs. apply wp_mono with (λ r db', match r with
    | inl e => False
    | inr c => c = (Z.of_nat (length (select q cs)),
             (λ s, (KIND_ABSENT, room_floor_of db (ses_room s))) <$> select q cs) ∧
        logs_only (marked_in (ses_pk <$> select q cs)) db' end).
  2:{ by intros [e|c] db'; [|intros [-> ?]]. }
  apply (wp_fold_m _ _ _ (λ l c db', c = (Z.of_nat (length (select q l)),
             (λ s, (KIND_ABSENT, room_floor_of db (ses_room s))) <$> select q l) ∧
        logs_only (marked_in (ses_pk <$> select q l)) db') (λ _ _, False)).
  - split; [done|]. unfold marked_in. rewrite update_where_none by done. by destruct db.
  - intros l s todo c db' Hl [-> Hdb]. pose proof (Hcs s ltac:(set_solver)) as [Hs Hst].
    eapply wp_mono; [eapply sweep_one_wp; try done|].
    { intros (x & Heq & Hx)%list_elem_of_fmap. apply elem_of_select in Hx as [Hx _].
      rewrite Hl, fmap_app in Hnd. apply NoDup_app in Hnd as (_ & Hnd & _).
      apply (Hnd (ses_pk s)); [rewrite Heq; by apply list_elem_of_fmap_2|].
      rewrite fmap_cons. left. }
    cbv beta. intros r db'' H. rewrite select_app, select_cons. destruct (q s).
    + destruct H as [-> H]. rewrite !fmap_app, length_app. simpl. split; [|done].
      f_equal. lia.
    + destruct H as [-> ->]. simpl. by rewrite app_nil_r.
Qed.
End sweep.

Section sweep_all.
Context (db : DB) (t : AcademicTerm) (now g : Z).
Context (Huniq : pk_unique (db_sessions db)).
Context (Hact : select is_active_term (db_terms db) = [t]).
Context (Hg : policy_num db "grace_minutes" = Some g).

Lemma sweep_no_shows_wp :
  wp (sweep_no_shows now) (λ r db',
    r = inr (Z.of_nat (length (select (swept db t now g) (db_sessions db))),
             (λ s, (KIND_ABSENT, room_floor_of db (ses_room s)))
               <$> select (swept db t now g) (db_sessions db)) ∧
    logs_only (db <| db_sessions := update_where (swept db t now g) set_absent
                                      (db_sessions db) |>) db') db.
Proof using All.
  unfold sweep_no_shows. wp_step. apply wp_get_active_term.
  2:{ by rewrite Hact. }
  2:{ unfold one_active_term. rewrite Hact. simpl. lia. }
  intros t' Ht'. assert (t' = t) as -> by congruence. wp_step.
  apply wp_policy_num; [|congruence]. intros g' Hg'. assert (g' = g) as -> by congruence.
  wp_step. unfold excused_checker. wp_step. wp_step. wp_step. cbn [tbl table_Session].
  set (c := λ s, has_status SCHEDULED s && (ses_sched_start s <? now - PyTime.minutes g)
                 && in_term db (term_pk t) s).
  change (select _ (db_sessions db)) with (select c (db_sessions db)) at 1.
  eapply wp_mono; [apply sweep_fold_wp; try done|].
  - by apply NoDup_fmap_select.
  - intros s [Hs Hc]%elem_of_select. unfold c, has_status in Hc. b2p. tauto.
  - cbv beta. intros r db' [-> Hdb]. rewrite select_select in *.
    change (λ x, c x && _) with (swept db t now g) in *. split; [done|].
    by rewrite update_sessions_selected in Hdb.
Qed.
End sweep_all.

(** C8: the status sweep marks absent exactly the no-shows of the active term:
    sessions still scheduled, strictly past start plus grace, whose date and
    building no break and no active suspension excuses; it returns how many, with
    the floor of each room, and changes nothing else but the logs. *)
Theorem sweep_marks_exactly db t now g :
  pk_unique (db_sessions db) → select is_active_term (db_terms db) = [t] →
  policy_num db "grace_minutes" = Some g →
  ∃ p, (∀ s, p s = true ↔ no_show db t now g s) ∧
    wp (sweep_no_shows now) (λ r db',
      r = inr (Z.of_nat (length (select p (db_sessions db))),
               (λ s, (KIND_ABSENT, room_floor_of db (ses_room s)))
                 <$> select p (db_sessions db)) ∧
      logs_only (db <| db_sessions := update_where p set_absent (db_sessions db) |>) db') db.
Proof.
  intros. exists (swept db t now g). split; [apply swept_iff|]. by apply sweep_no_shows_wp.
Qed.

(** Sweeping twice at the same instant marks nothing the second time and
    leaves the sessions as the first sweep did. *)
Theorem sweep_idempotent db t now g :
  pk_unique (db_sessions db) → select is_active_term (db_terms db) = [t] →
  policy_num db "grace_minutes" = Some g →
  wp (sweep_no_shows now ≫= λ _, sweep_no_shows now) (λ r db', r = inr (0, []) ∧
    db_sessions db' = db_sessions (exec (sweep_no_shows now) db)) db.
Proof.
  intros Hu Hact Hg. wp_step. apply wp_intro. intros r db1 Hrun.
  pose proof (wp_run _ _ _ _ _ (sweep_no_shows_wp db t now g Hu Hact Hg) Hrun) as [-> Hdb1].
  assert (exec (sweep_no_shows now) db = db1) as -> by (unfold exec; by rewrite Hrun).
  destruct Hdb1 as (A & N & Hdb1). assert (db_sessions db1 =
    update_where (swept db t now g) set_absent (db_sessions db)) as Hs by by rewrite Hdb1.
  assert (∀ s, s ∈ db_sessions db1 → swept db1 t now g s = false) as Hnone.
  { intros s. rewrite Hs. intros (s0 & Hs0 & ->)%elem_of_update_where. subst db1.
    destruct (swept db t now g s0) eqn:E; [done|]. exact E. }
  eapply wp_mono; [apply (sweep_no_shows_wp db1 t now g)|].
  - rewrite Hs. by apply pk_unique_update.
  - by subst db1.
  - by subst db1.
  - cbv beta. intros r db2 [-> (A' & N' & ->)]. simpl.
    rewrite (proj2 (select_nil _ _) Hnone), update_where_none by done. done.
Qed.

(** The sweeps of a scheduler, at the given instants. *)
Definition sweeps (ticks : list Z) : M unit :=
  for_each ticks (λ now, sweep_no_shows now ≫= λ _, mret ()).
Lemma update_where_or (p q : Session → bool) l :
  (∀ s, s ∈ l → p s = true → q (set_absent s) = false) →
  update_where q set_absent (update_where p set_absent l) =
  update_where (λ s, p s || q s) set_absent l.
Proof.
  intros H. unfold update_where. rewrite <- list_fmap_compose. apply list_fmap_ext.
  intros i s Hs%list_elem_of_lookup_2. unfold compose. destruct (p s) eqn:E; simpl; [|done].
  by rewrite H.
Qed.
Lemma sweeps_wp ticks : ∀ db t g,
  pk_unique (db_sessions db) → select is_active_term (db_terms db) = [t] →
  policy_num db "grace_minutes" = Some g →
  wp (sweeps ticks) (λ r db', r = inr () ∧
    logs_only (db <| db_sessions :=
      update_where (λ s, existsb (λ now, swept db t now g s) ticks) set_absent (db_sessions db) |>) db') db.
Proof.
  induction ticks as [|now ticks IH]; intros db t g Hu Hact Hg.
  - apply wp_ret. split; [done|]. rewrite update_where_none by done. by rewrite db_sessions_same.
  - unfold sweeps. cbn [for_each]. wp_step. wp_step.
    eapply wp_mono; [by apply (sweep_no_shows_wp db t now g)|]. intros r db1 [-> Hdb1]. wp_step.
    destruct Hdb1 as (A & N & ->). eapply wp_mono; [apply (IH _ t g)|].
    + by apply pk_unique_update.
    + done.
    + done.
    + cbv beta. intros r db2 [-> (A' & N' & ->)]. split; [done|]. simpl.
      rewrite update_where_or; [exists (A ++ A'), (N ++ N'); simpl; by rewrite !(assoc_L (++))|].
      intros s _ _. by apply existsb_elem_false.
Qed.

(** C9: no class waits forever: however the scheduler's sweeps are spaced, each of
    them returns, and a class of the active term that is still scheduled and not
    excused is absent after the first one past its start plus the grace period, and
    still scheduled after any number of earlier ones. *)
Theorem sweeps_settle db t g ticks s :
  pk_unique (db_sessions db) → select is_active_term (db_terms db) = [t] →
  policy_num db "grace_minutes" = Some g →
  s ∈ db_sessions db → ses_status s = SCHEDULED → session_term db s = Some (term_pk t) →
  ¬ calendar_excuses db (term_pk t) (ses_date s) (room_building db (ses_room s)) →
  wp (sweeps ticks) (λ r db', r = inr () ∧ ∃ s', by_pk (db_sessions db') (ses_pk s) = Some s' ∧
    (ses_status s' = ABSENT ↔ ∃ now, now ∈ ticks ∧ ses_sched_start s + PyTime.minutes g < now) ∧
    (ses_status s' = SCHEDULED ↔ ∀ now, now ∈ ticks → now ≤ ses_sched_start s + PyTime.minutes g)) db.
Proof.
  intros Hu Hact Hg Hs Hst Ht Hex. eapply wp_mono; [by apply (sweeps_wp ticks db t g)|].
  cbv beta. intros r db' [-> (A & N & ->)]. split; [done|]. simpl.
  set (p := λ s, existsb (λ now, swept db t now g s) ticks).
  assert (p s = true ↔ ∃ now, now ∈ ticks ∧ ses_sched_start s + PyTime.minutes g < now) as Hp.
  { unfold p. rewrite existsb_elem. setoid_rewrite swept_iff. unfold no_show. naive_solver. }
  exists (if p s then set_absent s else s). split.
  { rewrite by_pk_update_where by done. by rewrite (by_pk_unique _ _ s). }
  destruct (p s) eqn:E; simpl; rewrite ?Hst.
  - destruct (proj1 Hp eq_refl) as (now & Hn & Hlt). split; [split; [eauto|done]|].
    split; [done|]. intros Hall. specialize (Hall now Hn). lia.
  - assert (∀ now, now ∈ ticks → now ≤ ses_sched_start s + PyTime.minutes g) as Hall.
    { intros now Hn. apply Z.nlt_ge. intros Hlt. apply (diff_false_true), Hp. eauto. }
    split; [|done]. split; [done|]. intros (now & Hn & Hlt). specialize (Hall now Hn). lia.
Qed.

(** ** The scan and the sweep *)

(** The scan resolver and the sweep share one no-show rule.  For the class a
    scan is about, in its room and not online, the scan resolves to absent exactly
    when the sweep run at the same instant would mark it, or when it is past grace
    on a date the calendar excuses: the scan, unlike the sweep, does not consult
    breaks and suspensions. *)
Theorem scan_sweep_agree db t sessions room occ now g early lead c :
  FacultyScan.none_in sessions FacultyScan.is_active →
  FacultyScan.candidate_is sessions room now lead c →
  ses_room c = room → effective_modality db c ≠ Some ONLINE →
  session_term db c = Some (term_pk t) →
  FacultyScan.outcome (FacultyScan.resolve_faculty_scan db sessions room occ now g early lead)
    = FacultyScan.MARK_ABSENT ↔
  no_show db t now g c ∨
  (ses_sched_start c + PyTime.minutes g < now ∧
   calendar_excuses db (term_pk t) (ses_date c) (room_building db (ses_room c))).
Proof.
  intros Ha Hc Hr Ho Ht.
  assert (ses_status c = SCHEDULED) as Hst.
  { destruct Hc as [(l1 & l2 & _ & [[? _] _] & _)|[_ (l1 & l2 & _ & [? _] & _)]]; done. }
  unfold FacultyScan.resolve_faculty_scan.
  rewrite (FacultyScan.none_in_find _ _ _ (FacultyScan.has_status_iff ACTIVE) Ha).
  rewrite (proj2 (FacultyScan.pick_candidate_Some _ _ _ _ _) Hc).
  unfold FacultyScan.resolve_candidate, FacultyScan.in_room, no_show.
  rewrite bool_decide_false by done. rewrite (proj2 (Z.eqb_eq _ _) Hr). simpl.
  unfold FacultyScan.is_no_show_past_grace.
  destruct (Z.ltb_spec (ses_sched_start c + PyTime.minutes g) now).
  - split; [intros _|done].
    destruct (excused (excused_checker_of db (Some t)) (ses_date c)
                (room_building db (ses_room c))) eqn:E.
    + right. split; [done|]. by apply excused_spec.
    + left. split_and!; try done. rewrite <- excused_spec. congruence.
  - split; [by destruct occ|]. intros [(_ & _ & ? & _)|[? _]]; lia.
Qed.

(** ** What a conflict is *)
Definition conflict_room (db : DB) (t r : Z) : Prop :=
  ∃ s1 s2, s1 ∈ db_sessions db ∧ s2 ∈ db_sessions db ∧ s1 ≠ s2 ∧
    ses_room s1 = r ∧ ses_room s2 = r ∧ holds_room db t s1 = true ∧ holds_room db t s2 = true.

Lemma count_by_spec (keys : list Z) :
  NoDup (count_by keys).*1 ∧
  ∀ k, dict_get (count_by keys) k =
    let n := length (select (Z.eqb k) keys) in
    if bool_decide (n = 0%nat) then None else Some (Z.of_nat n).
Proof.
  unfold count_by. induction keys as [|x l IH] using rev_ind; [split; [constructor|done]|].
  rewrite foldl_app. simpl. destruct IH as [Hnd Hget]. split; [by apply dict_set_NoDup|].
  intros k. rewrite dict_get_set, select_app, length_app. simpl. unfold dict_getd.
  case_bool_decide as Hk.
  - subst k. rewrite Hget, Z.eqb_refl. generalize (length (select (Z.eqb x) l)). intros n.
    simpl. rewrite (bool_decide_false ((n + 1)%nat = 0%nat)) by lia.
    case_bool_decide; simpl; f_equal; lia.
  - rewrite Hget. destruct (Z.eqb_spec k x); [congruence|]. simpl. by rewrite Nat.add_0_r.
Qed.
Lemma two_elements {A} (l : list A) :
  NoDup l → (1 < length l)%nat ↔ ∃ x y, x ∈ l ∧ y ∈ l ∧ x ≠ y.
Proof.
  intros Hnd. split.
  - destruct l as [|x [|y l]]; simpl; [lia|lia|]. intros _. exists x, y.
    split_and!; [left|right; left|]. apply NoDup_cons in Hnd as [Hx _]. set_solver.
  - intros (x & y & Hx & Hy & Hne). destruct l as [|a [|b l]]; simpl; [set_solver| |lia].
    apply list_elem_of_singleton in Hx, Hy. congruence.
Qed.

Lemma conflicting_room_ids_spec db t :
  pk_unique (db_sessions db) →
  NoDup (conflicting_room_ids db t) ∧
  ∀ r, r ∈ conflicting_room_ids db t ↔ conflict_room db t r.
Proof.
  intros Huniq. unfold conflicting_room_ids. set (l := select (holds_room db t) _).
  destruct (count_by_spec (ses_room <$> l)) as [Hnd Hget]. split.
  { by apply (NoDup_fmap_select fst). }
  intros r. transitivity ((1 < length (select (λ s, (r =? ses_room s)%Z) l))%nat).
  - assert (length (select (Z.eqb r) (ses_room <$> l)) =
            length (select (λ s, r =? ses_room s) l)) as <-.
    { clear. induction l as [|s l IH]; [done|]. rewrite fmap_cons, !select_cons.
      destruct (r =? ses_room s); simpl; congruence. }
    rewrite list_elem_of_fmap. split.
    + intros ([k n] & -> & [Hin Hn]%elem_of_select). simpl in *. b2p.
      apply (dict_elem_get _ _ _ Hnd) in Hin. rewrite Hget in Hin. simpl in Hin.
      case_bool_decide; simplify_eq. lia.
    + intros Hn. eexists (r, _). split; [done|]. apply elem_of_select. split.
      * apply dict_get_elem. rewrite Hget. simpl. by rewrite bool_decide_false by lia.
      * simpl. b2p. lia.
  - rewrite two_elements.
    2:{ apply (NoDup_fmap_1 ses_pk), NoDup_fmap_select, NoDup_fmap_select. exact Huniq. }
    assert (∀ s, s ∈ select (λ s, r =? ses_room s) l ↔
      s ∈ db_sessions db ∧ ses_room s = r ∧ holds_room db t s = true) as Hl.
    { intros s. unfold l. rewrite !elem_of_select, Z.eqb_eq. naive_solver. }
    unfold conflict_room. split; intros (x & y & H); exists x, y; rewrite !Hl in *; naive_solver.
Qed.

#[export] Instance conflict_key_inj : Inj (=) (=) conflict_key.
Proof.
  intros x y H. unfold conflict_key, PyStr.str in H. apply (inj (String.append "room:")) in H.
  by apply (inj pretty) in H.
Qed.

(** ** The two loops of the safety net *)
Definition resolved (now : Z) (f : RoomConflictFlag) : RoomConflictFlag :=
  f <| flag_resolved_at := Some now |>.
Definition open_keys (db : DB) : list string := flag_key <$> select open_flag (db_flags db).
Definition active_admins (db : DB) : nat :=
  length (select (λ u, bool_decide (usr_role u = IFO_ADMIN) && usr_active u) (db_users db)).

Section conflicts.
Context (db : DB) (now : Z) (keys : dict string Z).
Context (Huniq : pk_unique (db_flags db)).
Let cleared (f : RoomConflictFlag) : bool := negb (bool_decide (flag_key f ∈ keys.*1)).

Lemma resolve_loop_wp :
  wp (for_each (select open_flag (db_flags db)) (resolve_cleared keys now))
    (λ r db', r = inr () ∧
      db' = db <| db_flags := update_where (λ f, open_flag f && cleared f) (resolved now)
                                (db_flags db) |>) db.
Proof using Huniq.
  apply wp_mono with (λ r db', match r with
    | inl e => False
    | inr _ => db' = db <| db_flags :=
        update_where (mem_pk (flag_pk <$> select cleared (select open_flag (db_flags db))))
          (resolved now) (db_flags db) |> end).
  2:{ intros [e|[]] db'; [done|]. intros ->. split; [done|].
      rewrite select_select. by rewrite (update_where_selected _ _ _ Huniq). }
  apply (wp_for_each _ _ (λ l db', db' = db <| db_flags :=
        update_where (mem_pk (flag_pk <$> select cleared l)) (resolved now) (db_flags db) |>)
        (λ _ _, False)).
  - rewrite update_where_none by done. by destruct db.
  - intros l f todo db' Hl ->.
    assert (f ∈ db_flags db) as Hf.
    { assert (f ∈ select open_flag (db_flags db)) as Hf by (rewrite Hl; set_solver).
      by apply elem_of_select in Hf as [? _]. }
    unfold resolve_cleared. rewrite select_app, select_cons. unfold cleared at 2.
    destruct (negb (bool_decide (flag_key f ∈ keys.*1))) eqn:E.
    2:{ cbn [when]. wp_step. cbn [select List.filter]. by rewrite app_nil_r. }
    cbn [when]. apply wp_save; simpl; intros Hex.
    + f_equal. rewrite fmap_app. simpl. unfold update_pk.
      transitivity (update_where (mem_pk [flag_pk f]) (resolved now)
        (update_where (mem_pk (flag_pk <$> select cleared l)) (resolved now) (db_flags db))).
      * apply update_where_ext; [|done]. intros x _. unfold mem_pk.
        apply eq_true_iff_eq. rewrite bool_decide_eq_true, list_elem_of_singleton. b2p. done.
      * by apply update_where_mem_app.
    + rewrite existing_by_pk, by_pk_update_where in Hex by done.
      by rewrite (by_pk_unique _ (flag_pk f) f Huniq) in Hex.
Qed.
End conflicts.

Section raise.
Context (db : DB) (keys : dict string Z).
Context (Hkeys : NoDup keys.*1) (Huniq : pk_unique (db_flags db)).
Definition fresh_conflicts (l : dict string Z) : dict string Z :=
  select (λ kr, negb (bool_decide (kr.1 ∈ open_keys db))) l.
Definition raised (l : dict string Z) (c : Z) (db' : DB) : Prop :=
  ∃ new ns,
    db' = db <| db_flags := db_flags db ++ new |>
             <| db_notifications := db_notifications db ++ ns |> ∧
    flag_key <$> new = (fresh_conflicts l).*1 ∧ (∀ f, f ∈ new → open_flag f = true) ∧
    pk_unique (db_flags db ++ new) ∧ c = Z.of_nat (length (fresh_conflicts l)) ∧
    length ns = (length (fresh_conflicts l) * active_admins db)%nat.

Lemma elem_of_fresh_keys l k : k ∈ (fresh_conflicts l).*1 ↔ k ∈ l.*1 ∧ k ∉ open_keys db.
Proof.
  unfold fresh_conflicts. rewrite !list_elem_of_fmap. setoid_rewrite elem_of_select. split.
  - intros (x & -> & Hx & Hp). b2p. split; [by exists x|done].
  - intros [(x & -> & Hx) Hp]. exists x. split_and!; try done. by b2p.
Qed.
Lemma open_exists l new k :
  flag_key <$> new = (fresh_conflicts l).*1 → (∀ f, f ∈ new → open_flag f = true) → k ∉ l.*1 →
  existsb (λ f, bool_decide (flag_key f = k) && open_flag f) (db_flags db ++ new) =
  bool_decide (k ∈ open_keys db).
Proof.
  intros Hnew Hopen Hk. apply eq_true_iff_eq. rewrite existsb_elem, bool_decide_eq_true.
  unfold open_keys. rewrite list_elem_of_fmap. split.
  - intros (f & [Hf|Hf]%elem_of_app & Hp); b2p; destruct Hp as [<- Ho].
    + exists f. split; [done|]. by apply elem_of_select.
    + destruct Hk. assert (flag_key f ∈ (fresh_conflicts l).*1) as Hin.
      { rewrite <- Hnew. by apply list_elem_of_fmap_2. }
      apply list_elem_of_fmap in Hin as (kr & -> & [Hkr _]%elem_of_select).
      by apply list_elem_of_fmap_2.
  - intros (f & -> & [Hf Ho]%elem_of_select). exists f. split; [set_solver|]. by b2p.
Qed.

Lemma raise_one_wp l acc kr db' :
  raised l acc.1 db' → kr.1 ∉ l.*1 →
  wp (raise_conflict acc kr) (λ r db'', match r with
    | inl _ => False | inr c => raised (l ++ [kr]) c.1 db'' end) db'.
Proof using All.
  intros (new & ns & -> & Hnew & Hopen & Hu & Hc & Hns) Hk. destruct kr as [key room].
  unfold raise_conflict, raised, fresh_conflicts. rewrite select_app, select_cons. simpl.
  wp_step. wp_step. simpl. rewrite (open_exists l) by done.
  destruct (bool_decide (key ∈ open_keys db)); simpl.
  - wp_step. exists new, ns. rewrite app_nil_r. done.
  - wp_step. wp_step. wp_step. wp_step. wp_step. wp_step. simpl. apply wp_notify.
    intros ns' Hu' _. wp_step. simpl.
    eexists (new ++ [_]), (ns ++ ns'). rewrite <- !app_assoc. split; [done|].
    rewrite !fmap_app, Hnew, !length_app. simpl. split; [done|]. split; [|split; [|split]].
    + intros f [?|Hf%list_elem_of_singleton]%elem_of_app; [auto|by subst].
    + rewrite app_assoc. by apply pk_unique_insert.
    + rewrite Hc. unfold fresh_conflicts. lia.
    + assert (length ns' = active_admins db) as ->.
      { rewrite <- (length_fmap ntf_user), Hu'. apply length_fmap. }
      rewrite Hns. unfold fresh_conflicts. lia.
Qed.

Lemma raise_loop_wp :
  wp (fold_m raise_conflict (0, []) keys) (λ r db', ∃ c, r = inr c ∧ raised keys c.1 db') db.
Proof using All.
  apply wp_mono with (λ r db', match r with
    | inl _ => False | inr c => raised keys c.1 db' end).
  2:{ intros [e|c] db'; [done|eauto]. }
  apply (wp_fold_m _ _ _ (λ l c db', raised l c.1 db') (λ _ _, False)).
  - exists [], []. rewrite !app_nil_r. split; [by destruct db|].
    split_and!; try done. by intros f ?%not_elem_of_nil.
  - intros l kr todo acc db' Hl Hr. apply raise_one_wp; [done|].
    rewrite Hl, fmap_app, fmap_cons in Hkeys. apply NoDup_app in Hkeys as (_ & Hd & _).
    intros Hin. apply (Hd _ Hin). left.
Qed.
End raise.

Lemma select_open_resolved (c : RoomConflictFlag → bool) now t :
  select open_flag (update_where (λ f, open_flag f && c f) (resolved now) t) =
  select (λ f, open_flag f && negb (c f)) t.
Proof.
  unfold update_where. induction t as [|f t IH]; [done|]. rewrite fmap_cons, !select_cons, IH.
  destruct (open_flag f) eqn:E, (c f); simpl; rewrite ?E; done.
Qed.

(** The room-conflict safety net keeps one open flag per contradiction: after
    it runs, the open flags are exactly one per room held by two or more active
    sessions of the active term (a cleared conflict is resolved), and only the
    conflicts that had no open flag are counted and notified, once to each active
    IFO administrator. *)
Theorem detect_conflicts_exact db t now :
  pk_unique (db_sessions db) → pk_unique (db_flags db) → NoDup (open_keys db) →
  select is_active_term (db_terms db) = [t] →
  wp (detect_room_conflicts now) (λ r db', ∃ F ns n ev,
    db' = db <| db_flags := F |> <| db_notifications := db_notifications db ++ ns |> ∧
    r = inr (n, ev) ∧ pk_unique F ∧ NoDup (open_keys db') ∧
    (∀ k, k ∈ open_keys db' ↔
       ∃ room, k = conflict_key room ∧ conflict_room db (term_pk t) room) ∧
    n = Z.of_nat (length (select (λ room, negb (bool_decide (conflict_key room ∈ open_keys db)))
                            (conflicting_room_ids db (term_pk t)))) ∧
    Z.of_nat (length ns) = n * Z.of_nat (active_admins db)) db.
Proof.
  intros Hu Huf Hnd Hact. unfold detect_room_conflicts. wp_step. apply wp_get_active_term.
  2:{ by rewrite Hact. }
  2:{ unfold one_active_term. rewrite Hact. simpl. lia. }
  intros t' Ht'. assert (t' = t) as -> by congruence.
  destruct (conflicting_room_ids_spec db (term_pk t) Hu) as [Hids Hconf].
  wp_step. wp_step. set (ids := conflicting_room_ids db (term_pk t)) in *.
  rewrite (dict_fill conflict_key (λ r, r)), app_nil_l.
  2:{ rewrite app_nil_l. by apply NoDup_fmap_2; [apply _|]. }
  set (keys := (λ x, (conflict_key x, x)) <$> ids).
  assert (keys.*1 = conflict_key <$> ids) as Hk by (unfold keys; by rewrite <- list_fmap_compose).
  assert (NoDup keys.*1) as Hkeys.
  { rewrite Hk. by apply NoDup_fmap_2; [apply _|]. }
  do 3 wp_step. eapply wp_mono; [by apply resolve_loop_wp|]. cbv beta. intros r db1 [-> Hdb1].
  eapply wp_mono; [apply raise_loop_wp; [done|]|].
  { subst db1. simpl. by apply pk_unique_update. }
  cbv beta. intros r db' ([n ev] & -> & new & ns & Hdb' & Hnew & Hopen & Hun & Hn & Hns).
  set (cl := λ f, negb (bool_decide (flag_key f ∈ keys.*1))) in *.
  assert (open_keys db1 = flag_key <$> select (λ f, open_flag f && negb (cl f)) (db_flags db)) as Ho1.
  { unfold open_keys. subst db1. simpl. by rewrite select_open_resolved. }
  assert (∀ k, k ∈ open_keys db1 ↔ k ∈ open_keys db ∧ k ∈ keys.*1) as Hin1.
  { intros k. rewrite Ho1. unfold open_keys. rewrite !(list_elem_of_fmap flag_key).
    assert (∀ f, f ∈ select (λ f, open_flag f && negb (cl f)) (db_flags db) ↔
      f ∈ select open_flag (db_flags db) ∧ flag_key f ∈ keys.*1) as Hf.
    { intros f. unfold cl. rewrite !elem_of_select, negb_involutive. b2p. tauto. }
    setoid_rewrite Hf. split.
    - intros (f & -> & Hs & Hk'). split; [by exists f|done].
    - intros [(f & -> & Hs) Hk']. by exists f. }
  assert (open_keys db' = open_keys db1 ++ (fresh_conflicts db1 keys).*1) as Ho'.
  { unfold open_keys. subst db'. simpl. rewrite select_app, fmap_app.
    by rewrite (select_all _ new), Hnew. }
  exists (db_flags db1 ++ new), ns, n, ev. split; [by subst db' db1|]. split; [done|].
  split; [done|]. rewrite Ho'. split; [|split].
  - apply NoDup_app. split; [|split].
    + rewrite Ho1, <- select_select. by apply NoDup_fmap_select.
    + intros k Hk1 [_ Hk2]%elem_of_fresh_keys. done.
    + by apply NoDup_fmap_select.
  - intros k. rewrite elem_of_app, elem_of_fresh_keys. transitivity (k ∈ keys.*1).
    + destruct (decide (k ∈ open_keys db1)) as [Hi|Hi]; [|tauto].
      pose proof (proj1 (Hin1 k) Hi). tauto.
    + rewrite Hk, list_elem_of_fmap. by setoid_rewrite Hconf.
  - simpl in Hn. assert (length (fresh_conflicts db1 keys) = length (select
      (λ room, negb (bool_decide (conflict_key room ∈ open_keys db))) ids)) as Hlen.
    { unfold fresh_conflicts, keys. rewrite select_fmap, length_fmap. f_equal.
      apply select_ext. intros x Hx. simpl. f_equal. apply bool_decide_ext. rewrite Hin1.
      rewrite Hk. split; [tauto|]. intros ?. split; [done|]. by apply list_elem_of_fmap_2. }
    rewrite <- Hlen. split; [done|]. rewrite Hns, Hn. subst db1. unfold active_admins. simpl. lia.
Qed.

(** The row [run_job] creates before it calls the job. *)
Definition started (name : string) (now : Z) (db : DB) : JobRun :=
  {| job_pk := fresh_pk (db_jobruns db); job_name := name; job_status := "running";
     job_started_at := now; job_finished_at := None; job_rows := 0; job_detail := "" |}.
Definition keeps_jobruns (db db' : DB) : Prop :=
  ∀ k, existing (db_jobruns db) k = true → existing (db_jobruns db') k = true.
Definition finished (repr : exn → string) (name : string) (now : Z) (db : DB) (r : exn + Z)
    : JobRun :=
  let run := started name now db in
  match r with
  | inr n => run <| job_status := "ok" |> <| job_rows := n |> <| job_finished_at := Some now |>
  | inl e => run <| job_status := "failed" |> <| job_detail := PyStr.take 2000 (repr e) |>
                 <| job_finished_at := Some now |>
  end.

(** A job never raises: whatever a job does, provided it deletes no job run,
    [run_job] returns normally and records the run as finished, with the job's
    count when it succeeded and with the text of its error when it raised. *)
Theorem run_job_total repr name fn now db :
  respects keeps_jobruns fn →
  wp (run_job repr name fn now) (λ r db',
    ∃ res, fst (fn (db <| db_jobruns := db_jobruns db ++ [started name now db] |>)) = res ∧
      r = inr (finished repr name now db res) ∧
      by_pk (db_jobruns db') (fresh_pk (db_jobruns db)) = Some (finished repr name now db res)) db.
Proof.
  intros Hfn. unfold run_job. wp_step. wp_step. cbn [tbl set_tbl table_JobRun].
  set (db1 := db <| db_jobruns := _ |>). fold (started name now db).
  specialize (Hfn db1). unfold exec in Hfn.
  assert (existing (db_jobruns db1) (fresh_pk (db_jobruns db)) = true) as Hex.
  { apply existsb_elem. exists (started name now db). split; [set_solver|]. simpl. by b2p. }
  assert (∀ run db2, existing (db_jobruns db2) (job_pk run) = true →
    by_pk (update_pk (job_pk run) (λ _ : JobRun, run) (db_jobruns db2)) (job_pk run) = Some run)
    as Hget.
  { intros run db2. rewrite existing_by_pk. unfold update_pk, by_pk, update_where, pk, pk_JobRun.
    induction (db_jobruns db2) as [|x l IH]; [done|]. rewrite fmap_cons. simpl.
    destruct (Z.eqb_spec (job_pk x) (job_pk run)).
    - intros _. by rewrite Z.eqb_refl.
    - by rewrite (proj2 (Z.eqb_neq (job_pk x) _)). }
  destruct (fn db1) as [[e|n] db2] eqn:Efn; simpl in Hfn.
  - wp_step. wp_step. wp_step. apply wp_intro. intros r db' Hr. rewrite Efn in Hr.
    injection Hr as <- <-. wp_step. wp_log. log_subst. wp_step. wp_step.
    apply wp_save; simpl; intros Hx.
    + wp_step. exists (inl e). split_and!; try done.
      apply (Hget (finished repr name now db (inl e))). by apply Hfn.
    + by rewrite Hfn in Hx.
  - wp_step. wp_step. wp_step. apply wp_intro. intros r db' Hr. rewrite Efn in Hr.
    injection Hr as <- <-. wp_step. wp_step. apply wp_save; simpl; intros Hx.
    + wp_step. exists (inr n). split_and!; try done.
      apply (Hget (finished repr name now db (inr n))). by apply Hfn.
    + by rewrite Hfn in Hx.
Qed.

(** ** Witnesses *)
Lemma sweep_marks_exactly_witness :
  (∃ p, (∀ s, p s = true ↔ no_show demo_db demo_term (at_ 9 16) 15 s) ∧
    wp (sweep_no_shows (at_ 9 16)) (λ r db',
      r = inr (Z.of_nat (length (select p (db_sessions demo_db))),
               (λ s, (KIND_ABSENT, room_floor_of demo_db (ses_room s)))
                 <$> select p (db_sessions demo_db)) ∧
      logs_only (demo_db <| db_sessions := update_where p set_absent (db_sessions demo_db) |>)
        db') demo_db) ∧
  run (sweep_no_shows (at_ 9 16)) demo_db = inr (1, [(KIND_ABSENT, Some 1)]) ∧
  run (sweep_no_shows (at_ 9 15)) demo_db = inr (0, []).
Proof.
  split; [|split; vm_compute; reflexivity].
  apply (sweep_marks_exactly demo_db demo_term (at_ 9 16) 15); [decide_now|reflexivity|reflexivity].
Defined.
Lemma sweep_idempotent_witness :
  wp (sweep_no_shows (at_ 9 16) ≫= λ _, sweep_no_shows (at_ 9 16))
    (λ r db', r = inr (0, []) ∧
      db_sessions db' = db_sessions (exec (sweep_no_shows (at_ 9 16)) demo_db)) demo_db.
Proof.
  apply (sweep_idempotent demo_db demo_term (at_ 9 16) 15); [decide_now|reflexivity|reflexivity].
Defined.
Lemma sweeps_settle_witness :
  let ticks := [at_ 9 10; at_ 9 16; at_ 9 20] in
  (∃ s', by_pk (db_sessions (exec (sweeps ticks) demo_db)) 1 = Some s' ∧ ses_status s' = ABSENT) ∧
  ses_status <$> db_sessions (exec (sweeps [at_ 9 10; at_ 9 15]) demo_db) = [SCHEDULED; SCHEDULED].
Proof.
  split; [|vm_compute; reflexivity].
  destruct (sweeps_settle demo_db demo_term 15 [at_ 9 10; at_ 9 16; at_ 9 20]
    (demo_session 1 monday SCHEDULED)) as (_ & s' & Hs & H & _);
    [decide_now|reflexivity|reflexivity|left|reflexivity|reflexivity|by intros [? ?%not_elem_of_nil|? ?%not_elem_of_nil]|].
  exists s'. split; [exact Hs|]. apply H. exists (at_ 9 16). split; [right; left|reflexivity].
Defined.
(** A holiday declared after the class was materialized. *)
Definition demo_holiday : DB := demo_db <| db_breaks :=
  [{| brk_pk := 1; brk_term := 1; brk_start := monday; brk_end := monday;
      brk_reason := "holiday" |}] |>.
Lemma scan_sweep_agree_witness :
  FacultyScan.outcome (FacultyScan.resolve_faculty_scan demo_holiday
    [demo_session 1 monday SCHEDULED] 1 None (at_ 9 16) 15 15 15) = FacultyScan.MARK_ABSENT ∧
  run (sweep_no_shows (at_ 9 16)) demo_holiday = inr (0, []).
Proof.
  split; [|vm_compute; reflexivity].
  apply (scan_sweep_agree demo_holiday demo_term [demo_session 1 monday SCHEDULED] 1 None
    (at_ 9 16) 15 15 15 (demo_session 1 monday SCHEDULED)); [| |reflexivity|discriminate|reflexivity|].
  - intros x Hx. each_row Hx. discriminate.
  - left. exists [], []. split; [reflexivity|]. split; [vm_compute; intuition discriminate|].
    by intros x ?%not_elem_of_nil.
  - right. split; [vm_compute; reflexivity|].
    eapply excused_by_break; [left|reflexivity|simpl; lia].
Defined.
(** Two classes running in one room. *)
Definition demo_conflict : DB := demo_db <| db_sessions :=
  [demo_session 1 monday ACTIVE; demo_session 2 monday ACTIVE] |>.
Lemma detect_conflicts_exact_witness :
  wp (detect_room_conflicts (at_ 9 16)) (λ r db', ∃ F ns n ev,
    db' = demo_conflict <| db_flags := F |>
                        <| db_notifications := db_notifications demo_conflict ++ ns |> ∧
    r = inr (n, ev) ∧ pk_unique F ∧ NoDup (open_keys db') ∧
    (∀ k, k ∈ open_keys db' ↔ ∃ room, k = conflict_key room ∧ conflict_room demo_conflict 1 room) ∧
    n = Z.of_nat (length (select
          (λ room, negb (bool_decide (conflict_key room ∈ open_keys demo_conflict)))
          (conflicting_room_ids demo_conflict 1))) ∧
    Z.of_nat (length ns) = n * Z.of_nat (active_admins demo_conflict)) demo_conflict ∧
  run (detect_room_conflicts (at_ 9 16)) demo_conflict = inr (1, [(KIND_CONFLICT, Some 1)]).
Proof.
  split; [|vm_compute; reflexivity].
  apply (detect_conflicts_exact demo_conflict demo_term (at_ 9 16));
    [decide_now|decide_now|decide_now|reflexivity].
Defined.
Lemma run_job_total_witness :
  ∃ r, run (run_job (λ _, "NoActiveTerm"%string) "sweep" (raise ValueErr) (at_ 9 0)) demo_db = inr r
    ∧ job_status r = "failed"%string.
Proof.
  destruct (run_job_total (λ _, "NoActiveTerm"%string) "sweep" (raise ValueErr) (at_ 9 0) demo_db)
    as (res & Hres & Hr & _).
  - intros db k Hk. exact Hk.
  - eexists. split; [exact Hr|]. simpl in Hres. subst res. reflexivity.
Defined.
