(* ===== verification/GuardAlerts.v ===== *)
(** ops/guard_alerts.py, the coalesced floor alert of a sweep, the sweep job that
    calls it (management/commands/runscheduler.py), and ops/notifications.py, the
    notification categories, mutes and read marks. *)
From S2P Require Import Prelude Python Model Effects Ops Sample Resolvers Suspensions Jobs.
Open Scope Z_scope.

Definition GUARD_FLOOR_ALERT : string := "guard_floor_alert".
Definition GUARD_ALERT_LINK : string := "/guard/monitor".

(** ** summarize_floor_events *)
Definition plural (n : Z) (word : string) : string :=
  if n =? 1 then PyStr.str n +:+ " " +:+ word else PyStr.str n +:+ " " +:+ word +:+ "s".
(** A floor label with its counts of absent sessions and of conflicts. *)
Record FloorRow := mk_row { row_label : string; row_absent : Z; row_conflict : Z }.
Definition row_line (r : FloorRow) : string :=
  row_label r +:+ ": " +:+
  PyStr.join ", "
    ((if row_absent r =? 0 then [] else [plural (row_absent r) "room" +:+ " now free"]) ++
     (if row_conflict r =? 0 then [] else [plural (row_conflict r) "room conflict"])) +:+ ".".
Definition row_counts (r : FloorRow) : bool := negb (row_absent r =? 0) || negb (row_conflict r =? 0).
Definition newline : string := String (Ascii.ascii_of_nat 10) EmptyString.
Definition summarize_floor_events (rows : list FloorRow) : string * string :=
  let rows := select row_counts rows in
  match rows with
  | [] => ("", "")%string
  | r0 :: rest =>
      let total_absent := zsum (row_absent <$> rows) in
      let total_conflict := zsum (row_conflict <$> rows) in
      let parts :=
        (if total_absent =? 0 then [] else [plural total_absent "room" +:+ " now free"]) ++
        (if total_conflict =? 0 then []
         else [plural total_conflict "room conflict" +:+ " detected"]) in
      let where_ := match rest with
                    | [] => row_label r0
                    | _ => plural (Z.of_nat (length rows)) "floor" end in
      (PyStr.join " and " parts +:+ " on " +:+ where_, PyStr.join newline (row_line <$> rows))
  end.

(** ** notify_floor_guards *)
Definition tally_event (tally : dict Z (Z * Z)) (e : string * option Z) : dict Z (Z * Z) :=
  match e.2 with
  | None => tally
  | Some floor_id =>
      let counts := dict_getd tally floor_id (0, 0) in
      dict_set tally floor_id
        (if bool_decide (e.1 = KIND_ABSENT) then (counts.1 + 1, counts.2)
         else if bool_decide (e.1 = KIND_CONFLICT) then (counts.1, counts.2 + 1)
         else counts)
  end.
Definition tally_of (evs : events) : dict Z (Z * Z) := foldl tally_event [] evs.

(** [str(floor)] *)
Definition floor_str (db : DB) (f : Floor) : string :=
  match by_pk (db_buildings db) (flr_building f) with
  | Some b => bld_code b | None => ""%string end +:+ " F" +:+ PyStr.str (flr_number f).

(** The floors of a posting that the tally names, added to its guard's. *)
Definition add_floor (db : DB) (tally : dict Z (Z * Z)) (user : Z)
    (per_user : dict Z (dict Z Floor)) (floor_id : Z) : dict Z (dict Z Floor) :=
  match by_pk (db_floors db) floor_id with
  | Some floor =>
      if bool_decide (floor_id ∈ tally.*1)
      then dict_set per_user user (dict_set (dict_getd per_user user []) floor_id floor)
      else per_user
  | None => per_user
  end.
Definition user_active (db : DB) (u : Z) : bool :=
  match by_pk (db_users db) u with Some x => usr_active x | None => false end.
Definition add_posting (db : DB) (today now_t : Z) (tally : dict Z (Z * Z))
    (per_user : dict Z (dict Z Floor)) (a : Assignment) : dict Z (dict Z Floor) :=
  if negb (user_active db (asg_user a)) then per_user
  else if negb (CheckerScan.assignment_covers_now a today now_t) then per_user
  else foldl (add_floor db tally (asg_user a)) per_user (asg_floors a).
Definition guard_posting (a : Assignment) : bool :=
  bool_decide (asg_role a = DUTY_GUARD) && bool_decide (asg_scope a = FLOOR_SCOPE)
  && bool_decide (asg_status a = "active"%string).

Definition label_le (a b : string * Z) : bool := String.leb a.1 b.1.
Definition floor_rows (db : DB) (tally : dict Z (Z * Z)) (floors : dict Z Floor) : list FloorRow :=
  (λ p, let counts := dict_getd tally p.2 (0, 0) in mk_row p.1 counts.1 counts.2)
    <$> sort_by label_le ((λ kf, (floor_str db kf.2, kf.1)) <$> floors).

Definition alert_guard (tally : dict Z (Z * Z)) (notified : Z) (uf : Z * dict Z Floor) : M Z :=
  read (λ db, floor_rows db tally uf.2) ≫= λ rows,
  let '(title, body) := summarize_floor_events rows in
  if bool_decide (title = ""%string) then mret notified
  else
    notify [uf.1] None GUARD_FLOOR_ALERT title body GUARD_ALERT_LINK ≫= λ _,
    mret (notified + 1).
Definition notify_floor_guards (evs : events) (now : Z) : M Z :=
  let tally := tally_of evs in
  match tally with
  | [] => mret 0
  | _ =>
      let today := PyTime.local_date now in
      let now_t := PyTime.local_time now in
      objects guard_posting ≫= λ assignments,
      read (λ db, foldl (add_posting db today now_t tally) [] assignments) ≫= λ per_user,
      fold_m (alert_guard tally) 0 per_user
  end.

(** [_job_sweep]: both sweeps share one collector, then one fan-out. *)
Definition job_sweep (now : Z) : M Z :=
  sweep_no_shows now ≫= λ m,
  detect_room_conflicts now ≫= λ f,
  notify_floor_guards (m.2 ++ f.2) now ≫= λ _,
  mret (m.1 + f.1).

(** ** ops/notifications.py *)
Inductive NotificationCategory := CAT_ROOM | CAT_REPORTS | CAT_SYSTEM.
#[global] Instance NotificationCategory_eq_dec : EqDecision NotificationCategory.
Proof. solve_decision. Defined.
Definition category_str (c : NotificationCategory) : string :=
  match c with CAT_ROOM => "room" | CAT_REPORTS => "reports" | CAT_SYSTEM => "system" end%string.
Definition WEEKLY_REPORT_READY : string := "weekly_report_ready".
Definition CATEGORY_TYPES : dict string (list string) := [
  (category_str CAT_ROOM, ["room_event"%string; "room_conflict"%string; GUARD_FLOOR_ALERT]);
  (category_str CAT_REPORTS, [WEEKLY_REPORT_READY]);
  (category_str CAT_SYSTEM, ["job_failed"; "modality_materialize_no_room"]%string)].
Definition PUSH_TYPES : list string :=
  ["room_event"%string; "room_conflict"%string; WEEKLY_REPORT_READY; GUARD_FLOOR_ALERT].

Definition muted_types (db : DB) (user : Z) : list string :=
  let cats := mute_category <$> select (λ m, mute_user m =? user) (db_mutes db) in
  cats ≫= λ cat, dict_getd CATEGORY_TYPES cat [].
(** [visible_qs(user)], in key order *)
Definition visible (db : DB) (user : Z) (n : Notification) : bool :=
  (ntf_user n =? user) && negb (bool_decide (ntf_type n ∈ muted_types db user)).
Definition unread (db : DB) (user : Z) (n : Notification) : bool :=
  visible db user n && is_none (ntf_read_at n).
Definition unread_count (db : DB) (user : Z) : Z :=
  Z.of_nat (length (select (unread db user) (db_notifications db))).
(** [_mark_read(qs)] of the rows satisfying [q] *)
Definition mark_read (q : Notification → bool) (now : Z) : M Z :=
  update_rows (λ n, q n && is_none (ntf_read_at n)) (λ n, n <| ntf_read_at := Some now |>).

(** ** Who is alerted *)
Definition valid_events (evs : events) : Prop :=
  ∀ e, e ∈ evs → e.1 = KIND_ABSENT ∨ e.1 = KIND_CONFLICT.
Definition alerted (db : DB) (evs : events) (now u : Z) : Prop :=
  ∃ a f fl k, a ∈ db_assignments db ∧ asg_user a = u ∧ asg_role a = DUTY_GUARD ∧
    asg_scope a = FLOOR_SCOPE ∧ asg_status a = "active"%string ∧ user_active db u = true ∧
    CheckerScan.assignment_covers_now a (PyTime.local_date now) (PyTime.local_time now) = true ∧
    f ∈ asg_floors a ∧ by_pk (db_floors db) f = Some fl ∧ (k, Some f) ∈ evs.

(** *** The tally *)
Definition positive (c : Z * Z) : Prop := 0 ≤ c.1 ∧ 0 ≤ c.2 ∧ 0 < c.1 + c.2.
Lemma tally_spec evs :
  NoDup (tally_of evs).*1 ∧
  (∀ f, f ∈ (tally_of evs).*1 ↔ ∃ k, (k, Some f) ∈ evs) ∧
  (valid_events evs → ∀ f c, dict_get (tally_of evs) f = Some c → positive c).
Proof.
  unfold tally_of. induction evs as [|[k o] l (Hnd & Hin & Hpos)] using rev_ind.
  { split_and!; [constructor| |done]. intros f. split; [by intros ?%not_elem_of_nil|].
    by intros (? & ?%not_elem_of_nil). }
  rewrite foldl_app. simpl. set (m := foldl tally_event [] l) in *.
  destruct o as [f0|]; unfold tally_event; simpl.
  - split_and!; [by apply dict_set_NoDup| |].
    + intros f. rewrite dict_set_keys. assert (f ∈ m.*1 ∨ f = f0 ↔ ∃ k0, (k0, Some f) ∈ l ++ [(k, Some f0)]) as Hd.
      { rewrite Hin. setoid_rewrite elem_of_app. setoid_rewrite list_elem_of_singleton.
        split; [intros [[k' ?]| ->]; [exists k'; by left|exists k; by right]|].
        intros (k' & [?|[= -> ->]]); [left; by exists k'|by right]. }
      rewrite <- Hd. case_bool_decide as Hb; [|rewrite elem_of_app, list_elem_of_singleton; done].
      split; [by left|]. by intros [?| ->].
    + intros Hv f c. rewrite dict_get_set. case_bool_decide as Hf.
      * intros [= <-]. assert (k = KIND_ABSENT ∨ k = KIND_CONFLICT) as Hk.
        { apply (Hv (k, Some f0)). set_solver. }
        assert (0 ≤ (dict_getd m f0 (0, 0)).1 ∧ 0 ≤ (dict_getd m f0 (0, 0)).2) as Hge.
        { unfold dict_getd. destruct (dict_get m f0) as [c|] eqn:E; [|simpl; lia].
          simpl. assert (positive c) as (? & ? & _); [|lia].
          apply (Hpos) with f0; [|done]. intros e He. apply Hv. set_solver. }
        destruct Hk as [-> | ->]; unfold positive; simpl; lia.
      * apply Hpos. intros e He. apply Hv. set_solver.
  - split_and!; [done| |].
    + intros f. rewrite Hin. setoid_rewrite elem_of_app. setoid_rewrite list_elem_of_singleton.
      naive_solver.
    + intros Hv. apply Hpos. intros e He. apply Hv. set_solver.
Qed.

(** *** The postings *)
Section postings.
Context (db : DB) (today now_t : Z) (tally : dict Z (Z * Z)).
Definition good (m : dict Z (dict Z Floor)) : Prop :=
  NoDup m.*1 ∧ ∀ u fl, dict_get m u = Some fl → fl ≠ [] ∧ ∀ f, f ∈ fl.*1 → f ∈ tally.*1.
Definition posted (a : Assignment) (u : Z) : Prop :=
  asg_user a = u ∧ user_active db u = true ∧
  CheckerScan.assignment_covers_now a today now_t = true ∧
  ∃ f fl, f ∈ asg_floors a ∧ by_pk (db_floors db) f = Some fl ∧ f ∈ tally.*1.

Lemma dict_set_nonempty {K V} `{!EqDecision K} (d : dict K V) k v : dict_set d k v ≠ [].
Proof. destruct d as [|[k' v'] d]; simpl; [done|]. by case_bool_decide. Qed.
Lemma elem_of_dict_set_keys {K V} `{!EqDecision K} (d : dict K V) k v x :
  x ∈ (dict_set d k v).*1 ↔ x ∈ d.*1 ∨ x = k.
Proof.
  rewrite dict_set_keys. case_bool_decide; [naive_solver|].
  by rewrite elem_of_app, list_elem_of_singleton.
Qed.

Lemma add_floor_spec u m f :
  good m → good (add_floor db tally u m f) ∧
  ∀ v, v ∈ (add_floor db tally u m f).*1 ↔
    v ∈ m.*1 ∨ (v = u ∧ f ∈ tally.*1 ∧ ∃ fl, by_pk (db_floors db) f = Some fl).
Proof.
  intros [Hnd Hm]. unfold add_floor. destruct (by_pk (db_floors db) f) as [fl|] eqn:Ef.
  2:{ split; [done|]. intros v. split; [by left|]. by intros [?|(_ & _ & ? & ?)]. }
  destruct (bool_decide_reflect (f ∈ tally.*1)) as [Ht|Ht].
  2:{ split; [done|]. intros v. split; [by left|]. by intros [?|(_ & ? & _)]. }
  split.
  - split; [by apply dict_set_NoDup|]. intros v fl'. rewrite dict_get_set.
    case_bool_decide as Hv; [|apply Hm]. intros [= <-]. split; [apply dict_set_nonempty|].
    intros g [Hg| ->]%elem_of_dict_set_keys; [|done]. unfold dict_getd in Hg.
    destruct (dict_get m u) as [fl0|] eqn:Eu; [|by apply not_elem_of_nil in Hg].
    by eapply Hm.
  - intros v. rewrite elem_of_dict_set_keys. naive_solver.
Qed.
Lemma add_floors_spec u fs m :
  good m → good (foldl (add_floor db tally u) m fs) ∧
  ∀ v, v ∈ (foldl (add_floor db tally u) m fs).*1 ↔
    v ∈ m.*1 ∨ (v = u ∧ ∃ f fl, f ∈ fs ∧ by_pk (db_floors db) f = Some fl ∧ f ∈ tally.*1).
Proof.
  revert m. induction fs as [|f fs IH]; intros m Hm; simpl.
  - split; [done|]. intros v. split; [by left|].
    by intros [?|(_ & f & fl & ?%not_elem_of_nil & _)].
  - destruct (add_floor_spec u m f Hm) as [Hg Hk]. destruct (IH _ Hg) as [Hg' Hk'].
    split; [done|]. intros v. rewrite Hk', Hk. setoid_rewrite elem_of_cons. naive_solver.
Qed.
Lemma add_postings_spec l m :
  good m → good (foldl (add_posting db today now_t tally) m l) ∧
  ∀ v, v ∈ (foldl (add_posting db today now_t tally) m l).*1 ↔
    v ∈ m.*1 ∨ ∃ a, a ∈ l ∧ posted a v.
Proof.
  revert m. induction l as [|a l IH]; intros m Hm; simpl.
  - split; [done|]. intros v. split; [by left|]. by intros [?|(a & ?%not_elem_of_nil & _)].
  - assert (good (add_posting db today now_t tally m a) ∧
      ∀ v, v ∈ (add_posting db today now_t tally m a).*1 ↔ v ∈ m.*1 ∨ posted a v) as [Hg Hk].
    { unfold add_posting, posted. destruct (user_active db (asg_user a)) eqn:Ea; simpl.
      2:{ split; [done|]. intros v. split; [by left|]. intros [?|(<- & ? & _)]; congruence. }
      destruct (CheckerScan.assignment_covers_now a today now_t); simpl.
      2:{ split; [done|]. intros v. split; [by left|]. by intros [?|(_ & _ & ? & _)]. }
      destruct (add_floors_spec (asg_user a) (asg_floors a) m Hm) as [Hg Hk].
      split; [done|]. intros v. rewrite Hk. naive_solver. }
    destruct (IH _ Hg) as [Hg' Hk']. split; [done|]. intros v. rewrite Hk', Hk.
    setoid_rewrite elem_of_cons. naive_solver.
Qed.
End postings.

(** A floor with a positive count gives a title. *)
Lemma append_nonempty a b : a ≠ ""%string → (a +:+ b)%string ≠ ""%string.
Proof. by destruct a. Qed.
Lemma append_nonempty_r a b : b ≠ ""%string → (a +:+ b)%string ≠ ""%string.
Proof. by destruct a. Qed.
Lemma summarize_title rows r :
  r ∈ rows → positive (row_absent r, row_conflict r) → (summarize_floor_events rows).1 ≠ ""%string.
Proof.
  intros Hr (H1 & H2 & H3). unfold summarize_floor_events. simpl in *.
  destruct (select row_counts rows) as [|r0 l] eqn:E.
  - rewrite select_nil in E. specialize (E r Hr). unfold row_counts in E. b2p. lia.
  - cbn [fst]. apply append_nonempty_r. done.
Qed.

Section fan_out.
Context (db : DB) (tally : dict Z (Z * Z)).
Context (Hpos : ∀ f c, dict_get tally f = Some c → positive c).

Lemma floor_rows_title (m : dict Z (dict Z Floor)) u fl :
  good tally m → dict_get m u = Some fl →
  (summarize_floor_events (floor_rows db tally fl)).1 ≠ ""%string.
Proof using Hpos.
  intros [_ Hm] Hu. destruct (Hm u fl Hu) as [Hne Hk]. destruct fl as [|[f x] l]; [done|].
  assert (f ∈ tally.*1) as Hf by (apply Hk; left).
  destruct (dict_get tally f) as [c|] eqn:Ec; [|by apply dict_get_None in Ec].
  apply summarize_title with (mk_row (floor_str db x) c.1 c.2).
  - unfold floor_rows. apply list_elem_of_fmap. exists (floor_str db x, f). split.
    + unfold dict_getd. simpl. by rewrite Ec.
    + apply elem_of_sort_by. left.
  - destruct (Hpos f c Ec) as (? & ? & ?). done.
Qed.

Definition alerted_so_far (l : dict Z (dict Z Floor)) (n : Z) (db' : DB) : Prop :=
  ∃ ns, db' = db <| db_notifications := db_notifications db ++ ns |> ∧
    n = Z.of_nat (length ns) ∧ ntf_user <$> ns = l.*1 ∧
    ∀ x, x ∈ ns → ntf_type x = GUARD_FLOOR_ALERT.
Lemma alert_loop_wp (m : dict Z (dict Z Floor)) :
  good tally m →
  wp (fold_m (alert_guard tally) 0 m) (λ r db', ∃ n, r = inr n ∧ alerted_so_far m n db') db.
Proof using Hpos.
  intros Hm. apply wp_mono with (λ r db', match r with
    | inl _ => False | inr n => alerted_so_far m n db' end).
  2:{ intros [e|n] db'; [done|eauto]. }
  apply (wp_fold_m _ _ _ (λ l n db', alerted_so_far l n db') (λ _ _, False)).
  - exists []. rewrite app_nil_r. split_and!; [by destruct db|done|done|].
    by intros x ?%not_elem_of_nil.
  - intros l [u fl] todo n db' Hl (ns & -> & -> & Hns & Hty).
    assert (dict_get m u = Some fl) as Hu.
    { apply dict_elem_get; [by destruct Hm|]. rewrite Hl. set_solver. }
    pose proof (floor_rows_title m u fl Hm Hu) as Ht.
    unfold alert_guard. wp_step. wp_step. cbn [snd fst].
    change (floor_rows (_ <| db_notifications := _ |>) tally fl) with (floor_rows db tally fl).
    destruct (summarize_floor_events _) as [title body]. simpl in Ht.
    rewrite bool_decide_false by done. wp_step. apply wp_notify. intros ns' Hu' Hty'. wp_step.
    unfold notify_recipients in Hu'. rewrite app_nil_r in Hu'.
    exists (ns ++ ns'). simpl. rewrite app_assoc. split; [done|].
    rewrite length_app, !fmap_app, Hns, Hu'. split_and!.
    + assert (length ns' = 1%nat) as -> by by rewrite <- (length_fmap ntf_user), Hu'. lia.
    + done.
    + intros x [?|Hx]%elem_of_app; [auto|]. by apply Hty' in Hx as [? _].
Qed.
End fan_out.

(** A sweep's fan-out sends exactly one floor alert to each active guard who
    is on duty on a floor where something happened, whatever the number of events
    and of postings, and to nobody else; nothing but the notifications changes. *)
Theorem guards_alerted_once db evs now :
  valid_events evs →
  wp (notify_floor_guards evs now) (λ r db', ∃ ns,
    r = inr (Z.of_nat (length ns)) ∧
    db' = db <| db_notifications := db_notifications db ++ ns |> ∧
    NoDup (ntf_user <$> ns) ∧ (∀ n, n ∈ ns → ntf_type n = GUARD_FLOOR_ALERT) ∧
    ∀ u, u ∈ ntf_user <$> ns ↔ alerted db evs now u) db.
Proof.
  intros Hv. destruct (tally_spec evs) as (Hnd & Hin & Hpos). specialize (Hpos Hv).
  unfold notify_floor_guards. destruct (tally_of evs) as [|x l] eqn:Et.
  - wp_step. exists []. rewrite app_nil_r. split; [done|]. split; [by destruct db|].
    split; [constructor|]. split.
    + intros n Hn. by apply not_elem_of_nil in Hn.
    + intros u. split; [intros Hu; by apply not_elem_of_nil in Hu|].
      intros (a & f & fl & k & H). destruct_and! H. assert (f ∈ ([] : dict Z (Z * Z)).*1) as Hf.
      { rewrite Hin. by exists k. }
      by apply not_elem_of_nil in Hf.
  - rewrite <- Et in *. clear Et x l. do 4 wp_step.
    destruct (add_postings_spec db (PyTime.local_date now) (PyTime.local_time now) (tally_of evs)
      (select guard_posting (db_assignments db)) []) as [Hg Hk].
    { split; [constructor|done]. }
    eapply wp_mono; [by apply alert_loop_wp|]. cbv beta.
    intros r db' (n & -> & ns & -> & -> & Hns & Hty). exists ns. split_and!; try done.
    + rewrite Hns. by destruct Hg.
    + intros u. rewrite Hns, Hk. unfold alerted, posted. setoid_rewrite elem_of_select.
      setoid_rewrite Hin. unfold guard_posting. split.
      * intros [?%not_elem_of_nil|(a & [Ha Hp] & Hu & Hact & Hcov & f & fl & Hf & Hfl & k & Hev)];
          [done|]. b2p. exists a, f, fl, k. subst u. tauto.
      * intros (a & f & fl & k & H). right. exists a. b2p. destruct_and! H. subst u.
        split_and!; try done. exists f, fl. split_and!; try done. by exists k.
Qed.

(** A guard on two postings of the floor, and two events on it. *)
Definition demo_posting (k : Z) : Assignment :=
  {| asg_pk := k; asg_user := 9; asg_role := DUTY_GUARD; asg_floors := [1];
     asg_scope := FLOOR_SCOPE; asg_date := None; asg_start := None; asg_end := None;
     asg_term := None; asg_status := "active"; asg_type := STANDING |}.
Definition demo_guarded : DB :=
  demo_db <| db_users := db_users demo_db ++ [demo_user 9 "Gil" GUARD] |>
          <| db_assignments := [demo_posting 1; demo_posting 2] |>.
Definition demo_events : events := [(KIND_ABSENT, Some 1); (KIND_CONFLICT, Some 1)].
Lemma guards_alerted_once_witness :
  wp (notify_floor_guards demo_events (at_ 9 16)) (λ r db', ∃ ns,
    r = inr (Z.of_nat (length ns)) ∧
    db' = demo_guarded <| db_notifications := db_notifications demo_guarded ++ ns |> ∧
    NoDup (ntf_user <$> ns) ∧ (∀ n, n ∈ ns → ntf_type n = GUARD_FLOOR_ALERT) ∧
    ∀ u, u ∈ ntf_user <$> ns ↔ alerted demo_guarded demo_events (at_ 9 16) u) demo_guarded ∧
  ntf_title <$> db_notifications (exec (notify_floor_guards demo_events (at_ 9 16)) demo_guarded)
    = ["1 room now free and 1 room conflict detected on MAIN F1"%string].
Proof.
  split; [|vm_compute; reflexivity]. apply guards_alerted_once.
  intros e He. each_row He; [by left|by right].
Defined.

Lemma elem_of_category cat t :
  t ∈ dict_getd CATEGORY_TYPES cat [] ↔ ∃ types, (cat, types) ∈ CATEGORY_TYPES ∧ t ∈ types.
Proof.
  assert (NoDup CATEGORY_TYPES.*1) as Hnd by decide_now. unfold dict_getd. split.
  - destruct (dict_get CATEGORY_TYPES cat) as [ts|] eqn:E; simpl; [|by intros ?%not_elem_of_nil].
    intros Ht. exists ts. split; [by apply dict_get_elem|done].
  - intros (ts & Hin & Ht). by rewrite (dict_elem_get _ _ ts Hnd Hin).
Qed.

(** The unread badge counts exactly the user's own unread notifications whose
    type belongs to no category the user muted (so a type outside the categories
    cannot be muted), and marking what is visible as read brings it to zero. *)
Theorem mutes_and_reads db user now :
  (∀ n, unread db user n = true ↔ ntf_user n = user ∧ ntf_read_at n = None ∧
     ∀ cat types, (cat, types) ∈ CATEGORY_TYPES → ntf_type n ∈ types →
       ∀ m, m ∈ db_mutes db → mute_user m = user → mute_category m ≠ cat) ∧
  unread_count (exec (mark_read (visible db user) now) db) user = 0.
Proof.
  split.
  - intros n. unfold unread, visible, muted_types. b2p.
    assert (ntf_type n ∈ ((mute_category <$> select (λ m, mute_user m =? user) (db_mutes db))
        ≫= λ cat, dict_getd CATEGORY_TYPES cat []) ↔
      ∃ m types, m ∈ db_mutes db ∧ mute_user m = user ∧
        (mute_category m, types) ∈ CATEGORY_TYPES ∧ ntf_type n ∈ types) as ->.
    { rewrite list_elem_of_bind. setoid_rewrite elem_of_category. split.
      - intros (cat & (ts & H1 & H2) & (m & -> & [H3 H4]%elem_of_select)%list_elem_of_fmap).
        b2p. by exists m, ts.
      - intros (m & ts & H1 & H2 & H3 & H4). exists (mute_category m). split; [by exists ts|].
        apply list_elem_of_fmap_2, elem_of_select. by b2p. }
    assert (is_none (ntf_read_at n) = true ↔ ntf_read_at n = None) as ->
      by by destruct (ntf_read_at n).
    naive_solver.
  - unfold unread_count, mark_read, exec, update_rows. simpl.
    rewrite (proj2 (select_nil _ _)); [done|].
    intros n (n0 & _ & ->)%elem_of_update_where.
    destruct (visible db user n0 && is_none (ntf_read_at n0)) eqn:E; [|exact E].
    unfold unread. simpl. by rewrite andb_false_r.
Qed.
