(* ===== verification/Push.v ===== *)
(** web/notifications.py, the notification pages and the mutes; web/push.py, the
    subscriptions of a browser; ops/push.py, the outbox that delivers them.

    Notifications carry no creation time in Model.v: [created] gives it by key.  The
    subscriptions are a table of their own beside the database, and the attempts to
    deliver are recorded in order; what the push service answers to an attempt is the
    parameter [deliver]. *)
From S2P Require Import Prelude Python Model Effects Ops Sample Web GuardAlerts.
From Stdlib Require Import String.
From stdpp Require Import strings.
Open Scope Z_scope.

(** ** The notification pages *)
Definition PREVIEW_LIMIT : nat := 5.
Definition LIST_LIMIT : nat := 50.

Section pages.
Context (created : Z → Z).

Definition newer (a b : Notification) : bool := created (ntf_pk b) <=? created (ntf_pk a).
(** [visible_qs(user)], newest first *)
Definition visible_rows (db : DB) (user : Z) : list Notification :=
  sort_by newer (select (visible db user) (db_notifications db)).
(** The bell is polled: it reads. *)
Definition bell (user : User) : M (Z * list Notification) :=
  read (λ db, (unread_count db (usr_pk user), firstn PREVIEW_LIMIT (visible_rows db (usr_pk user)))).
(** The rows of an opened list, then marked read *)
Definition open_rows (limit : nat) (user : User) (now : Z) : M (list Notification) :=
  read (λ db, firstn limit (visible_rows db (usr_pk user))) ≫= λ rows,
  mark_read (λ n, (ntf_user n =? usr_pk user) && mem_pk (ntf_pk <$> rows) n) now ≫= λ _,
  mret rows.
Definition dropdown (user : User) (now : Z) : M (list Notification) := open_rows PREVIEW_LIMIT user now.
Definition list_page (user : User) (now : Z) : M (list Notification) := open_rows LIST_LIMIT user now.
End pages.

Definition CATEGORIES : list NotificationCategory := [CAT_ROOM; CAT_REPORTS; CAT_SYSTEM].
Definition own_mute (user : Z) (category : string) (m : NotificationMute) : bool :=
  (mute_user m =? user) && bool_decide (mute_category m = category).
(** The groups of the settings page, with their state *)
Definition settings_groups (db : DB) (user : Z) : list (string * bool) :=
  (λ c, (category_str c, existsb (own_mute user (category_str c)) (db_mutes db))) <$> CATEGORIES.
Definition mute_toggle (user : User) (q : form) : M response :=
  let category := dict_getd q "category" ""%string in
  if negb (bool_decide (category ∈ category_str <$> CATEGORIES)) then mret (BadRequest "invalid category")
  else
    exists_where (R:=NotificationMute) (own_mute (usr_pk user) category) ≫= λ existing : bool,
    (if existing
     then write (λ db, db <| db_mutes := select (λ m, negb (own_mute (usr_pk user) category m)) (db_mutes db) |>)
     else create (R:=NotificationMute) (λ k : Z,
            {| mute_pk := k; mute_user := usr_pk user; mute_category := category |}) ≫= λ _, mret ()) ≫= λ _,
    mret (Redirect "notif_settings" "" "").

(** ** web/push.py *)
Record PushSubscription := {
  sub_pk : Z;
  sub_user : Z;
  sub_endpoint : string;
  sub_keys : json
}.
#[global] Instance eta_PushSubscription : Eta PushSubscription := λ r, {|
  sub_pk := sub_pk r; sub_user := sub_user r; sub_endpoint := sub_endpoint r; sub_keys := sub_keys r |}.
#[global] Instance pk_PushSubscription : HasPk PushSubscription := sub_pk.
Definition subs := list PushSubscription.

(** [json.loads], or an empty object when the body is no JSON *)
Definition parse_json (body : option json) : json := default (JObj []) body.
(** [data.get(key, dflt)]: only an object has it. *)
Definition get_field (data : json) (key : string) (dflt : json) : exn + json :=
  match data with JObj l => inr (dict_getd l key dflt) | _ => inl AttributeErr end.
(** An https endpoint with both keys, or nothing *)
Definition valid_subscription (endpoint keys : json) : option string :=
  match endpoint, keys with
  | JStr e, JObj l =>
      if PyStr.startswith e "https://" && truthy (dict_getd l "p256dh"%string JNull)
         && truthy (dict_getd l "auth"%string JNull)
      then Some e else None
  | _, _ => None
  end.
Definition at_endpoint (e : string) (s : PushSubscription) : bool := bool_decide (sub_endpoint s = e).
(** [update_or_create(endpoint=...)]; the column holds 500 characters. *)
Definition update_or_create (user : Z) (e : string) (keys : json) (t : subs) : (exn + unit) * subs :=
  match select (at_endpoint e) t with
  | [] => if 500 <? PyStr.len e then (inl DatabaseError, t)
          else (inr (), t ++ [{| sub_pk := fresh_pk t; sub_user := user; sub_endpoint := e; sub_keys := keys |}])
  | [s] => (inr (), update_where (λ x, sub_pk x =? sub_pk s) (λ x, x <| sub_user := user |> <| sub_keys := keys |>) t)
  | _ => (inl MultipleObjectsReturned, t)
  end.
Definition subscribe (user : User) (body : option json) (t : subs) : (exn + response) * subs :=
  let data := parse_json body in
  match get_field data "endpoint" (JStr ""), get_field data "keys" (JObj []) with
  | inr endpoint, inr keys =>
      match valid_subscription endpoint keys with
      | None => (inr (BadRequest "invalid subscription"), t)
      | Some e =>
          match update_or_create (usr_pk user) e keys t with
          | (inr _, t') => (inr (Page "ok"), t')
          | (inl err, t') => (inl err, t')
          end
      end
  | _, _ => (inl AttributeErr, t)
  end.
(** [py_str] is [str] of a value that is no text, which the filter compares. *)
Definition unsubscribe (py_str : json → string) (user : User) (body : option json) (t : subs)
    : (exn + response) * subs :=
  match get_field (parse_json body) "endpoint" (JStr "") with
  | inl e => (inl e, t)
  | inr endpoint =>
      if negb (truthy endpoint) then (inr (BadRequest "missing endpoint"), t)
      else
        let e := match endpoint with JStr s => s | v => py_str v end in
        (inr (Page "ok"), select (λ s, negb ((sub_user s =? usr_pk user) && at_endpoint e s)) t)
  end.

(** ** ops/push.py *)
Definition WINDOW_MINUTES : Z := 15.
(** What an attempt meets: it is accepted, refused with a status or without one, or fails. *)
Inductive Delivery := D_SENT | D_REFUSED (status : option Z) | D_FAILED.
(** True: handled; false: the endpoint is dead. *)
Definition send_one (d : Delivery) : bool :=
  match d with
  | D_REFUSED (Some status) => negb (bool_decide (status ∈ [404; 410]))
  | _ => true
  end.
Record Payload := mk_payload { pl_title : string; pl_body : string; pl_link : string }.
Definition payload_of (n : Notification) : Payload :=
  mk_payload (ntf_title n) (ntf_body n) (if bool_decide (ntf_link n = ""%string) then "/notifications" else ntf_link n).
(** The database, the subscriptions, and the attempts made so far *)
Record Outbox := { ob_db : DB; ob_subs : subs; ob_sent : list (Z * PushSubscription * Payload) }.
#[global] Instance eta_Outbox : Eta Outbox := λ w, {|
  ob_db := ob_db w; ob_subs := ob_subs w; ob_sent := ob_sent w |}.

Section outbox.
Context (created : Z → Z) (deliver : Z → PushSubscription → Delivery).

Definition due (now : Z) (n : Notification) : bool :=
  bool_decide (ntf_type n ∈ PUSH_TYPES) && is_none (ntf_pushed_at n)
  && (now - PyTime.minutes WINDOW_MINUTES <=? created (ntf_pk n)).
Definition stamp (now : Z) (n : Notification) (w : Outbox) : Outbox :=
  w <| ob_db := exec (save (R:=Notification) (ntf_pk n) (λ x, x <| ntf_pushed_at := Some now |>)) (ob_db w) |>.
Definition push_to (n : Notification) (w : Outbox) (s : PushSubscription) : Outbox :=
  let w := w <| ob_sent := ob_sent w ++ [(ntf_pk n, s, payload_of n)] |> in
  if send_one (deliver (ntf_pk n) s) then w
  else w <| ob_subs := delete_pk (sub_pk s) (ob_subs w) |>.
Definition push_row (now : Z) (acc : Z * Outbox) (n : Notification) : Z * Outbox :=
  let '(sent, w) := acc in
  if bool_decide (ntf_type n ∈ muted_types (ob_db w) (ntf_user n)) then (sent, stamp now n w)
  else
    let w := foldl (push_to n) w (select (λ s, sub_user s =? ntf_user n) (ob_subs w)) in
    (sent + 1, stamp now n w).
Definition send_push_outbox (key_path : string) (now : Z) (w : Outbox) : Z * Outbox :=
  if bool_decide (key_path = ""%string) then (0, w)
  else foldl (push_row now) (0, w) (select (due now) (db_notifications (ob_db w))).
End outbox.

(** ** The outbox sends a notification once *)
Section outbox_spec.
Context (created : Z → Z) (deliver : Z → PushSubscription → Delivery) (now : Z) (w : Outbox).
Context (Hn : pk_unique (db_notifications (ob_db w))) (Hs : pk_unique (ob_subs w)).

Definition rows : list Notification := select (due created now) (db_notifications (ob_db w)).
(** A row that is pushed, and one whose delivery finds the endpoint dead *)
Definition pushes (n : Notification) : bool :=
  negb (bool_decide (ntf_type n ∈ muted_types (ob_db w) (ntf_user n))).
Definition kills (n : Notification) (s : PushSubscription) : bool :=
  pushes n && (sub_user s =? ntf_user n) && negb (send_one (deliver (ntf_pk n) s)).
Definition alive (done : list Notification) (s : PushSubscription) : bool :=
  negb (existsb (λ n, kills n s) done).
Definition stamped (done : list Notification) (n : Notification) : Notification :=
  if mem_pk (ntf_pk <$> done) n then n <| ntf_pushed_at := Some now |> else n.
(** The attempts of a row, after those of the rows before it *)
Definition targets (before : list Notification) (n : Notification) : subs :=
  select (λ s, (sub_user s =? ntf_user n) && alive before s) (ob_subs w).
Definition attempt (n : Notification) (s : PushSubscription) : Z * PushSubscription * Payload :=
  (ntf_pk n, s, payload_of n).
(** What a pass over the rows [done] leaves: the count of those it pushed, every row of
    them stamped, the subscriptions no attempt found dead, and the attempts: of each row
    pushed, once, to each subscription of its user that is still alive by then. *)
Definition delivered (done : list Notification) (acc : Z * Outbox) : Prop :=
  acc.1 = Z.of_nat (length (select pushes done)) ∧
  ob_db acc.2 = (ob_db w) <| db_notifications := stamped done <$> db_notifications (ob_db w) |> ∧
  ob_subs acc.2 = select (alive done) (ob_subs w) ∧
  ∃ tr : list (Notification * PushSubscription), ob_sent acc.2 = ob_sent w ++ ((λ p, attempt p.1 p.2) <$> tr) ∧
    NoDup tr ∧
    ∀ n s, (n, s) ∈ tr ↔ ∃ before after, done = before ++ n :: after ∧ pushes n = true ∧ s ∈ targets before n.

Lemma push_all n l u :
  let u' := foldl (push_to deliver n) u l in
  ob_db u' = ob_db u ∧ ob_sent u' = ob_sent u ++ (attempt n <$> l) ∧
  ob_subs u' = select (λ x, negb (existsb (λ s, (sub_pk x =? sub_pk s) && negb (send_one (deliver (ntf_pk n) s))) l))
                 (ob_subs u).
Proof using.
  clear Hn Hs. revert u. induction l as [|s l IH]; intros u; cbn [foldl].
  - cbv zeta. split; [done|]. split; [by rewrite app_nil_r|]. symmetry. by apply select_all.
  - destruct (IH (push_to deliver n u s)) as (A & B & C). cbv zeta. rewrite A, B, C. unfold push_to.
    rewrite fmap_cons. split; [by case_match|]. split; [case_match; cbn; by rewrite <- app_assoc|].
    destruct (send_one (deliver (ntf_pk n) s)) eqn:E; cbn [ob_subs].
    + apply select_ext. intros x _. cbn [existsb]. by rewrite E, andb_false_r.
    + cbn. unfold delete_pk. rewrite select_select. apply select_ext. intros x _. rewrite E, andb_true_r.
      cbn [pk pk_PushSubscription]. by rewrite negb_orb.
Qed.
Lemma stamped_snoc l n :
  update_pk (ntf_pk n) (λ x, x <| ntf_pushed_at := Some now |>) (stamped l <$> db_notifications (ob_db w)) =
  stamped (l ++ [n]) <$> db_notifications (ob_db w).
Proof using.
  unfold update_pk, update_where. rewrite <- list_fmap_compose. apply list_fmap_ext. intros i x _.
  unfold compose, stamped, mem_pk. rewrite fmap_app. cbn [fmap list_fmap].
  assert (pk (if bool_decide (pk x ∈ ntf_pk <$> l) then x <| ntf_pushed_at := Some now |> else x) = pk x) as -> by by case_match.
  assert (bool_decide (pk x ∈ (ntf_pk <$> l) ++ [ntf_pk n]) =
    bool_decide (pk x ∈ ntf_pk <$> l) || (pk x =? ntf_pk n)) as ->.
  { apply eq_true_iff_eq. b2p. by rewrite elem_of_app, list_elem_of_singleton. }
  by destruct (bool_decide (pk x ∈ ntf_pk <$> l)), (pk x =? ntf_pk n).
Qed.
Lemma stamp_row l n u :
  n ∈ db_notifications (ob_db w) →
  ob_db u = (ob_db w) <| db_notifications := stamped l <$> db_notifications (ob_db w) |> →
  ob_db (stamp now n u) = (ob_db w) <| db_notifications := stamped (l ++ [n]) <$> db_notifications (ob_db w) |>.
Proof using.
  intros Hin Hu.
  assert (existing (stamped l <$> db_notifications (ob_db w)) (ntf_pk n) = true) as He.
  { apply existing_elem. exists (stamped l n). split; [by apply list_elem_of_fmap_2|].
    unfold stamped. by case_match. }
  change (exec (save (R:=Notification) (ntf_pk n) (λ x, x <| ntf_pushed_at := Some now |>)) (ob_db u) =
    (ob_db w) <| db_notifications := stamped (l ++ [n]) <$> db_notifications (ob_db w) |>).
  unfold exec, save. rewrite Hu.
  change (tbl _) with (stamped l <$> db_notifications (ob_db w)). rewrite He. cbn [snd]. rewrite stamped_snoc. reflexivity.
Qed.
Lemma alive_snoc l n s : alive (l ++ [n]) s = alive l s && negb (kills n s).
Proof using. unfold alive. rewrite existsb_app. cbn [existsb]. by rewrite orb_false_r, negb_orb. Qed.
Lemma push_targets l n u :
  pushes n = true → ob_subs u = select (alive l) (ob_subs w) →
  let u' := foldl (push_to deliver n) u (select (λ s, sub_user s =? ntf_user n) (ob_subs u)) in
  ob_db u' = ob_db u ∧ ob_sent u' = ob_sent u ++ (attempt n <$> targets l n) ∧
  ob_subs u' = select (alive (l ++ [n])) (ob_subs w).
Proof using Hs.
  intros Hp Hu u'. destruct (push_all n (select (λ s, sub_user s =? ntf_user n) (ob_subs u)) u) as (A & B & C).
  fold u' in A, B, C. split; [exact A|]. rewrite B, C, Hu, !select_select.
  assert (∀ x, (alive l x && (sub_user x =? ntf_user n)) = ((sub_user x =? ntf_user n) && alive l x)) as Hc
    by (intros; apply andb_comm).
  split; [unfold targets; by rewrite (select_ext _ _ _ (λ x _, Hc x))|]. apply select_ext. intros x Hx.
  rewrite alive_snoc. destruct (alive l x) eqn:Ea; [|done]. cbn [andb]. f_equal. unfold kills. rewrite Hp. cbn [andb].
  apply eq_true_iff_eq. rewrite existsb_elem. split.
  - intros (s & [Hin Hq]%elem_of_select & Hk). b2p. destruct Hk as [Hk Hd], Hq as [_ Hq].
    assert (s = x) as -> by by apply (pk_inj (ob_subs w)). done.
  - intros [Hq Hd]%andb_true_iff. exists x. rewrite elem_of_select, Ea, Hq, Hd, Z.eqb_refl. done.
Qed.
Lemma push_row_step l n acc :
  n ∈ db_notifications (ob_db w) → n ∉ l → delivered l acc → delivered (l ++ [n]) (push_row deliver now acc n).
Proof using All.
  intros Hin Hnew (A & B & C & tr & D & E & F). destruct acc as [sent u]. cbn [fst snd] in *. unfold push_row.
  assert (muted_types (ob_db u) (ntf_user n) = muted_types (ob_db w) (ntf_user n)) as -> by by rewrite B.
  assert (∀ n' s, (∃ before after, l ++ [n] = before ++ n' :: after ∧ pushes n' = true ∧ s ∈ targets before n') ↔
    (n', s) ∈ tr ∨ (n' = n ∧ pushes n = true ∧ s ∈ targets l n)) as Hsplit.
  { intros n' s. rewrite F. split.
    - intros (before & after & Heq & Hp & Ht). destruct after as [|a after] using rev_ind.
      + apply app_inj_tail in Heq as [-> ->]. by right.
      + rewrite app_comm_cons, app_assoc in Heq. apply app_inj_tail in Heq as [-> ->]. left. eauto.
    - intros [(before & after & -> & Hp & Ht)|(-> & Hp & Ht)].
      + exists before, (after ++ [n]). by rewrite <- app_assoc.
      + by exists l, []. }
  unfold delivered. rewrite select_app, length_app, Nat2Z.inj_add.
  case_bool_decide as Hm.
  - assert (pushes n = false) as Hp by (unfold pushes; by rewrite bool_decide_true).
    cbn [fst snd]. rewrite (stamp_row l), select_cons, Hp by done. cbn. rewrite Z.add_0_r. split_and!; [done|done| |].
    + change (ob_subs (stamp now n u)) with (ob_subs u). rewrite C. apply select_ext. intros x _.
      rewrite alive_snoc. unfold kills. rewrite Hp. by rewrite andb_true_r.
    + exists tr. split; [exact D|]. split; [done|]. intros n' s. rewrite Hsplit, Hp. naive_solver.
  - assert (pushes n = true) as Hp by (unfold pushes; by rewrite bool_decide_false).
    destruct (push_targets l n u Hp C) as (A' & B' & C'). cbv zeta in A', B', C'.
    cbn [fst snd]. rewrite select_cons, Hp. split_and!; [cbn; lia| |exact C'|].
    + apply stamp_row; [done|]. by rewrite A'.
    + exists (tr ++ ((λ s, (n, s)) <$> targets l n)). split_and!.
      * change (ob_sent (stamp now n ?u)) with (ob_sent u). rewrite B', D, fmap_app, <- list_fmap_compose. by rewrite app_assoc.
      * apply NoDup_app. split; [done|]. split.
        { intros [n' s] (before & after & -> & _)%F (s' & [= -> _] & _)%list_elem_of_fmap. apply Hnew. set_solver. }
        apply (NoDup_fmap_2 _). unfold targets. apply (NoDup_fmap_1 pk), NoDup_fmap_select, Hs.
      * intros n' s. rewrite Hsplit, elem_of_app, list_elem_of_fmap, Hp. naive_solver.
Qed.
Lemma outbox_rows : delivered rows (foldl (push_row deliver now) (0, w) rows).
Proof using Hn Hs.
  assert (NoDup rows) as Hnd by (apply (NoDup_fmap_1 pk), NoDup_fmap_select, Hn).
  assert (∀ n, n ∈ rows → n ∈ db_notifications (ob_db w)) as Hin by by intros n [? _]%elem_of_select.
  assert (delivered [] (0, w)) as H0.
  { split; [done|]. split; [|split; [by rewrite select_all|]].
    - cbn [snd]. rewrite (list_fmap_ext _ id); [by rewrite list_fmap_id; destruct w as [[] ? ?]|].
      intros i x _. unfold stamped, mem_pk. cbn. by rewrite bool_decide_false by apply not_elem_of_nil.
    - exists []. split; [by rewrite app_nil_r|]. split; [constructor|]. intros n s. split; [by intros ?%not_elem_of_nil|].
      intros (b & a & H & _). by destruct b. }
  revert Hnd Hin H0. generalize (0, w) as acc. generalize rows as l.
  enough (∀ todo done acc, NoDup (done ++ todo) → (∀ n, n ∈ todo → n ∈ db_notifications (ob_db w)) →
    delivered done acc → delivered (done ++ todo) (foldl (push_row deliver now) acc todo)) as H
    by (intros l acc; apply (H l [])).
  induction todo as [|n todo IH]; intros done acc Hnd Hin H; [by rewrite app_nil_r|].
  cbn [foldl]. rewrite (app_assoc done [n] todo : done ++ n :: todo = (done ++ [n]) ++ todo).
  apply IH; [by rewrite <- app_assoc|intros; apply Hin; by right|]. apply push_row_step; [apply Hin; left| |done].
  apply NoDup_app in Hnd as (_ & Hd & _). intros Hx. apply (Hd n Hx). left.
Qed.
End outbox_spec.

(** C24: A pass stamps every due notification, muted or not, and delivers each one that is not
    muted once to every subscription of its user, except those an earlier attempt of the
    pass found dead; it forgets exactly the dead subscriptions, counts the notifications it
    delivered, and writes nothing else.  A later pass finds nothing left to do: no
    notification is ever pushed twice. *)
Theorem outbox_exact created deliver key_path now w :
  key_path ≠ ""%string → pk_unique (db_notifications (ob_db w)) → pk_unique (ob_subs w) →
  let r := send_push_outbox created deliver key_path now w in
  delivered deliver now w (rows created now w) r ∧
  ∀ now', now ≤ now' → send_push_outbox created deliver key_path now' r.2 = (0, r.2).
Proof.
  intros Hk Hn Hs r. assert (delivered deliver now w (rows created now w) r) as Hd.
  { unfold r, send_push_outbox. rewrite bool_decide_false by done. by apply outbox_rows. }
  split; [exact Hd|]. intros now' Hle. destruct Hd as (_ & Hdb & _). unfold send_push_outbox.
  rewrite bool_decide_false by done. rewrite Hdb. cbn [db_notifications].
  rewrite (proj2 (select_nil _ _)); [done|].
  intros x (n & -> & Hin)%list_elem_of_fmap. unfold stamped.
  destruct (mem_pk (ntf_pk <$> rows created now w) n) eqn:Em; [unfold due; cbn; by rewrite andb_false_r|].
  apply not_true_iff_false. intros Hdue. unfold mem_pk in Em. b2p. apply Em, list_elem_of_fmap. exists n.
  split; [done|]. unfold rows. rewrite elem_of_select. split; [done|]. unfold due in *. b2p.
  destruct Hdue as [H1 H2]. split; [exact H1|lia].
Qed.

(** ** The pages *)
Lemma elem_of_firstn {A} n (l : list A) x : x ∈ firstn n l → x ∈ l.
Proof. intros H. rewrite <- (take_drop n l). apply elem_of_app. by left. Qed.
Section pages_spec.
Context (created : Z → Z) (db : DB) (user : User) (now : Z).
Context (Hn : pk_unique (db_notifications db)).

(** Opening a list shows the newest visible notifications and marks exactly these read:
    the badge goes down by the unread ones among them, and nothing else changes.  The
    polled bell shows the same and changes nothing. *)
Theorem opened_rows_read limit :
  let shown := firstn limit (visible_rows created db (usr_pk user)) in
  let db' := db <| db_notifications := update_where (λ n, mem_pk (ntf_pk <$> shown) n && is_none (ntf_read_at n))
                     (λ n, n <| ntf_read_at := Some now |>) (db_notifications db) |> in
  open_rows created limit user now db = (inr shown, db') ∧
  unread_count db' (usr_pk user) =
    unread_count db (usr_pk user) - Z.of_nat (length (select (unread db (usr_pk user)) shown)) ∧
  bell created user db =
    (inr (unread_count db (usr_pk user), firstn PREVIEW_LIMIT (visible_rows created db (usr_pk user))), db).
Proof using Hn.
  intros shown db'.
  assert (∀ n, n ∈ db_notifications db → mem_pk (ntf_pk <$> shown) n = true ↔ n ∈ shown) as Hmem.
  { intros n Hin. unfold mem_pk. b2p. split; [|by apply list_elem_of_fmap_2].
    intros (n' & Heq & Hn')%list_elem_of_fmap. assert (n' ∈ db_notifications db) as Hin'
      by (by apply elem_of_firstn, elem_of_sort_by, elem_of_select in Hn' as [? _]).
    by assert (n = n') as -> by by apply (pk_inj (db_notifications db)). }
  assert (∀ n, n ∈ shown → visible db (usr_pk user) n = true) as Hvis
    by (intros n Hs; by apply elem_of_firstn, elem_of_sort_by, elem_of_select in Hs as [_ ?]).
  split_and!.
  - transitivity (inr (A:=exn) shown, db <| db_notifications :=
      update_where (λ n, (ntf_user n =? usr_pk user) && mem_pk (ntf_pk <$> shown) n && is_none (ntf_read_at n))
        (λ n, n <| ntf_read_at := Some now |>) (db_notifications db) |>); [reflexivity|].
    unfold db'. apply (f_equal (λ l, (inr (A:=exn) shown, db <| db_notifications := l |>))).
    apply update_where_ext; [|done]. intros n Hin. f_equal.
    apply eq_true_iff_eq. rewrite andb_true_iff, (Hmem n Hin). split; [tauto|]. intros Hs. split; [|done].
    apply Hvis in Hs. unfold visible in Hs. b2p. tauto.
  - set (p := λ n, mem_pk (ntf_pk <$> shown) n && is_none (ntf_read_at n)).
    set (u := unread db (usr_pk user)).
    change (unread_count db' (usr_pk user)) with (Z.of_nat (length (select u
      ((λ n, if p n then n <| ntf_read_at := Some now |> else n) <$> db_notifications db)))).
    unfold unread_count. fold u. rewrite select_fmap, length_fmap.
    assert (NoDup (db_notifications db)) as Hnd by by apply (NoDup_fmap_1 pk).
    assert (∀ n, n ∈ db_notifications db → u n = true ∧ p n = true ↔ n ∈ select u shown) as Hup.
    { intros n Hin. rewrite elem_of_select. unfold p. rewrite andb_true_iff, (Hmem n Hin). unfold u, unread. b2p. tauto. }
    assert (select u shown ≡ₚ select (λ n, u n && p n) (db_notifications db)) as ->.
    { apply NoDup_Permutation.
      - eapply sublist_NoDup; [|apply select_sublist]. eapply sublist_NoDup; [|apply sublist_take].
        unfold visible_rows. rewrite sort_by_perm. by eapply sublist_NoDup; [|apply select_sublist].
      - by eapply sublist_NoDup; [|apply select_sublist].
      - intros n. split.
        + intros H. pose proof H as [Hs _]%elem_of_select. apply elem_of_firstn, elem_of_sort_by, elem_of_select in Hs as [Hin _].
          apply elem_of_select. split; [done|]. by apply andb_true_iff, Hup.
        + intros [Hin H%andb_true_iff]%elem_of_select. by apply Hup. }
    rewrite (select_ext _ (λ n, u n && negb (p n))).
    + clear. induction (db_notifications db) as [|n l IH]; [done|]. rewrite !select_cons.
      destruct (u n), (p n); cbn [andb negb]; cbn [length]; lia.
    + intros n _. destruct (p n); cbn [negb]; [|by rewrite andb_true_r].
      rewrite andb_false_r. apply andb_false_r.
  - reflexivity.
Qed.
End pages_spec.

(** A toggle mutes a group that was not muted and lifts the mute of one that was, for the
    user alone and that group alone; any other category is refused and changes nothing. *)
Theorem mute_toggle_exact db user q :
  let c := dict_getd q "category"%string ""%string in
  let muted u c := existsb (own_mute u c) in
  (c ∉ category_str <$> CATEGORIES → mute_toggle user q db = (inr (BadRequest "invalid category"), db)) ∧
  (c ∈ category_str <$> CATEGORIES → ∃ l,
     mute_toggle user q db = (inr (Redirect "notif_settings" "" ""), db <| db_mutes := l |>) ∧
     muted (usr_pk user) c l = negb (muted (usr_pk user) c (db_mutes db)) ∧
     (∀ u c', (u, c') ≠ (usr_pk user, c) → muted u c' l = muted u c' (db_mutes db)) ∧
     (pk_unique (db_mutes db) → pk_unique l)).
Proof.
  intros c muted. unfold mute_toggle. fold c. split.
  - intros Hc. by rewrite bool_decide_false.
  - intros Hc. rewrite bool_decide_true by done. cbn [negb].
    change (exists_where (own_mute (usr_pk user) c)) with (read (λ db, existsb (own_mute (usr_pk user) c) (db_mutes db))).
    unfold mbind, M_bind, read. destruct (existsb (own_mute (usr_pk user) c) (db_mutes db)) eqn:E.
    + eexists. split; [reflexivity|]. unfold muted. split_and!.
      * rewrite E. apply existsb_elem_false. intros m [_ Hm]%elem_of_select. by destruct (own_mute (usr_pk user) c m).
      * intros u c' Hne. apply eq_true_iff_eq. rewrite !existsb_elem. setoid_rewrite elem_of_select.
        split; [naive_solver|]. intros (m & Hm & Ho). exists m. split_and!; try done.
        apply negb_true_iff, not_true_iff_false. intros Ho'. apply Hne. unfold own_mute in *. b2p. naive_solver congruence.
      * intros Hu. by apply NoDup_fmap_select.
    + exists (db_mutes db ++ [{| mute_pk := fresh_pk (db_mutes db); mute_user := usr_pk user; mute_category := c |}]).
      split; [reflexivity|]. unfold muted. split_and!.
      * rewrite existsb_app, E. cbn. unfold own_mute. cbn. by rewrite Z.eqb_refl, bool_decide_true.
      * intros u c' Hne. rewrite existsb_app. cbn. rewrite orb_false_r.
        assert (own_mute u c' {| mute_pk := fresh_pk (db_mutes db); mute_user := usr_pk user; mute_category := c |} = false)
          as Hf; [|by rewrite Hf, orb_false_r].
        apply not_true_iff_false. intros Ho. apply Hne. unfold own_mute in Ho. cbn in Ho. b2p. naive_solver congruence.
      * intros Hu. by apply pk_unique_insert.
Qed.

(** ** The subscriptions *)

(** One row an endpoint, an https one, with both its keys *)
Definition subs_ok (t : subs) : Prop :=
  pk_unique t ∧ NoDup (sub_endpoint <$> t) ∧
  ∀ s, s ∈ t → valid_subscription (JStr (sub_endpoint s)) (sub_keys s) = Some (sub_endpoint s).
(** Whatever a browser posts, the table keeps its invariant; a subscription that is
    accepted is the one row of its endpoint and belongs to the user who asked, every other
    row is as it was, and a refusal changes nothing.  A user removes only rows of their own. *)
Theorem subscriptions_kept py_str user body t :
  subs_ok t →
  (∀ r t', subscribe user body t = (r, t') → subs_ok t' ∧
     ((r ≠ inr (Page "ok") ∧ t' = t) ∨
      ∃ e, (∃ s, s ∈ t' ∧ sub_endpoint s = e ∧ sub_user s = usr_pk user) ∧
        ∀ s, sub_endpoint s ≠ e → s ∈ t' ↔ s ∈ t)) ∧
  (∀ r t', unsubscribe py_str user body t = (r, t') → subs_ok t' ∧
     (∀ s, s ∈ t' → s ∈ t) ∧ ∀ s, s ∈ t → sub_user s ≠ usr_pk user → s ∈ t').
Proof.
  intros (Hp & Hd & Hv). split.
  - intros r t'. unfold subscribe.
    assert (subs_ok t) as Ht by done.
    destruct (get_field (parse_json body) "endpoint" _) as [err|ep]; [intros [= <- <-]; split; [done|by left]|].
    destruct (get_field (parse_json body) "keys" _) as [err|keys]; [intros [= <- <-]; split; [done|by left]|].
    destruct (valid_subscription ep keys) as [e|] eqn:Ev; [|intros [= <- <-]; split; [done|by left]].
    assert (ep = JStr e) as -> by (unfold valid_subscription in Ev; repeat case_match; congruence).
    unfold update_or_create. destruct (select (at_endpoint e) t) as [|s [|s2 l]] eqn:Es.
    + destruct (500 <? PyStr.len e); intros [= <- <-]; [split; [done|by left]|].
      rewrite select_nil in Es. split.
      * split_and!.
        -- by apply pk_unique_insert.
        -- rewrite fmap_app. apply NoDup_app. split; [done|]. split; [|apply NoDup_singleton].
           intros x (s & -> & Hs)%list_elem_of_fmap Hx. apply list_elem_of_singleton in Hx. cbn in Hx.
           specialize (Es s Hs). unfold at_endpoint in Es. b2p. done.
        -- intros s [Hs|Hs]%elem_of_app; [by apply Hv|]. apply list_elem_of_singleton in Hs as ->. done.
      * right. exists e. split; [eexists; split; [apply elem_of_app; right; left|done]|].
        intros s Hne. rewrite elem_of_app, list_elem_of_singleton. split; [|by left]. intros [?| ->]; [done|]. done.
    + assert (s ∈ t ∧ sub_endpoint s = e) as [Hs He].
      { assert (s ∈ select (at_endpoint e) t) as H by (rewrite Es; left). apply elem_of_select in H as [? H].
        unfold at_endpoint in H. by b2p. }
      intros [= <- <-].
      set (g := λ x : PushSubscription, x <| sub_user := usr_pk user |> <| sub_keys := keys |>).
      assert (∀ x, x ∈ t → (sub_pk x =? sub_pk s) = true → x = s) as Hg.
      { intros x Hx Hk. apply Z.eqb_eq in Hk. by apply (pk_inj t). }
      split.
      * split_and!.
        -- by apply pk_unique_update.
        -- unfold update_where. rewrite <- list_fmap_compose.
           rewrite (list_fmap_ext _ sub_endpoint); [done|]. intros i x _. unfold compose. by case_match.
        -- intros x (x' & Hx' & ->)%elem_of_update_where. destruct (sub_pk x' =? sub_pk s) eqn:Ek; [|by apply Hv].
           rewrite (Hg x' Hx' Ek). unfold g. cbn [sub_endpoint sub_keys]. by rewrite He.
      * right. exists e. split.
        -- exists (g s). split; [|done]. apply elem_of_update_where. exists s. by rewrite Z.eqb_refl.
        -- intros x Hne. rewrite elem_of_update_where. split.
           ++ intros (x' & Hx' & ->). destruct (sub_pk x' =? sub_pk s) eqn:Ek; [|done].
              rewrite (Hg x' Hx' Ek) in Hne. done.
           ++ intros Hx. exists x. split; [done|]. destruct (sub_pk x =? sub_pk s) eqn:Ek; [|done].
              rewrite (Hg x Hx Ek) in Hne. done.
    + intros [= <- <-]. split; [done|]. left. split; [done|done].
  - intros r t'. unfold unsubscribe.
    destruct (get_field _ _ _) as [err|ep]; [by intros [= <- <-]|].
    destruct (truthy ep); cbn [negb]; [|by intros [= <- <-]]. intros [= <- <-]. split_and!.
    + split_and!; [by apply NoDup_fmap_select|by apply NoDup_fmap_select|].
      intros s [Hs _]%elem_of_select. by apply Hv.
    + by intros s [Hs _]%elem_of_select.
    + intros s Hs Hne. apply elem_of_select. split; [done|]. apply negb_true_iff, andb_false_iff. left. lia.
Qed.

(** ** Witnesses *)
Definition demo_note (k user : Z) (type : string) : Notification :=
  {| ntf_pk := k; ntf_user := user; ntf_type := type; ntf_title := "t"; ntf_body := "b"; ntf_link := "";
     ntf_read_at := None; ntf_pushed_at := None |}.
Definition demo_sub (k user : Z) (endpoint : string) : PushSubscription :=
  {| sub_pk := k; sub_user := user; sub_endpoint := endpoint;
     sub_keys := JObj [("p256dh", JStr "p"); ("auth", JStr "a")]%string |}.
(** Two notices of a conflict for Ana, one muted by Ben; the first of her browsers is gone. *)
Definition demo_outbox : Outbox :=
  {| ob_db := demo_db <| db_notifications := [demo_note 1 1 "room_conflict"; demo_note 2 2 "room_conflict";
                                              demo_note 3 1 "room_event"; demo_note 4 1 "checker_flag"] |>
                      <| db_mutes := [{| mute_pk := 1; mute_user := 2; mute_category := "room" |}] |>;
     ob_subs := [demo_sub 1 1 "https://a/1"; demo_sub 2 1 "https://a/2"; demo_sub 3 2 "https://b/1"];
     ob_sent := [] |}.
Definition demo_deliver (_ : Z) (s : PushSubscription) : Delivery :=
  if sub_pk s =? 1 then D_REFUSED (Some 410) else D_SENT.
Lemma outbox_exact_witness :
  let r := send_push_outbox (λ _, at_ 9 0) demo_deliver "key.pem" (at_ 9 10) demo_outbox in
  delivered demo_deliver (at_ 9 10) demo_outbox (rows (λ _, at_ 9 0) (at_ 9 10) demo_outbox) r ∧
  send_push_outbox (λ _, at_ 9 0) demo_deliver "key.pem" (at_ 9 11) r.2 = (0, r.2) ∧
  ob_sent r.2 = [(1, demo_sub 1 1 "https://a/1", mk_payload "t" "b" "/notifications");
                 (1, demo_sub 2 1 "https://a/2", mk_payload "t" "b" "/notifications");
                 (3, demo_sub 2 1 "https://a/2", mk_payload "t" "b" "/notifications")]%string ∧
  r.1 = 2.
Proof.
  destruct (outbox_exact (λ _, at_ 9 0) demo_deliver "key.pem" (at_ 9 10) demo_outbox) as [H1 H2];
    [done|decide_now|decide_now|].
  split; [exact H1|]. split; [apply H2; by vm_compute|]. split; vm_compute; reflexivity.
Defined.
Lemma opened_rows_read_witness :
  let db := ob_db demo_outbox in
  unread_count db 1 = 3 ∧
  unread_count (exec (dropdown (λ k, k) (demo_user 1 "Ana" FACULTY) (at_ 9 10)) db) 1 =
    unread_count db 1 - Z.of_nat (length (select (unread db 1) (firstn 5 (visible_rows (λ k, k) db 1)))).
Proof.
  intros db. split; [reflexivity|].
  destruct (opened_rows_read (λ k, k) db (demo_user 1 "Ana" FACULTY) (at_ 9 10) ltac:(decide_now) 5) as (H1 & H2 & _).
  unfold dropdown, exec, PREVIEW_LIMIT. rewrite H1. exact H2.
Defined.
Lemma subscriptions_kept_witness :
  let body := Some (JObj [("endpoint", JStr "https://c/1");
                          ("keys", JObj [("p256dh", JStr "p"); ("auth", JStr "a")])])%string in
  subs_ok (ob_subs demo_outbox) ∧ subs_ok (subscribe (demo_user 2 "Ben" CHECKER) body (ob_subs demo_outbox)).2.
Proof.
  intros body. assert (subs_ok (ob_subs demo_outbox)) as H.
  { split_and!; [decide_now|decide_now|]. intros s Hs. cbn in Hs. each_row Hs; reflexivity. }
  split; [exact H|].
  destruct (subscriptions_kept (λ _, ""%string) (demo_user 2 "Ben" CHECKER) body (ob_subs demo_outbox) H) as [Hsub _].
  destruct (subscribe _ body _) as [r t'] eqn:E. by destruct (Hsub r t' eq_refl).
Defined.
(** A user who posts the endpoint of another takes the row over; a body that is no object
    is an error rather than a refusal. *)
Example endpoint_taken_over :
  sub_user <$> (subscribe (demo_user 2 "Ben" CHECKER)
    (Some (JObj [("endpoint", JStr "https://a/1"); ("keys", sub_keys (demo_sub 1 1 ""))])%string)
    (ob_subs demo_outbox)).2 = [2; 1; 2].
Proof. reflexivity. Qed.
Example body_not_an_object user t : subscribe user (Some (JList [])) t = (inl AttributeErr, t).
Proof. reflexivity. Qed.
