(* ===== verification/Scan.v ===== *)
(** web/scan.py: payload lookup, rate limiting, idempotency, two-step signed
    confirmations and the outcome side effects.  A request reads the clock once:
    [now] stands for every reading it makes.  Signing is a parameter. *)
From Stdlib Require Import Ascii.
From S2P Require Import Prelude Python Model Effects Ops Sample Resolvers Merge.
Import FacultyScan.
Open Scope Z_scope.

(** ** _room_from_payload *)
Definition rate_key (user now : Z) : string :=
  "scan-rl:" +:+ PyStr.str user +:+ ":" +:+ PyTime.minute_key now.
Definition as_int (j : json) : M Z := match j with JInt n => mret n | _ => raise TypeErr end.
Definition manual_code_room (payload : string) (user now : Z)
    : M (option Room * (string + CheckinMethod)) :=
  let key := rate_key user now in
  get_policy_num "manual_code_rate_limit_per_min" ≫= λ limit,
  (cache_get_or_set key (JInt 0) 90 now ≫= as_int) ≫= λ count,
  if limit <=? count then
    audit (Some user) "scan.rate_limited" "" "" (JObj [("attempts", JInt (count + 1))]%string)
    ≫= λ _, mret (None, inl "rate-limited"%string)
  else
    cache_incr key now ≫= λ _,
    first (λ r, bool_decide (room_manual_code r = payload)) ≫= λ room,
    when (is_none room) (audit (Some user) "scan.bad_manual_code" "" "" (JObj [])) ≫= λ _,
    mret (room, inr MANUAL_CODE).
Definition room_from_payload (payload : string) (user now : Z)
    : M (option Room * (string + CheckinMethod)) :=
  let payload := PyStr.strip payload in
  let token :=
    if PyStr.contains "t=" payload then PyUrl.parse_qs_first "t" (PyUrl.query payload) else None in
  match token with
  | Some tok =>
      if bool_decide (tok = ""%string) then
        if PyStr.six_digits payload then manual_code_room payload user now
        else mret (None, inl "bad-payload"%string)
      else
        first (λ r, bool_decide (room_qr_token r = tok)) ≫= λ room, mret (room, inr QR_SCAN)
  | None =>
      if PyStr.six_digits payload then manual_code_room payload user now
      else mret (None, inl "bad-payload"%string)
  end.

(** ** _apply *)
Record Ctx := mk_ctx {
  ctx_resolution : option Resolution;
  ctx_room : option Room;
  ctx_session : option Session;
  ctx_error : string;
  ctx_token : string
}.
(** [if resolution.session_id]: a missing or zero key is false. *)
Definition truthy_id (o : option Z) : bool :=
  match o with Some k => negb (k =? 0) | None => false end.
Definition find_in_term (t : AcademicTerm) (k : option Z) : M (option Session) :=
  read (λ db, List.find (λ s, bool_decide (k = Some (ses_pk s)) && in_term db (term_pk t) s)
                (db_sessions db)).
Definition audit_session (user : Z) (event : string) (s : Session) (payload : json) : M unit :=
  audit (Some user) event "session" (PyStr.str (ses_pk s)) payload.
Definition course_code (s : Session) : M string :=
  get_pk (R:=Schedule) (ses_schedule s) ≫= λ sch, mret (sch_course_code sch).

Definition check_in (now : Z) (m : CheckinMethod) (s : Session) : Session :=
  s <| ses_status := ACTIVE |> <| ses_actual_start := Some now |> <| ses_method := Some m |>.
Definition complete (now : Z) (s : Session) : Session :=
  s <| ses_status := COMPLETED |> <| ses_actual_end := Some now |>.
Definition end_early (now : Z) (reason : string) (s : Session) : Session :=
  s <| ses_status := COMPLETED |> <| ses_actual_end := Some now |> <| ses_ended_early := true |>
    <| ses_early_reason := reason |>.
Definition hand_over (now : Z) (prior : option Z) (s : Session) : Session :=
  s <| ses_status := ACTIVE |> <| ses_actual_start := Some now |>
    <| ses_method := Some FORCE_HANDOVER |> <| ses_handover := prior |>.

(** The state changes of one outcome on the session it names. *)
Definition apply_to_session (user : User) (r : Resolution) (t : AcademicTerm) (s : Session)
    (room : Room) (method : CheckinMethod) (reason : string) (now : Z) : M Session :=
  let u := usr_pk user in
  let code := ("room"%string, JStr (room_code room)) in
  match outcome r with
  | CHECKED_IN =>
      atomic (
        save (ses_pk s) (check_in now method) ≫= λ _,
        audit_session u "session.checked_in" s
          (JObj [code; ("method"%string, JStr (method_str method))]) ≫= λ _,
        propagate_merged_present (check_in now method s) now (Some u)) ≫= λ _,
      mret (check_in now method s)
  | MARK_ABSENT =>
      if has_status SCHEDULED s then
        save (ses_pk s) (λ x, x <| ses_status := ABSENT |>) ≫= λ _,
        audit_session u "session.marked_absent" s (JObj [code]) ≫= λ _,
        mret (s <| ses_status := ABSENT |>)
      else mret s
  | CHECKED_OUT =>
      save (ses_pk s) (complete now) ≫= λ _,
      audit_session u "session.checked_out" s (JObj [code]) ≫= λ _,
      mret (complete now s)
  | EARLY_END =>
      save (ses_pk s) (end_early now reason) ≫= λ _,
      audit_session u "session.ended_early" s (JObj [code; ("reason"%string, JStr reason)])
      ≫= λ _, mret (end_early now reason s)
  | WRONG_ROOM =>
      get_pk (R:=Room) (ses_room s) ≫= λ old,
      save (ses_pk s) (λ x, x <| ses_room := room_pk room |>) ≫= λ _,
      audit_session u "session.room_changed" s
        (JObj [("old_room", JStr (room_code old)); ("new_room", JStr (room_code room))]%string)
      ≫= λ _,
      course_code s ≫= λ course,
      notify [] (Some IFO_ADMIN) "room_event" "Room change"
        (display_name user +:+ " moved " +:+ course +:+ " from " +:+ room_code old +:+ " to "
         +:+ room_code room +:+ ".") "" ≫= λ _,
      mret (s <| ses_room := room_pk room |>)
  | ROOM_OCCUPIED =>
      atomic (
        find_in_term t (prior_session_id r) ≫= λ prior,
        match prior with
        | Some p => when (has_status ACTIVE p) (save (ses_pk p) (complete now))
        | None => mret ()
        end ≫= λ _,
        save (ses_pk s) (hand_over now (ses_pk <$> prior)) ≫= λ _,
        audit_session u "session.force_handover" s
          (JObj [code; ("prior_session"%string,
                        match prior_session_id r with Some k => JInt k | None => JNull end)])
        ≫= λ _,
        propagate_merged_present s now (Some u) ≫= λ _,
        mret (hand_over now (ses_pk <$> prior) s)) ≫= λ s',
      course_code s ≫= λ course,
      notify [] (Some IFO_ADMIN) "room_event" "Force handover"
        (room_code room +:+ ": prior session auto-completed; " +:+ course
         +:+ " started via handover.") "" ≫= λ _,
      mret s'
  | TOO_EARLY | ONLINE_REJECT | NO_SCHEDULE => mret s
  end.

Definition apply (user : User) (r : Resolution) (room : Room) (method : CheckinMethod)
    (reason : string) (now : Z) : M Ctx :=
  get_active_term ≫= λ active_term,
  match active_term with
  | Some t =>
      if truthy_id (session_id r) then
        find_in_term t (session_id r) ≫= λ session,
        match session with
        | None => mret (mk_ctx None (Some room) None "bad-payload" "")
        | Some s =>
            apply_to_session user r t s room method reason now ≫= λ s',
            mret (mk_ctx (Some r) (Some room) (Some s') "" "")
        end
      else if bool_decide (outcome r ∈ [TOO_EARLY; ONLINE_REJECT; NO_SCHEDULE])
      then mret (mk_ctx (Some r) (Some room) None "" "")
      else raise TypeErr
  | None =>
      if truthy_id (session_id r) then mret (mk_ctx None (Some room) None "bad-payload" "")
      else if bool_decide (outcome r ∈ [TOO_EARLY; ONLINE_REJECT; NO_SCHEDULE])
      then mret (mk_ctx (Some r) (Some room) None "" "")
      else raise TypeErr
  end.

(** ** The views *)

(** The payload of a two-step confirmation token. *)
Record ConfirmData := mk_confirm {
  cd_outcome : Outcome;
  cd_session : option Z;
  cd_prior : option Z;
  cd_room : Z;
  cd_method : CheckinMethod;
  cd_user : Z
}.
Inductive Response := Rendered (c : Ctx) | BadRequest (msg : string).

Section views.
(** [signing.dumps] and [signing.loads] under the confirmation salt; [loads]
    also depends on the age of the token and fails with [BadSignature]. *)
Context (dumps : ConfirmData → string) (loads : string → option ConfirmData).

(** [order_by("scheduled_start")], and the model's default order *)
Definition by_start (a b : Session) : bool := ses_sched_start a <=? ses_sched_start b.
Definition default_order (a b : Session) : bool :=
  if ses_date a =? ses_date b then ses_sched_start a <=? ses_sched_start b
  else ses_date b <? ses_date a.
Definition sessions_of_day (db : DB) (t : AcademicTerm) (user today : Z) : list Session :=
  sort_by by_start (select (λ s, (ses_faculty s =? user) && (ses_date s =? today)
                                 && in_term db (term_pk t) s) (db_sessions db)).
Definition occupying (db : DB) (t : AcademicTerm) (user room : Z) : option Z :=
  ses_pk <$> head (sort_by default_order
    (select (λ s, (ses_room s =? room) && has_status ACTIVE s && is_none (ses_released_at s)
                  && in_term db (term_pk t) s && negb (ses_faculty s =? user)) (db_sessions db))).
Definition idem_key (user k now : Z) : string :=
  "scan-idem:" +:+ PyStr.str user +:+ ":" +:+ PyStr.str k +:+ ":" +:+ PyTime.minute_key now.
Definition error_ctx (e : string) : Ctx := mk_ctx None None None e "".

(** What [resolve] does once the outcome is known. *)
Definition act_on (user : User) (r : Resolution) (t : AcademicTerm) (room : Room)
    (method : CheckinMethod) (now : Z) : M Ctx :=
  if needs_confirm r then
    mret (mk_ctx (Some r) (Some room) None ""
      (dumps (mk_confirm (outcome r) (session_id r) (prior_session_id r) (room_pk room) method
                (usr_pk user))))
  else match session_id r with
  | Some k =>
      let idem := idem_key (usr_pk user) k now in
      cache_get idem now ≫= λ seen,
      match seen with
      | Some (JStr o) =>
          if bool_decide (o = outcome_str (outcome r)) then
            find_in_term t (session_id r) ≫= λ s,
            mret (mk_ctx (Some r) (Some room) s "" "")
          else
            apply user r room method "" now ≫= λ ctx,
            cache_set idem (JStr (outcome_str (outcome r))) 120 now ≫= λ _, mret ctx
      | _ =>
          apply user r room method "" now ≫= λ ctx,
          cache_set idem (JStr (outcome_str (outcome r))) 120 now ≫= λ _, mret ctx
      end
  | None => mret (mk_ctx (Some r) (Some room) None "" "")
  end.

Definition resolve (user : User) (payload : string) (now : Z) : M Response :=
  room_from_payload payload (usr_pk user) now ≫= λ rm,
  match rm with
  | (None, inl e) => mret (Rendered (error_ctx e))
  | (None, inr m) => mret (Rendered (error_ctx (method_str m)))
  | (Some room, inl _) => raise TypeErr
  | (Some room, inr method) =>
      if room_out_of_service room then mret (Rendered (error_ctx "out-of-service"))
      else
        get_active_term ≫= λ active_term,
        match active_term with
        | None => mret (Rendered (error_ctx "bad-payload"))
        | Some t =>
            let today := PyTime.local_date now in
            read (λ db, sessions_of_day db t (usr_pk user) today) ≫= λ sessions_today,
            read (λ db, occupying db t (usr_pk user) (room_pk room)) ≫= λ occ,
            get_policy_num "grace_minutes" ≫= λ grace_min,
            get_policy_num "early_end_threshold_minutes" ≫= λ early_end_min,
            read (λ db, resolve_faculty_scan db sessions_today (room_pk room) occ now
                          grace_min early_end_min 15) ≫= λ r,
            act_on user r t room method now ≫= λ ctx,
            mret (Rendered ctx)
        end
  end.

Definition confirm (user : User) (token reason : string) (now : Z) : M Response :=
  match loads token with
  | None => mret (BadRequest "Confirmation expired or invalid.")
  | Some data =>
      if negb (cd_user data =? usr_pk user)
      then mret (BadRequest "Token does not belong to this user.")
      else
        get_pk (R:=Room) (cd_room data) ≫= λ room,
        let r := mk_resolution (cd_outcome data) (cd_session data) (cd_prior data) in
        apply user r room (cd_method data) reason now ≫= λ ctx,
        mret (Rendered ctx)
  end.
End views.

(** ** Effects of the outcomes *)
Section apply_spec.
Context (db : DB) (t : AcademicTerm) (s : Session).
Context (Huniq : pk_unique (db_sessions db)).
Context (Hact : select is_active_term (db_terms db) = [t]).
Context (Hs : by_pk (db_sessions db) (ses_pk s) = Some s).
Context (Hterm : session_term db s = Some (term_pk t)).
Context (Hpk : ses_pk s ≠ 0).

Lemma active_by_pk : pk_unique (db_terms db) → by_pk (db_terms db) (term_pk t) = Some t.
Proof using Hact.
  intros Hu. apply by_pk_unique; [done| |done].
  assert (t ∈ select is_active_term (db_terms db)) as Ht by (rewrite Hact; left).
  by apply elem_of_select in Ht as [? _].
Qed.
Lemma active_not_archived : term_status t ≠ T_ARCHIVED.
Proof using Hact.
  assert (t ∈ select is_active_term (db_terms db)) as Ht by (rewrite Hact; left).
  apply elem_of_select in Ht as [_ Ht]. unfold is_active_term in Ht. b2p. congruence.
Qed.
Lemma find_own : List.find (λ x, bool_decide (Some (ses_pk s) = Some (ses_pk x))
                                 && in_term db (term_pk t) x) (db_sessions db) = Some s.
Proof using Huniq Hs Hterm.
  apply by_pk_elem in Hs as [Hin _]. rewrite find_select.
  rewrite (select_ext _ (λ x, (pk x =? ses_pk s) && in_term db (term_pk t) x)).
  - rewrite select_pk by done. rewrite (by_pk_unique _ _ s) by done. unfold in_term.
    by rewrite bool_decide_true.
  - intros x _. f_equal. apply eq_true_iff_eq. b2p. unfold pk, pk_Session. split; [by intros [= ->]|by intros ->].
Qed.

(** Running [_apply] on a session of the active term runs the outcome's body. *)
Lemma wp_apply user r room method reason now Q :
  session_id r = Some (ses_pk s) →
  wp (apply_to_session user r t s room method reason now)
    (λ res db', match res with
      | inl e => Q (inl e) db'
      | inr s' => Q (inr (mk_ctx (Some r) (Some room) (Some s') "" "")) db' end) db →
  wp (apply user r room method reason now) Q db.
Proof using All.
  intros Hr Hwp. unfold apply. wp_step. apply wp_get_active_term.
  2:{ by rewrite Hact. }
  2:{ unfold one_active_term. rewrite Hact. simpl. lia. }
  intros t' Ht'. assert (t' = t) as -> by congruence. rewrite Hr. simpl.
  rewrite (proj2 (Z.eqb_neq _ _) Hpk). simpl. wp_step. unfold find_in_term. wp_step.
  rewrite find_own. wp_step. eapply wp_mono; [exact Hwp|].
  intros [e|s'] db'; [done|]. intros H. by wp_step.
Qed.

Lemma save_own f (Q : exn + unit → DB → Prop) db0 :
  db_sessions db0 = db_sessions db →
  Q (inr ()) (db0 <| db_sessions := update_pk (ses_pk s) f (db_sessions db) |>) →
  wp (save (R:=Session) (ses_pk s) f) Q db0.
Proof using Hs.
  intros Heq HQ. apply wp_save; simpl; rewrite Heq; [done|]. by rewrite existing_by_pk, Hs.
Qed.

Lemma check_in_wp user r room method reason now sch :
  pk_unique (db_terms db) → by_pk (db_schedules db) (ses_schedule s) = Some sch →
  outcome r = CHECKED_IN →
  wp (apply_to_session user r t s room method reason now)
    (λ res db', res = inr (check_in now method s) ∧
      logs_only (db <| db_sessions :=
        update_where (fillable db (check_in now method s) (sch_term sch)) (fill_present now)
          (update_pk (ses_pk s) (check_in now method) (db_sessions db)) |>) db') db.
Proof using All.
  intros Hut Hsch Ho. unfold apply_to_session. rewrite Ho. wp_step. wp_step. wp_step.
  apply save_own; [done|]. unfold audit_session. wp_step.
  apply wp_logging; [apply logging_audit|]. intros db1 (A0 & N0 & ->). simpl.
  assert (sch_term sch = term_pk t) as Ht.
  { unfold session_term in Hterm. rewrite Hsch in Hterm. simpl in Hterm. congruence. }
  unfold propagate_merged_present.
  eapply wp_mono; [apply (fill_siblings_wp _ (check_in now method s) sch t)|]; simpl.
  - by apply pk_unique_update.
  - rewrite by_pk_update_eq by done. by rewrite Hs.
  - done.
  - rewrite Ht. by apply active_by_pk.
  - done.
  - apply active_not_archived.
  - cbv beta. intros res db' [-> (A & N & ->)]. wp_step. split; [done|].
    exists (A0 ++ A), (N0 ++ N). simpl. by rewrite !app_assoc.
Qed.
End apply_spec.

(** A check-in makes the scanned class active, started now and with the real
    method, and fills exactly its merged siblings that are still scheduled; no
    other session changes. *)
Theorem scan_check_in db t s sch user r room method now :
  pk_unique (db_sessions db) → pk_unique (db_terms db) →
  select is_active_term (db_terms db) = [t] → by_pk (db_sessions db) (ses_pk s) = Some s →
  by_pk (db_schedules db) (ses_schedule s) = Some sch → sch_term sch = term_pk t →
  ses_pk s ≠ 0 → outcome r = CHECKED_IN → session_id r = Some (ses_pk s) →
  ∃ p, (∀ x, p x = true ↔ sibling db s (term_pk t) x ∧ ses_status x = SCHEDULED) ∧
    wp (apply user r room method "" now) (λ res db',
      (∃ ctx, res = inr ctx ∧ ctx_session ctx = Some (check_in now method s)) ∧
      logs_only (db <| db_sessions := update_where p (fill_present now)
        (update_pk (ses_pk s) (check_in now method) (db_sessions db)) |>) db') db.
Proof.
  intros Hu Hut Hact Hs Hsch Hterm Hpk Ho Hr.
  exists (fillable db (check_in now method s) (sch_term sch)). split.
  - intros x. rewrite fillable_iff, Hterm. done.
  - eapply wp_apply; try done; [unfold session_term; rewrite Hsch; simpl; congruence|].
    eapply wp_mono; [eapply check_in_wp; try done|].
    { unfold session_term. rewrite Hsch. simpl. congruence. }
    intros res db' [-> Hdb]. split; [by eexists|done].
Qed.

(** Confirming a two-step token does not look at the session's status again:
    whatever the session has become since the token was signed (absent, cancelled
    or completed included), a confirmed early end completes it and a confirmed
    handover makes it active. *)
Theorem confirm_ignores_status loads db t s user data token reason now :
  loads token = Some data →
  pk_unique (db_sessions db) → select is_active_term (db_terms db) = [t] →
  by_pk (db_sessions db) (ses_pk s) = Some s → session_term db s = Some (term_pk t) →
  ses_pk s ≠ 0 → cd_user data = usr_pk user →
  cd_session data = Some (ses_pk s) → cd_outcome data = EARLY_END →
  is_some (by_pk (db_rooms db) (cd_room data)) = true →
  wp (confirm loads user token reason now) (λ res db',
    (∃ c, res = inr (Rendered c)) ∧
    db_sessions db' = update_pk (ses_pk s) (end_early now reason) (db_sessions db)) db.
Proof.
  intros Hd Hu Hact Hs Hterm Hpk Huser Hsid Ho Hroom. unfold confirm. rewrite Hd, Huser.
  rewrite Z.eqb_refl. simpl. wp_step. apply wp_get_pk; simpl.
  2:{ intros Hn. by rewrite Hn in Hroom. }
  intros room _. wp_step. eapply wp_apply; try done.
  unfold apply_to_session. simpl. rewrite Ho. wp_step.
  eapply save_own; try done. unfold audit_session. wp_step. wp_log. log_subst. wp_step. wp_step.
  split; [by eexists|]. done.
Qed.

(** ** What a scan may do to the sessions

    The lifecycle of a session under scanning, and a step that respects it and
    touches only sessions of the faculty [u]. *)
Inductive transition : SessionStatus → SessionStatus → Prop :=
  | t_start : transition SCHEDULED ACTIVE
  | t_absent : transition SCHEDULED ABSENT
  | t_complete : transition ACTIVE COMPLETED.
Definition own_step (u : Z) (x y : Session) : Prop :=
  ses_pk y = ses_pk x ∧ ses_faculty y = ses_faculty x ∧ (ses_faculty x ≠ u → y = x) ∧
  rtc transition (ses_status x) (ses_status y).
Definition scoped (u : Z) (db db' : DB) : Prop :=
  Forall2 (own_step u) (db_sessions db) (db_sessions db').

Lemma own_step_refl u x : own_step u x x.
Proof. done. Qed.
#[export] Instance own_step_preorder u : PreOrder (own_step u).
Proof.
  split; [intros x; apply own_step_refl|].
  intros x y z (P1 & F1 & E1 & T1) (P2 & F2 & E2 & T2). split_and!; try congruence.
  - intros Hne. rewrite E2 by congruence. auto.
  - by etransitivity.
Qed.
#[export] Instance scoped_preorder u : PreOrder (scoped u).
Proof.
  split; [intros db; unfold scoped; reflexivity|].
  intros a b c H1 H2. unfold scoped in *. by etransitivity.
Qed.
Lemma scoped_same u db db' : db_sessions db' = db_sessions db → scoped u db db'.
Proof. intros H. unfold scoped. rewrite H. apply (reflexivity (R := scoped u) db). Qed.
Lemma scoped_update u p f db db' :
  db_sessions db' = update_where p f (db_sessions db) →
  (∀ x, x ∈ db_sessions db → p x = true → own_step u x (f x)) → scoped u db db'.
Proof.
  unfold scoped. intros -> H. unfold update_where. apply Forall2_fmap_r, Forall_Forall2_diag, Forall_forall. intros x Hx. simpl. destruct (p x) eqn:E; [auto|apply own_step_refl].
Qed.
Lemma scoped_pk_unique u db db' :
  scoped u db db' → pk_unique (db_sessions db) → pk_unique (db_sessions db').
Proof.
  unfold scoped, pk_unique. intros H. assert (ses_pk <$> db_sessions db' = ses_pk <$> db_sessions db) as Heq.
  { induction H as [|x y l l' (Hp & _) _ IH]; [done|]. rewrite !fmap_cons. congruence. }
  unfold pk, pk_Session. by rewrite Heq.
Qed.
Lemma scoped_by_pk u db db' k a :
  scoped u db db' → by_pk (db_sessions db') k = Some a →
  ∃ a0, by_pk (db_sessions db) k = Some a0 ∧ own_step u a0 a.
Proof.
  unfold scoped, by_pk, pk, pk_Session. induction 1 as [|x y l l' Hs _ IH]; [done|]. simpl.
  pose proof Hs as (Hp & _). rewrite Hp. destruct (ses_pk x =? k); [|done].
  intros [= ->]. by exists x.
Qed.

Lemma fill_siblings_scoped u k flip event actor db :
  pk_unique (db_sessions db) →
  (∀ a, by_pk (db_sessions db) k = Some a → ses_faculty a = u) →
  (∀ x, ses_faculty x = u → ses_status x = SCHEDULED → own_step u x (flip x)) →
  wp (fill_siblings k flip event actor) (λ _ db', scoped u db db') db.
Proof.
  intros Hu Hk Hf. unfold fill_siblings. wp_step. wp_step. apply wp_get_pk; simpl; [|done].
  intros a Ha. wp_step. apply wp_get_pk; simpl; [|done]. intros sch _. wp_step.
  apply wp_get_pk; simpl; [|done]. intros t _. wp_step. apply wp_require_writable; [intros _|done].
  unfold materialize_candidates. do 8 wp_step. cbn [tbl table_Session].
  destruct (ses_pk <$> select _ _) as [|k0 ks] eqn:E; [by wp_step|]. rewrite <- E. wp_step. wp_step.
  cbn [set_tbl tbl table_Session]. rewrite update_sessions_selected by done.
  wp_step. wp_log. wp_step. log_subst. eapply scoped_update; [done|].
  intros z Hz Hp. b2p. destruct Hp as [Hm Hst]. unfold has_status in Hst. b2p.
  apply Hf; [|done]. unfold mem_pk, merged_sibling_ids in Hm. b2p.
  apply list_elem_of_fmap in Hm as (c & Hpk & [Hc _]%elem_of_select).
  apply list_elem_of_fmap in Hc as (y & -> & [Hy Hcand]%elem_of_select). simpl in Hpk.
  assert (y = z) as -> by by apply (pk_inj (db_sessions db)).
  unfold candidate_of in Hcand. b2p. rewrite <- (Hk a Ha). tauto.
Qed.

(** The session an outcome names is one of the day's, in the right status. *)
Lemma resolution_session db ss room occ now g e l k :
  let r := resolve_faculty_scan db ss room occ now g e l in
  session_id r = Some k →
  ∃ s, s ∈ ss ∧ ses_pk s = k ∧ (outcome r = CHECKED_IN → ses_status s = SCHEDULED) ∧
    (outcome r = CHECKED_OUT → ses_status s = ACTIVE).
Proof.
  intros r. pose proof (resolve_sound db ss room occ now g e l) as H. fold r in H.
  assert (∀ P s, first_in ss P s → s ∈ ss ∧ P s) as Hfirst.
  { intros P s (l1 & l2 & -> & HP & _). split; [set_solver|done]. }
  assert (∀ c, candidate_is ss room now l c → c ∈ ss ∧ ses_status c = SCHEDULED) as Hcand.
  { intros c [Hc|[_ Hc]]; apply Hfirst in Hc; [|by destruct Hc as (? & ? & _)].
    by destruct Hc as (? & (? & _) & _). }
  destruct H; simpl; intros [= <-];
    try match goal with
    | H : candidate_is _ _ _ _ ?c |- _ => apply Hcand in H as [? ?]; exists c; split_and!; done
    | H : first_in _ _ ?s |- _ => apply Hfirst in H as [? ?]; exists s; split_and!; done
    end.
Qed.

(** Looking the payload up changes neither sessions nor the timetable. *)
Definition same_core (db db' : DB) : Prop :=
  db_sessions db' = db_sessions db ∧ db_terms db' = db_terms db ∧ db_schedules db' = db_schedules db.
#[export] Instance same_core_preorder : PreOrder same_core.
Proof. split; [done|]. intros a b c (?&?&?) (?&?&?). split_and!; congruence. Qed.
Lemma same_core_logging m : logging m → respects same_core m.
Proof.
  intros Hm db. destruct (Hm db) as [_ (A & N & H)]. unfold exec. by rewrite H.
Qed.
Lemma same_core_cache_set k v timeout now : respects same_core (cache_set k v timeout now).
Proof. done. Qed.
Lemma same_core_cache_get k now : respects same_core (cache_get k now).
Proof. done. Qed.
Lemma same_core_policy key : respects same_core (get_policy_num key).
Proof.
  unfold get_policy_num, get_policy. apply respects_bind; [apply _|apply respects_bind; [apply _|done|]|].
  - by intros [].
  - by intros [].
Qed.
Lemma same_core_manual payload user now : respects same_core (manual_code_room payload user now).
Proof.
  unfold manual_code_room. apply respects_bind; [apply _|apply same_core_policy|]. intros limit.
  apply respects_bind; [apply _| |].
  { apply respects_bind; [apply _| |].
    - unfold cache_get_or_set. apply respects_bind; [apply _|done|]. intros [j|]; [done|].
      apply respects_bind; [apply _|done|]. done.
    - by intros []. }
  intros count. destruct (limit <=? count).
  - apply respects_bind; [apply _|apply same_core_logging, logging_audit|done].
  - apply respects_bind; [apply _| |intros _; apply respects_bind; [apply _|done|]].
    + unfold cache_incr. apply respects_bind; [apply _|done|]. by intros [[]|].
    + intros room. apply respects_bind; [apply _| |done].
      apply same_core_logging, logging_when, logging_audit.
Qed.
Lemma same_core_payload payload user now : respects same_core (room_from_payload payload user now).
Proof.
  unfold room_from_payload.
  assert (∀ p, respects same_core (if PyStr.six_digits p then manual_code_room p user now
    else mret (None, inl "bad-payload"%string))) as Hm.
  { intros p. destruct (PyStr.six_digits p); [apply same_core_manual|done]. }
  destruct (if PyStr.contains _ _ then _ else _) as [tok|]; [|done].
  case_bool_decide; [done|]. by apply respects_bind; [apply _| |].
Qed.
Lemma wp_respects {A} R (m : M A) (Q : exn + A → DB → Prop) db :
  respects R m → (∀ r db', R db db' → Q r db') → wp m Q db.
Proof. intros Hm HQ. unfold wp. apply HQ, Hm. Qed.

Section scoped_scan.
Context (user : User) (room : Room) (method : CheckinMethod) (now : Z).
Let u : Z := usr_pk user.

Lemma scoped_save db (s : Session) f :
  pk_unique (db_sessions db) → s ∈ db_sessions db →
  ses_faculty s = u → own_step u s (f s) →
  wp (save (R:=Session) (ses_pk s) f) (λ _ db', scoped u db db') db.
Proof.
  intros Hu Hin Hs Hf. apply wp_save; intros _; [|done]. simpl.
  eapply scoped_update; [done|]. intros x Hx Hp. b2p.
  assert (x = s) as -> by by apply (pk_inj (db_sessions db)). done.
Qed.
Lemma scoped_logging db0 db (m : M unit) :
  scoped u db0 db → logging m →
  wp m (λ r db', match r with inl _ => True | inr _ => True end ∧ scoped u db0 db') db.
Proof.
  intros Hs Hm. apply wp_logging; [done|]. intros db' (A & N & ->). split; [done|].
  etransitivity; [exact Hs|]. by apply scoped_same.
Qed.

(** The body of the outcomes a scan applies directly. *)
Lemma apply_scoped db t s r :
  pk_unique (db_sessions db) → s ∈ db_sessions db → ses_faculty s = u →
  (outcome r = CHECKED_IN → ses_status s = SCHEDULED) →
  (outcome r = CHECKED_OUT → ses_status s = ACTIVE) → needs_confirm r = false →
  wp (apply_to_session user r t s room method "" now) (λ _ db', scoped u db db') db.
Proof.
  intros Hu Hin Hfac Hci Hco Hnc. unfold apply_to_session.
  assert (∀ f, own_step u s (f s) → wp (save (R:=Session) (ses_pk s) f)
            (λ r db', scoped u db db') db) as Hsave by (intros; by apply scoped_save).
  destruct (outcome r) eqn:Ho.
  - wp_step. wp_step. wp_step. eapply wp_mono; [apply Hsave|].
    { split_and!; try done. simpl. rewrite Hci by done. apply rtc_once, t_start. }
    intros [e|[]] db1 H1; [done|]. wp_step. eapply wp_mono; [apply scoped_logging;
      [exact H1|apply logging_audit]|]. intros [e|[]] db2 [_ H2]; [done|].
    eapply wp_mono; [apply (fill_siblings_scoped u)|].
    + by eapply scoped_pk_unique.
    + intros a Ha. destruct (scoped_by_pk _ _ _ _ _ H2 Ha) as (a0 & Ha0 & _ & Hf & _).
      rewrite Hf. simpl in Ha0. rewrite (by_pk_unique _ (ses_pk s) s Hu Hin eq_refl) in Ha0.
      congruence.
    + intros x Hx Hst. split_and!; try done. rewrite Hst. apply rtc_once, t_start.
    + intros [e|ids] db3 H3; [done|]. wp_step. by etransitivity.
  - wp_step. eapply wp_mono; [apply Hsave|].
    { split_and!; try done. simpl. rewrite Hco by done. apply rtc_once, t_complete. }
    intros [e|[]] db1 H1; [done|]. wp_step. eapply wp_mono; [apply scoped_logging;
      [exact H1|apply logging_audit]|]. by intros [e|[]] db2 [_ H2].
  - destruct (has_status SCHEDULED s) eqn:Est; [|by wp_step].
    unfold has_status in Est. b2p. wp_step. eapply wp_mono; [apply Hsave|].
    { split_and!; try done. simpl. rewrite Est. apply rtc_once, t_absent. }
    intros [e|[]] db1 H1; [done|]. wp_step. eapply wp_mono; [apply scoped_logging;
      [exact H1|apply logging_audit]|]. by intros [e|[]] db2 [_ H2].
  - by wp_step.
  - unfold needs_confirm, CONFIRM_OUTCOMES in Hnc. rewrite Ho in Hnc. b2p. set_solver.
  - unfold needs_confirm, CONFIRM_OUTCOMES in Hnc. rewrite Ho in Hnc. b2p. set_solver.
  - unfold needs_confirm, CONFIRM_OUTCOMES in Hnc. rewrite Ho in Hnc. b2p. set_solver.
  - by wp_step.
  - by wp_step.
Qed.
End scoped_scan.

Lemma apply_resolved_scoped user db dbx ss room_id occ now g e l room method :
  let r := resolve_faculty_scan dbx ss room_id occ now g e l in
  pk_unique (db_sessions db) →
  (∀ s, s ∈ ss → s ∈ db_sessions db ∧ ses_faculty s = usr_pk user) →
  needs_confirm r = false →
  wp (apply user r room method "" now) (λ _ db', scoped (usr_pk user) db db') db.
Proof.
  intros r Hu Hss Hnc. unfold apply. wp_step. apply wp_get_active_term; [intros t Ht|intros Ht|done].
  - destruct (truthy_id (session_id r)) eqn:Etr; [|case_bool_decide; by wp_step].
    wp_step. unfold find_in_term. wp_step.
    destruct (List.find _ _) as [s|] eqn:Ef; [|by wp_step]. apply find_elem in Ef as [Hs Hp].
    b2p. destruct Hp as [Hid _]. wp_step.
    destruct (resolution_session dbx ss room_id occ now g e l _ Hid) as (s' & Hs' & Hk & Hci & Hco).
    destruct (Hss _ Hs') as [Hin Hfac].
    assert (s' = s) as -> by by apply (pk_inj (db_sessions db)).
    eapply wp_mono; [by apply (apply_scoped user room method now db t s r)|].
    intros [er|s'] db' H; [done|]. by wp_step.
  - destruct (truthy_id (session_id r)); [by wp_step|case_bool_decide; by wp_step].
Qed.

(** C18: scanning a room only moves the scanning user's own sessions, and only along
    the lifecycle: scheduled to active or absent, active to completed.  Every
    other faculty's session is untouched, for every payload, room and instant. *)
Theorem resolve_own_steps dumps user payload now db :
  pk_unique (db_sessions db) →
  wp (resolve dumps user payload now) (λ _ db', scoped (usr_pk user) db db') db.
Proof.
  intros Hu. unfold resolve. wp_step. apply (wp_respects same_core); [apply same_core_payload|].
  intros r db1 (Hs1 & _ & _). assert (scoped (usr_pk user) db db1) as H1 by by apply scoped_same.
  destruct r as [er|[[room|] [er|m]]]; [done|by wp_step| |by wp_step|by wp_step].
  destruct (room_out_of_service room); [by wp_step|].
  wp_step. apply wp_get_active_term; [intros t _|intros _; by wp_step|done].
  do 4 wp_step. wp_step. apply wp_policy_num; [intros g _|done].
  wp_step. apply wp_policy_num; [intros e _|done]. do 3 wp_step. unfold act_on.
  destruct (needs_confirm _) eqn:Hnc; [by wp_step; wp_step|].
  destruct (session_id _) as [k|]; [|by wp_step; wp_step].
  wp_step. unfold cache_get. wp_step.
  assert (∀ cx key v, wp (apply user (resolve_faculty_scan db1
    (sessions_of_day db1 t (usr_pk user) (PyTime.local_date now)) (room_pk room)
    (occupying db1 t (usr_pk user) (room_pk room)) now g e 15) room m "" now ≫= λ ctx,
      cache_set key v 120 now ≫= λ _, mret ctx)
    (λ r db', match r with
      | inl _ => scoped (usr_pk user) db db'
      | inr c => wp (mret (Rendered (cx c))) (λ _ db'', scoped (usr_pk user) db db'') db' end) db1)
    as Happ.
  { intros cx key v. wp_step. eapply wp_mono; [apply apply_resolved_scoped; [by rewrite Hs1| |done]|].
    - intros s. unfold sessions_of_day. rewrite elem_of_sort_by, elem_of_select. b2p. tauto.
    - intros [er|c] db2 H2; [by etransitivity|]. wp_step. unfold cache_set. repeat wp_step.
      etransitivity; [exact H1|]. etransitivity; [exact H2|]. by apply scoped_same. }
  specialize (Happ id). unfold id in Happ.
  destruct (ce_value <$> _) as [[]|]; try apply Happ.
  case_bool_decide; [|apply Happ]. wp_step. unfold find_in_term. by repeat wp_step.
Qed.

(** ** The manual-code rate limit *)
Definition not_limited (r : option Room * (string + CheckinMethod)) : bool :=
  match r.2 with inl e => negb (bool_decide (e = "rate-limited"%string)) | inr _ => true end.
(** A run of manual-code attempts by one user, counting those that were looked up. *)
Definition attempts (user : Z) (codes : list (string * Z)) : M Z :=
  fold_m (λ n c, room_from_payload c.1 user c.2 ≫= λ r,
                 mret (if not_limited r then n + 1 else n)) 0 codes.

Section rate_limit.
Context (user minute : Z).
Definition in_minute (t : Z) : Prop := t / PyTime.usec_minute = minute.
Let key : string := rate_key user (minute * PyTime.usec_minute).
Lemma rate_key_minute t : in_minute t → rate_key user t = key.
Proof.
  intros Ht. unfold key, rate_key. do 3 f_equal. apply minute_key_same. unfold in_minute in Ht.
  by rewrite Z.div_mul by done.
Qed.

Definition entries (db : DB) : list CacheEntry :=
  select (λ e, bool_decide (ce_key e = key)) (db_cache db).
(** The user has made [c] attempts this minute. *)
Definition counter (c : Z) (db : DB) : Prop :=
  ∃ e, entries db = [e] ∧ ce_value e = JInt c ∧ ∀ t, in_minute t → t < ce_expires e.
Definition no_counter (db : DB) : Prop :=
  ∀ t e, in_minute t → e ∈ entries db → ce_expires e ≤ t.

Lemma live_find db t :
  in_minute t → List.find (cache_live t (rate_key user t)) (db_cache db) =
                head (select (λ e, t <? ce_expires e) (entries db)).
Proof.
  intros Ht. rewrite rate_key_minute by done. unfold entries. by rewrite find_select, select_select.
Qed.
Lemma counter_find c db t :
  counter c db → in_minute t →
  ce_value <$> List.find (cache_live t (rate_key user t)) (db_cache db) = Some (JInt c).
Proof.
  intros (e & He & Hv & Hexp) Ht. rewrite live_find, He by done. simpl.
  rewrite (proj2 (Z.ltb_lt _ _)) by auto. simpl. by rewrite Hv.
Qed.
Lemma no_counter_find db t :
  no_counter db → in_minute t →
  ce_value <$> List.find (cache_live t (rate_key user t)) (db_cache db) = None.
Proof.
  intros Hn Ht. rewrite live_find by done. rewrite (proj2 (select_nil _ _)); [done|].
  intros e He. apply Z.ltb_ge. by apply Hn.
Qed.
Lemma minute_window t t' : in_minute t → in_minute t' → t' < t + 90 * PyTime.usec_second.
Proof.
  unfold in_minute. intros H1 H2.
  pose proof (Z.div_mod t PyTime.usec_minute ltac:(done)).
  pose proof (Z.div_mod t' PyTime.usec_minute ltac:(done)).
  pose proof (Z.mod_pos_bound t PyTime.usec_minute ltac:(done)).
  pose proof (Z.mod_pos_bound t' PyTime.usec_minute ltac:(done)).
  unfold PyTime.usec_minute in *. assert (0 < PyTime.usec_second) by done. lia.
Qed.

(** The database of an attempt after [cache.get_or_set]: a counter. *)
Lemma get_or_set_wp c db t :
  in_minute t → counter c db ∨ (c = 0 ∧ no_counter db) →
  wp (cache_get_or_set (rate_key user t) (JInt 0) 90 t) (λ r db',
    r = inr (JInt c) ∧ counter c db' ∧ db_settings db' = db_settings db) db.
Proof.
  intros Ht Hc. unfold cache_get_or_set, cache_get. wp_step. wp_step.
  destruct Hc as [Hc|[-> Hn]].
  - rewrite (counter_find c) by done. by wp_step.
  - rewrite no_counter_find by done. wp_step. unfold cache_set. wp_step. wp_step.
    split_and!; [done| |done]. rewrite rate_key_minute by done. eexists. split_and!.
    + unfold entries. simpl. rewrite bool_decide_true by done. f_equal.
      rewrite select_select. apply select_nil. intros e _. by destruct (bool_decide _).
    + done.
    + simpl. intros t' Ht'. by apply minute_window.
Qed.
Lemma incr_wp c db t (Q : exn + unit → DB → Prop) :
  in_minute t → counter c db →
  (∀ db', counter (c + 1) db' → db_settings db' = db_settings db → Q (inr ()) db') →
  wp (cache_incr (rate_key user t) t) Q db.
Proof.
  intros Ht Hc HQ. unfold cache_incr, cache_get. wp_step. wp_step.
  rewrite (counter_find c) by done. wp_step. apply HQ; [|done].
  destruct Hc as (e & He & Hv & Hexp). rewrite rate_key_minute by done.
  exists (e <| ce_value := JInt (c + 1) |>). split_and!; [|done|done].
  unfold entries in *. simpl. rewrite select_fmap.
  rewrite (select_ext _ (λ x, bool_decide (ce_key x = key))).
  2:{ intros x _. by destruct (cache_live t key x). }
  rewrite He. simpl. assert (e ∈ [e]) as Hin by left. rewrite <- He in Hin.
  apply elem_of_select in Hin as [_ Hk]. unfold cache_live. rewrite Hk.
  by rewrite (proj2 (Z.ltb_lt _ _)) by auto.
Qed.

Lemma six_digits_no_token p : PyStr.six_digits p = true → PyStr.contains "t=" p = false.
Proof.
  unfold PyStr.six_digits, PyStr.contains. intros H. b2p. destruct H as [_ H].
  rewrite forallb_forall in H. assert ("t"%char ∉ PyStr.to_list p) as Ht.
  { intros Hin. rewrite list_elem_of_In in Hin. specialize (H _ Hin). done. }
  clear H. change (PyStr.to_list "t=") with ["t"%char; "="%char].
  induction (PyStr.to_list p) as [|x l IH]; [done|]. simpl.
  apply not_elem_of_cons in Ht as [Hx Hl]. rewrite IH by done. rewrite orb_false_r.
  apply bool_decide_eq_false. intros [= Heq]. destruct l; simplify_eq.
Qed.

Lemma attempt_wp c db code t limit :
  in_minute t → PyStr.six_digits (PyStr.strip code) = true →
  policy_num db "manual_code_rate_limit_per_min" = Some limit →
  counter c db ∨ (c = 0 ∧ no_counter db) →
  wp (room_from_payload code user t) (λ r db',
    (∃ x, r = inr x ∧ not_limited x = (c <? limit)) ∧
    counter (if c <? limit then c + 1 else c) db' ∧ db_settings db' = db_settings db) db.
Proof.
  intros Ht Hcode Hlim Hc. unfold room_from_payload. rewrite six_digits_no_token, Hcode by done.
  unfold manual_code_room. wp_step. apply wp_policy_num; [|congruence].
  intros l Hl. assert (l = limit) as -> by congruence. wp_step. wp_step.
  eapply wp_mono; [by apply (get_or_set_wp c)|]. cbv beta. intros r db1 (-> & Hc1 & Hset).
  cbn [as_int]. wp_step. rewrite Z.leb_antisym. destruct (c <? limit); cbn [negb].
  - wp_step. apply (incr_wp c); [done|done|]. intros db2 Hc2 Hset2. do 3 wp_step.
    apply wp_logging; [apply logging_when, logging_audit|]. intros db3 (A & N & ->). wp_step.
    split; [by eexists|]. split; [exact Hc2|]. simpl. congruence.
  - wp_step. apply wp_logging; [apply logging_audit|]. intros db3 (A & N & ->). wp_step.
    split; [by eexists|]. split; [exact Hc1|]. simpl. congruence.
Qed.
End rate_limit.

(** Within one minute a user gets at most the policy's number of manual-code
    lookups, however many six-digit codes are tried: of [n] attempts exactly
    [min n limit] reach the room table and the others are refused. *)
Theorem manual_code_rate_limited user minute codes limit db :
  (∀ c, c ∈ codes → in_minute minute c.2 ∧ PyStr.six_digits (PyStr.strip c.1) = true) →
  policy_num db "manual_code_rate_limit_per_min" = Some limit → 0 ≤ limit →
  no_counter user minute db →
  run (attempts user codes) db = inr (Z.min (Z.of_nat (length codes)) limit).
Proof.
  intros Hcodes Hlim Hpos Hn.
  enough (wp (attempts user codes) (λ r _, match r with
    | inl _ => False | inr n => n = Z.min (Z.of_nat (length codes)) limit end) db) as H.
  { unfold wp, run in *. destruct (fst (attempts user codes db)); [done|by subst]. }
  eapply wp_mono; [apply (wp_fold_m _ _ _ (λ l n db', n = Z.min (Z.of_nat (length l)) limit ∧
    db_settings db' = db_settings db ∧
    (counter user minute n db' ∨ (n = 0 ∧ no_counter user minute db'))) (λ _ _, False))|].
  - split_and!; [simpl; lia|done|]. by right.
  - intros l c todo n db' Hl (Hnum & Hset & Hst).
    destruct (Hcodes c ltac:(rewrite Hl; set_solver)) as [Ht Hsix]. wp_step.
    eapply wp_mono; [eapply (attempt_wp user minute n)|]; try done.
    { unfold policy_num, policy_value in *. rewrite Hset. exact Hlim. }
    cbv beta. intros r db'' ((x & -> & Hx) & Hc & Hset'). wp_step. rewrite Hx, length_app.
    simpl. split_and!; [|congruence|].
    + destruct (Z.ltb_spec n limit); lia.
    + destruct (n <? limit); by left.
  - intros [e|n] db'; [done|]. by intros [-> _].
Qed.

(** ** Witnesses *)
Definition demo_faculty : User := demo_user 1 "Ana" FACULTY.
Definition demo_checkin : Resolution := mk_resolution CHECKED_IN (Some 1) None.
Lemma scan_check_in_witness :
  (∃ p, (∀ x, p x = true ↔
           sibling demo_merged (demo_session 1 monday SCHEDULED) 1 x ∧ ses_status x = SCHEDULED) ∧
    wp (apply demo_faculty demo_checkin (demo_room 1 "M-101") QR_SCAN "" (at_ 9 2)) (λ res db',
      (∃ ctx, res = inr ctx ∧
         ctx_session ctx = Some (check_in (at_ 9 2) QR_SCAN (demo_session 1 monday SCHEDULED))) ∧
      logs_only (demo_merged <| db_sessions := update_where p (fill_present (at_ 9 2))
        (update_pk 1 (check_in (at_ 9 2) QR_SCAN) (db_sessions demo_merged)) |>) db')
      demo_merged) ∧
  ses_status <$> db_sessions (exec (apply demo_faculty demo_checkin (demo_room 1 "M-101") QR_SCAN
    "" (at_ 9 2)) demo_merged) = [ACTIVE; SCHEDULED; ACTIVE].
Proof.
  split; [|vm_compute; reflexivity].
  apply (scan_check_in demo_merged demo_term (demo_session 1 monday SCHEDULED) demo_schedule);
    try reflexivity; [decide_now|decide_now|discriminate].
Defined.

(** A class cancelled between the prompt and the confirmation. *)
Definition demo_cancelled : DB := demo_db <| db_sessions := [demo_session 1 monday CANCELLED] |>.
Definition demo_token : ConfirmData := mk_confirm EARLY_END (Some 1) None 1 QR_SCAN 1.
Lemma confirm_ignores_status_witness :
  wp (confirm (λ _, Some demo_token) demo_faculty "token" "power cut" (at_ 9 30)) (λ res db',
    (∃ c, res = inr (Rendered c)) ∧
    db_sessions db' = update_pk 1 (end_early (at_ 9 30) "power cut") (db_sessions demo_cancelled))
    demo_cancelled ∧
  ses_status <$> update_pk 1 (end_early (at_ 9 30) "power cut") (db_sessions demo_cancelled)
    = [COMPLETED].
Proof.
  split; [|reflexivity].
  apply (confirm_ignores_status (λ _, Some demo_token) demo_cancelled demo_term
    (demo_session 1 monday CANCELLED) demo_faculty demo_token); try reflexivity;
    [decide_now|discriminate].
Defined.

Lemma resolve_own_steps_witness :
  wp (resolve (λ _, "signed"%string) demo_faculty "https://x.ph/scan?t=M-101" (at_ 9 2))
    (λ _ db', scoped 1 demo_merged db') demo_merged ∧
  ses_status <$> db_sessions (exec (resolve (λ _, "signed"%string) demo_faculty
    "https://x.ph/scan?t=M-101" (at_ 9 2)) demo_merged) = [ACTIVE; SCHEDULED; ACTIVE].
Proof.
  split; [|vm_compute; reflexivity]. apply resolve_own_steps. decide_now.
Defined.

Definition demo_codes : list (string * Z) :=
  (λ i, ("123456"%string, at_ 9 0 + i * PyTime.usec_second)) <$> [1; 2; 3; 4; 5; 6; 7].
Lemma manual_code_rate_limited_witness : run (attempts 1 demo_codes) demo_db = inr 5.
Proof.
  apply (manual_code_rate_limited 1 (at_ 9 0 / PyTime.usec_minute) demo_codes 5 demo_db).
  - intros c Hc. each_row Hc; split; vm_compute; reflexivity.
  - reflexivity.
  - lia.
  - intros t e _ He. by apply not_elem_of_nil in He.
Defined.
