(* ===== verification/Checker.v ===== *)
(** web/checker.py: the requests of a checker - scanning a room, recording a
    verification, replaying an offline queue, verifying online sessions.  A request
    reads the clock once.  The text of a posted field is "" when it is missing; a
    queue is the JSON value of the body. *)
From Stdlib Require Import Ascii.
From S2P Require Import Prelude Python Model Effects Ops Sample Web Resolvers Merge Scan.
Import CheckerScan.
Open Scope Z_scope.

(** ** Actions *)
Definition FLAG_ACTIONS : list ValidationAction := [FLAG_IDENTITY_MISMATCH; FLAG_NOT_PRESENT].
Definition VALID_ACTIONS : list ValidationAction :=
  [VERIFIED; FLAG_IDENTITY_MISMATCH; FLAG_NOT_PRESENT; VERIFIED_EMPTY].
(** The action a posted text names, if it is in [_VALID_ACTIONS]. *)
Definition action_of (v : string) : option ValidationAction :=
  List.find (λ a, bool_decide (action_str a = v)) VALID_ACTIONS.
(** [_OUTCOME_ACTIONS.get(outcome, set())] *)
Definition OUTCOME_ACTIONS (o : Outcome) : list ValidationAction :=
  match o with
  | NO_SESSION => [VERIFIED_EMPTY]
  | ACTIVE_UNVERIFIED => [VERIFIED; FLAG_IDENTITY_MISMATCH; FLAG_NOT_PRESENT]
  | _ => []
  end.
Definition is_flag (a : ValidationAction) : bool := bool_decide (a ∈ FLAG_ACTIONS).
Definition blank (note : string) : bool := bool_decide (PyStr.strip note = ""%string).
Definition identity_of (a : ValidationAction) : option bool :=
  match a with
  | FLAG_IDENTITY_MISMATCH => Some false
  | VERIFIED => Some true
  | _ => None
  end.

(** ** Authorization *)
Definition checker_required {A} (user : User) (view : M A) : M A := gated CHECKER user view.

(** ** On-duty state *)
Definition duty_posting (user : Z) (scope : AssignmentScope) (t : AcademicTerm) (now : Z)
    (a : Assignment) : bool :=
  (asg_user a =? user) && bool_decide (asg_role a = DUTY_CHECKER)
  && bool_decide (asg_scope a = scope) && bool_decide (asg_status a = "active"%string)
  && bool_decide (asg_term a = Some (term_pk t))
  && assignment_covers_now a (PyTime.local_date now) (PyTime.local_time now).
(** The floors as the members of a set. *)
Definition active_floor_ids (user now : Z) : M (list Z) :=
  get_active_term ≫= λ active_term,
  match active_term with
  | None => mret []
  | Some t =>
      objects (duty_posting user FLOOR_SCOPE t now) ≫= λ assignments,
      mret (remove_dups (concat (asg_floors <$> assignments)))
  end.
Definition is_online_on_duty (user now : Z) : M bool :=
  get_active_term ≫= λ active_term,
  match active_term with
  | None => mret false
  | Some t => exists_where (duty_posting user ONLINE_SCOPE t now)
  end.

(** The effective-online session of the id, owned by the user. *)
Definition online_session (session_id : string) (user : Z) : M (option Session) :=
  if negb (PyStr.isdigit session_id) then mret None
  else
    get_active_term ≫= λ active_term,
    match active_term with
    | None => mret None
    | Some t =>
        find_in_term t (PyStr.int session_id) ≫= λ session,
        match session with
        | None => mret None
        | Some s =>
            read (λ db, effective_online db s) ≫= λ online : bool,
            mret (if online && bool_decide (ses_online_checker s = Some user)
                  then Some s else None)
        end
    end.

(** ** Rooms and their sessions *)
Definition minute_count (key : string) (now : Z) : M Z :=
  cache_get_or_set key (JInt 0) 90 now ≫= as_int.
Definition checker_manual_code_room (payload : string) (user now : Z)
    : M (option Room * (string + CheckinMethod)) :=
  let key := "checker-rl:" +:+ PyStr.str user +:+ ":" +:+ PyTime.minute_key now in
  get_policy_num "manual_code_rate_limit_per_min" ≫= λ limit,
  minute_count key now ≫= λ count,
  if limit <=? count then
    audit (Some user) "checker.rate_limited" "" "" (JObj [("attempts", JInt (count + 1))]%string)
    ≫= λ _, mret (None, inl "rate-limited"%string)
  else
    cache_incr key now ≫= λ _,
    first (λ r, bool_decide (room_manual_code r = payload)) ≫= λ room,
    when (is_none room) (audit (Some user) "checker.bad_manual_code" "" "" (JObj [])) ≫= λ _,
    mret (room, inr MANUAL_CODE).
Definition checker_room_from_payload (payload : string) (user now : Z)
    : M (option Room * (string + CheckinMethod)) :=
  let payload := PyStr.strip payload in
  let token :=
    if PyStr.contains "t=" payload
    then default ""%string (PyUrl.parse_qs_first "t" (PyUrl.query payload)) else ""%string in
  if negb (bool_decide (token = ""%string)) then
    first (λ r, bool_decide (room_qr_token r = token)) ≫= λ room, mret (room, inr QR_SCAN)
  else if PyStr.six_digits payload then checker_manual_code_room payload user now
  else mret (None, inl "bad-payload"%string).

Definition room_from_replay_token (token : string) : M (option Room) :=
  let token := PyStr.strip token in
  if bool_decide (token = ""%string) then mret None
  else
    first (λ r, bool_decide (room_qr_token r = token)) ≫= λ room,
    if is_none room && PyStr.six_digits token
    then first (λ r, bool_decide (room_manual_code r = token)) else mret room.

Definition replay_key (user now : Z) : string :=
  "checker-replay-rl:" +:+ PyStr.str user +:+ ":" +:+ PyTime.minute_key now.
Definition replay_manual_code_allowed (user now : Z) : M bool :=
  let key := replay_key user now in
  get_policy_num "manual_code_rate_limit_per_min" ≫= λ limit,
  minute_count key now ≫= λ count,
  if limit <=? count then mret false
  else cache_incr key now ≫= λ _, mret true.

(** The session a scan of the room finds now. *)
Definition current_session (db : DB) (t : AcademicTerm) (room : Room) (now : Z)
    : option Session :=
  let sessions := sort_by by_start
    (select (λ s, (ses_room s =? room_pk room) && (ses_date s =? PyTime.local_date now)
                  && in_term db (term_pk t) s && negb (has_status COMPLETED s))
            (db_sessions db)) in
  let session := match List.find (has_status ACTIVE) sessions with
    | Some s => Some s
    | None => List.find (λ s, (ses_sched_start s <=? now) && (now <=? ses_sched_end s)) sessions
    end in
  match session with
  | Some s => if effective_online db s then None else Some s
  | None => None
  end.
Definition room_session_state (room : Room) (now : Z) : M (option (Session * SessionState)) :=
  get_active_term ≫= λ active_term,
  match active_term with
  | None => mret None
  | Some t =>
      read (λ db, current_session db t room now) ≫= λ session,
      match session with
      | None => mret None
      | Some s =>
          read (λ db, verified_by_checker db s) ≫= λ verified,
          mret (Some (s, mk_state (ses_pk s) (ses_status s) verified))
      end
  end.
Definition room_session_at_scan (room : Room) (scanned_at : Z) : M (option Session) :=
  get_active_term ≫= λ active_term,
  match active_term with
  | None => mret None
  | Some t =>
      read (λ db, List.find (λ s, negb (effective_online db s)) (sort_by by_start
        (select (λ s, (ses_room s =? room_pk room) && (ses_date s =? PyTime.local_date scanned_at)
                      && in_term db (term_pk t) s && (ses_sched_start s <=? scanned_at)
                      && (scanned_at <=? ses_sched_end s)) (db_sessions db))))
  end.

(** ** _apply_action *)
Definition check_in_online (at_ : Z) (s : Session) : Session :=
  s <| ses_status := ACTIVE |> <| ses_actual_start := Some at_ |>
    <| ses_method := Some ONLINE_MANUAL |>.
Definition mark_absent (s : Session) : Session := s <| ses_status := ABSENT |>.
(** The status change of an online action. *)
Definition online_effect (user : Z) (a : ValidationAction) (s : Session) (at_ now : Z) : M unit :=
  match a with
  | VERIFIED =>
      atomic (
        save (ses_pk s) (check_in_online at_) ≫= λ _,
        propagate_merged_present (check_in_online at_ s) at_ (Some user) ≫= λ _, mret ())
  | FLAG_NOT_PRESENT =>
      atomic (
        save (ses_pk s) mark_absent ≫= λ _,
        propagate_merged_absent (mark_absent s) (Some user) now ≫= λ _, mret ())
  | _ => mret ()
  end.
Definition apply_action (user : User) (session : option Session) (room : Room)
    (action : ValidationAction) (note : string) (identity_match : option bool)
    (scanned_at : option Z) (offline online : bool) (now : Z) : M CheckerValidation :=
  create (λ k, {| val_pk := k; val_session := ses_pk <$> session; val_room := room_pk room;
                  val_checker := usr_pk user; val_action := action;
                  val_identity_match := identity_match; val_note := note;
                  val_scanned_at := scanned_at; val_offline := offline |}) ≫= λ cv,
  audit (Some (usr_pk user)) ("checker." +:+ action_str action) "session"
    (match session with Some s => PyStr.str (ses_pk s) | None => "" end)
    (JObj [("room", JStr (room_code room)); ("offline", JBool offline);
           ("online", JBool online)]%string) ≫= λ _,
  match session with
  | Some s =>
      when online (online_effect (usr_pk user) action s (default now scanned_at) now)
  | None => mret ()
  end ≫= λ _,
  when (is_flag action) (
    notify [] (Some IFO_ADMIN) "checker_flag" "Checker flag"
      (room_code room +:+ ": " +:+ action_str action +:+ " by " +:+ display_name user +:+ ". "
       +:+ note) "" ≫= λ _,
    notify [] (Some HR_ADMIN) "checker_flag" "Checker flag"
      (room_code room +:+ ": " +:+ action_str action +:+ ". " +:+ note) "") ≫= λ _,
  mret cv.

(** ** The views *)

(** The context of the rendered outcome.  [_OnlineRefusal] is a resolution, its
    outcomes not being actionable. *)
Record Reply := mk_reply {
  rp_error : string;
  rp_resolution : option CheckerResolution;
  rp_room : option Room;
  rp_session : option Session;
  rp_applied : option ValidationAction
}.
Definition error_reply (e : string) : Reply := mk_reply e None None None None.

Definition checker_resolve (user : User) (payload : string) (now : Z) : M Reply :=
  checker_required user (
  checker_room_from_payload payload (usr_pk user) now ≫= λ rm,
  match rm with
  | (None, inl e) => mret (error_reply e)
  | (None, inr m) => mret (error_reply (method_str m))
  | (Some room, _) =>
      room_session_state room now ≫= λ current,
      active_floor_ids (usr_pk user) now ≫= λ floors,
      mret (mk_reply "" (Some (resolve_checker_scan floors (room_floor room) (snd <$> current)))
              (Some room) (fst <$> current) None)
  end).

Definition action_idem (user scope_pk now : Z) (a : ValidationAction) : string :=
  "checker-idem:" +:+ PyStr.str user +:+ ":" +:+ PyStr.str scope_pk +:+ ":" +:+ action_str a
  +:+ ":" +:+ PyTime.minute_key now.
Definition refuse_action (user : User) (ttype tid : string) (payload : dict string json)
    : M unit :=
  audit (Some (usr_pk user)) "checker.action_refused" ttype tid (JObj payload).

Definition online_action (user : User) (session_id : string) (a : ValidationAction)
    (note : string) (now : Z) : M Reply :=
  online_session session_id (usr_pk user) ≫= λ session,
  is_online_on_duty (usr_pk user) now ≫= λ on_duty : bool,
  match session with
  | None => mret (mk_reply "" (Some (mk_checker_resolution OFF_DUTY None)) None None None)
  | Some s =>
      let is_actionable := negb (bool_decide (ses_status s ∈ [ABSENT; COMPLETED])) in
      if negb on_duty || negb is_actionable then
        let outcome := if negb is_actionable then ABSENT_EXCLUDED else OFF_DUTY in
        refuse_action user "session" (PyStr.str (ses_pk s))
          [("outcome", JStr (outcome_str outcome)); ("action", JStr (action_str a));
           ("online", JBool true)]%string ≫= λ _,
        mret (mk_reply "" (Some (mk_checker_resolution outcome None)) None (Some s) None)
      else if negb (bool_decide (a ∈ [VERIFIED; FLAG_NOT_PRESENT]))
      then mret (error_reply "bad-payload")
      else if bool_decide (a = FLAG_NOT_PRESENT) && blank note
      then mret (mk_reply "note-required" None None (Some s) None)
      else
        get_pk (R:=Room) (ses_room s) ≫= λ room,
        cache_add (action_idem (usr_pk user) (ses_pk s) now a) (JBool true) 120 now
        ≫= λ added : bool,
        (if added
         then apply_action user (Some s) room a note
                (if bool_decide (a = VERIFIED) then Some true else None) (Some now) false true now
              ≫= λ _, mret ()
         else mret ()) ≫= λ _,
        mret (mk_reply "" None (Some room) (Some s) (Some a))
  end.

Definition room_action (user : User) (room : Room) (a : ValidationAction) (note : string)
    (now : Z) : M Reply :=
  room_session_state room now ≫= λ current,
  active_floor_ids (usr_pk user) now ≫= λ floors,
  let session := fst <$> current in
  let r := resolve_checker_scan floors (room_floor room) (snd <$> current) in
  if negb (actionable r) || negb (bool_decide (a ∈ OUTCOME_ACTIONS (c_outcome r))) then
    refuse_action user "room" (PyStr.str (room_pk room))
      [("outcome", JStr (outcome_str (c_outcome r))); ("action", JStr (action_str a))]%string
    ≫= λ _, mret (mk_reply "" (Some r) (Some room) session None)
  else if is_flag a && blank note
  then mret (mk_reply "note-required" (Some r) (Some room) session None)
  else
    let scope_pk := match session with Some s => ses_pk s | None => room_pk room end in
    cache_add (action_idem (usr_pk user) scope_pk now a) (JBool true) 120 now ≫= λ added : bool,
    (if added
     then apply_action user session room a note (identity_of a) (Some now) false false now
          ≫= λ _, mret ()
     else mret ()) ≫= λ _,
    mret (mk_reply "" (Some r) (Some room) session (Some a)).

Definition action (user : User) (action_val room_id session_id note : string) (now : Z)
    : M Reply :=
  checker_required user
  match action_of action_val with
  | None => mret (error_reply "bad-payload")
  | Some a =>
      if bool_decide (room_id = ""%string) && negb (bool_decide (session_id = ""%string))
      then online_action user session_id a note now
      else if negb (PyStr.isdigit room_id) then mret (error_reply "bad-payload")
      else
        first (λ r, bool_decide (PyStr.int room_id = Some (room_pk r))) ≫= λ room,
        match room with
        | None => mret (error_reply "bad-payload")
        | Some room => room_action user room a note now
        end
  end.

(** ** Offline replay *)

(** A queued item is whatever JSON value the client sent. *)
Abbreviation QueueItem := json (only parsing).
(** [item.get(key)] of an object *)
Definition item_field (d : dict string json) (key : string) : json := dict_getd d key JNull.
(** One entry of the results; "uuid" is "" for a malformed one. *)
Record ReplayResult := mk_replay_result {
  rr_uuid : string;
  rr_status : string;
  rr_reason : option string
}.

Definition receipt_exists (uuid : Z) : M bool := exists_where (λ r, rcp_uuid r =? uuid).
(** The insertion fails on the unique key. *)
Definition create_receipt (user uuid : Z) (status reason : string) : M CheckerReplayReceipt :=
  receipt_exists uuid ≫= λ dup : bool,
  if dup then raise IntegrityError
  else create (λ k, {| rcp_pk := k; rcp_uuid := uuid; rcp_checker := user; rcp_status := status;
                       rcp_reason := reason |}).
Definition claim_replay_receipt (user uuid : Z) (status reason : string) : M bool :=
  try_with (atomic (create_receipt user uuid status reason) ≫= λ _, mret true)
    (λ e, match e with IntegrityError => Some (mret false) | _ => None end).

Section replay.
(** django.utils.dateparse.parse_datetime: [None] when the text has not the form of
    a datetime, [ValueError] when it has but is not one.  A naive datetime is read
    in the current time zone.  [repr] is the text Python gives a list or an object. *)
Context (parse_datetime : string → exn + option Z) (repr : json → string).

(** [str(v)], and [str(v or "")] *)
Definition json_str (v : json) : string :=
  match v with
  | JNull => "None" | JBool b => if b then "True" else "False" | JInt n => PyStr.str n
  | JFloat s | JStr s => s | JList _ | JObj _ => repr v
  end.
Definition or_text (v : json) : string := if truthy v then json_str v else "".
(** [parse_datetime(v or "") or now]; only a text can be parsed. *)
Definition scanned_instant (v : json) (now : Z) : M Z :=
  let text := if truthy v then match v with JStr s => Some s | _ => None end else Some ""%string in
  match text with
  | None => raise TypeErr
  | Some s => match parse_datetime s with inl e => raise e | inr o => mret (default now o) end
  end.
(** A claimed session is unset, or what [str] prints as digits. *)
Definition unset (v : json) : bool :=
  match v with JNull => true | JStr s => bool_decide (s = ""%string) | _ => false end.
Definition claimed_valid (v : json) : bool := unset v || PyStr.isdigit (json_str v).
Definition json_int (v : json) : M Z :=
  match v with JInt n => mret n | JStr s => mret (digits s) | _ => raise TypeErr end.
(** [v in _VALID_ACTIONS], a set: a list or an object cannot be a member. *)
Definition action_in (v : json) : exn + option ValidationAction :=
  match v with
  | JStr s => inr (action_of s)
  | JList _ | JObj _ => inl TypeErr
  | _ => inr None
  end.
(** [not (v or "").strip()]: only a text has [strip]. *)
Definition note_blank (v : json) : exn + bool :=
  if truthy v then match v with JStr s => inr (blank s) | _ => inl AttributeErr end else inr true.

(** The session the item is about now, with the reason to flag it or the action
    to apply. *)
Definition expected_session (room : Room) (claimed : json) (scanned_at : Z)
    : M (option Z) :=
  if unset claimed
  then room_session_at_scan room scanned_at ≫= λ historical, mret (ses_pk <$> historical)
  else Some <$> json_int claimed.
Definition item_verdict (r : CheckerResolution) (action note : json)
    : exn + (string + ValidationAction) :=
  if negb (actionable r) then inr (inl (outcome_str (c_outcome r)))
  else match action_in action with
  | inl e => inl e
  | inr None => inr (inl "bad-payload"%string)
  | inr (Some a) =>
      if negb (bool_decide (a ∈ OUTCOME_ACTIONS (c_outcome r)))
      then inr (inl "action-incongruent"%string)
      else if is_flag a then
        match note_blank note with
        | inl e => inl e
        | inr b => inr (if b then inl "note-required"%string else inr a)
        end
      else inr (inr a)
  end.
Definition replay_check (user : User) (room : Room) (item : dict string json) (scanned_at now : Z)
    : M (option Session * (string + ValidationAction)) :=
  room_session_state room now ≫= λ current,
  active_floor_ids (usr_pk user) now ≫= λ floors,
  let session := fst <$> current in
  let r := resolve_checker_scan floors (room_floor room) (snd <$> current) in
  let claimed := item_field item "session_id" in
  if negb (claimed_valid claimed) then mret (session, inl "bad-payload"%string)
  else
    expected_session room claimed scanned_at ≫= λ expected,
    if negb (bool_decide (expected = ses_pk <$> session))
    then mret (session, inl "session-changed"%string)
    else
      match item_verdict r (dict_getd item "action"%string (JStr "")) (item_field item "note") with
      | inl e => raise e
      | inr v => mret (session, v)
      end.

Definition replay_limited (user uuid : Z) : M bool :=
  atomic (
    claim_replay_receipt user uuid "flagged" "rate-limited" ≫= λ claimed : bool,
    when claimed (audit (Some user) "checker.rate_limited" "session" ""
      (JObj [("uuid", JStr (PyUuid.str uuid)); ("context", JStr "replay")]%string)) ≫= λ _,
    mret claimed).
Definition replay_apply (user : User) (uuid : Z) (session : option Session) (room : Room)
    (a : ValidationAction) (note : string) (scanned_at now : Z) : M bool :=
  atomic (
    claim_replay_receipt (usr_pk user) uuid "applied" "" ≫= λ claimed : bool,
    when claimed (apply_action user session room a note (identity_of a) (Some scanned_at)
                    true false now ≫= λ _, mret ()) ≫= λ _,
    mret claimed).
Definition replay_flag (user uuid : Z) (session : option Session) (room : option Room)
    (action : json) (reason : string) : M bool :=
  atomic (
    claim_replay_receipt user uuid "flagged" reason ≫= λ claimed : bool,
    when claimed (
      audit (Some user) "checker.replay_conflict" "session"
        (match session with Some s => PyStr.str (ses_pk s) | None => "" end)
        (JObj [("outcome", JStr reason); ("uuid", JStr (PyUuid.str uuid));
               ("action", action)]%string) ≫= λ _,
      notify [] (Some IFO_ADMIN) "checker_replay_conflict" "Offline scan needs review"
        ("A queued checker scan for "
         +:+ match room with Some r => room_code r | None => "an unknown room" end
         +:+ " no longer applies (" +:+ reason +:+ "); please resolve.") "") ≫= λ _,
    mret claimed).
Definition claimed_result (uuid : Z) (claimed : bool) (status : string) (reason : option string)
    : ReplayResult :=
  if claimed then mk_replay_result (PyUuid.str uuid) status reason
  else mk_replay_result (PyUuid.str uuid) "duplicate" None.

Definition replay_item (user : User) (now : Z) (item : QueueItem) : M ReplayResult :=
  match item with
  | JObj item =>
      match PyUuid.UUID (or_text (item_field item "client_uuid")) with
      | None => mret (mk_replay_result "" "flagged" (Some "bad-payload"%string))
      | Some uuid =>
          receipt_exists uuid ≫= λ seen : bool,
          if seen then mret (mk_replay_result (PyUuid.str uuid) "duplicate" None)
          else
            let token := PyStr.strip (or_text (item_field item "token")) in
            (if PyStr.six_digits token
             then negb <$> replay_manual_code_allowed (usr_pk user) now else mret false)
            ≫= λ limited : bool,
            if limited then
              replay_limited (usr_pk user) uuid ≫= λ claimed,
              mret (claimed_result uuid claimed "flagged" (Some "rate-limited"%string))
            else
              room_from_replay_token token ≫= λ room,
              scanned_instant (item_field item "scanned_at") now ≫= λ scanned_at,
              match room with
              | None => mret (None, inl "bad-room"%string)
              | Some r => replay_check user r item scanned_at now
              end ≫= λ verdict,
              match verdict, room with
              | (session, inr a), Some r =>
                  replay_apply user uuid session r a (or_text (item_field item "note")) scanned_at now
                  ≫= λ claimed, mret (claimed_result uuid claimed "applied" None)
              | (session, inl reason), _ =>
                  replay_flag (usr_pk user) uuid session room
                    (dict_getd item "action"%string (JStr "")) reason ≫= λ claimed,
                  mret (claimed_result uuid claimed "flagged" (Some reason))
              | (_, inr _), None => raise TypeErr
              end
      end
  | _ => raise AttributeErr
  end.
Definition replay_items (user : User) (now : Z) (items : list QueueItem) : M (list ReplayResult) :=
  fold_m (λ results item, replay_item user now item ≫= λ res, mret (results ++ [res])) [] items.
(** [list(payload.get("items") or [])]: a text has its characters, an object its keys. *)
Definition queued (payload : json) : exn + list QueueItem :=
  match payload with
  | JObj d =>
      let v := item_field d "items" in
      if truthy v then
        match v with
        | JList l => inr l
        | JObj l => inr (JStr <$> l.*1)
        | JStr s => inr ((λ c, JStr (String c "")) <$> PyStr.to_list s)
        | _ => inl TypeErr
        end
      else inr []
  | _ => inl AttributeErr
  end.
(** The body is [None] when it is not JSON, which is answered 400 with no results. *)
Definition replay (user : User) (body : option json) (now : Z) : M (option (list ReplayResult)) :=
  checker_required user
  match body with
  | None => mret None
  | Some payload =>
      match queued payload with
      | inl e => raise e
      | inr items => Some <$> replay_items user now items
      end
  end.
End replay.

(** ** What a checker is permitted *)
Section permission.
Context (db : DB) (t : AcademicTerm).
Context (Hact : select is_active_term (db_terms db) = [t]).

(** An active floor posting of the term that covers the instant. *)
Definition on_floor_duty (user floor now : Z) : Prop :=
  ∃ a, a ∈ db_assignments db ∧ asg_user a = user ∧ asg_role a = DUTY_CHECKER ∧
    asg_scope a = FLOOR_SCOPE ∧ asg_status a = "active"%string ∧ asg_term a = Some (term_pk t) ∧
    floor ∈ asg_floors a ∧
    assignment_covers_now a (PyTime.local_date now) (PyTime.local_time now) = true.
(** A room that holds no class, or one still scheduled, may only be recorded as empty;
    any other class that is neither absent nor verified, a cancelled one included, may
    be verified or flagged. *)
Definition congruent (a : ValidationAction) (current : option Session) : Prop :=
  match a with
  | VERIFIED_EMPTY => ∀ s, current = Some s → ses_status s = SCHEDULED
  | _ => ∃ s, current = Some s ∧ ses_status s ≠ SCHEDULED ∧ ses_status s ≠ ABSENT ∧
           verified_by_checker db s = false
  end.
Definition permitted (user : Z) (room : Room) (a : ValidationAction) (note : string) (now : Z)
    : Prop :=
  on_floor_duty user (room_floor room) now ∧ congruent a (current_session db t room now) ∧
  (is_flag a = true → blank note = false).

Definition floors_now (user now : Z) : list Z :=
  remove_dups (concat (asg_floors <$> select (duty_posting user FLOOR_SCOPE t now)
                                            (db_assignments db))).
Definition state_now (room : Room) (now : Z) : option (Session * SessionState) :=
  (λ s, (s, mk_state (ses_pk s) (ses_status s) (verified_by_checker db s)))
    <$> current_session db t room now.

Lemma elem_of_floors user floor now :
  floor ∈ floors_now user now ↔ on_floor_duty user floor now.
Proof using.
  unfold floors_now, on_floor_duty, duty_posting. rewrite elem_of_remove_dups, list_elem_of_In.
  rewrite in_concat. split.
  - intros (l & Hl & Hf). apply list_elem_of_In, list_elem_of_fmap in Hl as (a & -> & Ha).
    apply elem_of_select in Ha as [Ha Hp]. b2p. apply list_elem_of_In in Hf.
    exists a. naive_solver.
  - intros (a & Ha & <- & Hr & Hs & Hst & Ht & Hf & Hc). exists (asg_floors a).
    rewrite <- !list_elem_of_In. split; [|done]. apply list_elem_of_fmap_2, elem_of_select.
    split; [done|]. rewrite Hc. b2p. done.
Qed.
Lemma wp_active_term {A} (m : option AcademicTerm → M A) Q :
  wp (m (Some t)) Q db → wp (get_active_term ≫= m) Q db.
Proof using Hact.
  intros H. apply wp_bind, wp_get_active_term.
  - intros t' Ht'. by assert (t' = t) as -> by congruence.
  - by rewrite Hact.
  - unfold one_active_term. rewrite Hact. simpl. lia.
Qed.
Lemma wp_floors user now (Q : exn + list Z → DB → Prop) :
  Q (inr (floors_now user now)) db → wp (active_floor_ids user now) Q db.
Proof using Hact. intros H. unfold active_floor_ids. apply wp_active_term. by repeat wp_step. Qed.
Lemma wp_room_state room now (Q : exn + option (Session * SessionState) → DB → Prop) :
  Q (inr (state_now room now)) db → wp (room_session_state room now) Q db.
Proof using Hact.
  intros H. unfold room_session_state. apply wp_active_term. wp_step. wp_step.
  unfold state_now in H. destruct (current_session db t room now); by repeat wp_step.
Qed.
Lemma fst_state_now room now : fst <$> state_now room now = current_session db t room now.
Proof using. unfold state_now. by destruct (current_session db t room now). Qed.

(** The gate of the code is the permission, the note apart. *)
Lemma gate_iff user room a now :
  let r := resolve_checker_scan (floors_now user now) (room_floor room)
             (snd <$> state_now room now) in
  (actionable r = true ∧ a ∈ OUTCOME_ACTIONS (c_outcome r)) ↔
  on_floor_duty user (room_floor room) now ∧ congruent a (current_session db t room now).
Proof using.
  cbv zeta. rewrite <- elem_of_floors, actionable_cases. unfold resolve_checker_scan, state_now.
  destruct (floors_now user now) as [|f fs] eqn:Ef;
    [split; [by intros [[|] _]|by intros [?%not_elem_of_nil _]]|]. rewrite <- Ef.
  destruct (bool_decide_reflect (room_floor room ∈ floors_now user now)) as [Hin|Hin]; simpl;
    [|split; [by intros [[|] _]|by intros [? _]]].
  destruct (current_session db t room now) as [s|]; simpl.
  2:{ rewrite list_elem_of_singleton. destruct a; naive_solver. }
  destruct (bool_decide_reflect (ses_status s = SCHEDULED)) as [Hs|Hs]; simpl.
  { rewrite list_elem_of_singleton. destruct a; naive_solver. }
  destruct (bool_decide_reflect (ses_status s = ABSENT)) as [Ha|Ha]; simpl.
  { split; [by intros [[|] _]|intros [_ Hc]]. destruct a; simpl in Hc;
      [| | |by rewrite (Hc s eq_refl) in Hs]; destruct Hc as (? & [= <-] & ? & ? & ?); done. }
  destruct (verified_by_checker db s) eqn:Hv; simpl; rewrite ?elem_of_cons, ?elem_of_nil.
  { split; [by intros [[|] _]|intros [_ Hc]]. destruct a; simpl in Hc;
      [| | |by rewrite (Hc s eq_refl) in Hs]; destruct Hc as (? & [= <-] & ? & ? & ?); congruence. }
  split; [intros [_ Ha']|intros [_ Hc]].
  - split; [done|]. destruct a; simpl; [by exists s..|]. naive_solver.
  - split; [by left|]. destruct a; simpl in Hc; [tauto..|]. by rewrite (Hc s eq_refl) in Hs.
Qed.
Lemma note_blank_text repr v b : note_blank v = inr b → blank (or_text repr v) = b.
Proof using.
  unfold note_blank, or_text. destruct (truthy v); [destruct v; try done|].
  - by intros [= <-].
  - intros [= <-]. reflexivity.
Qed.
Lemma verdict_permitted repr user room action note now a :
  item_verdict (resolve_checker_scan (floors_now user now) (room_floor room)
                  (snd <$> state_now room now)) action note = inr (inr a) →
  permitted user room a (or_text repr note) now.
Proof using.
  unfold item_verdict. pose proof (λ a, gate_iff user room a now) as Hg. cbv zeta in Hg.
  destruct (actionable _); [|done]. simpl. destruct (action_in action) as [|[a'|]]; [done| |done].
  destruct (bool_decide_reflect (a' ∈ OUTCOME_ACTIONS (c_outcome (resolve_checker_scan
    (floors_now user now) (room_floor room) (snd <$> state_now room now))))) as [Ho|]; [|done].
  simpl. intros Hv.
  assert (a' = a ∧ (is_flag a' = true → blank (or_text repr note) = false)) as [-> Hn].
  { destruct (is_flag a'); [|by injection Hv as ->]. destruct (note_blank note) as [|[]] eqn:En; try done.
    injection Hv as ->. by apply (note_blank_text repr) in En. }
  specialize (Hg a). destruct Hg as [Hg _]. destruct Hg as [? ?]; [done|]. by split_and!.
Qed.
End permission.

(** ** Recording a room *)

(** Outside the online branch an action only records: one validation row, logs. *)
Lemma apply_record_wp user session room a note idm at_ offline now db
    (Q : exn + CheckerValidation → DB → Prop) :
  (∀ cv db', val_session cv = ses_pk <$> session → val_room cv = room_pk room →
     val_checker cv = usr_pk user → val_action cv = a → val_note cv = note →
     val_offline cv = offline → val_scanned_at cv = at_ →
     logs_only (db <| db_validations := db_validations db ++ [cv] |>) db' → Q (inr cv) db') →
  wp (apply_action user session room a note idm at_ offline false now) Q db.
Proof.
  intros HQ. unfold apply_action. wp_step. wp_step. cbn [tbl set_tbl table_CheckerValidation].
  wp_step. apply wp_logging; [apply logging_audit|]. intros db1 H1. wp_step.
  apply wp_logging; [destruct session; auto with logging; apply logging_when, logging_ret|].
  intros db2 H2. wp_step. apply wp_logging.
  { apply logging_when, logging_bind; [|intros _]; apply logging_notify. }
  intros db3 H3. wp_step. apply HQ; try done. etransitivity; [exact H1|]. by etransitivity.
Qed.

Definition seen_this_minute (db : DB) (key : string) (now : Z) : Prop :=
  List.find (cache_live now key) (db_cache db) ≠ None.
Lemma wp_cache_add key v timeout now db Q :
  (seen_this_minute db key now → Q (inr false) db) →
  (¬ seen_this_minute db key now → ∀ C, Q (inr true) (db <| db_cache := C |>)) →
  wp (cache_add key v timeout now) Q db.
Proof.
  unfold seen_this_minute, cache_add, cache_get. intros H1 H2. do 2 wp_step.
  destruct (List.find _ _) as [e|]; simpl; wp_step; [by apply H1|].
  unfold cache_set. do 2 wp_step. apply H2. by intros [].
Qed.
Definition scope_key (session : option Session) (room : Room) : Z :=
  match session with Some s => ses_pk s | None => room_pk room end.

Section room_action.
Context (db : DB) (t : AcademicTerm) (user : User) (room : Room) (a : ValidationAction).
Context (note : string) (now : Z) (Hact : select is_active_term (db_terms db) = [t]).
Let cur := current_session db t room now.
Let key := action_idem (usr_pk user) (scope_key cur room) now a.

Lemma room_action_wp :
  wp (room_action user room a note now) (λ r db', db_sessions db' = db_sessions db ∧
    ∃ reply, r = inr reply ∧
    ((¬ permitted db t (usr_pk user) room a note now ∧ rp_applied reply = None ∧
      logs_only db db') ∨
     (permitted db t (usr_pk user) room a note now ∧ rp_applied reply = Some a ∧
      ((seen_this_minute db key now ∧ db' = db) ∨
       (¬ seen_this_minute db key now ∧ ∃ cv, db_validations db' = db_validations db ++ [cv] ∧
          val_session cv = ses_pk <$> cur ∧ val_room cv = room_pk room ∧
          val_checker cv = usr_pk user ∧ val_action cv = a ∧ val_note cv = note))))) db.
Proof using Hact.
  unfold room_action. wp_step. apply (wp_room_state db t Hact). wp_step.
  apply (wp_floors db t Hact). cbv zeta. pose proof (gate_iff db t (usr_pk user) room a now) as Hg.
  cbv zeta in Hg. rewrite fst_state_now. fold cur in Hg |- *.
  set (res := resolve_checker_scan _ _ _) in *. unfold permitted. fold cur.
  destruct (negb (actionable res) || negb (bool_decide (a ∈ OUTCOME_ACTIONS (c_outcome res)))) eqn:Eg.
  - wp_step. unfold refuse_action. apply wp_logging; [apply logging_audit|].
    intros db1 Hl. wp_step. split; [by destruct Hl as (A & N & ->)|]. eexists. split; [done|].
    left. split; [|done]. intros (Hd & Hc & _). rewrite orb_true_iff, !negb_true_iff in Eg.
    destruct (proj2 Hg (conj Hd Hc)) as [H1 H2]. destruct Eg as [|Eg]; [congruence|]. by b2p.
  - rewrite orb_false_iff, !negb_false_iff in Eg. b2p. apply Hg in Eg as [Hd Hc].
    destruct (is_flag a) eqn:Ef; [destruct (blank note) eqn:Eb|]; simpl.
    { wp_step. split; [done|]. eexists. split; [done|]. left. split; [|done].
      intros (_ & _ & Hn). by specialize (Hn eq_refl). }
    all: wp_step; apply wp_cache_add; fold (scope_key cur room); fold key.
    1,3: intros Hseen; do 3 wp_step; split; [done|]; eexists; split; [done|]; right;
      split_and!; [done..|by left].
    all: intros Hseen C; wp_step; wp_step; apply apply_record_wp; intros cv db' ??????? Hl;
      do 2 wp_step; destruct Hl as (A & N & ->); split; [done|]; eexists; split; [done|]; right;
      split_and!; [done..|]; right; split; [done|by exists cv].
Qed.
End room_action.

(** C11: posting an action on a room records it, once a minute, exactly when the
    checker is on duty on the room's floor, the action fits what the room holds now and
    a flag carries a note.  A room that holds no class, or one still scheduled, may be
    recorded as empty; a class that is neither scheduled, absent nor verified yet may be
    verified or flagged - a running one, but also a cancelled one, whose time it is.
    Otherwise only logs are written.  The status of the class never changes; who is
    neither a checker nor a superuser is refused. *)
Theorem room_action_exact db t user room a note now action_val room_id session_id :
  select is_active_term (db_terms db) = [t] → action_of action_val = Some a →
  PyStr.isdigit room_id = true →
  List.find (λ r, bool_decide (PyStr.int room_id = Some (room_pk r))) (db_rooms db) = Some room →
  let cur := current_session db t room now in
  let key := action_idem (usr_pk user) (scope_key cur room) now a in
  wp (action user action_val room_id session_id note now) (λ r db',
    (¬ plays CHECKER user ∧ r = inl PermissionDenied ∧ db' = db) ∨
    plays CHECKER user ∧ db_sessions db' = db_sessions db ∧ ∃ reply, r = inr reply ∧
    ((¬ permitted db t (usr_pk user) room a note now ∧ rp_applied reply = None ∧
      logs_only db db') ∨
     (permitted db t (usr_pk user) room a note now ∧ rp_applied reply = Some a ∧
      ((seen_this_minute db key now ∧ db' = db) ∨
       (¬ seen_this_minute db key now ∧ ∃ cv, db_validations db' = db_validations db ++ [cv] ∧
          val_session cv = ses_pk <$> cur ∧ val_room cv = room_pk room ∧
          val_checker cv = usr_pk user ∧ val_action cv = a ∧ val_note cv = note))))) db.
Proof.
  intros Hact Ha Hid Hroom. cbv zeta. unfold action. rewrite Ha, Hid.
  rewrite (bool_decide_false (room_id = ""%string)) by by intros ->. simpl.
  apply wp_gated; [by left|]. intros Hp.
  wp_step. wp_step. cbn [tbl table_Room]. rewrite Hroom.
  eapply wp_mono; [by apply room_action_wp|]. intros r db' H. by right.
Qed.

(** ** Replaying a queue *)

(** The databases a replay leads to: rows are appended to the receipts, the
    validations and the logs, the cache may change, and nothing else does. *)
Definition grown (db : DB) (R : list CheckerReplayReceipt) (V : list CheckerValidation)
    (db' : DB) : Prop :=
  ∃ A N C, db' = db <| db_receipts := db_receipts db ++ R |>
                    <| db_validations := db_validations db ++ V |>
                    <| db_audit := db_audit db ++ A |>
                    <| db_notifications := db_notifications db ++ N |> <| db_cache := C |>.
Lemma grown_refl db : grown db [] [] db.
Proof. exists [], [], (db_cache db). rewrite !app_nil_r. by destruct db. Qed.
Lemma grown_trans db1 db2 db3 R1 V1 R2 V2 :
  grown db1 R1 V1 db2 → grown db2 R2 V2 db3 → grown db1 (R1 ++ R2) (V1 ++ V2) db3.
Proof.
  intros (A1 & N1 & C1 & ->) (A2 & N2 & C2 & ->). exists (A1 ++ A2), (N1 ++ N2), C2. simpl.
  by rewrite !app_assoc.
Qed.
Lemma grown_logs db1 db2 db3 R V : grown db1 R V db2 → logs_only db2 db3 → grown db1 R V db3.
Proof.
  intros (A1 & N1 & C1 & ->) (A2 & N2 & ->). exists (A1 ++ A2), (N1 ++ N2), C1. simpl.
  by rewrite !app_assoc.
Qed.
Lemma grown_cache db C : grown db [] [] (db <| db_cache := C |>).
Proof. exists [], [], C. rewrite !app_nil_r. by destruct db. Qed.

(** The rate counters of a minute hold integers. *)
Definition int_counter (key : string) (C : list CacheEntry) : Prop :=
  ∀ e, e ∈ C → ce_key e = key → ∃ n, ce_value e = JInt n.

Lemma int_counter_incr key now n C :
  int_counter key C →
  int_counter key ((λ e, if cache_live now key e then e <| ce_value := JInt n |> else e) <$> C).
Proof.
  intros HC e (e' & -> & He)%list_elem_of_fmap Hk.
  destruct (cache_live now key e'); [by exists n|by apply (HC e')].
Qed.
Lemma int_counter_set key n x C :
  int_counter key C →
  int_counter key ({| ce_key := key; ce_value := JInt n; ce_expires := x |} ::
                   select (λ e, negb (bool_decide (ce_key e = key))) C).
Proof.
  intros HC e [->|[He _]%elem_of_select]%elem_of_cons Hk; [by exists n|by apply (HC e)].
Qed.
Lemma int_counter_live key now db v :
  int_counter key (db_cache db) →
  ce_value <$> List.find (cache_live now key) (db_cache db) = Some v → ∃ n, v = JInt n.
Proof.
  intros HC Hv. destruct (List.find _ _) as [e|] eqn:Ee; [|done]. simpl in Hv. injection Hv as <-.
  apply find_elem in Ee as [He Hl]. unfold cache_live in Hl. b2p. apply (HC e He). tauto.
Qed.

Lemma live_head key now n C :
  List.find (cache_live now key) ({| ce_key := key; ce_value := JInt n;
    ce_expires := now + 90 * PyTime.usec_second |} :: C) =
  Some {| ce_key := key; ce_value := JInt n; ce_expires := now + 90 * PyTime.usec_second |}.
Proof.
  cbn [List.find]. unfold cache_live at 1. cbn [ce_key ce_expires].
  rewrite bool_decide_true by done. rewrite (proj2 (Z.ltb_lt _ _)); [done|].
  unfold PyTime.usec_second. lia.
Qed.

Section replay_limit.
Context (user now : Z).
Let key : string := replay_key user now.
Definition cached (db : DB) (r : exn + bool) (db' : DB) : Prop :=
  ∃ b, r = inr b ∧ ∃ C, db' = db <| db_cache := C |> ∧ int_counter key C.

Lemma replay_incr_wp db n :
  int_counter key (db_cache db) →
  ce_value <$> List.find (cache_live now key) (db_cache db) = Some (JInt n) →
  wp (cache_incr key now ≫= λ _, mret true) (cached db) db.
Proof.
  intros Hi Hf. unfold cache_incr, cache_get. do 3 wp_step. rewrite Hf. do 2 wp_step.
  exists true. split; [done|]. eexists. split; [done|]. by apply int_counter_incr.
Qed.
Lemma replay_limit_wp db limit :
  policy_num db "manual_code_rate_limit_per_min" = Some limit → int_counter key (db_cache db) →
  wp (replay_manual_code_allowed user now) (cached db) db.
Proof.
  intros Hlim Hint. unfold replay_manual_code_allowed, minute_count, cache_get_or_set, cache_get.
  fold key. wp_step. apply wp_policy_num; [|congruence]. intros l _. do 4 wp_step.
  destruct (ce_value <$> List.find _ _) as [v|] eqn:Ef.
  - pose proof Ef as Hn. apply int_counter_live in Hn as [n ->]; [|done]. wp_step. cbn [as_int]. wp_step.
    destruct (l <=? n); [|by eapply replay_incr_wp]. wp_step. exists false. split; [done|].
    exists (db_cache db). split; [by destruct db|done].
  - unfold cache_set. do 3 wp_step. cbn [as_int]. wp_step. destruct (l <=? 0).
    + wp_step. exists false. split; [done|]. eexists. split; [done|]. by apply int_counter_set.
    + eapply wp_mono; [apply (replay_incr_wp _ 0)|].
      * by apply int_counter_set.
      * cbn [db_cache upd setter]. by rewrite live_head.
      * intros r db' (b & -> & C & -> & HC). exists b. split; [done|]. by exists C.
Qed.
End replay_limit.

Lemma replay_token_wp token db :
  wp (room_from_replay_token token) (λ r db', db' = db ∧ ∃ o, r = inr o ∧
    ∀ room, o = Some room → room ∈ db_rooms db) db.
Proof.
  unfold room_from_replay_token. case_bool_decide; [wp_step; split; [done|]; by exists None|].
  do 2 wp_step. assert (∀ p room, List.find p (db_rooms db) = Some room → room ∈ db_rooms db) as Hin
    by by intros p room [? _]%find_elem.
  destruct (_ && _); wp_step; (split; [done|]; eexists; split; [done|]); apply Hin.
Qed.

(** A receipt is claimed once. *)
Definition has_receipt (db : DB) (uuid : Z) : Prop := uuid ∈ rcp_uuid <$> db_receipts db.
Lemma has_receipt_existsb db uuid :
  existsb (λ r, rcp_uuid r =? uuid) (db_receipts db) = true ↔ has_receipt db uuid.
Proof.
  unfold has_receipt. rewrite existsb_elem, list_elem_of_fmap. split.
  - intros (r & Hr & He). b2p. by exists r.
  - intros (r & -> & Hr). exists r. by rewrite Z.eqb_refl.
Qed.
Lemma claim_wp user uuid status reason db (Q : exn + bool → DB → Prop) :
  ¬ has_receipt db uuid →
  (∀ rc, rcp_uuid rc = uuid → rcp_checker rc = user → rcp_status rc = status →
     rcp_reason rc = reason →
     Q (inr true) (db <| db_receipts := db_receipts db ++ [rc] |>)) →
  wp (claim_replay_receipt user uuid status reason) Q db.
Proof.
  intros Hn HQ. unfold claim_replay_receipt, create_receipt, receipt_exists. do 5 wp_step.
  cbn [tbl table_CheckerReplayReceipt]. destruct (existsb _ _) eqn:E.
  { by apply has_receipt_existsb in E. }
  wp_step. cbn [tbl set_tbl table_CheckerReplayReceipt]. wp_step. by apply HQ.
Qed.

Section replay_spec.
Context (parse_datetime : string → exn + option Z) (repr : json → string).
Context (user : User) (now : Z) (t : AcademicTerm).

(** A validation the replay of an item may write. *)
Definition replayed (db : DB) (v : CheckerValidation) : Prop :=
  ∃ room, room ∈ db_rooms db ∧ val_room v = room_pk room ∧ val_offline v = true ∧
    val_checker v = usr_pk user ∧
    val_session v = ses_pk <$> current_session db t room now ∧
    permitted db t (usr_pk user) room (val_action v) (val_note v) now.

(** An item every field of which can be read: a datetime that is one, a class given by
    its number or a text, an action that is no list, a note that is a text. *)
Definition item_id (item : QueueItem) : option Z :=
  match item with JObj d => PyUuid.UUID (or_text repr (item_field d "client_uuid")) | _ => None end.
Definition claim_readable (v : json) : Prop :=
  claimed_valid repr v = true → unset v = true ∨ (∃ n, v = JInt n) ∨ ∃ s, v = JStr s.
Definition readable (d : dict string json) : Prop :=
  (∃ s o, (item_field d "scanned_at" = JStr s ∨ truthy (item_field d "scanned_at") = false ∧ s = ""%string) ∧
     parse_datetime s = inr o) ∧
  claim_readable (item_field d "session_id") ∧
  (∃ o, action_in (dict_getd d "action"%string (JStr "")) = inr o) ∧
  (∃ b, note_blank (item_field d "note") = inr b).
Definition sound (item : QueueItem) : Prop := ∃ d, item = JObj d ∧ readable d.

(** What a read returns, or the exception of an unreadable item. *)
Definition observes {A} (ok : Prop) (P : A → Prop) (db : DB) (r : exn + A) (db' : DB) : Prop :=
  db' = db ∧ match r with inl _ => ¬ ok | inr x => P x end.
Lemma scanned_wp d db :
  wp (scanned_instant parse_datetime (item_field d "scanned_at") now) (observes (readable d) (λ _, True) db) db.
Proof using.
  unfold scanned_instant, observes. set (v := item_field d "scanned_at").
  destruct (truthy v) eqn:Et; [destruct v eqn:Ev|];
    try (wp_step; split; [done|]; intros ((s' & o' & [Hs|[Hs _]] & _) & _); fold v in Hs; congruence).
  - destruct (parse_datetime s) as [e|o] eqn:Ep; wp_step; split; try done.
    intros ((s' & o' & [Hs|[Hs _]] & Hp) & _); fold v in Hs; congruence.
  - destruct (parse_datetime "") as [e|o] eqn:Ep; wp_step; split; try done.
    intros ((s' & o' & [Hs|[Hs ->]] & Hp) & _); [|congruence]. fold v in Hs. rewrite Hs in Et. simpl in Et.
    rewrite negb_false_iff in Et. b2p. congruence.
Qed.
Lemma expected_wp room d at_ db :
  select is_active_term (db_terms db) = [t] → claimed_valid repr (item_field d "session_id") = true →
  wp (expected_session room (item_field d "session_id") at_) (observes (readable d) (λ _, True) db) db.
Proof using.
  intros Hact Hv. unfold expected_session, observes. destruct (unset _) eqn:Eu.
  - unfold wp, room_session_at_scan, mbind, M_bind, get_active_term, read. by rewrite Hact.
  - destruct (item_field d "session_id") eqn:Ec; unfold json_int; wp_step; split; try done;
      intros (_ & Hr & _); unfold claim_readable in Hr; rewrite Ec in Hr;
      destruct (Hr Hv) as [|[[? ?]|[? ?]]]; done.
Qed.
Lemma replay_check_wp db room d scanned_at :
  select is_active_term (db_terms db) = [t] →
  wp (replay_check repr user room d scanned_at now) (observes (readable d) (λ v,
    v.1 = current_session db t room now ∧
    ∀ a, v.2 = inr a → permitted db t (usr_pk user) room a (or_text repr (item_field d "note")) now) db) db.
Proof using.
  intros Hact. unfold replay_check. wp_step. apply (wp_room_state db t Hact). wp_step.
  apply (wp_floors db t Hact). cbv zeta. rewrite fst_state_now.
  destruct (claimed_valid _ _) eqn:Ev; cbn [negb]; [|by wp_step].
  wp_step. eapply wp_mono; [by apply expected_wp|]. intros [e|o] db' [-> Hr]; [by split|].
  destruct (negb _); [by wp_step|]. destruct (item_verdict _ _ _) as [e|v] eqn:Eq; wp_step; (split; [done|]).
  - intros (_ & _ & [o1 H1] & [b H2]). unfold item_verdict in Eq. rewrite H1, H2 in Eq. by repeat case_match.
  - split; [done|]. simpl. intros a ->. by apply verdict_permitted with (1 := Eq).
Qed.

(** One item: a duplicate or malformed one writes nothing, any other one claims its
    receipt, together with one validation exactly when it is applied. *)
Definition item_outcome (db : DB) (item : QueueItem) (res : ReplayResult)
    (R : list CheckerReplayReceipt) (V : list CheckerValidation) : Prop :=
  (∃ d, item = JObj d) ∧
  match item_id item with
  | None => R = [] ∧ V = [] ∧ res = mk_replay_result "" "flagged" (Some "bad-payload"%string)
  | Some uuid =>
      rr_uuid res = PyUuid.str uuid ∧
      ((has_receipt db uuid ∧ R = [] ∧ V = [] ∧ rr_status res = "duplicate"%string) ∨
       (¬ has_receipt db uuid ∧ ∃ rc, R = [rc] ∧ rcp_uuid rc = uuid ∧ rcp_status rc = rr_status res ∧
          rcp_checker rc = usr_pk user ∧
          ((rr_status res = "flagged"%string ∧ V = []) ∨
           (rr_status res = "applied"%string ∧ ∃ v, V = [v] ∧ replayed db v))))
  end.
(** An item that is no sound one may fail, and then has written nothing. *)
Definition item_post (db : DB) (item : QueueItem) (r : exn + ReplayResult) (db' : DB) : Prop :=
  match r with
  | inl _ => ¬ sound item ∧ grown db [] [] db'
  | inr res => ∃ R V, grown db R V db' ∧ item_outcome db item res R V ∧
      int_counter (replay_key (usr_pk user) now) (db_cache db')
  end.

(** Claiming a flagged receipt and logging it. *)
Lemma flagged_post db0 db item uuid (mk : M bool) reason logm :
  item_id item = Some uuid → ¬ has_receipt db0 uuid → grown db0 [] [] db →
  int_counter (replay_key (usr_pk user) now) (db_cache db) → logging logm →
  mk = atomic (claim_replay_receipt (usr_pk user) uuid "flagged" reason ≫= λ claimed : bool,
               when claimed logm ≫= λ _, mret claimed) →
  wp (mk ≫= λ claimed, mret (claimed_result uuid claimed "flagged" (Some reason)))
    (item_post db0 item) db.
Proof.
  intros Hu Hn Hg Hint Hlog ->. do 3 wp_step. apply claim_wp.
  { destruct Hg as (A & N & C & ->). unfold has_receipt in *. simpl. by rewrite app_nil_r. }
  intros rc ????. wp_step. apply wp_logging; [by apply logging_when|]. intros db' Hl. do 2 wp_step.
  exists [rc], []. split_and!.
  - eapply grown_logs; [|exact Hl]. eapply (grown_trans db0 db _ [] [] [rc] []); [done|].
    exists [], [], (db_cache db). rewrite !app_nil_r. by destruct db.
  - unfold item_outcome. split; [by destruct item; eauto|]. rewrite Hu. split; [done|]. right. split; [done|]. exists rc.
    split_and!; try done. by left.
  - destruct Hl as (A & N & ->). done.
Qed.

Lemma applied_post db0 db item uuid room a note scanned_at :
  item_id item = Some uuid → ¬ has_receipt db0 uuid → grown db0 [] [] db →
  int_counter (replay_key (usr_pk user) now) (db_cache db) →
  room ∈ db_rooms db0 → permitted db0 t (usr_pk user) room a note now →
  wp (replay_apply user uuid (current_session db0 t room now) room a note scanned_at now
      ≫= λ claimed, mret (claimed_result uuid claimed "applied" None)) (item_post db0 item) db.
Proof.
  intros Hu Hn Hg Hint Hroom Hp. unfold replay_apply. do 3 wp_step. apply claim_wp.
  { destruct Hg as (A & N & C & ->). unfold has_receipt in *. simpl. by rewrite app_nil_r. }
  intros rc ????. wp_step. cbn [when]. wp_step. apply apply_record_wp. intros cv db' ??? Ha Hnote ?? Hl. do 3 wp_step.
  exists [rc], [cv]. split_and!.
  - eapply grown_logs; [|exact Hl]. eapply (grown_trans db0 db _ [] [] [rc] [cv]); [done|].
    exists [], [], (db_cache db). rewrite !app_nil_r. by destruct db.
  - unfold item_outcome. split; [by destruct item; eauto|]. rewrite Hu. split; [done|]. right. split; [done|]. exists rc.
    split_and!; try done. right. split; [done|]. exists cv. split; [done|]. exists room.
    rewrite Ha, Hnote. by split_and!.
  - destruct Hl as (A & N & ->). done.
Qed.

Context (limit : Z).
(** What a batch needs of the database it starts in. *)
Definition replay_ready (db : DB) : Prop :=
  select is_active_term (db_terms db) = [t] ∧
  policy_num db "manual_code_rate_limit_per_min" = Some limit ∧
  int_counter (replay_key (usr_pk user) now) (db_cache db).
Lemma replay_ready_grown db R V db' :
  replay_ready db → grown db R V db' → int_counter (replay_key (usr_pk user) now) (db_cache db') →
  replay_ready db'.
Proof using. intros (? & ? & _) (A & N & C & ->) HC. done. Qed.

Lemma replay_item_wp item db :
  replay_ready db → wp (replay_item parse_datetime repr user now item) (item_post db item) db.
Proof using.
  intros (Hact & Hlim & Hint).
  unfold replay_item.
  destruct item as [| | | | | |d]; try (wp_step; split; [by intros (? & [=] & _)|apply grown_refl]).
  destruct (PyUuid.UUID _) as [uuid|] eqn:Hu.
  2:{ wp_step. exists [], []. split_and!; [apply grown_refl| |done].
      unfold item_outcome. simpl. rewrite Hu. split; [by eexists|done]. }
  unfold receipt_exists. do 2 wp_step. cbn [tbl table_CheckerReplayReceipt].
  destruct (existsb _ _) eqn:Es.
  { apply has_receipt_existsb in Es. wp_step. exists [], [].
    split_and!; [apply grown_refl| |done]. unfold item_outcome. simpl. rewrite Hu.
    split; [by eexists|]. split; [done|]. by left. }
  assert (¬ has_receipt db uuid) as Hn by (intros H%has_receipt_existsb; congruence). cbv zeta.
  wp_step. apply wp_mono with (cached (usr_pk user) now db).
  { destruct (PyStr.six_digits _).
    - wp_step. eapply wp_mono; [by eapply replay_limit_wp|]. intros r db' (b & -> & HC). by exists (negb b).
    - wp_step. exists false. split; [done|]. exists (db_cache db). split; [by destruct db|done]. }
  intros r db1 (limited & -> & C & -> & HC).
  assert (grown db [] [] (db <| db_cache := C |>)) as Hg1 by apply grown_cache.
  assert (¬ readable d → ¬ sound (JObj d)) as Hsound by by intros Hr (? & [= <-] & ?).
  destruct limited; [eapply flagged_post; try done; apply logging_audit|].
  wp_step. eapply wp_mono; [apply replay_token_wp|]. intros r db2 (-> & room & -> & Hroom).
  wp_step. eapply wp_mono; [apply scanned_wp|]. intros [e|at_] db2 [-> Hs]; [by split; [apply Hsound|]|].
  wp_step.
  assert (∀ session reason, wp (replay_flag (usr_pk user) uuid session room
    (dict_getd d "action"%string (JStr "")) reason ≫= λ claimed,
    mret (claimed_result uuid claimed "flagged" (Some reason))) (item_post db (JObj d))
    (db <| db_cache := C |>)) as Hflag.
  { intros session reason. eapply flagged_post; try done.
    apply logging_bind; [apply logging_audit|intros _; apply logging_notify]. }
  destruct room as [room|]; [|wp_step; apply Hflag].
  eapply wp_mono; [by apply replay_check_wp|]. intros [e|[session verdict]] db3 [-> Hv]; [by split; [apply Hsound|]|].
  destruct Hv as [Hcur Hv]. simpl in Hcur, Hv. subst session.
  destruct verdict as [reason|a]; [apply Hflag|]. apply (applied_post db); try done; [by apply Hroom|].
  by apply Hv.
Qed.

(** *** The batch *)
Definition claimed (x : ReplayResult) : bool :=
  negb (bool_decide (rr_uuid x = ""%string)) && negb (bool_decide (rr_status x = "duplicate"%string)).
Definition applied (x : ReplayResult) : bool := bool_decide (rr_status x = "applied"%string).
Definition receipt_of (rc : CheckerReplayReceipt) : string * string :=
  (PyUuid.str (rcp_uuid rc), rcp_status rc).
Definition batch_outcome (db : DB) (items : list QueueItem) (results : list ReplayResult)
    (R : list CheckerReplayReceipt) (V : list CheckerValidation) (db' : DB) : Prop :=
  length results = length items ∧ grown db R V db' ∧ (∀ item, item ∈ items → ∃ d, item = JObj d) ∧
  (∀ item uuid, item ∈ items → item_id item = Some uuid → has_receipt db' uuid) ∧
  (NoDup (rcp_uuid <$> db_receipts db) → NoDup (rcp_uuid <$> db_receipts db')) ∧
  receipt_of <$> R = (λ x, (rr_uuid x, rr_status x)) <$> select claimed results ∧
  length V = length (select applied results) ∧
  (∀ v, v ∈ V → replayed db v).

Lemma uuid_text n : PyUuid.str n ≠ ""%string.
Proof using.
  unfold PyUuid.str. intros H. apply (f_equal String.length) in H.
  rewrite PyStr.length_of_list, length_app in H. simpl in H. lia.
Qed.
Lemma replayed_grown db R V db' v : grown db R V db' → replayed db' v → replayed db v.
Proof using.
  intros (A & N & C & ->) (room & Hroom & Hr & Ho & Hc & Hs & Hd & Hcong & Hnote).
  exists room. split_and!; try done. split_and!; [done| |done].
  unfold congruent in *. destruct (val_action v); try done;
    destruct Hcong as (s & Hcur & ? & ? & Hver); exists s; (split_and!; [done..|]);
    unfold verified_by_checker in *; simpl in Hver; rewrite existsb_app in Hver;
    by apply orb_false_iff in Hver as [? _].
Qed.
Lemma has_receipt_grown db R V db' uuid :
  grown db R V db' → (has_receipt db' uuid ↔ has_receipt db uuid ∨ uuid ∈ rcp_uuid <$> R).
Proof using.
  intros (A & N & C & ->). unfold has_receipt. simpl. rewrite fmap_app. apply elem_of_app.
Qed.

(** What one item adds to the batch. *)
Lemma item_rows db item res R V :
  item_outcome db item res R V →
  (∃ d, item = JObj d) ∧
  receipt_of <$> R = (λ x, (rr_uuid x, rr_status x)) <$> select claimed [res] ∧
  length V = length (select applied [res]) ∧ (∀ v, v ∈ V → replayed db v) ∧
  (∀ uuid, item_id item = Some uuid → has_receipt db uuid ∨ uuid ∈ rcp_uuid <$> R) ∧
  (NoDup (rcp_uuid <$> db_receipts db) → NoDup (rcp_uuid <$> db_receipts db ++ R)).
Proof using.
  unfold item_outcome, claimed, applied. intros [Ho Hi0]. split; [done|]. revert Hi0.
  destruct (item_id item) as [uuid|].
  2:{ intros (-> & -> & ->). rewrite app_nil_r. split_and!; try done.
      by intros v ?%not_elem_of_nil. }
  intros [Hid Hi]. pose proof (uuid_text uuid) as Hne.
  rewrite !select_cons, Hid, (bool_decide_false (_ = ""%string)) by done.
  destruct Hi as [(Hh & -> & -> & ->)|(Hh & rc & -> & Hrc & Hst & _ & Hi)]; simpl.
  { rewrite app_nil_r. split_and!; try done; [by intros v ?%not_elem_of_nil|]. intros ? [= <-]. by left. }
  assert (receipt_of rc = (rr_uuid res, rr_status res)) as Hof
    by (unfold receipt_of; by rewrite Hrc, Hst, Hid).
  assert (∀ u, Some uuid = Some u → has_receipt db u ∨ u ∈ rcp_uuid <$> [rc]) as Hu
    by (intros ? [= <-]; right; simpl; rewrite Hrc; left).
  assert (NoDup (rcp_uuid <$> db_receipts db) → NoDup (rcp_uuid <$> db_receipts db ++ [rc])) as Hnd.
  { rewrite fmap_app. intros H. apply NoDup_app. split; [done|]. split; [|apply NoDup_singleton].
    intros u Hin ->%list_elem_of_singleton. by rewrite Hrc in Hin. }
  destruct Hi as [[Hs ->]|(Hs & v & -> & Hv)]; rewrite Hs in *; simpl; rewrite Hof, ?Hid;
    split_and!; try done;
    first [by rewrite Hs|by intros ? ?%not_elem_of_nil|by intros ? ->%list_elem_of_singleton].
Qed.
Lemma batch_stop db items results R V db1 db2 :
  batch_outcome db items results R V db1 → grown db1 [] [] db2 → batch_outcome db items results R V db2.
Proof using.
  intros (Hlen & Hg & Hobj & Hall & Hnd & HR & HV & Hv) Hg2. split_and!; try done.
  - rewrite <- (app_nil_r R), <- (app_nil_r V). by eapply grown_trans.
  - intros i u Hin Hiu. apply (has_receipt_grown db1 [] [] db2 u Hg2). left. eauto.
  - intros H. destruct Hg2 as (A & N & C & ->). simpl. rewrite app_nil_r. auto.
Qed.
Lemma batch_step db items results R V db1 item res R' V' db2 :
  batch_outcome db items results R V db1 → grown db1 R' V' db2 → item_outcome db1 item res R' V' →
  batch_outcome db (items ++ [item]) (results ++ [res]) (R ++ R') (V ++ V') db2.
Proof using.
  intros (Hlen & Hg & Hobj & Hall & Hnd & HR & HV & Hv) Hg2 Hi.
  apply item_rows in Hi as (Ho & HR' & HV' & Hv' & Hu' & Hnd'). unfold batch_outcome.
  rewrite !length_app, !fmap_app, !select_app, !fmap_app, !length_app, HR, HV, HR', HV', Hlen.
  split_and!; try done.
  - by eapply grown_trans.
  - intros i [Hin|Hin]%elem_of_app; [auto|]. by apply list_elem_of_singleton in Hin as ->.
  - intros i u Hin Hiu. apply (has_receipt_grown db1 R' V' db2 u Hg2).
    apply elem_of_app in Hin as [Hin|Hin]; [left; eauto|]. apply list_elem_of_singleton in Hin as ->. auto.
  - intros H. destruct Hg2 as (A & N & C & ->). simpl. auto.
  - intros v [?|?]%elem_of_app; [by apply Hv|]. eapply replayed_grown; [done|auto].
Qed.

(** The items done, and the one that failed. *)
Definition stopped_at (items : list QueueItem) (n : nat) : Prop :=
  ∃ item, items !! n = Some item ∧ ¬ sound item.
Lemma replay_wp items db :
  replay_ready db →
  wp (replay_items parse_datetime repr user now items) (λ r db', ∃ results R V,
    batch_outcome db (take (length results) items) results R V db' ∧
    match r with
    | inr l => l = results ∧ length results = length items
    | inl _ => stopped_at items (length results)
    end) db.
Proof using.
  intros Hready. eapply wp_mono; [apply (wp_fold_m _ _ _ (λ l results db', ∃ R V,
    batch_outcome db l results R V db' ∧
    int_counter (replay_key (usr_pk user) now) (db_cache db')) (λ _ db', ∃ results R V,
    batch_outcome db (take (length results) items) results R V db' ∧ stopped_at items (length results)))|].
  - exists [], []. split; [|apply Hready]. split_and!; try done; [apply grown_refl|..].
    + by intros i ?%not_elem_of_nil.
    + by intros i u ?%not_elem_of_nil.
    + by intros v ?%not_elem_of_nil.
  - intros l item todo results db1 Hl (R & V & Hb & HC). wp_step.
    eapply wp_mono; [apply replay_item_wp|].
    + eapply replay_ready_grown; [done|apply Hb|done].
    + intros [e|res] db2.
      * intros [Hns Hg]. exists results, R, V. pose proof Hb as [Hlen _]. rewrite Hlen, Hl, take_app_length. split.
        -- by eapply batch_stop.
        -- exists item. split; [by apply list_lookup_middle|done].
      * intros (R' & V' & Hg & Hi & HC'). wp_step. exists (R ++ R'), (V ++ V').
        split; [by eapply batch_step|done].
  - intros [e|results] db'; [by intros (results & R & V & Hb & Hs); exists results, R, V|].
    intros (R & V & Hb & _). exists results, R, V. pose proof Hb as [Hlen _]. by rewrite Hlen, firstn_all.
Qed.
End replay_spec.

(** A queue whose receipts are all there is a queue of duplicates. *)
Lemma replay_duplicates parse repr user now items db :
  (∀ item, item ∈ items → ∃ d, item = JObj d) →
  (∀ item uuid, item ∈ items → item_id repr item = Some uuid → has_receipt db uuid) →
  ∃ results, replay_items parse repr user now items db = (inr results, db) ∧ select claimed results = [].
Proof.
  unfold replay_items. induction items as [|item items IH] using rev_ind; [by exists []|]. intros Hobj Hall.
  destruct IH as (results & Hrun & Hclaimed); [set_solver|intros; eapply Hall; [|done]; set_solver|].
  rewrite fold_m_app, (bind_run _ _ _ _ _ Hrun). cbn [fold_m].
  assert (∃ res, replay_item parse repr user now item db = (inr res, db) ∧ claimed res = false)
    as (res & Hres & Hc).
  { destruct (Hobj item) as [d ->]; [set_solver|].
    unfold replay_item. destruct (PyUuid.UUID (or_text repr (item_field d "client_uuid"))) as [uuid|] eqn:Hu; [|by eexists].
    erewrite (bind_run (receipt_exists uuid)); [|reflexivity].
    assert (existsb (λ r, rcp_uuid r =? uuid) (db_receipts db) = true) as Hex
      by (apply has_receipt_existsb, (Hall (JObj d)); [set_solver|done]).
    cbn [tbl table_CheckerReplayReceipt]. rewrite Hex. eexists. split; [reflexivity|].
    unfold claimed. cbn [rr_status]. rewrite (bool_decide_true (_ = "duplicate"%string)) by done.
    apply andb_false_r. }
  exists (results ++ [res]). split.
  - erewrite bind_run; [reflexivity|]. erewrite bind_run; [reflexivity|done].
  - by rewrite select_app, Hclaimed, select_cons, Hc.
Qed.

(** C10: an offline queue is applied exactly once.  Posted by a checker while one term is
    active and the rate limit is a number, a batch is carried out item by item up to its
    end or to the first item that makes it fail, which is no object, or one with a field
    that cannot be read (a datetime that is none, a class, action or note of another kind);
    a batch of readable items thus answers.  Of the items carried out, each has one result,
    the new receipts are exactly those reported as applied or flagged, no identifier ever
    has two receipts, the new validations are as many as the applied ones and each is one
    the checker is permitted now; no other table changes, and these items posted again
    later, by anyone and at any time, change nothing. *)
Theorem replay_exactly_once parse repr db user now t limit payload items :
  plays CHECKER user → replay_ready user now t limit db → queued payload = inr items →
  wp (replay parse repr user (Some payload) now) (λ r db', ∃ results R V,
    match r with
    | inr answer => answer = Some results ∧ length results = length items
    | inl _ => ∃ item, items !! length results = Some item ∧ ¬ sound parse repr item
    end ∧
    grown db R V db' ∧
    (NoDup (rcp_uuid <$> db_receipts db) → NoDup (rcp_uuid <$> db_receipts db')) ∧
    receipt_of <$> R = (λ x, (rr_uuid x, rr_status x)) <$> select claimed results ∧
    length V = length (select applied results) ∧ (∀ v, v ∈ V → replayed user now t db v) ∧
    (∀ user2 now2, ∃ results2,
       replay_items parse repr user2 now2 (take (length results) items) db' = (inr results2, db') ∧
       select claimed results2 = [])) db.
Proof.
  intros Hp Hr Hq. unfold replay, checker_required. rewrite gated_in, Hq by done.
  wp_step. eapply wp_mono; [by eapply replay_wp|].
  intros r db' (results & R & V & (Hlen & Hg & Hobj & Hall & Hnd & HR & HV & Hv) & Hend).
  assert (∀ user2 now2, ∃ results2,
    replay_items parse repr user2 now2 (take (length results) items) db' = (inr results2, db') ∧
    select claimed results2 = []) as Hrep by (intros user2 now2; by apply replay_duplicates).
  destruct r as [e|l]; [|destruct Hend as [-> Hend]]; exists results, R, V; by split_and!.
Qed.

(** ** Online sessions *)
Definition mark_online (a : ValidationAction) (now : Z) (s : Session) : Session :=
  match a with
  | VERIFIED => check_in_online now s
  | _ => mark_absent s
  end.
Definition fill_online (a : ValidationAction) (now : Z) : Session → Session :=
  match a with VERIFIED => fill_present now | _ => fill_absent end.
(** The siblings an online action fills: past the grace period for an absence. *)
Definition online_fills (db : DB) (s : Session) (a : ValidationAction) (now grace term : Z)
    (x : Session) : bool :=
  (bool_decide (a = VERIFIED) || (ses_sched_start s + PyTime.minutes grace <? now))
  && fillable db s term x.
Lemma online_fills_iff db s a now grace term x :
  online_fills db s a now grace term x = true ↔
  (a ≠ VERIFIED → ses_sched_start s + PyTime.minutes grace < now) ∧
  sibling db s term x ∧ ses_status x = SCHEDULED.
Proof.
  unfold online_fills. rewrite andb_true_iff, fillable_iff, orb_true_iff, bool_decide_eq_true.
  destruct (Z.ltb_spec (ses_sched_start s + PyTime.minutes grace) now);
    destruct (decide (a = VERIFIED)); naive_solver lia.
Qed.

Section online.
Context (db : DB) (t : AcademicTerm) (s : Session) (sch : Schedule) (grace now : Z).
Context (Huniq : pk_unique (db_sessions db)) (Huniqt : pk_unique (db_terms db)).
Context (Hact : select is_active_term (db_terms db) = [t]).
Context (Hs : by_pk (db_sessions db) (ses_pk s) = Some s).
Context (Hsch : by_pk (db_schedules db) (ses_schedule s) = Some sch).
Context (Hterm : sch_term sch = term_pk t).
Context (Hgrace : policy_num db "grace_minutes" = Some grace).

Lemma online_effect_wp user a :
  a = VERIFIED ∨ a = FLAG_NOT_PRESENT →
  wp (online_effect user a s now now) (λ r db', r = inr () ∧
    logs_only (db <| db_sessions :=
      update_where (online_fills db s a now grace (sch_term sch)) (fill_online a now)
        (update_pk (ses_pk s) (mark_online a now) (db_sessions db)) |>) db') db.
Proof using All.
  intros Ha. assert (by_pk (db_terms db) (sch_term sch) = Some t) as Ht
    by (rewrite Hterm; by eapply active_by_pk).
  assert (term_status t ≠ T_ARCHIVED) as Hw by by eapply active_not_archived.
  assert (∀ f, (∀ x, ses_pk (f x) = ses_pk x) →
    by_pk (update_pk (ses_pk s) f (db_sessions db)) (ses_pk s) = Some (f s)) as Hb.
  { intros f Hf. rewrite by_pk_update_eq by done. by rewrite Hs. }
  destruct Ha as [-> | ->]; cbn [online_effect mark_online fill_online]; wp_step; wp_step; (eapply save_own; [done|done|]); wp_step.
  - unfold propagate_merged_present. eapply wp_mono;
      [apply (fill_siblings_wp _ (check_in_online now s) sch t)|]; simpl;
      [by apply pk_unique_update|by apply (Hb (check_in_online now))|done|done|done|done|].
    cbv beta. intros r db' [-> Hl]. wp_step. split; [done|exact Hl].
  - unfold propagate_merged_absent. wp_step.
    apply wp_policy_num; [|intros e He; change (policy_num db "grace_minutes" = None) in He; congruence].
    intros g Hg. assert (g = grace) as -> by (change (policy_num db "grace_minutes" = Some g) in Hg; congruence).
    unfold FacultyScan.is_no_show_past_grace.
    change (ses_sched_start (mark_absent s)) with (ses_sched_start s).
    destruct (ses_sched_start s + PyTime.minutes grace <? now) eqn:Eg; cbn [negb].
    + eapply wp_mono; [apply (fill_siblings_wp _ (mark_absent s) sch t)|]; simpl;
        [by apply pk_unique_update|by apply (Hb mark_absent)|done|done|done|done|].
      cbv beta. intros r db' [-> Hl]. wp_step. split; [done|].
      rewrite (update_where_ext (online_fills db s FLAG_NOT_PRESENT now grace (sch_term sch))
        (fillable db (mark_absent s) (sch_term sch)) _ fill_absent); [exact Hl| |done].
      intros x _. unfold online_fills. by rewrite Eg.
    + do 2 wp_step. split; [done|].
      rewrite (update_where_none (online_fills db s FLAG_NOT_PRESENT now grace (sch_term sch)));
        [reflexivity|]. intros x _. unfold online_fills. by rewrite Eg.
Qed.
End online.

Section online_action.
Context (db : DB) (t : AcademicTerm) (s : Session) (sch : Schedule) (grace now : Z) (user : User).
Context (Huniq : pk_unique (db_sessions db)) (Huniqt : pk_unique (db_terms db)).
Context (Hact : select is_active_term (db_terms db) = [t]).
Context (Hs : by_pk (db_sessions db) (ses_pk s) = Some s).
Context (Hsch : by_pk (db_schedules db) (ses_schedule s) = Some sch).
Context (Hterm : sch_term sch = term_pk t).
Context (Hgrace : policy_num db "grace_minutes" = Some grace).

Definition on_online_now : Prop :=
  ∃ a, a ∈ db_assignments db ∧ asg_user a = usr_pk user ∧ asg_role a = DUTY_CHECKER ∧
    asg_scope a = ONLINE_SCOPE ∧ asg_status a = "active"%string ∧ asg_term a = Some (term_pk t) ∧
    assignment_covers_now a (PyTime.local_date now) (PyTime.local_time now) = true.
(** The session is the checker's to verify, now. *)
Definition may_verify : Prop :=
  effective_modality db s = Some ONLINE ∧ ses_online_checker s = Some (usr_pk user) ∧
  on_online_now ∧ ses_status s ≠ ABSENT ∧ ses_status s ≠ COMPLETED.
Definition online_permitted (a : ValidationAction) (note : string) : Prop :=
  may_verify ∧ (a = VERIFIED ∨ (a = FLAG_NOT_PRESENT ∧ blank note = false)).

Lemma online_session_wp sid (Q : exn + option Session → DB → Prop) :
  PyStr.isdigit sid = true → PyStr.int sid = Some (ses_pk s) →
  Q (inr (if effective_online db s && bool_decide (ses_online_checker s = Some (usr_pk user))
          then Some s else None)) db →
  wp (online_session sid (usr_pk user)) Q db.
Proof using Huniq Hact Hs Hsch Hterm.
  intros Hd Hi HQ. unfold online_session. rewrite Hd. cbn [negb]. apply (wp_active_term db t Hact).
  wp_step. unfold find_in_term. wp_step. rewrite Hi, find_own; try done.
  unfold session_term. rewrite Hsch. simpl. by rewrite Hterm.
Qed.
Lemma online_duty_wp (Q : exn + bool → DB → Prop) :
  (∀ b : bool, (b = true ↔ on_online_now) → Q (inr b) db) →
  wp (is_online_on_duty (usr_pk user) now) Q db.
Proof using Hact.
  intros HQ. unfold is_online_on_duty. apply (wp_active_term db t Hact). wp_step. apply HQ.
  unfold on_online_now, duty_posting. rewrite existsb_elem. split; intros (a & Ha & H); exists a.
  - b2p. tauto.
  - split; [done|]. b2p. tauto.
Qed.

(** Recording and applying an online action. *)
Lemma online_apply_wp a note idm C room :
  a = VERIFIED ∨ a = FLAG_NOT_PRESENT →
  wp (apply_action user (Some s) room a note idm (Some now) false true now) (λ r db',
    ∃ cv, r = inr cv ∧ val_session cv = Some (ses_pk s) ∧ val_checker cv = usr_pk user ∧
      val_action cv = a ∧ db_validations db' = db_validations db ++ [cv] ∧
      db_sessions db' = update_where (online_fills db s a now grace (sch_term sch))
        (fill_online a now) (update_pk (ses_pk s) (mark_online a now) (db_sessions db)))
    (db <| db_cache := C |>).
Proof using Huniq Huniqt Hact Hs Hsch Hterm Hgrace.
  intros Ha. unfold apply_action. wp_step. wp_step.
  cbn [tbl set_tbl table_CheckerValidation]. wp_step.
  apply wp_logging; [apply logging_audit|]. intros db1 (A1 & N1 & ->).
  cbn [when]. change (default now (Some now)) with now. wp_step.
  match goal with |- wp _ _ ?d => eapply wp_mono; [by apply
    (online_effect_wp d t s sch grace now Huniq Huniqt Hact Hs Hsch Hterm Hgrace)|] end.
  cbv beta. intros r db2 (-> & A2 & N2 & ->). wp_step. apply wp_logging.
  { apply logging_when, logging_bind; [|intros _]; apply logging_notify. }
  intros db3 (A3 & N3 & ->). wp_step. by eexists.
Qed.

Lemma online_action_wp sid a note :
  PyStr.isdigit sid = true → PyStr.int sid = Some (ses_pk s) →
  is_some (by_pk (db_rooms db) (ses_room s)) = true →
  let key := action_idem (usr_pk user) (ses_pk s) now a in
  wp (online_action user sid a note now) (λ r db', ∃ reply, r = inr reply ∧
    ((¬ online_permitted a note ∧ rp_applied reply = None ∧ logs_only db db') ∨
     (online_permitted a note ∧ rp_applied reply = Some a ∧
      ((seen_this_minute db key now ∧ db' = db) ∨
       (¬ seen_this_minute db key now ∧
        (∃ cv, db_validations db' = db_validations db ++ [cv] ∧ val_action cv = a ∧
           val_session cv = Some (ses_pk s) ∧ val_checker cv = usr_pk user) ∧
        db_sessions db' = update_where (online_fills db s a now grace (sch_term sch))
          (fill_online a now) (update_pk (ses_pk s) (mark_online a now) (db_sessions db))))))) db.
Proof using Huniq Huniqt Hact Hs Hsch Hterm Hgrace.
  intros Hd Hi Hroom key. unfold online_action. wp_step. apply online_session_wp; [done..|].
  wp_step. apply online_duty_wp. intros duty Hduty. unfold online_permitted, may_verify.
  destruct (effective_online db s && bool_decide (ses_online_checker s = Some (usr_pk user))) eqn:Eo.
  2:{ wp_step. eexists. split; [done|]. left. split; [|done]. intros [(H1 & H2 & _) _].
      unfold effective_online in Eo. by rewrite !bool_decide_true in Eo. }
  unfold effective_online in Eo. b2p. destruct Eo as [Hon Hown].
  destruct (negb duty || negb (negb (bool_decide (ses_status s ∈ [ABSENT; COMPLETED])))) eqn:Er.
  { wp_step. unfold refuse_action. apply wp_logging; [apply logging_audit|]. intros db' Hl. wp_step.
    eexists. split; [done|]. left. split; [|done]. intros [(_ & _ & H3%Hduty & H4 & H5) _].
    rewrite H3, bool_decide_false in Er; [done|]. set_solver. }
  rewrite orb_false_iff, !negb_false_iff, negb_true_iff in Er. b2p. destruct Er as [Hdt Hst].
  rewrite Hduty in Hdt.
  assert (may_verify) as Hmay by (unfold may_verify; split_and!; try done; set_solver).
  destruct (bool_decide_reflect (a ∈ [VERIFIED; FLAG_NOT_PRESENT])) as [Ha|Ha]; cbn [negb].
  2:{ wp_step. eexists. split; [done|]. left. split; [|done]. intros [_ H]. set_solver. }
  destruct (bool_decide (a = FLAG_NOT_PRESENT) && blank note) eqn:En.
  { wp_step. eexists. split; [done|]. left. split; [|done]. b2p. destruct En as [-> En].
    intros [_ [|[_ H]]]; congruence. }
  assert (a = VERIFIED ∨ a = FLAG_NOT_PRESENT) as Ha' by set_solver.
  assert (may_verify ∧ (a = VERIFIED ∨ (a = FLAG_NOT_PRESENT ∧ blank note = false))) as Hok.
  { split; [done|]. destruct Ha' as [->| ->]; [by left|right]. split; [done|]. by simpl in En. }
  wp_step. apply wp_get_pk; cbn [tbl table_Room]; [intros room _|intros Hn; by rewrite Hn in Hroom].
  wp_step. apply wp_cache_add; fold key.
  - intros Hseen. do 3 wp_step. eexists. split; [done|]. right. split; [done|]. split; [done|]. by left.
  - intros Hseen C. wp_step. wp_step. eapply wp_mono; [by apply online_apply_wp|].
    intros r db' (cv & -> & H1 & H2 & H3 & H4 & H5). do 2 wp_step. eexists. split; [done|]. right.
    split; [done|]. split; [done|]. right. split; [done|]. split; [by exists cv|done].
Qed.
End online_action.

(** C13: an online action is carried out, once a minute, exactly when the session is
    online, assigned to this checker, the checker is on online duty now, the
    session is neither absent nor completed, and the action is a verification or an
    absence with a note.  It then records itself, starts the session (or marks it
    absent) and fills exactly its merged siblings still scheduled, for an absence
    only past the grace period; otherwise only logs are written.  Nothing else is
    asked of the status: a cancelled session is started as well.  Who is neither a checker
    nor a superuser is refused. *)
Theorem online_action_exact db t s sch grace now user a action_val sid note :
  pk_unique (db_sessions db) → pk_unique (db_terms db) →
  select is_active_term (db_terms db) = [t] → by_pk (db_sessions db) (ses_pk s) = Some s →
  by_pk (db_schedules db) (ses_schedule s) = Some sch → sch_term sch = term_pk t →
  policy_num db "grace_minutes" = Some grace → is_some (by_pk (db_rooms db) (ses_room s)) = true →
  action_of action_val = Some a → PyStr.isdigit sid = true → PyStr.int sid = Some (ses_pk s) →
  let key := action_idem (usr_pk user) (ses_pk s) now a in
  ∃ p, (∀ x, p x = true ↔
          (a ≠ VERIFIED → ses_sched_start s + PyTime.minutes grace < now) ∧
          sibling db s (term_pk t) x ∧ ses_status x = SCHEDULED) ∧
    wp (action user action_val "" sid note now) (λ r db',
      (¬ plays CHECKER user ∧ r = inl PermissionDenied ∧ db' = db) ∨
      plays CHECKER user ∧ ∃ reply, r = inr reply ∧
      ((¬ online_permitted db t s now user a note ∧ rp_applied reply = None ∧ logs_only db db') ∨
       (online_permitted db t s now user a note ∧ rp_applied reply = Some a ∧
        ((seen_this_minute db key now ∧ db' = db) ∨
         (¬ seen_this_minute db key now ∧
          (∃ cv, db_validations db' = db_validations db ++ [cv] ∧ val_action cv = a ∧
             val_session cv = Some (ses_pk s) ∧ val_checker cv = usr_pk user) ∧
          db_sessions db' = update_where p (fill_online a now)
            (update_pk (ses_pk s) (mark_online a now) (db_sessions db))))))) db.
Proof.
  intros Hu Hut Hact Hs Hsch Hterm Hg Hroom Ha Hd Hi key.
  exists (online_fills db s a now grace (sch_term sch)). split.
  - intros x. rewrite online_fills_iff, Hterm. done.
  - unfold action. rewrite Ha. rewrite (bool_decide_true (""%string = ""%string)) by done.
    rewrite (bool_decide_false (sid = ""%string)) by by intros ->. cbn [andb negb].
    apply wp_gated; [by left|]. intros Hp. eapply wp_mono; [by apply (online_action_wp db t s sch grace now user)|].
    intros r db' H. by right.
Qed.

(** ** Witnesses *)
Definition checker_posting (k : Z) (scope : AssignmentScope) : Assignment :=
  {| asg_pk := k; asg_user := 2; asg_role := DUTY_CHECKER; asg_floors := [1];
     asg_scope := scope; asg_date := None; asg_start := None; asg_end := None;
     asg_term := Some 1; asg_status := "active"; asg_type := STANDING |}.
Definition demo_checker : User := demo_user 2 "Ben" CHECKER.
(** The class of room 1 has started; a checker is on duty on the floor. *)
Definition demo_started : DB :=
  demo_db <| db_sessions := [demo_session 1 monday ACTIVE] |>
          <| db_assignments := [checker_posting 1 FLOOR_SCOPE; checker_posting 2 ONLINE_SCOPE] |>.
Lemma room_action_exact_witness :
  let cur := current_session demo_started demo_term (demo_room 1 "M-101") (at_ 9 10) in
  let key := action_idem 2 (scope_key cur (demo_room 1 "M-101")) (at_ 9 10) VERIFIED in
  wp (action demo_checker "verified" "1" "" "" (at_ 9 10)) (λ r db',
    (¬ plays CHECKER demo_checker ∧ r = inl PermissionDenied ∧ db' = demo_started) ∨
    plays CHECKER demo_checker ∧ db_sessions db' = db_sessions demo_started ∧ ∃ reply, r = inr reply ∧
    ((¬ permitted demo_started demo_term 2 (demo_room 1 "M-101") VERIFIED "" (at_ 9 10) ∧
      rp_applied reply = None ∧ logs_only demo_started db') ∨
     (permitted demo_started demo_term 2 (demo_room 1 "M-101") VERIFIED "" (at_ 9 10) ∧
      rp_applied reply = Some VERIFIED ∧
      ((seen_this_minute demo_started key (at_ 9 10) ∧ db' = demo_started) ∨
       (¬ seen_this_minute demo_started key (at_ 9 10) ∧ ∃ cv,
          db_validations db' = db_validations demo_started ++ [cv] ∧
          val_session cv = ses_pk <$> cur ∧ val_room cv = 1 ∧ val_checker cv = 2 ∧
          val_action cv = VERIFIED ∧ val_note cv = ""%string))))) demo_started ∧
  length (db_validations (exec (action demo_checker "verified" "1" "" "" (at_ 9 10)) demo_started)) = 1%nat.
Proof.
  split; [|vm_compute; reflexivity].
  apply (room_action_exact demo_started demo_term demo_checker (demo_room 1 "M-101") VERIFIED ""
    (at_ 9 10) "verified" "1" ""); reflexivity.
Defined.

Definition demo_uuid : string := "12345678-1234-5678-1234-567812345678".
Definition queue_item (uuid session action : json) : json :=
  JObj [("client_uuid", uuid); ("token", JStr "M-101"); ("session_id", session); ("action", action);
        ("note", JNull); ("scanned_at", JStr "x")]%string.
Definition demo_queue : list json :=
  [queue_item (JStr demo_uuid) (JInt 1) (JStr "verified"); queue_item (JStr demo_uuid) (JStr "1") (JStr "verified");
   queue_item (JStr "oops") (JStr "1") (JStr "verified"); queue_item (JStr (PyUuid.str 7)) (JInt 2) (JStr "verified");
   JStr "no object"; queue_item (JStr (PyUuid.str 8)) (JInt 1) (JStr "verified")].
Definition demo_payload : json := JObj [("items"%string, JList demo_queue)].
Lemma replay_exactly_once_witness :
  wp (replay (λ _, inr None) (λ _, "") demo_checker (Some demo_payload) (at_ 9 10)) (λ r db', ∃ results R V,
    match r with
    | inr answer => answer = Some results ∧ length results = length demo_queue
    | inl _ => ∃ item, demo_queue !! length results = Some item ∧ ¬ sound (λ _, inr None) (λ _, "") item
    end ∧
    grown demo_started R V db' ∧
    (NoDup (rcp_uuid <$> db_receipts demo_started) → NoDup (rcp_uuid <$> db_receipts db')) ∧
    receipt_of <$> R = (λ x, (rr_uuid x, rr_status x)) <$> select claimed results ∧
    length V = length (select applied results) ∧
    (∀ v, v ∈ V → replayed demo_checker (at_ 9 10) demo_term demo_started v) ∧
    (∀ user2 now2, ∃ results2,
       replay_items (λ _, inr None) (λ _, "") user2 now2 (take (length results) demo_queue) db' = (inr results2, db') ∧
       select claimed results2 = [])) demo_started ∧
  (rcp_status <$> db_receipts (exec (replay (λ _, inr None) (λ _, "") demo_checker (Some demo_payload) (at_ 9 10))
     demo_started)) = ["applied"; "flagged"]%string ∧
  match run (replay_items (λ _, inr None) (λ _, "") demo_checker (at_ 9 10) (take 4 demo_queue)) demo_started with
  | inr results => rr_status <$> results
  | inl _ => []
  end = ["applied"; "duplicate"; "flagged"; "flagged"]%string.
Proof.
  split; [|split; vm_compute; reflexivity].
  apply (replay_exactly_once (λ _, inr None) (λ _, ""%string) demo_started demo_checker (at_ 9 10) demo_term 5
    demo_payload demo_queue); [by left| |reflexivity].
  split; [reflexivity|]. split; [reflexivity|]. by intros e ?%not_elem_of_nil.
Defined.

(** A suspended online class, its checker on duty: the verification starts it. *)
Definition demo_suspended : Session :=
  (demo_session 1 monday CANCELLED) <| ses_declared := Some ONLINE |>
    <| ses_online_checker := Some 2 |>.
Definition demo_online_duty : DB :=
  demo_started <| db_sessions := [demo_suspended] |>.
Lemma online_action_exact_witness :
  (∃ p, (∀ x, p x = true ↔
          (VERIFIED ≠ VERIFIED → at_ 9 0 + PyTime.minutes 15 < at_ 9 10) ∧
          sibling demo_online_duty demo_suspended 1 x ∧ ses_status x = SCHEDULED) ∧
    wp (action demo_checker "verified" "" "1" "" (at_ 9 10)) (λ r db',
      (¬ plays CHECKER demo_checker ∧ r = inl PermissionDenied ∧ db' = demo_online_duty) ∨
      plays CHECKER demo_checker ∧ ∃ reply, r = inr reply ∧
      ((¬ online_permitted demo_online_duty demo_term demo_suspended (at_ 9 10) demo_checker VERIFIED ""
        ∧ rp_applied reply = None ∧ logs_only demo_online_duty db') ∨
       (online_permitted demo_online_duty demo_term demo_suspended (at_ 9 10) demo_checker VERIFIED ""
        ∧ rp_applied reply = Some VERIFIED ∧
        ((seen_this_minute demo_online_duty (action_idem 2 1 (at_ 9 10) VERIFIED) (at_ 9 10) ∧
          db' = demo_online_duty) ∨
         (¬ seen_this_minute demo_online_duty (action_idem 2 1 (at_ 9 10) VERIFIED) (at_ 9 10) ∧
          (∃ cv, db_validations db' = db_validations demo_online_duty ++ [cv] ∧
             val_action cv = VERIFIED ∧ val_session cv = Some 1 ∧ val_checker cv = 2) ∧
          db_sessions db' = update_where p (fill_online VERIFIED (at_ 9 10))
            (update_pk 1 (mark_online VERIFIED (at_ 9 10)) (db_sessions demo_online_duty)))))))
      demo_online_duty) ∧
  ses_status <$> db_sessions (exec (action demo_checker "verified" "" "1" "" (at_ 9 10))
    demo_online_duty) = [ACTIVE].
Proof.
  split; [|vm_compute; reflexivity].
  apply (online_action_exact demo_online_duty demo_term demo_suspended demo_schedule 15 (at_ 9 10)
    demo_checker VERIFIED "verified" "1" ""); try reflexivity; decide_now.
Defined.
