(* ===== verification/Materialization.v ===== *)
(** scheduling/materialization.py: creating the dated sessions of a term. *)
From S2P Require Import Prelude Python Model Effects Ops Sample Suspensions Availability.
Open Scope Z_scope.

Record MaterializationResult := mk_result { created : Z; existed : Z; skipped : Z }.

(** ** _apply_approved_shift *)
Definition decided_desc (db : DB) (a b : ModalityShiftItem) : bool :=
  opt_leb (decided_key db b) (decided_key db a).
Definition approved_shifts (db : DB) (sch d : Z) : list ModalityShiftItem :=
  sort_by (decided_desc db) (select (λ it, (it_schedule it =? sch) && approved_on db d it)
                               (db_items db)).
Definition day_name (d : Z) : string :=
  nth (Z.to_nat d) ["Monday"; "Tuesday"; "Wednesday"; "Thursday"; "Friday"; "Saturday"; "Sunday"] ""
    %string.
(** [str(schedule)] *)
Definition schedule_str (s : Schedule) : string :=
  sch_course_code s +:+ "-" +:+ sch_section s +:+ " (" +:+ day_name (sch_day s) +:+ ")".

Definition stamp_modality (r : ModalityShiftRequest) (s : Session) : Session :=
  s <| ses_declared := Some (req_target r) |> <| ses_mod_at := req_decided_at r |>
    <| ses_mod_by := req_decided_by r |>.
(** The columns written for a shift with a reserved room. *)
Definition move_session (r : ModalityShiftRequest) (it : ModalityShiftItem) (room date : Z)
    (s : Session) : Session :=
  let s := stamp_modality r (s <| ses_room := room |>) in
  match it_new_start it, it_new_end it with
  | Some st, Some en =>
      s <| ses_sched_start := PyTime.aware date st |> <| ses_sched_end := PyTime.aware date en |>
  | _, _ => s
  end.

Definition apply_approved_shift (session : Z) (sch : Schedule) (date now : Z) : M unit :=
  read (λ db, approved_shifts db (sch_pk sch) date) ≫= λ items,
  match items with
  | [] => mret ()
  | item :: _ =>
      get_pk (R:=ModalityShiftRequest) (it_request item) ≫= λ request,
      let when_ := default now (req_decided_at request) in
      if bool_decide (req_target request = ONLINE) then
        save session (stamp_modality request) ≫= λ _,
        release_room session (req_decided_by request) when_
      else
        match it_assigned item with
        | None =>
            notify [] (Some IFO_ADMIN) "modality_materialize_no_room"
              "Modality shift: no reserved room at materialize"
              ("Session for " +:+ schedule_str sch +:+ " on " +:+ PyTime.date_str date
               +:+ " was born in its original room -- the approved shift had no reserved room.")
              "/ifo" ≫= λ _,
            save session (stamp_modality request)
        | Some room => save session (move_session request item room date)
        end
  end.

(** ** materialize_term *)
Definition validate_term (term : option AcademicTerm) (allow_draft : bool) : M AcademicTerm :=
  match term with
  | None => raise (MaterializationError "materialization requires a persisted term")
  | Some t =>
      match term_status t with
      | T_ARCHIVED => raise (MaterializationError "ARCHIVED terms cannot be materialized")
      | T_DRAFT =>
          if allow_draft then mret t
          else raise (MaterializationError "DRAFT terms cannot be materialized publicly")
      | T_ACTIVE => mret t
      end
  end.

(** The session [get_or_create] inserts. *)
Definition new_session (sch : Schedule) (date k : Z) : Session :=
  {| ses_pk := k; ses_schedule := sch_pk sch; ses_faculty := sch_faculty sch;
     ses_room := sch_room sch; ses_date := date;
     ses_sched_start := PyTime.aware date (sch_start sch);
     ses_sched_end := PyTime.aware date (sch_end sch); ses_status := SCHEDULED;
     ses_actual_start := None; ses_actual_end := None; ses_method := None; ses_declared := None;
     ses_mod_at := None; ses_mod_by := None; ses_handover := None; ses_teams_link := "";
     ses_online_checker := None; ses_ended_early := false; ses_early_reason := "";
     ses_released_at := None; ses_cancel_reason := "" |}.
Definition occurrence_of (sch : Schedule) (date : Z) (s : Session) : bool :=
  (ses_schedule s =? sch_pk sch) && (ses_date s =? date).
(** [Session.objects.get_or_create(schedule, date, defaults=...)]: the key and
    whether it was created. *)
Definition get_or_create_session (sch : Schedule) (date : Z) : M (Z * bool) :=
  objects (occurrence_of sch date) ≫= λ found,
  match found with
  | [] => create (new_session sch date) ≫= λ s, mret (ses_pk s, true)
  | [s] => mret (ses_pk s, false)
  | _ => raise MultipleObjectsReturned
  end.

(** One schedule on one date *)
Definition materialize_one (exc : Excusal) (now date : Z) (acc : MaterializationResult)
    (sch : Schedule) : M MaterializationResult :=
  if negb (sch_day sch =? PyTime.weekday date) then mret acc
  else
    read (λ db, excused exc date (room_building db (sch_room sch))) ≫= λ is_excused : bool,
    if is_excused then mret (mk_result (created acc) (existed acc) (skipped acc + 1))
    else
      get_or_create_session sch date ≫= λ r : Z * bool,
      if r.2 then
        apply_approved_shift r.1 sch date now ≫= λ _,
        mret (mk_result (created acc + 1) (existed acc) (skipped acc))
      else mret (mk_result (created acc) (existed acc + 1) (skipped acc)).

Definition materialize_term (term : option AcademicTerm) (start days : Z) (allow_draft : bool)
    (now : Z) : M MaterializationResult :=
  validate_term term allow_draft ≫= λ t,
  guard_m (1 <=? days) (MaterializationError "materialization days must be positive") ≫= λ _,
  let raw_end := start + days in
  let current := Z.max start (term_start t) in
  let end_ := Z.min raw_end (term_end t + 1) in
  if end_ <=? current then mret (mk_result 0 0 0)
  else
    excused_checker (Some t) ≫= λ exc,
    objects (λ sch, (sch_term sch =? term_pk t) && bool_decide (sch_status sch = SCH_ACTIVE))
    ≫= λ schedules,
    fold_m (λ acc date, fold_m (materialize_one exc now date) acc schedules)
           (mk_result 0 0 0) (seqZ current (end_ - current)).

(** ** What materialization creates *)

(** A session as born on a date: the schedule's own, or as its approved shift says. *)
Definition born (db : DB) (sch : Schedule) (date now k : Z) : Session :=
  let s := new_session sch date k in
  match approved_shifts db (sch_pk sch) date with
  | [] => s
  | it :: _ =>
      match item_request db it with
      | None => s
      | Some r =>
          if bool_decide (req_target r = ONLINE)
          then stamp_modality r s <| ses_released_at := Some (default now (req_decided_at r)) |>
          else match it_assigned it with
               | None => stamp_modality r s
               | Some room => move_session r it room date s
               end
      end
  end.
Definition occurrences (schedules : list Schedule) (dates : list Z) : list (Z * Schedule) :=
  concat ((λ d, pair d <$> schedules) <$> dates).
Definition meets_on (p : Z * Schedule) : bool := sch_day p.2 =? PyTime.weekday p.1.
Definition excused_on (db : DB) (exc : Excusal) (p : Z * Schedule) : bool :=
  excused exc p.1 (room_building db (sch_room p.2)).
Definition exists_already (db : DB) (p : Z * Schedule) : bool :=
  existsb (occurrence_of p.2 p.1) (db_sessions db).
Definition due (db : DB) (exc : Excusal) (p : Z * Schedule) : bool :=
  meets_on p && negb (excused_on db exc p).
Definition to_create (db : DB) (exc : Excusal) (p : Z * Schedule) : bool :=
  due db exc p && negb (exists_already db p).
(** The new sessions, keyed from the next free key on. *)
Definition births (db : DB) (now : Z) (l : list (Z * Schedule)) : list Session :=
  imap (λ i p, born db p.2 p.1 now (fresh_pk (db_sessions db) + Z.of_nat i)) l.

Lemma born_fields db sch d now k :
  let s := born db sch d now k in
  ses_pk s = k ∧ ses_schedule s = sch_pk sch ∧ ses_date s = d ∧ ses_status s = SCHEDULED ∧
  ses_faculty s = sch_faculty sch.
Proof.
  unfold born, move_session. destruct (approved_shifts db (sch_pk sch) d) as [|it l]; [done|].
  destruct (item_request db it) as [r|]; [|done]. case_bool_decide; [done|].
  destruct (it_assigned it); [|done]. destruct (it_new_start it), (it_new_end it); done.
Qed.

Section births.
Context (db : DB) (now : Z).
Lemma births_snoc l p :
  births db now (l ++ [p]) =
  births db now l ++ [born db p.2 p.1 now (fresh_pk (db_sessions db) + Z.of_nat (length l))].
Proof. unfold births. rewrite imap_app. simpl. by rewrite Nat.add_0_r. Qed.
Lemma elem_of_births l s :
  s ∈ births db now l → ∃ p k, p ∈ l ∧ s = born db p.2 p.1 now k.
Proof.
  intros (i & p & -> & Hp)%elem_of_lookup_imap. exists p, (fresh_pk (db_sessions db) + Z.of_nat i).
  split; [|done]. by eapply list_elem_of_lookup_2.
Qed.
Lemma births_occurrence l p :
  pk_unique (db_schedules db) → (∀ q, q ∈ p :: l → q.2 ∈ db_schedules db) → p ∉ l →
  select (occurrence_of p.2 p.1) (births db now l) = [].
Proof.
  intros Hu Hin Hp. apply select_nil. intros s Hs. apply elem_of_births in Hs as (q & k & Hq & ->).
  destruct (born_fields db q.2 q.1 now k) as (_ & Hs & Hd & _). unfold occurrence_of.
  rewrite Hs, Hd. apply not_true_is_false. intros H. b2p. destruct H as [H1 H2].
  apply Hp. assert (q.2 = p.2) as Heq.
  { apply (pk_inj (db_schedules db)); [done|by apply Hin; right|by apply Hin; left|done]. }
  by destruct p, q; simpl in *; subst.
Qed.
Lemma births_pks l :
  pk_unique (db_sessions db) →
  pk_unique (db_sessions db ++ births db now l) ∧
  fresh_pk (db_sessions db ++ births db now l) = fresh_pk (db_sessions db) + Z.of_nat (length l).
Proof.
  intros Hu. induction l as [|p l [IHu IHf]] using rev_ind.
  - rewrite app_nil_r. split; [done|]. simpl. lia.
  - rewrite births_snoc, app_assoc, length_app. simpl.
    destruct (born_fields db p.2 p.1 now (fresh_pk (db_sessions db) + Z.of_nat (length l)))
      as (Hpk & _). split.
    + apply pk_unique_insert; [done|]. rewrite IHf. exact Hpk.
    + rewrite fresh_pk_snoc; [lia|]. rewrite IHf. exact Hpk.
Qed.
End births.

(** Shaping the session just inserted gives it as [born] says. *)
Lemma apply_approved_shift_wp db0 T sch date now k (Q : exn + unit → DB → Prop) db :
  (∀ x, x ∈ T → ses_pk x ≠ k) → db_sessions db = T ++ [new_session sch date k] →
  db_items db = db_items db0 → db_requests db = db_requests db0 →
  (∀ db', logs_only (db <| db_sessions := T ++ [born db0 sch date now k] |>) db' →
     Q (inr ()) db') →
  wp (apply_approved_shift k sch date now) Q db.
Proof.
  intros HT Hs Hi Hr HQ. unfold apply_approved_shift. wp_step. wp_step.
  assert (approved_shifts db (sch_pk sch) date = approved_shifts db0 (sch_pk sch) date) as Hsh.
  { unfold approved_shifts, decided_desc, decided_key, approved_on, item_request.
    by rewrite Hi, Hr. }
  assert (existing (db_sessions db) k = true) as Hex.
  { rewrite Hs. apply existsb_elem. exists (new_session sch date k). split; [set_solver|].
    simpl. by b2p. }
  assert (∀ f, update_pk k f (db_sessions db) = T ++ [f (new_session sch date k)]) as Hup.
  { intros f. rewrite Hs. by apply update_pk_snoc. }
  rewrite Hsh. unfold born in HQ. destruct (approved_shifts db0 (sch_pk sch) date) as [|it l] eqn:E.
  { wp_step. apply HQ. rewrite <- Hs. by destruct db. }
  assert (it ∈ approved_shifts db0 (sch_pk sch) date) as Hit by (rewrite E; left).
  unfold approved_shifts in Hit. rewrite elem_of_sort_by, elem_of_select in Hit. b2p.
  rewrite approved_on_iff in Hit. destruct Hit as (_ & _ & r & Hreq & _). rewrite Hreq in HQ.
  wp_step. apply wp_get_pk; simpl; rewrite Hr; unfold item_request in Hreq; rewrite Hreq; [|done].
  intros r' [= <-]. case_bool_decide.
  - wp_step. apply wp_save; simpl; rewrite ?Hex; [intros _|done]. unfold release_room. wp_step.
    apply wp_save; simpl; rewrite Hup.
    2:{ intros Hn. exfalso. rewrite existing_by_pk in Hn. unfold update_pk in Hn.
        by rewrite by_pk_app_new in Hn by (done || by apply by_pk_None). }
    intros _. rewrite (update_pk_snoc T) by done. wp_log. by apply HQ.
  - destruct (it_assigned it) as [room|].
    + apply wp_save; simpl; rewrite ?Hex, ?Hup; [intros _|done]. by apply HQ.
    + wp_step. apply wp_logging; [apply logging_notify|]. intros db1 (A & N & ->).
      apply wp_save; simpl; rewrite ?Hex, ?Hup; [intros _|done]. apply HQ. by exists A, N.
Qed.

(** *** The loop over the occurrences *)
Definition one_per_occurrence (t : list Session) : Prop :=
  NoDup ((λ s, (ses_schedule s, ses_date s)) <$> t).
Lemma occurrence_inj t s s' :
  one_per_occurrence t → s ∈ t → s' ∈ t → ses_schedule s = ses_schedule s' →
  ses_date s = ses_date s' → s = s'.
Proof.
  unfold one_per_occurrence. induction t as [|x t IH]; [by intros _ ?%not_elem_of_nil|].
  rewrite fmap_cons, NoDup_cons. intros [Hx Hnd] [->|Hs]%elem_of_cons [->|Hs']%elem_of_cons Hk Hd;
    [done| | |by apply IH]; destruct Hx; apply list_elem_of_fmap;
    [exists s'|exists s]; split; congruence.
Qed.
Lemma occurrence_once t sch d :
  one_per_occurrence t →
  select (occurrence_of sch d) t = [] ∨ ∃ s, select (occurrence_of sch d) t = [s].
Proof.
  unfold one_per_occurrence. induction t as [|s t IH]; [by left|]. rewrite fmap_cons, NoDup_cons.
  intros [Hs Hnd]. rewrite select_cons. destruct (occurrence_of sch d s) eqn:E; [|auto].
  right. exists s. f_equal. apply select_nil. intros x Hx. apply not_true_is_false. intros Hx'.
  apply Hs. apply list_elem_of_fmap. exists x. split; [|done]. unfold occurrence_of in *. b2p.
  destruct E, Hx'. congruence.
Qed.

Section loop.
Context (db : DB) (exc : Excusal) (now : Z) (ps : list (Z * Schedule)).
Context (Huniq : pk_unique (db_sessions db)) (Husch : pk_unique (db_schedules db)).
Context (Honce : one_per_occurrence (db_sessions db)) (Hps : NoDup ps).
Context (Hsch : ∀ p, p ∈ ps → p.2 ∈ db_schedules db).

Definition tally (l : list (Z * Schedule)) : MaterializationResult :=
  mk_result (Z.of_nat (length (select (to_create db exc) l)))
            (Z.of_nat (length (select (λ p, due db exc p && exists_already db p) l)))
            (Z.of_nat (length (select (λ p, meets_on p && excused_on db exc p) l))).
Definition materialized (l : list (Z * Schedule)) (db' : DB) : Prop :=
  logs_only (db <| db_sessions :=
    db_sessions db ++ births db now (select (to_create db exc) l) |>) db'.

Lemma step_wp l p todo db' :
  ps = l ++ p :: todo → materialized l db' →
  wp (materialize_one exc now p.1 (tally l) p.2) (λ r db'', match r with
    | inl _ => False
    | inr c => c = tally (l ++ [p]) ∧ materialized (l ++ [p]) db'' end) db'.
Proof using All.
  intros Hl (A & N & ->). unfold materialize_one, materialized, tally.
  rewrite !select_app, !select_cons, !length_app. unfold to_create, due.
  change (sch_day p.2 =? PyTime.weekday p.1) with (meets_on p).
  destruct (meets_on p) eqn:Em; simpl.
  2:{ wp_step. rewrite !app_nil_r, !Nat.add_0_r. split; [done|]. by exists A, N. }
  wp_step. wp_step. unfold room_building at 1. simpl. fold (room_building db (sch_room p.2)).
  unfold excused_on. destruct (excused exc p.1 (room_building db (sch_room p.2))) eqn:Ex; simpl.
  { wp_step. rewrite !app_nil_r, !Nat.add_0_r. split; [f_equal; simpl; lia|]. by exists A, N. }
  wp_step. unfold get_or_create_session. wp_step. wp_step. cbn [tbl table_Session db_sessions].
  simpl. rewrite select_app. set (todo_l := select _ l).
  rewrite births_occurrence; [|done| |].
  2:{ intros q Hq. apply Hsch. rewrite Hl. apply elem_of_cons in Hq as [->|Hq]; [set_solver|].
      apply elem_of_select in Hq as [Hq _]. set_solver. }
  2:{ intros [Hp _]%elem_of_select. rewrite Hl in Hps. apply NoDup_app in Hps as (_ & Hd & _).
      apply (Hd p Hp). left. }
  rewrite app_nil_r. unfold exists_already.
  destruct (occurrence_once _ p.2 p.1 Honce) as [Hno|[s Hone]].
  - rewrite Hno. rewrite select_nil in Hno.
    rewrite (proj2 (existsb_elem_false _ _) Hno). simpl. wp_step. wp_step.
    cbn [tbl set_tbl table_Session]. simpl. wp_step. cbn [fst snd]. wp_step.
    destruct (births_pks db now todo_l Huniq) as [_ Hfresh].
    eapply (apply_approved_shift_wp db (db_sessions db ++ births db now todo_l)); try done.
    + intros x Hx. apply fresh_pk_gt in Hx. unfold pk, pk_Session in *. simpl in *. lia.
    + simpl. intros db'' (A' & N' & ->). wp_step. simpl. rewrite !Nat.add_0_r. split.
      { f_equal. lia. }
      rewrite births_snoc, Hfresh. eexists (A ++ A'), (N ++ N'). simpl.
      by rewrite !app_assoc.
  - rewrite Hone. assert (existsb (occurrence_of p.2 p.1) (db_sessions db) = true) as ->.
    { apply existsb_elem. exists s. rewrite <- elem_of_select, Hone. left. }
    simpl. wp_step. cbn [snd]. wp_step. rewrite !app_nil_r, !Nat.add_0_r. split; [f_equal; simpl; lia|].
    by exists A, N.
Qed.

Lemma loop_wp :
  wp (fold_m (λ acc p, materialize_one exc now p.1 acc p.2) (mk_result 0 0 0) ps) (λ r db',
    r = inr (tally ps) ∧ materialized ps db') db.
Proof using All.
  apply wp_mono with (λ r db', match r with
    | inl _ => False | inr c => c = tally ps ∧ materialized ps db' end).
  2:{ intros [e|c] db'; [done|]. by intros [-> ?]. }
  apply (wp_fold_m _ _ _ (λ l c db', c = tally l ∧ materialized l db') (λ _ _, False)).
  - split; [done|]. unfold materialized. simpl. rewrite app_nil_r. by destruct db.
  - intros l p todo c db' Hl [-> Hm]. by eapply step_wp.
Qed.
End loop.

(** *** The window of a run and the exact effect *)
Definition window (t : AcademicTerm) (start days : Z) : list Z :=
  let current := Z.max start (term_start t) in
  seqZ current (Z.min (start + days) (term_end t + 1) - current).
Definition term_schedules (db : DB) (t : AcademicTerm) : list Schedule :=
  select (λ sch, (sch_term sch =? term_pk t) && bool_decide (sch_status sch = SCH_ACTIVE))
         (db_schedules db).
Definition window_occurrences (db : DB) (t : AcademicTerm) (start days : Z)
    : list (Z * Schedule) :=
  occurrences (term_schedules db t) (window t start days).

Lemma elem_of_occurrences l ds p : p ∈ occurrences l ds ↔ p.1 ∈ ds ∧ p.2 ∈ l.
Proof.
  unfold occurrences. rewrite list_elem_of_In, in_concat. setoid_rewrite <- list_elem_of_In.
  split.
  - intros (x & (d & -> & Hd)%list_elem_of_fmap & (s & -> & Hs)%list_elem_of_fmap). done.
  - intros [Hd Hs]. exists (pair p.1 <$> l). split.
    + apply list_elem_of_fmap. by exists p.1.
    + apply list_elem_of_fmap. exists p.2. by destruct p.
Qed.
Lemma NoDup_occurrences l ds : NoDup l → NoDup ds → NoDup (occurrences l ds).
Proof.
  intros Hl Hds. unfold occurrences. induction Hds as [|d ds Hd _ IH]; [constructor|].
  rewrite fmap_cons. cbn [concat]. apply NoDup_app. split; [|split; [|done]].
  - apply NoDup_fmap_2; [|done]. by intros x y [= ->].
  - intros p (s & -> & _)%list_elem_of_fmap Hp.
    change (concat _) with (occurrences l ds) in Hp. apply elem_of_occurrences in Hp as [? _]. done.
Qed.
Lemma elem_of_window t start days d :
  d ∈ window t start days ↔ start ≤ d < start + days ∧ term_start t ≤ d ≤ term_end t.
Proof. unfold window. rewrite elem_of_seqZ. lia. Qed.

Definition can_materialize (t : AcademicTerm) (allow_draft : bool) : Prop :=
  term_status t = T_ACTIVE ∨ (term_status t = T_DRAFT ∧ allow_draft = true).

Section run.
Context (db : DB) (t : AcademicTerm) (start days now : Z) (allow_draft : bool).
Context (Huniq : pk_unique (db_sessions db)) (Husch : pk_unique (db_schedules db)).
Context (Honce : one_per_occurrence (db_sessions db)).
Context (Hcan : can_materialize t allow_draft) (Hdays : 1 ≤ days).
Let exc := excused_checker_of db (Some t).
Let ps := window_occurrences db t start days.

Lemma materialize_term_wp :
  wp (materialize_term (Some t) start days allow_draft now) (λ r db',
    r = inr (tally db exc ps) ∧ materialized db exc now ps db') db.
Proof using All.
  unfold materialize_term. wp_step.
  assert (validate_term (Some t) allow_draft = mret t) as ->.
  { unfold validate_term. destruct Hcan as [-> |[-> ->]]; done. }
  wp_step. wp_step. wp_step; [|b2p; lia]. unfold ps, window_occurrences, window.
  destruct (Z.leb_spec (Z.min (start + days) (term_end t + 1)) (Z.max start (term_start t))) as [He|He].
  - wp_step. unfold occurrences. rewrite seqZ_nil by lia. split; [done|].
    exists [], []. simpl. rewrite !app_nil_r. by destruct db.
  - wp_step. unfold excused_checker. wp_step. wp_step. wp_step. apply wp_intro.
    intros r db' Hr. rewrite fold_m_nested in Hr.
    assert (NoDup (window_occurrences db t start days)) as Hnd; [|assert (∀ p,
      p ∈ window_occurrences db t start days → p.2 ∈ db_schedules db) as Hin]; cycle -1.
    + exact (wp_run _ _ _ _ _ (loop_wp db _ now _ Huniq Husch Honce Hnd Hin) Hr).
    + apply NoDup_occurrences; [|apply NoDup_seqZ].
      apply (NoDup_fmap_1 sch_pk), NoDup_fmap_select. exact Husch.
    + intros p [_ Hp]%elem_of_occurrences. by apply elem_of_select in Hp as [? _].
Qed.

(** Afterwards there is still one session per occurrence. *)
Lemma births_once l :
  NoDup l → (∀ p, p ∈ l → p.2 ∈ db_schedules db ∧ exists_already db p = false) →
  one_per_occurrence (db_sessions db ++ births db now l).
Proof using Husch Honce.
  unfold one_per_occurrence. intros Hnd Hl. rewrite fmap_app. apply NoDup_app.
  split; [exact Honce|]. split.
  - intros [a b] (s & [= -> ->] & Hs)%list_elem_of_fmap (s' & [= Ha Hb] & Hs')%list_elem_of_fmap.
    apply elem_of_births in Hs' as (p & k & Hp & ->).
    destruct (born_fields db p.2 p.1 now k) as (_ & H1 & H2 & _). rewrite H1, H2 in *.
    destruct (Hl p Hp) as [_ Hno]. unfold exists_already in Hno.
    rewrite existsb_elem_false in Hno. specialize (Hno s Hs). unfold occurrence_of in Hno.
    rewrite Ha, Hb, !Z.eqb_refl in Hno. done.
  - assert ((λ s, (ses_schedule s, ses_date s)) <$> births db now l =
            (λ p, (sch_pk p.2, p.1)) <$> l) as ->.
    { unfold births. rewrite fmap_imap. generalize (fresh_pk (db_sessions db)). clear.
      intros k. apply list_eq. intros i. rewrite list_lookup_imap, list_lookup_fmap.
      destruct (l !! i) as [p|]; [|done]. simpl.
      by destruct (born_fields db p.2 p.1 now (k + Z.of_nat i)) as (_ & -> & -> & _). }
    apply NoDup_fmap_2_strong; [|done]. intros p q Hp Hq [= H1 H2].
    assert (p.2 = q.2) as H3 by (eapply (pk_inj (db_schedules db)); [done|by apply Hl|by apply Hl|done]).
    by destruct p, q; simpl in *; subst.
Qed.
End run.

Lemma materialize_exact_spec db t start days now allow_draft :
  pk_unique (db_sessions db) → pk_unique (db_schedules db) →
  one_per_occurrence (db_sessions db) → can_materialize t allow_draft → 1 ≤ days →
  ∃ todo, (∀ d sch, (d, sch) ∈ todo ↔
      (start ≤ d < start + days ∧ term_start t ≤ d ≤ term_end t) ∧
      sch ∈ db_schedules db ∧ sch_term sch = term_pk t ∧ sch_status sch = SCH_ACTIVE ∧
      sch_day sch = PyTime.weekday d ∧
      ¬ calendar_excuses db (term_pk t) d (room_building db (sch_room sch)) ∧
      ∀ s, s ∈ db_sessions db → ¬ (ses_schedule s = sch_pk sch ∧ ses_date s = d)) ∧
    wp (materialize_term (Some t) start days allow_draft now) (λ r db',
      (∃ res, r = inr res ∧ created res = Z.of_nat (length todo)) ∧
      one_per_occurrence (db_sessions db') ∧ pk_unique (db_sessions db') ∧
      logs_only (db <| db_sessions := db_sessions db ++ births db now todo |>) db') db.
Proof.
  intros Hu Hus Ho Hc Hd. set (exc := excused_checker_of db (Some t)).
  set (ps := window_occurrences db t start days).
  exists (select (to_create db exc) ps). split.
  - intros d sch. unfold ps, window_occurrences, to_create, due, meets_on, excused_on, exists_already.
    rewrite elem_of_select, elem_of_occurrences, elem_of_window. unfold term_schedules.
    rewrite elem_of_select. simpl. b2p. rewrite existsb_elem_false.
    unfold exc. rewrite <- not_true_iff_false, excused_spec.
    assert (∀ s, occurrence_of sch d s = false ↔ ¬ (ses_schedule s = sch_pk sch ∧ ses_date s = d))
      as Hocc.
    { intros s. rewrite <- not_true_iff_false. unfold occurrence_of. by b2p. }
    setoid_rewrite Hocc. tauto.
  - eapply wp_mono; [by apply materialize_term_wp|]. cbv beta. intros r db' [-> (A & N & ->)].
    split; [by eexists|]. simpl.
    assert (∀ p, p ∈ select (to_create db exc) ps → p.2 ∈ db_schedules db ∧ exists_already db p = false)
      as Hl.
    { intros p [Hp Hc']%elem_of_select. apply elem_of_occurrences in Hp as [_ Hp].
      apply elem_of_select in Hp as [? _]. unfold to_create in Hc'. b2p. split; [done|tauto]. }
    split; [|split; [by apply births_pks|by exists A, N]].
    apply births_once; [done|done| |exact Hl].
    apply (NoDup_fmap_1 id), NoDup_fmap_select. rewrite list_fmap_id. apply NoDup_occurrences.
    + apply (NoDup_fmap_1 sch_pk), NoDup_fmap_select. exact Hus.
    + apply NoDup_seqZ.
Qed.

(** C7: materializing a term creates a session for exactly the occurrences of its
    active schedules that fall in the window and in the term, on the schedule's
    weekday, on a date nothing excuses, and that have none yet; each is born as
    its schedule, or the last approved shift of that date, says; existing sessions
    are untouched, there is still one session per occurrence, and only the logs
    grow besides. *)
Theorem materialize_exact db t start days now allow_draft :
  pk_unique (db_sessions db) → pk_unique (db_schedules db) →
  one_per_occurrence (db_sessions db) → can_materialize t allow_draft → 1 ≤ days →
  ∃ todo, (∀ d sch, (d, sch) ∈ todo ↔
      (start ≤ d < start + days ∧ term_start t ≤ d ≤ term_end t) ∧
      sch ∈ db_schedules db ∧ sch_term sch = term_pk t ∧ sch_status sch = SCH_ACTIVE ∧
      sch_day sch = PyTime.weekday d ∧
      ¬ calendar_excuses db (term_pk t) d (room_building db (sch_room sch)) ∧
      ∀ s, s ∈ db_sessions db → ¬ (ses_schedule s = sch_pk sch ∧ ses_date s = d)) ∧
    wp (materialize_term (Some t) start days allow_draft now) (λ r db',
      (∃ res, r = inr res ∧ created res = Z.of_nat (length todo)) ∧
      one_per_occurrence (db_sessions db') ∧ pk_unique (db_sessions db') ∧
      logs_only (db <| db_sessions := db_sessions db ++ births db now todo |>) db') db.
Proof. apply materialize_exact_spec. Qed.

(** Materialization is idempotent: running it again over the same window
    creates nothing and leaves the sessions as the first run did. *)
Theorem materialize_idempotent db t start days now now' allow_draft :
  pk_unique (db_sessions db) → pk_unique (db_schedules db) →
  one_per_occurrence (db_sessions db) → can_materialize t allow_draft → 1 ≤ days →
  wp (materialize_term (Some t) start days allow_draft now ≫= λ _,
      materialize_term (Some t) start days allow_draft now') (λ r db',
    (∃ res, r = inr res ∧ created res = 0) ∧
    db_sessions db' =
      db_sessions (exec (materialize_term (Some t) start days allow_draft now) db)) db.
Proof.
  intros Hu Hus Ho Hc Hd. wp_step. apply wp_intro. intros r db1 Hrun.
  pose proof (materialize_exact_spec db t start days now allow_draft Hu Hus Ho Hc Hd) as (todo & Htodo & H).
  pose proof (wp_run _ _ _ _ _ H Hrun) as ((res & -> & _) & Ho1 & Hu1 & (A & N & Hdb1)).
  assert (exec (materialize_term (Some t) start days allow_draft now) db = db1) as ->
    by (unfold exec; by rewrite Hrun).
  assert (db_schedules db1 = db_schedules db) as Hs1 by by rewrite Hdb1.
  pose proof (materialize_exact_spec db1 t start days now' allow_draft Hu1
    ltac:(by rewrite Hs1) Ho1 Hc Hd) as (todo' & Htodo' & H').
  assert (todo' = []) as ->.
  { destruct todo' as [|[d sch] l]; [done|]. exfalso.
    destruct (proj1 (Htodo' d sch) ltac:(left)) as (Hw & Hsch & Ht & Hst & Hday & Hex & Hno).
    assert ((d, sch) ∈ todo) as Hin.
    { apply Htodo. split; [done|]. split; [by rewrite <- Hs1|]. do 3 (split; [done|]).
      assert (room_building db1 (sch_room sch) = room_building db (sch_room sch)) as Hb
        by by rewrite Hdb1.
      rewrite Hb in Hex. split; [|intros s Hs; apply Hno; rewrite Hdb1; set_solver].
      intros Hc'. apply Hex. destruct Hc' as [b|sp].
      - eapply (excused_by_break _ _ _ _ b); try done. by rewrite Hdb1.
      - eapply (excused_by_suspension _ _ _ _ sp); try done. by rewrite Hdb1. }
    apply list_elem_of_lookup in Hin as [i Hi].
    apply (Hno (born db sch d now (fresh_pk (db_sessions db) + Z.of_nat i))).
    - rewrite Hdb1. simpl. apply elem_of_app. right. apply elem_of_lookup_imap.
      by exists i, (d, sch).
    - by destruct (born_fields db sch d now (fresh_pk (db_sessions db) + Z.of_nat i))
        as (_ & -> & -> & _). }
  eapply wp_mono; [exact H'|]. cbv beta.
  intros r db2 ((res' & -> & Hcr) & _ & _ & (A' & N' & ->)). split; [by exists res'|].
  simpl. by rewrite app_nil_r.
Qed.

Lemma materialize_refused_spec db t start days now allow_draft :
  (∀ x, t = Some x → ¬ can_materialize x allow_draft) ∨ days < 1 →
  ∃ msg, materialize_term t start days allow_draft now db = (inl (MaterializationError msg), db).
Proof.
  unfold materialize_term, validate_term, can_materialize, mbind, M_bind.
  destruct t as [t|]; [|by eexists]. intros H.
  destruct (term_status t) eqn:E; [destruct allow_draft eqn:Ea; [|by eexists]| |by eexists];
    simpl; destruct (Z.leb_spec 1 days); simpl; try by eexists.
  - destruct H as [H|]; [|lia]. destruct (H t eq_refl). by right.
  - destruct H as [H|]; [|lia]. destruct (H t eq_refl). by left.
Qed.

(** A term that is missing, archived, or a draft without permission, and a
    window without days, are refused before anything is written. *)
Theorem materialize_refused db t start days now allow_draft :
  (∀ x, t = Some x → ¬ can_materialize x allow_draft) ∨ days < 1 →
  ∃ msg, materialize_term t start days allow_draft now db = (inl (MaterializationError msg), db).
Proof. apply materialize_refused_spec. Qed.

(** ** Witnesses *)
(** The sample schedule has a session on the first two Mondays only; an approved
    shift moves the class online on the third. *)
Definition demo_shifted : DB :=
  demo_db <| db_requests := [{| req_pk := 1; req_requester := 1; req_dean := Some 3;
               req_department := Some 1; req_target := ONLINE; req_wstart := monday + 14;
               req_wend := monday + 14; req_is_time_move := false; req_status := R_APPROVED;
               req_reason := ""; req_decided_at := Some (at_ 8 0); req_decided_by := Some 3 |}] |>
          <| db_items := [{| it_pk := 1; it_request := 1; it_schedule := 1; it_preferred := None;
               it_assigned := None; it_new_start := None; it_new_end := None |}] |>.
Lemma materialize_exact_witness :
  (∃ todo, wp (materialize_term (Some demo_term) monday 21 false (at_ 6 0)) (λ r db',
      (∃ res, r = inr res ∧ created res = Z.of_nat (length todo)) ∧
      one_per_occurrence (db_sessions db') ∧ pk_unique (db_sessions db') ∧
      logs_only (demo_shifted <| db_sessions := db_sessions demo_shifted ++
                                   births demo_shifted (at_ 6 0) todo |>) db') demo_shifted) ∧
  run (materialize_term (Some demo_term) monday 21 false (at_ 6 0)) demo_shifted
    = inr (mk_result 1 2 0) ∧
  (λ s, (ses_date s, ses_declared s, ses_released_at s)) <$>
    db_sessions (exec (materialize_term (Some demo_term) monday 21 false (at_ 6 0)) demo_shifted)
    = [(monday, None, None); (monday + 7, None, None); (monday + 14, Some ONLINE, Some (at_ 8 0))].
Proof.
  split; [|split; vm_compute; reflexivity].
  destruct (materialize_exact demo_shifted demo_term monday 21 (at_ 6 0) false)
    as (todo & _ & H); [decide_now|decide_now|decide_now|by left|lia|].
  exists todo. exact H.
Defined.
Lemma materialize_idempotent_witness :
  wp (materialize_term (Some demo_term) monday 21 false (at_ 6 0) ≫= λ _,
      materialize_term (Some demo_term) monday 21 false (at_ 7 0)) (λ r db',
    (∃ res, r = inr res ∧ created res = 0) ∧
    db_sessions db' = db_sessions (exec (materialize_term (Some demo_term) monday 21 false
      (at_ 6 0)) demo_shifted)) demo_shifted.
Proof.
  apply materialize_idempotent; [decide_now|decide_now|decide_now|by left|lia].
Defined.
Lemma materialize_refused_witness :
  ∃ msg, materialize_term (Some demo_draft) monday 21 false (at_ 6 0) demo_db
    = (inl (MaterializationError msg), demo_db).
Proof. apply materialize_refused. left. intros x [= <-] [H|[_ H]]; discriminate H. Defined.
