(* ===== verification/ScheduleOps.v ===== *)
(** scheduling/schedule_ops.py: editing and cancelling one schedule mid-term.
    The operations are written against the interface [RoomAvailability]. *)
From S2P Require Import Prelude Python Model Effects Ops Sample Suspensions Availability Materialization.
Open Scope Z_scope.

Section ops.
Context {AV : RoomAvailability}.

(** ** _assert_occurrences_free *)
Definition future_scheduled (sch today : Z) (s : Session) : bool :=
  (ses_schedule s =? sch) && has_status SCHEDULED s && (today <=? ses_date s).
(** The rows of the schedule from today on, by date: the last one of a date wins. *)
Definition existing_by_date (db : DB) (sch today : Z) : dict Z Session :=
  foldl (λ d s, dict_set d (ses_date s) s) []
    (sort_by (λ a b, ses_date a <=? ses_date b)
       (select (λ s, (ses_schedule s =? sch) && (today <=? ses_date s)) (db_sessions db))).
(** [while d <= end: add(d); d += 7] *)
Fixpoint weekly (fuel : nat) (d end_ : Z) : list Z :=
  match fuel with
  | O => []
  | S fuel' => if d <=? end_ then d :: weekly fuel' (d + 7) end_ else []
  end.
Definition weekly_dates (d end_ : Z) : list Z := weekly (S (Z.to_nat (end_ - d))) d end_.
Definition occurrence_dates (existing : dict Z Session) (sch : Schedule) (t : AcademicTerm)
    (today : Z) : list Z :=
  let offset := (sch_day sch - PyTime.weekday today) mod 7 in
  sort_by Z.leb (remove_dups
    ((ses_date <$> select (has_status SCHEDULED) existing.*2)
     ++ weekly_dates (today + offset) (term_end t))).
(** The guards on one remaining date *)
Definition assert_date_free (existing : dict Z Session) (exc : Excusal) (sch : Z) (room : Room)
    (start_time end_time d : Z) : M unit :=
  let own_session := dict_get existing d in
  if match own_session with Some s => negb (has_status SCHEDULED s) | None => false end
  then mret ()
  else
    read (λ db, excused exc d (room_building db (room_pk room))) ≫= λ is_excused : bool,
    if is_excused then mret ()
    else
      read (λ db, av_is_free db (room_pk room) (PyTime.aware d start_time)
                    (PyTime.aware d end_time) (ses_pk <$> own_session) (Some sch)) ≫= λ free : bool,
      guard_m free (ScheduleConflictError
        ("The room is occupied on " +:+ PyTime.date_str d +:+ " during that time.")).
Definition assert_occurrences_free (sch : Schedule) (t : AcademicTerm) (room : Room)
    (start_time end_time today : Z) : M unit :=
  if bool_decide (sch_modality sch = ONLINE) then mret ()
  else
    read (λ db, existing_by_date db (sch_pk sch) today) ≫= λ existing,
    excused_checker (Some t) ≫= λ exc,
    for_each (occurrence_dates existing sch t today)
      (assert_date_free existing exc (sch_pk sch) room start_time end_time).

(** ** update_schedule *)
Record Edit := mk_edit {
  ed_faculty : option Z;
  ed_room : option Room;
  ed_start : option Z;
  ed_end : option Z;
  ed_enrolled : option Z
}.
Definition edit_schedule (e : Edit) (s : Schedule) : Schedule :=
  s <| sch_faculty := default (sch_faculty s) (ed_faculty e) |>
    <| sch_room := default (sch_room s) (room_pk <$> ed_room e) |>
    <| sch_start := default (sch_start s) (ed_start e) |>
    <| sch_end := default (sch_end s) (ed_end e) |>
    <| sch_enrolled := default (sch_enrolled s) (ed_enrolled e) |>.
Definition follow_schedule (sch : Schedule) (s : Session) : Session :=
  s <| ses_faculty := sch_faculty sch |> <| ses_room := sch_room sch |>
    <| ses_sched_start := PyTime.aware (ses_date s) (sch_start sch) |>
    <| ses_sched_end := PyTime.aware (ses_date s) (sch_end sch) |>.
Definition before_payload (s : Schedule) : json :=
  JObj [("faculty", JInt (sch_faculty s)); ("room", JInt (sch_room s));
        ("start_time", JStr (PyTime.time_str (sch_start s)));
        ("end_time", JStr (PyTime.time_str (sch_end s)));
        ("enrolled_count", JInt (sch_enrolled s))]%string.
(** Whether the edit moves the class. *)
Definition moves (e : Edit) (s : Schedule) : bool :=
  negb (default (sch_room s) (room_pk <$> ed_room e) =? sch_room s)
  || negb (default (sch_start s) (ed_start e) =? sch_start s)
  || negb (default (sch_end s) (ed_end e) =? sch_end s).

Definition update_schedule (k : Z) (e : Edit) (actor : option Z) (today : Z) : M Z :=
  atomic (
    get_pk (R:=Schedule) k ≫= λ sch,
    get_pk (R:=AcademicTerm) (sch_term sch) ≫= λ t,
    require_writable_term t ≫= λ _,
    match ed_room e with
    | Some r => mret r
    | None => get_pk (R:=Room) (sch_room sch)
    end ≫= λ target_room,
    when (moves e sch)
      (assert_occurrences_free sch t target_room (default (sch_start sch) (ed_start e))
         (default (sch_end sch) (ed_end e)) today) ≫= λ _,
    let sch' := edit_schedule e sch in
    save k (λ x, x <| sch_faculty := sch_faculty sch' |> <| sch_room := sch_room sch' |>
                   <| sch_start := sch_start sch' |> <| sch_end := sch_end sch' |>
                   <| sch_enrolled := sch_enrolled sch' |>) ≫= λ _,
    objects (future_scheduled k today) ≫= λ sessions,
    for_each sessions (λ s, save (ses_pk s) (λ x,
      x <| ses_faculty := sch_faculty sch' |> <| ses_room := sch_room sch' |>
        <| ses_sched_start := PyTime.aware (ses_date s) (sch_start sch') |>
        <| ses_sched_end := PyTime.aware (ses_date s) (sch_end sch') |>)) ≫= λ _,
    audit actor "schedule.updated" "schedule" (PyStr.str k)
      (JObj [("before", before_payload sch);
             ("future_sessions_updated", JInt (Z.of_nat (length sessions)))]%string) ≫= λ _,
    mret (Z.of_nat (length sessions))).

(** ** cancel_schedule *)
Definition cancel_reason_of (reason : string) : string :=
  PyStr.take 200 (PyStr.strip
    (if bool_decide (reason = ""%string) then "Class no longer offered"%string else reason)).
Definition cancel_schedule (k : Z) (actor : option Z) (reason : string) (today : Z) : M Z :=
  atomic (
    get_pk (R:=Schedule) k ≫= λ sch,
    get_pk (R:=AcademicTerm) (sch_term sch) ≫= λ t,
    require_writable_term t ≫= λ _,
    let reason := cancel_reason_of reason in
    save k (λ x, x <| sch_status := SCH_ARCHIVED |>) ≫= λ _,
    objects (future_scheduled k today) ≫= λ rows,
    let ids := ses_pk <$> rows in
    match ids with
    | [] => mret ()
    | _ =>
        update_rows (R:=Session) (mem_pk ids)
          (λ s, s <| ses_status := CANCELLED |> <| ses_cancel_reason := reason |>) ≫= λ _,
        audit_bulk actor "session.cancelled" "session"
          (JObj [("reason", JStr reason); ("schedule", JInt k)]%string) ids
    end ≫= λ _,
    audit actor "schedule.archived" "schedule" (PyStr.str k)
      (JObj [("reason", JStr reason); ("sessions_cancelled", JInt (Z.of_nat (length ids)))]%string)
    ≫= λ _,
    mret (Z.of_nat (length ids))).

(** ** The dates checked *)
Lemma weekly_spec fuel d e x :
  (Z.to_nat (e - d) < 7 * fuel)%nat ∨ e < d → x ∈ weekly fuel d e ↔ ∃ k, 0 ≤ k ∧ x = d + 7 * k ∧ x ≤ e.
Proof.
  revert d. induction fuel as [|fuel IH]; intros d Hf; cbn [weekly].
  - split; [by intros ?%not_elem_of_nil|]. intros (k & ? & ? & ?). lia.
  - destruct (Z.leb_spec d e) as [Hle|Hlt].
    + rewrite elem_of_cons, IH by lia. split.
      * intros [->|(k & ? & -> & ?)]; [exists 0; lia|exists (k + 1); lia].
      * intros (k & ? & -> & ?). destruct (Z.eq_dec k 0) as [->|]; [left; lia|].
        right. exists (k - 1). lia.
    + split; [by intros ?%not_elem_of_nil|]. intros (k & ? & ? & ?). lia.
Qed.
Lemma elem_of_weekly_dates d e x :
  x ∈ weekly_dates d e ↔ ∃ k, 0 ≤ k ∧ x = d + 7 * k ∧ x ≤ e.
Proof. apply weekly_spec. lia. Qed.

Lemma existing_by_date_get db k today d s :
  dict_get (existing_by_date db k today) d = Some s →
  s ∈ db_sessions db ∧ ses_schedule s = k ∧ today ≤ ses_date s ∧ ses_date s = d.
Proof.
  unfold existing_by_date. set (l := sort_by _ _).
  assert (∀ s, s ∈ l → s ∈ db_sessions db ∧ ses_schedule s = k ∧ today ≤ ses_date s) as Hl.
  { intros x. unfold l. rewrite elem_of_sort_by, elem_of_select. b2p. tauto. }
  revert Hl. clearbody l. induction l as [|x l IH] using rev_ind; intros Hl; [done|].
  rewrite foldl_app. simpl. rewrite dict_get_set. case_bool_decide as Hd.
  - intros [= <-]. destruct (Hl x ltac:(set_solver)) as (? & ? & ?). done.
  - apply IH. intros y Hy. apply Hl. set_solver.
Qed.
Lemma existing_by_date_once db today k s :
  one_per_occurrence (db_sessions db) → s ∈ db_sessions db → ses_schedule s = k →
  today ≤ ses_date s → dict_get (existing_by_date db k today) (ses_date s) = Some s.
Proof.
  intros Ho Hs Hk Hd. unfold existing_by_date. set (l := sort_by _ _).
  assert (s ∈ l) as Hin.
  { unfold l. rewrite elem_of_sort_by, elem_of_select. b2p. done. }
  assert (∀ x, x ∈ l → ses_date x = ses_date s → x = s) as Huq.
  { intros x Hx Heq. unfold l in Hx. rewrite elem_of_sort_by, elem_of_select in Hx. b2p.
    eapply occurrence_inj; [exact Ho|tauto|done|destruct Hx; lia|done]. }
  clearbody l. induction l as [|x l IH] using rev_ind; [by apply not_elem_of_nil in Hin|].
  rewrite foldl_app. simpl. rewrite dict_get_set. case_bool_decide as Hx.
  - f_equal. apply Huq; [set_solver|done].
  - apply IH; [|intros y Hy; apply Huq; set_solver].
    apply elem_of_app in Hin as [?|Hin]; [done|]. apply list_elem_of_singleton in Hin. by subst.
Qed.

(** ** When an edit clashes *)

(** A date the class still meets on: a session left to hold, or a weekly date to
    come, up to the end of the term. *)
Definition still_meets (db : DB) (sch : Schedule) (t : AcademicTerm) (today d : Z) : Prop :=
  (∃ s, s ∈ db_sessions db ∧ future_scheduled (sch_pk sch) today s = true ∧ ses_date s = d) ∨
  (today ≤ d ≤ term_end t ∧ PyTime.weekday d = sch_day sch).
(** The occurrence of a schedule on a date, if it has been materialized. *)
Definition occurs (db : DB) (k d : Z) (o : option Session) : Prop :=
  match o with
  | Some s => s ∈ db_sessions db ∧ ses_schedule s = k ∧ ses_date s = d
  | None => ∀ s, s ∈ db_sessions db → ¬ (ses_schedule s = k ∧ ses_date s = d)
  end.
(** The edited class would collide on this date: it meets, nothing has been
    decided about that meeting, the date is not excused, and the room is taken. *)
Definition clash (db : DB) (sch : Schedule) (t : AcademicTerm) (room start_ end_ today d : Z)
    : Prop :=
  still_meets db sch t today d ∧ ¬ calendar_excuses db (term_pk t) d (room_building db room) ∧
  ∃ own, occurs db (sch_pk sch) d own ∧ (∀ s, own = Some s → ses_status s = SCHEDULED) ∧
    av_is_free db room (PyTime.aware d start_) (PyTime.aware d end_) (ses_pk <$> own)
      (Some (sch_pk sch)) = false.

Definition date_clashes (db : DB) (existing : dict Z Session) (exc : Excusal) (k : Z) (room : Room)
    (start_ end_ d : Z) : bool :=
  match dict_get existing d with Some s => has_status SCHEDULED s | None => true end
  && negb (excused exc d (room_building db (room_pk room)))
  && negb (av_is_free db (room_pk room) (PyTime.aware d start_) (PyTime.aware d end_)
             (ses_pk <$> dict_get existing d) (Some k)).

Lemma assert_date_free_eq db ex exc k room st en d :
  assert_date_free ex exc k room st en d db =
  (if date_clashes db ex exc k room st en d then
     inl (ScheduleConflictError ("The room is occupied on " +:+ PyTime.date_str d +:+
            " during that time.")) else inr (), db).
Proof.
  unfold assert_date_free, date_clashes, mbind, M_bind, read, guard_m, mret, M_ret, raise.
  destruct (dict_get ex d) as [s|]; simpl; [destruct (has_status SCHEDULED s); simpl; [|done]|];
    destruct (excused exc d _); simpl; try done; by destruct (av_is_free _ _ _ _ _ _).
Qed.

Section edit.
Context (db : DB) (sch : Schedule) (t : AcademicTerm) (today : Z).
Context (Honce : one_per_occurrence (db_sessions db)).
Let k := sch_pk sch.
Let ex := existing_by_date db k today.

Lemma occurs_get d : today ≤ d → occurs db k d (dict_get ex d).
Proof using Honce.
  intros Hd. destruct (dict_get ex d) as [s|] eqn:E; simpl.
  - apply existing_by_date_get in E. tauto.
  - intros s Hs [Hk Hds]. subst d.
    pose proof (existing_by_date_once db today k s Honce Hs Hk Hd). unfold ex in E. congruence.
Qed.
Lemma occurs_unique d o o' : occurs db k d o → occurs db k d o' → o = o'.
Proof using Honce.
  destruct o as [s|], o' as [s'|]; simpl; [| | |done].
  - intros (? & ? & ?) (? & ? & ?). f_equal. eapply occurrence_inj; [exact Honce|done|done| |]; congruence.
  - intros (? & ? & ?) Hn. by destruct (Hn s).
  - intros Hn (? & ? & ?). by destruct (Hn s').
Qed.
Lemma date_clashes_iff room st en d :
  still_meets db sch t today d →
  date_clashes db ex (excused_checker_of db (Some t)) k room st en d = true ↔
  clash db sch t (room_pk room) st en today d.
Proof using Honce.
  intros Hm. assert (today ≤ d) as Hd.
  { destruct Hm as [(s & _ & Hf & <-)|[? _]]; [|lia]. unfold future_scheduled in Hf. b2p. lia. }
  unfold date_clashes, clash. b2p. rewrite <- not_true_iff_false, excused_spec. fold k.
  split.
  - intros [[Hst Hx] Hf]. split; [done|]. split; [done|]. exists (dict_get ex d).
    split; [by apply occurs_get|]. split; [|done]. intros s Hs. rewrite Hs in Hst.
    unfold has_status in Hst. by b2p.
  - intros (_ & Hx & own & Ho & Hst & Hf). assert (own = dict_get ex d) as ->.
    { eapply occurs_unique; [exact Ho|by apply occurs_get]. }
    split; [|done]. split; [|done]. destruct (dict_get ex d) as [s|]; [|done].
    apply bool_decide_eq_true. auto.
Qed.

Context (Hday : 0 ≤ sch_day sch < 7).
Lemma elem_of_occurrence_dates d :
  d ∈ occurrence_dates ex sch t today ↔ still_meets db sch t today d.
Proof using All.
  unfold occurrence_dates, still_meets.
  rewrite elem_of_sort_by, elem_of_remove_dups, elem_of_app, elem_of_weekly_dates. split.
  - intros [(s & -> & Hs)%list_elem_of_fmap|(n & Hn & -> & He)].
    + left. apply elem_of_select in Hs as [([d' s'] & -> & Hin)%list_elem_of_fmap Hst].
      exists s'. cbn [snd] in *. apply dict_elem_get in Hin.
      * apply existing_by_date_get in Hin as (? & Hk & ? & ?). split; [done|].
        split; [|done]. unfold future_scheduled. rewrite Hst. b2p. auto with lia.
      * unfold ex, existing_by_date. generalize (sort_by (λ a b, ses_date a <=? ses_date b)
          (select (λ s, (ses_schedule s =? k) && (today <=? ses_date s)) (db_sessions db))).
        intros l. induction l as [|x l IH] using rev_ind; [constructor|].
        rewrite foldl_app. by apply dict_set_NoDup.
    + right. pose proof (Z.mod_pos_bound (sch_day sch - PyTime.weekday today) 7 ltac:(lia)).
      split; [lia|]. unfold PyTime.weekday in *.
      replace (_ + 3) with (today + 3 + (sch_day sch - (today + 3) mod 7) mod 7 + n * 7) by lia.
      rewrite Z.mod_add, Zplus_mod_idemp_r by lia.
      replace (today + 3 + _) with (sch_day sch + (today + 3 - (today + 3) mod 7)) by lia.
      rewrite (Z.mod_eq (today + 3)) by lia.
      replace (sch_day sch + _) with (sch_day sch + (today + 3) / 7 * 7) by lia.
      rewrite Z.mod_add by lia. by apply Z.mod_small.
  - intros [(s & Hs & Hf & <-)|[Hd Hw]].
    + left. apply list_elem_of_fmap. exists s. split; [done|]. unfold future_scheduled in Hf. b2p.
      apply elem_of_select. split; [|tauto]. apply list_elem_of_fmap. exists (ses_date s, s).
      split; [done|]. apply dict_get_elem. apply existing_by_date_once; [done|done|tauto|lia].
    + right. exists ((d - today) / 7). unfold PyTime.weekday in *. subst.
      split; [apply Z.div_pos; lia|]. split; [|lia].
      rewrite <- Hw. rewrite Zminus_mod_idemp_l, Zminus_mod_idemp_r.
      replace (d + 3 - (today + 3)) with (d - today) by lia.
      pose proof (Z.div_mod (d - today) 7 ltac:(lia)). lia.
Qed.

(** The guard of an edit reads only, and fails exactly on a clash. *)
Lemma assert_occurrences_free_wp room st en (Q : exn + unit → DB → Prop) :
  (sch_modality sch = ONLINE ∨ (∀ d, ¬ clash db sch t (room_pk room) st en today d) →
     Q (inr ()) db) →
  (∀ d msg, sch_modality sch ≠ ONLINE → clash db sch t (room_pk room) st en today d →
     Q (inl (ScheduleConflictError msg)) db) →
  wp (assert_occurrences_free sch t room st en today) Q db.
Proof using All.
  intros Hok Hbad. unfold assert_occurrences_free. case_bool_decide as Hon.
  { wp_step. apply Hok. by left. }
  wp_step. wp_step. unfold excused_checker. wp_step. wp_step. unfold wp.
  erewrite for_each_checks by (intros; apply assert_date_free_eq). fold k ex. simpl.
  destruct (List.find _ _) as [d|] eqn:E; simpl.
  - apply find_elem in E as [Hd Hc]. apply elem_of_occurrence_dates in Hd.
    apply date_clashes_iff in Hc; [|done]. by eapply Hbad.
  - apply Hok. right. intros d Hc. rewrite find_elem_None in E.
    assert (still_meets db sch t today d) as Hm by apply Hc.
    rewrite <- date_clashes_iff in Hc by done.
    rewrite E in Hc; [done|by apply elem_of_occurrence_dates].
Qed.
End edit.

(** ** The effect of an edit *)
Definition edited (db : DB) (k : Z) (e : Edit) (sch : Schedule) (today : Z) : DB :=
  db <| db_schedules := update_pk k (edit_schedule e) (db_schedules db) |>
     <| db_sessions := update_where (future_scheduled k today)
                         (follow_schedule (edit_schedule e sch)) (db_sessions db) |>.
Definition target_room (e : Edit) (sch : Schedule) : Z := default (sch_room sch) (room_pk <$> ed_room e).
Definition target_start (e : Edit) (sch : Schedule) : Z := default (sch_start sch) (ed_start e).
Definition target_end (e : Edit) (sch : Schedule) : Z := default (sch_end sch) (ed_end e).
(** The edit collides on some date. *)
Definition edit_clashes (db : DB) (e : Edit) (sch : Schedule) (t : AcademicTerm) (today d : Z)
    : Prop :=
  moves e sch = true ∧ sch_modality sch ≠ ONLINE ∧
  clash db sch t (target_room e sch) (target_start e sch) (target_end e sch) today d.

Record editable (db : DB) (k : Z) (sch : Schedule) (t : AcademicTerm) : Prop := {
  ok_sessions : pk_unique (db_sessions db);
  ok_schedules : pk_unique (db_schedules db);
  ok_once : one_per_occurrence (db_sessions db);
  ok_day : 0 ≤ sch_day sch < 7;
  ok_sch : by_pk (db_schedules db) k = Some sch;
  ok_term : by_pk (db_terms db) (sch_term sch) = Some t;
  ok_writable : term_status t ≠ T_ARCHIVED;
  ok_room : existing (db_rooms db) (sch_room sch) = true
}.

Lemma update_schedule_wp db k e actor today sch t (Q : exn + Z → DB → Prop) :
  editable db k sch t →
  ((∀ d, ¬ edit_clashes db e sch t today d) → ∀ db', logs_only (edited db k e sch today) db' →
     Q (inr (Z.of_nat (length (select (future_scheduled k today) (db_sessions db))))) db') →
  (∀ d msg, edit_clashes db e sch t today d → Q (inl (ScheduleConflictError msg)) db) →
  wp (update_schedule k e actor today) Q db.
Proof using All.
  intros [Hu Hus Ho Hday Hk Ht Hw Hr] Hok Hbad. unfold update_schedule. wp_step. wp_step.
  apply wp_get_pk; simpl; rewrite Hk; [|done]. intros ? [= <-]. wp_step.
  apply wp_get_pk; simpl; rewrite Ht; [|done]. intros ? [= <-]. wp_step.
  apply wp_require_writable; [intros _|done]. wp_step. assert (sch_pk sch = k) as Hpk
    by by apply by_pk_elem in Hk as [_ ?].
  rewrite existing_by_pk in Hr.
  destruct (by_pk (db_rooms db) (sch_room sch)) as [own|] eqn:Er; [|done].
  assert (∀ r, room_pk r = target_room e sch →
    wp (when (moves e sch) (assert_occurrences_free sch t r (target_start e sch)
          (target_end e sch) today))
       (λ r db', db' = db ∧ match r with
          | inl x => ∃ d msg, x = ScheduleConflictError msg ∧ edit_clashes db e sch t today d
          | inr _ => ∀ d, ¬ edit_clashes db e sch t today d end) db) as Hcheck.
  { intros r Hrk. apply wp_when; intros Hm.
    - apply assert_occurrences_free_wp; [done|done| |]; rewrite Hrk.
      + intros Hf. split; [done|]. intros d (_ & Hon & Hc). destruct Hf as [|Hf]; [done|].
        by apply (Hf d).
      + intros d msg Hon Hc. split; [done|]. by exists d, msg.
    - split; [done|]. intros d (Hm' & _). congruence. }
  assert (wp (match ed_room e with Some r => mret r | None => get_pk (R:=Room) (sch_room sch) end)
    (λ r db', db' = db ∧ ∃ x, r = inr x ∧ room_pk x = target_room e sch) db) as Htarget.
  { unfold target_room. destruct (ed_room e) as [r|]; simpl; [wp_step; by eauto|].
    apply wp_get_pk; simpl; rewrite Er; [|done]. intros ? [= <-]. split; [done|].
    exists own. split; [done|]. by apply by_pk_elem in Er as [_ ?]. }
  eapply wp_mono; [exact Htarget|]. intros r db1 (-> & x & -> & Hx). wp_step.
  eapply wp_mono; [by apply Hcheck|]. intros [er|[]] db1 [-> Hres].
  { destruct Hres as (d & msg & -> & Hc). by eapply Hbad. }
  wp_step. apply wp_save; simpl; [intros _|rewrite existing_by_pk, Hk; done].
  wp_step. apply wp_objects. simpl. wp_step.
  lazymatch goal with |- wp _ _ ?d =>
    apply (save_each_wp (future_scheduled k today) _ d); [done|done|] end. simpl. wp_step.
  apply wp_logging; [apply logging_audit|]. intros db1 Hlog. wp_step. apply Hok; [done|].
  assert (update_pk k (λ x, x
     <| sch_faculty := sch_faculty (edit_schedule e sch) |>
     <| sch_room := sch_room (edit_schedule e sch) |>
     <| sch_start := sch_start (edit_schedule e sch) |>
     <| sch_end := sch_end (edit_schedule e sch) |>
     <| sch_enrolled := sch_enrolled (edit_schedule e sch) |>) (db_schedules db)
    = update_pk k (edit_schedule e) (db_schedules db)) as Heq.
  { apply update_where_ext; [done|]. intros r Hr' Hp. b2p.
    pose proof (by_pk_unique (db_schedules db) k r Hus Hr' Hp) as Hb. rewrite Hk in Hb.
    injection Hb as ->. done. }
  simpl in Heq. rewrite Heq in Hlog. exact Hlog.
Qed.

(** C19: editing a schedule of a writable term either moves the schedule and every
    session of it still to come to its new instructor, room and times, and nothing
    else, or is refused with the database unchanged; it is refused exactly when the
    class is not an online one, the edit moves it and a remaining meeting that is
    neither excused nor already decided would find the room taken.  The move of an
    online class is never checked. *)
Theorem update_schedule_effect db k e actor today sch t :
  editable db k sch t →
  wp (update_schedule k e actor today) (λ r db',
    ((∀ d, ¬ edit_clashes db e sch t today d) ∧
     r = inr (Z.of_nat (length (select (future_scheduled k today) (db_sessions db)))) ∧
     logs_only (edited db k e sch today) db') ∨
    ((∃ d, edit_clashes db e sch t today d) ∧ (∃ msg, r = inl (ScheduleConflictError msg)) ∧
     db' = db)) db.
Proof using All.
  intros H. eapply update_schedule_wp; [exact H| |].
  - intros Hn db' Hl. by left.
  - intros d msg Hc. right. split; [by exists d|]. split; [by exists msg|done].
Qed.

Lemma overlaps_sym a b c d : overlaps a b c d = overlaps c d a b.
Proof. unfold overlaps. apply andb_comm. Qed.
Lemma future_scheduled_iff k today s :
  future_scheduled k today s = true ↔
  ses_schedule s = k ∧ ses_status s = SCHEDULED ∧ today ≤ ses_date s.
Proof. unfold future_scheduled, has_status. b2p. tauto. Qed.
Lemma effective_online_edited db k e sch today o :
  ses_schedule o ≠ k → effective_online (edited db k e sch today) o = effective_online db o.
Proof.
  intros Hne. unfold effective_online, effective_modality, edited. simpl.
  by rewrite by_pk_update_ne.
Qed.

(** C2: whatever availability check the edit is given, as long as it never calls a
    room free that a session holds, an accepted room or time move of a class that is
    not an online one double-books nobody: no session still to come of the moved class,
    on a date that is not excused, overlaps another class in its room.  The code checks
    no move of an online class, so nothing is claimed of one, even when a session of it
    was declared to be held in the room. *)
Theorem update_schedule_no_double_booking db k e actor today sch t :
  editable db k sch t → moves e sch = true → sch_modality sch ≠ ONLINE →
  wp (update_schedule k e actor today) (λ r db', ∀ n, r = inr n →
    ∀ s o, s ∈ db_sessions db' → future_scheduled k today s = true →
      ¬ calendar_excuses db (term_pk t) (ses_date s) (room_building db (ses_room s)) →
      o ∈ db_sessions db' → ses_schedule o ≠ k → ses_room o = ses_room s →
      occupying_status o = true → ses_released_at o = None → effective_online db' o = false →
      overlaps (ses_sched_start s) (ses_sched_end s) (ses_sched_start o) (ses_sched_end o) = false)
    db.
Proof using All.
  intros Hed Hmove Hon. eapply update_schedule_wp; [exact Hed| |by intros].
  intros Hfree db' (A & N & ->) n _ s o Hs Hfs Hex Ho Hko Hroom Hocc Hrel Honl.
  change (effective_online (edited db k e sch today) o = false) in Honl.
  rewrite effective_online_edited in Honl by done.
  simpl in Hs, Ho. apply elem_of_update_where in Hs as (s0 & Hs0 & Hseq).
  apply elem_of_update_where in Ho as (o0 & Ho0 & Hoeq).
  assert (future_scheduled k today o0 = false) as Hof.
  { apply not_true_iff_false. rewrite future_scheduled_iff. intros [Hk _]. apply Hko.
    rewrite Hoeq. destruct (future_scheduled k today o0); done. }
  rewrite Hof in Hoeq. subst o0.
  destruct (future_scheduled k today s0) eqn:E; [|congruence].
  assert (sch_pk sch = k) as Hpk by (destruct Hed; by eapply by_pk_elem).
  pose proof E as Hs0'. apply future_scheduled_iff in Hs0' as (Hk0 & Hst0 & Hd0).
  assert (av_is_free db (target_room e sch) (PyTime.aware (ses_date s0) (target_start e sch))
    (PyTime.aware (ses_date s0) (target_end e sch)) (Some (ses_pk s0)) (Some k) = true) as Hf.
  { apply not_false_iff_true. intros Hnf. apply (Hfree (ses_date s0)). split; [done|].
    split; [done|]. split; [left; exists s0; by rewrite Hpk|]. split.
    - by rewrite Hseq in Hex.
    - exists (Some s0). rewrite Hpk. split; [done|]. split; [by intros ? [= <-]|done]. }
  rewrite overlaps_sym, Hseq. simpl.
  eapply av_is_free_sound; [exact Hf|done| |done|done|done|].
  - by rewrite Hroom, Hseq.
  - intros [= Hpks]. apply Hko. destruct Hed as [Hu _ _ _ _ _ _ _].
    pose proof (pk_inj (db_sessions db) s0 o Hu Hs0 Ho0 Hpks). by subst.
Qed.

(** ** The effect of a cancellation *)
Definition cancelled (reason : string) (s : Session) : Session :=
  s <| ses_status := CANCELLED |> <| ses_cancel_reason := reason |>.
Definition dropped (db : DB) (k : Z) (reason : string) (today : Z) : DB :=
  db <| db_schedules := update_pk k (λ x, x <| sch_status := SCH_ARCHIVED |>) (db_schedules db) |>
     <| db_sessions := update_where (future_scheduled k today) (cancelled (cancel_reason_of reason))
                         (db_sessions db) |>.

Lemma cancel_schedule_wp db k actor reason today sch t (Q : exn + Z → DB → Prop) :
  pk_unique (db_sessions db) → by_pk (db_schedules db) k = Some sch →
  by_pk (db_terms db) (sch_term sch) = Some t →
  (term_status t ≠ T_ARCHIVED → ∀ db', logs_only (dropped db k reason today) db' →
     Q (inr (Z.of_nat (length (select (future_scheduled k today) (db_sessions db))))) db') →
  (term_status t = T_ARCHIVED →
     Q (inl (ArchivedTermError "archived academic terms are read-only")) db) →
  wp (cancel_schedule k actor reason today) Q db.
Proof.
  intros Hu Hk Ht Hok Hbad. unfold cancel_schedule. wp_step. wp_step.
  apply wp_get_pk; simpl; rewrite Hk; [|done]. intros ? [= <-]. wp_step.
  apply wp_get_pk; simpl; rewrite Ht; [|done]. intros ? [= <-]. wp_step.
  apply wp_require_writable; [intros Hw|exact Hbad]. wp_step.
  apply wp_save; simpl; [intros _|by rewrite existing_by_pk, Hk].
  wp_step. apply wp_objects. simpl. set (l := select _ _).
  assert (update_where (mem_pk (ses_pk <$> l)) (cancelled (cancel_reason_of reason))
    (db_sessions db) = update_where (future_scheduled k today)
      (cancelled (cancel_reason_of reason)) (db_sessions db)) as Hup
    by by apply update_sessions_selected.
  assert (∀ db1, logs_only (dropped db k reason today) db1 →
    wp (audit actor "schedule.archived" "schedule" (PyStr.str k)
      (JObj [("reason", JStr (cancel_reason_of reason));
             ("sessions_cancelled", JInt (Z.of_nat (length (ses_pk <$> l))))]%string) ≫= λ _,
      mret (Z.of_nat (length (ses_pk <$> l)))) (λ r db', match r with
        | inl e => Q (inl e) db | inr a => Q (inr a) db' end) db1) as Hend.
  { intros db1 H1. wp_step. apply wp_logging; [apply logging_audit|]. intros db2 H2. wp_step.
    rewrite length_fmap. apply Hok; [done|]. by transitivity db1. }
  destruct l as [|s l'] eqn:El; simpl.
  - wp_step. wp_step. apply Hend. exists [], []. rewrite !app_nil_r.
    unfold dropped. rewrite <- Hup. simpl.
    rewrite (update_where_none (mem_pk [])); [by destruct db|].
    intros r _. apply bool_decide_eq_false. by intros ?%not_elem_of_nil.
  - wp_step. wp_step. apply wp_update_rows. simpl.
    apply wp_logging; [apply logging_audit_bulk|]. intros db1 H1. apply Hend.
    unfold dropped. rewrite <- Hup. exact H1.
Qed.

(** Cancelling a class of a writable term archives its schedule and cancels,
    with the given reason cut to 200 characters, exactly its sessions still to
    come; what has been held, missed or cancelled already stands as recorded.  In
    an archived term nothing is written. *)
Theorem cancel_schedule_effect db k actor reason today sch t :
  pk_unique (db_sessions db) → by_pk (db_schedules db) k = Some sch →
  by_pk (db_terms db) (sch_term sch) = Some t →
  wp (cancel_schedule k actor reason today) (λ r db',
    (term_status t ≠ T_ARCHIVED ∧
     r = inr (Z.of_nat (length (select (future_scheduled k today) (db_sessions db)))) ∧
     logs_only (dropped db k reason today) db' ∧
     (∀ s, s ∈ db_sessions db → future_scheduled k today s = false → s ∈ db_sessions db') ∧
     (String.length (cancel_reason_of reason) ≤ 200)%nat) ∨
    (term_status t = T_ARCHIVED ∧
     r = inl (ArchivedTermError "archived academic terms are read-only") ∧ db' = db)) db.
Proof using All.
  intros Hu Hk Ht. eapply cancel_schedule_wp; [done|exact Hk|exact Ht| |].
  - intros Hw db' Hl. left. split; [done|]. split; [done|]. split; [done|]. split.
    + destruct Hl as (A & N & ->). intros s Hs Hf. simpl. apply elem_of_update_where.
      exists s. by rewrite Hf.
    + unfold cancel_reason_of, PyStr.take. rewrite PyStr.length_of_list, length_take. lia.
  - intros Hw. by right.
Qed.

(** A cancelled class stays cancelled: no later materialization of its term,
    whatever the window, creates a session for it. *)
Theorem cancelled_class_stays_cancelled db k actor reason today sch t start days allow_draft now :
  editable db k sch t → can_materialize t allow_draft → 1 ≤ days →
  wp (cancel_schedule k actor reason today ≫= λ _,
      materialize_term (Some t) start days allow_draft now) (λ r db',
    select (λ s, ses_schedule s =? k) (db_sessions db') =
    select (λ s, ses_schedule s =? k) (db_sessions (dropped db k reason today))) db.
Proof using All.
  intros [Hu Hus Ho _ Hk Ht Hw _] Hcan Hdays. wp_step.
  eapply cancel_schedule_wp; [done|exact Hk|exact Ht| |done]. intros _ db1 (A & N & ->).
  lazymatch goal with |- wp _ _ ?d => set (db1 := d) end.
  destruct (materialize_exact_spec db1 t start days now allow_draft) as (todo & Htodo & Hrun).
  - by apply pk_unique_update.
  - by apply pk_unique_update.
  - unfold one_per_occurrence in *. unfold db1, dropped. simpl. unfold update_where.
    rewrite <- list_fmap_compose. erewrite list_fmap_ext; [exact Ho|]. intros i s _. simpl.
    by destruct (future_scheduled k today s).
  - done.
  - done.
  - eapply wp_mono; [exact Hrun|]. cbv beta. intros r db2 (_ & _ & _ & (A' & N' & ->)).
    simpl. rewrite select_app. rewrite (proj2 (select_nil _ (births _ _ _))); [by rewrite app_nil_r|].
    intros s Hs. apply elem_of_births in Hs as ([d x] & j & Hin & ->).
    destruct (born_fields db1 x d now j) as (_ & Hsk & _). simpl. rewrite Hsk.
    apply Z.eqb_neq. intros Hxk. apply Htodo in Hin as (_ & Hx & _ & Hst & _).
    unfold db1, dropped in Hx. simpl in Hx. apply elem_of_update_where in Hx as (y & Hy & ->).
    destruct (Z.eqb_spec (pk y) k) as [|Hne]; [done|]. by apply Hne.
Qed.

(** An edit that gives no new room and no new time is never checked and never
    refused, and still rewrites the room and the times of every session to come to
    the schedule's own: a session an approved shift had moved elsewhere is put back
    whether or not its old room is still free. *)
Theorem edit_without_move_unchecked db k e actor today sch t :
  editable db k sch t → moves e sch = false →
  wp (update_schedule k e actor today) (λ r db',
    (∃ n, r = inr n) ∧
    ∀ s, s ∈ db_sessions db' → future_scheduled k today s = true →
      ses_room s = sch_room sch ∧
      ses_sched_start s = PyTime.aware (ses_date s) (sch_start sch) ∧
      ses_sched_end s = PyTime.aware (ses_date s) (sch_end sch)) db.
Proof using All.
  intros Hed Hm. eapply update_schedule_wp; [exact Hed| |].
  - intros _ db' (A & N & ->). split; [by eexists|]. intros s Hs Hf. simpl in Hs.
    apply elem_of_update_where in Hs as (s0 & Hs0 & ->). unfold moves in Hm. b2p.
    destruct Hm as [[H1 H2] H3]. destruct (future_scheduled k today s0) eqn:E; [|congruence].
    simpl. by rewrite H1, H2, H3.
  - intros d msg (Hm' & _). congruence.
Qed.
End ops.

(** ** Witnesses *)
Definition no_edit : Edit := mk_edit None None None None None.
Definition to_room (r : Room) : Edit := mk_edit None (Some r) None None None.
Lemma demo_editable : editable demo_db 1 demo_schedule demo_term.
Proof. split; try decide_now; [by vm_compute|done]. Qed.

(** Room 2 is taken by another class on the first Monday; room 1 is not. *)
Definition other_schedule : Schedule := demo_schedule <| sch_pk := 2 |> <| sch_room := 2 |>.
Definition other_session : Session :=
  (demo_session 3 monday SCHEDULED) <| ses_schedule := 2 |> <| ses_room := 2 |>.
Definition taken_db : DB :=
  demo_db <| db_schedules := [demo_schedule; other_schedule] |>
          <| db_sessions := db_sessions demo_db ++ [other_session] |>.
Lemma taken_editable : editable taken_db 1 demo_schedule demo_term.
Proof. split; try decide_now; [by vm_compute|done]. Qed.

Lemma update_schedule_effect_witness :
  (∃ msg, run (update_schedule 1 (to_room (demo_room 2 "M-102")) (Some 4) monday) taken_db
            = inl (ScheduleConflictError msg)) ∧
  run (update_schedule 1 (to_room (demo_room 2 "M-102")) (Some 4) monday) demo_db = inr 2 ∧
  ∃ d, edit_clashes taken_db (to_room (demo_room 2 "M-102")) demo_schedule demo_term monday d.
Proof.
  split; [eexists; vm_compute; reflexivity|]. split; [vm_compute; reflexivity|].
  destruct (wp_intro _ _ _ (λ r db' Hr, wp_run _ _ _ _ _
    (update_schedule_effect taken_db 1 (to_room (demo_room 2 "M-102")) (Some 4) monday
      demo_schedule demo_term taken_editable) Hr)) as [(_ & Hr & _)|(Hc & _)]; [|exact Hc].
  exfalso. vm_compute in Hr. discriminate Hr.
Defined.
Lemma update_schedule_no_double_booking_witness :
  wp (update_schedule 1 (to_room (demo_room 2 "M-102")) (Some 4) monday) (λ r db', ∀ n, r = inr n →
    ∀ s o, s ∈ db_sessions db' → future_scheduled 1 monday s = true →
      ¬ calendar_excuses demo_db 1 (ses_date s) (room_building demo_db (ses_room s)) →
      o ∈ db_sessions db' → ses_schedule o ≠ 1 → ses_room o = ses_room s →
      occupying_status o = true → ses_released_at o = None → effective_online db' o = false →
      overlaps (ses_sched_start s) (ses_sched_end s) (ses_sched_start o) (ses_sched_end o) = false)
    demo_db.
Proof.
  apply (update_schedule_no_double_booking demo_db 1 _ _ _ demo_schedule demo_term);
    [exact demo_editable|vm_compute; reflexivity|discriminate].
Defined.
(** An online class whose first session was moved into a room: its move to a taken room is
    accepted, and the two sessions hold the room at once. *)
Definition online_db : DB :=
  taken_db <| db_schedules := [demo_schedule <| sch_modality := ONLINE |>; other_schedule] |>
           <| db_sessions := [(demo_session 1 monday SCHEDULED) <| ses_declared := Some F2F |>; other_session] |>.
Example online_move_unchecked :
  run (update_schedule 1 (to_room (demo_room 2 "M-102")) (Some 4) monday) online_db = inr 1 ∧
  let db' := exec (update_schedule 1 (to_room (demo_room 2 "M-102")) (Some 4) monday) online_db in
  (λ s, (ses_room s, ses_sched_start s, effective_online db' s)) <$> db_sessions db' =
    [(2, at_ 9 0, false); (2, at_ 9 0, false)].
Proof. vm_compute. done. Qed.
Lemma cancel_schedule_effect_witness :
  run (cancel_schedule 1 (Some 4) "" monday) demo_db = inr 2 ∧
  (λ s, (ses_status s, ses_cancel_reason s)) <$>
    db_sessions (exec (cancel_schedule 1 (Some 4) "" (monday + 1)) demo_db)
    = [(SCHEDULED, ""); (CANCELLED, "Class no longer offered")]%string ∧
  logs_only (dropped demo_db 1 "" monday) (exec (cancel_schedule 1 (Some 4) "" monday) demo_db).
Proof.
  split; [vm_compute; reflexivity|]. split; [vm_compute; reflexivity|].
  destruct (wp_intro _ _ _ (λ r db' Hr, wp_run _ _ _ _ _
    (cancel_schedule_effect demo_db 1 (Some 4) "" monday demo_schedule demo_term
      ltac:(decide_now) eq_refl eq_refl) Hr)) as [(_ & _ & Hl & _)|(Hc & _)].
  - exact Hl.
  - discriminate Hc.
Defined.
Lemma cancelled_class_stays_cancelled_witness :
  wp (cancel_schedule 1 (Some 4) "" monday ≫= λ _,
      materialize_term (Some demo_term) monday 21 false (at_ 6 0)) (λ r db',
    select (λ s, ses_schedule s =? 1) (db_sessions db') =
    select (λ s, ses_schedule s =? 1) (db_sessions (dropped demo_db 1 "" monday))) demo_db.
Proof.
  apply (cancelled_class_stays_cancelled demo_db 1 (Some 4) "" monday demo_schedule demo_term);
    [exact demo_editable|by left|lia].
Defined.
(** The class of room 1 has been moved to room 2 on its first Monday, and another
    class given room 1; a head-count edit then books room 1 twice. *)
Definition relocated_db : DB :=
  demo_db <| db_schedules := [demo_schedule; other_schedule] |>
          <| db_sessions := [(demo_session 1 monday SCHEDULED) <| ses_room := 2 |>;
                             demo_session 2 (monday + 7) SCHEDULED;
                             other_session <| ses_room := 1 |>] |>.
Lemma relocated_editable : editable relocated_db 1 demo_schedule demo_term.
Proof. split; try decide_now; [by vm_compute|done]. Qed.
Definition recount : Edit := mk_edit None None None None (Some 31).
Lemma edit_without_move_unchecked_witness :
  room_is_free relocated_db 1 (at_ 9 0) (at_ 10 30) (Some 1) (Some 1) = false ∧
  wp (update_schedule 1 recount (Some 4) monday) (λ r db',
    (∃ n, r = inr n) ∧
    ∀ s, s ∈ db_sessions db' → future_scheduled 1 monday s = true →
      ses_room s = sch_room demo_schedule ∧
      ses_sched_start s = PyTime.aware (ses_date s) (sch_start demo_schedule) ∧
      ses_sched_end s = PyTime.aware (ses_date s) (sch_end demo_schedule)) relocated_db.
Proof.
  split; [vm_compute; reflexivity|].
  apply (edit_without_move_unchecked relocated_db 1 recount (Some 4) monday demo_schedule demo_term);
    [exact relocated_editable|reflexivity].
Defined.
