(* ===== verification/Console.v ===== *)
(** The console of the facilities office beyond the campus itself (web/ifo.py): ad-hoc
    bookings, the release of a room, duty postings, suspensions and holidays, the
    correction of a wrong absence, and classes added, edited and dropped one at a time.

    [parse_date] and [parse_time] are [_safe_parse_date] and [_safe_parse_time]: the
    framework's parsers with their [ValueError] turned into [None]. *)
From S2P Require Import Prelude Python Model Effects Ops Sample Web Campus OnlineDuty Suspensions Availability Materialization ScheduleOps.
From Stdlib Require Import String.
From stdpp Require Import strings.
Open Scope Z_scope.

(** ** Texts *)
Definition status_label (s : SessionStatus) : string :=
  match s with
  | SCHEDULED => "scheduled" | ACTIVE => "active" | COMPLETED => "completed"
  | ABSENT => "absent" | CANCELLED => "cancelled"
  end%string.
(** [i.isoformat()] of an instant made aware in Asia/Manila *)
Definition iso_manila (i : Z) : string :=
  PyTime.date_str (PyTime.local_date i) +:+ "T" +:+ PyTime.time_str (PyTime.local_time i) +:+ "+08:00".
Definition month_abbr (m : Z) : string :=
  nth (Z.to_nat (m - 1)) ["Jan"; "Feb"; "Mar"; "Apr"; "May"; "Jun"; "Jul"; "Aug"; "Sep"; "Oct"; "Nov"; "Dec"] ""%string.
(** [f"{timezone.localtime(i):%b %d, %I:%M %p}"] *)
Definition local_stamp (i : Z) : string :=
  let '(_, m, d) := PyTime.civil (PyTime.local_date i) in
  let t := PyTime.local_time i in
  let h := t / PyTime.usec_hour in
  month_abbr m +:+ " " +:+ PyStr.zpad 2 d +:+ ", "
  +:+ PyStr.zpad 2 (if h mod 12 =? 0 then 12 else h mod 12) +:+ ":"
  +:+ PyStr.zpad 2 ((t / PyTime.usec_minute) mod 60) +:+ (if h <? 12 then " AM" else " PM").

Section console.
Variables (parse_date parse_time : string → option Z).

(** The views of an active term: Http404 without one. *)
Definition with_active_term (k : AcademicTerm → M response) : M response :=
  get_active_term ≫= λ t, match t with Some t => k t | None => mret NotFound end.
(** [AuditLog.objects.create(actor=request.user, ...)] *)
Definition audit_by (user : User) (event ttype : string) (k : Z) (payload : list (string * json)) : M unit :=
  audit (Some (usr_pk user)) event ttype (PyStr.str k) (JObj payload).

(** ** Releasing a room *)
Definition release_error (s : Session) (room : Room) : option string :=
  if is_some (ses_released_at s) then
    Some (room_code room +:+ " was already released "
          +:+ local_stamp (default 0 (ses_released_at s)) +:+ ".")
  else if negb (has_status SCHEDULED s || has_status ACTIVE s) then
    Some ("That session is " +:+ status_label (ses_status s) +:+ ", so it is not holding "
          +:+ room_code room +:+ ".")
  else None.
Definition session_release (user : User) (k now : Z) : M response :=
  ifo_required user (with_active_term (λ t,
  get_or_404_join (λ db s, (ses_pk s =? k) && in_term db (term_pk t) s) (λ s,
  get_pk (R:=Room) (ses_room s) ≫= λ room,
  match release_error s room with
  | None => release_room (ses_pk s) (Some (usr_pk user)) now ≫= λ _, mret (Page "")
  | Some e => mret (BadRequest e)
  end))).

(** ** Ad-hoc bookings *)
Definition booking_form_error (q : form) : option string :=
  ladder
    [(blank (post q "occupant_name"), "Enter who the room is for.");
     (longer 120 (post q "occupant_name"), "The occupant name is at most 120 characters.");
     (longer 255 (post q "purpose"), "The purpose is at most 255 characters.");
     (negb (PyStr.isdigit (post q "room")), "Select a room.");
     (is_none (parse_date (post q "date")), "Enter a valid date.");
     (is_none (parse_time (post q "start_time")), "Enter a valid start time.");
     (is_none (parse_time (post q "end_time")), "Enter a valid end time.")]%string.
(** [timezone.make_aware(datetime.combine(day, t))] of the submitted values *)
Definition form_instant (q : form) (field : string) : Z :=
  PyTime.aware (default 0 (parse_date (post q "date"))) (default 0 (parse_time (post q field))).
Definition booking_create (user : User) (q : form) : M response :=
  ifo_required user (check (booking_form_error q) (
  first (R:=Room) (λ r, room_pk r =? digits (post q "room")) ≫= λ room,
  match room with
  | None => mret (BadRequest "Select a room.")
  | Some room =>
      if room_out_of_service room then
        mret (BadRequest (room_code room +:+ " is out of service and cannot be booked."))
      else
        let start := form_instant q "start_time" in
        let end_ := form_instant q "end_time" in
        if end_ <=? start then mret (BadRequest "The end time must be after the start time.")
        else
          read (λ db, room_is_free db (room_pk room) start end_ None None) ≫= λ free : bool,
          if negb free then
            mret (BadRequest (room_code room +:+ " is not free for that window. Open the room's "
                              +:+ "schedule to see what already occupies it."))
          else
            create (λ k, {| bkg_pk := k; bkg_room := room_pk room;
                            bkg_created_by := Some (usr_pk user);
                            bkg_occupant := post q "occupant_name"; bkg_purpose := post q "purpose";
                            bkg_start := start; bkg_end := end_; bkg_status := "active" |})
            ≫= λ booking,
            audit_by user "booking.created" "booking" (bkg_pk booking)
              [("room", JStr (room_code room)); ("occupant", JStr (bkg_occupant booking));
               ("start", JStr (iso_manila start)); ("end", JStr (iso_manila end_))]%string ≫= λ _,
            mret (Page "")
  end)).
Definition booking_cancel (user : User) (k : Z) : M response :=
  ifo_required user (get_or_404 (λ b, bkg_pk b =? k) (λ b,
  get_pk (R:=Room) (bkg_room b) ≫= λ room,
  if negb (bool_decide (bkg_status b = "active"%string)) then
    mret (BadRequest ("That booking for " +:+ room_code room +:+ " is already "
                      +:+ bkg_status b +:+ "."))
  else
    save (bkg_pk b) (λ x, x <| bkg_status := "cancelled"%string |>) ≫= λ _,
    audit_by user "booking.cancelled" "booking" (bkg_pk b)
      [("room", JStr (room_code room)); ("occupant", JStr (bkg_occupant b));
       ("start", JStr (PyTime.iso_utc (bkg_start b))); ("end", JStr (PyTime.iso_utc (bkg_end b)))]%string
    ≫= λ _,
    mret (Page ""))).

(** ** The correction of an absence *)
Definition held_window (s : Session) : Session :=
  s <| ses_status := COMPLETED |>
    <| ses_actual_start := Some (default (ses_sched_start s) (ses_actual_start s)) |>
    <| ses_actual_end := Some (default (ses_sched_end s) (ses_actual_end s)) |>.
Definition session_reinstate (user : User) (k : Z) (q : form) : M response :=
  ifo_required user (with_active_term (λ t,
  get_or_404_join (λ db s, (ses_pk s =? k) && in_term db (term_pk t) s) (λ s,
  get_pk (R:=Schedule) (ses_schedule s) ≫= λ sch,
  let back flash := mret (Redirect "ifo_corrections" "" flash) in
  if negb (has_status ABSENT s) then
    back ("That session is " +:+ status_label (ses_status s) +:+ ", not Absent -- nothing to correct.")
  else if blank (post q "reason") then back "A correction needs a reason. Not changed."%string
  else
    let s' := held_window s in
    atomic (
      save (ses_pk s) (λ x, x <| ses_status := ses_status s' |>
                              <| ses_actual_start := ses_actual_start s' |>
                              <| ses_actual_end := ses_actual_end s' |>) ≫= λ _,
      audit_by user "session.absent_corrected" "session" (ses_pk s)
        [("reason", JStr (post q "reason")); ("corrected_to", JStr "completed");
         ("times", JStr "estimated (scheduled window)")]%string) ≫= λ _,
    back (sch_course_code sch +:+ " on " +:+ PyTime.date_str (ses_date s) +:+ " reinstated as held.")))).

(** ** Suspensions and holidays *)
(** The two dates of a form, the second one the first when it is left empty *)
Definition form_range (q : form) : option Z * option Z :=
  let start := parse_date (post q "start_date") in
  (start, if blank (post q "end_date") then start else parse_date (post q "end_date")).
Definition range_error (q : form) (no_reason : string) : option string :=
  let '(start, end_) := form_range q in
  ladder
    [(is_none start, "Enter a valid start date."%string);
     (is_none end_, "Enter a valid end date."%string);
     (default 0 end_ <? default 0 start, "The end date is before the start date."%string);
     (blank (post q "reason"), no_reason)].
Definition find_building (raw : string) : M (option Building) :=
  if PyStr.isdigit raw then first (R:=Building) (λ b, bld_pk b =? digits raw) else mret None.
Definition suspension_create (user : User) (q : form) : M response :=
  ifo_required user (get_active_term ≫= λ t,
  match t with
  | None => mret (BadRequest "No active term. Import a term first.")
  | Some t =>
      if bool_decide (term_status t = T_ARCHIVED) then mret (BadRequest "Archived terms are read-only.")
      else check (range_error q "Give a reason (for example, Typhoon signal 3).") (
        let '(start, end_) := (default 0 (form_range q).1, default 0 (form_range q).2) in
        let raw := post q "building" in
        find_building raw ≫= λ building,
        if negb (blank raw) && is_none building then
          mret (BadRequest "Select a valid building, or leave it campus-wide.")
        else
          suspend_classes (term_pk t) start end_ (post q "reason") building (Some (usr_pk user))
          ≫= λ '(_, n),
          mret (Redirect "ifo_suspensions" ""
            ("Classes suspended " +:+ PyTime.date_str start
             +:+ (if start =? end_ then "" else " to " +:+ PyTime.date_str end_)
             +:+ " (" +:+ match building with Some b => bld_code b | None => "all buildings" end
             +:+ "). " +:+ PyStr.str n +:+ " session(s) cancelled, faculty notified.")))
  end).
Definition suspension_lift (ci : string → string) (user : User) (k now : Z) : M response :=
  ifo_required user (with_active_term (λ t,
  get_or_404 (λ s, (sus_pk s =? k) && (sus_term s =? term_pk t)) (λ s,
  lift_suspension ci (sus_pk s) (Some (usr_pk user)) now ≫= λ n,
  mret (Redirect "ifo_suspensions" ""
    ("Suspension lifted. " +:+ PyStr.str n +:+ " session(s) reinstated to Scheduled."))))).

Definition break_payload (a b : Z) (reason : string) : list (string * json) :=
  [("start", JStr (PyTime.date_str a)); ("end", JStr (PyTime.date_str b)); ("reason", JStr reason)]%string.
Definition break_create (user : User) (q : form) : M response :=
  ifo_required user (get_active_term ≫= λ t,
  match t with
  | None => mret (BadRequest "No active term. Import a term first.")
  | Some t =>
      check (range_error q "Name the holiday (for example, Araw ng Kagitingan).") (
        let '(start, end_) := (default 0 (form_range q).1, default 0 (form_range q).2) in
        let reason := post q "reason" in
        create (λ k, {| brk_pk := k; brk_term := term_pk t; brk_start := start; brk_end := end_;
                        brk_reason := PyStr.take 120 reason |}) ≫= λ _,
        audit_by user "academicbreak.created" "term" (term_pk t) (break_payload start end_ reason)
        ≫= λ _,
        mret (Redirect "ifo_breaks" ""
          ("Holiday added: " +:+ reason +:+ " (" +:+ PyTime.date_str start +:+ ").")))
  end).
Definition break_delete (user : User) (k : Z) : M response :=
  ifo_required user (with_active_term (λ t,
  require_writable_term t ≫= λ _,
  get_or_404 (λ b, (brk_pk b =? k) && (brk_term b =? term_pk t)) (λ b,
  audit_by user "academicbreak.deleted" "term" (brk_term b)
    (break_payload (brk_start b) (brk_end b) (brk_reason b)) ≫= λ _,
  delete_row (R:=AcademicBreak) (brk_pk b) ≫= λ _,
  mret (Redirect "ifo_breaks" "" ("Holiday removed: " +:+ brk_reason b +:+ "."))))).

(** ** Duty postings *)
Definition duty_role (s : string) : option DutyRole :=
  if bool_decide (s = "checker"%string) then Some DUTY_CHECKER
  else if bool_decide (s = "guard"%string) then Some DUTY_GUARD else None.
Definition posting_type (s : string) : option AssignmentType :=
  if bool_decide (s = "shift"%string) then Some SHIFT
  else if bool_decide (s = "standing"%string) then Some STANDING else None.
Definition posting_scope (s : string) : option AssignmentScope :=
  if bool_decide (s = "floor"%string) then Some FLOOR_SCOPE
  else if bool_decide (s = "online"%string) then Some ONLINE_SCOPE else None.
(** [User.objects.filter(pk=raw, role__in=[..]).first()]; a text that is no number raises. *)
Definition duty_user (raw : option string) : M (option User) :=
  match raw with
  | None => mret None
  | Some s =>
      of_option ValueErr (PyStr.int s) ≫= λ k,
      first (R:=User) (λ u, (usr_pk u =? k)
        && (bool_decide (usr_role u = CHECKER) || bool_decide (usr_role u = GUARD)))
  end.
Definition raw_of (q : form) (k : string) : string := dict_getd q k ""%string.
Definition posting_error (q : form) (floors : list string) (found : bool) (term : option AcademicTerm)
    : option string :=
  ladder
    [(negb found, "Select a Checker or Guard.");
     (is_none (duty_role (raw_of q "role")), "Select a valid duty role.");
     (is_none (posting_type (raw_of q "type")), "Select shift or standing.");
     (is_none (posting_scope (raw_of q "scope")), "Select floor or online scope.");
     (bool_decide (posting_scope (raw_of q "scope") = Some FLOOR_SCOPE) && bool_decide (floors = []),
      "A floor posting needs at least one floor.");
     (negb (blank (post q "date")) && is_none (parse_date (post q "date")), "Enter a valid date.");
     (negb (blank (post q "start_time")) && is_none (parse_time (post q "start_time")),
      "Enter a valid start time.");
     (negb (blank (post q "end_time")) && is_none (parse_time (post q "end_time")),
      "Enter a valid end time.");
     (negb (forallb PyStr.isdigit floors), "Invalid floor selection.");
     (is_none term, "No active term. Import a term first.")]%string.
(** [raw or None], stored as what the text reads as *)
Definition optional (parse : string → option Z) (raw : string) : option Z :=
  if blank raw then None else parse raw.
Definition floor_le (a b : Floor) : bool :=
  (flr_building a <? flr_building b)
  || ((flr_building a =? flr_building b) && (flr_number a <=? flr_number b)).
Definition chosen_floors (db : DB) (floors : list string) : list Z :=
  flr_pk <$> sort_by floor_le
    (select (λ f, bool_decide (flr_pk f ∈ (digits <$> floors))) (db_floors db)).
(** The dates an online posting is dealt over.  The date of a dated posting is still the
    text of the form: a day cannot be added to it. *)
Inductive py_date := PText (z : Z) | PDate (z : Z).
Definition date_of (d : py_date) : Z := match d with PText z | PDate z => z end.
Definition next_day (d : py_date) : M py_date :=
  match d with PDate z => mret (PDate (z + 1)) | PText _ => raise TypeErr end.
Fixpoint deal_days (n : nat) (d : py_date) : M unit :=
  match n with
  | O => mret ()
  | S n' => assign_online_sessions (date_of d) ≫= λ _, next_day d ≫= deal_days n'
  end.
Definition assignment_create (user : User) (q : form) (floors : list string) (today : Z) : M response :=
  ifo_required user (
  duty_user (dict_get q "user"%string) ≫= λ posted,
  get_active_term ≫= λ term,
  check (posting_error q floors (is_some posted) term) (
  match posted, duty_role (raw_of q "role"), posting_type (raw_of q "type"),
        posting_scope (raw_of q "scope"), term with
  | Some u, Some role, Some type, Some scope, Some t =>
      let date := optional parse_date (post q "date") in
      create (λ k, {| asg_pk := k; asg_user := usr_pk u; asg_role := role; asg_floors := [];
                      asg_type := type; asg_scope := scope; asg_date := date;
                      asg_start := optional parse_time (post q "start_time");
                      asg_end := optional parse_time (post q "end_time");
                      asg_term := Some (term_pk t); asg_status := "active" |}) ≫= λ a,
      read (λ db, if bool_decide (scope = FLOOR_SCOPE) then chosen_floors db floors else [])
      ≫= λ chosen,
      when (bool_decide (scope = FLOOR_SCOPE))
        (save (asg_pk a) (λ x, x <| asg_floors := chosen |>)) ≫= λ _,
      audit_by user "assignment.created" "assignment" (asg_pk a)
        [("user", JInt (usr_pk u)); ("role", JStr (raw_of q "role"));
         ("scope", JStr (raw_of q "scope")); ("type", JStr (raw_of q "type"));
         ("floors", JList (JInt <$> chosen))]%string ≫= λ _,
      if bool_decide (scope = ONLINE_SCOPE) then
        match date with
        | Some d => deal_days 1 (PText d)
        | None => get_policy_num "materialization_horizon_days" ≫= λ horizon,
                  deal_days (Z.to_nat (horizon + 1)) (PDate today)
        end ≫= λ _, mret (Page "")
      else mret (Page "")
  | _, _, _, _, _ => mret (BadRequest "")
  end)).

(** ** Classes, one at a time *)
Definition find_faculty (raw : string) : M (option User) :=
  if PyStr.isdigit raw
  then first (R:=User) (λ u, (usr_pk u =? digits raw) && bool_decide (usr_role u = FACULTY))
  else mret None.
Definition find_room (raw : string) : M (option Room) :=
  if PyStr.isdigit raw then first (R:=Room) (λ r, room_pk r =? digits raw) else mret None.
(** [int(fields["enrolled_count"] or 0)] *)
Definition enrolled_of (q : form) : M Z :=
  if blank (post q "enrolled_count") then mret 0
  else of_option ValueErr (PyStr.int (post q "enrolled_count")).
Definition class_error (q : form) (faculty : option User) (room : option Room) : option string :=
  let start := parse_time (post q "start_time") in
  let end_ := parse_time (post q "end_time") in
  ladder
    [(is_none faculty, "Select a faculty member."%string);
     (is_none room, "Select a room."%string);
     (is_none start || is_none end_, "Enter valid start and end times."%string);
     (default 0 end_ <=? default 0 start, "The end time must be after the start time."%string)].
Definition class_modality (s : string) : Modality :=
  if bool_decide (s = "online"%string) then ONLINE
  else if bool_decide (s = "blended"%string) then BLENDED else F2F.
(** The command materialize_sessions with its defaults *)
Definition materialize_command (today now : Z) : M unit :=
  try_with (require_active_term ≫= λ t, materialize_term (Some t) today 7 false now ≫= λ _, mret ())
    (λ e, match e with
          | NoActiveTermError _ => Some (raise (CommandError "No ACTIVE academic term."))
          | MaterializationError msg => Some (raise (CommandError msg))
          | _ => None
          end).
Definition schedule_new (user : User) (q : form) (today now : Z) : M response :=
  ifo_required user (get_active_term ≫= λ t,
  match t with
  | None => mret (BadRequest "No active term. Import a term first.")
  | Some t =>
      check (ladder
        [(bool_decide (term_status t = T_ARCHIVED), "Archived terms are read-only.");
         (blank (post q "course_code") || blank (post q "section"),
          "Course code and section are required.")]%string) (
      find_faculty (post q "faculty") ≫= λ faculty,
      find_room (post q "room") ≫= λ room,
      check (class_error q faculty room) (
      check (ladder [(negb (PyStr.isdigit (post q "day_of_week")), "Select a day of week.")]%string) (
      match faculty, room with
      | Some f, Some room =>
          enrolled_of q ≫= λ enrolled,
          create (λ k, {| sch_pk := k; sch_term := term_pk t;
                          sch_course_code := PyStr.take 30 (post q "course_code");
                          sch_section := PyStr.take 30 (post q "section"); sch_enrolled := enrolled;
                          sch_faculty := usr_pk f; sch_room := room_pk room;
                          sch_day := digits (post q "day_of_week");
                          sch_start := default 0 (parse_time (post q "start_time"));
                          sch_end := default 0 (parse_time (post q "end_time"));
                          sch_modality := class_modality (post q "modality");
                          sch_status := SCH_ACTIVE |}) ≫= λ sch,
          audit_by user "schedule.created" "schedule" (sch_pk sch)
            [("course", JStr (sch_course_code sch)); ("section", JStr (sch_section sch));
             ("room", JStr (room_code room))]%string ≫= λ _,
          materialize_command today now ≫= λ _,
          mret (Redirect "ifo_room_detail" (room_code room)
            (sch_course_code sch +:+ "-" +:+ sch_section sch
             +:+ " added and its upcoming sessions created."))
      | _, _ => mret (BadRequest "")
      end)))
  end).
Section edits.
Context `{!RoomAvailability}.
Definition schedule_edit (user : User) (k : Z) (q : form) (today : Z) : M response :=
  ifo_required user (with_active_term (λ t,
  get_or_404 (λ s, (sch_pk s =? k) && (sch_term s =? term_pk t)) (λ sch,
  find_faculty (post q "faculty") ≫= λ faculty,
  find_room (post q "room") ≫= λ room,
  check (class_error q faculty room) (
  match faculty, room with
  | Some f, Some room =>
      enrolled_of q ≫= λ enrolled,
      try_with (
        update_schedule k (mk_edit (Some (usr_pk f)) (Some room)
          (parse_time (post q "start_time")) (parse_time (post q "end_time")) (Some enrolled))
          (Some (usr_pk user)) today ≫= λ n,
        mret (Redirect "ifo_room_detail" (room_code room)
          (sch_course_code sch +:+ "-" +:+ sch_section sch +:+ " updated; " +:+ PyStr.str n
           +:+ " upcoming session(s) moved to match.")))
        (λ e, match e with ScheduleConflictError msg => Some (mret (BadRequest msg)) | _ => None end)
  | _, _ => mret (BadRequest "")
  end)))).
End edits.
Definition schedule_cancel (user : User) (k : Z) (q : form) (today : Z) : M response :=
  ifo_required user (with_active_term (λ t,
  get_or_404 (λ s, (sch_pk s =? k) && (sch_term s =? term_pk t)) (λ sch,
  get_pk (R:=Room) (sch_room sch) ≫= λ room,
  cancel_schedule k (Some (usr_pk user)) (post q "reason") today ≫= λ n,
  mret (Redirect "ifo_room_detail" (room_code room)
    (sch_course_code sch +:+ "-" +:+ sch_section sch +:+ " cancelled; " +:+ PyStr.str n
     +:+ " upcoming session(s) marked Cancelled."))))).
End console.

(** ** Bookings and the availability of rooms *)

(** What availability reads of the bookings. *)
Lemma free_with_bookings db l room a b xs x :
  room_is_free (db <| db_bookings := l |>) room a b xs x =
  room_is_free (db <| db_bookings := [] |>) room a b xs x
  && bool_decide (select (booking_overlaps room a b) l = []).
Proof.
  unfold room_is_free. cbn [db_bookings upd setter].
  change (session_occupants (db <| db_bookings := l |>)) with (session_occupants (db <| db_bookings := [] |>)).
  change (effective_online (db <| db_bookings := l |>)) with (effective_online (db <| db_bookings := [] |>)).
  change (schedule_occupies (db <| db_bookings := l |>)) with (schedule_occupies (db <| db_bookings := [] |>)).
  change (reservation_occupies (db <| db_bookings := l |>)) with (reservation_occupies (db <| db_bookings := [] |>)).
  destruct (existsb _ _); [done|]. destruct (select (booking_overlaps room a b) l) as [|bk l']; simpl.
  - by rewrite andb_true_r.
  - by rewrite andb_false_r.
Qed.
Lemma free_by_bookings db room a b xs x :
  room_is_free db room a b xs x =
  room_is_free (db <| db_bookings := [] |>) room a b xs x
  && bool_decide (select (booking_overlaps room a b) (db_bookings db) = []).
Proof. rewrite <- free_with_bookings. by destruct db. Qed.

Lemma select_snoc_nil {A} (p : A → bool) (l : list A) y :
  bool_decide (select p (l ++ [y]) = []) = bool_decide (select p l = []) && negb (p y).
Proof.
  rewrite select_app, select_cons. apply eq_true_iff_eq. rewrite andb_true_iff, !bd_true, negb_true_iff.
  destruct (p y), (select p l); simpl; naive_solver.
Qed.

Section rows.
Context {R : Type} `{!HasPk R, !Table R}.
Lemma first_eq (p : R → bool) db : first (R:=R) p db = (inr (List.find p (tbl db)), db).
Proof. done. Qed.
Lemma get_pk_eq k db (x : R) : by_pk (tbl db) k = Some x → get_pk (R:=R) k db = (inr x, db).
Proof. intros Hx. unfold get_pk, mbind, M_bind, read, of_option. by rewrite Hx. Qed.
Lemma save_eq k (f : R → R) db (x : R) :
  by_pk (tbl db) k = Some x → save (R:=R) k f db = (inr tt, set_tbl (update_pk k f (tbl (R:=R) db)) db).
Proof. intros Hx. unfold save. by rewrite existing_by_pk, Hx. Qed.
End rows.


Section bookings.
Variables (parse_date parse_time : string → option Z).
Notation instant := (form_instant parse_date parse_time).

(** The rooms and times a form may book: a room in service, for some time, that nothing
    occupies. *)
Record bookable (db : DB) (q : form) (room : Room) : Prop := {
  bk_form : booking_form_error parse_date parse_time q = None;
  bk_room : by_pk (db_rooms db) (digits (post q "room")) = Some room;
  bk_open : room_out_of_service room = false;
  bk_order : instant q "start_time" < instant q "end_time";
  bk_free : ¬ room_occupied db (room_pk room) (instant q "start_time") (instant q "end_time") None None
}.
(** The booking a form asks for, and the database once it is made. *)
Definition booked (user : User) (q : form) (room : Room) (k : Z) : Booking :=
  {| bkg_pk := k; bkg_room := room_pk room; bkg_created_by := Some (usr_pk user);
     bkg_occupant := post q "occupant_name"; bkg_purpose := post q "purpose";
     bkg_start := instant q "start_time"; bkg_end := instant q "end_time"; bkg_status := "active" |}.
Lemma booking_create_eq user q db room :
  usr_role user = IFO_ADMIN → pk_unique (db_items db) → bookable db q room →
  ∃ row, booking_create parse_date parse_time user q db =
    (inr (Page ""), db <| db_bookings := db_bookings db ++ [booked user q room (fresh_pk (db_bookings db))] |>
                       <| db_audit := db_audit db ++ [row] |>).
Proof.
  intros Hrole Hitems [Hform Hroom Hopen Hord Hfree]. unfold booking_create, ifo_required, role_required.
  rewrite bool_decide_false by (intros Hn; done). cbn [andb]. unfold check. rewrite Hform.
  unfold first, read, mbind at 1, M_bind at 1. cbv beta iota. unfold tbl, table_Room.
  change (List.find (λ r, room_pk r =? digits (post q "room")) (db_rooms db)) with
    (by_pk (db_rooms db) (digits (post q "room"))). rewrite Hroom, Hopen.
  cbv zeta. rewrite (proj2 (Z.leb_gt _ _)) by done. unfold mbind at 1, M_bind at 1. cbv beta iota.
  rewrite (proj2 (room_is_free_spec db Hitems _ _ _ _ _)) by done. cbn [negb].
  eexists. reflexivity.
Qed.
(** A room is booked exactly when the form is valid, the room is in service, the time
    is not empty and nothing occupies the room then: no class or reservation, no other
    booking.  The booking made is the one asked for; a refusal names its reason and
    changes nothing. *)
Theorem booking_create_exact user q db :
  usr_role user = IFO_ADMIN → pk_unique (db_items db) →
  (∀ room, bookable db q room → ∃ row, booking_create parse_date parse_time user q db =
     (inr (Page ""), db <| db_bookings := db_bookings db ++ [booked user q room (fresh_pk (db_bookings db))] |>
                        <| db_audit := db_audit db ++ [row] |>)) ∧
  ((∀ room, ¬ bookable db q room) →
     ∃ e, booking_create parse_date parse_time user q db = (inr (BadRequest e), db)).
Proof.
  intros Hrole Hitems. split; [intros room; by apply booking_create_eq|]. intros Hno.
  unfold booking_create, ifo_required, role_required.
  rewrite bool_decide_false by (intros Hn; done). cbn [andb]. unfold check.
  destruct (booking_form_error _ _ q) as [e|] eqn:Hform; [by exists e|].
  unfold first, read, mbind at 1, M_bind at 1. cbv beta iota. unfold tbl, table_Room.
  change (List.find (λ r, room_pk r =? digits (post q "room")) (db_rooms db)) with
    (by_pk (db_rooms db) (digits (post q "room"))).
  destruct (by_pk (db_rooms db) _) as [room|] eqn:Hroom; [|by eexists].
  destruct (room_out_of_service room) eqn:Hopen; [by eexists|]. cbv zeta.
  destruct (_ <=? _) eqn:Hord; [by eexists|]. b2p. unfold mbind at 1, M_bind at 1. cbv beta iota.
  destruct (room_is_free db _ _ _ None None) eqn:Hfree; [|by eexists]. exfalso.
  apply (Hno room). split; try done. by apply room_is_free_spec.
Qed.

Lemma booking_cancel_eq user b room db :
  usr_role user = IFO_ADMIN → by_pk (db_bookings db) (bkg_pk b) = Some b →
  by_pk (db_rooms db) (bkg_room b) = Some room → bkg_status b = "active"%string →
  ∃ row, booking_cancel user (bkg_pk b) db =
    (inr (Page ""), db <| db_bookings := update_pk (bkg_pk b) (λ x, x <| bkg_status := "cancelled"%string |>)
                                           (db_bookings db) |>
                       <| db_audit := db_audit db ++ [row] |>).
Proof.
  intros Hrole Hb Hroom Hst. unfold booking_cancel, ifo_required, role_required.
  rewrite bool_decide_false by (intros Hn; done). cbn [andb].
  unfold get_or_404. rewrite (bind_run _ _ _ _ _ (first_eq (R:=Booking) (λ b', bkg_pk b' =? bkg_pk b) db)).
  change (List.find _ _) with (by_pk (db_bookings db) (bkg_pk b)). rewrite Hb.
  erewrite bind_run by (apply get_pk_eq; exact Hroom). rewrite Hst.
  rewrite bool_decide_true by done. cbn [negb].
  erewrite bind_run by (eapply save_eq; exact Hb). by eexists.
Qed.

(** C36: a booking takes its room for its time and nothing else, and cancelling it gives
    back exactly what it took: after the booking every room has the availability it
    had, less the booked interval of the booked room; after its cancellation, by any
    officer, every room at every time has the availability it had before. *)
Theorem booking_round_trip user user' q db room :
  usr_role user = IFO_ADMIN → usr_role user' = IFO_ADMIN → pk_unique (db_items db) →
  pk_unique (db_bookings db) → bookable db q room →
  let db1 := exec (booking_create parse_date parse_time user q) db in
  let db2 := exec (booking_cancel user' (fresh_pk (db_bookings db))) db1 in
  (∀ r a b xs x, room_is_free db1 r a b xs x = room_is_free db r a b xs x &&
     negb ((r =? room_pk room) && overlaps (instant q "start_time") (instant q "end_time") a b)) ∧
  (∀ r a b xs x, room_is_free db2 r a b xs x = room_is_free db r a b xs x).
Proof.
  intros Hrole Hrole' Hitems Hpk Hbook db1 db2.
  destruct (booking_create_eq user q db room Hrole Hitems Hbook) as [row Hcreate].
  set (bk := booked user q room (fresh_pk (db_bookings db))) in *.
  assert (db1 = db <| db_bookings := db_bookings db ++ [bk] |> <| db_audit := db_audit db ++ [row] |>)
    as Hdb1 by (unfold db1, exec; by rewrite Hcreate).
  assert (∀ l rows r a b xs x, room_is_free (db <| db_bookings := l |> <| db_audit := rows |>) r a b xs x =
    room_is_free (db <| db_bookings := l |>) r a b xs x) as Hlog by done.
  split.
  - intros r a b xs x. rewrite Hdb1, Hlog, free_with_bookings, (free_by_bookings db), select_snoc_nil,
      andb_assoc. do 2 f_equal. unfold booking_overlaps. cbn [bk booked bkg_room bkg_status bkg_start bkg_end].
    by rewrite bool_decide_true, andb_true_r, Z.eqb_sym.
  - destruct (booking_cancel_eq user' bk room db1) as [row' Hcancel]; [done|by rewrite Hdb1; apply by_pk_insert|..].
    { rewrite Hdb1. destruct Hbook as [_ Hr _ _ _]. apply by_pk_elem in Hr as Hpkr. cbn [bk booked bkg_room].
      replace (room_pk room) with (digits (post q "room")) by (symmetry; apply Hpkr). exact Hr. }
    { done. }
    intros r a b xs x. unfold db2, exec. change (fresh_pk (db_bookings db)) with (bkg_pk bk).
    rewrite Hcancel. cbn [snd]. rewrite Hdb1. cbn [db_bookings upd setter].
    rewrite update_pk_snoc; [|intros y Hy; pose proof (fresh_pk_gt _ _ Hy); simpl; lia|done].
    rewrite (free_by_bookings db), <- andb_true_r.
    match goal with |- context [db_bookings db ++ [?y]] =>
      change (room_is_free (db <| db_bookings := db_bookings db ++ [y] |>) r a b xs x =
        room_is_free (db <| db_bookings := [] |>) r a b xs x
        && bool_decide (select (booking_overlaps r a b) (db_bookings db) = []) && true) end.
    rewrite free_with_bookings, select_snoc_nil, andb_assoc. f_equal. unfold booking_overlaps. simpl.
    by rewrite andb_false_r.
Qed.
End bookings.

(** ** Duty postings *)
Section postings.
Variables (parse_date parse_time : string → option Z).

(** A posting the form may record: a checker or guard, valid choices, an active term. *)
Record postable (db : DB) (q : form) (floors : list string) (u : User) (t : AcademicTerm) : Prop := {
  po_raw : ∃ raw, dict_get q "user"%string = Some raw ∧ PyStr.int raw = Some (usr_pk u);
  po_user : List.find (λ x, (usr_pk x =? usr_pk u)
              && (bool_decide (usr_role x = CHECKER) || bool_decide (usr_role x = GUARD)))
              (db_users db) = Some u;
  po_term : select is_active_term (db_terms db) = [t];
  po_form : posting_error parse_date parse_time q floors true (Some t) = None;
  po_unique : pk_unique (db_sessions db)
}.
Definition posted_online (q : form) : bool :=
  bool_decide (posting_scope (raw_of q "scope") = Some ONLINE_SCOPE).
Definition posted (db : DB) (q : form) (floors : list string) (u : User) (t : AcademicTerm)
    (a : Assignment) : Prop :=
  asg_user a = usr_pk u ∧ Some (asg_role a) = duty_role (raw_of q "role") ∧
  Some (asg_type a) = posting_type (raw_of q "type") ∧
  Some (asg_scope a) = posting_scope (raw_of q "scope") ∧
  asg_floors a = (if posted_online q then [] else chosen_floors db floors) ∧
  asg_date a = optional parse_date (post q "date") ∧
  asg_start a = optional parse_time (post q "start_time") ∧
  asg_end a = optional parse_time (post q "end_time") ∧
  asg_term a = Some (term_pk t) ∧ asg_status a = "active"%string.

(** The sessions of the dates are dealt, one date after the other. *)
Definition dealt (dates : list Z) (db : DB) : DB := foldl (λ db d, exec (assign_online_sessions d) db) db dates.
Lemma deal_date_eq d t db :
  pk_unique (db_sessions db) → select is_active_term (db_terms db) = [t] →
  ∃ n, assign_online_sessions d db = (inr n, exec (assign_online_sessions d) db) ∧
    let db1 := exec (assign_online_sessions d) db in
    pk_unique (db_sessions db1) ∧ select is_active_term (db_terms db1) = [t].
Proof.
  intros Hu Ht. unfold exec. destruct (assign_online_sessions d db) as [r db1] eqn:E.
  destruct (wp_run _ _ _ _ _ (assign_wp db d t Hu Ht) E) as (-> & (A & N & ->) & _). eexists. split; [reflexivity|].
  split; [|exact Ht]. apply (pk_unique_update _ (λ s, s <| ses_online_checker := _ |>)); [done|exact Hu].
Qed.
Lemma deal_dates_eq n d t db :
  pk_unique (db_sessions db) → select is_active_term (db_terms db) = [t] →
  deal_days n (PDate d) db = (inr (), dealt (seqZ d (Z.of_nat n)) db).
Proof.
  revert d db. induction n as [|n IH]; intros d db Hu Ht; [done|].
  destruct (deal_date_eq d t db Hu Ht) as (m & Hm & Hu1 & Ht1).
  change (deal_days (S n) (PDate d)) with (assign_online_sessions d ≫= λ _, mret (PDate (d + 1)) ≫= deal_days n).
  rewrite (bind_run _ _ _ _ _ Hm). change (deal_days n (PDate (d + 1)) (exec (assign_online_sessions d) db) =
    (inr (), dealt (seqZ d (Z.of_nat (S n))) db)). rewrite IH by done.
  rewrite (seqZ_cons d) by lia. cbn [dealt foldl]. replace (Z.pred (Z.of_nat (S n))) with (Z.of_nat n) by lia.
  by rewrite <- Z.add_1_r.
Qed.
Lemma deal_text_eq d t db :
  pk_unique (db_sessions db) → select is_active_term (db_terms db) = [t] →
  deal_days 1 (PText d) db = (inl TypeErr, dealt [d] db).
Proof.
  intros Hu Ht. destruct (deal_date_eq d t db Hu Ht) as (m & Hm & _).
  change (deal_days 1 (PText d)) with (assign_online_sessions d ≫= λ _, raise TypeErr ≫= deal_days 0).
  by rewrite (bind_run _ _ _ _ _ Hm).
Qed.

Lemma posting_choices q floors t :
  posting_error parse_date parse_time q floors true (Some t) = None →
  ∃ role type scope, duty_role (raw_of q "role") = Some role ∧
    posting_type (raw_of q "type") = Some type ∧ posting_scope (raw_of q "scope") = Some scope ∧
    (scope = FLOOR_SCOPE ∨ scope = ONLINE_SCOPE) ∧
    (blank (post q "date") = false → ∃ d, parse_date (post q "date") = Some d).
Proof.
  unfold posting_error. destruct (duty_role _), (posting_type _), (posting_scope _) as [[]|]; simpl;
    try done; intros Hform; do 3 eexists; split_and!; eauto; intros Hb; rewrite Hb in Hform;
    destruct (parse_date _) as [d0|]; simpl in Hform; eauto;
    destruct (bool_decide (floors = [])); done.
Qed.

(** The posting recorded, with its row of the log *)
Definition recorded (user : User) (q : form) (u : User) (a : Assignment) (db : DB) : DB :=
  exec (audit_by user "assignment.created" "assignment" (asg_pk a)
          [("user", JInt (usr_pk u)); ("role", JStr (raw_of q "role")); ("scope", JStr (raw_of q "scope"));
           ("type", JStr (raw_of q "type")); ("floors", JList (JInt <$> asg_floors a))]%string)
    (db <| db_assignments := db_assignments db ++ [a] |>).
(** C40: a valid duty posting is recorded exactly as the form says, with the chosen floors
    for a floor posting, and logged, and a floor posting changes nothing else.  An online
    posting then assigns the sessions of its dates, one date after the other, and changes
    nothing else: a standing one those of today and of the whole materialization horizon
    after it, and answers the page; a dated one those of its date, and then always fails
    (the next day is asked of the text of the form) with everything it did kept. *)
Theorem assignment_create_exact user q floors today db u t horizon :
  usr_role user = IFO_ADMIN → postable db q floors u t →
  policy_num db "materialization_horizon_days" = Some horizon →
  wp (assignment_create parse_date parse_time user q floors today) (λ r db',
    ∃ a, asg_pk a = fresh_pk (db_assignments db) ∧ posted db q floors u t a ∧
      let db1 := recorded user q u a db in
      if negb (posted_online q) then r = inr (Page "") ∧ db' = db1
      else match optional parse_date (post q "date") with
           | None => r = inr (Page "") ∧ db' = dealt (seqZ today (horizon + 1)) db1
           | Some d => r = inl TypeErr ∧ db' = dealt [d] db1
           end) db.
Proof.
  intros Hrole [(raw & Hraw & Hint) Hu Ht Hform Huniq] Hpol.
  unfold assignment_create, ifo_required, role_required.
  rewrite bool_decide_false by (intros Hn; done). cbn [andb]. unfold duty_user. rewrite Hraw.
  do 3 wp_step; [|congruence]. assert (a = usr_pk u) as -> by congruence.
  wp_step. unfold tbl, table_User. rewrite Hu. wp_step.
  apply wp_get_active_term; [|by rewrite Ht|unfold one_active_term; rewrite Ht; simpl; lia].
  intros t' Ht'. assert (t' = t) as -> by congruence. cbn [is_some]. unfold check. rewrite Hform.
  destruct (posting_choices _ _ _ Hform) as (role & type & scope & Erole & Etype & Escope & Hsc & Hd).
  rewrite Erole, Etype, Escope. cbv zeta. wp_step. wp_step. set (a := {| asg_pk := _ |}). cbn [set_tbl table_Assignment].
  assert (posted_online q = bool_decide (scope = ONLINE_SCOPE)) as Hon
    by (unfold posted_online; rewrite Escope; by apply bool_decide_ext; naive_solver).
  destruct Hsc as [->| ->]; rewrite Hon; wp_step; wp_step.
  - change (bool_decide (FLOOR_SCOPE = ONLINE_SCOPE)) with false.
    change (bool_decide (FLOOR_SCOPE = FLOOR_SCOPE)) with true. cbv beta iota. cbn [when].
    apply wp_bind. eapply wp_of_eq; [apply (save_eq _ _ _ a), by_pk_insert; done|]. cbv beta iota.
    apply wp_bind. eapply wp_of_eq; [apply audit_eq|]. cbv beta iota. apply wp_ret.
    exists (a <| asg_floors := chosen_floors db floors |>).
    split; [done|]. split; [unfold posted; rewrite Hon, Erole, Etype, Escope; subst a; repeat split|].
    split; [done|]. unfold recorded, exec, audit_by. rewrite audit_eq.
    cbn [set_tbl table_Assignment tbl db_assignments upd setter snd]. rewrite update_pk_snoc; [done| |done].
    intros x Hx. pose proof (fresh_pk_gt _ _ Hx). unfold a. simpl. lia.
  - change (bool_decide (ONLINE_SCOPE = ONLINE_SCOPE)) with true.
    change (bool_decide (ONLINE_SCOPE = FLOOR_SCOPE)) with false. cbv beta iota. cbn [when].
    assert (posted db q floors u t a) as Ha by (unfold posted; rewrite Hon, Erole, Etype, Escope; subst a; repeat split).
    wp_step. apply wp_bind. eapply wp_of_eq; [apply audit_eq|]. cbv beta iota.
    match goal with |- wp _ _ ?d => change d with (recorded user q u a db); set (db1 := recorded user q u a db) end.
    unfold optional at 1. destruct (blank (post q "date")) eqn:Hdate.
    + apply wp_bind, wp_bind. eapply wp_of_eq; [apply get_policy_num_eq; exact Hpol|]. cbv beta iota.
      eapply wp_of_eq; [by apply (deal_dates_eq _ _ t)|]. cbv beta iota. wp_step. exists a. split_and!; [done..|].
      unfold optional. rewrite Hdate. split; [done|]. unfold seqZ. by rewrite Nat2Z.id.
    + destruct (Hd eq_refl) as [d Ed]. rewrite Ed. apply wp_bind. eapply wp_of_eq; [by apply (deal_text_eq _ t)|]. cbv beta iota.
      exists a. split_and!; [done..|]. unfold optional. by rewrite Hdate, Ed.
Qed.
End postings.

(** ** Witnesses: room M-101 on Monday afternoon, and a dated online posting *)
Definition demo_dates (s : string) : option Z := dict_get [("2026-07-06"%string, monday)] s.
Definition demo_times (s : string) : option Z :=
  dict_get [("13:00"%string, PyTime.mk_time 13 0); ("14:00"%string, PyTime.mk_time 14 0)] s.
Definition demo_officer : User := demo_user 4 "Ivy" IFO_ADMIN.
Definition demo_booking_form : form :=
  [("occupant_name", "Chess club"); ("purpose", "Practice"); ("room", "1"); ("date", "2026-07-06");
   ("start_time", "13:00"); ("end_time", "14:00")]%string.
Definition demo_posting_form : form :=
  [("user", "2"); ("role", "checker"); ("type", "shift"); ("scope", "online");
   ("date", "2026-07-06")]%string.
Lemma demo_bookable : bookable demo_dates demo_times demo_db demo_booking_form (demo_room 1 "M-101").
Proof.
  split; try by vm_compute.
  apply (room_is_free_spec demo_db); [constructor|]. by vm_compute.
Qed.
Lemma booking_create_exact_witness :
  ∃ row, booking_create demo_dates demo_times demo_officer demo_booking_form demo_db =
    (inr (Page ""), demo_db <| db_bookings := [booked demo_dates demo_times demo_officer
       demo_booking_form (demo_room 1 "M-101") 1] |> <| db_audit := [row] |>).
Proof.
  exact (proj1 (booking_create_exact demo_dates demo_times demo_officer demo_booking_form demo_db
    eq_refl ltac:(constructor)) _ demo_bookable).
Defined.
Lemma booking_round_trip_witness :
  let db1 := exec (booking_create demo_dates demo_times demo_officer demo_booking_form) demo_db in
  room_is_free demo_db 1 (at_ 13 0) (at_ 13 30) None None = true ∧
  room_is_free db1 1 (at_ 13 0) (at_ 13 30) None None = false ∧
  room_is_free (exec (booking_cancel demo_officer 1) db1) 1 (at_ 13 0) (at_ 13 30) None None = true.
Proof.
  destruct (booking_round_trip demo_dates demo_times demo_officer demo_officer demo_booking_form
    demo_db (demo_room 1 "M-101") eq_refl eq_refl ltac:(constructor) ltac:(constructor) demo_bookable)
    as [H1 H2].
  split_and!; [by vm_compute| |].
  - rewrite H1. by vm_compute.
  - exact (eq_trans (H2 1 (at_ 13 0) (at_ 13 30) None None) ltac:(by vm_compute)).
Defined.
Lemma assignment_create_exact_witness :
  wp (assignment_create demo_dates demo_times demo_officer demo_posting_form [] monday) (λ r db',
    ∃ a, asg_pk a = 1 ∧
      posted demo_dates demo_times demo_db demo_posting_form [] (demo_user 2 "Ben" CHECKER) demo_term a ∧
      r = inl TypeErr ∧
      db' = dealt [monday] (recorded demo_officer demo_posting_form (demo_user 2 "Ben" CHECKER) a demo_db))
    demo_db.
Proof.
  apply (assignment_create_exact demo_dates demo_times demo_officer demo_posting_form [] monday demo_db
    (demo_user 2 "Ben" CHECKER) demo_term 14); [done| |by vm_compute].
  split; try by vm_compute.
  - by exists "2"%string.
  - apply (bool_decide_unpack _). by vm_compute.
Defined.
