(* ===== verification/TermLifecycle.v ===== *)
(** scheduling/term_lifecycle.py: creating, activating, closing and reopening
    academic terms.  [today] and [now] are the readings of the clock; the preflight
    a [TermLifecycleError] carries is returned by the preflight functions and left
    out of the exception, which keeps its blockers and warnings. *)
From S2P Require Import Prelude Python Model Effects Ops Sample Suspensions Materialization.
Open Scope Z_scope.

Record TermPreflight := {
  pf_action : string;
  pf_candidate_name : string;
  pf_term_id : option Z;
  pf_term_name : string;
  pf_start : option Z;
  pf_end : option Z;
  pf_blockers : list string;
  pf_warnings : list string;
  pf_counts : dict string Z
}.

Definition normalize_name (name : string) : string := PyStr.join " " (PyStr.words name).
(** [str.casefold], which is [lower] on ASCII *)
Definition casefold (s : string) : string := PyStr.lower s.
(** [dict.fromkeys(l)]: the first occurrence of each element. *)
Definition from_keys (l : list string) : list string :=
  (foldl (λ d x, dict_set d x ()) [] l).*1.

Definition may_manage (actor : option User) : bool :=
  match actor with
  | None => false
  | Some u => usr_superuser u || bool_decide (usr_role u = IFO_ADMIN)
  end.
Definition authorize (actor : option User) : M unit :=
  match actor with
  | None => raise (TermLifecycleError "term lifecycle action requires an actor" ["unauthorized"%string] [])
  | Some _ => guard_m (may_manage actor)
      (TermLifecycleError "only IFO Admins can manage academic terms" ["unauthorized"%string] [])
  end.

(** ** Creation *)
Definition same_name (name : string) (t : AcademicTerm) : bool :=
  String.eqb (casefold (normalize_name (term_name t))) (casefold name).
Definition overlaps_term (a b : Z) (t : AcademicTerm) : bool :=
  (term_start t <=? b) && (a <=? term_end t).
Definition flag (b : bool) (key : string) : list string := if b then [key] else [].
Definition nonempty {A} (l : list A) : bool := match l with [] => false | _ => true end.
Definition count {A} (l : list A) : Z := Z.of_nat (length l).

Definition creation_preflight_from_rows (name : string) (start_date end_date : option Z)
    (rows : list AcademicTerm) : TermPreflight :=
  let normalized := normalize_name name in
  let named := negb (String.eqb normalized "") in
  let duplicates := if named then select (same_name normalized) rows else [] in
  let overlapping := match start_date, end_date with
                     | Some a, Some b => select (overlaps_term a b) rows
                     | _, _ => [] end in
  let date_blockers := match start_date, end_date with
                       | Some a, Some b => flag (b <? a) "date_order"
                       | _, _ => ["dates_required"%string] end in
  {| pf_action := "create"; pf_candidate_name := normalized; pf_term_id := None;
     pf_term_name := ""; pf_start := start_date; pf_end := end_date;
     pf_blockers := from_keys
       (flag (negb named) "name_required" ++ date_blockers ++
        flag (nonempty duplicates) "duplicate_name" ++
        flag (nonempty overlapping) "overlapping_term");
     pf_warnings := [];
     pf_counts := [("duplicate_terms", count duplicates);
                   ("overlapping_terms", count overlapping);
                   ("schedule_count", 0); ("session_count", 0)]%string |}.
Definition preflight_term_creation (actor : option User) (name : string)
    (start_date end_date : option Z) : M TermPreflight :=
  authorize actor ≫= λ _,
  objects (λ _ : AcademicTerm, true) ≫= λ rows,
  mret (creation_preflight_from_rows name start_date end_date rows).

Definition actor_pk (actor : option User) : option Z := usr_pk <$> actor.
Definition sessions_of_term (db : DB) (t : Z) : list Session := select (in_term db t) (db_sessions db).
Definition schedules_of_term (db : DB) (t : Z) : list Schedule :=
  select (λ s, sch_term s =? t) (db_schedules db).

Definition create_term (actor : option User) (name : string) (start_date end_date : option Z)
    (confirmation_name : string) : M AcademicTerm :=
  atomic (
    authorize actor ≫= λ _,
    objects (λ _ : AcademicTerm, true) ≫= λ rows,
    let preflight := creation_preflight_from_rows name start_date end_date rows in
    guard_m (String.eqb (normalize_name confirmation_name) (pf_candidate_name preflight))
      (TermLifecycleError "confirmation must exactly match the proposed term name"
         (pf_blockers preflight ++ ["confirmation_mismatch"%string]) []) ≫= λ _,
    guard_m (negb (nonempty (pf_blockers preflight)))
      (TermLifecycleError "term creation preflight has blockers" (pf_blockers preflight) [])
    ≫= λ _,
    (** the columns are NOT NULL *)
    of_option IntegrityError start_date ≫= λ a,
    of_option IntegrityError end_date ≫= λ b,
    create (λ k, {| term_pk := k; term_name := pf_candidate_name preflight; term_start := a;
                    term_end := b; term_status := T_DRAFT |}) ≫= λ term,
    read (λ db, count (schedules_of_term db (term_pk term))) ≫= λ schedule_count,
    read (λ db, count (sessions_of_term db (term_pk term))) ≫= λ session_count,
    audit (actor_pk actor) "term.created" "academic_term" (PyStr.str (term_pk term))
      (JObj [("reason", JNull); ("before", JNull); ("after", JStr "draft");
             ("name", JStr (term_name term));
             ("start_date", JStr (PyTime.date_str (term_start term)));
             ("end_date", JStr (PyTime.date_str (term_end term)));
             ("schedule_count", JInt schedule_count);
             ("session_count", JInt session_count)]%string) ≫= λ _,
    mret term).

(** ** The preflight of an action *)
Definition term_counts (db : DB) (t : Z) : dict string Z :=
  let sessions := sessions_of_term db t in
  [("schedule_count", count (schedules_of_term db t)); ("session_count", count sessions);
   ("active_session_count", count (select (has_status ACTIVE) sessions));
   ("scheduled_session_count", count (select (has_status SCHEDULED) sessions))]%string.
Definition count_of (counts : dict string Z) (key : string) : Z := dict_getd counts key 0.
Definition another_active (db : DB) (t : Z) : bool :=
  existsb (λ x, bool_decide (term_status x = T_ACTIVE) && negb (term_pk x =? t)) (db_terms db).
Definition truthy (n : Z) : bool := negb (n =? 0).

Definition action_preflight (db : DB) (term : AcademicTerm) (action : string) (today : Z)
    : TermPreflight :=
  let counts := term_counts db (term_pk term) in
  let '(blockers, warnings) :=
    if String.eqb action "close" then
      (flag (negb (bool_decide (term_status term = T_ACTIVE))) "not_active" ++
       flag (today <? term_end term) "before_end_date" ++
       flag (truthy (count_of counts "active_session_count")) "active_sessions",
       flag (truthy (count_of counts "scheduled_session_count")) "scheduled_sessions_present")
    else if String.eqb action "reopen" then
      (flag (negb (bool_decide (term_status term = T_ARCHIVED))) "not_archived",
       flag (another_active db (term_pk term)) "active_successor_exists")
    else if String.eqb action "activate" then
      (flag (negb (bool_decide (term_status term = T_DRAFT))) "not_draft" ++
       flag (term_end term <? term_start term) "date_order" ++
       flag (another_active db (term_pk term)) "another_active",
       flag (count_of counts "schedule_count" =? 0) "empty_schedule_set")
    else (["unknown_action"%string], []) in
  {| pf_action := action; pf_candidate_name := ""; pf_term_id := Some (term_pk term);
     pf_term_name := term_name term; pf_start := Some (term_start term);
     pf_end := Some (term_end term); pf_blockers := blockers; pf_warnings := warnings;
     pf_counts := counts |}.
Definition preflight_term_action (k : Z) (action : string) (actor : option User) (today : Z)
    : M TermPreflight :=
  authorize actor ≫= λ _,
  get_pk (R:=AcademicTerm) k ≫= λ term,
  read (λ db, action_preflight db term action today).

(** [set(l1) != set(l2)] *)
Definition same_set (l1 l2 : list string) : bool :=
  forallb (λ x, bool_decide (x ∈ l2)) l1 && forallb (λ x, bool_decide (x ∈ l1)) l2.

Definition validate_common_action_inputs (term : AcademicTerm) (preflight : TermPreflight)
    (confirmation_name reason : string) (acknowledged : list string) : M (string * list string) :=
  let normalized_reason := PyStr.strip reason in
  let blockers := pf_blockers preflight ++
    flag (negb (String.eqb confirmation_name (term_name term))) "confirmation_mismatch" ++
    flag (String.eqb normalized_reason "") "reason_required" ++
    flag (negb (same_set acknowledged (pf_warnings preflight))) "warnings_unacknowledged" in
  guard_m (negb (nonempty blockers))
    (TermLifecycleError "term lifecycle action has blockers" (from_keys blockers)
       (pf_warnings preflight)) ≫= λ _,
  mret (normalized_reason, pf_warnings preflight).
Definition validate_activation_inputs (term : AcademicTerm) (preflight : TermPreflight)
    (confirmation_name : string) (acknowledged : list string) : M (list string) :=
  let blockers := pf_blockers preflight ++
    flag (negb (String.eqb confirmation_name (term_name term))) "confirmation_mismatch" ++
    flag (negb (same_set acknowledged (pf_warnings preflight))) "warnings_unacknowledged" in
  guard_m (negb (nonempty blockers))
    (TermLifecycleError "term activation has blockers" (from_keys blockers)
       (pf_warnings preflight)) ≫= λ _,
  mret (pf_warnings preflight).

(** [term.status = st; term.save(update_fields=["status"])], under the constraint
    [uniq_active_academic_term]. *)
Definition save_status (k : Z) (st : TermStatus) : M unit :=
  read (λ db, another_active db k) ≫= λ clash : bool,
  guard_m (negb (bool_decide (st = T_ACTIVE) && clash)) IntegrityError ≫= λ _,
  save k (λ t : AcademicTerm, t <| term_status := st |>).

(** ** The actions *)
Definition JStrs (l : list string) : json := JList (JStr <$> l).
(** [close_term] and [reopen_term] differ in their action, event and target status. *)
Definition archive_action (action event : string) (after : TermStatus) (k : Z) (actor : option User)
    (confirmation_name reason : string) (acknowledged : list string) (today : Z)
    : M AcademicTerm :=
  atomic (
    authorize actor ≫= λ _,
    get_pk (R:=AcademicTerm) k ≫= λ term,
    read (λ db, action_preflight db term action today) ≫= λ preflight,
    validate_common_action_inputs term preflight confirmation_name reason acknowledged
    ≫= λ v : string * list string,
    save_status k after ≫= λ _,
    audit (actor_pk actor) event "academic_term" (PyStr.str (term_pk term))
      (JObj [("reason", JStr v.1); ("before", JStr (term_status_str (term_status term)));
             ("after", JStr (term_status_str after));
             ("schedule_count", JInt (count_of (pf_counts preflight) "schedule_count"));
             ("session_count", JInt (count_of (pf_counts preflight) "session_count"));
             ("active_session_count",
                JInt (count_of (pf_counts preflight) "active_session_count"));
             ("acknowledged_warning_keys", JStrs v.2)]%string) ≫= λ _,
    mret (term <| term_status := after |>)).
Definition close_term := archive_action "close" "term.archived" T_ARCHIVED.
Definition reopen_term := archive_action "reopen" "term.reopened" T_DRAFT.

(** [int(value)] of a policy value *)
Definition policy_int (v : PolicyVal) : M Z :=
  match v with PInt n => mret n | PStr s => of_option ValueErr (PyStr.int s) end.
Definition is_integrity_error (e : exn) : bool := bool_decide (e = IntegrityError).
Definition activate_term (k : Z) (actor : option User) (confirmation_name : string)
    (acknowledged : list string) (today now : Z) : M AcademicTerm :=
  try_with
    (atomic (
      authorize actor ≫= λ _,
      get_pk (R:=AcademicTerm) k ≫= λ term,
      read (λ db, action_preflight db term "activate" today) ≫= λ preflight,
      validate_activation_inputs term preflight confirmation_name acknowledged ≫= λ keys,
      (get_policy "materialization_horizon_days" ≫= policy_int) ≫= λ horizon_days,
      let materialization_start := Z.max today (term_start term) in
      materialize_term (Some term) materialization_start horizon_days true now ≫= λ result,
      save_status k T_ACTIVE ≫= λ _,
      audit (actor_pk actor) "term.activated" "academic_term" (PyStr.str (term_pk term))
        (JObj [("reason", JNull); ("before", JStr (term_status_str (term_status term)));
               ("after", JStr "active"); ("horizon_days", JInt horizon_days);
               ("materialization_start", JStr (PyTime.date_str materialization_start));
               ("materialization",
                  JObj [("created", JInt (created result)); ("existing", JInt (existed result));
                        ("skipped", JInt (skipped result))]);
               ("schedule_count", JInt (count_of (pf_counts preflight) "schedule_count"));
               ("session_count",
                  JInt (count_of (pf_counts preflight) "session_count" + created result));
               ("acknowledged_warning_keys", JStrs keys)]%string) ≫= λ _,
      mret (term <| term_status := T_ACTIVE |>)))
    (λ e, if is_integrity_error e then Some (
            read (λ db, another_active db k) ≫= λ b : bool,
            if b then raise (TermLifecycleError "another academic term is already active"
                               ["another_active"%string] [])
            else raise e)
          else None).

(** ** Blockers *)
Lemma nonempty_false {A} (l : list A) : nonempty l = false ↔ l = [].
Proof. by destruct l. Qed.
Lemma flag_nil b k : flag b k = [] ↔ b = false.
Proof. by destruct b. Qed.
Lemma elem_of_flag b k x : x ∈ flag b k ↔ b = true ∧ x = k.
Proof. destruct b; simpl; [rewrite list_elem_of_singleton|rewrite elem_of_nil]; naive_solver. Qed.
Lemma from_keys_nil l : from_keys l = [] ↔ l = [].
Proof.
  split; [|by intros ->]. unfold from_keys. destruct l as [|x l]; [done|]. simpl.
  assert (∀ d : dict string (), d ≠ [] → (foldl (λ d x, dict_set d x ()) d l).*1 ≠ []) as Hne.
  { induction l as [|y l IH]; intros d Hd; [by destruct d|]. apply IH.
    destruct d as [|[z u] d]; [done|]. simpl. by case_bool_decide. }
  intros H. by apply Hne in H.
Qed.
Lemma select_nil_iff {A} (p : A → bool) (P : A → Prop) l :
  (∀ x, p x = true ↔ P x) → select p l = [] ↔ ∀ x, x ∈ l → ¬ P x.
Proof.
  intros Hp. rewrite select_nil. split; intros H x Hx; specialize (H x Hx).
  - rewrite <- Hp. by rewrite H.
  - apply not_true_iff_false. by rewrite Hp.
Qed.
Lemma nonempty_select {A} (p : A → bool) l : nonempty (select p l) = existsb p l.
Proof. induction l as [|x l IH]; [done|]. rewrite select_cons. simpl. by destruct (p x). Qed.
Lemma same_set_iff l1 l2 : same_set l1 l2 = true ↔ ∀ x, x ∈ l1 ↔ x ∈ l2.
Proof.
  unfold same_set. rewrite andb_true_iff, !forallb_elem. setoid_rewrite bd_true. naive_solver.
Qed.
Lemma truthy_count {A} (p : A → bool) l : truthy (count (select p l)) = existsb p l.
Proof.
  rewrite <- nonempty_select. unfold truthy, count. destruct (select p l); [done|].
  apply negb_true_iff, Z.eqb_neq. simpl. lia.
Qed.

(** ** Creation *)
Definition creatable (db : DB) (actor : option User) (name conf : string) (a b : Z) : Prop :=
  may_manage actor = true ∧ normalize_name name ≠ ""%string ∧
  normalize_name conf = normalize_name name ∧ a ≤ b ∧
  ∀ t, t ∈ db_terms db →
    casefold (normalize_name (term_name t)) ≠ casefold (normalize_name name) ∧
    ¬ (term_start t ≤ b ∧ a ≤ term_end t).

Lemma creation_blockers_nil name start_date end_date rows :
  pf_blockers (creation_preflight_from_rows name start_date end_date rows) = [] ↔
  normalize_name name ≠ ""%string ∧ ∃ a b, start_date = Some a ∧ end_date = Some b ∧ a ≤ b ∧
  ∀ t, t ∈ rows →
    casefold (normalize_name (term_name t)) ≠ casefold (normalize_name name) ∧
    ¬ (term_start t ≤ b ∧ a ≤ term_end t).
Proof.
  unfold creation_preflight_from_rows. simpl. rewrite from_keys_nil, !app_nil, !flag_nil.
  destruct (String.eqb_spec (normalize_name name) ""%string) as [Hn|Hn]; simpl.
  { split; [by intros [? _]|by intros [? _]]. }
  rewrite !nonempty_select, existsb_elem_false. destruct start_date as [a|], end_date as [b|]; simpl.
  - rewrite flag_nil, nonempty_select, existsb_elem_false. b2p. split.
    + intros (_ & Hab & Hd & Ho). split; [done|]. exists a, b. do 3 (split; [done|]).
      intros t Ht. specialize (Hd t Ht). specialize (Ho t Ht). unfold same_name, overlaps_term in *.
      b2p. split; [done|]. lia.
    + intros (_ & a' & b' & [= <-] & [= <-] & Hab & H). split; [done|]. split; [done|].
      split; intros t Ht; destruct (H t Ht) as [H1 H2]; unfold same_name, overlaps_term; b2p;
        [done|lia].
  - split; [by intros (_ & ? & _)|]. by intros (_ & ? & ? & _ & ? & _).
  - split; [by intros (_ & ? & _)|]. by intros (_ & ? & ? & ? & _).
  - split; [by intros (_ & ? & _)|]. by intros (_ & ? & ? & ? & _).
Qed.

Lemma wp_authorize actor (Q : exn + unit → DB → Prop) db :
  (may_manage actor = true → Q (inr ()) db) →
  (∀ msg, may_manage actor = false →
     Q (inl (TermLifecycleError msg ["unauthorized"%string] [])) db) →
  wp (authorize actor) Q db.
Proof.
  intros Hok Hno. unfold authorize. destruct actor as [u|]; [|by apply Hno].
  apply wp_guard; [done|]. by apply Hno.
Qed.

Definition draft_term (db : DB) (name : string) (a b : Z) : AcademicTerm :=
  {| term_pk := fresh_pk (db_terms db); term_name := normalize_name name; term_start := a;
     term_end := b; term_status := T_DRAFT |}.
Lemma create_term_wp actor name start_date end_date conf (Q : exn + AcademicTerm → DB → Prop) db :
  (∀ a b, start_date = Some a → end_date = Some b → creatable db actor name conf a b →
     ∀ db', logs_only (db <| db_terms := db_terms db ++ [draft_term db name a b] |>) db' →
     Q (inr (draft_term db name a b)) db') →
  (∀ msg bl, (∀ a b, start_date = Some a → end_date = Some b → ¬ creatable db actor name conf a b) →
     bl ≠ [] → Q (inl (TermLifecycleError msg bl [])) db) →
  wp (create_term actor name start_date end_date conf) Q db.
Proof.
  intros Hok Hno. unfold create_term. wp_step. wp_step. apply wp_authorize.
  2:{ intros msg Hm. apply Hno; [|done]. intros a b _ _ (Hm' & _). congruence. }
  intros Hm. wp_step. wp_step. cbv beta iota.
  change (tbl db) with (db_terms db). rewrite (select_all (λ _, true) (db_terms db)) by done.
  cbv zeta. wp_step. apply wp_guard; intros Hc; b2p; simpl in Hc.
  2:{ apply Hno; [|by intros [_ ?]%app_nil]. intros a b _ _ (_ & _ & Hc' & _). done. }
  wp_step. apply wp_guard; intros Hb.
  2:{ b2p. apply Hno.
      - intros a b -> -> (_ & Hn & _ & Hab & Ht).
        assert (pf_blockers (creation_preflight_from_rows name (Some a) (Some b) (db_terms db)) = [])
          as Heq; [|by rewrite Heq in Hb].
        apply creation_blockers_nil. split; [done|]. by exists a, b.
      - intros Heq. by rewrite Heq in Hb. }
  b2p. rewrite nonempty_false, creation_blockers_nil in Hb.
  destruct Hb as (Hn & a & b & -> & -> & Hab & Ht). unfold of_option. wp_step. wp_step. wp_step.
  wp_step. wp_step. apply wp_create. simpl. wp_step. wp_step. wp_step. wp_step. wp_step.
  apply wp_logging; [apply logging_audit|]. intros db' Hl. wp_step. by apply Hok.
Qed.

(** Creating a term succeeds exactly when an authorized actor confirms a
    non-blank name, unused up to case and spacing, for ordered dates that overlap
    no term; it then adds one draft term with the normalized name.  Otherwise it
    is refused with at least one blocker and writes nothing. *)
Theorem create_term_effect actor name start_date end_date conf db :
  wp (create_term actor name start_date end_date conf) (λ r db',
    (∃ a b, start_date = Some a ∧ end_date = Some b ∧ creatable db actor name conf a b ∧
       r = inr (draft_term db name a b) ∧
       logs_only (db <| db_terms := db_terms db ++ [draft_term db name a b] |>) db') ∨
    ((∀ a b, start_date = Some a → end_date = Some b → ¬ creatable db actor name conf a b) ∧
     (∃ msg bl, r = inl (TermLifecycleError msg bl []) ∧ bl ≠ []) ∧ db' = db)) db.
Proof.
  apply create_term_wp.
  - intros a b Ha Hb Hc db' Hl. left. by exists a, b.
  - intros msg bl Hno Hbl. right. split; [done|]. split; [by exists msg, bl|done].
Qed.

(** ** Closing and reopening *)
Definition with_status (db : DB) (k : Z) (st : TermStatus) : DB :=
  db <| db_terms := update_pk k (λ t, t <| term_status := st |>) (db_terms db) |>.
(** The acknowledged warnings are [key] when [P] holds, and none otherwise. *)
Definition acknowledges (acknowledged : list string) (key : string) (P : Prop) : Prop :=
  ∀ x, x ∈ acknowledged ↔ P ∧ x = key.

Definition inputs_ok (actor : option User) (t : AcademicTerm) (pre : TermPreflight)
    (conf : string) (acknowledged : list string) : Prop :=
  may_manage actor = true ∧ pf_blockers pre = [] ∧ conf = term_name t ∧
  same_set acknowledged (pf_warnings pre) = true.

Lemma archive_action_wp action event after k actor conf reason ack today
    (Q : exn + AcademicTerm → DB → Prop) db :
  after ≠ T_ACTIVE →
  (∀ t, by_pk (db_terms db) k = Some t →
     inputs_ok actor t (action_preflight db t action today) conf ack →
     PyStr.strip reason ≠ ""%string → ∀ db', logs_only (with_status db k after) db' →
     Q (inr (t <| term_status := after |>)) db') →
  (∀ e, (∀ t, by_pk (db_terms db) k = Some t →
     ¬ (inputs_ok actor t (action_preflight db t action today) conf ack ∧
        PyStr.strip reason ≠ ""%string)) → Q (inl e) db) →
  wp (archive_action action event after k actor conf reason ack today) Q db.
Proof.
  intros Hst Hok Hno. unfold archive_action. wp_step. wp_step. apply wp_authorize.
  2:{ intros msg Hm. apply Hno. intros t _ [[Hm' _] _]. congruence. }
  intros Hm. wp_step. apply wp_get_pk; simpl.
  2:{ intros Hn. apply Hno. intros t Ht. congruence. }
  intros t Ht. wp_step. wp_step. cbv zeta. unfold validate_common_action_inputs. cbv zeta.
  set (pre := action_preflight db t action today). wp_step. wp_step.
  apply wp_guard; intros Hb; b2p.
  - rewrite nonempty_false, !app_nil, !flag_nil in Hb. b2p. destruct Hb as (Hbl & Hc & Hr & Hs).
    wp_step. wp_step. unfold save_status. wp_step. wp_step.
    rewrite (bool_decide_false (after = T_ACTIVE)) by done. simpl. wp_step. wp_step.
    apply wp_save; simpl; [intros _|by rewrite existing_by_pk, Ht]. wp_step.
    apply wp_logging; [apply logging_audit|]. intros db' Hl. wp_step. by apply Hok.
  - apply Hno. intros t' Ht'. rewrite Ht in Ht'. injection Ht' as <-.
    intros [(_ & Hbl & Hc & Hs) Hr]. fold pre in Hbl, Hs. rewrite Hbl, Hs in Hb. subst conf.
    rewrite String.eqb_refl in Hb. rewrite (proj2 (String.eqb_neq _ _) Hr) in Hb. done.
Qed.

Lemma elem_of_sessions_of_term db t s :
  s ∈ sessions_of_term db t ↔ s ∈ db_sessions db ∧ session_term db s = Some t.
Proof. unfold sessions_of_term, in_term. rewrite elem_of_select. by b2p. Qed.
Lemma another_active_iff db k :
  another_active db k = true ↔
  ∃ t, t ∈ db_terms db ∧ term_status t = T_ACTIVE ∧ term_pk t ≠ k.
Proof.
  unfold another_active. rewrite existsb_elem. setoid_rewrite andb_true_iff.
  setoid_rewrite bd_true. setoid_rewrite negb_true_iff. by setoid_rewrite Z.eqb_neq.
Qed.
Lemma acknowledges_flag ack b key (P : Prop) :
  (b = true ↔ P) → same_set ack (flag b key) = true ↔ acknowledges ack key P.
Proof. intros HP. rewrite same_set_iff. unfold acknowledges. setoid_rewrite elem_of_flag. by setoid_rewrite HP. Qed.
Lemma exists_in_term db t st :
  truthy (count (select (has_status st) (sessions_of_term db t))) = true ↔
  ∃ s, s ∈ db_sessions db ∧ session_term db s = Some t ∧ ses_status s = st.
Proof.
  rewrite truthy_count, existsb_elem. unfold has_status. setoid_rewrite bd_true.
  setoid_rewrite elem_of_sessions_of_term. naive_solver.
Qed.

(** What closing and reopening require of the term and of the request. *)
Definition closable (db : DB) (t : AcademicTerm) (actor : option User) (conf reason : string)
    (ack : list string) (today : Z) : Prop :=
  may_manage actor = true ∧ term_status t = T_ACTIVE ∧ term_end t ≤ today ∧
  (¬ ∃ s, s ∈ db_sessions db ∧ session_term db s = Some (term_pk t) ∧ ses_status s = ACTIVE) ∧
  conf = term_name t ∧ PyStr.strip reason ≠ ""%string ∧
  acknowledges ack "scheduled_sessions_present"
    (∃ s, s ∈ db_sessions db ∧ session_term db s = Some (term_pk t) ∧ ses_status s = SCHEDULED).
Definition reopenable (db : DB) (t : AcademicTerm) (actor : option User) (conf reason : string)
    (ack : list string) : Prop :=
  may_manage actor = true ∧ term_status t = T_ARCHIVED ∧ conf = term_name t ∧
  PyStr.strip reason ≠ ""%string ∧
  acknowledges ack "active_successor_exists"
    (∃ x, x ∈ db_terms db ∧ term_status x = T_ACTIVE ∧ term_pk x ≠ term_pk t).

Lemma closable_iff db t actor conf reason ack today :
  closable db t actor conf reason ack today ↔
  inputs_ok actor t (action_preflight db t "close" today) conf ack ∧ PyStr.strip reason ≠ ""%string.
Proof.
  unfold closable, inputs_ok, action_preflight. cbn -[term_counts count_of].
  change (count_of (term_counts db (term_pk t)) "active_session_count") with
    (count (select (has_status ACTIVE) (sessions_of_term db (term_pk t)))).
  change (count_of (term_counts db (term_pk t)) "scheduled_session_count") with
    (count (select (has_status SCHEDULED) (sessions_of_term db (term_pk t)))).
  rewrite !app_nil, !flag_nil. rewrite (acknowledges_flag ack _ _ _ (exists_in_term db _ SCHEDULED)).
  rewrite <- (exists_in_term db (term_pk t) ACTIVE), not_true_iff_false. b2p. tauto.
Qed.
Lemma reopenable_iff db t actor conf reason ack today :
  reopenable db t actor conf reason ack ↔
  inputs_ok actor t (action_preflight db t "reopen" today) conf ack ∧ PyStr.strip reason ≠ ""%string.
Proof.
  unfold reopenable, inputs_ok, action_preflight. cbn -[term_counts count_of].
  rewrite !flag_nil, (acknowledges_flag ack _ _ _ (another_active_iff db (term_pk t))). b2p. tauto.
Qed.

(** Closing a term archives it exactly when an authorized actor repeats its
    name, gives a reason and acknowledges the scheduled sessions left, if there are
    any, of an active term past its last day with no class in session; reopening
    an archived term makes it a draft on the corresponding conditions.  Either way
    only the term's status changes; otherwise nothing does. *)
Theorem close_reopen_effect db k t actor conf reason ack today :
  by_pk (db_terms db) k = Some t →
  wp (close_term k actor conf reason ack today) (λ r db',
    (closable db t actor conf reason ack today ∧ r = inr (t <| term_status := T_ARCHIVED |>) ∧
     logs_only (with_status db k T_ARCHIVED) db') ∨
    (¬ closable db t actor conf reason ack today ∧ (∃ e, r = inl e) ∧ db' = db)) db ∧
  wp (reopen_term k actor conf reason ack today) (λ r db',
    (reopenable db t actor conf reason ack ∧ r = inr (t <| term_status := T_DRAFT |>) ∧
     logs_only (with_status db k T_DRAFT) db') ∨
    (¬ reopenable db t actor conf reason ack ∧ (∃ e, r = inl e) ∧ db' = db)) db.
Proof.
  intros Ht. split; (apply archive_action_wp; [done| |]).
  - intros ? Ht' Hin Hr db' Hl. rewrite Ht in Ht'. injection Ht' as <-. left.
    split; [by apply closable_iff|done].
  - intros e Hno. right. rewrite closable_iff. split; [by apply Hno|]. split; [by exists e|done].
  - intros ? Ht' Hin Hr db' Hl. rewrite Ht in Ht'. injection Ht' as <-. left.
    split; [by eapply reopenable_iff|done].
  - intros e Hno. right. rewrite reopenable_iff. split; [by apply Hno|]. split; [by exists e|done].
Qed.

(** ** Activation *)

(** [int(get_policy("materialization_horizon_days"))] *)
Definition horizon (db : DB) : option Z :=
  match policy_value db "materialization_horizon_days" with
  | Some (PInt n) => Some n
  | Some (PStr s) => PyStr.int s
  | None => None
  end.
Lemma wp_horizon (Q : exn + Z → DB → Prop) db :
  (∀ n, horizon db = Some n → Q (inr n) db) →
  (∀ e, horizon db = None → e ≠ IntegrityError → Q (inl e) db) →
  wp (get_policy "materialization_horizon_days" ≫= policy_int) Q db.
Proof.
  unfold horizon, get_policy, wp, mbind, M_bind, read. cbv beta iota.
  destruct (policy_value db "materialization_horizon_days") as [[n|s]|]; simpl; intros H1 H2.
  - by apply H1.
  - destruct (PyStr.int s); [by apply H1|by apply H2].
  - by apply H2.
Qed.

(** The state an activation needs: keys, and one session per occurrence. *)
Record store_ok (db : DB) : Prop := {
  store_sessions : pk_unique (db_sessions db);
  store_schedules : pk_unique (db_schedules db);
  store_once : one_per_occurrence (db_sessions db)
}.
Definition activatable (db : DB) (t : AcademicTerm) (actor : option User) (conf : string)
    (ack : list string) (days : Z) : Prop :=
  may_manage actor = true ∧ term_status t = T_DRAFT ∧ term_start t ≤ term_end t ∧
  (∀ x, x ∈ db_terms db → term_status x = T_ACTIVE → term_pk x = term_pk t) ∧
  conf = term_name t ∧ horizon db = Some days ∧ 1 ≤ days ∧
  acknowledges ack "empty_schedule_set"
    (∀ s, s ∈ db_schedules db → sch_term s ≠ term_pk t).

Lemma activation_inputs_iff db t actor conf ack today :
  inputs_ok actor t (action_preflight db t "activate" today) conf ack ↔
  may_manage actor = true ∧ term_status t = T_DRAFT ∧ term_start t ≤ term_end t ∧
  (∀ x, x ∈ db_terms db → term_status x = T_ACTIVE → term_pk x = term_pk t) ∧
  conf = term_name t ∧
  acknowledges ack "empty_schedule_set" (∀ s, s ∈ db_schedules db → sch_term s ≠ term_pk t).
Proof.
  unfold inputs_ok, action_preflight. cbn -[term_counts count_of].
  change (count_of (term_counts db (term_pk t)) "schedule_count") with
    (count (schedules_of_term db (term_pk t))).
  rewrite !app_nil, !flag_nil.
  rewrite (acknowledges_flag ack (count (schedules_of_term db (term_pk t)) =? 0) _
    (∀ s, s ∈ db_schedules db → sch_term s ≠ term_pk t)).
  2:{ unfold count, schedules_of_term. rewrite Z.eqb_eq. transitivity
        (select (λ s, sch_term s =? term_pk t) (db_schedules db) = []).
      - destruct (select _ _); simpl; split; (done || lia).
      - rewrite select_nil. by setoid_rewrite Z.eqb_neq. }
  assert (another_active db (term_pk t) = false ↔
    ∀ x, x ∈ db_terms db → term_status x = T_ACTIVE → term_pk x = term_pk t) as ->.
  { rewrite <- not_true_iff_false, another_active_iff. split.
    - intros Hn x Hx Hs. destruct (Z.eq_dec (term_pk x) (term_pk t)); [done|]. destruct Hn. by exists x.
    - intros H (x & Hx & Hs & Hne). by apply Hne, H. }
  b2p. tauto.
Qed.

(** The occurrences an activation creates sessions for. *)
Definition due_at_activation (db : DB) (t : AcademicTerm) (today days : Z)
    (todo : list (Z * Schedule)) : Prop :=
  ∀ d sch, (d, sch) ∈ todo ↔
    (Z.max today (term_start t) ≤ d < Z.max today (term_start t) + days ∧
     term_start t ≤ d ≤ term_end t) ∧
    sch ∈ db_schedules db ∧ sch_term sch = term_pk t ∧ sch_status sch = SCH_ACTIVE ∧
    sch_day sch = PyTime.weekday d ∧
    ¬ calendar_excuses db (term_pk t) d (room_building db (sch_room sch)) ∧
    ∀ s, s ∈ db_sessions db → ¬ (ses_schedule s = sch_pk sch ∧ ses_date s = d).
Definition activated (db : DB) (k now : Z) (todo : list (Z * Schedule)) : DB :=
  (with_status db k T_ACTIVE) <| db_sessions := db_sessions db ++ births db now todo |>.

Lemma activate_term_wp k actor conf ack today now (Q : exn + AcademicTerm → DB → Prop) db :
  store_ok db →
  (∀ t days todo db', by_pk (db_terms db) k = Some t → activatable db t actor conf ack days →
     due_at_activation db t today days todo → logs_only (activated db k now todo) db' →
     store_ok db' → Q (inr (t <| term_status := T_ACTIVE |>)) db') →
  (∀ e, (∀ t days, by_pk (db_terms db) k = Some t → ¬ activatable db t actor conf ack days) →
     Q (inl e) db) →
  wp (activate_term k actor conf ack today now) Q db.
Proof.
  intros [Hu Hus Ho] Hok Hno. unfold activate_term. wp_step. wp_step. wp_step. apply wp_authorize.
  2:{ intros msg Hm. simpl. apply Hno. intros t days _ (Hm' & _). congruence. }
  intros Hm. wp_step. apply wp_get_pk; simpl.
  2:{ intros Hn. apply Hno. intros t days Ht. congruence. }
  intros t Ht. wp_step. wp_step. cbv zeta. unfold validate_activation_inputs. cbv zeta.
  set (pre := action_preflight db t "activate" today). wp_step. wp_step.
  apply wp_guard; intros Hb; b2p.
  2:{ simpl. apply Hno. intros t' days Ht' Hact. rewrite Ht in Ht'. injection Ht' as <-.
      assert (inputs_ok actor t pre conf ack) as (_ & Hbl & Hc & Hs).
      { apply activation_inputs_iff. unfold activatable in Hact. tauto. }
      rewrite Hbl, Hs in Hb. subst conf. by rewrite String.eqb_refl in Hb. }
  rewrite nonempty_false, !app_nil, !flag_nil in Hb. b2p. destruct Hb as (Hbl & Hc & Hs).
  pose proof (proj1 (activation_inputs_iff db t actor conf ack today)
    (conj Hm (conj Hbl (conj Hc Hs)))) as Hin.
  assert (term_pk t = k) as Hpk by by apply by_pk_elem in Ht as [_ ?].
  wp_step. wp_step. apply wp_horizon.
  2:{ intros e Hh Hne. unfold is_integrity_error. rewrite bool_decide_false by done. apply Hno.
      intros t' days Ht' (_ & _ & _ & _ & _ & Hh' & _). congruence. }
  intros days Hh. wp_step. destruct (Z.le_gt_cases 1 days) as [Hd|Hd].
  2:{ destruct (materialize_refused_spec db (Some t) (Z.max today (term_start t)) days now true
        ltac:(by right)) as [msg Hr]. apply wp_intro. intros r db' Hr'. rewrite Hr in Hr'.
      injection Hr' as <- <-. simpl. apply Hno.
      intros t' days' Ht' (_ & _ & _ & _ & _ & Hh' & Hd' & _). rewrite Hh in Hh'.
      injection Hh' as <-. lia. }
  destruct (materialize_exact_spec db t (Z.max today (term_start t)) days now true Hu Hus Ho
    ltac:(right; tauto) Hd) as (todo & Htodo & Hrun).
  eapply wp_mono; [exact Hrun|]. intros r db1 ((res & -> & _) & Ho1 & Hu1 & (A & N & ->)).
  wp_step. unfold save_status. wp_step. wp_step.
  lazymatch goal with |- context [another_active ?d k] =>
    change (another_active d k) with (another_active db k) end.
  assert (another_active db k = false) as ->.
  { apply not_true_iff_false. rewrite another_active_iff, <- Hpk. intros (x & Hx & Hsx & Hne).
    apply Hne. destruct Hin as (_ & _ & _ & Hall & _). by apply Hall. }
  rewrite andb_false_r. wp_step. wp_step; [|done]. apply wp_save; simpl; [intros _|by rewrite existing_by_pk, Ht].
  wp_step. apply wp_logging; [apply logging_audit|]. intros db' Hl. wp_step.
  destruct Hl as (A' & N' & ->).
  eapply (Hok t days todo); [done|unfold activatable; tauto|exact Htodo| |].
  - exists (A ++ A'), (N ++ N'). simpl. by rewrite !app_assoc.
  - split; [exact Hu1|exact Hus|exact Ho1].
Qed.

(** Activating a term succeeds exactly when an authorized actor repeats the
    name of a draft, no other term is active, its dates are in order and the horizon
    policy is a positive number, and acknowledges an empty schedule set if the term
    has no classes; it then makes it the active term with a session for exactly the
    due occurrences of the horizon, in one transaction.  Otherwise nothing is
    written, the sessions materialized on the way included. *)
Theorem activate_term_effect db k t actor conf ack today now :
  store_ok db → by_pk (db_terms db) k = Some t →
  wp (activate_term k actor conf ack today now) (λ r db',
    (∃ days todo, activatable db t actor conf ack days ∧ due_at_activation db t today days todo ∧
       r = inr (t <| term_status := T_ACTIVE |>) ∧ logs_only (activated db k now todo) db') ∨
    ((∀ days, ¬ activatable db t actor conf ack days) ∧ (∃ e, r = inl e) ∧ db' = db)) db.
Proof.
  intros Hst Ht. apply activate_term_wp; [done| |].
  - intros t' days todo db' Ht' Hact Hdue Hl _. rewrite Ht in Ht'. injection Ht' as <-.
    left. by exists days, todo.
  - intros e Hno. right. split; [intros days; by apply Hno|]. split; [by exists e|done].
Qed.

(** ** The lifecycle as a step relation *)
Lemma normalize_twice name : normalize_name (normalize_name name) = normalize_name name.
Proof. unfold normalize_name. by rewrite PyStr.words_join_words. Qed.

Inductive lifecycle_request :=
  | RCreate (name : string) (start_date end_date : option Z) (conf : string)
  | RActivate (k : Z) (conf : string) (ack : list string)
  | RClose (k : Z) (conf reason : string) (ack : list string)
  | RReopen (k : Z) (conf reason : string) (ack : list string).
Definition handle (actor : option User) (today now : Z) (q : lifecycle_request)
    : M AcademicTerm :=
  match q with
  | RCreate name a b conf => create_term actor name a b conf
  | RActivate k conf ack => activate_term k actor conf ack today now
  | RClose k conf reason ack => close_term k actor conf reason ack today
  | RReopen k conf reason ack => reopen_term k actor conf reason ack today
  end.
(** Any request of any actor at any time, refused or not. *)
Inductive lifecycle_step : DB → DB → Prop :=
  | serve actor today now q db : lifecycle_step db (exec (handle actor today now q) db).

(** The academic calendar: at most one active term, and terms with ordered dates,
    apart from each other in time and in name. *)
Record calendar_ok (db : DB) : Prop := {
  cal_store : store_ok db;
  cal_pks : pk_unique (db_terms db);
  cal_one x y : x ∈ db_terms db → y ∈ db_terms db → term_status x = T_ACTIVE →
    term_status y = T_ACTIVE → term_pk x = term_pk y;
  cal_ordered x : x ∈ db_terms db → term_start x ≤ term_end x;
  cal_apart x y : x ∈ db_terms db → y ∈ db_terms db → term_pk x ≠ term_pk y →
    ¬ (term_start x ≤ term_end y ∧ term_start y ≤ term_end x) ∧
    casefold (normalize_name (term_name x)) ≠ casefold (normalize_name (term_name y))
}.
(** Terms keep their identity and sessions are only ever added. *)
Definition history_kept (db db' : DB) : Prop :=
  (∀ t, t ∈ db_terms db → ∃ t', t' ∈ db_terms db' ∧ term_pk t' = term_pk t ∧
     term_name t' = term_name t ∧ term_start t' = term_start t ∧ term_end t' = term_end t) ∧
  db_sessions db `prefix_of` db_sessions db'.
#[export] Instance history_kept_preorder : PreOrder history_kept.
Proof.
  split.
  - intros db. split; [|done]. intros t Ht. by exists t.
  - intros db1 db2 db3 [H1 P1] [H2 P2]. split; [|by transitivity (db_sessions db2)].
    intros t Ht. destruct (H1 t Ht) as (t' & Ht' & ? & ? & ? & ?).
    destruct (H2 t' Ht') as (t'' & Ht'' & ? & ? & ? & ?). exists t''. repeat split; congruence.
Qed.

Lemma calendar_one_active db : calendar_ok db → one_active_term db.
Proof.
  intros [_ Hu Hone _ _]. unfold one_active_term.
  pose proof (NoDup_fmap_select term_pk is_active_term (db_terms db) Hu) as Hnd.
  destruct (select is_active_term (db_terms db)) as [|x [|y l]] eqn:E; simpl; [lia|lia|].
  exfalso. rewrite !fmap_cons in Hnd. apply NoDup_cons in Hnd as [Hx _]. apply Hx.
  assert (∀ z, z ∈ x :: y :: l → z ∈ db_terms db ∧ term_status z = T_ACTIVE) as Hz.
  { intros z. rewrite <- E, elem_of_select. unfold is_active_term. by b2p. }
  destruct (Hz x ltac:(left)) as [??]. destruct (Hz y ltac:(right; left)) as [??].
  rewrite (Hone x y) by done. left.
Qed.
Lemma elem_of_with_status db k st x' :
  x' ∈ db_terms (with_status db k st) →
  ∃ x, x ∈ db_terms db ∧ term_pk x' = term_pk x ∧ term_name x' = term_name x ∧
    term_start x' = term_start x ∧ term_end x' = term_end x ∧
    (term_status x' = if term_pk x =? k then st else term_status x).
Proof.
  simpl. intros (x & Hx & ->)%elem_of_update_where. exists x. split; [done|].
  change (pk x) with (term_pk x). by destruct (term_pk x =? k).
Qed.
Lemma calendar_with_status db k st :
  calendar_ok db →
  (st = T_ACTIVE → ∀ x, x ∈ db_terms db → term_status x = T_ACTIVE → term_pk x = k) →
  calendar_ok (with_status db k st) ∧ history_kept db (with_status db k st).
Proof.
  intros [Hst Hu Hone Hord Hap] Hact. split; [split|split].
  - destruct Hst. by split.
  - by apply pk_unique_update.
  - intros x' y' (x & Hx & -> & _ & _ & _ & Hsx)%elem_of_with_status
      (y & Hy & -> & _ & _ & _ & Hsy)%elem_of_with_status Hax Hay.
    rewrite Hsx in Hax. rewrite Hsy in Hay.
    destruct (Z.eqb_spec (term_pk x) k) as [Ex|Ex], (Z.eqb_spec (term_pk y) k) as [Ey|Ey].
    + congruence.
    + rewrite (Hact Hax y) by done. done.
    + by rewrite (Hact Hay x).
    + by apply Hone.
  - intros x' (x & Hx & _ & _ & -> & -> & _)%elem_of_with_status. by apply Hord.
  - intros x' y' (x & Hx & -> & -> & -> & -> & _)%elem_of_with_status
      (y & Hy & -> & -> & -> & -> & _)%elem_of_with_status. by apply Hap.
  - intros t Ht. simpl. exists (if term_pk t =? k then t <| term_status := st |> else t). split.
    + apply elem_of_update_where. by exists t.
    + by destruct (term_pk t =? k).
  - done.
Qed.
Lemma calendar_logs db db' : logs_only db db' → calendar_ok db → calendar_ok db'.
Proof. intros (A & N & ->) [[] ? ? ? ?]. split; [by split|done..]. Qed.
Lemma history_logs db0 db db' : logs_only db db' → history_kept db0 db → history_kept db0 db'.
Proof. intros (A & N & ->). done. Qed.
Lemma calendar_create db actor name conf a b :
  calendar_ok db → creatable db actor name conf a b →
  calendar_ok (db <| db_terms := db_terms db ++ [draft_term db name a b] |>) ∧
  history_kept db (db <| db_terms := db_terms db ++ [draft_term db name a b] |>).
Proof.
  intros [Hst Hu Hone Hord Hap] (_ & _ & _ & Hab & Hfree).
  split; [split; simpl|split; simpl].
  - destruct Hst. by split.
  - by apply pk_unique_insert.
  - intros x y [Hx| ->%list_elem_of_singleton]%elem_of_app [Hy| ->%list_elem_of_singleton]%elem_of_app;
      try done. by apply Hone.
  - intros x [Hx| ->%list_elem_of_singleton]%elem_of_app; [by apply Hord|done].
  - intros x y [Hx| ->%list_elem_of_singleton]%elem_of_app [Hy| ->%list_elem_of_singleton]%elem_of_app Hne.
    + by apply Hap.
    + destruct (Hfree x Hx) as [Hn Ho]. simpl. rewrite normalize_twice. split; [lia|done].
    + destruct (Hfree y Hy) as [Hn Ho]. simpl. rewrite normalize_twice. split; [lia|congruence].
    + done.
  - intros t Ht. exists t. split; [set_solver|done].
  - done.
Qed.

Lemma calendar_step db db' :
  lifecycle_step db db' → calendar_ok db → calendar_ok db' ∧ history_kept db db'.
Proof.
  intros [actor today now q db0] Hc. clear db db'. unfold exec.
  enough (wp (handle actor today now q) (λ _ db', calendar_ok db' ∧ history_kept db0 db') db0)
    as H by exact H.
  destruct q as [name a b conf|k conf ack|k conf reason ack|k conf reason ack]; simpl.
  - apply create_term_wp; [|done]. intros x y -> -> Hcr db' Hl.
    destruct (calendar_create db0 actor name conf x y Hc Hcr) as [H1 H2].
    split; [by eapply calendar_logs|by eapply history_logs].
  - apply activate_term_wp; [apply Hc| |done]. intros t days todo db' Ht Hact _ Hl Hst.
    assert (term_pk t = k) as Hpk by by apply by_pk_elem in Ht as [_ ?].
    destruct (calendar_with_status db0 k T_ACTIVE Hc) as [H1 [H2 H3]].
    { intros _ x Hx Hs. rewrite <- Hpk. destruct Hact as (_ & _ & _ & Hall & _). by apply Hall. }
    destruct Hl as (A & N & ->). split.
    + destruct H1 as [_ ? ? ? ?]. by split.
    + split; [exact H2|]. by apply prefix_app_r.
  - apply archive_action_wp; [done| |done]. intros t Ht _ _ db' Hl.
    destruct (calendar_with_status db0 k T_ARCHIVED Hc) as [H1 H2]; [done|].
    split; [by eapply calendar_logs|by eapply history_logs].
  - apply archive_action_wp; [done| |done]. intros t Ht _ _ db' Hl.
    destruct (calendar_with_status db0 k T_DRAFT Hc) as [H1 H2]; [done|].
    split; [by eapply calendar_logs|by eapply history_logs].
Qed.

(** C4: whatever term requests are served, by whom, when and in which order,
    refused or not, there is never more than one active term, terms never overlap
    or share a name, every term keeps its identity and dates, and no session is
    ever removed or rewritten. *)
Theorem lifecycle_invariant db db' :
  calendar_ok db → rtc lifecycle_step db db' →
  calendar_ok db' ∧ one_active_term db' ∧ history_kept db db'.
Proof.
  intros Hc Hsteps. enough (calendar_ok db' ∧ history_kept db db') as [H1 H2].
  { split; [done|]. split; [by apply calendar_one_active|done]. }
  induction Hsteps as [db|db1 db2 db3 Hstep _ IH]; [done|].
  destruct (calendar_step _ _ Hstep Hc) as [Hc2 Hk]. destruct (IH Hc2) as [Hc3 Hk'].
  split; [done|]. by transitivity db2.
Qed.

(** ** Witnesses *)
Definition admin : option User := Some (demo_user 4 "Ivy" IFO_ADMIN).
(** The sample campus before its first term is activated. *)
Definition first_draft : AcademicTerm := demo_term <| term_status := T_DRAFT |>.
Definition draft_db : DB :=
  demo_db <| db_terms := [first_draft; demo_draft] |>
          <| db_sessions := [] |>.
Lemma demo_calendar : calendar_ok draft_db.
Proof.
  split.
  - split; decide_now.
  - decide_now.
  - intros x y Hx Hy. each_row Hx; each_row Hy; done.
  - intros x Hx. each_row Hx; simpl; lia.
  - intros x y Hx Hy. each_row Hx; each_row Hy; intros Hne; (split; [simpl; lia|]); try done;
      vm_compute; discriminate.
Qed.
Lemma close_reopen_effect_witness :
  run (close_term 1 admin "AY 2026-2027" "done" ["scheduled_sessions_present"]%string (monday + 20))
    demo_db = inr (demo_term <| term_status := T_ARCHIVED |>) ∧
  wp (close_term 1 admin "AY 2026-2027" "done" [] (monday + 20)) (λ r db',
    (closable demo_db demo_term admin "AY 2026-2027" "done" [] (monday + 20) ∧
     r = inr (demo_term <| term_status := T_ARCHIVED |>) ∧
     logs_only (with_status demo_db 1 T_ARCHIVED) db') ∨
    (¬ closable demo_db demo_term admin "AY 2026-2027" "done" [] (monday + 20) ∧
     (∃ e, r = inl e) ∧ db' = demo_db)) demo_db.
Proof.
  split; [vm_compute; reflexivity|].
  apply (proj1 (close_reopen_effect demo_db 1 demo_term admin "AY 2026-2027" "done" []
    (monday + 20) ltac:(reflexivity))).
Defined.
Lemma activate_term_effect_witness :
  store_ok draft_db ∧
  run (activate_term 1 admin "AY 2026-2027" [] monday (at_ 6 0)) draft_db
    = inr demo_term ∧
  length (db_sessions (exec (activate_term 1 admin "AY 2026-2027" [] monday (at_ 6 0)) draft_db))
    = 2%nat ∧
  wp (activate_term 1 admin "AY 2026-2027" [] monday (at_ 6 0)) (λ r db',
    (∃ days todo, activatable draft_db first_draft admin
        "AY 2026-2027" [] days ∧
       due_at_activation draft_db first_draft monday days todo ∧
       r = inr (first_draft <| term_status := T_ACTIVE |>) ∧
       logs_only (activated draft_db 1 (at_ 6 0) todo) db') ∨
    ((∀ days, ¬ activatable draft_db first_draft admin
        "AY 2026-2027" [] days) ∧ (∃ e, r = inl e) ∧ db' = draft_db)) draft_db.
Proof.
  split; [apply demo_calendar|]. split; [vm_compute; reflexivity|].
  split; [vm_compute; reflexivity|].
  apply (activate_term_effect draft_db 1 first_draft admin "AY 2026-2027" [] monday (at_ 6 0));
    [apply demo_calendar|reflexivity].
Defined.
(** The first term is activated, then closed after its last day. *)
Definition opened : DB :=
  exec (handle admin monday (at_ 6 0) (RActivate 1 "AY 2026-2027" [])) draft_db.
Definition shut : DB :=
  exec (handle admin (monday + 20) (at_ 6 0)
    (RClose 1 "AY 2026-2027" "over" ["scheduled_sessions_present"]%string)) opened.
Lemma lifecycle_invariant_witness :
  term_status <$> db_terms shut = [T_ARCHIVED; T_DRAFT] ∧ one_active_term shut.
Proof.
  split; [vm_compute; reflexivity|].
  destruct (lifecycle_invariant draft_db shut) as (_ & H & _); [exact demo_calendar| |exact H].
  eapply rtc_l; [|eapply rtc_l; [|apply rtc_refl]].
  - apply (serve admin monday (at_ 6 0) (RActivate 1 "AY 2026-2027" [])).
  - apply (serve admin (monday + 20) (at_ 6 0)).
Defined.
