(* ===== verification/Modality.v ===== *)
(** scheduling/services.py: modality-shift requests, from the faculty's submission
    to the dean's decision and its consequences.  The operations are written
    against the interface [RoomAvailability]; [now] is the reading of the clock. *)
From S2P Require Import Prelude Python Model Effects Ops Sample Availability Jobs.
Open Scope Z_scope.

Section services.
Context {AV : RoomAvailability}.

Definition REREQUEST_COOLDOWN_DAYS : Z := 2.

(** ** Terms of a request *)
Definition single (ids : list Z) (msg : string) : M Z :=
  match remove_dups ids with
  | [t] => mret t
  | _ => raise (ModalityShiftError msg)
  end.
Definition single_term_id_for_schedules (schedules : list Schedule) : M Z :=
  single (sch_term <$> schedules) "selected schedules must belong to one academic term".
Definition items_of (db : DB) (request : Z) : list ModalityShiftItem :=
  select (λ it, it_request it =? request) (db_items db).
Definition request_terms (db : DB) (request : Z) : list Z :=
  omap (λ it, sch_term <$> by_pk (db_schedules db) (it_schedule it)) (items_of db request).
Definition single_term_id_for_request (request : Z) : M Z :=
  read (λ db, request_terms db request) ≫= λ ids,
  single ids "request schedules must belong to one academic term".
Definition lock_writable_term (t : Z) : M AcademicTerm :=
  get_pk (R:=AcademicTerm) t ≫= λ term,
  try_with (require_writable_term term)
    (λ e, match e with ArchivedTermError msg => Some (raise (ModalityShiftError msg)) | _ => None end).

(** ** Lead time and routing *)
Definition is_before_lead_cutoff (earliest now : Z) : M bool :=
  get_policy_num "modality_shift_lead_days" ≫= λ lead,
  mret (now <? PyTime.aware (earliest - lead) 0).
Definition dean_of (db : DB) (dept : Z) : option User :=
  List.find (λ u, bool_decide (usr_role u = DEAN) && bool_decide (usr_department u = Some dept)
                  && usr_active u) (db_users db).
Definition route_to_dean (faculty : User) : M (option User) :=
  match usr_department faculty with
  | None => mret None
  | Some dept => read (λ db, dean_of db dept)
  end.

(** ** The sessions in the window *)
Definition date_then_start (a b : Session) : bool :=
  if ses_date a =? ses_date b then ses_sched_start a <=? ses_sched_start b
  else ses_date a <? ses_date b.
Definition in_window (sch a b : Z) (s : Session) : bool :=
  (ses_schedule s =? sch) && occupying_status s && (a <=? ses_date s) && (ses_date s <=? b).
Definition in_window_sessions (db : DB) (sch a b : Z) : list Session :=
  sort_by date_then_start (select (in_window sch a b) (db_sessions db)).
Definition affected_sessions (db : DB) (r : ModalityShiftRequest) : list Session :=
  concat ((λ it, in_window_sessions db (it_schedule it) (req_wstart r) (req_wend r))
            <$> items_of db (req_pk r)).
Definition weeks_window (n_weeks now : Z) : M (Z * Z) :=
  get_policy_num "modality_shift_lead_days" ≫= λ lead,
  let start := PyTime.local_date now + (lead + 1) in
  mret (start, start + (n_weeks * 7 - 1)).

(** ** submit_modality_shift *)
Definition modality_of (s : string) : option Modality :=
  List.find (λ m, String.eqb (modality_str m) s) [F2F; BLENDED; ONLINE].
(** A request of this faculty on the schedule, pending or decided lately. *)
Definition recent_request (db : DB) (faculty cutoff : Z) (sch : Schedule) : bool :=
  existsb (λ r, (req_requester r =? faculty)
                && existsb (λ it, it_schedule it =? sch_pk sch) (items_of db (req_pk r))
                && (bool_decide (req_status r = R_PENDING)
                    || match req_decided_at r with Some d => cutoff <=? d | None => false end))
    (db_requests db).
Definition too_recent_msg (sch : Schedule) : string :=
  "You already have a recent request for " +:+ sch_course_code sch +:+ " " +:+ sch_section sch
  +:+ ". Withdraw the pending one, or wait " +:+ PyStr.str REREQUEST_COOLDOWN_DAYS
  +:+ " days after a decision.".
Definition double_booked (db : DB) (faculty : Z) (slot : Z * Z) (s : Session) : bool :=
  faculty_has_conflict db faculty (PyTime.aware (ses_date s) slot.1)
    (PyTime.aware (ses_date s) slot.2) (Some (ses_pk s)).
(** The preferred room of a schedule, kept when it is free for every session. *)
Definition offers_room (db : DB) (room : Z) (s : Session) : bool :=
  match schedule_building db s with
  | Some b => existsb (λ r, room_pk r =? room)
      (av_free_rooms db b (ses_sched_start s) (ses_sched_end s) (Some (ses_pk s))
         (sch_room <$> by_pk (db_schedules db) (ses_schedule s)))
  | None => false
  end.
Definition validated_preference (db : DB) (pref : dict Z Z) (sessions : list Session)
    (sch : Schedule) : option Z :=
  match dict_get pref (sch_pk sch) with
  | None => None
  | Some room =>
      match sessions with
      | [] => None
      | _ => if forallb (offers_room db room) sessions then Some room else None
      end
  end.
Definition new_request (faculty dean : User) (target : Modality) (a b : Z) (is_move : bool)
    (k : Z) : ModalityShiftRequest :=
  {| req_pk := k; req_requester := usr_pk faculty; req_dean := Some (usr_pk dean);
     req_department := usr_department faculty; req_target := target; req_wstart := a;
     req_wend := b; req_is_time_move := is_move; req_status := R_PENDING; req_reason := "";
     req_decided_at := None; req_decided_by := None |}.
Definition new_item (request : Z) (pref : option Z) (move : option (Z * Z)) (sch : Schedule)
    (k : Z) : ModalityShiftItem :=
  {| it_pk := k; it_request := request; it_schedule := sch_pk sch; it_preferred := pref;
     it_assigned := None; it_new_start := fst <$> move; it_new_end := snd <$> move |}.

Definition submit_modality_shift (faculty : User) (schedules : list Schedule)
    (target_modality : string) (window_start window_end : Z) (preferred_rooms : dict Z Z)
    (time_move : option (Z * Z)) (now : Z) : M ModalityShiftRequest :=
  guard_m (bool_decide (schedules ≠ [])) (ModalityShiftError "no schedules selected") ≫= λ _,
  single_term_id_for_schedules schedules ≫= λ term_id,
  of_option (ModalityShiftError "invalid target modality") (modality_of target_modality)
  ≫= λ target,
  guard_m (window_start <=? window_end)
    (ModalityShiftError "window start is after window end") ≫= λ _,
  let cutoff := now - PyTime.days REREQUEST_COOLDOWN_DAYS in
  for_each schedules (λ sch,
    read (λ db, recent_request db (usr_pk faculty) cutoff sch) ≫= λ recent : bool,
    guard_m (negb recent) (ModalityShiftError (too_recent_msg sch))) ≫= λ _,
  guard_m (is_none time_move || negb (bool_decide (target = ONLINE)))
    (ModalityShiftError "a time-move must be bundled with a F2F or Blended shift") ≫= λ _,
  read (λ db, (λ sch, (sch, in_window_sessions db (sch_pk sch) window_start window_end))
                <$> schedules) ≫= λ sched_sessions,
  match concat sched_sessions.*2 with
  | [] => raise (ModalityShiftError "no in-window sessions to shift")
  | s0 :: rest =>
      let earliest := foldr (λ s d, Z.min (ses_date s) d) (ses_date s0) rest in
      is_before_lead_cutoff earliest now ≫= λ early : bool,
      guard_m early (ModalityShiftError "request is past the lead-time cutoff") ≫= λ _,
      route_to_dean faculty ≫= λ routed,
      of_option (ModalityShiftError "no Dean assigned - contact IFO") routed ≫= λ dean,
      match time_move with
      | None => mret ()
      | Some slot =>
          for_each (concat sched_sessions.*2) (λ s,
            read (λ db, double_booked db (usr_pk faculty) slot s) ≫= λ clash : bool,
            guard_m (negb clash)
              (ModalityShiftError "the new time double-books the requesting faculty"))
      end ≫= λ _,
      read (λ db, (λ p, (p.1, validated_preference db preferred_rooms p.2 p.1))
                    <$> sched_sessions) ≫= λ prefs,
      atomic (
        lock_writable_term term_id ≫= λ _,
        create (new_request faculty dean target window_start window_end (is_some time_move))
        ≫= λ request,
        for_each prefs (λ p,
          create (new_item (req_pk request) p.2 time_move p.1) ≫= λ _, mret ()) ≫= λ _,
        audit (Some (usr_pk faculty)) "modality_shift.submitted" "modality_shift_request"
          (PyStr.str (req_pk request))
          (JObj [("target_modality", JStr target_modality);
                 ("window_start", JStr (PyTime.date_str window_start));
                 ("window_end", JStr (PyTime.date_str window_end));
                 ("is_time_move", JBool (is_some time_move));
                 ("schedules", JList ((λ sch, JInt (sch_pk sch)) <$> schedules))]%string) ≫= λ _,
        notify [usr_pk dean] None "modality_shift_submitted" "Modality shift request"
          (display_name faculty +:+ " requested a " +:+ target_modality +:+ " shift for "
           +:+ PyTime.date_str window_start +:+ " to " +:+ PyTime.date_str window_end +:+ ".")
          "/dean/requests" ≫= λ _,
        mret request)
  end.

(** ** withdraw_modality_shift and reject_modality_shift *)
Definition withdraw_modality_shift (k : Z) (actor : User) : M ModalityShiftRequest :=
  atomic (
    get_pk (R:=ModalityShiftRequest) k ≫= λ req,
    single_term_id_for_request k ≫= λ t,
    lock_writable_term t ≫= λ _,
    guard_m (req_requester req =? usr_pk actor)
      (ModalityShiftError "only the requester may withdraw this request") ≫= λ _,
    guard_m (bool_decide (req_status req = R_PENDING))
      (ModalityShiftError "only a pending request may be withdrawn") ≫= λ _,
    save k (λ r : ModalityShiftRequest, r <| req_status := R_WITHDRAWN |>) ≫= λ _,
    audit (Some (usr_pk actor)) "modality_shift.withdrawn" "modality_shift_request"
      (PyStr.str k) (JObj []) ≫= λ _,
    mret (req <| req_status := R_WITHDRAWN |>)).

Definition decide_request (st : ModalityShiftStatus) (reason : string) (dean : Z) (now : Z)
    (r : ModalityShiftRequest) : ModalityShiftRequest :=
  r <| req_status := st |> <| req_reason := reason |> <| req_decided_by := Some dean |>
    <| req_decided_at := Some now |>.
Definition routed_dean (dean : User) (r : ModalityShiftRequest) : bool :=
  bool_decide (usr_role dean = DEAN) && bool_decide (req_department r = usr_department dean).
(** The refusal or denial of a request and its notice to the requester. *)
Definition turn_down (st : ModalityShiftStatus) (verb : string) (req : ModalityShiftRequest)
    (dean : User) (reason : string) (now : Z) : M ModalityShiftRequest :=
  save (req_pk req) (decide_request st reason (usr_pk dean) now) ≫= λ _,
  audit (Some (usr_pk dean)) ("modality_shift." +:+ verb) "modality_shift_request"
    (PyStr.str (req_pk req)) (JObj [("reason"%string, JStr reason)]) ≫= λ _,
  notify [req_requester req] None ("modality_shift_" +:+ verb) ("Modality shift " +:+ verb)
    ("Your modality shift request was " +:+ verb +:+ ": " +:+ reason)
    "/faculty/modality/mine" ≫= λ _,
  mret (decide_request st reason (usr_pk dean) now req).
Definition reject_modality_shift (k : Z) (dean : User) (reason : string) (now : Z)
    : M ModalityShiftRequest :=
  atomic (
    get_pk (R:=ModalityShiftRequest) k ≫= λ req,
    single_term_id_for_request k ≫= λ t,
    lock_writable_term t ≫= λ _,
    guard_m (routed_dean dean req)
      (ModalityShiftError "only the routed department Dean may reject this request") ≫= λ _,
    guard_m (bool_decide (req_status req = R_PENDING))
      (ModalityShiftError "only a pending request may be rejected") ≫= λ _,
    turn_down R_REJECTED "rejected" req dean reason now).

(** ** Applying an approval *)
Definition resolve_shift_room (db : DB) (it : ModalityShiftItem) (at_start at_end : Z)
    (exclude_session : option Z) : option Z :=
  match sch_room <$> by_pk (db_schedules db) (it_schedule it) with
  | None => None
  | Some original =>
      if av_is_free db original at_start at_end exclude_session None then Some original
      else match room_building db original with
           | None => None
           | Some building =>
               room_pk <$> head (av_free_rooms db building at_start at_end exclude_session
                                   (it_preferred it))
           end
  end.

Definition item_move (it : ModalityShiftItem) : option (Z * Z) :=
  match it_new_start it, it_new_end it with Some a, Some b => Some (a, b) | _, _ => None end.
Definition shift_slot (it : ModalityShiftItem) (s : Session) : Z * Z :=
  match item_move it with
  | Some (a, b) => (PyTime.aware (ses_date s) a, PyTime.aware (ses_date s) b)
  | None => (ses_sched_start s, ses_sched_end s)
  end.
(** The columns [_apply_f2f] writes on a session. *)
Definition place_session (r : ModalityShiftRequest) (dean now room : Z) (it : ModalityShiftItem)
    (slot : Z * Z) (s : Session) : Session :=
  let s := s <| ses_room := room |> <| ses_declared := Some (req_target r) |>
             <| ses_mod_at := Some now |> <| ses_mod_by := Some dean |> in
  match item_move it with
  | Some _ => s <| ses_sched_start := slot.1 |> <| ses_sched_end := slot.2 |>
  | None => s
  end.
Definition apply_f2f_session (r : ModalityShiftRequest) (dean now : Z) (it : ModalityShiftItem)
    (resolved : option Z) (s : Session) : M (option Z) :=
  let slot := shift_slot it s in
  when (is_some (item_move it))
    (read (λ db, faculty_has_conflict db (ses_faculty s) slot.1 slot.2 (Some (ses_pk s)))
     ≫= λ clash : bool,
     guard_m (negb clash) (NoRoomAvailable "the new time double-books the requesting faculty"))
  ≫= λ _,
  read (λ db, resolve_shift_room db it slot.1 slot.2 (Some (ses_pk s))) ≫= λ room,
  of_option (NoRoomAvailable "No room available that day.") room ≫= λ room,
  save (ses_pk s) (place_session r dean now room it slot) ≫= λ _,
  mret (Some room).
Definition apply_f2f_item (r : ModalityShiftRequest) (dean now : Z) (it : ModalityShiftItem)
    : M unit :=
  read (λ db, in_window_sessions db (it_schedule it) (req_wstart r) (req_wend r)) ≫= λ sessions,
  fold_m (apply_f2f_session r dean now it) None sessions ≫= λ resolved : option Z,
  match resolved with
  | Some room => save (it_pk it) (λ x : ModalityShiftItem, x <| it_assigned := Some room |>)
  | None => mret ()
  end.
Definition apply_f2f (r : ModalityShiftRequest) (dean now : Z) : M unit :=
  read (λ db, items_of db (req_pk r)) ≫= λ items,
  for_each items (apply_f2f_item r dean now).

Definition go_online (dean now : Z) (s : Session) : Session :=
  s <| ses_declared := Some ONLINE |> <| ses_mod_at := Some now |> <| ses_mod_by := Some dean |>.
Definition apply_online (sessions : list Session) (dean now : Z) : M unit :=
  for_each sessions (λ s,
    save (ses_pk s) (go_online dean now) ≫= λ _,
    release_room (ses_pk s) (Some dean) now).

Definition approve (now dean : Z) (r : ModalityShiftRequest) : ModalityShiftRequest :=
  r <| req_status := R_APPROVED |> <| req_decided_by := Some dean |> <| req_decided_at := Some now |>.
(** [sorted({...})] of the codes of the assigned rooms *)
Definition assigned_codes (db : DB) (request : Z) : list string :=
  sort_by String.leb (remove_dups
    (omap (λ it, k ← it_assigned it; room_code <$> by_pk (db_rooms db) k) (items_of db request))).
Definition applied_body (db : DB) (r : ModalityShiftRequest) (n : nat) : string :=
  let span := PyTime.date_str (req_wstart r) +:+ " to " +:+ PyTime.date_str (req_wend r) +:+ "." in
  if bool_decide (req_target r = ONLINE)
  then PyStr.str (Z.of_nat n) +:+ " session(s) moved online for " +:+ span
  else let rooms := PyStr.join ", " (assigned_codes db (req_pk r)) in
       modality_str (req_target r) +:+ " shift assigned room(s) "
       +:+ (if bool_decide (rooms = ""%string) then "-"%string else rooms) +:+ " for " +:+ span.
Definition no_room (e : exn) : option string :=
  match e with NoRoomAvailable reason => Some reason | _ => None end.

Definition apply_approval (k : Z) (dean : User) (now : Z) : M ModalityShiftRequest :=
  atomic (
    get_pk (R:=ModalityShiftRequest) k ≫= λ req,
    single_term_id_for_request k ≫= λ t,
    lock_writable_term t ≫= λ _,
    guard_m (routed_dean dean req)
      (ModalityShiftError "only the routed department Dean may approve this request") ≫= λ _,
    guard_m (bool_decide (req_status req = R_PENDING))
      (ModalityShiftError "only a pending request may be approved") ≫= λ _,
    read (λ db, affected_sessions db req) ≫= λ sessions,
    try_with
      (atomic (if bool_decide (req_target req = ONLINE)
               then apply_online sessions (usr_pk dean) now
               else apply_f2f req (usr_pk dean) now) ≫= λ _, mret None)
      (λ e, match no_room e with Some reason => Some (mret (Some reason)) | None => None end)
    ≫= λ deny_reason : option string,
    match deny_reason with
    | Some reason => turn_down R_DENIED "denied" req dean reason now
    | None =>
        save k (approve now (usr_pk dean)) ≫= λ _,
        audit (Some (usr_pk dean)) "modality_shift.approved" "modality_shift_request"
          (PyStr.str k)
          (JObj [("target_modality"%string, JStr (modality_str (req_target req)))]) ≫= λ _,
        notify [req_requester req] None "modality_shift_approved" "Modality shift approved"
          ("Your " +:+ modality_str (req_target req) +:+ " shift for "
           +:+ PyTime.date_str (req_wstart req) +:+ " to " +:+ PyTime.date_str (req_wend req)
           +:+ " was approved.") "/faculty/modality/mine" ≫= λ _,
        read (λ db, applied_body db req (length sessions)) ≫= λ body,
        notify [] (Some IFO_ADMIN) "modality_shift_applied" "Modality shift applied" body "/ifo"
        ≫= λ _,
        mret (approve now (usr_pk dean) req)
    end).

(** ** Placing the sessions of an in-person shift *)

(** What a shift may change on a session: room, modality and its stamps, and, for
    a time-move, the times; the new room is in the building of the class. *)
Definition shifted (db : DB) (r : ModalityShiftRequest) (dean now : Z) (s s' : Session) : Prop :=
  ∃ room a b,
    s' = s <| ses_room := room |> <| ses_declared := Some (req_target r) |>
           <| ses_mod_at := Some now |> <| ses_mod_by := Some dean |>
           <| ses_sched_start := a |> <| ses_sched_end := b |> ∧
    room_building db room = schedule_building db s ∧
    ((a, b) = (ses_sched_start s, ses_sched_end s) ∨
     ∃ it st en, it ∈ items_of db (req_pk r) ∧ it_schedule it = ses_schedule s ∧
       item_move it = Some (st, en) ∧
       (a, b) = (PyTime.aware (ses_date s) st, PyTime.aware (ses_date s) en)).
(** Nobody else holds the room of [s] during it. *)
Definition alone (db : DB) (s : Session) : Prop :=
  ∀ o, o ∈ db_sessions db → ses_pk o ≠ ses_pk s → ses_room o = ses_room s →
    occupying_status o = true → ses_released_at o = None → effective_online db o = false →
    overlaps (ses_sched_start s) (ses_sched_end s) (ses_sched_start o) (ses_sched_end o) = false.

Lemma overlaps_comm a b c d : overlaps a b c d = overlaps c d a b.
Proof. unfold overlaps. apply andb_comm. Qed.

Section f2f.
Context (db : DB) (rq : ModalityShiftRequest) (dean now : Z).
Context (Hu : pk_unique (db_sessions db)) (Htarget : req_target rq ≠ ONLINE).

(** The state after the sessions of keys [P] have been placed. *)
Definition progress (P : list Z) (db' : DB) : Prop :=
  ∃ (F : Session → Session) (A : ModalityShiftItem → option Z),
    db' = db <| db_sessions := F <$> db_sessions db |>
             <| db_items := (λ it, it <| it_assigned := A it |>) <$> db_items db |> ∧
    (∀ it, it ∈ db_items db → it_request it ≠ req_pk rq → A it = it_assigned it) ∧
    (∀ s, s ∈ db_sessions db → ses_pk (F s) = ses_pk s ∧
       (ses_pk s ∈ P → shifted db rq dean now s (F s) ∧ occupying_status s = true ∧
          (ses_released_at s = None → alone db' (F s))) ∧
       (ses_pk s ∉ P → F s = s)).

Lemma progress_start : progress [] db.
Proof using All.
  exists id, it_assigned. split; [|split; [done|]].
  - rewrite list_fmap_id.
    assert ((λ it, it <| it_assigned := it_assigned it |>) <$> db_items db = db_items db) as ->;
      [|by destruct db]. rewrite <- (list_fmap_id (db_items db)) at 2.
    apply list_fmap_ext. by intros i [] _.
  - intros s _. split; [done|]. split; [by intros ?%not_elem_of_nil|done].
Qed.

Lemma shifted_occupying s s' : shifted db rq dean now s s' → occupying_status s' = occupying_status s.
Proof using All. by intros (room & a & b & -> & _). Qed.
Lemma shifted_in_person s s' db' :
  shifted db rq dean now s s' → effective_online db' s' = false.
Proof using Htarget.
  intros (room & a & b & -> & _). unfold effective_online, effective_modality. simpl.
  apply bool_decide_eq_false. congruence.
Qed.

(** The loaded row of a session is placed where the room is free. *)
Lemma resolved_room db' it slot k room :
  db_schedules db' = db_schedules db → db_rooms db' = db_rooms db → db_floors db' = db_floors db →
  resolve_shift_room db' it slot.1 slot.2 (Some k) = Some room →
  av_is_free db' room slot.1 slot.2 (Some k) None = true ∧
  ∃ sch, by_pk (db_schedules db) (it_schedule it) = Some sch ∧
    room_building db room = room_building db (sch_room sch).
Proof.
  intros Hs Hr Hf. unfold resolve_shift_room. rewrite Hs.
  destruct (by_pk (db_schedules db) (it_schedule it)) as [sch|]; simpl; [|done].
  assert (∀ k, room_building db' k = room_building db k) as Hb.
  { intros x. unfold room_building. by rewrite Hr, Hf. }
  destruct (av_is_free db' (sch_room sch) slot.1 slot.2 (Some k) None) eqn:E.
  - intros [= <-]. split; [done|]. by exists sch.
  - destruct (room_building db' (sch_room sch)) as [b|] eqn:Eb; [|done].
    destruct (av_free_rooms db' b slot.1 slot.2 (Some k) (it_preferred it)) as [|x l] eqn:El; [done|].
    intros [= <-]. destruct (av_free_rooms_sound db' b slot.1 slot.2 (Some k) (it_preferred it) x)
      as (_ & Hxb & Hfree); [rewrite El; left|]. split; [done|]. exists sch. split; [done|].
    rewrite <- !Hb. congruence.
Qed.

Lemma place_shifted it s0 x room :
  it ∈ items_of db (req_pk rq) → it_schedule it = ses_schedule s0 →
  x = s0 ∨ shifted db rq dean now s0 x → room_building db room = schedule_building db s0 →
  shifted db rq dean now s0 (place_session rq dean now room it (shift_slot it x) x).
Proof.
  intros Hit Hs Hx Hb. unfold place_session, shift_slot.
  destruct Hx as [->|(room' & a & b & -> & _ & Hab)]; simpl.
  - destruct (item_move it) as [[st en]|] eqn:E; simpl.
    + eexists room, _, _. split; [reflexivity|]. split; [done|]. right. by exists it, st, en.
    + exists room, (ses_sched_start s0), (ses_sched_end s0). split; [by destruct s0|].
      split; [done|]. by left.
  - destruct (item_move it) as [[st en]|] eqn:E; simpl.
    + eexists room, _, _. split; [reflexivity|]. split; [done|]. right. by exists it, st, en.
    + exists room, a, b. split; [reflexivity|]. by split.
Qed.
Lemma place_times it x room :
  ses_sched_start (place_session rq dean now room it (shift_slot it x) x) = (shift_slot it x).1 ∧
  ses_sched_end (place_session rq dean now room it (shift_slot it x) x) = (shift_slot it x).2 ∧
  ses_room (place_session rq dean now room it (shift_slot it x) x) = room ∧
  ses_pk (place_session rq dean now room it (shift_slot it x) x) = ses_pk x.
Proof. unfold place_session, shift_slot. by destruct (item_move it) as [[]|]. Qed.

Lemma place_step P db' it x room :
  progress P db' → it ∈ items_of db (req_pk rq) → x ∈ db_sessions db' →
  ses_schedule x = it_schedule it → occupying_status x = true →
  resolve_shift_room db' it (shift_slot it x).1 (shift_slot it x).2 (Some (ses_pk x)) = Some room →
  progress (P ++ [ses_pk x]) (db' <| db_sessions :=
    update_pk (ses_pk x) (place_session rq dean now room it (shift_slot it x)) (db_sessions db') |>).
Proof using All.
  intros (F & A & Hdb & HA & HF) Hit Hx Hsch Hocc Hres.
  apply resolved_room in Hres as (Hfree & sch & Hschr & Hbld); [|by rewrite Hdb..].
  assert (∀ o, o ∈ db_sessions db' ↔ ∃ s, s ∈ db_sessions db ∧ o = F s) as Hrows.
  { intros o. rewrite Hdb. simpl. rewrite list_elem_of_fmap. naive_solver. }
  assert (∀ o T, effective_online (db' <| db_sessions := T |>) o = effective_online db' o) as Honl
    by done.
  apply Hrows in Hx as (s0 & Hs0 & Hxe). destruct (HF s0 Hs0) as (Hpk0 & HP0 & HN0).
  set (place := place_session rq dean now room it (shift_slot it x)).
  pose proof (place_times it x room) as (Hps & Hpe & Hproom & Hppk). fold place in Hps, Hpe, Hproom, Hppk.
  assert (x = s0 ∨ shifted db rq dean now s0 x) as Hx0.
  { rewrite Hxe. destruct (decide (ses_pk s0 ∈ P)); [right; by apply HP0|left; by apply HN0]. }
  assert (ses_pk x = ses_pk s0) as Hpkx by by rewrite Hxe.
  assert (∀ s, s ∈ db_sessions db → ses_pk (F s) = ses_pk x → s = s0) as Hsame.
  { intros s Hs Heq. apply (pk_inj (db_sessions db)); [done|done|done|].
    change (ses_pk s = ses_pk s0). destruct (HF s Hs) as [Hpk _]. congruence. }
  assert (ses_released_at x = ses_released_at s0 ∧ occupying_status s0 = true ∧
          ses_schedule x = ses_schedule s0) as (Hrel & Hocc0 & Hsch0).
  { destruct Hx0 as [Heq|(? & ? & ? & Heq & _)]; rewrite Heq in *; done. }
  assert (shifted db rq dean now s0 (place x)) as Hsh.
  { apply place_shifted; [done|congruence|done|]. unfold schedule_building.
    rewrite <- Hsch0, Hsch, Hschr. done. }
  set (F' := λ s : Session, if ses_pk (F s) =? ses_pk x then place (F s) else F s).
  assert (∀ s, s ∈ db_sessions db → (s = s0 ∧ F' s = place x) ∨ (ses_pk s ≠ ses_pk x ∧ F' s = F s)) as HF'.
  { intros s Hs. unfold F'. destruct (Z.eqb_spec (ses_pk (F s)) (ses_pk x)) as [Heq|Hne].
    - left. rewrite (Hsame s Hs Heq). by rewrite Hxe.
    - right. destruct (HF s Hs) as [Hpk _]. split; [congruence|done]. }
  exists F', A. split; [|split; [done|]].
  { rewrite Hdb. simpl. f_equal. unfold update_pk, update_where. by rewrite <- list_fmap_compose. }
  assert (∀ o, o ∈ F' <$> db_sessions db → ses_pk o ≠ ses_pk x → o ∈ db_sessions db') as Hothers.
  { intros o (s1 & -> & Hs1)%list_elem_of_fmap Hne. apply Hrows. exists s1. split; [done|].
    destruct (HF' s1 Hs1) as [[_ Heq]|[_ Heq]]; [|done]. by rewrite Heq, Hppk in Hne. }
  assert (update_pk (ses_pk x) place (db_sessions db') = F' <$> db_sessions db) as Hup.
  { rewrite Hdb. simpl. unfold update_pk, update_where. by rewrite <- list_fmap_compose. }
  intros s Hs. destruct (HF' s Hs) as [[-> ->]|[Hne ->]].
  - split; [congruence|]. split; [|intros Hn; destruct Hn; rewrite Hpkx; set_solver].
    intros _. split; [done|]. split; [done|]. intros Hr0 o Ho Hpko Hroom Hoo Hor Hoe.
    simpl in Ho. rewrite Hup in Ho. rewrite overlaps_comm, Hps, Hpe.
    eapply av_is_free_sound; [exact Hfree|apply Hothers; congruence| |done|done|done|congruence].
    congruence.
  - destruct (HF s Hs) as (Hpk & HP & HN). split; [done|]. split.
    + intros Hin. assert (ses_pk s ∈ P) as HinP by set_solver.
      destruct (HP HinP) as (Hshs & Hoccs & Hal). split; [done|]. split; [done|].
      intros Hr0 o Ho Hpko Hroom Hoo Hor Hoe. simpl in Ho. rewrite Hup in Ho.
      destruct (Z.eq_dec (ses_pk o) (ses_pk x)) as [Hox|Hox].
      * assert (o = place x) as ->.
        { apply list_elem_of_fmap in Ho as (s1 & -> & Hs1).
          destruct (HF' s1 Hs1) as [[_ ?]|[Hne1 Heq1]]; [done|]. rewrite Heq1 in Hox.
          destruct (HF s1 Hs1) as [Hpk1 _]. congruence. }
        rewrite Hps, Hpe. eapply av_is_free_sound; [exact Hfree| | | | | |].
        -- apply Hrows. by exists s.
        -- congruence.
        -- by rewrite (shifted_occupying s (F s) Hshs).
        -- destruct Hshs as (? & ? & ? & -> & _). exact Hr0.
        -- by eapply shifted_in_person.
        -- congruence.
      * apply Hal; [done|by apply Hothers|done|done|done|done|done].
    + intros Hin. apply HN. set_solver.
Qed.

Context (Hui : pk_unique (db_items db)).
Let window (d : DB) (it : ModalityShiftItem) : list Session :=
  in_window_sessions d (it_schedule it) (req_wstart rq) (req_wend rq).

Lemma elem_of_item_window d it s :
  s ∈ window d it ↔ s ∈ db_sessions d ∧ in_window (it_schedule it) (req_wstart rq) (req_wend rq) s = true.
Proof using All. unfold window, in_window_sessions. by rewrite elem_of_sort_by, elem_of_select. Qed.
Lemma progress_pks P db' : progress P db' → ses_pk <$> db_sessions db' = ses_pk <$> db_sessions db.
Proof using All.
  intros (F & A & -> & _ & HF). simpl. rewrite <- list_fmap_compose. apply list_fmap_ext.
  intros i s Hs%list_elem_of_lookup_2. by destruct (HF s Hs).
Qed.
Lemma progress_reserve P db' it room :
  progress P db' → it ∈ items_of db (req_pk rq) →
  progress P (db' <| db_items :=
    update_pk (it_pk it) (λ x, x <| it_assigned := Some room |>) (db_items db') |>).
Proof using All.
  intros (F & A & -> & HA & HF) Hit. apply elem_of_select in Hit as [Hit Hreq]. b2p.
  exists F, (λ y, if it_pk y =? it_pk it then Some room else A y). split; [|split].
  - simpl. f_equal. unfold update_pk, update_where. rewrite <- list_fmap_compose.
    apply list_fmap_ext. intros i y _. simpl.
    unfold pk, pk_ModalityShiftItem. simpl. by destruct (it_pk y =? it_pk it).
  - intros y Hy Hne. destruct (Z.eqb_spec (it_pk y) (it_pk it)) as [Heq|_]; [|by apply HA].
    by rewrite (pk_inj (db_items db) y it Hui Hy Hit Heq) in Hne.
  - exact HF.
Qed.

Lemma apply_f2f_item_wp P db1 it :
  progress P db1 → it ∈ items_of db (req_pk rq) →
  wp (apply_f2f_item rq dean now it) (λ res db2, match res with
    | inl e => ∃ reason, e = NoRoomAvailable reason
    | inr _ => progress (P ++ (ses_pk <$> window db1 it)) db2 end) db1.
Proof using All.
  intros HP Hit. unfold apply_f2f_item. wp_step. wp_step. fold (window db1 it).
  assert (NoDup (ses_pk <$> window db1 it)) as Hnd.
  { unfold window, in_window_sessions. rewrite sort_by_perm. apply NoDup_fmap_select.
    rewrite (progress_pks P db1 HP). exact Hu. }
  wp_step. apply wp_mono with (λ res db2, match res with
    | inl e => ∃ reason, e = NoRoomAvailable reason
    | inr _ => progress (P ++ (ses_pk <$> window db1 it)) db2 end).
  - apply wp_mono with (λ res db2, match res with
      | inl e => ∃ reason, e = NoRoomAvailable reason
      | inr _ => progress (P ++ (ses_pk <$> window db1 it)) db2 ∧
          ∀ s, s ∈ db_sessions db1 → ses_pk s ∉ ses_pk <$> window db1 it → s ∈ db_sessions db2 end).
    2:{ intros [e|o] db2; [done|]. by intros [? _]. }
    apply (wp_fold_m _ _ _ (λ done _ db2, progress (P ++ (ses_pk <$> done)) db2 ∧
      ∀ s, s ∈ db_sessions db1 → ses_pk s ∉ ses_pk <$> done → s ∈ db_sessions db2)
      (λ e _, ∃ reason, e = NoRoomAvailable reason)).
    { split; [by rewrite app_nil_r|done]. }
    intros done x todo acc db2 Hl [Hp Hrest]. assert (x ∈ window db1 it) as Hx
      by (rewrite Hl; set_solver). apply elem_of_item_window in Hx as [Hx Hw].
    unfold in_window in Hw. b2p. destruct Hw as [[[Hsch Hocc] _] _].
    assert (ses_pk x ∉ ses_pk <$> done) as Hnew.
    { rewrite Hl, fmap_app, fmap_cons in Hnd. apply NoDup_app in Hnd as (_ & Hd & _).
      intros Hin. apply (Hd _ Hin). left. }
    assert (∀ room, resolve_shift_room db2 it (shift_slot it x).1 (shift_slot it x).2
        (Some (ses_pk x)) = Some room →
      wp (save (ses_pk x) (place_session rq dean now room it (shift_slot it x)) ≫= λ _,
          mret (Some room)) (λ res db3, match res with
        | inl e => ∃ reason, e = NoRoomAvailable reason
        | inr _ => progress (P ++ (ses_pk <$> done ++ [x])) db3 ∧
            ∀ s, s ∈ db_sessions db1 → ses_pk s ∉ ses_pk <$> done ++ [x] → s ∈ db_sessions db3
        end) db2) as Hplace.
    { intros room Hroom. wp_step. apply wp_save; cbn [tbl table_Session]; intros Hex.
      - wp_step. split.
        + rewrite fmap_app, app_assoc. apply (place_step _ db2 it x room); auto.
        + intros s Hs Hns. rewrite fmap_app, not_elem_of_app in Hns. destruct Hns as [Hd Hxs].
          simpl. apply elem_of_update_where. exists s. split; [by apply Hrest|].
          unfold pk, pk_Session. rewrite (proj2 (Z.eqb_neq _ _)); [done|].
          intros Heq. apply Hxs. rewrite Heq. left.
      - exfalso. unfold existing in Hex. rewrite existsb_elem_false in Hex.
        specialize (Hex x (Hrest x Hx Hnew)). unfold pk, pk_Session in Hex.
        by rewrite Z.eqb_refl in Hex. }
    unfold apply_f2f_session. cbv zeta. wp_step. wp_step.
    + wp_step. wp_step. wp_step; [|by eexists]. wp_step. wp_step. wp_step. wp_step; [|by eexists].
      by apply Hplace.
    + wp_step. wp_step. wp_step. wp_step; [|by eexists]. by apply Hplace.
  - intros [e|[room|]] db2; [done| |done]. intros Hp.
    apply wp_save; simpl; [intros _; by apply progress_reserve|].
    intros Hn. exfalso. destruct Hp as (F & A & -> & _). simpl in Hn.
    apply elem_of_select in Hit as [Hit _]. unfold existing in Hn.
    rewrite existsb_elem_false in Hn. specialize (Hn (it <| it_assigned := A it |>)).
    change (pk (it <| it_assigned := A it |>)) with (it_pk it) in Hn.
    rewrite Z.eqb_refl in Hn. discriminate Hn. apply list_elem_of_fmap. by exists it.
Qed.

(** The sessions a request covers. *)
Definition covered (s : Session) : bool :=
  existsb (λ it, it_schedule it =? ses_schedule s) (items_of db (req_pk rq))
  && bool_decide (ses_status s = SCHEDULED ∨ ses_status s = ACTIVE)
  && bool_decide (req_wstart rq ≤ ses_date s ≤ req_wend rq).
Lemma covered_iff s :
  covered s = true ↔ ∃ it, it ∈ items_of db (req_pk rq) ∧
    in_window (it_schedule it) (req_wstart rq) (req_wend rq) s = true.
Proof.
  unfold covered, in_window. rewrite !andb_true_iff, !bool_decide_eq_true, existsb_elem.
  setoid_rewrite andb_true_iff. setoid_rewrite andb_true_iff. setoid_rewrite andb_true_iff.
  setoid_rewrite Z.eqb_eq. setoid_rewrite Z.leb_le. setoid_rewrite occupying_status_iff.
  naive_solver.
Qed.
Lemma shifted_in_window s s' sch a b :
  shifted db rq dean now s s' → in_window sch a b s' = in_window sch a b s.
Proof using All. by intros (room & st & en & -> & _). Qed.
Lemma progress_window P db' it s :
  progress P db' → s ∈ db_sessions db →
  ses_pk s ∈ ses_pk <$> window db' it ↔
  in_window (it_schedule it) (req_wstart rq) (req_wend rq) s = true.
Proof using All.
  intros (F & A & -> & _ & HF) Hs.
  assert (∀ y, y ∈ db_sessions db → ses_pk (F y) = ses_pk y ∧
    ∀ sch a b, in_window sch a b (F y) = in_window sch a b y) as Hwin.
  { intros y Hy. destruct (HF y Hy) as (Hpk & HP & HN). split; [done|]. intros sch a b.
    destruct (decide (ses_pk y ∈ P)) as [Hin|Hin].
    - destruct (HP Hin) as [Hsh _]. by apply shifted_in_window.
    - by rewrite HN. }
  split.
  - intros (x & Hpk & Hx)%list_elem_of_fmap. apply elem_of_item_window in Hx as [Hx Hw].
    simpl in Hx. apply list_elem_of_fmap in Hx as (y & -> & Hy). destruct (Hwin y Hy) as [Hpky Hwy].
    assert (s = y) as ->; [|by rewrite <- Hwy].
    apply (pk_inj (db_sessions db)); [done|done|done|]. unfold pk, pk_Session. congruence.
  - intros Hw. destruct (Hwin s Hs) as [Hpk Hwy]. apply list_elem_of_fmap. exists (F s).
    split; [done|]. apply elem_of_item_window. rewrite Hwy. split; [|done]. simpl.
    apply list_elem_of_fmap. by exists s.
Qed.

Lemma apply_f2f_wp :
  wp (apply_f2f rq dean now) (λ res db', match res with
    | inl e => ∃ reason, e = NoRoomAvailable reason
    | inr _ => ∃ P, progress P db' ∧
        ∀ s, s ∈ db_sessions db → ses_pk s ∈ P ↔ covered s = true end) db.
Proof using All.
  unfold apply_f2f. wp_step. wp_step. set (in_ := λ (l : list ModalityShiftItem) (s : Session),
    ∃ it, it ∈ l ∧ in_window (it_schedule it) (req_wstart rq) (req_wend rq) s = true).
  apply wp_mono with (λ res db', match res with
    | inl e => ∃ reason, e = NoRoomAvailable reason
    | inr _ => ∃ P, progress P db' ∧ ∀ s, s ∈ db_sessions db →
        ses_pk s ∈ P ↔ in_ (items_of db (req_pk rq)) s end).
  2:{ intros [e|[]] db'; [done|]. intros (P & HP & Hin). exists P. split; [done|].
      intros s Hs. rewrite covered_iff. by apply Hin. }
  apply (wp_for_each _ _ (λ done db', ∃ P, progress P db' ∧ ∀ s, s ∈ db_sessions db → ses_pk s ∈ P ↔ in_ done s)
    (λ e _, ∃ reason, e = NoRoomAvailable reason)).
  - exists []. split; [apply progress_start|]. intros s _. split.
    + by intros ?%not_elem_of_nil.
    + by intros (it & ?%not_elem_of_nil & _).
  - intros done it todo db1 Hl (P & HP & HPs).
    eapply wp_mono; [apply (apply_f2f_item_wp P db1 it HP); rewrite Hl; set_solver|].
    intros [e|[]] db2; [by intros [reason ->]; exists reason|]. intros Hp. eexists. split; [exact Hp|].
    intros s Hs. rewrite elem_of_app, (HPs s Hs), (progress_window P db1 it s HP Hs). split.
    + intros [(x & Hx & Hw)|Hw]; [exists x|exists it]; set_solver.
    + intros (x & [Hx| ->%list_elem_of_singleton]%elem_of_app & Hw); [left; by exists x|by right].
Qed.
End f2f.

(** ** The effect of a dean's approval *)

(** A pending request that [dean] may decide on, in a writable term. *)
Record decidable_by (db : DB) (k : Z) (dean : User) (r : ModalityShiftRequest) : Prop := {
  dec_req : by_pk (db_requests db) k = Some r;
  dec_term : ∃ t, remove_dups (request_terms db k) = [term_pk t] ∧
    by_pk (db_terms db) (term_pk t) = Some t ∧ term_status t ≠ T_ARCHIVED;
  dec_dean : usr_role dean = DEAN ∧ req_department r = usr_department dean;
  dec_pending : req_status r = R_PENDING
}.
Lemma wp_term_gate {A} (m : M A) (Q : exn + A → DB → Prop) db k dean r :
  decidable_by db k dean r → wp m Q db →
  wp (single_term_id_for_request k ≫= λ t, lock_writable_term t ≫= λ _, m) Q db.
Proof.
  intros [_ (t & Ht & Hby & Hw) _ _] HQ. wp_step. unfold single_term_id_for_request, single.
  wp_step. wp_step. rewrite Ht. wp_step. unfold lock_writable_term. wp_step. wp_step.
  apply wp_get_pk; simpl; rewrite Hby; [|done]. intros ? [= <-]. wp_step.
  by apply wp_require_writable.
Qed.
Lemma turn_down_wp st verb req dean reason now (Q : exn + ModalityShiftRequest → DB → Prop) db :
  by_pk (db_requests db) (req_pk req) = Some req →
  (∀ db', logs_only (db <| db_requests :=
       update_pk (req_pk req) (decide_request st reason (usr_pk dean) now) (db_requests db) |>) db' →
     Q (inr (decide_request st reason (usr_pk dean) now req)) db') →
  wp (turn_down st verb req dean reason now) Q db.
Proof.
  intros Hreq HQ. unfold turn_down. wp_step.
  apply wp_save; simpl; [intros _|by rewrite existing_by_pk, Hreq]. wp_step.
  apply wp_logging; [apply logging_audit|]. intros db1 H1. wp_step.
  apply wp_logging; [apply logging_notify|]. intros db2 H2. wp_step. apply HQ. by transitivity db1.
Qed.

Lemma decision_gates db k dean r :
  decidable_by db k dean r → routed_dean dean r = true ∧ bool_decide (req_status r = R_PENDING) = true.
Proof.
  intros [_ _ [H1 H2] H3]. unfold routed_dean. by rewrite !bool_decide_true.
Qed.

(** The approval with its consequence abstracted: [ok db1] are the databases a
    carried-out consequence may leave. *)
Lemma apply_approval_wp db k dean now r (ok : DB → Prop) (may_deny : Prop)
    (Q : exn + ModalityShiftRequest → DB → Prop) :
  decidable_by db k dean r →
  wp (if bool_decide (req_target r = ONLINE)
      then apply_online (affected_sessions db r) (usr_pk dean) now
      else apply_f2f r (usr_pk dean) now)
    (λ res db1, match res with
       | inl e => may_deny ∧ ∃ reason, e = NoRoomAvailable reason
       | inr _ => ok db1 ∧ db_requests db1 = db_requests db end) db →
  (∀ db1 db', ok db1 →
     logs_only (db1 <| db_requests := update_pk k (approve now (usr_pk dean)) (db_requests db1) |>) db' →
     Q (inr (approve now (usr_pk dean) r)) db') →
  (∀ reason db', may_deny → logs_only (db <| db_requests :=
       update_pk k (decide_request R_DENIED reason (usr_pk dean) now) (db_requests db) |>) db' →
     Q (inr (decide_request R_DENIED reason (usr_pk dean) now r)) db') →
  wp (apply_approval k dean now) Q db.
Proof.
  intros Hdec Hcons Hok Hden. destruct (decision_gates _ _ _ _ Hdec) as [Hg1 Hg2].
  pose proof (dec_req _ _ _ _ Hdec) as Hreq.
  assert (req_pk r = k) as Hpk by by apply by_pk_elem in Hreq as [_ ?].
  unfold apply_approval. wp_step. wp_step. apply wp_get_pk; simpl; rewrite Hreq; [|done].
  intros ? [= <-]. eapply wp_term_gate; [exact Hdec|]. rewrite Hg1, Hg2.
  wp_step. wp_step; [|done]. wp_step. wp_step; [|done]. wp_step. wp_step. wp_step. wp_step. wp_step.
  wp_step. eapply wp_mono; [exact Hcons|]. intros [e|[]] db1.
  - intros [Hmay [reason ->]]. simpl. wp_step. apply turn_down_wp; [by rewrite Hpk|].
    rewrite Hpk. intros db' Hl. by apply Hden.
  - intros [H1 Hreqs]. wp_step. wp_step. apply wp_save; simpl;
      [intros _|by rewrite existing_by_pk, Hreqs, Hreq]. wp_step.
    apply wp_logging; [apply logging_audit|]. intros db2 H2. wp_step.
    apply wp_logging; [apply logging_notify|]. intros db3 H3. wp_step. wp_step. wp_step.
    apply wp_logging; [apply logging_notify|]. intros db4 H4. wp_step. apply (Hok db1); [done|].
    transitivity db2; [done|]. by transitivity db3.
Qed.

Definition denied (db : DB) (k dean now : Z) (reason : string) : DB :=
  db <| db_requests := update_pk k (decide_request R_DENIED reason dean now) (db_requests db) |>.

Lemma approve_in_person_wp db k dean now r (Q : exn + ModalityShiftRequest → DB → Prop) :
  decidable_by db k dean r → req_target r ≠ ONLINE →
  pk_unique (db_sessions db) → pk_unique (db_items db) →
  (∀ F I db', logs_only (db <| db_requests := update_pk k (approve now (usr_pk dean)) (db_requests db) |>
                            <| db_sessions := F <$> db_sessions db |> <| db_items := I |>) db' →
     (∀ s, s ∈ db_sessions db →
        if covered db r s
        then shifted db r (usr_pk dean) now s (F s) ∧ (ses_released_at s = None → alone db' (F s))
        else F s = s) →
     Q (inr (approve now (usr_pk dean) r)) db') →
  (∀ reason db', logs_only (denied db k (usr_pk dean) now reason) db' →
     Q (inr (decide_request R_DENIED reason (usr_pk dean) now r)) db') →
  wp (apply_approval k dean now) Q db.
Proof.
  intros Hdec Ht Hu Hui Hok Hden.
  apply (apply_approval_wp db k dean now r (λ db1, ∃ P, progress db r (usr_pk dean) now P db1 ∧
    ∀ s, s ∈ db_sessions db → ses_pk s ∈ P ↔ covered db r s = true) True);
    [done| | |by intros reason db' _; apply Hden].
  - rewrite bool_decide_false by done. eapply wp_mono; [by apply apply_f2f_wp|].
    intros [e|[]] db1; [by intros [reason ->]; split; [|exists reason]|].
    intros (P & HP & Hin). split; [by exists P|].
    by destruct HP as (F & A & -> & _).
  - intros db1 db' (P & (F & A & -> & _ & HF) & Hin) Hl. apply (Hok F _ db' Hl).
    intros s Hs. destruct (HF s Hs) as (_ & HP & HN). specialize (Hin s Hs).
    destruct (covered db r s).
    + destruct HP as (H1 & _ & H3); [by apply Hin|]. split; [done|]. intros Hr.
      destruct Hl as (L & N & ->). exact (H3 Hr).
    + apply HN. rewrite Hin. done.
Qed.

(** C1: approving a shift to an in-person modality either approves the request and
    moves the sessions it covers, each in its own building and, for a time-move, to
    the new time, leaving every other session alone, so that no covered session
    that holds its room shares it at any moment with another session; or denies the
    request with no session or item changed.  It never fails and never moves some
    of the sessions only. *)
Theorem approve_in_person db k dean now r :
  decidable_by db k dean r → req_target r ≠ ONLINE →
  pk_unique (db_sessions db) → pk_unique (db_items db) →
  wp (apply_approval k dean now) (λ res db',
    (res = inr (approve now (usr_pk dean) r) ∧
     ∃ F I, logs_only (db <| db_requests := update_pk k (approve now (usr_pk dean)) (db_requests db) |>
                          <| db_sessions := F <$> db_sessions db |> <| db_items := I |>) db' ∧
     ∀ s, s ∈ db_sessions db →
       if covered db r s
       then shifted db r (usr_pk dean) now s (F s) ∧ (ses_released_at s = None → alone db' (F s))
       else F s = s) ∨
    (∃ reason, res = inr (decide_request R_DENIED reason (usr_pk dean) now r) ∧
     logs_only (denied db k (usr_pk dean) now reason) db')) db.
Proof.
  intros Hdec Ht Hu Hui. apply (approve_in_person_wp db k dean now r); [done..| |].
  - intros F I db' Hl HF. left. split; [done|]. by exists F, I.
  - intros reason db' Hl. right. by exists reason.
Qed.

(** ** The effect of an online approval *)
Definition went_online (dean now : Z) (s : Session) : Session :=
  (go_online dean now s) <| ses_released_at := Some now |>.

Lemma update_pk_mem (k : Z) (f : Session → Session) t :
  update_pk k f t = update_where (mem_pk [k]) f t.
Proof.
  apply update_where_ext; [|done]. intros s _. unfold mem_pk. apply eq_true_iff_eq.
  rewrite Z.eqb_eq, bool_decide_eq_true. set_solver.
Qed.
Lemma apply_online_wp (l : list Session) dean now (Q : exn + unit → DB → Prop) db :
  (∀ s, s ∈ l → s ∈ db_sessions db) →
  (∀ db', logs_only (db <| db_sessions :=
       update_where (mem_pk (ses_pk <$> l)) (went_online dean now) (db_sessions db) |>) db' →
     Q (inr ()) db') →
  wp (apply_online l dean now) Q db.
Proof.
  intros Hl HQ. unfold apply_online. apply wp_mono with (λ r db', match r with
    | inl _ => False
    | inr _ => logs_only (db <| db_sessions :=
        update_where (mem_pk (ses_pk <$> l)) (went_online dean now) (db_sessions db) |>) db' end).
  2:{ intros [e|[]] db'; [done|]. apply HQ. }
  apply (wp_for_each _ _ (λ done db', logs_only (db <| db_sessions :=
    update_where (mem_pk (ses_pk <$> done)) (went_online dean now) (db_sessions db) |>) db')
    (λ _ _, False)).
  - rewrite update_where_none; [by destruct db|]. intros r _. apply bool_decide_eq_false.
    by intros ?%not_elem_of_nil.
  - intros done x todo db1 Heq (A & N & ->).
    set (T := update_where (mem_pk (ses_pk <$> done)) (went_online dean now) (db_sessions db)).
    assert (x ∈ db_sessions db) as Hx by (apply Hl; rewrite Heq; set_solver).
    assert (∀ (f : Session → Session) t, (∀ s, ses_pk (f s) = ses_pk s) →
      existing t (ses_pk x) = true → existing (update_pk (ses_pk x) f t) (ses_pk x) = true) as Hex.
    { intros f t Hf. rewrite !existing_by_pk. unfold update_pk. rewrite by_pk_update_where by done.
      by destruct (by_pk t (ses_pk x)). }
    assert (existing T (ses_pk x) = true) as HT.
    { unfold T. rewrite existing_by_pk, by_pk_update_where by done. destruct (by_pk _ _) eqn:E; [done|].
      by destruct (proj1 (by_pk_None _ _) E x Hx). }
    wp_step. apply wp_save; simpl; fold T; [intros _|by rewrite HT]. unfold release_room. wp_step.
    apply wp_save; simpl; [intros _|by rewrite Hex]. apply wp_logging; [apply logging_audit|].
    intros db2 (A' & N' & ->). exists (A ++ A'), (N ++ N').
    assert (update_pk (ses_pk x) (λ s, s <| ses_released_at := Some now |>)
      (update_pk (ses_pk x) (go_online dean now) T) =
      update_where (mem_pk (ses_pk <$> done ++ [x])) (went_online dean now) (db_sessions db)) as Hup;
      [|rewrite <- Hup; simpl; by rewrite !app_assoc].
    rewrite fmap_app, <- update_where_mem_app by done. fold T. rewrite !update_pk_mem.
    rewrite update_where_twice. unfold update_where. apply list_fmap_ext. intros i s _.
    unfold mem_pk, pk, pk_Session. simpl. by repeat case_bool_decide.
Qed.

(** Approving a shift online approves the request, moves exactly the sessions
    it covers online, and releases their rooms at the moment of the approval; every
    other row but the logs stays as it was. *)
Theorem approve_online db k dean now r :
  decidable_by db k dean r → req_target r = ONLINE → pk_unique (db_sessions db) →
  wp (apply_approval k dean now) (λ res db',
    res = inr (approve now (usr_pk dean) r) ∧
    logs_only (db <| db_requests := update_pk k (approve now (usr_pk dean)) (db_requests db) |>
                  <| db_sessions := update_where (covered db r) (went_online (usr_pk dean) now)
                                      (db_sessions db) |>) db') db.
Proof.
  intros Hdec Ht Hu.
  assert (∀ s, s ∈ affected_sessions db r ↔ s ∈ db_sessions db ∧ covered db r s = true) as Haff.
  { intros s. unfold affected_sessions. rewrite covered_iff, list_elem_of_In, in_concat.
    setoid_rewrite <- list_elem_of_In. split.
    - intros (x & (it & -> & Hit)%list_elem_of_fmap & Hs).
      unfold in_window_sessions in Hs. rewrite elem_of_sort_by, elem_of_select in Hs.
      destruct Hs as [Hs Hw]. split; [done|]. by exists it.
    - intros [Hs (it & Hit & Hw)]. eexists. split; [apply list_elem_of_fmap; by exists it|].
      unfold in_window_sessions. by rewrite elem_of_sort_by, elem_of_select. }
  apply (apply_approval_wp db k dean now r (λ db1, logs_only (db <| db_sessions :=
    update_where (covered db r) (went_online (usr_pk dean) now) (db_sessions db) |>) db1) False);
    [done| | |done].
  - rewrite bool_decide_true by done. apply apply_online_wp; [intros s; rewrite Haff; tauto|].
    intros db' Hl. split; [|by destruct Hl as (A & N & ->)]. revert Hl.
    rewrite (update_where_ext _ (covered db r) _ (went_online (usr_pk dean) now)); [done| |done].
    intros s Hs. unfold mem_pk. apply eq_true_iff_eq. rewrite bool_decide_eq_true. split.
    + intros (x & Hpk & [Hx Hc]%Haff)%list_elem_of_fmap. by rewrite (pk_inj _ s x Hu Hs Hx Hpk).
    + intros Hc. apply list_elem_of_fmap. exists s. split; [done|]. by apply Haff.
  - intros db1 db' (A & N & ->) (A' & N' & ->). split; [done|]. exists (A ++ A'), (N ++ N').
    simpl. by rewrite !app_assoc.
Qed.

(** A session moved online and later approved back in person keeps its release
    stamp: it meets in its assigned room without being one of the occupants the
    availability check counts, and once in session it is not seen by the conflict
    detection; only the reservation of the request still holds the room. *)
Theorem shift_back_keeps_release db k dean now r s :
  decidable_by db k dean r → req_target r ≠ ONLINE →
  pk_unique (db_sessions db) → pk_unique (db_items db) →
  s ∈ db_sessions db → covered db r s = true → is_some (ses_released_at s) = true →
  wp (apply_approval k dean now) (λ res db', res = inr (approve now (usr_pk dean) r) →
    ∃ s', s' ∈ db_sessions db' ∧ ses_pk s' = ses_pk s ∧ effective_online db' s' = false ∧
      (∀ room a b x, s' ∉ session_occupants db' room a b x) ∧
      ∀ t, holds_room db' t (s' <| ses_status := ACTIVE |>) = false) db.
Proof.
  intros Hdec Ht Hu Hui Hs Hc Hrel. apply (approve_in_person_wp db k dean now r); [done..| |].
  - intros F I db' Hl HF _. specialize (HF s Hs). rewrite Hc in HF. destruct HF as [Hsh _].
    exists (F s). split; [|split; [|split; [|split]]].
    + destruct Hl as (A & N & ->). simpl. apply list_elem_of_fmap. by exists s.
    + by destruct Hsh as (? & ? & ? & -> & _).
    + by eapply shifted_in_person.
    + intros room a b x Hin. unfold session_occupants in Hin. apply elem_of_select in Hin as [_ Hin].
      assert (ses_released_at (F s) = ses_released_at s) as Hr
        by by destruct Hsh as (? & ? & ? & -> & _).
      rewrite Hr in Hin. destruct (ses_released_at s); [|done]. b2p. intuition congruence.
    + intros t. assert (ses_released_at (F s) = ses_released_at s) as Hr
        by by destruct Hsh as (? & ? & ? & -> & _).
      unfold holds_room. simpl. rewrite Hr. by destruct (ses_released_at s).
  - intros reason db' _ [=].
Qed.

(** ** The effect of a submission *)
Definition in_scope (db : DB) (schedules : list Schedule) (a b : Z) (s : Session) : Prop :=
  s ∈ db_sessions db ∧ (∃ sch, sch ∈ schedules ∧ ses_schedule s = sch_pk sch) ∧
  (ses_status s = SCHEDULED ∨ ses_status s = ACTIVE) ∧ a ≤ ses_date s ≤ b.
Lemma in_scope_iff db schedules a b s :
  in_scope db schedules a b s ↔
  s ∈ db_sessions db ∧ ∃ sch, sch ∈ schedules ∧ in_window (sch_pk sch) a b s = true.
Proof.
  unfold in_scope, in_window. setoid_rewrite andb_true_iff. setoid_rewrite andb_true_iff.
  setoid_rewrite andb_true_iff. setoid_rewrite Z.eqb_eq. setoid_rewrite Z.leb_le.
  setoid_rewrite occupying_status_iff. naive_solver.
Qed.
Record submittable (db : DB) (faculty : User) (schedules : list Schedule) (target_modality : string)
    (a b : Z) (time_move : option (Z * Z)) (now : Z) (target : Modality) (dean : User) : Prop := {
  sub_term : ∃ t, remove_dups (sch_term <$> schedules) = [term_pk t] ∧
    by_pk (db_terms db) (term_pk t) = Some t ∧ term_status t ≠ T_ARCHIVED;
  sub_target : modality_of target_modality = Some target;
  sub_window : a ≤ b;
  sub_recent : ∀ sch, sch ∈ schedules →
    recent_request db (usr_pk faculty) (now - PyTime.days REREQUEST_COOLDOWN_DAYS) sch = false;
  sub_move : time_move ≠ None → target ≠ ONLINE;
  sub_scope : ∃ s, in_scope db schedules a b s;
  sub_lead : ∃ lead, policy_num db "modality_shift_lead_days" = Some lead ∧
    ∀ s, in_scope db schedules a b s → now < PyTime.aware (ses_date s - lead) 0;
  sub_dean : ∃ d, usr_department faculty = Some d ∧ dean_of db d = Some dean;
  sub_faculty : ∀ slot s, time_move = Some slot → in_scope db schedules a b s →
    double_booked db (usr_pk faculty) slot s = false
}.
(** The rows a submission adds. *)
Definition submitted_items (db : DB) (request : Z) (schedules : list Schedule) (a b : Z)
    (pref : dict Z Z) (time_move : option (Z * Z)) : list ModalityShiftItem :=
  imap (λ i sch, new_item request
          (validated_preference db pref (in_window_sessions db (sch_pk sch) a b) sch) time_move sch
          (fresh_pk (db_items db) + Z.of_nat i)) schedules.

Lemma create_items_wp request move (l : list (Schedule * option Z)) (Q : exn + unit → DB → Prop) db :
  Q (inr ()) (db <| db_items := db_items db ++ imap (λ i p, new_item request p.2 move p.1
                      (fresh_pk (db_items db) + Z.of_nat i)) l |>) →
  wp (for_each l (λ p, create (new_item request p.2 move p.1) ≫= λ _, mret ())) Q db.
Proof.
  intros HQ. apply wp_mono with (λ r db', r = inr () ∧ db' = db <| db_items := db_items db ++
    imap (λ i p, new_item request p.2 move p.1 (fresh_pk (db_items db) + Z.of_nat i)) l |>).
  2:{ intros r db' [-> ->]. exact HQ. }
  clear HQ. revert db. induction l as [|p l IH]; intros db; simpl.
  - split; [done|]. rewrite app_nil_r. by destruct db.
  - wp_step. wp_step. apply wp_create. wp_step. eapply wp_mono; [apply IH|]. cbv beta.
    intros r db' [-> ->]. split; [done|]. cbn [tbl set_tbl table_ModalityShiftItem].
    simpl. rewrite Z.add_0_r, <- app_assoc. f_equal. simpl. do 2 f_equal.
    rewrite fresh_pk_snoc by done. apply imap_ext. intros i x _. simpl. f_equal. lia.
Qed.

Lemma elem_of_scope db schedules a b s :
  s ∈ concat ((λ sch, (sch, in_window_sessions db (sch_pk sch) a b)) <$> schedules).*2 ↔
  in_scope db schedules a b s.
Proof.
  rewrite in_scope_iff, <- list_fmap_compose, list_elem_of_In, in_concat.
  setoid_rewrite <- list_elem_of_In. split.
  - intros (x & (sch & -> & Hsch)%list_elem_of_fmap & Hs). simpl in Hs. unfold in_window_sessions in Hs.
    rewrite elem_of_sort_by, elem_of_select in Hs. destruct Hs. split; [done|]. by exists sch.
  - intros [Hs (sch & Hsch & Hw)]. exists (in_window_sessions db (sch_pk sch) a b). split.
    + apply list_elem_of_fmap. by exists sch.
    + unfold in_window_sessions. by rewrite elem_of_sort_by, elem_of_select.
Qed.
Lemma earliest_spec s0 (rest : list Session) :
  (∃ s, s ∈ s0 :: rest ∧ ses_date s = foldr (λ s d, Z.min (ses_date s) d) (ses_date s0) rest) ∧
  ∀ s, s ∈ s0 :: rest → foldr (λ s d, Z.min (ses_date s) d) (ses_date s0) rest ≤ ses_date s.
Proof.
  induction rest as [|x rest [(y & Hy & Hmin) IH]]; simpl.
  - split; [exists s0; split; [left|done]|]. by intros s ->%list_elem_of_singleton.
  - split.
    + destruct (Z.min_spec (ses_date x) (foldr (λ s d, Z.min (ses_date s) d) (ses_date s0) rest))
        as [[_ ->]|[_ ->]]; [exists x|exists y]; (split; [set_solver|done]).
    + intros s Hs. assert (s = x ∨ s ∈ s0 :: rest) as [->|Hin] by set_solver; [lia|].
      specialize (IH s Hin). lia.
Qed.

Lemma wp_checks {A} (l : list A) (bad : DB → A → bool) (e : A → exn) (Q : exn + unit → DB → Prop) db :
  ((∀ x, x ∈ l → bad db x = false) → Q (inr ()) db) →
  (∀ x, x ∈ l → bad db x = true → Q (inl (e x)) db) →
  wp (for_each l (λ x, read (λ db, bad db x) ≫= λ b : bool, guard_m (negb b) (e x))) Q db.
Proof.
  intros Hok Hbad. unfold wp. erewrite (for_each_checks l _ (bad db) e).
  2:{ intros x. unfold mbind, M_bind, read. by destruct (bad db x). }
  simpl. destruct (List.find (bad db) l) as [x|] eqn:E.
  - apply find_elem in E as [??]. by apply Hbad.
  - apply Hok. by apply find_elem_None.
Qed.

Section submit.
Context (db : DB) (faculty : User) (schedules : list Schedule) (target_modality : string).
Context (a b : Z) (pref : dict Z Z) (time_move : option (Z * Z)) (now : Z).
Let ok := submittable db faculty schedules target_modality a b time_move now.
Let scope := (λ sch, (sch, in_window_sessions db (sch_pk sch) a b)) <$> schedules.

(** The writes of an accepted submission *)
Lemma submit_write_wp target dean tid (Q : exn + ModalityShiftRequest → DB → Prop) :
  (∀ t, by_pk (db_terms db) tid = Some t → term_status t ≠ T_ARCHIVED →
   let q := new_request faculty dean target a b (is_some time_move) (fresh_pk (db_requests db)) in
   ∀ db', logs_only (db <| db_requests := db_requests db ++ [q] |>
                        <| db_items := db_items db ++
                             submitted_items db (req_pk q) schedules a b pref time_move |>) db' →
     Q (inr q) db') →
  (∀ e, (∀ t, by_pk (db_terms db) tid = Some t → term_status t = T_ARCHIVED) → Q (inl e) db) →
  wp (read (λ db, (λ p, (p.1, validated_preference db pref p.2 p.1)) <$> scope) ≫= λ prefs,
      atomic (
        lock_writable_term tid ≫= λ _,
        create (new_request faculty dean target a b (is_some time_move)) ≫= λ request,
        for_each prefs (λ p,
          create (new_item (req_pk request) p.2 time_move p.1) ≫= λ _, mret ()) ≫= λ _,
        audit (Some (usr_pk faculty)) "modality_shift.submitted" "modality_shift_request"
          (PyStr.str (req_pk request))
          (JObj [("target_modality", JStr target_modality);
                 ("window_start", JStr (PyTime.date_str a)); ("window_end", JStr (PyTime.date_str b));
                 ("is_time_move", JBool (is_some time_move));
                 ("schedules", JList ((λ sch, JInt (sch_pk sch)) <$> schedules))]%string) ≫= λ _,
        notify [usr_pk dean] None "modality_shift_submitted" "Modality shift request"
          (display_name faculty +:+ " requested a " +:+ target_modality +:+ " shift for "
           +:+ PyTime.date_str a +:+ " to " +:+ PyTime.date_str b +:+ ".") "/dean/requests" ≫= λ _,
        mret request)) Q db.
Proof.
  intros HQ Hno. wp_step. wp_step. wp_step. wp_step. unfold lock_writable_term. wp_step.
  apply wp_get_pk; simpl; [intros t Ht|intros Hn; apply Hno; congruence]. wp_step.
  apply wp_require_writable; intros Hw; [|wp_step; apply Hno; congruence]. wp_step. apply wp_create. wp_step.
  apply create_items_wp. wp_step. apply wp_logging; [apply logging_audit|]. intros db1 H1. wp_step.
  apply wp_logging; [apply logging_notify|]. intros db2 H2. wp_step. apply (HQ t); [done|done|].
  transitivity db1; [|done]. revert H1. simpl.
  assert (imap (λ i p, new_item (fresh_pk (db_requests db)) p.2 time_move p.1
      (fresh_pk (db_items db) + Z.of_nat i))
    ((λ p, (p.1, validated_preference db pref p.2 p.1)) <$> scope) =
    submitted_items db (fresh_pk (db_requests db)) schedules a b pref time_move) as Heq.
  { unfold scope, submitted_items. rewrite <- list_fmap_compose, imap_fmap. done. }
  by rewrite Heq.
Qed.

Lemma submit_wp (Q : exn + ModalityShiftRequest → DB → Prop) :
  (∀ target dean, ok target dean →
   let q := new_request faculty dean target a b (is_some time_move) (fresh_pk (db_requests db)) in
   ∀ db', logs_only (db <| db_requests := db_requests db ++ [q] |>
                        <| db_items := db_items db ++
                             submitted_items db (req_pk q) schedules a b pref time_move |>) db' →
     Q (inr q) db') →
  (∀ e, (∀ target dean, ¬ ok target dean) → Q (inl e) db) →
  wp (submit_modality_shift faculty schedules target_modality a b pref time_move now) Q db.
Proof.
  intros Hok Hno. unfold submit_modality_shift. wp_step. wp_step; b2p.
  2:{ apply Hno. intros target dean [(t & Ht & _)]. destruct schedules; [done|]. by apply H. }
  wp_step. unfold single_term_id_for_schedules, single.
  destruct (remove_dups (sch_term <$> schedules)) as [|tid [|tid' ids]] eqn:Eids;
    [wp_step; apply Hno; intros target dean [(t & Ht & _)]; rewrite Eids in Ht; discriminate Ht| |
     wp_step; apply Hno; intros target dean [(t & Ht & _)]; rewrite Eids in Ht; discriminate Ht].
  wp_step. wp_step. apply wp_of_option.
  2:{ intros Hm. apply Hno. intros target dean []. congruence. }
  intros target Htgt. wp_step. wp_step; b2p.
  2:{ apply Hno. intros ? ? []. lia. }
  wp_step. apply wp_checks.
  2:{ intros sch Hsch Hrec. apply Hno. intros ? ? [_ _ _ Hr]. rewrite (Hr sch Hsch) in Hrec. done. }
  intros Hrecent. wp_step. apply wp_guard; intros Hmv; b2p.
  2:{ apply Hno. intros target' dean [_ Ht' _ _ Hsm _ _ _ _]. rewrite Htgt in Ht'.
      injection Ht' as <-. destruct Hmv as [Hsome Hon]. apply not_true_iff_false in Hsome.
      rewrite is_none_iff in Hsome. apply Hsm; [done|]. by destruct target. }
  wp_step. wp_step. fold scope.
  assert (∀ s, s ∈ concat scope.*2 ↔ in_scope db schedules a b s) as Hscope
    by (intros s; apply elem_of_scope).
  destruct (concat scope.*2) as [|s0 rest] eqn:Escope.
  { wp_step. apply Hno. intros ? ? [_ _ _ _ _ [s Hs] _ _ _]. apply Hscope in Hs.
    by apply not_elem_of_nil in Hs. }
  destruct (earliest_spec s0 rest) as [(smin & Hsmin & Hmin) Hle]. cbv zeta.
  wp_step. unfold is_before_lead_cutoff. wp_step. apply wp_policy_num.
  2:{ intros e Hn. apply Hno. intros ? ? [_ _ _ _ _ _ (lead & Hlead & _) _ _]. congruence. }
  intros lead Hlead. wp_step. wp_step. wp_step; b2p.
  2:{ apply Hno. intros ? ? [_ _ _ _ _ _ (lead' & Hlead' & Hall) _ _].
      rewrite Hlead in Hlead'. injection Hlead' as <-. apply Hscope in Hsmin.
      specialize (Hall smin Hsmin). rewrite Hmin in Hall. lia. }
  wp_step. unfold route_to_dean.
  assert (wp (match usr_department faculty with
              | Some dept => read (λ db, dean_of db dept) | None => mret None end)
    (λ r db', db' = db ∧ ∃ o, r = inr o ∧ ∀ dean, o = Some dean ↔
       ∃ d, usr_department faculty = Some d ∧ dean_of db d = Some dean) db) as Hroute.
  { destruct (usr_department faculty) as [d|].
    - wp_step. split; [done|]. eexists. split; [done|]. intros dean. split; [by exists d|].
      by intros (? & [= <-] & ?).
    - wp_step. split; [done|]. eexists. split; [done|]. intros dean. split; [done|].
      by intros (? & [=] & _). }
  eapply wp_mono; [exact Hroute|]. clear Hroute. intros r db1 (-> & o & -> & Hdean). wp_step.
  apply wp_of_option.
  2:{ intros ->. apply Hno. intros ? dean [_ _ _ _ _ _ _ Hd _]. by apply Hdean in Hd. }
  intros dean ->. wp_step.
  assert ((∀ slot s, time_move = Some slot → in_scope db schedules a b s →
             double_booked db (usr_pk faculty) slot s = false) →
          ∀ t, by_pk (db_terms db) tid = Some t → term_status t ≠ T_ARCHIVED → ok target dean) as Hall.
  { intros Hfac t Hbt Hw. split.
    - exists t. apply by_pk_elem in Hbt as Hpk. destruct Hpk as [_ Hpk].
      change (term_pk t = tid) in Hpk. by rewrite Hpk, Eids.
    - done.
    - done.
    - done.
    - intros Hsome. destruct Hmv as [Hn|Hn]; congruence.
    - exists s0. apply Hscope. left.
    - exists lead. split; [done|]. intros s Hs%Hscope. specialize (Hle s Hs). unfold PyTime.aware in *.
      change PyTime.usec_day with 86400000000 in *. lia.
    - by apply Hdean.
    - done. }
  assert (∀ e : exn, (∀ t, by_pk (db_terms db) tid = Some t → term_status t = T_ARCHIVED) →
    Q (inl e) db) as Hterm.
  { intros e Harch. apply Hno. intros ? ? [(t & Ht & Hby & Hw) _ _ _ _ _ _ _ _].
    rewrite Eids in Ht. injection Ht as ->. by apply Hw, Harch. }
  assert (∀ target' dean', ok target' dean' → ∀ slot s, time_move = Some slot →
    in_scope db schedules a b s → double_booked db (usr_pk faculty) slot s = false) as Hfac
    by by intros ? ? [].
  assert (wp (match time_move with
    | None => mret ()
    | Some slot => for_each (s0 :: rest) (λ s,
        read (λ db, double_booked db (usr_pk faculty) slot s) ≫= λ clash : bool,
        guard_m (negb clash)
          (ModalityShiftError "the new time double-books the requesting faculty"))
    end) (λ r db', db' = db ∧ match r with
      | inl _ => ∀ target dean, ¬ ok target dean
      | inr _ => ∀ slot s, time_move = Some slot → in_scope db schedules a b s →
          double_booked db (usr_pk faculty) slot s = false end) db) as Hcheck.
  { clear -Hfac Hscope. destruct time_move as [slot|] eqn:Emove; [|by wp_step].
    apply wp_checks.
    - intros Hfree. split; [done|]. intros ? s [= <-] Hs%Hscope. by apply Hfree.
    - intros s Hs%Hscope Hc. split; [done|]. intros ? ? Hok.
      by rewrite (Hfac _ _ Hok slot s eq_refl Hs) in Hc. }
  eapply wp_mono; [exact Hcheck|]. intros [e|[]] db1 [-> Hres]; [by apply Hno|].
  apply submit_write_wp; [|exact Hterm]. intros t Ht Hw q db' Hl.
  apply (Hok target dean); [by eapply Hall|exact Hl].
Qed.
End submit.

(** A submission succeeds exactly when the classes belong to one writable term,
    the target and the window make sense, no recent request covers them, a time-move
    stays in person and never double-books the requester, every session in scope is
    before the lead-time cutoff, and the requester's department has a dean; it then
    adds one pending request with one item per class, preferring only rooms that are
    offered for all its sessions.  Otherwise nothing is written. *)
Theorem submit_exact db faculty schedules target_modality a b pref time_move now :
  wp (submit_modality_shift faculty schedules target_modality a b pref time_move now)
    (λ res db',
      (∃ target dean, submittable db faculty schedules target_modality a b time_move now target dean ∧
         let q := new_request faculty dean target a b (is_some time_move)
                    (fresh_pk (db_requests db)) in
         res = inr q ∧
         logs_only (db <| db_requests := db_requests db ++ [q] |>
                       <| db_items := db_items db ++
                            submitted_items db (req_pk q) schedules a b pref time_move |>) db') ∨
      ((∀ target dean,
          ¬ submittable db faculty schedules target_modality a b time_move now target dean) ∧
       (∃ e, res = inl e) ∧ db' = db)) db.
Proof.
  apply submit_wp.
  - intros target dean Hok q db' Hl. left. by exists target, dean.
  - intros e Hno. right. split; [done|]. by split; [exists e|].
Qed.

(** ** Decisions are final *)
Inductive shift_op :=
  | OSubmit (faculty : User) (schedules : list Schedule) (target : string) (a b : Z)
      (pref : dict Z Z) (move : option (Z * Z)) (now : Z)
  | OWithdraw (k : Z) (actor : User)
  | OReject (k : Z) (dean : User) (reason : string) (now : Z)
  | OApprove (k : Z) (dean : User) (now : Z).
Definition perform (o : shift_op) : M ModalityShiftRequest :=
  match o with
  | OSubmit f l t a b p m now => submit_modality_shift f l t a b p m now
  | OWithdraw k actor => withdraw_modality_shift k actor
  | OReject k dean reason now => reject_modality_shift k dean reason now
  | OApprove k dean now => apply_approval k dean now
  end.
Inductive shift_step : DB → DB → Prop :=
  | performed o db : shift_step db (exec (perform o) db).

(** A request keeps what it asks for; only a pending one may change at all. *)
Definition requests_kept (db db' : DB) : Prop :=
  ∀ k r, by_pk (db_requests db) k = Some r →
    ∃ r', by_pk (db_requests db') k = Some r' ∧ (req_status r ≠ R_PENDING → r' = r) ∧
      req_requester r' = req_requester r ∧ req_target r' = req_target r ∧
      req_wstart r' = req_wstart r ∧ req_wend r' = req_wend r.
#[export] Instance requests_kept_preorder : PreOrder requests_kept.
Proof.
  split.
  - intros db k r Hr. by exists r.
  - intros db1 db2 db3 H1 H2 k r Hr. destruct (H1 k r Hr) as (r2 & Hr2 & Hs2 & ? & ? & ? & ?).
    destruct (H2 k r2 Hr2) as (r3 & Hr3 & Hs3 & ? & ? & ? & ?). exists r3. split; [done|].
    split; [|repeat split; congruence]. intros Hp. rewrite Hs3; [by apply Hs2|]. by rewrite (Hs2 Hp).
Qed.
Definition same_requests (db db' : DB) : Prop := db_requests db' = db_requests db.
#[export] Instance same_requests_preorder : PreOrder same_requests.
Proof. split; [done|]. intros ? ? ?. unfold same_requests. congruence. Qed.
Lemma same_requests_kept db db' : same_requests db db' → requests_kept db db'.
Proof. intros H k r Hr. exists r. by rewrite H. Qed.
Lemma logs_same_requests db db' : logs_only db db' → same_requests db db'.
Proof. by intros (A & N & ->). Qed.

Lemma save_same_requests (k : Z) (f : Session → Session) : respects same_requests (save k f).
Proof. intros db. unfold exec, save. by destruct (existing (tbl db) k). Qed.
Lemma save_item_same_requests (k : Z) (f : ModalityShiftItem → ModalityShiftItem) :
  respects same_requests (save k f).
Proof. intros db. unfold exec, save. by destruct (existing (tbl db) k). Qed.
Lemma logging_same_requests m : logging m → respects same_requests m.
Proof. intros Hm db. destruct (Hm db) as [_ H]. by apply logs_same_requests. Qed.
Lemma consequence_same_requests r sessions dean now :
  respects same_requests (apply_online sessions dean now) ∧
  respects same_requests (apply_f2f r dean now).
Proof.
  split.
  - apply respects_for_each; [apply _|]. intros s _. apply respects_bind; [apply _|apply save_same_requests|].
    intros _. unfold release_room. apply respects_bind; [apply _|apply save_same_requests|].
    intros _. apply logging_same_requests, logging_audit.
  - unfold apply_f2f. apply respects_bind; [apply _|apply respects_read, _|]. intros items.
    apply respects_for_each; [apply _|]. intros it _. unfold apply_f2f_item.
    apply respects_bind; [apply _|apply respects_read, _|]. intros l.
    apply respects_bind; [apply _| |].
    + apply respects_fold_m; [apply _|]. intros c s _. unfold apply_f2f_session. cbv zeta.
      apply respects_bind; [apply _|apply respects_when; [apply _|]|intros _].
      { apply respects_bind; [apply _|apply respects_read, _|]. intros clash.
        apply respects_guard, _. }
      apply respects_bind; [apply _|apply respects_read, _|]. intros o.
      apply respects_bind; [apply _|apply respects_of_option, _|]. intros room.
      apply respects_bind; [apply _|apply save_same_requests|]. intros _. apply respects_ret, _.
    + intros [room|]; [apply save_item_same_requests|apply respects_ret, _].
Qed.

Lemma wp_term_gate_any {A} (m : M A) (Q : exn + A → DB → Prop) db k :
  wp m Q db → (∀ e, Q (inl e) db) →
  wp (single_term_id_for_request k ≫= λ t, lock_writable_term t ≫= λ _, m) Q db.
Proof.
  intros Hm He. wp_step. unfold single_term_id_for_request, single. wp_step. wp_step.
  destruct (remove_dups _) as [|t [|]]; [apply He| |apply He]. wp_step. unfold lock_writable_term.
  wp_step. wp_step. apply wp_get_pk; [intros term _|intros _; apply He]. wp_step.
  apply wp_require_writable; [done|]. intros _. wp_step. apply He.
Qed.
Lemma update_request_kept db db' k f r :
  by_pk (db_requests db) k = Some r → req_status r = R_PENDING → (∀ x, req_pk (f x) = req_pk x) →
  (∀ x, req_requester (f x) = req_requester x ∧ req_target (f x) = req_target x ∧
        req_wstart (f x) = req_wstart x ∧ req_wend (f x) = req_wend x) →
  db_requests db' = update_pk k f (db_requests db) → requests_kept db db'.
Proof.
  intros Hr Hp Hpk Hf Hdb k' x Hx. rewrite Hdb. destruct (Z.eq_dec k k') as [<-|Hne].
  - assert (x = r) as -> by congruence. exists (f r). rewrite by_pk_update_eq by done. rewrite Hr.
    split; [done|]. split; [congruence|]. apply Hf.
  - exists x. by rewrite by_pk_update_ne.
Qed.
Lemma turn_down_kept st verb r dean reason now db0 db :
  requests_kept db0 db → by_pk (db_requests db) (req_pk r) = Some r → req_status r = R_PENDING →
  wp (turn_down st verb r dean reason now) (λ _ db', requests_kept db0 db') db.
Proof.
  intros H0 Hr Hp. apply turn_down_wp; [done|]. intros db' Hl. transitivity db; [done|].
  eapply (update_request_kept _ _ (req_pk r)); [exact Hr|done| | |apply (logs_same_requests _ _ Hl)];
    done.
Qed.

Lemma perform_kept o db : requests_kept db (exec (perform o) db).
Proof.
  unfold exec. enough (wp (perform o) (λ _ db', requests_kept db db') db) as H by exact H.
  destruct o as [f l t a b p m now|k actor|k dean reason now|k dean now]; simpl.
  - apply submit_wp; [|done]. intros target dean _ q db' Hl k r Hr. exists r.
    rewrite (logs_same_requests _ _ Hl). simpl. split; [by apply by_pk_app_old|done].
  - unfold withdraw_modality_shift. wp_step. wp_step. apply wp_get_pk; [|done]. intros r Hr.
    apply wp_term_gate_any; [|done]. wp_step. wp_step; [|done]. wp_step. wp_step; [|done].
    b2p. wp_step. apply wp_save; [|done]. intros _. wp_step.
    apply wp_logging; [apply logging_audit|]. intros db' Hl. wp_step.
    eapply (update_request_kept _ _ k); [exact Hr|done| | |apply (logs_same_requests _ _ Hl)]; done.
  - unfold reject_modality_shift. wp_step. wp_step. apply wp_get_pk; [|done]. intros r Hr.
    apply wp_term_gate_any; [|done]. wp_step. wp_step; [|done]. wp_step. wp_step; [|done]. b2p.
    eapply wp_mono; [apply (turn_down_kept _ _ _ _ _ _ db)|]; [done| |done|].
    + apply by_pk_elem in Hr as Hk. destruct Hk as [_ Hk]. change (req_pk r = k) in Hk. by rewrite Hk.
    + by intros [e|x] db'.
  - unfold apply_approval. wp_step. wp_step. apply wp_get_pk; [|done]. intros r Hr.
    assert (req_pk r = k) as Hk by by apply by_pk_elem in Hr as [_ ?].
    apply wp_term_gate_any; [|done]. wp_step. wp_step; [|done]. wp_step. wp_step; [|done]. b2p.
    wp_step. wp_step. wp_step. wp_step. wp_step. wp_step.
    destruct (consequence_same_requests r (affected_sessions db r) (usr_pk dean) now) as [H1 H2].
    assert (respects same_requests (if bool_decide (req_target r = ONLINE)
      then apply_online (affected_sessions db r) (usr_pk dean) now
      else apply_f2f r (usr_pk dean) now)) as Hc by by case_bool_decide.
    apply wp_intro. intros res db1 Hrun. specialize (Hc db). unfold exec in Hc. rewrite Hrun in Hc.
    simpl in Hc. destruct res as [e|[]].
    + destruct (no_room e) as [reason|]; [|done]. wp_step.
      eapply wp_mono; [apply (turn_down_kept _ _ _ _ _ _ db)|]; [done| |done|].
      * by rewrite Hk.
      * by intros [x|x] db'.
    + wp_step. wp_step. apply wp_save; [|done]. intros _. wp_step.
      apply wp_logging; [apply logging_audit|]. intros db2 Hl2. wp_step.
      apply wp_logging; [apply logging_notify|]. intros db3 Hl3. wp_step. wp_step. wp_step.
      apply wp_logging; [apply logging_notify|]. intros db4 Hl4. wp_step.
      apply (update_request_kept _ _ k (approve now (usr_pk dean)) r); [exact Hr|done|done|done|].
      apply logs_same_requests in Hl2, Hl3, Hl4. unfold same_requests in *.
      rewrite Hl4, Hl3, Hl2. simpl. by rewrite Hc.
Qed.

(** Whatever requests are submitted, withdrawn, rejected and approved, by whom
    and in which order, a request keeps its requester, its target and its window,
    and once it is approved, rejected, denied or withdrawn it never changes again. *)
Theorem decisions_are_final db db' k r :
  rtc shift_step db db' → by_pk (db_requests db) k = Some r →
  ∃ r', by_pk (db_requests db') k = Some r' ∧ (req_status r ≠ R_PENDING → r' = r) ∧
    req_requester r' = req_requester r ∧ req_target r' = req_target r ∧
    req_wstart r' = req_wstart r ∧ req_wend r' = req_wend r.
Proof.
  intros Hsteps. enough (requests_kept db db') as H by apply H.
  induction Hsteps as [db|db1 db2 db3 [o db0] _ IH]; [reflexivity|].
  transitivity (exec (perform o) db0); [apply perform_kept|exact IH].
Qed.
End services.

(** ** Witnesses *)
Definition demo_dean : User := demo_user 3 "Cora" DEAN.
Definition demo_request (target : Modality) : ModalityShiftRequest :=
  {| req_pk := 1; req_requester := 1; req_dean := Some 3; req_department := Some 1;
     req_target := target; req_wstart := monday; req_wend := monday + 6;
     req_is_time_move := false; req_status := R_PENDING; req_reason := "";
     req_decided_at := None; req_decided_by := None |}.
Definition requested_db (target : Modality) (sessions : list Session) : DB :=
  demo_db <| db_requests := [demo_request target] |>
          <| db_items := [{| it_pk := 1; it_request := 1; it_schedule := 1; it_preferred := None;
                             it_assigned := None; it_new_start := None; it_new_end := None |}] |>
          <| db_sessions := sessions |>.
Lemma demo_decidable target sessions :
  decidable_by (requested_db target sessions) 1 demo_dean (demo_request target).
Proof. split; [done| |done|done]. by exists demo_term. Qed.
(** The first session of the class was moved online, and its room released. *)
Definition released_session : Session :=
  (demo_session 1 monday SCHEDULED) <| ses_declared := Some ONLINE |>
                                    <| ses_released_at := Some (at_ 6 0) |>.

Lemma approve_online_witness :
  wp (apply_approval 1 demo_dean (at_ 7 0)) (λ res db',
    res = inr (approve (at_ 7 0) 3 (demo_request ONLINE)) ∧
    logs_only ((requested_db ONLINE (db_sessions demo_db))
      <| db_requests := update_pk 1 (approve (at_ 7 0) 3) [demo_request ONLINE] |>
      <| db_sessions := update_where
           (covered (requested_db ONLINE (db_sessions demo_db)) (demo_request ONLINE))
           (went_online 3 (at_ 7 0)) (db_sessions demo_db) |>) db')
    (requested_db ONLINE (db_sessions demo_db)) ∧
  covered (requested_db ONLINE (db_sessions demo_db)) (demo_request ONLINE)
    <$> db_sessions demo_db = [true; false].
Proof.
  split; [|vm_compute; reflexivity].
  apply (approve_online (requested_db ONLINE (db_sessions demo_db)) 1 demo_dean (at_ 7 0)
           (demo_request ONLINE)); [apply demo_decidable|reflexivity|decide_now].
Defined.
Lemma approve_in_person_witness :
  let db := requested_db BLENDED (db_sessions demo_db) in
  run (apply_approval 1 demo_dean (at_ 7 0)) db = inr (approve (at_ 7 0) 3 (demo_request BLENDED)) ∧
  wp (apply_approval 1 demo_dean (at_ 7 0)) (λ res db',
    (res = inr (approve (at_ 7 0) (usr_pk demo_dean) (demo_request BLENDED)) ∧
     ∃ F I, logs_only (db <| db_requests := update_pk 1 (approve (at_ 7 0) (usr_pk demo_dean))
                                             (db_requests db) |>
                          <| db_sessions := F <$> db_sessions db |> <| db_items := I |>) db' ∧
     ∀ s, s ∈ db_sessions db →
       if covered db (demo_request BLENDED) s
       then shifted db (demo_request BLENDED) (usr_pk demo_dean) (at_ 7 0) s (F s) ∧
            (ses_released_at s = None → alone db' (F s))
       else F s = s) ∨
    (∃ reason, res = inr (decide_request R_DENIED reason (usr_pk demo_dean) (at_ 7 0)
                            (demo_request BLENDED)) ∧
     logs_only (denied db 1 (usr_pk demo_dean) (at_ 7 0) reason) db')) db.
Proof.
  intros db. split; [vm_compute; reflexivity|].
  apply (approve_in_person db 1 demo_dean (at_ 7 0) (demo_request BLENDED));
    [apply demo_decidable|discriminate|decide_now|decide_now].
Defined.
Lemma shift_back_keeps_release_witness :
  let db := requested_db F2F [released_session] in
  wp (apply_approval 1 demo_dean (at_ 7 0)) (λ res db',
    res = inr (approve (at_ 7 0) (usr_pk demo_dean) (demo_request F2F)) →
    ∃ s', s' ∈ db_sessions db' ∧ ses_pk s' = ses_pk released_session ∧
      effective_online db' s' = false ∧
      (∀ room a b x, s' ∉ session_occupants db' room a b x) ∧
      ∀ t, holds_room db' t (s' <| ses_status := ACTIVE |>) = false) db ∧
  run (apply_approval 1 demo_dean (at_ 7 0)) db = inr (approve (at_ 7 0) 3 (demo_request F2F)).
Proof.
  intros db. split; [|vm_compute; reflexivity].
  apply (shift_back_keeps_release db 1 demo_dean (at_ 7 0) (demo_request F2F) released_session);
    [apply demo_decidable|discriminate|decide_now|decide_now|left|vm_compute; reflexivity|reflexivity].
Defined.
Lemma decisions_are_final_witness :
  ∃ r', by_pk (db_requests (exec (perform (OWithdraw 1 (demo_user 1 "Ana" FACULTY)))
                              (requested_db ONLINE []))) 1 = Some r' ∧
    (req_status (demo_request ONLINE) ≠ R_PENDING → r' = demo_request ONLINE) ∧
    req_requester r' = 1 ∧ req_target r' = ONLINE ∧ req_wstart r' = monday ∧ req_wend r' = monday + 6.
Proof.
  apply (decisions_are_final (requested_db ONLINE []) _ 1 (demo_request ONLINE)); [|reflexivity].
  eapply rtc_l; [|apply rtc_refl]. apply (performed (OWithdraw 1 (demo_user 1 "Ana" FACULTY))).
Defined.
