(* ===== verification/Faculty.v ===== *)
(** web/faculty.py: the pages of a faculty member - the start of an online class from its
    meeting link, the cards of the week, the modality-shift form and the history of
    attendance.  A page reads the clock once; what it renders is left out except for the
    rows it shows. *)
From S2P Require Import Prelude Python Model Effects Ops Sample TeamsLink Resolvers Merge Availability Scan Modality Web.
From Stdlib Require Import String Ascii.
From stdpp Require Import strings.
Open Scope Z_scope.

Definition faculty_required (user : User) (view : M response) : M response :=
  role_required FACULTY user view.

(** ** Starting an online class *)

(** The state of a card, and the states that offer a start *)
Definition online_state (s : Session) (now grace_min : Z) : string :=
  (if has_status ACTIVE s then "active"
   else if has_status COMPLETED s then "completed"
   else if has_status ABSENT s then "absent"
   else if FacultyScan.is_no_show_past_grace (ses_sched_start s) now grace_min then "past-grace"
   else if (now <? ses_sched_start s)%Z then "upcoming"
   else "startable")%string.
Definition STARTABLE_STATES : list string := ["upcoming"; "startable"]%string.
Record OnlineRow := mk_online_row {
  or_session : Session;
  or_state : string;
  or_can_start : bool
}.
Definition online_row (s : Session) (now grace_min : Z) : OnlineRow :=
  let state := online_state s now grace_min in
  mk_online_row s state (bool_decide (state ∈ STARTABLE_STATES)).
(** The cards of the user's online classes of the day *)
Definition own_today (t : AcademicTerm) (user day : Z) (db : DB) (s : Session) : bool :=
  (ses_faculty s =? user) && (ses_date s =? day) && in_term db (term_pk t) s.
Definition online_rows (user : User) (now : Z) : M (list OnlineRow) :=
  get_policy_num "grace_minutes" ≫= λ grace_min,
  get_active_term ≫= λ active_term,
  match active_term with
  | None => mret []
  | Some t =>
      objects_join (own_today t (usr_pk user) (PyTime.local_date now)) ≫= λ sessions,
      read (λ db, (λ s, online_row s now grace_min)
                    <$> select (effective_online db) (sort_by by_start sessions))
  end.

Section online_start.
Variable bracketed_ok : list Ascii.ascii → bool.

(** The ladder of refusals of a start *)
Definition not_scheduled_error (s : Session) : string :=
  match ses_status s with
  | ACTIVE => "This class is already started."
  | ABSENT => "This class is recorded as Absent and cannot be started. If you did hold it, ask the IFO office to reinstate the record."
  | _ => "This class is already finished."
  end%string.
Definition start_error (db : DB) (s : Session) (raw_link : string) (now grace_min : Z) : option string :=
  if negb (effective_online db s) then
    Some "This class is not Online, so it checks in by scanning the room QR or entering the room code."%string
  else if negb (has_status SCHEDULED s) then Some (not_scheduled_error s)
  else if FacultyScan.is_no_show_past_grace (ses_sched_start s) now grace_min then
    Some ("Start is past the " +:+ PyStr.str grace_min
          +:+ "-minute grace window for this class, so it can no longer be started here.")
  else teams_link_error bracketed_ok raw_link.
(** The columns a start writes *)
Definition start_online (raw_link : string) (now : Z) (s : Session) : Session :=
  s <| ses_teams_link := raw_link |> <| ses_status := ACTIVE |>
    <| ses_actual_start := Some now |> <| ses_method := Some ONLINE_SELF |>.
Definition own_session (t : AcademicTerm) (user k : Z) (db : DB) (s : Session) : bool :=
  (ses_pk s =? k) && (ses_faculty s =? user) && in_term db (term_pk t) s.
Definition online_start (user : User) (k : Z) (q : form) (now : Z) : M response :=
  faculty_required user (
  get_policy_num "grace_minutes" ≫= λ grace_min,
  let raw_link := post q "teams_link" in
  get_active_term ≫= λ active_term,
  match active_term with
  | None => mret NotFound
  | Some t =>
      get_or_404_join (own_session t (usr_pk user) k) (λ s,
      read (λ db, start_error db s raw_link now grace_min) ≫= λ error,
      match error with
      | Some e => mret (BadRequest e)
      | None =>
          atomic (
            let started := start_online raw_link now s in
            save (ses_pk s) (start_online raw_link now) ≫= λ _,
            audit (Some (usr_pk user)) "session.teams_link_set" "session" (PyStr.str (ses_pk s))
              (JObj [("session", JInt (ses_pk s));
                     ("previous_teams_link", JStr (ses_teams_link s));
                     ("teams_link", JStr raw_link);
                     ("checkin_method", JStr (method_str ONLINE_SELF))]%string) ≫= λ _,
            propagate_merged_present started now (Some (usr_pk user)) ≫= λ _,
            mret (Page (online_state started now grace_min)))
      end)
  end).
End online_start.

(** *** Who may start what *)
Section start_spec.
Context (bracketed_ok : list Ascii.ascii → bool) (db : DB) (user : User) (q : form) (now grace : Z).
Context (t : AcademicTerm).
(** An online class of the user in the term, still scheduled and within its grace period *)
Record startable (s : Session) : Prop := {
  st_role : plays FACULTY user;
  st_row : s ∈ db_sessions db;
  st_own : ses_faculty s = usr_pk user;
  st_term : session_term db s = Some (term_pk t);
  st_online : effective_modality db s = Some ONLINE;
  st_scheduled : ses_status s = SCHEDULED;
  st_grace : now ≤ ses_sched_start s + PyTime.minutes grace;
  st_link : teams_link_error bracketed_ok (post q "teams_link") = None
}.

Lemma start_error_None s :
  start_error bracketed_ok db s (post q "teams_link") now grace = None ↔
  effective_modality db s = Some ONLINE ∧ ses_status s = SCHEDULED ∧
  now ≤ ses_sched_start s + PyTime.minutes grace ∧
  teams_link_error bracketed_ok (post q "teams_link") = None.
Proof using.
  unfold start_error, effective_online, has_status, FacultyScan.is_no_show_past_grace.
  destruct (bool_decide_reflect (effective_modality db s = Some ONLINE)) as [Ho|Ho]; cbn [negb]; [|naive_solver].
  destruct (bool_decide_reflect (ses_status s = SCHEDULED)) as [Hs|Hs]; cbn [negb]; [|naive_solver].
  destruct (Z.ltb_spec (ses_sched_start s + PyTime.minutes grace) now); [|naive_solver].
  split; [done|]. intros (_ & _ & ? & _). lia.
Qed.
Lemma role_plays r (u : User) :
  bool_decide (usr_role u ≠ r) && negb (usr_superuser u) = false ↔ plays r u.
Proof using. unfold plays. b2p. destruct (decide (usr_role u = r)); destruct (usr_superuser u); tauto. Qed.

(** Starting writes nothing the merge rule reads. *)
Lemma fillable_started s raw db' x :
  db_schedules db' = db_schedules db →
  fillable db' (start_online raw now s) (term_pk t) x = fillable db s (term_pk t) x.
Proof using.
  intros H. unfold fillable, candidate_of, in_term, session_term, annotate, effective_online,
    effective_modality. by rewrite H.
Qed.

Context (Huniq : pk_unique (db_sessions db)) (Huniqt : pk_unique (db_terms db)).
Context (Hact : select is_active_term (db_terms db) = [t]).
Lemma start_write_wp s (Q : exn + response → DB → Prop) raw payload :
  s ∈ db_sessions db → session_term db s = Some (term_pk t) →
  (∀ db', logs_only (db <| db_sessions := update_where (fillable db s (term_pk t)) (fill_present now)
                             (update_pk (ses_pk s) (start_online raw now) (db_sessions db)) |>) db' →
     Q (inr (Page (online_state (start_online raw now s) now grace))) db') →
  wp (atomic (
       save (ses_pk s) (start_online raw now) ≫= λ _,
       audit (Some (usr_pk user)) "session.teams_link_set" "session" (PyStr.str (ses_pk s)) payload ≫= λ _,
       propagate_merged_present (start_online raw now s) now (Some (usr_pk user)) ≫= λ _,
       mret (Page (online_state (start_online raw now s) now grace)))) Q db.
Proof using Huniq Huniqt Hact.
  intros Hs Ht HQ. unfold session_term in Ht. destruct (by_pk (db_schedules db) (ses_schedule s)) as [sch|] eqn:Hsch;
    [injection Ht as Hterm|done].
  pose proof (by_pk_unique _ (ses_pk s) s Huniq Hs eq_refl) as Hpk.
  wp_step. wp_step. apply wp_save; cbn [tbl set_tbl table_Session].
  2:{ intros Hn. rewrite existing_by_pk, Hpk in Hn. done. }
  intros _. wp_step. apply wp_logging; [apply logging_audit|]. intros db1 (A & N & ->).
  wp_step. eapply wp_mono.
  { apply (fill_siblings_wp _ (start_online raw now s) sch t); simpl.
    - by apply pk_unique_update.
    - by rewrite by_pk_update_eq, Hpk.
    - done.
    - rewrite Hterm. by apply active_by_pk.
    - done.
    - by apply (active_not_archived db). }
  cbv beta. intros r db2 [-> Hl]. wp_step. apply HQ. etransitivity; [|exact Hl]. rewrite Hterm. simpl.
  rewrite (update_where_ext (fillable _ (start_online raw now s) (term_pk t)) (fillable db s (term_pk t))
    (fill_present now) (fill_present now)) by (try done; intros; by apply fillable_started).
  by exists A, N.
Qed.
End start_spec.

(** Starting an online class succeeds exactly when the class is the user's own, of the
    active term, online, still scheduled and within its grace period, and the pasted link
    is one of a meeting host.  The class then becomes active with that link, the start is
    now and its own; exactly its merged siblings still scheduled start with it; no other
    session and no other table but the logs changes.  Every other request is refused with
    nothing written, and another member's class is reported as if it did not exist. *)
Theorem online_start_exact bracketed_ok db user k q now grace t :
  pk_unique (db_sessions db) → pk_unique (db_terms db) →
  select is_active_term (db_terms db) = [t] → policy_num db "grace_minutes" = Some grace →
  let ok := startable bracketed_ok db user q now grace t in
  wp (online_start bracketed_ok user k q now) (λ res db',
    (∃ s p, ok s ∧ ses_pk s = k ∧ res = inr (Page "active") ∧
       (∀ x, p x = true ↔ sibling db s (term_pk t) x ∧ ses_status x = SCHEDULED) ∧
       logs_only (db <| db_sessions := update_where p (fill_present now)
                          (update_pk k (start_online (post q "teams_link") now) (db_sessions db)) |>) db') ∨
    ((∀ s, ok s → ses_pk s ≠ k) ∧ db' = db ∧
     ((¬ plays FACULTY user ∧ res = inr Forbidden) ∨
      ((∀ s, s ∈ db_sessions db → ses_pk s = k → ses_faculty s = usr_pk user →
          session_term db s ≠ Some (term_pk t)) ∧ res = inr NotFound) ∨
      ∃ e, res = inr (BadRequest e)))) db.
Proof.
  intros Hu Hut Hact Hg ok. unfold online_start, faculty_required, role_required.
  destruct (bool_decide (usr_role user ≠ FACULTY) && negb (usr_superuser user)) eqn:Er.
  { wp_step. right. split_and!; [|done|left; split; [|done]].
    - intros s [Hr _ _ _ _ _ _ _] _. apply role_plays in Hr. congruence.
    - intros Hr%role_plays. congruence. }
  apply role_plays in Er. wp_step. apply wp_policy_num; [|congruence]. intros g Hg'.
  replace g with grace by congruence. cbv zeta. wp_step.
  apply wp_get_active_term; [|congruence|unfold one_active_term; rewrite Hact; simpl; lia].
  intros t' Ht'. replace t' with t by congruence. unfold get_or_404_join. wp_step. wp_step.
  cbn [tbl table_Session]. destruct (List.find _ _) as [s|] eqn:Ef.
  2:{ wp_step. rewrite find_elem_None in Ef.
      assert (∀ s, s ∈ db_sessions db → ses_pk s = k → ses_faculty s = usr_pk user →
        session_term db s ≠ Some (term_pk t)) as Hn.
      { intros s Hs Hk Hf Hst. specialize (Ef s Hs). unfold own_session, in_term in Ef.
        rewrite bool_decide_true in Ef by done. b2p. naive_solver. }
      right. split_and!; [|done|right; left; done]. intros s [_ Hs Hf Hst _ _ _ _] Hk. by apply (Hn s). }
  apply find_elem in Ef as [Hs Hp]. unfold own_session, in_term in Hp. b2p. destruct Hp as [[Hk Hf] Hst].
  wp_step. wp_step. destruct (start_error bracketed_ok db s (post q "teams_link") now grace) as [e|] eqn:Ee.
  - wp_step. right. split_and!; [|done|right; right; by exists e].
    intros s' [_ Hs' _ _ H1 H2 H3 H4] Hk'.
    assert (s' = s) as -> by (apply (pk_inj (db_sessions db)); try done; unfold pk, pk_Session; congruence).
    rewrite (proj2 (start_error_None bracketed_ok db q now grace s)) in Ee; [done|by split_and!].
  - apply (start_error_None bracketed_ok db q now grace) in Ee as (H1 & H2 & H3 & H4). apply (start_write_wp db user now grace t); [done..|].
    intros db' Hl. left. exists s, (fillable db s (term_pk t)). rewrite <- Hk.
    split_and!; try done. intros x. by rewrite fillable_iff.
Qed.

(** What the page offers is what the start accepts, but for a cancelled class: a class
    that was suspended or dropped is shown with a start, which is then refused. *)
Theorem start_offer_exact bracketed_ok db user q now grace t s :
  plays FACULTY user → s ∈ db_sessions db → ses_faculty s = usr_pk user →
  session_term db s = Some (term_pk t) → effective_modality db s = Some ONLINE →
  teams_link_error bracketed_ok (post q "teams_link") = None →
  or_can_start (online_row s now grace) = true ↔
  startable bracketed_ok db user q now grace t s ∨
  (ses_status s = CANCELLED ∧ now ≤ ses_sched_start s + PyTime.minutes grace).
Proof.
  intros Hr Hs Hf Ht Ho Hl. unfold online_row, online_state, has_status, FacultyScan.is_no_show_past_grace. cbn [or_can_start].
  rewrite bd_true. split.
  - intros H. destruct (ses_status s) eqn:Est; rewrite ?bool_decide_true in H by done;
      try (revert H; simpl; set_solver);
      (rewrite !bool_decide_false in H by done;
       destruct (Z.ltb_spec (ses_sched_start s + PyTime.minutes grace) now); [revert H; set_solver|]).
    + left. by split.
    + by right.
  - assert (∀ b : bool, (if b then "upcoming" else "startable")%string ∈ STARTABLE_STATES) as Hin
      by (intros []; unfold STARTABLE_STATES; set_solver).
    intros [[_ _ _ _ _ H1 H2 _]|[H1 H2]]; rewrite H1;
      (rewrite !bool_decide_false by done; rewrite (proj2 (Z.ltb_ge _ _)) by lia; apply Hin).
Qed.

(** ** The cards of the week *)

(** The first occurrence of each element of a list: [list(dict.fromkeys(l))] *)
Definition first_seen (l : list string) : list string := (foldl (λ d x, dict_set d x ()) [] l).*1.
Record Card := mk_card {
  card_rep : Session;
  card_sessions : list Session;
  card_rooms : list string;
  card_students : Z;
  card_modality : option Modality
}.
Definition card_merged (c : Card) : bool := (1 <? length (card_sessions c))%nat.
Definition room_code_of (db : DB) (s : Session) : string :=
  default ""%string (room_code <$> by_pk (db_rooms db) (ses_room s)).
Definition enrolled_in (db : DB) (s : Session) : Z :=
  default 0 (sch_enrolled <$> by_pk (db_schedules db) (ses_schedule s)).
Definition card_of (db : DB) (sessions : list Session) (anchor : Session) : Card :=
  let sibs := merged_sibling_ids (annotate db anchor) (annotate db <$> sessions) in
  let group := anchor :: select (mem_pk sibs) sessions in
  mk_card anchor group (first_seen (room_code_of db <$> group)) (zsum (enrolled_in db <$> group))
    (effective_modality db anchor).
Definition add_card (db : DB) (sessions : list Session) (acc : list Card * list Z) (anchor : Session)
    : list Card * list Z :=
  let '(cards, used) := acc in
  if bool_decide (ses_pk anchor ∈ used) then acc
  else let c := card_of db sessions anchor in
       (cards ++ [c], used ++ (ses_pk <$> card_sessions c)).
Definition group_merged (db : DB) (sessions : list Session) : list Card :=
  fst (foldl (add_card db sessions) ([], []) sessions).
(** The user's sessions of today and of the following days, seven days in all *)
Definition own_week (t : AcademicTerm) (user today : Z) (db : DB) (s : Session) : bool :=
  (ses_faculty s =? user) && (today <=? ses_date s) && (ses_date s <? today + 7)
  && in_term db (term_pk t) s.
Definition faculty_cards (user now : Z) : M (list Card * list Card) :=
  let today := PyTime.local_date now in
  get_active_term ≫= λ active_term,
  match active_term with
  | None => mret ([], [])
  | Some t =>
      objects_join (own_week t user today) ≫= λ rows,
      let sessions := sort_by date_then_start rows in
      let is_today s := ses_date s =? today in
      read (λ db, (group_merged db (select is_today sessions),
                   group_merged db (select (λ s, negb (is_today s)) sessions)))
  end.

(** ** The home page *)
Definition greeting (now : Z) : string :=
  let h := PyTime.local_time now / PyTime.usec_hour in
  if h <? 12 then "Good morning"%string else if h <? 18 then "Good afternoon"%string
  else "Good evening"%string.
Definition is_active_card (c : Card) : bool := existsb (has_status ACTIVE) (card_sessions c).
Definition is_next_card (now : Z) (c : Card) : bool :=
  existsb (λ s, has_status SCHEDULED s && (now <=? ses_sched_end s)) (card_sessions c).
Record Home := mk_home {
  hm_hero : option Card;
  hm_live : bool;
  hm_is_today : bool;
  hm_count : Z
}.
Definition home_of (today now : Z) (today_cards week_cards : list Card) : Home :=
  let live := List.find is_active_card today_cards in
  let hero := match live with
    | Some c => Some c
    | None => match List.find (is_next_card now) today_cards with
              | Some c => Some c
              | None => head week_cards
              end
    end in
  mk_home hero (is_some live)
    (match hero with Some c => ses_date (card_rep c) =? today | None => false end)
    (Z.of_nat (length today_cards)).
Definition home (user : User) (now : Z) : M Home :=
  faculty_cards (usr_pk user) now ≫= λ cards,
  mret (home_of (PyTime.local_date now) now cards.1 cards.2).

(** *** A card is a merge group *)
Definition covered (cards : list Card) (s : Session) : Prop := ∃ c, c ∈ cards ∧ s ∈ card_sessions c.
Section cards.
Context (db : DB) (sessions : list Session).
Context (Huniq : pk_unique sessions).
Definition merges (a s : Session) : bool := merges_with (annotate db a) (annotate db s).

Lemma merges_irrefl a : merges a a = false.
Proof using. unfold merges, merges_with. by rewrite Z.eqb_refl. Qed.
Lemma card_group a :
  card_sessions (card_of db sessions a) = a :: select (merges a) sessions.
Proof using Huniq.
  unfold card_of. cbn [card_sessions]. f_equal. apply select_ext. intros s Hs.
  apply eq_true_iff_eq. unfold mem_pk, merged_sibling_ids, merges. rewrite bd_true, list_elem_of_fmap.
  split; [|intros H; exists (annotate db s); split; [done|]; apply elem_of_select; split; [|done];
           apply list_elem_of_fmap; by exists s].
  intros (x & Hx & [Hin Hm]%elem_of_select). apply list_elem_of_fmap in Hin as (s' & -> & Hs').
  assert (s' = s) as -> by by apply (pk_inj sessions). done.
Qed.
(** The cards after some of the sessions: who has a card, who is counted as used. *)
Definition cards_of (done : list Session) : list Card * list Z :=
  foldl (add_card db sessions) ([], []) done.
Lemma cards_snoc done a : cards_of (done ++ [a]) = add_card db sessions (cards_of done) a.
Proof using. unfold cards_of. by rewrite foldl_app. Qed.
Lemma cards_used done :
  (∀ k, k ∈ (cards_of done).2 ↔ ∃ c s, c ∈ (cards_of done).1 ∧ s ∈ card_sessions c ∧ k = ses_pk s) ∧
  (∀ c, c ∈ (cards_of done).1 → card_rep c ∈ done ∧ c = card_of db sessions (card_rep c)) ∧
  (∀ s, s ∈ done → ses_pk s ∈ (cards_of done).2).
Proof using Huniq.
  induction done as [|a done (IH1 & IH2 & IH3)] using rev_ind.
  { split_and!; [|by intros c ?%not_elem_of_nil|by intros s ?%not_elem_of_nil].
    intros k. split; [by intros ?%not_elem_of_nil|]. by intros (c & s & ?%not_elem_of_nil & _). }
  rewrite cards_snoc. unfold add_card. destruct (cards_of done) as [cards used] eqn:E. simpl in *.
  destruct (bool_decide_reflect (ses_pk a ∈ used)) as [Hu|Hu]; simpl.
  { split_and!; [done| |].
    - intros c Hc. destruct (IH2 c Hc). set_solver.
    - intros s [Hs| <-%list_elem_of_singleton]%elem_of_app; auto. }
  split_and!.
  - intros k. rewrite elem_of_app, IH1. split.
    + intros [(c & s & Hc & Hs & ->)|Hk]; [exists c, s; set_solver|].
      change (k ∈ ses_pk <$> card_sessions (card_of db sessions a)) in Hk.
      apply list_elem_of_fmap in Hk as (s & -> & Hs). exists (card_of db sessions a), s. set_solver.
    + intros (c & s & [Hc| ->%list_elem_of_singleton]%elem_of_app & Hs & ->); [left; by exists c, s|].
      right. change (ses_pk s ∈ ses_pk <$> card_sessions (card_of db sessions a)).
      apply list_elem_of_fmap. by exists s.
  - intros c [Hc| ->%list_elem_of_singleton]%elem_of_app; [|simpl; set_solver].
    destruct (IH2 c Hc). set_solver.
  - intros s [Hs| ->%list_elem_of_singleton]%elem_of_app; apply elem_of_app; [left; auto|right].
    left.
Qed.
(** Each card is a session with its siblings, each session is on a card, and a session
    has a card of its own only if no earlier card holds it. *)
Lemma cards_cover :
  (∀ c, c ∈ group_merged db sessions → card_rep c ∈ sessions ∧
     ∀ s, s ∈ card_sessions c ↔ s = card_rep c ∨ (s ∈ sessions ∧ merges (card_rep c) s = true)) ∧
  (∀ s, s ∈ sessions → covered (group_merged db sessions) s).
Proof using Huniq.
  destruct (cards_used sessions) as (H1 & H2 & H3). split.
  - intros c Hc. destruct (H2 c Hc) as [Hr Hcard]. split; [done|]. intros s.
    rewrite Hcard at 1. by rewrite card_group, elem_of_cons, elem_of_select.
  - intros s Hs. specialize (H3 s Hs). apply H1 in H3 as (c & s' & Hc & Hs' & Hk).
    destruct (H2 c Hc) as [Hr Hcard]. exists c. split; [done|].
    assert (s' ∈ sessions) as Hin.
    { rewrite Hcard, card_group in Hs'. apply elem_of_cons in Hs' as [->|[? _]%elem_of_select]; done. }
    by assert (s = s') as -> by by apply (pk_inj sessions).
Qed.

(** When the merge rule is transitive on the sessions, the cards deal them out: each
    session is on one card. *)
Context (Htrans : ∀ a b c, a ∈ sessions → b ∈ sessions → c ∈ sessions → a ≠ c →
  merges a b = true → merges b c = true → merges a c = true).
Lemma merges_sym a b : merges a b = merges b a.
Proof using.
  unfold merges, merges_with. simpl.
  rewrite (Z.eqb_sym (ses_pk b) (ses_pk a)), (Z.eqb_sym (ses_faculty b) (ses_faculty a)),
    (Z.eqb_sym (ses_sched_start b) (ses_sched_start a)), (Z.eqb_sym (ses_room b) (ses_room a)),
    (andb_comm (effective_online db b)).
  set (x := sch_course_code <$> by_pk (db_schedules db) (ses_schedule a)).
  set (y := sch_course_code <$> by_pk (db_schedules db) (ses_schedule b)).
  by rewrite (bool_decide_ext (y = x) (x = y)) by (split; congruence).
Qed.
Lemma group_NoDup a : a ∈ sessions → NoDup (card_sessions (card_of db sessions a)).
Proof using Huniq.
  intros Ha. rewrite card_group. apply NoDup_cons. split.
  - intros [_ H]%elem_of_select. by rewrite merges_irrefl in H.
  - apply (sublist_NoDup _ sessions); [|apply select_sublist]. by eapply NoDup_fmap_1.
Qed.
Lemma cards_disjoint l :
  l ⊆ sessions → NoDup (concat (card_sessions <$> (cards_of l).1)).
Proof using Huniq Htrans.
  induction l as [|a l IH] using rev_ind; intros Hl; [apply NoDup_nil_2|].
  assert (l ⊆ sessions ∧ a ∈ sessions) as [Hl' Ha] by set_solver.
  specialize (IH Hl'). rewrite cards_snoc. pose proof (cards_used l) as (H1 & H2 & H3). unfold add_card.
  destruct (cards_of l) as [cards used] eqn:E. simpl in *.
  destruct (bool_decide_reflect (ses_pk a ∈ used)) as [Hu|Hu]; [done|]. simpl.
  rewrite fmap_app, concat_app. simpl. rewrite app_nil_r. apply NoDup_app. split; [done|].
  split; [|by apply (group_NoDup a)]. intros s Hs Hg.
  change (s ∈ card_sessions (card_of db sessions a)) in Hg. apply Hu, H1.
  rewrite list_elem_of_In in Hs. apply in_concat in Hs as (m & Hm & Hs). rewrite <- list_elem_of_In in Hm. rewrite <- list_elem_of_In in Hs.
  apply list_elem_of_fmap in Hm as (c & -> & Hc). destruct (H2 c Hc) as [Hr Hcard].
  exists c, a. split_and!; try done. rewrite Hcard, card_group in Hs |- *. rewrite card_group in Hg.
  apply elem_of_cons in Hg as [->|[Hsin Has]%elem_of_select]; [done|].
  assert (card_rep c ∈ sessions) as Hrs by set_solver.
  rewrite merges_sym in Has.
  destruct (decide (ses_pk (card_rep c) = ses_pk a)) as [Heq|Hne].
  { assert (card_rep c = a) as -> by by apply (pk_inj sessions). by left. }
  assert (card_rep c ≠ a) as Hca by congruence. right. apply elem_of_select. split; [done|].
  apply elem_of_cons in Hs as [->|[_ Hcs]%elem_of_select]; [done|].
  by apply (Htrans (card_rep c) s a).
Qed.
Lemma cards_deal : concat (card_sessions <$> group_merged db sessions) ≡ₚ sessions.
Proof using Huniq Htrans.
  apply NoDup_Permutation; [by apply cards_disjoint|by eapply NoDup_fmap_1|].
  intros s. destruct cards_cover as [H1 H2]. rewrite list_elem_of_In, in_concat.
  setoid_rewrite <- list_elem_of_In. split.
  - intros (m & (c & -> & Hc)%list_elem_of_fmap & Hs). destruct (H1 c Hc) as [Hr Hm].
    apply Hm in Hs as [->|[? _]]; done.
  - intros Hs. destruct (H2 s Hs) as (c & Hc & Hsc). exists (card_sessions c). split; [|done].
    apply list_elem_of_fmap. by exists c.
Qed.
End cards.
Lemma cards_exists db sessions (p : Session → bool) :
  pk_unique sessions →
  existsb (λ c, existsb p (card_sessions c)) (group_merged db sessions) = existsb p sessions.
Proof.
  intros Hu. destruct (cards_cover db sessions Hu) as [H1 H2]. apply eq_true_iff_eq.
  rewrite !existsb_elem. setoid_rewrite existsb_elem. split.
  - intros (c & Hc & s & Hs & Hp). destruct (H1 c Hc) as [Hr Hm]. exists s. split; [|done].
    by apply Hm in Hs as [-> |[? _]].
  - intros (s & Hs & Hp). destruct (H2 s Hs) as (c & Hc & Hcs). exists c. split; [done|]. by exists s.
Qed.
Lemma find_existsb {A} (p : A → bool) l : is_some (List.find p l) = existsb p l.
Proof. induction l as [|x l IH]; simpl; [done|]. by destruct (p x). Qed.

(** The home page leads with what the user should act on: a class in progress today, if
    there is one; else one still ahead today; else the first of the days that follow.
    It says nothing only when the user has no class left in the week. *)
Theorem home_exact db user now t :
  pk_unique (db_sessions db) → select is_active_term (db_terms db) = [t] →
  let today := PyTime.local_date now in
  let own s := s ∈ db_sessions db ∧ own_week t (usr_pk user) today db s = true in
  let underway s := own s ∧ ses_date s = today ∧ ses_status s = ACTIVE in
  let ahead s := own s ∧ ses_date s = today ∧ ses_status s = SCHEDULED ∧ now ≤ ses_sched_end s in
  wp (home user now) (λ r db', db' = db ∧ ∃ h, r = inr h ∧
    (hm_live h = true ↔ ∃ s, underway s) ∧
    (hm_live h = true → ∃ c s, hm_hero h = Some c ∧ s ∈ card_sessions c ∧ underway s) ∧
    (hm_live h = false → (∃ s, ahead s) → ∃ c s, hm_hero h = Some c ∧ s ∈ card_sessions c ∧ ahead s) ∧
    (hm_hero h = None → ∀ s, own s → ses_date s = today ∧ ses_status s ≠ ACTIVE ∧
       (ses_status s = SCHEDULED → ses_sched_end s < now))) db.
Proof.
  intros Hu Hact today own underway ahead. unfold home, faculty_cards. cbv zeta. wp_step. wp_step.
  apply wp_get_active_term; [|congruence|unfold one_active_term; rewrite Hact; simpl; lia].
  intros t' Ht'. replace t' with t by congruence. clear t' Ht'. wp_step. wp_step. wp_step.
  cbn [tbl table_Session]. wp_step. split; [done|]. eexists. split; [done|]. fold today.
  set (sessions := sort_by date_then_start (select (own_week t (usr_pk user) today db) (db_sessions db))).
  assert (∀ s, s ∈ sessions ↔ own s) as Hown.
  { intros s. unfold sessions, own. by rewrite elem_of_sort_by, elem_of_select. }
  assert (pk_unique sessions) as Hus.
  { unfold pk_unique, sessions. rewrite (sort_by_perm date_then_start). by apply NoDup_fmap_select. }
  set (td := select (λ s, ses_date s =? today) sessions).
  set (up := select (λ s, negb (ses_date s =? today)) sessions).
  assert (pk_unique td ∧ pk_unique up) as [Htd Hup] by (split; by apply NoDup_fmap_select).
  assert (∀ s, s ∈ td ↔ own s ∧ ses_date s = today) as Etd
    by (intros s; unfold td; by rewrite elem_of_select, Hown, Z.eqb_eq).
  assert (∀ p, existsb p td = true ↔ ∃ s, own s ∧ ses_date s = today ∧ p s = true) as Hex.
  { intros p. rewrite existsb_elem. setoid_rewrite Etd. naive_solver. }
  assert (∀ p c, List.find (λ c, existsb p (card_sessions c)) (group_merged db td) = Some c →
    ∃ s, s ∈ card_sessions c ∧ own s ∧ ses_date s = today ∧ p s = true) as Hfind.
  { intros p c [Hc Hp]%find_elem. apply existsb_elem in Hp as (s & Hs & Hp).
    destruct (cards_cover db td Htd) as [H1 _]. destruct (H1 c Hc) as [Hr Hm]. exists s. split; [done|].
    assert (s ∈ td) as [? ?]%Etd by by apply Hm in Hs as [-> |[? _]]. done. }
  assert (is_some (List.find is_active_card (group_merged db td)) = existsb (has_status ACTIVE) td) as Hlive.
  { rewrite find_existsb. by apply cards_exists. }
  assert (is_some (List.find (is_next_card now) (group_merged db td)) =
    existsb (λ s, has_status SCHEDULED s && (now <=? ses_sched_end s)) td) as Hnext.
  { rewrite find_existsb. by apply cards_exists. }
  assert (∀ s, own s → ses_date s ≠ today → group_merged db up ≠ []) as Hne.
  { intros s Hs Hd Hnil. destruct (cards_cover db up Hup) as [_ H2].
    destruct (H2 s) as (c & Hc & _); [|rewrite Hnil in Hc; by apply not_elem_of_nil in Hc].
    unfold up. rewrite elem_of_select, Hown, negb_true_iff, Z.eqb_neq. done. }
  unfold home_of. cbn [fst snd hm_live hm_hero]. rewrite Hlive. split_and!.
  - rewrite Hex. unfold underway, has_status. setoid_rewrite bd_true. done.
  - rewrite <- Hlive. destruct (List.find is_active_card _) as [c|] eqn:E; [|done]. intros _.
    destruct (Hfind _ c E) as (s & Hs & Ho & Hd & Hp). exists c, s. unfold has_status in Hp. b2p. done.
  - rewrite <- Hlive. destruct (List.find is_active_card _) as [c|]; [done|]. intros _ (s & Ho & Hd & Hst & Hend).
    assert (existsb (λ s, has_status SCHEDULED s && (now <=? ses_sched_end s)) td = true) as Ha.
    { apply Hex. exists s. unfold has_status. rewrite bool_decide_true by done. split_and!; try done. b2p. lia. }
    rewrite <- Hnext in Ha. destruct (List.find (is_next_card now) _) as [c|] eqn:E; [|done].
    destruct (Hfind _ c E) as (s' & Hs' & Ho' & Hd' & Hp'). exists c, s'. unfold has_status in Hp'. b2p. done.
  - destruct (List.find is_active_card _) as [c|]; [done|]. destruct (List.find (is_next_card now) _) as [c|]; [done|].
    intros Hh s Hs. simpl in Hlive, Hnext. symmetry in Hlive, Hnext.
    rewrite <- not_true_iff_false, Hex in Hlive, Hnext.
    destruct (decide (ses_date s = today)) as [Hd|Hd].
    2:{ exfalso. apply (Hne s Hs Hd). by destruct (group_merged db up). }
    split_and!; [done| |].
    + intros Ha. apply Hlive. exists s. unfold has_status. by rewrite bool_decide_true.
    + intros Hsc. destruct (Z.ltb_spec (ses_sched_end s) now); [done|]. exfalso. apply Hnext.
      exists s. unfold has_status. rewrite bool_decide_true by done. split_and!; try done. b2p. lia.
Qed.

(** ** The modality-shift form *)
Section shift_form.
Context {AV : RoomAvailability}.
(** The framework's parsers: [None] when the text has the shape of a date or a time but
    names none (it raises [ValueError]), [Some None] when it has another shape. *)
Variables (parse_date parse_time : string → option (option Z)).
Definition parsed (o : option (option Z)) : M (option Z) := of_option ValueErr o.

Definition ERROR_COPY : dict string string := [
  ("no in-window sessions to shift", "None of those classes meet again inside that window. Try more weeks, or pick a date when the class actually meets.");
  ("request is past the lead-time cutoff", "That is too soon. Shift requests need a couple of days' notice, so pick a later date or a longer window.");
  ("no schedules selected", "Select at least one class.");
  ("invalid target modality", "Choose what to shift the class to.");
  ("window start is after window end", "That date range runs backwards. Check the dates.");
  ("no Dean assigned - contact IFO", "Your department has no Dean assigned right now, so there is nobody to approve this. Contact the IFO and they can fix it.");
  ("a time-move must be bundled with a F2F or Blended shift", "A new time only applies to a Face-to-face or Blended class. Clear the times, or shift to Face-to-face or Blended instead.");
  ("the new time double-books the requesting faculty", "You already teach another class at that time. Pick a different slot.")]%string.
Definition STEP1_ERRORS : list string :=
  ["Select at least one class."; "Invalid class selection."; "One or more selected classes are not yours."]%string.
Definition friendly_error (message : string) : string := dict_getd ERROR_COPY message message.
Definition error_step (message : string) : Z := if bool_decide (message ∈ STEP1_ERRORS) then 1 else 2.

Definition MAX_WEEKS : Z := 16.
(** The error that ends a form, or its value *)
Abbreviation checked A := (string + A)%type.
Definition then_ {A B} (m : M (checked A)) (k : A → M (checked B)) : M (checked B) :=
  m ≫= λ r, match r with inl e => mret (inl e) | inr a => k a end.
Definition form_check (error : option string) : M (checked unit) :=
  mret (match error with Some e => inl e | None => inr () end).

(** The window of the form: a single date, or a number of weeks *)
Definition form_window (q : form) (now : Z) : M (checked (Z * Z)) :=
  let mode := PyStr.strip (let m := dict_getd q "window_mode" ""%string in
                           if blank m then "weeks"%string else m) in
  let weeks_raw := post q "weeks" in
  if bool_decide (mode = "single"%string) then
    parsed (parse_date (post q "on_date")) ≫= λ on_date,
    mret (match on_date with
          | None => inl "Pick a valid date for the single session."%string
          | Some d => inr (d, d)
          end)
  else if negb (PyStr.isdigit weeks_raw)
          || negb ((1 <=? digits weeks_raw) && (digits weeks_raw <=? MAX_WEEKS)) then
    mret (inl ("Choose how many weeks (1 to " +:+ PyStr.str MAX_WEEKS +:+ ").")%string)
  else inr <$> weeks_window (digits weeks_raw) now.
(** The new times, both or neither *)
Definition form_times (q : form) : M (checked (option (Z * Z))) :=
  let nst_raw := post q "new_start_time" in
  let net_raw := post q "new_end_time" in
  if blank nst_raw && blank net_raw then mret (inr None)
  else
    parsed (parse_time nst_raw) ≫= λ a,
    match a with
    | None => mret (inl "Enter a valid alternative start and end time."%string)
    | Some a =>
        parsed (parse_time net_raw) ≫= λ b,
        mret (match b with
              | None => inl "Enter a valid alternative start and end time."%string
              | Some b => inr (if negb (blank nst_raw) && negb (blank net_raw) then Some (a, b) else None)
              end)
    end.
(** The user's own active classes among the posted ones *)
Definition own_schedule (user : Z) (ids : list Z) (sch : Schedule) : bool :=
  mem_pk ids sch && (sch_faculty sch =? user) && bool_decide (sch_status sch = SCH_ACTIVE).
Definition form_schedules (user : Z) (schedule_ids : list string) : M (checked (list Schedule)) :=
  objects (own_schedule user (digits <$> schedule_ids)) ≫= λ schedules,
  mret (if bool_decide (length schedules = length (remove_dups schedule_ids))
        then inr schedules else inl "One or more selected classes are not yours."%string).
(** A preferred room per class: the posted key, when it is one of a room *)
Definition preferred_key (sch : Schedule) : string := "preferred_room_" +:+ PyStr.str (sch_pk sch).
Fixpoint form_rooms (q : form) (schedules : list Schedule) (acc : dict Z Z) : M (checked (dict Z Z)) :=
  match schedules with
  | [] => mret (inr acc)
  | sch :: rest =>
      let rk := post q (preferred_key sch) in
      if blank rk then form_rooms q rest acc
      else if negb (PyStr.isdigit rk) then mret (inl "Invalid room selection."%string)
      else
        first (R:=Room) (λ r, room_pk r =? digits rk) ≫= λ room,
        form_rooms q rest (match room with
                           | Some r => dict_set acc (sch_pk sch) (room_pk r)
                           | None => acc
                           end)
  end.
Definition target_error (q : form) (schedule_ids : list string) : option string :=
  ladder
    [(is_none (modality_of (dict_getd q "target_modality" ""%string)), "Select a valid target modality.");
     (bool_decide (schedule_ids = []), "Select at least one class.");
     (negb (forallb PyStr.isdigit schedule_ids), "Invalid class selection.")]%string.
Definition submit_form (user : User) (q : form) (schedule_ids : list string) (now : Z)
    : M (checked unit) :=
  then_ (form_check (target_error q schedule_ids)) (λ _,
  then_ (form_window q now) (λ window,
  then_ (form_times q) (λ time_move,
  then_ (form_schedules (usr_pk user) schedule_ids) (λ schedules,
  then_ (form_rooms q schedules []) (λ preferred,
  try_with
    (submit_modality_shift user schedules (dict_getd q "target_modality" ""%string)
       window.1 window.2 preferred time_move now ≫= λ _, mret (inr ()))
    (λ e, match e with ModalityShiftError msg => Some (mret (inl msg)) | _ => None end)))))).
Definition modality_new (user : User) (q : form) (schedule_ids : list string) (now : Z) : M response :=
  faculty_required user (
  submit_form user q schedule_ids now ≫= λ r,
  mret (match r with
        | inl error => BadRequest (friendly_error error)
        | inr _ => Redirect "faculty_modality_mine" "" ""
        end)).

(** ** Withdrawal, and the list of one's requests *)
Definition modality_mine (user : User) : M (list ModalityShiftRequest) :=
  objects (λ r, req_requester r =? usr_pk user).
Definition modality_withdraw (user : User) (k : Z) : M response :=
  faculty_required user (
  get_or_404 (R:=ModalityShiftRequest) (λ r, req_pk r =? k) (λ r,
  try_with (withdraw_modality_shift (req_pk r) user ≫= λ _, mret (Page ""))
    (λ e, match e with ModalityShiftError msg => Some (mret (BadRequest msg)) | _ => None end))).

(** ** The rows of the form, and the rooms of its second step *)
Record FormRow := mk_form_row { fr_schedule : Schedule; fr_picked : bool; fr_preferred : string }.
Definition day_then_start (a b : Schedule) : bool :=
  if sch_day a =? sch_day b then sch_start a <=? sch_start b else sch_day a <? sch_day b.
Definition active_own (user : Z) (t : AcademicTerm) (sch : Schedule) : bool :=
  (sch_faculty sch =? user) && bool_decide (sch_status sch = SCH_ACTIVE) && (sch_term sch =? term_pk t).
Definition modality_rows (user : User) (q : form) (picked : list string) : M (list FormRow) :=
  get_active_term ≫= λ term,
  match term with
  | None => mret []
  | Some t =>
      objects (active_own (usr_pk user) t) ≫= λ schedules,
      mret ((λ sch, mk_form_row sch (bool_decide (PyStr.str (sch_pk sch) ∈ picked))
                      (dict_getd q (preferred_key sch) ""%string))
              <$> sort_by day_then_start schedules)
  end.
Record RoomsRow := mk_rooms_row {
  rr_schedule : Schedule;
  rr_next : option Session;
  rr_rooms : list Room;
  rr_times : list (Z * Z);
  rr_preferred : string
}.
Definition next_session (db : DB) (sch today : Z) : option Session :=
  head (sort_by date_then_start
    (select (λ s, (ses_schedule s =? sch) && (today <=? ses_date s) && occupying_status s) (db_sessions db))).
Definition rooms_row (db : DB) (q : form) (today : Z) (sch : Schedule) : RoomsRow :=
  let nxt := next_session db (sch_pk sch) today in
  mk_rooms_row sch nxt
    (match nxt with Some s => default [] (available_rooms_for db s) | None => [] end)
    (match nxt with
     | Some s => default [] (available_times_for (S (day_slots (ses_sched_end s - ses_sched_start s))) db s)
     | None => []
     end)
    (dict_getd q ("pref_" +:+ PyStr.str (sch_pk sch)) ""%string).
Definition modality_rooms (user : User) (q : form) (now : Z) : M (list RoomsRow) :=
  let ids := List.filter PyStr.isdigit
               (PyStr.strip <$> PyStr.split ","%char (dict_getd q "schedules" ""%string)) in
  match ids with
  | [] => mret []
  | _ =>
      get_active_term ≫= λ term,
      objects (λ sch, mem_pk (digits <$> ids) sch && match term with
                      | Some t => active_own (usr_pk user) t sch | None => false end) ≫= λ schedules,
      read (λ db, rooms_row db q (PyTime.local_date now) <$> sort_by day_then_start schedules)
  end.

(** *** What the form submits *)
Lemma wp_then {A B} (m : M (checked A)) (k : A → M (checked B)) (Q : exn + checked B → DB → Prop) db :
  wp m (λ r db', match r with
                 | inl e => Q (inl e) db'
                 | inr (inl er) => Q (inr (inl er)) db'
                 | inr (inr a) => wp (k a) Q db' end) db →
  wp (then_ m k) Q db.
Proof using.
  intros H. apply wp_bind. eapply wp_mono; [exact H|]. intros [e|[er|a]] db' H'; [done|by apply wp_ret|done].
Qed.

(** The single date of the form, or a number of weeks from the day after the lead time *)
Definition window_chosen (db : DB) (q : form) (now a b : Z) : Prop :=
  (parse_date (post q "on_date") = Some (Some a) ∧ b = a) ∨
  ∃ n lead, 1 ≤ n ≤ MAX_WEEKS ∧ policy_num db "modality_shift_lead_days" = Some lead ∧
    a = PyTime.local_date now + (lead + 1) ∧ b = a + (7 * n - 1).
Lemma form_window_wp db q now :
  wp (form_window q now) (λ r db', db' = db ∧ ∀ a b, r = inr (inr (a, b)) → window_chosen db q now a b) db.
Proof using.
  unfold form_window. cbv zeta. case_bool_decide.
  - wp_step. unfold parsed. wp_step; [|by split]. wp_step. split; [done|]. intros x y Hxy.
    destruct a as [d|]; [|done]. injection Hxy as <- <-. by left.
  - destruct (negb (PyStr.isdigit (post q "weeks")) || _) eqn:E; [by wp_step; split|].
    rewrite orb_false_iff, !negb_false_iff in E. b2p. destruct E as [_ Hn]. unfold weeks_window.
    wp_step. wp_step. apply wp_policy_num; [|by intros e _]. intros lead Hl. wp_step. split; [done|].
    intros a b [= <- <-]. right. exists (digits (post q "weeks")), lead. split_and!; try done; lia.
Qed.
Lemma form_times_wp db q :
  wp (form_times q) (λ r db', db' = db ∧ ∀ x y, r = inr (inr (Some (x, y))) →
    parse_time (post q "new_start_time") = Some (Some x) ∧
    parse_time (post q "new_end_time") = Some (Some y)) db.
Proof using.
  unfold form_times. cbv zeta. destruct (blank _ && blank _); [by wp_step|]. unfold parsed.
  wp_step. wp_step; [|by split]. destruct a as [a|]; [|by wp_step]. wp_step. wp_step; [|by split].
  wp_step. split; [done|]. intros x y Hxy. destruct a0 as [b|]; [|done].
  destruct (negb _ && negb _); [|done]. by injection Hxy as <- <-.
Qed.
(** Each preference is a room of the campus for one of the classes. *)
Definition preferences (db : DB) (schedules : list Schedule) (pref : dict Z Z) : Prop :=
  ∀ k r, dict_get pref k = Some r → (∃ sch, sch ∈ schedules ∧ sch_pk sch = k) ∧
    ∃ room, room ∈ db_rooms db ∧ room_pk room = r.
Lemma form_rooms_wp db q all l acc :
  preferences db all acc → l ⊆ all →
  wp (form_rooms q l acc) (λ r db', db' = db ∧ ∀ pref, r = inr (inr pref) → preferences db all pref) db.
Proof using.
  revert acc. induction l as [|sch l IH]; intros acc Hacc Hl; cbn [form_rooms].
  - wp_step. split; [done|]. by intros pref [= <-].
  - assert (l ⊆ all ∧ sch ∈ all) as [Hl' Hs] by set_solver. cbv zeta.
    destruct (blank _); [by apply IH|]. destruct (negb _); [by wp_step|]. wp_step. wp_step.
    cbn [tbl table_Room]. apply IH; [|done]. destruct (List.find _ _) as [room|] eqn:E; [|done].
    apply find_elem in E as [Hr _]. intros k r. rewrite dict_get_set. case_bool_decide as Hk; [|by apply Hacc].
    intros [= <-]. split; [by exists sch|by exists room].
Qed.
(** The classes of the form: the user's own, still running, one per posted key *)
Definition classes_chosen (db : DB) (user : User) (ids : list string) (schedules : list Schedule) : Prop :=
  sublist schedules (db_schedules db) ∧
  (∀ sch, sch ∈ schedules ↔ sch ∈ db_schedules db ∧ sch_faculty sch = usr_pk user ∧
     sch_status sch = SCH_ACTIVE ∧ sch_pk sch ∈ digits <$> ids) ∧
  ids ≠ [] ∧ length schedules = length (remove_dups ids).
Definition submitted (db db' : DB) (user : User) (q : form) (ids : list string) (now : Z) : Prop :=
  ∃ schedules a b pref move target dean,
    classes_chosen db user ids schedules ∧ window_chosen db q now a b ∧ preferences db schedules pref ∧
    (∀ x y, move = Some (x, y) → parse_time (post q "new_start_time") = Some (Some x) ∧
                                 parse_time (post q "new_end_time") = Some (Some y)) ∧
    submittable db user schedules (dict_getd q "target_modality" ""%string) a b move now target dean ∧
    let r := new_request user dean target a b (is_some move) (fresh_pk (db_requests db)) in
    logs_only (db <| db_requests := db_requests db ++ [r] |>
                  <| db_items := db_items db ++ submitted_items db (req_pk r) schedules a b pref move |>) db'.
Lemma submit_form_wp db user q ids now :
  wp (submit_form user q ids now) (λ r db', match r with
    | inr (inr _) => submitted db db' user q ids now
    | _ => db' = db end) db.
Proof using.
  unfold submit_form. apply wp_then. unfold form_check. wp_step.
  destruct (target_error q ids) as [e|] eqn:Et; [done|].
  pose proof (proj1 (ladder_passes _) Et) as Et'. clear Et. rename Et' into Et.
  assert (ids ≠ []) as Hids.
  { intros ->. assert (true = false) as H; [|done]. apply (Et (true, "Select at least one class."%string)). right. left. }
  apply wp_then. eapply wp_mono; [apply form_window_wp|]. intros [e|[er|[a b]]] db1 [-> Hw]; [done..|].
  specialize (Hw a b eq_refl). apply wp_then. eapply wp_mono; [apply form_times_wp|].
  intros [e|[er|move]] db1 [-> Hm]; [done..|].
  apply wp_then. unfold form_schedules. wp_step. wp_step. cbn [tbl table_Schedule]. wp_step.
  clear Et. case_bool_decide as Hlen; [|done]. set (schedules := select _ (db_schedules db)) in *.
  apply wp_then. eapply wp_mono; [apply (form_rooms_wp db q schedules schedules []); [|done]|].
  { by intros k r ?%dict_get_elem%not_elem_of_nil. }
  intros [e|[er|pref]] db1 [-> Hp]; [done..|]. specialize (Hp pref eq_refl).
  wp_step. wp_step. cbn [fst snd]. apply submit_wp.
  - intros target dean Hok rq db' Hl. wp_step.
    assert (classes_chosen db user ids schedules) as Hc.
    { split_and!; [apply select_sublist| |done|done]. intros sch. unfold schedules.
      rewrite elem_of_select. unfold own_schedule, mem_pk. b2p. tauto. }
    exists schedules, a, b, pref, move, target, dean. split_and!; try done.
    intros x y ->. by apply Hm.
  - intros e Hno. cbv beta iota. destruct e; try done.
Qed.
End shift_form.

(** C21: whatever is posted, a shift request is filed only for classes of the user's own
    that are running, each posted class once, over a window the page derived itself (one
    date, or at most sixteen weeks from the lead time on), with rooms of the campus as mere
    preferences, and only when the service accepts it.  Every other submission, forged
    keys and malformed fields included, leaves the database as it was and never reports a
    success. *)
Theorem modality_new_exact {AV : RoomAvailability} parse_date parse_time db user q ids now :
  wp (modality_new parse_date parse_time user q ids now) (λ res db',
    (res = inr (Redirect "faculty_modality_mine" "" "") ∧ plays FACULTY user ∧
     submitted parse_date parse_time db db' user q ids now) ∨
    ((res = inr Forbidden ∨ (∃ e, res = inr (BadRequest e)) ∨ ∃ e, res = inl e) ∧ db' = db)) db.
Proof.
  unfold modality_new, faculty_required, role_required.
  destruct (bool_decide (usr_role user ≠ FACULTY) && negb (usr_superuser user)) eqn:Er.
  { wp_step. right. split; [by left|done]. }
  apply role_plays in Er. wp_step. eapply wp_mono; [apply submit_form_wp|].
  intros [e|[er|[]]] db' H.
  - right. split; [right; right; by exists e|done].
  - wp_step. right. split; [right; left; by eexists|done].
  - wp_step. by left.
Qed.

(** ** The history of one's attendance *)
Definition FACULTY_FLAG_ACTIONS : list ValidationAction := [FLAG_IDENTITY_MISMATCH; FLAG_NOT_PRESENT].
Record HistoryRow := mk_history { hs_session : Session; hs_verified : bool; hs_flagged : bool }.
Definition flagged (db : DB) (s : Session) : bool :=
  existsb (λ v, bool_decide (val_session v = Some (ses_pk s))
                && bool_decide (val_action v ∈ FACULTY_FLAG_ACTIONS)) (db_validations db).
Definition newest_session (a b : Session) : bool :=
  if ses_date a =? ses_date b then ses_sched_start b <=? ses_sched_start a else ses_date b <? ses_date a.
Record HistoryFilters := mk_filters {
  hf_term : option Z; hf_from : option Z; hf_to : option Z; hf_note : bool
}.
(** A bound that is no date is dropped, and the page says so. *)
Definition bound (parse_date : string → option (option Z)) (raw : string) : M (option Z) :=
  if blank raw then mret None else parsed (parse_date raw).
Definition history_filters (parse_date : string → option (option Z)) (q : form) : M HistoryFilters :=
  let term_raw := post q "term" in
  let from_raw := post q "from" in
  let to_raw := post q "to" in
  bound parse_date from_raw ≫= λ d_from,
  bound parse_date to_raw ≫= λ d_to,
  mret (mk_filters (if PyStr.isdigit term_raw then Some (digits term_raw) else None) d_from d_to
          ((negb (blank from_raw) && is_none d_from) || (negb (blank to_raw) && is_none d_to))).
Definition in_history (user : Z) (f : HistoryFilters) (db : DB) (s : Session) : bool :=
  (ses_faculty s =? user)
  && match hf_term f with Some t => in_term db t s | None => true end
  && match hf_from f with Some d => d <=? ses_date s | None => true end
  && match hf_to f with Some d => ses_date s <=? d | None => true end.
Definition history (parse_date : string → option (option Z)) (user : User) (q : form)
    : M (list HistoryRow * bool) :=
  history_filters parse_date q ≫= λ f,
  objects_join (in_history (usr_pk user) f) ≫= λ sessions,
  read (λ db, ((λ s, mk_history s (verified_by_checker db s) (flagged db s))
                 <$> sort_by newest_session sessions, hf_note f)).

(** The history shows every session of the user's own and no other's, whatever filter is
    asked for: a filter only narrows it.  A row is flagged exactly when a checker
    recorded a flag against it; finding the room empty is not one. *)
Theorem history_own parse_date user q db :
  wp (history parse_date user q) (λ res db', db' = db ∧ match res with
    | inl e => e = ValueErr
    | inr (rows, _) =>
        (∀ r, r ∈ rows → hs_session r ∈ db_sessions db ∧ ses_faculty (hs_session r) = usr_pk user ∧
           (hs_verified r = true ↔ ∃ v, v ∈ db_validations db ∧
              val_session v = Some (ses_pk (hs_session r)) ∧ val_action v = VERIFIED) ∧
           (hs_flagged r = true ↔ ∃ v, v ∈ db_validations db ∧
              val_session v = Some (ses_pk (hs_session r)) ∧
              (val_action v = FLAG_IDENTITY_MISMATCH ∨ val_action v = FLAG_NOT_PRESENT))) ∧
        (post q "term" = "" → post q "from" = "" → post q "to" = "" →
           ∀ s, s ∈ db_sessions db → ses_faculty s = usr_pk user → s ∈ hs_session <$> rows)%string
    end) db.
Proof.
  assert (∀ raw, wp (bound parse_date raw) (λ r db', db' = db ∧ match r with
    | inl e => e = ValueErr | inr d => raw = ""%string → d = None end) db) as Hb.
  { intros raw. unfold bound, blank, parsed. case_bool_decide; [by wp_step|].
    by wp_step. }
  unfold history, history_filters. cbv zeta. wp_step. wp_step.
  eapply wp_mono; [apply Hb|]. intros [e|d1] db1 [-> H1]; [done|]. wp_step.
  eapply wp_mono; [apply Hb|]. intros [e|d2] db1 [-> H2]; [done|]. wp_step. wp_step. wp_step. wp_step.
  cbn [tbl table_Session]. split; [done|]. split.
  - intros r Hr. apply list_elem_of_fmap in Hr as (s & -> & Hs). cbn [hs_session hs_verified hs_flagged].
    rewrite elem_of_sort_by, elem_of_select in Hs. destruct Hs as [Hs Hp]. unfold in_history in Hp. b2p.
    split_and!; [done|tauto| |].
    + unfold verified_by_checker. rewrite existsb_elem. by setoid_rewrite andb_true_iff; setoid_rewrite bd_true.
    + unfold flagged. rewrite existsb_elem. setoid_rewrite andb_true_iff. setoid_rewrite bd_true.
      unfold FACULTY_FLAG_ACTIONS. apply exist_proper. intros v. set_solver.
  - intros Ht Hf Hto s Hs Hown. rewrite <- list_fmap_compose. apply list_elem_of_fmap. exists s.
    split; [done|]. rewrite elem_of_sort_by, elem_of_select. split; [done|]. unfold in_history.
    cbn [hf_term hf_from hf_to]. rewrite Ht, (H1 Hf), (H2 Hto). simpl. b2p. done.
Qed.

(** ** Witnesses *)

(** The class of today is held online; its user is Ana. *)
Definition demo_ana : User := demo_user 1 "Ana" FACULTY.
Definition demo_online : DB := demo_db <| db_sessions :=
  [(demo_session 1 monday SCHEDULED) <| ses_declared := Some ONLINE |>; demo_session 2 (monday + 7) SCHEDULED] |>.
Definition demo_link : form := [("teams_link", " https://teams.microsoft.com/l/meetup-join/1 ")]%string.
Lemma online_start_exact_witness :
  let ok := startable (λ _, true) demo_online demo_ana demo_link (at_ 9 5) 15 demo_term in
  wp (online_start (λ _, true) demo_ana 1 demo_link (at_ 9 5)) (λ res db',
    (∃ s p, ok s ∧ ses_pk s = 1 ∧ res = inr (Page "active") ∧
       (∀ x, p x = true ↔ sibling demo_online s 1 x ∧ ses_status x = SCHEDULED) ∧
       logs_only (demo_online <| db_sessions := update_where p (fill_present (at_ 9 5))
         (update_pk 1 (start_online (post demo_link "teams_link") (at_ 9 5)) (db_sessions demo_online)) |>) db') ∨
    ((∀ s, ok s → ses_pk s ≠ 1) ∧ db' = demo_online ∧
     ((¬ plays FACULTY demo_ana ∧ res = inr Forbidden) ∨
      ((∀ s, s ∈ db_sessions demo_online → ses_pk s = 1 → ses_faculty s = usr_pk demo_ana →
          session_term demo_online s ≠ Some 1) ∧ res = inr NotFound) ∨
      ∃ e, res = inr (BadRequest e)))) demo_online ∧
  run (online_start (λ _, true) demo_ana 1 demo_link (at_ 9 5)) demo_online = inr (Page "active") ∧
  run (online_start (λ _, true) demo_ana 1 demo_link (at_ 9 16)) demo_online =
    inr (BadRequest "Start is past the 15-minute grace window for this class, so it can no longer be started here.").
Proof.
  split; [|split; vm_compute; reflexivity].
  apply (online_start_exact (λ _, true) demo_online demo_ana 1 demo_link (at_ 9 5) 15 demo_term);
    try reflexivity; decide_now.
Defined.
Lemma start_offer_exact_witness :
  let s := (demo_session 1 monday CANCELLED) <| ses_declared := Some ONLINE |> in
  let db := demo_online <| db_sessions := [s] |> in
  (or_can_start (online_row s (at_ 9 5) 15) = true ↔
     startable (λ _, true) db demo_ana demo_link (at_ 9 5) 15 demo_term s ∨
     (ses_status s = CANCELLED ∧ at_ 9 5 ≤ ses_sched_start s + PyTime.minutes 15)) ∧
  or_can_start (online_row s (at_ 9 5) 15) = true ∧
  run (online_start (λ _, true) demo_ana 1 demo_link (at_ 9 5)) db =
    inr (BadRequest "This class is already finished.").
Proof.
  intros s db. split; [|split; vm_compute; reflexivity].
  apply (start_offer_exact (λ _, true) db demo_ana demo_link (at_ 9 5) 15 demo_term s); try reflexivity;
    [by left|left].
Defined.
Lemma home_exact_witness :
  (let own s := s ∈ db_sessions demo_online ∧ own_week demo_term (usr_pk demo_ana) monday demo_online s = true in
   let underway s := own s ∧ ses_date s = monday ∧ ses_status s = ACTIVE in
   let ahead s := own s ∧ ses_date s = monday ∧ ses_status s = SCHEDULED ∧ at_ 9 5 ≤ ses_sched_end s in
   wp (home demo_ana (at_ 9 5)) (λ r db', db' = demo_online ∧ ∃ h, r = inr h ∧
     (hm_live h = true ↔ ∃ s, underway s) ∧
     (hm_live h = true → ∃ c s, hm_hero h = Some c ∧ s ∈ card_sessions c ∧ underway s) ∧
     (hm_live h = false → (∃ s, ahead s) → ∃ c s, hm_hero h = Some c ∧ s ∈ card_sessions c ∧ ahead s) ∧
     (hm_hero h = None → ∀ s, own s → ses_date s = monday ∧ ses_status s ≠ ACTIVE ∧
        (ses_status s = SCHEDULED → ses_sched_end s < at_ 9 5))) demo_online) ∧
  (h ← match run (home demo_ana (at_ 9 5)) demo_online with inr h => Some h | inl _ => None end;
   ses_pk ∘ card_rep <$> hm_hero h) = Some 1.
Proof.
  split; [|vm_compute; reflexivity].
  apply (home_exact demo_online demo_ana (at_ 9 5) demo_term); [decide_now|reflexivity].
Defined.
(** Two sections in one room and two of one course: three classes on two cards, the one in
    the middle on both. *)
Definition demo_chain : DB := demo_db <| db_schedules := [demo_schedule;
    demo_schedule <| sch_pk := 2 |> <| sch_course_code := "CS102" |>;
    demo_schedule <| sch_pk := 3 |> <| sch_course_code := "CS102" |> <| sch_room := 2 |>] |>
  <| db_sessions := [demo_session 1 monday SCHEDULED; (demo_session 2 monday SCHEDULED) <| ses_schedule := 2 |>;
    (demo_session 3 monday SCHEDULED) <| ses_schedule := 3 |> <| ses_room := 2 |>] |>.
Example chained_cards :
  (λ c, ses_pk <$> card_sessions c) <$> group_merged demo_chain (db_sessions demo_chain) = [[1; 2]; [3; 2]] ∧
  zsum (card_students <$> group_merged demo_chain (db_sessions demo_chain)) = 120.
Proof. split; vm_compute; reflexivity. Qed.
