(* ===== verification/Dean.v ===== *)
(** web/dean.py: a dean's queue of modality-shift requests and the two decisions.  The
    decision itself is the service's (Modality.v); the page adds the role, the 404 and the
    message.  Reports and exports are rendering of Reporting.v. *)
From S2P Require Import Prelude Python Model Effects Ops Sample Availability Modality Web.
From Stdlib Require Import String.
From stdpp Require Import strings.
Open Scope Z_scope.

Definition dean_required (user : User) (view : M response) : M response :=
  role_required DEAN user view.

Section pages.
Context {AV : RoomAvailability}.

(** The pending requests of the dean's own department *)
Definition queue (user : User) : M (list ModalityShiftRequest) :=
  objects (λ r, bool_decide (req_status r = R_PENDING)
                && bool_decide (req_department r = usr_department user)).
Definition refused_as_text (m : M response) : M response :=
  try_with m (λ e, match e with ModalityShiftError msg => Some (mret (BadRequest msg)) | _ => None end).
Definition approve (user : User) (k now : Z) : M response :=
  dean_required user (
  get_or_404 (R:=ModalityShiftRequest) (λ r, req_pk r =? k) (λ r,
  refused_as_text (
    apply_approval (req_pk r) user now ≫= λ result,
    mret (Page (if bool_decide (req_status result = R_DENIED)
                then if blank (req_reason result) then "No room available that day - request denied."%string
                     else req_reason result
                else "Request approved."%string))))).
Definition reject (user : User) (k : Z) (q : form) (now : Z) : M response :=
  dean_required user (
  get_or_404 (R:=ModalityShiftRequest) (λ r, req_pk r =? k) (λ r,
  let reason := post q "reason" in
  if blank reason then mret (BadRequest "A reason is required to reject a request.")
  else refused_as_text (
    reject_modality_shift (req_pk r) user reason now ≫= λ _, mret (Page "Request rejected.")))).

(** ** Whose decision it is *)

(** The request is pending and routed to this dean. *)
Definition decidable (db : DB) (dean : User) (k : Z) : Prop :=
  ∃ r, by_pk (db_requests db) k = Some r ∧ usr_role dean = DEAN ∧
    req_department r = usr_department dean ∧ req_status r = R_PENDING.
Lemma gated_wp {A} (body : ModalityShiftRequest → M A) k dean msg1 msg2 db :
  wp (atomic (
        get_pk (R:=ModalityShiftRequest) k ≫= λ req,
        single_term_id_for_request k ≫= λ t,
        lock_writable_term t ≫= λ _,
        guard_m (routed_dean dean req) (ModalityShiftError msg1) ≫= λ _,
        guard_m (bool_decide (req_status req = R_PENDING)) (ModalityShiftError msg2) ≫= λ _,
        body req))
    (λ r db', match r with inl _ => db' = db | inr _ => decidable db dean k end) db.
Proof using.
  wp_step. wp_step. apply wp_get_pk; [intros r Hr|by intros _]. cbn [tbl table_ModalityShiftRequest] in Hr.
  apply wp_term_gate_any; [|done]. wp_step. wp_step; [|done]. wp_step. wp_step; [|done].
  apply wp_any. intros [e|a] db'; [done|]. exists r. unfold routed_dean in *. b2p. naive_solver.
Qed.
Lemma refused_wp m (P : Prop) db :
  wp m (λ r db', match r with inl _ => db' = db | inr _ => P end) db →
  wp (refused_as_text m) (λ r db', db' = db ∨ P) db.
Proof using.
  intros H. apply wp_try. eapply wp_mono; [exact H|]. intros [e|a] db' H'; [|by right].
  subst. destruct e; by left.
Qed.
End pages.

(** C22: A page of a dean changes nothing unless it decides a pending request routed to that
    very dean's department, and a rejection without a reason decides nothing: the queue
    lists exactly those requests. *)
Theorem dean_decides_own {AV : RoomAvailability} db user k q now :
  wp (approve user k now) (λ _ db', db' = db ∨ decidable db user k) db ∧
  wp (reject user k q now) (λ _ db', db' = db ∨ (decidable db user k ∧ post q "reason" ≠ ""%string)) db ∧
  (usr_role user = DEAN → pk_unique (db_requests db) → ∃ rows, run (queue user) db = inr rows ∧
     ∀ r, r ∈ rows ↔ r ∈ db_requests db ∧ decidable db user (req_pk r)).
Proof.
  split_and!.
  - unfold approve, dean_required. apply wp_role; [by left|]. apply wp_get_or_404; [by left|].
    intros r _ Hk. apply Z.eqb_eq in Hk. rewrite Hk. apply refused_wp. wp_step.
    eapply wp_mono; [apply gated_wp|]. intros [e|a] db' H; [done|]. by wp_step.
  - unfold reject, dean_required. apply wp_role; [by left|]. apply wp_get_or_404; [by left|].
    intros r _ Hk. apply Z.eqb_eq in Hk. rewrite Hk. cbv zeta. unfold blank. case_bool_decide; [wp_step; by left|].
    apply refused_wp. wp_step. eapply wp_mono; [apply gated_wp|]. intros [e|a] db' Hd; [done|]. by wp_step.
  - intros Hr Hu. eexists. split; [reflexivity|]. intros r. rewrite elem_of_select. unfold decidable. split.
    + intros [Hin Hp]. b2p. split; [done|]. exists r. split; [by apply by_pk_unique|]. naive_solver.
    + intros [Hin (r' & Hr' & _ & Hd & Hst)]. split; [done|].
      rewrite (by_pk_unique _ (req_pk r) r Hu Hin eq_refl) in Hr'. injection Hr' as <-. by b2p.
Qed.
Lemma dean_decides_own_witness :
  let db := requested_db ONLINE [demo_session 1 monday SCHEDULED] in
  (∃ rows, run (queue demo_dean) db = inr rows ∧
     ∀ r, r ∈ rows ↔ r ∈ db_requests db ∧ decidable db demo_dean (req_pk r)) ∧
  run (approve demo_dean 1 (at_ 8 0)) db = inr (Page "Request approved.").
Proof.
  intros db. split; [|vm_compute; reflexivity].
  apply (dean_decides_own db demo_dean 1 [] (at_ 8 0)); [reflexivity|decide_now].
Defined.
