(* ===== verification/Reporting.v ===== *)
(** scheduling/reporting.py, the attendance aggregates: the weekly faculty rows, the
    department summary, the coverage by checkers, the scorecard and lateness.  They
    only read; each is a function of the database and of its keyword arguments
    ([Scope]).  A [Decimal] quantized to one place is held in tenths. *)
From S2P Require Import Prelude Python Model Effects Ops Sample.
Open Scope Z_scope.

(** ** Rounding

    [(Decimal(a) / Decimal(b)).quantize(Decimal("1"), rounding=ROUND_HALF_UP)] for
    [0 <= a] and [0 < b].  The quotient is exact here: [Decimal] keeps 28 digits,
    so a count below 10^20 never reaches a tie by its own rounding. *)
Definition round_half_up (a b : Z) : Z := (2 * a + b) / (2 * b).
Definition pct (held scheduled : Z) : Z :=
  if scheduled =? 0 then 0 else round_half_up (100 * held) scheduled.
Definition hours_pct (used_seconds available_seconds : Z) : Z :=
  if available_seconds <=? 0 then 0 else round_half_up (100 * used_seconds) available_seconds.
Definition hours (seconds : Z) : Z := round_half_up (10 * seconds) 3600.
Definition avg_minutes (total_seconds held_with_start : Z) : Z :=
  if held_with_start =? 0 then 0 else round_half_up (10 * total_seconds) (held_with_start * 60).

(** ** The sessions of a scope *)
Definition HELD_STATUSES : list SessionStatus := [ACTIVE; COMPLETED].
Definition is_held (s : Session) : bool := bool_decide (ses_status s ∈ HELD_STATUSES).
Record Scope := mk_scope {
  q_term : option Z;
  q_start : Z;
  q_end : Z;
  q_department : option Z;
  q_as_of : option Z;
  q_faculty : option Z
}.
Definition on_active_schedule (db : DB) (term : option Z) (s : Session) : bool :=
  match by_pk (db_schedules db) (ses_schedule s) with
  | Some sch => bool_decide (term = Some (sch_term sch)) && bool_decide (sch_status sch = SCH_ACTIVE)
  | None => false
  end.
Definition faculty_department (db : DB) (s : Session) : option Z :=
  u ← by_pk (db_users db) (ses_faculty s); usr_department u.
Definition in_sc (db : DB) (q : Scope) (s : Session) : bool :=
  (q_start q <=? ses_date s) && (ses_date s <=? q_end q) && on_active_schedule db (q_term q) s
  && match q_department q with
     | Some d => bool_decide (faculty_department db s = Some d) | None => true end
  && match q_faculty q with Some f => ses_faculty s =? f | None => true end
  && match q_as_of q with Some d => ses_date s <=? d | None => true end.
Definition scoped_sessions (db : DB) (q : Scope) : list Session :=
  select (in_sc db q) (db_sessions db).

(** [.values(key).annotate(...)]: the rows of each key *)
Definition group_by {K} `{!EqDecision K} (key : Session → K) (qs : list Session)
    : dict K (list Session) := dict_group key id qs.
(** [Count("id", filter=...)] *)
Definition count (p : Session → bool) (qs : list Session) : Z := Z.of_nat (length (select p qs)).
Definition all (s : Session) : bool := true.

(** ** Lateness *)
Definition session_minutes_late (scheduled_start : Z) (actual_start : option Z) : Z :=
  match actual_start with
  | None => 0
  | Some a => Z.max 0 (PyTime.int_seconds (a - scheduled_start))
  end.
Record Lateness := mk_late { late_seconds : Z; late_count : Z; late_held : Z }.
Definition started (s : Session) : bool := is_held s && is_some (ses_actual_start s).
Definition add_late (out : dict Z Lateness) (s : Session) : dict Z Lateness :=
  let secs := session_minutes_late (ses_sched_start s) (ses_actual_start s) in
  let l := dict_getd out (ses_faculty s) (mk_late 0 0 0) in
  dict_set out (ses_faculty s)
    (mk_late (late_seconds l + secs) (late_count l + (if 60 <=? secs then 1 else 0))
       (late_held l + 1)).
Definition lateness_map (qs : list Session) : dict Z Lateness :=
  foldl add_late [] (select started qs).
(** [held_ws >= 5 and late_ct / held_ws >= 0.30]; the quotient of two counts, as a
    float, is below 0.30 exactly when the counts say so. *)
Definition is_chronic (l : Lateness) : bool :=
  (5 <=? late_held l) && (3 * late_held l <=? 10 * late_count l).

(** ** Verified and absent sessions by faculty *)
Definition verified_map (db : DB) (qs : list Session) : dict Z Z :=
  (λ g, (g.1, count all g.2)) <$> group_by ses_faculty (select (verified_by_checker db) qs).
Record AbsenceItem := mk_absence { ab_course : string; ab_section : string; ab_date : Z }.
Definition absence_of (db : DB) (s : Session) : AbsenceItem :=
  match by_pk (db_schedules db) (ses_schedule s) with
  | Some sch => mk_absence (sch_course_code sch) (sch_section sch) (ses_date s)
  | None => mk_absence "" "" (ses_date s)
  end.
Definition by_date (a b : Session) : bool := ses_date a <=? ses_date b.
Definition absence_map (db : DB) (qs : list Session) : dict Z (list AbsenceItem) :=
  dict_group ses_faculty (absence_of db) (sort_by by_date (select (has_status ABSENT) qs)).

(** ** faculty_attendance and dept_summary *)
Record FacultyRow := mk_row {
  fr_faculty : Z;
  fr_name : string;
  fr_scheduled : Z;
  fr_held : Z;
  fr_absent : Z;
  fr_verified : Z;
  fr_pct : Z;
  fr_early_ends : Z;
  fr_absences : list AbsenceItem;
  fr_late_avg : Z;
  fr_late_sessions : Z;
  fr_chronic : bool
}.
Record DeptSummary := mk_dept {
  ds_faculty_count : Z;
  ds_scheduled : Z;
  ds_held : Z;
  ds_absent : Z;
  ds_pct : Z
}.
Definition name_of (db : DB) (f : Z) : string :=
  match by_pk (db_users db) f with Some u => usr_full_name u | None => "" end.

Section attendance.
(** The database's order of [(last_name, first_name)], which is its collation's. *)
Context (name_le : DB → Z → Z → bool).

Definition faculty_row (db : DB) (qs : list Session) (g : Z * list Session) : FacultyRow :=
  let fid := g.1 in
  let held := count is_held g.2 in
  let scheduled := count all g.2 in
  let late := dict_getd (lateness_map qs) fid (mk_late 0 0 0) in
  {| fr_faculty := fid; fr_name := name_of db fid; fr_scheduled := scheduled; fr_held := held;
     fr_absent := count (has_status ABSENT) g.2;
     fr_verified := dict_getd (verified_map db qs) fid 0;
     fr_pct := pct held scheduled; fr_early_ends := count ses_ended_early g.2;
     fr_absences := dict_getd (absence_map db qs) fid [];
     fr_late_avg := avg_minutes (late_seconds late) (late_held late);
     fr_late_sessions := late_count late; fr_chronic := is_chronic late |}.
Definition faculty_attendance (db : DB) (q : Scope) : list FacultyRow :=
  let qs := scoped_sessions db q in
  faculty_row db qs <$> sort_by (λ g h, name_le db g.1 h.1) (group_by ses_faculty qs).

Definition dept_summary (db : DB) (q : Scope) : DeptSummary :=
  let qs := scoped_sessions db q in
  let held := count is_held qs in
  let scheduled := count all qs in
  mk_dept (Z.of_nat (length (remove_dups (ses_faculty <$> qs)))) scheduled held
    (count (has_status ABSENT) qs) (pct held scheduled).
End attendance.

(** ** faculty_scorecard *)
Record Scorecard := mk_card {
  sc_faculty : Z;
  sc_name : string;
  sc_scheduled : Z;
  sc_held : Z;
  sc_absent : Z;
  sc_pct : Z;
  sc_early_ends : Z;
  sc_absences : list AbsenceItem;
  sc_modalities : dict (option Modality) Z;
  sc_late_avg : Z;
  sc_late_sessions : Z;
  sc_chronic : bool
}.
Definition modality_breakdown (db : DB) (qs : list Session) : dict (option Modality) Z :=
  (λ g, (g.1, count all g.2)) <$> group_by (effective_modality db) (select is_held qs).
Definition faculty_scorecard (db : DB) (term : option Z) (faculty start end_ : Z)
    (as_of : option Z) : Scorecard :=
  let qs := scoped_sessions db (mk_scope term start end_ None as_of (Some faculty)) in
  let held := count is_held qs in
  let scheduled := count all qs in
  let late := dict_getd (lateness_map qs) faculty (mk_late 0 0 0) in
  {| sc_faculty := faculty; sc_name := name_of db faculty; sc_scheduled := scheduled;
     sc_held := held; sc_absent := count (has_status ABSENT) qs; sc_pct := pct held scheduled;
     sc_early_ends := count ses_ended_early qs;
     sc_absences := dict_getd (absence_map db qs) faculty [];
     sc_modalities := modality_breakdown db qs;
     sc_late_avg := avg_minutes (late_seconds late) (late_held late);
     sc_late_sessions := late_count late; sc_chronic := is_chronic late |}.

(** ** Coverage by checkers *)

(** The floor and the building of the session's room. *)
Definition site (db : DB) (s : Session) : option (Building * Floor) :=
  room ← by_pk (db_rooms db) (ses_room s);
  floor ← by_pk (db_floors db) (room_floor room);
  building ← by_pk (db_buildings db) (flr_building floor);
  Some (building, floor).
Definition site_code (db : DB) (s : Session) : option string := bld_code ∘ fst <$> site db s.
Definition site_name (db : DB) (s : Session) : option string := bld_name ∘ fst <$> site db s.
Definition site_floor (db : DB) (s : Session) : option Z := flr_number ∘ snd <$> site db s.
Definition schedule_day (db : DB) (s : Session) : option Z :=
  sch_day <$> by_pk (db_schedules db) (ses_schedule s).
(** [.exclude(room__code__startswith="V")]; the column's collation ignores case. *)
Definition in_virtual_room (db : DB) (s : Session) : bool :=
  match by_pk (db_rooms db) (ses_room s) with Some r => is_virtual r | None => false end.
Definition exclude_virtual (db : DB) (qs : list Session) : list Session :=
  select (λ s, negb (in_virtual_room db s)) qs.

Record CoverageRow := mk_coverage {
  cr_code : string;
  cr_name : string;
  cr_day : Z;
  cr_held : Z;
  cr_verified : Z;
  cr_pct : Z
}.
Definition held_and_verified (db : DB) (s : Session) : bool := is_held s && verified_by_checker db s.
Definition str_le (a b : string) : bool := String.leb a b.
Definition coverage_le (a b : CoverageRow) : bool :=
  if bool_decide (cr_code a = cr_code b) then cr_day a <=? cr_day b else str_le (cr_code a) (cr_code b).
Definition coverage_by_building_day (db : DB) (q : Scope) : list CoverageRow :=
  let qs := exclude_virtual db (scoped_sessions db q) in
  let held_rows := group_by (λ s, (site_code db s, site_name db s, schedule_day db s))
                     (select is_held qs) in
  let verified_by_key := (λ g, (g.1, count all g.2))
    <$> group_by (λ s, (site_code db s, schedule_day db s)) (select (held_and_verified db) qs) in
  sort_by coverage_le
    ((λ g, let '(code, name, day) := g.1 in
           let held := count all g.2 in
           let verified := dict_getd verified_by_key (code, day) 0 in
           mk_coverage (default "" code) (default "" name) (default 0 day) held verified
             (pct verified held)) <$> held_rows).

Record ZeroCoverageFloor := mk_zero {
  zc_code : string;
  zc_name : string;
  zc_floor : Z;
  zc_held : Z
}.
Definition zero_le (a b : ZeroCoverageFloor) : bool :=
  if bool_decide (zc_code a = zc_code b) then zc_floor a <=? zc_floor b
  else str_le (zc_code a) (zc_code b).
Definition verified_keys (db : DB) (qs : list Session) : list (option string * option Z) :=
  fst <$> select (λ g, 0 <? count all g.2)
    (group_by (λ s, (site_code db s, site_floor db s)) (select (held_and_verified db) qs)).
Definition zero_coverage_floors (db : DB) (q : Scope) : list ZeroCoverageFloor :=
  let qs := exclude_virtual db (scoped_sessions db q) in
  let held_rows := group_by (λ s, (site_code db s, site_name db s, site_floor db s))
                     (select is_held qs) in
  sort_by zero_le
    ((λ g, mk_zero (default "" g.1.1.1) (default "" g.1.1.2) (default 0 g.1.2) (count all g.2))
       <$> select (λ g, (0 <? count all g.2)
                        && negb (bool_decide ((g.1.1.1, g.1.2) ∈ verified_keys db qs))) held_rows).

(** ** Rounding is to the nearest, ties up *)
Lemma round_half_up_spec a b :
  0 < b → 2 * b * round_half_up a b - b ≤ 2 * a < 2 * b * round_half_up a b + b.
Proof.
  intros Hb. unfold round_half_up. pose proof (Z.div_mod (2 * a + b) (2 * b) ltac:(lia)).
  pose proof (Z.mod_pos_bound (2 * a + b) (2 * b) ltac:(lia)). lia.
Qed.
Lemma round_half_up_bounds a b n : 0 < b → 0 ≤ a ≤ n * b → 0 ≤ round_half_up a b ≤ n.
Proof. intros Hb Ha. pose proof (round_half_up_spec a b Hb). nia. Qed.
Lemma pct_bounds h n : 0 ≤ h ≤ n → 0 ≤ pct h n ≤ 100.
Proof.
  unfold pct. intros H. destruct (Z.eqb_spec n 0); [lia|]. apply round_half_up_bounds; lia.
Qed.

(** ** Counting *)
Lemma count_nonneg p l : 0 ≤ count p l.
Proof. unfold count. lia. Qed.
Lemma count_all l : count all l = Z.of_nat (length l).
Proof. unfold count. by rewrite select_all. Qed.
Lemma count_mono p q l : (∀ s, s ∈ l → p s = true → q s = true) → count p l ≤ count q l.
Proof.
  intros H. unfold count. apply inj_le. induction l as [|s l IH]; [done|]. rewrite !select_cons.
  specialize (IH ltac:(intros; apply H; [by right|done])).
  destruct (p s) eqn:Ep; [rewrite (H s ltac:(left) Ep); simpl; lia|]. destruct (q s); simpl; lia.
Qed.
Lemma count_pos p s l : s ∈ l → p s = true → 0 < count p l.
Proof.
  intros Hs Hp. unfold count. assert (s ∈ select p l) as Hin by by apply elem_of_select.
  destruct (select p l); [by apply not_elem_of_nil in Hin|simpl; lia].
Qed.
Lemma count_select p q l : count p (select q l) = count (λ s, q s && p s) l.
Proof. unfold count. by rewrite select_select. Qed.
Lemma count_disjoint p q r l :
  (∀ s, p s = true → q s = false) → (∀ s, p s || q s = true → r s = true) →
  count p l + count q l ≤ count r l.
Proof.
  intros Hd Hr. unfold count. induction l as [|s l IH]; [done|]. rewrite !select_cons.
  specialize (Hd s). specialize (Hr s). destruct (p s), (q s), (r s); simpl in *; try lia;
    first [by discriminate (Hd eq_refl)|by discriminate (Hr eq_refl)].
Qed.
Lemma count_all_and p l : count (λ s, p s && all s) l = count p l.
Proof. unfold count. f_equal. f_equal. apply select_ext. intros s _. apply andb_true_r. Qed.

Section groups.
Context {K : Type} `{!EqDecision K} (key : Session → K) (qs : list Session).
Lemma group_by_count p : zsum ((λ g, count p g.2) <$> group_by key qs) = count p qs.
Proof. apply dict_group_count. Qed.
Lemma group_by_elem g :
  g ∈ group_by key qs → g.2 = select (λ s, bool_decide (key s = g.1)) qs ∧ ∃ s, s ∈ qs ∧ key s = g.1.
Proof.
  intros Hg. split.
  - unfold group_by in Hg. apply dict_group_elem in Hg. by rewrite list_fmap_id in Hg.
  - by apply (proj1 (proj2 (dict_group_spec key id qs))).
Qed.
Lemma group_by_getd {V} (f : list Session → V) k dflt :
  f [] = dflt →
  dict_getd ((λ g, (g.1, f g.2)) <$> group_by key qs) k dflt =
  f (select (λ s, bool_decide (key s = k)) qs).
Proof.
  intros Hf. destruct (dict_group_spec key id qs) as (_ & _ & Hget). specialize (Hget k).
  rewrite list_fmap_id in Hget. rewrite <- Hget. clear Hget. unfold group_by, dict_getd.
  induction (dict_group key id qs) as [|[k' v] d IH]; [done|]. rewrite fmap_cons. simpl.
  by case_bool_decide.
Qed.
Lemma group_by_has s :
  s ∈ qs → (key s, select (λ y, bool_decide (key y = key s)) qs) ∈ group_by key qs.
Proof.
  intros Hs. pose proof (dict_group_has key id qs s Hs) as H. by rewrite list_fmap_id in H.
Qed.
Lemma group_by_NoDup : NoDup (group_by key qs).*1.
Proof. apply dict_group_spec. Qed.
Lemma group_by_keys : length (group_by key qs) = length (remove_dups (key <$> qs)).
Proof.
  rewrite <- (length_fmap fst). apply Permutation_length, NoDup_Permutation;
    [apply group_by_NoDup|apply NoDup_remove_dups|].
  intros k. rewrite elem_of_remove_dups, !list_elem_of_fmap. split.
  - intros (g & -> & Hg). destruct (group_by_elem g Hg) as (_ & s & Hs & <-). by exists s.
  - intros (s & -> & Hs). eexists. split; [|by apply group_by_has]. done.
Qed.
End groups.

(** ** Lateness, by faculty *)
Definition late_by (s : Session) : Z := session_minutes_late (ses_sched_start s) (ses_actual_start s).
Definition of_faculty (f : Z) (s : Session) : bool := ses_faculty s =? f.
Definition lateness_of (l : list Session) : Lateness :=
  mk_late (zsum (late_by <$> l)) (count (λ s, 60 <=? late_by s) l) (Z.of_nat (length l)).
Definition no_late : Lateness := mk_late 0 0 0.
Lemma add_late_get out s f :
  dict_getd (add_late out s) f no_late =
  let l := dict_getd out f no_late in
  if of_faculty f s
  then mk_late (late_seconds l + late_by s) (late_count l + (if 60 <=? late_by s then 1 else 0))
         (late_held l + 1)
  else l.
Proof.
  unfold add_late, of_faculty. fold (late_by s) no_late. unfold dict_getd at 1. rewrite dict_get_set.
  cbv zeta. destruct (Z.eqb_spec (ses_faculty s) f) as [->|Hf].
  - by rewrite bool_decide_true.
  - by rewrite bool_decide_false.
Qed.
Lemma lateness_get qs f :
  dict_getd (lateness_map qs) f no_late = lateness_of (select (of_faculty f) (select started qs)).
Proof.
  unfold lateness_map. generalize (select started qs) as l. intros l.
  induction l as [|s l IH] using rev_ind; [done|]. rewrite foldl_app. cbn [foldl].
  rewrite add_late_get, IH, select_app, select_cons. cbv zeta.
  destruct (of_faculty f s); simpl; [|by rewrite app_nil_r].
  unfold lateness_of, count. rewrite fmap_app, zsum_app, select_app, !length_app. simpl.
  f_equal; [lia| |lia]. destruct (60 <=? late_by s); simpl; lia.
Qed.
Lemma absences_get db qs f :
  dict_getd (absence_map db qs) f [] =
  absence_of db <$> sort_by by_date (select (of_faculty f) (select (has_status ABSENT) qs)).
Proof.
  unfold absence_map. rewrite (proj2 (proj2 (dict_group_spec _ _ _)) f). f_equal.
  rewrite select_sort_by.
  - f_equal. apply select_ext. intros s _. unfold of_faculty. by destruct (Z.eqb_spec (ses_faculty s) f); case_bool_decide.
  - intros x y. unfold by_date. lia.
  - intros x y z. unfold by_date. lia.
Qed.

(** ** The rows and the summary *)
Section attendance_facts.
Context (name_le : DB → Z → Z → bool) (db : DB) (q : Scope).
Let qs := scoped_sessions db q.

Lemma row_elem r :
  r ∈ faculty_attendance name_le db q →
  ∃ f, r = faculty_row db qs (f, select (of_faculty f) qs) ∧ ∃ s, s ∈ qs ∧ ses_faculty s = f.
Proof using.
  unfold faculty_attendance. fold qs. intros ([f l] & -> & Hg)%list_elem_of_fmap.
  rewrite elem_of_sort_by in Hg. apply group_by_elem in Hg as (Hl & Hs). simpl in *.
  exists f. split; [|done]. do 2 f_equal. rewrite Hl. apply select_ext. intros s _.
  unfold of_faculty. by destruct (Z.eqb_spec (ses_faculty s) f); case_bool_decide.
Qed.
Lemma rows_sum (h : FacultyRow → Z) p :
  (∀ g, h (faculty_row db qs g) = count p g.2) →
  zsum (h <$> faculty_attendance name_le db q) = count p qs.
Proof using.
  intros Hh. unfold faculty_attendance. fold qs. rewrite <- list_fmap_compose.
  rewrite (zsum_perm _ ((λ g, count p g.2) <$> group_by ses_faculty qs)); [apply group_by_count|].
  rewrite (list_fmap_ext _ (λ g, count p g.2)) by (intros; apply Hh).
  by rewrite sort_by_perm.
Qed.
Lemma row_ids : fr_faculty <$> faculty_attendance name_le db q ≡ₚ (group_by ses_faculty qs).*1.
Proof using.
  unfold faculty_attendance. fold qs. rewrite <- list_fmap_compose.
  rewrite (list_fmap_ext _ fst) by done. by rewrite sort_by_perm.
Qed.
Lemma row_consistent r :
  r ∈ faculty_attendance name_le db q →
  0 < fr_scheduled r ∧ fr_held r + fr_absent r ≤ fr_scheduled r ∧
  fr_verified r ≤ fr_scheduled r ∧ fr_late_sessions r ≤ fr_held r ∧
  Z.of_nat (length (fr_absences r)) = fr_absent r ∧ 0 ≤ fr_pct r ≤ 100.
Proof using.
  intros (f & -> & s & Hs & Hf)%row_elem. cbn -[lateness_map absence_map verified_map pct].
  fold qs. set (own := select (of_faculty f) qs).
  change (mk_late 0 0 0) with no_late. rewrite lateness_get, absences_get.
  unfold verified_map. rewrite (group_by_getd _ _ (count all)) by done.
  split_and!.
  - rewrite count_all. assert (s ∈ own) as Hin
      by (apply elem_of_select; split; [done|]; unfold of_faculty; lia).
    destruct own; [by apply not_elem_of_nil in Hin|]. simpl. lia.
  - apply count_disjoint; [|done]. intros x. unfold is_held, HELD_STATUSES, has_status. b2p.
    destruct (ses_status x); set_solver.
  - unfold own. rewrite !count_select. apply (count_mono _ _ qs). intros x _. unfold of_faculty, all. b2p. tauto.
  - unfold own, lateness_of. simpl. rewrite !count_select. apply count_mono. intros x _.
    unfold started, of_faculty. b2p. tauto.
  - unfold own. rewrite length_fmap, (Permutation_length (sort_by_perm by_date _)), count_select.
    unfold count. by rewrite select_select, (select_ext _ (λ x, of_faculty f x && has_status ABSENT x))
      by (intros; apply andb_comm).
  - apply pct_bounds. split; [apply count_nonneg|]. by apply count_mono.
  - apply pct_bounds. split; [apply count_nonneg|]. by apply count_mono.
Qed.
End attendance_facts.

(** C29: the weekly rows and the department summary agree: the rows are one per
    faculty member with a session in the scope, their scheduled, held and absent
    counts add up to the department's, and within a row the held and absent
    sessions, and the late ones among the held, are among its scheduled ones, its
    itemized absences are as many as it counts and its percentage is between 0
    and 100. *)
Theorem attendance_reconciles name_le db q :
  let rows := faculty_attendance name_le db q in
  let dept := dept_summary db q in
  NoDup (fr_faculty <$> rows) ∧ Z.of_nat (length rows) = ds_faculty_count dept ∧
  zsum (fr_scheduled <$> rows) = ds_scheduled dept ∧ zsum (fr_held <$> rows) = ds_held dept ∧
  zsum (fr_absent <$> rows) = ds_absent dept ∧ 0 ≤ ds_pct dept ≤ 100 ∧
  ∀ r, r ∈ rows →
    0 < fr_scheduled r ∧ fr_held r + fr_absent r ≤ fr_scheduled r ∧
    fr_verified r ≤ fr_scheduled r ∧ fr_late_sessions r ≤ fr_held r ∧
    Z.of_nat (length (fr_absences r)) = fr_absent r ∧ 0 ≤ fr_pct r ≤ 100.
Proof.
  cbv zeta. split_and!; try (by apply rows_sum).
  - rewrite row_ids. apply group_by_NoDup.
  - unfold dept_summary. simpl. f_equal. rewrite <- group_by_keys, <- (length_fmap fst).
    rewrite <- (length_fmap fr_faculty). apply Permutation_length, row_ids.
  - apply pct_bounds. split; [apply count_nonneg|]. by apply count_mono.
  - apply pct_bounds. split; [apply count_nonneg|]. by apply count_mono.
  - apply row_consistent.
Qed.

(** ** The scorecard is the row of its faculty member *)
Section scorecard.
Context (db : DB) (term as_of : option Z) (start end_ f : Z).
Let q : Scope := mk_scope term start end_ None as_of None.
Let qf : Scope := mk_scope term start end_ None as_of (Some f).

Lemma scoped_faculty : scoped_sessions db qf = select (of_faculty f) (scoped_sessions db q).
Proof using.
  unfold scoped_sessions. rewrite select_select. apply select_ext. intros s _.
  unfold in_sc, of_faculty. simpl. rewrite !andb_true_r.
  destruct (start <=? ses_date s), (ses_date s <=? end_), (on_active_schedule db term s),
    (ses_faculty s =? f); simpl; rewrite ?andb_true_r, ?andb_false_r; done.
Qed.
Lemma select_own p l : select (of_faculty f) (select p (select (of_faculty f) l)) =
  select (of_faculty f) (select p l).
Proof using.
  rewrite !select_select. apply select_ext. intros s _. destruct (of_faculty f s), (p s); done.
Qed.
End scorecard.

(** The scorecard of a faculty member and that member's weekly row over the same
    dates give the same counts, percentage, early ends, absences and lateness, and
    the held sessions of the scorecard are split among the modalities. *)
Theorem scorecard_matches_row name_le db term as_of start end_ r :
  r ∈ faculty_attendance name_le db (mk_scope term start end_ None as_of None) →
  let card := faculty_scorecard db term (fr_faculty r) start end_ as_of in
  sc_name card = fr_name r ∧ sc_scheduled card = fr_scheduled r ∧ sc_held card = fr_held r ∧
  sc_absent card = fr_absent r ∧ sc_pct card = fr_pct r ∧ sc_early_ends card = fr_early_ends r ∧
  sc_absences card = fr_absences r ∧ sc_late_avg card = fr_late_avg r ∧
  sc_late_sessions card = fr_late_sessions r ∧ sc_chronic card = fr_chronic r ∧
  zsum (sc_modalities card).*2 = sc_held card.
Proof.
  intros (f & -> & _)%row_elem. cbn -[lateness_map absence_map pct avg_minutes modality_breakdown].
  rewrite (scoped_faculty db term as_of start end_ f). change (mk_late 0 0 0) with no_late.
  rewrite !lateness_get, !absences_get, !select_own. split_and!; try done.
  unfold modality_breakdown. rewrite <- list_fmap_compose.
  rewrite (list_fmap_ext _ (λ g, count all g.2)) by done. rewrite group_by_count.
  by rewrite count_select, (count_all_and is_held).
Qed.

(** ** Coverage *)
Section coverage.
Context (db : DB) (q : Scope).
Let qs := exclude_virtual db (scoped_sessions db q).
(** Building codes are unique, and every room has its floor and building. *)
Context (Hcodes : ∀ b1 b2, b1 ∈ db_buildings db → b2 ∈ db_buildings db →
  bld_code b1 = bld_code b2 → b1 = b2).
Context (Hsites : ∀ s, s ∈ qs → is_some (site db s) = true).

Definition in_cell (code : string) (day : Z) (s : Session) : bool :=
  bool_decide (site_code db s = Some code) && bool_decide (schedule_day db s = Some day).
Definition on_floor (code : string) (floor : Z) (s : Session) : bool :=
  bool_decide (site_code db s = Some code) && bool_decide (site_floor db s = Some floor).

Lemma site_known s : s ∈ qs → ∃ b f, site db s = Some (b, f) ∧ b ∈ db_buildings db.
Proof using Hsites.
  intros Hs. specialize (Hsites s Hs). unfold site in *.
  destruct (by_pk (db_rooms db) _) as [room|]; [|done]. simpl in *.
  destruct (by_pk (db_floors db) _) as [floor|]; [|done]. simpl in *.
  destruct (by_pk (db_buildings db) _) as [b|] eqn:Eb; [|done]. simpl in *.
  exists b, floor. split; [done|]. by apply by_pk_elem in Eb as [? _].
Qed.
(** The code of a site determines its name. *)
Lemma same_site_name s1 s2 :
  s1 ∈ qs → s2 ∈ qs → site_code db s1 = site_code db s2 → site_name db s1 = site_name db s2.
Proof using Hcodes Hsites.
  intros H1 H2. destruct (site_known s1 H1) as (b1 & f1 & E1 & Hb1).
  destruct (site_known s2 H2) as (b2 & f2 & E2 & Hb2).
  unfold site_code, site_name. rewrite E1, E2. simpl. intros [= Heq].
  by rewrite (Hcodes b1 b2 Hb1 Hb2 Heq).
Qed.
Lemma schedule_known s : s ∈ qs → is_some (schedule_day db s) = true.
Proof using.
  intros [Hs _]%elem_of_select. apply elem_of_select in Hs as [_ Hs]. unfold in_sc in Hs.
  unfold schedule_day, on_active_schedule in *. destruct (by_pk (db_schedules db) _); [done|].
  by rewrite andb_false_r in Hs.
Qed.
(** A group keyed by code, name and a third column is the sessions of the code and
    of that column. *)
Lemma cell_group {K} `{!EqDecision K} (third : Session → K) (p : Session → bool) g :
  g ∈ group_by (λ s, (site_code db s, site_name db s, third s)) (select p qs) →
  ∃ s code, s ∈ qs ∧ p s = true ∧ site_code db s = Some code ∧ g.1.1.1 = Some code ∧
    g.1.2 = third s ∧
    g.2 = select (λ x, bool_decide (site_code db x = Some code) && bool_decide (third x = third s))
            (select p qs).
Proof using Hcodes Hsites.
  intros (Hg & s & Hs & Hk)%group_by_elem. apply elem_of_select in Hs as [Hs Hp].
  destruct (site_known s Hs) as (b & f & E & _). destruct g as [[[c n] k] l]. simpl in *.
  injection Hk as Hc Hn Hk. exists s, (bld_code b).
  assert (site_code db s = Some (bld_code b)) as Hcode by (unfold site_code; by rewrite E).
  split_and!; try done; [congruence|]. rewrite Hg. apply select_ext. intros x [Hx _]%elem_of_select.
  rewrite <- Hc, <- Hn, <- Hk, Hcode. apply eq_true_iff_eq. b2p. split; [by intros [= -> _ ->]|].
  intros [H1 H2]. rewrite H1, H2. do 2 f_equal. by apply same_site_name; [| |congruence].
Qed.

Lemma coverage_row r :
  r ∈ coverage_by_building_day db q →
  cr_held r = count (λ s, is_held s && in_cell (cr_code r) (cr_day r) s) qs ∧
  cr_verified r = count (λ s, held_and_verified db s && in_cell (cr_code r) (cr_day r) s) qs ∧
  0 < cr_held r ∧ cr_verified r ≤ cr_held r ∧ 0 ≤ cr_pct r ≤ 100.
Proof using Hcodes Hsites.
  unfold coverage_by_building_day. rewrite elem_of_sort_by. fold qs.
  intros (g & -> & Hg)%list_elem_of_fmap. apply cell_group in Hg as (s & code & Hs & Hp & Hc & H1 & H2 & Hl).
  destruct g as [[[c n] k] l]. simpl in H1, H2, Hl. subst c k. simpl fst.
  pose proof (schedule_known s Hs) as Hday. destruct (schedule_day db s) as [day|] eqn:Ed; [|done].
  rewrite (group_by_getd _ _ (count all)) by done.
  cbn [cr_held cr_verified cr_code cr_day cr_pct default].
  assert (count all l = count (λ x, is_held x && in_cell code day x) qs) as Hheld.
  { subst l. rewrite !count_select. unfold count. f_equal. f_equal. apply select_ext. intros x _.
    unfold in_cell, all. by rewrite andb_true_r. }
  assert (count all (select (λ x, bool_decide ((site_code db x, schedule_day db x) = (Some code, Some day)))
    (select (held_and_verified db) qs)) = count (λ x, held_and_verified db x && in_cell code day x) qs) as Hver.
  { rewrite !count_select. unfold count. f_equal. f_equal. apply select_ext. intros x _.
    unfold in_cell, all. rewrite andb_true_r. f_equal. apply eq_true_iff_eq. b2p.
    split; [by intros [= -> ->]|by intros [-> ->]]. }
  simpl. rewrite Hver, Hheld.
  assert (count (λ x, held_and_verified db x && in_cell code day x) qs
    ≤ count (λ x, is_held x && in_cell code day x) qs) as Hle.
  { apply count_mono. intros x _. unfold held_and_verified. b2p. tauto. }
  pose proof (count_nonneg (λ x, held_and_verified db x && in_cell code day x) qs).
  split_and!; try done; try (apply pct_bounds; lia).
  apply (count_pos _ s); [done|]. unfold in_cell. rewrite Hp, Hc, Ed. by b2p.
Qed.
Lemma coverage_total :
  zsum (cr_held <$> coverage_by_building_day db q) = count is_held qs.
Proof using.
  unfold coverage_by_building_day. rewrite sort_by_perm. rewrite <- list_fmap_compose. fold qs.
  rewrite (list_fmap_ext _ (λ g, count all g.2)) by (by intros i [[[? ?] ?] ?]).
  by rewrite group_by_count, count_select, count_all_and.
Qed.

Lemma elem_of_verified_keys c f :
  (Some c, Some f) ∈ verified_keys db qs ↔
  ∃ s, s ∈ qs ∧ held_and_verified db s = true ∧ on_floor c f s = true.
Proof using.
  unfold verified_keys. rewrite list_elem_of_fmap. split.
  - intros (g & Heq & [Hg _]%elem_of_select). apply group_by_elem in Hg as (_ & s & Hs & Hk).
    apply elem_of_select in Hs as [Hs Hv]. exists s. split_and!; try done.
    unfold on_floor. rewrite <- Heq in Hk. injection Hk as -> ->. by b2p.
  - intros (s & Hs & Hv & Hf). unfold on_floor in Hf. b2p. destruct Hf as [Hc Hf].
    assert (s ∈ select (held_and_verified db) qs) as Hin by (apply elem_of_select; done).
    pose proof (group_by_has (λ s, (site_code db s, site_floor db s)) _ s Hin) as Hg.
    cbv beta in Hg. rewrite Hc, Hf in Hg. eexists. split; [|apply elem_of_select; split; [exact Hg|]]; [done|].
    apply Z.ltb_lt, (count_pos _ s); [|done].
    apply elem_of_select. split; [done|]. by rewrite Hc, Hf, bool_decide_true.
Qed.
(** A floor with held sessions is listed unless one of them is verified. *)
Lemma zero_floor_iff code floor :
  (∃ z, z ∈ zero_coverage_floors db q ∧ zc_code z = code ∧ zc_floor z = floor) ↔
  (∃ s, s ∈ qs ∧ is_held s = true ∧ on_floor code floor s = true) ∧
  (∀ s, s ∈ qs → is_held s = true → on_floor code floor s = true → verified_by_checker db s = false).
Proof using Hcodes Hsites.
  unfold zero_coverage_floors. fold qs.
  split.
  - intros (z & Hz & <- & <-). rewrite elem_of_sort_by in Hz.
    apply list_elem_of_fmap in Hz as (g & -> & [Hg Hn]%elem_of_select). b2p. destruct Hn as [_ Hn].
    apply cell_group in Hg as (s & c & Hs & Hh & Hc & H1 & H2 & _). rewrite H1, H2 in *.
    destruct (site_known s Hs) as (b & f & E & _).
    assert (site_floor db s = Some (flr_number f)) as Hf by (unfold site_floor; by rewrite E).
    rewrite Hf in *. simpl. split; [exists s; unfold on_floor; split_and!; try done; by b2p|].
    intros x Hx Hxh Hxf. destruct (verified_by_checker db x) eqn:Ev; [|done]. destruct Hn.
    apply elem_of_verified_keys. exists x. unfold held_and_verified. by rewrite Hxh, Ev.
  - intros [(s & Hs & Hh & Hf) Hall]. pose proof Hf as Hf'. unfold on_floor in Hf. b2p.
    destruct Hf as [Hc Hf].
    assert (s ∈ select is_held qs) as Hin by (apply elem_of_select; done).
    pose proof (group_by_has (λ s, (site_code db s, site_name db s, site_floor db s)) _ s Hin) as Hg.
    eexists. rewrite elem_of_sort_by. split.
    + apply list_elem_of_fmap. eexists. split; [reflexivity|]. apply elem_of_select. split; [exact Hg|].
      simpl. apply andb_true_iff. split.
      * apply Z.ltb_lt, (count_pos _ s); [|done].
        apply elem_of_select. split; [done|]. by rewrite bool_decide_true.
      * rewrite Hc, Hf. b2p. intros (x & Hx & Hv & Hxf)%elem_of_verified_keys. unfold held_and_verified in Hv. b2p.
        destruct Hv as [Hv1 Hv2]. by rewrite (Hall x Hx Hv1 Hxf) in Hv2.
    + simpl. by rewrite Hc, Hf.
Qed.
End coverage.

(** The coverage report counts what it says: a row of a building and weekday has
    the held sessions of its physical rooms, and those among them a checker
    verified, the rows add up to all held sessions in physical rooms, and the floors
    listed as never checked are exactly those with a held session and no verified
    one. *)
Theorem coverage_exact db q :
  let qs := exclude_virtual db (scoped_sessions db q) in
  (∀ b1 b2, b1 ∈ db_buildings db → b2 ∈ db_buildings db → bld_code b1 = bld_code b2 → b1 = b2) →
  (∀ s, s ∈ qs → is_some (site db s) = true) →
  (∀ r, r ∈ coverage_by_building_day db q →
    cr_held r = count (λ s, is_held s && in_cell db (cr_code r) (cr_day r) s) qs ∧
    cr_verified r =
      count (λ s, held_and_verified db s && in_cell db (cr_code r) (cr_day r) s) qs ∧
    0 < cr_held r ∧ cr_verified r ≤ cr_held r ∧ 0 ≤ cr_pct r ≤ 100) ∧
  zsum (cr_held <$> coverage_by_building_day db q) = count is_held qs ∧
  (∀ code floor, (∃ z, z ∈ zero_coverage_floors db q ∧ zc_code z = code ∧ zc_floor z = floor) ↔
    (∃ s, s ∈ qs ∧ is_held s = true ∧ on_floor db code floor s = true) ∧
    (∀ s, s ∈ qs → is_held s = true → on_floor db code floor s = true →
       verified_by_checker db s = false)).
Proof.
  intros qs Hcodes Hsites. split; [|split].
  - by apply coverage_row.
  - apply coverage_total.
  - by apply zero_floor_iff.
Qed.

(** ** Witnesses *)

(** Two held meetings of the sample class, one verified, and an absence. *)
Definition demo_week : DB :=
  demo_db <| db_sessions := [(demo_session 1 monday COMPLETED) <| ses_actual_start := Some (at_ 9 14) |>;
                             demo_session 2 (monday + 7) ABSENT; demo_session 3 (monday + 14) ACTIVE] |>
          <| db_validations := [{| val_pk := 1; val_session := Some 1; val_room := 1;
               val_checker := 2; val_action := VERIFIED; val_identity_match := Some true;
               val_note := ""; val_scanned_at := None; val_offline := false |}] |>.
Definition demo_scope : Scope := mk_scope (Some 1) monday (monday + 20) None None None.
Definition any_order : DB → Z → Z → bool := λ _ _ _, true.
Lemma scorecard_matches_row_witness :
  let r := mk_row 1 "Ana" 3 2 1 1 67 0 [mk_absence "CS101" "A" (monday + 7)] 140 1 false in
  faculty_attendance any_order demo_week demo_scope = [r] ∧
  (let card := faculty_scorecard demo_week (Some 1) 1 monday (monday + 20) None in
   sc_name card = fr_name r ∧ sc_scheduled card = fr_scheduled r ∧ sc_held card = fr_held r ∧
   sc_absent card = fr_absent r ∧ sc_pct card = fr_pct r ∧ sc_early_ends card = fr_early_ends r ∧
   sc_absences card = fr_absences r ∧ sc_late_avg card = fr_late_avg r ∧
   sc_late_sessions card = fr_late_sessions r ∧ sc_chronic card = fr_chronic r ∧
   zsum (sc_modalities card).*2 = sc_held card).
Proof.
  split; [vm_compute; reflexivity|].
  refine (scorecard_matches_row any_order demo_week (Some 1) None monday (monday + 20)
    (mk_row 1 "Ana" 3 2 1 1 67 0 [mk_absence "CS101" "A" (monday + 7)] 140 1 false) _).
  vm_compute. left.
Defined.
Lemma coverage_exact_witness :
  (∀ r, r ∈ coverage_by_building_day demo_week demo_scope →
    cr_held r = count (λ s, is_held s && in_cell demo_week (cr_code r) (cr_day r) s)
      (exclude_virtual demo_week (scoped_sessions demo_week demo_scope)) ∧ cr_verified r ≤ cr_held r) ∧
  coverage_by_building_day demo_week demo_scope = [mk_coverage "MAIN" "Main" 0 2 1 50] ∧
  zero_coverage_floors demo_week demo_scope = [].
Proof.
  split; [|split; vm_compute; reflexivity].
  destruct (coverage_exact demo_week demo_scope) as [H _].
  - intros b1 b2 ->%list_elem_of_singleton ->%list_elem_of_singleton _. reflexivity.
  - intros s Hs. change (exclude_virtual demo_week (scoped_sessions demo_week demo_scope)) with
      (db_sessions demo_week) in Hs. by each_row Hs.
  - intros r Hr. destruct (H r Hr) as (H1 & _ & _ & H2 & _). by split.
Defined.
