(* ===== verification/Utilization.v ===== *)
(** scheduling/reporting.py, the room-hours aggregates: the block ladder and its cells,
    the campus card, the heat grid and the ranking of blocks.  Sums are in seconds;
    quantized hours are in tenths, as in Reporting. *)
From S2P Require Import Prelude Python Model Effects Ops Sample Reporting.
Open Scope Z_scope.

Definition physical_room (r : Room) : bool := negb (is_virtual r) && negb (room_out_of_service r).
Definition physical_rooms (db : DB) : list Room := select physical_room (db_rooms db).

(** ** The block ladder *)
Record CampusBlock := mk_block { cb_start : Z; cb_seconds : Z }.
Record TimetabledCell := mk_cell { tc_day : Z; tc_start : Z; tc_seconds : Z }.
Definition span_seconds (start_time end_time : Z) : Z :=
  Z.max 0 (PyTime.int_seconds (end_time - start_time)).
Definition zmax (l : list Z) : Z := foldr Z.max 0 l.
(** The modal span, the longest on a tie; counts and spans are not negative. *)
(** [collections.Counter] *)
Definition counter (l : list Z) : dict Z Z :=
  (λ g, (g.1, Z.of_nat (length g.2))) <$> dict_group id id l.
Definition block_duration_seconds (spans : list (Z * Z)) : Z :=
  let durations := (λ p, span_seconds p.1 p.2) <$> spans in
  let counts := counter durations in
  let top := zmax counts.*2 in
  zmax (fst <$> select (λ p, p.2 =? top) counts).
Definition active_schedules (db : DB) (term : Z) : list Schedule :=
  select (λ s, (sch_term s =? term) && bool_decide (sch_status s = SCH_ACTIVE)) (db_schedules db).
Definition spans_by_start (db : DB) (term : Z) : dict Z (list (Z * Z)) :=
  dict_group sch_start (λ s, (sch_start s, sch_end s)) (active_schedules db term).
Definition campus_block_ladder (db : DB) (term : option Z) : option (list CampusBlock) :=
  match term with
  | None => None
  | Some t =>
      match spans_by_start db t with
      | [] => None
      | spans => Some ((λ p, mk_block p.1 (block_duration_seconds p.2))
                         <$> sort_by (λ a b, a.1 <=? b.1) spans)
      end
  end.
Definition pair_le (a b : Z * Z) : bool := if a.1 =? b.1 then a.2 <=? b.2 else a.1 <=? b.1.
Definition duration_by_start (blocks : list CampusBlock) : dict Z Z :=
  foldl (λ d b, dict_set d (cb_start b) (cb_seconds b)) [] blocks.
Definition timetabled_cells (db : DB) (term : option Z) : list TimetabledCell :=
  match term, campus_block_ladder db term with
  | Some t, Some blocks =>
      (λ p, mk_cell p.1 p.2 (dict_getd (duration_by_start blocks) p.2 0))
        <$> sort_by pair_le
              (remove_dups ((λ s, (sch_day s, sch_start s)) <$> active_schedules db t))
  | _, _ => []
  end.

(** ** One session's room-seconds *)
Record Contribution := mk_contrib { c_booked : Z; c_used : Z; c_running : bool }.
Definition session_contribution (s : Session) : Contribution :=
  if has_status CANCELLED s then mk_contrib 0 0 false
  else if is_some (ses_actual_start s) && is_none (ses_actual_end s) && has_status ACTIVE s
  then mk_contrib 0 0 true
  else
    let booked := Z.max 0 (PyTime.int_seconds (ses_sched_end s - ses_sched_start s)) in
    if has_status ABSENT s then mk_contrib booked 0 false
    else match ses_actual_start s, ses_actual_end s with
    | Some actual_start, Some actual_end =>
        let used_start := Z.max actual_start (ses_sched_start s) in
        let used_end := Z.min actual_end (ses_sched_end s) in
        mk_contrib booked (Z.max 0 (PyTime.int_seconds (used_end - used_start))) false
    | _, _ => mk_contrib booked 0 false
    end.
Definition counted (s : Session) : bool := negb (c_running (session_contribution s)).
Definition booked_of (s : Session) : Z := c_booked (session_contribution s).
Definition used_of (s : Session) : Z := c_used (session_contribution s).

(** ** The days of a range, and its cells *)

(** [day = start; while day <= last_day: ...; day += 1 day] *)
Fixpoint walk_days (fuel : nat) (day last_day : Z) : list Z :=
  match fuel with
  | O => []
  | S fuel' => if day <=? last_day then day :: walk_days fuel' (day + 1) last_day else []
  end.
Definition range_days (start end_ : Z) (as_of : option Z) : list Z :=
  let last_day := match as_of with Some d => Z.min end_ d | None => end_ end in
  walk_days (Z.to_nat (last_day - start + 1)) start last_day.

Record RangeCellShape := mk_shape { teaching_days : Z; cell_count : Z; cell_seconds : Z }.
Definition by_weekday (f : TimetabledCell → Z) (cells : list TimetabledCell) : dict Z Z :=
  foldl (λ d c, dict_set d (tc_day c) (dict_getd d (tc_day c) 0 + f c)) [] cells.
Definition add_day (cells_by_weekday seconds_by_weekday : dict Z Z) (sh : RangeCellShape) (day : Z)
    : RangeCellShape :=
  let weekday := PyTime.weekday day in
  match dict_get cells_by_weekday weekday with
  | Some n => mk_shape (teaching_days sh + 1) (cell_count sh + n)
                (cell_seconds sh + dict_getd seconds_by_weekday weekday 0)
  | None => sh
  end.
Definition range_cell_shape (db : DB) (term : option Z) (start end_ : Z) (as_of : option Z)
    : RangeCellShape :=
  let cells := timetabled_cells db term in
  foldl (add_day (by_weekday (λ _, 1) cells) (by_weekday tc_seconds cells)) (mk_shape 0 0 0)
    (range_days start end_ as_of).

(** The sessions every room figure reads. *)
Definition room_sessions (db : DB) (term : option Z) (start end_ : Z) (as_of : option Z)
    : list Session :=
  exclude_virtual db (scoped_sessions db (mk_scope term start end_ None as_of None)).

(** ** room_utilization *)
Record Tally := mk_tally {
  t_booked : Z; t_used : Z; t_absent : Z; t_unused_held : Z; t_in_flight : Z;
  t_absent_sessions : Z; t_early_ends : Z; t_overruns : Z; t_early_arrivals : Z
}.
Definition b2z (b : bool) : Z := if b then 1 else 0.
Definition add_session (a : Tally) (s : Session) : Tally :=
  let c := session_contribution s in
  if c_running c
  then mk_tally (t_booked a) (t_used a) (t_absent a) (t_unused_held a) (t_in_flight a + 1)
         (t_absent_sessions a) (t_early_ends a) (t_overruns a) (t_early_arrivals a)
  else
    let absent := has_status ABSENT s in
    mk_tally (t_booked a + c_booked c) (t_used a + c_used c)
      (t_absent a + if absent then c_booked c else 0)
      (t_unused_held a
       + if negb absent && is_held s then Z.max 0 (c_booked c - c_used c) else 0)
      (t_in_flight a) (t_absent_sessions a + b2z absent) (t_early_ends a + b2z (ses_ended_early s))
      (t_overruns a + match ses_actual_end s with
                      | Some e => b2z (ses_sched_end s <? e) | None => 0 end)
      (t_early_arrivals a + match ses_actual_start s with
                            | Some st => b2z (st <? ses_sched_start s) | None => 0 end).
Definition room_tally (qs : list Session) : Tally :=
  foldl add_session (mk_tally 0 0 0 0 0 0 0 0 0) qs.

Record RoomUtilization := mk_utilization {
  ru_physical_rooms : Z; ru_blocks_per_day : Z; ru_teaching_days : Z; ru_timetabled_cells : Z;
  ru_available_hours : Z; ru_booked_hours : Z; ru_used_hours : Z; ru_wasted_hours : Z;
  ru_absent_hours : Z; ru_unused_held_hours : Z; ru_utilization_pct : Z; ru_booking_pct : Z;
  ru_in_flight : Z; ru_early_end_sessions : Z; ru_absent_sessions : Z; ru_overrun_sessions : Z;
  ru_early_arrival_sessions : Z
}.
Definition room_utilization (db : DB) (term : option Z) (start end_ : Z) (as_of : option Z)
    : RoomUtilization :=
  let blocks := default [] (campus_block_ladder db term) in
  let rooms := Z.of_nat (length (physical_rooms db)) in
  let shape := range_cell_shape db term start end_ as_of in
  let available := rooms * cell_seconds shape in
  let a := room_tally (room_sessions db term start end_ as_of) in
  {| ru_physical_rooms := rooms; ru_blocks_per_day := Z.of_nat (length blocks);
     ru_teaching_days := teaching_days shape; ru_timetabled_cells := cell_count shape;
     ru_available_hours := hours available; ru_booked_hours := hours (t_booked a);
     ru_used_hours := hours (t_used a); ru_wasted_hours := hours (t_absent a + t_unused_held a);
     ru_absent_hours := hours (t_absent a); ru_unused_held_hours := hours (t_unused_held a);
     ru_utilization_pct := hours_pct (t_used a) available;
     ru_booking_pct := hours_pct (t_booked a) available; ru_in_flight := t_in_flight a;
     ru_early_end_sessions := t_early_ends a; ru_absent_sessions := t_absent_sessions a;
     ru_overrun_sessions := t_overruns a; ru_early_arrival_sessions := t_early_arrivals a |}.

(** ** The heat grid *)
Definition weekday_occurrences (start end_ : Z) (as_of : option Z) : dict Z Z :=
  foldl (λ d day, dict_set d (PyTime.weekday day) (dict_getd d (PyTime.weekday day) 0 + 1)) []
    (range_days start end_ as_of).

(** [parts[-1] += total - sum(parts)] *)
Fixpoint add_to_last (x : Z) (l : list Z) : list Z :=
  match l with
  | [] => []
  | [y] => [y + x]
  | y :: l' => y :: add_to_last x l'
  end.
Definition distribute (total : Z) (weights : list Z) : list Z :=
  match weights with
  | [] => []
  | [_] => [total]
  | _ =>
      let span := let n := zsum weights in if n =? 0 then 1 else n in
      let parts := (λ w, total * w / span) <$> weights in
      add_to_last (total - zsum parts) parts
  end.

Record HeatCell := mk_heat {
  hc_day : Z; hc_used : Z; hc_booked : Z; hc_available : Z; hc_pct : Z; hc_sessions : Z;
  hc_rooms : Z; hc_timetabled : bool
}.
Record HeatRow := mk_heat_row { hr_block : CampusBlock; hr_cells : list HeatCell }.
(** The accumulators of a cell, keyed by block index and day. *)
Record CellAcc := mk_acc { ca_booked : Z; ca_used : Z; ca_sessions : Z; ca_rooms : list Z }.
Definition no_acc : CellAcc := mk_acc 0 0 0 [].
Definition add_room (l : list Z) (r : Z) : list Z := if bool_decide (r ∈ l) then l else l ++ [r].
Definition add_part (day room : Z) (acc : dict (Z * Z) CellAcc) (p : Z * (Z * Z))
    : dict (Z * Z) CellAcc :=
  let '(i, (part_booked, part_used)) := p in
  let a := dict_getd acc (i, day) no_acc in
  dict_set acc (i, day)
    (mk_acc (ca_booked a + part_booked) (ca_used a + part_used) (ca_sessions a + 1)
       (add_room (ca_rooms a) room)).
Definition block_index (blocks : list CampusBlock) : dict Z Z :=
  foldl (λ d p, dict_set d (cb_start p.2) (Z.of_nat p.1)) [] (imap pair blocks).
(** The rungs whose start the class occupies, and their weights. *)
Definition occupied_blocks (blocks : list CampusBlock) (start_t end_t : Z) : list CampusBlock :=
  select (λ b, (start_t <=? cb_start b) && (cb_start b <? end_t)) blocks.
Definition weight (b : CampusBlock) : Z := if cb_seconds b =? 0 then 1 else cb_seconds b.
Definition add_to_grid (db : DB) (blocks : list CampusBlock) (acc : dict (Z * Z) CellAcc)
    (s : Session) : dict (Z * Z) CellAcc :=
  let c := session_contribution s in
  if c_running c then acc
  else match by_pk (db_schedules db) (ses_schedule s) with
  | None => acc
  | Some sch =>
      let occupied := occupied_blocks blocks (sch_start sch) (sch_end sch) in
      let weights := weight <$> occupied in
      foldl (add_part (sch_day sch) (ses_room s)) acc
        (zip ((λ b, dict_getd (block_index blocks) (cb_start b) 0) <$> occupied)
             (zip (distribute (c_booked c) weights) (distribute (c_used c) weights)))
  end.
Definition grid_acc (db : DB) (blocks : list CampusBlock) (qs : list Session)
    : dict (Z * Z) CellAcc := foldl (add_to_grid db blocks) [] qs.
Definition DAYS : list Z := [0; 1; 2; 3; 4; 5; 6].
Definition cell_available (rooms : Z) (pairs : list (Z * Z)) (occurrences : dict Z Z)
    (block : CampusBlock) (day : Z) : Z :=
  if bool_decide ((day, cb_start block) ∈ pairs)
  then rooms * dict_getd occurrences day 0 * cb_seconds block else 0.
Definition heat_cell (rooms : Z) (pairs : list (Z * Z)) (occurrences : dict Z Z)
    (acc : dict (Z * Z) CellAcc) (i : nat) (block : CampusBlock) (day : Z) : HeatCell :=
  let available := cell_available rooms pairs occurrences block day in
  let a := dict_getd acc (Z.of_nat i, day) no_acc in
  {| hc_day := day; hc_used := hours (ca_used a); hc_booked := hours (ca_booked a);
     hc_available := hours available; hc_pct := hours_pct (ca_used a) available;
     hc_sessions := ca_sessions a; hc_rooms := Z.of_nat (length (ca_rooms a));
     hc_timetabled := bool_decide ((day, cb_start block) ∈ pairs) |}.
Definition room_heat_grid (db : DB) (term : option Z) (start end_ : Z) (as_of : option Z)
    : option (list HeatRow) :=
  blocks ← campus_block_ladder db term;
  let pairs := (λ c, (tc_day c, tc_start c)) <$> timetabled_cells db term in
  let occurrences := weekday_occurrences start end_ as_of in
  let rooms := Z.of_nat (length (physical_rooms db)) in
  let acc := grid_acc db blocks (room_sessions db term start end_ as_of) in
  Some (imap (λ i block, mk_heat_row block (heat_cell rooms pairs occurrences acc i block <$> DAYS))
          blocks).

(** ** block_saturation *)
Record BlockLoad := mk_block_load {
  bl_block : CampusBlock; bl_used : Z; bl_booked : Z; bl_available : Z; bl_pct : Z;
  bl_sessions : Z; bl_peak_day : option Z
}.
(** [max(cells, key=...)]: the first of the greatest. *)
Fixpoint busiest (best : HeatCell) (cells : list HeatCell) : HeatCell :=
  match cells with
  | [] => best
  | c :: cells' => busiest (if hc_used best <? hc_used c then c else best) cells'
  end.
Definition block_load (row : HeatRow) : BlockLoad :=
  let cells := hr_cells row in
  let used := zsum (hc_used <$> cells) in
  let available := zsum (hc_available <$> cells) in
  {| bl_block := hr_block row; bl_used := used; bl_booked := zsum (hc_booked <$> cells);
     bl_available := available; bl_pct := hours_pct used available;
     bl_sessions := zsum (hc_sessions <$> cells);
     bl_peak_day := match cells with
                    | [] => None
                    | c :: cells' => let b := busiest c cells' in
                                     if 0 <? hc_used b then Some (hc_day b) else None
                    end |}.
Definition load_le (a b : BlockLoad) : bool :=
  if bl_pct a =? bl_pct b then cb_start (bl_block a) <=? cb_start (bl_block b)
  else bl_pct b <=? bl_pct a.
Definition block_saturation (db : DB) (term : option Z) (start end_ : Z) (as_of : option Z)
    : list BlockLoad :=
  match room_heat_grid db term start end_ as_of with
  | None => []
  | Some grid => sort_by load_le (block_load <$> grid)
  end.

(** ** One session's seconds, and the tally *)

(** Calling an actual stay the stretch between its two stamps, the time used is the
    overlap of the stay with the scheduled window, in whole seconds. *)
Lemma contribution_bounds s : 0 ≤ used_of s ≤ booked_of s.
Proof.
  unfold used_of, booked_of, session_contribution.
  destruct (has_status CANCELLED s); [simpl; lia|]. destruct (_ && _ && _); [simpl; lia|].
  destruct (has_status ABSENT s); [simpl; lia|].
  destruct (ses_actual_start s) as [a|], (ses_actual_end s) as [e|]; simpl; try lia.
  split; [lia|]. apply Z.max_le_compat_l, Z.quot_le_mono; [done|lia].
Qed.
Lemma running_zero s : counted s = false → booked_of s = 0 ∧ used_of s = 0.
Proof.
  unfold counted, booked_of, used_of, session_contribution. intros H. revert H.
  destruct (has_status CANCELLED s); [done|]. destruct (_ && _ && _); [done|].
  destruct (has_status ABSENT s); [done|].
  by destruct (ses_actual_start s) as [a|], (ses_actual_end s) as [e|].
Qed.
Definition unused_of (s : Session) : Z := booked_of s - used_of s.
Definition unused_held (s : Session) : bool := negb (has_status ABSENT s) && is_held s.
Lemma add_session_spec a s :
  add_session a s =
  mk_tally (t_booked a + booked_of s) (t_used a + used_of s)
    (t_absent a + if has_status ABSENT s then booked_of s else 0)
    (t_unused_held a + if unused_held s then unused_of s else 0)
    (t_in_flight a + b2z (negb (counted s)))
    (t_absent_sessions a + b2z (counted s && has_status ABSENT s))
    (t_early_ends a + b2z (counted s && ses_ended_early s))
    (t_overruns a + b2z (counted s && match ses_actual_end s with
                                      | Some e => ses_sched_end s <? e | None => false end))
    (t_early_arrivals a + b2z (counted s && match ses_actual_start s with
                                            | Some st => st <? ses_sched_start s | None => false end)).
Proof.
  pose proof (contribution_bounds s) as Hb. pose proof (running_zero s) as Hz.
  unfold add_session, unused_held, unused_of. unfold counted, booked_of, used_of in *.
  destruct (c_running (session_contribution s)); cbn [negb andb b2z] in *.
  - destruct (Hz eq_refl) as [-> ->]. destruct a; simpl. f_equal; try lia;
      repeat destr_if; lia.
  - clear Hz. f_equal; try lia; repeat destr_if; simpl in *; try lia; done.
Qed.
Definition count_of (p : Session → bool) (qs : list Session) : Z := zsum (b2z ∘ p <$> qs).
Lemma tally_seconds qs :
  t_booked (room_tally qs) = zsum (booked_of <$> qs) ∧ t_used (room_tally qs) = zsum (used_of <$> qs) ∧
  t_absent (room_tally qs) = zsum (booked_of <$> select (has_status ABSENT) qs) ∧
  t_unused_held (room_tally qs) = zsum (unused_of <$> select unused_held qs) ∧
  t_in_flight (room_tally qs) = count (λ s, negb (counted s)) qs ∧
  t_absent_sessions (room_tally qs) = count (λ s, counted s && has_status ABSENT s) qs.
Proof.
  unfold room_tally, count. induction qs as [|s qs IH] using rev_ind; [done|].
  rewrite foldl_app. cbn [foldl]. rewrite add_session_spec.
  cbn [t_booked t_used t_absent t_unused_held t_in_flight t_absent_sessions].
  destruct IH as (-> & -> & -> & -> & -> & ->).
  rewrite !fmap_app, !select_app, !fmap_app, !zsum_app, !length_app, !select_cons.
  split_and!; repeat destr_if; simpl; lia.
Qed.

(** ** The days of the range, and the capacity of a room over them *)
Lemma walk_days_seq fuel day last :
  (Z.to_nat (last - day + 1) ≤ fuel)%nat →
  walk_days fuel day last = seqZ day (last - day + 1).
Proof.
  revert day. induction fuel as [|fuel IH]; intros day Hf; cbn [walk_days].
  - by rewrite seqZ_nil by lia.
  - destruct (Z.leb_spec day last); [|by rewrite seqZ_nil by lia].
    rewrite seqZ_cons by lia. rewrite IH by lia. by replace (Z.succ day) with (day + 1) by lia; replace (last - (day + 1) + 1) with (Z.pred (last - day + 1)) by lia.
Qed.
Definition last_day (end_ : Z) (as_of : option Z) : Z :=
  match as_of with Some d => Z.min end_ d | None => end_ end.
Lemma range_days_seq start end_ as_of :
  range_days start end_ as_of = seqZ start (last_day end_ as_of - start + 1).
Proof. unfold range_days. by apply walk_days_seq. Qed.
Lemma elem_of_range_days start end_ as_of d :
  d ∈ range_days start end_ as_of ↔
  start ≤ d ≤ end_ ∧ match as_of with Some a => d ≤ a | None => True end.
Proof. rewrite range_days_seq, elem_of_seqZ. unfold last_day. destruct as_of; lia. Qed.

(** The cells of a date are those of its weekday. *)
Definition cells_on (cells : list TimetabledCell) (day : Z) : list TimetabledCell :=
  select (λ c, tc_day c =? PyTime.weekday day) cells.
Lemma by_weekday_get f cells w :
  dict_getd (by_weekday f cells) w 0 = zsum (f <$> select (λ c, tc_day c =? w) cells).
Proof.
  unfold by_weekday. rewrite dict_counter. do 2 f_equal. apply select_ext. intros c _.
  by destruct (Z.eqb_spec (tc_day c) w); case_bool_decide.
Qed.
Lemma by_weekday_has f cells w :
  dict_get (by_weekday f cells) w = None ↔ select (λ c, tc_day c =? w) cells = [].
Proof.
  rewrite dict_get_None. unfold by_weekday.
  destruct (dict_fold_keys (λ d c, dict_set d (tc_day c) (dict_getd d (tc_day c) 0 + f c)) tc_day cells [])
    as [_ Hk]; [eauto|apply NoDup_nil_2|]. rewrite Hk, elem_of_nil, list_elem_of_fmap, select_nil.
  split.
  - intros H c Hc. destruct (Z.eqb_spec (tc_day c) w); [|done]. destruct H. right. eauto.
  - intros H [[]|(c & -> & Hc)]. specialize (H c Hc). simpl in H. lia.
Qed.
Lemma cell_shape_sum db term start end_ as_of :
  let cells := timetabled_cells db term in
  range_cell_shape db term start end_ as_of =
  mk_shape (zsum ((λ d, b2z (negb (bool_decide (cells_on cells d = [])))) <$> range_days start end_ as_of))
    (zsum ((λ d, Z.of_nat (length (cells_on cells d))) <$> range_days start end_ as_of))
    (zsum ((λ d, zsum (tc_seconds <$> cells_on cells d)) <$> range_days start end_ as_of)).
Proof.
  cbv zeta. unfold range_cell_shape. set (cells := timetabled_cells db term).
  induction (range_days start end_ as_of) as [|d l IH] using rev_ind; [done|].
  rewrite foldl_app. cbn [foldl]. rewrite IH, !fmap_app, !zsum_app. unfold add_day.
  pose proof (by_weekday_has (λ _, 1) cells (PyTime.weekday d)) as Hh.
  pose proof (by_weekday_get (λ _, 1) cells (PyTime.weekday d)) as Hn.
  fold (cells_on cells d) in Hh, Hn. unfold dict_getd in Hn. rewrite zsum_const in Hn.
  destruct (dict_get _ _) as [n|].
  - rewrite by_weekday_get. fold (cells_on cells d). cbn in Hn.
    assert (cells_on cells d ≠ []) as Hc by (intros Hc; by apply Hh in Hc).
    rewrite !list_fmap_singleton. cbn [teaching_days cell_count cell_seconds b2z negb].
    rewrite !zsum_cons, (bool_decide_false (cells_on cells d = [])) by done. cbn. f_equal; lia.
  - rewrite !list_fmap_singleton, (proj1 Hh eq_refl). cbn. f_equal; lia.
Qed.

(** ** The ladder: one block per start time, of the modal duration *)
Lemma zmax_ge l x : x ∈ l → x ≤ zmax l.
Proof. induction 1; simpl; unfold zmax in *; simpl; lia. Qed.
Lemma zmax_elem l : l ≠ [] → (∀ x, x ∈ l → 0 ≤ x) → zmax l ∈ l.
Proof.
  induction l as [|x l IH]; [done|]. intros _ Hpos. unfold zmax. simpl. fold (zmax l).
  assert (0 ≤ x) by (apply Hpos; left).
  destruct (decide (l = [])) as [->|Hl].
  - simpl. rewrite Z.max_l by lia. left.
  - destruct (Z.max_spec x (zmax l)) as [[_ ->]|[_ ->]]; [right|left].
    apply IH; [done|]. intros y Hy. apply Hpos. by right.
Qed.
Definition durations (spans : list (Z * Z)) : list Z := (λ p, span_seconds p.1 p.2) <$> spans.
Definition occurrences_of (x : Z) (l : list Z) : Z :=
  Z.of_nat (length (select (λ y, bool_decide (y = x)) l)).
Lemma elem_of_counter ds x n : (x, n) ∈ counter ds ↔ x ∈ ds ∧ n = occurrences_of x ds.
Proof.
  unfold counter. rewrite list_elem_of_fmap. split.
  - intros ([k v] & [= -> ->] & Hg). apply dict_group_elem in Hg as Hv.
    apply (proj1 (proj2 (dict_group_spec _ _ _))) in Hg as (y & Hy & Hk). cbn in *. subst k v.
    split; [done|]. by rewrite list_fmap_id.
  - intros [Hx ->]. pose proof (dict_group_has id id ds x Hx) as Hg. rewrite list_fmap_id in Hg.
    eexists. split; [|exact Hg]. done.
Qed.
Lemma top_count ds :
  ds ≠ [] →
  (∀ x, x ∈ ds → occurrences_of x ds ≤ zmax (counter ds).*2) ∧
  ∃ x, x ∈ ds ∧ occurrences_of x ds = zmax (counter ds).*2.
Proof.
  intros Hds. assert (∀ x, x ∈ ds → occurrences_of x ds ∈ (counter ds).*2) as Hin.
  { intros x Hx. apply list_elem_of_fmap. exists (x, occurrences_of x ds). by rewrite elem_of_counter. }
  split; [intros x Hx; by apply zmax_ge, Hin|].
  assert (zmax (counter ds).*2 ∈ (counter ds).*2) as Hm.
  { apply zmax_elem.
    - destruct ds as [|x ds']; [done|]. intros E. specialize (Hin x ltac:(left)). rewrite E in Hin.
      by apply not_elem_of_nil in Hin.
    - intros n ([x m] & -> & [_ ->]%elem_of_counter)%list_elem_of_fmap. unfold occurrences_of. simpl. lia. }
  apply list_elem_of_fmap in Hm as ([x n] & Hm & Hx). exists x. simpl in Hm. rewrite Hm.
  apply elem_of_counter in Hx as [? ->]. done.
Qed.
(** The duration is the longest of the most frequent ones. *)
Lemma block_duration_modal spans :
  spans ≠ [] →
  let d := block_duration_seconds spans in
  d ∈ durations spans ∧
  ∀ x, x ∈ durations spans →
    occurrences_of x (durations spans) ≤ occurrences_of d (durations spans) ∧
    (occurrences_of x (durations spans) = occurrences_of d (durations spans) → x ≤ d).
Proof.
  intros Hs. unfold block_duration_seconds. fold (durations spans). cbv zeta.
  assert (durations spans ≠ []) as Hd by (by destruct spans).
  assert (∀ x, x ∈ durations spans → 0 ≤ x) as Hpos.
  { intros x (p & -> & _)%list_elem_of_fmap. unfold span_seconds. lia. }
  revert Hd Hpos. generalize (durations spans) as ds. clear Hs. intros ds Hds Hpos.
  destruct (top_count ds Hds) as (Hle & t & Ht & Htop).
  assert (∀ x, x ∈ fst <$> select (λ p, p.2 =? zmax (counter ds).*2) (counter ds) ↔
    x ∈ ds ∧ occurrences_of x ds = zmax (counter ds).*2) as Hm.
  { intros x. rewrite list_elem_of_fmap. split.
    - intros ([y n] & -> & [[Hy ->]%elem_of_counter Hn]%elem_of_select). simpl in *. b2p. done.
    - intros [Hx Hn]. exists (x, occurrences_of x ds). rewrite elem_of_select, elem_of_counter. simpl. b2p. done. }
  set (modes := fst <$> _) in *.
  assert (zmax modes ∈ modes) as [Hin Hocc]%Hm.
  { apply zmax_elem; [|intros x [Hx _]%Hm; by apply Hpos]. intros E. rewrite E in Hm.
    by apply (not_elem_of_nil t), Hm. }
  split; [done|]. intros x Hx. rewrite Hocc. split; [by apply Hle|]. intros Hxo. by apply zmax_ge, Hm.
Qed.

(** The ladder has one block for each start time of the term's active classes, in
    order. *)
Lemma ladder_spec db t blocks :
  campus_block_ladder db (Some t) = Some blocks →
  NoDup (cb_start <$> blocks) ∧ StronglySorted (λ a b, cb_start a ≤ cb_start b) blocks ∧
  (∀ x, x ∈ cb_start <$> blocks ↔ x ∈ sch_start <$> active_schedules db t) ∧
  ∀ b, b ∈ blocks → cb_seconds b = block_duration_seconds
    ((λ s, (sch_start s, sch_end s))
       <$> select (λ s, bool_decide (sch_start s = cb_start b)) (active_schedules db t)).
Proof.
  unfold campus_block_ladder. set (spans := spans_by_start db t). intros H.
  assert (blocks = (λ p, mk_block p.1 (block_duration_seconds p.2))
    <$> sort_by (λ a b, a.1 <=? b.1) spans) as -> by (destruct spans; congruence). clear H.
  assert (cb_start <$> ((λ p, mk_block p.1 (block_duration_seconds p.2)) <$> sort_by (λ a b, a.1 <=? b.1) spans)
    ≡ₚ spans.*1) as Hst by (rewrite <- list_fmap_compose; by rewrite sort_by_perm).
  destruct (dict_group_spec sch_start (λ s, (sch_start s, sch_end s)) (active_schedules db t)) as (Hnd & Hk & _).
  split_and!.
  - by rewrite Hst.
  - assert (StronglySorted (λ a b, (a.1 <=? b.1) = true) (sort_by (λ a b, a.1 <=? b.1) spans)) as Hs
      by (apply sort_by_sorted; intros; lia).
    clear -Hs. induction Hs as [|p l Hl IH Hp]; [constructor|]. rewrite fmap_cons. constructor; [done|].
    apply Forall_fmap. eapply Forall_impl; [exact Hp|]. intros q Hq. simpl in *. lia.
  - intros x. rewrite Hst, !list_elem_of_fmap. split.
    + intros (p & -> & Hp). apply Hk in Hp as (s & Hs & Heq). by exists s.
    + intros (s & -> & Hs). eexists. split; [|by apply dict_group_has]. done.
  - intros b (p & -> & Hp)%list_elem_of_fmap. rewrite elem_of_sort_by in Hp.
    apply dict_group_elem in Hp. simpl. by rewrite Hp.
Qed.

(** ** The cells, and their capacity *)
Definition cell_key (c : TimetabledCell) : Z * Z := (tc_day c, tc_start c).
Lemma duration_get blocks b :
  NoDup (cb_start <$> blocks) → b ∈ blocks →
  dict_getd (duration_by_start blocks) (cb_start b) 0 = cb_seconds b.
Proof.
  intros Hnd Hb. unfold duration_by_start, dict_getd. rewrite (dict_fill cb_start cb_seconds) by done.
  rewrite (dict_elem_get _ _ (cb_seconds b)); [done| |].
  - rewrite app_nil_l, <- list_fmap_compose. done.
  - apply list_elem_of_fmap. by exists b.
Qed.
(** One cell for each weekday and start time of an active class, as long as the
    block of its start. *)
Lemma cells_spec db t blocks :
  campus_block_ladder db (Some t) = Some blocks →
  let cells := timetabled_cells db (Some t) in
  NoDup (cell_key <$> cells) ∧
  (∀ k, k ∈ cell_key <$> cells ↔
     ∃ s, s ∈ active_schedules db t ∧ k = (sch_day s, sch_start s)) ∧
  cells = (λ k, mk_cell k.1 k.2 (dict_getd (duration_by_start blocks) k.2 0)) <$> (cell_key <$> cells).
Proof.
  intros Hb. unfold timetabled_cells. rewrite Hb. set (pairs := sort_by _ _). cbv zeta.
  assert (cell_key <$> ((λ p, mk_cell p.1 p.2 (dict_getd (duration_by_start blocks) p.2 0)) <$> pairs) = pairs) as Hk.
  { rewrite <- list_fmap_compose. rewrite (list_fmap_ext _ id); [by rewrite list_fmap_id|]. by intros i [d st] _. }
  rewrite Hk. split_and!; [| |done].
  - unfold pairs. rewrite sort_by_perm. apply NoDup_remove_dups.
  - intros k. unfold pairs. rewrite elem_of_sort_by, elem_of_remove_dups, list_elem_of_fmap.
    split; intros (s & H1 & H2); by exists s.
Qed.
Lemma no_cells db term : campus_block_ladder db term = None → timetabled_cells db term = [].
Proof. unfold timetabled_cells. destruct term; [|done]. by intros ->. Qed.

Lemma occurrences_get start end_ as_of w :
  dict_getd (weekday_occurrences start end_ as_of) w 0 =
  zsum ((λ d, if PyTime.weekday d =? w then 1 else 0) <$> range_days start end_ as_of).
Proof.
  unfold weekday_occurrences. rewrite (dict_counter PyTime.weekday (λ _, 1)).
  rewrite <- zsum_select. apply zsum_fmap_ext. intros d _.
  by destruct (Z.eqb_spec (PyTime.weekday d) w); case_bool_decide.
Qed.
(** The capacity of one room: each cell once per occurrence of its weekday. *)
Lemma capacity_by_cell db term start end_ as_of :
  cell_seconds (range_cell_shape db term start end_ as_of) =
  zsum ((λ c, tc_seconds c * dict_getd (weekday_occurrences start end_ as_of) (tc_day c) 0)
          <$> timetabled_cells db term).
Proof.
  rewrite cell_shape_sum. cbn [cell_seconds]. set (days := range_days start end_ as_of).
  rewrite (zsum_fmap_ext _ (λ d, zsum ((λ c, if tc_day c =? PyTime.weekday d then tc_seconds c else 0)
    <$> timetabled_cells db term))) by (intros; unfold cells_on; by rewrite <- zsum_select).
  rewrite zsum_swap. apply zsum_fmap_ext. intros c _. rewrite occurrences_get. fold days.
  rewrite <- zsum_scale. apply zsum_fmap_ext. intros d _.
  rewrite Z.eqb_sym. destruct (_ =? _); lia.
Qed.

(** ** The grid: every second of the sessions, and every cell of the capacity *)
Lemma add_to_last_sum x l : l ≠ [] → zsum (add_to_last x l) = zsum l + x.
Proof.
  induction l as [|y l IH]; [done|]. intros _. destruct l as [|z l]; [simpl; lia|].
  change (add_to_last x (y :: z :: l)) with (y :: add_to_last x (z :: l)).
  rewrite !zsum_cons, IH by done. rewrite zsum_cons. lia.
Qed.
Lemma add_to_last_length x l : length (add_to_last x l) = length l.
Proof.
  induction l as [|y l IH]; [done|]. destruct l as [|z l]; [done|].
  change (add_to_last x (y :: z :: l)) with (y :: add_to_last x (z :: l)). simpl in *. by rewrite IH.
Qed.
(** Splitting loses nothing. *)
Lemma distribute_exact total weights :
  length (distribute total weights) = length weights ∧
  (weights ≠ [] → zsum (distribute total weights) = total).
Proof.
  destruct weights as [|w [|w' ws]]; [done|split; [done|intros _; cbn; lia]|].
  unfold distribute. rewrite add_to_last_length, length_fmap. split; [done|]. intros _.
  rewrite add_to_last_sum by done. lia.
Qed.

Section grid.
Context (db : DB) (blocks : list CampusBlock).
Let n : nat := length blocks.
Definition grid_keys : list (Z * Z) := cross pair (Z.of_nat <$> seq 0 n) DAYS.
Lemma grid_keys_NoDup : NoDup grid_keys.
Proof using.
  apply cross_NoDup; [apply _| |].
  - apply NoDup_fmap_2; [apply _|]. apply NoDup_seq.
  - apply (bool_decide_unpack _). vm_compute. exact I.
Qed.
Lemma block_index_bound st : blocks ≠ [] → 0 ≤ dict_getd (block_index blocks) st 0 < Z.of_nat n.
Proof using.
  intros Hne. assert (0 < n)%nat as Hn by (unfold n; by destruct blocks; [|simpl; lia]).
  assert (∀ l d, (∀ p, p ∈ l → (p.1 < n)%nat) →
    (∀ v, v ∈ d.*2 → 0 ≤ v < Z.of_nat n) →
    ∀ v, v ∈ (foldl (λ d p, dict_set d (cb_start p.2) (Z.of_nat p.1)) d l).*2 → 0 ≤ v < Z.of_nat n) as Hf.
  { induction l as [|p l IH]; intros d Hl Hd v; [apply Hd|]. apply IH; [intros; apply Hl; by right|].
    clear v. specialize (Hl p ltac:(left)). clear IH. revert Hd. induction d as [|[k w] d IH]; intros Hd v.
    - intros ->%list_elem_of_singleton. simpl. lia.
    - cbn [dict_set]. case_bool_decide; rewrite fmap_cons; intros [->|Hv]%elem_of_cons.
      + simpl. lia.
      + apply Hd. by right.
      + apply Hd. left.
      + apply IH; [|done]. intros; apply Hd. by right. }
  unfold dict_getd. destruct (dict_get (block_index blocks) st) as [v|] eqn:E; simpl; [|lia].
  eapply Hf; [| |apply list_elem_of_fmap; exists (st, v); split; [reflexivity|by apply dict_get_elem]].
  - intros p (i & b & -> & Hi)%elem_of_lookup_imap. by apply lookup_lt_Some in Hi.
  - intros v' ?%not_elem_of_nil. done.
Qed.

(** The seconds recorded by adding the parts of one session to a day. *)
Definition acc_used : dict (Z * Z) CellAcc → Z := dict_zsum ca_used.
Definition acc_booked : dict (Z * Z) CellAcc → Z := dict_zsum ca_booked.
Definition good_acc (acc : dict (Z * Z) CellAcc) : Prop := NoDup acc.*1 ∧ acc.*1 ⊆ grid_keys.
Lemma add_part_spec day room acc p :
  acc_booked (add_part day room acc p) = acc_booked acc + p.2.1 ∧
  acc_used (add_part day room acc p) = acc_used acc + p.2.2 ∧
  (good_acc acc → 0 ≤ p.1 < Z.of_nat n → day ∈ DAYS → good_acc (add_part day room acc p)).
Proof using.
  destruct p as [i [pb pu]]. unfold add_part, acc_booked, acc_used. cbn [fst snd].
  rewrite !(dict_zsum_set _ no_acc) by done. cbn [ca_booked ca_used]. split_and!; [lia|lia|].
  intros [Hnd Hsub] Hi Hd. split; [by apply dict_set_NoDup|]. rewrite dict_set_keys.
  case_bool_decide; [done|]. apply list_subseteq_app_iff_l. split; [done|].
  intros k ->%list_elem_of_singleton. apply elem_of_cross. exists i, day. split_and!; [done| |done].
  apply list_elem_of_fmap. exists (Z.to_nat i). split; [lia|]. apply elem_of_seq. lia.
Qed.
Lemma add_parts_spec day room ps acc :
  acc_booked (foldl (add_part day room) acc ps) = acc_booked acc + zsum ((λ p, p.2.1) <$> ps) ∧
  acc_used (foldl (add_part day room) acc ps) = acc_used acc + zsum ((λ p, p.2.2) <$> ps) ∧
  (good_acc acc → (∀ p, p ∈ ps → 0 ≤ p.1 < Z.of_nat n) → day ∈ DAYS →
   good_acc (foldl (add_part day room) acc ps)).
Proof using.
  revert acc. induction ps as [|p ps IH]; intros acc; [cbn [foldl]; rewrite !fmap_nil; cbn [zsum foldr]; split_and!; [lia|lia|done]|].
  cbn [foldl]. destruct (IH (add_part day room acc p)) as (-> & -> & Hg). clear IH.
  destruct (add_part_spec day room acc p) as (-> & -> & Hg'). rewrite !fmap_cons, !zsum_cons.
  split_and!; [lia|lia|]. intros Ha Hp Hd. apply Hg; [|intros; apply Hp; by right|done].
  apply Hg'; [done|apply Hp; left|done].
Qed.

(** A session is on the grid when its class meets on a weekday and occupies a block. *)
Definition on_grid (s : Session) : Prop :=
  ∃ sch, by_pk (db_schedules db) (ses_schedule s) = Some sch ∧ sch_day sch ∈ DAYS ∧
    occupied_blocks blocks (sch_start sch) (sch_end sch) ≠ [].
Lemma zip_fst_snd (xs ys zs : list Z) :
  length ys = length xs → length zs = length xs →
  zsum ((λ p : Z * (Z * Z), p.2.1) <$> zip xs (zip ys zs)) = zsum ys ∧
  zsum ((λ p : Z * (Z * Z), p.2.2) <$> zip xs (zip ys zs)) = zsum zs.
Proof using.
  revert ys zs. induction xs as [|x xs IH]; intros [|y ys] [|z zs] H1 H2; try done.
  injection H1 as H1. injection H2 as H2. destruct (IH ys zs H1 H2) as [E1 E2].
  change (zip (x :: xs) (zip (y :: ys) (z :: zs))) with ((x, (y, z)) :: zip xs (zip ys zs)).
  rewrite !fmap_cons, !zsum_cons, E1, E2. done.
Qed.
Lemma add_to_grid_spec acc s :
  on_grid s → good_acc acc →
  good_acc (add_to_grid db blocks acc s) ∧
  acc_booked (add_to_grid db blocks acc s) = acc_booked acc + booked_of s ∧
  acc_used (add_to_grid db blocks acc s) = acc_used acc + used_of s.
Proof using.
  intros (sch & Hsch & Hday & Hocc) Hacc. unfold add_to_grid. pose proof (running_zero s) as Hz.
  unfold counted, booked_of, used_of in *.
  destruct (c_running (session_contribution s)); [destruct (Hz eq_refl) as [-> ->]; split_and!; [done|lia|lia]|].
  rewrite Hsch. set (occ := occupied_blocks _ _ _) in *. clear Hz.
  set (idx := (λ b, dict_getd (block_index blocks) (cb_start b) 0) <$> occ).
  destruct (distribute_exact (c_booked (session_contribution s)) (weight <$> occ)) as [Hl1 Hs1].
  destruct (distribute_exact (c_used (session_contribution s)) (weight <$> occ)) as [Hl2 Hs2].
  rewrite length_fmap in Hl1, Hl2. assert (weight <$> occ ≠ []) as Hw by (by destruct occ).
  specialize (Hs1 Hw). specialize (Hs2 Hw).
  destruct (add_parts_spec (sch_day sch) (ses_room s) (zip idx (zip (distribute (c_booked (session_contribution s)) (weight <$> occ))
    (distribute (c_used (session_contribution s)) (weight <$> occ)))) acc) as (-> & -> & Hg).
  destruct (zip_fst_snd idx (distribute (c_booked (session_contribution s)) (weight <$> occ))
    (distribute (c_used (session_contribution s)) (weight <$> occ))) as [-> ->];
    [by unfold idx; rewrite length_fmap|by unfold idx; rewrite length_fmap|].
  split_and!; [|lia|lia]. apply Hg; [done| |done]. intros [i p] Hp%elem_of_zip_l.
  apply list_elem_of_fmap in Hp as (b & -> & Hb). apply block_index_bound.
  intros E. apply Hocc. unfold occ, occupied_blocks. by rewrite E.
Qed.
Lemma grid_acc_spec qs :
  (∀ s, s ∈ qs → on_grid s) →
  good_acc (grid_acc db blocks qs) ∧ acc_booked (grid_acc db blocks qs) = zsum (booked_of <$> qs) ∧
  acc_used (grid_acc db blocks qs) = zsum (used_of <$> qs).
Proof using.
  unfold grid_acc. induction qs as [|s qs IH] using rev_ind; intros Hqs.
  - split_and!; [|done|done]. split; [apply NoDup_nil_2|]. apply list_subseteq_nil.
  - rewrite foldl_app, !fmap_app, !zsum_app. cbn [foldl].
    destruct IH as (Hg & Hb & Hu); [intros; apply Hqs, elem_of_app; by left|].
    destruct (add_to_grid_spec (foldl (add_to_grid db blocks) [] qs) s) as (? & -> & ->);
      [apply Hqs, elem_of_app; right; left|done|].
    rewrite Hb, Hu. cbn. split_and!; [done|lia|lia].
Qed.
End grid.

(** ** Rounding sums of hours *)
Lemma hours_spec x : -180 ≤ 360 * hours x - x ≤ 180.
Proof. unfold hours. pose proof (round_half_up_spec (10 * x) 3600 ltac:(lia)). lia. Qed.
Lemma hours_sum {A} (g : A → Z) l :
  let slack := Z.of_nat (length l) + 1 in
  - slack ≤ 2 * (zsum ((λ x, hours (g x)) <$> l) - hours (zsum (g <$> l))) ≤ slack.
Proof.
  assert (- (180 * Z.of_nat (length l)) ≤ 360 * zsum ((λ x, hours (g x)) <$> l) - zsum (g <$> l)
    ≤ 180 * Z.of_nat (length l)) as H.
  { induction l as [|x l IH]; [cbn; lia|]. rewrite !fmap_cons, !zsum_cons. cbn [length].
    pose proof (hours_spec (g x)). lia. }
  pose proof (hours_spec (zsum (g <$> l))). lia.
Qed.

Lemma elem_of_days d : d ∈ DAYS ↔ 0 ≤ d ≤ 6.
Proof. unfold DAYS. rewrite !elem_of_cons, elem_of_nil. lia. Qed.
Lemma elem_of_active db t sch :
  sch ∈ active_schedules db t ↔ sch ∈ db_schedules db ∧ sch_term sch = t ∧ sch_status sch = SCH_ACTIVE.
Proof. unfold active_schedules. rewrite elem_of_select. b2p. tauto. Qed.

Section heat_facts.
Context (db : DB) (t start end_ : Z) (as_of : option Z) (blocks : list CampusBlock).
Context (Hblocks : campus_block_ladder db (Some t) = Some blocks).
Context (Hclass : ∀ sch, sch ∈ active_schedules db t →
  sch_start sch < sch_end sch ∧ 0 ≤ sch_day sch ≤ 6).
Let qs := room_sessions db (Some t) start end_ as_of.
Let cells := timetabled_cells db (Some t).
Let occurrences := weekday_occurrences start end_ as_of.
Let rooms := Z.of_nat (length (physical_rooms db)).
Let acc := grid_acc db blocks qs.
Let pairs := (λ c, (tc_day c, tc_start c)) <$> cells.
Let idx : list (nat * CampusBlock) := imap pair blocks.

Lemma sessions_on_grid s : s ∈ qs → on_grid db blocks s.
Proof using Hblocks Hclass.
  intros [Hs _]%elem_of_select. apply elem_of_select in Hs as [_ Hs]. unfold in_sc in Hs.
  apply andb_true_iff in Hs as [Hs _]. apply andb_true_iff in Hs as [Hs _].
  apply andb_true_iff in Hs as [Hs _]. apply andb_true_iff in Hs as [_ Hs].
  unfold on_active_schedule in Hs. simpl in Hs.
  destruct (by_pk (db_schedules db) (ses_schedule s)) as [sch|] eqn:Esch; [|done].
  b2p. destruct Hs as [[= Ht] Hst]. assert (sch ∈ active_schedules db t) as Hin.
  { apply elem_of_active. split; [apply by_pk_elem in Esch; tauto|done]. }
  destruct (Hclass sch Hin) as [Hlt Hday]. exists sch. split_and!; [done|by apply elem_of_days|].
  destruct (ladder_spec db t blocks Hblocks) as (_ & _ & Hstarts & _).
  assert (sch_start sch ∈ cb_start <$> blocks) as (b & Hb & Hbin)%list_elem_of_fmap
    by (apply Hstarts, list_elem_of_fmap; eauto).
  intros E. unfold occupied_blocks in E. rewrite select_nil in E. specialize (E b Hbin). simpl in E. lia.
Qed.
Lemma idx_snd : snd <$> idx = blocks.
Proof using.
  unfold idx. rewrite fmap_imap. etransitivity; [apply (imap_const id)|apply list_fmap_id].
Qed.
Lemma idx_fst : fst <$> idx = seq 0 (length blocks).
Proof using.
  unfold idx. rewrite fmap_imap. etransitivity; [apply (imap_seq_0 blocks id)|apply list_fmap_id].
Qed.
Definition cell_at (c : (nat * CampusBlock) * Z) : HeatCell :=
  heat_cell rooms pairs occurrences acc c.1.1 c.1.2 c.2.
Lemma grid_cells grid :
  room_heat_grid db (Some t) start end_ as_of = Some grid →
  grid ≫= hr_cells = cell_at <$> cross pair idx DAYS.
Proof using Hblocks.
  clear Hclass.
  unfold room_heat_grid. rewrite Hblocks. simpl. fold cells rooms occurrences qs. fold acc. fold pairs.
  intros [= <-]. rewrite fmap_cross. unfold cross, idx.
  assert (∀ (k : nat) bs, imap (λ i block, mk_heat_row block (heat_cell rooms pairs occurrences acc (k + i)%nat block <$> DAYS)) bs ≫= hr_cells
    = imap (λ i b, ((k + i)%nat, b)) bs ≫= λ p, (λ d, cell_at (p, d)) <$> DAYS) as Hg.
  { intros k bs. revert k. induction bs as [|b bs IH]; intros k; [done|]. rewrite !imap_cons, !bind_cons.
    f_equal. unfold compose. etransitivity; [|etransitivity; [apply (IH (S k))|]].
    - f_equal. apply imap_ext. intros i x _. by rewrite Nat.add_succ_r.
    - f_equal. apply imap_ext. intros i x _. by rewrite Nat.add_succ_r. }
  apply (Hg 0%nat).
Qed.
Lemma cells_length : length (cross pair idx DAYS) = (7 * length blocks)%nat.
Proof using. clear. rewrite length_cross. unfold idx. rewrite length_imap. simpl. lia. Qed.
(** Summing an accumulator over the cells sums it over its keys. *)
Lemma cells_acc (f : CellAcc → Z) :
  f no_acc = 0 →
  zsum ((λ c, f (dict_getd acc (Z.of_nat c.1.1, c.2) no_acc)) <$> cross pair idx DAYS) = dict_zsum f acc.
Proof using Hblocks Hclass.
  intros Hf. destruct (grid_acc_spec db blocks qs sessions_on_grid) as ([Hnd Hsub] & _).
  rewrite <- (dict_zsum_keys f no_acc Hf acc (grid_keys blocks)); [|done|apply grid_keys_NoDup|done].
  unfold grid_keys. rewrite <- idx_fst, <- list_fmap_compose, cross_fmap.
  by rewrite !fmap_cross.
Qed.
Lemma cells_available :
  zsum ((λ c, cell_available rooms pairs occurrences c.1.2 c.2) <$> cross pair idx DAYS) =
  rooms * cell_seconds (range_cell_shape db (Some t) start end_ as_of).
Proof using Hblocks Hclass.
  destruct (ladder_spec db t blocks Hblocks) as (Hnd & _ & Hstarts & _).
  destruct (cells_spec db t blocks Hblocks) as (Hpnd & Hpin & Hpc). fold cells in Hpnd, Hpin, Hpc.
  set (h := λ k : Z * Z, rooms * (dict_getd (duration_by_start blocks) k.2 0 * dict_getd occurrences k.1 0)).
  transitivity (zsum ((λ k, if bool_decide (k ∈ pairs) then h k else 0)
    <$> cross (λ st d, (d, st)) (cb_start <$> blocks) DAYS)).
  - rewrite !zsum_cross. rewrite <- idx_snd at 1. rewrite <- !list_fmap_compose.
    apply zsum_fmap_ext. intros [i b] Hp. apply zsum_fmap_ext. intros d _. unfold cell_available, h. simpl.
    rewrite duration_get; [by destruct (bool_decide _); [ring|]|done|].
    rewrite <- idx_snd. apply list_elem_of_fmap. by exists (i, b).
  - rewrite zsum_within; [|exact Hpnd| |].
    + rewrite capacity_by_cell, <- zsum_scale. unfold pairs. rewrite <- list_fmap_compose.
      fold cells. rewrite Hpc at 2. rewrite <- list_fmap_compose. unfold cell_key.
      rewrite <- list_fmap_compose. done.
    + apply cross_NoDup; [|done|apply (bool_decide_unpack _); vm_compute; exact I].
      intros ? ? ? ? [= -> ->]. done.
    + intros [d st] (sch & Hsch & [= -> ->])%Hpin. apply elem_of_cross. exists (sch_start sch), (sch_day sch).
      destruct (Hclass sch Hsch). split_and!; [done| |by apply elem_of_days].
      apply Hstarts, list_elem_of_fmap. eauto.
Qed.
(** A figure rounded cell by cell is near the rounded total. *)
Lemma cells_near grid (f : HeatCell → Z) (g : (nat * CampusBlock) * Z → Z) total :
  room_heat_grid db (Some t) start end_ as_of = Some grid →
  (∀ c, f (cell_at c) = hours (g c)) → zsum (g <$> cross pair idx DAYS) = total →
  2 * Z.abs (zsum (f <$> (grid ≫= hr_cells)) - hours total)
    ≤ Z.of_nat (length (grid ≫= hr_cells)) + 1.
Proof using Hblocks.
  clear Hclass. intros Hgrid Hf <-. rewrite (grid_cells grid Hgrid), length_fmap, <- list_fmap_compose.
  rewrite (list_fmap_ext _ (λ c, hours (g c))) by (intros; apply Hf).
  pose proof (hours_sum g (cross pair idx DAYS)) as H. cbv zeta beta in H. lia.
Qed.
End heat_facts.
Lemma saturation_sum db term start end_ as_of grid (f : BlockLoad → Z) (g : HeatCell → Z) :
  room_heat_grid db term start end_ as_of = Some grid →
  (∀ row, f (block_load row) = zsum (g <$> hr_cells row)) →
  zsum (f <$> block_saturation db term start end_ as_of) = zsum (g <$> (grid ≫= hr_cells)).
Proof.
  intros Hgrid Hf. unfold block_saturation. rewrite Hgrid, sort_by_perm, <- list_fmap_compose, zsum_bind.
  apply zsum_fmap_ext. intros row _. apply Hf.
Qed.

(** ** The ladder and the card *)
Lemma ladder_None db t : campus_block_ladder db (Some t) = None ↔ active_schedules db t = [].
Proof.
  unfold campus_block_ladder, spans_by_start. split; [|by intros ->].
  destruct (dict_group_spec sch_start (λ s, (sch_start s, sch_end s)) (active_schedules db t)) as (_ & _ & _).
  intros H. destruct (active_schedules db t) as [|s l] eqn:E; [done|].
  assert (s ∈ s :: l) as Hin by left. apply (dict_group_has sch_start (λ s, (sch_start s, sch_end s))) in Hin.
  by destruct (dict_group _ _ _); [apply not_elem_of_nil in Hin|].
Qed.
(** The durations of the classes that start a block. *)
Definition durations_at (db : DB) (t start : Z) : list Z :=
  (λ s, span_seconds (sch_start s) (sch_end s))
    <$> select (λ s, bool_decide (sch_start s = start)) (active_schedules db t).

(** The block ladder is the timetable's own: there is none exactly when the term
    has no active class; otherwise it has one block for each start time of an active
    class, in order and without repeats, and a block lasts as long as most of the
    classes that start it, the longest on a tie.  The cells are the weekdays and
    start times of the active classes, each as long as its block. *)
Theorem ladder_exact db t :
  (campus_block_ladder db (Some t) = None ↔ active_schedules db t = []) ∧
  ∀ blocks, campus_block_ladder db (Some t) = Some blocks →
    NoDup (cb_start <$> blocks) ∧ StronglySorted (λ a b, cb_start a ≤ cb_start b) blocks ∧
    (∀ x, x ∈ cb_start <$> blocks ↔ x ∈ sch_start <$> active_schedules db t) ∧
    (∀ b, b ∈ blocks →
       let ds := durations_at db t (cb_start b) in
       cb_seconds b ∈ ds ∧
       ∀ x, x ∈ ds → occurrences_of x ds ≤ occurrences_of (cb_seconds b) ds ∧
                     (occurrences_of x ds = occurrences_of (cb_seconds b) ds → x ≤ cb_seconds b)) ∧
    let cells := timetabled_cells db (Some t) in
    NoDup (cell_key <$> cells) ∧
    (∀ k, k ∈ cell_key <$> cells ↔ ∃ s, s ∈ active_schedules db t ∧ k = (sch_day s, sch_start s)) ∧
    ∀ c b, c ∈ cells → b ∈ blocks → tc_start c = cb_start b → tc_seconds c = cb_seconds b.
Proof.
  split; [apply ladder_None|]. intros blocks Hb.
  destruct (ladder_spec db t blocks Hb) as (H1 & H2 & H3 & H4).
  destruct (cells_spec db t blocks Hb) as (C1 & C2 & C3). split_and!; try done.
  - intros b Hin. cbv zeta. rewrite (H4 b Hin).
    assert (durations_at db t (cb_start b) = durations ((λ s, (sch_start s, sch_end s))
      <$> select (λ s, bool_decide (sch_start s = cb_start b)) (active_schedules db t))) as ->
      by (unfold durations_at, durations; by rewrite <- list_fmap_compose).
    apply block_duration_modal. assert (cb_start b ∈ cb_start <$> blocks) as Hs
      by (apply list_elem_of_fmap; eauto).
    apply H3, list_elem_of_fmap in Hs as (s & Hs & Hsin). intros E%fmap_nil_inv.
    apply select_nil with (x := s) in E; [|done]. by rewrite Hs, bool_decide_true in E.
  - split; [done|split; [done|]]. intros c b Hc Hbin Heq. rewrite C3 in Hc. apply list_elem_of_fmap in Hc as (k & -> & _).
    simpl in *. rewrite Heq. by apply duration_get.
Qed.

Lemma absent_unused s : has_status ABSENT s = true → used_of s = 0.
Proof.
  unfold used_of, session_contribution. intros H. destruct (has_status CANCELLED s); [done|].
  destruct (_ && _ && _); [done|]. by rewrite H.
Qed.
(** Neither absent nor held: not met yet, or cancelled. *)
Definition pending (s : Session) : bool := negb (has_status ABSENT s) && negb (is_held s).

(** The campus card accounts for every second.  Its capacity is one cell's
    duration for each physical room, each day of the range up to [as_of] and each
    cell of that weekday; its booked and used time are the sums over the sessions in
    rooms that are not virtual; a session never uses more than it booked; and the
    booked time is the used time, the wasted time of absences and of held classes,
    and the time of classes still to meet. *)
Theorem utilization_exact db term start end_ as_of :
  let u := room_utilization db term start end_ as_of in
  let qs := room_sessions db term start end_ as_of in
  let cells := timetabled_cells db term in
  let days := range_days start end_ as_of in
  let wasted := zsum (booked_of <$> select (has_status ABSENT) qs)
                + zsum (unused_of <$> select unused_held qs) in
  NoDup days ∧
  (∀ d, d ∈ days ↔ start ≤ d ≤ end_ ∧ match as_of with Some a => d ≤ a | None => True end) ∧
  ru_available_hours u = hours (Z.of_nat (length (physical_rooms db))
    * zsum ((λ d, zsum (tc_seconds <$> cells_on cells d)) <$> days)) ∧
  ru_teaching_days u = zsum ((λ d, b2z (negb (bool_decide (cells_on cells d = [])))) <$> days) ∧
  ru_timetabled_cells u = zsum ((λ d, Z.of_nat (length (cells_on cells d))) <$> days) ∧
  ru_booked_hours u = hours (zsum (booked_of <$> qs)) ∧
  ru_used_hours u = hours (zsum (used_of <$> qs)) ∧ ru_wasted_hours u = hours wasted ∧
  zsum (booked_of <$> qs) =
    zsum (used_of <$> qs) + wasted + zsum (unused_of <$> select pending qs) ∧
  (∀ s, 0 ≤ used_of s ≤ booked_of s) ∧
  ru_in_flight u = count (λ s, negb (counted s)) qs ∧
  ru_absent_sessions u = count (λ s, counted s && has_status ABSENT s) qs.
Proof.
  cbv zeta. unfold room_utilization. rewrite cell_shape_sum.
  destruct (tally_seconds (room_sessions db term start end_ as_of)) as (-> & -> & -> & -> & -> & ->).
  cbn [ru_available_hours ru_teaching_days ru_timetabled_cells ru_booked_hours ru_used_hours
    ru_wasted_hours ru_in_flight ru_absent_sessions teaching_days cell_count cell_seconds].
  split_and!; try done; try apply contribution_bounds; try apply elem_of_range_days.
  - rewrite range_days_seq. apply NoDup_seqZ.
  - set (qs := room_sessions _ _ _ _ _). rewrite <- !zsum_select, <- !zsum_fmap_add. apply zsum_fmap_ext.
    intros s _. pose proof (absent_unused s) as Ha. unfold unused_held, pending, unused_of.
    destruct (has_status ABSENT s), (is_held s); simpl; try lia; rewrite Ha by done; lia.
Qed.

(** C15: the grid and the card of one page agree: over the classes that meet on a
    weekday and end after they start, the seconds distributed over the cells are
    exactly the card's, the hours shown differ from the card's by at most half a
    tenth for each figure rounded, the capacity too, a cell nobody timetables has no
    capacity, and the ranking of the blocks shows the grid's own sums. *)
Theorem heat_grid_reconciles db t start end_ as_of grid :
  room_heat_grid db (Some t) start end_ as_of = Some grid →
  (∀ sch, sch ∈ active_schedules db t → sch_start sch < sch_end sch ∧ 0 ≤ sch_day sch ≤ 6) →
  let u := room_utilization db (Some t) start end_ as_of in
  let qs := room_sessions db (Some t) start end_ as_of in
  let cells := grid ≫= hr_cells in
  let near x y := 2 * Z.abs (x - y) ≤ Z.of_nat (length cells) + 1 in
  (∃ blocks, campus_block_ladder db (Some t) = Some blocks ∧ length cells = (7 * length blocks)%nat ∧
     let acc := grid_acc db blocks qs in
     dict_zsum ca_used acc = t_used (room_tally qs) ∧
     dict_zsum ca_booked acc = t_booked (room_tally qs)) ∧
  near (zsum (hc_used <$> cells)) (ru_used_hours u) ∧
  near (zsum (hc_booked <$> cells)) (ru_booked_hours u) ∧
  near (zsum (hc_available <$> cells)) (ru_available_hours u) ∧
  (∀ c, c ∈ cells → hc_timetabled c = false → hc_available c = 0 ∧ hc_pct c = 0) ∧
  zsum (bl_used <$> block_saturation db (Some t) start end_ as_of) = zsum (hc_used <$> cells) ∧
  zsum (bl_sessions <$> block_saturation db (Some t) start end_ as_of) = zsum (hc_sessions <$> cells).
Proof.
  intros Hgrid Hclass. cbv zeta. destruct (campus_block_ladder db (Some t)) as [blocks|] eqn:Hb;
    [|unfold room_heat_grid in Hgrid; by rewrite Hb in Hgrid].
  set (qs := room_sessions db (Some t) start end_ as_of).
  destruct (grid_acc_spec db blocks qs) as (_ & Hbooked & Hused).
  { intros s. by apply (sessions_on_grid db t start end_ as_of). }
  destruct (tally_seconds qs) as (Etb & Etu & _).
  pose proof (cells_acc db t start end_ as_of blocks Hb Hclass) as Hacc.
  pose proof (cells_near db t start end_ as_of blocks Hb grid) as Hnear.
  pose proof (grid_cells db t start end_ as_of blocks Hb grid Hgrid) as Hcells.
  split_and!.
  - exists blocks. split_and!; [done| |by rewrite Etu|by rewrite Etb].
    rewrite Hcells, length_fmap. apply cells_length.
  - unfold room_utilization. cbn [ru_used_hours]. fold qs. rewrite Etu, <- Hused.
    eapply Hnear; [done|by intros c|by apply Hacc].
  - unfold room_utilization. cbn [ru_booked_hours]. fold qs. rewrite Etb, <- Hbooked.
    eapply Hnear; [done|by intros c|by apply Hacc].
  - eapply Hnear; [done|by intros c|]. by apply cells_available.
  - intros c Hc Ht. rewrite Hcells in Hc. apply list_elem_of_fmap in Hc as (x & -> & _).
    unfold cell_at, heat_cell, cell_available in *. simpl in *. by rewrite Ht.
  - by apply saturation_sum.
  - by apply saturation_sum.
Qed.

(** ** Witnesses *)

(** Three Mondays of the sample class: one held from 9:14 in room 1, one missed, one
    held in a room that has since closed. *)
Definition closed_room : Room := (demo_room 3 "M-103") <| room_out_of_service := true |>.
Definition demo_use : DB :=
  demo_db <| db_rooms := [demo_room 1 "M-101"; demo_room 2 "M-102"; closed_room] |>
          <| db_sessions :=
               [(demo_session 1 monday COMPLETED) <| ses_actual_start := Some (at_ 9 14) |>
                                                  <| ses_actual_end := Some (at_ 10 30) |>;
                demo_session 2 (monday + 7) ABSENT;
                (demo_session 3 (monday + 14) COMPLETED)
                  <| ses_room := 3 |>
                  <| ses_actual_start := Some (PyTime.aware (monday + 14) (PyTime.mk_time 9 0)) |>
                  <| ses_actual_end := Some (PyTime.aware (monday + 14) (PyTime.mk_time 10 40)) |>] |>.
Definition demo_grid : list HeatRow :=
  default [] (room_heat_grid demo_use (Some 1) monday (monday + 20) None).
Lemma ladder_exact_witness :
  campus_block_ladder demo_use (Some 1) = Some [mk_block (PyTime.mk_time 9 0) 5400] ∧
  NoDup (cb_start <$> [mk_block (PyTime.mk_time 9 0) 5400]) ∧
  timetabled_cells demo_use (Some 1) = [mk_cell 0 (PyTime.mk_time 9 0) 5400].
Proof.
  split; [vm_compute; reflexivity|]. split; [|vm_compute; reflexivity].
  apply (proj2 (ladder_exact demo_use 1)). vm_compute. reflexivity.
Defined.
Lemma heat_grid_reconciles_witness :
  room_heat_grid demo_use (Some 1) monday (monday + 20) None = Some demo_grid ∧
  zsum (bl_used <$> block_saturation demo_use (Some 1) monday (monday + 20) None)
    = zsum (hc_used <$> (demo_grid ≫= hr_cells)) ∧
  zsum (hc_used <$> (demo_grid ≫= hr_cells)) = 28 ∧
  ru_used_hours (room_utilization demo_use (Some 1) monday (monday + 20) None) = 28 ∧
  ru_available_hours (room_utilization demo_use (Some 1) monday (monday + 20) None) = 90.
Proof.
  split; [vm_compute; reflexivity|]. split; [|split_and!; vm_compute; reflexivity].
  apply (heat_grid_reconciles demo_use 1 monday (monday + 20) None demo_grid); [vm_compute; reflexivity|].
  intros sch Hs. change (active_schedules demo_use 1) with [demo_schedule] in Hs. each_row Hs.
  vm_compute. split; [reflexivity|split; discriminate].
Defined.
