(* ===== verification/Breakdown.v ===== *)
(** scheduling/reporting.py, where capacity is idle: the breakdown by room, the ghost
    rooms and the rollup to floors and buildings. *)
From S2P Require Import Prelude Python Model Effects Ops Sample Reporting Utilization.
Open Scope Z_scope.

(** ** room_breakdown and ghost_rooms *)
Record RoomLoad := mk_load {
  rl_room : Z; rl_code : string; rl_name : string; rl_building : string;
  rl_building_name : string; rl_floor : Z; rl_capacity : Z; rl_used : Z; rl_booked : Z;
  rl_available : Z; rl_wasted : Z; rl_pct : Z; rl_sessions : Z; rl_absents : Z;
  rl_used_seconds : Z; rl_booked_seconds : Z; rl_wasted_seconds : Z
}.
(** The five dictionaries, keyed by room. *)
Record RoomAcc := mk_room_acc {
  ra_used : dict Z Z; ra_booked : dict Z Z; ra_wasted : dict Z Z; ra_sessions : dict Z Z;
  ra_absents : dict Z Z
}.
Definition no_rooms : RoomAcc := mk_room_acc [] [] [] [] [].
(** [d[k] = d.get(k, 0) + n] *)
Definition dict_add (d : dict Z Z) (k n : Z) : dict Z Z := dict_set d k (dict_getd d k 0 + n).
Definition add_usage (a : RoomAcc) (s : Session) : RoomAcc :=
  let c := session_contribution s in
  let room := ses_room s in
  if c_running c then a
  else
    let absent := has_status ABSENT s in
    {| ra_booked := dict_add (ra_booked a) room (c_booked c);
       ra_used := dict_add (ra_used a) room (c_used c);
       ra_sessions := dict_add (ra_sessions a) room 1;
       ra_absents := if absent then dict_add (ra_absents a) room 1 else ra_absents a;
       ra_wasted :=
         if absent then dict_add (ra_wasted a) room (c_booked c)
         else if is_held s then dict_add (ra_wasted a) room (Z.max 0 (c_booked c - c_used c))
         else ra_wasted a |}.
Definition room_acc (qs : list Session) : RoomAcc := foldl add_usage no_rooms qs.
(** The floor and the building of a room. *)
Definition room_site (db : DB) (room : Room) : option (Building * Floor) :=
  floor ← by_pk (db_floors db) (room_floor room);
  building ← by_pk (db_buildings db) (flr_building floor);
  Some (building, floor).
Definition room_load (db : DB) (acc : RoomAcc) (available : Z) (room : Room) : RoomLoad :=
  let used := dict_getd (ra_used acc) (room_pk room) 0 in
  let booked := dict_getd (ra_booked acc) (room_pk room) 0 in
  let wasted := dict_getd (ra_wasted acc) (room_pk room) 0 in
  let site := room_site db room in
  {| rl_room := room_pk room; rl_code := room_code room; rl_name := room_name room;
     rl_building := default "" (bld_code ∘ fst <$> site);
     rl_building_name := default "" (bld_name ∘ fst <$> site);
     rl_floor := default 0 (flr_number ∘ snd <$> site); rl_capacity := room_capacity room;
     rl_used := hours used; rl_booked := hours booked; rl_available := hours available;
     rl_wasted := hours wasted; rl_pct := hours_pct used available;
     rl_sessions := dict_getd (ra_sessions acc) (room_pk room) 0;
     rl_absents := dict_getd (ra_absents acc) (room_pk room) 0;
     rl_used_seconds := used; rl_booked_seconds := booked; rl_wasted_seconds := wasted |}.
Definition room_load_le (a b : RoomLoad) : bool :=
  if rl_pct a =? rl_pct b then str_le (rl_code a) (rl_code b) else rl_pct a <=? rl_pct b.

(** ** building_floor_rollup *)
Inductive Level := BUILDING | FLOOR.
Record ScopeLoad := mk_scope_load {
  sl_level : Level; sl_label : string; sl_building : string; sl_floor : option Z;
  sl_rooms : Z; sl_used : Z; sl_booked : Z; sl_available : Z; sl_wasted : Z; sl_pct : Z
}.
Record ScopeAcc := mk_scope_acc { sa_rooms : Z; sa_used : Z; sa_booked : Z; sa_wasted : Z }.
Definition no_scope : ScopeAcc := mk_scope_acc 0 0 0 0.
Definition add_scope (a : ScopeAcc) (room : RoomLoad) : ScopeAcc :=
  mk_scope_acc (sa_rooms a + 1) (sa_used a + rl_used_seconds room)
    (sa_booked a + rl_booked_seconds room) (sa_wasted a + rl_wasted_seconds room).
Record BuildingAcc := mk_building_acc {
  ba_name : string; ba_scope : ScopeAcc; ba_floors : dict Z ScopeAcc
}.
Definition add_load (d : dict string BuildingAcc) (room : RoomLoad) : dict string BuildingAcc :=
  let b := dict_getd d (rl_building room)
             (mk_building_acc (rl_building_name room) no_scope []) in
  let f := dict_getd (ba_floors b) (rl_floor room) no_scope in
  dict_set d (rl_building room)
    (mk_building_acc (ba_name b) (add_scope (ba_scope b) room)
       (dict_set (ba_floors b) (rl_floor room) (add_scope f room))).
Definition scope_row (per_room_seconds : Z) (level : Level) (label code : string)
    (floor_number : option Z) (a : ScopeAcc) : ScopeLoad :=
  let available := sa_rooms a * per_room_seconds in
  {| sl_level := level; sl_label := label; sl_building := code; sl_floor := floor_number;
     sl_rooms := sa_rooms a; sl_used := hours (sa_used a); sl_booked := hours (sa_booked a);
     sl_available := hours available; sl_wasted := hours (sa_wasted a);
     sl_pct := hours_pct (sa_used a) available |}.
Definition building_rows (per_room_seconds : Z) (p : string * BuildingAcc) : list ScopeLoad :=
  let '(code, b) := p in
  let name := if bool_decide (ba_name b = "") then code else ba_name b in
  scope_row per_room_seconds BUILDING name code None (ba_scope b)
  :: ((λ f, scope_row per_room_seconds FLOOR (code +:+ " floor " +:+ pretty f.1) code (Some f.1) f.2)
        <$> sort_by (λ f g, f.1 <=? g.1) (ba_floors b)).

Section breakdown.
(** The database's order of [(building code, floor number, code)]. *)
Context (room_le : DB → Room → Room → bool).

Definition room_breakdown (db : DB) (term : option Z) (start end_ : Z) (as_of : option Z)
    : list RoomLoad :=
  let rooms := sort_by (room_le db) (physical_rooms db) in
  let available := cell_seconds (range_cell_shape db term start end_ as_of) in
  let acc := room_acc (room_sessions db term start end_ as_of) in
  sort_by room_load_le (room_load db acc available <$> rooms).
Definition is_ghost (l : RoomLoad) : bool := (0 <? rl_booked_seconds l) && (rl_used_seconds l =? 0).
Definition ghost_rooms (db : DB) (term : option Z) (start end_ : Z) (as_of : option Z)
    : list RoomLoad := select is_ghost (room_breakdown db term start end_ as_of).
Definition building_floor_rollup (db : DB) (term : option Z) (start end_ : Z)
    (as_of : option Z) : list ScopeLoad :=
  let rooms := room_breakdown db term start end_ as_of in
  let per_room_seconds := cell_seconds (range_cell_shape db term start end_ as_of) in
  concat (building_rows per_room_seconds
            <$> sort_by (λ a b, str_le a.1 b.1) (foldl add_load [] rooms)).
End breakdown.

(** ** The rooms, one by one *)
Definition in_room (k : Z) (s : Session) : bool := ses_room s =? k.
Definition wasted_of (s : Session) : Z :=
  if has_status ABSENT s then booked_of s else if is_held s then unused_of s else 0.
Lemma dict_add_get d k n k' :
  dict_getd (dict_add d k n) k' 0 = dict_getd d k' 0 + if k =? k' then n else 0.
Proof.
  unfold dict_add, dict_getd. rewrite dict_get_set. destruct (Z.eqb_spec k k') as [->|Hk].
  - by rewrite bool_decide_true.
  - rewrite bool_decide_false by done. lia.
Qed.
Lemma add_usage_get a s k :
  let add (x y : Z) := x + if in_room k s then y else 0 in
  dict_getd (ra_used (add_usage a s)) k 0 = add (dict_getd (ra_used a) k 0) (used_of s) ∧
  dict_getd (ra_booked (add_usage a s)) k 0 = add (dict_getd (ra_booked a) k 0) (booked_of s) ∧
  dict_getd (ra_wasted (add_usage a s)) k 0 = add (dict_getd (ra_wasted a) k 0) (wasted_of s) ∧
  dict_getd (ra_sessions (add_usage a s)) k 0 = add (dict_getd (ra_sessions a) k 0) (b2z (counted s)) ∧
  dict_getd (ra_absents (add_usage a s)) k 0 =
    add (dict_getd (ra_absents a) k 0) (b2z (counted s && has_status ABSENT s)).
Proof.
  pose proof (running_zero s) as Hz. pose proof (contribution_bounds s) as Hb.
  unfold add_usage, wasted_of, unused_of, in_room in *. unfold counted, booked_of, used_of in *. cbv zeta.
  destruct (c_running (session_contribution s)); cbn [negb andb b2z] in *.
  - destruct (Hz eq_refl) as [-> ->]. split_and!; repeat destr_if; lia.
  - clear Hz. cbn [ra_used ra_booked ra_wasted ra_sessions ra_absents].
    destruct (has_status ABSENT s), (is_held s); rewrite !dict_add_get; cbn [b2z]; split_and!;
      destruct (ses_room s =? k); lia.
Qed.
Lemma room_acc_get qs k :
  let own := select (in_room k) qs in
  dict_getd (ra_used (room_acc qs)) k 0 = zsum (used_of <$> own) ∧
  dict_getd (ra_booked (room_acc qs)) k 0 = zsum (booked_of <$> own) ∧
  dict_getd (ra_wasted (room_acc qs)) k 0 = zsum (wasted_of <$> own) ∧
  dict_getd (ra_sessions (room_acc qs)) k 0 = zsum (b2z ∘ counted <$> own) ∧
  dict_getd (ra_absents (room_acc qs)) k 0 =
    zsum ((λ s, b2z (counted s && has_status ABSENT s)) <$> own).
Proof.
  cbv zeta. unfold room_acc. induction qs as [|s qs IH] using rev_ind; [done|].
  rewrite foldl_app. cbn [foldl].
  destruct (add_usage_get (foldl add_usage no_rooms qs) s k) as (-> & -> & -> & -> & ->).
  destruct IH as (-> & -> & -> & -> & ->).
  rewrite select_app, !fmap_app, !zsum_app, select_cons. destruct (in_room k s); cbn; split_and!; lia.
Qed.

Lemma room_load_le_total a b : room_load_le a b = true ∨ room_load_le b a = true.
Proof.
  unfold room_load_le, str_le. destruct (str_leb_total (rl_code a) (rl_code b)) as [H|H];
    destruct (Z.eqb_spec (rl_pct a) (rl_pct b)), (Z.eqb_spec (rl_pct b) (rl_pct a)); rewrite ?H; try lia; auto.
Qed.
Lemma room_load_le_trans a b c :
  room_load_le a b = true → room_load_le b c = true → room_load_le a c = true.
Proof.
  unfold room_load_le, str_le. pose proof (str_leb_trans (rl_code a) (rl_code b) (rl_code c)).
  destruct (Z.eqb_spec (rl_pct a) (rl_pct b)), (Z.eqb_spec (rl_pct b) (rl_pct c)),
    (Z.eqb_spec (rl_pct a) (rl_pct c)); try lia; auto.
Qed.

Section breakdown_facts.
Context (room_le : DB → Room → Room → bool).
Context (db : DB) (term : option Z) (start end_ : Z) (as_of : option Z).
Let qs := room_sessions db term start end_ as_of.
Let cap := cell_seconds (range_cell_shape db term start end_ as_of).
Let loads := room_breakdown room_le db term start end_ as_of.

Lemma elem_of_breakdown l :
  l ∈ loads ↔ ∃ room, room ∈ physical_rooms db ∧ l = room_load db (room_acc qs) cap room.
Proof using.
  unfold loads, room_breakdown. fold qs cap. rewrite elem_of_sort_by, list_elem_of_fmap.
  setoid_rewrite elem_of_sort_by. split; intros (x & H1 & H2); by exists x.
Qed.
Lemma breakdown_rooms : rl_room <$> loads ≡ₚ room_pk <$> physical_rooms db.
Proof using.
  unfold loads, room_breakdown. rewrite sort_by_perm, <- list_fmap_compose.
  rewrite (list_fmap_ext _ room_pk) by done. by rewrite sort_by_perm.
Qed.
Lemma breakdown_sorted : StronglySorted (λ a b, room_load_le a b = true) loads.
Proof using. apply sort_by_sorted; [apply room_load_le_total|apply room_load_le_trans]. Qed.
Lemma load_seconds l :
  l ∈ loads →
  let own := select (in_room (rl_room l)) qs in
  rl_used_seconds l = zsum (used_of <$> own) ∧ rl_booked_seconds l = zsum (booked_of <$> own) ∧
  rl_wasted_seconds l = zsum (wasted_of <$> own) ∧ rl_used l = hours (rl_used_seconds l) ∧
  rl_booked l = hours (rl_booked_seconds l) ∧ rl_wasted l = hours (rl_wasted_seconds l) ∧
  rl_available l = hours cap ∧ rl_pct l = hours_pct (rl_used_seconds l) cap ∧
  rl_sessions l = zsum (b2z ∘ counted <$> own).
Proof using.
  intros (room & _ & ->)%elem_of_breakdown. cbv zeta.
  destruct (room_acc_get qs (room_pk room)) as (E1 & E2 & E3 & E4 & _).
  cbn [room_load rl_room rl_used_seconds rl_booked_seconds rl_wasted_seconds rl_used rl_booked rl_wasted
    rl_available rl_pct rl_sessions]. rewrite E1, E2, E3, E4. done.
Qed.

(** Every session in a physical room is in exactly one row. *)
Definition in_physical_room (s : Session) : bool :=
  match by_pk (db_rooms db) (ses_room s) with Some room => physical_room room | None => false end.
Lemma sum_by_room (v k : Z) (p : Room → bool) (rooms : list Room) :
  NoDup (room_pk <$> rooms) →
  zsum ((λ room, if k =? room_pk room then v else 0) <$> select p rooms) =
  if match by_pk rooms k with Some room => p room | None => false end then v else 0.
Proof using.
  clear. induction rooms as [|room rooms IH]; intros Hnd; [done|]. rewrite fmap_cons in Hnd.
  apply NoDup_cons in Hnd as [Hn Hnd]. rewrite select_cons. specialize (IH Hnd).
  assert (∀ o, o = by_pk (room :: rooms) k → o = if room_pk room =? k then Some room else by_pk rooms k)
    as Hpk by (by intros o ->).
  rewrite (Hpk _ eq_refl). rewrite (Z.eqb_sym (room_pk room) k). destruct (Z.eqb_spec k (room_pk room)) as [->|Hk].
  - assert (by_pk rooms (room_pk room) = None) as Hnone.
    { destruct (by_pk rooms (room_pk room)) as [r'|] eqn:E; [|done]. apply by_pk_elem in E as [Hin Heq].
      destruct Hn. apply list_elem_of_fmap. exists r'. done. }
    rewrite Hnone in IH. destruct (p room); [|done]. rewrite fmap_cons, zsum_cons, IH, Z.eqb_refl. lia.
  - destruct (p room); [|done]. rewrite fmap_cons, zsum_cons, IH.
    destruct (Z.eqb_spec k (room_pk room)); [done|lia].
Qed.
Lemma rooms_total (f : RoomLoad → Z) (g : Session → Z) :
  NoDup (room_pk <$> db_rooms db) →
  (∀ l, l ∈ loads → f l = zsum (g <$> select (in_room (rl_room l)) qs)) →
  zsum (f <$> loads) = zsum (g <$> select in_physical_room qs).
Proof using.
  intros Hnd Hf. rewrite (zsum_fmap_ext _ ((λ k, zsum ((λ s, if in_room k s then g s else 0) <$> qs)) ∘ rl_room)).
  2:{ intros l Hl. unfold compose. rewrite zsum_select. by apply Hf. }
  rewrite list_fmap_compose, breakdown_rooms, <- list_fmap_compose. unfold compose.
  rewrite zsum_swap, <- zsum_select. apply zsum_fmap_ext. intros s _. unfold in_room.
  by apply sum_by_room.
Qed.
End breakdown_facts.

(** ** The rollup *)
Definition scope_of (rooms : list RoomLoad) : ScopeAcc :=
  mk_scope_acc (Z.of_nat (length rooms)) (zsum (rl_used_seconds <$> rooms))
    (zsum (rl_booked_seconds <$> rooms)) (zsum (rl_wasted_seconds <$> rooms)).
Lemma scope_of_snoc rooms room : add_scope (scope_of rooms) room = scope_of (rooms ++ [room]).
Proof.
  unfold add_scope, scope_of. rewrite !fmap_app, !zsum_app, length_app. cbn. f_equal; lia.
Qed.
Definition in_building (code : string) (r : RoomLoad) : bool := bool_decide (rl_building r = code).
Definition in_storey (n : Z) (r : RoomLoad) : bool := bool_decide (rl_floor r = n).
Definition up_floor (o : option ScopeAcc) (room : RoomLoad) : ScopeAcc :=
  add_scope (default no_scope o) room.
Definition up_building (o : option BuildingAcc) (room : RoomLoad) : BuildingAcc :=
  let b := default (mk_building_acc (rl_building_name room) no_scope []) o in
  mk_building_acc (ba_name b) (add_scope (ba_scope b) room)
    (dict_set (ba_floors b) (rl_floor room) (up_floor (dict_get (ba_floors b) (rl_floor room)) room)).
Definition floors_of (rooms : list RoomLoad) : dict Z ScopeAcc :=
  foldl (λ d r, dict_set d (rl_floor r) (up_floor (dict_get d (rl_floor r)) r)) [] rooms.
Lemma floors_of_snoc rooms r :
  floors_of (rooms ++ [r]) =
  dict_set (floors_of rooms) (rl_floor r) (up_floor (dict_get (floors_of rooms) (rl_floor r)) r).
Proof. unfold floors_of. by rewrite foldl_app. Qed.
Lemma up_floor_all rooms :
  foldl (λ o x, Some (up_floor o x)) None rooms =
  match rooms with [] => None | _ => Some (scope_of rooms) end.
Proof.
  induction rooms as [|room rooms IH] using rev_ind; [done|]. rewrite foldl_app, IH. cbn [foldl].
  unfold up_floor. destruct rooms as [|x rooms]; [by rewrite <- (scope_of_snoc [])|].
  cbn [from_option id]. by rewrite scope_of_snoc.
Qed.
Lemma up_building_all rooms :
  foldl (λ o x, Some (up_building o x)) None rooms =
  match rooms with
  | [] => None
  | room :: _ => Some (mk_building_acc (rl_building_name room) (scope_of rooms) (floors_of rooms))
  end.
Proof.
  induction rooms as [|room rooms IH] using rev_ind; [done|]. rewrite foldl_app, IH. cbn [foldl].
  unfold up_building. destruct rooms as [|x rooms].
  - cbn [from_option id ba_name ba_scope ba_floors app]. by rewrite (scope_of_snoc [] room : add_scope no_scope room = _).
  - cbn [from_option id ba_name ba_scope ba_floors]. by rewrite scope_of_snoc, <- floors_of_snoc.
Qed.
Lemma dict_map_get {K V A} `{!EqDecision K} (key : A → K) (up : option V → A → V) (l : list A) p :
  p ∈ foldl (λ d x, dict_set d (key x) (up (dict_get d (key x)) x)) [] l →
  foldl (λ o x, Some (up o x)) None (select (λ x, bool_decide (key x = p.1)) l) = Some p.2.
Proof.
  intros Hp. etransitivity; [symmetry; apply (dict_fold_get key up l [] p.1)|]. apply dict_elem_get; [|by destruct p].
  apply (dict_fold_keys _ key); [eauto|apply NoDup_nil_2].
Qed.
Lemma dict_map_keys {K V A} `{!EqDecision K} (key : A → K) (up : option V → A → V) (l : list A) :
  let d := foldl (λ d x, dict_set d (key x) (up (dict_get d (key x)) x)) [] l in
  NoDup d.*1 ∧ ∀ k, k ∈ d.*1 ↔ k ∈ key <$> l.
Proof.
  cbv zeta. edestruct (dict_fold_keys (λ d x, dict_set d (key x) (up (dict_get d (key x)) x)) key l [])
    as [H1 H2]; [eauto|apply NoDup_nil_2|]. split; [done|]. intros k. rewrite H2, elem_of_nil. tauto.
Qed.
Lemma add_load_up d room :
  add_load d room = dict_set d (rl_building room) (up_building (dict_get d (rl_building room)) room).
Proof. done. Qed.

(** The rows of one building of the breakdown: itself, then its floors in order. *)
Definition storeys (rooms : list RoomLoad) : list Z := sort_by Z.leb (remove_dups (rl_floor <$> rooms)).
Definition building_block (cap : Z) (rooms : list RoomLoad) (code : string) : list ScopeLoad :=
  let own := select (in_building code) rooms in
  let name := match own with r :: _ => rl_building_name r | [] => "" end in
  scope_row cap BUILDING (if bool_decide (name = "") then code else name) code None (scope_of own)
  :: ((λ n, scope_row cap FLOOR (code +:+ " floor " +:+ pretty n) code (Some n)
              (scope_of (select (in_storey n) own))) <$> storeys own).
Lemma floors_rows cap code rooms :
  (λ f, scope_row cap FLOOR (code +:+ " floor " +:+ pretty f.1) code (Some f.1) f.2)
    <$> sort_by (λ f g, f.1 <=? g.1) (floors_of rooms) =
  (λ n, scope_row cap FLOOR (code +:+ " floor " +:+ pretty n) code (Some n)
          (scope_of (select (in_storey n) rooms))) <$> storeys rooms.
Proof.
  transitivity ((λ n, scope_row cap FLOOR (code +:+ " floor " +:+ pretty n) code (Some n)
    (scope_of (select (in_storey n) rooms))) <$> (fst <$> sort_by (λ f g, f.1 <=? g.1) (floors_of rooms))).
  - rewrite <- list_fmap_compose. apply list_fmap_ext. intros i [n a] Hi%list_elem_of_lookup_2.
    rewrite elem_of_sort_by in Hi. apply (dict_map_get rl_floor up_floor) in Hi. cbn [fst snd] in *.
    rewrite up_floor_all in Hi. unfold in_storey, compose. cbn [fst].
    by destruct (select _ rooms); [|injection Hi as <-].
  - f_equal. rewrite (sort_by_fmap fst Z.leb). unfold storeys.
    destruct (dict_map_keys rl_floor up_floor rooms) as [Hnd Hk]. apply sort_by_unique; try (intros; lia).
    apply NoDup_Permutation; [done|apply NoDup_remove_dups|]. intros n. by rewrite elem_of_remove_dups.
Qed.
Definition building_codes (rooms : list RoomLoad) : list string :=
  sort_by str_le (remove_dups (rl_building <$> rooms)).
Lemma rollup_blocks cap rooms :
  concat (building_rows cap <$> sort_by (λ a b, str_le a.1 b.1) (foldl add_load [] rooms)) =
  concat (building_block cap rooms <$> building_codes rooms).
Proof.
  f_equal. set (d := foldl add_load [] rooms).
  transitivity (building_block cap rooms <$> (fst <$> sort_by (λ a b, str_le a.1 b.1) d)).
  - rewrite <- list_fmap_compose. apply list_fmap_ext. intros i [code b] Hi%list_elem_of_lookup_2.
    rewrite elem_of_sort_by in Hi. apply (dict_map_get rl_building up_building) in Hi. cbn [fst snd] in *.
    rewrite up_building_all in Hi. unfold building_block, compose, building_rows, in_building. cbn [fst].
    destruct (select _ rooms) as [|room own]; [done|]. injection Hi as <-. cbn [ba_name ba_scope ba_floors].
    by rewrite floors_rows.
  - f_equal. rewrite (sort_by_fmap fst str_le). unfold building_codes.
    destruct (dict_map_keys rl_building up_building rooms) as [Hnd Hk].
    apply sort_by_unique; [apply str_leb_total|apply str_leb_trans|apply String.leb_antisym|].
    apply NoDup_Permutation; [done|apply NoDup_remove_dups|]. intros n. by rewrite elem_of_remove_dups.
Qed.

(** The breakdown and its rollup.  The breakdown has one row for each physical
    room, least used first and then by code; a row has the sessions of its room.  The
    ghost rooms are the rows with time booked and none used.  The rollup is, for each
    building code in order, the sums over that building's rows followed by those of
    each of its floors in order, against a capacity of the rooms it counts. *)
Theorem breakdown_exact room_le db term start end_ as_of :
  let qs := room_sessions db term start end_ as_of in
  let cap := cell_seconds (range_cell_shape db term start end_ as_of) in
  let loads := room_breakdown room_le db term start end_ as_of in
  rl_room <$> loads ≡ₚ room_pk <$> physical_rooms db ∧
  StronglySorted (λ a b, room_load_le a b = true) loads ∧
  (∀ l, l ∈ loads →
     let own := select (in_room (rl_room l)) qs in
     rl_used_seconds l = zsum (used_of <$> own) ∧ rl_booked_seconds l = zsum (booked_of <$> own) ∧
     rl_wasted_seconds l = zsum (wasted_of <$> own) ∧ rl_used l = hours (rl_used_seconds l) ∧
     rl_booked l = hours (rl_booked_seconds l) ∧ rl_wasted l = hours (rl_wasted_seconds l) ∧
     rl_available l = hours cap ∧ rl_pct l = hours_pct (rl_used_seconds l) cap ∧
     rl_sessions l = zsum (b2z ∘ counted <$> own)) ∧
  (∀ l, l ∈ ghost_rooms room_le db term start end_ as_of ↔
     l ∈ loads ∧ 0 < rl_booked_seconds l ∧ rl_used_seconds l = 0) ∧
  building_floor_rollup room_le db term start end_ as_of =
    concat (building_block cap loads <$> building_codes loads) ∧
  (∀ code, code ∈ building_codes loads ↔ code ∈ rl_building <$> loads).
Proof.
  cbv zeta. split_and!.
  - apply breakdown_rooms.
  - apply breakdown_sorted.
  - apply load_seconds.
  - intros l. unfold ghost_rooms. rewrite elem_of_select. unfold is_ghost. b2p. tauto.
  - apply rollup_blocks.
  - intros code. unfold building_codes. by rewrite elem_of_sort_by, elem_of_remove_dups.
Qed.

(** C16: the campus card and the breakdown agree on the rooms in service, and no
    further: what the card counts is what the rows of the breakdown add up to and the
    sessions of rooms that are out of service, which the card keeps and the rows do
    not. *)
Theorem rooms_reconcile room_le db term start end_ as_of :
  NoDup (room_pk <$> db_rooms db) →
  let qs := room_sessions db term start end_ as_of in
  let loads := room_breakdown room_le db term start end_ as_of in
  let card := room_tally qs in
  let closed := select (λ s, negb (in_physical_room db s)) qs in
  t_used card = zsum (rl_used_seconds <$> loads) + zsum (used_of <$> closed) ∧
  t_booked card = zsum (rl_booked_seconds <$> loads) + zsum (booked_of <$> closed) ∧
  (∀ s room, s ∈ closed → by_pk (db_rooms db) (ses_room s) = Some room →
     room_out_of_service room = true) ∧
  Z.of_nat (length loads) = ru_physical_rooms (room_utilization db term start end_ as_of).
Proof.
  intros Hnd. cbv zeta. destruct (tally_seconds (room_sessions db term start end_ as_of)) as (-> & -> & _).
  split_and!.
  - rewrite (rooms_total room_le db term start end_ as_of _ used_of Hnd); [apply zsum_partition|].
    intros l Hl. by apply load_seconds in Hl as (? & _).
  - rewrite (rooms_total room_le db term start end_ as_of _ booked_of Hnd); [apply zsum_partition|].
    intros l Hl. by apply load_seconds in Hl as (_ & ? & _).
  - intros s room [Hs Hp]%elem_of_select Hr. unfold in_physical_room in Hp. rewrite Hr in Hp.
    apply elem_of_select in Hs as [_ Hv]. unfold in_virtual_room in Hv. rewrite Hr in Hv.
    unfold physical_room in Hp. rewrite Hv in Hp. by destruct (room_out_of_service room).
  - cbn [ru_physical_rooms room_utilization]. f_equal.
    rewrite <- (length_fmap rl_room), <- (length_fmap room_pk (physical_rooms db)).
    apply Permutation_length, breakdown_rooms.
Qed.

(** ** Witnesses *)
Definition any_room_order : DB → Room → Room → bool := λ _ _ _, true.
Lemma rooms_reconcile_witness :
  let loads := room_breakdown any_room_order demo_use (Some 1) monday (monday + 20) None in
  t_used (room_tally (room_sessions demo_use (Some 1) monday (monday + 20) None)) =
    zsum (rl_used_seconds <$> loads) + 5400 ∧
  rl_used_seconds <$> loads = [0; 4560] ∧
  Z.of_nat (length loads) = 2.
Proof.
  split; [|split; vm_compute; reflexivity].
  destruct (rooms_reconcile any_room_order demo_use (Some 1) monday (monday + 20) None) as [H _]; [decide_now|].
  etransitivity; [exact H|]. apply f_equal. vm_compute. reflexivity.
Defined.
