(* ===== verification/Boards.v ===== *)
(** The live boards: the state of a room (web/room_state.py), the room board of the
    facilities office (web/ifo.py), a guard's monitor, room page and locator
    (web/guard.py), a checker's floor board and list of online classes (web/checker.py).
    They only read, but for the notice of a missing meeting link. *)
From S2P Require Import Prelude Python Model Effects Ops Sample Campus Resolvers Scan Checker Reporting Utilization Web.
From Stdlib Require Import String Ascii.
From stdpp Require Import strings.
Open Scope Z_scope.

(** ** web/room_state.py *)
Inductive RoomState := R_ABSENT | R_STARTING | R_IN_SESSION | R_FREE | R_IDLE.
#[global] Instance RoomState_eq_dec : EqDecision RoomState.
Proof. solve_decision. Defined.
Definition ROOM_STATE_ORDER (s : RoomState) : Z :=
  match s with R_ABSENT => 0 | R_STARTING => 1 | R_IN_SESSION => 2 | R_FREE => 3 | R_IDLE => 4 end.
Definition ROOM_PROBLEM_STATES : list RoomState := [R_ABSENT; R_STARTING].

Definition occupies (db : DB) (s : Session) (room : Room) : bool :=
  if is_virtual room then true else negb (effective_online db s).
Record Tile := mk_tile {
  tile_room : Room;
  tile_session : option Session;
  tile_next : option Session;
  tile_count : Z;
  tile_state : RoomState
}.
(** The state of a room whose class [current] is under way at [now] *)
Definition current_state (current : Session) (now grace : Z) : RoomState :=
  match ses_status current with
  | ACTIVE => R_IN_SESSION
  | ABSENT => R_ABSENT
  | COMPLETED => R_FREE
  | _ => if ses_sched_start current + grace <? now then R_ABSENT else R_STARTING
  end.
Definition in_slot (now : Z) (s : Session) : bool :=
  (ses_sched_start s <=? now) && (now <? ses_sched_end s).
Definition room_tile (db : DB) (room : Room) (sessions : list Session) (now grace : Z) : Tile :=
  let sessions := select (λ s, occupies db s room) sessions in
  let current := List.find (in_slot now) sessions in
  let upcoming := select (λ s, now <? ses_sched_start s) sessions in
  mk_tile room current (head upcoming) (Z.of_nat (length sessions))
    (match current with
     | None => match sessions with [] => R_IDLE | _ => R_FREE end
     | Some s => current_state s now grace
     end).

(** The printed week of a room: a row per campus block, a cell per weekday *)
Record TimetableRow := mk_tt_row { tt_time : Z; tt_cells : list (option Schedule) }.
Record Timetable := mk_timetable { tt_rows : list TimetableRow; tt_used : Z; tt_capacity : Z }.
Definition covers_slot (day slot : Z) (sch : Schedule) : bool :=
  (sch_day sch =? day) && (sch_start sch <=? slot) && (slot <? sch_end sch).
Definition room_schedules (db : DB) (room : Room) (term : Z) : list Schedule :=
  let scheds := select (λ sch, sch_room sch =? room_pk room) (active_schedules db term) in
  if is_virtual room then scheds
  else select (λ sch, negb (bool_decide (sch_modality sch = ONLINE))) scheds.
Definition room_timetable (db : DB) (room : Room) (term : option Z) : option Timetable :=
  match term with
  | None => None
  | Some t =>
      match campus_block_ladder db (Some t) with
      | None | Some [] => None
      | Some blocks =>
          let scheds := room_schedules db room t in
          let rows := (λ slot, mk_tt_row slot ((λ day, List.find (covers_slot day slot) scheds) <$> DAYS))
                        <$> (cb_start <$> blocks) in
          Some (mk_timetable rows
                  (zsum ((λ r, Z.of_nat (length (select is_some (tt_cells r)))) <$> rows))
                  (Z.of_nat (length rows) * Z.of_nat (length DAYS)))
      end
  end.

(** ** The room board *)
Record Group := mk_group {
  gr_label : string;
  gr_building : string;
  gr_floor : Z;
  gr_tiles : list Tile;
  gr_problems : Z
}.
Record Board := mk_board {
  bo_groups : list Group;
  bo_buildings : list string;
  bo_rooms : Z;
  bo_problems : Z;
  bo_hidden : Z
}.
Inductive BoardScope := LIVE | ALL.
Definition board_scope (raw : string) : BoardScope := if bool_decide (raw = "all"%string) then ALL else LIVE.
(** The building's code and the number of the floor of a room *)
Definition room_place (db : DB) (room : Room) : string * Z :=
  match by_pk (db_floors db) (room_floor room) with
  | Some f => (default ""%string (bld_code <$> by_pk (db_buildings db) (flr_building f)), flr_number f)
  | None => (""%string, 0)
  end.
Definition place_label (p : string * Z) : string := p.1 +:+ " · Floor " +:+ PyStr.str p.2.
Definition room_before (db : DB) (a b : Room) : bool :=
  let pa := room_place db a in
  let pb := room_place db b in
  if bool_decide (pa.1 = pb.1)
  then if pa.2 =? pb.2 then String.leb (room_code a) (room_code b) else pa.2 <? pb.2
  else String.leb pa.1 pb.1.
Definition is_problem (t : Tile) : bool := bool_decide (tile_state t ∈ ROOM_PROBLEM_STATES).
(** A tile joins the last group when it has its label, else it opens one. *)
Definition add_tile (label : string) (p : string * Z) (tile : Tile) (groups : list Group) : list Group :=
  let fresh := groups ++ [mk_group label p.1 p.2 [tile] (b2z (is_problem tile))] in
  match last groups with
  | Some g =>
      if bool_decide (gr_label g = label)
      then removelast groups ++
             [mk_group label (gr_building g) (gr_floor g) (gr_tiles g ++ [tile])
                (gr_problems g + b2z (is_problem tile))]
      else fresh
  | None => fresh
  end.
Definition place_room (db : DB) (scope : BoardScope) (by_room : dict Z (list Session)) (now grace : Z)
    (b : Board) (room : Room) : Board :=
  let tile := room_tile db room (dict_getd by_room (room_pk room) []) now grace in
  match scope, tile_state tile with
  | LIVE, R_IDLE => mk_board (bo_groups b) (bo_buildings b) (bo_rooms b) (bo_problems b) (bo_hidden b + 1)
  | _, _ =>
      let p := room_place db room in
      mk_board (add_tile (place_label p) p tile (bo_groups b))
        (if bool_decide (p.1 ∈ bo_buildings b) then bo_buildings b else bo_buildings b ++ [p.1])
        (bo_rooms b + 1) (bo_problems b + b2z (is_problem tile)) (bo_hidden b)
  end.
Definition tile_le (a b : Tile) : bool :=
  let oa := ROOM_STATE_ORDER (tile_state a) in
  let ob := ROOM_STATE_ORDER (tile_state b) in
  if oa =? ob then String.leb (room_code (tile_room a)) (room_code (tile_room b)) else oa <? ob.
Definition sort_group (g : Group) : Group :=
  mk_group (gr_label g) (gr_building g) (gr_floor g) (sort_by tile_le (gr_tiles g)) (gr_problems g).
(** The sessions of a day in a term, by start *)
Definition day_sessions (db : DB) (t : AcademicTerm) (day : Z) : list Session :=
  sort_by by_start (select (λ s, (ses_date s =? day) && in_term db (term_pk t) s) (db_sessions db)).
Definition today_by_room (db : DB) (t : AcademicTerm) (day : Z) : dict Z (list Session) :=
  dict_group ses_room id (day_sessions db t day).
Definition board_of (db : DB) (scope : BoardScope) (by_room : dict Z (list Session)) (now grace : Z) : Board :=
  let b := foldl (place_room db scope by_room now grace) (mk_board [] [] 0 0 0)
             (sort_by (room_before db) (db_rooms db)) in
  mk_board (sort_group <$> bo_groups b) (bo_buildings b) (bo_rooms b) (bo_problems b) (bo_hidden b).
(** [int(get_policy(key))]: a text that is no number raises. *)
Definition policy_as_int (key : string) : M Z :=
  get_policy key ≫= λ v, match v with PInt n => mret n | PStr _ => raise ValueErr end.
Definition room_board (scope : BoardScope) (now : Z) : M Board :=
  policy_as_int "grace_minutes" ≫= λ grace_min,
  get_active_term ≫= λ term,
  read (λ db, board_of db scope
    (match term with Some t => today_by_room db t (PyTime.local_date now) | None => [] end)
    now (PyTime.minutes grace_min)).

(** *** The conflicts page: who contends for the rooms of the open flags *)
Definition contending_sessions (room_ids : list Z) : M (dict Z (list Session)) :=
  get_active_term ≫= λ term,
  match term with
  | None => mret []
  | Some t =>
      read (λ db, dict_group ses_room id (sort_by by_start
        (select (λ s, bool_decide (ses_room s ∈ room_ids) && has_status ACTIVE s
                      && is_none (ses_released_at s) && in_term db (term_pk t) s) (db_sessions db))))
  end.
Definition conflicts : M (list (RoomConflictFlag * list Session)) :=
  objects (λ f, is_none (flag_resolved_at f)) ≫= λ flags,
  contending_sessions (flag_room <$> flags) ≫= λ by_room,
  mret ((λ f, (f, dict_getd by_room (flag_room f) [])) <$> flags).

(** ** web/guard.py *)
Definition guard_required {A} (user : User) (view : M A) : M A := gated GUARD user view.
Definition guard_duty (user : Z) (t : AcademicTerm) (now : Z) (a : Assignment) : bool :=
  (asg_user a =? user) && bool_decide (asg_role a = DUTY_GUARD)
  && bool_decide (asg_scope a = FLOOR_SCOPE) && bool_decide (asg_status a = "active"%string)
  && bool_decide (asg_term a = Some (term_pk t))
  && CheckerScan.assignment_covers_now a (PyTime.local_date now) (PyTime.local_time now).
(** The floors a guard is posted to now, as the members of a set *)
Definition guard_floor_ids (user now : Z) : M (list Z) :=
  get_active_term ≫= λ active_term,
  match active_term with
  | None => mret []
  | Some t =>
      objects (guard_duty user t now) ≫= λ assignments,
      mret (remove_dups (concat (asg_floors <$> assignments)))
  end.
(** [room__floor_id__in] *)
Definition on_floors (db : DB) (floors : list Z) (s : Session) : bool :=
  match by_pk (db_rooms db) (ses_room s) with
  | Some r => bool_decide (room_floor r ∈ floors)
  | None => false
  end.
(** The monitor: [None] for a guard who is posted nowhere *)
Definition monitor_rows (user : User) (now : Z) : M (option (list Session)) :=
  guard_required user (
  get_active_term ≫= λ active_term,
  guard_floor_ids (usr_pk user) now ≫= λ floor_ids,
  match floor_ids, active_term with
  | _ :: _, Some t =>
      read (λ db, Some (select (on_floors db floor_ids) (day_sessions db t (PyTime.local_date now))))
  | _, _ => mret None
  end).
Record RoomPage := mk_room_page {
  rp_tile : Tile; rp_today : list Session; rp_timetable : option Timetable
}.
(** A guard's page of a room: [None] is Http404.  Codes compare in the collation [ci]. *)
Definition room_detail (ci : string → string) (user : User) (code : string) (now : Z)
    : M (option RoomPage) :=
  guard_required user (
  first (R:=Room) (λ r, same_text ci (room_code r) code) ≫= λ room,
  match room with
  | None => mret None
  | Some room =>
      guard_floor_ids (usr_pk user) now ≫= λ floor_ids,
      if negb (bool_decide (room_floor room ∈ floor_ids)) then mret None
      else
        policy_as_int "grace_minutes" ≫= λ grace_min,
        get_active_term ≫= λ term,
        read (λ db,
          let today := match term with
            | Some t => select (λ s, ses_room s =? room_pk room) (day_sessions db t (PyTime.local_date now))
            | None => []
            end in
          Some (mk_room_page (room_tile db room today now (PyTime.minutes grace_min))
                  (select (λ s, occupies db s room) today)
                  (room_timetable db room (term_pk <$> term))))
  end).
(** The locator; a name matches regardless of case. *)
Definition icontains (q s : string) : bool := PyStr.contains (PyStr.lower q) (PyStr.lower s).
Definition name_order (a b : User) : bool :=
  if bool_decide (usr_last a = usr_last b) then String.leb (usr_username a) (usr_username b)
  else String.leb (usr_last a) (usr_last b).
Definition find_people (db : DB) (q : string) : list User :=
  firstn 8 (sort_by name_order
    (select (λ u, bool_decide (usr_role u = FACULTY)
                  && (icontains q (usr_username u) || icontains q (usr_first u) || icontains q (usr_last u)))
       (db_users db))).
Record Located := mk_located {
  lo_matches : list User;
  lo_faculty : option User;
  lo_current : option Session;
  lo_next : option Session;
  lo_online : bool
}.
Definition locate (user : User) (raw : string) (now : Z) : M Located :=
  guard_required user (
  let q := PyStr.strip raw in
  if blank q then mret (mk_located [] None None None false)
  else
    read (λ db, find_people db q) ≫= λ matches,
    match matches with
    | [u] =>
        get_active_term ≫= λ active_term,
        match active_term with
        | None => mret (mk_located matches (Some u) None None false)
        | Some t =>
            read (λ db, select (λ s, ses_faculty s =? usr_pk u) (day_sessions db t (PyTime.local_date now)))
            ≫= λ own,
            let current := List.find (has_status ACTIVE) own in
            read (λ db, match current with Some s => effective_online db s | None => false end) ≫= λ online,
            mret (mk_located matches (Some u) current
                    (List.find (λ s, (now <=? ses_sched_start s) && negb (has_status ABSENT s)) own) online)
        end
    | _ => mret (mk_located matches None None None false)
    end).

(** ** web/checker.py *)
Definition online_list (user : User) (now : Z) : M (list Session) :=
  checker_required user (
  get_active_term ≫= λ active_term,
  match active_term with
  | None => mret []
  | Some t =>
      read (λ db, select (λ s, bool_decide (ses_online_checker s = Some (usr_pk user)) && has_status SCHEDULED s
                               && effective_online db s)
                    (day_sessions db t (PyTime.local_date now)))
  end).
(** The page of one of these classes; a class without its link is reported. *)
Definition online_open (user : User) (session_id : string) : M response :=
  role_required CHECKER user (
  online_session session_id (usr_pk user) ≫= λ session,
  match session with
  | None => mret NotFound
  | Some s =>
      if blank (ses_teams_link s) then
        get_pk (R:=Schedule) (ses_schedule s) ≫= λ sch,
        notify [] (Some IFO_ADMIN) "online_no_link" "Online session missing its Teams link"
          (sch_course_code sch +:+ "-" +:+ sch_section sch
           +:+ " has no Teams meeting link. Please add one so the assigned checker can verify attendance.")
          "" ≫= λ _,
        mret (Page "no_link")
      else mret (Page "")
  end).
Definition card_state (actions : list ValidationAction) (status : SessionStatus) : string :=
  (if existsb (λ a, PyStr.startswith (action_str a) "flag") actions then "flagged"
   else if bool_decide (VERIFIED ∈ actions) then "verified"
   else if bool_decide (VERIFIED_EMPTY ∈ actions) then "verified-empty"
   else if bool_decide (status = ACTIVE) then "active-unverified"
   else "idle")%string.
(** Python's [round], to the even neighbour on a tie, of [a / b] for a positive [b] *)
Definition round_half_even (a b : Z) : Z :=
  let q := a / b in
  let r := 2 * (a mod b) in
  if r <? b then q else if b <? r then q + 1 else if Z.even q then q else q + 1.
Record FloorBoard := mk_floor_board {
  fb_cards : list (Session * string);
  fb_queue : list Session;
  fb_coverage : Z;
  fb_verified : Z;
  fb_total : Z
}.
Definition actions_on (db : DB) (s : Session) : list ValidationAction :=
  val_action <$> select (λ v, bool_decide (val_session v = Some (ses_pk s))) (db_validations db).
Definition floor_board (db : DB) (board : list Session) : FloorBoard :=
  let is_verified s := bool_decide (VERIFIED ∈ actions_on db s) in
  let total := Z.of_nat (length board) in
  let verified := Z.of_nat (length (select is_verified board)) in
  mk_floor_board ((λ s, (s, card_state (actions_on db s) (ses_status s))) <$> board)
    (select (λ s, has_status ACTIVE s && negb (is_verified s)) board)
    (if total =? 0 then 100 else round_half_even (100 * verified) total) verified total.
Definition checker_floor_rows (user : User) (now : Z) : M FloorBoard :=
  checker_required user (
  get_active_term ≫= λ active_term,
  active_floor_ids (usr_pk user) now ≫= λ floor_ids,
  read (λ db, floor_board db
    (match active_term with
     | Some t => select (λ s, on_floors db floor_ids s && negb (has_status ABSENT s)
                              && negb (effective_online db s))
                   (day_sessions db t (PyTime.local_date now))
     | None => []
     end))).

(** ** The state of a room *)
Section tile.
Context (db : DB) (room : Room) (sessions : list Session) (now grace_min : Z).
Let grace := PyTime.minutes grace_min.
(** The classes of the list that use the room, and the one under way *)
Definition uses (s : Session) : Prop :=
  s ∈ sessions ∧ (is_virtual room = true ∨ effective_modality db s ≠ Some ONLINE).
Definition under_way (s : Session) : Prop := ses_sched_start s ≤ now < ses_sched_end s.

Lemma uses_iff s : s ∈ select (λ s, occupies db s room) sessions ↔ uses s.
Proof using.
  unfold uses, occupies, effective_online. rewrite elem_of_select. destruct (is_virtual room); b2p; naive_solver.
Qed.
(** The state is decided by the class under way: in session when it was checked in, free
    when it is over, a no-show when it is absent or past the very grace period of the
    sweep, and starting before that.  Between classes the room is free, and idle when
    nothing uses it all day. *)
Theorem room_tile_exact :
  let t := room_tile db room sessions now grace in
  (∀ s, tile_session t = Some s → uses s ∧ under_way s) ∧
  (tile_session t = None → ∀ s, uses s → ¬ under_way s) ∧
  (tile_state t = R_IDLE ↔ ∀ s, ¬ uses s) ∧
  (tile_state t = R_IN_SESSION ↔ ∃ s, tile_session t = Some s ∧ ses_status s = ACTIVE) ∧
  (tile_state t = R_ABSENT ↔ ∃ s, tile_session t = Some s ∧
     (ses_status s = ABSENT ∨
      (ses_status s = SCHEDULED ∨ ses_status s = CANCELLED) ∧
      FacultyScan.is_no_show_past_grace (ses_sched_start s) now grace_min = true)) ∧
  (tile_state t = R_STARTING ↔ ∃ s, tile_session t = Some s ∧
     (ses_status s = SCHEDULED ∨ ses_status s = CANCELLED) ∧
     FacultyScan.is_no_show_past_grace (ses_sched_start s) now grace_min = false).
Proof using.
  intros t. unfold t, room_tile. cbn [tile_session tile_state].
  set (l := select (λ s, occupies db s room) sessions).
  assert (∀ s, s ∈ l ↔ uses s) as Hl by apply uses_iff.
  destruct (List.find (in_slot now) l) as [s|] eqn:E.
  - pose proof E as [Hs Hp]%find_elem. unfold in_slot in Hp. b2p.
    assert (uses s) as Hu by by apply Hl.
    assert (current_state s now grace = R_IDLE ↔ False) as H1.
    { unfold current_state. by destruct (ses_status s); repeat case_match. }
    assert (∀ P : Session → Prop, (∃ s', Some s = Some s' ∧ P s') ↔ P s) as Hex
      by (intros P; split; [by intros (? & [= <-] & ?)|by exists s]).
    split_and!.
    + intros s' [= <-]. done.
    + done.
    + rewrite H1. split; [done|]. intros Hn. by apply (Hn s).
    + rewrite Hex. unfold current_state. by destruct (ses_status s); repeat case_match.
    + rewrite Hex. unfold current_state, FacultyScan.is_no_show_past_grace, grace.
      destruct (ses_status s), (ses_sched_start s + PyTime.minutes grace_min <? now); naive_solver.
    + rewrite Hex. unfold current_state, FacultyScan.is_no_show_past_grace, grace.
      destruct (ses_status s), (ses_sched_start s + PyTime.minutes grace_min <? now); naive_solver.
  - rewrite find_elem_None in E. split_and!.
    + done.
    + intros _ s Hs Hw. apply Hl, E in Hs. unfold in_slot, under_way in *.
      apply andb_false_iff in Hs as [?|?]; lia.
    + destruct l as [|s l'] eqn:El.
      * split; [|done]. intros _ s Hs. apply Hl in Hs. by apply not_elem_of_nil in Hs.
      * split; [done|]. intros Hn. exfalso. apply (Hn s), Hl. left.
    + split; [by destruct l|]. by intros (? & ? & _).
    + split; [by destruct l|]. by intros (? & ? & _).
    + split; [by destruct l|]. by intros (? & ? & _).
Qed.
End tile.

(** ** The timetable of a room *)

(** The printed week shows every class of the room on the row where it starts, in the
    cells it covers and in no other; a cell is free exactly when no class of the room is
    on then.  Only classes of the room are shown, and no row of the campus is missing. *)
Theorem timetable_exact db room t tt :
  room_timetable db room (Some t) = Some tt →
  (∀ blocks, campus_block_ladder db (Some t) = Some blocks → tt_time <$> tt_rows tt = cb_start <$> blocks) ∧
  (∀ r, r ∈ tt_rows tt → length (tt_cells r) = 7%nat ∧
     ∀ (i : nat) c, tt_cells r !! i = Some c →
       match c with
       | Some sch => sch ∈ room_schedules db room t ∧ covers_slot (Z.of_nat i) (tt_time r) sch = true
       | None => ∀ sch, sch ∈ room_schedules db room t → covers_slot (Z.of_nat i) (tt_time r) sch = false
       end) ∧
  (∀ sch, sch ∈ room_schedules db room t → 0 ≤ sch_day sch < 7 → sch_start sch < sch_end sch →
     ∃ r c, r ∈ tt_rows tt ∧ tt_time r = sch_start sch ∧
       tt_cells r !! Z.to_nat (sch_day sch) = Some (Some c)) ∧
  0 ≤ tt_used tt ≤ tt_capacity tt.
Proof.
  unfold room_timetable. intros Htt. destruct (campus_block_ladder db (Some t)) as [blocks|] eqn:Eb; [|done].
  destruct (ladder_spec db t blocks Eb) as (_ & _ & Hin & _).
  set (scheds := room_schedules db room t) in *.
  set (cells := λ slot, (λ day, List.find (covers_slot day slot) scheds) <$> DAYS).
  set (rows := (λ slot, mk_tt_row slot (cells slot)) <$> (cb_start <$> blocks)).
  assert (tt = mk_timetable rows (zsum ((λ r, Z.of_nat (length (select is_some (tt_cells r)))) <$> rows))
                 (Z.of_nat (length rows) * Z.of_nat (length DAYS))) as ->
    by (destruct blocks; [done|by injection Htt as <-]).
  clear Htt. cbn [tt_rows tt_used tt_capacity].
  assert (∀ r, r ∈ rows ↔ ∃ slot, slot ∈ cb_start <$> blocks ∧ r = mk_tt_row slot (cells slot)) as Hr.
  { intros r. unfold rows. rewrite list_elem_of_fmap. naive_solver. }
  assert (∀ slot (i : nat) c, cells slot !! i = Some c → c = List.find (covers_slot (Z.of_nat i) slot) scheds) as Hc.
  { intros slot i c. unfold cells. rewrite list_lookup_fmap_Some. intros (d & -> & Hd).
    do 7 (destruct i as [|i]; [by injection Hd as <-|]). done. }
  split_and!.
  - intros b [= <-]. unfold rows. by rewrite <- !list_fmap_compose.
  - intros r (slot & _ & ->)%Hr. split; [done|]. intros i c Hl%Hc. subst c. cbn [tt_time].
    destruct (List.find _ _) as [sch|] eqn:E; [by apply find_elem in E|by apply find_elem_None].
  - intros sch Hs Hd Ht. assert (sch_start sch ∈ cb_start <$> blocks) as Hb.
    { apply Hin, list_elem_of_fmap. exists sch. split; [done|]. unfold scheds, room_schedules in Hs.
      destruct (is_virtual room); [|apply elem_of_select in Hs as [Hs _]]; by apply elem_of_select in Hs as [Hs _]. }
    destruct (List.find (covers_slot (sch_day sch) (sch_start sch)) scheds) as [c|] eqn:E.
    + exists (mk_tt_row (sch_start sch) (cells (sch_start sch))), c. split; [by apply Hr; eexists|]. split; [done|].
      cbn [tt_cells]. unfold cells. rewrite list_lookup_fmap, <- E.
      assert (DAYS !! Z.to_nat (sch_day sch) = Some (sch_day sch)) as ->; [|done].
      assert (sch_day sch ∈ DAYS) as Hdd by (apply elem_of_days; lia). revert Hdd. unfold DAYS. clear.
      intros H. repeat (apply elem_of_cons in H as [-> |H]; [reflexivity|]). by apply not_elem_of_nil in H.
    + rewrite find_elem_None in E. specialize (E sch Hs). unfold covers_slot in E.
      rewrite Z.eqb_refl, (proj2 (Z.leb_le _ _)), (proj2 (Z.ltb_lt _ _)) in E by lia. done.
  - apply zsum_nonneg. intros x (r & -> & _)%list_elem_of_fmap. lia.
  - assert (∀ r, r ∈ rows → Z.of_nat (length (select is_some (tt_cells r))) ≤ Z.of_nat (length DAYS)) as Hle.
    { intros r (slot & _ & ->)%Hr. cbn [tt_cells]. etransitivity; [apply inj_le, select_length|].
      unfold cells. by rewrite length_fmap. }
    clear -Hle. induction rows as [|r l IH]; [done|]. rewrite fmap_cons, zsum_cons. cbn [length].
    specialize (IH ltac:(intros x Hx; apply Hle; by right)). pose proof (Hle r ltac:(left)). lia.
Qed.

(** ** The board accounts for every room *)

(** The label of a floor tells its building and its number. *)
Lemma last_word_inj (l l' x x' : list ascii) c :
  plain c = false → forallb plain x = true → forallb plain x' = true →
  l ++ c :: x = l' ++ c :: x' → l = l' ∧ x = x'.
Proof.
  intros Hc Hx Hx' H. assert (∀ y : list ascii, forallb plain y = true → forallb plain (reverse y) = true) as Hrev.
  { intros y. rewrite !forallb_elem. intros Hy z. rewrite elem_of_reverse. apply Hy. }
  apply (f_equal reverse) in H. rewrite !reverse_app, !reverse_cons, <- !app_assoc in H. cbn [app] in H.
  pose proof (f_equal (PyStr.take_while plain) H) as Ht. pose proof (f_equal (PyStr.drop_while plain) H) as Hd.
  rewrite !PyStr.take_while_app in Ht by auto. rewrite !PyStr.drop_while_app in Hd by auto.
  injection Hd as Hd. split; by apply (inj reverse).
Qed.
Lemma place_label_inj p q : place_label p = place_label q → p = q.
Proof.
  destruct p as [a n], q as [a' n']. unfold place_label. cbn [fst snd]. intros H.
  apply (f_equal PyStr.to_list) in H. rewrite !PyStr.to_list_app in H.
  assert (PyStr.to_list " · Floor " = removelast (PyStr.to_list " · Floor ") ++ [" "%char]) as E by reflexivity.
  rewrite E, <- !app_assoc in H. cbn [app] in H. rewrite !(app_assoc (PyStr.to_list _)) in H.
  apply last_word_inj in H as [H1 H2]; [|done|apply str_plain..].
  apply app_inv_tail in H1. apply (f_equal PyStr.of_list) in H1, H2. rewrite !PyStr.of_to_list in H1, H2.
  unfold PyStr.str in H2. apply (inj pretty) in H2. congruence.
Qed.
Section board.
Context (db : DB) (scope : BoardScope) (by_room : dict Z (list Session)) (now grace : Z).
Definition tile_of (r : Room) : Tile := room_tile db r (dict_getd by_room (room_pk r) []) now grace.
(** A room is on the board, unless only live rooms are asked for and nothing uses it. *)
Definition shown (r : Room) : bool :=
  match scope with LIVE => negb (bool_decide (tile_state (tile_of r) = R_IDLE)) | ALL => true end.
(** What a group says of the tiles it has *)
Definition group_ok (g : Group) : Prop :=
  gr_tiles g ≠ [] ∧ gr_problems g = Z.of_nat (length (select is_problem (gr_tiles g))) ∧
  ∀ t, t ∈ gr_tiles g → room_place db (tile_room t) = (gr_building g, gr_floor g).
Definition accounts (tiles : list Tile) (hidden : Z) (b : Board) : Prop :=
  concat (gr_tiles <$> bo_groups b) ≡ₚ tiles ∧ (∀ g, g ∈ bo_groups b → group_ok g) ∧
  bo_rooms b = Z.of_nat (length tiles) ∧
  bo_problems b = Z.of_nat (length (select is_problem tiles)) ∧
  bo_hidden b = hidden ∧ NoDup (bo_buildings b) ∧
  ∀ c, c ∈ bo_buildings b ↔ ∃ t, t ∈ tiles ∧ c = (room_place db (tile_room t)).1.

Lemma accounts_intro tiles hidden b :
  concat (gr_tiles <$> bo_groups b) ≡ₚ tiles → (∀ g, g ∈ bo_groups b → group_ok g) →
  bo_rooms b = Z.of_nat (length tiles) → bo_problems b = Z.of_nat (length (select is_problem tiles)) →
  bo_hidden b = hidden → NoDup (bo_buildings b) →
  (∀ c, c ∈ bo_buildings b ↔ ∃ t, t ∈ tiles ∧ c = (room_place db (tile_room t)).1) → accounts tiles hidden b.
Proof using. by unfold accounts. Qed.
Lemma add_tile_groups tile groups :
  let p := room_place db (tile_room tile) in
  (∀ g, g ∈ groups → group_ok g ∧ gr_label g = place_label (gr_building g, gr_floor g)) →
  concat (gr_tiles <$> add_tile (place_label p) p tile groups) = concat (gr_tiles <$> groups) ++ [tile] ∧
  ∀ g, g ∈ add_tile (place_label p) p tile groups → group_ok g ∧ gr_label g = place_label (gr_building g, gr_floor g).
Proof using.
  intros p Hok. unfold add_tile.
  assert (let new := mk_group (place_label p) p.1 p.2 [tile] (b2z (is_problem tile)) in
    concat (gr_tiles <$> groups ++ [new]) = concat (gr_tiles <$> groups) ++ [tile] ∧
    ∀ g, g ∈ groups ++ [new] → group_ok g ∧ gr_label g = place_label (gr_building g, gr_floor g)) as Hnew.
  { intros new. split; [by rewrite fmap_app, concat_app|].
    intros g [Hg|Hg]%elem_of_app; [by apply Hok|]. apply list_elem_of_singleton in Hg as ->.
    unfold new, group_ok. cbn [gr_tiles gr_problems gr_building gr_floor gr_label].
    rewrite select_cons. split; [|by destruct p]. split_and!; [done| |].
    - by destruct (is_problem tile).
    - intros t Ht. apply list_elem_of_singleton in Ht as ->. by destruct p eqn:E. }
  destruct (last groups) as [g0|] eqn:El; [|exact Hnew]. case_bool_decide as Hlab; [|exact Hnew].
  clear Hnew. apply last_Some in El as [l ->]. rewrite removelast_last.
  destruct (Hok g0 ltac:(apply elem_of_app; right; left)) as ((Hne & Hp & Hpl) & Hl0).
  rewrite Hl0 in Hlab. apply place_label_inj in Hlab.
  rewrite !fmap_app, !concat_app. cbn [fmap list_fmap concat gr_tiles]. rewrite !app_nil_r.
  split; [by rewrite app_assoc|]. intros g [Hg|Hg]%elem_of_app; [apply Hok, elem_of_app; by left|].
  apply list_elem_of_singleton in Hg as ->. unfold group_ok. cbn [gr_tiles gr_problems gr_building gr_floor gr_label].
  split; [|by rewrite Hlab]. split_and!; [by intros [_ [=]]%List.app_eq_nil| |].
  - rewrite select_app, length_app, select_cons, Hp. destruct (is_problem tile); cbn [b2z length]; simpl; lia.
  - intros t [Ht|Ht]%elem_of_app; [by apply Hpl|]. apply list_elem_of_singleton in Ht as ->. done.
Qed.
Lemma add_room_accounts tiles hidden b r :
  let labelled b := ∀ g, g ∈ bo_groups b → gr_label g = place_label (gr_building g, gr_floor g) in
  let b' := place_room db scope by_room now grace b r in
  accounts tiles hidden b → labelled b →
  (if shown r then accounts (tiles ++ [tile_of r]) hidden b' else accounts tiles (hidden + 1) b') ∧ labelled b'.
Proof using.
  intros labelled b' (Hc & Hg & Hr & Hp & Hh & Hnd & Hb) Hl.
  assert (∀ g, g ∈ bo_groups b → group_ok g ∧ gr_label g = place_label (gr_building g, gr_floor g)) as Hok by auto.
  assert (shown r = false → b' = mk_board (bo_groups b) (bo_buildings b) (bo_rooms b) (bo_problems b) (bo_hidden b + 1))
    as Hhide.
  { unfold shown, b', place_room. fold (tile_of r). destruct scope; [|done].
    destruct (tile_state (tile_of r)); try done. }
  assert (shown r = true → let p := room_place db r in
    b' = mk_board (add_tile (place_label p) p (tile_of r) (bo_groups b))
      (if bool_decide (p.1 ∈ bo_buildings b) then bo_buildings b else bo_buildings b ++ [p.1])
      (bo_rooms b + 1) (bo_problems b + b2z (is_problem (tile_of r))) (bo_hidden b)) as Hshow.
  { unfold shown, b', place_room. fold (tile_of r). destruct scope; [|done].
    destruct (tile_state (tile_of r)); try done. }
  destruct (shown r).
  - specialize (Hshow eq_refl). cbv zeta in Hshow. rewrite Hshow. clear Hshow Hhide.
    destruct (add_tile_groups (tile_of r) (bo_groups b) Hok) as [A B].
    change (tile_room (tile_of r)) with r in A, B. split; [|intros g; apply B].
    apply accounts_intro; cbn [bo_groups bo_rooms bo_problems bo_hidden bo_buildings]; [by rewrite A, Hc|intros g; apply B|..].
    + rewrite length_app. simpl. lia.
    + rewrite select_app, length_app, select_cons, Hp. destruct (is_problem (tile_of r)); simpl; lia.
    + done.
    + case_bool_decide; [done|]. apply NoDup_app. split; [done|]. split; [|apply NoDup_singleton].
      by intros x Hx ->%list_elem_of_singleton.
    + intros c. setoid_rewrite elem_of_app. setoid_rewrite list_elem_of_singleton.
      case_bool_decide; [rewrite Hb|rewrite elem_of_app, Hb, list_elem_of_singleton]; [|naive_solver].
      split; [naive_solver|]. intros (t & [Ht| ->] & ->); [by exists t|]. by apply Hb.
  - specialize (Hhide eq_refl). rewrite Hhide. split; [|exact Hl]. apply accounts_intro; try done. simpl. lia.
Qed.
Lemma fold_accounts rooms : ∀ tiles hidden b,
  accounts tiles hidden b → (∀ g, g ∈ bo_groups b → gr_label g = place_label (gr_building g, gr_floor g)) →
  accounts (tiles ++ (tile_of <$> select shown rooms))
    (hidden + Z.of_nat (length (select (λ r, negb (shown r)) rooms)))
    (foldl (place_room db scope by_room now grace) b rooms).
Proof using.
  induction rooms as [|r rooms IH]; intros tiles hidden b Ha Hl.
  - simpl. by rewrite app_nil_r, Z.add_0_r.
  - destruct (add_room_accounts tiles hidden b r Ha Hl) as [Ha' Hl']. simpl foldl. rewrite !select_cons.
    destruct (shown r); cbn [negb]; specialize (IH _ _ _ Ha' Hl').
    + rewrite fmap_cons. by rewrite <- app_assoc in IH.
    + cbn [length]. by replace (hidden + Z.of_nat (S (length (select (λ r, negb (shown r)) rooms))))
        with (hidden + 1 + Z.of_nat (length (select (λ r, negb (shown r)) rooms))) by lia.
Qed.
Lemma accounts_perm tiles tiles' hidden b : tiles ≡ₚ tiles' → accounts tiles hidden b → accounts tiles' hidden b.
Proof using.
  intros H (A & B & C & D & E & F & G). apply accounts_intro; try done.
  - by rewrite A.
  - by rewrite <- H.
  - by rewrite D, (select_perm _ _ _ H).
  - intros c. rewrite G. by setoid_rewrite H.
Qed.
Lemma accounts_sorted tiles hidden b :
  accounts tiles hidden b →
  accounts tiles hidden (mk_board (sort_group <$> bo_groups b) (bo_buildings b) (bo_rooms b) (bo_problems b) (bo_hidden b)).
Proof using.
  intros (A & B & C & D & E & F & G). apply accounts_intro; try done.
  - cbn [bo_groups]. rewrite <- list_fmap_compose, <- A. clear.
    induction (bo_groups b) as [|g l IH]; [done|]. rewrite !fmap_cons. cbn [concat]. rewrite IH.
    unfold compose, sort_group. cbn [gr_tiles]. by rewrite sort_by_perm.
  - intros g (g' & -> & Hg)%list_elem_of_fmap. destruct (B g' Hg) as (Hne & Hp & Hpl).
    unfold group_ok, sort_group. cbn [gr_tiles gr_problems gr_building gr_floor]. split_and!.
    + by rewrite sort_by_nil.
    + by rewrite Hp, (select_perm _ _ _ (sort_by_perm _ _)).
    + intros t Ht%elem_of_sort_by. by apply Hpl.
Qed.
Lemma accounts_problems tiles hidden b : accounts tiles hidden b → bo_problems b = zsum (gr_problems <$> bo_groups b).
Proof using.
  intros (A & B & _ & D & _). rewrite D, <- (select_perm _ _ _ A). revert B. clear.
  induction (bo_groups b) as [|g l IH]; intros H; [done|]. rewrite !fmap_cons, zsum_cons. cbn [concat].
  rewrite select_app, length_app, Nat2Z.inj_add, IH by (intros g' Hg'; apply H; by right).
  by destruct (H g ltac:(left)) as (_ & -> & _).
Qed.
End board.
Lemma state_order_total a b : tile_le a b = true ∨ tile_le b a = true.
Proof. unfold tile_le. rewrite (Z.eqb_sym (ROOM_STATE_ORDER (tile_state b))). case_match; [apply str_leb_total|]. b2p. lia. Qed.
Lemma state_order_trans a b c : tile_le a b = true → tile_le b c = true → tile_le a c = true.
Proof.
  unfold tile_le. repeat case_match; b2p; try lia. apply str_leb_trans.
Qed.

(** The board leaves no room out and shows none twice: its tiles are the tiles of the
    rooms, or of those in use when only they are asked for, and the others are counted as
    hidden.  Every group has the rooms of one floor, worst state first, and says how many
    problems it has; the totals and the buildings of the filter are those of the tiles. *)
Theorem board_exact db scope by_room now grace :
  let b := board_of db scope by_room now grace in
  let tile := tile_of db by_room now grace in
  let on_board := select (shown db scope by_room now grace) (db_rooms db) in
  accounts db (tile <$> on_board) (Z.of_nat (length (db_rooms db)) - Z.of_nat (length on_board)) b ∧
  bo_problems b = zsum (gr_problems <$> bo_groups b) ∧
  ∀ g, g ∈ bo_groups b → StronglySorted (λ t t', tile_le t t' = true) (gr_tiles g).
Proof.
  intros b tile on_board.
  assert (accounts db (tile <$> on_board) (Z.of_nat (length (db_rooms db)) - Z.of_nat (length on_board)) b) as Ha.
  { apply accounts_sorted.
    pose proof (fold_accounts db scope by_room now grace (sort_by (room_before db) (db_rooms db)) [] 0
      (mk_board [] [] 0 0 0)) as H.
    assert (on_board ≡ₚ select (shown db scope by_room now grace) (sort_by (room_before db) (db_rooms db))) as Hp
      by (symmetry; apply select_perm, sort_by_perm).
    eapply accounts_perm; [apply fmap_Permutation; symmetry; exact Hp|].
    replace (Z.of_nat (length (db_rooms db)) - Z.of_nat (length on_board)) with
      (0 + Z.of_nat (length (select (λ r, negb (shown db scope by_room now grace r)) (sort_by (room_before db) (db_rooms db))))).
    - apply H; [|by intros g ?%not_elem_of_nil]. apply accounts_intro; try done; [by intros g ?%not_elem_of_nil|constructor|].
      intros c. split; [by intros ?%not_elem_of_nil|]. by intros (t & ?%not_elem_of_nil & _).
    - rewrite (select_perm _ _ _ (sort_by_perm _ _)). unfold on_board. clear.
      induction (db_rooms db) as [|r l IH]; [done|]. rewrite !select_cons. cbn [length].
      destruct (shown db scope by_room now grace r); cbn [negb length]; lia. }
  split_and!; [done|by eapply accounts_problems|].
  intros g (g' & -> & _)%list_elem_of_fmap. apply sort_by_sorted; [apply state_order_total|apply state_order_trans].
Qed.

(** ** What a guard is shown *)
Section guard.
Context (ci : string → string) (db : DB) (t : AcademicTerm) (grace_min : Z) (user : User) (now : Z).
Hypothesis Hact : select is_active_term (db_terms db) = [t].
Hypothesis Hgrace : policy_num db "grace_minutes" = Some grace_min.

(** A duty of the guard, now, on the floor *)
Definition on_post (floor : Z) : Prop :=
  ∃ a, a ∈ db_assignments db ∧ guard_duty (usr_pk user) t now a = true ∧ floor ∈ asg_floors a.
(** The classes of a room today, and its page *)
Definition room_today (room : Room) : list Session :=
  select (λ s, ses_room s =? room_pk room) (day_sessions db t (PyTime.local_date now)).
Definition page_of (room : Room) : RoomPage :=
  mk_room_page (room_tile db room (room_today room) now (PyTime.minutes grace_min))
    (select (λ s, occupies db s room) (room_today room)) (room_timetable db room (Some (term_pk t))).

Lemma active_run : get_active_term db = (inr (Some t), db).
Proof using Hact. unfold get_active_term. cbn. by rewrite Hact. Qed.
Lemma guard_floors_run :
  ∃ l, guard_floor_ids (usr_pk user) now db = (inr l, db) ∧ ∀ f, f ∈ l ↔ on_post f.
Proof using Hact.
  eexists. split.
  - unfold guard_floor_ids. rewrite (bind_run _ _ _ _ _ active_run). reflexivity.
  - intros f. rewrite elem_of_remove_dups, list_elem_of_In, in_concat. unfold on_post.
    setoid_rewrite <- list_elem_of_In. setoid_rewrite list_elem_of_fmap. setoid_rewrite elem_of_select. naive_solver.
Qed.
Lemma grace_run : policy_as_int "grace_minutes" db = (inr grace_min, db).
Proof using Hgrace.
  unfold policy_num in Hgrace. unfold policy_as_int.
  assert (get_policy "grace_minutes" db = (inr (PInt grace_min), db)) as H.
  { unfold get_policy, mbind, M_bind, read. by destruct (policy_value db _) as [[]|]; [injection Hgrace as ->|..]. }
  by rewrite (bind_run _ _ _ _ _ H).
Qed.
Lemma on_floors_iff l s :
  (∀ f, f ∈ l ↔ on_post f) →
  on_floors db l s = true ↔ ∃ room, by_pk (db_rooms db) (ses_room s) = Some room ∧ on_post (room_floor room).
Proof using. intros Hl. unfold on_floors. destruct (by_pk _ _) as [room|]; [rewrite bool_decide_eq_true, Hl|]; naive_solver. Qed.

(** C31: A guard sees the rooms of the floors of the postings that hold now, and no others: a
    room elsewhere is not found, as if there were none, and the page of a room is computed
    from its classes of the day.  The monitor lists exactly the day's sessions on those
    floors, by start; it is off duty for a guard who is posted nowhere.  Anyone who is
    neither a guard nor a superuser is refused both. *)
Theorem guard_sees_own_floors code :
  (¬ plays GUARD user → room_detail ci user code now db = (inl PermissionDenied, db) ∧
     monitor_rows user now db = (inl PermissionDenied, db)) ∧
  (plays GUARD user →
  (∀ room, List.find (λ r, same_text ci (room_code r) code) (db_rooms db) = Some room →
     on_post (room_floor room) → room_detail ci user code now db = (inr (Some (page_of room)), db)) ∧
  ((∀ room, List.find (λ r, same_text ci (room_code r) code) (db_rooms db) = Some room → ¬ on_post (room_floor room)) →
     room_detail ci user code now db = (inr None, db)) ∧
  ((∀ f, ¬ on_post f) → monitor_rows user now db = (inr None, db)) ∧
  ((∃ f, on_post f) → ∃ rows, monitor_rows user now db = (inr (Some rows), db) ∧
     StronglySorted (λ a b, by_start a b = true) rows ∧
     ∀ s, s ∈ rows ↔ s ∈ db_sessions db ∧ ses_date s = PyTime.local_date now ∧ in_term db (term_pk t) s = true ∧
                 ∃ room, by_pk (db_rooms db) (ses_room s) = Some room ∧ on_post (room_floor room))).
Proof using Hact Hgrace.
  unfold room_detail, monitor_rows, guard_required. split; [intros Hp; by rewrite !gated_out|].
  intros Hp. rewrite !gated_in by done.
  destruct guard_floors_run as (l & Hrun & Hl).
  assert (∀ room, List.find (λ r, same_text ci (room_code r) code) (db_rooms db) = room →
    first (R:=Room) (λ r, same_text ci (room_code r) code) db = (inr room, db)) as Hfirst by by intros room <-.
  split_and!.
  - intros room Hroom Hpost. rewrite (bind_run _ _ _ _ _ (Hfirst _ Hroom)), (bind_run _ _ _ _ _ Hrun).
    rewrite bool_decide_true by (by apply Hl). cbn [negb].
    by rewrite (bind_run _ _ _ _ _ grace_run), (bind_run _ _ _ _ _ active_run).
  - intros Hn. destruct (List.find _ _) as [room|] eqn:E;
      rewrite (bind_run _ _ _ _ _ (Hfirst _ eq_refl)); [|done]. rewrite (bind_run _ _ _ _ _ Hrun).
    rewrite bool_decide_false; [done|]. intros Hf. by apply (Hn room eq_refl), Hl.
  - intros Hn. rewrite (bind_run _ _ _ _ _ active_run), (bind_run _ _ _ _ _ Hrun).
    destruct l as [|f l]; [done|]. exfalso. apply (Hn f), Hl. left.
  - intros [f Hf]. rewrite (bind_run _ _ _ _ _ active_run), (bind_run _ _ _ _ _ Hrun).
    assert (l ≠ []) as Hne by (intros ->; by apply Hl, not_elem_of_nil in Hf).
    rewrite (match_cons Hne).
    eexists. split; [reflexivity|]. split.
    + unfold day_sessions. rewrite select_sort_by; [apply sort_by_sorted|..]; unfold by_start; intros *; rewrite !Z.leb_le; lia.
    + intros s. rewrite elem_of_select, (on_floors_iff l s Hl). unfold day_sessions.
      rewrite elem_of_sort_by, elem_of_select. b2p. tauto.
Qed.
End guard.

(** ** The floor board of a checker *)
Lemma round_half_even_near a b : 0 < b → 2 * Z.abs (b * round_half_even a b - a) ≤ b.
Proof.
  intros Hb. unfold round_half_even. pose proof (Z.div_mod a b ltac:(lia)). pose proof (Z.mod_pos_bound a b Hb).
  repeat case_match; b2p; lia.
Qed.
(** The cards are the sessions of the board, in order; the queue is exactly the running
    classes nobody verified; and the coverage is the percentage of verified ones, rounded
    to the nearest and never out of range, a full hundred for an empty board.  A card
    with an unverified running class says so unless a flag or an empty-room check does. *)
Theorem floor_board_exact db board :
  let b := floor_board db board in
  let seen s := VERIFIED ∈ actions_on db s in
  (fb_cards b).*1 = board ∧ sublist (fb_queue b) board ∧
  (∀ s, s ∈ fb_queue b ↔ s ∈ board ∧ ses_status s = ACTIVE ∧ ¬ seen s) ∧
  fb_total b = Z.of_nat (length board) ∧ 0 ≤ fb_verified b ≤ fb_total b ∧ 0 ≤ fb_coverage b ≤ 100 ∧
  (board = [] → fb_coverage b = 100) ∧
  2 * Z.abs (fb_total b * fb_coverage b - 100 * fb_verified b) ≤ fb_total b ∧
  ∀ s c, (s, c) ∈ fb_cards b → c = "active-unverified"%string ↔
    s ∈ fb_queue b ∧ ¬ (∃ a, a ∈ actions_on db s ∧ PyStr.startswith (action_str a) "flag" = true) ∧
    VERIFIED_EMPTY ∉ actions_on db s.
Proof.
  intros b seen. unfold b, floor_board. cbn [fb_cards fb_queue fb_total fb_verified fb_coverage].
  set (verified := length (select _ board)).
  assert (verified ≤ length board)%nat as Hv by apply select_length.
  assert (∀ s, s ∈ select (λ s, has_status ACTIVE s && negb (bool_decide (VERIFIED ∈ actions_on db s))) board ↔
    s ∈ board ∧ ses_status s = ACTIVE ∧ ¬ seen s) as Hq.
  { intros s. rewrite elem_of_select. unfold has_status, seen. b2p. naive_solver. }
  split_and!.
  - rewrite <- list_fmap_compose. apply list_fmap_id.
  - apply select_sublist.
  - exact Hq.
  - done.
  - lia.
  - lia.
  - case_match; b2p; [lia|]. pose proof (round_half_even_near (100 * Z.of_nat verified) (Z.of_nat (length board)) ltac:(lia)). nia.
  - case_match; b2p; [lia|]. pose proof (round_half_even_near (100 * Z.of_nat verified) (Z.of_nat (length board)) ltac:(lia)). nia.
  - by intros ->.
  - case_match; b2p; [lia|]. apply round_half_even_near. lia.
  - intros s c (s' & [= -> ->] & Hs)%list_elem_of_fmap. rewrite Hq. unfold card_state.
    destruct (existsb _ _) eqn:E.
    { rewrite existsb_elem in E. split; [done|]. naive_solver. }
    rewrite existsb_elem_false in E.
    assert (¬ ∃ a, a ∈ actions_on db s' ∧ PyStr.startswith (action_str a) "flag" = true) as Hnf
      by (intros (a & Ha & Hf); by rewrite (E a Ha) in Hf).
    fold (seen s'). repeat case_bool_decide; split; try done; naive_solver.
Qed.

(** ** Witnesses *)
Lemma timetable_exact_witness :
  ∃ tt, room_timetable demo_db (demo_room 1 "M-101") (Some 1) = Some tt ∧ 0 ≤ tt_used tt ≤ tt_capacity tt ∧
    tt_used tt = 1.
Proof.
  assert (∃ tt, room_timetable demo_db (demo_room 1 "M-101") (Some 1) = Some tt ∧ tt_used tt = 1) as (tt & Htt & Hu)
    by (eexists; vm_compute; split; reflexivity).
  exists tt. split; [exact Htt|]. split; [|exact Hu]. apply (timetable_exact _ _ _ _ Htt).
Defined.
(** Five minutes into the class of room 1, a guard posted to the floor *)
Definition guarded_db : DB :=
  demo_db <| db_assignments := [{| asg_pk := 1; asg_user := 9; asg_role := DUTY_GUARD; asg_floors := [1];
    asg_scope := FLOOR_SCOPE; asg_date := None; asg_start := None; asg_end := None;
    asg_term := Some 1; asg_status := "active"; asg_type := STANDING |}] |>.
Definition demo_guard (k : Z) : User := demo_user k "Gil" GUARD.
Lemma guard_sees_own_floors_witness :
  room_detail PyStr.upper (demo_guard 9) "m-101" (at_ 9 5) guarded_db =
    (inr (Some (page_of guarded_db demo_term 15 (at_ 9 5) (demo_room 1 "M-101"))), guarded_db) ∧
  room_detail PyStr.upper (demo_guard 8) "M-101" (at_ 9 5) guarded_db = (inr None, guarded_db).
Proof.
  split.
  - apply (guard_sees_own_floors PyStr.upper guarded_db demo_term 15 (demo_guard 9) (at_ 9 5)
      ltac:(reflexivity) ltac:(reflexivity) "m-101"%string); [by left|vm_compute; reflexivity|].
    eexists. split; [left|]. split; [vm_compute; reflexivity|left].
  - apply (guard_sees_own_floors PyStr.upper guarded_db demo_term 15 (demo_guard 8) (at_ 9 5)
      ltac:(reflexivity) ltac:(reflexivity) "M-101"%string); [by left|].
    intros room _ (a & Ha & Hd & _). cbn in Ha. apply list_elem_of_singleton in Ha as ->. vm_compute in Hd. done.
Defined.
