(* ===== verification/Exports.v ===== *)
(** scheduling/report_render.py: the consolidated report as a CSV document, with the
    neutralizer of spreadsheet formulas, and the title of the printable one.  The layout
    of the PDF is a third-party library's.

    [csv.writer] is the standard library's, in its default dialect; [read_csv] is a reader
    of that dialect, against which the documents are shown to say what they should. *)
From S2P Require Import Prelude Python Model Effects Ops Sample Reporting.
From Stdlib Require Import Ascii String.
From stdpp Require Import strings.
Open Scope Z_scope.

(** ** csv *)
Definition QUOTE : ascii := ascii_of_nat 34.
Definition CR : ascii := ascii_of_nat 13.
Definition LF : ascii := ascii_of_nat 10.
Definition TAB : ascii := ascii_of_nat 9.
Definition COMMA : ascii := ","%char.
Notation chars := (list ascii).

(** A cell is quoted when it has a delimiter, a quote or an end of line; its quotes are
    doubled.  A row of one empty cell is quoted too, lest it read as no row. *)
Definition special (c : ascii) : bool := bool_decide (c ∈ [COMMA; QUOTE; CR; LF]).
Definition escape (l : chars) : chars := l ≫= λ c, if bool_decide (c = QUOTE) then [QUOTE; QUOTE] else [c].
Definition quoted (l : chars) : chars := QUOTE :: escape l ++ [QUOTE].
Definition write_cell (l : chars) : chars := if existsb special l then quoted l else l.
Fixpoint write_cells (cells : list chars) : chars :=
  match cells with
  | [] => [CR; LF]
  | [c] => write_cell c ++ [CR; LF]
  | c :: cells => write_cell c ++ COMMA :: write_cells cells
  end.
Definition write_row (cells : list chars) : chars :=
  match cells with
  | [[]] => [QUOTE; QUOTE; CR; LF]
  | _ => write_cells cells
  end.
Definition write_rows (rows : list (list string)) : string :=
  PyStr.of_list (rows ≫= λ row, write_row (PyStr.to_list <$> row)).

(** The reader: at the start of a record or of a cell, in a bare cell, between quotes, at
    a quote that may close the cell or be doubled, after a carriage return *)
Inductive reading := At_record | At_cell | In_bare | In_quotes | At_quote | After_return.
Inductive reading_action := Keep | Skip | End_cell | End_row | Empty_row.
Definition bare_char (c : ascii) : reading * reading_action :=
  if bool_decide (c = COMMA) then (At_cell, End_cell)
  else if bool_decide (c = CR) then (After_return, End_row)
  else if bool_decide (c = LF) then (At_record, End_row)
  else (In_bare, Keep).
Definition cell_char (c : ascii) : reading * reading_action :=
  if bool_decide (c = QUOTE) then (In_quotes, Skip) else bare_char c.
Definition record_char (c : ascii) : reading * reading_action :=
  if bool_decide (c = CR) then (After_return, Empty_row)
  else if bool_decide (c = LF) then (At_record, Empty_row)
  else cell_char c.
Definition read_char (st : reading) (c : ascii) : reading * reading_action :=
  match st with
  | At_record => record_char c
  | After_return => if bool_decide (c = LF) then (At_record, Skip) else record_char c
  | At_cell => cell_char c
  | In_bare => bare_char c
  | In_quotes => if bool_decide (c = QUOTE) then (At_quote, Skip) else (In_quotes, Keep)
  | At_quote => if bool_decide (c = QUOTE) then (In_quotes, Keep) else bare_char c
  end.
Fixpoint read_from (st : reading) (cell : chars) (row : list chars) (l : chars) : list (list chars) :=
  match l with
  | [] => match st with
          | At_record | After_return => []
          | _ => [reverse (reverse cell :: row)]
          end
  | c :: l =>
      let '(st, a) := read_char st c in
      match a with
      | Keep => read_from st (c :: cell) row l
      | Skip => read_from st cell row l
      | End_cell => read_from st [] (reverse cell :: row) l
      | End_row => reverse (reverse cell :: row) :: read_from st [] [] l
      | Empty_row => [] :: read_from st [] [] l
      end
  end.
Definition read_csv (s : string) : list (list string) :=
  (λ row : list chars, PyStr.of_list <$> row) <$> read_from At_record [] [] (PyStr.to_list s).

(** ** scheduling/report_render.py *)
Definition FORMULA_TRIGGERS : list ascii := ["="%char; "+"%char; "-"%char; "@"%char; TAB; CR].
Definition is_formula (s : string) : bool :=
  match PyStr.to_list s with c :: _ => bool_decide (c ∈ FORMULA_TRIGGERS) | [] => false end.
Definition csv_safe (s : string) : string := if is_formula s then "'" +:+ s else s.

Definition HEADER : list string :=
  ["Faculty"; "Scheduled"; "Held"; "Absent"; "Attendance %"; "Checker-verified"; "Avg min late"; "Chronic late"]%string.
(** [str] of a [Decimal] with one place *)
Definition tenths_str (n : Z) : string := PyStr.str (n / 10) +:+ "." +:+ PyStr.str (n mod 10).
Definition csv_row (r : FacultyRow) : list string :=
  [csv_safe (fr_name r); PyStr.str (fr_scheduled r); PyStr.str (fr_held r); PyStr.str (fr_absent r);
   PyStr.str (fr_pct r) +:+ "%"; PyStr.str (fr_verified r); tenths_str (fr_late_avg r);
   if fr_chronic r then "Yes" else ""]%string.
Definition build_csv (rows : list FacultyRow) : string := write_rows (HEADER :: (csv_row <$> rows)).
(** The code of the department, [None] for all of them *)
Definition pdf_title (period_start period_end : Z) (department : option string) : string :=
  "Attendance Report - " +:+ default "All"%string department +:+ " - " +:+ PyTime.date_str period_start
  +:+ " to " +:+ PyTime.date_str period_end.

(** ** What is written is what is read *)

(** The character that ends a cell, and what is read after it *)
Definition after_cell (cell : chars) (row : list chars) (d : ascii) (l : chars) : list (list chars) :=
  if bool_decide (d = COMMA) then read_from At_cell [] (cell :: row) l
  else reverse (cell :: row) :: read_from After_return [] [] l.
Lemma read_bare cell : existsb special cell = false → ∀ acc row d l, d = COMMA ∨ d = CR →
  read_from In_bare acc row (cell ++ d :: l) = after_cell (reverse acc ++ cell) row d l.
Proof.
  induction cell as [|c cell IH]; intros Hs acc row d l Hd.
  - rewrite app_nil_r. by destruct Hd as [-> | ->].
  - cbn [existsb] in Hs. apply orb_false_iff in Hs as [Hc Hs]. unfold special in Hc. b2p.
    cbn [app read_from read_char]. unfold bare_char. rewrite !bool_decide_false by (intros ->; apply Hc; set_solver).
    rewrite (IH Hs) by done. by rewrite reverse_cons, <- app_assoc.
Qed.
Lemma read_escaped cell : ∀ acc row d l, d = COMMA ∨ d = CR →
  read_from In_quotes acc row (escape cell ++ QUOTE :: d :: l) = after_cell (reverse acc ++ cell) row d l.
Proof.
  induction cell as [|c cell IH]; intros acc row d l Hd.
  - rewrite app_nil_r. by destruct Hd as [-> | ->].
  - unfold escape. rewrite bind_cons. fold (escape cell). rewrite <- app_assoc. case_bool_decide as Hc.
    + subst c. change (read_from In_quotes acc row ([QUOTE; QUOTE] ++ ?x)) with (read_from In_quotes (QUOTE :: acc) row x).
      rewrite (IH _ _ _ _ Hd).
      by rewrite reverse_cons, <- app_assoc.
    + cbn [app read_from read_char]. rewrite bool_decide_false by done. rewrite (IH _ _ _ _ Hd).
      by rewrite reverse_cons, <- app_assoc.
Qed.
(** A cell is read whole where a cell may start; an empty one at the start of a record
    must be followed by another. *)
Definition starts (st : reading) : Prop := st = At_cell ∨ st = At_record ∨ st = After_return.
Lemma read_cell st cell row d l :
  starts st → d = COMMA ∨ (d = CR ∧ (st = At_cell ∨ cell ≠ [])) →
  read_from st [] row (write_cell cell ++ d :: l) = after_cell cell row d l.
Proof.
  intros Hst Hd. assert (d = COMMA ∨ d = CR) as Hd' by tauto. unfold write_cell.
  destruct (existsb special cell) eqn:Es.
  - unfold quoted. cbn [app]. rewrite <- app_assoc. cbn [app].
    transitivity (read_from In_quotes [] row (escape cell ++ QUOTE :: d :: l)); [|by rewrite read_escaped].
    by destruct Hst as [-> |[-> | ->]].
  - destruct cell as [|c cell].
    + destruct Hd as [-> |[-> [-> |?]]]; [by destruct Hst as [-> |[-> | ->]]|done|done].
    + transitivity (read_from In_bare [] row ((c :: cell) ++ d :: l)); [|by rewrite read_bare].
      cbn [existsb] in Es. apply orb_false_iff in Es as [Hc _]. unfold special in Hc. b2p.
      assert (c ≠ QUOTE ∧ c ≠ CR ∧ c ≠ LF) as (H1 & H2 & H3) by (split_and!; intros ->; apply Hc; set_solver).
      destruct Hst as [-> |[-> | ->]]; cbn [app read_from read_char]; unfold record_char, cell_char, bare_char; by rewrite ?(bool_decide_false (c = QUOTE)),
        ?(bool_decide_false (c = CR)), ?(bool_decide_false (c = LF)) by done.
Qed.
Lemma read_cells cells : ∀ st row l,
  cells ≠ [] → (st = At_cell ∨ (starts st ∧ cells ≠ [[]])) →
  read_from st [] row (write_cells cells ++ l) = (reverse row ++ cells) :: read_from After_return [] [] (LF :: l).
Proof.
  induction cells as [|c cells IH]; intros st row l Hne Hst; [done|].
  assert (starts st) as Hs by (unfold starts in *; tauto).
  destruct cells as [|c' cells].
  - cbn [write_cells]. rewrite <- app_assoc. cbn [app]. rewrite read_cell; [|done|].
    + unfold after_cell. rewrite bool_decide_false by done. by rewrite reverse_cons.
    + right. split; [done|]. destruct Hst as [?|[_ Hc]]; [by left|]. right. by intros ->.
  - change (write_cells (c :: c' :: cells)) with (write_cell c ++ COMMA :: write_cells (c' :: cells)).
    rewrite <- app_assoc. cbn [app]. rewrite read_cell by (done || by left). unfold after_cell. rewrite bool_decide_true by done.
    rewrite IH by (done || by left). by rewrite reverse_cons, <- app_assoc.
Qed.
Lemma read_row row st l :
  row ≠ [] → st = At_record ∨ st = After_return →
  read_from st [] [] (write_row row ++ l) = row :: read_from After_return [] [] (LF :: l).
Proof.
  intros Hne Hst. destruct (decide (row = [[]])) as [->|Hn].
  - cbn. by destruct Hst as [-> | ->].
  - assert (write_row row = write_cells row) as -> by (destruct row as [|[|] [|]]; done).
    rewrite read_cells; [done|done|]. right. split; [|done]. unfold starts. tauto.
Qed.
(** Reading a document gives back the rows it was written from, whatever is in the cells. *)
Lemma read_write rows : (∀ row, row ∈ rows → row ≠ []) → read_csv (write_rows rows) = rows.
Proof.
  intros Hne. unfold read_csv, write_rows. rewrite PyStr.to_of_list.
  assert (∀ st, st = At_record ∨ st = After_return →
    read_from st [] [] ((rows ≫= λ row, write_row (PyStr.to_list <$> row))) = (λ row : list string, PyStr.to_list <$> row) <$> rows) as H.
  { clear -Hne. induction rows as [|row rows IH]; intros st Hst; [by destruct Hst as [-> | ->]|].
    rewrite bind_cons, fmap_cons, read_row; [|destruct row; [by destruct (Hne [] ltac:(left))|done]|done].
    f_equal. change (read_from After_return [] [] (LF :: ?l)) with (read_from At_record [] [] l).
    apply IH; [|by left]. intros r Hr. apply Hne. by right. }
  rewrite H by by left. rewrite <- list_fmap_compose. rewrite (list_fmap_ext _ id); [apply list_fmap_id|].
  intros i row _. unfold compose. rewrite <- list_fmap_compose. rewrite (list_fmap_ext _ id); [apply list_fmap_id|].
  intros j s _. apply PyStr.of_to_list.
Qed.

(** ** The document of the report *)
Lemma str_digit n : 0 ≤ n → ∃ c l, PyStr.to_list (PyStr.str n) = c :: l ∧ PyStr.is_digit c = true.
Proof.
  intros Hn. destruct n as [|p|p]; [by eexists _, _| |lia].
  change (PyStr.str (Z.pos p)) with (pretty_N_go (N.pos p) ""). rewrite pretty_N_go_step by lia.
  set (d := pretty_N_char _). assert (PyStr.is_digit d = true) as Hd
    by (unfold d, pretty_N_char; repeat case_match; reflexivity).
  destruct (PyStr.pretty_go_digits (Pos.to_nat p) (N.pos p `div` 10) (String d "")) as (l & _ & Hl & ->).
  { rewrite positive_nat_N. eapply N.le_lt_trans; [apply (N.Div0.div_le_upper_bound _ _ (N.pos p)); lia|]. apply N.pow_gt_lin_r. lia. }
  destruct l as [|c l]; [by eexists _, _|]. cbn in Hl. b2p. eexists _, _. split; [done|]. tauto.
Qed.
Lemma str_not_formula n s : 0 ≤ n → is_formula (PyStr.str n +:+ s) = false.
Proof.
  intros (c & l & Hl & Hc)%str_digit. unfold is_formula. rewrite PyStr.to_list_app, Hl. cbn [app].
  apply bool_decide_eq_false. intros H. revert Hc. unfold FORMULA_TRIGGERS in H.
  repeat (apply elem_of_cons in H as [-> |H]; [done|]). by apply not_elem_of_nil in H.
Qed.
Lemma str_safe n : 0 ≤ n → is_formula (PyStr.str n) = false.
Proof. intros H. pose proof (str_not_formula n "" H) as Hs. unfold is_formula in *. by rewrite PyStr.to_list_app, app_nil_r in Hs. Qed.
Lemma csv_safe_not_formula s : is_formula (csv_safe s) = false.
Proof. unfold csv_safe. destruct (is_formula s) eqn:E; [reflexivity|done]. Qed.

(** Every figure of a row is a count, a percentage or an average of lateness. *)
Lemma row_nonneg name_le db q r :
  r ∈ faculty_attendance name_le db q →
  0 ≤ fr_scheduled r ∧ 0 ≤ fr_held r ∧ 0 ≤ fr_absent r ∧ 0 ≤ fr_pct r ∧ 0 ≤ fr_verified r ∧ 0 ≤ fr_late_avg r.
Proof.
  intros Hr. pose proof (row_consistent _ _ _ _ Hr) as Hc. apply row_elem in Hr as (f & Hr & _).
  assert (0 ≤ fr_held r ∧ 0 ≤ fr_verified r ∧ 0 ≤ fr_late_avg r) as H; [|lia]. clear Hc. subst r.
  cbn -[lateness_map verified_map]. change (mk_late 0 0 0) with no_late. rewrite lateness_get.
  unfold verified_map. rewrite (group_by_getd _ _ (count all)) by done.
  split_and!; [apply count_nonneg..|]. unfold avg_minutes, lateness_of. cbn.
  set (l := select (of_faculty f) _). case_match eqn:E; [lia|]. b2p. apply Z.div_pos; [|lia].
  assert (0 ≤ zsum (late_by <$> l)); [|lia]. apply zsum_nonneg. intros x (s & -> & _)%list_elem_of_fmap.
  unfold late_by, session_minutes_late. destruct (ses_actual_start s); lia.
Qed.
Lemma tenths_safe n : 0 ≤ n → is_formula (tenths_str n) = false.
Proof. intros H. apply str_not_formula. by apply Z.div_pos. Qed.
Lemma csv_row_safe name_le db q r c :
  r ∈ faculty_attendance name_le db q → c ∈ csv_row r → is_formula c = false.
Proof.
  intros (H1 & H2 & H3 & H4 & H5 & H6)%row_nonneg Hc. unfold csv_row in Hc.
  repeat (apply elem_of_cons in Hc as [-> |Hc];
    [by auto using csv_safe_not_formula, str_safe, str_not_formula, tenths_safe || by destruct (fr_chronic r)|]).
  by apply not_elem_of_nil in Hc.
Qed.

Lemma read_build rows : read_csv (build_csv rows) = HEADER :: (csv_row <$> rows).
Proof. apply read_write. intros row [-> |(r & -> & _)%list_elem_of_fmap]%elem_of_cons; done. Qed.

(** The consolidated report downloads as the rows it was built from: a reader of the
    dialect finds the header and then one record for each row, in order, whatever commas,
    quotes and ends of line a name has; no cell of it is one a spreadsheet would run as a
    formula, and a name that is not one is written as it is. *)
Theorem report_csv_exact name_le db q :
  let rows := faculty_attendance name_le db q in
  read_csv (build_csv rows) = HEADER :: (csv_row <$> rows) ∧
  (∀ row c, row ∈ read_csv (build_csv rows) → c ∈ row → is_formula c = false) ∧
  (∀ i r, rows !! i = Some r → is_formula (fr_name r) = false →
     (read_csv (build_csv rows) !! S i) ≫= head = Some (fr_name r)).
Proof.
  intros rows. rewrite read_build. split_and!; [done|..].
  - intros row c [-> |(r & -> & Hr)%list_elem_of_fmap]%elem_of_cons Hc; [|by eapply csv_row_safe].
    unfold HEADER in Hc. repeat (apply elem_of_cons in Hc as [-> |Hc]; [done|]). by apply not_elem_of_nil in Hc.
  - intros i r Hi Hn. rewrite lookup_cons, list_lookup_fmap, Hi. cbn.
    unfold csv_safe. by rewrite Hn.
Qed.
