(* ===== verification/ReportScope.v ===== *)
(** web/reporting_common.py: the one term and the dates a management report covers, read
    from the query of a request, and the labels shared by the reports.

    A request is its query ([request.GET], a dictionary) and today's date.  [parse_date] is
    Django's: [None] when the text has not the form of a date, [ValueErr] when it has the
    form and no such date exists. *)
From S2P Require Import Prelude Python Model Effects Ops Sample Boards Reporting Web.
From Stdlib Require Import Ascii String.
From stdpp Require Import strings.
Open Scope Z_scope.

(** [_WEEKDAY_INDEX] *)
Definition WEEKDAY_INDEX : dict string Z := [
  ("monday", 0); ("tuesday", 1); ("wednesday", 2); ("thursday", 3);
  ("friday", 4); ("saturday", 5); ("sunday", 6)]%string.
(** [str(get_policy(...)).lower()] *)
Definition policy_text (v : PolicyVal) : string :=
  PyStr.lower (match v with PInt n => PyStr.str n | PStr s => s end).

Record ReportScope := {
  rs_term : option AcademicTerm;
  rs_term_choices : list AcademicTerm;
  rs_start : option Z;
  rs_end : option Z;
  rs_as_of : option Z;
  rs_note : option string;
  rs_error : option string;
  rs_error_code : option string;
  rs_query_params : form
}.
#[global] Instance eta_ReportScope : Eta ReportScope := λ r, {|
  rs_term := rs_term r; rs_term_choices := rs_term_choices r; rs_start := rs_start r; rs_end := rs_end r;
  rs_as_of := rs_as_of r; rs_note := rs_note r; rs_error := rs_error r; rs_error_code := rs_error_code r;
  rs_query_params := rs_query_params r |}.
Definition is_valid (s : ReportScope) : bool := is_none (rs_error_code s) && is_some (rs_term s).
(** [urlencode] of the parameters, whose characters need no escape *)
Definition scope_query (s : ReportScope) : string :=
  PyStr.join "&" ((λ p : string * string, p.1 +:+ "=" +:+ p.2) <$> rs_query_params s).

(** The ACTIVE term first, then the newest *)
Definition choice_key (t : AcademicTerm) : Z * Z * Z :=
  (if bool_decide (term_status t = T_ACTIVE) then 0 else 1, - term_start t, - term_pk t).
Definition choice_le (a b : AcademicTerm) : bool :=
  let '(a1, a2, a3) := choice_key a in
  let '(b1, b2, b3) := choice_key b in
  (a1 <? b1) || ((a1 =? b1) && ((a2 <? b2) || ((a2 =? b2) && (a3 <=? b3)))).
Definition report_term_choices : M (list AcademicTerm) := read (λ db, sort_by choice_le (db_terms db)).

Definition empty_report_scope (choices : list AcademicTerm) (code message : string) : ReportScope :=
  {| rs_term := None; rs_term_choices := choices; rs_start := None; rs_end := None; rs_as_of := None;
     rs_note := None; rs_error := Some message; rs_error_code := Some code; rs_query_params := [] |}.
Definition clamp (value lower upper : Z) : Z := Z.min (Z.max value lower) upper.

Definition UNAVAILABLE : string := "That academic term is not available. Choose a term from the report filter.".
Definition NO_ACTIVE : string :=
  "No active academic term is available. Select a term explicitly to view historical reports.".
Definition NOTE_INVALID : string :=
  "That date wasn't valid, so the date filter was ignored and the selected term's safe default was used.".
Definition NOTE_REVERSED : string :=
  "The start date was after the end date, so the report used the selected term's default range.".

Section scope.
Context (parse_date : string → exn + option Z).

Definition date_field (raw : string) : M (option Z) :=
  if blank raw then mret None
  else match parse_date raw with inl e => raise e | inr o => mret o end.
Definition unreadable (raw : string) (o : option Z) : bool := negb (blank raw) && is_none o.

(** The term that is asked for, or the ACTIVE one when none is; or the error *)
Definition scope_term (q : form) : M (string * string + AcademicTerm) :=
  match dict_get q "term"%string with
  | Some _ =>
      let raw := post q "term" in
      if negb (PyStr.isdigit raw) then mret (inl ("invalid-term"%string, UNAVAILABLE))
      else read (λ db, by_pk (db_terms db) (digits raw)) ≫= λ o,
           mret (match o with Some t => inr t | None => inl ("invalid-term"%string, UNAVAILABLE) end)
  | None =>
      get_active_term ≫= λ o,
      mret (match o with Some t => inr t | None => inl ("no-active-term"%string, NO_ACTIVE) end)
  end.
(** The window shown when the request names none *)
Definition default_range (default_window : AcademicTerm → M (Z * Z)) (t : AcademicTerm) : M (Z * Z) :=
  (if bool_decide (term_status t = T_ACTIVE) then default_window t else mret (term_start t, term_end t)) ≫= λ w,
  let s := clamp w.1 (term_start t) (term_end t) in
  let e := clamp w.2 (term_start t) (term_end t) in
  mret (if e <? s then (term_start t, term_end t) else (s, e)).
(** [normalized] *)
Definition scope_params (t : AcademicTerm) (start end_ as_of : Z) : form :=
  [("term", PyStr.str (term_pk t)); ("from", PyTime.date_str start); ("to", PyTime.date_str end_);
   ("as_of", PyTime.date_str as_of)]%string.

(** The dates clamped to the term, the as-of date to the range and to today *)
Definition bounded_scope (choices : list AcademicTerm) (t : AcademicTerm) (w : Z * Z) (note : option string)
    (parsed_start parsed_end parsed_as_of : option Z) (today : Z) : ReportScope :=
  let start := clamp (default w.1 parsed_start) (term_start t) (term_end t) in
  let end_ := clamp (default w.2 parsed_end) (term_start t) (term_end t) in
  let '(start, end_, note) :=
    if end_ <? start then (w.1, w.2, Some NOTE_REVERSED) else (start, end_, note) in
  let cap := Z.min end_ today in
  let as_of := default cap parsed_as_of in
  let as_of := if term_start t <=? cap then clamp as_of (term_start t) cap else cap in
  {| rs_term := Some t; rs_term_choices := choices; rs_start := Some start; rs_end := Some end_;
     rs_as_of := Some as_of; rs_note := note; rs_error := None; rs_error_code := None;
     rs_query_params := scope_params t start end_ as_of |}.

Definition selected_report_scope (default_window : AcademicTerm → M (Z * Z)) (q : form) (today : Z)
    : M ReportScope :=
  report_term_choices ≫= λ choices,
  scope_term q ≫= λ found,
  match found with
  | inl (code, message) => mret (empty_report_scope choices code message)
  | inr t =>
      default_range default_window t ≫= λ w,
      let from_raw := post q "from" in
      let to_raw := post q "to" in
      let as_of_raw := post q "as_of" in
      date_field from_raw ≫= λ parsed_start,
      date_field to_raw ≫= λ parsed_end,
      date_field as_of_raw ≫= λ parsed_as_of,
      let note := if unreadable from_raw parsed_start || unreadable to_raw parsed_end || unreadable as_of_raw parsed_as_of
                  then Some NOTE_INVALID else None in
      mret (bounded_scope choices t w note parsed_start parsed_end parsed_as_of today)
  end.

(** The current week up to today, or the dates of the request *)
Definition reporting_range (q : form) (today : Z) : M (Z * Z * Z * option string) :=
  get_policy "reporting_week_start" ≫= λ v,
  let start_day := dict_getd WEEKDAY_INDEX (policy_text v) 0 in
  let default_start := today - (PyTime.weekday today - start_day) mod 7 in
  let from_raw := post q "from" in
  let to_raw := post q "to" in
  date_field from_raw ≫= λ start,
  date_field to_raw ≫= λ end_,
  let bad := unreadable from_raw start || unreadable to_raw end_ in
  let note := if bad then Some "That date range wasn't valid, so we're showing the current week."%string else None in
  let start := if bad then default_start else default default_start start in
  let end_ := if bad then today else default today end_ in
  mret (if end_ <? start
        then (default_start, today, today,
              Some "The start date was after the end date, so we're showing the current week."%string)
        else (start, end_, today, note)).
(** [_dean_report_scope], and [_ifo_report_scope] *)
Definition week_report_scope (q : form) (today : Z) : M ReportScope :=
  selected_report_scope (λ _, reporting_range q today ≫= λ '(start, end_, _, _), mret (start, end_)) q today.
End scope.

(** The label of a session in the payroll and in a faculty member's history *)
Definition status_label (s : SessionStatus) : string :=
  match s with
  | ACTIVE | COMPLETED => "Present"
  | ABSENT => "Absent"
  | _ => "Scheduled"
  end.

(** ** The scope stays in its term *)

(** The dates of a scope: inside the term, in order, and never counting the future *)
Record bounded (t : AcademicTerm) (today start end_ as_of : Z) : Prop := {
  bounded_start : term_start t ≤ start;
  bounded_order : start ≤ end_;
  bounded_end : end_ ≤ term_end t;
  bounded_as_of : as_of ≤ end_ ∧ as_of ≤ today;
  bounded_began : term_start t ≤ today → term_start t ≤ as_of;
  bounded_future : today < term_start t → as_of = today
}.
Lemma bounded_scope_wf choices t w note ps pe pa today :
  term_start t ≤ w.1 → w.1 ≤ w.2 → w.2 ≤ term_end t →
  ∃ start end_ as_of note', bounded t today start end_ as_of ∧
    bounded_scope choices t w note ps pe pa today =
    {| rs_term := Some t; rs_term_choices := choices; rs_start := Some start; rs_end := Some end_;
       rs_as_of := Some as_of; rs_note := note'; rs_error := None; rs_error_code := None;
       rs_query_params := scope_params t start end_ as_of |}.
Proof.
  intros H1 H2 H3. unfold bounded_scope. cbv zeta.
  assert (∀ start end_, term_start t ≤ start → start ≤ end_ → end_ ≤ term_end t →
    let cap := Z.min end_ today in
    let as_of := if term_start t <=? cap then clamp (default cap pa) (term_start t) cap else cap in
    bounded t today start end_ as_of) as Hb.
  { intros start end_ Hs He Ht. unfold clamp. case_match; b2p; split; lia. }
  set (sd := clamp (default w.1 ps) _ _). set (ed := clamp (default w.2 pe) _ _).
  assert (term_start t ≤ sd ∧ ed ≤ term_end t) as [Hs He] by (unfold sd, ed, clamp; lia).
  destruct (Z.ltb_spec ed sd); eexists _, _, _, _; (split; [|reflexivity]; apply Hb; lia).
Qed.
(** A scope's own dates are a fixed point. *)
Lemma bounded_scope_fix choices t w today start end_ as_of :
  bounded t today start end_ as_of →
  bounded_scope choices t w None (Some start) (Some end_) (Some as_of) today =
  {| rs_term := Some t; rs_term_choices := choices; rs_start := Some start; rs_end := Some end_;
     rs_as_of := Some as_of; rs_note := None; rs_error := None; rs_error_code := None;
     rs_query_params := scope_params t start end_ as_of |}.
Proof.
  intros []. unfold bounded_scope. cbn [from_option id]. cbv zeta.
  assert (clamp start (term_start t) (term_end t) = start) as -> by (unfold clamp; lia).
  assert (clamp end_ (term_start t) (term_end t) = end_) as -> by (unfold clamp; lia).
  rewrite (proj2 (Z.ltb_ge end_ start)) by lia.
  assert ((if term_start t <=? Z.min end_ today then clamp as_of (term_start t) (Z.min end_ today)
           else Z.min end_ today) = as_of) as ->; [|done].
  unfold clamp. case_match; b2p; lia.
Qed.

(** ** The reader of a scope writes nothing *)
Abbreviation reads := (respects eq).
Lemma reads_date_field parse_date raw : reads (date_field parse_date raw).
Proof. unfold date_field. repeat case_match; apply _ || auto with respects typeclass_instances. Qed.
Lemma reads_active_term : reads get_active_term.
Proof. intros db. unfold exec, get_active_term. by repeat case_match. Qed.
Lemma reads_policy key : reads (get_policy key).
Proof. apply respects_bind; [apply _|by auto with respects typeclass_instances|]. intros ?. by apply respects_of_option, _. Qed.
Lemma reads_scope_term q : reads (scope_term q).
Proof.
  unfold scope_term. repeat case_match; try (intros ?; reflexivity); apply respects_bind; try apply _;
    try apply reads_active_term; try (intros ? ?; reflexivity); intros ?; reflexivity.
Qed.
#[export] Hint Resolve reads_date_field reads_active_term reads_policy reads_scope_term : respects.
#[export] Hint Extern 5 (PreOrder _) => apply _ : respects.
Ltac reads_tac := repeat (apply respects_bind; [apply _| |intros]); repeat case_match; auto with respects.
Lemma reads_range parse_date q today : reads (reporting_range parse_date q today).
Proof. unfold reporting_range. reads_tac. Qed.
Lemma reads_default default_window t : reads (default_window t) → reads (default_range default_window t).
Proof. intros H. unfold default_range. reads_tac. Qed.
Lemma reads_scope parse_date default_window q today :
  (∀ t, reads (default_window t)) → reads (selected_report_scope parse_date default_window q today).
Proof. intros H. unfold selected_report_scope, report_term_choices. reads_tac. reads_tac; by apply reads_default. Qed.
#[export] Hint Resolve reads_range reads_scope : respects.

(** ** Numbers and dates as the text of a query *)
Lemma strip_plain s : forallb plain (PyStr.to_list s) = true → PyStr.strip s = s.
Proof.
  intros H. unfold PyStr.strip. rewrite PyStr.strip_list_id; [apply PyStr.of_to_list|].
  rewrite forallb_elem in H. intros c Hc. specialize (H c Hc). unfold plain in H. by destruct (PyStr.is_space c).
Qed.
Lemma zpad_plain w n : forallb plain (PyStr.to_list (PyStr.zpad w n)) = true.
Proof.
  unfold PyStr.zpad. rewrite PyStr.to_list_app, PyStr.to_of_list, forallb_app, str_plain, andb_true_r.
  generalize (w - String.length (PyStr.str n))%nat as k. induction k as [|k IH]; [done|]. exact IH.
Qed.
Lemma date_str_plain d : forallb plain (PyStr.to_list (PyTime.date_str d)) = true.
Proof.
  unfold PyTime.date_str. destruct (PyTime.civil d) as [[y m] dd].
  by rewrite !PyStr.to_list_app, !forallb_app, !zpad_plain.
Qed.

(** ** What a scope is *)
Lemma wp_reads {A} (m : M A) (Q : exn + A → DB → Prop) db : reads m → (∀ r, m db = (r, db) → Q r db) → wp m Q db.
Proof.
  intros Hm HQ. unfold wp. pose proof (Hm db) as He. unfold exec in He. rewrite <- He. apply HQ.
  rewrite (surjective_pairing (m db)) at 1. by rewrite <- He.
Qed.
Section spans.
(** The span of dates in use: a date of it is read back from its text. *)
Context (lo hi : Z).
Definition date_ok (d : Z) : Prop := lo ≤ d ≤ hi.
Definition reads_back (parse_date : string → exn + option Z) : Prop :=
  ∀ d, date_ok d → parse_date (PyTime.date_str d) = inr (Some d).
Record terms_ok (db : DB) : Prop := {
  terms_unique : pk_unique (db_terms db);
  terms_span : ∀ t, t ∈ db_terms db →
    0 < term_pk t ∧ term_start t ≤ term_end t ∧ date_ok (term_start t) ∧ date_ok (term_end t)
}.

(** The scope of a term's dates, and the term it is of *)
Definition valid_scope (choices : list AcademicTerm) (t : AcademicTerm) (start end_ as_of : Z) (note : option string)
    : ReportScope :=
  {| rs_term := Some t; rs_term_choices := choices; rs_start := Some start; rs_end := Some end_;
     rs_as_of := Some as_of; rs_note := note; rs_error := None; rs_error_code := None;
     rs_query_params := scope_params t start end_ as_of |}.
Definition names_term (q : form) (t : AcademicTerm) : Prop :=
  match dict_get q "term"%string with
  | None => term_status t = T_ACTIVE
  | Some _ => PyStr.isdigit (post q "term") = true ∧ term_pk t = digits (post q "term")
  end.

Section scope_facts.
Context (parse_date : string → exn + option Z) (db : DB) (today : Z).
Context (Hdb : terms_ok db).

Definition no_term_code (q : form) : string :=
  if is_some (dict_get q "term"%string) then "invalid-term" else "no-active-term".
Lemma scope_term_found q r :
  one_active_term db → scope_term q db = (r, db) →
  match r with
  | inl _ => False
  | inr (inl (code, _)) => code = no_term_code q ∧ ∀ t, t ∈ db_terms db → ¬ names_term q t
  | inr (inr t) => t ∈ db_terms db ∧ names_term q t
  end.
Proof using Hdb.
  unfold scope_term, names_term, no_term_code. intros Hone. destruct (dict_get q "term"%string) as [raw|].
  - destruct (PyStr.isdigit (post q "term")) eqn:E; cbn [negb]; [|intros [= <-]; split; [done|by intros t _ [? _]]].
    unfold mbind, M_bind, read. destruct (by_pk _ _) as [t|] eqn:Et; intros [= <-].
    + apply by_pk_elem in Et as [Hin Hpk]. done.
    + split; [done|]. intros t Hin [_ Hpk]. rewrite (by_pk_unique _ _ t) in Et; [done|apply Hdb|done|done].
  - unfold mbind, M_bind, get_active_term. unfold one_active_term in Hone.
    destruct (select is_active_term (db_terms db)) as [|t [|? ?]] eqn:E;
      intros [= <-]; [|assert (t ∈ select is_active_term (db_terms db)) as Ht by (rewrite E; left);
        apply elem_of_select in Ht as [Hin Ha]; unfold is_active_term in Ha; by b2p|simpl in Hone; lia].
    split; [done|]. intros t Hin Ha. assert (t ∈ select is_active_term (db_terms db)) as Ht
      by (apply elem_of_select; unfold is_active_term; b2p; done). rewrite E in Ht. by apply not_elem_of_nil in Ht.
Qed.
(** A field that has the form of a date and is none, or the window of the ACTIVE term failing *)
Definition scope_fails (dw : AcademicTerm → M (Z * Z)) (q : form) (t : AcademicTerm) (e : exn) : Prop :=
  (term_status t = T_ACTIVE ∧ run (dw t) db = inl e) ∨
  ∃ k, k ∈ ["from"; "to"; "as_of"]%string ∧ blank (post q k) = false ∧ parse_date (post q k) = inl e.
Lemma default_range_fails dw t e db' :
  default_range dw t db = (inl e, db') → term_status t = T_ACTIVE ∧ run (dw t) db = inl e.
Proof using.
  unfold default_range, mbind, M_bind. case_bool_decide as Ht; [|done]. unfold run.
  destruct (dw t db) as [[e'|v] db'']; by intros [= <- _].
Qed.
Lemma date_field_cases raw r :
  date_field parse_date raw db = (r, db) →
  match r with
  | inl e => blank raw = false ∧ parse_date raw = inl e
  | inr o => ∀ d, blank raw = false → parse_date raw = inr (Some d) → o = Some d
  end.
Proof using.
  unfold date_field. destruct (blank raw) eqn:E; [by intros [= <-]|].
  destruct (parse_date raw) as [e|o]; intros [= <-]; [done|]. intros d _ [= ->]. done.
Qed.
(** Dates of the request inside the term, in order, are the dates of the report. *)
Definition dates_honoured (q : form) (t : AcademicTerm) (start end_ : Z) : Prop :=
  ∀ a b, blank (post q "from") = false → parse_date (post q "from") = inr (Some a) →
    blank (post q "to") = false → parse_date (post q "to") = inr (Some b) →
    term_start t ≤ a → a ≤ b → b ≤ term_end t → start = a ∧ end_ = b.
Lemma bounded_scope_dates choices t w note a b pa start end_ as_of note' :
  bounded_scope choices t w note (Some a) (Some b) pa today = valid_scope choices t start end_ as_of note' →
  term_start t ≤ a → a ≤ b → b ≤ term_end t → start = a ∧ end_ = b.
Proof using.
  unfold bounded_scope, clamp. cbn [from_option id default]. intros H H1 H2 H3.
  rewrite (proj2 (Z.ltb_ge _ _)) in H by lia. injection H as Hs He _ _ _ _. lia.
Qed.
Lemma default_range_wf dw t w :
  term_start t ≤ term_end t → default_range dw t db = (inr w, db) →
  term_start t ≤ w.1 ∧ w.1 ≤ w.2 ∧ w.2 ≤ term_end t.
Proof using.
  intros Ht. unfold default_range. unfold mbind, M_bind at 1.
  destruct ((if bool_decide (term_status t = T_ACTIVE) then dw t else mret (term_start t, term_end t)) db) as [[e|v] db'];
    [done|]. intros [= <-]. case_match eqn:E; cbn; [lia|]. b2p. unfold clamp in *. lia.
Qed.
Lemma scope_wp dw q :
  one_active_term db → (∀ t, reads (dw t)) →
  wp (selected_report_scope parse_date dw q today) (λ r db', db' = db ∧ match r with
    | inl e => ∃ t, t ∈ db_terms db ∧ names_term q t ∧ scope_fails dw q t e
    | inr s =>
        (∃ msg, s = empty_report_scope (sort_by choice_le (db_terms db)) (no_term_code q) msg ∧
           ∀ t, t ∈ db_terms db → ¬ names_term q t) ∨
        (∃ t start end_ as_of note, t ∈ db_terms db ∧ names_term q t ∧ bounded t today start end_ as_of ∧
           dates_honoured q t start end_ ∧
           s = valid_scope (sort_by choice_le (db_terms db)) t start end_ as_of note)
    end) db.
Proof using Hdb.
  intros Hone Hdw. unfold selected_report_scope, report_term_choices. wp_step. wp_step. wp_step.
  apply wp_reads; [auto with respects|]. intros r Hr. apply scope_term_found in Hr; [|done].
  destruct r as [e|[[code msg]|t]]; [done| |].
  { destruct Hr as [-> Hr]. wp_step. split; [done|]. left. eauto. }
  destruct Hr as [Hin Hask]. destruct (terms_span db Hdb t Hin) as (_ & Hspan & _).
  assert (∀ e, scope_fails dw q t e → ∃ t, t ∈ db_terms db ∧ names_term q t ∧ scope_fails dw q t e) as Hfail by eauto.
  wp_step. apply wp_reads; [by apply reads_default|]. intros [e|w] Hw.
  { split; [done|]. apply Hfail. left. by apply default_range_fails in Hw. }
  apply default_range_wf in Hw as (H1 & H2 & H3); [|done].
  wp_step. apply wp_reads; [auto with respects|]. intros [e|ps] Hps%date_field_cases.
  { split; [done|]. apply Hfail. right. exists "from"%string. split; [set_solver|done]. }
  wp_step. apply wp_reads; [auto with respects|]. intros [e|pe] Hpe%date_field_cases.
  { split; [done|]. apply Hfail. right. exists "to"%string. split; [set_solver|done]. }
  wp_step. apply wp_reads; [auto with respects|]. intros [e|pa] Hpa%date_field_cases.
  { split; [done|]. apply Hfail. right. exists "as_of"%string. split; [set_solver|done]. }
  wp_step. split; [done|]. right.
  match goal with |- context [bounded_scope ?ch t w ?note ps pe pa today] =>
    destruct (bounded_scope_wf ch t w note ps pe pa today H1 H2 H3) as (start & end_ & as_of & note' & Hb & Hs) end.
  exists t, start, end_, as_of, note'. split_and!; try done.
  intros a b Ha1 Ha2 Hb1 Hb2 L1 L2 L3. rewrite (Hps a Ha1 Ha2), (Hpe b Hb1 Hb2) in Hs.
  by eapply bounded_scope_dates.
Qed.
Lemma parsed_date d : reads_back parse_date → date_ok d →
  date_field parse_date (PyStr.strip (PyTime.date_str d)) db = (inr (Some d), db).
Proof using.
  intros Hp Hd. rewrite strip_plain by apply date_str_plain. unfold date_field. case_match eqn:E; [|by rewrite Hp].
  exfalso. unfold blank in E. b2p. apply (f_equal PyStr.to_list) in E. unfold PyTime.date_str in E.
  destruct (PyTime.civil d) as [[y m] dd]. rewrite PyStr.to_list_app in E. by apply eq_sym, app_cons_not_nil in E.
Qed.
End scope_facts.

(** C27: A report is scoped to one term: the ACTIVE one when the request names none,
    otherwise the one it names.  The scope is the error, which has no term and no dates,
    exactly when there is no such term; it is never every term.  Otherwise its dates lie
    inside the term, in order, and are those of the request when it gives two that do; the
    as-of date is neither past the range nor in the future; and the normalized query the
    scope carries reads back as that very scope, so links and exports agree with the page.
    A request fails only on a date that has the form of one and does not exist, or when the
    window of the ACTIVE term fails; reading the scope writes nothing. *)
Theorem report_scope_exact parse_date dw dw' q today db :
  terms_ok db → one_active_term db → reads_back parse_date → date_ok today →
  (∀ t, reads (dw t)) → (∀ t, ∃ w, dw' t db = (inr w, db)) →
  exec (selected_report_scope parse_date dw q today) db = db ∧
  match run (selected_report_scope parse_date dw q today) db with
  | inl e => ∃ t, t ∈ db_terms db ∧ names_term q t ∧ scope_fails parse_date db dw q t e
  | inr s =>
    (is_valid s = true ↔ ∃ t, t ∈ db_terms db ∧ names_term q t) ∧
    if is_valid s then
      ∃ t start end_ as_of, rs_term s = Some t ∧ t ∈ db_terms db ∧ names_term q t ∧
        rs_start s = Some start ∧ rs_end s = Some end_ ∧ rs_as_of s = Some as_of ∧
        bounded t today start end_ as_of ∧ dates_honoured parse_date q t start end_ ∧
        selected_report_scope parse_date dw' (rs_query_params s) today db = (inr (s <| rs_note := None |>), db)
    else rs_term s = None ∧ rs_start s = None ∧ rs_end s = None ∧ rs_as_of s = None ∧ is_some (rs_error s) = true ∧
      rs_error_code s = Some (no_term_code q)
  end.
Proof.
  intros Hdb Hone Hp Htoday Hdw Hdw'.
  pose proof (scope_wp parse_date db today Hdb dw q Hone Hdw) as Hwp. unfold wp in Hwp. unfold exec, run.
  destruct (selected_report_scope parse_date dw q today db) as [r db0] eqn:Hrun. cbn [fst snd] in Hwp |- *.
  destruct Hwp as [-> Hr]. split; [done|]. destruct r as [e|s]; [exact Hr|].
  destruct Hr as [(msg & -> & Hno)|(t & start & end_ & as_of & note & Hin & Hask & Hb & Hdates & ->)].
  { split; [|by cbn]. split; [done|]. intros (t & Ht & Hn). by destruct (Hno t Ht). }
  split; [split; [by exists t|done]|].
  cbn [is_valid valid_scope rs_error_code rs_term is_none is_some andb]. exists t, start, end_, as_of.
  do 3 (split; [done|]). do 5 (split; [done|]).
  destruct (terms_span db Hdb t Hin) as (Hpk & Hspan & H1 & H2). destruct (str_value _ Hpk) as [Hdig Hval].
  assert (date_ok start ∧ date_ok end_ ∧ date_ok as_of) as (D1 & D2 & D3).
  { destruct Hb. unfold date_ok in *. destruct (Z.le_gt_cases (term_start t) today); split_and!; lia. }
  assert (scope_term (scope_params t start end_ as_of) db = (inr (inr t), db)) as Ht.
  { unfold scope_term. change (post _ "term") with (PyStr.strip (PyStr.str (term_pk t))).
    change (dict_get _ "term"%string) with (Some (PyStr.str (term_pk t))). rewrite strip_plain by apply str_plain.
    rewrite Hdig, Hval. cbn [negb]. unfold mbind, M_bind, read. by rewrite (by_pk_unique _ _ t) by (done || apply Hdb). }
  unfold selected_report_scope. erewrite bind_run by reflexivity. erewrite bind_run by exact Ht.
  destruct (Hdw' t) as [w Hw].
  assert (∃ w', default_range dw' t db = (inr w', db)) as [w' Hw'].
  { unfold default_range. case_match; (erewrite bind_run by (exact Hw || reflexivity)); by eexists. }
  erewrite bind_run by exact Hw'.
  erewrite bind_run by (by apply (parsed_date parse_date db start)).
  erewrite bind_run by (by apply (parsed_date parse_date db end_)).
  erewrite bind_run by (by apply (parsed_date parse_date db as_of)).
  unfold unreadable. cbn [is_none]. rewrite !andb_false_r. cbn [orb]. by rewrite (bounded_scope_fix _ t w' today start end_ as_of Hb).
Qed.
End spans.

(** The window of the current week, when the request names no dates: it starts on the
    weekday of the policy, a Monday when the policy names no day, and ends today. *)
Lemma range_week parse_date q today db v :
  get_policy "reporting_week_start" db = (inr v, db) →
  post q "from" = ""%string → post q "to" = ""%string →
  let day := dict_getd WEEKDAY_INDEX (policy_text v) 0 in
  ∃ start, reporting_range parse_date q today db = (inr (start, today, today, None), db) ∧
    PyTime.weekday start = day ∧ start ≤ today < start + 7.
Proof.
  intros Hv Hf Ht day. unfold reporting_range. erewrite bind_run by exact Hv. rewrite Hf, Ht.
  erewrite bind_run by reflexivity. erewrite bind_run by reflexivity. cbv zeta. cbn [unreadable orb negb blank].
  assert (0 ≤ day < 7) as Hd.
  { unfold day, WEEKDAY_INDEX, dict_getd, dict_get. repeat (cbn; case_bool_decide; [cbn; lia|]). cbn. lia. }
  fold day. set (start := today - _). assert (start ≤ today < start + 7) as Hs.
  { unfold start. pose proof (Z.mod_pos_bound (PyTime.weekday today - day) 7 ltac:(lia)). lia. }
  change (unreadable "" None) with false. cbn [orb from_option id]. rewrite (proj2 (Z.ltb_ge today start)) by lia.
  exists start. split; [done|]. split; [|done]. unfold start, PyTime.weekday.
  Z.div_mod_to_equations. lia.
Qed.

(** ** A concrete request *)
Definition demo_span : list Z := (λ n, monday + Z.of_nat n) <$> seq 0 51.
(** A reader that knows the dates of the span, and that 2026-02-30 has the form of one *)
Definition demo_parse (s : string) : exn + option Z :=
  if bool_decide (s = "2026-02-30"%string) then inl ValueErr
  else inr (List.find (λ d, bool_decide (PyTime.date_str d = s)) demo_span).
Lemma demo_terms_ok : terms_ok monday (monday + 50) demo_db.
Proof.
  split; [decide_now|]. intros t H.
  unfold demo_db in H. cbn in H. each_row H; unfold date_ok; cbn; lia.
Qed.
Lemma demo_reads_back : reads_back monday (monday + 50) demo_parse.
Proof.
  intros d Hd. assert (d ∈ demo_span) as Hin.
  { apply list_elem_of_fmap. exists (Z.to_nat (d - monday)). unfold date_ok in Hd. split; [lia|]. apply elem_of_seq. lia. }
  clear Hd. revert d Hin. apply Forall_forall. apply (bool_decide_unpack _). vm_compute. exact I.
Qed.
Definition demo_window (_ : AcademicTerm) : M (Z * Z) := mret (monday, monday + 3).
(** Asked on the second day of the term up to its third, from a date the reader rejects *)
Definition demo_query : form := [("term", "1"); ("from", "2026-07-05"); ("to", "2026-07-08")]%string.

Lemma report_scope_exact_witness :
  let r := run (selected_report_scope demo_parse demo_window demo_query (monday + 1)) demo_db in
  match r with
  | inr s => rs_start s = Some monday ∧ rs_end s = Some (monday + 2) ∧ rs_as_of s = Some (monday + 1) ∧
             rs_note s = Some NOTE_INVALID ∧ scope_query s =
             "term=1&from=2026-07-06&to=2026-07-08&as_of=2026-07-07"%string ∧
             exec (selected_report_scope demo_parse demo_window demo_query (monday + 1)) demo_db = demo_db
  | inl _ => False
  end.
Proof.
  cbv zeta. pose proof (report_scope_exact monday (monday + 50) demo_parse demo_window demo_window demo_query (monday + 1) demo_db
    demo_terms_ok ltac:(vm_compute; lia) demo_reads_back ltac:(unfold date_ok; lia) ltac:(intros t x; reflexivity)
    ltac:(intros t; eexists; reflexivity)) as [H _].
  destruct (run _ demo_db) as [e|s] eqn:E; [by vm_compute in E|].
  vm_compute in E. injection E as <-. split_and!; [reflexivity..|exact H].
Defined.
(** A date that has the form of one and does not exist ends the request in an exception. *)
Example impossible_date :
  run (week_report_scope demo_parse [("from", "2026-02-30")]%string (monday + 1)) demo_db = inl ValueErr.
Proof. reflexivity. Qed.
