(* ===== verification/WeeklyReports.v ===== *)
(** ops/reports.py: the weekly reports, stored and announced; the command and the job that
    generate them; the pages of web/dean.py and web/ifo.py that list and download them, and
    a dean's report and exports.

    The state is the database with what Model.v leaves out: the departments, the table of
    weekly reports and the stored files by their paths.  [available] is the name the storage
    gives a file it saves, [build_pdf] the printable document, [name_le] the database's order
    of names. *)
From S2P Require Import Prelude Python Model Effects Ops Sample GuardAlerts Reporting Exports ReportScope Web.
From Stdlib Require Import Ascii String.
From stdpp Require Import strings gmap stringmap.
Open Scope Z_scope.

Record Department := { dep_pk : Z; dep_name : string; dep_code : string }.
#[global] Instance pk_Department : HasPk Department := dep_pk.
Record WeeklyReport := {
  wr_pk : Z;
  wr_term : Z;
  wr_week_start : Z;
  wr_department : option Z;
  wr_generated_at : Z;
  wr_csv_path : string;
  wr_pdf_path : string
}.
#[global] Instance eta_WeeklyReport : Eta WeeklyReport := λ r, {|
  wr_pk := wr_pk r; wr_term := wr_term r; wr_week_start := wr_week_start r; wr_department := wr_department r;
  wr_generated_at := wr_generated_at r; wr_csv_path := wr_csv_path r; wr_pdf_path := wr_pdf_path r |}.
#[global] Instance pk_WeeklyReport : HasPk WeeklyReport := wr_pk.

Record ReportWorld := {
  rw_db : DB;
  rw_departments : list Department;
  rw_reports : list WeeklyReport;
  rw_files : gmap string string
}.
#[global] Instance eta_ReportWorld : Eta ReportWorld := λ w, {|
  rw_db := rw_db w; rw_departments := rw_departments w; rw_reports := rw_reports w; rw_files := rw_files w |}.

(** Computations over the world, with those of the database among them *)
Definition W (A : Type) : Type := ReportWorld → (exn + A) * ReportWorld.
#[global] Instance W_ret : MRet W := λ A a w, (inr a, w).
#[global] Instance W_bind : MBind W := λ A B k m w,
  match m w with
  | (inr a, w') => k a w'
  | (inl e, w') => (inl e, w')
  end.
Lemma W_run {A B} (m : W A) (k : A → W B) w a w' : m w = (inr a, w') → (m ≫= k) w = k a w'.
Proof. intros H. unfold mbind, W_bind. by rewrite H. Qed.
Definition on_db {A} (m : M A) : W A := λ w, let '(r, db) := m (rw_db w) in (r, w <| rw_db := db |>).
Definition ask {A} (f : ReportWorld → A) : W A := λ w, (inr (f w), w).
Definition fail {A} (e : exn) : W A := λ w, (inl e, w).
Definition modify (f : ReportWorld → ReportWorld) : W unit := λ w, (inr (), f w).
Fixpoint each {A} (l : list A) (f : A → W unit) : W unit :=
  match l with
  | [] => mret ()
  | x :: l' => f x ≫= λ _, each l' f
  end.

(** [_WEEK_START_WEEKDAY] *)
Definition WEEK_START_WEEKDAY : dict string Z := [("monday", 0); ("sunday", 6)]%string.
Definition report_week_bounds (reference : Z) : M (Z * Z) :=
  get_policy "reporting_week_start" ≫= λ v,
  let start_weekday := dict_getd WEEK_START_WEEKDAY (policy_text v) 0 in
  let start := reference - (PyTime.weekday reference - start_weekday) mod 7 in
  mret (start, start + 6).

(** A row has the identity of a term, a week and a department, or of all of them. *)
Definition has_key (term week_start : Z) (department : option Z) (r : WeeklyReport) : bool :=
  (wr_term r =? term) && (wr_week_start r =? week_start) && bool_decide (wr_department r = department).
Definition code_of (department : option Department) : string :=
  match department with Some d => dep_code d | None => "ALL" end.
Definition report_name (term week_start : Z) (code ext : string) : string :=
  "reports/term-" +:+ PyStr.str term +:+ "/" +:+ PyTime.date_str week_start +:+ "/" +:+ code +:+ "." +:+ ext.

Section reports.
Context (available : string → gmap string string → string).
Context (build_pdf : list FacultyRow → Z → Z → option Department → string).
Context (name_le : DB → Z → Z → bool).

Definition save_overwrite (name data : string) : W string := λ w,
  let files := if bool_decide (is_Some (rw_files w !! name)) then delete name (rw_files w) else rw_files w in
  let path := available name files in
  (inr path, w <| rw_files := <[path := data]> files |>).
(** [WeeklyReport.objects.get_or_create(term=..., week_start=..., department=...)] *)
Definition get_or_create_report (term week_start : Z) (department : option Z) (now : Z) : W WeeklyReport := λ w,
  match select (has_key term week_start department) (rw_reports w) with
  | [] =>
      let r := {| wr_pk := fresh_pk (rw_reports w); wr_term := term; wr_week_start := week_start;
                  wr_department := department; wr_generated_at := now; wr_csv_path := ""; wr_pdf_path := "" |} in
      (inr r, w <| rw_reports := rw_reports w ++ [r] |>)
  | [r] => (inr r, w)
  | _ => (inl MultipleObjectsReturned, w)
  end.
Definition generate_weekly_report (t : AcademicTerm) (week_start week_end : Z) (department : option Department)
    (now : Z) : W WeeklyReport :=
  on_db (require_writable_term t) ≫= λ _,
  ask (λ w, faculty_attendance name_le (rw_db w)
    (mk_scope (Some (term_pk t)) week_start week_end (dep_pk <$> department) None None)) ≫= λ rows,
  get_or_create_report (term_pk t) week_start (dep_pk <$> department) now ≫= λ report,
  let code := code_of department in
  save_overwrite (report_name (term_pk t) week_start code "csv") (build_csv rows) ≫= λ csv,
  save_overwrite (report_name (term_pk t) week_start code "pdf") (build_pdf rows week_start week_end department) ≫= λ pdf,
  let stored r := r <| wr_csv_path := csv |> <| wr_pdf_path := pdf |> in
  modify (λ w, w <| rw_reports := update_pk (wr_pk report) stored (rw_reports w) |>) ≫= λ _,
  mret (stored report).

Definition READY : string := "Weekly attendance report ready".
Definition is_dean_of (department : option Z) (u : User) : bool :=
  bool_decide (usr_role u = DEAN) && usr_active u && bool_decide (usr_department u = department).
Definition notify_report_ready (department : option Department) (week_start : Z) (link : string) : M unit :=
  let body := (match department with Some d => dep_code d | None => "All" end)
              +:+ " - week of " +:+ PyTime.date_str week_start in
  notify [] (Some IFO_ADMIN) WEEKLY_REPORT_READY READY body link ≫= λ _,
  match department with
  | None => mret ()
  | Some d =>
      objects (is_dean_of (Some (dep_pk d))) ≫= λ deans : list User,
      notify (usr_pk <$> deans) None WEEKLY_REPORT_READY READY body link
  end.

(** The departments with a session of the week on an active class *)
Definition dept_ids (db : DB) (term week_start week_end : Z) : list Z :=
  omap (faculty_department db) (scoped_sessions db (mk_scope (Some term) week_start week_end None None None)).
Definition week_link (t : AcademicTerm) (week_start : Z) : string :=
  "/reports/term-" +:+ PyStr.str (term_pk t) +:+ "/" +:+ PyTime.date_str week_start +:+ "/".
Definition report_and_notify (t : AcademicTerm) (week_start week_end now : Z) (department : option Department) : W unit :=
  generate_weekly_report t week_start week_end department now ≫= λ _,
  on_db (notify_report_ready department week_start (week_link t week_start)).
Definition generate_week_reports (t : AcademicTerm) (week_start week_end now : Z) : W Z :=
  on_db (require_writable_term t) ≫= λ _,
  ask (λ w, let ids := dept_ids (rw_db w) (term_pk t) week_start week_end in
            select (λ d, bool_decide (dep_pk d ∈ ids)) (rw_departments w)) ≫= λ departments,
  each departments (λ d, report_and_notify t week_start week_end now (Some d)) ≫= λ _,
  report_and_notify t week_start week_end now None ≫= λ _,
  mret (Z.of_nat (length departments) + 1).

(** ** The job, and the command *)
Definition job_weekly_report (today now : Z) : W Z :=
  on_db get_active_term ≫= λ o,
  match o with
  | None => mret 0
  | Some t =>
      on_db (report_week_bounds (today - 7)) ≫= λ '(week_start, week_end),
      generate_week_reports t week_start week_end now
  end.
(** [strptime(raw, "%Y-%m-%d").date()], [None] being the [ValueError] *)
Context (strptime : string → option Z).
Definition NO_TERM (raw : string) : exn := CommandError ("No academic term found for --term " +:+ raw +:+ ".").
Definition weekly_resolve_term (raw : string) : M AcademicTerm :=
  if blank raw then get_active_term ≫= of_option (CommandError "No ACTIVE academic term exists.")
  else
    let raw := PyStr.strip raw in
    read (λ db, if PyStr.isdigit raw then by_pk (db_terms db) (digits raw)
                else List.find (λ t, bool_decide (term_name t = raw)) (db_terms db)) ≫= λ o,
    of_option (NO_TERM raw) o ≫= λ t,
    if is_active_term t then mret t
    else raise (CommandError "Weekly report generation requires an ACTIVE term.").
Definition weekly_handle (term week : string) (today now : Z) : W Z :=
  on_db (weekly_resolve_term term) ≫= λ t,
  (if blank week then mret (today - 7)
   else match strptime week with
        | Some d => mret d
        | None => fail (CommandError "--week must be a date in YYYY-MM-DD format.")
        end) ≫= λ reference,
  on_db (report_week_bounds reference) ≫= λ '(week_start, week_end),
  generate_week_reports t week_start week_end now.
End reports.

(** ** One report per term, week and department *)
Record reports_ok (l : list WeeklyReport) : Prop := {
  reports_unique : pk_unique l;
  reports_one : ∀ t ws d, (length (select (has_key t ws d) l) ≤ 1)%nat
}.
Section upsert.
Context (term week_start : Z) (department : option Z) (now : Z) (csv pdf : string).
Notation key := (has_key term week_start department).
Definition stored (r : WeeklyReport) : WeeklyReport := r <| wr_csv_path := csv |> <| wr_pdf_path := pdf |>.
Definition new_report (l : list WeeklyReport) : WeeklyReport :=
  {| wr_pk := fresh_pk l; wr_term := term; wr_week_start := week_start; wr_department := department;
     wr_generated_at := now; wr_csv_path := ""; wr_pdf_path := "" |}.
(** The table with the report of the key stored under the two paths *)
Definition upsert (l : list WeeklyReport) : list WeeklyReport :=
  match select key l with
  | [] => l ++ [stored (new_report l)]
  | r :: _ => update_pk (wr_pk r) stored l
  end.
Lemma key_new l : key (stored (new_report l)) = true.
Proof using. unfold has_key. cbn. by rewrite !Z.eqb_refl, bool_decide_true. Qed.
Lemma has_key_inj t ws d r : has_key t ws d r = true → key r = true → t = term ∧ ws = week_start ∧ d = department.
Proof using. unfold has_key. b2p. intros [[-> ->] ->] [[-> ->] ->]. done. Qed.
Lemma select_other t ws d l :
  reports_ok l → (t, ws, d) ≠ (term, week_start, department) →
  select (has_key t ws d) (upsert l) = select (has_key t ws d) l.
Proof using.
  intros [Hu _] Hne. unfold upsert. destruct (select key l) as [|r l'] eqn:E.
  - rewrite select_app, select_cons. destruct (has_key t ws d (stored (new_report l))) eqn:Ek; [|by rewrite app_nil_r].
    destruct (has_key_inj _ _ _ _ Ek (key_new l)) as (-> & -> & ->). done.
  - assert (r ∈ select key l) as [Hr Hk]%elem_of_select by (rewrite E; left).
    unfold update_pk, update_where. rewrite select_fmap.
    rewrite (select_ext _ (has_key t ws d)) by (intros x _; by destruct (pk x =? wr_pk r)).
    rewrite (list_fmap_ext _ id); [by rewrite list_fmap_id|]. intros i x Hx%list_elem_of_lookup_2.
    apply elem_of_select in Hx as [Hx Hkx]. destruct (pk x =? wr_pk r) eqn:Ep; [|done]. b2p.
    assert (x = r) as -> by by apply (pk_inj l). destruct (has_key_inj _ _ _ _ Hkx Hk) as (-> & -> & ->). done.
Qed.
Lemma select_key l :
  reports_ok l → ∃ r, select key (upsert l) = [stored r] ∧ key r = true ∧
    (∀ r0, select key l = [r0] → r = r0).
Proof using.
  intros [Hu Ho]. unfold upsert. destruct (select key l) as [|r l'] eqn:E.
  - exists (new_report l). rewrite select_app, E, select_cons, key_new.
    split; [done|]. split; [exact (key_new l)|done].
  - pose proof (Ho term week_start department) as H1. rewrite E in H1. cbn in H1. destruct l'; [|cbn in H1; lia].
    assert (r ∈ select key l) as [Hr Hk]%elem_of_select by (rewrite E; left).
    exists r. split; [|split; [done|by intros ? [= ->]]]. unfold update_pk, update_where. rewrite select_fmap.
    rewrite (select_ext _ key) by (intros x _; by destruct (pk x =? wr_pk r)). rewrite E. cbn. by rewrite Z.eqb_refl.
Qed.
Lemma upsert_ok l : reports_ok l → reports_ok (upsert l).
Proof using.
  intros H. pose proof H as [Hu Ho]. split.
  - unfold upsert. destruct (select key l); [by apply pk_unique_insert|by apply pk_unique_update].
  - intros t ws d. destruct (decide ((t, ws, d) = (term, week_start, department))) as [[= -> -> ->]|Hne].
    + by destruct (select_key l H) as (r & -> & _).
    + rewrite select_other by done. apply Ho.
Qed.
(** A report already stored under the paths stays as it is. *)
Lemma upsert_same l r :
  reports_ok l → select key l = [r] → wr_csv_path r = csv → wr_pdf_path r = pdf → upsert l = l.
Proof using.
  intros [Hu _] Hr Hc Hp. unfold upsert. rewrite Hr. unfold update_pk, update_where.
  rewrite <- (list_fmap_id l) at 2. apply list_fmap_ext. intros i x Hx%list_elem_of_lookup_2.
  destruct (pk x =? wr_pk r) eqn:Ep; [|done]. b2p. assert (r ∈ select key l) as [Hr' _]%elem_of_select by (rewrite Hr; left).
  assert (x = r) as -> by by apply (pk_inj l). unfold stored. destruct r. cbn in *. by subst.
Qed.
End upsert.

(** ** Names of files *)
Lemma report_name_inj term ws c e c' e' :
  e ∈ ["csv"; "pdf"]%string → e' ∈ ["csv"; "pdf"]%string →
  report_name term ws c e = report_name term ws c' e' → c = c' ∧ e = e'.
Proof.
  intros He He' H. apply (f_equal PyStr.to_list) in H. unfold report_name in H.
  rewrite !PyStr.to_list_app in H. do 5 apply app_inv_head in H.
  apply app_inj_2 in H as [Hc H]; [|by each_row He; each_row He'].
  apply app_inv_head in H. split; rewrite <- (PyStr.of_to_list _) at 1; rewrite ?Hc, ?H; apply PyStr.of_to_list.
Qed.

(** ** What a notification tells *)
Definition message (n : Notification) : Z * string * string * string :=
  (ntf_user n, ntf_type n, ntf_body n, ntf_link n).
Lemma notify_tells users role ty ti b li db :
  message <$> db_notifications (exec (notify users role ty ti b li) db) =
  (message <$> db_notifications db) ++ ((λ u, (u, ty, b, li)) <$> notify_recipients db users role).
Proof.
  unfold exec, notify, mbind, M_bind, read. generalize (notify_recipients db users role) as l.
  intros l. revert db. induction l as [|u l IH]; intros db; [by rewrite app_nil_r|].
  cbn [for_each]. unfold mbind, M_bind. unfold notify_one at 1.
  unfold mbind, M_bind, create, mret, M_ret. cbv beta iota zeta. rewrite IH. cbn. by rewrite fmap_app, <- app_assoc.
Qed.

(** ** A run *)
Section run.
Context (available : string → gmap string string → string).
Context (build_pdf : list FacultyRow → Z → Z → option Department → string).
Context (name_le : DB → Z → Z → bool).
(** A free name is kept, and the order of names is the people's. *)
Context (Hfree : ∀ name files, files !! name = None → available name files = name).
Context (Hnames : ∀ db db', logs_only db db' → name_le db' = name_le db).
Context (t : AcademicTerm) (ws we : Z) (Hopen : term_status t ≠ T_ARCHIVED).

Definition rows_of (db : DB) (d : option Department) : list FacultyRow :=
  faculty_attendance name_le db (mk_scope (Some (term_pk t)) ws we (dep_pk <$> d) None None).
Definition csv_name (d : option Department) : string := report_name (term_pk t) ws (code_of d) "csv".
Definition pdf_name (d : option Department) : string := report_name (term_pk t) ws (code_of d) "pdf".
Definition key_of (d : option Department) : WeeklyReport → bool := has_key (term_pk t) ws (dep_pk <$> d).
Definition recipients (db : DB) (d : option Department) : list Z :=
  notify_recipients db [] (Some IFO_ADMIN) ++
  match d with Some d => usr_pk <$> select (is_dean_of (Some (dep_pk d))) (db_users db) | None => [] end.
Definition body_of (d : option Department) : string :=
  (match d with Some d => dep_code d | None => "All" end) +:+ " - week of " +:+ PyTime.date_str ws.
Definition told (db : DB) (d : option Department) : list (Z * string * string * string) :=
  (λ u, (u, WEEKLY_REPORT_READY, body_of d, week_link t ws)) <$> recipients db d.
(** The report of [d] is in the table once, and both its files hold the rows of [db]. *)
Definition report_stored (db : DB) (w : ReportWorld) (d : option Department) : Prop :=
  ∃ r, select (key_of d) (rw_reports w) = [r] ∧ wr_csv_path r = csv_name d ∧ wr_pdf_path r = pdf_name d ∧
    rw_files w !! csv_name d = Some (build_csv (rows_of db d)) ∧
    rw_files w !! pdf_name d = Some (build_pdf (rows_of db d) ws we d).

Lemma rows_logs db db' d : logs_only db db' → rows_of db' d = rows_of db d.
Proof using Hnames.
  intros H. unfold rows_of, faculty_attendance. rewrite (Hnames db db' H). by destruct H as (A & N & ->).
Qed.
Lemma recipients_logs db db' d : logs_only db db' → recipients db' d = recipients db d.
Proof using. by intros (A & N & ->). Qed.
Lemma save_overwrite_eq name data w :
  save_overwrite available name data w = (inr name, w <| rw_files := <[name := data]> (rw_files w) |>).
Proof using Hfree.
  unfold save_overwrite. case_bool_decide as H.
  - rewrite Hfree by apply lookup_delete_eq. by rewrite insert_delete_eq.
  - rewrite Hfree; [done|]. by apply eq_None_not_Some.
Qed.
Lemma generate_eq d now w :
  reports_ok (rw_reports w) →
  ∃ r, generate_weekly_report available build_pdf name_le t ws we d now w =
    (inr r, w <| rw_reports := upsert (term_pk t) ws (dep_pk <$> d) now (csv_name d) (pdf_name d) (rw_reports w) |>
              <| rw_files := <[pdf_name d := build_pdf (rows_of (rw_db w) d) ws we d]>
                   (<[csv_name d := build_csv (rows_of (rw_db w) d)]> (rw_files w)) |>).
Proof using Hfree Hopen.
  intros Hok. unfold generate_weekly_report.
  assert (on_db (require_writable_term t) w = (inr t, w)) as Hw.
  { unfold on_db, require_writable_term. rewrite bool_decide_false by done. by destruct w. }
  erewrite W_run by exact Hw. erewrite W_run by reflexivity. fold (rows_of (rw_db w) d).
  pose proof (reports_one _ Hok (term_pk t) ws (dep_pk <$> d)) as Ho. unfold upsert. fold (key_of d) in *.
  assert (∃ r l, get_or_create_report (term_pk t) ws (dep_pk <$> d) now w = (inr r, w <| rw_reports := l |>) ∧
    update_pk (wr_pk r) (stored (csv_name d) (pdf_name d)) l = match select (key_of d) (rw_reports w) with
      | [] => rw_reports w ++ [stored (csv_name d) (pdf_name d) (new_report (term_pk t) ws (dep_pk <$> d) now (rw_reports w))]
      | r :: _ => update_pk (wr_pk r) (stored (csv_name d) (pdf_name d)) (rw_reports w) end) as (r & l & Hr & Hl).
  { unfold get_or_create_report. fold (key_of d). destruct (select (key_of d) (rw_reports w)) as [|r [|]] eqn:E; [| |cbn in Ho; lia].
    - eexists _, _. split; [reflexivity|]. rewrite update_pk_snoc; [reflexivity| |done].
      intros x Hx%fresh_pk_gt. cbn in *. lia.
    - exists r, (rw_reports w). split; [by destruct w|done]. }
  erewrite W_run by exact Hr. rewrite <- Hl.
  erewrite W_run by apply save_overwrite_eq. erewrite W_run by apply save_overwrite_eq.
  eexists. reflexivity.
Qed.
Lemma notify_ready_eq d db :
  ∃ db', notify_report_ready d ws (week_link t ws) db = (inr (), db') ∧ logs_only db db' ∧
    message <$> db_notifications db' = (message <$> db_notifications db) ++ told db d.
Proof using.
  unfold notify_report_ready. fold (body_of d).
  set (m1 := notify [] (Some IFO_ADMIN) WEEKLY_REPORT_READY READY (body_of d) (week_link t ws)).
  destruct (logging_notify [] (Some IFO_ADMIN) WEEKLY_REPORT_READY READY (body_of d) (week_link t ws) db) as [H1 H2].
  pose proof (notify_tells [] (Some IFO_ADMIN) WEEKLY_REPORT_READY READY (body_of d) (week_link t ws) db) as H3.
  unfold exec in H3. fold m1 in H1, H2, H3. unfold told, recipients. destruct (m1 db) as [r db1] eqn:Em. cbn in H1, H2, H3. subst r.
  erewrite bind_run by exact Em. destruct d as [d|].
  - set (deans := usr_pk <$> select (is_dean_of (Some (dep_pk d))) (db_users db)).
    change (objects (is_dean_of (Some (dep_pk d)))) with (read (λ db, select (is_dean_of (Some (dep_pk d))) (db_users db))).
    erewrite bind_run by reflexivity.
    assert (db_users db1 = db_users db) as -> by by destruct H2 as (A & N & ->). fold deans.
    destruct (logging_notify deans None WEEKLY_REPORT_READY READY (body_of (Some d)) (week_link t ws) db1) as [H4 H5].
    pose proof (notify_tells deans None WEEKLY_REPORT_READY READY (body_of (Some d)) (week_link t ws) db1) as H6.
    unfold exec in H6. destruct (notify deans None _ _ _ _ db1) as [r db2]. cbn in H4, H5, H6. subst r.
    exists db2. split; [done|]. split; [by transitivity db1|]. rewrite H6, H3, <- app_assoc. f_equal.
    unfold notify_recipients. rewrite !fmap_app, !app_nil_r. done.
  - exists db1. split; [done|]. split; [done|]. by rewrite app_nil_r.
Qed.

(** What a run over the departments [done] leaves, from the world [w0] *)
Record reported (w0 : ReportWorld) (done : list (option Department)) (w : ReportWorld) : Prop := {
  rep_logs : logs_only (rw_db w0) (rw_db w);
  rep_departments : rw_departments w = rw_departments w0;
  rep_ok : reports_ok (rw_reports w);
  rep_stored : ∀ d, d ∈ done → report_stored (rw_db w0) w d;
  rep_others : ∀ T S D, (∀ d, d ∈ done → (T, S, D) ≠ (term_pk t, ws, dep_pk <$> d)) →
    select (has_key T S D) (rw_reports w) = select (has_key T S D) (rw_reports w0);
  rep_files : ∀ p, (∀ d, d ∈ done → p ≠ csv_name d ∧ p ≠ pdf_name d) → rw_files w !! p = rw_files w0 !! p;
  rep_told : message <$> db_notifications (rw_db w) =
    (message <$> db_notifications (rw_db w0)) ++ (done ≫= told (rw_db w0))
}.
Definition dept_key (d : option Department) : option Z := dep_pk <$> d.
Definition one_report (now : Z) : option Department → W unit :=
  report_and_notify available build_pdf name_le t ws we now.
Lemma names_differ d d' : code_of d ≠ code_of d' →
  csv_name d ≠ csv_name d' ∧ csv_name d ≠ pdf_name d' ∧ pdf_name d ≠ csv_name d' ∧ pdf_name d ≠ pdf_name d'.
Proof using.
  clear Hfree Hnames Hopen. intros Hne. split_and!; intros H; apply report_name_inj in H; set_solver.
Qed.
Lemma csv_pdf d d' : csv_name d ≠ pdf_name d'.
Proof using. clear Hfree Hnames Hopen. intros H. apply report_name_inj in H as [_ H]; [done|set_solver..]. Qed.
Lemma report_step now w0 done w d :
  reported w0 done w → (∀ d', d' ∈ done → code_of d' ≠ code_of d ∧ dep_pk <$> d' ≠ dep_pk <$> d) →
  ∃ w', one_report now d w = (inr (), w') ∧ reported w0 (done ++ [d]) w'.
Proof using Hfree Hnames Hopen.
  intros [Hl Hd Hok Hst Ho Hf Ht] Hne. unfold one_report, report_and_notify.
  destruct (generate_eq d now w Hok) as (r & Hr). erewrite W_run by exact Hr. clear Hr.
  rewrite (rows_logs _ _ d Hl). unfold on_db.
  destruct (notify_ready_eq d (rw_db w)) as (db' & Hn & Hl' & Ht').
  set (rs := upsert _ _ _ _ _ _ _). set (fs := <[pdf_name d := _]> _).
  change (rw_db (w <| rw_reports := rs |> <| rw_files := fs |>)) with (rw_db w). rewrite Hn. eexists. split; [reflexivity|].
  destruct (select_key (term_pk t) ws (dep_pk <$> d) now (csv_name d) (pdf_name d) (rw_reports w) Hok) as (x & Hx & _ & _).
  split; cbn.
  - by transitivity (rw_db w).
  - done.
  - by apply upsert_ok.
  - intros d' [Hd'| ->%list_elem_of_singleton]%elem_of_app.
    + destruct (Hne d' Hd') as [Hc Hk]. destruct (names_differ _ _ Hc) as (N1 & N2 & N3 & N4).
      destruct (Hst d' Hd') as (r' & Hr' & Hp1 & Hp2 & Hf1 & Hf2). exists r'. unfold fs. cbn.
      rewrite !lookup_insert_ne by done. split_and!; try done. unfold rs, key_of. rewrite select_other; [done|done|].
      by intros [= He].
    + exists (stored (csv_name d) (pdf_name d) x). unfold fs. cbn. split_and!; try done.
      * rewrite lookup_insert_ne by (apply not_eq_sym, csv_pdf). by rewrite lookup_insert_eq.
      * by rewrite lookup_insert_eq.
  - intros T S D Hn'. unfold rs. rewrite select_other; [|done|apply Hn'; set_solver]. apply Ho. set_solver.
  - intros p Hp. destruct (Hp d) as [H1 H2]; [set_solver|]. unfold fs. rewrite !lookup_insert_ne by done.
    apply Hf. set_solver.
  - assert (told (rw_db w) d = told (rw_db w0) d) as Hto by (unfold told; by rewrite (recipients_logs _ _ d Hl)).
    rewrite Ht', Ht, Hto, bind_app, bind_cons, <- app_assoc. do 2 f_equal. by rewrite app_nil_r.
Qed.
Lemma each_step now w0 todo : ∀ done w,
  reported w0 done w → NoDup (code_of <$> (done ++ todo)) → NoDup (dept_key <$> (done ++ todo)) →
  ∃ w', each todo (one_report now) w = (inr (), w') ∧ reported w0 (done ++ todo) w'.
Proof using Hfree Hnames Hopen.
  induction todo as [|d todo IH]; intros done w Hw Hc Hk; [exists w; by rewrite app_nil_r|].
  destruct (report_step now w0 done w d Hw) as (w1 & H1 & Hw1).
  { rewrite fmap_app, fmap_cons in Hc. rewrite fmap_app, fmap_cons in Hk. apply NoDup_app in Hc as (_ & Hc & _), Hk as (_ & Hk & _).
    intros d' Hd'. split; intros He.
    - apply (Hc (code_of d')); [by apply list_elem_of_fmap_2|]. rewrite He. left.
    - apply (Hk (dept_key d')); [by apply list_elem_of_fmap_2|]. unfold dept_key. rewrite He. left. }
  destruct (IH (done ++ [d]) w1) as (w2 & H2 & Hw2); rewrite <- ?app_assoc; try done.
  exists w2. split; [|by rewrite <- app_assoc in Hw2]. cbn [each]. erewrite W_run by exact H1. exact H2.
Qed.
(** A report that is stored already is stored the same, and told again. *)
Lemma again_step now w0 w d :
  logs_only (rw_db w0) (rw_db w) → reports_ok (rw_reports w) → report_stored (rw_db w0) w d →
  ∃ db', one_report now d w = (inr (), w <| rw_db := db' |>) ∧ logs_only (rw_db w) db'.
Proof using Hfree Hnames Hopen.
  intros Hl Hok (r & Hr & Hp1 & Hp2 & Hf1 & Hf2). unfold one_report, report_and_notify.
  destruct (generate_eq d now w Hok) as (r' & Hr'). erewrite W_run by exact Hr'. clear Hr'.
  rewrite (rows_logs _ _ d Hl), (upsert_same _ _ _ _ _ _ _ r) by done.
  rewrite (insert_id _ _ _ Hf1), (insert_id _ _ _ Hf2). unfold on_db.
  destruct (notify_ready_eq d (rw_db w)) as (db' & Hn & Hl' & _). exists db'. split; [|done].
  destruct w. cbn in *. by rewrite Hn.
Qed.
Lemma each_again now w0 todo : ∀ w,
  logs_only (rw_db w0) (rw_db w) → reports_ok (rw_reports w) → (∀ d, d ∈ todo → report_stored (rw_db w0) w d) →
  ∃ db', each todo (one_report now) w = (inr (), w <| rw_db := db' |>) ∧ logs_only (rw_db w) db'.
Proof using Hfree Hnames Hopen.
  induction todo as [|d todo IH]; intros w Hl Hok Hst; [exists (rw_db w); by destruct w|].
  destruct (again_step now w0 w d) as (db1 & H1 & Hl1); [done|done|apply Hst; left|].
  destruct (IH (w <| rw_db := db1 |>)) as (db2 & H2 & Hl2).
  { cbn. by transitivity (rw_db w). } { done. } { intros d' Hd'. apply Hst. by right. }
  exists db2. split; [|by transitivity db1]. cbn [each]. erewrite W_run by exact H1. rewrite H2. by destruct w.
Qed.
End run.

(** ** The reports of a week *)
Definition week_targets (w : ReportWorld) (t : AcademicTerm) (ws we : Z) : list (option Department) :=
  (Some <$> select (λ d, bool_decide (dep_pk d ∈ dept_ids (rw_db w) (term_pk t) ws we)) (rw_departments w)) ++ [None].
Record departments_ok (l : list Department) : Prop := {
  departments_unique : pk_unique l;
  departments_codes : NoDup (dep_code <$> l);
  (** A department of this code would share the files of the roll-up. *)
  departments_all : ∀ d, d ∈ l → dep_code d ≠ "ALL"%string
}.
Lemma each_fmap {A B} (g : A → B) (f : B → W unit) l w : each (g <$> l) f w = each l (λ x, f (g x)) w.
Proof.
  revert w. induction l as [|x l IH]; intros w; [done|]. rewrite fmap_cons. cbn [each]. unfold mbind, W_bind.
  by destruct (f (g x) w) as [[e|[]] w'].
Qed.
Lemma each_app {A} (f : A → W unit) l1 l2 w : each (l1 ++ l2) f w = (each l1 f ≫= λ _, each l2 f) w.
Proof.
  revert w. induction l1 as [|x l1 IH]; intros w; [done|]. cbn [app each]. unfold mbind, W_bind in *.
  by destruct (f x w) as [[e|[]] w'].
Qed.
Lemma week_reports_each available build_pdf name_le t ws we now w w' :
  term_status t ≠ T_ARCHIVED →
  each (week_targets w t ws we) (one_report available build_pdf name_le t ws we now) w = (inr (), w') →
  generate_week_reports available build_pdf name_le t ws we now w = (inr (Z.of_nat (length (week_targets w t ws we))), w').
Proof.
  intros Ht H. unfold week_targets in *. rewrite each_app in H. unfold generate_week_reports.
  assert (on_db (require_writable_term t) w = (inr t, w)) as Hw.
  { unfold on_db, require_writable_term. rewrite bool_decide_false by done. by destruct w. }
  erewrite W_run by exact Hw. erewrite W_run by reflexivity. set (l := select _ _) in *.
  unfold mbind, W_bind in *. rewrite each_fmap in H.
  change (λ x, one_report available build_pdf name_le t ws we now (Some x))
    with (λ d, report_and_notify available build_pdf name_le t ws we now (Some d)) in H.
  destruct (each l _ w) as [[e|[]] w1]; [done|]. cbn [each] in H. unfold mbind, W_bind in H.
  change (one_report available build_pdf name_le t ws we now None)
    with (report_and_notify available build_pdf name_le t ws we now None) in H.
  destruct (report_and_notify available build_pdf name_le t ws we now None w1) as [[e|[]] w2]; [done|].
  injection H as ->. unfold mret, W_ret. do 2 f_equal. rewrite length_app, length_fmap. cbn. lia.
Qed.
Lemma targets_distinct w t ws we :
  departments_ok (rw_departments w) →
  NoDup (code_of <$> week_targets w t ws we) ∧ NoDup (dept_key <$> week_targets w t ws we).
Proof.
  intros [Hu Hc Ha]. unfold week_targets. set (p := λ d, bool_decide _).
  rewrite !fmap_app, <- !list_fmap_compose, !NoDup_app. split.
  - split; [by apply (NoDup_fmap_select dep_code)|]. split; [|apply NoDup_singleton].
    intros x (d & -> & [Hd _]%elem_of_select)%list_elem_of_fmap H%list_elem_of_singleton. by apply (Ha d).
  - split; [|split; [|apply NoDup_singleton]].
    + change (dept_key ∘ Some) with (λ d : Department, Some (dep_pk d)).
      rewrite (list_fmap_compose dep_pk Some). apply (NoDup_fmap_2 Some). by apply (NoDup_fmap_select dep_pk).
    + intros x (d & -> & _)%list_elem_of_fmap H%list_elem_of_singleton. done.
Qed.

(** C25: Where no department has the code ALL or that of another one, the table holds at most
    one report for a term, week and department, the term is not archived and the storage
    gives a file whose name is free that name, generating the reports of a week stores
    exactly one report for every department with a session of the week and one for all of
    them, each with both its files holding the attendance of that department and week, and
    touches no other report and no other file.
    Each report is announced to the active facilities officers and to the active deans of
    its own department, to nobody else.  Generating again, at any later time, stores the
    same reports and the same files and adds no row. *)
Theorem weekly_reports_exact available build_pdf name_le t ws we now now' w :
  (∀ name files, files !! name = None → available name files = name) →
  (∀ db db', logs_only db db' → name_le db' = name_le db) →
  term_status t ≠ T_ARCHIVED → reports_ok (rw_reports w) → departments_ok (rw_departments w) →
  let l := week_targets w t ws we in
  ∃ w', generate_week_reports available build_pdf name_le t ws we now w = (inr (Z.of_nat (length l)), w') ∧
    reported build_pdf name_le t ws we w l w' ∧
    ∃ db', generate_week_reports available build_pdf name_le t ws we now' w' =
             (inr (Z.of_nat (length l)), w' <| rw_db := db' |>) ∧ logs_only (rw_db w') db'.
Proof.
  intros Hfree Hnames Ht Hok Hd l. destruct (targets_distinct w t ws we Hd) as [Hc Hk].
  destruct (each_step available build_pdf name_le Hfree Hnames t ws we Ht now w l [] w) as (w' & Hr & Hw'); [|done|done|].
  { split; try done. - intros ? ?%not_elem_of_nil. done. - by rewrite app_nil_r. }
  exists w'. split; [by apply week_reports_each|]. split; [exact Hw'|].
  assert (week_targets w' t ws we = l) as Hl.
  { unfold week_targets, l. rewrite (rep_departments _ _ _ _ _ _ _ _ Hw').
    by destruct (rep_logs _ _ _ _ _ _ _ _ Hw') as (A & N & ->). }
  destruct (each_again available build_pdf name_le Hfree Hnames t ws we Ht now' w l w') as (db' & Hr' & Hl').
  { apply Hw'. } { apply Hw'. } { apply (rep_stored _ _ _ _ _ _ _ _ Hw'). }
  exists db'. split; [|done]. rewrite <- Hl in Hr' |- *. by apply week_reports_each.
Qed.

(** ** The week *)
(** The seven days around the reference that start on the weekday of the policy: Monday or
    Sunday, and Monday when the policy names any other day *)
Lemma week_bounds reference db v :
  get_policy "reporting_week_start" db = (inr v, db) →
  ∃ start, report_week_bounds reference db = (inr (start, start + 6), db) ∧ start ≤ reference ≤ start + 6 ∧
    PyTime.weekday start = if bool_decide (policy_text v = "sunday"%string) then 6 else 0.
Proof.
  intros Hv. unfold report_week_bounds. erewrite bind_run by exact Hv. cbv zeta.
  set (day := dict_getd WEEK_START_WEEKDAY (policy_text v) 0).
  assert (day = if bool_decide (policy_text v = "sunday"%string) then 6 else 0) as Hd.
  { unfold day, WEEK_START_WEEKDAY, dict_getd, dict_get. repeat (cbn; case_bool_decide); try done; congruence. }
  rewrite <- Hd. assert (0 ≤ day < 7) by (rewrite Hd; case_match; lia). clearbody day.
  eexists. split; [reflexivity|]. pose proof (Z.mod_pos_bound (PyTime.weekday reference - day) 7 ltac:(lia)).
  split; [lia|]. unfold PyTime.weekday. Z.div_mod_to_equations. lia.
Qed.
(** The job is for the week before today's, a whole week that is over. *)
Lemma job_week today db v :
  get_policy "reporting_week_start" db = (inr v, db) →
  ∃ start, report_week_bounds (today - 7) db = (inr (start, start + 6), db) ∧ start + 6 < today.
Proof. intros Hv. destruct (week_bounds (today - 7) db v Hv) as (start & H & Hb & _). exists start. split; [done|lia]. Qed.

(** ** A concrete week *)
Definition demo_departments : list Department :=
  [{| dep_pk := 1; dep_name := "Computing"; dep_code := "CCS" |}; {| dep_pk := 2; dep_name := "Law"; dep_code := "LAW" |}].
Definition demo_world : ReportWorld :=
  {| rw_db := demo_db; rw_departments := demo_departments; rw_reports := []; rw_files := ∅ |}.
Definition demo_available (name : string) (_ : gmap string string) : string := name.
Definition demo_pdf (_ : list FacultyRow) (_ _ : Z) (_ : option Department) : string := "pdf".
Definition demo_names (_ : DB) (a b : Z) : bool := a <=? b.
Definition demo_generate : Z → ReportWorld → (exn + Z) * ReportWorld :=
  generate_week_reports demo_available demo_pdf demo_names demo_term monday (monday + 6).
Lemma demo_departments_ok : departments_ok demo_departments.
Proof. split; [decide_now..|]. intros d Hd. unfold demo_departments in Hd. by each_row Hd. Qed.
Lemma demo_reports_ok : reports_ok [].
Proof. split; [constructor|]. intros. cbn. lia. Qed.

Lemma weekly_reports_exact_witness :
  ∃ w', demo_generate 0 demo_world = (inr 2, w') ∧
    rw_files w' !! "reports/term-1/2026-07-06/CCS.csv"%string =
      Some (build_csv (rows_of demo_names demo_term monday (monday + 6) demo_db (head demo_departments))) ∧
    (ntf_user <$> db_notifications (rw_db w')) = [4; 3; 4].
Proof.
  destruct (weekly_reports_exact demo_available demo_pdf demo_names demo_term monday (monday + 6) 0 0 demo_world)
    as (w' & Hr & Hw' & _); [done..|exact demo_reports_ok|exact demo_departments_ok|].
  exists w'. split; [exact Hr|]. unfold demo_generate in *. vm_compute in Hr. injection Hr as <-.
  split; vm_compute; reflexivity.
Defined.
(** A department that is deleted leaves its report as a second one of no department, and
    the next roll-up of that week finds two: the run fails on it, after storing the others. *)
Example deleted_department :
  let '(r, w') := demo_generate 0 demo_world in
  let orphan := w' <| rw_departments := delete_pk 1 (rw_departments w') |>
                   <| rw_reports := (λ x, x <| wr_department := None |>) <$> rw_reports w' |> in
  fst (demo_generate 0 orphan) = inl MultipleObjectsReturned.
Proof. vm_compute. reflexivity. Qed.
(** A department coded ALL loses its files to those of the roll-up. *)
Example department_all :
  let w := demo_world <| rw_departments := (λ d, {| dep_pk := dep_pk d; dep_name := dep_name d; dep_code := "ALL" |})
                                             <$> take 1 demo_departments |> in
  (λ r, (wr_department r, wr_csv_path r)) <$> rw_reports (snd (demo_generate 0 w)) =
  [(Some 1, "reports/term-1/2026-07-06/ALL.csv"%string); (None, "reports/term-1/2026-07-06/ALL.csv"%string)].
Proof. vm_compute. reflexivity. Qed.
(** A policy that names another day moves the dashboards' week but not the reports'. *)
Example saturday_policy :
  let db := demo_db <| db_settings := [{| set_pk := 1; set_key := "reporting_week_start"; set_value := "saturday" |}] |> in
  run (report_week_bounds (monday + 8)) db = inr (monday + 7, monday + 13) ∧
  run (reporting_range demo_parse [] (monday + 8)) db = inr (monday + 5, monday + 8, monday + 8, None).
Proof. vm_compute. done. Qed.
