(* ===== verification/ReportPages.v ===== *)
(** The report pages of web/dean.py and web/ifo.py: a dean's dashboard, report, scorecard and
    exports, kept to the dean's own department; the dashboards, scorecards, exports and
    stored reports of the facilities office, over the whole institution; the steps of the
    heat ramp.

    A page answers with what it shows, with a document, or with a refusal; it reads the
    world of WeeklyReports.v.  [parse_date] is Django's, [name_le] the database's order of
    names, [room_le] its order of rooms, [build_pdf] the printable document.  [safe_card]
    only matters when an aggregate raises, which none of the modelled ones does; pagination
    is rendering, and the exports are not paged. *)
From S2P Require Import Prelude Python Model Effects Ops Sample Boards GuardAlerts Reporting Utilization Breakdown Exports ReportScope WeeklyReports Web.
From Stdlib Require Import Ascii String.
From stdpp Require Import strings gmap stringmap.
Open Scope Z_scope.

Inductive reply (A : Type) :=
  | Shown (a : A)
  | Document (content_type data filename : string)
  | Refused (error : option string)                (* 400, as plain text *)
  | Missing                                        (* Http404 *)
  | Denied.                                        (* PermissionDenied *)
Arguments Shown {A} a.
Arguments Document {A} content_type data filename.
Arguments Refused {A} error.
Arguments Missing {A}.
Arguments Denied {A}.

(** [@login_required] with the role test of a section *)
Definition gate {A} (r : Role) (user : User) (view : W (reply A)) : W (reply A) :=
  if bool_decide (usr_role user ≠ r) && negb (usr_superuser user) then mret Denied else view.
Definition user_department (user : User) (w : ReportWorld) : option Department :=
  k ← usr_department user; by_pk (rw_departments w) k.
(** The sessions of a scope, of a department and of a faculty member when given *)
Definition scope_sessions (s : ReportScope) (department faculty : option Z) : Scope :=
  mk_scope (term_pk <$> rs_term s) (default 0 (rs_start s)) (default 0 (rs_end s)) department (rs_as_of s) faculty.
Definition term_key (s : ReportScope) : string := default ""%string ((λ t, PyStr.str (term_pk t)) <$> rs_term s).
Definition start_str (s : ReportScope) : string := default ""%string (PyTime.date_str <$> rs_start s).
(** [path.rsplit("/", 1)[-1]] *)
Definition not_slash (c : ascii) : bool := negb (bool_decide (c = "/"%char)).
Definition base_name (path : string) : string :=
  PyStr.of_list (reverse (PyStr.take_while not_slash (reverse (PyStr.to_list path)))).
Definition newest_week (a b : WeeklyReport) : bool := wr_week_start b <=? wr_week_start a.
Definition of_term (s : ReportScope) (r : WeeklyReport) : bool := bool_decide (Some (wr_term r) = term_pk <$> rs_term s).

(** The stored bytes of a report in one of its two formats *)
Definition stream {A} (r : WeeklyReport) (fmt : string) : W (reply A) :=
  match (if bool_decide (fmt = "csv"%string) then Some (wr_csv_path r, "text/csv"%string)
         else if bool_decide (fmt = "pdf"%string) then Some (wr_pdf_path r, "application/pdf"%string) else None) with
  | None => mret Missing
  | Some (path, content_type) =>
      ask (λ w, if blank path then None else rw_files w !! path) ≫= λ o,
      mret (match o with Some data => Document content_type data (base_name path) | None => Missing end)
  end.

Section pages.
Context (parse_date : string → exn + option Z).
Context (name_le : DB → Z → Z → bool) (room_le : DB → Room → Room → bool).
Context (build_pdf : list FacultyRow → Z → Z → option Department → string).
Context (user : User) (q : form) (today : Z).

Definition scope : W ReportScope := on_db (week_report_scope parse_date q today).
Definition attendance_rows (s : ReportScope) (department : option Z) (w : ReportWorld) : list FacultyRow :=
  faculty_attendance name_le (rw_db w) (scope_sessions s department None).
Definition scorecard_of (s : ReportScope) (faculty : Z) (w : ReportWorld) : Scorecard :=
  faculty_scorecard (rw_db w) (term_pk <$> rs_term s) faculty (default 0 (rs_start s)) (default 0 (rs_end s)) (rs_as_of s).
Definition of_row (faculty : Z) (r : FacultyRow) : bool := fr_faculty r =? faculty.
Definition scorecard_document {A} (s : ReportScope) (faculty : Z) (rows : list FacultyRow) : reply A :=
  Document "text/csv" (build_csv (select (of_row faculty) rows))
    ("scorecard-" +:+ PyStr.str faculty +:+ "-term-" +:+ term_key s +:+ "-" +:+ start_str s +:+ ".csv").

(** ** web/dean.py *)
Definition dean_dashboard : W (reply (option DeptSummary * option WeeklyReport)) :=
  gate DEAN user (
  ask (user_department user) ≫= λ dept,
  scope ≫= λ s,
  if negb (is_valid s) then mret (Shown (None, None))
  else match dept with
       | None => mret (Shown (Some (mk_dept 0 0 0 0 0), None))
       | Some d =>
           ask (λ w, Shown (Some (dept_summary (rw_db w) (scope_sessions s (Some (dep_pk d)) None)),
             head (sort_by newest_week
               (select (λ r, of_term s r && bool_decide (wr_department r = Some (dep_pk d))) (rw_reports w)))))
       end).
Definition dean_reports : W (reply (list FacultyRow)) :=
  gate DEAN user (
  ask (user_department user) ≫= λ dept,
  scope ≫= λ s,
  if negb (is_valid s) then mret (Shown [])
  else match dept with
       | None => mret (Shown [])
       | Some d => ask (λ w, Shown (attendance_rows s (Some (dep_pk d)) w))
       end).
(** The faculty member of the dean's department, or a 404 *)
Definition own_faculty {A} (faculty : Z) (k : Department → User → W (reply A)) : W (reply A) :=
  ask (user_department user) ≫= λ dept,
  match dept with
  | None => mret Missing
  | Some d =>
      ask (λ w, List.find (λ u, (usr_pk u =? faculty) && bool_decide (usr_department u = Some (dep_pk d)))
                  (db_users (rw_db w))) ≫= λ o,
      match o with None => mret Missing | Some u => k d u end
  end.
Definition dean_scorecard (faculty : Z) : W (reply (option Scorecard)) :=
  gate DEAN user (own_faculty faculty (λ _ u,
  scope ≫= λ s,
  if negb (is_valid s) then mret (Shown None) else ask (λ w, Shown (Some (scorecard_of s (usr_pk u) w))))).
Definition dean_scorecard_export (faculty : Z) : W (reply unit) :=
  gate DEAN user (own_faculty faculty (λ d u,
  scope ≫= λ s,
  if negb (is_valid s) then mret (Refused (rs_error s))
  else ask (λ w, scorecard_document s (usr_pk u) (attendance_rows s (Some (dep_pk d)) w)))).
Definition dean_report_export (fmt : string) : W (reply unit) :=
  gate DEAN user (
  ask (user_department user) ≫= λ dept,
  scope ≫= λ s,
  if negb (is_valid s) then mret (Refused (rs_error s))
  else
    ask (λ w, match dept with None => [] | Some d => attendance_rows s (Some (dep_pk d)) w end) ≫= λ rows,
    let code := match dept with Some d => dep_code d | None => "none"%string end in
    let name ext := "attendance-" +:+ code +:+ "-term-" +:+ term_key s +:+ "-" +:+ start_str s +:+ "." +:+ ext in
    if bool_decide (fmt = "csv"%string) then mret (Document "text/csv" (build_csv rows) (name "csv"%string))
    else if bool_decide (fmt = "pdf"%string)
    then mret (Document "application/pdf" (build_pdf rows (default 0 (rs_start s)) (default 0 (rs_end s)) dept) (name "pdf"%string))
    else mret Missing).
Definition dean_weekly_download (k : Z) (fmt : string) : W (reply unit) :=
  gate DEAN user (
  ask (user_department user) ≫= λ dept,
  match dept with
  | None => mret Missing
  | Some d =>
      scope ≫= λ s,
      if negb (is_valid s) then mret Missing
      else
        ask (λ w, List.find (λ r, (wr_pk r =? k) && of_term s r && bool_decide (wr_department r = Some (dep_pk d)))
                    (rw_reports w)) ≫= λ o,
        match o with None => mret Missing | Some r => stream r fmt end
  end).

(** ** web/ifo.py *)
Record Dashboard := mk_dashboard {
  da_summary : DeptSummary;
  da_occupancy : RoomUtilization;
  da_rows : list FacultyRow;
  da_coverage : list CoverageRow;
  da_zero_floors : list ZeroCoverageFloor
}.
Definition ifo_dashboard : W (reply (option Dashboard)) :=
  gate IFO_ADMIN user (
  scope ≫= λ s,
  if negb (is_valid s) then mret (Shown None)
  else ask (λ w,
    let db := rw_db w in let term := term_pk <$> rs_term s in
    let start := default 0 (rs_start s) in let end_ := default 0 (rs_end s) in let as_of := rs_as_of s in
    Shown (Some {| da_summary := dept_summary db (scope_sessions s None None);
                   da_occupancy := room_utilization db term start end_ as_of;
                   da_rows := attendance_rows s None w;
                   da_coverage := coverage_by_building_day db (scope_sessions s None None);
                   da_zero_floors := zero_coverage_floors db (scope_sessions s None None) |}))).
(** A faculty member of any department *)
Definition any_faculty {A} (faculty : Z) (k : User → W (reply A)) : W (reply A) :=
  ask (λ w, by_pk (db_users (rw_db w)) faculty) ≫= λ o, match o with None => mret Missing | Some u => k u end.
Definition ifo_scorecard (faculty : Z) : W (reply (option Scorecard)) :=
  gate IFO_ADMIN user (any_faculty faculty (λ u,
  scope ≫= λ s,
  if negb (is_valid s) then mret (Shown None) else ask (λ w, Shown (Some (scorecard_of s (usr_pk u) w))))).
Definition ifo_scorecard_csv (faculty : Z) : W (reply unit) :=
  gate IFO_ADMIN user (any_faculty faculty (λ u,
  scope ≫= λ s,
  if negb (is_valid s) then mret (Refused (rs_error s))
  else ask (λ w, scorecard_document s (usr_pk u) (attendance_rows s None w)))).

Definition UTILIZATION_CSV_HEADER : list string :=
  ["Room"; "Name"; "Building"; "Floor"; "Seats"; "Sessions"; "Absent sessions"; "Used h"; "Booked h"; "Available h";
   "Reclaimable h"; "Utilization %"]%string.
Definition utilization_row (r : RoomLoad) : list string :=
  [csv_safe (rl_code r); csv_safe (rl_name r);
   csv_safe (if blank (rl_building_name r) then rl_building r else rl_building_name r);
   PyStr.str (rl_floor r); PyStr.str (rl_capacity r); PyStr.str (rl_sessions r); PyStr.str (rl_absents r);
   tenths_str (rl_used r); tenths_str (rl_booked r); tenths_str (rl_available r); tenths_str (rl_wasted r);
   PyStr.str (rl_pct r)].
Definition breakdown_rows (s : ReportScope) (w : ReportWorld) : list RoomLoad :=
  room_breakdown room_le (rw_db w) (term_pk <$> rs_term s) (default 0 (rs_start s)) (default 0 (rs_end s)) (rs_as_of s).
Definition utilization_csv : W (reply unit) :=
  gate IFO_ADMIN user (
  scope ≫= λ s,
  if negb (is_valid s) then mret (Refused (rs_error s))
  else ask (λ w, Document "text/csv" (write_rows (UTILIZATION_CSV_HEADER :: (utilization_row <$> breakdown_rows s w)))
         ("utilization-term-" +:+ term_key s +:+ "-" +:+ start_str s +:+ ".csv"))).

(** The reports of a week, the roll-up first, then by the code of the department *)
Definition report_code (w : ReportWorld) (r : WeeklyReport) : option string :=
  k ← wr_department r; dep_code <$> by_pk (rw_departments w) k.
Definition report_code_le (w : ReportWorld) (a b : WeeklyReport) : bool :=
  match report_code w a, report_code w b with
  | None, _ => true | Some _, None => false | Some a, Some b => String.leb a b end.
Record WeekIndex := mk_index { wi_reports : list WeeklyReport; wi_week : option Z; wi_weeks : list Z }.
Definition weekly_reports : W (reply WeekIndex) :=
  gate IFO_ADMIN user (
  scope ≫= λ s,
  if negb (is_valid s) then mret (Shown (mk_index [] None []))
  else
    on_db (date_field parse_date (post q "week")) ≫= λ asked,
    ask (λ w,
      let own := sort_by newest_week (select (of_term s) (rw_reports w)) in
      let week := match asked with Some d => Some d | None => wr_week_start <$> head own end in
      Shown (mk_index
        match week with
        | Some d => sort_by (report_code_le w) (select (λ r, of_term s r && (wr_week_start r =? d)) (rw_reports w))
        | None => []
        end week (remove_dups (wr_week_start <$> own))))).
Definition ifo_weekly_download (k : Z) (fmt : string) : W (reply unit) :=
  gate IFO_ADMIN user (
  scope ≫= λ s,
  if negb (is_valid s) then mret Missing
  else
    ask (λ w, List.find (λ r, (wr_pk r =? k) && of_term s r) (rw_reports w)) ≫= λ o,
    match o with None => mret Missing | Some r => stream r fmt end).
End pages.

(** ** The heat ramp *)
Definition HEAT_STEPS : Z := 4.
Definition used_pcts (grid : list HeatRow) : list Z :=
  sort_by Z.leb (concat ((λ row, hc_pct <$> select (λ c, hc_timetabled c && negb (hc_pct c =? 0)) (hr_cells row)) <$> grid)).
(** [used.index(value)] of a value that is there *)
Fixpoint index_of (v : Z) (l : list Z) : Z :=
  match l with [] => 0 | x :: l => if x =? v then 0 else 1 + index_of v l end.
Definition step_at (used : list Z) (v : Z) : Z :=
  let rank := index_of v used + Z.of_nat (length (select (Z.eqb v) used)) in
  Z.max 1 (Z.min HEAT_STEPS (- ((- rank * HEAT_STEPS) / Z.of_nat (length used)))).
Definition step_by_value (used : list Z) : dict Z Z :=
  foldl (λ d v, match dict_get d v with Some _ => d | None => dict_set d v (step_at used v) end) [] used.
Definition cell_step (used : list Z) (c : HeatCell) : option Z :=
  if negb (hc_timetabled c) then None else Some (dict_getd (step_by_value used) (hc_pct c) 0).
Definition annotate_heat_steps (grid : list HeatRow) : list (CampusBlock * list (HeatCell * option Z)) :=
  let used := used_pcts grid in
  (λ row, (hr_block row, (λ c, (c, cell_step used c)) <$> hr_cells row)) <$> grid.
Definition heat_grid_card (db : DB) (term : option Z) (start end_ : Z) (as_of : option Z)
    : option (list (CampusBlock * list (HeatCell * option Z))) :=
  annotate_heat_steps <$> room_heat_grid db term start end_ as_of.

Record UtilizationPage := mk_utilization_page {
  up_grid : option (list (CampusBlock * list (HeatCell * option Z)));
  up_rollup : list ScopeLoad;
  up_breakdown : list RoomLoad;
  up_saturation : list BlockLoad;
  up_occupancy : RoomUtilization;
  up_ghosts : list RoomLoad
}.
Definition utilization (parse_date : string → exn + option Z) (room_le : DB → Room → Room → bool) (user : User)
    (q : form) (today : Z) : W (reply (option UtilizationPage)) :=
  gate IFO_ADMIN user (
  scope parse_date q today ≫= λ s,
  if negb (is_valid s) then mret (Shown None)
  else ask (λ w,
    let db := rw_db w in let term := term_pk <$> rs_term s in
    let start := default 0 (rs_start s) in let end_ := default 0 (rs_end s) in let as_of := rs_as_of s in
    Shown (Some {| up_grid := heat_grid_card db term start end_ as_of;
                   up_rollup := building_floor_rollup room_le db term start end_ as_of;
                   up_breakdown := room_breakdown room_le db term start end_ as_of;
                   up_saturation := block_saturation db term start end_ as_of;
                   up_occupancy := room_utilization db term start end_ as_of;
                   up_ghosts := ghost_rooms room_le db term start end_ as_of |}))).

(** ** Pages read *)
Definition quiet {A} (m : W A) : Prop := ∀ w, snd (m w) = w.
Lemma quiet_ret {A} (a : A) : quiet (mret a).
Proof. done. Qed.
Lemma quiet_ask {A} (f : ReportWorld → A) : quiet (ask f).
Proof. done. Qed.
Lemma quiet_bind {A B} (m : W A) (k : A → W B) : quiet m → (∀ a, quiet (k a)) → quiet (m ≫= k).
Proof.
  intros Hm Hk w. specialize (Hm w). unfold mbind, W_bind. destruct (m w) as [[e|a] w']; cbn in *; subst; [done|apply Hk].
Qed.
Lemma quiet_on_db {A} (m : M A) : reads m → quiet (on_db m).
Proof.
  intros Hm w. specialize (Hm (rw_db w)). unfold exec in Hm. unfold on_db. destruct (m (rw_db w)) as [r db]. cbn in *.
  subst. by destruct w.
Qed.
Lemma quiet_scope parse_date q today : quiet (scope parse_date q today).
Proof.
  apply quiet_on_db, reads_scope. intros t. apply respects_bind; [apply _|apply reads_range|].
  intros [[[? ?] ?] ?]. intros ?. reflexivity.
Qed.
Lemma quiet_gate {A} r user (m : W (reply A)) : quiet m → quiet (gate r user m).
Proof. intros H. unfold gate. by case_match. Qed.
Create HintDb quiet.
#[export] Hint Resolve quiet_ret quiet_ask quiet_scope quiet_gate : quiet.
Ltac quiet_tac :=
  repeat first [apply quiet_gate | apply quiet_bind; [|intros ?] | progress auto with quiet | case_match].
Lemma quiet_stream {A} r fmt : quiet (stream (A:=A) r fmt).
Proof. unfold stream. quiet_tac. Qed.
#[export] Hint Resolve quiet_stream : quiet.
Section quiet_pages.
Context (parse_date : string → exn + option Z).
Context (name_le : DB → Z → Z → bool) (room_le : DB → Room → Room → bool).
Context (build_pdf : list FacultyRow → Z → Z → option Department → string).
Context (user : User) (q : form) (today : Z).
Lemma quiet_own_faculty {A} f (k : Department → User → W (reply A)) :
  (∀ d u, quiet (k d u)) → quiet (own_faculty user f k).
Proof using. intros H. unfold own_faculty. quiet_tac. Qed.
Lemma dean_pages_read k f fmt :
  quiet (dean_dashboard parse_date user q today) ∧ quiet (dean_reports parse_date name_le user q today) ∧
  quiet (dean_scorecard parse_date user q today f) ∧ quiet (dean_scorecard_export parse_date name_le user q today f) ∧
  quiet (dean_report_export parse_date name_le build_pdf user q today fmt) ∧
  quiet (dean_weekly_download parse_date user q today k fmt).
Proof using.
  unfold dean_dashboard, dean_reports, dean_scorecard, dean_scorecard_export, dean_report_export, dean_weekly_download.
  split_and!; quiet_tac; apply quiet_own_faculty; intros; quiet_tac.
Qed.
Lemma ifo_pages_read k f fmt :
  quiet (ifo_dashboard parse_date name_le user q today) ∧ quiet (ifo_scorecard parse_date user q today f) ∧
  quiet (ifo_scorecard_csv parse_date name_le user q today f) ∧ quiet (utilization_csv parse_date room_le user q today) ∧
  quiet (weekly_reports parse_date user q today) ∧ quiet (ifo_weekly_download parse_date user q today k fmt).
Proof using.
  unfold ifo_dashboard, ifo_scorecard, ifo_scorecard_csv, utilization_csv, weekly_reports, ifo_weekly_download, any_faculty.
  split_and!; quiet_tac; apply quiet_on_db, reads_date_field.
Qed.
End quiet_pages.

(** ** What a dean sees *)
Lemma bind_inv {A B} (m : W A) (k : A → W B) w b w' :
  quiet m → (m ≫= k) w = (inr b, w') → ∃ a, m w = (inr a, w) ∧ k a w = (inr b, w').
Proof.
  intros Hm. specialize (Hm w). unfold mbind, W_bind. destruct (m w) as [[e|a] w1]; [done|]. cbn in Hm. subst. eauto.
Qed.
Lemma gate_inv {A} r user (m : W (reply A)) w x w' :
  gate r user m w = (inr x, w') →
  (x = Denied ∧ usr_role user ≠ r) ∨ ((usr_role user = r ∨ usr_superuser user = true) ∧ m w = (inr x, w')).
Proof.
  unfold gate. destruct (decide (usr_role user = r)) as [Hr|Hr].
  - rewrite bool_decide_false by (intros Hn; by apply Hn). right. eauto.
  - rewrite bool_decide_true by done. destruct (usr_superuser user); cbn [andb negb]; intros H; [right; eauto|].
    injection H as <- <-. by left.
Qed.
(** A member of the viewer's department *)
Definition colleague (w : ReportWorld) (user : User) (faculty : Z) : Prop :=
  ∃ u, u ∈ db_users (rw_db w) ∧ usr_pk u = faculty ∧ is_Some (usr_department user) ∧
    usr_department u = usr_department user.
Lemma user_department_pk user w d : user_department user w = Some d → usr_department user = Some (dep_pk d).
Proof.
  unfold user_department. destruct (usr_department user) as [k|]; [|done]. cbn.
  intros [_ <-]%by_pk_elem. done.
Qed.
Lemma own_rows name_le user w s d r :
  user_department user w = Some d → r ∈ attendance_rows name_le s (Some (dep_pk d)) w →
  colleague w user (fr_faculty r).
Proof.
  intros Hd%user_department_pk (f & -> & x & Hx & Hf)%row_elem. unfold scoped_sessions in Hx.
  apply elem_of_select in Hx as [_ Hx]. unfold in_sc in Hx. cbn [q_department scope_sessions] in Hx. b2p.
  destruct Hx as [[[_ Hx] _] _]. unfold faculty_department in Hx. cbn [fr_faculty faculty_row fst].
  destruct (by_pk (db_users (rw_db w)) (ses_faculty x)) as [u|] eqn:Eu; [|done]. cbn in Hx.
  apply by_pk_elem in Eu as [Hu Hpk]. exists u. rewrite Hd, Hx. split_and!; [done|by rewrite <- Hf|done|done].
Qed.

Lemma stream_inv {A} r fmt w ct data n w' :
  stream (A:=A) r fmt w = (inr (Document ct data n), w') →
  w' = w ∧ ∃ path, path ∈ [wr_csv_path r; wr_pdf_path r] ∧ rw_files w !! path = Some data.
Proof.
  unfold stream. intros H. assert (∃ path, path ∈ [wr_csv_path r; wr_pdf_path r] ∧
    (ask (λ w, if blank path then None else rw_files w !! path) ≫= λ o, mret (match o with
       Some data => Document (A:=A) (if bool_decide (fmt = "csv"%string) then "text/csv" else "application/pdf") data (base_name path)
     | None => Missing end)) w = (inr (Document ct data n), w')) as (path & Hp & H').
  { repeat case_bool_decide; [exists (wr_csv_path r)|exists (wr_pdf_path r)|done]; split; try exact H; set_solver. }
  apply bind_inv in H' as (o & [= <-] & H'); [|done]. destruct (blank path); [done|].
  destruct (rw_files w !! path) as [d|] eqn:E; [|done]. injection H' as <- <- <- <-. eauto.
Qed.

Section own.
Context (parse_date : string → exn + option Z) (name_le : DB → Z → Z → bool).
Context (build_pdf : list FacultyRow → Z → Z → option Department → string).
Context (user : User) (q : form) (today : Z) (w : ReportWorld).

Lemma own_faculty_inv {A} f (k : Department → User → W (reply A)) x w' :
  own_faculty user f k w = (inr x, w') →
  x = Missing ∨ ∃ d u, user_department user w = Some d ∧ colleague w user f ∧ usr_pk u = f ∧ k d u w = (inr x, w').
Proof using.
  intros (o & [= <-] & H)%bind_inv; [|done]. destruct (user_department user w) as [d|] eqn:Ed; [|injection H; auto].
  apply bind_inv in H as (o & [= <-] & H); [|done]. destruct (List.find _ _) as [u|] eqn:Eu; [|injection H; auto].
  right. exists d, u. apply find_elem in Eu as [Hin Hp]. b2p. destruct Hp as [Hpk Hdep].
  apply user_department_pk in Ed as Hd. split_and!; try done. exists u. rewrite Hd, Hdep. eauto.
Qed.
Lemma reports_own rows w' :
  dean_reports parse_date name_le user q today w = (inr (Shown rows), w') →
  w' = w ∧ ∀ r, r ∈ rows → colleague w user (fr_faculty r).
Proof using.
  intros [[? _]|[_ H]]%gate_inv; [done|]. apply bind_inv in H as (o & [= <-] & H); [|done].
  apply bind_inv in H as (s & _ & H); [|apply quiet_scope].
  destruct (is_valid s); cbn [negb] in H; [|injection H as <- <-; split; [done|by intros ? ?%not_elem_of_nil]].
  destruct (user_department user w) as [d|] eqn:Ed; injection H as <- <-; (split; [done|]); intros r Hr;
    [by eapply own_rows|by apply not_elem_of_nil in Hr].
Qed.
Lemma scorecard_own f c w' :
  dean_scorecard parse_date user q today f w = (inr (Shown (Some c)), w') →
  w' = w ∧ colleague w user f ∧ sc_faculty c = f.
Proof using.
  intros [[? _]|[_ H]]%gate_inv; [done|]. apply own_faculty_inv in H as [?|(d & u & Hd & Hc & Hpk & H)]; [done|].
  apply bind_inv in H as (s & _ & H); [|apply quiet_scope].
  destruct (is_valid s); cbn [negb] in H; [|done]. injection H as <- <-. done.
Qed.
Lemma scorecard_export_own f ct data n w' :
  dean_scorecard_export parse_date name_le user q today f w = (inr (Document ct data n), w') →
  w' = w ∧ colleague w user f ∧
  ∃ rows, read_csv data = HEADER :: (csv_row <$> rows) ∧ ∀ r, r ∈ rows → fr_faculty r = f.
Proof using.
  intros [[? _]|[_ H]]%gate_inv; [done|]. apply own_faculty_inv in H as [?|(d & u & Hd & Hc & Hpk & H)]; [done|].
  apply bind_inv in H as (s & _ & H); [|apply quiet_scope].
  destruct (is_valid s); cbn [negb] in H; [|done]. injection H as <- <- <- <-. split; [done|]. split; [done|].
  eexists. split; [apply read_build|]. intros r [_ Hr]%elem_of_select. unfold of_row in Hr. b2p. congruence.
Qed.
Lemma export_own fmt ct data n w' :
  dean_report_export parse_date name_le build_pdf user q today fmt w = (inr (Document ct data n), w') →
  ∃ rows, (∀ r, r ∈ rows → colleague w user (fr_faculty r)) ∧
    ((fmt = "csv"%string ∧ read_csv data = HEADER :: (csv_row <$> rows)) ∨
     (fmt = "pdf"%string ∧ ∃ a b, data = build_pdf rows a b (user_department user w))).
Proof using.
  intros [[? _]|[_ H]]%gate_inv; [done|]. apply bind_inv in H as (o & [= <-] & H); [|done].
  apply bind_inv in H as (s & _ & H); [|apply quiet_scope].
  destruct (is_valid s); cbn [negb] in H; [|done]. apply bind_inv in H as (rows & Hr & H); [|done].
  exists rows. split.
  - injection Hr as <-. destruct (user_department user w) as [d|] eqn:Ed;
      [intros r Hr; by eapply own_rows|by intros ? ?%not_elem_of_nil].
  - case_bool_decide as Hc; [|case_bool_decide as Hp; [|done]]; injection H as <- <- <- <-.
    + left. split; [done|apply read_build].
    + right. split; [done|]. by eexists _, _.
Qed.
Lemma download_own k fmt ct data n w' :
  dean_weekly_download parse_date user q today k fmt w = (inr (Document ct data n), w') →
  w' = w ∧ ∃ r path, r ∈ rw_reports w ∧ wr_pk r = k ∧ is_Some (usr_department user) ∧
    wr_department r = usr_department user ∧ path ∈ [wr_csv_path r; wr_pdf_path r] ∧ rw_files w !! path = Some data.
Proof using.
  intros [[? _]|[_ H]]%gate_inv; [done|]. apply bind_inv in H as (o & [= <-] & H); [|done].
  destruct (user_department user w) as [d|] eqn:Ed; [|done]. apply bind_inv in H as (s & _ & H); [|apply quiet_scope].
  destruct (is_valid s); cbn [negb] in H; [|done]. apply bind_inv in H as (o & [= <-] & H); [|done].
  destruct (List.find _ _) as [r|] eqn:Er; [|done]. apply find_elem in Er as [Hin Hp]. b2p.
  destruct Hp as [[Hk _] Hdep]. apply user_department_pk in Ed. apply stream_inv in H as [-> (path & Hp & Hf)].
  split; [done|]. exists r, path. rewrite Ed, Hdep. by eauto 10.
Qed.
Lemma dashboard_own card latest w' :
  dean_dashboard parse_date user q today w = (inr (Shown (card, latest)), w') →
  (∀ c, card = Some c → match user_department user w with
     | None => c = mk_dept 0 0 0 0 0
     | Some d => ∃ s, c = dept_summary (rw_db w) (scope_sessions s (Some (dep_pk d)) None)
     end) ∧
  ∀ r, latest = Some r → r ∈ rw_reports w ∧ wr_department r = usr_department user ∧ is_Some (usr_department user).
Proof using.
  intros [[? _]|[_ H]]%gate_inv; [done|]. apply bind_inv in H as (o & [= <-] & H); [|done].
  apply bind_inv in H as (s & _ & H); [|apply quiet_scope].
  destruct (is_valid s); cbn [negb] in H; [|injection H as <- <- <-; naive_solver].
  destruct (user_department user w) as [d|] eqn:Ed; [|injection H as <- <- <-; naive_solver].
  injection H as <- <- <-. split; [intros c [= <-]; by exists s|]. intros r Hr. apply user_department_pk in Ed.
  apply head_Some_elem_of in Hr. rewrite elem_of_sort_by, elem_of_select in Hr. b2p.
  destruct Hr as [Hin [_ Hr]]. rewrite Ed, Hr. eauto.
Qed.
End own.

(** C26: A dean sees the own department and nothing else: every row of the report and of its
    export, as a table or as a printed document, and every scorecard, shown or exported, is
    of a member of that department; a stored report is streamed only when it is that
    department's, as the bytes stored; the newest report of the dashboard is that
    department's, its figures are those of that department, and a dean with no department is
    shown zeros.  Each of these pages leaves the world as it is, however it is answered, and
    denies whoever is neither a dean nor a superuser. *)
Theorem dean_sees_own_department parse_date name_le build_pdf user q today k f fmt w :
  let own := colleague w user in
  let dashboard := dean_dashboard parse_date user q today in
  let report := dean_reports parse_date name_le user q today in
  let scorecard := dean_scorecard parse_date user q today f in
  let scorecard_export := dean_scorecard_export parse_date name_le user q today f in
  let export := dean_report_export parse_date name_le build_pdf user q today fmt in
  let download := dean_weekly_download parse_date user q today k fmt in
  (snd (dashboard w) = w ∧ snd (report w) = w ∧ snd (scorecard w) = w ∧ snd (scorecard_export w) = w ∧
     snd (export w) = w ∧ snd (download w) = w) ∧
  (¬ plays DEAN user → fst (dashboard w) = inr Denied ∧ fst (report w) = inr Denied ∧
     fst (scorecard w) = inr Denied ∧ fst (scorecard_export w) = inr Denied ∧ fst (export w) = inr Denied ∧
     fst (download w) = inr Denied) ∧
  (∀ rows, fst (report w) = inr (Shown rows) → ∀ r, r ∈ rows → own (fr_faculty r)) ∧
  (∀ c, fst (scorecard w) = inr (Shown (Some c)) → own f ∧ sc_faculty c = f) ∧
  (∀ ct data n, fst (scorecard_export w) = inr (Document ct data n) →
     own f ∧ ∃ rows, read_csv data = HEADER :: (csv_row <$> rows) ∧ ∀ r, r ∈ rows → fr_faculty r = f) ∧
  (∀ ct data n, fst (export w) = inr (Document ct data n) →
     ∃ rows, (∀ r, r ∈ rows → own (fr_faculty r)) ∧
       ((fmt = "csv"%string ∧ read_csv data = HEADER :: (csv_row <$> rows)) ∨
        (fmt = "pdf"%string ∧ ∃ a b, data = build_pdf rows a b (user_department user w)))) ∧
  (∀ ct data n, fst (download w) = inr (Document ct data n) →
     ∃ r path, r ∈ rw_reports w ∧ wr_pk r = k ∧ is_Some (usr_department user) ∧
       wr_department r = usr_department user ∧ path ∈ [wr_csv_path r; wr_pdf_path r] ∧ rw_files w !! path = Some data) ∧
  (∀ card latest, fst (dashboard w) = inr (Shown (card, latest)) →
     (∀ c, card = Some c → match user_department user w with
        | None => c = mk_dept 0 0 0 0 0
        | Some d => ∃ s, c = dept_summary (rw_db w) (scope_sessions s (Some (dep_pk d)) None)
        end) ∧
     ∀ r, latest = Some r → r ∈ rw_reports w ∧ wr_department r = usr_department user ∧ is_Some (usr_department user)).
Proof.
  intros own dashboard report scorecard scorecard_export export download.
  destruct (dean_pages_read parse_date name_le build_pdf user q today k f fmt) as (Q1 & Q2 & Q3 & Q4 & Q5 & Q6).
  assert (∀ A (m : W A) r, fst (m w) = r → m w = (r, snd (m w))) as Hfst by (intros A m r <-; by destruct (m w)).
  split; [split_and!; auto|]. split.
  { intros Hp. assert (∀ A (m : W (reply A)), gate DEAN user m w = (inr Denied, w)) as Hd.
    { intros A m. unfold gate, plays in *. destruct (usr_superuser user) eqn:Es; [tauto|].
      rewrite bool_decide_true; [done|tauto]. }
    unfold dashboard, report, scorecard, scorecard_export, export, download, dean_dashboard, dean_reports, dean_scorecard,
      dean_scorecard_export, dean_report_export, dean_weekly_download. by rewrite !Hd. }
  unfold own. split_and!.
  - intros rows H%Hfst. by apply reports_own in H as [_ H].
  - intros c H%Hfst. by apply scorecard_own in H as [_ H].
  - intros ct data n H%Hfst. by apply scorecard_export_own in H as [_ H].
  - intros ct data n H%Hfst. by apply export_own in H.
  - intros ct data n H%Hfst. by apply download_own in H as [_ H].
  - intros card latest H%Hfst. by apply dashboard_own in H.
Qed.

(** The week generated, its dean reads the report of the department and not the roll-up,
    which the facilities office reads. *)
Definition demo_own_dean : User := demo_user 3 "Cora" DEAN.
Definition demo_ifo : User := demo_user 4 "Ivy" IFO_ADMIN.
Example stored_report_is_read :
  let w := snd (demo_generate 0 demo_world) in
  fst (dean_weekly_download demo_parse demo_own_dean [] (monday + 7) 1 "csv" w) =
    inr (Document "text/csv" (build_csv (rows_of demo_names demo_term monday (monday + 6) demo_db (head demo_departments))) "CCS.csv") ∧
  fst (dean_weekly_download demo_parse demo_own_dean [] (monday + 7) 2 "csv" w) = inr Missing ∧
  fst (dean_weekly_download demo_parse demo_ifo [] (monday + 7) 1 "csv" w) = inr Denied ∧
  fst (ifo_weekly_download demo_parse demo_ifo [] (monday + 7) 2 "pdf" w) = inr (Document "application/pdf" "pdf" "ALL.pdf").
Proof. vm_compute. done. Qed.

(** The dean's report and export of that week hold the class of the one colleague, a guard
    is denied the export. *)
Lemma dean_sees_own_department_witness :
  let w := snd (demo_generate 0 demo_world) in
  let export user := dean_report_export demo_parse demo_names demo_pdf user [] (monday + 7) "csv" in
  snd (export demo_own_dean w) = w ∧
  fst (export (demo_user 9 "Gil" GUARD) w) = inr Denied ∧
  (∃ rows, fst (dean_reports demo_parse demo_names demo_own_dean [] (monday + 7) w) = inr (Shown rows) ∧
     (fr_faculty <$> rows) = [1] ∧ colleague w demo_own_dean 1).
Proof.
  cbv zeta.
  destruct (dean_sees_own_department demo_parse demo_names demo_pdf demo_own_dean [] (monday + 7) 1 1 "csv"
    (snd (demo_generate 0 demo_world))) as ((_ & _ & _ & _ & H1 & _) & _ & H2 & _).
  destruct (dean_sees_own_department demo_parse demo_names demo_pdf (demo_user 9 "Gil" GUARD) [] (monday + 7) 1 1 "csv"
    (snd (demo_generate 0 demo_world))) as (_ & H3 & _).
  split; [exact H1|]. split; [apply H3; by intros [|]|].
  assert (∃ row, fst (dean_reports demo_parse demo_names demo_own_dean [] (monday + 7) (snd (demo_generate 0 demo_world)))
    = inr (Shown [row]) ∧ fr_faculty row = 1) as (row & Hr & Hf) by (eexists; split; vm_compute; reflexivity).
  exists [row]. split; [exact Hr|]. split; [by rewrite <- Hf|].
  rewrite <- Hf. apply (H2 [row] Hr). left.
Defined.

(** The export of the rooms reads back as a line for each room, its text never a formula. *)
Lemma utilization_read rows :
  let doc := write_rows (UTILIZATION_CSV_HEADER :: (utilization_row <$> rows)) in
  read_csv doc = UTILIZATION_CSV_HEADER :: (utilization_row <$> rows) ∧
  ∀ r c, r ∈ rows → c ∈ take 3 (utilization_row r) → is_formula c = false.
Proof.
  split.
  - apply read_write. intros row [-> |(r & -> & _)%list_elem_of_fmap]%elem_of_cons; done.
  - intros r c _ Hc. cbn [take utilization_row] in Hc.
    repeat (apply elem_of_cons in Hc as [-> |Hc]; [apply csv_safe_not_formula|]). by apply not_elem_of_nil in Hc.
Qed.

(** ** The ramp is a ranking *)
Lemma index_sorted v l :
  StronglySorted (λ a b, (a <=? b) = true) l → v ∈ l → index_of v l = Z.of_nat (length (select (λ x, x <? v) l)).
Proof.
  induction 1 as [|x l Hs IH Hall]; [by intros ?%not_elem_of_nil|]. intros Hv. cbn [index_of]. rewrite select_cons.
  rewrite Forall_forall in Hall. destruct (Z.eqb_spec x v) as [->|Hne].
  - rewrite (proj2 (Z.ltb_ge v v)) by lia. rewrite (proj2 (select_nil _ _)); [done|].
    intros y Hy. specialize (Hall y Hy). cbn in Hall. lia.
  - apply elem_of_cons in Hv as [?|Hv]; [by subst|]. specialize (Hall v Hv) as Hx. cbn in Hx.
    rewrite (proj2 (Z.ltb_lt x v)) by lia. rewrite IH by done. cbn [length]. lia.
Qed.
Definition rank (used : list Z) (v : Z) : Z := Z.of_nat (length (select (λ x, x <=? v) used)).
Lemma rank_index v l :
  StronglySorted (λ a b, (a <=? b) = true) l → v ∈ l →
  index_of v l + Z.of_nat (length (select (Z.eqb v) l)) = rank l v.
Proof.
  intros Hs Hv. rewrite index_sorted by done. unfold rank. clear. induction l as [|x l IH]; [done|].
  rewrite !select_cons. destruct (Z.ltb_spec x v), (Z.eqb_spec v x), (Z.leb_spec x v); try lia; cbn [length]; lia.
Qed.
Lemma step_by_value_get used v :
  dict_get (step_by_value used) v = if bool_decide (v ∈ used) then Some (step_at used v) else None.
Proof.
  unfold step_by_value. generalize (step_at used) as f. intros f. revert v.
  induction used as [|x used IH] using rev_ind; intros v; [by rewrite bool_decide_false by apply not_elem_of_nil|].
  rewrite foldl_app. cbn [foldl]. pose proof (IH x) as Hx. specialize (IH v).
  set (d := foldl _ _ _) in *. clearbody d.
  assert (v ∈ used ++ [x] ↔ v ∈ used ∨ v = x) as Hv by (rewrite elem_of_app, list_elem_of_singleton; done).
  destruct (dict_get d x) as [n|] eqn:Ex.
  - case_bool_decide as Hin; [|done]. rewrite IH. do 2 case_bool_decide; naive_solver.
  - case_bool_decide as Hin; [done|]. rewrite dict_get_set, IH. repeat case_bool_decide; naive_solver.
Qed.
Lemma step_at_rank used v :
  StronglySorted (λ a b, (a <=? b) = true) used → v ∈ used →
  step_at used v = Z.max 1 (Z.min HEAT_STEPS (- ((- (rank used v) * HEAT_STEPS) / Z.of_nat (length used)))).
Proof. intros Hs Hv. unfold step_at. by rewrite rank_index. Qed.
Lemma rank_mono used a b : a ≤ b → rank used a ≤ rank used b.
Proof.
  intros Hab. unfold rank. apply inj_le. induction used as [|x l IH]; [done|]. rewrite !select_cons.
  destruct (Z.leb_spec x a), (Z.leb_spec x b); cbn [length]; lia.
Qed.

(** The steps of a grid rank its cells: a cell the term does not timetable has none, one
    timetabled and unused has 0, the others 1 to 4, never lower for a busier cell and equal
    for equal ones; the busiest has 4. *)
Theorem heat_steps_rank grid c c' row row' :
  let used := used_pcts grid in
  row ∈ grid → c ∈ hr_cells row → row' ∈ grid → c' ∈ hr_cells row' →
  (hc_timetabled c = false → cell_step used c = None) ∧
  (hc_timetabled c = true → hc_pct c = 0 → cell_step used c = Some 0) ∧
  (hc_timetabled c = true → hc_pct c ≠ 0 → ∃ n, cell_step used c = Some n ∧ 1 ≤ n ≤ HEAT_STEPS ∧
     ((∀ v, v ∈ used → v ≤ hc_pct c) → n = HEAT_STEPS) ∧
     (hc_timetabled c' = true → hc_pct c ≤ hc_pct c' → hc_pct c' ≠ 0 → ∃ n', cell_step used c' = Some n' ∧ n ≤ n')).
Proof.
  intros used Hrow Hc Hrow' Hc'.
  assert (StronglySorted (λ a b, (a <=? b) = true) used) as Hs by (apply sort_by_sorted; lia).
  assert (∀ v, v ∈ used ↔ ∃ row c, row ∈ grid ∧ c ∈ hr_cells row ∧ hc_timetabled c = true ∧ hc_pct c ≠ 0 ∧ hc_pct c = v) as Hu.
  { intros v. unfold used, used_pcts. rewrite elem_of_sort_by, list_elem_of_In, in_concat. setoid_rewrite <- list_elem_of_In. split.
    - intros (l & (r & -> & Hr)%list_elem_of_fmap & (x & -> & [Hx Hp]%elem_of_select)%list_elem_of_fmap). b2p. exists r, x. tauto.
    - intros (r & x & Hr & Hx & Ht & Hp & <-). eexists. split; [apply list_elem_of_fmap_2, Hr|].
      apply list_elem_of_fmap_2, elem_of_select. split; [done|]. by b2p. }
  assert (∀ r x, r ∈ grid → x ∈ hr_cells r → hc_timetabled x = true → hc_pct x ≠ 0 →
    hc_pct x ∈ used ∧ cell_step used x = Some (step_at used (hc_pct x))) as Hstep.
  { intros r x Hr Hx Ht Hp. assert (hc_pct x ∈ used) as Hin by (apply Hu; eauto 10). split; [done|].
    unfold cell_step. rewrite Ht. cbn [negb]. unfold dict_getd. by rewrite step_by_value_get, bool_decide_true. }
  split_and!.
  - intros Ht. unfold cell_step. by rewrite Ht.
  - intros Ht Hp. unfold cell_step. rewrite Ht. cbn [negb]. unfold dict_getd. rewrite step_by_value_get, Hp, bool_decide_false; [done|].
    intros (r & x & _ & _ & _ & Hn & Hz)%Hu. done.
  - intros Ht Hp. destruct (Hstep row c Hrow Hc Ht Hp) as [Hin Hst]. exists (step_at used (hc_pct c)).
    rewrite (step_at_rank used (hc_pct c)) by done. split; [by rewrite Hst, step_at_rank|].
    assert (0 < Z.of_nat (length used)) as Hlen by (destruct used; [by apply not_elem_of_nil in Hin|cbn; lia]).
    split; [unfold HEAT_STEPS; lia|]. split.
    + intros Hmax. assert (rank used (hc_pct c) = Z.of_nat (length used)) as ->.
      { unfold rank. rewrite select_all; [done|]. intros x Hx. specialize (Hmax x Hx). lia. }
      rewrite Z.mul_opp_l, (Z.mul_comm (Z.of_nat _)), <- Z.mul_opp_l, Z.div_mul by lia. done.
    + intros Ht' Hle Hp'. destruct (Hstep row' c' Hrow' Hc' Ht' Hp') as [Hin' Hst'].
      exists (step_at used (hc_pct c')). split; [done|]. rewrite (step_at_rank used (hc_pct c')) by done.
      pose proof (rank_mono used _ _ Hle) as Hr.
      pose proof (Z.div_le_mono (- rank used (hc_pct c') * HEAT_STEPS) (- rank used (hc_pct c) * HEAT_STEPS) _ Hlen) as Hd.
      unfold HEAT_STEPS in *. lia.
Qed.
