(* ===== verification/HrReports.v ===== *)
(** web/hr.py: the attendance list of the payroll office, one line per session of the term
    and the dates in force, and its export, streamed line by line. *)
From S2P Require Import Prelude Python Model Effects Ops Sample Boards Reporting Exports ReportScope WeeklyReports Web ReportPages.
From Stdlib Require Import Ascii String.
From stdpp Require Import strings.
Open Scope Z_scope.

Definition CSV_HEADER : list string :=
  ["Faculty"; "Department"; "Course"; "Section"; "Date"; "Scheduled start"; "Actual start"; "Minutes late"; "Status";
   "Method"; "Checker-verified"]%string.
(** [CheckinMethod.label] *)
Definition method_label (m : CheckinMethod) : string :=
  match m with
  | QR_SCAN => "QR scan" | MANUAL_CODE => "Manual code" | ONLINE_MANUAL => "Online (manual)"
  | ONLINE_SELF => "Online (self-start)" | FORCE_HANDOVER => "Force handover" | MERGED => "Merged (sibling fill)"
  end.
(** [localtime(dt).strftime("%Y-%m-%d %H:%M")] *)
Definition fmt_dt (dt : option Z) : string :=
  match dt with
  | None => ""
  | Some i =>
      let t := PyTime.local_time i in
      PyTime.date_str (PyTime.local_date i) +:+ " " +:+ PyStr.zpad 2 (t / PyTime.usec_hour) +:+ ":"
      +:+ PyStr.zpad 2 ((t / PyTime.usec_minute) mod 60)
  end.

Record Filters := {
  hf_faculty : string;
  hf_department : string;
  hf_term : string;
  hf_date_from : string;
  hf_date_to : string;
  hf_q : string;
  hf_note : option string;
  hf_any_applied : bool
}.
Definition filters_of (q : form) (s : ReportScope) : Filters :=
  let faculty_raw := post q "faculty" in
  let dept_raw := post q "department" in
  let text := post q "q" in
  {| hf_faculty := faculty_raw; hf_department := dept_raw; hf_term := term_key s; hf_date_from := start_str s;
     hf_date_to := default ""%string (PyTime.date_str <$> rs_end s); hf_q := text; hf_note := rs_note s;
     hf_any_applied := negb (blank faculty_raw) || negb (blank dept_raw) || negb (blank text)
       || existsb (λ k, is_some (dict_get q k)) ["term"; "from"; "to"; "as_of"]%string |}.
(** In the term, whatever the status of the class, and the dates *)
Definition in_report (db : DB) (s : ReportScope) (x : Session) : bool :=
  match by_pk (db_schedules db) (ses_schedule x), rs_term s, rs_start s, rs_end s with
  | Some sch, Some t, Some a, Some b => (sch_term sch =? term_pk t) && (a <=? ses_date x) && (ses_date x <=? b)
  | _, _, _, _ => false
  end.
Definition of_text (db : DB) (text : string) (x : Session) : bool :=
  match by_pk (db_users db) (ses_faculty x) with
  | Some u => icontains text (usr_first u) || icontains text (usr_last u)
  | None => false
  end
  || match by_pk (db_schedules db) (ses_schedule x) with
     | Some sch => icontains text (sch_course_code sch)
     | None => false
     end.
Definition passes (db : DB) (f : Filters) (x : Session) : bool :=
  implb (PyStr.isdigit (hf_faculty f)) (ses_faculty x =? digits (hf_faculty f))
  && implb (PyStr.isdigit (hf_department f)) (bool_decide (faculty_department db x = Some (digits (hf_department f))))
  && implb (negb (blank (hf_q f))) (of_text db (hf_q f) x).
(** [order_by("-date", "-scheduled_start")] *)
Definition latest_first (a b : Session) : bool :=
  (ses_date b <? ses_date a) || ((ses_date a =? ses_date b) && (ses_sched_start b <=? ses_sched_start a)).
Definition filtered_sessions (q : form) (s : ReportScope) (db : DB) : list Session * Filters :=
  let f := filters_of q s in
  (if is_valid s then sort_by latest_first (select (λ x, in_report db s x && passes db f x) (db_sessions db)) else [], f).

Section pages.
Context (parse_date : string → exn + option Z) (user : User) (q : form) (today : Z).

(** The whole term, when the request names no dates *)
Definition hr_default_window (t : AcademicTerm) : M (Z * Z) := mret (term_start t, term_end t).
Definition hr_scope : W ReportScope := on_db (selected_report_scope parse_date hr_default_window q today).
(** The sessions the list pages through, with their labels *)
Definition attendance : W (reply (list (Session * string) * Filters)) :=
  gate HR_ADMIN user (
  hr_scope ≫= λ s,
  ask (λ w, let '(rows, f) := filtered_sessions q s (rw_db w) in
            Shown ((λ x, (x, status_label (ses_status x))) <$> rows, f))).

Definition department_code (w : ReportWorld) (x : Session) : string :=
  default ""%string (u ← by_pk (db_users (rw_db w)) (ses_faculty x);
                     d ← usr_department u; dep_code <$> by_pk (rw_departments w) d).
Definition payroll_row (w : ReportWorld) (x : Session) : list string :=
  let db := rw_db w in
  [csv_safe (default ""%string (display_name <$> by_pk (db_users db) (ses_faculty x)));
   csv_safe (department_code w x);
   csv_safe (default ""%string (sch_course_code <$> by_pk (db_schedules db) (ses_schedule x)));
   csv_safe (default ""%string (sch_section <$> by_pk (db_schedules db) (ses_schedule x)));
   PyTime.date_str (ses_date x);
   fmt_dt (Some (ses_sched_start x));
   fmt_dt (ses_actual_start x);
   PyStr.str (session_minutes_late (ses_sched_start x) (ses_actual_start x) / 60);
   status_label (ses_status x);
   csv_safe (default ""%string (method_label <$> ses_method x));
   if verified_by_checker db x then "yes" else "no"]%string.
(** The document is the concatenation of the lines the generator yields. *)
Definition attendance_csv : W (reply unit) :=
  gate HR_ADMIN user (
  hr_scope ≫= λ s,
  if negb (is_valid s) then mret (Refused (rs_error s))
  else ask (λ w, Document "text/csv"
         (write_rows (CSV_HEADER :: (payroll_row w <$> fst (filtered_sessions q s (rw_db w)))))
         ("hr-attendance-term-" +:+ term_key s +:+ "-" +:+ PyTime.date_str today +:+ ".csv"))).
End pages.

(** ** What the export says *)

(** The year of a date is not negative; Python has none that is. *)
Definition dated (d : Z) : Prop := 0 ≤ (PyTime.civil d).1.1.
Record session_dated (x : Session) : Prop := {
  dated_day : dated (ses_date x);
  dated_start : dated (PyTime.local_date (ses_sched_start x));
  dated_actual : ∀ a, ses_actual_start x = Some a → dated (PyTime.local_date a)
}.
Lemma zpad_safe w n s : (0 < w)%nat → 0 ≤ n → is_formula (PyStr.zpad w n +:+ s) = false.
Proof.
  intros Hw Hn. unfold is_formula, PyStr.zpad. rewrite !PyStr.to_list_app, PyStr.to_of_list.
  destruct (str_digit n Hn) as (c & l & -> & Hc).
  destruct (w - String.length (PyStr.str n))%nat as [|k]; cbn [repeat app].
  - apply bool_decide_eq_false. intros H. revert Hc. unfold FORMULA_TRIGGERS in H.
    repeat (apply elem_of_cons in H as [-> |H]; [done|]). by apply not_elem_of_nil in H.
  - reflexivity.
Qed.
Lemma date_safe d s : dated d → is_formula (PyTime.date_str d +:+ s) = false.
Proof.
  unfold dated, PyTime.date_str. destruct (PyTime.civil d) as [[y m] dd]. cbn. intros Hy.
  rewrite <- (PyStr.of_to_list ((PyStr.zpad 4 y +:+ _) +:+ s)), PyStr.to_list_app, PyStr.to_list_app, <- app_assoc.
  rewrite <- !PyStr.to_list_app, PyStr.of_to_list. apply zpad_safe; [lia|done].
Qed.
Lemma date_alone_safe d : dated d → is_formula (PyTime.date_str d) = false.
Proof. intros H. pose proof (date_safe d "" H) as Hs. unfold is_formula in *. by rewrite PyStr.to_list_app, app_nil_r in Hs. Qed.
Lemma minutes_late_nonneg a b : 0 ≤ session_minutes_late a b / 60.
Proof. apply Z.div_pos; [|done]. unfold session_minutes_late. destruct b; lia. Qed.
Lemma payroll_row_safe w x c : session_dated x → c ∈ payroll_row w x → is_formula c = false.
Proof.
  intros [H1 H2 H3] Hc. unfold payroll_row in Hc.
  repeat (apply elem_of_cons in Hc as [-> |Hc]; [|]); [..|by apply not_elem_of_nil in Hc]; try apply csv_safe_not_formula.
  - by apply date_alone_safe.
  - by apply date_safe.
  - unfold fmt_dt. destruct (ses_actual_start x) as [a|]; [by apply date_safe, H3|done].
  - apply str_safe, minutes_late_nonneg.
  - by destruct (ses_status x).
  - by destruct (verified_by_checker (rw_db w) x).
Qed.
Lemma quiet_hr_scope parse_date q today : quiet (hr_scope parse_date q today).
Proof. apply quiet_on_db, reads_scope. intros t db. reflexivity. Qed.

(** C28: The payroll export is the list of the page: reading the document back finds the header
    and one line for every session the page lists, in its order, and no others; those are
    the sessions of the selected term and dates that pass every filter of the request.  No
    cell is one a spreadsheet would run as a formula, whatever names people and courses
    have, and neither the page nor the export changes anything. *)
Theorem hr_export_exact parse_date user q today w ct data name w' :
  (∀ x, x ∈ db_sessions (rw_db w) → session_dated x) →
  attendance_csv parse_date user q today w = (inr (Document ct data name), w') →
  w' = w ∧ (usr_role user = HR_ADMIN ∨ usr_superuser user = true) ∧
  ∃ s rows, hr_scope parse_date q today w = (inr s, w) ∧ is_valid s = true ∧
    attendance parse_date user q today w =
      (inr (Shown ((λ x, (x, status_label (ses_status x))) <$> rows, filters_of q s)), w) ∧
    (∀ x, x ∈ rows ↔ x ∈ db_sessions (rw_db w) ∧ in_report (rw_db w) s x = true ∧ passes (rw_db w) (filters_of q s) x = true) ∧
    read_csv data = CSV_HEADER :: (payroll_row w <$> rows) ∧
    ∀ row c, row ∈ read_csv data → c ∈ row → is_formula c = false.
Proof.
  intros Hdated [[? _]|[Hrole H]]%gate_inv; [done|]. apply bind_inv in H as (s & Hs & H); [|apply quiet_hr_scope].
  destruct (is_valid s) eqn:Ev; cbn [negb] in H; [|done]. injection H as <- <- <- <-. split; [done|]. split; [done|].
  exists s, (fst (filtered_sessions q s (rw_db w))).
  assert (∀ x, x ∈ fst (filtered_sessions q s (rw_db w)) ↔ x ∈ db_sessions (rw_db w) ∧
    in_report (rw_db w) s x = true ∧ passes (rw_db w) (filters_of q s) x = true) as Hx.
  { intros x. unfold filtered_sessions. rewrite Ev. cbn [fst]. rewrite elem_of_sort_by, elem_of_select. by rewrite andb_true_iff. }
  assert (read_csv (write_rows (CSV_HEADER :: (payroll_row w <$> fst (filtered_sessions q s (rw_db w))))) =
    CSV_HEADER :: (payroll_row w <$> fst (filtered_sessions q s (rw_db w)))) as Hread.
  { apply read_write. intros row [-> |(x & -> & _)%list_elem_of_fmap]%elem_of_cons; done. }
  split; [done|]. split; [done|]. split; [|split; [exact Hx|split; [exact Hread|]]].
  - unfold attendance, gate. assert (bool_decide (usr_role user ≠ HR_ADMIN) && negb (usr_superuser user) = false) as ->.
    { destruct Hrole as [Hr| ->]; [|apply andb_false_r]. by rewrite bool_decide_false by (intros Hn; by apply Hn). }
    erewrite W_run by exact Hs. unfold ask. by destruct (filtered_sessions q s (rw_db w)) as [rows f] eqn:E; injection E as _ <-.
  - intros row c Hrow Hc.
    assert (row ∈ CSV_HEADER :: (payroll_row w <$> fst (filtered_sessions q s (rw_db w)))) as Hrow'
      by (rewrite <- Hread; exact Hrow).
    clear Hrow. apply elem_of_cons in Hrow' as [-> |(x & -> & Hin)%list_elem_of_fmap].
    + unfold CSV_HEADER in Hc. repeat (apply elem_of_cons in Hc as [-> |Hc]; [done|]). by apply not_elem_of_nil in Hc.
    + apply Hx in Hin as [Hin _]. by eapply payroll_row_safe; [apply Hdated|].
Qed.

(** ** A concrete export *)
(** A name that a spreadsheet would run *)
Definition demo_payroll : ReportWorld :=
  demo_world <| rw_db := demo_db <| db_users := (demo_user 1 "=SUM(A1:A9)" FACULTY) :: tail (db_users demo_db) |>
                                 <| db_sessions := [demo_session 1 monday COMPLETED; demo_session 2 (monday + 7) CANCELLED] |> |>.
Definition demo_payroll_clerk : User := demo_user 5 "Hana" HR_ADMIN.
Definition demo_export : (exn + reply unit) * ReportWorld :=
  attendance_csv demo_parse demo_payroll_clerk [("to", "2026-07-12")]%string (monday + 8) demo_payroll.
Lemma demo_payroll_dated x : x ∈ db_sessions (rw_db demo_payroll) → session_dated x.
Proof.
  intros Hx. unfold demo_payroll in Hx. cbn [rw_db db_sessions] in Hx.
  each_row Hx; (split; [vm_compute; discriminate..|done]).
Qed.
Lemma hr_export_exact_witness :
  match demo_export with
  | (inr (Document _ data name), _) =>
      name = "hr-attendance-term-1-2026-07-14.csv"%string ∧
      read_csv data = [CSV_HEADER;
        ["'=SUM(A1:A9)"; "CCS"; "CS101"; "A"; "2026-07-06"; "2026-07-06 09:00"; ""; "0"; "Present"; ""; "no"]]%string ∧
      ∀ row c, row ∈ read_csv data → c ∈ row → is_formula c = false
  | _ => False
  end.
Proof.
  destruct demo_export as [[e|[a|ct data name| | |]] w'] eqn:E; try (exfalso; apply (f_equal fst) in E; vm_compute in E; discriminate).
  destruct (hr_export_exact demo_parse demo_payroll_clerk [("to", "2026-07-12")]%string (monday + 8) demo_payroll ct data name w'
    demo_payroll_dated E) as (_ & _ & s & rows & _ & _ & _ & _ & _ & Hsafe).
  apply (f_equal fst) in E. vm_compute in E. injection E as <- <- <-.
  split; [reflexivity|]. split; [vm_compute; reflexivity|exact Hsafe].
Defined.
(** A class that was cancelled is exported as one still to be held. *)
Example cancelled_is_scheduled : status_label CANCELLED = "Scheduled"%string.
Proof. reflexivity. Qed.
