(* ===== verification/TermPages.v ===== *)
(** web/ifo_terms.py: the pages of the academic terms.  A page shows the preflight of what it
    offers and a request carries it out through TermLifecycle.v; a refusal shows the
    preflight again, as it is then.  [parse_date] is Django's.  Writing the audit log does not
    fail in the model, so the page for a term that could not be committed is left out. *)
From S2P Require Import Prelude Python Model Effects Ops Sample Materialization TermLifecycle Boards ReportScope Web.
From Stdlib Require Import Ascii String.
From stdpp Require Import strings.
Open Scope Z_scope.

Definition status_order (t : AcademicTerm) : Z :=
  match term_status t with T_ACTIVE => 0 | T_DRAFT => 1 | T_ARCHIVED => 2 end.
(** [order_by(_STATUS_ORDER, "-start_date", "-pk")] *)
Definition term_le (a b : AcademicTerm) : bool :=
  (status_order a <? status_order b) || ((status_order a =? status_order b)
  && ((term_start b <? term_start a) || ((term_start a =? term_start b) && (term_pk b <=? term_pk a)))).
Definition BLOCKER_COPY : dict string string := [
  ("not_active", "Only the Active term can be closed.");
  ("before_end_date", "The term cannot close before its end date.");
  ("active_sessions", "Active sessions must finish before this term can close.");
  ("not_archived", "Only an Archived term can be reopened.");
  ("not_draft", "Only a Draft term can be activated.");
  ("date_order", "The term dates are not ordered.");
  ("another_active", "Another term is Active. Close it in a separate request first.");
  ("confirmation_mismatch", "The typed name does not exactly match this term.");
  ("reason_required", "A reason is required for this action.");
  ("warnings_unacknowledged", "Every current warning must be acknowledged.")]%string.
Definition WARNING_COPY : dict string string := [
  ("empty_schedule_set", "This Draft has no recurring schedules.");
  ("scheduled_sessions_present", "Scheduled sessions remain and will be preserved.");
  ("active_successor_exists", "A newer term is Active and will remain unchanged.")]%string.
Definition copy (d : dict string string) (key : string) : string * string :=
  (key, dict_getd d key (PyStr.replace_char "_"%char " "%char key)).

(** A term with the numbers of its schedules and of their sessions *)
Record TermRow := mk_term_row { tr_term : AcademicTerm; tr_schedules : Z; tr_sessions : Z }.
Definition term_row (db : DB) (t : AcademicTerm) : TermRow :=
  mk_term_row t (TermLifecycle.count (schedules_of_term db (term_pk t))) (TermLifecycle.count (sessions_of_term db (term_pk t))).
Inductive TermAction := Activate | Close | Reopen.
Definition term_action_str (a : TermAction) : string :=
  match a with Activate => "activate" | Close => "close" | Reopen => "reopen" end.
Definition action_label (a : TermAction) : string :=
  match a with Activate => "Activate term" | Close => "Close and archive term" | Reopen => "Reopen as Draft" end.
Record ActionContext := {
  ac_term : AcademicTerm;
  ac_action : TermAction;
  ac_preflight : TermPreflight;
  ac_needs_reason : bool;
  ac_blockers : list (string * string);
  ac_warnings : list (string * string);
  ac_error : string;
  ac_refusals : list (string * string)
}.
Definition action_context (t : AcademicTerm) (a : TermAction) (preflight : TermPreflight) (error : string)
    (refusal_blockers : list string) : ActionContext :=
  {| ac_term := t; ac_action := a; ac_preflight := preflight;
     ac_needs_reason := match a with Activate => false | _ => true end;
     ac_blockers := copy BLOCKER_COPY <$> pf_blockers preflight;
     ac_warnings := copy WARNING_COPY <$> pf_warnings preflight;
     ac_error := error; ac_refusals := copy BLOCKER_COPY <$> refusal_blockers |}.

(** What a page answers with: the list, a term with what may be done to it, the form of
    a new term, the form of an action, or a plain response; the two forms at 200 or 400 *)
Inductive term_page :=
  | Terms (rows : list TermRow)
  | Detail (row : TermRow) (actions : list (string * string))
  | CreationForm (preflight : option TermPreflight) (error : string) (refusal_blockers : list string) (bad : bool)
  | ActionForm (ctx : ActionContext) (bad : bool)
  | Answer (r : response).

Definition terms_gate (user : User) (view : M term_page) : M term_page :=
  if bool_decide (usr_role user ≠ IFO_ADMIN) && negb (usr_superuser user) then mret (Answer Forbidden) else view.

Section pages.
Context (parse_date : string → exn + option Z) (user : User).

Definition terms_list : M term_page :=
  terms_gate user (read (λ db, Terms (term_row db <$> sort_by term_le (db_terms db)))).

(** The fields of a form, as posted *)
Definition posted_field (q : form) (k : string) : string := dict_getd q k ""%string.
Definition posted_date (q : form) (k : string) : M (option Z) :=
  match parse_date (posted_field q k) with inl e => raise e | inr o => mret o end.
Definition creation_preflight (q : form) : M TermPreflight :=
  posted_date q "start_date" ≫= λ a,
  posted_date q "end_date" ≫= λ b,
  preflight_term_creation (Some user) (posted_field q "name") a b.
(** The other subclasses of [RuntimeError] *)
Definition runtime_error (e : exn) : bool :=
  match e with MaterializationError _ | NoActiveTermError _ | ArchivedTermError _ | ManualCodeExhausted _ => true | _ => false end.
(** A refusal of the lifecycle, shown on the page [fresh] builds from it; [other] is the
    handler of the other exceptions. *)
Definition refusal_shown {A} (m : M A) (fresh : string → list string → M term_page)
    (other : exn → option (M term_page)) (ok : A → term_page) : M term_page :=
  try_with (ok <$> m) (λ e, match e with TermLifecycleError msg blockers _ => Some (fresh msg blockers) | _ => other e end).
(** [q] is [None] for a GET. *)
Definition term_create (q : option form) : M term_page :=
  terms_gate user (
  match q with
  | None => mret (CreationForm None "" [] false)
  | Some q =>
      if negb (bool_decide (dict_getd q "step"%string "details"%string = "confirm"%string))
      then creation_preflight q ≫= λ p, mret (CreationForm (Some p) "" [] false)
      else
        refusal_shown
          (posted_date q "start_date" ≫= λ a,
           posted_date q "end_date" ≫= λ b,
           create_term (Some user) (posted_field q "name") a b (posted_field q "confirmation_name"))
          (λ msg blockers, creation_preflight q ≫= λ p, mret (CreationForm (Some p) msg blockers true))
          (λ e, if runtime_error e
                then Some (creation_preflight q ≫= λ p,
                           mret (CreationForm (Some p) "The term could not be committed. No term was created." [] true))
                else None)
          (λ t, Answer (Redirect "ifo_term_detail" (PyStr.str (term_pk t)) ("Draft term " +:+ term_name t +:+ " created.")))
  end).
Definition term_detail (k : Z) : M term_page :=
  terms_gate user (
  read (λ db, match by_pk (db_terms db) k with
              | None => Answer NotFound
              | Some t => Detail (term_row db t)
                  match term_status t with
                  | T_DRAFT => [("Activate", "activate")]
                  | T_ACTIVE => [("Close and archive", "close")]
                  | T_ARCHIVED => [("Reopen as Draft", "reopen")]
                  end%string
              end)).
Definition done_message (a : TermAction) (t : AcademicTerm) : string :=
  match a with
  | Activate => term_name t +:+ " is now Active."
  | Close => term_name t +:+ " was closed and archived."
  | Reopen => term_name t +:+ " was reopened as Draft."
  end.
Definition carry_out (a : TermAction) (k : Z) (q : form) (acknowledged : list string) (today now : Z) : M AcademicTerm :=
  let confirmation := posted_field q "confirmation_name" in
  match a with
  | Activate => activate_term k (Some user) confirmation acknowledged today now
  | Close => close_term k (Some user) confirmation (posted_field q "reason") acknowledged today
  | Reopen => reopen_term k (Some user) confirmation (posted_field q "reason") acknowledged today
  end.
(** [acknowledged] is [getlist("acknowledged_warnings")]; the term a refusal shows is read
    again. *)
Definition term_action (a : TermAction) (k : Z) (q : option (form * list string)) (today now : Z) : M term_page :=
  terms_gate user (
  read (λ db, by_pk (db_terms db) k) ≫= λ o,
  match o with
  | None => mret (Answer NotFound)
  | Some t =>
      preflight_term_action k (term_action_str a) (Some user) today ≫= λ preflight,
      match q with
      | None => mret (ActionForm (action_context t a preflight "" []) false)
      | Some (q, acknowledged) =>
          refusal_shown (carry_out a k q acknowledged today now)
            (λ msg blockers,
               get_pk (R:=AcademicTerm) k ≫= λ t,
               preflight_term_action k (term_action_str a) (Some user) today ≫= λ fresh,
               mret (ActionForm (action_context t a fresh msg blockers) true))
            (λ _, None)
            (λ t, Answer (Redirect "ifo_term_detail" (PyStr.str (term_pk t)) (done_message a t)))
      end
  end).
End pages.

(** ** A page changes the terms only by a lifecycle service that succeeded *)

(** A computation that fails leaves the database as it was. *)
Definition all_or_nothing {A} (m : M A) : Prop := ∀ db e db', m db = (inl e, db') → db' = db.
Lemma atomic_all {A} (m : M A) : all_or_nothing (atomic m).
Proof. intros db e db'. unfold atomic. destruct (m db) as [[|] ?]; by intros [= <- <-]. Qed.
Lemma try_all {A} (m : M A) h :
  all_or_nothing m → (∀ e m', h e = Some m' → all_or_nothing m') → all_or_nothing (try_with m h).
Proof.
  intros Hm Hh db e db'. unfold try_with. destruct (m db) as [[e0|a] db0] eqn:E; [|done]. apply Hm in E as ->.
  destruct (h e0) as [m'|] eqn:Eh; [|by intros [= _ <-]]. by apply (Hh e0).
Qed.
Lemma reads_all {A} (m : M A) : reads m → all_or_nothing m.
Proof. intros H db e db' Hm. specialize (H db). unfold exec in H. by rewrite Hm in H. Qed.
Lemma bind_all {A B} (m : M A) (k : A → M B) :
  reads m → (∀ a, all_or_nothing (k a)) → all_or_nothing (m ≫= k).
Proof.
  intros Hm Hk db e db'. specialize (Hm db). unfold exec in Hm. unfold mbind, M_bind.
  destruct (m db) as [[e0|a] db0]; cbn in Hm; subst db0; [by intros [= _ <-]|apply Hk].
Qed.
Lemma reads_posted_date parse_date q k : reads (posted_date parse_date q k).
Proof. unfold posted_date. intros db. by destruct (parse_date _). Qed.
Lemma create_all parse_date user q :
  all_or_nothing (posted_date parse_date q "start_date" ≫= λ a, posted_date parse_date q "end_date" ≫= λ b,
    create_term (Some user) (posted_field q "name") a b (posted_field q "confirmation_name")).
Proof. do 2 (apply bind_all; [apply reads_posted_date|intros]). apply atomic_all. Qed.
Lemma carry_out_all user a k q ack today now : all_or_nothing (carry_out user a k q ack today now).
Proof.
  destruct a; [|apply atomic_all..]. apply try_all; [apply atomic_all|]. intros e m'. case_match; [|done].
  intros [= <-]. apply reads_all. apply respects_bind; [apply _|by intros ?|]. intros b db. by destruct b.
Qed.
Lemma reads_authorize user : reads (authorize user).
Proof. destruct user as [u|]; intros db; unfold exec, authorize, guard_m; [by destruct (may_manage (Some u))|done]. Qed.
Lemma reads_preflight k a user today : reads (preflight_term_action k a user today).
Proof.
  apply respects_bind; [apply _|apply reads_authorize|intros]. apply respects_bind; [apply _| |intros ? ?; done].
  intros db. unfold exec, get_pk, mbind, M_bind, read. by destruct (by_pk _ _).
Qed.
Lemma reads_creation_preflight parse_date user q : reads (creation_preflight parse_date user q).
Proof.
  do 2 (apply respects_bind; [apply _|apply reads_posted_date|intros]).
  apply respects_bind; [apply _|apply reads_authorize|]. intros ? db. done.
Qed.
(** The outcome of a refusal that is shown: the service succeeded, or nothing happened *)
Lemma refusal_wp {A} (m : M A) fresh other ok (Q : exn + term_page → DB → Prop) db :
  all_or_nothing m →
  (∀ t db', m db = (inr t, db') → Q (inr (ok t)) db') →
  (∀ msg blockers warnings, m db = (inl (TermLifecycleError msg blockers warnings), db) → wp (fresh msg blockers) Q db) →
  (∀ e, match other e with Some page => wp page Q db | None => Q (inl e) db end) → wp (refusal_shown m fresh other ok) Q db.
Proof.
  intros Hm Hok Hfresh Herr. unfold refusal_shown, wp, try_with, fmap, M_fmap. specialize (Hm db).
  destruct (m db) as [[e|t] db'] eqn:E; [|by apply Hok]. assert (db' = db) as -> by by eapply Hm.
  destruct e; try (by eapply Hfresh);
    match goal with |- context [other ?e'] => specialize (Herr e'); by destruct (other e') end.
Qed.

(** Whatever is posted, the pages of the terms change nothing except by carrying out one
    lifecycle service: a request that is answered with a redirection succeeded in exactly
    the service it asked for, with what was posted; any other answer, and any exception,
    leaves the database as it was.  An action that is refused shows the blockers and the
    warnings of the term as it is. *)
Theorem term_pages_exact parse_date user a k q today now db :
  wp (terms_list user) (λ _ db', db' = db) db ∧
  wp (term_detail user k) (λ _ db', db' = db) db ∧
  wp (term_create parse_date user (fst <$> q)) (λ r db',
    match r with
    | inr (Answer (Redirect _ _ _)) => ∃ q' ack t x y, q = Some (q', ack) ∧ dict_getd q' "step"%string "details"%string = "confirm"%string ∧
        create_term (Some user) (posted_field q' "name") x y (posted_field q' "confirmation_name") db = (inr t, db')
    | inr (CreationForm (Some p) _ _ _) => db' = db ∧ ∃ name x y, p = creation_preflight_from_rows name x y (db_terms db)
    | _ => db' = db
    end) db ∧
  wp (term_action user a k q today now) (λ r db',
    match r with
    | inr (Answer (Redirect _ _ _)) => ∃ q' ack t, q = Some (q', ack) ∧ carry_out user a k q' ack today now db = (inr t, db')
    | inr (ActionForm ctx bad) => db' = db ∧ by_pk (db_terms db) k = Some (ac_term ctx) ∧
        ac_preflight ctx = action_preflight db (ac_term ctx) (term_action_str a) today ∧
        (bad = true → ∃ q' ack msg blockers warnings, q = Some (q', ack) ∧ ac_error ctx = msg ∧
           carry_out user a k q' ack today now db = (inl (TermLifecycleError msg blockers warnings), db))
    | _ => db' = db
    end) db.
Proof.
  assert (∀ name x y Q, (∀ p, p = creation_preflight_from_rows name x y (db_terms db) → Q (inr p) db) →
    (∀ e, Q (inl e) db) → wp (preflight_term_creation (Some user) name x y) Q db) as Hcreate.
  { intros name x y Q H He. unfold preflight_term_creation. wp_step. apply wp_reads; [apply reads_authorize|].
    intros [e|[]] _; [apply He|]. wp_step. wp_step. wp_step. apply H. f_equal. by apply select_all. }
  assert (∀ q0 Q, (∀ p name x y, p = creation_preflight_from_rows name x y (db_terms db) → Q (inr p) db) →
    (∀ e, Q (inl e) db) → wp (creation_preflight parse_date user q0) Q db) as Hform.
  { intros q0 Q H He. unfold creation_preflight. wp_step. apply wp_reads; [apply reads_posted_date|]. intros [e|x] _; [apply He|].
    wp_step. apply wp_reads; [apply reads_posted_date|]. intros [e|y] _; [apply He|]. apply Hcreate; [|done]. intros p Hp. by eapply H. }
  assert (∀ Q, (∀ t, by_pk (db_terms db) k = Some t → Q (inr (action_preflight db t (term_action_str a) today)) db) →
    (∀ e, Q (inl e) db) → wp (preflight_term_action k (term_action_str a) (Some user) today) Q db) as Hpre.
  { intros Q H He. unfold preflight_term_action. wp_step. apply wp_reads; [apply reads_authorize|]. intros [e|[]] _; [apply He|].
    wp_step. apply wp_get_pk; [|by intros _]. intros t Ht. wp_step. by apply H. }
  assert (∀ view Q, Q (inr (Answer Forbidden)) db → wp view Q db → wp (terms_gate user view) Q db) as Hgate.
  { intros view Q H1 H2. unfold terms_gate. by case_match. }
  split_and!.
  - apply Hgate; [done|]. by wp_step.
  - apply Hgate; [done|]. by wp_step.
  - apply Hgate; [done|]. destruct q as [[q' ack]|]; cbn [fmap option_fmap option_map fst]; [|by apply wp_ret].
    case_bool_decide as Hstep; cbn [negb].
    + apply refusal_wp; [apply create_all|..].
      * intros t db' Ht. unfold mbind, M_bind in Ht. destruct (posted_date parse_date q' "start_date" db) as [[|x] db1] eqn:E1; [done|].
        destruct (posted_date parse_date q' "end_date" db1) as [[|y] db2] eqn:E2; [done|].
        pose proof (reads_posted_date parse_date q' "start_date" db) as R1. unfold exec in R1. rewrite E1 in R1. cbn in R1. subst db1.
        pose proof (reads_posted_date parse_date q' "end_date" db) as R2. unfold exec in R2. rewrite E2 in R2. cbn in R2. subst db2.
        by exists q', ack, t, x, y.
      * intros msg bl wa _. wp_step. apply Hform; [|done]. intros p name x y Hp. wp_step. eauto.
      * intros e. case_match; simplify_eq; [|done]. destruct (runtime_error e); simplify_eq.
        wp_step. apply Hform; [|done]. intros p name x y Hp. wp_step. eauto.
    + wp_step. apply Hform; [|done]. intros p name x y Hp. wp_step. eauto.
  - apply Hgate; [done|]. wp_step. wp_step. destruct (by_pk (db_terms db) k) as [t|] eqn:Et; [|by wp_step].
    wp_step. apply Hpre; [|done]. intros t' [= <-].
    destruct q as [[q' ack]|]; [|by apply wp_ret]. apply refusal_wp; [apply carry_out_all|..].
    + intros t' db' Ht'. by exists q', ack, t'.
    + intros msg bl wa Hm. wp_step. apply wp_get_pk; [|intros Hn; cbn in Hn; congruence]. intros t' Ht'.
      wp_step. apply Hpre; [|done]. intros t2 [= <-]. wp_step.
      assert (t' = t) as -> by (cbn [tbl table_AcademicTerm] in Ht'; congruence).
      split_and!; try done. intros _. by exists q', ack, msg, bl, wa.
    + done.
Qed.
(** The term closed from its page, by its name typed out and with a reason *)
Example closed_from_its_page :
  let q := [("confirmation_name", "AY 2026-2027"); ("reason", "over")]%string in
  run (term_action (demo_user 4 "Ivy" IFO_ADMIN) Close 1 (Some (q, ["scheduled_sessions_present"%string])) (monday + 21) 0) demo_db =
    inr (Answer (Redirect "ifo_term_detail" "1" "AY 2026-2027 was closed and archived.")) ∧
  match run (term_action (demo_user 4 "Ivy" IFO_ADMIN) Close 1 (Some (q, [])) (monday + 21) 0) demo_db with
  | inr (ActionForm ctx true) => ac_refusals ctx = [("warnings_unacknowledged", "Every current warning must be acknowledged.")]%string
  | _ => False
  end.
Proof. vm_compute. done. Qed.
