(* ===== verification/Operations.v ===== *)
(** The maintenance commands and pages: ops/management/commands (the watchdog of the
    scheduler and the pruning of its log), scheduling/management/commands/audit_merge_coverage.py
    and reset_term.py, the list of job runs of web/sys.py with the pager of web/pagination.py,
    and the guard of scheduling/admin_guards.py on the records of an archived term.

    Notifications carry no creation time in Model.v: [created] gives it by key. *)
From S2P Require Import Prelude Python Model Effects Ops Sample Merge Reporting Utilization Boards ReportScope Web.
From Stdlib Require Import Ascii String.
From stdpp Require Import strings.
Open Scope Z_scope.

(** ** checkscheduler *)
Definition finished_later (a b : JobRun) : bool := default 0 (job_finished_at b) <=? default 0 (job_finished_at a).
Definition latest_finished (db : DB) : option JobRun :=
  head (sort_by finished_later (select (λ r, is_some (job_finished_at r)) (db_jobruns db))).
Definition STALE : string := "scheduler_stale".
Definition check_scheduler (created : Z → Z) (max_age now : Z) : M unit :=
  guard_m (1 <=? max_age) (CommandError "--max-age-minutes must be at least 1") ≫= λ _,
  read latest_finished ≫= λ latest,
  let healthy := match latest with
                 | Some r => now - PyTime.minutes max_age <=? default 0 (job_finished_at r)
                 | None => false
                 end in
  if healthy then mret ()
  else
    let detail := match latest with
                  | None => "No completed scheduler job was found."%string
                  | Some r => "Last scheduler completion was " +:+ PyTime.iso_utc (default 0 (job_finished_at r)) +:+ "."
                  end in
    exists_where (R:=Notification) (λ n, bool_decide (ntf_type n = STALE) && (now - PyTime.hours 1 <=? created (ntf_pk n)))
      ≫= λ recently_alerted : bool,
    when (negb recently_alerted)
      (notify [] (Some SYSTEM_ADMIN) STALE "Scheduler heartbeat is stale"
         (detail +:+ " Check fluxtrack-scheduler.service.") "") ≫= λ _,
    raise (CommandError ("Scheduler stale (>" +:+ PyStr.str max_age +:+ " minutes). " +:+ detail)).

(** ** prune_operational_data *)
Definition prune (days now : Z) : M Z :=
  guard_m (1 <=? days) (CommandError "--days must be at least 1") ≫= λ _,
  let old r := job_started_at r <? now - PyTime.days days in
  read (λ db, Z.of_nat (length (select old (db_jobruns db)))) ≫= λ deleted,
  write (λ db, db <| db_jobruns := select (λ r, negb (old r)) (db_jobruns db) |>) ≫= λ _,
  mret deleted.

(** The job of the scheduler; the sessions of the site are no modelled table. *)
Definition job_maintenance (days now : Z) : M Z := prune days now ≫= λ _, mret 0.

(** ** reset_term, which only says it is retired *)
Definition reset_term : M unit :=
  raise (CommandError ("reset_term is retired. Use the lifecycle workflow: close/archive "
    +:+ "the finished term, create or prepare the next Draft term, then "
    +:+ "activate it. Archived terms preserve official history; reopen an "
    +:+ "archive first when a correction is required.")).

(** ** The pager of web/pagination.py

    [Paginator] is Django's: the number of pages of a list and the page a request names,
    by its number as text; a page is its number and its rows. *)
Inductive PageError := PageNotAnInteger | EmptyPage.
Class Paginator (A : Type) (paginator : Type) := {
  over : Z → list A → paginator;
  num_pages : paginator → Z;
  named_page : paginator → option string → PageError + Z * list A;
  nth_page : paginator → Z → Z * list A;
  num_pages_spec : ∀ n l, 1 ≤ n → num_pages (over n l) = 1 `max` ((Z.of_nat (length l) + n - 1) / n);
  nth_page_spec : ∀ n l k, 1 ≤ n → 1 ≤ k ≤ num_pages (over n l) →
    nth_page (over n l) k = (k, firstn (Z.to_nat n) (skipn (Z.to_nat (n * (k - 1))) l));
  named_page_spec : ∀ n l raw x, 1 ≤ n → named_page (over n l) raw = inr x →
    ∃ k, 1 ≤ k ≤ num_pages (over n l) ∧ x = nth_page (over n l) k
}.
Definition paginate {A paginator} `{Paginator A paginator} (per_page : Z) (l : list A) (raw : option string) : Z * list A :=
  let p := over per_page l in
  match named_page p raw with
  | inr page => page
  | inl PageNotAnInteger => nth_page p 1
  | inl EmptyPage => nth_page p (num_pages p)
  end.

(** ** The monitor of web/sys.py *)
Definition duration_s (r : JobRun) : option Z := (λ f, f - job_started_at r) <$> job_finished_at r.
Definition started_later (a b : JobRun) : bool := job_started_at b <=? job_started_at a.
Definition runs_newest_first (db : DB) : list JobRun := sort_by started_later (db_jobruns db).
Definition job_names (db : DB) : list string := remove_dups (sort_by String.leb (job_name <$> db_jobruns db)).
(** The newest run of each job, and every run, newest first *)
Definition with_duration (r : JobRun) : JobRun * option Z := (r, duration_s r).
Definition latest_runs (db : DB) : list (JobRun * option Z) :=
  omap (λ name, with_duration <$> List.find (λ r, bool_decide (job_name r = name)) (runs_newest_first db)) (job_names db).
(** [None] is a refusal. *)
Definition jobs {paginator} `{Paginator JobRun paginator} (user : User) (raw : option string) :
    M (option (list (JobRun * option Z) * (Z * list (JobRun * option Z)))) :=
  if bool_decide (usr_role user ≠ SYSTEM_ADMIN) && negb (usr_superuser user) then mret None
  else read (λ db, let pager := paginate 50 (runs_newest_first db) raw in
                   Some (latest_runs db, (pager.1, with_duration <$> pager.2))).

(** ** audit_merge_coverage *)
Record Coverage := mk_audit { au_groups : Z; au_caught : Z; au_missed : list (Z * Z * Z * list Z) }.
Definition online_like (db : DB) (s : Session) : SessionLike :=
  mk_like (ses_pk s) (ses_faculty s) (ses_sched_start s) (ses_room s)
    (sch_course_code <$> by_pk (db_schedules db) (ses_schedule s)) true.
Definition same_slot (s : Session) : Z * Z := (ses_faculty s, ses_sched_start s).
(** The members of a group the detector, asked about the first, does not reach *)
Definition uncovered (db : DB) (members : list Session) : list Z :=
  match members with
  | [] => []
  | anchor :: rest =>
      let covered := ses_pk anchor :: merged_sibling_ids (online_like db anchor) (online_like db <$> rest) in
      select (λ k, negb (bool_decide (k ∈ covered))) (ses_pk <$> members)
  end.
Definition audit_group (db : DB) (a : Coverage) (g : (Z * Z) * list Session) : Coverage :=
  match g.2 with
  | [] | [_] => a
  | anchor :: _ =>
      match uncovered db g.2 with
      | [] => mk_audit (au_groups a + 1) (au_caught a + 1) (au_missed a)
      | l => mk_audit (au_groups a + 1) (au_caught a) (au_missed a ++ [(g.1.1, g.1.2, ses_pk anchor, l)])
      end
  end.
Definition audit_coverage (db : DB) (term : Z) : Coverage :=
  foldl (audit_group db) (mk_audit 0 0 [])
    (dict_group same_slot id (select (λ s, in_term db term s && effective_online db s) (db_sessions db))).
(** [None] when there is no active term *)
Definition audit_merge_coverage : M (option Coverage) :=
  try_with (Some <$> require_active_term)
    (λ e, match e with NoActiveTermError _ => Some (mret None) | _ => None end) ≫= λ o : option AcademicTerm,
  match o with
  | None => mret None
  | Some t =>
      read (λ db, audit_coverage db (term_pk t)) ≫= λ a,
      match au_missed a with
      | [] => mret (Some a)
      | l => raise (CommandError (PyStr.str (Z.of_nat (length l)) +:+ " online merged group(s) NOT caught by D-01 "
               +:+ "(criterion #3 gap) -- see MISSED lines above."))
      end
  end.

(** ** The guard of the admin site *)
(** The term a record belongs to: its own, or that of its schedule or session, or what the
    admin class says, or none *)
Inductive Owned := Of_term (t : option Z) | Of_schedule (k : option Z) | Of_session (k : option Z) | Ownerless.
Definition schedule_term (db : DB) (k : Z) : option Z := sch_term <$> by_pk (db_schedules db) k.
Definition owning_key (db : DB) (o : Owned) : option Z :=
  match o with
  | Of_term t => t
  | Of_schedule k => k ← k; schedule_term db k
  | Of_session k => k ← k; s ← by_pk (db_sessions db) k; schedule_term db (ses_schedule s)
  | Ownerless => None
  end.
Definition owning_term (db : DB) (o : Owned) : option AcademicTerm :=
  k ← owning_key db o; by_pk (db_terms db) k.
(** [PermissionDenied] is the [None] of the answer. *)
Definition admin_writable (o : Owned) : M (option AcademicTerm) :=
  read (λ db, owning_term db o) ≫= λ t,
  match t with
  | None => mret None
  | Some t => try_with (Some <$> require_writable_term t)
                (λ e, match e with ArchivedTermError _ => Some (mret None) | _ => None end)
  end.
(** [save_model] and [delete_model] with what they would do, and [delete_queryset], which
    looks at every record before it deletes any *)
Definition guarded (o : Owned) (m : M unit) : M bool :=
  admin_writable o ≫= λ t, match t with None => mret false | Some _ => m ≫= λ _, mret true end.
Fixpoint all_writable (l : list Owned) : M bool :=
  match l with
  | [] => mret true
  | o :: l => admin_writable o ≫= λ t, match t with None => mret false | Some _ => all_writable l end
  end.
Definition guarded_all (l : list Owned) (m : M unit) : M bool :=
  all_writable l ≫= λ ok : bool, if ok then m ≫= λ _, mret true else mret false.

(** ** The pager *)

(** The rows between two offsets, page after page *)
Lemma pages_concat {A} n m (l : list A) :
  (length l ≤ n * m)%nat → concat ((λ k, firstn n (skipn (n * k) l)) <$> seq 0 m) = l.
Proof.
  revert l. induction m as [|m IH]; intros l Hl; [destruct l; [done|cbn in Hl; lia]|].
  cbn [seq fmap list_fmap concat]. rewrite Nat.mul_0_r. cbn [skipn]. rewrite <- fmap_S_seq, <- list_fmap_compose.
  rewrite (list_fmap_ext _ (λ k, firstn n (skipn (n * k) (skipn n l)))).
  - rewrite IH; [apply take_drop|]. rewrite length_skipn. lia.
  - intros i k _. cbn. rewrite skipn_skipn. f_equal. f_equal. lia.
Qed.
Section pager.
Context {A paginator : Type} `{P : Paginator A paginator}.
(** A request never falls off a list, whatever page it names: it is shown one of its pages,
    and the pages together are the whole list, in order and without a repetition. *)
Theorem paginate_exact per_page l :
  1 ≤ per_page →
  let pages := (λ k, nth_page (over per_page l) (1 + Z.of_nat k)) <$> seq 0 (Z.to_nat (num_pages (over per_page l))) in
  (∀ raw, paginate per_page l raw ∈ pages) ∧ concat (snd <$> pages) = l ∧
  Forall (λ p, Z.of_nat (length (snd p)) ≤ per_page) pages ∧
  (∀ raw, named_page (over per_page l) raw = inl EmptyPage → fst (paginate per_page l raw) = num_pages (over per_page l)).
Proof.
  intros Hn pages. set (p := over per_page l) in *.
  pose proof (num_pages_spec per_page l Hn) as Hnum. fold p in Hnum.
  assert (∀ k, 1 ≤ k ≤ num_pages p → nth_page p k ∈ pages) as Hin.
  { intros k Hk. apply list_elem_of_fmap. exists (Z.to_nat (k - 1)). split; [f_equal; lia|]. apply elem_of_seq. lia. }
  assert (snd <$> pages = (λ k, firstn (Z.to_nat per_page) (skipn (Z.to_nat per_page * k) l)) <$> seq 0 (Z.to_nat (num_pages p))) as Hpages.
  { unfold pages. rewrite <- list_fmap_compose. apply list_fmap_ext. intros i k Hk%list_elem_of_lookup_2%elem_of_seq.
    cbn. unfold p. rewrite (nth_page_spec per_page l) by (fold p; lia). cbn. f_equal. f_equal. lia. }
  split_and!.
  - intros raw. unfold paginate. fold p. destruct (named_page p raw) as [[]|x] eqn:E; [apply Hin; lia..|].
    apply named_page_spec in E as (k & Hk & ->); [|done]. by apply Hin.
  - rewrite Hpages. apply pages_concat. rewrite Hnum.
    pose proof (Z.div_mod (Z.of_nat (length l) + per_page - 1) per_page ltac:(lia)).
    pose proof (Z.mod_pos_bound (Z.of_nat (length l) + per_page - 1) per_page ltac:(lia)). nia.
  - apply Forall_forall. intros x Hx. assert (snd x ∈ snd <$> pages) as Hs by by apply list_elem_of_fmap_2.
    rewrite Hpages in Hs. apply list_elem_of_fmap in Hs as (k & -> & _). rewrite length_firstn. lia.
  - intros raw E. unfold paginate. fold p. rewrite E. unfold p at 1. rewrite (nth_page_spec per_page l) by (fold p; lia). done.
Qed.
End pager.

(** ** The watchdog *)

(** The watchdog passes exactly when a job finished within the allowed age, and then writes
    nothing; otherwise it fails, after telling every active system administrator once, and
    nobody again within the hour. *)
Theorem watchdog_exact created max_age now db :
  1 ≤ max_age →
  let fresh r := match job_finished_at r with Some f => now - PyTime.minutes max_age <=? f | None => false end in
  let told := existsb (λ n, bool_decide (ntf_type n = STALE) && (now - PyTime.hours 1 <=? created (ntf_pk n)))
                (db_notifications db) in
  if existsb fresh (db_jobruns db) then check_scheduler created max_age now db = (inr (), db)
  else ∃ msg ns, check_scheduler created max_age now db =
           (inl (CommandError msg), db <| db_notifications := db_notifications db ++ ns |>) ∧
         ntf_user <$> ns = (if told then [] else
           usr_pk <$> select (λ u, bool_decide (usr_role u = SYSTEM_ADMIN) && usr_active u) (db_users db)) ∧
         ∀ n, n ∈ ns → ntf_type n = STALE.
Proof.
  intros Hage fresh told. unfold check_scheduler. rewrite (proj2 (Z.leb_le 1 max_age)) by done.
  erewrite bind_run by reflexivity. erewrite bind_run by reflexivity.
  set (healthy := match latest_finished db with
                  | Some r => now - PyTime.minutes max_age <=? default 0 (job_finished_at r) | None => false end).
  assert (existsb fresh (db_jobruns db) = healthy) as ->.
  { unfold healthy. apply eq_true_iff_eq. rewrite existsb_elem. unfold latest_finished.
    set (l := select _ _). assert (∀ r, r ∈ sort_by finished_later l ↔ r ∈ db_jobruns db ∧ is_some (job_finished_at r) = true) as Hl.
    { intros r. unfold l. by rewrite elem_of_sort_by, elem_of_select. }
    assert (StronglySorted (λ a b, finished_later a b = true) (sort_by finished_later l)) as Hs.
    { apply sort_by_sorted; unfold finished_later; intros *; lia. }
    destruct (sort_by finished_later l) as [|r rs]; cbn [head].
    - split; [|done]. intros (r & Hr & Hf). unfold fresh in Hf. destruct (job_finished_at r) eqn:Er; [|done].
      exfalso. apply (not_elem_of_nil r). apply Hl. by rewrite Er.
    - apply StronglySorted_inv in Hs as [_ Hall]. rewrite Forall_forall in Hall.
      destruct (proj1 (Hl r) ltac:(left)) as [Hin Hsome]. destruct (job_finished_at r) as [f|] eqn:Ef; [|done]. cbn [from_option id].
      split; [|intros Hok; exists r; unfold fresh; by rewrite Ef].
      intros (x & Hx & Hf). unfold fresh in Hf. destruct (job_finished_at x) as [g|] eqn:Eg; [|done].
      assert (x ∈ r :: rs) as [->|Hxr]%elem_of_cons by (apply Hl; by rewrite Eg); [congruence|].
      specialize (Hall x Hxr). unfold finished_later in Hall. rewrite Ef, Eg in Hall. cbn in Hall. lia. }
  cbv zeta. fold healthy. destruct healthy; [done|].
  change (exists_where _) with (read (λ db, existsb (λ n, bool_decide (ntf_type n = STALE)
    && (now - PyTime.hours 1 <=? created (ntf_pk n))) (db_notifications db))).
  erewrite bind_run by reflexivity. fold told. destruct told; cbn [negb when].
  - erewrite bind_run by reflexivity. eexists _, []. rewrite app_nil_r. split; [by destruct db|].
    split; [done|]. by intros n ?%not_elem_of_nil.
  - match goal with |- context [notify ?us ?ro ?ty ?ti ?b ?li] =>
      destruct (notify_appends us ro ty ti b li db) as (ns & Hns & Hu & Ht) end.
    erewrite bind_run by exact Hns. eexists _, ns. split; [reflexivity|]. split; [exact Hu|]. intros n Hn. by apply Ht.
Qed.
(** Pruning deletes the runs that started before the cutoff and no others. *)
Lemma prune_exact days now db :
  1 ≤ days → ∃ n, prune days now db = (inr n, db <| db_jobruns := select (λ r, now - PyTime.days days <=? job_started_at r) (db_jobruns db) |>) ∧
    n = Z.of_nat (length (db_jobruns db)) - Z.of_nat (length (select (λ r, now - PyTime.days days <=? job_started_at r) (db_jobruns db))).
Proof.
  intros Hd. unfold prune. rewrite (proj2 (Z.leb_le 1 days)) by done. erewrite bind_run by reflexivity.
  erewrite bind_run by reflexivity. erewrite bind_run by reflexivity. eexists.
  assert (∀ r, negb (job_started_at r <? now - PyTime.days days) = (now - PyTime.days days <=? job_started_at r)) as Hn by lia.
  split.
  - cbv beta zeta. rewrite (select_ext _ _ _ (λ r _, Hn r)). reflexivity.
  - generalize (db_jobruns db) as l. intros l. induction l as [|r l IH]; [done|]. rewrite !select_cons. specialize (Hn r).
    destruct (job_started_at r <? _), (_ <=? job_started_at r); try done; cbn [length]; lia.
Qed.

(** The monitor shows a system administrator, and nobody else, the newest run of every job
    that ever ran and one page of all the runs, and changes nothing. *)
Lemma jobs_exact {paginator} `{Paginator JobRun paginator} user raw db :
  jobs user raw db =
    (inr (if bool_decide (usr_role user = SYSTEM_ADMIN) || usr_superuser user
          then Some (latest_runs db, ((paginate 50 (runs_newest_first db) raw).1,
                 with_duration <$> (paginate 50 (runs_newest_first db) raw).2)) else None), db) ∧
  (job_name <$> (fst <$> latest_runs db)) = job_names db ∧
  (∀ name, name ∈ job_names db ↔ ∃ r, r ∈ db_jobruns db ∧ job_name r = name) ∧
  ∀ x r, x ∈ latest_runs db → r ∈ db_jobruns db → job_name r = job_name x.1 → job_started_at r ≤ job_started_at x.1.
Proof.
  assert (∀ name, name ∈ job_names db ↔ ∃ r, r ∈ db_jobruns db ∧ job_name r = name) as Hnames.
  { intros name. unfold job_names. rewrite elem_of_remove_dups, elem_of_sort_by, list_elem_of_fmap. naive_solver. }
  assert (∀ r, r ∈ runs_newest_first db ↔ r ∈ db_jobruns db) as Hruns by (intros r; apply elem_of_sort_by).
  assert (∀ name, name ∈ job_names db → ∃ r, List.find (λ r, bool_decide (job_name r = name)) (runs_newest_first db) = Some r ∧ job_name r = name) as Hfind.
  { intros name (r & Hr & Hn)%Hnames. destruct (List.find _ _) as [x|] eqn:E.
    - apply find_some in E as [_ E]. b2p. eauto.
    - pose proof (find_none _ _ E r ltac:(by apply list_elem_of_In, Hruns)) as Hnone. b2p. congruence. }
  split_and!; [|..|done|].
  - unfold jobs. destruct (decide (usr_role user = SYSTEM_ADMIN)) as [Hu|Hu].
    + rewrite bool_decide_eq_false_2, bool_decide_eq_true_2 by (done || tauto). done.
    + rewrite bool_decide_eq_true_2, bool_decide_eq_false_2 by done. by destruct (usr_superuser user).
  - unfold latest_runs. revert Hfind. generalize (job_names db) as l. induction l as [|name l IH]; intros Hf; [done|].
    destruct (Hf name ltac:(left)) as (r & Hr & <-). cbn. rewrite Hr. cbn. f_equal. apply IH. intros x Hx. apply Hf. by right.
  - intros x r (name & Hn & Hx)%list_elem_of_omap Hr. destruct (Hfind name Hn) as (y & Hy & <-). rewrite Hy in Hx. injection Hx as <-.
    cbn. intros He. apply Hruns in Hr.
    assert (StronglySorted (λ a b, started_later a b = true) (runs_newest_first db)) as Hs.
    { apply sort_by_sorted; unfold started_later; intros *; lia. }
    revert Hs Hy Hr. generalize (runs_newest_first db) as l. induction l as [|z l IH]; [done|]. cbn.
    intros [Hs Hall]%StronglySorted_inv. case_bool_decide as Hz.
    + intros [= ->] [->|Hin]%elem_of_cons; [lia|]. rewrite Forall_forall in Hall. specialize (Hall r Hin).
      unfold started_later in Hall. lia.
    + intros Hy [->|Hin]%elem_of_cons; [congruence|]. by apply IH.
Qed.

(** ** The audit *)
Lemma uncovered_none db members :
  (∀ x y, x ∈ members → y ∈ members → same_slot x = same_slot y) → uncovered db members = [].
Proof.
  intros Hs. destruct members as [|anchor rest]; [done|]. unfold uncovered. apply select_nil.
  intros k (m & -> & Hm)%list_elem_of_fmap. rewrite negb_false_iff, bool_decide_eq_true.
  destruct (decide (ses_pk m = ses_pk anchor)) as [->|Hne]; [left|]. right.
  apply elem_of_cons in Hm as [->|Hm]; [done|]. unfold merged_sibling_ids. apply list_elem_of_fmap.
  exists (online_like db m). split; [done|]. apply elem_of_select. split; [by apply list_elem_of_fmap_2|].
  specialize (Hs m anchor ltac:(by right) ltac:(left)). injection Hs as Hf Hst.
  unfold merges_with, online_like. cbn. rewrite Hf, Hst, !Z.eqb_refl. cbn. by rewrite (proj2 (Z.eqb_neq _ _)).
Qed.
(** The detector reaches every online session of one instructor at one time from the first
    of them, so the audit has nothing to report: it counts every group as caught, never
    fails, and writes nothing. *)
Theorem audit_never_misses db :
  one_active_term db →
  (∀ t, au_missed (audit_coverage db t) = [] ∧ au_caught (audit_coverage db t) = au_groups (audit_coverage db t)) ∧
  ∃ o, audit_merge_coverage db = (inr o, db).
Proof.
  intros H1. assert (∀ t, au_missed (audit_coverage db t) = [] ∧ au_caught (audit_coverage db t) = au_groups (audit_coverage db t)) as Ha.
  { intros t. unfold audit_coverage. set (qs := select _ _).
    change (dict_group same_slot id qs) with (group_by same_slot qs).
    assert (∀ g, g ∈ group_by same_slot qs → uncovered db g.2 = []) as Hg.
    { intros [k l] Hg. apply group_by_elem in Hg as [Hl _]. apply uncovered_none. cbn [fst snd] in Hl |- *. rewrite Hl.
      intros x y [_ Hx]%elem_of_select [_ Hy]%elem_of_select. b2p. congruence. }
    assert (au_missed (mk_audit 0 0 []) = [] ∧ au_caught (mk_audit 0 0 []) = au_groups (mk_audit 0 0 [])) as Ha by done.
    revert Ha Hg. generalize (mk_audit 0 0 []). generalize (group_by same_slot qs). intros gs a. revert a.
    induction gs as [|g gs IH]; intros a Ha Hg; [done|]. cbn [foldl]. apply IH; [|intros x Hx; apply Hg; by right].
    unfold audit_group. specialize (Hg g ltac:(left)). destruct g as [k [|x [|y l]]]; cbn [snd fst] in *; [done|done|].
    rewrite Hg. cbn. destruct Ha as [-> ->]. done. }
  split; [exact Ha|]. unfold audit_merge_coverage, require_active_term, get_active_term, one_active_term in *.
  unfold mbind, M_bind, try_with, fmap, M_fmap, of_option, read, raise, mret, M_ret.
  destruct (select is_active_term (db_terms db)) as [|t [|t' l]]; [by eexists| |cbn in H1; lia].
  destruct (Ha (term_pk t)) as [-> _]. by eexists.
Qed.

(** ** The guard of the admin site *)
Definition writable (db : DB) (o : Owned) : Prop := ∃ t, owning_term db o = Some t ∧ term_status t ≠ T_ARCHIVED.
Lemma admin_writable_spec o db :
  ∃ t, admin_writable o db = (inr t, db) ∧ (is_Some t ↔ writable db o).
Proof.
  unfold admin_writable, writable. unfold mbind, M_bind, read. destruct (owning_term db o) as [t|].
  - unfold try_with, fmap, M_fmap, require_writable_term. case_bool_decide as Ha.
    + exists None. split; [done|]. split; [by intros []|]. by intros (t' & [= <-] & ?).
    + exists (Some t). split; [done|]. split; [eauto|done].
  - exists None. split; [done|]. split; [by intros []|]. by intros (t & ? & _).
Qed.
Lemma all_writable_spec l db : ∃ b, all_writable l db = (inr b, db) ∧ (b = true ↔ ∀ o, o ∈ l → writable db o).
Proof.
  induction l as [|o l (b & Hb & IH)]; [exists true; split; [done|]; split; [by intros _ ? ?%not_elem_of_nil|done]|].
  destruct (admin_writable_spec o db) as (t & Ht & Hw). cbn [all_writable]. erewrite bind_run by exact Ht.
  destruct t as [t|].
  - exists b. split; [exact Hb|]. rewrite IH. split; [|intros H x Hx; apply H; by right].
    intros H x [->|Hx]%elem_of_cons; [by apply Hw; eauto|by apply H].
  - exists false. split; [done|]. split; [done|]. intros H. destruct (proj2 Hw (H o ltac:(left))) as [? [=]].
Qed.
(** A change of the admin site is carried out only on records of a term that is not
    archived; deleting several looks at all of them first, so one record that may not be
    touched keeps them all. *)
Theorem admin_guard_exact o l m db :
  (writable db o → guarded o m db = (m ≫= λ _, mret true) db) ∧
  (¬ writable db o → guarded o m db = (inr false, db)) ∧
  ((∀ x, x ∈ l → writable db x) → guarded_all l m db = (m ≫= λ _, mret true) db) ∧
  (∀ x, x ∈ l → ¬ writable db x → guarded_all l m db = (inr false, db)).
Proof.
  destruct (admin_writable_spec o db) as (t & Ht & Hw). destruct (all_writable_spec l db) as (b & Hb & Hl).
  unfold guarded, guarded_all. split_and!.
  - intros H. erewrite bind_run by exact Ht. by destruct (proj2 Hw H) as [t' ->].
  - intros H. erewrite bind_run by exact Ht. destruct t as [t|]; [|done]. destruct H. apply Hw. eauto.
  - intros H. erewrite bind_run by exact Hb. by rewrite (proj2 Hl H).
  - intros x Hx H. erewrite bind_run by exact Hb. destruct b; [|done]. destruct H. by apply Hl.
Qed.

(** ** A concrete pager, over numbers as text *)
Definition demo_pages (n : Z) (l : list JobRun) : Z := 1 `max` ((Z.of_nat (length l) + n - 1) / n).
Definition demo_page (p : Z * list JobRun) (k : Z) : Z * list JobRun :=
  (k, firstn (Z.to_nat p.1) (skipn (Z.to_nat (p.1 * (k - 1))) p.2)).
Definition demo_named (p : Z * list JobRun) (raw : option string) : PageError + Z * list JobRun :=
  match mbind (M:=option) PyStr.int raw with
  | None => inl PageNotAnInteger
  | Some k => if (1 <=? k) && (k <=? demo_pages p.1 p.2) then inr (demo_page p k) else inl EmptyPage
  end.
#[local] Instance demo_paginator : Paginator JobRun (Z * list JobRun).
Proof.
  refine {| over := pair; num_pages p := demo_pages p.1 p.2; nth_page := demo_page; named_page := demo_named |}; try done.
  intros n l raw x Hn. unfold demo_named. destruct (mbind _ raw) as [k|]; [|done]. case_match eqn:E; [|done].
  intros [= <-]. exists k. split; [|done]. cbn [fst snd] in E. apply andb_prop in E as [E1 E2]. cbv [demo_pages] in *. split; by apply Z.leb_le.
Defined.
(** Three runs, two to a page: the second page has the third; a page past the end and a
    page before the first are the last; a page that is no number is the first. *)
Definition demo_runs : list JobRun := (λ k, {| job_pk := k; job_name := "sweep"; job_status := "running"; job_started_at := k;
  job_finished_at := None; job_rows := 0; job_detail := "" |}%string) <$> [1; 2; 3].
Lemma paginate_exact_witness :
  let page raw := (fst (paginate 2 demo_runs raw), job_pk <$> snd (paginate 2 demo_runs raw)) in
  1 ≤ 2 ∧ page None = (1, [1; 2]) ∧ page (Some "2"%string) = (2, [3]) ∧ page (Some "9"%string) = (2, [3]) ∧
  page (Some "-1"%string) = (2, [3]) ∧ page (Some "x"%string) = (1, [1; 2]) ∧
  concat (snd <$> [paginate 2 demo_runs None; paginate 2 demo_runs (Some "2"%string)]) = demo_runs.
Proof.
  pose proof (paginate_exact 2 demo_runs ltac:(lia)) as H. cbv zeta in H. destruct H as (_ & Hall & _ & _).
  cbv zeta. do 6 (split; [first [lia | vm_compute; reflexivity]|]). rewrite <- Hall at 3. vm_compute. reflexivity.
Defined.

(** ** A concrete watchdog: no job has run, two passes tell the administrator once *)
Definition demo_ops : DB := demo_db <| db_users := [demo_user 6 "Sol" SYSTEM_ADMIN] |>.
Lemma watchdog_exact_witness :
  let w1 := check_scheduler (λ _, 100) 30 200 demo_ops in
  let w2 := check_scheduler (λ _, 100) 30 300 (snd w1) in
  1 ≤ 30 ∧ (ntf_user <$> db_notifications (snd w1)) = [6] ∧ snd w2 = snd w1.
Proof.
  cbv zeta. split; [lia|].
  pose proof (watchdog_exact (λ _, 100) 30 200 demo_ops ltac:(lia)) as H. cbv zeta in H.
  change (existsb _ (db_jobruns demo_ops)) with false in H. cbn [andb] in H. destruct H as (msg & ns & H & Hu & _).
  rewrite H. cbn [snd]. change (db_notifications demo_ops) with (@nil Notification). split; [exact Hu|].
  vm_compute in H. injection H as _ <-. vm_compute. reflexivity.
Defined.
