(* ===== verification/Commands.v ===== *)
(** The commands that wrap a service: scheduling/management/commands/materialize_sessions.py,
    assign_online.py and run_status_sweep.py, and the scheduler's materialize job
    (runscheduler.py), which runs the first with its defaults.

    [strptime] reads a date, [None] being its [ValueError]. *)
From S2P Require Import Prelude Python Model Effects Ops Sample Web Materialization Jobs GuardAlerts OnlineDuty.
From Stdlib Require Import Ascii String.
From stdpp Require Import strings.
Open Scope Z_scope.

Section commands.
Context (strptime : string → option Z).

(** ** materialize_sessions *)
Definition parse_start (raw : string) (today : Z) : M Z :=
  if blank raw then mret today else of_option ValueErr (strptime raw).
Definition materialize_resolve_term (raw : string) : M AcademicTerm :=
  if blank raw then
    try_with require_active_term
      (λ e, match e with NoActiveTermError _ => Some (raise (CommandError "No ACTIVE academic term.")) | _ => None end)
  else
    read (λ db, if PyStr.isdigit raw then by_pk (db_terms db) (digits raw)
                else List.find (λ t, bool_decide (term_name t = raw)) (db_terms db)) ≫= λ o,
    of_option (CommandError ("No academic term matches '" +:+ raw +:+ "'.")) o ≫= λ t,
    if is_active_term t then mret t else raise (CommandError "The selected term must be ACTIVE.").
(** The counts of the run and the number of active schedules it went through *)
Definition materialize_sessions (term start : string) (days today now : Z) : M (MaterializationResult * Z) :=
  materialize_resolve_term term ≫= λ t,
  parse_start start today ≫= λ d,
  try_with (materialize_term (Some t) d days false now)
    (λ e, match e with MaterializationError msg => Some (raise (CommandError msg)) | _ => None end) ≫= λ result,
  read (λ db, (result, Z.of_nat (length (select (λ s, (sch_term s =? term_pk t) && bool_decide (sch_status s = SCH_ACTIVE)) (db_schedules db))))).
Definition DEFAULT_DAYS : Z := 7.
Definition job_materialize (today now : Z) : M Z :=
  materialize_sessions "" "" DEFAULT_DAYS today now ≫= λ _, mret 0.

(** ** assign_online *)
Definition assign_totals (acc : Assigned) (d : Z) : M Assigned :=
  assign_online_sessions d ≫= λ r, mret (mk_assigned (n_assigned acc + n_assigned r) (n_unassigned acc + n_unassigned r)).
(** The totals and the last date; [None] when no term is active *)
Definition assign_online (days : option Z) (start : string) (today : Z) : M (option (Assigned * Z)) :=
  get_active_term ≫= λ active_term,
  match active_term with
  | None => mret None
  | Some _ =>
      parse_start start today ≫= λ d,
      match days with Some n => mret n | None => get_policy_num "materialization_horizon_days" end ≫= λ n,
      fold_m assign_totals (mk_assigned 0 0) (seqZ d (n + 1)) ≫= λ r,
      mret (Some (r, d + Z.max 0 (n + 1) - 1))
  end.

(** ** run_status_sweep *)
Definition run_status_sweep (now : Z) : M (Z * Z * Z) :=
  sweep_no_shows now ≫= λ m,
  detect_room_conflicts now ≫= λ f,
  notify_floor_guards (m.2 ++ f.2) now ≫= λ guards,
  mret (m.1, f.1, guards).

(** ** A manual run is a scheduled one *)

(** The sweep run by hand and the job of the scheduler do the same to the database, fail
    alike, and count the same rows. *)
Theorem sweep_by_hand now db :
  exec (run_status_sweep now) db = exec (job_sweep now) db ∧
  run (job_sweep now) db = match run (run_status_sweep now) db with inr (marked, flagged, _) => inr (marked + flagged) | inl e => inl e end.
Proof.
  unfold run_status_sweep, job_sweep, exec, run, mbind, M_bind.
  destruct (sweep_no_shows now db) as [[e|m] db1]; [done|]. destruct (detect_room_conflicts now db1) as [[e|f] db2]; [done|].
  by destruct (notify_floor_guards (m.2 ++ f.2) now db2) as [[e|g] db3].
Qed.
(** The command materializes the term that is active, from the date it is given, or refuses:
    it is the service's own run, with its errors put as the command's. *)
Theorem materialize_command_exact term start days today now db :
  match run (materialize_resolve_term term) db with
  | inl e => materialize_sessions term start days today now db = (inl e, db)
  | inr t => t ∈ db_terms db ∧ term_status t = T_ACTIVE ∧
      match (if blank start then Some today else strptime start) with
      | None => materialize_sessions term start days today now db = (inl ValueErr, db)
      | Some d =>
          let r := materialize_term (Some t) d days false now db in
          exec (materialize_sessions term start days today now) db = r.2 ∧
          match r.1, run (materialize_sessions term start days today now) db with
          | inr counts, inr p => p.1 = counts
          | inl (MaterializationError msg), inl (CommandError msg') => msg' = msg
          | inl e, inl e' => e' = e
          | _, _ => False
          end
      end
  end.
Proof.
  assert (exec (materialize_resolve_term term) db = db ∧ ∀ t, run (materialize_resolve_term term) db = inr t → t ∈ db_terms db ∧ term_status t = T_ACTIVE)
    as [Hdb Hact].
  { unfold materialize_resolve_term, exec, run. destruct (blank term).
    - unfold require_active_term, get_active_term, try_with, mbind, M_bind, of_option, read, raise, mret, M_ret.
      destruct (select is_active_term (db_terms db)) as [|t [|t' l]] eqn:E; cbn; [done| |done]. split; [done|].
      intros ? [= <-]. assert (t ∈ [t]) as Ht by left. rewrite <- E in Ht. apply elem_of_select in Ht as [Ht Ha].
      split; [done|]. unfold is_active_term in Ha. by b2p.
    - unfold mbind, M_bind, read. cbn.
      destruct (if PyStr.isdigit term then _ else _) as [t|] eqn:E; cbn; [|done].
      assert (t ∈ db_terms db) as Ht.
      { destruct (PyStr.isdigit term); [by apply by_pk_elem in E as [? _]|by apply find_elem in E as [? _]]. }
      destruct (is_active_term t) eqn:Ea; cbn; [|done]. split; [done|]. intros ? [= <-]. split; [done|]. unfold is_active_term in Ea. by b2p. }
  unfold materialize_sessions, exec, run in *. destruct (materialize_resolve_term term db) as [[e|t] db0] eqn:E; cbn in Hdb; subst db0.
  - unfold mbind, M_bind. rewrite E. done.
  - cbn [fst snd] in *. destruct (Hact t eq_refl) as [Ht Ha]. split; [done|]. split; [done|]. erewrite bind_run by exact E. unfold parse_start.
    destruct (blank start); [|destruct (strptime start) as [d|]; [|done]].
    all: erewrite bind_run by reflexivity; unfold mbind, M_bind, try_with, read, raise;
      match goal with |- context [materialize_term ?t ?d ?n ?x ?i ?w] =>
        destruct (materialize_term t d n x i w) as [[e|counts] db1] end; cbn; [by destruct e|done].
Qed.
End commands.

(** The scheduler fills one week ahead, whatever the horizon the policy sets: with the
    horizon of fourteen days an activation uses, a class of the second week is not there
    until the week before. *)
Example job_fills_a_week :
  let db := demo_db <| db_sessions := [] |> in
  policy_num db "materialization_horizon_days" = Some 14 ∧
  (ses_date <$> db_sessions (exec (job_materialize (λ _, None) monday 0) db)) = [monday] ∧
  (ses_date <$> db_sessions (exec (materialize_term (Some demo_term) monday 14 false 0) db)) = [monday; monday + 7].
Proof. vm_compute. done. Qed.
