(* ===== verification/Xlsx.v ===== *)
(** scheduling/xlsx.py: the reader of spreadsheet files.

    An archive gives, for the name of a member, the element tree it parses to ([None]
    when there is no such member); unzipping and parsing are the standard library's.  A
    worksheet is a tree of rows and cells that name their own place, a cell's text is
    written out, shared by the whole workbook or inline, and [read_grid] lays the cells
    out as a rectangle of texts. *)
From S2P Require Import Prelude Python Model Effects.
From Stdlib Require Import Ascii String.
From stdpp Require Import strings gmap.
Open Scope Z_scope.

(** ** Element trees and archives *)
Inductive element := Element (tag : string) (attrib : dict string string) (text : option string) (children : list element).
Definition tag (e : element) : string := let 'Element t _ _ _ := e in t.
Definition attrib (e : element) : dict string string := let 'Element _ a _ _ := e in a.
Definition text (e : element) : option string := let 'Element _ _ t _ := e in t.
Definition children (e : element) : list element := let 'Element _ _ _ l := e in l.
(** [element.iter()]: the element and its descendants, in document order *)
Fixpoint iter (e : element) : list element :=
  let 'Element _ _ _ l := e in e :: concat (map iter l).
Definition Archive : Type := string → option (exn + element).

(** What the functions return, or the exception they raise *)
Definition result (A : Type) : Type := exn + A.
#[global] Instance result_ret : MRet result := λ A a, inr a.
#[global] Instance result_bind : MBind result := λ A B k m, match m with inl e => inl e | inr a => k a end.
Fixpoint fold_r {A S} (step : S → A → result S) (s : S) (l : list A) : result S :=
  match l with
  | [] => mret s
  | x :: l => step s x ≫= λ s, fold_r step s l
  end.
(** A text that is falsy is none. *)
Definition nonempty (o : option string) : option string := o ≫= λ s, if bool_decide (s = ""%string) then None else Some s.
(** [l[i]], from the end when [i] is negative; [None] is the [IndexError]. *)
Definition index {A} (l : list A) (i : Z) : option A :=
  let k := if i <? 0 then Z.of_nat (length l) + i else i in
  if k <? 0 then None else l !! Z.to_nat k.

Definition R_NS : string := "http://schemas.openxmlformats.org/officeDocument/2006/relationships".
(** [tag.rsplit("}", 1)[-1]] *)
Definition localname (t : string) : string := default ""%string (last (PyStr.split "}"%char t)).
Definition named (name : string) (e : element) : bool := bool_decide (localname (tag e) = name).
Definition parse (zf : Archive) (member : string) : result (option element) :=
  match zf member with
  | None => mret None
  | Some (inl e) => inl e
  | Some (inr root) => mret (Some root)
  end.

(** [A-Z] counted in base 26 *)
Definition col_fold (l : list ascii) : Z := foldl (λ col ch, col * 26 + (PyStr.code ch - PyStr.code "A" + 1)) 0 l.
Definition col_index (cell_ref : string) : Z :=
  match PyStr.take_while PyStr.is_alpha (PyStr.to_list cell_ref) with
  | [] => 0
  | letters => col_fold (PyStr.upper_char <$> letters) - 1
  end.

Definition si_text (si : element) : string :=
  PyStr.join "" (omap (λ node, if named "t" node then nonempty (text node) else None) (iter si)).
Definition load_shared_strings (zf : Archive) : result (list string) :=
  parse zf "xl/sharedStrings.xml" ≫= λ o,
  mret (match o with
        | None => []
        | Some root => si_text <$> select (named "si") (children root)
        end).
Definition workbook_sheets (zf : Archive) : result (list (string * option string)) :=
  parse zf "xl/workbook.xml" ≫= λ o,
  mret (match o with
        | None => []
        | Some root =>
            concat ((λ sheets_el,
              (λ sheet, (dict_getd (attrib sheet) "name" "", dict_get (attrib sheet) ("{" +:+ R_NS +:+ "}id")))
                <$> select (named "sheet") (children sheets_el))%string
              <$> select (named "sheets") (children root))
        end).
Definition lstrip_slash (s : string) : string :=
  PyStr.of_list (PyStr.drop_while (λ c, bool_decide (c = "/"%char)) (PyStr.to_list s)).
(** The part a target names *)
Definition part_path (target : string) : string :=
  if PyStr.startswith target "xl/" then target else "xl/" +:+ lstrip_slash target.
Definition add_rel (out : dict string string) (rel : element) : dict string string :=
  match nonempty (dict_get (attrib rel) "Id"%string), nonempty (dict_get (attrib rel) "Target"%string) with
  | Some rid, Some target => dict_set out rid (part_path target)
  | _, _ => out
  end.
Definition rels_map (zf : Archive) : result (dict string string) :=
  parse zf "xl/_rels/workbook.xml.rels" ≫= λ o,
  mret (match o with None => [] | Some root => foldl add_rel [] (children root) end).
Definition sheet_names (zf : Archive) : result (list string) :=
  workbook_sheets zf ≫= λ l, mret l.*1.
(** [sheet] is [None] for the first worksheet. *)
Definition worksheet_part (zf : Archive) (sheet : option string) : result (option string) :=
  workbook_sheets zf ≫= λ sheets,
  match sheets with
  | [] => mret None
  | first :: _ =>
      rels_map zf ≫= λ rels,
      mret (match sheet with
            | None => Some first
            | Some name => List.find (λ x, bool_decide (x.1 = name)) sheets
            end ≫= λ x, x.2 ≫= dict_get rels)
  end.

Definition v_text (cell : element) : string := default ""%string (List.find (named "v") (children cell) ≫= text).
Definition cell_text (shared : list string) (cell : element) : string :=
  let ctype := dict_getd (attrib cell) "t"%string ""%string in
  if bool_decide (ctype = "s"%string) then
    default ""%string
      (head (omap (λ child, if named "v" child then text child else None) (children cell)) ≫= λ t,
       PyStr.int t ≫= index shared)
  else if bool_decide (ctype = "inlineStr"%string) then si_text cell
  else v_text cell.

(** The cells collected, by row and column, and the extent so far *)
Record Sheet := mk_sheet { sh_cells : gmap Z (gmap Z string); sh_row : Z; sh_col : Z }.
Definition empty_sheet : Sheet := mk_sheet ∅ (-1) (-1).
Definition sheet_cell (s : Sheet) (r c : Z) : string := default ""%string (sh_cells s !! r ≫= lookup c).
Definition add_cell (shared : list string) (row_idx : Z) (s : Sheet) (cell : element) : Sheet :=
  if named "c" cell then
    let col_idx := match nonempty (dict_get (attrib cell) "r"%string) with Some ref => col_index ref | None => 0 end in
    let cells := default ∅ (sh_cells s !! row_idx) in
    mk_sheet (<[row_idx := <[col_idx := cell_text shared cell]> cells]> (sh_cells s)) (sh_row s) (sh_col s `max` col_idx)
  else s.
Definition add_row (shared : list string) (s : Sheet) (x : Z * element) : result Sheet :=
  let '(ri, row) := x in
  if named "row" row then
    match nonempty (dict_get (attrib row) "r"%string) with
    | None => mret ri
    | Some t => match PyStr.int t with None => inl ValueErr | Some n => mret (n - 1) end
    end ≫= λ row_idx,
    let s := foldl (add_cell shared row_idx) s (children row) in
    mret (mk_sheet (sh_cells s) (sh_row s `max` row_idx) (sh_col s))
  else mret s.
Definition enumerate {A} (l : list A) : list (Z * A) := imap (λ i x, (Z.of_nat i, x)) l.
Definition add_data (shared : list string) (s : Sheet) (sheetdata : element) : result Sheet :=
  if named "sheetData" sheetdata then fold_r (add_row shared) s (enumerate (children sheetdata)) else mret s.
Definition range (n : Z) : list Z := Z.of_nat <$> seq 0 (Z.to_nat n).
Definition grid_rows (s : Sheet) : list (list string) :=
  if sh_row s <? 0 then []
  else (λ r, (λ c, sheet_cell s r c) <$> range (sh_col s + 1)) <$> range (sh_row s + 1).
Definition read_grid (zf : Archive) (sheet : option string) : result (list (list string)) :=
  load_shared_strings zf ≫= λ shared,
  worksheet_part zf sheet ≫= λ part,
  match part with
  | None => mret []
  | Some part =>
      parse zf part ≫= λ root,
      match root with
      | None => mret []
      | Some root => fold_r (add_data shared) empty_sheet (children root) ≫= λ s, mret (grid_rows s)
      end
  end.

(** ** A file with given sheets

    A sheet is its rows, each with its index and its cells; a cell has its column, its
    text and the way the text is stored. *)
Inductive Encoding := Shared | Inline | Formula | Plain.
Record Cell := mk_cell { cl_col : Z; cl_how : Encoding; cl_text : string }.
Definition Rows : Type := list (Z * list Cell).
Definition Workbook : Type := list (string * Rows).

(** The letters of a column: [A] to [Z], [AA], ... *)
Fixpoint letters_fuel (fuel : nat) (n : Z) : list ascii :=
  match fuel with
  | O => []
  | S fuel => if n <? 0 then [] else letters_fuel fuel (n / 26 - 1) ++ [PyStr.chr (65 + n mod 26)]
  end.
Definition letters (n : Z) : list ascii := letters_fuel (S (Z.to_nat n)) n.
Definition cell_ref (r c : Z) : string := PyStr.of_list (letters c) +:+ PyStr.str (r + 1).

Section writer.
Context (ns : string).
Definition qn (name : string) : string := "{" +:+ ns +:+ String "}" name.
Definition node (name : string) (attrs : dict string string) (t : option string) (l : list element) : element :=
  Element (qn name) attrs t l.
Definition text_of (s : string) : option string := if bool_decide (s = ""%string) then None else Some s.
Definition text_node (name s : string) : element := node name [] (text_of s) [].
Fixpoint position (s : string) (l : list string) : Z :=
  match l with
  | [] => 0
  | x :: l => if bool_decide (x = s) then 0 else 1 + position s l
  end.
Definition cell_node (strings : list string) (r : Z) (c : Cell) : element :=
  let ref := ("r", cell_ref r (cl_col c))%string in
  match cl_how c with
  | Shared => node "c" [ref; ("t", "s")]%string None [text_node "v" (PyStr.str (position (cl_text c) strings))]
  | Inline => node "c" [ref; ("t", "inlineStr")]%string None [node "is" [] None [text_node "t" (cl_text c)]]
  | Formula => node "c" [ref; ("t", "str")]%string None [text_node "f" "TODAY()"; text_node "v" (cl_text c)]
  | Plain => node "c" [ref] None [text_node "v" (cl_text c)]
  end.
Definition row_node (strings : list string) (row : Z * list Cell) : element :=
  node "row" [("r", PyStr.str (row.1 + 1))]%string None (cell_node strings row.1 <$> row.2).
Definition sheet_node (strings : list string) (rows : Rows) : element :=
  node "worksheet" [] None [node "sheetViews" [] None []; node "sheetData" [] None (row_node strings <$> rows)].
Definition strings_of (wb : Workbook) : list string := wb ≫= λ x, x.2 ≫= λ row, cl_text <$> row.2.
Definition rid (i : nat) : string := "rId" +:+ PyStr.str (Z.of_nat i).
Definition target (i : nat) : string := "worksheets/sheet" +:+ PyStr.str (Z.of_nat i) +:+ ".xml".
Definition members (wb : Workbook) : dict string element :=
  [("xl/sharedStrings.xml", node "sst" [] None ((λ s, node "si" [] None [text_node "t" s]) <$> strings_of wb));
   ("xl/workbook.xml", node "workbook" [] None [node "sheets" [] None
     (imap (λ i x, node "sheet" [("name", x.1); ("{" +:+ R_NS +:+ "}id", rid i)] None []) wb)]);
   ("xl/_rels/workbook.xml.rels", Element "Relationships" [] None
     (imap (λ i _, Element "Relationship" [("Id", rid i); ("Target", target i)] None []) wb))]%string
  ++ imap (λ i x, ("xl/" +:+ target i, sheet_node (strings_of wb) x.2)) wb.
Definition workbook_file (wb : Workbook) : Archive := λ m, inr <$> dict_get (members wb) m.
End writer.

(** What a sheet says at a place: the text of the last cell put there *)
Definition placed (rows : Rows) : list (Z * Z * string) :=
  rows ≫= λ row, (λ c, (row.1, cl_col c, cl_text c)) <$> row.2.
Definition at_place (r c : Z) (x : Z * Z * string) : bool := bool_decide (x.1 = (r, c)).
Definition says (ps : list (Z * Z * string)) (r c : Z) : string :=
  default ""%string (snd <$> last (select (at_place r c) ps)).
Definition extent (l : list Z) : Z := foldl (λ n i, n `max` (i + 1)) 0 l.
Definition grid_of (rows : Rows) : list (list string) :=
  (λ r, (λ c, says (placed rows) r c) <$> range (extent ((λ x, x.1.2) <$> placed rows))) <$> range (extent rows.*1).
Definition rows_valid (rows : Rows) : Prop := ∀ row, row ∈ rows → 0 ≤ row.1 ∧ ∀ c, c ∈ row.2 → 0 ≤ cl_col c.
(** The sheet that holds a whole grid *)
Definition dense (how : Z → Z → Encoding) (g : list (list string)) : Rows :=
  imap (λ r row, (Z.of_nat r, imap (λ c t, mk_cell (Z.of_nat c) (how (Z.of_nat r) (Z.of_nat c)) t) row)) g.
Definition rectangular (w : nat) (g : list (list string)) : Prop := ∀ row, row ∈ g → length row = w.
Definition demo_book : Workbook := [("Notes", [(4%Z, [mk_cell 27 Shared "x"; mk_cell 0 Plain "1"])]);
  ("Rooms", dense (λ r c, if (r =? c)%Z then Shared else if (r <? c)%Z then Inline else Formula) [["R100"; "40.0"]; [""; "A1"]; ["GYM"; "R100"]])]%string.
Example demo_read :
  sheet_names (workbook_file "urn:main" demo_book) = inr ["Notes"; "Rooms"]%string ∧
  read_grid (workbook_file "urn:main" demo_book) (Some "Rooms"%string) = inr [["R100"; "40.0"]; [""; "A1"]; ["GYM"; "R100"]]%string ∧
  cell_ref 3 14 = "O4"%string ∧ cell_ref 4 27 = "AB5"%string ∧
  (length <$> (match read_grid (workbook_file "urn:main" demo_book) None with inr g => g | _ => [] end)) = [28; 28; 28; 28; 28]%nat.
Proof. vm_compute. done. Qed.

(** ** Names, places and texts read back *)
Lemma split_list_last sep acc l w : sep ∉ w → last (PyStr.split_list sep acc (l ++ sep :: w)) = Some w.
Proof.
  revert acc. induction l as [|c l IH]; intros acc Hw; cbn [app PyStr.split_list].
  - rewrite bool_decide_true by done. by rewrite PyStr.split_list_plain.
  - case_bool_decide; [|by apply IH]. specialize (IH [] Hw). rewrite last_cons. by rewrite IH.
Qed.
Lemma localname_qn ns name : existsb (Ascii.eqb "}") (PyStr.to_list name) = false → localname (qn ns name) = name.
Proof.
  intros H. unfold localname, PyStr.split. rewrite fmap_last. 
  assert (PyStr.to_list (qn ns name) = ("{"%char :: PyStr.to_list ns) ++ "}"%char :: PyStr.to_list name) as ->
    by (unfold qn; by rewrite !PyStr.to_list_app).
  rewrite split_list_last; [apply PyStr.of_to_list|].
  intros Hin. rewrite existsb_elem_false in H. specialize (H _ Hin). by rewrite Ascii.eqb_refl in H.
Qed.
Lemma named_node ns name name' attrs t l :
  existsb (Ascii.eqb "}") (PyStr.to_list name') = false → named name (node ns name' attrs t l) = bool_decide (name' = name).
Proof. intros H. unfold named, node. cbn [tag]. by rewrite localname_qn. Qed.
Lemma text_of_default s : default ""%string (text_of s) = s.
Proof. unfold text_of. by case_bool_decide as H. Qed.
Lemma text_runs s : PyStr.join "" (omap id [nonempty (text_of s)]) = s.
Proof. unfold text_of. case_bool_decide as H; [by rewrite H|]. cbn. by rewrite bool_decide_false. Qed.
Lemma nonempty_some s : s ≠ ""%string → nonempty (Some s) = Some s.
Proof. intros H. unfold nonempty. cbn. by rewrite bool_decide_false. Qed.
Lemma index_position s l : s ∈ l → 0 ≤ position s l ∧ index l (position s l) = Some s.
Proof.
  unfold index. induction l as [|x l IH]; [by intros ?%not_elem_of_nil|]. intros Hs. cbn [position]. case_bool_decide as Hx; [by subst|].
  apply elem_of_cons in Hs as [->|Hs]; [done|]. destruct (IH Hs) as [H0 Hi]. split; [lia|].
  assert ((position s l <? 0) = false) as E by lia. rewrite !E in Hi.
  assert ((1 + position s l <? 0) = false) as -> by lia. rewrite (proj2 (Z.ltb_ge _ _)) by lia. by replace (Z.to_nat (1 + position s l)) with (S (Z.to_nat (position s l))) by lia.
Qed.
(** A column's letters are capitals and count up to it. *)
Lemma letters_fuel_spec fuel n :
  (Z.to_nat (n + 1) ≤ fuel)%nat → -1 ≤ n → col_fold (letters_fuel fuel n) = n + 1 ∧
  ∀ c, c ∈ letters_fuel fuel n → PyStr.is_alpha c = true ∧ PyStr.upper_char c = c.
Proof.
  revert n. induction fuel as [|fuel IH]; intros n Hf Hn; cbn [letters_fuel].
  { split; [cbn; lia|]. by intros c ?%not_elem_of_nil. }
  destruct (n <? 0) eqn:E; [split; [cbn; lia|]; by intros c ?%not_elem_of_nil|].
  pose proof (Z.mod_pos_bound n 26 ltac:(lia)) as Hm. pose proof (Z.div_mod n 26 ltac:(lia)) as Hd.
  destruct (IH (n / 26 - 1)) as [Hv Hl]; [nia|nia|].
  assert (∀ k, 0 ≤ k < 26 → PyStr.code (PyStr.chr (65 + k)) = 65 + k ∧ PyStr.is_alpha (PyStr.chr (65 + k)) = true
    ∧ PyStr.upper_char (PyStr.chr (65 + k)) = PyStr.chr (65 + k)) as Hc.
  { intros k Hk. pose proof (eq_refl : forallb (λ k, (PyStr.code (PyStr.chr (65 + k)) =? 65 + k)
      && PyStr.is_alpha (PyStr.chr (65 + k)) && Ascii.eqb (PyStr.upper_char (PyStr.chr (65 + k))) (PyStr.chr (65 + k)))
      (seqZ 0 26) = true) as H.
    rewrite forallb_elem in H. specialize (H k ltac:(apply elem_of_seqZ; lia)).
    apply andb_prop in H as [[H1 H2]%andb_prop H3%Ascii.eqb_eq]. split_and!; [lia|done..]. }
  destruct (Hc _ Hm) as (Hcode & Ha & Hu). split.
  - unfold col_fold in *. rewrite foldl_app, Hv. cbn [foldl]. rewrite Hcode. change (PyStr.code "A") with 65. nia.
  - intros c [Hin| ->%list_elem_of_singleton]%elem_of_app; [by apply Hl|done].
Qed.
Lemma str_digits n : 0 < n → ∃ d l, PyStr.to_list (PyStr.str n) = d :: l ∧ PyStr.is_alpha d = false.
Proof.
  intros Hn. destruct n as [|p|p]; try lia. change (PyStr.str (Z.pos p)) with (pretty_N_go (N.pos p) "").
  destruct (PyStr.pretty_go_value (Pos.to_nat p) (N.pos p) "") as (l & Hd & Hv & Hl).
  { rewrite positive_nat_N. apply N.pow_gt_lin_r. lia. }
  rewrite app_nil_r in Hl. rewrite Hl. destruct l as [|d l]; [done|]. exists d, l. split; [done|].
  apply andb_prop in Hd as [Hd _]. destruct d as [[] [] [] [] [] [] [] []]; by vm_compute in Hd |- *.
Qed.
(** The reader's column of a written reference is the column. *)
Lemma col_index_ref r c : 0 ≤ r → 0 ≤ c → col_index (cell_ref r c) = c ∧ cell_ref r c ≠ ""%string.
Proof.
  intros Hr Hc. destruct (letters_fuel_spec (S (Z.to_nat c)) c) as [Hv Hl]; [lia|lia|]. fold (letters c) in Hv, Hl.
  destruct (str_digits (r + 1)) as (d & l & Hd & Ha); [lia|].
  assert (PyStr.to_list (cell_ref r c) = letters c ++ d :: l) as Hlist
    by (unfold cell_ref; by rewrite PyStr.to_list_app, PyStr.to_of_list, Hd).
  assert (letters c ≠ []) as Hne by (intros He; rewrite He in Hv; cbn in Hv; lia).
  split; [|intros He; rewrite He in Hlist; by destruct (letters c)].
  unfold col_index. rewrite Hlist, PyStr.take_while_app; [|by apply forallb_elem; intros x Hx; apply Hl|done].
  assert (PyStr.upper_char <$> letters c = letters c) as Hup.
  { clear Hv Hne Hlist. induction (letters c) as [|x k IH]; [done|]. cbn. f_equal; [apply Hl; left|apply IH; intros; apply Hl; by right]. }
  destruct (letters c) as [|x k]; [done|]. rewrite Hup, Hv. lia.
Qed.

Section reading.
Context (ns : string).
Lemma cell_text_node strings r c : cl_text c ∈ strings → cell_text strings (cell_node ns strings r c) = cl_text c.
Proof.
  intros Hs. destruct (index_position _ _ Hs) as [Hp Hi]. unfold cell_text, cell_node, v_text. destruct (cl_how c).
  - change (dict_getd (attrib _) "t"%string ""%string) with "s"%string. rewrite bool_decide_true by done.
    cbn [children node omap list_omap]. unfold text_node. rewrite named_node by done. rewrite bool_decide_true by done.
    cbn [text node]. unfold text_of. rewrite bool_decide_false.
    + cbn [head option_map]. unfold mbind, option_bind. rewrite PyStr.int_str by done. by rewrite Hi.
    + intros He. pose proof (PyStr.int_str _ Hp) as H. by rewrite He in H.
  - change (dict_getd (attrib _) "t"%string ""%string) with "inlineStr"%string.
    rewrite bool_decide_false, bool_decide_true by done. unfold si_text.
    cbn [iter node map concat app omap list_omap text_node]. fold (node ns). unfold named. cbn [tag].
    rewrite !localname_qn by done. rewrite (bool_decide_false ("c" = "t")%string), (bool_decide_false ("is" = "t")%string),
      (bool_decide_true ("t" = "t")%string) by done. apply text_runs.
  - change (dict_getd (attrib _) "t"%string ""%string) with "str"%string. rewrite !bool_decide_false by done.
    cbn [children node List.find]. unfold text_node. rewrite !named_node by done.
    rewrite bool_decide_false, bool_decide_true by done. apply text_of_default.
  - change (dict_getd (attrib _) "t"%string ""%string) with ""%string. rewrite !bool_decide_false by done.
    cbn [children node List.find]. unfold text_node. rewrite !named_node by done.
    rewrite bool_decide_true by done. apply text_of_default.
Qed.
(** The sheet collected so far says what was placed. *)
Definition collects (s : Sheet) (ps : list (Z * Z * string)) (h : Z) : Prop :=
  (∀ r c, sheet_cell s r c = says ps r c) ∧ sh_row s + 1 = h ∧ sh_col s + 1 = extent ((λ x, x.1.2) <$> ps).
Lemma says_snoc ps r c t r' c' :
  says (ps ++ [(r, c, t)]) r' c' = if bool_decide ((r, c) = (r', c')) then t else says ps r' c'.
Proof.
  unfold says. rewrite select_app. cbn. unfold at_place at 2. cbn. case_bool_decide as H; [|by rewrite app_nil_r].
  by rewrite last_snoc.
Qed.
Lemma add_cell_node strings r s ps h c :
  cl_text c ∈ strings → 0 ≤ r → 0 ≤ cl_col c → collects s ps h →
  collects (add_cell strings r s (cell_node ns strings r c)) (ps ++ [(r, cl_col c, cl_text c)]) h.
Proof.
  intros Ht Hr Hc (Hs & Hh & Hw). destruct (col_index_ref r (cl_col c) Hr Hc) as [Hcol Hne].
  assert (named "c" (cell_node ns strings r c) = true ∧
    nonempty (dict_get (attrib (cell_node ns strings r c)) "r"%string) = Some (cell_ref r (cl_col c))) as [Hn Hg].
  { unfold cell_node. destruct (cl_how c); (split; [by apply named_node|]); change (dict_get _ "r"%string) with (Some (cell_ref r (cl_col c)));
      by apply nonempty_some. }
  unfold add_cell. rewrite Hn, Hg, Hcol, cell_text_node by done. split_and!; cbn [sh_row sh_col]; [|done|].
  - intros r' c'. rewrite says_snoc. unfold sheet_cell in *. cbn [sh_cells]. case_bool_decide as H.
    + injection H as <- <-. by rewrite lookup_insert_eq; cbn; rewrite lookup_insert_eq.
    + destruct (decide (r = r')) as [<-|Hrr].
      * rewrite lookup_insert_eq. cbn. rewrite lookup_insert_ne by congruence.
        specialize (Hs r c'). rewrite <- Hs. by destruct (sh_cells s !! r).
      * rewrite lookup_insert_ne by done. apply Hs.
  - unfold extent in *. rewrite fmap_app, foldl_app. cbn [fmap list_fmap foldl fst snd]. rewrite <- Hw. lia.
Qed.
Lemma add_cells_node strings r cells s ps h :
  (∀ c, c ∈ cells → cl_text c ∈ strings ∧ 0 ≤ cl_col c) → 0 ≤ r → collects s ps h →
  collects (foldl (add_cell strings r) s (cell_node ns strings r <$> cells))
    (ps ++ ((λ c, (r, cl_col c, cl_text c)) <$> cells)) h.
Proof.
  revert s ps. induction cells as [|c cells IH]; intros s ps Hc Hr Hs; [by rewrite app_nil_r|].
  cbn [fmap list_fmap foldl]. rewrite (cons_middle _ ps), app_assoc. apply IH; [intros; apply Hc; by right|done|].
  destruct (Hc c ltac:(left)). by apply add_cell_node.
Qed.
Lemma add_row_node strings s i r cells :
  0 ≤ r → add_row strings s (i, row_node ns strings (r, cells)) =
    (let s' := foldl (add_cell strings r) s (cell_node ns strings r <$> cells) in
     inr (mk_sheet (sh_cells s') (sh_row s' `max` r) (sh_col s'))).
Proof.
  intros Hr. unfold add_row, row_node. rewrite named_node by done. rewrite bool_decide_true by done.
  change (dict_get _ _) with (Some (PyStr.str (r + 1))).
  rewrite nonempty_some by (intros He; pose proof (PyStr.int_str (r + 1) ltac:(lia)) as H; by rewrite He in H).
  rewrite PyStr.int_str by lia. cbn [mbind result_bind mret result_ret fst snd node children].
  by replace (r + 1 - 1) with r by lia.
Qed.
Lemma add_rows_node strings rows s ps h f :
  rows_valid rows → (∀ row c, row ∈ rows → c ∈ row.2 → cl_text c ∈ strings) → collects s ps h →
  ∃ s', fold_r (add_row strings) s (imap (λ i x, (f i, x)) (row_node ns strings <$> rows)) = inr s' ∧
    collects s' (ps ++ placed rows) (foldl (λ n i, n `max` (i + 1)) h rows.*1).
Proof.
  revert s ps h f. induction rows as [|[r cells] rows IH]; intros s ps h f Hv Ht Hs; [exists s; by rewrite app_nil_r|].
  destruct (Hv (r, cells) ltac:(left)) as [Hr Hcells]. cbn [fst snd] in Hr, Hcells.
  cbn [fmap list_fmap imap fold_r]. rewrite add_row_node by done. cbv zeta. cbn [mbind result_bind].
  destruct (add_cells_node strings r cells s ps h) as (H1 & H2 & H3); [|done|done|].
  { intros c Hc. split; [by apply (Ht (r, cells)); [left|]|by apply Hcells]. }
  unfold placed. cbn [mbind list_bind fst snd]. fold (placed rows). rewrite app_assoc.
  apply (IH _ (ps ++ ((λ c, (r, cl_col c, cl_text c)) <$> cells)) (h `max` (r + 1)) (f ∘ S)).
  - intros row Hrw. apply Hv. by right.
  - intros row c Hrw. apply Ht. by right.
  - split_and!; [exact H1|cbn [sh_row]; lia|exact H3].
Qed.
End reading.

(** ** The members of a file *)
Section file.
Context (ns : string).
Implicit Types (wb : Workbook) (i j : nat).
Lemma str_inj i j : PyStr.str (Z.of_nat i) = PyStr.str (Z.of_nat j) → i = j.
Proof. intros H%(f_equal PyStr.int). rewrite !PyStr.int_str in H by lia. injection H. lia. Qed.
Lemma rid_inj i j : rid i = rid j → i = j.
Proof. unfold rid. intros H. apply str_inj. by injection H. Qed.
Lemma target_inj i j : target i = target j → i = j.
Proof.
  unfold target. intros H. apply str_inj. rewrite <- (PyStr.of_to_list (PyStr.str _)), <- (PyStr.of_to_list (PyStr.str (Z.of_nat j))). f_equal.
  assert (PyStr.str (Z.of_nat i) +:+ ".xml" = PyStr.str (Z.of_nat j) +:+ ".xml")%string as Hx by by injection H.
  apply (f_equal PyStr.to_list) in Hx. rewrite !PyStr.to_list_app in Hx. by apply app_inv_tail in Hx.
Qed.
Lemma imap_seq {A B} (f : nat → B) (l : list A) : imap (λ i _, f i) l = f <$> seq 0 (length l).
Proof.
  revert f. induction l as [|x l IH]; intros f; [done|]. cbn [imap length seq fmap list_fmap]. f_equal.
  rewrite <- fmap_S_seq, <- list_fmap_compose. exact (IH (f ∘ S)).
Qed.
Lemma shared_read wb : load_shared_strings (workbook_file ns wb) = inr (strings_of wb).
Proof.
  unfold load_shared_strings, parse, workbook_file. change (dict_get (members ns wb) _) with
    (Some (node ns "sst" [] None ((λ s, node ns "si" [] None [text_node ns "t" s]) <$> strings_of wb))).
  cbn. f_equal. induction (strings_of wb) as [|s l IH]; [done|]. cbn [fmap list_fmap]. rewrite select_cons, named_node by done.
  rewrite bool_decide_true by done. cbn [fmap list_fmap]. f_equal; [|exact IH]. unfold si_text.
  cbn [iter node map concat app omap list_omap text_node]. fold (node ns). unfold named. cbn [tag].
  rewrite !localname_qn by done. rewrite (bool_decide_false ("si" = "t")%string), (bool_decide_true ("t" = "t")%string) by done.
  apply text_runs.
Qed.
Lemma sheets_read wb : workbook_sheets (workbook_file ns wb) = inr (imap (λ i x, (x.1, Some (rid i))) wb).
Proof.
  unfold workbook_sheets, parse, workbook_file. change (dict_get (members ns wb) _) with
    (Some (node ns "workbook" [] None [node ns "sheets" [] None
     (imap (λ i (x : string * Rows), node ns "sheet" [("name", x.1); ("{" +:+ R_NS +:+ "}id", rid i)] None []) wb)])%string).
  cbn [fmap option_fmap option_map mbind result_bind mret result_ret children node]. rewrite select_cons, named_node by done.
  rewrite bool_decide_true by done. cbn [select List.filter fmap list_fmap concat]. rewrite app_nil_r. f_equal. cbn [children node].
  assert (∀ f : nat → nat, (λ sheet, (dict_getd (attrib sheet) "name" "", dict_get (attrib sheet) ("{" +:+ R_NS +:+ "}id")))%string
      <$> select (named "sheet") (imap (λ i (x : string * Rows), node ns "sheet" [("name", x.1); ("{" +:+ R_NS +:+ "}id", rid (f i))]%string None []) wb)
    = imap (λ i x, (x.1, Some (rid (f i)))) wb) as H; [|exact (H id)].
  induction wb as [|x wb IH]; intros f; [done|]. cbn [imap]. rewrite select_cons, named_node by done. rewrite bool_decide_true by done.
  cbn [fmap list_fmap]. f_equal. apply (IH (f ∘ S)).
Qed.
Lemma part_path_target i : part_path (target i) = ("xl/" +:+ target i)%string.
Proof.
  unfold part_path. change (PyStr.startswith (target i) "xl/") with false. cbn iota. f_equal.
  exact (PyStr.of_to_list (target i)).
Qed.
Lemma rels_read wb : rels_map (workbook_file ns wb) = inr (imap (λ i _, (rid i, "xl/" +:+ target i)%string) wb).
Proof.
  unfold rels_map, parse, workbook_file. change (dict_get (members ns wb) _) with (Some (Element "Relationships" [] None
     (imap (λ i (_ : string * Rows), Element "Relationship" [("Id", rid i); ("Target", target i)] None []) wb)))%string.
  cbn [fmap option_fmap option_map mbind result_bind mret result_ret children]. f_equal. rewrite !imap_seq.
  transitivity (foldl (λ d i, dict_set d (rid i) ("xl/" +:+ target i)%string) [] (seq 0 (length wb))).
  - assert (∀ l d, foldl add_rel d ((λ i, Element "Relationship" [("Id", rid i); ("Target", target i)] None [])%string <$> l) =
      foldl (λ d i, dict_set d (rid i) ("xl/" +:+ target i)%string) d l) as H; [|apply H].
    intros l. induction l as [|i l IH]; intros d; [done|]. cbn [fmap list_fmap foldl]. rewrite <- IH. f_equal.
    unfold add_rel. change (dict_get _ "Id"%string) with (Some (rid i)). change (dict_get _ "Target"%string) with (Some (target i)).
    rewrite !nonempty_some by done. by rewrite part_path_target.
  - rewrite dict_fill; [done|]. apply NoDup_fmap_2; [exact rid_inj|apply NoDup_seq].
Qed.
Lemma xl_inj a b : ("xl/" +:+ a = "xl/" +:+ b)%string → a = b.
Proof. intros H. by injection H. Qed.
Lemma part_read wb i x :
  wb !! i = Some x → parse (workbook_file ns wb) ("xl/" +:+ target i) = inr (Some (sheet_node ns (strings_of wb) x.2)).
Proof.
  intros Hi. unfold parse, workbook_file, members. cbn [app dict_get]. rewrite !bool_decide_false by done.
  assert (NoDup (imap (λ i (x : string * Rows), ("xl/" +:+ target i, sheet_node ns (strings_of wb) x.2))%string wb).*1) as Hnd.
  { rewrite fmap_imap. change (imap _ wb) with (imap (λ i (_ : string * Rows), "xl/" +:+ target i)%string wb). rewrite imap_seq.
    apply NoDup_fmap_2; [|apply NoDup_seq]. intros j k H. by apply target_inj, xl_inj. }
  rewrite (dict_elem_get _ ("xl/" +:+ target i)%string (sheet_node ns (strings_of wb) x.2) Hnd); [done|].
  apply elem_of_lookup_imap. by exists i, x.
Qed.
Lemma sheet_node_read strings rows :
  rows_valid rows → (∀ row c, row ∈ rows → c ∈ row.2 → cl_text c ∈ strings) →
  (fold_r (add_data strings) empty_sheet (children (sheet_node ns strings rows)) ≫= λ s, mret (grid_rows s)) = inr (grid_of rows).
Proof.
  intros Hv Ht. cbn [sheet_node children node fold_r]. unfold add_data at 1 2. rewrite !named_node by done.
  change (bool_decide ("sheetViews" = "sheetData")%string) with false. change (bool_decide ("sheetData" = "sheetData")%string) with true.
  unfold enumerate. change (children (node ns "sheetData" [] None (row_node ns strings <$> rows))) with (row_node ns strings <$> rows).
  destruct (add_rows_node ns strings rows empty_sheet [] 0 Z.of_nat Hv Ht) as (s & Hs & (H1 & H2 & H3)); [done|].
  cbn [mbind result_bind mret result_ret]. unfold result_bind, result_ret. rewrite Hs. transitivity (inr (A:=exn) (grid_rows s)); [done|].
  f_equal. unfold grid_rows, grid_of.
  cbn [app] in H1, H3. unfold extent at 2. rewrite <- H2, <- H3. destruct (sh_row s <? 0) eqn:E.
  - assert (range (sh_row s + 1) = []) as ->; [|done]. unfold range. by replace (Z.to_nat (sh_row s + 1)) with 0%nat by lia.
  - apply list_fmap_ext. intros _ r _. apply list_fmap_ext. intros _ c _. apply H1.
Qed.
Lemma find_first {A} (p : A → bool) (l : list A) x :
  x ∈ l → p x = true → (∀ y, y ∈ l → p y = true → y = x) → List.find p l = Some x.
Proof.
  intros Hx Hp Hu. destruct (List.find p l) as [y|] eqn:E.
  - apply find_elem in E as [Hy Hpy]. by rewrite (Hu y).
  - rewrite find_elem_None in E. rewrite E in Hp by done. done.
Qed.
Lemma extent_is (l : list Z) n : 0 ≤ n → (∀ i : Z, i ∈ l → i < n) → (0 < n → n - 1 ∈ l) → extent l = n.
Proof.
  intros Hn Hall Hin. unfold extent.
  assert (∀ m, m ≤ foldl (λ n (i : Z), n `max` (i + 1)) m l ≤ n `max` m ∧
    ∀ i : Z, i ∈ l → i + 1 ≤ foldl (λ n (i : Z), n `max` (i + 1)) m l) as H.
  { clear Hin. induction l as [|x l IH]; intros m; cbn [foldl]; [split; [lia|]; by intros i ?%not_elem_of_nil|].
    specialize (Hall x ltac:(left)) as Hx. destruct (IH (λ (i : Z) Hi, Hall i (list_elem_of_further _ _ _ Hi)) (m `max` (x + 1))) as [H1 H2].
    split; [lia|]. intros i [->|Hi]%elem_of_cons; [lia|by apply H2]. }
  destruct (H 0) as [H1 H2]. destruct (decide (0 < n)) as [Hp|]; [|lia]. specialize (H2 _ (Hin Hp)). lia.
Qed.
Lemma says_unique ps r c t : (r, c, t) ∈ ps → (∀ t', (r, c, t') ∈ ps → t' = t) → says ps r c = t.
Proof.
  intros Hin Hu. unfold says. destruct (last (select (at_place r c) ps)) as [[[r' c'] t']|] eqn:E.
  - apply last_Some_elem_of, elem_of_select in E as [E Hp]. unfold at_place in Hp. cbn in Hp. b2p. injection Hp as -> ->. by apply Hu.
  - apply last_None in E. rewrite select_nil in E. specialize (E _ Hin). unfold at_place in E. cbn in E. b2p. done.
Qed.
Lemma placed_dense how g r c t :
  (r, c, t) ∈ placed (dense how g) ↔ ∃ i j row, r = Z.of_nat i ∧ c = Z.of_nat j ∧ g !! i = Some row ∧ row !! j = Some t.
Proof.
  unfold placed, dense. rewrite list_elem_of_bind. split.
  - intros (row & Ht & Hrow). apply elem_of_lookup_imap in Hrow as (i & y & -> & Hy).
    apply list_elem_of_fmap in Ht as (cl & [= -> -> ->] & Hcl). apply elem_of_lookup_imap in Hcl as (j & t' & -> & Hj). eauto 8.
  - intros (i & j & row & -> & -> & Hi & Hj). eexists. split; [|apply elem_of_lookup_imap; by exists i, row].
    apply list_elem_of_fmap. eexists. split; [|apply elem_of_lookup_imap; by exists j, t]. done.
Qed.
Lemma lookup_range n i : (i < n)%nat → range (Z.of_nat n) !! i = Some (Z.of_nat i).
Proof. intros H. unfold range. rewrite Nat2Z.id, list_lookup_fmap, lookup_seq_lt by done. done. Qed.
Lemma length_range n : length (range (Z.of_nat n)) = n.
Proof. unfold range. by rewrite length_fmap, length_seq, Nat2Z.id. Qed.
Lemma grid_of_dense w how g : rectangular w g → grid_of (dense how g) = g.
Proof.
  intros Hw. unfold grid_of. assert (extent (dense how g).*1 = Z.of_nat (length g)) as ->.
  { apply extent_is; [lia|..].
    - intros i Hi. unfold dense in Hi. rewrite fmap_imap in Hi. apply elem_of_lookup_imap in Hi as (k & y & -> & Hk%lookup_lt_Some). cbn. lia.
    - intros Hg. destruct (lookup_lt_is_Some_2 g (length g - 1)) as [y Hy]; [lia|]. unfold dense. rewrite fmap_imap.
      apply elem_of_lookup_imap. exists (length g - 1)%nat, y. split; [cbn; lia|done]. }
  destruct (decide (g = [])) as [->|Hne]; [done|].
  assert (extent ((λ x, x.1.2) <$> placed (dense how g)) = Z.of_nat w) as ->.
  { apply extent_is; [lia|..].
    - intros i ([[r c] t] & -> & (k & j & row & -> & -> & Hk & Hj)%placed_dense)%list_elem_of_fmap. cbn.
      apply lookup_lt_Some in Hj. rewrite (Hw row) in Hj by by eapply list_elem_of_lookup_2. lia.
    - intros Hp. destruct g as [|row g]; [done|]. pose proof (Hw row ltac:(left)) as Hl.
      destruct (lookup_lt_is_Some_2 row (w - 1)) as [t Ht]; [lia|]. apply list_elem_of_fmap. exists (0, Z.of_nat (w - 1), t).
      split; [cbn; lia|]. apply placed_dense. by exists 0%nat, (w - 1)%nat, row. }
  apply list_eq_same_length with (length g); [done|by rewrite length_fmap, length_range|].
  intros i x y Hi Hx Hy. rewrite list_lookup_fmap, lookup_range in Hx by done. injection Hx as <-.
  pose proof (Hw y ltac:(by eapply list_elem_of_lookup_2)) as Hl.
  apply list_eq_same_length with w; [done|by rewrite length_fmap, length_range|].
  intros j a b Hj Ha Hb. rewrite list_lookup_fmap, lookup_range in Ha by done. injection Ha as <-.
  apply says_unique.
  - apply placed_dense. by exists i, j, y.
  - intros t' (i' & j' & row & Hii & Hjj & Hr & Ht)%placed_dense. assert (i' = i) as -> by lia. assert (j' = j) as -> by lia. congruence.
Qed.
(** Every sheet of a file, by its name or as the first *)
Lemma sheets_of_file wb :
  NoDup wb.*1 → (∀ x, x ∈ wb → rows_valid x.2) →
  sheet_names (workbook_file ns wb) = inr wb.*1 ∧
  (∀ name rows, (name, rows) ∈ wb → read_grid (workbook_file ns wb) (Some name) = inr (grid_of rows)) ∧
  (∀ name, name ∉ wb.*1 → read_grid (workbook_file ns wb) (Some name) = inr []) ∧
  read_grid (workbook_file ns wb) None = inr (default [] (grid_of <$> (snd <$> head wb))).
Proof.
  intros Hnd Hv.
  assert (∀ l f, (imap (λ i (x : string * Rows), (x.1, Some (rid (f i)))) l).*1 = l.*1) as Hfst.
  { intros l. induction l as [|x l IH]; intros f; [done|]. cbn. f_equal. apply (IH (f ∘ S)). }
  assert (∀ i x, wb !! i = Some x → (parse (workbook_file ns wb) ("xl/" +:+ target i) ≫= λ root,
      match root with None => mret [] | Some root =>
        fold_r (add_data (strings_of wb)) empty_sheet (children root) ≫= λ s, mret (grid_rows s) end) = inr (grid_of x.2)) as Hgrid.
  { intros i x Hi. erewrite part_read by done. cbn [mbind result_bind]. apply sheet_node_read.
    - by eapply Hv, list_elem_of_lookup_2.
    - intros row c Hr Hc. unfold strings_of. apply list_elem_of_bind. exists x.
      split; [|by eapply list_elem_of_lookup_2]. apply list_elem_of_bind. exists row. split; [by apply list_elem_of_fmap_2|done]. }
  assert (∀ i x, wb !! i = Some x → dict_get (imap (λ i (_ : string * Rows), (rid i, "xl/" +:+ target i)%string) wb) (rid i) =
      Some ("xl/" +:+ target i)%string) as Hrel.
  { intros i x Hi. apply dict_elem_get.
    - rewrite fmap_imap. change (imap _ wb) with (imap (λ i (_ : string * Rows), rid i) wb). rewrite (imap_seq rid wb). apply NoDup_fmap_2; [exact rid_inj|apply NoDup_seq].
    - apply elem_of_lookup_imap. by exists i, x. }
  assert (∀ name, read_grid (workbook_file ns wb) name =
     (match wb with
      | [] => inr []
      | _ => match match name with
             | None => head (imap (λ i x, (x.1, Some (rid i))) wb)
             | Some name => List.find (λ x, bool_decide (x.1 = name)) (imap (λ i x, (x.1, Some (rid i))) wb)
             end ≫= λ x, x.2 ≫= dict_get (imap (λ i _, (rid i, "xl/" +:+ target i)%string) wb) with
             | None => inr []
             | Some part => parse (workbook_file ns wb) part ≫= λ root,
                 match root with None => mret [] | Some root =>
                   fold_r (add_data (strings_of wb)) empty_sheet (children root) ≫= λ s, mret (grid_rows s) end
             end
      end)) as Hread.
  { intros name. unfold read_grid. rewrite shared_read. cbn [mbind result_bind]. unfold worksheet_part. rewrite sheets_read.
    cbn [mbind result_bind]. destruct wb as [|x wb']; [done|]. rewrite rels_read. cbn [mbind result_bind mret result_ret].
    destruct name as [name|]; [|done]. by destruct (List.find _ _ ≫= _). }
  assert (∀ name rows, (name, rows) ∈ wb → read_grid (workbook_file ns wb) (Some name) = inr (grid_of rows)) as Hname.
  { intros name rows Hin. apply list_elem_of_lookup in Hin as [i Hi]. rewrite Hread. destruct wb as [|x0 wb0] eqn:Ewb; [done|].
    rewrite <- Ewb in *. rewrite (find_first (λ x, bool_decide (x.1 = name)) _ (name, Some (rid i))).
    - cbn. rewrite (Hrel i _ Hi). apply (Hgrid i _ Hi).
    - apply elem_of_lookup_imap. by exists i, (name, rows).
    - by apply bool_decide_true.
    - intros y Hy Hyn%bool_decide_eq_true. apply elem_of_lookup_imap in Hy as (j & [n' r'] & -> & Hj). cbn in Hyn. subst n'.
      assert (i = j) as <-; [|done]. eapply (NoDup_lookup wb.*1); [done|..]; rewrite list_lookup_fmap; [by rewrite Hi|by rewrite Hj]. }
  split_and!.
  - unfold sheet_names. rewrite sheets_read. cbn [mbind result_bind]. unfold mret, result_ret. f_equal. apply (Hfst wb id).
  - exact Hname.
  - intros name Hn. rewrite Hread. destruct wb as [|x0 wb0] eqn:Ewb; [done|]. rewrite <- Ewb in *.
    destruct (List.find _ _) as [y|] eqn:E; [|done]. apply find_elem in E as [Hy Hyn]. b2p. destruct Hn. subst name.
    rewrite <- (Hfst wb id). by apply list_elem_of_fmap_2.
  - rewrite Hread. destruct wb as [|x0 wb0] eqn:Ewb; [done|]. rewrite <- Ewb in *.
    assert (wb !! 0%nat = Some x0) as H0 by by rewrite Ewb. rewrite Ewb at 1. cbn [imap head mbind option_bind snd].
    rewrite (Hrel 0%nat _ H0). rewrite (Hgrid 0%nat _ H0). by rewrite Ewb.
Qed.
(** C30: The reader gives back what a file was made of: the names of the sheets in their order
    and, for each sheet, the rectangle from its first row and column to the last it uses,
    where a place holds the text of the last cell put there, or none, whichever way the
    texts are stored and in whatever order the rows and cells come; without a name it
    reads the first sheet, and a name no sheet has gives no rows.  A whole grid reads back
    as itself. *)
Theorem read_grid_exact wb :
  NoDup wb.*1 → (∀ x, x ∈ wb → rows_valid x.2) →
  sheet_names (workbook_file ns wb) = inr wb.*1 ∧
  (∀ name rows, (name, rows) ∈ wb → read_grid (workbook_file ns wb) (Some name) = inr (grid_of rows)) ∧
  (∀ name, name ∉ wb.*1 → read_grid (workbook_file ns wb) (Some name) = inr []) ∧
  read_grid (workbook_file ns wb) None = inr (default [] (grid_of <$> (snd <$> head wb))) ∧
  ∀ name w how g, rectangular w g → (name, dense how g) ∈ wb → read_grid (workbook_file ns wb) (Some name) = inr g.
Proof.
  intros Hnd Hv. destruct (sheets_of_file wb Hnd Hv) as (H1 & H2 & H3 & H4). split_and!; [done..|].
  intros name w how g Hw Hin. rewrite (H2 _ _ Hin). by rewrite (grid_of_dense w).
Qed.
End file.

Lemma read_grid_exact_witness :
  let file := workbook_file "urn:main" demo_book in
  NoDup demo_book.*1 ∧ (∀ x, x ∈ demo_book → rows_valid x.2) ∧ sheet_names file = inr ["Notes"; "Rooms"]%string ∧
  read_grid file (Some "Rooms"%string) = inr [["R100"; "40.0"]; [""; "A1"]; ["GYM"; "R100"]]%string ∧
  read_grid file (Some "Labs"%string) = inr [].
Proof.
  assert (NoDup demo_book.*1) as Hnd by by vm_compute; repeat constructor; set_solver.
  assert (∀ x, x ∈ demo_book → rows_valid x.2) as Hv.
  { intros x Hx row Hr. unfold demo_book in Hx.
    assert (forallb (λ x : string * Rows, forallb (λ row, (0 <=? row.1) && forallb (λ c, 0 <=? cl_col c) row.2) x.2) demo_book = true)
      as H by done.
    rewrite forallb_elem in H. specialize (H x Hx). rewrite forallb_elem in H. specialize (H row Hr).
    apply andb_prop in H as [H1 H2]. rewrite forallb_elem in H2. split; [lia|]. intros c Hc. specialize (H2 c Hc). lia. }
  destruct (read_grid_exact "urn:main" demo_book Hnd Hv) as (H1 & H2 & H3 & _ & H5).
  cbv zeta. split; [exact Hnd|]. split; [exact Hv|]. split; [exact H1|]. split.
  - eapply (H5 "Rooms"%string 2%nat); [|right; left].
    intros row Hr. assert (forallb (λ row : list string, Nat.eqb (length row) 2) [["R100"; "40.0"]; [""; "A1"]; ["GYM"; "R100"]]%string = true)
      as H by done. rewrite forallb_elem in H. by apply Nat.eqb_eq, H.
  - apply H3. apply (bool_decide_unpack _). vm_compute. exact I.
Defined.

(** A target that starts at the root of the archive, as the format allows, is looked for in
    a directory there is not: the sheet reads as no rows. *)
Example rooted_target :
  let file m := if bool_decide (m = "xl/_rels/workbook.xml.rels"%string)
                then Some (inr (Element "Relationships" [] None
                       [Element "Relationship" [("Id", rid 0); ("Target", "/xl/" +:+ target 0)] None []]))%string
                else workbook_file "urn:main" [("Rooms", dense (λ _ _, Plain) [["R100"]])]%string m in
  part_path "/xl/worksheets/sheet1.xml" = "xl/xl/worksheets/sheet1.xml"%string ∧ read_grid file (Some "Rooms"%string) = inr [].
Proof. vm_compute. done. Qed.
