(* ===== verification/RoomMaster.v ===== *)
(** scheduling/management/commands/load_room_master.py: the load of the list of rooms from
    the registrar's workbook, a sheet per room.  The file is read through Xlsx.v; a room of
    the list is created, or refreshed when it is there already.

    [ci] is the collation of the text columns, [tokens] and [draws] the streams of the random
    generator, read from a position that the rows hand on.  A value a column cannot hold is
    refused by the database. *)
From S2P Require Import Prelude Python Model Effects Ops Sample Web Importing Campus ImportOfferings Xlsx.
From Stdlib Require Import Ascii String.
From stdpp Require Import strings.
Open Scope Z_scope.

Definition NAME_ROW : nat := 3.
Definition NAME_COL : nat := 2.
Definition CAP_ROW : nat := 3.
Definition CAP_COL : nat := 14.
Definition is_room_tab (tab_name : string) : bool :=
  let info := classify_room tab_name in
  if negb (ri_is_unassigned info) then true else ri_is_typo info || (0 <? ri_floor info).
Definition grid_cell (grid : list (list string)) (row col : nat) : string :=
  default ""%string (grid !! row ≫= λ r : list string, r !! col).
(** An infinite capacity is an [OverflowError], which nothing catches. *)
Definition parse_capacity (raw : string) : result Z :=
  let s := PyStr.strip raw in
  if bool_decide (s = ""%string) then mret 0
  else match PyFloat.float s with
       | None => mret 0
       | Some x => match PyFloat.truncate x with
                   | PyFloat.Whole n => mret n
                   | PyFloat.NotANumber => mret 0
                   | PyFloat.Overflow => inl OverflowErr
                   end
       end.

(** A room of the list *)
Record MasterRoom := { mr_code : string; mr_name : string; mr_capacity : Z; mr_info : RoomInfo }.
Definition master_room (tab : string) (grid : list (list string)) : result MasterRoom :=
  parse_capacity (grid_cell grid CAP_ROW CAP_COL) ≫= λ capacity,
  mret {| mr_code := PyStr.strip tab; mr_name := PyStr.strip (grid_cell grid NAME_ROW NAME_COL);
          mr_capacity := capacity; mr_info := classify_room (PyStr.strip tab) |}.
Definition read_tab (zf : Archive) (acc : list MasterRoom * list string) (tab : string) : result (list MasterRoom * list string) :=
  if is_room_tab tab then
    read_grid zf (Some tab) ≫= λ grid, master_room tab grid ≫= λ room, mret (acc.1 ++ [room], acc.2)
  else mret (acc.1, acc.2 ++ [tab]).
(** The rooms of the file and the tabs that are no room *)
Definition read_master (zf : Archive) : result (list MasterRoom * list string) :=
  sheet_names zf ≫= λ tabs, fold_r (read_tab zf) ([], []) tabs.

Definition preview_buildings (parsed : list MasterRoom) : dict string Z :=
  foldl (λ counts x, let code := ri_building_code (mr_info x) in dict_set counts code (dict_getd counts code 0 + 1)) [] parsed.
(** What the command prints *)
Record MasterReport := {
  mp_parsed : Z; mp_counts : option (Z * Z);   (* created and updated, when not a dry run *)
  mp_buildings : list (string * Z); mp_skipped : list string; mp_unassigned : list string
}.
Definition master_report (parsed : list MasterRoom) (skipped : list string) (counts : option (Z * Z))
    (per_building : dict string Z) : MasterReport :=
  {| mp_parsed := Z.of_nat (length parsed); mp_counts := counts;
     mp_buildings := (λ code, (code, dict_getd per_building code 0)) <$> sort_by String.leb per_building.*1;
     mp_skipped := skipped;
     mp_unassigned := sort_by String.leb (mr_code <$> select (λ x, ri_is_unassigned (mr_info x)) parsed) |}.

Section load.
Context (ci : string → string) (tokens : nat → string) (draws : nat → Z).
Notation same := (same_text ci).

Definition all_buildings : list (string * string) := PREFIX_BUILDING.*2 ++ [UNASSIGNED_BUILDING].
Definition building_row (b : string * string) (k : Z) : Building := {| bld_pk := k; bld_code := b.1; bld_name := b.2 |}.
Definition ensure_building (b : string * string) : M (Building * bool) :=
  get_or_create (λ r, same (bld_code r) b.1) true (building_clash ci) (building_row b).
(** The width of the columns of a name and of a capacity *)
Definition capacity_fits (n : Z) : bool := (0 <=? n) && (n <? 2 ^ 31).
Definition new_master_room (x : MasterRoom) (fl : Floor) (token manual : string) (k : Z) : Room :=
  {| room_pk := k; room_floor := flr_pk fl; room_code := mr_code x; room_name := mr_name x;
     room_capacity := mr_capacity x; room_qr_token := token; room_manual_code := manual;
     room_rotated_at := None; room_rotated_by := None; room_out_of_service := false; room_oos_reason := "" |}.
(** The metadata of a room that is there, from the list; what the list leaves blank stays *)
Definition name_changes (x : MasterRoom) (room : Room) : bool :=
  negb (bool_decide (mr_name x = ""%string)) && negb (bool_decide (room_name room = mr_name x)).
Definition capacity_changes (x : MasterRoom) (room : Room) : bool :=
  negb (mr_capacity x =? 0) && negb (room_capacity room =? mr_capacity x).
Definition refresh (x : MasterRoom) (room : Room) : M unit :=
  when (name_changes x room || capacity_changes x room)
    (guard_m (negb (name_changes x room && longer 120 (mr_name x))
              && negb (capacity_changes x room && negb (capacity_fits (mr_capacity x)))) DatabaseError ≫= λ _,
     save (room_pk room) (λ r, r <| room_name := if name_changes x room then mr_name x else room_name r |>
                                 <| room_capacity := if capacity_changes x room then mr_capacity x else room_capacity r |>)).
(** The counters of the load, and the random position *)
Record LoadState := mk_load { ld_created : Z; ld_updated : Z; ld_buildings : dict string Z; ld_pos : nat }.
Definition load_room (s : LoadState) (x : MasterRoom) : M LoadState :=
  ensure_building (ri_building_code (mr_info x), ri_building_name (mr_info x)) ≫= λ '(b, _),
  get_or_create (λ f, (flr_building f =? bld_pk b) && (flr_number f =? ri_floor (mr_info x))) true floor_clash
    (λ k, {| flr_pk := k; flr_building := bld_pk b; flr_number := ri_floor (mr_info x) |}) ≫= λ '(fl, _),
  generate_manual_code draws (ld_pos s) ≫= λ '(manual, j),
  get_or_create (λ r, same (room_code r) (mr_code x))
    (negb (longer 30 (mr_code x)) && negb (longer 120 (mr_name x)) && capacity_fits (mr_capacity x))
    (room_clash ci) (new_master_room x fl (tokens (ld_pos s)) manual) ≫= λ '(room, was_created),
  when (negb was_created) (refresh x room) ≫= λ _,
  let code := ri_building_code (mr_info x) in
  mret (mk_load (ld_created s + Z.b2z was_created) (ld_updated s + Z.b2z (negb was_created))
          (dict_set (ld_buildings s) code (dict_getd (ld_buildings s) code 0 + 1)) j).
Definition load_rooms (parsed : list MasterRoom) : M LoadState :=
  atomic (
    fold_m (λ _ b, ensure_building b ≫= λ _, mret ()) () all_buildings ≫= λ _,
    fold_m load_room (mk_load 0 0 [] 0) parsed).
(** The command; [file] is what opening the file gives. *)
Definition load_room_master (file : result Archive) (dry_run : bool) : M MasterReport :=
  match file ≫= read_master with
  | inl e => raise e
  | inr (parsed, skipped) =>
      if dry_run then mret (master_report parsed skipped None (preview_buildings parsed))
      else load_rooms parsed ≫= λ s,
        mret (master_report parsed skipped (Some (ld_created s, ld_updated s)) (ld_buildings s))
  end.
End load.

(** ** What the file says *)
Definition says_room (x : string * Rows) : MasterRoom :=
  let place r c := says (placed x.2) r c in
  {| mr_code := PyStr.strip x.1; mr_name := PyStr.strip (place 3 2);
     mr_capacity := match parse_capacity (place 3 14) with inr n => n | inl _ => 0 end;
     mr_info := classify_room (PyStr.strip x.1) |}.
(** A cell of the rectangle is what the sheet says there, and nothing is said outside it. *)
Lemma extent_bound (l : list Z) i : i ∈ l → i < extent l.
Proof.
  unfold extent. intros Hi. assert (∀ m, m ≤ foldl (λ n (i : Z), n `max` (i + 1)) m l ∧
    (i ∈ l → i + 1 ≤ foldl (λ n (i : Z), n `max` (i + 1)) m l)) as H; [|destruct (H 0) as [_ H']; specialize (H' Hi); lia].
  clear Hi. induction l as [|x l IH]; intros m; cbn [foldl]; [split; [lia|]; by intros ?%not_elem_of_nil|].
  destruct (IH (m `max` (x + 1))) as [H1 H2]. split; [lia|]. intros [->|Hi]%elem_of_cons; [lia|by apply H2].
Qed.
Lemma lookup_range_out n i : n ≤ Z.of_nat i → range n !! i = None.
Proof. intros H. apply lookup_ge_None. unfold range. rewrite length_fmap, length_seq. lia. Qed.
Lemma grid_cell_says rows r c : grid_cell (grid_of rows) r c = says (placed rows) (Z.of_nat r) (Z.of_nat c).
Proof.
  assert (says (placed rows) (Z.of_nat r) (Z.of_nat c) = ""%string ∨ (Z.of_nat r < extent rows.*1 ∧
    Z.of_nat c < extent ((λ x, x.1.2) <$> placed rows))) as Hout.
  { unfold says. destruct (last (select (at_place (Z.of_nat r) (Z.of_nat c)) (placed rows))) as [x|] eqn:E; [right|by left].
    apply last_Some_elem_of, elem_of_select in E as [E Hp]. unfold at_place in Hp. b2p. split.
    - unfold placed in E. apply list_elem_of_bind in E as (row & (cl & -> & _)%list_elem_of_fmap & Hrow).
      injection Hp as <- _. apply extent_bound. by apply list_elem_of_fmap_2.
    - apply extent_bound. apply list_elem_of_fmap. exists x. by rewrite Hp. }
  unfold grid_cell, grid_of. rewrite list_lookup_fmap.
  destruct (decide (Z.of_nat r < extent rows.*1)) as [Hr|Hr].
  - assert (range (extent rows.*1) !! r = Some (Z.of_nat r)) as ->.
    { replace (extent rows.*1) with (Z.of_nat (Z.to_nat (extent rows.*1))) by lia. apply lookup_range. lia. }
    cbn [fmap option_fmap option_map mbind option_bind]. rewrite list_lookup_fmap.
    destruct (decide (Z.of_nat c < extent ((λ x, x.1.2) <$> placed rows))) as [Hc|Hc].
    + assert (range (extent ((λ x, x.1.2) <$> placed rows)) !! c = Some (Z.of_nat c)) as ->; [|done].
      replace (extent ((λ x, x.1.2) <$> placed rows)) with (Z.of_nat (Z.to_nat (extent ((λ x, x.1.2) <$> placed rows)))) by lia.
      apply lookup_range. lia.
    + rewrite lookup_range_out by lia. cbn. by destruct Hout as [->|[? ?]]; [|lia].
  - rewrite lookup_range_out by lia. cbn. by destruct Hout as [->|[? ?]]; [|lia].
Qed.
Lemma read_tabs zf (l : Workbook) acc :
  (∀ x, x ∈ l → read_grid zf (Some x.1) = inr (grid_of x.2) ∧ ∃ n, parse_capacity (says (placed x.2) 3 14) = inr n) →
  fold_r (read_tab zf) acc l.*1 =
    inr (acc.1 ++ (says_room <$> select (λ x, is_room_tab x.1) l), acc.2 ++ (select (λ x, negb (is_room_tab x.1)) l).*1).
Proof.
  revert acc. induction l as [|x l IH]; intros [a b] Hl; [cbn; by rewrite !app_nil_r|].
  destruct (Hl x ltac:(left)) as [Hg [n Hn]]. cbn [fmap list_fmap fold_r]. unfold read_tab at 2. rewrite !select_cons.
  destruct (is_room_tab x.1); cbn [negb fmap list_fmap].
  - rewrite Hg. cbn [mbind result_bind]. unfold master_room. rewrite !grid_cell_says. change (Z.of_nat CAP_ROW) with 3. change (Z.of_nat CAP_COL) with 14.
    change (Z.of_nat NAME_ROW) with 3. change (Z.of_nat NAME_COL) with 2.
    assert (says_room x = {| mr_code := PyStr.strip x.1; mr_name := PyStr.strip (says (placed x.2) 3 2); mr_capacity := n;
      mr_info := classify_room (PyStr.strip x.1) |}) as Hx by (unfold says_room; by rewrite Hn).
    rewrite Hn, Hx. cbn [mbind result_bind mret result_ret fst snd]. rewrite IH by (intros; apply Hl; by right).
    cbn [fst snd]. by rewrite <- app_assoc.
  - cbn [mbind result_bind mret result_ret fst snd]. rewrite IH by (intros; apply Hl; by right). cbn [fst snd]. by rewrite <- app_assoc.
Qed.
(** The list of rooms read from a file is what its sheets say: one room for each tab that is
    a room code, and no other, by the code of the tab, the name of cell C4 and the
    capacity of cell O4. *)
Theorem read_master_exact ns wb :
  NoDup wb.*1 → (∀ x, x ∈ wb → rows_valid x.2) → (∀ x, x ∈ wb → ∃ n, parse_capacity (says (placed x.2) 3 14) = inr n) →
  read_master (workbook_file ns wb) =
    inr (says_room <$> select (λ x, is_room_tab x.1) wb, (select (λ x, negb (is_room_tab x.1)) wb).*1).
Proof.
  intros Hnd Hv Hc. destruct (sheets_of_file ns wb Hnd Hv) as (Hnames & Hgrid & _). unfold read_master. rewrite Hnames.
  cbn [mbind result_bind]. rewrite read_tabs; [done|]. intros [name rows] Hx. split; [by apply Hgrid|by apply (Hc (name, rows))].
Qed.

(** ** What a load keeps *)

(** Rooms, floors and buildings are only added; of the rooms that were there nothing changes
    but the name and the capacity, and no other table is touched. *)
Record kept (db db' : DB) : Prop := {
  kp_rooms : ∀ i r, db_rooms db !! i = Some r → ∃ r', db_rooms db' !! i = Some r' ∧
    r' = r <| room_name := room_name r' |> <| room_capacity := room_capacity r' |>;
  kp_buildings : db_buildings db `prefix_of` db_buildings db';
  kp_floors : db_floors db `prefix_of` db_floors db';
  kp_rest : db' = db <| db_buildings := db_buildings db' |> <| db_floors := db_floors db' |> <| db_rooms := db_rooms db' |>
}.
#[export] Instance kept_preorder : PreOrder kept.
Proof.
  split.
  - intros db. split; [|done|done|by destruct db]. intros i r Hr. exists r. split; [done|by destruct r].
  - intros db1 db2 db3 [R1 B1 F1 E1] [R2 B2 F2 E2]. split.
    + intros i r Hr. destruct (R1 i r Hr) as (r' & Hr' & Er). destruct (R2 i r' Hr') as (r'' & Hr'' & Er').
      exists r''. split; [done|]. rewrite Er', Er. by destruct r.
    + by etransitivity.
    + by etransitivity.
    + rewrite E2, E1. by destruct db1.
Qed.
Section loading.
Context (ci : string → string).
Notation same := (same_text ci).
Definition building_known (code : string) (db : DB) : Prop := ∃ b, select (λ b, same (bld_code b) code) (db_buildings db) = [b].
(** The one room of the code of a row of the list, with the name and the capacity the list
    gives; a room that was not there before, in [db0], is in service on the floor of the
    list, with its code, name and capacity. *)
Definition row_set (x : MasterRoom) (db0 db : DB) : Prop :=
  ∃ b fl r, select (λ b, same (bld_code b) (ri_building_code (mr_info x))) (db_buildings db) = [b] ∧
    select (λ f, (flr_building f =? bld_pk b) && (flr_number f =? ri_floor (mr_info x))) (db_floors db) = [fl] ∧
    select (λ r, same (room_code r) (mr_code x)) (db_rooms db) = [r] ∧
    (mr_name x ≠ ""%string → room_name r = mr_name x) ∧ (mr_capacity x ≠ 0 → room_capacity r = mr_capacity x) ∧
    (select (λ r, same (room_code r) (mr_code x)) (db_rooms db0) = [] →
     room_floor r = flr_pk fl ∧ room_code r = mr_code x ∧ room_name r = mr_name x ∧
     room_capacity r = mr_capacity x ∧ room_out_of_service r = false).
(** The load of the room of one code leaves alone those of the others. *)
Record others (c : string) (db db' : DB) : Prop := {
  ot_rooms c' : ci c' ≠ ci c → select (λ r, same (room_code r) c') (db_rooms db') = select (λ r, same (room_code r) c') (db_rooms db);
  ot_buildings c' : keeps_only (λ b, same (bld_code b) c') (db_buildings db) (db_buildings db');
  ot_floors b n : keeps_only (λ f, (flr_building f =? b) && (flr_number f =? n)) (db_floors db) (db_floors db');
  ot_pk : pk_unique (db_rooms db) → pk_unique (db_rooms db')
}.
#[export] Instance others_preorder c : PreOrder (others c).
Proof.
  split; [intros db; split; intros; done|]. intros db1 db2 db3 [R1 B1 F1 P1] [R2 B2 F2 P2].
  split; intros; [by rewrite R2, R1|by etransitivity; eauto|by etransitivity; eauto|auto].
Qed.
Lemma building_known_others c db db' code : others c db db' → building_known code db → building_known code db'.
Proof. intros X [b Hb]. destruct (ot_buildings _ _ _ X _ _ Hb) as (b' & Hb' & _). by exists b'. Qed.
Lemma row_set_others c db0 db db' x : others c db db' → ci (mr_code x) ≠ ci c → row_set x db0 db → row_set x db0 db'.
Proof.
  intros X Hc (b & fl & r & Hb & Hf & Hr & Hn & Hcap & Hnew). destruct (ot_buildings _ _ _ X _ _ Hb) as (b' & Hb' & Eb).
  destruct (ot_floors _ _ _ X _ _ _ Hf) as (fl' & Hf' & Ef). change (bld_pk b' = bld_pk b) in Eb.
  change (flr_pk fl' = flr_pk fl) in Ef. exists b', fl', r. rewrite Eb, Ef, (ot_rooms _ _ _ X _ Hc). done.
Qed.
Lemma row_set_since db0 db1 db x :
  select (λ r, same (room_code r) (mr_code x)) (db_rooms db1) = select (λ r, same (room_code r) (mr_code x)) (db_rooms db0) →
  row_set x db1 db → row_set x db0 db.
Proof. intros E (b & fl & r & H). exists b, fl, r. by rewrite <- E. Qed.

Lemma created_kept {R} `{!HasPk R, !Table R} (rel : DB → DB → Prop) `{!PreOrder rel} (p : R → bool) fits clash mk :
  (∀ db, select p (tbl db) = [] → existsb (clash (mk (fresh_pk (tbl (R:=R) db)))) (tbl db) = false →
   rel db (set_tbl (tbl db ++ [mk (fresh_pk (tbl (R:=R) db))]) db)) →
  respects rel (get_or_create p fits clash mk).
Proof.
  intros H db. unfold exec.
  destruct (get_or_create_cases p fits clash mk db) as [(r & _ & ->)|[(Hp & Hc & ->)|[e ->]]]; [reflexivity|by apply H|reflexivity].
Qed.
Lemma kept_building b : respects kept (ensure_building ci b).
Proof.
  apply created_kept; [exact _|]. intros db _ _. split; [|by apply prefix_app_r|done|by destruct db].
  intros i r Hr. exists r. split; [done|by destruct r].
Qed.
Lemma others_building c b : respects (others c) (ensure_building ci b).
Proof.
  apply created_kept; [exact _|]. intros db Hp Hc. split; try done. intros c'. simpl. eapply keeps_only_insert; [exact Hp|exact Hc|].
  intros r. unfold building_clash, building_row. cbn. intros H1 H2. left. unfold same_text in *. b2p. congruence.
Qed.
Definition floor_goc (b n : Z) : M (Floor * bool) :=
  get_or_create (λ f, (flr_building f =? b) && (flr_number f =? n)) true floor_clash (λ k, {| flr_pk := k; flr_building := b; flr_number := n |}).
Lemma kept_floor b n : respects kept (floor_goc b n).
Proof.
  apply created_kept; [exact _|]. intros db _ _. split; [|done|by apply prefix_app_r|by destruct db].
  intros i r Hr. exists r. split; [done|by destruct r].
Qed.
Lemma others_floor c b n : respects (others c) (floor_goc b n).
Proof.
  apply created_kept; [exact _|]. intros db Hp Hc. split; try done. intros b' n'. simpl. eapply keeps_only_insert; [exact Hp|exact Hc|].
  intros r. cbn. rewrite !andb_true_iff, !Z.eqb_eq. intros [-> ->] [-> ->]. by left.
Qed.
Lemma generate_same (rel : DB → DB → Prop) `{!PreOrder rel} draws i : respects rel (generate_manual_code draws i).
Proof.
  intros db. unfold exec. pose proof (generate_loop_wp draws MAX_ATTEMPTS MAX_ATTEMPTS i db) as H.
  unfold generate_manual_code. unfold wp in H. destruct (generate_loop _ _ _ _ db) as [r db']. destruct H as [-> _]. reflexivity.
Qed.
Definition same_rooms (db db' : DB) : Prop := db_rooms db' = db_rooms db.
#[export] Instance same_rooms_preorder : PreOrder same_rooms.
Proof. split; [by intros db|]. intros db1 db2 db3. unfold same_rooms. congruence. Qed.
Lemma same_rooms_building b : respects same_rooms (ensure_building ci b).
Proof. by apply created_kept; [exact _|]. Qed.
Lemma same_rooms_floor b n : respects same_rooms (floor_goc b n).
Proof. by apply created_kept; [exact _|]. Qed.
Definition room_goc (x : MasterRoom) (fl : Floor) (token manual : string) : M (Room * bool) :=
  get_or_create (λ r, same (room_code r) (mr_code x))
    (negb (longer 30 (mr_code x)) && negb (longer 120 (mr_name x)) && capacity_fits (mr_capacity x))
    (room_clash ci) (new_master_room x fl token manual).
Lemma kept_room x fl token manual : respects kept (room_goc x fl token manual).
Proof.
  apply created_kept; [exact _|]. intros db _ _. split; [|done|done|by destruct db].
  intros i r Hr. exists r. split; [by apply lookup_app_l_Some|by destruct r].
Qed.
Lemma others_room x fl token manual : respects (others (mr_code x)) (room_goc x fl token manual).
Proof.
  apply created_kept; [exact _|]. intros db Hp Hc. split; try done; simpl.
  - intros c' Hne. rewrite select_app. cbn. unfold same_text at 2. rewrite bool_decide_false by (cbn; congruence). by rewrite app_nil_r.
  - intros Hpk. by apply pk_unique_insert.
Qed.
Lemma kept_refresh x room : respects kept (refresh x room).
Proof.
  unfold refresh. apply respects_when; [exact _|]. apply respects_bind; [exact _|by apply respects_guard; exact _|intros _].
  intros db. unfold exec, save. destruct (existing _ _); [|reflexivity]. cbn [snd]. split; [|done|done|by destruct db].
  intros i r Hr. cbn. unfold update_pk, update_where. rewrite list_lookup_fmap, Hr. cbn. eexists. split; [done|]. by case_match; destruct r.
Qed.

(** *** One room of the list *)
Section streams.
Context (tokens : nat → string) (draws : nat → Z).
Notation load_room := (load_room ci tokens draws).
Notation counted s x c j := (mk_load (ld_created s + Z.b2z c) (ld_updated s + Z.b2z (negb c))
  (dict_set (ld_buildings s) (ri_building_code (mr_info x)) (dict_getd (ld_buildings s) (ri_building_code (mr_info x)) 0 + 1)) j).
Lemma kept_load_room s x : respects kept (load_room s x).
Proof.
  unfold RoomMaster.load_room. apply respects_bind; [exact _|apply kept_building|intros [b c]].
  apply respects_bind; [exact _|apply kept_floor|intros [fl c']].
  apply respects_bind; [exact _|apply generate_same; exact _|intros [manual j]].
  apply respects_bind; [exact _|apply kept_room|intros [room c'']].
  apply respects_bind; [exact _|apply respects_when; [exact _|apply kept_refresh]|intros _]. apply respects_ret; exact _.
Qed.
(** The refreshed row, and the rows it leaves alone *)
Lemma refresh_settles x r db :
  pk_unique (db_rooms db) → select (λ r, same (room_code r) (mr_code x)) (db_rooms db) = [r] →
  wp (refresh x r) (λ res db', match res with
    | inl _ => True
    | inr _ => others (mr_code x) db db' ∧ db_buildings db' = db_buildings db ∧ db_floors db' = db_floors db ∧
        length (db_rooms db') = length (db_rooms db) ∧
        ∃ r', select (λ r, same (room_code r) (mr_code x)) (db_rooms db') = [r'] ∧
          (mr_name x ≠ ""%string → room_name r' = mr_name x) ∧ (mr_capacity x ≠ 0 → room_capacity r' = mr_capacity x)
    end) db.
Proof.
  intros Hpk Hr. unfold refresh. assert (r ∈ select (λ r, same (room_code r) (mr_code x)) (db_rooms db)) as [Hin Hcode]%elem_of_select
    by (rewrite Hr; left). unfold name_changes, capacity_changes. apply wp_when; intros Hch.
  - wp_step. apply wp_guard; [|by intros _]. intros _. apply wp_save; [|by intros _]. intros _. cbn [tbl set_tbl table_Room db_rooms].
    set (f := λ r0 : Room, _ : Room). assert (∀ r0, room_code (f r0) = room_code r0) as Hf by done.
    assert (∀ r0, pk (f r0) = pk r0) as Hfpk by done.
    split; [split|].
    + intros c' Hne. cbn. unfold update_pk, update_where. rewrite select_fmap.
      rewrite (select_ext _ (λ r0, same (room_code r0) c')) by (intros y _; cbn; by case_match).
      rewrite <- (list_fmap_id (select _ _)) at 2. apply list_fmap_ext. intros i y Hy%list_elem_of_lookup_2.
      apply elem_of_select in Hy as [Hy Hyc]. destruct (pk y =? room_pk r) eqn:E; [|done]. exfalso.
      assert (y = r) as -> by (apply (pk_inj (db_rooms db)); try done; apply Z.eqb_eq in E; exact E).
      unfold same_text in *. b2p. congruence.
    + intros c'. reflexivity.
    + intros b n. reflexivity.
    + intros _. cbn. by apply pk_unique_update.
    + split_and!; [done|done|cbn; unfold update_pk, update_where; by rewrite length_fmap|]. exists (f r). split.
      * cbn. unfold update_pk, update_where. rewrite select_fmap.
        rewrite (select_ext _ (λ r0, same (room_code r0) (mr_code x))) by (intros y _; cbn; by case_match).
        rewrite Hr. cbn. by rewrite Z.eqb_refl.
      * unfold f. cbn. destruct (bool_decide (mr_name x = ""%string)) eqn:E1, (bool_decide (room_name r = mr_name x)) eqn:E2,
          (mr_capacity x =? 0) eqn:E3, (room_capacity r =? mr_capacity x) eqn:E4; b2p; cbn; split; intros; try done; lia.
  - split; [reflexivity|]. split_and!; try done. exists r. split; [done|].
    destruct (bool_decide (mr_name x = ""%string)) eqn:E1, (bool_decide (room_name r = mr_name x)) eqn:E2,
      (mr_capacity x =? 0) eqn:E3, (room_capacity r =? mr_capacity x) eqn:E4; b2p; cbn in Hch; split; intros; try done; lia.
Qed.
Lemma load_room_settles s x db :
  pk_unique (db_rooms db) →
  wp (load_room s x) (λ res db', match res with
    | inl _ => True
    | inr s' => row_set x db db' ∧ others (mr_code x) db db' ∧ ∃ c j, s' = counted s x c j ∧
        Z.of_nat (length (db_rooms db')) = Z.of_nat (length (db_rooms db)) + Z.b2z c
    end) db.
Proof.
  assert (∀ (l : list Building) db, tbl (set_tbl l db) = l) as T1 by done.
  assert (∀ (l : list Floor) db, tbl (set_tbl l db) = l) as T2 by done.
  intros Hpk. unfold RoomMaster.load_room. set (y := x).
  apply wp_bind, wp_goc; [done|intros k; by apply same_iff|done|]. intros b c Hb. cbv beta iota.
  pose proof (others_building (mr_code x) (ri_building_code (mr_info y), ri_building_name (mr_info y)) db) as X1.
  pose proof (same_rooms_building (ri_building_code (mr_info y), ri_building_name (mr_info y)) db) as R1.
  unfold ensure_building in X1, R1. set (db1 := exec _ db) in *.
  apply wp_bind, wp_goc; [done|intros k; cbn; by rewrite !Z.eqb_refl|done|]. intros fl c' Hf. cbv beta iota.
  pose proof (others_floor (mr_code x) (bld_pk b) (ri_floor (mr_info y)) db1) as X2. 
  pose proof (same_rooms_floor (bld_pk b) (ri_floor (mr_info y)) db1) as R2. unfold floor_goc in X2, R2.
  set (db2 := exec _ db1) in *. unfold same_rooms in R1, R2.
  apply wp_bind. eapply wp_mono; [apply generate_loop_wp|]. intros [e|[manual j]] db3 [-> _]; [done|]. cbv beta iota.
  destruct (ot_buildings _ _ _ X2 _ _ Hb) as (b' & Hb' & Eb). change (bld_pk b' = bld_pk b) in Eb.
  assert (pk_unique (db_rooms db2)) as Hpk2 by (rewrite R2, R1; done).
  pose proof (others_room x fl (tokens (ld_pos s)) manual db2) as X3. unfold room_goc, exec in X3. subst y.
  apply wp_bind. unfold wp at 1.
  destruct (get_or_create_cases (R:=Room) (λ r, same (room_code r) (mr_code x))
    (negb (longer 30 (mr_code x)) && negb (longer 120 (mr_name x)) && capacity_fits (mr_capacity x))
    (room_clash ci) (new_master_room x fl (tokens (ld_pos s)) manual) db2) as [(r & Hr & E)|[(Hp & Hc & E)|[e E]]];
    rewrite E in *; cbn [fst snd] in *; [| |done].
  - cbn [negb]. apply wp_bind. eapply wp_mono; [by apply refresh_settles|]. intros [e|[]] db4; [done|].
    intros (X4 & B4 & F4 & L4 & r' & Hr' & Hn & Hcap). cbv beta iota zeta. wp_step. split.
    { exists b', fl, r'. rewrite B4, F4, Eb. split_and!; try done. rewrite <- R1, <- R2. intros Hno. exfalso. cbn [tbl table_Room] in Hr. congruence. }
    split; [by transitivity db1; [|transitivity db2]|]. exists false, j. split; [done|]. rewrite L4, R2, R1. cbn. lia.
  - cbn [negb when]. wp_step. wp_step. wp_step. split.
    { exists b', fl, (new_master_room x fl (tokens (ld_pos s)) manual (fresh_pk (db_rooms db2))). rewrite Eb.
      split; [exact Hb'|]. split; [exact Hf|]. split; [|by split_and!].
      cbn [tbl set_tbl table_Room db_rooms] in *. cbn. rewrite select_app. rewrite Hp. cbn. unfold same_text. by rewrite bool_decide_true. }
    split; [by transitivity db1; [|transitivity db2]|]. exists true, j. split; [done|]. cbn. rewrite length_app, R2, R1. cbn. lia.
Qed.
(** A room that is as the list says is found, and nothing is written. *)
Lemma load_room_again s x db0 db :
  row_set x db0 db → wp (load_room s x) (λ res db', db' = db ∧
    match res with inr s' => ∃ j, s' = counted s x false j | inl e => out_of_codes e end) db.
Proof.
  intros (b & fl & r & Hb & Hf & Hr & Hn & Hcap & _). unfold RoomMaster.load_room.
  apply wp_bind. eapply wp_known; [exact Hb|]. cbv beta iota. apply wp_bind. eapply wp_known; [exact Hf|]. cbv beta iota.
  apply wp_bind. eapply wp_mono; [apply generate_loop_wp|]. intros [e|[manual j]] db3 [-> H]; cbv beta iota.
  { split; [done|]. destruct H as [-> _]. by eexists. }
  apply wp_bind. eapply wp_known; [exact Hr|]. cbv beta iota. cbn [negb]. unfold refresh.
  assert (name_changes x r = false) as ->.
  { unfold name_changes. destruct (decide (mr_name x = ""%string)) as [E|E]; [by rewrite (bool_decide_true _ E)|].
    rewrite (bool_decide_true (room_name r = _)) by auto. apply andb_false_r. }
  assert (capacity_changes x r = false) as ->.
  { unfold capacity_changes. destruct (mr_capacity x =? 0) eqn:E; [done|]. rewrite (proj2 (Z.eqb_eq _ _)); [done|]. apply Hcap. lia. }
  cbn [orb when]. wp_step. wp_step. wp_step. split; [done|]. by exists j.
Qed.
End streams.

(** ** A whole load *)
Lemma count_building_snoc parsed x :
  preview_buildings (parsed ++ [x]) = dict_set (preview_buildings parsed) (ri_building_code (mr_info x))
    (dict_getd (preview_buildings parsed) (ri_building_code (mr_info x)) 0 + 1).
Proof. unfold preview_buildings. by rewrite foldl_app. Qed.
Section whole.
Context (tokens : nat → string) (draws : nat → Z) (parsed : list MasterRoom).
Lemma ensure_buildings_wp db :
  wp (fold_m (λ _ b, ensure_building ci b ≫= λ _, mret ()) () all_buildings) (λ res db', ∀ u : unit, res = inr u →
    (∀ b, b ∈ all_buildings → building_known b.1 db') ∧ db_rooms db' = db_rooms db) db.
Proof.
  assert (∀ (l : list Building) db, tbl (set_tbl l db) = l) as T1 by done.
  eapply wp_mono; [apply (wp_fold_m all_buildings _ _ (λ l _ db', (∀ b, b ∈ l → building_known b.1 db') ∧ db_rooms db' = db_rooms db)
    (λ _ _, True))|].
  - split; [by intros b ?%not_elem_of_nil|done].
  - intros l b todo [] db1 _ [Hl HR]. apply wp_bind. pose proof (others_building "" b db1) as X. pose proof (same_rooms_building b db1) as R1.
    unfold same_rooms, ensure_building in *. apply wp_goc; [done|intros k; apply bool_decide_true; done|done|].
    intros r c Hr. cbv beta iota. wp_step. split; [|congruence].
    intros b' [Hb'| ->%list_elem_of_singleton]%elem_of_app; [|by exists r]. eapply building_known_others; [exact X|by apply Hl].
  - by intros [e|[]] db' H u [=].
Qed.
Lemma ensure_buildings_again db :
  (∀ b, b ∈ all_buildings → building_known b.1 db) →
  fold_m (λ _ b, ensure_building ci b ≫= λ _, mret ()) () all_buildings db = (inr (), db).
Proof.
  generalize all_buildings as l. induction l as [|b l IH]; intros Hl; [done|]. cbn [fold_m].
  destruct (Hl b ltac:(left)) as [r Hr]. erewrite bind_run; [apply IH; intros; apply Hl; by right|].
  erewrite bind_run by (unfold ensure_building; apply get_or_create_found; exact Hr). done.
Qed.
Lemma load_rooms_settle db :
  pk_unique (db_rooms db) → NoDup ((λ x, ci (mr_code x)) <$> parsed) →
  wp (load_rooms ci tokens draws parsed) (λ res db', match res with
    | inl _ => db' = db
    | inr s => kept db db' ∧ (∀ b, b ∈ all_buildings → building_known b.1 db') ∧ (∀ x, x ∈ parsed → row_set x db db') ∧
        ld_created s + ld_updated s = Z.of_nat (length parsed) ∧ ld_buildings s = preview_buildings parsed ∧
        Z.of_nat (length (db_rooms db')) = Z.of_nat (length (db_rooms db)) + ld_created s
    end) db.
Proof.
  intros Hpk Hnd. unfold load_rooms.
  match goal with |- context [atomic ?m] => set (body := m) end.
  assert (respects kept body) as Hkept.
  { apply respects_bind; [exact _| |intros _; apply respects_fold_m; [exact _|intros; apply kept_load_room]].
    apply respects_fold_m; [exact _|]. intros [] b _. apply respects_bind; [exact _|apply kept_building|intros _; apply respects_ret; exact _]. }
  assert (wp body (λ res db', match res with
    | inl _ => True
    | inr s => (∀ b, b ∈ all_buildings → building_known b.1 db') ∧ (∀ x, x ∈ parsed → row_set x db db') ∧
        ld_created s + ld_updated s = Z.of_nat (length parsed) ∧ ld_buildings s = preview_buildings parsed ∧
        Z.of_nat (length (db_rooms db')) = Z.of_nat (length (db_rooms db)) + ld_created s
    end) db) as Hwp.
  { unfold body. apply wp_bind. eapply wp_mono; [apply ensure_buildings_wp|]. intros [e|[]] db1 H; [done|].
    destruct (H () eq_refl) as [Hb HR]. cbv beta iota.
    eapply wp_mono; [apply (wp_fold_m parsed _ _ (λ l s db', pk_unique (db_rooms db') ∧ (∀ b, b ∈ all_buildings → building_known b.1 db') ∧
      (∀ x, x ∈ l → row_set x db db') ∧
      (∀ c, (∀ y, y ∈ l → ci (mr_code y) ≠ ci c) → select (λ r, same (room_code r) c) (db_rooms db') = select (λ r, same (room_code r) c) (db_rooms db)) ∧
      ld_created s + ld_updated s = Z.of_nat (length l) ∧ ld_buildings s = preview_buildings l ∧
      Z.of_nat (length (db_rooms db')) = Z.of_nat (length (db_rooms db)) + ld_created s) (λ _ _, True))|].
    - split_and!; [by rewrite HR|done|by intros x ?%not_elem_of_nil|by rewrite HR|done|done|rewrite HR; cbn; lia].
    - intros l x todo s db2 Hl (Hu & Hk & Hs & Hsame & Hsum & Hp & Hlen).
      assert (∀ y, y ∈ l → ci (mr_code y) ≠ ci (mr_code x)) as Hfresh.
      { intros y Hy He. rewrite Hl, fmap_app, fmap_cons in Hnd. apply NoDup_app in Hnd as (_ & Hnd & _). apply (Hnd (ci (mr_code y))).
        - apply list_elem_of_fmap. by exists y.
        - rewrite He. left. } eapply wp_mono; [by apply load_room_settles|].
      intros [e|s'] db3; [done|]. intros (Hx & X & c & j & -> & Hc). cbn [ld_created ld_updated ld_buildings]. split_and!.
      + by apply (ot_pk _ _ _ X).
      + intros b Hbb. eapply building_known_others; [exact X|by apply Hk].
      + intros y [Hy| ->%list_elem_of_singleton]%elem_of_app; [eapply row_set_others; [exact X|by apply Hfresh|by apply Hs]|].
        eapply row_set_since; [|exact Hx]. by apply Hsame.
      + intros k Hk'. rewrite (ot_rooms _ _ _ X), Hsame; [done| |].
        * intros y Hy. apply Hk'. apply elem_of_app. by left.
        * intros He. apply (Hk' x); [apply elem_of_app; right; left|done].
      + rewrite length_app. cbn. destruct c; cbn; lia.
      + by rewrite count_building_snoc, Hp.
      + lia.
    - intros [e|s] db2; [done|]. tauto. }
  specialize (Hkept db). unfold exec in Hkept. unfold wp, atomic in *. destruct (body db) as [[e|s] db']; cbn in *; [done|tauto].
Qed.
Lemma load_rooms_again db0 db :
  (∀ b, b ∈ all_buildings → building_known b.1 db) → (∀ x, x ∈ parsed → row_set x db0 db) →
  wp (load_rooms ci tokens draws parsed) (λ res db', db' = db ∧ match res with
    | inl e => out_of_codes e
    | inr s => ld_created s = 0 ∧ ld_updated s = Z.of_nat (length parsed) ∧ ld_buildings s = preview_buildings parsed
    end) db.
Proof.
  intros Hb Hx. unfold load_rooms. apply wp_atomic. apply wp_bind. eapply wp_of_eq; [by apply ensure_buildings_again|]. cbv beta iota.
  eapply wp_mono; [apply (wp_fold_m parsed _ _ (λ l s db', db' = db ∧ ld_created s = 0 ∧ ld_updated s = Z.of_nat (length l) ∧
    ld_buildings s = preview_buildings l) (λ e db', db' = db ∧ out_of_codes e))|].
  - done.
  - intros l x todo s db1 Hl (-> & H1 & H2 & H3). eapply wp_mono; [eapply load_room_again, Hx; rewrite Hl; apply elem_of_app; right; left|].
    intros [e|s'] db2 [-> H]; [done|]. destruct H as [j ->]. cbn [ld_created ld_updated ld_buildings]. split_and!; [done|cbn; lia| |].
    + rewrite length_app. cbn. lia.
    + by rewrite count_building_snoc, H3.
  - intros [e|s] db1; [by intros [_ H]|tauto].
Qed.
End whole.
End loading.

(** C20: The command over a file it can read, whose rooms have different codes (up to the
    collation): a dry run writes nothing and prints the list it would load; a load that fails
    leaves the database as it was.  After a load that succeeds there is exactly one room of
    each code of the list, with the name and the capacity the list gives it, and a room that
    was not there before is in service on the floor of the list; the load only adds rooms,
    floors and buildings, and keeps of every room that was there all but the name and the
    capacity — its floor and the printed codes above all — and its counts are those of the
    rows.  Loading the same list again creates nothing and writes nothing, whatever the
    random generator draws, unless it finds no free manual code, which it draws even for a
    room it will not create. *)
Theorem room_master_exact ci tokens draws file parsed skipped db :
  (file : result Archive) ≫= read_master = inr (parsed, skipped) →
  pk_unique (db_rooms db) → NoDup ((λ x, ci (mr_code x)) <$> parsed) →
  let report counts := master_report parsed skipped counts (preview_buildings parsed) in
  let rows := Z.of_nat (length parsed) in
  load_room_master ci tokens draws file true db = (inr (report None), db) ∧
  wp (load_room_master ci tokens draws file false) (λ res db', match res with
    | inl _ => db' = db
    | inr r => kept db db' ∧ (∀ x, x ∈ parsed → row_set ci x db db') ∧
        r = report (Some (let created := Z.of_nat (length (db_rooms db')) - Z.of_nat (length (db_rooms db)) in (created, rows - created))) ∧
        ∀ tokens' draws', wp (load_room_master ci tokens' draws' file false) (λ res db'', db'' = db' ∧ match res with
          | inl e => out_of_codes e
          | inr r => r = report (Some (0, rows))
          end) db'
    end) db.
Proof.
  intros Hf Hpk Hnd. cbv zeta. unfold load_room_master. rewrite Hf. split; [done|].
  apply wp_bind. eapply wp_mono; [by apply load_rooms_settle|]. intros [e|s] db'; [done|].
  intros (Hk & Hb & Hx & Hsum & Hp & Hlen). cbv beta iota. apply wp_ret. rewrite Hp. split_and!; [done|done| |].
  - do 3 f_equal; [lia|]. f_equal. lia.
  - intros tokens' draws'. apply wp_bind. eapply wp_mono; [by eapply load_rooms_again|]. intros [e|s'] db'' [-> H]; [done|].
    destruct H as (H1 & H2 & H3). cbv beta iota. apply wp_ret. split; [done|]. by rewrite H1, H2, H3.
Qed.

(** A room that is there is renamed and keeps its codes, another is new, and the same list
    again changes nothing. *)
Definition master_sheet (name cap : string) : Rows := [(3, [mk_cell 2 Shared name; mk_cell 14 Plain cap])].
Definition master_book : Workbook :=
  [("Lecture Summary", []); ("R101", master_sheet "Lab A" "35.0"); ("U101", master_sheet "" "n/a")]%string.
Definition master_db : DB := demo_db <| db_rooms := [demo_room 7 "r101"] |>.
Definition parsed_book : list MasterRoom := says_room <$> [("R101", master_sheet "Lab A" "35.0"); ("U101", master_sheet "" "n/a")]%string.
Lemma room_master_exact_witness :
  let file := inr (workbook_file "urn:main" master_book) in
  let load n := load_room_master PyStr.lower (λ i, PyStr.str (n + Z.of_nat i)) (λ i, n + Z.of_nat i) file false in
  let first := load 10 master_db in
  file ≫= read_master = inr (parsed_book, ["Lecture Summary"%string]) ∧ pk_unique (db_rooms master_db) ∧
  NoDup ((λ x, PyStr.lower (mr_code x)) <$> parsed_book) ∧
  ((λ r, (room_pk r, room_code r, room_name r, room_capacity r)) <$> db_rooms first.2) =
    [(7, "r101", "Lab A", 35); (8, "U101", "", 0)]%string ∧
  wp (load 50) (λ _ db', db' = first.2) first.2.
Proof.
  cbv zeta. set (file := inr (workbook_file "urn:main" master_book)).
  assert (file ≫= read_master = inr (parsed_book, ["Lecture Summary"%string])) as Hf by (vm_compute; reflexivity).
  assert (pk_unique (db_rooms master_db)) as Hpk by (apply (bool_decide_unpack _); vm_compute; exact I).
  assert (NoDup ((λ x, PyStr.lower (mr_code x)) <$> parsed_book)) as Hnd by (apply (bool_decide_unpack _); vm_compute; exact I).
  do 3 (split; [assumption|]). split; [vm_compute; reflexivity|].
  destruct (room_master_exact PyStr.lower (λ i, PyStr.str (10 + Z.of_nat i)) (λ i, 10 + Z.of_nat i) file _ _ master_db Hf Hpk Hnd) as [_ H].
  set (m := load_room_master PyStr.lower (λ i, PyStr.str (10 + Z.of_nat i)) (λ i, 10 + Z.of_nat i) file false) in *.
  assert (∃ r db', m master_db = (inr r, db')) as (r & db' & Hm).
  { assert (match (m master_db).1 with inl _ => false | inr _ => true end = true) as Hok by (vm_compute; reflexivity).
    clearbody m. destruct (m master_db) as [[e|r] db']; [done|eauto]. }
  unfold wp in H at 1. rewrite Hm in H. destruct H as (_ & _ & _ & H).
  rewrite Hm. cbn [snd]. eapply wp_mono; [apply H|]. by intros r' db'' [-> _].
Defined.
(** A tab is a room by its name alone; a capacity that is no number is none, and an infinite
    one stops the command. *)
Example tabs_and_capacities :
  (is_room_tab <$> ["R101"; "GYM"; "404"; "U101"; "Lecture Summary"; "Lab Summary"; "Admin notes"; "Room list"]%string) =
    [true; true; true; true; false; false; true; true] ∧
  (parse_capacity <$> ["40.0"; ""; "forty"; "-3"; "inf"]%string) = [inr 40; inr 0; inr 0; inr (-3); inl OverflowErr].
Proof. vm_compute. done. Qed.
