(* ===== verification/Photos.v ===== *)
(** accounts/photos.py and the profile pages of web/faculty.py: the identity photo of a
    faculty member, from the uploaded bytes to the stored file.

    The image library is an interface ([Pillow]): what it does with bytes and images, and the
    ways it fails.  A site is the database, the photo column of the accounts, the stored
    files and the library's process-wide limit of pixels. *)
From S2P Require Import Prelude Python Model Effects Ops Sample Web Faculty.
From Stdlib Require Import Ascii String.
From stdpp Require Import strings gmap.
Open Scope Z_scope.

Definition MAX_PHOTO_BYTES : Z := 5 * 1024 * 1024.
Definition ALLOWED_FORMATS : list string := ["JPEG"; "PNG"]%string.
Definition TARGET : Z * Z := (512, 512).
Definition MAX_IMAGE_PIXELS : Z := 40000000.
Definition JPEG_QUALITY : Z := 85.
Definition BAD_IMAGE : string := "That file is not a readable JPEG or PNG photo. Please choose another.".
Definition BAD_FORMAT : string := "Only JPEG and PNG photos are accepted.".
Definition TOO_BIG : string :=
  "That photo is too large. Please choose one under " +:+ PyStr.str (MAX_PHOTO_BYTES / (1024 * 1024)) +:+ " MB.".
Definition TOO_MANY_PIXELS : string := "That photo has too many pixels to process. Please choose a smaller one.".

(** ** The image library

    [open_image] reads a header, under a limit of pixels and with its warning raised as an
    error; the other operations are those of an open image. *)
Inductive img_error :=
  | DecompressionBombWarning | DecompressionBombError | UnidentifiedImageError
  | ImgOSError | ImgValueError | ImgSyntaxError | OtherError.
Class Pillow (image : Type) := {
  open_image : Z → string → img_error + image;
  image_size : image → Z * Z;
  image_format : image → string;
  verify : image → img_error + unit;
  exif_transpose : image → img_error + image;
  convert_rgb : image → img_error + image;
  thumbnail : Z * Z → image → img_error + image;
  save_jpeg : Z → image → img_error + string
}.
(** A thumbnail fits in the box it is given. *)
Class PillowLaws (image : Type) `{Pillow image} :=
  thumbnail_fits box i j : thumbnail box i = inr j → (image_size j).1 ≤ box.1 ∧ (image_size j).2 ≤ box.2.

(** What the module raises: a refusal with its message, or what the library raised *)
Inductive photo_error := PhotoError (msg : string) | Unforeseen (e : img_error).
Definition photo_result (A : Type) : Type := photo_error + A.
#[global] Instance photo_result_ret : MRet photo_result := λ A a, inr a.
#[global] Instance photo_result_bind : MBind photo_result := λ A B k m, match m with inl e => inl e | inr a => k a end.
Definition lift {A} (m : img_error + A) : photo_result A := match m with inl e => inl (Unforeseen e) | inr a => inr a end.
Definition require_photo (b : bool) (msg : string) : photo_result unit := if b then inr () else inl (PhotoError msg).

(** An uploaded file: the size it declares, if any, and its bytes *)
Record PhotoFile := { ph_declared : option Z; ph_data : string }.
(** [fileobj.read(n)] *)
Fixpoint read_bytes (n : Z) (l : list ascii) : list ascii :=
  match l with
  | [] => []
  | c :: l => if n <=? 0 then [] else c :: read_bytes (n - 1) l
  end.
Definition capped_bytes (f : PhotoFile) : photo_result string :=
  require_photo (match ph_declared f with Some n => n <=? MAX_PHOTO_BYTES | None => true end) TOO_BIG ≫= λ _,
  let data := PyStr.of_list (read_bytes (MAX_PHOTO_BYTES + 1) (PyStr.to_list (ph_data f))) in
  require_photo (PyStr.len data <=? MAX_PHOTO_BYTES) TOO_BIG ≫= λ _,
  require_photo (negb (bool_decide (data = ""%string))) BAD_IMAGE ≫= λ _,
  mret data.

Section photos.
Context {image : Type} `{Pillow image}.

Definition decode_and_reencode (limit : Z) (data : string) : photo_result string :=
  lift (open_image limit data) ≫= λ probe,
  let declared_pixels := (image_size probe).1 * (image_size probe).2 in
  lift (verify probe) ≫= λ _,
  require_photo (declared_pixels <=? MAX_IMAGE_PIXELS) TOO_MANY_PIXELS ≫= λ _,
  lift (open_image limit data) ≫= λ img,
  require_photo (bool_decide (image_format img ∈ ALLOWED_FORMATS)) BAD_FORMAT ≫= λ _,
  lift (exif_transpose img) ≫= λ img,
  lift (convert_rgb img) ≫= λ img,
  lift (thumbnail TARGET img) ≫= λ img,
  lift (save_jpeg JPEG_QUALITY img).
(** The handlers around it: what the library is known to raise becomes a refusal. *)
Definition photo_refusal (e : photo_error) : photo_error :=
  match e with
  | PhotoError msg => PhotoError msg
  | Unforeseen (DecompressionBombWarning | DecompressionBombError) => PhotoError TOO_MANY_PIXELS
  | Unforeseen (UnidentifiedImageError | ImgOSError | ImgValueError | ImgSyntaxError) => PhotoError BAD_IMAGE
  | Unforeseen OtherError => Unforeseen OtherError
  end.
(** The answer, and the limit of pixels it leaves *)
Definition normalize_profile_photo (f : PhotoFile) (limit : Z) : photo_result string * Z :=
  match capped_bytes f with
  | inl e => (inl e, limit)
  | inr data =>
      let previous_limit := limit in
      let limit := MAX_IMAGE_PIXELS in
      let r := match decode_and_reencode limit data with inl e => inl (photo_refusal e) | inr out => inr out end in
      let limit := previous_limit in
      (r, limit)
  end.

(** ** The profile pages *)
Record Site := { si_db : DB; si_photos : gmap Z string; si_files : gmap string string; si_limit : Z }.
(** [available] is the storage's choice of a free name, [removable] whether it can delete a
    file, [modified] its time of change in seconds. *)
Context (available : string → gmap string string → string) (removable : string → bool) (modified : string → option Z).
Definition photo_version (name : string) : Z := default 0 (modified name).
(** What the page shows: the photo and its version, an error, whether it was saved *)
Record ProfileContext := { pc_photo : option string; pc_version : Z; pc_error : option string; pc_saved : bool }.
Definition profile_ctx (user : User) (error : option string) (saved : bool) (s : Site) : ProfileContext :=
  let photo := si_photos s !! usr_pk user in
  {| pc_photo := photo; pc_version := match photo with Some n => photo_version n | None => 0 end;
     pc_error := error; pc_saved := saved |}.
(** A refusal of the role, the page or its status region (at 400 when it has an error), or an
    error of the server *)
Inductive profile_page := ProfileForbidden | Profile (ctx : ProfileContext) | ProfileCrash.
Definition profile (user : User) (s : Site) : profile_page :=
  if bool_decide (usr_role user ≠ FACULTY) && negb (usr_superuser user) then ProfileForbidden
  else Profile (profile_ctx user None false s).
Definition store_photo (user : User) (data : string) (s : Site) : Site :=
  let old_name := default ""%string (si_photos s !! usr_pk user) in
  let name := available ("profile_photos/" +:+ PyStr.str (usr_pk user) +:+ ".jpg") (si_files s) in
  let files := <[name := data]> (si_files s) in
  let files := if negb (bool_decide (old_name = ""%string)) && negb (bool_decide (old_name = name)) && removable old_name
               then delete old_name files else files in
  {| si_db := exec (audit (Some (usr_pk user)) "user.photo_updated" "user" (PyStr.str (usr_pk user))
                (JObj [("user", JInt (usr_pk user)); ("bytes", JInt (PyStr.len data))]%string)) (si_db s);
     si_photos := <[usr_pk user := name]> (si_photos s); si_files := files; si_limit := si_limit s |}.
Definition profile_photo_upload (user : User) (upload : option PhotoFile) (s : Site) : profile_page * Site :=
  if bool_decide (usr_role user ≠ FACULTY) && negb (usr_superuser user) then (ProfileForbidden, s)
  else match upload with
  | None => (Profile (profile_ctx user (Some "Choose a JPEG or PNG photo to upload."%string) false s), s)
  | Some f =>
      let '(r, limit) := normalize_profile_photo f (si_limit s) in
      let s := {| si_db := si_db s; si_photos := si_photos s; si_files := si_files s; si_limit := limit |} in
      match r with
      | inl (PhotoError msg) => (Profile (profile_ctx user (Some msg) false s), s)
      | inl (Unforeseen _) => (ProfileCrash, s)
      | inr data => let s := store_photo user data s in (Profile (profile_ctx user None true s), s)
      end
  end.

(** ** What is stored is what the encoder wrote *)
Lemma require_photo_ok b msg {A} (k : unit → photo_result A) r :
  (require_photo b msg ≫= k) = r → (b = true ∧ k () = r) ∨ (b = false ∧ r = inl (PhotoError msg)).
Proof. destruct b; cbn; intros <-; auto. Qed.
Lemma length_read_bytes n l : 0 ≤ n → Z.of_nat (length (read_bytes n l)) = n `min` Z.of_nat (length l) ∧
  (Z.of_nat (length l) ≤ n → read_bytes n l = l).
Proof.
  revert n. induction l as [|c l IH]; intros n Hn; cbn [read_bytes]; [split; [cbn; lia|done]|].
  destruct (n <=? 0) eqn:E; [split; [cbn; lia|]; cbn; lia|]. destruct (IH (n - 1)) as [H1 H2]; [lia|].
  split; [cbn [length]; lia|]. cbn [length]. intros Hl. f_equal. apply H2. lia.
Qed.
Lemma capped_bytes_exact f :
  match capped_bytes f with
  | inr data => data = ph_data f ∧ data ≠ ""%string ∧ PyStr.len data ≤ MAX_PHOTO_BYTES ∧ ∀ n, ph_declared f = Some n → n ≤ MAX_PHOTO_BYTES
  | inl e => (e = PhotoError TOO_BIG ∧ ((∃ n, ph_declared f = Some n ∧ MAX_PHOTO_BYTES < n) ∨ MAX_PHOTO_BYTES < PyStr.len (ph_data f)))
             ∨ (e = PhotoError BAD_IMAGE ∧ ph_data f = ""%string)
  end.
Proof.
  unfold capped_bytes. set (data := PyStr.of_list _).
  destruct (length_read_bytes (MAX_PHOTO_BYTES + 1) (PyStr.to_list (ph_data f)) ltac:(done)) as [Hlen Hall].
  assert (PyStr.len data = (MAX_PHOTO_BYTES + 1) `min` PyStr.len (ph_data f)) as Hdata.
  { unfold PyStr.len, data. by rewrite PyStr.length_of_list, Hlen, PyStr.length_to_list. }
  assert (PyStr.len data ≤ MAX_PHOTO_BYTES → data = ph_data f) as Heq.
  { intros Hle. unfold data. rewrite Hall, PyStr.of_to_list; [done|]. rewrite PyStr.length_to_list. unfold PyStr.len in *. lia. }
  clearbody data. destruct (match ph_declared f with Some n => n <=? MAX_PHOTO_BYTES | None => true end) eqn:E1.
  - cbn [require_photo mbind photo_result_bind]. destruct (PyStr.len data <=? MAX_PHOTO_BYTES) eqn:E2; cbn [require_photo mbind photo_result_bind].
    + assert (data = ph_data f) as -> by (apply Heq; lia). case_bool_decide as E3; cbn; [by right|].
      split_and!; [done|done|lia|]. intros n Hn. rewrite Hn in E1. lia.
    + left. split; [done|]. right. lia.
  - cbn. left. split; [done|]. left. destruct (ph_declared f) as [n|]; [|done]. exists n. split; [done|]. lia.
Qed.
(** The way from the bytes to the encoder: each step, with what it was given *)
Lemma decode_exact limit data :
  match decode_and_reencode limit data with
  | inr out => ∃ img a b small, open_image limit data = inr img ∧ (image_size img).1 * (image_size img).2 ≤ MAX_IMAGE_PIXELS ∧
      image_format img ∈ ALLOWED_FORMATS ∧ exif_transpose img = inr a ∧ convert_rgb a = inr b ∧
      thumbnail TARGET b = inr small ∧ save_jpeg JPEG_QUALITY small = inr out
  | inl (PhotoError msg) => (msg = TOO_MANY_PIXELS ∨ msg = BAD_FORMAT)
  | inl (Unforeseen e) => True
  end.
Proof.
  unfold decode_and_reencode. destruct (open_image limit data) as [e|img] eqn:E0; [done|]. cbn [lift mbind photo_result_bind].
  destruct (verify img) as [e|[]]; [done|]. cbn [lift mbind photo_result_bind].
  destruct (_ <=? MAX_IMAGE_PIXELS) eqn:E1; [|cbn; by left]. cbn [require_photo lift mbind photo_result_bind].
  case_bool_decide as E2; [|cbn; by right]. cbn [require_photo lift mbind photo_result_bind].
  destruct (exif_transpose img) as [e|a] eqn:E3; [done|]. cbn [lift mbind photo_result_bind].
  destruct (convert_rgb a) as [e|b] eqn:E4; [done|]. cbn [lift mbind photo_result_bind].
  destruct (thumbnail TARGET b) as [e|small] eqn:E5; [done|]. cbn [lift mbind photo_result_bind].
  destruct (save_jpeg JPEG_QUALITY small) as [e|out] eqn:E6; [done|]. cbn.
  exists img, a, b, small. split_and!; try done. lia.
Qed.
(** A photo that is accepted is what the encoder wrote for a thumbnail of the decoded
    upload, in the box of the page, never the bytes that were sent; the upload was neither
    empty nor over the limit, by its word or in fact, of few enough pixels, and a JPEG or a
    PNG by its content.  A refusal has one of four messages, an exception gets out only
    if the library fails in a way nobody foresaw, and the library's own limit is what it was
    before, whatever happens. *)
Theorem normalize_exact `{!PillowLaws image} f limit :
  (normalize_profile_photo f limit).2 = limit ∧
  match (normalize_profile_photo f limit).1 with
  | inr out => ph_data f ≠ ""%string ∧ PyStr.len (ph_data f) ≤ MAX_PHOTO_BYTES ∧ (∀ n, ph_declared f = Some n → n ≤ MAX_PHOTO_BYTES) ∧
      ∃ img small, open_image MAX_IMAGE_PIXELS (ph_data f) = inr img ∧ (image_size img).1 * (image_size img).2 ≤ MAX_IMAGE_PIXELS ∧
        image_format img ∈ ALLOWED_FORMATS ∧ save_jpeg JPEG_QUALITY small = inr out ∧
        (image_size small).1 ≤ 512 ∧ (image_size small).2 ≤ 512
  | inl (PhotoError msg) => msg ∈ [TOO_BIG; BAD_IMAGE; TOO_MANY_PIXELS; BAD_FORMAT]
  | inl (Unforeseen e) => e = OtherError
  end.
Proof.
  pose proof (capped_bytes_exact f) as Hc. unfold normalize_profile_photo. destruct (capped_bytes f) as [e|data].
  { split; [done|]. cbn. destruct Hc as [[-> _]|[-> _]]; [left|right; left]. }
  destruct Hc as (-> & Hne & Hlen & Hdecl). cbv zeta. cbn [fst snd]. split; [done|].
  pose proof (decode_exact MAX_IMAGE_PIXELS (ph_data f)) as Hd. destruct (decode_and_reencode MAX_IMAGE_PIXELS (ph_data f)) as [[msg|e]|out].
  - cbn. destruct Hd as [->| ->]; [do 2 right; left|do 3 right; left].
  - cbn. destruct e; cbn; try done; first [by (do 2 right; left) | by (right; left)].
  - destruct Hd as (img & a & b & small & Ho & Hpx & Hf & _ & _ & Ht & Hs). apply thumbnail_fits in Ht as [H1 H2].
    split_and!; [done..|]. by exists img, small.
Qed.

(** ** Uploading *)

(** Every photo of an account is a stored file, and of that account alone. *)
Definition photos_ok (s : Site) : Prop :=
  (∀ k n, si_photos s !! k = Some n → is_Some (si_files s !! n)) ∧
  ∀ j k n, si_photos s !! j = Some n → si_photos s !! k = Some n → j = k.
Lemma store_photo_ok user data s :
  (∀ n files, files !! available n files = None) → photos_ok s →
  let s' := store_photo user data s in
  photos_ok s' ∧ (∃ name, si_photos s' = <[usr_pk user := name]> (si_photos s) ∧ si_files s' !! name = Some data ∧ si_files s !! name = None) ∧
  (∀ k n, k ≠ usr_pk user → si_photos s !! k = Some n → si_files s' !! n = si_files s !! n) ∧
  (∀ n, si_photos s !! usr_pk user = Some n → n ≠ ""%string → removable n = true → si_files s' !! n = None).
Proof.
  intros Hav [Hst Hinj]. cbv zeta. unfold store_photo. set (old := default ""%string (si_photos s !! usr_pk user)).
  set (name := available _ (si_files s)). assert (si_files s !! name = None) as Hnew by apply Hav.
  assert (∀ k n, si_photos s !! k = Some n → n ≠ name) as Hfresh.
  { intros k n Hk ->. destruct (Hst _ _ Hk) as [x Hx]. congruence. }
  cbn [si_photos si_files si_db si_limit].
  set (files := if _ : bool then delete old (<[name:=data]> (si_files s)) else <[name:=data]> (si_files s)).
  assert (∀ n, (n = old → old = ""%string ∨ old = name) → files !! n = <[name:=data]> (si_files s) !! n) as Hfiles.
  { intros n Hn. unfold files. destruct (negb _ && negb _ && _) eqn:E; [|done].
    apply andb_prop in E as [[E1%negb_true_iff E2%negb_true_iff]%andb_prop _]. b2p. apply lookup_delete_ne. intros <-. tauto. }
  assert (files !! name = Some data) as Hname.
  { rewrite Hfiles by (intros ->; by right). apply lookup_insert_eq. }
  assert (∀ k n, k ≠ usr_pk user → si_photos s !! k = Some n → files !! n = si_files s !! n) as Hother.
  { intros k n Hk Hn. pose proof (Hfresh _ _ Hn). rewrite Hfiles; [by rewrite lookup_insert_ne|]. intros ->. left.
    unfold old in *. destruct (si_photos s !! usr_pk user) as [o|] eqn:Eo; [|done]. cbn in Hn. by destruct (Hk (Hinj _ _ _ Hn Eo)). }
  split_and!.
  - split.
    + intros k n. cbn. destruct (decide (k = usr_pk user)) as [->|Hk].
      * rewrite lookup_insert_eq. intros [= <-]. by rewrite Hname.
      * rewrite lookup_insert_ne by done. intros Hn. rewrite (Hother k n Hk Hn). by eapply Hst.
    + intros j k n. cbn. destruct (decide (j = usr_pk user)) as [->|Hj], (decide (k = usr_pk user)) as [->|Hk]; [done|..].
      * rewrite lookup_insert_eq, lookup_insert_ne by done. intros [= <-] Hn. by destruct (Hfresh _ _ Hn).
      * rewrite lookup_insert_eq, lookup_insert_ne by done. intros Hn [= <-]. by destruct (Hfresh _ _ Hn).
      * rewrite !lookup_insert_ne by done. apply Hinj.
  - by exists name.
  - exact Hother.
  - intros n Hn Hne Hrm. pose proof (Hfresh _ _ Hn) as Hnn. unfold files, old. rewrite Hn. cbn [default]. unfold id.
    rewrite !bool_decide_false, Hrm by done. cbn. apply lookup_delete_eq.
Qed.
(** An upload that is answered with success has replaced the photo of the requester, and of
    nobody else, whatever else the request holds: the account points to a file of its own
    with the encoder's bytes, the file it replaces is gone unless the storage would not let
    it, everybody else's photo is as it was, and the audit log has one row more, with the
    number of bytes and not the photo.  Any other answer leaves the site as it was. *)
Theorem photo_upload_exact user upload s :
  (∀ n files, files !! available n files = None) → photos_ok s →
  let '(page, s') := profile_photo_upload user upload s in
  photos_ok s' ∧
  if match page with Profile ctx => pc_saved ctx | _ => false end then
    plays FACULTY user ∧ ∃ f data name, upload = Some f ∧ (normalize_profile_photo f (si_limit s)).1 = inr data ∧
      si_photos s' = <[usr_pk user := name]> (si_photos s) ∧ si_files s' !! name = Some data ∧ si_files s !! name = None ∧
      (∀ k n, k ≠ usr_pk user → si_photos s !! k = Some n → si_files s' !! n = si_files s !! n) ∧
      (∀ n, si_photos s !! usr_pk user = Some n → n ≠ ""%string → removable n = true → si_files s' !! n = None) ∧
      ∃ row, si_db s' = (si_db s) <| db_audit := db_audit (si_db s) ++ [row] |> ∧ log_event row = "user.photo_updated"%string ∧
        log_actor row = Some (usr_pk user) ∧ log_payload row = JObj [("user", JInt (usr_pk user)); ("bytes", JInt (PyStr.len data))]%string
  else s' = s.
Proof.
  intros Hav Hok. unfold profile_photo_upload. destruct (_ && _) eqn:Er; [done|]. apply role_plays in Er.
  destruct upload as [f|]; [|done].
  assert ((normalize_profile_photo f (si_limit s)).2 = si_limit s) as Hlim by (unfold normalize_profile_photo; by destruct (capped_bytes f)).
  destruct (normalize_profile_photo f (si_limit s)) as [r limit] eqn:En. cbn [snd] in Hlim. subst limit.
  replace {| si_db := si_db s; si_photos := si_photos s; si_files := si_files s; si_limit := si_limit s |} with s by by destruct s.
  destruct r as [[msg|e]|data]; [done..|]. destruct (store_photo_ok user data s Hav Hok) as (H1 & (name & H2 & H3 & H4) & H5 & H6).
  cbn [profile_ctx pc_saved]. split; [done|]. split; [done|]. exists f, data, name. rewrite H2. split_and!; try done; [by rewrite En|].
  unfold store_photo. cbn [si_db]. eexists. split; [reflexivity|done].
Qed.
End photos.

(** ** A concrete library: a text that begins with J or P is a photo of that format, with as
    many columns as it has characters *)
Record DemoImage := mk_image { di_size : Z * Z; di_format : string }.
#[local] Instance demo_pillow : Pillow DemoImage := {
  open_image limit data :=
    if PyStr.startswith data "J" then inr (mk_image (PyStr.len data, 600) "JPEG")
    else if PyStr.startswith data "P" then inr (mk_image (PyStr.len data, 600) "PNG")
    else if PyStr.startswith data "G" then inr (mk_image (PyStr.len data, 600) "GIF") else inl UnidentifiedImageError;
  image_size := di_size;
  image_format := di_format;
  verify _ := inr ();
  exif_transpose := inr;
  convert_rgb := inr;
  thumbnail box i := inr (mk_image ((di_size i).1 `min` box.1, (di_size i).2 `min` box.2) (di_format i));
  save_jpeg q i := inr ("jpeg " +:+ PyStr.str (di_size i).1 +:+ "x" +:+ PyStr.str (di_size i).2)
}.
#[local] Instance demo_pillow_laws : PillowLaws DemoImage.
Proof. intros box i j [= <-]. cbn. lia. Qed.
Lemma normalize_exact_witness :
  let f := {| ph_declared := Some 20; ph_data := "Jphoto with metadata" |} in
  normalize_profile_photo f 7 = (inr "jpeg 20x512"%string, 7) ∧ (normalize_profile_photo f 7).2 = 7 ∧
  fst (normalize_profile_photo {| ph_declared := Some 6000000; ph_data := "J" |} 7) = inl (PhotoError TOO_BIG) ∧
  fst (normalize_profile_photo {| ph_declared := None; ph_data := "GIF" |} 7) = inl (PhotoError BAD_FORMAT) ∧
  fst (normalize_profile_photo {| ph_declared := None; ph_data := "%PDF" |} 7) = inl (PhotoError BAD_IMAGE).
Proof.
  cbv zeta. split; [vm_compute; reflexivity|].
  destruct (normalize_exact {| ph_declared := Some 20; ph_data := "Jphoto with metadata" |} 7) as [H _].
  split; [exact H|]. split_and!; vm_compute; reflexivity.
Defined.
(** The storage's names: the one asked for or a longer one that is free *)
Definition longest (files : gmap string string) : nat := map_fold (λ n _ m, Nat.max (String.length n) m) 0%nat files.
Definition padded (n : string) (files : gmap string string) : string :=
  match files !! n with None => n | Some _ => n +:+ PyStr.of_list (repeat "_"%char (S (longest files))) end.
Lemma longest_ge files n x : files !! n = Some x → (String.length n ≤ longest files)%nat.
Proof.
  unfold longest. revert n x. induction files as [|k y m Hk IH] using map_ind; intros n x; [by rewrite lookup_empty|].
  rewrite map_fold_insert_L; [|intros; lia|done]. destruct (decide (n = k)) as [->|Hne]; [lia|].
  rewrite lookup_insert_ne by done. intros Hn. specialize (IH n x Hn). lia.
Qed.
Lemma padded_free n files : files !! padded n files = None.
Proof.
  unfold padded. destruct (files !! n) as [x|] eqn:E; [|done]. destruct (files !! (n +:+ _)) as [y|] eqn:E2; [|done].
  apply longest_ge in E2. exfalso. rewrite <- PyStr.length_to_list, PyStr.to_list_app, PyStr.to_of_list, length_app, repeat_length in E2. lia.
Qed.
Definition photo_site : Site :=
  {| si_db := demo_db; si_photos := {[ 1 := "profile_photos/1.jpg"%string ]};
     si_files := {[ "profile_photos/1.jpg"%string := "old"%string ]}; si_limit := 7 |}.
Lemma photo_upload_exact_witness :
  let f := {| ph_declared := None; ph_data := "Pnew" |} in
  let '(page, s') := profile_photo_upload padded (λ _, true) (λ _, None) (demo_user 1 "Ann" FACULTY) (Some f) photo_site in
  photos_ok photo_site ∧ photos_ok s' ∧
  (∃ name, si_photos s' !! 1 = Some name ∧ si_files s' !! name = Some "jpeg 4x512"%string) ∧ si_files s' !! "profile_photos/1.jpg"%string = None.
Proof.
  assert (photos_ok photo_site) as Hok.
  { split; [intros k n|intros j k n]; cbn.
    - intros [<- <-]%lookup_singleton_Some. by rewrite lookup_singleton_eq.
    - intros [<- _]%lookup_singleton_Some [<- _]%lookup_singleton_Some. done. }
  cbv zeta. pose proof (photo_upload_exact padded (λ _, true) (λ _, None) (demo_user 1 "Ann" FACULTY)
    (Some {| ph_declared := None; ph_data := "Pnew" |}) photo_site padded_free Hok) as H.
  destruct (profile_photo_upload _ _ _ _ _ _) as [page s'] eqn:E. destruct H as [H _].
  split; [exact Hok|]. split; [exact H|]. vm_compute in E. injection E as <- <-. split; [|vm_compute; reflexivity].
  eexists. split; vm_compute; reflexivity.
Defined.
