(* ===== verification/Accounts.v ===== *)
(** accounts/pipeline.py, accounts/management/commands/link_entra.py and the pages of
    web/views.py: who may sign in, and where a role starts.

    A sign-in runs the steps of SOCIAL_AUTH_PIPELINE (config/settings.py).  The library's
    steps are a [Library]: those before the policy find the account of the identity, the
    one between its two steps links them, and the last ones keep what the provider says
    of the account; [documented] is what they promise.  [ci] is the collation of the text
    columns. *)
From S2P Require Import Prelude Python Model Effects Ops Sample Web Campus ImportOfferings.
From Stdlib Require Import Ascii String.
From stdpp Require Import strings.
Open Scope Z_scope.

(** ** The pipeline of a sign-in *)

(** What the provider says of an identity: the address, and the object id of the answer *)
Record Identity := { id_email : option string; id_oid : option string }.
Definition json_text (o : option string) : json := match o with Some s => JStr s | None => JNull end.
(** The steps of the library: social_details to associate_by_email, associate_user, and
    load_extra_data with user_details *)
Record Library := {
  lib_match : Identity → M (option User);
  lib_associate : User → M unit;
  lib_details : Identity → User → M unit
}.
Definition named (u : User) (first last : string) (r : User) : User :=
  if usr_pk r =? usr_pk u then r <| usr_first := first |> <| usr_last := last |> else r.
(** The account found is one there is; the links of accounts are no modelled table; and
    the last steps give the account the names of the provider, or fail.  The other
    columns are protected, or not among the details of an identity. *)
Record documented (lib : Library) : Prop := {
  doc_match i db : exec (lib_match lib i) db = db ∧
    ∀ u, Effects.run (lib_match lib i) db = inr (Some u) → u ∈ db_users db;
  doc_associate u db : exec (lib_associate lib u) db = db;
  doc_details i u db : match lib_details lib i u db with
    | (inl _, db') => db' = db
    | (inr _, db') => ∃ first last, db' = db <| db_users := named u first last <$> db_users db |>
    end
}.
Section sign_in.
Context (ci : string → string).
(** [false] is the [AuthForbidden] that ends the pipeline. *)
Definition deny_unprovisioned (details : Identity) (user : option User) : M bool :=
  if match user with Some u => negb (usr_active u) | None => true end then
    audit None "auth.entra_refused" "" "" (JObj [("email", json_text (id_email details))]%string) ≫= λ _, mret false
  else mret true.
(** The unique column of the object ids *)
Definition oid_clash (u u' : User) : bool :=
  match usr_azure_oid u, usr_azure_oid u' with Some a, Some b => same_text ci a b | _, _ => false end.
Definition oid_changes (oid : string) (u : User) : bool :=
  negb (bool_decide (oid = ""%string)) && negb (bool_decide (usr_azure_oid u = Some oid)).
Definition write_azure_oid (response : Identity) (user : option User) : M unit :=
  match user with
  | None => mret ()
  | Some u =>
      let oid := default ""%string (id_oid response) in
      when (oid_changes oid u)
        (guard_m (negb (longer 64 oid)) DatabaseError ≫= λ _,
         save_unique oid_clash (usr_pk u) (λ r, r <| usr_azure_oid := Some oid |>)) ≫= λ _,
      audit (Some (usr_pk u)) "auth.entra_login" "user" (PyStr.str (usr_pk u)) (JObj [])
  end.
(** The account that is signed in, if any *)
Definition sign_in (lib : Library) (identity : Identity) : M (option User) :=
  lib_match lib identity ≫= λ user,
  deny_unprovisioned identity user ≫= λ allowed : bool,
  match user with
  | Some u =>
      if allowed then
        lib_associate lib u ≫= λ _,
        write_azure_oid identity user ≫= λ _,
        lib_details lib identity u ≫= λ _, mret user
      else mret None
  | None => mret None
  end.

(** ** link_entra *)

(** [valid_email] is the framework's check of an address. *)
Definition link_entra (valid_email : string → bool) (lower_ci : string → string) (username upn : string) : M string :=
  guard_m (valid_email upn) (CommandError ("Invalid UPN/email: " +:+ upn)) ≫= λ _,
  try_with (get_only (λ u, same_text ci (usr_username u) username))
    (λ e, if bool_decide (e = DoesNotExist) then Some (raise (CommandError ("No user with username '" +:+ username +:+ "'"))) else None)
    ≫= λ user,
  first (λ u, bool_decide (lower_ci (usr_email u) = lower_ci upn) && negb (usr_pk u =? usr_pk user)) ≫= λ clash,
  match clash with
  | Some c => raise (CommandError ("UPN already used by: " +:+ usr_username c))
  | None =>
      if bool_decide (usr_email user = upn) then mret ("No change -> " +:+ usr_username user +:+ " already " +:+ upn)
      else
        guard_m (negb (longer 254 upn)) DatabaseError ≫= λ _,
        save (usr_pk user) (λ u, u <| usr_email := upn |>) ≫= λ _,
        mret ("Linked " +:+ usr_username user +:+ " -> " +:+ upn)
  end.

(** ** web/views.py *)
Definition DEMO_USERNAMES : list string := ["cdgaray"; "checker"; "ifo"; "hr"; "guard"; "dean"; "sysadmin"]%string.
(** The stored value of a role, by which the accounts of the login page are in order *)
Definition role_str (r : Role) : string :=
  match r with
  | FACULTY => "faculty" | CHECKER => "checker" | IFO_ADMIN => "ifo_admin" | HR_ADMIN => "hr_admin"
  | GUARD => "guard" | DEAN => "dean" | SYSTEM_ADMIN => "system_admin"
  end%string.
Definition by_role (a b : User) : bool := String.leb (role_str (usr_role a)) (role_str (usr_role b)).
(** The login page: whether it offers accounts, which, and its error *)
Record LoginContext := { lc_dev_mode : bool; lc_dev_users : list User; lc_error : option string }.
Definition login_ctx (debug : bool) (error : option string) (db : DB) : LoginContext :=
  {| lc_dev_mode := debug;
     lc_dev_users := if debug then sort_by by_role (select (λ u, existsb (same_text ci (usr_username u)) DEMO_USERNAMES && usr_active u) (db_users db))
                     else [];
     lc_error := error |}.
Inductive login_answer := LoginRedirect (signed_in : option User) | LoginPage (ctx : LoginContext).
(** [current] is the account already signed in, [posted] the form of a POST. *)
Definition login_view (debug : bool) (current : option User) (posted : option form) : M login_answer :=
  match current, posted, debug with
  | Some u, _, _ => mret (LoginRedirect (Some u))
  | None, Some q, true =>
      let username := dict_getd q "username"%string ""%string in
      try_with (get_only (λ u, same_text ci (usr_username u) username && usr_active u) ≫= λ u, mret (LoginRedirect (Some u)))
        (λ e, if bool_decide (e = DoesNotExist)
              then Some (read (λ db, LoginPage (login_ctx debug (Some "Unknown user."%string) db))) else None)
  | None, _, _ => read (λ db, LoginPage (login_ctx debug None db))
  end.
End sign_in.

(** The page a role opens into, by its route, or the list of its surfaces *)
Definition direct_home (r : Role) : option string :=
  match r with
  | FACULTY => Some "faculty_home" | CHECKER => Some "checker_floor" | HR_ADMIN => Some "hr_attendance"
  | IFO_ADMIN => Some "ifo_rooms" | DEAN => Some "dean_dashboard" | GUARD => Some "guard_monitor"
  | SYSTEM_ADMIN => None
  end%string.
(** The surfaces of a role: their titles and addresses *)
Definition SURFACES (r : Role) : list (string * string) :=
  match r with
  | FACULTY => [("My schedule", "/faculty/schedule"); ("Check in", "/faculty/scan"); ("Request modality shift", "/faculty/modality/new")]
  | CHECKER => [("Floor view", "/checker/floor"); ("Scan a room", "/checker/scan"); ("Online to verify", "/checker/online")]
  | IFO_ADMIN => [("Rooms", "/ifo/rooms"); ("Assignments", "/ifo/assignments"); ("Reports", "/ifo/dashboard")]
  | HR_ADMIN => [("Attendance", "/hr/attendance")]
  | GUARD => [("Floor monitor", "/guard/monitor"); ("Faculty locator", "/guard/locate")]
  | DEAN => [("Modality approvals", "/dean/requests"); ("Department oversight", "/dean/dashboard")]
  | SYSTEM_ADMIN => [("Job monitor", "/sys/jobs"); ("Users & settings", "/admin/"); ("Audit log", "/admin/ops/auditlog/")]
  end%string.
Inductive home_answer := HomeRedirect (route : string) | HomePage (surfaces : list (string * string)).
Definition user_home (user : User) : home_answer :=
  match direct_home (usr_role user) with
  | Some target => HomeRedirect target
  | None => HomePage (SURFACES (usr_role user))
  end.
(** Where an error page sends its reader *)
Definition orientation_href (signed_in : bool) : string := if signed_in then "/" else "/login".

(** ** Who is signed in *)
Section facts.
Context (ci : string → string).
(** The account bound to the object id of the answer, when it sends a new one, and the
    sign-in in the log *)
Definition bound (identity : Identity) (u r : User) : User :=
  if (usr_pk r =? usr_pk u) && oid_changes (default ""%string (id_oid identity)) u
  then r <| usr_azure_oid := id_oid identity |> else r.
Definition signed (identity : Identity) (u : User) (row : AuditLog) (db : DB) : DB :=
  db <| db_users := bound identity u <$> db_users db |> <| db_audit := db_audit db ++ [row] |>.
Definition sign_in_row (u : User) (row : AuditLog) : Prop :=
  log_event row = "auth.entra_login"%string ∧ log_actor row = Some (usr_pk u).
Lemma write_azure_oid_wp identity u db :
  u ∈ db_users db → pk_unique (db_users db) →
  wp (write_azure_oid ci identity (Some u)) (λ r db', match r with
    | inr _ => ∃ row, sign_in_row u row ∧ db' = signed identity u row db
    | inl _ => db' = db ∧ ∃ oid, id_oid identity = Some oid ∧
        (longer 64 oid = true ∨ ∃ u', u' ∈ db_users db ∧ usr_pk u' ≠ usr_pk u ∧
           same_text ci oid (default ""%string (usr_azure_oid u')) = true)
    end) db.
Proof.
  intros Hin Hpk. unfold write_azure_oid, signed, bound, sign_in_row. wp_step. set (oid := default ""%string (id_oid identity)).
  apply wp_when; intros Hch.
  - assert (id_oid identity = Some oid) as Hoid.
    { unfold oid in *. destruct (id_oid identity); [done|]. unfold oid_changes in Hch. cbn in Hch. by rewrite bool_decide_true in Hch. }
    wp_step. apply wp_guard; intros Hl.
    + apply negb_true_iff in Hl. unfold wp, save_unique.
      pose proof (by_pk_unique _ (usr_pk u) u Hpk Hin eq_refl) as Hby. cbn [tbl table_User]. rewrite Hby. destruct (existsb _ _) eqn:Ec.
      * split; [done|]. exists oid. split; [done|]. right. apply existsb_elem in Ec as (u' & Hu' & Hc).
        apply andb_prop in Hc as [Hne Hc]. exists u'. split; [done|]. unfold oid_clash in Hc. cbn in Hc. split; [b2p; done|].
        destruct (usr_azure_oid u'); [exact Hc|done].
      * unfold save. rewrite existing_by_pk. cbn [tbl table_User]. rewrite Hby. cbn [is_some].
        assert ((λ r, if (usr_pk r =? usr_pk u) && oid_changes oid u then r <| usr_azure_oid := id_oid identity |> else r) <$> db_users db
          = update_pk (usr_pk u) (λ r, r <| usr_azure_oid := Some oid |>) (db_users db)) as ->.
        { rewrite Hoid. apply list_fmap_ext. intros i x _. by rewrite Hch, andb_true_r. }
        eexists. split; cycle 1; [reflexivity|]. by split.
    + split; [done|]. exists oid. split; [done|]. left. by apply negb_false_iff.
  - cbv beta iota. eapply wp_of_eq; [apply audit_eq|]. cbv beta iota.
    assert ((λ r, if (usr_pk r =? usr_pk u) && oid_changes oid u then r <| usr_azure_oid := id_oid identity |> else r) <$> db_users db = db_users db) as ->.
    { rewrite <- list_fmap_id. apply list_fmap_ext. intros i x _. by rewrite Hch, andb_false_r. }
    eexists. split; cycle 1; [by destruct db|]. by split.
Qed.
(** The login page signs nobody in outside of a debug installation, whatever is posted, and
    names no account there; inside one, only an active account, by its name. *)
Theorem login_exact debug current posted db :
  wp (login_view ci debug current posted) (λ res db', db' = db ∧ match res with
    | inr (LoginRedirect o) => ∃ u, o = Some u ∧ (current = Some u ∨ current = None ∧ debug = true ∧ u ∈ db_users db ∧ usr_active u = true ∧
        ∃ q, posted = Some q ∧ same_text ci (usr_username u) (dict_getd q "username"%string ""%string) = true)
    | inr (LoginPage ctx) => current = None ∧ lc_dev_mode ctx = debug ∧ ∀ u, u ∈ lc_dev_users ctx → debug = true ∧ u ∈ db_users db ∧ usr_active u = true
    | inl e => debug = true ∧ e = MultipleObjectsReturned
    end) db.
Proof.
  assert (∀ error u, u ∈ lc_dev_users (login_ctx ci debug error db) → debug = true ∧ u ∈ db_users db ∧ usr_active u = true) as Hctx.
  { intros error u. unfold login_ctx. cbn. destruct debug; [|by intros ?%not_elem_of_nil].
    rewrite elem_of_sort_by, elem_of_select. intros [Hu [_ Ha]%andb_prop]. done. }
  unfold login_view. destruct current as [u|]; [wp_step; split; [done|]; exists u; auto|].
  assert (wp (read (λ db, LoginPage (login_ctx ci debug None db))) (λ res db', db' = db ∧ match res with
    | inr (LoginPage ctx) => lc_dev_mode ctx = debug ∧ ∀ u, u ∈ lc_dev_users ctx → debug = true ∧ u ∈ db_users db ∧ usr_active u = true
    | _ => False end) db) as Hpage.
  { wp_step. split; [done|]. split; [done|]. apply Hctx. }
  destruct posted as [q|]; [destruct debug|].
  - unfold wp, try_with, mbind, M_bind. rewrite get_only_eq. cbn [tbl table_User].
    destruct (select _ (db_users db)) as [|u [|u' l]] eqn:Es.
    + change (bool_decide (DoesNotExist = DoesNotExist)) with true. cbn iota. split; [done|]. split; [done|]. split; [done|]. apply Hctx.
    + split; [done|]. exists u. split; [done|]. right. assert (u ∈ [u]) as Hu by left. rewrite <- Es in Hu.
      apply elem_of_select in Hu as [Hu [H1 H2]%andb_prop]. split_and!; try done. by exists q.
    + rewrite bool_decide_false by done. done.
  - eapply wp_mono; [exact Hpage|]. intros [e|[o|ctx]] db' [-> H]; [done|done|]. tauto.
  - eapply wp_mono; [exact Hpage|]. intros [e|[o|ctx]] db' [-> H]; [done|done|]. tauto.
Qed.
(** An address is bound to the account it is asked for and to no other, and binding it again
    changes nothing; a refusal changes nothing either. *)
Theorem link_entra_exact valid_email iexact username upn db :
  pk_unique (db_users db) →
  wp (link_entra ci valid_email iexact username upn) (λ res db', match res with
    | inl _ => db' = db
    | inr _ => valid_email upn = true ∧ ∃ u, select (λ u, same_text ci (usr_username u) username) (db_users db) = [u] ∧
        db' = db <| db_users := update_pk (usr_pk u) (λ r, r <| usr_email := upn |>) (db_users db) |> ∧
        (∀ u', u' ∈ db_users db' → iexact (usr_email u') = iexact upn → usr_pk u' = usr_pk u) ∧
        ∃ msg, link_entra ci valid_email iexact username upn db' = (inr msg, db')
    end) db.
Proof.
  intros Hpk.
  assert (∀ db u, valid_email upn = true → select (λ u, same_text ci (usr_username u) username) (db_users db) = [u] → usr_email u = upn →
    (∀ u', u' ∈ db_users db → iexact (usr_email u') = iexact upn → usr_pk u' = usr_pk u) →
    link_entra ci valid_email iexact username upn db = (inr ("No change -> " +:+ usr_username u +:+ " already " +:+ upn), db)) as Hagain.
  { intros db0 u Hv Hs He Hun. unfold link_entra. rewrite Hv. erewrite bind_run by reflexivity.
    unfold mbind at 1, M_bind at 1, try_with. rewrite get_only_eq. cbn [tbl table_User]. rewrite Hs.
    unfold first. erewrite bind_run by reflexivity. cbn [tbl table_User].
    match goal with |- context [List.find ?p (db_users db0)] => destruct (List.find p (db_users db0)) as [c|] eqn:Ef end.
    - exfalso. apply find_elem in Ef as [Hc Hp]. apply andb_prop in Hp as [H1 H2]. apply bool_decide_eq_true in H1.
      specialize (Hun c Hc H1). lia.
    - by rewrite bool_decide_true. }
  unfold link_entra at 1. apply wp_bind, wp_guard; intros Hv; [|done].
  apply wp_bind. unfold wp at 1, try_with. rewrite get_only_eq. cbn [tbl table_User].
  destruct (select (λ u, same_text ci (usr_username u) username) (db_users db)) as [|u [|u' l]] eqn:Es; [done| |by rewrite bool_decide_false].
  assert (u ∈ db_users db) as Hin.
  { assert (u ∈ [u]) as Hu by left. rewrite <- Es in Hu. by apply elem_of_select in Hu as [? _]. }
  cbn [fst snd]. apply wp_bind, wp_first. cbn [tbl table_User].
  match goal with |- context [List.find ?p (db_users db)] => destruct (List.find p (db_users db)) as [c|] eqn:Ef end; [done|]. cbv beta iota.
  assert (∀ u', u' ∈ db_users db → iexact (usr_email u') = iexact upn → usr_pk u' = usr_pk u) as Hun.
  { intros u' Hu' He. rewrite find_elem_None in Ef. specialize (Ef u' Hu'). rewrite bool_decide_true in Ef by done.
    cbn in Ef. apply negb_false_iff in Ef. lia. }
  case_bool_decide as He.
  - wp_step. split; [done|]. exists u. split; [done|].
    assert (update_pk (usr_pk u) (λ r, r <| usr_email := upn |>) (db_users db) = db_users db) as Hsame.
    { unfold update_pk, update_where. rewrite <- list_fmap_id. apply list_fmap_ext. intros i x Hx%list_elem_of_lookup_2.
      destruct (pk x =? usr_pk u) eqn:E; [|done]. assert (x = u) as -> by (apply (pk_inj (db_users db)); [done..|]; apply Z.eqb_eq in E; exact E).
      destruct u; cbn in *; by subst. }
    rewrite Hsame. split; [by destruct db|]. split; [done|]. eexists. by apply Hagain.
  - apply wp_bind, wp_guard; intros Hl; [|done]. apply wp_bind, wp_save; [intros _|by intros _]. wp_step.
    split; [done|]. exists u. split; [done|]. split; [by destruct db|].
    assert (∀ u', u' ∈ update_pk (usr_pk u) (λ r, r <| usr_email := upn |>) (db_users db) → iexact (usr_email u') = iexact upn → usr_pk u' = usr_pk u) as Hun'.
    { intros u' Hu'. unfold update_pk, update_where in Hu'. apply list_elem_of_fmap in Hu' as (x & -> & Hx). cbn.
      destruct (pk x =? usr_pk u) eqn:E; [cbn; intros _; apply Z.eqb_eq in E; exact E|]. by apply Hun. }
    split; [exact Hun'|]. eexists. apply (Hagain _ (u <| usr_email := upn |>)); [done| |done|exact Hun'].
    cbn. unfold update_pk, update_where. rewrite select_fmap.
    rewrite (select_ext _ (λ u, same_text ci (usr_username u) username)) by (intros x _; cbn; by case_match).
    rewrite Es. cbn. by rewrite Z.eqb_refl.
Qed.
End facts.
(** Only a system administrator is shown the list of surfaces; every other role is sent to a
    page of its own, a superuser of that role too. *)
Lemma user_home_exact u : (∃ l, user_home u = HomePage l) ↔ usr_role u = SYSTEM_ADMIN.
Proof. unfold user_home. destruct (usr_role u); cbn; split; intros H; try done; try (by destruct H); eauto. Qed.

(** Ann signs in by her address and is bound to her object id; Bob, who is inactive, is not. *)
Definition accounts_db : DB := demo_db <| db_users := [(demo_user 1 "ann" FACULTY) <| usr_email := "ann@school" |>;
  (demo_user 2 "bob" FACULTY) <| usr_email := "bob@school" |> <| usr_active := false |>] |>.
(** The library finds an account by its address and names it after the address. *)
Definition demo_library : Library := {|
  lib_match i := read (λ db, e ← id_email i; List.find (λ u, bool_decide (usr_email u = e)) (db_users db));
  lib_associate _ := mret ();
  lib_details i u := λ db, (inr (), db <| db_users := named u (default "" (id_email i)) "" <$> db_users db |>)
|}.
Lemma demo_documented : documented demo_library.
Proof.
  split; [|done|].
  - intros i db. split; [done|]. intros u [= Hu]. unfold Effects.run in Hu. cbn in Hu.
    destruct (id_email i); [|done]. simpl in Hu. by apply find_elem in Hu as [? _].
  - intros i u db. simpl. by eexists _, _.
Qed.
Lemma link_entra_exact_witness :
  let link := link_entra PyStr.lower (λ _, true) PyStr.lower "Ann" "jane@school" in
  let db' := exec link accounts_db in
  pk_unique (db_users accounts_db) ∧ (usr_email <$> db_users db') = ["jane@school"; "bob@school"]%string ∧ exec link db' = db' ∧
  Effects.run (link_entra PyStr.lower (λ _, true) PyStr.lower "ann" "BOB@school") accounts_db = inl (CommandError "UPN already used by: bob").
Proof.
  assert (pk_unique (db_users accounts_db)) as Hpk by (apply (bool_decide_unpack _); vm_compute; exact I).
  cbv zeta. split; [exact Hpk|]. split; [vm_compute; reflexivity|]. split; [|vm_compute; reflexivity].
  pose proof (link_entra_exact PyStr.lower (λ _, true) PyStr.lower "Ann" "jane@school" accounts_db Hpk) as H.
  set (m := link_entra PyStr.lower (λ _, true) PyStr.lower "Ann" "jane@school") in *. unfold wp in H. unfold exec at 2 3.
  assert (match (m accounts_db).1 with inl _ => false | inr _ => true end = true) as Hok by (vm_compute; reflexivity).
  clearbody m. destruct (m accounts_db) as [[e|msg] db']; [done|]. destruct H as (_ & u & _ & _ & _ & msg' & H).
  unfold exec. cbn [fst snd] in H |- *. by rewrite H.
Defined.
