(* ===== verification/ConsolePages.v ===== *)
(** The pages of the facilities console that show and change nothing (web/ifo.py): the room
    board's shell, the panel and the page of a room with its QR poster, the lists of
    bookings, postings, suspensions, holidays and corrections, the buildings, the choices of
    a class form, and the landing page of a scanned poster (web/scan.py).

    A page is the data it is rendered from, without the message a redirection left.  Each is
    related here to the request it leads to. *)
From S2P Require Import Prelude Python Model Effects Ops Sample Web TeamsLink Campus Utilization Console Scan Faculty Boards ReportScope Operations Accounts.
From Stdlib Require Import Ascii String.
From stdpp Require Import strings.
Open Scope Z_scope.

(** What a reader gets: the page, Http404, or a refusal of the role *)
Inductive seen (A : Type) := Shown (a : A) | Missing | Denied.
Arguments Shown {A} a.
Arguments Missing {A}.
Arguments Denied {A}.
Definition ifo_page {A} (user : User) (view : M (seen A)) : M (seen A) :=
  if bool_decide (usr_role user ≠ IFO_ADMIN) && negb (usr_superuser user) then mret Denied else view.
(** [get_object_or_404], the first row that matches *)
Definition shown_or_404 {R A} `{!HasPk R, !Table R} (p : R → bool) (view : R → M (seen A)) : M (seen A) :=
  first p ≫= λ o, match o with Some r => view r | None => mret Missing end.

(** ** The room board's shell *)
Record RoomsPage := mk_rooms_page { rs_board : Board; rs_poll_ms : Z; rs_total : Z }.
Definition rooms_list (user : User) (scope : string) (now : Z) : M (seen RoomsPage) :=
  ifo_page user (
  room_board (board_scope scope) now ≫= λ b,
  policy_as_int "poll_interval_seconds" ≫= λ poll,
  read (λ db, Shown (mk_rooms_page b (poll * 1000) (Z.of_nat (length (db_rooms db)))))).
Definition rooms_board (user : User) (scope : string) (now : Z) : M (seen Board) :=
  ifo_page user (Shown <$> room_board (board_scope scope) now).

(** ** A room *)
Definition by_week (a b : Schedule) : bool :=
  if sch_day a =? sch_day b then sch_start a <=? sch_start b else sch_day a <? sch_day b.
(** The active classes of a room in a term, by weekday and start *)
Definition room_week (db : DB) (room : Room) (term : option AcademicTerm) : list Schedule :=
  match term with Some t => sort_by by_week (room_schedules db room (term_pk t)) | None => [] end.
(** Its sessions of a day, by start *)
Definition room_day (db : DB) (room : Room) (term : option AcademicTerm) (day : Z) : list Session :=
  match term with Some t => select (λ s, ses_room s =? room_pk room) (day_sessions db t day) | None => [] end.
Definition upcoming_order (a b : Session) : bool :=
  if ses_date a =? ses_date b then ses_sched_start a <=? ses_sched_start b else ses_date a <? ses_date b.
Definition room_upcoming (db : DB) (room : Room) (term : option AcademicTerm) (today : Z) : list Session :=
  match term with
  | Some t =>
      firstn 10 (select (λ s, occupies db s room)
        (firstn 40 (sort_by upcoming_order (select (λ s, (ses_room s =? room_pk room) && (today <=? ses_date s) && in_term db (term_pk t) s)
                                       (db_sessions db)))))
  | None => []
  end.
Record RoomPanel := mk_room_panel {
  pn_room : Room; pn_tile : Tile; pn_today : list Session; pn_schedules : list Schedule; pn_term : option AcademicTerm
}.
Record RoomView := mk_room_view {
  rv_room : Room; rv_schedules : list Schedule; rv_upcoming : list Session; rv_term : option AcademicTerm;
  rv_timetable : option Timetable
}.
Section rooms.
Context (ci : string → string).
Definition room_panel (user : User) (code : string) (now : Z) : M (seen RoomPanel) :=
  ifo_page user (shown_or_404 (λ r, same_text ci (room_code r) code) (λ room,
  policy_as_int "grace_minutes" ≫= λ grace_min,
  get_active_term ≫= λ term,
  read (λ db,
    let today := room_day db room term (PyTime.local_date now) in
    Shown (mk_room_panel room (room_tile db room today now (PyTime.minutes grace_min))
             (select (λ s, occupies db s room) today) (room_week db room term) term)))).
Definition ifo_room_detail (user : User) (code : string) (today : Z) : M (seen RoomView) :=
  ifo_page user (shown_or_404 (λ r, same_text ci (room_code r) code) (λ room,
  get_active_term ≫= λ term,
  read (λ db, Shown (mk_room_view room (room_week db room term) (room_upcoming db room term today) term
                       (room_timetable db room (term_pk <$> term)))))).
(** The poster of a room: [base] is the site's address, of [build_absolute_uri]. *)
Definition poster_link (base : string) (room : Room) : string := base +:+ "/scan?t=" +:+ room_qr_token room.
Definition room_qr (user : User) (base code : string) : M (seen string) :=
  ifo_page user (shown_or_404 (λ r, same_text ci (room_code r) code) (λ room, mret (Shown (poster_link base room)))).
Definition room_poster (user : User) (code : string) : M (seen Room) :=
  ifo_page user (shown_or_404 (λ r, same_text ci (room_code r) code) (λ room, mret (Shown room))).
Definition room_rotate_confirm : User → string → M (seen Room) := room_poster.
End rooms.
(** The scan page a poster opens starts with this payload. *)
Definition deep_link (t : option string) : string :=
  let token := default ""%string t in
  if bool_decide (token = ""%string) then "" else "/scan?t=" +:+ token.

(** ** The lists *)
Definition newest_booking (a b : Booking) : bool := bkg_start b <=? bkg_start a.
Definition by_building (db : DB) (a b : Room) : bool :=
  let pa := (room_place db a).1 in let pb := (room_place db b).1 in
  if bool_decide (pa = pb) then String.leb (room_code a) (room_code b) else String.leb pa pb.
Record BookingPanel := mk_booking_panel { bp_rooms : list Room; bp_page : Z * list Booking }.
Definition BOOKING_PAGE_SIZE : Z := 25.
Definition bookings_list {pg} `{Paginator Booking pg} (user : User) (page : option string) : M (seen BookingPanel) :=
  ifo_page user (read (λ db,
    Shown (mk_booking_panel (sort_by (by_building db) (db_rooms db))
             (paginate BOOKING_PAGE_SIZE (sort_by newest_booking (db_bookings db)) page)))).

(** Postings, by role, scope and family name *)
Definition roster_key (db : DB) (a : Assignment) : Z * Z * string :=
  (match asg_role a with DUTY_CHECKER => 0 | DUTY_GUARD => 1 end,
   match asg_scope a with FLOOR_SCOPE => 0 | ONLINE_SCOPE => 1 end,
   default ""%string (usr_last <$> by_pk (db_users db) (asg_user a))).
Definition roster_le (db : DB) (a b : Assignment) : bool :=
  let '(ra, sa, na) := roster_key db a in let '(rb, sb, nb) := roster_key db b in
  if ra =? rb then if sa =? sb then String.leb na nb else sa <? sb else ra <? rb.
Definition active_assignments (db : DB) (term : option AcademicTerm) : list Assignment :=
  match term with
  | Some t => sort_by (roster_le db) (select (λ a, bool_decide (asg_status a = "active"%string) && bool_decide (asg_term a = Some (term_pk t)))
                                        (db_assignments db))
  | None => []
  end.
Definition duty_le (a b : User) : bool :=
  if bool_decide (usr_role a = usr_role b) then name_order a b else by_role a b.
Definition floor_place_le (db : DB) (a b : Floor) : bool :=
  let code f := default ""%string (bld_code <$> by_pk (db_buildings db) (flr_building f)) in
  if bool_decide (code a = code b) then flr_number a <=? flr_number b else String.leb (code a) (code b).
Record AssignmentsPage := mk_assignments { as_roster : list Assignment; as_users : list User; as_floors : list Floor }.
Definition assignments_list (user : User) : M (seen AssignmentsPage) :=
  ifo_page user (get_active_term ≫= λ term,
  read (λ db, Shown (mk_assignments (active_assignments db term)
    (sort_by duty_le (select (λ u, (bool_decide (usr_role u = CHECKER) || bool_decide (usr_role u = GUARD)) && usr_active u) (db_users db)))
    (sort_by (floor_place_le db) (db_floors db))))).

(** Suspensions: those in force before the lifted ones, and the latest first *)
Definition suspension_le (a b : ClassSuspension) : bool :=
  match sus_lifted_at a, sus_lifted_at b with
  | None, None => sus_start b <=? sus_start a
  | None, Some _ => true
  | Some _, None => false
  | Some x, Some y => if x =? y then sus_start b <=? sus_start a else x <? y
  end.
Definition suspension_rows (db : DB) (term : option AcademicTerm) : list ClassSuspension :=
  match term with
  | Some t => sort_by suspension_le (select (λ s, sus_term s =? term_pk t) (db_suspensions db))
  | None => []
  end.
Definition building_le (a b : Building) : bool := String.leb (bld_code a) (bld_code b).
Record SuspensionsPage := mk_suspensions {
  sp_term : option AcademicTerm; sp_buildings : list Building; sp_page : Z * list ClassSuspension
}.
Definition suspensions_list {pg} `{Paginator ClassSuspension pg} (user : User) (page : option string) : M (seen SuspensionsPage) :=
  ifo_page user (get_active_term ≫= λ term,
  read (λ db, Shown (mk_suspensions term (sort_by building_le (db_buildings db)) (paginate 25 (suspension_rows db term) page)))).
Definition latest_break (a b : AcademicBreak) : bool := brk_start b <=? brk_start a.
Definition breaks_list (user : User) : M (seen (option AcademicTerm * list AcademicBreak)) :=
  ifo_page user (get_active_term ≫= λ term,
  read (λ db, Shown (term, match term with
    | Some t => sort_by latest_break (select (λ b, brk_term b =? term_pk t) (db_breaks db))
    | None => [] end))).

(** Corrections: the absences of the last days, of the faculty asked for *)
Definition CORRECTIONS_PAGE_SIZE : Z := 25.
Definition CORRECTIONS_WINDOW_DAYS : Z := 30.
Definition latest_day (a b : Session) : bool :=
  if ses_date a =? ses_date b then ses_sched_start a <=? ses_sched_start b else ses_date b <? ses_date a.
Definition correctable (db : DB) (t : AcademicTerm) (q : string) (since : Z) (s : Session) : bool :=
  has_status ABSENT s && (since <=? ses_date s) && in_term db (term_pk t) s
  && (blank q || match by_pk (db_users db) (ses_faculty s) with Some u => icontains q (usr_username u) | None => false end).
Definition correction_rows (db : DB) (term : option AcademicTerm) (q : string) (since : Z) : list Session :=
  match term with Some t => sort_by latest_day (select (correctable db t q since) (db_sessions db)) | None => [] end.
Definition corrections_list {pg} `{Paginator Session pg} (user : User) (q page : option string) (today : Z) :
    M (seen (Z * list Session)) :=
  ifo_page user (get_active_term ≫= λ term,
  read (λ db, Shown (paginate CORRECTIONS_PAGE_SIZE
    (correction_rows db term (PyStr.strip (default ""%string q)) (today - CORRECTIONS_WINDOW_DAYS)) page))).

(** ** Buildings *)
Record BuildingRow := mk_building_row { bw_building : Building; bw_floors : Z; bw_rooms : Z }.
Definition building_row_of (db : DB) (b : Building) : BuildingRow :=
  mk_building_row b (count (λ f, flr_building f =? bld_pk b) (db_floors db)) (count (on_building db (bld_pk b)) (db_rooms db)).
Definition buildings_list (user : User) : M (seen (list BuildingRow)) :=
  ifo_page user (read (λ db, Shown (building_row_of db <$> sort_by building_le (db_buildings db)))).
(** What still holds a building, by its label and its icon *)
Definition STRUCTURE_BLOCKER_LABELS : dict string (string * string) :=
  [("floors", ("Floors", "layers")); ("rooms", ("Rooms", "building"))]%string.
Definition structure_blocker_rows (blockers : list (string * Z)) : list (string * (string * string) * Z) :=
  omap (λ p, (λ l, (p.1, l, p.2)) <$> dict_get STRUCTURE_BLOCKER_LABELS p.1) blockers.
Record BuildingView := mk_building_view {
  bv_building : Building; bv_floors : list (Floor * Z); bv_blockers : list (string * (string * string) * Z)
}.
Definition by_number (a b : Floor) : bool := flr_number a <=? flr_number b.
Definition building_detail (user : User) (k : Z) : M (seen BuildingView) :=
  ifo_page user (shown_or_404 (λ b, bld_pk b =? k) (λ b,
  read (λ db, Shown (mk_building_view b
    ((λ f, (f, count (λ r, room_floor r =? flr_pk f) (db_rooms db)))
       <$> sort_by by_number (select (λ f, flr_building f =? bld_pk b) (db_floors db)))
    (structure_blocker_rows (building_delete_blockers (bld_pk b) db)))))).

(** ** The choices of a class form *)
Record ScheduleChoices := mk_choices { cho_faculty : list User; cho_rooms : list Room }.
Definition schedule_choices (db : DB) : ScheduleChoices :=
  mk_choices (sort_by name_order (select (λ u, bool_decide (usr_role u = FACULTY) && usr_active u) (db_users db)))
    (sort_by (by_building db) (select (λ r, negb (room_out_of_service r)) (db_rooms db))).

(** ** A poster opens its room *)
(** The characters of a token ([secrets.token_urlsafe]) and of the site's address *)
Definition url_safe (c : ascii) : bool :=
  PyStr.is_digit c || PyStr.is_alpha c || bool_decide (c = "-"%char) || bool_decide (c = "_"%char).
Definition site_address (base : string) : Prop := visible_but "?#" (PyStr.to_list base).
Definition good_token (token : string) : Prop :=
  token ≠ ""%string ∧ forallb url_safe (PyStr.to_list token) = true.

Lemma url_safe_char c : url_safe c = true → 32 < PyStr.code c ∧ c ∉ PyStr.to_list "?#&=%+".
Proof.
  intros H. assert (implb (url_safe c) ((32 <? PyStr.code c) && negb (bool_decide (c ∈ PyStr.to_list "?#&=%+"))) = true) as Hc
    by (destruct c as [[] [] [] [] [] [] [] []]; vm_compute; reflexivity).
  rewrite H in Hc. cbn [implb] in Hc. b2p. done.
Qed.
Lemma url_safe_visible l : forallb url_safe l = true → visible_but "?#&=%+" l.
Proof. rewrite forallb_elem. intros H c Hc. by apply url_safe_char, H. Qed.
Lemma unquote_plain l : visible_but "?#&=%+" l → PyUrl.unquote_plus l = l.
Proof.
  induction l as [|c l IH]; intros H; [done|]. cbn [PyUrl.unquote_plus].
  rewrite !bool_decide_false by (apply (visible_ne _ _ _ H); [set_solver|left]).
  f_equal. apply IH. intros x Hx. apply H. by right.
Qed.
Lemma after_stop (c : ascii) l l' : (∀ x, x ∈ l → x ≠ c) → PyUrl.after c (l ++ c :: l') = Some l'.
Proof.
  induction l as [|x l IH]; intros H; cbn [PyUrl.after app]; [by rewrite bool_decide_true|].
  rewrite bool_decide_false by (apply H; left). apply IH. intros y Hy. apply H. by right.
Qed.
(** The query of a link is the token, under its name. *)
Lemma link_token prefix token :
  visible_but "?#" (PyStr.to_list prefix) → good_token token →
  let link := prefix +:+ "/scan?t=" +:+ token in
  PyStr.strip link = link ∧ PyStr.contains "t=" link = true ∧
  PyUrl.parse_qs_first "t" (PyUrl.query link) = Some token.
Proof.
  intros Hp [Hne Hs] link. pose proof (url_safe_visible _ Hs) as Ht.
  assert (PyStr.to_list link = PyStr.to_list prefix ++ PyStr.to_list "/scan?t=" ++ PyStr.to_list token) as Hl
    by (unfold link; by rewrite !PyStr.to_list_app).
  assert (∀ c, c ∈ PyStr.to_list link → 32 < PyStr.code c) as Hv.
  { intros c. rewrite Hl, !elem_of_app. intros [Hc|[Hc|Hc]]; [by apply Hp| |by apply Ht].
    revert c Hc. apply Forall_forall. repeat constructor. }
  split_and!.
  - unfold PyStr.strip. rewrite PyStr.strip_list_id; [apply PyStr.of_to_list|]. intros c Hc%Hv.
    unfold PyStr.is_space. b2p. lia.
  - unfold PyStr.contains. rewrite Hl. generalize (PyStr.to_list prefix). intros l.
    induction l as [|c l IH]; [done|]. cbn [PyStr.contains_list app]. rewrite IH. apply orb_true_r.
  - unfold PyUrl.query.
    assert (List.filter (λ c, negb (PyUrl.control c)) (PyStr.to_list link) = PyStr.to_list link) as ->.
    { apply (select_all (λ c, negb (PyUrl.control c))). intros c Hc%Hv. unfold PyUrl.control. b2p. lia. }
    assert (PyUrl.before "#" (PyStr.to_list link) = PyStr.to_list link) as ->.
    { apply PyStr.take_while_all, forallb_elem. intros c. rewrite Hl, !elem_of_app. intros Hc. b2p. revert Hc.
      intros [Hc|[Hc|Hc]]; [apply (visible_ne _ _ _ Hp); [set_solver|done]| |apply (visible_ne _ _ _ Ht); [set_solver|done]].
      revert c Hc. apply Forall_forall. repeat constructor; done. }
    rewrite Hl. change (PyStr.to_list "/scan?t=") with (PyStr.to_list "/scan" ++ "?"%char :: PyStr.to_list "t=").
    rewrite <- !app_assoc, app_assoc. cbn [app]. rewrite after_stop.
    2: { intros c [Hc|Hc]%elem_of_app; [apply (visible_ne _ _ _ Hp); [set_solver|done]|].
         revert c Hc. apply Forall_forall. repeat constructor; done. }
    cbn [default id]. unfold PyUrl.parse_qs_first. rewrite PyStr.split_list_plain.
    2: { intros Hin%elem_of_app. destruct Hin as [Hin|Hin]; [set_solver|by apply (visible_ne _ _ "&"%char Ht) in Hin; [|set_solver]]. }
    cbn [reverse rev_append app PyUrl.first_some]. unfold PyUrl.field.
    destruct (PyStr.to_list token) as [|c l] eqn:E; [by destruct token|].
    change (PyUrl.after "=" _) with (Some (c :: l)). cbn iota beta.
    rewrite bool_decide_true by reflexivity. rewrite unquote_plain by exact Ht. by rewrite <- E, PyStr.of_to_list.
Qed.

Lemma column_inj {A B} (f : A → B) l x y : NoDup (f <$> l) → x ∈ l → y ∈ l → f x = f y → x = y.
Proof.
  induction l as [|z l IH]; [by intros _ ?%not_elem_of_nil|]. rewrite fmap_cons, NoDup_cons. intros [Hz Hl].
  assert (∀ w, w ∈ l → f w ≠ f z) as Hne by (intros w Hw E; destruct Hz; rewrite <- E; by apply list_elem_of_fmap_2).
  intros [->|Hx]%elem_of_cons [->|Hy]%elem_of_cons E; [done|by destruct (Hne y)|by destruct (Hne x)|by apply IH].
Qed.
Lemma ifo_page_plays {A} user (view : M (seen A)) : plays IFO_ADMIN user → ifo_page user view = view.
Proof. intros [H|H]; unfold ifo_page; rewrite H; [by rewrite bool_decide_false by tauto|by rewrite andb_false_r]. Qed.

(** The poster of a room carries a link that, scanned or opened, finds that room and no
    other; once no room has its token, as after a rotation, the same poster finds none. *)
Theorem poster_opens_its_room ci base user who code now db room :
  plays IFO_ADMIN user → site_address base → good_token (room_qr_token room) →
  NoDup (room_qr_token <$> db_rooms db) →
  List.find (λ r, same_text ci (room_code r) code) (db_rooms db) = Some room →
  ∃ link, room_qr ci user base code db = (inr (Shown link), db) ∧
    room_from_payload link who now db = (inr (Some room, inr QR_SCAN), db) ∧
    room_from_payload (deep_link (Some (room_qr_token room))) who now db = (inr (Some room, inr QR_SCAN), db) ∧
    ∀ db', room_qr_token room ∉ room_qr_token <$> db_rooms db' →
      room_from_payload link who now db' = (inr (None, inr QR_SCAN), db').
Proof.
  intros Hrole Hbase Htok Hnd Hfind.
  assert (∀ prefix db', visible_but "?#" (PyStr.to_list prefix) →
    room_from_payload (prefix +:+ "/scan?t=" +:+ room_qr_token room) who now db' =
      (inr (List.find (λ r, bool_decide (room_qr_token r = room_qr_token room)) (db_rooms db'), inr QR_SCAN), db')) as Hscan.
  { intros prefix db' Hp. destruct (link_token prefix _ Hp Htok) as (H1 & H2 & H3).
    unfold room_from_payload. rewrite H1, H2, H3, bool_decide_false by apply Htok. done. }
  assert (List.find (λ r, bool_decide (room_qr_token r = room_qr_token room)) (db_rooms db) = Some room) as Hroom.
  { apply find_elem in Hfind as [Hin _]. destruct (List.find _ _) as [r|] eqn:E.
    - apply find_elem in E as [Hr Heq]. b2p. f_equal. by apply (column_inj room_qr_token (db_rooms db)).
    - rewrite find_elem_None in E. specialize (E _ Hin). by rewrite bool_decide_true in E. }
  exists (poster_link base room). split_and!.
  - unfold room_qr. rewrite ifo_page_plays by done. unfold shown_or_404, first, mbind, M_bind, read. cbn. by rewrite Hfind.
  - unfold poster_link. rewrite Hscan by done. by rewrite Hroom.
  - unfold deep_link. cbn [default]. unfold id. rewrite bool_decide_false by apply Htok.
    rewrite (Hscan ""%string); [by rewrite Hroom|]. by intros c ?%elem_of_nil.
  - intros db' Hno. unfold poster_link. rewrite Hscan by done. destruct (List.find (λ r, bool_decide (room_qr_token r = room_qr_token room)) (db_rooms db')) as [r|] eqn:E; [|done].
    apply find_elem in E as [Hr Heq]. apply bool_decide_eq_true in Heq. destruct Hno. rewrite <- Heq. by apply list_elem_of_fmap_2.
Qed.

(** ** A row of the corrections page can be corrected *)
Lemma page_rows {A pg} `{Paginator A pg} n (l : list A) raw x : 1 ≤ n → x ∈ (paginate n l raw).2 → x ∈ l.
Proof.
  intros Hn. pose proof (num_pages_spec n l Hn) as Hnum.
  assert (∀ k, 1 ≤ k ≤ num_pages (over n l) → x ∈ (nth_page (over n l) k).2 → x ∈ l) as Hin.
  { intros k Hk. rewrite nth_page_spec by done. cbn [snd].
    intros (i & Hi & _)%elem_of_take. rewrite lookup_drop in Hi. by eapply list_elem_of_lookup_2. }
  unfold paginate. destruct (named_page (over n l) raw) as [[]|y] eqn:E; [apply Hin; lia..|].
  apply named_page_spec in E as (k & Hk & ->); [|done]. by apply Hin.
Qed.
Lemma select_update_away {R} `{!HasPk R} (p : R → bool) k f (l : list R) :
  (∀ r, r ∈ l → pk r = k → p (f r) = false) →
  select p (update_pk k f l) = select (λ r, negb (pk r =? k)) (select p l).
Proof.
  induction l as [|r l IH]; intros Hf; [done|]. change (update_pk k f (r :: l)) with ((if pk r =? k then f r else r) :: update_pk k f l).
  rewrite !select_cons. rewrite IH by (intros r' Hr'; apply Hf; by right).
  destruct (Z.eqb_spec (pk r) k) as [E|E].
  - rewrite Hf; [|left|done]. destruct (p r); [|done]. rewrite select_cons. by rewrite (proj2 (Z.eqb_eq _ _) E).
  - destruct (p r); [|done]. rewrite select_cons. by rewrite (proj2 (Z.eqb_neq _ _) E).
Qed.
Lemma select_latest p l : select p (sort_by latest_day l) = sort_by latest_day (select p l).
Proof.
  apply select_sort_by; unfold latest_day; intros *; repeat case_match; rewrite ?Z.leb_le, ?Z.ltb_lt; b2p; lia.
Qed.

Lemma corrections_listed {pg} `{Paginator Session pg} user q page today db shown s :
  corrections_list user q page today db = (inr (Shown shown), db) → s ∈ shown.2 →
  ∃ t, get_active_term db = (inr (Some t), db) ∧ s ∈ db_sessions db ∧
    correctable db t (PyStr.strip (default ""%string q)) (today - CORRECTIONS_WINDOW_DAYS) s = true.
Proof.
  intros Hpage Hs. unfold corrections_list, ifo_page in Hpage. destruct (_ && _); [done|].
  unfold mbind, M_bind in Hpage. destruct (get_active_term db) as [[e|[t|]] db1]; [done| |];
    injection Hpage as <- ->; apply page_rows in Hs; [|done| |done].
  - exists t. split; [done|]. by apply elem_of_sort_by, elem_of_select in Hs.
  - by apply not_elem_of_nil in Hs.
Qed.
(** Any page of the corrections, whatever it is asked for, has only absences that can be
    corrected there: with a reason the session is held and leaves the list, in which nothing
    else changes; without one nothing changes at all. *)
Theorem corrections_exact {pg} `{Paginator Session pg} user user' q page today f db shown s :
  plays IFO_ADMIN user' → pk_unique (db_sessions db) →
  corrections_list user q page today db = (inr (Shown shown), db) → s ∈ shown.2 →
  ∃ t, get_active_term db = (inr (Some t), db) ∧
  let rows db := correction_rows db (Some t) (PyStr.strip (default ""%string q)) (today - CORRECTIONS_WINDOW_DAYS) in
  wp (session_reinstate user' (ses_pk s) f) (λ r db',
    if blank (post f "reason") then db' = db ∧ r = inr (Redirect "ifo_corrections" "" "A correction needs a reason. Not changed.")
    else (∃ code, r = inr (Redirect "ifo_corrections" "" (code +:+ " on " +:+ PyTime.date_str (ses_date s) +:+ " reinstated as held."))) ∧
      db_sessions db' = update_pk (ses_pk s) (λ _, held_window s) (db_sessions db) ∧
      rows db' = delete_pk (ses_pk s) (rows db)) db.
Proof.
  intros Hrole Hpk Hpage Hs.
  destruct (corrections_listed _ _ _ _ _ _ _ Hpage Hs) as (t & Ht & Hin & Hc).
  exists t. split; [done|]. intros rows.
  pose proof Hc as Hc'. unfold correctable in Hc'. rewrite !andb_true_iff in Hc'. destruct Hc' as [[[Habs _] Hterm] _].
  assert (∃ sch, by_pk (db_schedules db) (ses_schedule s) = Some sch) as [sch Hsch].
  { unfold in_term, session_term in Hterm. destruct (by_pk (db_schedules db) (ses_schedule s)); [eauto|by b2p]. }
  assert (List.find (λ x, (ses_pk x =? ses_pk s) && in_term db (term_pk t) x) (db_sessions db) = Some s) as Hfind.
  { destruct (List.find _ _) as [x|] eqn:E.
    - apply find_elem in E as [Hx Ex]. apply andb_true_iff in Ex as [Ex _]. f_equal. apply (pk_inj (db_sessions db)); try done. by apply Z.eqb_eq.
    - rewrite find_elem_None in E. specialize (E _ Hin). cbn beta in E. by rewrite Z.eqb_refl, Hterm in E. }
  unfold session_reinstate, ifo_required, role_required. rewrite (proj2 (role_plays _ _) Hrole).
  unfold with_active_term, get_or_404_join. wp_step. unfold wp at 1. rewrite Ht. cbn [fst snd].
  wp_step. apply wp_read. cbn [tbl table_Session]. rewrite Hfind. wp_step. apply wp_get_pk; [|intros Hn; change (by_pk (db_schedules db) (ses_schedule s) = None) in Hn; congruence].
  intros sch' Hsch'. rewrite Habs. cbn [negb]. destruct (blank (post f "reason")); [by apply wp_ret|].
  wp_step. apply wp_atomic. wp_step. apply wp_save; [intros _|].
  2: { intros Hno. rewrite existing_by_pk in Hno. change (is_some (by_pk (db_sessions db) (ses_pk s)) = false) in Hno.
       pose proof (by_pk_unique (db_sessions db) _ s Hpk Hin eq_refl) as Hs'. change (pk s) with (ses_pk s) in Hs'. by rewrite Hs' in Hno. }
  unfold wp at 1, audit_by. rewrite audit_eq. cbn [fst snd]. wp_step.
  split; [by eexists|]. set (g := λ x : Session, _).
  assert (update_pk (ses_pk s) g (db_sessions db) = update_pk (ses_pk s) (λ _, held_window s) (db_sessions db)) as Hg.
  { apply list_fmap_ext. intros i x Hx%list_elem_of_lookup_2. cbn beta. destruct (Z.eqb_spec (pk x) (ses_pk s)) as [E|]; [|done].
    rewrite (pk_inj (db_sessions db) x s Hpk Hx Hin E). unfold g. by destruct s. }
  match goal with |- db_sessions ?d = _ ∧ _ => set (db' := d) end.
  assert (db_sessions db' = update_pk (ses_pk s) (λ _, held_window s) (db_sessions db)) as Hs' by exact Hg.
  split; [exact Hs'|]. unfold rows, correction_rows. rewrite Hs'.
  rewrite (select_ext (correctable db' t _ _) (correctable db t (PyStr.strip (default ""%string q)) (today - CORRECTIONS_WINDOW_DAYS)))
    by done.
  rewrite select_update_away by done. unfold delete_pk. by rewrite select_latest.
Qed.

(** ** The page of a building *)
Lemma rooms_by_floor ci db k : campus_ok ci db →
  count (on_building db k) (db_rooms db) =
    zsum ((λ f, count (λ r, room_floor r =? flr_pk f) (db_rooms db)) <$> select (λ f, flr_building f =? k) (db_floors db)).
Proof.
  intros Hok. unfold count. rewrite <- zsum_count.
  rewrite (zsum_fmap_ext (λ f, Z.of_nat _) (λ f, zsum ((λ r, if room_floor r =? flr_pk f then 1 else 0) <$> db_rooms db)))
    by (intros f _; by rewrite zsum_count).
  rewrite zsum_swap. apply zsum_fmap_ext. intros r Hr.
  rewrite zsum_count, select_select.
  rewrite (select_ext _ (λ f, (pk f =? room_floor r) && (flr_building f =? k)))
    by (intros f _; by rewrite (Z.eqb_sym (room_floor r)), andb_comm).
  rewrite select_pk by exact (co_floor_pk _ _ Hok). unfold on_building, room_building.
  pose proof (by_pk_unique (db_rooms db) _ r (co_room_pk _ _ Hok) Hr eq_refl) as Hroom. change (pk r) with (room_pk r) in Hroom. rewrite Hroom.
  cbn [mbind option_bind]. destruct (by_pk (db_floors db) (room_floor r)) as [f|]; [|done].
  cbn [fmap option_fmap option_map]. destruct (Z.eqb_spec (flr_building f) k) as [->|Hne]; [by rewrite bool_decide_true|].
  rewrite bool_decide_false by congruence. done.
Qed.

(** The page of a building says exactly whether it can be deleted: with nothing on it, which
    is when it has no floors, the deletion succeeds; otherwise it is refused and nothing
    changes.  Its floors and their rooms are those the list of buildings counts. *)
Theorem building_page_exact ci user user' k db view :
  campus_ok ci db → plays IFO_ADMIN user' → building_detail user k db = (inr (Shown view), db) →
  let row := building_row_of db (bv_building view) in
  bw_floors row = Z.of_nat (length (bv_floors view)) ∧ bw_rooms row = zsum (snd <$> bv_floors view) ∧
  (bv_blockers view = [] ↔ bv_floors view = []) ∧
  wp (building_delete user' k) (λ r db',
    if decide (bv_blockers view = []) then
      (∃ flash, r = inr (Redirect "ifo_buildings" "" flash)) ∧ db_buildings db' = delete_pk k (db_buildings db) ∧
      db_rooms db' = db_rooms db ∧ db_floors db' = db_floors db
    else db' = db ∧ ∃ flash, r = inr (Redirect "ifo_building_detail" (PyStr.str k) flash)) db.
Proof.
  intros Hok Hrole Hview.
  assert (∃ b, List.find (λ b, bld_pk b =? k) (db_buildings db) = Some b ∧ bld_pk b = k ∧
    view = mk_building_view b
      ((λ f, (f, count (λ r, room_floor r =? flr_pk f) (db_rooms db)))
         <$> sort_by by_number (select (λ f, flr_building f =? bld_pk b) (db_floors db)))
      (structure_blocker_rows (building_delete_blockers (bld_pk b) db))) as (b & Hfind & Hb & ->).
  { unfold building_detail, ifo_page in Hview. destruct (_ && _); [done|].
    unfold shown_or_404, first, mbind, M_bind, read in Hview. cbn [tbl table_Building] in Hview.
    destruct (List.find _ _) as [b|] eqn:E; [|done]. injection Hview as <-. exists b. split; [done|]. split; [|done].
    apply find_elem in E as [_ E]. by apply Z.eqb_eq. }
  intros row. assert (row = building_row_of db b) as Hrow by done. clearbody row. subst row.
  cbn [bv_floors bv_blockers bw_floors bw_rooms building_row_of]. rewrite Hb.
  pose proof (rooms_by_floor ci db k Hok) as Hrooms. clear Hview. set (floors := select (λ f, flr_building f =? k) (db_floors db)) in *.
  assert (building_delete_blockers k db = [] ↔ floors = []) as Hempty.
  { unfold building_delete_blockers, nonzero. rewrite select_nil. split.
    - intros H. apply select_nil, count_zero. specialize (H _ (list_elem_of_here _ _)). by apply negb_false_iff, Z.eqb_eq in H.
    - intros Hf. rewrite Hrooms. fold floors. unfold count. fold floors. rewrite Hf. intros p. rewrite !elem_of_cons, elem_of_nil. by intros [->|[->|]]. }
  assert (structure_blocker_rows (building_delete_blockers k db) = [] ↔ building_delete_blockers k db = []) as Hlabels.
  { unfold building_delete_blockers, nonzero. rewrite !select_cons. cbn. repeat case_match; done. }
  split_and!.
  - unfold count. by rewrite length_fmap, sort_by_perm.
  - rewrite Hrooms, <- list_fmap_compose. by rewrite sort_by_perm.
  - rewrite Hlabels, Hempty. split; [by intros ->|]. intros H%fmap_nil_inv. by apply sort_by_nil in H.
  - unfold building_delete, ifo_required, role_required. rewrite (proj2 (role_plays _ _) Hrole).
    unfold building_404, get_or_404. wp_step. unfold wp at 1, first, read. cbn [fst snd tbl table_Building]. rewrite Hfind.
    wp_step. apply wp_read. destruct (decide _) as [D|D]; rewrite Hlabels in D.
    + rewrite D. wp_step. unfold wp at 1, audit_building. rewrite audit_eq. cbn [fst snd].
      assert (∀ r, r ∈ db_rooms db → on_building db k r = false) as Hnone.
      { apply count_zero. rewrite Hrooms. by rewrite (proj1 Hempty D). }
      wp_step. unfold delete_building. wp_step. apply wp_read. wp_step. wp_step.
      * wp_step. split_and!; [by eexists|done..|]. cbn.
        apply select_all. intros f Hf. apply negb_true_iff, (proj1 (select_nil _ _) (proj1 Hempty D) f Hf).
      * exfalso. match goal with H : _ = false |- _ => apply negb_false_iff, existsb_elem in H as (r & Hr & H') end.
        change (on_building db k r = true) in H'. by rewrite Hnone in H'.
    + destruct (building_delete_blockers k db) as [|x l]; [done|]. apply wp_ret. split; [done|]. by eexists.
Qed.

(** ** The panel of a room *)
Definition by_room_of (db : DB) (term : option AcademicTerm) (day : Z) : dict Z (list Session) :=
  match term with Some t => today_by_room db t day | None => [] end.
Lemma room_day_of_board db room term day :
  dict_getd (by_room_of db term day) (room_pk room) [] = room_day db room term day.
Proof.
  destruct term as [t|]; [|done]. unfold by_room_of, today_by_room, room_day.
  rewrite (proj2 (proj2 (dict_group_spec ses_room id _))), list_fmap_id. apply select_ext. intros s _.
  by destruct (Z.eqb_spec (ses_room s) (room_pk room)); [rewrite bool_decide_true|rewrite bool_decide_false].
Qed.
Lemma tile_within db room sessions now grace :
  let tile := room_tile db room sessions now grace in
  let shown := select (λ s, occupies db s room) sessions in
  tile_count tile = Z.of_nat (length shown) ∧ (∀ s, tile_session tile = Some s → s ∈ shown) ∧ (∀ s, tile_next tile = Some s → s ∈ shown).
Proof.
  cbn. split_and!; [done| |].
  - by intros s [Hs _]%find_elem.
  - intros s Hs. apply head_Some_elem_of in Hs. by apply elem_of_select in Hs as [Hs _].
Qed.
Lemma reads_at {A} (m : M A) db r db' : reads m → m db = (r, db') → db' = db ∧ m db = (r, db).
Proof. intros H E. specialize (H db). unfold exec in H. rewrite E in H. cbn in H. by subst. Qed.
Lemma reads_policy_as_int key : reads (policy_as_int key).
Proof. apply respects_bind; [apply _|apply reads_policy|]. intros v db. by destruct v. Qed.
Lemma reads_guard_floors user now : reads (guard_floor_ids user now).
Proof.
  apply respects_bind; [apply _|apply reads_active_term|]. intros [t|] db; [|done].
  unfold exec, mbind, M_bind, objects, read. done.
Qed.
Lemma panel_shown ci user code now db panel :
  room_panel ci user code now db = (inr (Shown panel), db) →
  ∃ room grace term, room ∈ db_rooms db ∧ policy_as_int "grace_minutes" db = (inr grace, db) ∧ get_active_term db = (inr term, db) ∧
    panel = mk_room_panel room (room_tile db room (room_day db room term (PyTime.local_date now)) now (PyTime.minutes grace))
      (select (λ s, occupies db s room) (room_day db room term (PyTime.local_date now))) (room_week db room term) term.
Proof.
  intros Hp. unfold room_panel, ifo_page in Hp. destruct (_ && _); [done|].
  unfold shown_or_404, first, read in Hp. unfold mbind, M_bind in Hp. cbn [tbl table_Room] in Hp.
  destruct (List.find _ _) as [room|] eqn:Er; [|done]. apply find_elem in Er as [Hroom _].
  destruct (policy_as_int "grace_minutes" db) as [[e|grace] db1] eqn:Eg; [done|].
  destruct (reads_at _ _ _ _ (reads_policy_as_int _) Eg) as [-> Hg].
  destruct (get_active_term db) as [[e|term] db2] eqn:Et; [done|].
  destruct (reads_at _ _ _ _ reads_active_term Et) as [-> Ht]. injection Hp as <-.
  by exists room, grace, term.
Qed.
(** The panel of a room shows the tile the board shows for it and the classes of the day
    that tile is computed from: those of the room that are held in it, by start; the recurring
    classes are the active ones of the term, none of them online in a physical room.  A guard
    posted to the floor is shown the same tile and the same day. *)
Theorem room_panel_exact ci user code now db panel :
  campus_ok ci db → room_panel ci user code now db = (inr (Shown panel), db) →
  let room := pn_room panel in
  let day := PyTime.local_date now in
  room ∈ db_rooms db ∧ get_active_term db = (inr (pn_term panel), db) ∧
  (∃ grace, policy_as_int "grace_minutes" db = (inr grace, db) ∧
     pn_tile panel = tile_of db (by_room_of db (pn_term panel) day) now (PyTime.minutes grace) room) ∧
  tile_count (pn_tile panel) = Z.of_nat (length (pn_today panel)) ∧
  (∀ s, tile_session (pn_tile panel) = Some s ∨ tile_next (pn_tile panel) = Some s → s ∈ pn_today panel) ∧
  (∀ s, s ∈ pn_today panel ↔ s ∈ room_day db room (pn_term panel) day ∧ (is_virtual room = true ∨ effective_online db s = false)) ∧
  (∀ sch, sch ∈ pn_schedules panel → sch_room sch = room_pk room ∧ sch_status sch = SCH_ACTIVE ∧
     (is_virtual room = true ∨ sch_modality sch ≠ ONLINE)) ∧
  ∀ guard page, room_detail ci guard (room_code room) now db = (inr (Some page), db) →
     rp_tile page = pn_tile panel ∧ rp_today page = pn_today panel.
Proof.
  intros Hok Hp.
  destruct (panel_shown _ _ _ _ _ _ Hp) as (room & grace & term & Hroom & Hgrace & Hterm & ->).
  cbn [pn_room pn_term pn_tile pn_today pn_schedules]. cbv zeta. set (day := PyTime.local_date now).
  destruct (tile_within db room (room_day db room term day) now (PyTime.minutes grace)) as (Hcount & Hcur & Hnext).
  split_and!; try done.
  - exists grace. split; [done|]. unfold tile_of. by rewrite room_day_of_board.
  - intros s [Hs|Hs]; auto.
  - intros s. rewrite elem_of_select. unfold occupies. destruct (is_virtual room); cbn; [naive_solver|].
    rewrite negb_true_iff. naive_solver.
  - intros sch Hsch. unfold room_week in Hsch. destruct term as [t|]; [|by apply not_elem_of_nil in Hsch].
    apply elem_of_sort_by in Hsch. unfold room_schedules, active_schedules in Hsch.
    destruct (is_virtual room); rewrite !elem_of_select in Hsch; b2p; naive_solver.
  - intros guard page Hpage. unfold room_detail, guard_required, gated, first, read in Hpage.
    destruct (_ && _); [done|]. unfold mbind, M_bind in Hpage. cbn [tbl table_Room] in Hpage.
    destruct (List.find _ _) as [room'|] eqn:Er; [|done]. apply find_elem in Er as [Hroom' Ecode].
    unfold same_text in Ecode. apply bool_decide_eq_true in Ecode.
    assert (room' = room) as -> by by apply (column_inj (λ r, ci (room_code r)) (db_rooms db)); [apply (co_code _ _ Hok)|..|cbn; congruence].
    destruct (guard_floor_ids (usr_pk guard) now db) as [[e|l] db1] eqn:El; [done|].
    destruct (reads_at _ _ _ _ (reads_guard_floors _ _) El) as [-> _]. destruct (negb _); [done|].
    unfold mbind, M_bind in Hpage. rewrite Hgrace, Hterm in Hpage. injection Hpage as <-. by destruct term.
Qed.

(** A morning of the small campus: the room of the class, its building and its poster *)
Example pages_of_a_morning :
  let ivy := demo_user 4 "Ivy" IFO_ADMIN in
  let now := at_ 9 5 in
  match run (room_panel PyStr.upper ivy "m-101" now) demo_db with
  | inr (Shown p) => tile_state (pn_tile p) = R_STARTING ∧ (ses_pk <$> pn_today p) = [1] ∧ (sch_pk <$> pn_schedules p) = [1]
  | _ => False
  end ∧
  match run (building_detail ivy 1) demo_db with
  | inr (Shown v) => (snd <$> bv_floors v) = [2] ∧ (bv_blockers v).*2 = [1; 2]
  | _ => False
  end ∧
  run (room_qr PyStr.upper ivy "https://fluxtrack.example" "M-102") demo_db = inr (Shown "https://fluxtrack.example/scan?t=M-102") ∧
  run (room_from_payload "https://fluxtrack.example/scan?t=M-102" 1 now) demo_db = inr (Some (demo_room 2 "M-102"), inr QR_SCAN) ∧
  run (room_panel PyStr.upper (demo_user 1 "Ana" FACULTY) "M-101" now) demo_db = inr Denied.
Proof. vm_compute. done. Qed.
