(* ===== verification/Frame.v ===== *)
(** The writes of every service, whatever it is asked and whether it succeeds.  Each is
    shown to keep any relation of databases that allows the writes it makes ([Allows],
    [AllowsDelete]); the relations of the theorems of System.v are instances. *)
From S2P Require Import Prelude Python Model Effects Ops Sample Web Campus ImportOfferings Resolvers OnlineDuty Suspensions Availability Merge Jobs GuardAlerts Scan Checker Materialization ScheduleOps Console TermLifecycle Modality Faculty Dean Boards Operations Commands RoomMaster Accounts.
Open Scope Z_scope.

(** ** What a table keeps

    The columns of a row that are never rewritten, the key among them, and the
    uniqueness constraint of the table beyond the key. *)
Class Kept (R : Type) `{!HasPk R} := {
  kept_cols : Type;
  kept : R → kept_cols;
  unique : list R → Prop;
  kept_pk r r' : kept r = kept r' → pk r = pk r';
  kept_unique l l' : kept <$> l = kept <$> l' → unique l → unique l'
}.
#[global] Hint Mode Kept ! - : typeclass_instances.

(** A table that may grow: its rows keep their place and their columns. *)
Definition grows {R} `{!HasPk R, !Kept R} (l l' : list R) : Prop :=
  (kept <$> l) `prefix_of` (kept <$> l') ∧ (pk_unique l ∧ unique l → pk_unique l' ∧ unique l').
#[export] Instance grows_preorder {R} `{!HasPk R, !Kept R} : PreOrder (grows (R:=R)).
Proof.
  split; [by intros l|]. intros l1 l2 l3 [P1 U1] [P2 U2]. split; [by transitivity (kept <$> l2)|]. tauto.
Qed.

(** Rows all of whose columns are kept. *)
Definition kept_whole {R} `{!HasPk R} : Kept R.
Proof. refine {| kept := λ r, r; unique := λ _, True |}; [by intros r r' ->|done]. Defined.

Section kept_lemmas.
Context {R : Type} `{!HasPk R, !Kept R}.
Lemma kept_pks (l l' : list R) : kept <$> l = kept <$> l' → pk <$> l = pk <$> l'.
Proof using.
  revert l'. induction l as [|r l IH]; intros [|r' l'] H; try done. rewrite !fmap_cons in H.
  injection H as Hr Hl. rewrite !fmap_cons. f_equal; [by apply kept_pk|by apply IH].
Qed.
Lemma grows_same (l l' : list R) : kept <$> l = kept <$> l' → grows l l'.
Proof using.
  intros H. split; [by rewrite H|]. intros [Hp Hu]. split; [|by eapply kept_unique].
  unfold pk_unique in *. by rewrite <- (kept_pks l l').
Qed.
Lemma grows_update (p : R → bool) f (l : list R) :
  (∀ r, p r = true → kept (f r) = kept r) → grows l (update_where p f l).
Proof using.
  intros Hf. apply grows_same. unfold update_where. rewrite <- list_fmap_compose.
  apply list_fmap_ext. intros i r _. unfold compose. destruct (p r) eqn:E; [by rewrite Hf|done].
Qed.
Lemma grows_insert (r : R) (l : list R) :
  pk r = fresh_pk l → (unique l → unique (l ++ [r])) → grows l (l ++ [r]).
Proof using.
  intros Hpk Hu. split; [rewrite fmap_app; by apply prefix_app_r|]. intros [Hp Hq].
  split; [by apply pk_unique_insert|by apply Hu].
Qed.
End kept_lemmas.

(** ** Relations that allow the writes of a table *)
Class Allows (rel : DB → DB → Prop) (R : Type) `{!HasPk R, !Table R, !Kept R} :=
  allows : ∀ l db, grows (tbl (R:=R) db) l → rel db (set_tbl l db).
Class AllowsDelete (rel : DB → DB → Prop) (R : Type) `{!HasPk R, !Table R} :=
  allows_delete : ∀ p db, rel db (set_tbl (select p (tbl (R:=R) db)) db).
Class AllowsCache (rel : DB → DB → Prop) :=
  allows_cache : ∀ c db, rel db (db <| db_cache := c |>).
#[global] Hint Mode Allows - ! - - - : typeclass_instances.
#[global] Hint Mode AllowsDelete - ! - - : typeclass_instances.

Section allowed.
Context (rel : DB → DB → Prop) {R : Type} `{!HasPk R, !Table R, !Kept R, !Allows rel R, !PreOrder rel}.
Lemma allowed_save (k : Z) (f : R → R) :
  (∀ r, pk r = k → kept (f r) = kept r) → respects rel (save k f).
Proof using All.
  intros Hf db. unfold exec, save. destruct (existing _ k); [|reflexivity]. apply allows, grows_update.
  intros r Hr%Z.eqb_eq. by apply Hf.
Qed.
Lemma allowed_update_rows (p : R → bool) (f : R → R) :
  (∀ r, kept (f r) = kept r) → respects rel (update_rows p f).
Proof using All. intros Hf db. apply allows, grows_update. intros r _. apply Hf. Qed.
Lemma allowed_create_at (mk : Z → R) db :
  (∀ k, pk (mk k) = k) →
  (unique (tbl (R:=R) db) → unique (tbl db ++ [mk (fresh_pk (tbl (R:=R) db))])) →
  rel db (create mk db).2.
Proof using All. intros Hpk Hu. apply allows, grows_insert; [by rewrite Hpk|apply Hu]. Qed.
Lemma allowed_create (mk : Z → R) :
  (∀ k, pk (mk k) = k) → (∀ l k, unique l → unique (l ++ [mk k])) → respects rel (create mk).
Proof using All. intros Hpk Hu db. apply allowed_create_at; [done|apply Hu]. Qed.
Lemma allowed_create_unique clash (mk : Z → R) :
  (∀ k, pk (mk k) = k) → (∀ l k, unique l → unique (l ++ [mk k])) → respects rel (create_unique clash mk).
Proof using All.
  intros Hpk Hu db. unfold exec, create_unique. destruct (existsb _ _); [reflexivity|]. by apply allowed_create.
Qed.
Lemma allowed_save_unique clash (k : Z) (f : R → R) :
  (∀ r, pk r = k → kept (f r) = kept r) → respects rel (save_unique clash k f).
Proof using All.
  intros Hf db. unfold exec, save_unique. destruct (by_pk _ _); [|reflexivity].
  destruct (existsb _ _); [reflexivity|]. by apply allowed_save.
Qed.
End allowed.
Lemma allowed_delete_row rel `{!HasPk R, !Table R, !AllowsDelete rel R} k : respects rel (delete_row (R:=R) k).
Proof. intros db. apply allows_delete. Qed.

Lemma respects_gated {A} rel `{!PreOrder rel} r user (view : M A) :
  respects rel view → respects rel (gated r user view).
Proof. intros H. unfold gated. case_match; [apply respects_raise; exact _|exact H]. Qed.

Create HintDb updates.
#[export] Hint Unfold move_session place_session : updates.
Ltac allowed_side :=
  intros; first [reflexivity | exact I | done | autounfold with updates; repeat case_match; done].
(** Symbolic execution of [respects]: the structure of the code, its writes, and the
    services already shown, from the hint database. *)
Create HintDb allowed.
Ltac allowed_step :=
  lazymatch goal with
  | |- forall _, _ => intros ?
  | |- respects _ (mret _) => apply respects_ret; exact _
  | |- respects _ (raise _) => apply respects_raise; exact _
  | |- respects _ (read _) => apply respects_read; exact _
  | |- respects _ (objects _) => apply respects_read; exact _
  | |- respects _ (objects_join _) => apply respects_read; exact _
  | |- respects _ (first _) => apply respects_read; exact _
  | |- respects _ (exists_where _) => apply respects_read; exact _
  | |- respects _ (guard_m _ _) => apply respects_guard; exact _
  | |- respects _ (of_option _ _) => apply respects_of_option; exact _
  | |- respects _ (when _ _) => apply respects_when; [exact _|]
  | |- respects _ (atomic _) => apply respects_atomic; [exact _|]
  | |- respects _ (gated _ _ _) => apply respects_gated; [exact _|]
  | |- respects _ (_ ≫= _) => apply respects_bind; [exact _| |intros ?]
  | |- respects _ (_ <$> _) => apply respects_fmap
  | |- respects _ (for_each _ _) => apply respects_for_each; [exact _|intros ? _]
  | |- respects _ (fold_m _ _ _) => apply respects_fold_m; [exact _|intros ? ? _]
  | |- respects _ (try_with _ _) =>
      apply respects_try; [exact _| |intros ? ? Hh; cbv beta in Hh; repeat case_match; simplify_eq]
  | |- respects _ (save _ _) => refine (allowed_save _ _ _ _); allowed_side
  | |- respects _ (update_rows _ _) => refine (allowed_update_rows _ _ _ _); allowed_side
  | |- respects _ (create _) => refine (allowed_create _ _ _ _); allowed_side
  | |- respects _ (create_unique _ _) => refine (allowed_create_unique _ _ _ _ _); allowed_side
  | |- respects _ (save_unique _ _ _) => refine (allowed_save_unique _ _ _ _ _); allowed_side
  | |- respects _ (delete_row _) => apply allowed_delete_row; exact _
  | |- respects _ (match ?x with _ => _ end) => destruct x
  | |- respects _ _ => solve [auto with allowed nocore]
  end.
Ltac allowed := repeat (cbv beta zeta; allowed_step).

(** ** The kept columns of each table *)
#[global] Instance kept_AuditLog : Kept AuditLog := kept_whole.
#[global] Instance kept_CheckerValidation : Kept CheckerValidation := kept_whole.
#[global] Instance kept_Notification : Kept Notification.
Proof.
  refine {| kept := λ n, (ntf_pk n, ntf_user n, ntf_type n, ntf_title n, ntf_body n, ntf_link n);
            unique := λ _, True |}; [by intros r r' [= ?]|done].
Defined.
(** A replayed item is received once. *)
#[global] Instance kept_CheckerReplayReceipt : Kept CheckerReplayReceipt.
Proof.
  refine {| kept := λ r, r; unique := λ l, NoDup (rcp_uuid <$> l) |}; [by intros r r' ->|].
  intros l l'. rewrite !list_fmap_id. by intros ->.
Defined.
(** A session stays the meeting of its class on its date, the only one. *)
#[global] Instance kept_Session : Kept Session.
Proof.
  refine {| kept := λ s, (ses_pk s, (ses_schedule s, ses_date s)); unique := one_per_occurrence |};
    [by intros r r' [= ?]|].
  intros l l' H. unfold one_per_occurrence.
  assert (∀ t, (λ s, (ses_schedule s, ses_date s)) <$> t = snd <$> ((λ s, (ses_pk s, (ses_schedule s, ses_date s))) <$> t))
    as Hs by (intros t; by rewrite <- list_fmap_compose).
  by rewrite !Hs, H.
Defined.
#[global] Instance kept_Schedule : Kept Schedule.
Proof.
  refine {| kept := λ s, (sch_pk s, sch_term s, sch_course_code s, sch_section s, sch_day s,
                           sch_modality s); unique := λ _, True |}; [by intros r r' [= ?]|done].
Defined.
#[global] Instance kept_AcademicTerm : Kept AcademicTerm.
Proof.
  refine {| kept := λ t, (term_pk t, term_name t, term_start t, term_end t); unique := λ _, True |};
    [by intros r r' [= ?]|done].
Defined.
#[global] Instance kept_ClassSuspension : Kept ClassSuspension.
Proof.
  refine {| kept := λ x, (sus_pk x, sus_term x, sus_start x, sus_end x, sus_building x, sus_reason x,
                           sus_declared_by x); unique := λ _, True |}; [by intros r r' [= ?]|done].
Defined.
#[global] Instance kept_ModalityShiftRequest : Kept ModalityShiftRequest.
Proof.
  refine {| kept := λ r, (req_pk r, req_requester r, req_dean r, req_department r, req_target r,
                           req_wstart r, req_wend r, req_is_time_move r); unique := λ _, True |};
    [by intros r r' [= ?]|done].
Defined.
#[global] Instance kept_ModalityShiftItem : Kept ModalityShiftItem.
Proof.
  refine {| kept := λ i, (it_pk i, it_request i, it_schedule i, it_new_start i,
                           it_new_end i); unique := λ _, True |}; [by intros r r' [= ?]|done].
Defined.
#[global] Instance kept_RoomConflictFlag : Kept RoomConflictFlag.
Proof.
  refine {| kept := λ f, (flag_pk f, flag_room f, flag_key f); unique := λ _, True |};
    [by intros r r' [= ?]|done].
Defined.
#[global] Instance kept_JobRun : Kept JobRun.
Proof. refine {| kept := job_pk; unique := λ _, True |}; [by intros r r' ?|done]. Defined.

#[global] Instance kept_Booking : Kept Booking.
Proof.
  refine {| kept := λ b, (bkg_pk b, bkg_room b, bkg_created_by b, bkg_occupant b, bkg_purpose b, bkg_start b,
                           bkg_end b); unique := λ _, True |}; [by intros r r' [= ?]|done].
Defined.
(** A duty posting may lose floors that are deleted. *)
#[global] Instance kept_Assignment : Kept Assignment.
Proof.
  refine {| kept := λ a, (asg_pk a, asg_user a, asg_role a, asg_type a, asg_scope a, asg_date a, asg_start a,
                           asg_end a, asg_term a); unique := λ _, True |}; [by intros r r' [= ?]|done].
Defined.
#[global] Instance kept_AcademicBreak : Kept AcademicBreak := kept_whole.
#[global] Instance kept_Room : Kept Room.
Proof. refine {| kept := λ r, (room_pk r, room_code r); unique := λ _, True |}; [by intros r r' [= ?]|done]. Defined.
(** An account keeps everything but its names, its address and the provider's id. *)
#[global] Instance kept_User : Kept User.
Proof.
  refine {| kept := λ u, (usr_pk u, usr_username u, usr_role u, usr_department u, usr_active u,
                           usr_superuser u); unique := λ _, True |}; [by intros r r' [= ?]|done].
Defined.
#[global] Instance kept_Floor : Kept Floor := kept_whole.
#[global] Instance kept_Building : Kept Building.
Proof. refine {| kept := bld_pk; unique := λ _, True |}; [by intros r r' ?|done]. Defined.

(** A continuation may rely on what a computation returns. *)
Lemma respects_bind_post {A B} rel `{!PreOrder rel} (m : M A) (k : A → M B) (P : A → Prop) :
  respects rel m → (∀ db, wp m (λ r _, ∀ a, r = inr a → P a) db) →
  (∀ a, P a → respects rel (k a)) → respects rel (m ≫= k).
Proof.
  intros Hm HP Hk db. specialize (Hm db). specialize (HP db). unfold exec, wp, mbind, M_bind in *.
  destruct (m db) as [[e|a] db']; simpl in *; [done|]. etransitivity; [exact Hm|]. apply (Hk a (HP a eq_refl) db').
Qed.

(** ** The services that leave the calendar of terms alone *)
Section services.
Context (rel : DB → DB → Prop) `{!PreOrder rel, !AllowsCache rel}.
Context `{!Allows rel AuditLog, !Allows rel Notification, !Allows rel Session, !Allows rel Schedule,
  !Allows rel ClassSuspension, !Allows rel ModalityShiftRequest, !Allows rel ModalityShiftItem,
  !Allows rel RoomConflictFlag, !Allows rel JobRun, !Allows rel CheckerValidation,
  !Allows rel CheckerReplayReceipt}.

(** *** Shared operations *)
Lemma allowed_get_pk {R} `{!HasPk R, !Table R} k : respects rel (get_pk (R:=R) k).
Proof using All. unfold get_pk. allowed. Qed.
Lemma allowed_audit actor event ttype tid payload : respects rel (audit actor event ttype tid payload).
Proof using All. unfold audit. allowed. Qed.
Hint Resolve allowed_get_pk allowed_audit : allowed.
Lemma allowed_audit_bulk actor event ttype payload ids :
  respects rel (audit_bulk actor event ttype payload ids).
Proof using All. unfold audit_bulk. allowed. Qed.
Lemma allowed_notify users role type title body link :
  respects rel (notify users role type title body link).
Proof using All. unfold notify, notify_one. allowed. Qed.
Lemma allowed_get_active_term : respects rel get_active_term.
Proof using PreOrder0.
  intros db. unfold exec, get_active_term. destruct (select _ _) as [|t [|t' l]]; reflexivity.
Qed.
Lemma allowed_require_writable t : respects rel (require_writable_term t).
Proof using All. unfold require_writable_term. allowed. Qed.
Lemma allowed_get_policy key : respects rel (get_policy key).
Proof using All. unfold get_policy. allowed. Qed.
Lemma allowed_get_policy_num key : respects rel (get_policy_num key).
Proof using All. unfold get_policy_num, as_number. allowed; apply allowed_get_policy. Qed.
Lemma allowed_release_room ses actor now : respects rel (release_room ses actor now).
Proof using All. unfold release_room. allowed. Qed.
Lemma allowed_cache_get key now : respects rel (cache_get key now).
Proof using All. unfold cache_get. allowed. Qed.
Lemma allowed_cache_set key v timeout now : respects rel (cache_set key v timeout now).
Proof using All. intros db. apply allows_cache. Qed.
Hint Resolve allowed_audit_bulk allowed_notify allowed_get_active_term allowed_require_writable
  allowed_get_policy_num allowed_get_policy allowed_release_room allowed_cache_get allowed_cache_set : allowed.
Lemma allowed_cache_add key v timeout now : respects rel (cache_add key v timeout now).
Proof using All. unfold cache_add. allowed. Qed.
Lemma allowed_cache_get_or_set key v timeout now : respects rel (cache_get_or_set key v timeout now).
Proof using All. unfold cache_get_or_set. allowed. Qed.
Lemma allowed_cache_incr key now : respects rel (cache_incr key now).
Proof using All.
  unfold cache_incr. allowed. all: intros db; apply allows_cache.
Qed.
Hint Resolve allowed_cache_add allowed_cache_get_or_set allowed_cache_incr : allowed.

(** *** Merged classes, the sweeps and the alerts *)
Lemma allowed_fill_siblings anchor flip event actor :
  (∀ s : Session, kept (flip s) = kept s) → respects rel (fill_siblings anchor flip event actor).
Proof using All.
  intros Hf. unfold fill_siblings, materialize_candidates. allowed. all: try apply Hf.
Qed.
Lemma allowed_propagate_present anchor now actor :
  respects rel (propagate_merged_present anchor now actor).
Proof using All. by apply allowed_fill_siblings. Qed.
Lemma allowed_propagate_absent anchor actor now :
  respects rel (propagate_merged_absent anchor actor now).
Proof using All. unfold propagate_merged_absent. allowed. by apply allowed_fill_siblings. Qed.
Lemma allowed_excused_checker term : respects rel (excused_checker term).
Proof using All. unfold excused_checker. allowed. Qed.
Hint Resolve allowed_propagate_present allowed_propagate_absent allowed_excused_checker : allowed.
Lemma allowed_sweep now : respects rel (sweep_no_shows now).
Proof using All. unfold sweep_no_shows, sweep_one. allowed. Qed.
Lemma allowed_detect now : respects rel (detect_room_conflicts now).
Proof using All. unfold detect_room_conflicts, resolve_cleared, raise_conflict. allowed. Qed.
Lemma allowed_notify_guards evs now : respects rel (notify_floor_guards evs now).
Proof using All. unfold notify_floor_guards, alert_guard. allowed. Qed.
Hint Resolve allowed_sweep allowed_detect allowed_notify_guards : allowed.
Lemma allowed_job_sweep now : respects rel (job_sweep now).
Proof using All. unfold job_sweep. allowed. Qed.
Lemma allowed_mark_read q now : respects rel (mark_read q now).
Proof using All. unfold mark_read. allowed. Qed.
Lemma allowed_run_job repr name fn now :
  respects rel fn → respects rel (run_job repr name fn now).
Proof using All.
  intros Hfn. unfold run_job.
  apply (respects_bind_post rel _ _ (λ run, True)); [allowed|by intros db|intros run _].
  apply (respects_bind_post rel _ _ (λ run', job_pk run' = job_pk run)).
  - allowed.
  - intros db. apply wp_try, wp_bind, wp_any. intros [e|n] db1; [|by intros a [= <-]].
    apply wp_bind, wp_any. by intros [e'|[]] db2; [|intros a [= <-]].
  - intros run' Hpk. allowed. refine (allowed_save _ _ _ _). intros r Hr. simpl. rewrite Hpk. by symmetry.
Qed.
Hint Resolve allowed_job_sweep allowed_mark_read : allowed.

(** *** Faculty scans *)
Lemma allowed_as_int j : respects rel (as_int j).
Proof using All. unfold as_int. allowed. Qed.
Hint Resolve allowed_as_int : allowed.
Lemma allowed_room_from_payload payload user now : respects rel (room_from_payload payload user now).
Proof using All. unfold room_from_payload, manual_code_room. allowed. Qed.
Lemma allowed_apply user r room method reason now :
  respects rel (Scan.apply user r room method reason now).
Proof using All.
  unfold Scan.apply, apply_to_session, find_in_term, audit_session, course_code. allowed.
Qed.
Hint Resolve allowed_room_from_payload allowed_apply : allowed.
Lemma allowed_resolve dumps user payload now : respects rel (Scan.resolve dumps user payload now).
Proof using All. unfold Scan.resolve, act_on, find_in_term. allowed. Qed.
Lemma allowed_confirm loads user token reason now :
  respects rel (confirm loads user token reason now).
Proof using All. unfold confirm. allowed. Qed.

(** *** Checkers *)
Lemma allowed_apply_action user session room a note im at_ offline online now :
  respects rel (apply_action user session room a note im at_ offline online now).
Proof using All. unfold apply_action, online_effect. allowed. Qed.
Lemma allowed_room_session_state room now : respects rel (room_session_state room now).
Proof using All. unfold room_session_state. allowed. Qed.
Lemma allowed_active_floors user now : respects rel (active_floor_ids user now).
Proof using All. unfold active_floor_ids. allowed. Qed.
Hint Resolve allowed_apply_action allowed_room_session_state allowed_active_floors : allowed.
Lemma allowed_checker_resolve user payload now : respects rel (checker_resolve user payload now).
Proof using All.
  unfold checker_resolve, checker_required, checker_room_from_payload, checker_manual_code_room, minute_count. allowed.
Qed.
Lemma allowed_action user a room_id session_id note now :
  respects rel (Checker.action user a room_id session_id note now).
Proof using All.
  unfold Checker.action, checker_required, online_action, room_action, online_session, is_online_on_duty, refuse_action,
    find_in_term. allowed.
Qed.
(** A receipt is created only when none has its identifier. *)
Lemma allowed_create_receipt user uuid status reason :
  respects rel (create_receipt user uuid status reason).
Proof using All.
  intros db. unfold create_receipt, receipt_exists, exec, exists_where, read, mbind, M_bind.
  destruct (existsb _ _) eqn:E; [reflexivity|]. refine (allowed_create_at rel _ db _ _); [done|].
  intros Hu. simpl in *. rewrite fmap_app. apply NoDup_app.
  split; [done|]. split; [|apply NoDup_singleton].
  intros u Hin ->%list_elem_of_singleton. apply list_elem_of_fmap in Hin as (x & Hx & Hin).
  rewrite existsb_elem_false in E. specialize (E x Hin). simpl in *. lia.
Qed.
Hint Resolve allowed_create_receipt : allowed.
Lemma allowed_replay parse_datetime repr user body now : respects rel (replay parse_datetime repr user body now).
Proof using All.
  unfold replay, checker_required, replay_items, replay_item, replay_limited, replay_apply, replay_flag, replay_check, expected_session,
    room_session_at_scan, scanned_instant, room_from_replay_token, replay_manual_code_allowed,
    minute_count, claim_replay_receipt, receipt_exists, json_int. allowed.
Qed.
Lemma allowed_assign_online date : respects rel (assign_online_sessions date).
Proof using All. unfold assign_online_sessions, assign_one, notify_assigned. allowed. Qed.

(** *** Calendar and timetable *)
Lemma allowed_suspend term a b reason building by_ :
  respects rel (suspend_classes term a b reason building by_).
Proof using All.
  unfold suspend_classes, get_term_for_update, flip_batch, notify_suspended. allowed.
Qed.
Lemma allowed_lift ci k by_ now : respects rel (lift_suspension ci k by_ now).
Proof using All. unfold lift_suspension, flip_batch. allowed. Qed.
Lemma allowed_update_schedule {AV : RoomAvailability} k e actor today :
  respects rel (update_schedule k e actor today).
Proof using All. unfold update_schedule, assert_occurrences_free, assert_date_free. allowed. Qed.
Lemma allowed_cancel_schedule k actor reason today : respects rel (cancel_schedule k actor reason today).
Proof using All. unfold cancel_schedule. allowed. Qed.
(** An occurrence is created only when it has no session yet. *)
Lemma allowed_get_or_create sch date : respects rel (get_or_create_session sch date).
Proof using All.
  intros db. unfold get_or_create_session, exec, objects, read, mbind, M_bind.
  destruct (select _ _) as [|s [|s' l]] eqn:E; try reflexivity.
  refine (allowed_create_at rel (new_session sch date) db _ _); [done|]. intros Hu. simpl in *. unfold one_per_occurrence in *.
  rewrite fmap_app. apply NoDup_app. split; [done|]. split; [|apply NoDup_singleton].
  intros o Hin ->%list_elem_of_singleton. apply list_elem_of_fmap in Hin as (x & [= Hs Hd] & Hin).
  rewrite select_nil in E. specialize (E x Hin). unfold occurrence_of in E. lia.
Qed.
Hint Resolve allowed_get_or_create : allowed.
Lemma allowed_materialize term start days allow_draft now :
  respects rel (materialize_term term start days allow_draft now).
Proof using All.
  unfold materialize_term, validate_term, materialize_one, apply_approved_shift. allowed.
Qed.

(** *** Modality shifts *)
Lemma allowed_submit {AV : RoomAvailability} faculty schedules target a b pref move now :
  respects rel (submit_modality_shift faculty schedules target a b pref move now).
Proof using All.
  unfold submit_modality_shift, single_term_id_for_schedules, single, is_before_lead_cutoff,
    route_to_dean, lock_writable_term. allowed.
Qed.
Lemma allowed_withdraw k actor : respects rel (withdraw_modality_shift k actor).
Proof using All.
  unfold withdraw_modality_shift, single_term_id_for_request, single, lock_writable_term. allowed.
Qed.
Lemma allowed_turn_down st verb req dean reason now :
  respects rel (turn_down st verb req dean reason now).
Proof using All. unfold turn_down. allowed. Qed.
Hint Resolve allowed_turn_down : allowed.
Lemma allowed_reject k dean reason now : respects rel (reject_modality_shift k dean reason now).
Proof using All.
  unfold reject_modality_shift, single_term_id_for_request, single, lock_writable_term. allowed.
Qed.
Lemma allowed_approve {AV : RoomAvailability} k dean now : respects rel (apply_approval k dean now).
Proof using All.
  unfold apply_approval, single_term_id_for_request, single, lock_writable_term, apply_online, apply_f2f,
    apply_f2f_item, apply_f2f_session. allowed.
Qed.
End services.

(** ** The calendar of terms *)
Section lifecycle.
Context (rel : DB → DB → Prop) `{!PreOrder rel, !AllowsCache rel}.
Context `{!Allows rel AuditLog, !Allows rel Notification, !Allows rel Session, !Allows rel Schedule,
  !Allows rel ClassSuspension, !Allows rel ModalityShiftRequest, !Allows rel ModalityShiftItem,
  !Allows rel RoomConflictFlag, !Allows rel JobRun, !Allows rel CheckerValidation,
  !Allows rel CheckerReplayReceipt, !Allows rel AcademicTerm}.
Hint Resolve allowed_get_pk allowed_audit allowed_get_policy allowed_materialize : allowed.

Lemma allowed_handle actor today now q : respects rel (handle actor today now q).
Proof using All.
  unfold handle, create_term, activate_term, close_term, reopen_term, archive_action, authorize, save_status,
    validate_common_action_inputs, validate_activation_inputs, policy_int. allowed.
Qed.
End lifecycle.


(** ** The consoles *)

(** *** What the pages share *)
Section pages.
Context (rel : DB → DB → Prop) `{!PreOrder rel}.
Lemma allowed_role r user view : respects rel view → respects rel (role_required r user view).
Proof using All. intros H. unfold role_required. by case_match; [apply respects_ret|]. Qed.
Lemma allowed_ifo user view : respects rel view → respects rel (ifo_required user view).
Proof using All. apply allowed_role. Qed.
Lemma allowed_get_or_404 {R} `{!HasPk R, !Table R} (p : R → bool) k :
  (∀ r, respects rel (k r)) → respects rel (get_or_404 p k).
Proof using All. intros H. unfold get_or_404. allowed; auto. Qed.
Lemma allowed_get_or_404_join {R} `{!HasPk R, !Table R} (p : DB → R → bool) k :
  (∀ r, respects rel (k r)) → respects rel (get_or_404_join p k).
Proof using All. intros H. unfold get_or_404_join. allowed; auto. Qed.
Lemma allowed_check e k : respects rel k → respects rel (check e k).
Proof using All. intros H. unfold check. by case_match; [apply respects_ret|]. Qed.
Lemma allowed_active_term k : (∀ t, respects rel (k t)) → respects rel (with_active_term k).
Proof using All.
  intros H. unfold with_active_term. apply respects_bind; [exact _|by apply allowed_get_active_term|].
  intros [t|]; [apply H|by apply respects_ret].
Qed.
End pages.
Ltac page_step :=
  lazymatch goal with
  | |- respects _ (ifo_required _ _) => apply allowed_ifo; [exact _|]
  | |- respects _ (get_or_404 _ _) => apply allowed_get_or_404; [exact _|intros ?]
  | |- respects _ (get_or_404_join _ _) => apply allowed_get_or_404_join; [exact _|intros ?]
  | |- respects _ (room_404 _ _ _) => apply allowed_get_or_404; [exact _|intros ?]
  | |- respects _ (building_404 _ _) => apply allowed_get_or_404; [exact _|intros ?]
  | |- respects _ (check _ _) => apply allowed_check; [exact _|]
  | |- respects _ (with_active_term _) => apply allowed_active_term; [exact _|intros ?]
  | |- _ => allowed_step
  end.
Ltac page := repeat (cbv beta zeta; page_step).

(** *** Bookings, postings, closures and classes *)
Section console.
Context (rel : DB → DB → Prop) `{!PreOrder rel, !AllowsCache rel}.
Context `{!Allows rel AuditLog, !Allows rel Notification, !Allows rel Session, !Allows rel Schedule,
  !Allows rel ClassSuspension, !Allows rel ModalityShiftRequest, !Allows rel ModalityShiftItem,
  !Allows rel RoomConflictFlag, !Allows rel JobRun, !Allows rel CheckerValidation,
  !Allows rel CheckerReplayReceipt, !Allows rel Booking, !Allows rel Assignment,
  !Allows rel AcademicBreak, !AllowsDelete rel AcademicBreak}.
Hint Resolve allowed_get_pk allowed_audit allowed_get_active_term allowed_require_writable
  allowed_get_policy_num allowed_release_room allowed_materialize allowed_assign_online allowed_suspend
  allowed_lift allowed_cancel_schedule allowed_update_schedule : allowed.
Lemma allowed_audit_by user event ttype k payload : respects rel (audit_by user event ttype k payload).
Proof using All. unfold audit_by. page. Qed.
Hint Resolve allowed_audit_by : allowed.

Lemma allowed_session_release user k now : respects rel (session_release user k now).
Proof using All. unfold session_release. page. Qed.
Lemma allowed_booking_create parse_date parse_time user q : respects rel (booking_create parse_date parse_time user q).
Proof using All. unfold booking_create. page. Qed.
Lemma allowed_booking_cancel user k : respects rel (booking_cancel user k).
Proof using All. unfold booking_cancel. page. Qed.
Lemma allowed_reinstate user k q : respects rel (session_reinstate user k q).
Proof using All. unfold session_reinstate. page. Qed.
Lemma allowed_suspension_create parse_date user q : respects rel (suspension_create parse_date user q).
Proof using All. unfold suspension_create, find_building. page. Qed.
Lemma allowed_suspension_lift ci user k now : respects rel (suspension_lift ci user k now).
Proof using All. unfold suspension_lift. page. Qed.
Lemma allowed_break_create parse_date user q : respects rel (break_create parse_date user q).
Proof using All. unfold break_create. page. Qed.
Lemma allowed_break_delete user k : respects rel (break_delete user k).
Proof using All. unfold break_delete. page. Qed.
Lemma allowed_deal_days n d : respects rel (deal_days n d).
Proof using All. revert d. induction n as [|n IH]; intros d; cbn [deal_days]; unfold next_day; page; apply IH. Qed.
Hint Resolve allowed_deal_days : allowed.
Lemma allowed_assignment_create parse_date parse_time user q floors today :
  respects rel (assignment_create parse_date parse_time user q floors today).
Proof using All. unfold assignment_create, duty_user. page. Qed.
Lemma allowed_schedule_new parse_time user q today now : respects rel (schedule_new parse_time user q today now).
Proof using All.
  unfold schedule_new, find_faculty, find_room, enrolled_of, materialize_command, require_active_term. page.
Qed.
Lemma allowed_schedule_edit {AV : RoomAvailability} parse_time user k q today :
  respects rel (schedule_edit parse_time user k q today).
Proof using All. unfold schedule_edit, find_faculty, find_room, enrolled_of. page. Qed.
Lemma allowed_schedule_cancel user k q today : respects rel (schedule_cancel user k q today).
Proof using All. unfold schedule_cancel. page. Qed.
End console.

(** *** The pages of the faculty, the deans and the checkers *)
Section faculty.
Context (rel : DB → DB → Prop) `{!PreOrder rel, !AllowsCache rel}.
Context `{!Allows rel AuditLog, !Allows rel Notification, !Allows rel Session, !Allows rel Schedule,
  !Allows rel ModalityShiftRequest, !Allows rel ModalityShiftItem, !Allows rel CheckerValidation,
  !Allows rel CheckerReplayReceipt, !Allows rel ClassSuspension, !Allows rel RoomConflictFlag, !Allows rel JobRun}.
Hint Resolve allowed_get_pk allowed_audit allowed_get_active_term allowed_get_policy_num
  allowed_propagate_present allowed_submit allowed_withdraw allowed_reject allowed_approve allowed_notify : allowed.
Lemma allowed_online_start ok user k q now : respects rel (online_start ok user k q now).
Proof using All. unfold online_start, faculty_required. apply allowed_role; [exact _|]. page. Qed.
Lemma allowed_then {A B} (m : M (string + A)) (k : A → M (string + B)) :
  respects rel m → (∀ a, respects rel (k a)) → respects rel (then_ m k).
Proof using All. intros Hm Hk. unfold then_. apply respects_bind; [exact _|done|]. intros [e|a]; [by apply respects_ret|apply Hk]. Qed.
Lemma allowed_form_rooms q schedules acc : respects rel (form_rooms q schedules acc).
Proof using All.
  revert acc. induction schedules as [|sch l IH]; intros acc; cbn [form_rooms]; page; apply IH.
Qed.
Hint Resolve allowed_form_rooms : allowed.
Lemma allowed_modality_new {AV : RoomAvailability} parse_date parse_time user q ids now :
  respects rel (modality_new parse_date parse_time user q ids now).
Proof using All.
  unfold modality_new, faculty_required, submit_form. apply allowed_role; [exact _|].
  apply respects_bind; [exact _| |intros ?; page].
  repeat (apply allowed_then; [|intros ?]); unfold form_check, form_window, form_times, form_schedules, parsed, weeks_window; page.
Qed.
Lemma allowed_modality_withdraw user k : respects rel (modality_withdraw user k).
Proof using All. unfold modality_withdraw, faculty_required. apply allowed_role; [exact _|]. page. Qed.
Lemma allowed_dean_approve {AV : RoomAvailability} user k now : respects rel (Dean.approve user k now).
Proof using All. unfold Dean.approve, dean_required, refused_as_text. apply allowed_role; [exact _|]. page. Qed.
Lemma allowed_dean_reject user k q now : respects rel (Dean.reject user k q now).
Proof using All. unfold Dean.reject, dean_required, refused_as_text. apply allowed_role; [exact _|]. page. Qed.
Lemma allowed_online_open user sid : respects rel (online_open user sid).
Proof using All.
  unfold online_open, online_session, find_in_term. apply allowed_role; [exact _|]. page.
Qed.
End faculty.

(** *** Rooms, floors and buildings *)
Section campus.
Context (rel : DB → DB → Prop) `{!PreOrder rel}.
Context `{!Allows rel AuditLog, !Allows rel Room, !Allows rel Floor, !Allows rel Building,
  !Allows rel ModalityShiftItem, !Allows rel Assignment}.
Context `{!AllowsDelete rel Room, !AllowsDelete rel Floor, !AllowsDelete rel Building,
  !AllowsDelete rel RoomConflictFlag, !AllowsDelete rel ClassSuspension}.
Context (ci : string → string) (draws : nat → Z).

Lemma allowed_audit_row actor event ttype tid payload : respects rel (audit actor event ttype tid payload).
Proof using All. unfold audit. allowed. Qed.
Lemma allowed_row {R} `{!HasPk R, !Table R} k : respects rel (get_pk (R:=R) k).
Proof using All. unfold get_pk. allowed. Qed.
Hint Resolve allowed_audit_row allowed_row : allowed.
Lemma allowed_map {R} `{!HasPk R, !Table R, !Kept R, !Allows rel R} (f : R → R) db :
  (∀ r, kept (f r) = kept r) → rel db (set_tbl (f <$> tbl (R:=R) db) db).
Proof using PreOrder0.
  intros Hf. apply allows, grows_same. rewrite <- list_fmap_compose. apply list_fmap_ext. intros i r _. symmetry. apply Hf.
Qed.
Lemma allowed_delete_room k : respects rel (delete_room k).
Proof using All.
  unfold delete_room. page. intros db. unfold exec, write. cbn [snd].
  etransitivity; [apply (allowed_map (λ it, it <| it_preferred := forget k (it_preferred it) |>
                                               <| it_assigned := forget k (it_assigned it) |>)); done|].
  etransitivity; [apply (allows_delete (λ f : RoomConflictFlag, negb (flag_room f =? k)))|].
  exact (allows_delete (λ x : Room, negb (pk x =? k)) _).
Qed.
Lemma allowed_delete_floor k : respects rel (delete_floor k).
Proof using All.
  unfold delete_floor. page. intros db. unfold exec, write. cbn [snd].
  etransitivity; [apply (allowed_map (λ a, a <| asg_floors := select (λ f, negb (f =? k)) (asg_floors a) |>)); done|].
  exact (allows_delete (λ x : Floor, negb (pk x =? k)) _).
Qed.
Lemma allowed_delete_building k : respects rel (delete_building k).
Proof using All.
  unfold delete_building. page. intros db. unfold exec, write. cbn [snd].
  etransitivity; [apply (allows_delete (λ s, negb (bool_decide (sus_building s = Some k))))|].
  etransitivity; [apply (allowed_map (λ a, a <| asg_floors :=
    select (λ f, negb (bool_decide (f ∈ flr_pk <$> select (λ f, flr_building f =? k) (db_floors db)))) (asg_floors a) |>)); done|].
  etransitivity; [apply (allows_delete (λ f, negb (flr_building f =? k)))|].
  exact (allows_delete (λ x : Building, negb (pk x =? k)) _).
Qed.
Lemma allowed_generate attempts n i : respects rel (generate_loop draws attempts n i).
Proof using All. revert i. induction n as [|n IH]; intros i; cbn [generate_loop]; page; apply IH. Qed.
Hint Resolve allowed_delete_room allowed_delete_floor allowed_delete_building allowed_generate : allowed.
Lemma allowed_campus user q : respects rel (campus_handle ci draws user q).
Proof using All.
  destruct q; cbn [campus_handle];
    unfold room_toggle_service, room_rotate, room_new, room_edit, room_delete, building_create, building_edit,
      building_delete, floor_create, floor_delete, with_room_form, try_delete_room, room_label, floor_label,
      audit_building, new_room_credentials, generate_manual_code; page.
Qed.
End campus.

(** *** The loading of a course sheet *)
Section import.
Context (rel : DB → DB → Prop) `{!PreOrder rel}.
Context `{!Allows rel User, !Allows rel Room, !Allows rel Floor, !Allows rel Building, !Allows rel Schedule}.
Lemma allowed_get_or_create_row {R} `{!HasPk R, !Table R, !Kept R, !Allows rel R} (p : R → bool) fits clash mk :
  (∀ k, pk (mk k) = k) → (∀ l k, unique l → unique (l ++ [mk k])) → respects rel (get_or_create p fits clash mk).
Proof using PreOrder0.
  intros Hpk Hu db. unfold exec.
  destruct (get_or_create_cases p fits clash mk db) as [(r & _ & ->)|[(_ & _ & ->)|[e ->]]]; [reflexivity| |reflexivity].
  apply allows, grows_insert; [by rewrite Hpk|apply Hu].
Qed.
Ltac import_step :=
  lazymatch goal with
  | |- respects _ (get_or_create _ _ _ _) => apply allowed_get_or_create_row; done
  | |- _ => page_step
  end.
Ltac import := repeat (cbv beta zeta; import_step).
Lemma allowed_faculty ci slugify name email cache : respects rel (faculty ci slugify name email cache).
Proof using All. unfold faculty, name_new. import. Qed.
Lemma allowed_room_for ci tokens draws info i : respects rel (room_for ci tokens draws info i).
Proof using All.
  unfold room_for, generate_manual_code. import. revert i. generalize MAX_ATTEMPTS at 2 as n.
  induction n as [|n IH]; intros i; cbn [generate_loop]; import; apply IH.
Qed.
Hint Resolve allowed_faculty allowed_room_for : allowed.
Lemma allowed_import_rows ci slugify tokens draws col o term rows s :
  respects rel (import_rows ci slugify tokens draws col o term rows s).
Proof using All.
  revert s. induction rows as [|row rows IH]; intros s; cbn [import_rows]; [by import|].
  case_match; [by import|]. apply respects_bind; [exact _| |apply IH].
  unfold import_row, load_class, placeholder_room. import.
Qed.
Hint Resolve allowed_import_rows : allowed.
Lemma allowed_import ci slugify tokens draws repr o raw rows i :
  respects rel (import_offerings ci slugify tokens draws repr o raw rows i).
Proof using All. unfold import_offerings, resolve_term, run, get_only, require_writable_term. import. Qed.
End import.

(** *** The commands, and the sign-in *)
Section commands.
Context (rel : DB → DB → Prop) `{!PreOrder rel, !AllowsCache rel}.
Context `{!Allows rel AuditLog, !Allows rel Notification, !Allows rel Session, !Allows rel Schedule,
  !Allows rel ClassSuspension, !Allows rel ModalityShiftRequest, !Allows rel ModalityShiftItem, !Allows rel RoomConflictFlag,
  !Allows rel JobRun, !Allows rel CheckerValidation, !Allows rel CheckerReplayReceipt,
  !Allows rel User, !Allows rel Room, !Allows rel Floor, !Allows rel Building}.
Lemma allowed_refresh x room : respects rel (refresh x room).
Proof using All. unfold refresh. allowed. Qed.
Lemma allowed_room_master ci tokens draws file dry : respects rel (load_room_master ci tokens draws file dry).
Proof using All.
  unfold load_room_master. case_match; [apply respects_raise; exact _|]. case_match. case_match; [apply respects_ret; exact _|].
  apply respects_bind; [exact _| |intros; apply respects_ret; exact _].
  unfold load_rooms. apply respects_atomic; [exact _|]. apply respects_bind; [exact _| |intros _].
  - apply respects_fold_m; [exact _|]. intros [] b _. apply respects_bind; [exact _| |intros; apply respects_ret; exact _].
    unfold ensure_building. refine (allowed_get_or_create_row rel _ _ _ _ _ _); done.
  - apply respects_fold_m; [exact _|]. intros st x _. unfold load_room, ensure_building.
    apply respects_bind; [exact _|refine (allowed_get_or_create_row rel _ _ _ _ _ _); done|intros [b c]].
    apply respects_bind; [exact _|refine (allowed_get_or_create_row rel _ _ _ _ _ _); done|intros [fl c']].
    apply respects_bind; [exact _|apply generate_same; exact _|intros [manual j]].
    apply respects_bind; [exact _|refine (allowed_get_or_create_row rel _ _ _ _ _ _); done|intros [room c'']].
    apply respects_bind; [exact _|apply respects_when; [exact _|apply allowed_refresh]|intros _]. apply respects_ret; exact _.
Qed.
Lemma allowed_materialize_sessions strptime term start days today now :
  respects rel (materialize_sessions strptime term start days today now).
Proof using All.
  unfold materialize_sessions, materialize_resolve_term, parse_start, require_active_term.
  pose proof (allowed_materialize rel). pose proof (allowed_get_active_term rel). allowed.
Qed.
Lemma allowed_assign_command strptime days start today : respects rel (assign_online strptime days start today).
Proof using All.
  unfold assign_online, parse_start, assign_totals. pose proof (allowed_assign_online rel).
  pose proof (allowed_get_policy_num rel). pose proof (allowed_get_active_term rel). allowed.
Qed.
Lemma allowed_sweep_command now : respects rel (run_status_sweep now).
Proof using All.
  unfold run_status_sweep. pose proof (allowed_sweep rel). pose proof (allowed_detect rel). pose proof (allowed_notify_guards rel). allowed.
Qed.
Lemma allowed_check_scheduler created max_age now : respects rel (check_scheduler created max_age now).
Proof using All. unfold check_scheduler. pose proof (allowed_notify rel). allowed. Qed.
(** The steps of the library read, or rename an account. *)
Lemma allowed_named u first last db : rel db (db <| db_users := named u first last <$> db_users db |>).
Proof using All.
  refine (allows (rel:=rel) (R:=User) (named u first last <$> db_users db) db _). apply grows_same. rewrite <- list_fmap_compose. apply list_fmap_ext.
  intros i x _. unfold compose, named. by destruct (usr_pk x =? usr_pk u).
Qed.
Lemma allowed_sign_in ci lib identity : documented lib → respects rel (sign_in ci lib identity).
Proof using All.
  intros [Hm Ha Hd]. unfold sign_in, deny_unprovisioned, write_azure_oid. pose proof (allowed_audit rel).
  assert (∀ i, respects rel (lib_match lib i)) as H1 by (intros i db; by rewrite (proj1 (Hm i db))).
  assert (∀ u, respects rel (lib_associate lib u)) as H2 by (intros u db; by rewrite (Ha u db)).
  assert (∀ i u, respects rel (lib_details lib i u)) as H3.
  { intros i u db. specialize (Hd i u db). unfold exec. destruct (lib_details lib i u db) as [[e|[]] db']; [by subst|].
    destruct Hd as (first & last & ->). apply allowed_named. }
  allowed.
Qed.
Lemma allowed_link_entra ci valid_email lower_ci username upn :
  respects rel (link_entra ci valid_email lower_ci username upn).
Proof using All. unfold link_entra, get_only. allowed. Qed.
Lemma allowed_job_materialize strptime today now : respects rel (job_materialize strptime today now).
Proof using All.
  unfold job_materialize, materialize_sessions, materialize_resolve_term, parse_start, require_active_term.
  pose proof (allowed_materialize rel). pose proof (allowed_get_active_term rel). allowed.
Qed.
End commands.
