(* ===== verification/Worlds.v ===== *)
(** The writes of the services whose state is wider than the database, or which are pages of
    their own: the mutes and the opened lists of notifications, the pruning of the log of
    jobs, the pages of the terms, the push outbox (ops/push.py), the weekly reports
    (ops/reports.py) and the photo of a profile (web/faculty.py).  Each is run on a
    database with the rest of its state given, and shown to keep any relation of databases
    that allows its writes, as in Frame.v. *)
From S2P Require Import Prelude Python Model Effects Ops Sample Web GuardAlerts Push Exports ReportScope WeeklyReports Photos TermLifecycle TermPages Operations Frame.
From stdpp Require Import strings gmap stringmap.
Open Scope Z_scope.

(** A user mutes a category once. *)
Definition mute_key (m : NotificationMute) : Z * string := (mute_user m, mute_category m).
#[global] Instance kept_NotificationMute : Kept NotificationMute.
Proof.
  refine {| kept := λ m, m; unique := λ l, NoDup (mute_key <$> l) |}; [by intros r r' ->|].
  intros l l'. rewrite !list_fmap_id. by intros ->.
Defined.

(** ** On a database, the rest of the state given *)

(** A pass of the outbox over the subscriptions [s], after the attempts [sent] *)
Definition outbox_run (created : Z → Z) (deliver : Z → PushSubscription → Delivery) (key_path : string) (now : Z)
    (s : subs) (sent : list (Z * PushSubscription * Payload)) : M Z := λ db,
  let '(n, w) := send_push_outbox created deliver key_path now {| ob_db := db; ob_subs := s; ob_sent := sent |} in
  (inr n, ob_db w).
(** A computation over the world of the reports, its other tables those of [w] *)
Definition world_run {A} (m : W A) (w : ReportWorld) : M A := λ db,
  let '(r, w') := m (w <| rw_db := db |>) in (r, rw_db w').
(** The upload of a photo, the stored photos and files those of [s] *)
Definition photo_run `{Pillow image} (available : string → gmap string string → string) (removable : string → bool)
    (modified : string → option Z) (user : User) (upload : option PhotoFile) (s : Site) : M profile_page := λ db,
  let '(p, s') := profile_photo_upload available removable modified user upload
    {| si_db := db; si_photos := si_photos s; si_files := si_files s; si_limit := si_limit s |} in
  (inr p, si_db s').

Section worlds.
Context (rel : DB → DB → Prop) `{!PreOrder rel, !AllowsCache rel}.
Context `{!Allows rel AuditLog, !Allows rel Notification, !Allows rel Session, !Allows rel Schedule,
  !Allows rel ClassSuspension, !Allows rel ModalityShiftRequest, !Allows rel ModalityShiftItem,
  !Allows rel RoomConflictFlag, !Allows rel JobRun, !Allows rel CheckerValidation,
  !Allows rel CheckerReplayReceipt, !Allows rel NotificationMute, !AllowsDelete rel NotificationMute,
  !AllowsDelete rel JobRun}.

(** ** Notifications *)
Lemma allowed_mute_toggle user q : respects rel (mute_toggle user q).
Proof using All.
  unfold mute_toggle. case_match; [apply respects_ret; exact _|]. set (c := dict_getd q "category" ""%string).
  intros db. unfold exec, exists_where, read, mbind, M_bind. destruct (existsb _ _) eqn:E; cbn [snd].
  - exact (allows_delete (rel:=rel) (R:=NotificationMute) _ db).
  - refine (allowed_create_at rel (λ k : Z, {| mute_pk := k; mute_user := usr_pk user; mute_category := c |}) db _ _); [done|].
    intros Hu. simpl in *. rewrite fmap_app. apply NoDup_app. split; [done|]. split; [|apply NoDup_singleton].
    intros x Hx ->%list_elem_of_singleton. apply list_elem_of_fmap in Hx as (m & Hm & Hin).
    rewrite existsb_elem_false in E. specialize (E m Hin). unfold own_mute, mute_key in *. simpl in Hm. injection Hm as H1 H2.
    by rewrite H1, H2, Z.eqb_refl, bool_decide_true in E.
Qed.
Lemma allowed_mark (p : Notification → bool) now : respects rel (mark_read p now).
Proof using All. unfold mark_read. allowed. Qed.
Lemma allowed_open_rows (created : Z → Z) limit user now : respects rel (open_rows created limit user now).
Proof using All. unfold open_rows. pose proof allowed_mark. allowed. Qed.
Lemma allowed_prune days now : respects rel (prune days now).
Proof using All.
  unfold prune. allowed. intros db. exact (allows_delete (rel:=rel) (R:=JobRun) _ db).
Qed.
Lemma allowed_maintenance days now : respects rel (job_maintenance days now).
Proof using All. unfold job_maintenance. pose proof allowed_prune. allowed. Qed.

(** ** The outbox *)
Lemma outbox_stamps (created : Z → Z) deliver now l acc :
  rel (ob_db acc.2) (ob_db (foldl (push_row deliver now) acc l).2).
Proof using All.
  revert acc. induction l as [|n l IH]; intros [sent w]; [reflexivity|]. cbn [foldl]. etransitivity; [|apply IH].
  assert (∀ w, rel (ob_db w) (ob_db (stamp now n w))) as Hstamp.
  { intros w0. unfold stamp. cbn [ob_db upd setter].
    refine (allowed_save rel _ _ _ (ob_db w0)). done. }
  assert (∀ l w, ob_db (foldl (push_to deliver n) w l) = ob_db w) as Hpush.
  { induction l0 as [|s l0 IH0]; intros w0; [done|]. cbn [foldl]. rewrite IH0. unfold push_to. by case_match. }
  unfold push_row. case_match; cbn [snd]; [apply Hstamp|]. rewrite <- (Hpush (select (λ s, sub_user s =? ntf_user n) (ob_subs w)) w) at 1.
  apply Hstamp.
Qed.
Lemma allowed_outbox created deliver key_path now s sent : respects rel (outbox_run created deliver key_path now s sent).
Proof using All.
  intros db. unfold exec, outbox_run, send_push_outbox. case_bool_decide; [reflexivity|].
  pose proof (outbox_stamps created deliver now (select (due created now) (db_notifications db))
    (0, {| ob_db := db; ob_subs := s; ob_sent := sent |})) as Hs.
  cbn [ob_db snd] in Hs |- *. by destruct (foldl _ _ _).
Qed.

(** ** The weekly reports *)
Definition world_respects {A} (m : W A) : Prop := ∀ w, rel (rw_db w) (rw_db (m w).2).
Lemma world_ret {A} (a : A) : world_respects (mret a).
Proof using PreOrder0. by intros w. Qed.
Lemma world_bind {A B} (m : W A) (k : A → W B) :
  world_respects m → (∀ a, world_respects (k a)) → world_respects (m ≫= k).
Proof using PreOrder0.
  intros Hm Hk w. specialize (Hm w). unfold mbind, W_bind. destruct (m w) as [[e|a] w']; [done|].
  etransitivity; [exact Hm|apply Hk].
Qed.
Lemma world_on_db {A} (m : M A) : respects rel m → world_respects (on_db m).
Proof using PreOrder0. intros Hm w. specialize (Hm (rw_db w)). unfold on_db, exec in *. by destruct (m (rw_db w)). Qed.
Lemma world_still {A} (m : W A) : (∀ w, rw_db (m w).2 = rw_db w) → world_respects m.
Proof using PreOrder0. intros Hm w. by rewrite Hm. Qed.
Lemma world_each {A} (l : list A) (f : A → W unit) : (∀ x, world_respects (f x)) → world_respects (each l f).
Proof using PreOrder0. intros Hf. induction l; cbn [each]; [apply world_ret|]. apply world_bind; auto. Qed.
Lemma world_run_respects {A} (m : W A) w : world_respects m → respects rel (world_run m w).
Proof using PreOrder0. intros Hm db. specialize (Hm (w <| rw_db := db |>)). unfold exec, world_run. by destruct (m _). Qed.

Lemma world_report available build_pdf name_le t a b now d :
  world_respects (report_and_notify available build_pdf name_le t a b now d).
Proof using All.
  unfold report_and_notify, generate_weekly_report. pose proof (allowed_require_writable rel). pose proof (allowed_notify rel).
  repeat first [apply world_bind; [|intros ?]|apply world_on_db; [unfold notify_report_ready; allowed; done]|apply world_ret].
  all: apply world_still; intros w; unfold get_or_create_report; by repeat case_match.
Qed.
Lemma world_week available build_pdf name_le t a b now :
  world_respects (generate_week_reports available build_pdf name_le t a b now).
Proof using All.
  unfold generate_week_reports. apply world_bind; [apply world_on_db, (allowed_require_writable rel)|intros _].
  apply world_bind; [by apply world_still|intros l]. apply world_bind; [apply world_each; intros d; apply world_report|intros _].
  apply world_bind; [apply world_report|intros _; apply world_ret].
Qed.
Lemma allowed_week_bounds d : respects rel (report_week_bounds d).
Proof using All. unfold report_week_bounds. pose proof (allowed_get_policy rel). allowed. Qed.
Lemma allowed_weekly_job available build_pdf name_le today now w :
  respects rel (world_run (job_weekly_report available build_pdf name_le today now) w).
Proof using All.
  apply world_run_respects. unfold job_weekly_report. apply world_bind; [apply world_on_db, (allowed_get_active_term rel)|intros [t|]].
  - apply world_bind; [apply world_on_db, allowed_week_bounds|intros [a b]; apply world_week].
  - apply world_ret.
Qed.
Lemma allowed_weekly_command available build_pdf name_le strptime term week today now w :
  respects rel (world_run (weekly_handle available build_pdf name_le strptime term week today now) w).
Proof using All.
  apply world_run_respects. unfold weekly_handle. apply world_bind.
  { apply world_on_db. unfold weekly_resolve_term. pose proof (allowed_get_active_term rel). allowed. }
  intros t. apply world_bind; [by repeat case_match; apply world_still|intros d].
  apply world_bind; [apply world_on_db, allowed_week_bounds|intros [a b]; apply world_week].
Qed.

(** ** The photo of a profile *)
Lemma allowed_photo `{Pillow image} available removable modified user upload s :
  respects rel (photo_run available removable modified user upload s).
Proof using All.
  intros db. unfold exec, photo_run, profile_photo_upload. destruct (_ && _); [reflexivity|]. destruct upload as [f|]; [|reflexivity].
  destruct (normalize_profile_photo f _) as [r limit]. destruct r as [e|data]; [by destruct e|].
  cbn [si_db store_photo snd]. apply (allowed_audit rel).
Qed.
End worlds.

(** ** The pages of the terms *)

(** A page of the terms writes what one request of the lifecycle writes, or nothing. *)
Lemma term_create_serves parse_date user q db :
  exec (term_create parse_date user q) db = db ∨
  ∃ r, exec (term_create parse_date user q) db = exec (handle (Some user) 0 0 r) db.
Proof.
  destruct (term_pages_exact parse_date user Activate 0 ((λ q, (q, [])) <$> q) 0 0 db) as (_ & _ & H & _).
  assert (fst <$> ((λ q, (q, [] : list string)) <$> q) = q) as Hq by by destruct q. rewrite Hq in H. unfold wp in H.
  unfold exec at 1 2. destruct (term_create parse_date user q db) as [res db']. cbn [snd] in *.
  repeat case_match; try naive_solver.
  destruct H as (q' & ack & t' & x & y & _ & _ & H). right.
  exists (RCreate (posted_field q' "name") x y (posted_field q' "confirmation_name")). unfold exec. cbn [handle]. by rewrite H.
Qed.
Lemma term_action_serves user a k q today now db :
  exec (term_action user a k q today now) db = db ∨
  ∃ r, exec (term_action user a k q today now) db = exec (handle (Some user) today now r) db.
Proof.
  destruct (term_pages_exact (λ _, inr None) user a k q today now db) as (_ & _ & _ & H). unfold wp in H.
  unfold exec at 1 2. destruct (term_action user a k q today now db) as [res db']. cbn [snd] in *.
  repeat case_match; try naive_solver.
  destruct H as (q' & ack & t' & _ & H). right. destruct a; cbn [carry_out] in H.
  - exists (RActivate k (posted_field q' "confirmation_name") ack). unfold exec. cbn [handle]. by rewrite H.
  - exists (RClose k (posted_field q' "confirmation_name") (posted_field q' "reason") ack). unfold exec. cbn [handle]. by rewrite H.
  - exists (RReopen k (posted_field q' "confirmation_name") (posted_field q' "reason") ack). unfold exec. cbn [handle]. by rewrite H.
Qed.
