(* ===== verification/Staging.v ===== *)
(** ops/import_staging.py and the import pages of web/ifo.py: a course sheet is uploaded,
    previewed by a dry run, and loaded into the Draft term it was staged for when the
    officer says so.

    Three stores are involved, and the model keeps the three: the database, the files of
    the storage by their paths, and the token each browser session holds.  [parse] reads
    the rows of a file from its path and its bytes, or fails with the exception the
    reader raises; [available] is the name the storage gives a new file. *)
From S2P Require Import Prelude Python Model Effects Ops Sample Web Importing Campus ImportOfferings Console Frame.
From Stdlib Require Import Ascii String.
From stdpp Require Import strings gmap stringmap.
Open Scope Z_scope.

(** ** ops/import_staging.py *)
Definition ALLOWED_EXTENSIONS : list string := [".csv"; ".xlsx"]%string.   (* sorted *)
Definition MAX_UPLOAD_BYTES : Z := 10 * 1024 * 1024.
Definition STAGING_PREFIX : string := "imports/staging/".
Definition STAGING_TTL_HOURS : Z := 2.

(** The world a request sees: the database, the stored files, the sessions' tokens. *)
Record World := { w_db : DB; w_files : gmap string string; w_tokens : gmap Z string }.
#[global] Instance eta_World : Eta World := λ w, {|
  w_db := w_db w; w_files := w_files w; w_tokens := w_tokens w |}.
(** An uploaded file: its name and its bytes. *)
Record Upload := { up_name : string; up_bytes : string }.

(** [os.path.splitext(name)[1].lower()] *)
Fixpoint last_component (acc l : list ascii) : list ascii :=
  match l with
  | [] => reverse acc
  | c :: l' => if bool_decide (c = "/"%char) then last_component [] l' else last_component (c :: acc) l'
  end.
Definition not_dot (c : ascii) : bool := negb (bool_decide (c = "."%char)).
Definition extension (client_name : string) : string :=
  let r := reverse (last_component [] (PyStr.to_list client_name)) in
  match PyStr.drop_while not_dot r with
  | dot :: stem =>
      if existsb not_dot stem
      then PyStr.lower (PyStr.of_list (dot :: reverse (PyStr.take_while not_dot r))) else ""
  | [] => ""
  end.
Definition upload_error (u : Upload) : option string :=
  ladder
    [(negb (bool_decide (extension (up_name u) ∈ ALLOWED_EXTENSIONS)),
      "Unsupported file type. Upload one of: " +:+ PyStr.join ", " ALLOWED_EXTENSIONS +:+ ".");
     (MAX_UPLOAD_BYTES <? PyStr.len (up_bytes u),
      "That file is too large. The limit is 10 MB."%string)].
Definition staging_clash (s s' : ImportStaging) : bool := bool_decide (stg_token s = stg_token s').
Definition live_staging (token : string) (user : Z) (s : ImportStaging) : bool :=
  bool_decide (stg_token s = token) && (stg_user s =? user) && is_none (stg_consumed_at s).

Section staging.
Context (available : string → gmap string string → string).

(** [default_storage.save], then the row: a refusal of the row leaves the file. *)
Definition stage_upload (u : Upload) (user : Z) (term : option AcademicTerm) (token : string) (now : Z) (w : World)
    : (exn + ImportStaging) * World :=
  match term with
  | None => (inl (ImportStagingError "Select a Draft term before previewing an import."), w)
  | Some t =>
      match upload_error u with
      | Some e => (inl (ImportStagingError e), w)
      | None =>
          let path := available (STAGING_PREFIX +:+ token +:+ extension (up_name u)) (w_files w) in
          let w := w <| w_files := <[path := up_bytes u]> (w_files w) |> in
          let '(r, db) := create_unique staging_clash (λ k,
            {| stg_pk := k; stg_token := token; stg_user := user; stg_term := Some (term_pk t);
               stg_original_name := up_name u; stg_stored_path := path; stg_size := PyStr.len (up_bytes u);
               stg_created_at := now; stg_consumed_at := None |}) (w_db w) in
          (r, w <| w_db := db |>)
      end
  end.
Definition resolve_staged (token : string) (user : Z) (db : DB) : option ImportStaging :=
  List.find (live_staging token user) (db_stagings db).
Definition consume_staged (s : ImportStaging) (now : Z) : M unit :=
  save (stg_pk s) (λ x, x <| stg_consumed_at := Some now |>).
(** Removal of a file that may be missing already *)
Definition delete_file (path : string) (w : World) : World := w <| w_files := delete path (w_files w) |>.
Definition discard_staged (s : ImportStaging) (w : World) : World :=
  let w := delete_file (stg_stored_path s) w in
  w <| w_db := exec (delete_row (R:=ImportStaging) (stg_pk s)) (w_db w) |>.
Definition abandoned (now : Z) (s : ImportStaging) : bool :=
  is_none (stg_consumed_at s) && (stg_created_at s <? now - PyTime.hours STAGING_TTL_HOURS).
Definition sweep_abandoned (now : Z) (w : World) : Z * World :=
  let rows := select (abandoned now) (db_stagings (w_db w)) in
  (Z.of_nat (length rows), foldl (λ w s, discard_staged s w) w rows).

(** ** The import pages of web/ifo.py *)
Definition MAX_PARSED_ROWS : Z := 20000.
(** [f"{n:,}"] *)
Fixpoint commas_fuel (fuel : nat) (n : Z) : string :=
  match fuel with
  | O => PyStr.str n
  | S fuel' => if n <? 1000 then PyStr.str n
               else commas_fuel fuel' (n / 1000) +:+ "," +:+ PyStr.zpad 3 (n mod 1000)
  end.
Definition commas (n : Z) : string := commas_fuel 20 n.

Context (ci slugify : string → string) (tokens : nat → string) (draws : nat → Z) (repr : string → string).
Context (exn_str : exn → string) (parse : string → string → exn + list (list string)).

Definition read_rows (path : string) (files : gmap string string) : exn + list (list string) :=
  match files !! path with Some bytes => parse path bytes | None => inl OSErr end.
(** The command with its defaults, into the term of the given key *)
Definition load_sheet (path : string) (files : gmap string string) (term : Z) (dry : bool) (i : nat)
    : M (option Report) :=
  match read_rows path files with
  | inl e => resolve_term ci repr (PyStr.str term) ≫= λ _, raise e
  | inr rows => import_offerings ci slugify tokens draws repr
      {| o_building := ""; o_floor := None; o_limit := 0; o_dry_run := dry |} (PyStr.str term) rows i
  end.
Record Preview := { pv_rec : Reconciliation; pv_detail : exn + option Report; pv_rows : Z }.
(** The preview of a staged file, or why there is none; the dry run is only told. *)
Definition import_report (path : string) (term : Z) (i : nat) (w : World) : (string + Preview) * World :=
  match read_rows path (w_files w) with
  | inl _ => (inl ("That file could not be read as an offerings export. Check it is the unmodified "
                   +:+ ".xlsx or .csv from the registrar and try again.")%string, w)
  | inr [] => (inl "That file has no rows in it."%string, w)
  | inr ((header :: data) as rows) =>
      if MAX_PARSED_ROWS <? Z.of_nat (length rows) then
        (inl ("That file has " +:+ commas (Z.of_nat (length rows)) +:+ " rows, which is beyond the "
              +:+ commas MAX_PARSED_ROWS +:+ "-row limit for a single import.")%string, w)
      else
        let '(detail, db) := load_sheet path (w_files w) term true i (w_db w) in
        (inr {| pv_rec := reconcile (header_cols header) data; pv_detail := detail;
                pv_rows := Z.of_nat (length data) |}, w <| w_db := db |>)
  end.

Definition staged_for (sid : Z) (user : User) (w : World) : option ImportStaging :=
  token ← w_tokens w !! sid; resolve_staged token (usr_pk user) (w_db w).
Definition forget_token (sid : Z) (w : World) : World := w <| w_tokens := delete sid (w_tokens w) |>.
Definition draft_term_from_post (q : form) (db : DB) : option AcademicTerm :=
  let raw := post q "term" in
  if PyStr.isdigit raw
  then List.find (λ t, (term_pk t =? digits raw) && bool_decide (term_status t = T_DRAFT)) (db_terms db)
  else None.
Definition as_ifo (user : User) (view : World → (exn + response) * World) (w : World) : (exn + response) * World :=
  if bool_decide (usr_role user ≠ IFO_ADMIN) && negb (usr_superuser user) then (inr Forbidden, w) else view w.

Definition import_page (sid : Z) (user : User) (i : nat) (now : Z) : World → (exn + response) * World :=
  as_ifo user (λ w,
  let w := (sweep_abandoned now w).2 in
  match staged_for sid user w with
  | None => (inr (Page ""), w)
  | Some s =>
      match stg_term s with
      | None => (inr (Page ("That staged upload was created before term selection was required. Please "
                            +:+ "upload it again and choose a Draft term.")%string),
                 forget_token sid (discard_staged s w))
      | Some t =>
          let '(report, w) := import_report (stg_stored_path s) t i w in
          (inr (Page (match report with inl e => e | inr _ => ""%string end)), w)
      end
  end).
Definition import_preview (sid : Z) (user : User) (file : option Upload) (q : form) (token : string) (i : nat) (now : Z)
    : World → (exn + response) * World :=
  as_ifo user (λ w,
  match file, draft_term_from_post q (w_db w) with
  | None, _ => (inr (BadRequest "Choose a file to upload."), w)
  | Some _, None => (inr (BadRequest "Select a Draft term."), w)
  | Some u, Some t =>
      let w := match staged_for sid user w with
               | Some previous => forget_token sid (discard_staged previous w)
               | None => w end in
      match stage_upload u (usr_pk user) (Some t) token now w with
      | (inl (ImportStagingError e), w) => (inr (BadRequest e), w)
      | (inl e, w) => (inl e, w)
      | (inr s, w) =>
          match import_report (stg_stored_path s) (term_pk t) i w with
          | (inl e, w) => (inr (BadRequest e), discard_staged s w)
          | (inr _, w) => (inr (Page ""), w <| w_tokens := <[sid := stg_token s]> (w_tokens w) |>)
          end
      end
  end).
(** What the transaction of the commit answers: a refusal, or the row and the classes made. *)
Definition commit_staged (token : option string) (user : User) (files : gmap string string) (i : nat) (now : Z)
    : M (string + ImportStaging * Z) :=
  read (λ db, t ← token; resolve_staged t (usr_pk user) db) ≫= λ staging,
  match staging with
  | None => mret (inl "That upload is no longer available. Please upload the file again.")
  | Some s =>
      match stg_term s with
      | None => mret (inl "That upload has no Draft term target. Please upload the file again.")
      | Some k =>
          get_pk (R:=AcademicTerm) k ≫= λ term,
          if negb (bool_decide (term_status term = T_DRAFT)) then
            mret (inl ("That target is no longer a Draft term. Please choose a Draft term and preview "
                       +:+ "the file again.")%string)
          else
            let classes db := count (λ c, sch_term c =? k) (db_schedules db) in
            read classes ≫= λ before,
            load_sheet (stg_stored_path s) files k false i ≫= λ _,
            read classes ≫= λ after,
            consume_staged s now ≫= λ _,
            audit (Some (usr_pk user)) "schedule.imported" "import" (PyStr.str (stg_pk s))
              (JObj [("original_name", JStr (stg_original_name s)); ("size_bytes", JInt (stg_size s));
                     ("schedules_created", JInt (after - before)); ("term_id", JInt k);
                     ("term_name", JStr (term_name term))]%string) ≫= λ _,
            mret (inr (s, after - before))
      end
  end.
Definition import_commit (sid : Z) (user : User) (i : nat) (now : Z) : World → (exn + response) * World :=
  as_ifo user (λ w,
  let '(r, db) := atomic (commit_staged (w_tokens w !! sid) user (w_files w) i now) (w_db w) in
  let w := w <| w_db := db |> in
  match r with
  | inl e => (inr (BadRequest ("The import stopped partway through: " +:+ exn_str e)), w)
  | inr (inl e) => (inr (BadRequest e), w)
  | inr (inr (s, created)) => (inr (Page (PyStr.str created)), forget_token sid (delete_file (stg_stored_path s) w))
  end).
Definition import_discard (sid : Z) (user : User) : World → (exn + response) * World :=
  as_ifo user (λ w,
  let w := match staged_for sid user w with Some s => discard_staged s w | None => w end in
  (inr (Page ""), forget_token sid w)).

(** A request of the import pages, by a user in a browser session. *)
Inductive staging_request :=
  | SPage (i : nat) (now : Z) | SPreview (file : option Upload) (q : form) (token : string) (i : nat) (now : Z)
  | SCommit (i : nat) (now : Z) | SDiscard.
Definition staging_handle (sid : Z) (user : User) (r : staging_request) : World → (exn + response) * World :=
  match r with
  | SPage i now => import_page sid user i now
  | SPreview file q token i now => import_preview sid user file q token i now
  | SCommit i now => import_commit sid user i now
  | SDiscard => import_discard sid user
  end.
End staging.

(** ** What loading a sheet leaves alone *)
Definition same_ledger (db db' : DB) : Prop := db_stagings db' = db_stagings db ∧ db_audit db' = db_audit db ∧
  db_terms db' = db_terms db.
#[export] Instance same_ledger_preorder : PreOrder same_ledger.
Proof. split; [by intros db|]. intros db1 db2 db3 (? & ? & ?) (? & ? & ?). split_and!; congruence. Qed.
Ltac ledger_table := intros l db H; done.
#[export] Instance ledger_User : Allows same_ledger User. Proof. ledger_table. Qed.
#[export] Instance ledger_Room : Allows same_ledger Room. Proof. ledger_table. Qed.
#[export] Instance ledger_Floor : Allows same_ledger Floor. Proof. ledger_table. Qed.
#[export] Instance ledger_Building : Allows same_ledger Building. Proof. ledger_table. Qed.
#[export] Instance ledger_Schedule : Allows same_ledger Schedule. Proof. ledger_table. Qed.

Section facts.
Context (available : string → gmap string string → string).
Context (ci slugify : string → string) (tokens : nat → string) (draws : nat → Z) (repr : string → string).
Context (exn_str : exn → string) (parse : string → string → exn + list (list string)).
Notation load := (load_sheet ci slugify tokens draws repr parse).

Lemma resolve_term_keeps (rel : DB → DB → Prop) `{!PreOrder rel} raw : respects rel (resolve_term ci repr raw).
Proof.
  unfold resolve_term. case_match; [apply respects_raise; exact _|]. apply respects_bind; [exact _| |intros t].
  - apply respects_try; [exact _| |intros e m Hm; case_match; simplify_eq; apply respects_raise; exact _].
    intros db. unfold exec. rewrite get_only_eq. reflexivity.
  - apply respects_try; [exact _| |intros e m Hm; destruct e; simplify_eq; apply respects_raise; exact _].
    unfold require_writable_term. case_match; [apply respects_raise|apply respects_ret]; exact _.
Qed.
Lemma load_keeps (rel : DB → DB → Prop) `{!PreOrder rel, !Allows rel User, !Allows rel Room, !Allows rel Floor,
  !Allows rel Building, !Allows rel Schedule} path files term dry i : respects rel (load path files term dry i).
Proof.
  unfold load_sheet. destruct (read_rows _ _ _); [|apply allowed_import; exact _].
  apply respects_bind; [exact _|apply resolve_term_keeps; exact _|intros]. apply respects_raise; exact _.
Qed.
(** A dry run writes nothing. *)
Lemma dry_run_keeps path files term i : respects (=) (load path files term true i).
Proof.
  unfold load_sheet, import_offerings, run.
  destruct (read_rows _ _ _) as [e|rows0]; (apply respects_bind; [exact _|apply resolve_term_keeps; exact _|intros t]);
    [apply respects_raise; exact _|].
  destruct rows0 as [|header data]; [apply respects_ret; exact _|]. cbv zeta. apply respects_bind; [exact _| |intros; apply respects_bind; [exact _|apply respects_read; exact _|intros; apply respects_ret; exact _]].
  apply respects_atomic; [exact _|].
  match goal with |- respects _ (import_rows _ _ _ _ _ _ _ _ ?s) => generalize s end.
  induction data as [|row rows IH]; intros s; cbn [import_rows]; [apply respects_ret; exact _|].
  case_match; [apply respects_ret; exact _|]. apply respects_bind; [exact _| |apply IH].
  unfold import_row. destruct s as [st names j]. case_match; [apply respects_ret; exact _|].
  destruct (plan_row _ _ _ _) as [[st' plan] ph]. destruct plan; apply respects_ret; exact _.
Qed.
Lemma import_report_keeps path term i w : (import_report ci slugify tokens draws repr parse path term i w).2 = w.
Proof.
  unfold import_report. destruct (read_rows _ _ _) as [e|[|header data]]; [done..|]. destruct (_ <? _); [done|].
  pose proof (dry_run_keeps path (w_files w) term i (w_db w)) as Hdry. unfold exec in Hdry.
  destruct (load _ _ _ _ _ _) as [detail db]. simpl in *. subst db. by destruct w.
Qed.

(** ** The commit *)
Notation commit := (import_commit ci slugify tokens draws repr exn_str parse).
Definition classes_of (k : Z) (db : DB) : Z := count (λ c, sch_term c =? k) (db_schedules db).
(** The file read and its rows run into the term, for good and whole: [db1] is the database
    after them. *)
Definition whole_file : Options := {| o_building := ""; o_floor := None; o_limit := 0; o_dry_run := false |}.
Definition file_rows (path : string) (files : gmap string string) (rows : list (list string)) : Prop :=
  ∃ bytes, files !! path = Some bytes ∧ parse path bytes = inr rows.
Definition loads (path : string) (files : gmap string string) (t : AcademicTerm) (i : nat) (db db1 : DB) : Prop :=
  ∃ rows, file_rows path files rows ∧ match rows with
    | [] => db1 = db
    | header :: data => ∃ st, run ci slugify tokens draws (header_cols header) whole_file t data i db = (inr st, db1)
    end.
(** What may be committed: the upload of the session, of this user and not used yet, whose
    term is still a draft, and whose file loads, as [L] says; [db1] is the database once it
    is loaded. *)
Record committable_by (L : string → AcademicTerm → DB → Prop) (sid : Z) (user : User) (w : World) (s : ImportStaging)
    (t : AcademicTerm) (db1 : DB) : Prop := {
  cm_staged : staged_for sid user w = Some s;
  cm_term : stg_term s = Some (term_pk t);
  cm_get : by_pk (db_terms (w_db w)) (term_pk t) = Some t;
  cm_draft : term_status t = T_DRAFT;
  cm_load : L (stg_stored_path s) t db1
}.
Definition sheet_loads (i : nat) (w : World) (path : string) (t : AcademicTerm) (db1 : DB) : Prop :=
  ∃ rp, load path (w_files w) (term_pk t) false i (w_db w) = (inr rp, db1).
Definition committable (sid : Z) (user : User) (i : nat) (w : World) : ImportStaging → AcademicTerm → DB → Prop :=
  committable_by (λ path t db1, loads path (w_files w) t i (w_db w) db1) sid user w.
Lemma resolve_own t db :
  pk_unique (db_terms db) → 0 < term_pk t → by_pk (db_terms db) (term_pk t) = Some t → term_status t = T_DRAFT →
  resolve_term ci repr (PyStr.str (term_pk t)) db = (inr t, db).
Proof.
  intros Hu Hpk Hget Hd. destruct (str_value _ Hpk) as [H1 H2]. unfold resolve_term.
  assert (PyStr.strip (PyStr.str (term_pk t)) = PyStr.str (term_pk t)) as ->.
  { unfold PyStr.strip. rewrite PyStr.strip_list_id; [apply PyStr.of_to_list|]. pose proof (str_plain (term_pk t)) as Hp.
    rewrite forallb_elem in Hp. intros c Hc. specialize (Hp c Hc). unfold plain in Hp. by destruct (PyStr.is_space c). }
  rewrite bool_decide_false; [|intros Hn; by rewrite Hn in H1]. rewrite H1, H2.
  assert (get_only (λ x : AcademicTerm, term_pk x =? term_pk t) db = (inr t, db)) as Hone.
  { rewrite get_only_eq. cbn [tbl table_AcademicTerm]. pose proof (select_pk (λ _, true) _ (term_pk t) Hu) as Hs.
    rewrite Hget in Hs. erewrite select_ext; [by rewrite Hs|]. intros x _. cbn. by rewrite andb_true_r. }
  erewrite bind_run; [|unfold try_with; by rewrite Hone]. unfold try_with, require_writable_term. by rewrite Hd.
Qed.
Lemma load_iff path files t i db db1 :
  pk_unique (db_terms db) → 0 < term_pk t → by_pk (db_terms db) (term_pk t) = Some t → term_status t = T_DRAFT →
  (∃ rp, load path files (term_pk t) false i db = (inr rp, db1)) ↔ loads path files t i db db1.
Proof.
  intros Hu Hpk Hget Hd. pose proof (resolve_own t db Hu Hpk Hget Hd) as Hres.
  unfold load_sheet, loads, file_rows, read_rows. destruct (files !! path) as [bytes|] eqn:Ef.
  2:{ split; [|by intros (rows & (b & [=] & _) & _)]. intros [rp H]. by rewrite (bind_run _ _ _ _ _ Hres) in H. }
  destruct (parse path bytes) as [e|rows] eqn:Ep.
  { split; [|by intros (rows & (b & [= <-] & H) & _); rewrite Ep in H]. intros [rp H]. by rewrite (bind_run _ _ _ _ _ Hres) in H. }
  unfold import_offerings. rewrite (bind_run _ _ _ _ _ Hres). fold whole_file.
  assert (∀ P : list (list string) → Prop, (∃ rows', (∃ b, Some bytes = Some b ∧ parse path b = inr rows') ∧ P rows') ↔ P rows) as Hex.
  { intros P. split; [|by exists rows; eauto]. intros (rows' & (b & [= <-] & H) & HP). rewrite Ep in H. by injection H as <-. }
  rewrite Hex. destruct rows as [|header data]; [split; [by intros [rp [= _ <-]]|intros ->; by eexists]|]. cbv zeta.
  unfold mbind, M_bind. destruct (run _ _ _ _ _ _ _ _ _ db) as [[e|st] db2].
  - split; [by intros [rp [=]]|by intros [st [=]]].
  - split; [intros [rp [= _ <-]]; by exists st|intros [st' [= _ <-]]; by eexists].
Qed.
Lemma committable_sheet sid user i w s t db1 :
  pk_unique (db_terms (w_db w)) → (∀ t, t ∈ db_terms (w_db w) → 0 < term_pk t) →
  committable_by (sheet_loads i w) sid user w s t db1 ↔ committable sid user i w s t db1.
Proof.
  intros Hu Hpos. split; intros []; split; try done; (apply load_iff || apply load_iff in cm_load0); try done;
    by apply Hpos, (by_pk_elem (db_terms (w_db w)) (term_pk t)).
Qed.
(** The rows of the file are classes of the term afterwards. *)
Lemma loads_known path files t i db db1 header data :
  loads path files t i db db1 → file_rows path files (header :: data) →
  (∀ row, row ∈ data → told_apart ci (row_cell row (header_cols header) "Email")) →
  ∀ row, row ∈ data → row_known ci slugify t (header_cols header) whole_file row db1.
Proof.
  intros (rows & (b & Hb & Hp) & H) (b' & Hb' & Hp') Hci. rewrite Hb in Hb'. injection Hb' as <-. rewrite Hp in Hp'. injection Hp' as ->.
  destruct H as [st H]. unfold run, atomic in H.
  pose proof (import_rows_settle ci slugify t (header_cols header) whole_file tokens draws eq_refl data (mk_run no_stats [] i) db Hci
    ltac:(done)) as H1. unfold wp in H1.
  destruct (import_rows ci slugify tokens draws _ _ _ data _ db) as [[e|s1] db2]; [done|]. injection H as -> ->.
  destruct (H1 st eq_refl) as [_ Hk].
  assert (∀ l n, visited (header_cols header) whole_file l n = l) as Hall.
  { induction l as [|row l IH]; intros n; [done|]. cbn [visited]. cbn [o_limit whole_file]. change (negb (0 =? 0) && (0 <=? n)) with false.
    cbv iota. by rewrite IH. }
  by rewrite Hall in Hk.
Qed.
Definition import_row_of (user : User) (s : ImportStaging) (t : AcademicTerm) (n : Z) (db : DB) : AuditLog :=
  {| log_pk := fresh_pk (db_audit db); log_actor := Some (usr_pk user); log_event := "schedule.imported";
     log_target_type := "import"; log_target_id := PyStr.str (stg_pk s);
     log_payload := JObj [("original_name", JStr (stg_original_name s)); ("size_bytes", JInt (stg_size s));
       ("schedules_created", JInt n); ("term_id", JInt (term_pk t)); ("term_name", JStr (term_name t))]%string |}.
Definition consumed (now : Z) (s : ImportStaging) (l : list ImportStaging) : list ImportStaging :=
  update_pk (stg_pk s) (λ x, x <| stg_consumed_at := Some now |>) l.
(** The world after: the classes loaded, the upload used, one row in the log, the file and
    the token of the session gone. *)
Definition committed (sid : Z) (user : User) (now : Z) (w : World) (s : ImportStaging) (t : AcademicTerm) (db1 : DB)
    : World :=
  {| w_db := db1 <| db_stagings := consumed now s (db_stagings (w_db w)) |>
                 <| db_audit := db_audit (w_db w) ++
                      [import_row_of user s t (classes_of (term_pk t) db1 - classes_of (term_pk t) (w_db w)) (w_db w)] |>;
     w_files := delete (stg_stored_path s) (w_files w); w_tokens := delete sid (w_tokens w) |}.

(** The officers of the section, and superusers *)
Definition may_manage (user : User) : bool := bool_decide (usr_role user = IFO_ADMIN) || usr_superuser user.
Lemma load_ledger path files term i db : same_ledger db (exec (load path files term false i) db).
Proof. apply load_keeps; exact _. Qed.
Lemma resolve_elem token user db s :
  resolve_staged token user db = Some s → s ∈ db_stagings db ∧ stg_token s = token ∧ stg_user s = user ∧ stg_consumed_at s = None.
Proof.
  intros [Hin Hl]%find_elem. unfold live_staging in Hl. rewrite !andb_true_iff, bd_true, Z.eqb_eq in Hl. destruct Hl as [[? ?] Hn].
  split_and!; try done. by destruct (stg_consumed_at s).
Qed.
Lemma bind_fail {A B} (m : M A) (k : A → M B) db e db' : m db = (inl e, db') → (m ≫= k) db = (inl e, db').
Proof. intros H. unfold mbind, M_bind. by rewrite H. Qed.
Lemma get_pk_none {R} `{!HasPk R, !Table R} k db : by_pk (tbl (R:=R) db) k = None → get_pk (R:=R) k db = (inl DoesNotExist, db).
Proof. intros H. unfold get_pk, mbind, M_bind, read, of_option. by rewrite H. Qed.
Notation commit_tx := (commit_staged ci slugify tokens draws repr parse).
Lemma commit_staged_eq tok user files i now db s t db1 rp :
  resolve_staged tok (usr_pk user) db = Some s → stg_term s = Some (term_pk t) →
  by_pk (db_terms db) (term_pk t) = Some t → term_status t = T_DRAFT →
  load (stg_stored_path s) files (term_pk t) false i db = (inr rp, db1) →
  let n := classes_of (term_pk t) db1 - classes_of (term_pk t) db in
  commit_tx (Some tok) user files i now db =
    (inr (inr (s, n)), db1 <| db_stagings := consumed now s (db_stagings db) |>
                           <| db_audit := db_audit db ++ [import_row_of user s t n db] |>).
Proof.
  intros Hs Ht Hget Hdraft Hload n.
  pose proof (load_ledger (stg_stored_path s) files (term_pk t) i db) as (L1 & L2 & _).
  unfold exec in L1, L2. rewrite Hload in L1, L2. cbn [snd] in L1, L2.
  unfold commit_staged. erewrite bind_run by reflexivity. cbn [mbind option_bind]. rewrite Hs, Ht.
  erewrite bind_run by (apply get_pk_eq; exact Hget).
  rewrite bool_decide_true by done. cbn [negb]. cbv zeta.
  erewrite bind_run by reflexivity. erewrite bind_run by exact Hload. erewrite bind_run by reflexivity.
  assert (is_Some (by_pk (db_stagings db1) (stg_pk s))) as [s0 Hs0].
  { rewrite L1. apply resolve_elem in Hs as (Hin & _). destruct (by_pk (db_stagings db) (stg_pk s)) eqn:E; [done|].
    exfalso. unfold by_pk in E. rewrite find_elem_None in E. specialize (E s Hin). simpl in E.
    by rewrite Z.eqb_refl in E. }
  erewrite bind_run by (eapply save_eq; exact Hs0).
  unfold mbind, M_bind. rewrite audit_eq. cbn. unfold consumed, import_row_of. by rewrite <- L1, <- L2.
Qed.
Lemma commit_staged_refused token user files i now db :
  (∀ tok s t db1 rp, token = Some tok → resolve_staged tok (usr_pk user) db = Some s →
     stg_term s = Some (term_pk t) → by_pk (db_terms db) (term_pk t) = Some t → term_status t = T_DRAFT →
     load (stg_stored_path s) files (term_pk t) false i db ≠ (inr rp, db1)) →
  (∃ e, commit_tx token user files i now db = (inr (inl e), db)) ∨
  (∃ e db', commit_tx token user files i now db = (inl e, db')).
Proof.
  intros Hno. unfold commit_staged. erewrite bind_run by reflexivity.
  destruct token as [tok|]; cbn [mbind option_bind]; [|left; by eexists].
  destruct (resolve_staged tok _ db) as [s|] eqn:Hs; [|left; by eexists].
  destruct (stg_term s) as [k|] eqn:Ht; [|left; by eexists].
  destruct (by_pk (db_terms db) k) as [t|] eqn:Hget.
  2: { right. eexists _, db. apply bind_fail, get_pk_none. exact Hget. }
  erewrite bind_run by (apply get_pk_eq; exact Hget).
  destruct (bool_decide (term_status t = T_DRAFT)) eqn:Hd; cbn [negb]; [|left; by eexists]. b2p. cbv zeta.
  apply by_pk_elem in Hget as Hpk. destruct Hpk as [_ Hpk]. change (term_pk t = k) in Hpk. subst k.
  erewrite bind_run by reflexivity.
  destruct (load (stg_stored_path s) files (term_pk t) false i db) as [[e|rp] db1] eqn:Hload.
  - right. exists e, db1. by apply bind_fail.
  - by destruct (Hno tok s t db1 rp eq_refl Hs Ht Hget Hd).
Qed.
Lemma as_ifo_run user view w : may_manage user = true → as_ifo user view w = view w.
Proof.
  unfold may_manage, as_ifo. rewrite orb_true_iff, bd_true. intros [H| ->]; [|by rewrite andb_false_r].
  by rewrite bool_decide_false by (intros Hn; done).
Qed.
Lemma commit_done sid user i now w s t db1 :
  may_manage user = true → committable_by (sheet_loads i w) sid user w s t db1 →
  commit sid user i now w =
    (inr (Page (PyStr.str (classes_of (term_pk t) db1 - classes_of (term_pk t) (w_db w)))),
     committed sid user now w s t db1).
Proof.
  intros Hmay [Hs Ht Hget Hdraft [rp Hload]]. unfold import_commit. rewrite as_ifo_run by done.
  unfold staged_for in Hs. destruct (w_tokens w !! sid) as [tok|] eqn:Htok; [|done]. cbn [mbind option_bind] in Hs.
  unfold atomic. by rewrite (commit_staged_eq tok user (w_files w) i now (w_db w) s t db1 rp Hs Ht Hget Hdraft Hload).
Qed.
Lemma commit_refused sid user i now w :
  may_manage user = true → (∀ s t db1, ¬ committable_by (sheet_loads i w) sid user w s t db1) →
  ∃ e, commit sid user i now w = (inr (BadRequest e), w).
Proof.
  intros Hmay Hno. unfold import_commit. rewrite as_ifo_run by done.
  destruct (commit_staged_refused (w_tokens w !! sid) user (w_files w) i now (w_db w)) as [[e He]|(e & db' & He)].
  - intros tok s t db1 rp Htok Hs Ht Hget Hd Hload. apply (Hno s t db1). split; try done; [|by exists rp].
    unfold staged_for. by rewrite Htok.
  - unfold atomic. rewrite He. eexists. by destruct w.
  - unfold atomic. rewrite He. eexists. by destruct w.
Qed.
(** C32: a commit is all or nothing.  It succeeds exactly when the session's upload is the
    user's own and not used yet, its term still a draft, and its file is read and all its
    rows run into that term; then the database is what that run leaves, with the upload
    used and one row of the log that says how many classes the term gained, the stored
    file and the token are gone, and every row of the file has its class in the staged
    term (where the e-mail column of the file is never equal to the empty text under the
    collation).  Otherwise it names a reason and the world is exactly as it was.  The keys
    of the terms are distinct and positive, as the database gives them. *)
Theorem import_commit_exact sid user i now w :
  may_manage user = true → pk_unique (db_terms (w_db w)) → (∀ t, t ∈ db_terms (w_db w) → 0 < term_pk t) →
  (∀ s t db1, committable sid user i w s t db1 →
     commit sid user i now w =
       (inr (Page (PyStr.str (classes_of (term_pk t) db1 - classes_of (term_pk t) (w_db w)))),
        committed sid user now w s t db1) ∧
     ∀ header data, file_rows (stg_stored_path s) (w_files w) (header :: data) →
       (∀ row, row ∈ data → told_apart ci (row_cell row (header_cols header) "Email")) →
       ∀ row, row ∈ data →
         row_known ci slugify t (header_cols header) whole_file row (w_db (committed sid user now w s t db1))) ∧
  ((∀ s t db1, ¬ committable sid user i w s t db1) → ∃ e, commit sid user i now w = (inr (BadRequest e), w)).
Proof.
  intros Hmay Hu Hpos. split.
  - intros s t db1 Hc. split; [by apply commit_done, committable_sheet|]. destruct Hc as [_ _ _ _ Hl].
    intros header data Hf Hci row Hrow. exact (loads_known _ _ _ _ _ _ _ _ Hl Hf Hci row Hrow).
  - intros Hno. apply commit_refused; [done|]. intros s t db1 Hc%committable_sheet; [|done..]. by eapply Hno.
Qed.
(** ** Every upload is loaded at most once *)
Context (Havail : ∀ name files, files !! available name files = None).
Definition live (s : ImportStaging) : bool := is_none (stg_consumed_at s).
Definition live_paths (db : DB) : list string := stg_stored_path <$> select live (db_stagings db).
(** The uploads the log says were loaded. *)
Definition is_import (a : AuditLog) : bool := bool_decide (log_event a = "schedule.imported"%string).
Definition imported (db : DB) : list string := log_target_id <$> select is_import (db_audit db).
Record staging_ok (w : World) : Prop := {
  so_pk : pk_unique (db_stagings (w_db w));
  so_token : NoDup (stg_token <$> db_stagings (w_db w));
  so_paths : NoDup (live_paths (w_db w));
  so_files : ∀ p, p ∈ live_paths (w_db w) → is_Some (w_files w !! p);
  so_once : NoDup (imported (w_db w));
  so_done : ∀ t, t ∈ imported (w_db w) →
    ∃ s, s ∈ db_stagings (w_db w) ∧ live s = false ∧ t = PyStr.str (stg_pk s)
}.
Lemma elem_of_live_paths p db : p ∈ live_paths db ↔ ∃ s, s ∈ db_stagings db ∧ live s = true ∧ stg_stored_path s = p.
Proof. unfold live_paths. rewrite list_elem_of_fmap. setoid_rewrite elem_of_select. naive_solver. Qed.

Lemma staging_ok_tokens m w : staging_ok w → staging_ok (w <| w_tokens := m |>).
Proof. intros []. by split. Qed.
Lemma key_inj {A B} (f : A → B) l x y : NoDup (f <$> l) → x ∈ l → y ∈ l → f x = f y → x = y.
Proof.
  induction l as [|z l IH]; [by intros _ ?%not_elem_of_nil|]. rewrite fmap_cons, NoDup_cons. intros [Hz Hnd].
  rewrite !elem_of_cons. intros [->|Hx] [->|Hy] Heq; [done| | |by apply IH]; exfalso; apply Hz; apply list_elem_of_fmap; eauto.
Qed.
(** Two uploads that wait do not share a file. *)
Lemma live_path_inj db s s' :
  NoDup (live_paths db) → s ∈ db_stagings db → s' ∈ db_stagings db → live s = true → live s' = true →
  stg_stored_path s = stg_stored_path s' → s = s'.
Proof.
  intros Hnd Hs Hs' Hl Hl' Hp.
  apply (key_inj stg_stored_path (select live (db_stagings db))); [exact Hnd|by apply elem_of_select..|done].
Qed.
Lemma discard_ok s w : staging_ok w → s ∈ db_stagings (w_db w) → live s = true → staging_ok (discard_staged s w).
Proof.
  intros [] Hs Hl. unfold discard_staged, delete_file, exec, delete_row, write. simpl.
  split; simpl.
  - by apply NoDup_fmap_select.
  - by apply NoDup_fmap_select.
  - unfold live_paths, delete_pk in *. simpl. rewrite select_select.
    rewrite (select_ext _ (λ x, live x && negb (pk x =? stg_pk s))) by (intros x _; apply andb_comm).
    rewrite <- select_select. by apply NoDup_fmap_select.
  - intros p (x & [Hx Hne]%elem_of_select & Hlx & <-)%elem_of_live_paths. simpl in *. b2p.
    rewrite lookup_delete_ne.
    + apply so_files0, elem_of_live_paths. by exists x.
    + intros Hp. apply Hne. change (stg_pk x = stg_pk s). f_equal. by apply (live_path_inj (w_db w)).
  - done.
  - intros t Ht. destruct (so_done0 t Ht) as (x & Hx & Hlx & ->). exists x. split_and!; try done.
    apply elem_of_select. split; [done|]. apply negb_true_iff, Z.eqb_neq. intros Heq.
    assert (x = s) as -> by (by apply (pk_inj (db_stagings (w_db w)))). congruence.
Qed.
Lemma discards_ok rows w :
  staging_ok w → NoDup (stg_pk <$> rows) → (∀ s, s ∈ rows → s ∈ db_stagings (w_db w) ∧ live s = true) →
  staging_ok (foldl (λ w s, discard_staged s w) w rows).
Proof.
  revert w. induction rows as [|s rows IH]; intros w Hok Hnd Hrows; [done|]. cbn [foldl].
  rewrite fmap_cons, NoDup_cons in Hnd. destruct Hnd as [Hs Hnd].
  destruct (Hrows s ltac:(by left)) as [Hin Hl]. apply IH; [by apply discard_ok|done|].
  intros x Hx. destruct (Hrows x ltac:(by right)) as [Hxin Hxl]. split; [|done].
  apply elem_of_select. split; [done|]. apply negb_true_iff, Z.eqb_neq. intros Heq.
  apply Hs, list_elem_of_fmap. exists x. by split.
Qed.
Lemma sweep_ok now w : staging_ok w → staging_ok (sweep_abandoned now w).2.
Proof.
  intros Hok. unfold sweep_abandoned. cbn [snd]. apply discards_ok; [done| |].
  - apply NoDup_fmap_select. apply Hok.
  - intros s [Hs Ha]%elem_of_select. split; [done|]. unfold abandoned in Ha. by apply andb_true_iff in Ha as [? _].
Qed.
Lemma staged_for_live sid user w s : staged_for sid user w = Some s → s ∈ db_stagings (w_db w) ∧ live s = true.
Proof.
  unfold staged_for. destruct (w_tokens w !! sid) as [tok|]; [|done]. intros (Hin & _ & _ & Hc)%resolve_elem.
  split; [done|]. unfold live. by rewrite Hc.
Qed.
Lemma stage_upload_ok u user term token now w :
  staging_ok w →
  let '(r, w') := stage_upload available u user term token now w in
  staging_ok w' ∧ match r with inr s => s ∈ db_stagings (w_db w') ∧ live s = true | inl _ => True end.
Proof.
  intros Hok. unfold stage_upload. destruct term as [t|]; [|done]. destruct (upload_error u); [done|]. cbv zeta.
  set (path := available _ _). pose proof (Havail (STAGING_PREFIX +:+ token +:+ extension (up_name u)) (w_files w)) as Hfree.
  fold path in Hfree. destruct Hok.
  assert (∀ p, p ∈ live_paths (w_db w) → is_Some (<[path := up_bytes u]> (w_files w) !! p)) as Hfiles.
  { intros p Hp. destruct (so_files0 p Hp) as [b Hb]. rewrite lookup_insert_ne; [by exists b|]. intros <-. congruence. }
  unfold create_unique. cbn [w_db upd setter].
  destruct (existsb _ _) eqn:Ec; [split; [by split|done]|]. unfold create. cbn.
  set (new := {| stg_pk := _ |}). rewrite existsb_elem_false in Ec.
  split; [split; cbn [w_db w_files upd setter db_stagings db_audit live_paths]|].
  - by apply pk_unique_insert.
  - apply column_insert; [done|]. intros x Hx Heq. specialize (Ec x Hx). unfold staging_clash in Ec. b2p.
    by apply Ec.
  - unfold live_paths. cbn. rewrite select_app, fmap_app. cbn. apply NoDup_app. split; [done|].
    split; [|apply NoDup_singleton]. intros p Hp ->%list_elem_of_singleton.
    destruct (so_files0 path Hp) as [b Hb]. congruence.
  - unfold live_paths. cbn. rewrite select_app, fmap_app. intros p [Hp|Hp]%elem_of_app; [by apply Hfiles|].
    apply list_elem_of_singleton in Hp as ->. rewrite lookup_insert_eq. by eexists.
  - done.
  - intros p Hp. destruct (so_done0 p Hp) as (x & Hx & Hl & ->). exists x. split_and!; try done. apply elem_of_app. by left.
  - split; [|done]. apply elem_of_app. right. by left.
Qed.
Lemma live_consumed now s l :
  select live (consumed now s l) = select (λ x, live x && negb (pk x =? pk s)) l.
Proof.
  unfold consumed, update_pk, update_where. induction l as [|x l IH]; [done|]. rewrite fmap_cons, !select_cons, IH.
  change (pk s) with (stg_pk s). by destruct (pk x =? stg_pk s); [rewrite andb_false_r|rewrite andb_true_r].
Qed.
Lemma committed_ok sid user i now w s t db1 :
  staging_ok w → committable_by (sheet_loads i w) sid user w s t db1 → staging_ok (committed sid user now w s t db1).
Proof.
  intros [] [Hs _ _ _ _]. apply staged_for_live in Hs as [Hin Hl].
  set (db2 := w_db (committed sid user now w s t db1)).
  assert (db_stagings db2 = consumed now s (db_stagings (w_db w))) as Est by done.
  assert (imported db2 = imported (w_db w) ++ [PyStr.str (stg_pk s)]) as Eimp.
  { unfold imported, db2, committed. cbn [w_db db_audit upd setter]. by rewrite select_app, fmap_app. }
  assert (∀ x, x ∈ db_stagings (w_db w) → live x = false → x ∈ db_stagings db2) as Hold.
  { intros x Hx Hlx. rewrite Est. apply elem_of_update_where. exists x. split; [done|].
    change (pk x =? stg_pk s) with (stg_pk x =? stg_pk s). destruct (Z.eqb_spec (stg_pk x) (stg_pk s)); [|done].
    assert (x = s) as -> by (by apply (pk_inj (db_stagings (w_db w)))). congruence. }
  split; fold db2.
  - rewrite Est. by apply (pk_unique_update _ (λ x, x <| stg_consumed_at := Some now |>)).
  - rewrite Est. unfold consumed. rewrite column_same; [done|]. by intros x.
  - unfold live_paths in *. rewrite Est, live_consumed, <- (select_select (λ x, negb (pk x =? pk s)) live).
    by apply NoDup_fmap_select.
  - unfold live_paths. rewrite Est, live_consumed. intros p (x & -> & [Hx Hb]%elem_of_select)%list_elem_of_fmap.
    apply andb_true_iff in Hb as [Hlx Hne]. b2p. unfold committed. cbn [w_files]. rewrite lookup_delete_ne.
    + apply so_files0, elem_of_live_paths. by exists x.
    + intros Hp. apply Hne. f_equal. by apply (live_path_inj (w_db w)).
  - rewrite Eimp. apply NoDup_app. split; [done|]. split; [|apply NoDup_singleton].
    intros p Hp ->%list_elem_of_singleton. destruct (so_done0 _ Hp) as (x & Hx & Hlx & Heq).
    apply (inj pretty) in Heq. assert (s = x) as -> by (by apply (pk_inj (db_stagings (w_db w)))). congruence.
  - rewrite Eimp. intros p [Hp| ->%list_elem_of_singleton]%elem_of_app.
    + destruct (so_done0 p Hp) as (x & Hx & Hlx & ->). exists x. split_and!; auto.
    + exists (s <| stg_consumed_at := Some now |>). split_and!; [|done|done]. rewrite Est.
      apply elem_of_update_where. exists s. split; [done|]. change (pk s) with (stg_pk s). by rewrite Z.eqb_refl.
Qed.
Lemma committable_or sid user i w :
  (∃ s t db1, committable_by (sheet_loads i w) sid user w s t db1) ∨ (∀ s t db1, ¬ committable_by (sheet_loads i w) sid user w s t db1).
Proof.
  destruct (staged_for sid user w) as [s|] eqn:Hs; [|right; intros s t db1 []; congruence].
  destruct (stg_term s) as [k|] eqn:Ht; [|right; intros s' t db1 []; congruence].
  destruct (by_pk (db_terms (w_db w)) k) as [t|] eqn:Hget; [|right; intros s' t db1 []; congruence].
  apply by_pk_elem in Hget as Hpk. destruct Hpk as [_ Hpk]. change (term_pk t = k) in Hpk. subst k.
  destruct (decide (term_status t = T_DRAFT)) as [Hd|Hd].
  2: { right. intros s' t' db1 []. assert (s' = s) as -> by congruence.
       assert (term_pk t' = term_pk t) as Heq by congruence. rewrite Heq in *. congruence. }
  destruct (load (stg_stored_path s) (w_files w) (term_pk t) false i (w_db w)) as [[e|rp] db1] eqn:Hload.
  - right. intros s' t' db1' [H1 H2 H3 H4 [rp H5]]. assert (s' = s) as -> by congruence.
    assert (term_pk t' = term_pk t) as Heq by congruence. rewrite Heq in *. congruence.
  - left. exists s, t, db1. split; try done. by exists rp.
Qed.

Notation handle := (staging_handle available ci slugify tokens draws repr exn_str parse).
(** One request of the import pages, by anyone in any session. *)
Definition staging_step (w w' : World) : Prop := ∃ sid user r, w' = (handle sid user r w).2.
Lemma as_ifo_ok user view w :
  staging_ok w → (may_manage user = true → staging_ok (view w).2) → staging_ok (as_ifo user view w).2.
Proof.
  intros Hok Hv. destruct (may_manage user) eqn:E; [by rewrite as_ifo_run; auto|].
  unfold may_manage in E. apply orb_false_iff in E as [E1 E2]. unfold as_ifo. rewrite E2.
  rewrite bool_decide_true; [done|]. intros Hn. by rewrite bool_decide_true in E1.
Qed.
Lemma staging_step_ok w w' : staging_step w w' → staging_ok w → staging_ok w'.
Proof.
  intros (sid & user & r & ->) Hok. destruct r as [i now|file q token i now|i now|]; cbn [staging_handle].
  - apply as_ifo_ok; [done|intros _]. pose proof (sweep_ok now w Hok) as Hok1. set (w1 := (sweep_abandoned now w).2) in *.
    cbv zeta. destruct (staged_for sid user w1) as [s|] eqn:Hs; [|done].
    destruct (stg_term s) as [k|].
    + pose proof (import_report_keeps (stg_stored_path s) k i w1) as Hr.
      destruct (import_report _ _ _ _ _ _ _ _ _ _) as [rp w2]. cbn in *. by subst w2.
    + cbn. apply staging_ok_tokens. apply staged_for_live in Hs as []. by apply discard_ok.
  - apply as_ifo_ok; [done|intros _]. destruct file as [u|]; [|done].
    destruct (draft_term_from_post q (w_db w)) as [t|]; [|done]. cbv zeta.
    set (w1 := match staged_for sid user w with Some _ => _ | None => _ end).
    assert (staging_ok w1) as Hok1.
    { unfold w1. destruct (staged_for sid user w) as [s|] eqn:Hs; [|done]. apply staging_ok_tokens.
      apply staged_for_live in Hs as []. by apply discard_ok. }
    pose proof (stage_upload_ok u (usr_pk user) (Some t) token now w1 Hok1) as Hup.
    destruct (stage_upload _ _ _ _ _ _ _) as [[e|s] w2]; destruct Hup as [Hok2 Hin]; [by destruct e|].
    pose proof (import_report_keeps (stg_stored_path s) (term_pk t) i w2) as Hr.
    destruct (import_report _ _ _ _ _ _ _ _ _ _) as [[e|rp] w3]; cbn in *; subst w3.
    + destruct Hin. by apply discard_ok.
    + by apply staging_ok_tokens.
  - destruct (may_manage user) eqn:Hmay; [|apply as_ifo_ok; [done|congruence]].
    destruct (committable_or sid user i w) as [(s & t & db1 & Hc)|Hno].
    + rewrite (commit_done _ _ _ _ _ _ _ _ Hmay Hc). by eapply committed_ok.
    + by destruct (commit_refused sid user i now w Hmay Hno) as [e ->].
  - apply as_ifo_ok; [done|intros _]. cbv zeta. cbn [snd]. apply staging_ok_tokens.
    destruct (staged_for sid user w) as [s|] eqn:Hs; [|done]. apply staged_for_live in Hs as []. by apply discard_ok.
Qed.


(** C33: whatever the officers upload, preview, commit and discard, in whatever order and
    sessions, no upload is loaded twice: the log never names an upload twice, and an
    upload it names is used and kept.  Tokens stay unique, and every upload that waits
    has a stored file of its own. *)
Theorem uploads_loaded_once w w' : rtc staging_step w w' → staging_ok w → staging_ok w'.
Proof. induction 1 as [w|w1 w2 w3 H _ IH]; [done|]. intros Hok. by eapply IH, staging_step_ok. Qed.
End facts.

(** ** The writes of the import pages *)
(** An upload keeps everything but its use. *)
#[global] Instance kept_ImportStaging : Kept ImportStaging.
Proof.
  refine {| kept := λ s, (stg_pk s, stg_token s, stg_user s, stg_term s, stg_original_name s, stg_stored_path s,
                           stg_size s, stg_created_at s); unique := λ _, True |}; [by intros r r' [= ?]|done].
Defined.
Section writes.
Context (rel : DB → DB → Prop) `{!PreOrder rel, !Allows rel AuditLog, !Allows rel User, !Allows rel Room,
  !Allows rel Floor, !Allows rel Building, !Allows rel Schedule, !Allows rel ImportStaging,
  !AllowsDelete rel ImportStaging}.
Context (available : string → gmap string string → string).
Context (ci slugify : string → string) (tokens : nat → string) (draws : nat → Z) (repr : string → string).
Context (exn_str : exn → string) (parse : string → string → exn + list (list string)).

Lemma allowed_discard s w : rel (w_db w) (w_db (discard_staged s w)).
Proof using All. exact (allowed_delete_row rel (stg_pk s) (w_db w)). Qed.
Lemma allowed_discards rows w : rel (w_db w) (w_db (foldl (λ w s, discard_staged s w) w rows)).
Proof using All.
  revert w. induction rows as [|s rows IH]; intros w; [reflexivity|]. cbn [foldl].
  etransitivity; [apply allowed_discard|apply IH].
Qed.
Lemma allowed_stage u user term token now w : rel (w_db w) (w_db (stage_upload available u user term token now w).2).
Proof using All.
  unfold stage_upload. destruct term as [t|]; [|reflexivity]. destruct (upload_error u); [reflexivity|]. cbv zeta.
  match goal with |- context [create_unique ?c ?mk (w_db ?w1)] =>
    assert (respects rel (create_unique c mk)) as H by allowed; specialize (H (w_db w1));
    unfold exec in H; destruct (create_unique c mk (w_db w1)) as [r db] end. exact H.
Qed.
Lemma allowed_audit_import actor event ttype tid payload : respects rel (audit actor event ttype tid payload).
Proof using All. unfold audit. allowed. Qed.
Lemma allowed_commit token user files i now :
  respects rel (commit_staged ci slugify tokens draws repr parse token user files i now).
Proof using All.
  unfold commit_staged. apply respects_bind; [exact _|apply respects_read; exact _|intros [s|]]; [|apply respects_ret; exact _].
  destruct (stg_term s) as [k|]; [|apply respects_ret; exact _].
  apply respects_bind; [exact _|unfold get_pk; allowed|intros t]. destruct (negb _); [apply respects_ret; exact _|]. cbv zeta.
  apply respects_bind; [exact _|apply respects_read; exact _|intros before].
  apply respects_bind; [exact _|apply load_keeps; exact _|intros rp].
  apply respects_bind; [exact _|apply respects_read; exact _|intros after].
  apply respects_bind; [exact _|unfold consume_staged; allowed|intros _].
  apply respects_bind; [exact _|apply allowed_audit_import|intros; apply respects_ret; exact _].
Qed.
Lemma as_ifo_rel user view w : rel (w_db w) (w_db (view w).2) → rel (w_db w) (w_db (as_ifo user view w).2).
Proof using PreOrder0. intros H. unfold as_ifo. by destruct (_ && _). Qed.
Lemma allowed_staging sid user r w :
  rel (w_db w) (w_db (staging_handle available ci slugify tokens draws repr exn_str parse sid user r w).2).
Proof using All.
  destruct r as [i now|file q token i now|i now|]; cbn [staging_handle]; apply as_ifo_rel.
  - etransitivity; [apply (allowed_discards (select (abandoned now) (db_stagings (w_db w))))|]. cbv zeta.
    change (foldl _ w _) with (sweep_abandoned now w).2. set (w1 := (sweep_abandoned now w).2).
    destruct (staged_for sid user w1) as [s|]; [|reflexivity]. destruct (stg_term s) as [k|]; [|apply allowed_discard].
    pose proof (import_report_keeps ci slugify tokens draws repr parse (stg_stored_path s) k i w1) as Hr.
    destruct (import_report _ _ _ _ _ _ _ _ _ _) as [rp w2]. cbn in *. by subst w2.
  - destruct file as [u|]; [|reflexivity]. destruct (draft_term_from_post q (w_db w)) as [t|]; [|reflexivity]. cbv zeta.
    set (w1 := match staged_for sid user w with Some _ => _ | None => _ end).
    assert (rel (w_db w) (w_db w1)) as H1.
    { unfold w1. destruct (staged_for sid user w) as [s|]; [apply allowed_discard|reflexivity]. }
    etransitivity; [exact H1|].
    pose proof (allowed_stage u (usr_pk user) (Some t) token now w1) as H2.
    destruct (stage_upload _ _ _ _ _ _ _) as [[e|s] w2]; [by destruct e|]. etransitivity; [exact H2|].
    pose proof (import_report_keeps ci slugify tokens draws repr parse (stg_stored_path s) (term_pk t) i w2) as Hr.
    destruct (import_report _ _ _ _ _ _ _ _ _ _) as [[e|rp] w3]; cbn in *; subst w3; [apply allowed_discard|reflexivity].
  - assert (respects rel (atomic (commit_staged ci slugify tokens draws repr parse (w_tokens w !! sid) user (w_files w) i now)))
      as H by (apply respects_atomic; [exact _|apply allowed_commit]). specialize (H (w_db w)). unfold exec in H.
    destruct (atomic _ _) as [r db]. cbn in H. destruct r as [e|[e|[s n]]]; exact H.
  - destruct (staged_for sid user w) as [s|]; [apply allowed_discard|reflexivity].
Qed.
End writes.

(** ** Witness: a sheet uploaded for the draft term, previewed, and committed twice *)
Definition demo_available (name : string) (files : gmap string string) : string := fresh_string name files.
Lemma demo_available_free name files : files !! demo_available name files = None.
Proof. apply fresh_string_fresh. Qed.
Definition demo_parse (path bytes : string) : exn + list (list string) := inr (demo_header :: demo_sheet).
Definition demo_handle : Z → User → staging_request → World → (exn + response) * World :=
  staging_handle demo_available PyStr.lower PyStr.lower (λ i, PyStr.str (Z.of_nat i)) (λ i, Z.of_nat i + 5) id
    (λ _, ""%string) demo_parse.
Definition demo_world : World := {| w_db := demo_db; w_files := ∅; w_tokens := ∅ |}.
Definition previewed : World :=
  (demo_handle 1 demo_officer (SPreview (Some {| up_name := "offerings.csv"; up_bytes := "..." |})
     [("term", "2")]%string "token" 0 (at_ 8 0)) demo_world).2.
Definition loaded : World := (demo_handle 1 demo_officer (SCommit 0 (at_ 9 0)) previewed).2.
Definition loaded_again : World := (demo_handle 1 demo_officer (SCommit 7 (at_ 9 0)) loaded).2.
Lemma demo_world_ok : staging_ok demo_world.
Proof. split; try (by constructor); by intros p ?%not_elem_of_nil. Qed.
Lemma uploads_loaded_once_witness :
  staging_ok loaded_again ∧ imported (w_db loaded_again) = ["1"%string] ∧
  length (db_schedules (w_db loaded_again)) = 3%nat ∧ size (w_files loaded_again) = 0%nat.
Proof.
  split; [|split_and!; vm_compute; reflexivity].
  apply (uploads_loaded_once demo_available PyStr.lower PyStr.lower (λ i, PyStr.str (Z.of_nat i))
    (λ i, Z.of_nat i + 5) id (λ _, ""%string) demo_parse demo_available_free demo_world loaded_again);
    [|exact demo_world_ok].
  eapply rtc_l; [|eapply rtc_l; [|eapply rtc_l; [|apply rtc_refl]]]; by eexists _, _, _.
Defined.
Lemma demo_committable : ∃ s db1, committable PyStr.lower PyStr.lower (λ i, PyStr.str (Z.of_nat i))
  (λ i, Z.of_nat i + 5) demo_parse 1 demo_officer 0 previewed s demo_draft db1.
Proof.
  eexists _, _. split; [vm_compute; reflexivity|reflexivity|vm_compute; reflexivity|reflexivity|].
  exists (demo_header :: demo_sheet). split; [eexists; split; vm_compute; reflexivity|].
  eexists. vm_compute. reflexivity.
Qed.
Lemma import_commit_exact_witness : ∃ s db1,
  import_commit PyStr.lower PyStr.lower (λ i, PyStr.str (Z.of_nat i)) (λ i, Z.of_nat i + 5) id (λ _, ""%string)
    demo_parse 1 demo_officer 0 (at_ 9 0) previewed =
  (inr (Page (PyStr.str (classes_of 2 db1 - classes_of 2 (w_db previewed)))),
   committed 1 demo_officer (at_ 9 0) previewed s demo_draft db1) ∧
  ∀ row, row ∈ demo_sheet → row_known PyStr.lower PyStr.lower demo_draft (header_cols demo_header) whole_file row
    (w_db (committed 1 demo_officer (at_ 9 0) previewed s demo_draft db1)).
Proof.
  destruct demo_committable as (s & db1 & Hc). exists s, db1.
  assert (pk_unique (db_terms (w_db previewed))) as Hu by (vm_compute; repeat constructor; set_solver).
  assert (∀ t, t ∈ db_terms (w_db previewed) → 0 < term_pk t) as Hpos.
  { apply Forall_forall. vm_compute. repeat constructor. }
  destruct (proj1 (import_commit_exact PyStr.lower PyStr.lower (λ i, PyStr.str (Z.of_nat i)) (λ i, Z.of_nat i + 5) id
    (λ _, ""%string) demo_parse 1 demo_officer 0 (at_ 9 0) previewed eq_refl Hu Hpos) s demo_draft db1 Hc) as [H1 H2].
  split; [exact H1|]. apply H2; [|exact demo_told_apart].
  destruct Hc as [_ _ _ _ (rows & (bytes & Hb & _) & _)]. exists bytes. split; [exact Hb|reflexivity].
Defined.
