(* ===== verification/System.v ===== *)
(** The services together: what every request keeps of the stored record, whatever
    it is asked and whether it succeeds. *)
From S2P Require Import Prelude Python Model Effects Ops Sample Web Campus ImportOfferings Resolvers OnlineDuty Suspensions Availability Merge Jobs GuardAlerts Scan Checker Materialization ScheduleOps Console TermLifecycle Modality Faculty Dean Boards Push Exports ReportScope WeeklyReports Photos TermPages Operations Commands Xlsx RoomMaster Accounts Frame Worlds Staging.
Open Scope Z_scope.

(** ** The requests of the system *)

(** The pages, jobs and commands of the repository that write the database, with any
    arguments, the code outside the repository included.  Left out are the seeding commands
    (seed_demo, seed_term) and the administration site of the framework, which edits rows
    at will.  The subscriptions to pushes, the departments with the stored reports, and the
    files are kept beside this database: the requests that write only those (subscribe and
    unsubscribe of Push.v) are no steps of it, and those that write both (the outbox, the
    weekly reports, the photos) step with any such other state. *)
Inductive service : ∀ {A : Type}, M A → Prop :=
  | S_resolve dumps user payload now : service (Scan.resolve dumps user payload now)
  | S_confirm loads user token reason now : service (confirm loads user token reason now)
  | S_checker_resolve user payload now : service (checker_resolve user payload now)
  | S_action user a room_id session_id note now :
      service (Checker.action user a room_id session_id note now)
  | S_replay parse_datetime repr user body now : service (replay parse_datetime repr user body now)
  | S_assign_online date : service (assign_online_sessions date)
  | S_suspend term a b reason building by_ : service (suspend_classes term a b reason building by_)
  | S_lift ci k by_ now : service (lift_suspension ci k by_ now)
  | S_update_schedule AV k e actor today : service (@update_schedule AV k e actor today)
  | S_cancel_schedule k actor reason today : service (cancel_schedule k actor reason today)
  | S_materialize term start days allow_draft now :
      service (materialize_term term start days allow_draft now)
  | S_submit AV faculty schedules target a b pref move now :
      service (@submit_modality_shift AV faculty schedules target a b pref move now)
  | S_withdraw k actor : service (withdraw_modality_shift k actor)
  | S_reject k dean reason now : service (reject_modality_shift k dean reason now)
  | S_approve AV k dean now : service (@apply_approval AV k dean now)
  | S_mark_read q now : service (mark_read q now)
  | S_sweep now : service (job_sweep now)
  | S_release user k now : service (session_release user k now)
  | S_book pd pt user q : service (booking_create pd pt user q)
  | S_unbook user k : service (booking_cancel user k)
  | S_reinstate user k q : service (session_reinstate user k q)
  | S_declare pd user q : service (suspension_create pd user q)
  | S_revoke ci user k now : service (suspension_lift ci user k now)
  | S_break pd user q : service (break_create pd user q)
  | S_unbreak user k : service (break_delete user k)
  | S_post pd pt user q floors today : service (assignment_create pd pt user q floors today)
  | S_class_new pt user q today now : service (schedule_new pt user q today now)
  | S_class_edit AV pt user k q today : service (@schedule_edit pt AV user k q today)
  | S_class_drop user k q today : service (schedule_cancel user k q today)
  | S_online_start ok user k q now : service (online_start ok user k q now)
  | S_shift_new AV pd pt user q ids now : service (@modality_new pd pt AV user q ids now)
  | S_shift_withdraw user k : service (modality_withdraw user k)
  | S_dean_approve AV user k now : service (@Dean.approve AV user k now)
  | S_dean_reject user k q now : service (Dean.reject user k q now)
  | S_online_open user sid : service (online_open user sid)
  | S_import ci slugify tokens draws repr o raw rows i :
      service (import_offerings ci slugify tokens draws repr o raw rows i)
  | S_room_master ci tokens draws file dry : service (load_room_master ci tokens draws file dry)
  | S_materialize_command strptime term start days today now :
      service (materialize_sessions strptime term start days today now)
  | S_assign_command strptime days start today : service (assign_online strptime days start today)
  | S_sweep_command now : service (run_status_sweep now)
  | S_watchdog created max_age now : service (check_scheduler created max_age now)
  | S_sign_in ci lib identity : documented lib → service (sign_in ci lib identity)
  | S_link ci valid_email lower_ci username upn : service (link_entra ci valid_email lower_ci username upn)
  | S_mute user q : service (mute_toggle user q)
  | S_notices created limit user now : service (open_rows created limit user now)
  | S_outbox created deliver key_path now s sent : service (outbox_run created deliver key_path now s sent)
  | S_weekly available build_pdf name_le today now w :
      service (world_run (job_weekly_report available build_pdf name_le today now) w)
  | S_weekly_command available build_pdf name_le strptime term week today now w :
      service (world_run (weekly_handle available build_pdf name_le strptime term week today now) w)
  | S_photo {image : Type} `{Pillow image} available removable modified user upload s :
      service (photo_run (image:=image) available removable modified user upload s)
  | S_prune days now : service (prune days now)
  | S_maintenance days now : service (job_maintenance days now)
  | S_materialize_job strptime today now : service (job_materialize strptime today now)
  | S_job repr name (fn : M Z) now : service fn → service (run_job repr name fn now).
(** One request, answered or refused, and any number of them. *)
Inductive step (db : DB) : DB → Prop :=
  | step_service {A} (m : M A) : service m → step db (exec m db)
  | step_calendar actor today now q : step db (exec (handle actor today now q) db)
  | step_term_new parse_date user q : step db (exec (term_create parse_date user q) db)
  | step_term_page user a k q today now : step db (exec (term_action user a k q today now) db)
  | step_campus ci draws user q : step db (exec (campus_handle ci draws user q) db)
  | step_staging available ci slugify tokens draws repr exn_str parse sid user r w : w_db w = db →
      step db (w_db (staging_handle available ci slugify tokens draws repr exn_str parse sid user r w).2).

Lemma service_respects rel `{!PreOrder rel, !AllowsCache rel, !Allows rel AuditLog,
  !Allows rel Notification, !Allows rel Session, !Allows rel Schedule, !Allows rel ClassSuspension,
  !Allows rel ModalityShiftRequest, !Allows rel ModalityShiftItem, !Allows rel RoomConflictFlag,
  !Allows rel JobRun, !Allows rel CheckerValidation, !Allows rel CheckerReplayReceipt, !Allows rel Booking,
  !Allows rel Assignment, !Allows rel AcademicBreak, !AllowsDelete rel AcademicBreak, !Allows rel User,
  !Allows rel Room, !Allows rel Floor, !Allows rel Building, !Allows rel NotificationMute,
  !AllowsDelete rel NotificationMute, !AllowsDelete rel JobRun}
  {A} (m : M A) : service m → respects rel m.
Proof.
  induction 1; [apply allowed_resolve|apply allowed_confirm|apply allowed_checker_resolve|
    apply allowed_action|apply allowed_replay|apply allowed_assign_online|apply allowed_suspend|
    apply allowed_lift|apply allowed_update_schedule|apply allowed_cancel_schedule|
    apply allowed_materialize|apply allowed_submit|apply allowed_withdraw|apply allowed_reject|
    apply allowed_approve|apply allowed_mark_read|apply allowed_job_sweep|apply allowed_session_release|
    apply allowed_booking_create|apply allowed_booking_cancel|apply allowed_reinstate|
    apply allowed_suspension_create|apply allowed_suspension_lift|apply allowed_break_create|
    apply allowed_break_delete|apply allowed_assignment_create|apply allowed_schedule_new|
    apply allowed_schedule_edit|apply allowed_schedule_cancel|apply allowed_online_start|
    apply allowed_modality_new|apply allowed_modality_withdraw|apply allowed_dean_approve|
    apply allowed_dean_reject|apply allowed_online_open|apply allowed_import|
    apply allowed_room_master|apply allowed_materialize_sessions|apply allowed_assign_command|apply allowed_sweep_command|
    apply allowed_check_scheduler|by apply allowed_sign_in|
    apply allowed_link_entra|apply allowed_mute_toggle|apply allowed_open_rows|apply allowed_outbox|
    apply allowed_weekly_job|apply allowed_weekly_command|apply allowed_photo|apply allowed_prune|
    apply allowed_maintenance|apply allowed_job_materialize|by apply allowed_run_job];
    exact _.
Qed.

(** ** What the system keeps *)

(** Keys stay unique in every table, with the constraint of the table beyond them; the
    tables of the record also keep their rows, and accounts theirs; settings stay. *)
Definition table_ok {R} `{!HasPk R, !Kept R} (l : list R) : Prop := pk_unique l ∧ unique l.
Definition tidy {R} `{!HasPk R, !Kept R} (l l' : list R) : Prop := table_ok l → table_ok l'.
#[export] Instance tidy_preorder {R} `{!HasPk R, !Kept R} : PreOrder (tidy (R:=R)).
Proof. split; [by intros l H|]. intros l1 l2 l3 H1 H2 H. by apply H2, H1. Qed.
Lemma grows_tidy {R} `{!HasPk R, !Kept R} (l l' : list R) : grows l l' → tidy l l'.
Proof. intros [_ H]. exact H. Qed.
Record keeps (db db' : DB) : Prop := {
  kp_terms : grows (db_terms db) (db_terms db');
  kp_schedules : grows (db_schedules db) (db_schedules db');
  kp_sessions : grows (db_sessions db) (db_sessions db');
  kp_requests : grows (db_requests db) (db_requests db');
  kp_items : grows (db_items db) (db_items db');
  kp_validations : grows (db_validations db) (db_validations db');
  kp_receipts : grows (db_receipts db) (db_receipts db');
  kp_notifications : grows (db_notifications db) (db_notifications db');
  kp_audit : grows (db_audit db) (db_audit db');
  kp_bookings : grows (db_bookings db) (db_bookings db');
  kp_assignments : grows (db_assignments db) (db_assignments db');
  kp_users : grows (db_users db) (db_users db');
  kp_suspensions : tidy (db_suspensions db) (db_suspensions db');
  kp_breaks : tidy (db_breaks db) (db_breaks db');
  kp_flags : tidy (db_flags db) (db_flags db');
  kp_rooms : tidy (db_rooms db) (db_rooms db');
  kp_floors : tidy (db_floors db) (db_floors db');
  kp_buildings : tidy (db_buildings db) (db_buildings db');
  kp_stagings : tidy (db_stagings db) (db_stagings db');
  kp_jobruns : tidy (db_jobruns db) (db_jobruns db');
  kp_mutes : tidy (db_mutes db) (db_mutes db');
  kp_settings : db_settings db' = db_settings db
}.
#[export] Instance keeps_preorder : PreOrder keeps.
Proof.
  split; [intros db; by split|]. intros db1 db2 db3 [] []. split; solve [etransitivity; eassumption|congruence].
Qed.
#[export] Instance keeps_cache : AllowsCache keeps.
Proof. intros c db. by split. Qed.
Ltac keeps_table := intros l db H; split; first [exact H|exact (grows_tidy _ _ H)|reflexivity].
Lemma tidy_select {R} `{!HasPk R, !Kept R} (p : R → bool) (l : list R) :
  (∀ l' : list R, unique l') → tidy l (select p l).
Proof. intros Hu [Hp _]. split; [by apply NoDup_fmap_select|apply Hu]. Qed.
Ltac keeps_delete := intros p db; split; first [reflexivity|by apply tidy_select].
#[export] Instance keeps_AuditLog : Allows keeps AuditLog. Proof. keeps_table. Qed.
#[export] Instance keeps_Notification : Allows keeps Notification. Proof. keeps_table. Qed.
#[export] Instance keeps_Session : Allows keeps Session. Proof. keeps_table. Qed.
#[export] Instance keeps_Schedule : Allows keeps Schedule. Proof. keeps_table. Qed.
#[export] Instance keeps_ClassSuspension : Allows keeps ClassSuspension. Proof. keeps_table. Qed.
#[export] Instance keeps_Request : Allows keeps ModalityShiftRequest. Proof. keeps_table. Qed.
#[export] Instance keeps_Item : Allows keeps ModalityShiftItem. Proof. keeps_table. Qed.
#[export] Instance keeps_Flag : Allows keeps RoomConflictFlag. Proof. keeps_table. Qed.
#[export] Instance keeps_JobRun : Allows keeps JobRun. Proof. keeps_table. Qed.
#[export] Instance keeps_Validation : Allows keeps CheckerValidation. Proof. keeps_table. Qed.
#[export] Instance keeps_Receipt : Allows keeps CheckerReplayReceipt. Proof. keeps_table. Qed.
#[export] Instance keeps_AcademicTerm : Allows keeps AcademicTerm. Proof. keeps_table. Qed.
#[export] Instance keeps_Booking : Allows keeps Booking. Proof. keeps_table. Qed.
#[export] Instance keeps_Assignment : Allows keeps Assignment. Proof. keeps_table. Qed.
#[export] Instance keeps_Break : Allows keeps AcademicBreak. Proof. keeps_table. Qed.
#[export] Instance keeps_Staging : Allows keeps ImportStaging. Proof. keeps_table. Qed.
#[export] Instance keeps_User : Allows keeps User. Proof. keeps_table. Qed.
#[export] Instance keeps_Room : Allows keeps Room. Proof. keeps_table. Qed.
#[export] Instance keeps_Floor : Allows keeps Floor. Proof. keeps_table. Qed.
#[export] Instance keeps_Building : Allows keeps Building. Proof. keeps_table. Qed.
#[export] Instance keeps_Mute : Allows keeps NotificationMute. Proof. keeps_table. Qed.
#[export] Instance keeps_delete_Mute : AllowsDelete keeps NotificationMute.
Proof.
  intros p db. split; try reflexivity. intros [Hp Hu]. split; by apply NoDup_fmap_select.
Qed.
#[export] Instance keeps_delete_JobRun : AllowsDelete keeps JobRun. Proof. keeps_delete. Qed.
#[export] Instance keeps_delete_Break : AllowsDelete keeps AcademicBreak. Proof. keeps_delete. Qed.
#[export] Instance keeps_delete_Suspension : AllowsDelete keeps ClassSuspension. Proof. keeps_delete. Qed.
#[export] Instance keeps_delete_Flag : AllowsDelete keeps RoomConflictFlag. Proof. keeps_delete. Qed.
#[export] Instance keeps_delete_Staging : AllowsDelete keeps ImportStaging. Proof. keeps_delete. Qed.
#[export] Instance keeps_delete_Room : AllowsDelete keeps Room. Proof. keeps_delete. Qed.
#[export] Instance keeps_delete_Floor : AllowsDelete keeps Floor. Proof. keeps_delete. Qed.
#[export] Instance keeps_delete_Building : AllowsDelete keeps Building. Proof. keeps_delete. Qed.
Lemma step_keeps db db' : step db db' → keeps db db'.
Proof.
  intros [A m Hm|actor today now q|pd user q|user a k q today now|ci draws user q|av ci sl tk dr rp es pa sid user r w <-];
    [by apply (service_respects keeps m)|by apply (allowed_handle keeps)| | |by apply (allowed_campus keeps)|
     by apply (allowed_staging keeps)].
  - destruct (term_create_serves pd user q db) as [->|[r ->]]; [reflexivity|by apply (allowed_handle keeps)].
  - destruct (term_action_serves user a k q today now db) as [->|[r ->]]; [reflexivity|by apply (allowed_handle keeps)].
Qed.

(** The calendar of terms, which only its own requests write. *)
Definition calendar_kept (db db' : DB) : Prop := calendar_ok db → calendar_ok db'.
#[export] Instance calendar_kept_preorder : PreOrder calendar_kept.
Proof. split; [by intros db H|]. intros db1 db2 db3 H1 H2 H; apply H2, H1, H. Qed.
Lemma calendar_same_terms db db' :
  db_terms db' = db_terms db → grows (db_sessions db) (db_sessions db') →
  grows (db_schedules db) (db_schedules db') → calendar_kept db db'.
Proof.
  intros Ht [_ Hs] [_ Hc] [[S1 S2 S3] Hu Hone Hord Hap]. split; rewrite ?Ht; try done.
  destruct (Hs (conj S1 S3)), (Hc (conj S2 I)). by split.
Qed.
#[export] Instance calendar_cache : AllowsCache calendar_kept.
Proof. intros c db. by apply calendar_same_terms. Qed.
Ltac calendar_table := intros l db H; apply calendar_same_terms; first [exact H|reflexivity].
#[export] Instance calendar_AuditLog : Allows calendar_kept AuditLog. Proof. calendar_table. Qed.
#[export] Instance calendar_Notification : Allows calendar_kept Notification. Proof. calendar_table. Qed.
#[export] Instance calendar_Session : Allows calendar_kept Session. Proof. calendar_table. Qed.
#[export] Instance calendar_Schedule : Allows calendar_kept Schedule. Proof. calendar_table. Qed.
#[export] Instance calendar_Suspension : Allows calendar_kept ClassSuspension. Proof. calendar_table. Qed.
#[export] Instance calendar_Request : Allows calendar_kept ModalityShiftRequest. Proof. calendar_table. Qed.
#[export] Instance calendar_Item : Allows calendar_kept ModalityShiftItem. Proof. calendar_table. Qed.
#[export] Instance calendar_Flag : Allows calendar_kept RoomConflictFlag. Proof. calendar_table. Qed.
#[export] Instance calendar_JobRun : Allows calendar_kept JobRun. Proof. calendar_table. Qed.
#[export] Instance calendar_Validation : Allows calendar_kept CheckerValidation. Proof. calendar_table. Qed.
#[export] Instance calendar_Receipt : Allows calendar_kept CheckerReplayReceipt. Proof. calendar_table. Qed.
#[export] Instance calendar_Booking : Allows calendar_kept Booking. Proof. calendar_table. Qed.
#[export] Instance calendar_Assignment : Allows calendar_kept Assignment. Proof. calendar_table. Qed.
#[export] Instance calendar_Break : Allows calendar_kept AcademicBreak. Proof. calendar_table. Qed.
#[export] Instance calendar_Staging : Allows calendar_kept ImportStaging. Proof. calendar_table. Qed.
#[export] Instance calendar_User : Allows calendar_kept User. Proof. calendar_table. Qed.
#[export] Instance calendar_Room : Allows calendar_kept Room. Proof. calendar_table. Qed.
#[export] Instance calendar_Floor : Allows calendar_kept Floor. Proof. calendar_table. Qed.
#[export] Instance calendar_Building : Allows calendar_kept Building. Proof. calendar_table. Qed.
Ltac calendar_delete := intros p db; apply calendar_same_terms; reflexivity.
#[export] Instance calendar_Mute : Allows calendar_kept NotificationMute. Proof. calendar_table. Qed.
#[export] Instance calendar_delete_Mute : AllowsDelete calendar_kept NotificationMute. Proof. calendar_delete. Qed.
#[export] Instance calendar_delete_JobRun : AllowsDelete calendar_kept JobRun. Proof. calendar_delete. Qed.
#[export] Instance calendar_delete_Break : AllowsDelete calendar_kept AcademicBreak. Proof. calendar_delete. Qed.
#[export] Instance calendar_delete_Suspension : AllowsDelete calendar_kept ClassSuspension. Proof. calendar_delete. Qed.
#[export] Instance calendar_delete_Flag : AllowsDelete calendar_kept RoomConflictFlag. Proof. calendar_delete. Qed.
#[export] Instance calendar_delete_Staging : AllowsDelete calendar_kept ImportStaging. Proof. calendar_delete. Qed.
#[export] Instance calendar_delete_Room : AllowsDelete calendar_kept Room. Proof. calendar_delete. Qed.
#[export] Instance calendar_delete_Floor : AllowsDelete calendar_kept Floor. Proof. calendar_delete. Qed.
#[export] Instance calendar_delete_Building : AllowsDelete calendar_kept Building. Proof. calendar_delete. Qed.
Lemma step_calendar_kept db db' : step db db' → calendar_kept db db'.
Proof.
  assert (∀ actor today now q, calendar_kept db (exec (handle actor today now q) db)) as Hcal
    by (intros actor today now q Hc; by apply (calendar_step db); [constructor|]).
  intros [A m Hm|actor today now q|pd user q|user a k q today now|ci draws user q|av ci sl tk dr rp es pa sid user r w <-];
    [by apply (service_respects calendar_kept m)|apply Hcal| | |by apply (allowed_campus calendar_kept)|
     by apply (allowed_staging calendar_kept)].
  - destruct (term_create_serves pd user q db) as [->|[r ->]]; [reflexivity|apply Hcal].
  - destruct (term_action_serves user a k q today now db) as [->|[r ->]]; [reflexivity|apply Hcal].
Qed.

(** ** The well-formed databases *)
Record well_formed (db : DB) : Prop := {
  wf_calendar : calendar_ok db;
  wf_suspensions : table_ok (db_suspensions db);
  wf_sessions : table_ok (db_sessions db);
  wf_requests : table_ok (db_requests db);
  wf_items : table_ok (db_items db);
  wf_validations : table_ok (db_validations db);
  wf_receipts : table_ok (db_receipts db);
  wf_notifications : table_ok (db_notifications db);
  wf_audit : table_ok (db_audit db);
  wf_flags : table_ok (db_flags db);
  wf_jobruns : table_ok (db_jobruns db);
  wf_bookings : table_ok (db_bookings db);
  wf_assignments : table_ok (db_assignments db);
  wf_breaks : table_ok (db_breaks db);
  wf_rooms : table_ok (db_rooms db);
  wf_floors : table_ok (db_floors db);
  wf_buildings : table_ok (db_buildings db);
  wf_users : table_ok (db_users db);
  wf_stagings : table_ok (db_stagings db);
  wf_mutes : table_ok (db_mutes db)
}.

Lemma reachable_keeps db db' : rtc step db db' → keeps db db' ∧ calendar_kept db db'.
Proof.
  induction 1 as [db|db1 db2 db3 H _ [IH1 IH2]]; [by split|].
  split; [etransitivity; [by apply step_keeps|done]|etransitivity; [by apply step_calendar_kept|done]].
Qed.

(** C5: whatever the pages, jobs and commands of the system are asked, in whatever order and
    however they end, a well-formed database stays well-formed: keys are unique in every
    table, a class has at most one session on a date, an offline item at most one receipt,
    a user mutes a category at most once, and the calendar has at most one active term and
    no overlapping ones.  The seeding commands and the edits of the administration site are
    not among the requests, nor the push subscriptions, stored reports and departments among
    the tables. *)
Theorem system_well_formed db db' : rtc step db db' → well_formed db → well_formed db'.
Proof.
  intros [K C]%reachable_keeps []. destruct K.
  split; [by apply C|..]; match goal with
    | H : grows _ ?l |- table_ok ?l => by apply (grows_tidy _ _ H)
    | H : tidy _ ?l |- table_ok ?l => by apply H
    end.
Qed.

(** A row of a table that grows is still there, with its kept columns. *)
Lemma grows_elem {R} `{!HasPk R, !Kept R} (l l' : list R) r :
  grows l l' → r ∈ l → ∃ r', r' ∈ l' ∧ kept r' = kept r.
Proof.
  intros [[k Hk] _] Hr. assert (kept r ∈ kept <$> l') as (r' & ? & ?)%list_elem_of_fmap.
  { rewrite Hk. apply elem_of_app. left. apply list_elem_of_fmap. by exists r. }
  by exists r'.
Qed.
Lemma whole_prefix {A} (l l' : list A) :
  (λ r, r) <$> l `prefix_of` (λ r, r) <$> l' → l `prefix_of` l'.
Proof. by rewrite !list_fmap_id. Qed.

(** C6: the record is never rewritten by the pages, jobs and commands of the system (the
    seeding commands and the administration site, which edits rows at will, left out): the
    audit log, the checkers' validations and the receipts of offline items only get longer,
    their rows unchanged and in order; no session is lost, nor stops being the meeting of
    its class on its date; no class changes term, course, section or weekday; a request
    keeps what it asked; terms keep their names and dates; no booking changes room or time;
    no duty posting changes person, role or date; and no account changes its username, role
    or department, nor is any switched on or off or made a superuser. *)
Theorem record_is_kept db db' :
  rtc step db db' →
  db_audit db `prefix_of` db_audit db' ∧ db_validations db `prefix_of` db_validations db' ∧
  db_receipts db `prefix_of` db_receipts db' ∧
  (∀ s, s ∈ db_sessions db → ∃ s', s' ∈ db_sessions db' ∧ ses_pk s' = ses_pk s ∧
     ses_schedule s' = ses_schedule s ∧ ses_date s' = ses_date s) ∧
  (∀ c, c ∈ db_schedules db → ∃ c', c' ∈ db_schedules db' ∧ sch_pk c' = sch_pk c ∧
     sch_term c' = sch_term c ∧ sch_course_code c' = sch_course_code c ∧
     sch_section c' = sch_section c ∧ sch_day c' = sch_day c) ∧
  (∀ r, r ∈ db_requests db → ∃ r', r' ∈ db_requests db' ∧ req_pk r' = req_pk r ∧
     req_requester r' = req_requester r ∧ req_target r' = req_target r ∧
     req_wstart r' = req_wstart r ∧ req_wend r' = req_wend r) ∧
  (∀ t, t ∈ db_terms db → ∃ t', t' ∈ db_terms db' ∧ term_pk t' = term_pk t ∧
     term_name t' = term_name t ∧ term_start t' = term_start t ∧ term_end t' = term_end t) ∧
  (∀ b, b ∈ db_bookings db → ∃ b', b' ∈ db_bookings db' ∧ bkg_pk b' = bkg_pk b ∧
     bkg_room b' = bkg_room b ∧ bkg_start b' = bkg_start b ∧ bkg_end b' = bkg_end b) ∧
  (∀ a, a ∈ db_assignments db → ∃ a', a' ∈ db_assignments db' ∧ asg_pk a' = asg_pk a ∧
     asg_user a' = asg_user a ∧ asg_role a' = asg_role a ∧ asg_date a' = asg_date a) ∧
  (∀ u, u ∈ db_users db → ∃ u', u' ∈ db_users db' ∧ usr_pk u' = usr_pk u ∧
     usr_username u' = usr_username u ∧ usr_role u' = usr_role u ∧ usr_department u' = usr_department u ∧
     usr_active u' = usr_active u ∧ usr_superuser u' = usr_superuser u).
Proof.
  intros [[] _]%reachable_keeps. split_and!.
  - apply whole_prefix, kp_audit0.
  - apply whole_prefix, kp_validations0.
  - apply whole_prefix, kp_receipts0.
  - intros s Hs. destruct (grows_elem _ _ s kp_sessions0 Hs) as (s' & ? & [= ? ? ?]). by exists s'.
  - intros c Hc. destruct (grows_elem _ _ c kp_schedules0 Hc) as (c' & ? & [= ? ? ? ? ?]). by exists c'.
  - intros r Hr. destruct (grows_elem _ _ r kp_requests0 Hr) as (r' & ? & [= ? ? ? ? ? ? ? ?]). by exists r'.
  - intros t Ht. destruct (grows_elem _ _ t kp_terms0 Ht) as (t' & ? & [= ? ? ? ?]). by exists t'.
  - intros b Hb. destruct (grows_elem _ _ b kp_bookings0 Hb) as (b' & ? & [= ? ? ? ? ? ? ?]). by exists b'.
  - intros a Ha. destruct (grows_elem _ _ a kp_assignments0 Ha) as (a' & ? & [= ? ? ? ? ? ? ? ? ?]).
    by exists a'.
  - intros u Hu. destruct (grows_elem _ _ u kp_users0 Hu) as (u' & ? & [= ? ? ? ? ? ?]). by exists u'.
Qed.

(** ** Witnesses *)

(** The first term is activated, its first class is missed and swept, and the class
    is then dropped; its room is booked and another room put out of service. *)
Definition missed : DB :=
  exec (run_job (λ _, "") "status_sweep" (job_sweep (at_ 23 0)) (at_ 23 0)) opened.
Definition dropped : DB := exec (cancel_schedule 1 (Some 4) "" (monday + 1)) missed.
Definition reused : DB := exec (booking_create demo_dates demo_times demo_officer demo_booking_form) dropped.
Definition shut : DB := exec (campus_handle id (λ _, 0) demo_officer (CToggle "M-102" [])) reused.
Lemma demo_run : rtc step draft_db shut.
Proof.
  eapply rtc_l; [|eapply rtc_l; [|eapply rtc_l; [|eapply rtc_l; [|eapply rtc_l; [|apply rtc_refl]]]]].
  - apply (step_calendar draft_db admin monday (at_ 6 0) (RActivate 1 "AY 2026-2027" [])).
  - apply (step_service opened (run_job (λ _, "") "status_sweep" (job_sweep (at_ 23 0)) (at_ 23 0))).
    apply S_job, S_sweep.
  - apply (step_service missed (cancel_schedule 1 (Some 4) "" (monday + 1))). apply S_cancel_schedule.
  - apply (step_service dropped (booking_create demo_dates demo_times demo_officer demo_booking_form)).
    apply S_book.
  - apply (step_campus reused id (λ _, 0) demo_officer (CToggle "M-102" [])).
Qed.
Lemma demo_well_formed : well_formed draft_db.
Proof. split; [exact demo_calendar|..]; (split; [decide_now|first [exact I|decide_now]]). Qed.
Lemma system_well_formed_witness :
  well_formed shut ∧ ses_status <$> db_sessions shut = [ABSENT; CANCELLED] ∧
  term_status <$> db_terms shut = [T_ACTIVE; T_DRAFT] ∧ length (db_bookings shut) = 1%nat ∧
  room_out_of_service <$> db_rooms shut = [false; true].
Proof.
  split; [|split_and!; vm_compute; reflexivity].
  exact (system_well_formed draft_db shut demo_run demo_well_formed).
Defined.
Lemma record_is_kept_witness :
  db_audit opened `prefix_of` db_audit dropped ∧
  length (db_audit opened) = 1%nat ∧ length (db_audit dropped) = 4%nat.
Proof.
  split; [|split; vm_compute; reflexivity]. apply (record_is_kept opened dropped).
  eapply rtc_l; [|eapply rtc_l; [|apply rtc_refl]].
  - apply (step_service opened (run_job (λ _, "") "status_sweep" (job_sweep (at_ 23 0)) (at_ 23 0))).
    apply S_job, S_sweep.
  - apply (step_service missed (cancel_schedule 1 (Some 4) "" (monday + 1))). apply S_cancel_schedule.
Defined.
